(* ===== verification/_CoqProject ===== *)
-Q . S2P
Prelude.v
Resumption.v
Memory.v
PageTables.v
PagingProps.v
KState.v
Console.v
Runs.v
BootSector.v
ConsoleProps.v
Links.v
Sched.v
Types.v
SchedProps.v
Preserve.v
BlkDev.v
Hd.v
Floppy.v
ElevatorProps.v
HdProps.v
Buffer.v
Kept.v
CacheQueues.v
CacheInv.v
DriverInv.v
CacheProps.v
Super.v
Inode.v
BlockProps.v
Errno.v
Segment.v
Tty.v
Input.v
TtyInv.v
Namei.v
Mount.v
Setup.v
SegmentProps.v
Open.v
ReadWrite.v
PipeProps.v
TtyProps.v
ScreenProps.v
Fork.v
ForkProps.v
Exit.v
Exec.v
CStrings.v
ExecProps.v
StringH.v
StringProps.v
SysCalls.v
SignalProps.v
SystemCall.v
PageFault.v
Traps.v
ClockProps.v
Vsprintf.v
VsprintfProps.v
Diag.v
User.v
UserProps.v
Mktime.v
Main.v
Startup.v
BootProps.v
Malloc.v
Build.v
FsInv.v
KernelInv.v
TypesInv.v
