(* ===== verification/Prelude.v ===== *)
(** * Linux 0.11 in Rocq

    A shallow embedding of the kernel: every routine of the modelled files is a
    function with the control flow, the tests and the state changes of the C (or
    assembly) code, and runs under [vm_compute].

    ** The machine and the effects

    [Resumption] is the monad of kernel code.  A routine takes a fuel and a state and
    ends with a value ([Done]), in [panic] ([Panic]), in [do_exit] ([Die]), in an access
    through NULL or outside an array ([Fault]), or it waits in [schedule] ([Sleep], with
    the rest of the routine as a function of the state it is woken in).  Between a
    [Sleep] and its continuation any other code may run; a theorem about a routine that
    sleeps is stated against a relation that bounds what others do ([sat], [triple]),
    and [pool_step] interleaves any number of tasks.  Interrupts act only there: a
    routine that does not sleep is atomic, as it is in a kernel that is not preempted
    and guards the few shared words with cli; the interrupt table is part of the state,
    and an interrupt runs the routine its vector's gate names.  Loops whose bound the code does not
    show use the fuel; the theorems say how much of it is enough (the number of
    characters of a format, 65 tries for a process id, one more than the bytes to
    copy, 4096 page table entries, 385 rounds of the loader), and [total] or [exists s', ... = Done ...] that the routine comes back.

    [KState] holds the structures of include/linux/sched.h, fs.h and
    kernel/blk_drv/blk.h as records, and the state of the kernel: the physical memory
    ([k_mm]), the tasks, timers, interrupt table and ports ([k_sched]), the buffer cache ([k_cache]),
    the block requests with the two disk drivers ([k_blk]), the inode, file and super-block tables ([k_fs]), the
    terminals with their queues, the keyboard and the console's screen ([k_chr]) and user memory
    ([k_user]).  A pointer into a
    table is an index, NULL is [None]; a field of a C type narrower than int is read
    and written through its wrap-around ([u8], [u16], [u32], [s32]).

    ** The files

    - [Prelude], [Resumption], [Runs], [Links], [CStrings]: integers, arrays, record
      update; the monad with its program logic; the equations that run straight-line
      code (tactic [step]); linked lists through tables; strings in memory.
    - [Memory] is mm/memory.c but share_page and do_no_page, which are [PageFault];
      [PageTables] and [PagingProps]: page tables never lose or invent a reference.
    - [Sched] is kernel/sched.c; [SchedProps]: the choice of the next task, wait queues,
      timers; [ClockProps]: the clock interrupt of [Traps] with the timer functions of
      [Floppy] does not preempt the kernel.  [Preserve]: the rules by which a
      routine keeps an invariant while it sleeps.  [Types]: the declared lengths of the
      tables.  [Kept] is the interface between an invariant and the routines: the class of
      invariants the elementary assignments keep, and what follows for the scheduler,
      the block requests and the cache.
    - [BlkDev] is kernel/blk_drv/ll_rw_blk.c, blk.h and ramdisk.c; [ElevatorProps].  It
      starts a device through the class [Driver]; [Hd] and [Floppy] are hd.c and floppy.c
      and end with the instance [block_drivers].  [DriverInv] shows that they meet
      [DriverKeeps], which is all the rest of the kernel asks of them; [HdProps] relates the
      hard disk driver to the queue it serves.
    - [Buffer] is fs/buffer.c; [CacheQueues], [CacheInv], [CacheProps]: the free list,
      the hash queues and the uniqueness of cached blocks.
    - [Super], [Inode], [Mount] are fs/bitmap.c, inode.c, truncate.c and super.c and the
      disk formats; [BlockProps]: inodes on disk and bitmaps.
    - [Errno], [Namei], [Open], [ReadWrite] are the numbers of the headers, fs/namei.c,
      open.c, fcntl.c, stat.c, ioctl.c, file_dev.c, block_dev.c, char_dev.c, pipe.c and
      read_write.c; [PipeProps]: a pipe is a queue.
    - [Console] is kernel/chr_drv/console.c on the video memory of the adapter;
      [ConsoleProps].  [Tty] is tty_io.c, tty_ioctl.c, the C part of serial.c and
      lib/ctype.c; [TtyInv], [TtyProps], and [ScreenProps] for a terminal and its console
      together.  [Input] is rs_io.s and keyboard.S.
    - [Segment], [Fork], [Exec], [Exit], [SysCalls] are the descriptors of sched.h and
      system.h, kernel/fork.c, fs/exec.c, kernel/exit.c, signal.c and sys.c;
      [SegmentProps], [ForkProps], [ExecProps], [SignalProps].
    - [SystemCall] is the entry of kernel/system_call.s with the table of
      include/linux/sys.h; [Setup] is its first entry, sys_setup of hd.c with the load of
      the ram disk; [Traps] is kernel/traps.c, asm.s, mm/page.s and math_emulate.c, and
      dispatches an interrupt through the table.
    - [BootSector] is boot/bootsect.s, as the calls of the BIOS it makes; [Startup] is
      boot/setup.s and boot/head.s, from the answers of the BIOS to the paging; [Main] is
      init/main.c up to the first sti; [BootProps] runs the last three after each other.
    - [StringH] is include/string.h, instruction by instruction; [StringProps].
    - [Vsprintf] ([VsprintfProps]), [Mktime], [Malloc] are kernel/vsprintf.c,
      kernel/mktime.c and lib/malloc.c; [Diag] is kernel/printk.c and panic.c.
    - [User] is the other side of int 0x80, as interaction trees: the wrappers of
      include/unistd.h and lib/, the macros of sys/wait.h, and init of init/main.c;
      [UserProps] compares its numbers with the kernel's.  [Build] is tools/build.c.
    - [FsInv] and [KernelInv] run any [Kept] invariant through every routine that can
      sleep, up to all system calls, exceptions and interrupts in any interleaving.
      [CacheInv] and [TypesInv] are its two instances, the structure of the buffer
      cache and the types of the tables.

    ** What the theorems show

    - Start: the image is laid out as the boot code reads it ([build_lays_out])
      and loaded sector by sector whatever reads fail ([bootsect_loads]); setup.s, head.s
      and [main] leave a machine with exact page tables in which every component is ready
      ([main_boots]); the first program keeps one child and never ends ([init_supervises]).
    - Memory: allocation and release of pages, sharing at fork, copy on write and the
      release of an address space keep every reference count exact ([PagingProps]);
      [fork] as a whole is all or nothing ([sys_fork_all_or_nothing]) and finds a free
      process id ([find_empty_process_total]); [execve] fails for
      lack of memory or hands the argument strings over through the new page tables, and
      builds their tables ([execve_passes_strings], [create_tables_lays_out]).
    - Concurrency: [schedule] takes the best task, the head of a wait queue is a sleeper
      and all sleepers come out once it is woken ([sleep_on_no_lost_wakeup]), the kernel is
      not preempted ([kernel_not_preempted]), and whatever the interleaving the cache is well-formed
      ([kernel_keeps_cache], [getblk_returns_block]) and the tables have their declared types
      ([kernel_keeps_types]).
    - Files: the replacement of buffers, the elevator from the idle device on, the array
      of inodes on disk, bitmaps, pipes; the
      hard disk driver gives the controller one right command for each request and ends
      each in its turn ([hd_serves_queue]).
    - Terminals: the console never writes beside the screen whatever it is sent
      ([console_stays_on_screen]), on a whole-screen terminal it shows the text of a
      plain terminal ([console_refines_terminal]), and so does what a program or the
      kernel writes ([written_text_appears], [printk_appears]); the queues are lists
      ([tty_queue_refines_list]), a line is edited before it is delivered
      ([copy_to_cooked_edits]) and read as typed ([tty_read_delivers]).
    - Permission and delivery of signals, user ids, descriptors, dates, strings; the
      numbers of formatted output to the character, and that it ends.

    Where the code does something else than it means to, the theorem states what it
    does and the finding is kept with it (for instance [add_timer_inserts],
    [copy_strings_overruns], [bad_header_wraps], [memcmp_of_nothing]).

    ** What is assumed

    A device is what its ports deliver: for each port the state has the stream of the
    values it will still read ([inputs]) and the list of all writes ([out]).  The
    theorems hold for every stream, or say in a hypothesis what the device answers.  The
    transfer of a floppy sector to memory is done by the DMA chip and is not a step of
    the kernel.  The console keeps its ports in order of writing and they are appended to
    the kernel's after each of its routines; its video memory is a map, and an access
    outside it is a [Fault].  User memory is a map of bytes for each task: a page fault in
    the kernel's own access to it is not interleaved with the copy, and [fork] and the
    page-fault handlers do not move bytes between the maps; the map of a new program is
    read from physical memory through the page tables [change_ldt] leaves.  The gates of the interrupt
    table hold the names of the entries.  The contents of a new program's pages ([image]),
    the coprocessor state [fninit] sets, the emulation bit of cr0 ([em]; [cr0_bits] says how
    head.s sets it) and the padding
    of struct stat and struct termio ([pad]) are parameters.
    [sys_fork_all_or_nothing] is about parents whose segment starts at 64 MB or above,
    which is all of them but task 0.

    ** Not modelled

    The message of the boot sector; what the calls of printk in the kernel's routines
    print ([Diag] has printk itself); the messages of the build tool; the headers without
    behaviour.  The boot code is a model of its own: [BootSector] ends with the sectors in
    their places, and [Startup] begins with any memory the BIOS and the loading have left.
    That every address of head.s is where the linker puts it, below 0x5000 what paging
    overwrites, is the hypothesis on the place of [drive_info]. *)
From Stdlib Require Import ZArith Lia String.
From stdpp Require Import base list gmap strings.

#[global] Open Scope Z_scope.

(** ** Machine integers

    The C types of the source are modelled as [Z] together with the wrap-around
    of an assignment to a field of that type. *)

Definition u8 (x : Z) : Z := x mod 256.
Definition u16 (x : Z) : Z := x mod 65536.
Definition u32 (x : Z) : Z := x mod 4294967296.
Definition s8 (x : Z) : Z := (x + 128) mod 256 - 128.
Definition s32 (x : Z) : Z := (x + 2147483648) mod 4294967296 - 2147483648.

(** The truth value C gives an integer. *)
Definition nz (x : Z) : bool := negb (x =? 0).

Definition b2z (b : bool) : Z := if b then 1 else 0.

Lemma u8_range x : 0 <= u8 x < 256.
Proof. apply Z.mod_pos_bound; lia. Qed.

Lemma u16_range x : 0 <= u16 x < 65536.
Proof. apply Z.mod_pos_bound; lia. Qed.

Lemma u32_range x : 0 <= u32 x < 4294967296.
Proof. apply Z.mod_pos_bound; lia. Qed.

Lemma u8_small x : 0 <= x < 256 -> u8 x = x.
Proof. apply Z.mod_small. Qed.

Lemma u16_small x : 0 <= x < 65536 -> u16 x = x.
Proof. apply Z.mod_small. Qed.

Lemma u32_small x : 0 <= x < 4294967296 -> u32 x = x.
Proof. apply Z.mod_small. Qed.

Lemma s32_small x : -2147483648 <= x < 2147483648 -> s32 x = x.
Proof. intros H. unfold s32. rewrite Z.mod_small; lia. Qed.

Lemma s32_range x : -2147483648 <= s32 x < 2147483648.
Proof. unfold s32. pose proof (Z.mod_pos_bound (x + 2147483648) 4294967296). lia. Qed.

Lemma nz_true x : nz x = true <-> x <> 0.
Proof. unfold nz. destruct (Z.eqb_spec x 0); naive_solver. Qed.

Lemma nz_false x : nz x = false <-> x = 0.
Proof. unfold nz. destruct (Z.eqb_spec x 0); naive_solver. Qed.

(** ** Tactics *)

(** Case analysis on an integer comparison of the goal or of a hypothesis,
    leaving the arithmetic fact it decides. *)
Ltac zcmp x y t :=
  lazymatch t with
  | Z.eqb => destruct (Z.eqb_spec x y)
  | Z.ltb => destruct (Z.ltb_spec x y)
  | Z.leb => destruct (Z.leb_spec x y)
  end.

Ltac zcase :=
  match goal with
  | |- context [ Z.eqb ?x ?y ] => zcmp x y Z.eqb
  | |- context [ Z.ltb ?x ?y ] => zcmp x y Z.ltb
  | |- context [ Z.leb ?x ?y ] => zcmp x y Z.leb
  | H : context [ Z.eqb ?x ?y ] |- _ => zcmp x y Z.eqb
  | H : context [ Z.ltb ?x ?y ] |- _ => zcmp x y Z.ltb
  | H : context [ Z.leb ?x ?y ] |- _ => zcmp x y Z.leb
  end; simpl in *; try lia.

(** Turn boolean facts into propositions. *)
Ltac bprop :=
  repeat match goal with
  | H : (_ && _)%bool = true |- _ => apply andb_true_iff in H; destruct H
  | H : (_ || _)%bool = false |- _ => apply orb_false_iff in H; destruct H
  | H : negb _ = true |- _ => apply negb_true_iff in H
  | H : negb _ = false |- _ => apply negb_false_iff in H
  | H : nz _ = true |- _ => apply nz_true in H
  | H : nz _ = false |- _ => apply nz_false in H
  | H : (_ =? _) = true |- _ => apply Z.eqb_eq in H
  | H : (_ =? _) = false |- _ => apply Z.eqb_neq in H
  | H : (_ <? _) = true |- _ => apply Z.ltb_lt in H
  | H : (_ <? _) = false |- _ => apply Z.ltb_ge in H
  | H : (_ <=? _) = true |- _ => apply Z.leb_le in H
  | H : (_ <=? _) = false |- _ => apply Z.leb_gt in H
  end.

(** ** Field update

    [r <| f := v |>] is the C assignment [r.f = v].  A record type opts in by
    giving its eta-expansion as an instance of [Reconstruct]; the setter of each
    projection is then computed by abstracting the projection out of it. *)

Class Reconstruct (R : Type) := reconstruct : R -> R.
Class Update {R T : Type} (f : R -> T) := upd : (T -> T) -> R -> R.
Arguments upd {R T} f {_} _ !_ /.

Ltac solve_update :=
  lazymatch goal with
  | |- @Update ?R ?T ?f =>
      let inst := constr:(_ : Reconstruct R) in
      let e := eval hnf in inst in
      let p := eval pattern f in e in
      lazymatch p with
      | ?body f => exact (fun (h : T -> T) (r : R) => body (fun r' => h (f r')) r)
      end
  end.

#[export] Hint Extern 1 (Update _) => solve_update : typeclass_instances.

Declare Scope record_scope.
Delimit Scope record_scope with rec.
#[global] Open Scope record_scope.
Notation "r <| f := v |>" := (upd f (fun _ => v) r)
  (at level 1, f at next level, v at level 200, left associativity) : record_scope.
Notation "r <| f ::= h |>" := (upd f h r)
  (at level 1, f at next level, h at level 200, left associativity) : record_scope.

(** ** Arrays

    A C array is a list; [arr_get]/[arr_set] index it with a C integer. *)

Section Arrays.
Context {A : Type}.
Implicit Types (l : list A) (i j : Z) (x : A).

Definition arr_get l i : option A := if i <? 0 then None else l !! Z.to_nat i.

Definition arr_set l i x : list A := if i <? 0 then l else <[Z.to_nat i := x]> l.

Lemma arr_get_Some_range l i x : arr_get l i = Some x -> 0 <= i < Z.of_nat (length l).
Proof.
  unfold arr_get. zcase; try done. intros Hl%lookup_lt_Some. lia.
Qed.

Lemma arr_get_Forall (P : A -> Prop) l i x : Forall P l -> arr_get l i = Some x -> P x.
Proof. intros H. unfold arr_get. destruct (i <? 0); [done|]. intros Hx. by apply (Forall_lookup_1 _ _ _ _ H Hx). Qed.

Lemma arr_get_is_Some l i : 0 <= i < Z.of_nat (length l) -> is_Some (arr_get l i).
Proof. intros H. unfold arr_get. zcase. apply lookup_lt_is_Some. lia. Qed.

Lemma arr_set_length l i x : length (arr_set l i x) = length l.
Proof. unfold arr_set. zcase. apply length_insert. Qed.

Lemma arr_get_set_eq l i x :
  0 <= i < Z.of_nat (length l) -> arr_get (arr_set l i x) i = Some x.
Proof.
  intros H. unfold arr_get, arr_set. zcase. apply list_lookup_insert_eq. lia.
Qed.

Lemma arr_get_set_ne l i j x : i <> j -> arr_get (arr_set l i x) j = arr_get l j.
Proof.
  intros H. unfold arr_get, arr_set. repeat zcase; try done.
  apply list_lookup_insert_ne. lia.
Qed.

Lemma arr_get_replicate n i x :
  0 <= i < Z.of_nat n -> arr_get (replicate n x) i = Some x.
Proof. intros H. unfold arr_get. zcase. apply lookup_replicate_2. lia. Qed.
End Arrays.

(** Little-endian 16-bit words inside a byte block. *)
Definition byte_at (d : list Z) (i : Z) : Z := default 0 (arr_get d i).
Definition word_at (d : list Z) (i : Z) : Z := byte_at d i + 256 * byte_at d (i + 1).
Definition long_at (d : list Z) (i : Z) : Z := word_at d i + 65536 * word_at d (i + 2).
Definition set_byte (d : list Z) (i v : Z) : list Z := arr_set d i (u8 v).
Definition set_word (d : list Z) (i v : Z) : list Z :=
  set_byte (set_byte d i v) (i + 1) (Z.shiftr v 8).
Definition set_long (d : list Z) (i v : Z) : list Z :=
  set_word (set_word d i v) (i + 2) (Z.shiftr v 16).

(** The integers [lo, lo+1, ..., lo+n-1], the range of a C [for] loop. *)
Fixpoint zrange (lo : Z) (n : nat) : list Z :=
  match n with
  | O => []
  | S n' => lo :: zrange (lo + 1) n'
  end.

Lemma zrange_elem lo n i : In i (zrange lo n) <-> lo <= i < lo + Z.of_nat n.
Proof.
  revert lo; induction n as [|n IH]; intros lo; simpl; [lia|].
  rewrite IH. lia.
Qed.

Lemma zrange_length lo n : length (zrange lo n) = n.
Proof. revert lo; induction n; intros; simpl; auto. Qed.

Lemma zrange_lookup lo n k : (k < n)%nat -> zrange lo n !! k = Some (lo + Z.of_nat k).
Proof.
  revert lo k; induction n as [|n IH]; intros lo k H; [lia|].
  destruct k as [|k]; simpl; [f_equal; lia|]. rewrite IH by lia. f_equal; lia.
Qed.

Lemma zrange_NoDup lo n : NoDup (zrange lo n).
Proof.
  revert lo; induction n as [|n IH]; intros lo; simpl; constructor; [|apply IH].
  rewrite list_elem_of_In, zrange_elem. lia.
Qed.

Lemma zrange_app lo n m : zrange lo (n + m) = zrange lo n ++ zrange (lo + Z.of_nat n) m.
Proof.
  revert lo; induction n as [|n IH]; intros lo; simpl.
  - f_equal. lia.
  - f_equal. rewrite IH. do 2 f_equal. lia.
Qed.

(** Finite sums over a list of indices. *)
Fixpoint zsum (f : Z -> Z) (l : list Z) : Z :=
  match l with
  | [] => 0
  | x :: l' => f x + zsum f l'
  end.

Lemma zsum_ext f g l : (forall x, In x l -> f x = g x) -> zsum f l = zsum g l.
Proof.
  induction l as [|x l IH]; simpl; intros H; [done|].
  rewrite (H x), IH; auto.
Qed.

Lemma zsum_nonneg f l : (forall x, In x l -> 0 <= f x) -> 0 <= zsum f l.
Proof.
  induction l as [|x l IH]; simpl; intros H; [lia|].
  specialize (H x) as Hx. assert (0 <= zsum f l) by auto. specialize (Hx (or_introl eq_refl)). lia.
Qed.

Lemma zsum_zero f l : (forall x, In x l -> f x = 0) -> zsum f l = 0.
Proof. intros H. rewrite (zsum_ext f (fun _ => 0)) by done. clear H. induction l; simpl; lia. Qed.

Lemma zsum_update f g l x :
  NoDup l -> In x l -> (forall y, In y l -> y <> x -> f y = g y) ->
  zsum g l = zsum f l + (g x - f x).
Proof.
  induction l as [|y l IH]; simpl; intros Hnd Hin H; [done|].
  apply NoDup_cons in Hnd as [Hni Hnd]. destruct Hin as [->|Hin].
  - rewrite (zsum_ext g f l); [lia|]. intros z Hz. symmetry. apply H; [auto|].
    intros ->. apply Hni. by apply list_elem_of_In.
  - rewrite IH by auto. rewrite (H y); [lia|auto|].
    intros ->. apply Hni. by apply list_elem_of_In.
Qed.

Lemma zsum_ge f l x : (forall y, In y l -> 0 <= f y) -> In x l -> f x <= zsum f l.
Proof.
  induction l as [|y l IH]; simpl; intros H Hin; [done|].
  assert (0 <= zsum f l) by (apply zsum_nonneg; auto).
  destruct Hin as [->|Hin]; [lia|]. specialize (H y) as Hy. specialize (IH ltac:(auto) Hin).
  specialize (Hy (or_introl eq_refl)). lia.
Qed.

Lemma zsum_app f l1 l2 : zsum f (l1 ++ l2) = zsum f l1 + zsum f l2.
Proof. induction l1; simpl; lia. Qed.
