(* ===== verification/Resumption.v ===== *)
(** * Kernel computations as resumptions

    Linux 0.11 kernel code is not preempted: another task runs only when the
    current one calls [schedule()].  A kernel routine over a state [S] is therefore
    a function from the state at its start to an [outcome]: it is done, it stops
    the machine ([panic]), it never returns ([do_exit]), it dereferences a wild
    pointer, or it gives up the processor and is resumed later in whatever state
    the other tasks and the interrupt handlers have left behind.

    [M S A] carries a fuel argument, the bound on the iterations of each unbounded
    C loop and on the depth of each recursive knot. *)
From Stdlib Require Import ZArith Lia String.
From stdpp Require Import base list relations.
From S2P Require Import Prelude.

Inductive outcome (S A : Type) : Type :=
| Done (a : A) (s : S)
| Panic (msg : string) (s : S)
| Die (code : Z) (s : S)
| Fault (s : S)
| Sleep (s : S) (k : S -> outcome S A)
| NoFuel.
Arguments Done {S A} _ _.
Arguments Panic {S A} _ _.
Arguments Die {S A} _ _.
Arguments Fault {S A} _.
Arguments Sleep {S A} _ _.
Arguments NoFuel {S A}.

Fixpoint obind {S A B : Type} (o : outcome S A) (f : A -> S -> outcome S B) : outcome S B :=
  match o with
  | Done a s => f a s
  | Panic m s => Panic m s
  | Die c s => Die c s
  | Fault s => Fault s
  | Sleep s k => Sleep s (fun s' => obind (k s') f)
  | NoFuel => NoFuel
  end.

Definition M (S A : Type) : Type := nat -> S -> outcome S A.

Declare Scope kernel_scope.
Delimit Scope kernel_scope with kernel.
#[global] Open Scope kernel_scope.

Section Operations.
Context {S : Type}.

Definition ret {A} (a : A) : M S A := fun _ s => Done a s.
Definition bind {A B} (m : M S A) (f : A -> M S B) : M S B :=
  fun n s => obind (m n s) (fun a s' => f a n s').
Definition get : M S S := fun _ s => Done s s.
Definition gets {A} (f : S -> A) : M S A := fun _ s => Done (f s) s.
Definition modify (f : S -> S) : M S unit := fun _ s => Done tt (f s).
Definition panic {A} (msg : string) : M S A := fun _ s => Panic msg s.
Definition die {A} (code : Z) : M S A := fun _ s => Die code s.
Definition fault {A} : M S A := fun _ s => Fault s.

(** [schedule()] as seen by the task that calls it. *)
Definition yield : M S unit := fun _ s => Sleep s (fun s' => Done tt s').

(** Follow a pointer or index an array; out of bounds is a wild access. *)
Definition deref {A} (f : S -> option A) : M S A :=
  fun _ s => match f s with Some a => Done a s | None => Fault s end.

Definition when (b : bool) (m : M S unit) : M S unit := if b then m else ret tt.
End Operations.

Notation "'let!' x ':=' m 'in' k" := (bind m (fun x => k))
  (at level 100, x name, m at level 99, k at level 200, right associativity,
   format "'let!'  x  ':='  m  'in' '//' k") : kernel_scope.
Notation "'let!' ' x ':=' m 'in' k" := (bind m (fun x => k))
  (at level 100, x strict pattern, m at level 99, k at level 200,
   right associativity) : kernel_scope.
Notation "m1 ;;; m2" := (bind m1 (fun _ => m2))
  (at level 100, m2 at level 200, right associativity,
   format "m1  ;;; '//' m2") : kernel_scope.

(** ** Loops *)

Section Loops.
Context {S : Type}.

Fixpoint iterate {X A} (k : nat) (body : X -> M S (X + A)) (x : X) : M S A :=
  fun n s =>
    match k with
    | O => NoFuel
    | Datatypes.S k' =>
        obind (body x n s) (fun r s' =>
          match r with
          | inl x' => iterate k' body x' n s'
          | inr a => Done a s'
          end)
    end.

(** An unbounded loop ([for (;;)], [while], [goto repeat]) with loop state [X]:
    [inl] goes round again, [inr] leaves. *)
Definition loop {X A} (body : X -> M S (X + A)) (x : X) : M S A :=
  fun n s => iterate n body x n s.

Definition while_ (c : S -> bool) (body : M S unit) : M S unit :=
  loop (fun _ : unit =>
    let! s := get in
    if c s then body ;;; ret (inl tt) else ret (inr tt)) tt.

(** A [for] loop over a known range. *)
Fixpoint for_each {X} (l : list X) (f : X -> M S unit) : M S unit :=
  match l with
  | [] => ret tt
  | x :: l' => f x ;;; for_each l' f
  end.

(** A [for] loop left by [break] or [return] with a value. *)
Fixpoint for_break {X A} (l : list X) (f : X -> M S (option A)) : M S (option A) :=
  match l with
  | [] => ret None
  | x :: l' =>
      let! r := f x in
      match r with Some a => ret (Some a) | None => for_break l' f end
  end.

(** A [for] loop that carries a local variable. *)
Fixpoint for_fold {X A} (l : list X) (a : A) (f : A -> X -> M S A) : M S A :=
  match l with
  | [] => ret a
  | x :: l' => let! a' := f a x in for_fold l' a' f
  end.

(** A [for] loop that carries a local variable and may return: [inl] goes on. *)
Fixpoint for_until {X A B} (l : list X) (a : A) (f : A -> X -> M S (A + B)) : M S (A + B) :=
  match l with
  | [] => ret (inl a)
  | x :: l' =>
      let! r := f a x in
      match r with inl a' => for_until l' a' f | inr b => ret (inr b) end
  end.

Fixpoint unroll {A} (k : nat) (F : M S A -> M S A) : M S A :=
  match k with
  | O => fun _ _ => NoFuel
  | Datatypes.S k' => F (unroll k' F)
  end.

(** The knot of mutually recursive routines. *)
Definition knot {A} (F : M S A -> M S A) : M S A := fun n s => unroll n F n s.
End Loops.

(** ** Running a component on its part of a larger state *)

Fixpoint ozoom {S T A : Type} (put : T -> S -> S) (getp : S -> T)
    (s : S) (o : outcome T A) : outcome S A :=
  match o with
  | Done a t => Done a (put t s)
  | Panic m t => Panic m (put t s)
  | Die c t => Die c (put t s)
  | Fault t => Fault (put t s)
  | Sleep t k => Sleep (put t s) (fun s' => ozoom put getp s' (k (getp s')))
  | NoFuel => NoFuel
  end.

Definition zoom {S T A : Type} (getp : S -> T) (put : T -> S -> S) (m : M T A) : M S A :=
  fun n s => ozoom put getp s (m n (getp s)).

(** Resume a suspended computation with a list of interferences. *)
Fixpoint run_with {S A : Type} (env : list (S -> S)) (o : outcome S A) {struct o} : outcome S A :=
  match o with
  | Sleep s k =>
      match env with
      | [] => Sleep s k
      | e :: env' => run_with env' (k (e s))
      end
  | _ => o
  end.

(** ** Reasoning *)

(** The abnormal ends a specification may tolerate. *)
Inductive abnormal := Apanic | Afault | Afuel | Asleep | Adie.

(** [sat ok inv rely Q o]: started anywhere, [o] ends normally in a state
    satisfying [inv] and [Q], or in a way [ok] tolerates; wherever it gives up
    the processor [inv] holds, and it may be resumed in any [rely]-related state
    in which [inv] holds. *)
Section Logic.
Context {S : Type} (ok : abnormal -> Prop) (inv : S -> Prop) (rely : S -> S -> Prop).

Fixpoint sat {A} (Q : A -> S -> Prop) (o : outcome S A) : Prop :=
  match o with
  | Done a s => inv s /\ Q a s
  | Panic _ _ => ok Apanic
  | Die _ s => ok Adie /\ inv s
  | Fault _ => ok Afault
  | Sleep s k => ok Asleep /\ inv s /\ forall s', rely s s' -> inv s' -> sat Q (k s')
  | NoFuel => ok Afuel
  end.

Definition triple {A} (P : S -> Prop) (m : M S A) (Q : A -> S -> Prop) : Prop :=
  forall n s, inv s -> P s -> sat Q (m n s).

Lemma sat_bind {A B} (Q : A -> S -> Prop) (Q' : B -> S -> Prop) o f :
  sat Q o ->
  (forall a s, inv s -> Q a s -> sat Q' (f a s)) ->
  sat Q' (obind o f).
Proof.
  intros Ho Hf. induction o as [a s|m s|c s|s|s k IH|]; simpl in *; auto.
  - apply Hf; tauto.
  - destruct Ho as (? & ? & Hk). repeat split; auto.
Qed.

Lemma sat_mono {A} (Q Q' : A -> S -> Prop) o :
  sat Q o -> (forall a s, inv s -> Q a s -> Q' a s) -> sat Q' o.
Proof.
  intros Ho HQ. induction o as [a s|m s|c s|s|s k IH|]; simpl in *; auto.
  - destruct Ho; auto.
  - destruct Ho as (? & ? & Hk). repeat split; auto.
Qed.

Lemma triple_bind {A B} P (m : M S A) (f : A -> M S B) Q Q' :
  triple P m Q -> (forall a, triple (Q a) (f a) Q') -> triple P (bind m f) Q'.
Proof.
  intros Hm Hf n s Hi HP. unfold bind. eapply sat_bind; [apply Hm; auto|].
  intros a s' Hi' HQ. apply Hf; auto.
Qed.

Lemma triple_conseq {A} (P P' : S -> Prop) (m : M S A) (Q Q' : A -> S -> Prop) :
  triple P' m Q' ->
  (forall s, inv s -> P s -> P' s) ->
  (forall a s, inv s -> Q' a s -> Q a s) ->
  triple P m Q.
Proof. intros Hm HP HQ n s Hi H. eapply sat_mono; [apply Hm; auto|]. auto. Qed.

Lemma triple_ret {A} (a : A) (P : S -> Prop) (Q : A -> S -> Prop) :
  (forall s, inv s -> P s -> Q a s) -> triple P (ret a) Q.
Proof. intros H n s Hi HP. simpl. auto. Qed.

Lemma triple_get (P : S -> Prop) : triple P get (fun a s => a = s /\ P s).
Proof. intros n s Hi HP. simpl. auto. Qed.

Lemma triple_gets {A} (f : S -> A) (P : S -> Prop) : triple P (gets f) (fun a s => a = f s /\ P s).
Proof. intros n s Hi HP. simpl. auto. Qed.

Lemma triple_modify (f : S -> S) (P : S -> Prop) (Q : unit -> S -> Prop) :
  (forall s, inv s -> P s -> inv (f s) /\ Q tt (f s)) -> triple P (modify f) Q.
Proof. intros H n s Hi HP. simpl. auto. Qed.

Lemma triple_panic {A} msg P (Q : A -> S -> Prop) : ok Apanic -> triple P (panic msg) Q.
Proof. intros H n s Hi HP. simpl. auto. Qed.

Lemma triple_deref {A} (f : S -> option A) P (Q : A -> S -> Prop) :
  ok Afault -> (forall s a, inv s -> P s -> f s = Some a -> Q a s) -> triple P (deref f) Q.
Proof.
  intros Hok H n s Hi HP. unfold deref. destruct (f s) eqn:E; simpl; auto.
Qed.

Lemma triple_deref_safe {A} (f : S -> option A) P (Q : A -> S -> Prop) :
  (forall s, inv s -> P s -> exists a, f s = Some a /\ Q a s) -> triple P (deref f) Q.
Proof.
  intros H n s Hi HP. unfold deref. destruct (H s Hi HP) as (a & -> & HQ). simpl; auto.
Qed.

Lemma triple_yield (P : S -> Prop) :
  ok Asleep -> triple P yield (fun _ _ => True).
Proof. intros H n s Hi HP. simpl. auto. Qed.

Lemma triple_when b P (m : M S unit) (Q : unit -> S -> Prop) :
  (b = true -> triple P m Q) ->
  (b = false -> forall s, inv s -> P s -> Q tt s) ->
  triple P (when b m) Q.
Proof. intros H1 H2 n s Hi HP. destruct b; simpl; [apply H1|]; auto. Qed.

(** A loop rule with an invariant [J] on the loop state; running out of fuel
    has to be tolerated. *)
Lemma triple_loop {X A} (J : X -> S -> Prop) (body : X -> M S (X + A)) (Q : A -> S -> Prop) :
  ok Afuel ->
  (forall x, triple (J x) (body x)
     (fun r s => match r with inl x' => J x' s | inr a => Q a s end)) ->
  forall x, triple (J x) (loop body x) Q.
Proof.
  intros Hok Hb x n s Hi HJ. unfold loop. generalize n at 1 as k. intros k.
  revert x s Hi HJ. induction k as [|k IH]; intros x s Hi HJ; simpl; [done|].
  eapply sat_bind; [apply Hb; eauto|].
  intros [x'|a] s' Hi' HQ; simpl; auto.
Qed.

Lemma triple_for_each {X} (l : list X) (f : X -> M S unit) (J : S -> Prop) :
  (forall x, In x l -> triple J (f x) (fun _ => J)) ->
  triple J (for_each l f) (fun _ => J).
Proof.
  induction l as [|x l IH]; intros H; simpl.
  - apply triple_ret; auto.
  - eapply triple_bind; [apply H; simpl; auto|].
    intros []. apply IH. intros; apply H; simpl; auto.
Qed.

Lemma triple_for_break {X A} (l : list X) (f : X -> M S (option A)) (J : S -> Prop)
    (Q : A -> S -> Prop) :
  (forall x, In x l -> triple J (f x)
     (fun r s => match r with Some a => Q a s | None => J s end)) ->
  triple J (for_break l f) (fun r s => match r with Some a => Q a s | None => J s end).
Proof.
  induction l as [|x l IH]; intros H; simpl.
  - apply triple_ret; auto.
  - eapply triple_bind; [apply H; simpl; auto|].
    intros [a|]; [apply triple_ret; auto|]. apply IH. intros; apply H; simpl; auto.
Qed.

Lemma triple_for_fold {X A} (l : list X) (f : A -> X -> M S A) (J : A -> S -> Prop) a :
  (forall x a, In x l -> triple (J a) (f a x) J) ->
  triple (J a) (for_fold l a f) J.
Proof.
  revert a. induction l as [|x l IH]; intros a H; simpl.
  - apply triple_ret; auto.
  - eapply triple_bind; [apply H; simpl; auto|].
    intros a'. apply IH. intros; apply H; simpl; auto.
Qed.

Lemma triple_for_until {X A B} (l : list X) (f : A -> X -> M S (A + B)) (J : A -> S -> Prop) (Q : B -> S -> Prop) a :
  (forall x a, In x l -> triple (J a) (f a x) (fun r s => match r with inl a' => J a' s | inr b => Q b s end)) ->
  triple (J a) (for_until l a f) (fun r s => match r with inl a' => J a' s | inr b => Q b s end).
Proof.
  revert a. induction l as [|x l IH]; intros a H; simpl.
  - apply triple_ret; auto.
  - eapply triple_bind; [apply H; simpl; auto|].
    intros [a'|b]; [|apply triple_ret; auto]. apply IH. intros; apply H; simpl; auto.
Qed.

Lemma triple_knot {A} (F : M S A -> M S A) (P : S -> Prop) (Q : A -> S -> Prop) :
  ok Afuel ->
  (forall m, triple P m Q -> triple P (F m) Q) ->
  triple P (knot F) Q.
Proof.
  intros Hok HF n s Hi HP. unfold knot. generalize n at 1 as k. intros k.
  assert (triple P (unroll k F) Q) as H; [|by apply H].
  clear n s Hi HP. induction k as [|k IH]; simpl; [|by apply HF].
  intros n s _ _. done.
Qed.
End Logic.

(** A computation that needs only the invariant and re-establishes it. *)
Abbreviation preserves ok inv rely m := (triple ok inv rely (fun _ => True) m (fun _ _ => True)).

Lemma preserves_bind {S A B} ok (inv : S -> Prop) rely (m : M S A) (f : A -> M S B) :
  preserves ok inv rely m -> (forall a, preserves ok inv rely (f a)) ->
  preserves ok inv rely (bind m f).
Proof.
  intros Hm Hf. eapply triple_bind; [exact Hm|].
  intros a. eapply triple_conseq; [apply Hf|auto|auto].
Qed.

(** ** Tasks under the non-preemptive scheduler

    [threads] are the suspended kernel computations; a step resumes one of them
    and runs it to its next [schedule()] or to its end; the environment
    (interrupts, user mode) makes [rely] steps in between. *)
Section Interleaving.
Context {S : Type} (env : S -> S -> Prop).

Inductive pool_step : S * list (S -> outcome S unit) -> S * list (S -> outcome S unit) -> Prop :=
| pool_env s s' ts :
    env s s' -> pool_step (s, ts) (s', ts)
| pool_resume s ts i k s' k' :
    ts !! i = Some k -> k s = Sleep s' k' ->
    pool_step (s, ts) (s', <[i := k']> ts)
| pool_finish s ts i k s' :
    ts !! i = Some k -> k s = Done tt s' ->
    pool_step (s, ts) (s', delete i ts).

(** Every scheduling point of every interleaving satisfies the invariant when
    each task preserves it against arbitrary interference that does. *)
Lemma pool_invariant ok (inv : S -> Prop) c c' :
  (forall s s', env s s' -> inv s -> inv s') ->
  inv c.1 ->
  Forall (fun k => forall s, inv s -> sat ok inv (fun _ _ => True) (fun _ _ => True) (k s)) c.2 ->
  rtc pool_step c c' ->
  inv c'.1.
Proof.
  intros Henv Hi Hts Hsteps. revert Hi Hts.
  induction Hsteps as [|c c1 c2 Hst _ IH]; intros Hi Hts; [done|].
  assert (inv c1.1 /\ Forall (fun k => forall s, inv s ->
    sat ok inv (fun _ _ => True) (fun _ _ => True) (k s)) c1.2) as [H1 H2]; [|by apply IH].
  destruct Hst as [s s' ts He|s ts i k s' k' Hk Hs|s ts i k s' Hk Hs]; simpl in *.
  - eauto.
  - assert (Hsat := proj1 (Forall_lookup _ _) Hts _ _ Hk s Hi).
    rewrite Hs in Hsat. simpl in Hsat. destruct Hsat as (? & ? & Hk').
    split; [done|]. apply Forall_insert; [done|]. intros s0 Hs0. by apply Hk'.
  - assert (Hsat := proj1 (Forall_lookup _ _) Hts _ _ Hk s Hi).
    rewrite Hs in Hsat. simpl in Hsat. split; [tauto|].
    apply Forall_delete; done.
Qed.
End Interleaving.

(** [printk] writes to the console, which no modelled routine reads back. *)
Definition printk {S : Type} (msg : string) : M S unit := ret tt.

(** Total correctness of code that neither sleeps nor fails. *)
Definition never : abnormal -> Prop := fun _ => False.

Definition total {S A : Type} (P : S -> Prop) (m : M S A) (Q : A -> S -> Prop) : Prop :=
  triple never (fun _ => True) (fun _ _ => False) P m Q.

Lemma total_run {S A : Type} (P : S -> Prop) (m : M S A) Q n s :
  total P m Q -> P s -> exists a s', m n s = Done a s' /\ Q a s'.
Proof.
  intros H HP. specialize (H n s I HP). destruct (m n s); simpl in H; try done.
  - exists a, s0. tauto.
  - destruct H as [[] _].
  - destruct H as [[] _].
Qed.

Lemma triple_for_range {S : Type} ok (inv : S -> Prop) rely (f : Z -> M S unit) (J : Z -> S -> Prop) n lo :
  (forall k, lo <= k < lo + Z.of_nat n -> triple ok inv rely (J k) (f k) (fun _ => J (k + 1))) ->
  triple ok inv rely (J lo) (for_each (zrange lo n) f) (fun _ => J (lo + Z.of_nat n)).
Proof.
  revert lo; induction n as [|n IH]; intros lo H; simpl.
  - apply triple_ret. intros s _. by rewrite Z.add_0_r.
  - eapply triple_bind; [apply H; lia|]. intros [].
    replace (lo + Z.of_nat (Datatypes.S n)) with (lo + 1 + Z.of_nat n) by lia.
    apply IH. intros k Hk. apply H. lia.
Qed.

Lemma triple_for_break_range {S A : Type} ok (inv : S -> Prop) rely (f : Z -> M S (option A))
    (J : Z -> S -> Prop) (Q : A -> S -> Prop) n lo :
  (forall k, lo <= k < lo + Z.of_nat n ->
     triple ok inv rely (J k) (f k) (fun r s => match r with Some a => Q a s | None => J (k + 1) s end)) ->
  triple ok inv rely (J lo) (for_break (zrange lo n) f)
    (fun r s => match r with Some a => Q a s | None => J (lo + Z.of_nat n) s end).
Proof.
  revert lo; induction n as [|n IH]; intros lo H; simpl.
  - apply triple_ret. intros s _. by rewrite Z.add_0_r.
  - eapply triple_bind; [apply H; lia|]. intros [a|]; [by apply triple_ret|].
    replace (lo + Z.of_nat (Datatypes.S n)) with (lo + 1 + Z.of_nat n) by lia.
    apply IH. intros k Hk. apply H. lia.
Qed.
