(* ===== verification/Memory.v ===== *)
(** * Physical memory and page tables: mm/memory.c

    Physical memory is a function from word-aligned addresses to 32-bit words (the
    page directory is the page at address 0, as [head.s] leaves it); [mem_map] is
    the array of reference counts of the pages above [LOW_MEM].  [invalidate()]
    reloads cr3 and has no effect on this state. *)
From Stdlib Require Import ZArith Lia String.
From stdpp Require Import base list.
From S2P Require Import Prelude Resumption.

Definition LOW_MEM : Z := 0x100000.
Definition PAGING_MEMORY : Z := 15 * 1024 * 1024.
Definition PAGING_PAGES : Z := Z.shiftr PAGING_MEMORY 12.
Definition MAP_NR (addr : Z) : Z := Z.shiftr (u32 (addr - LOW_MEM)) 12.
Definition USED : Z := 100.
Definition SIGSEGV : Z := 11.

Record mm := mkMm {
  mem : Z -> Z;            (* word-aligned address -> 32-bit word *)
  mem_map : list Z;        (* PAGING_PAGES bytes *)
  HIGH_MEMORY : Z
}.
#[export] Instance mm_reconstruct : Reconstruct mm :=
  fun r => mkMm (mem r) (mem_map r) (HIGH_MEMORY r).

(** ** Loads and stores *)

Definition store (m : Z -> Z) (a v : Z) : Z -> Z := fun x => if x =? a then u32 v else m x.

(** [rep stosl] of 1024 zero words and [copy_page]. *)
Definition clear_page (m : Z -> Z) (page : Z) : Z -> Z :=
  fun x => if (page <=? x) && (x <? page + 4096) then 0 else m x.
Definition copy_page (m : Z -> Z) (from to : Z) : Z -> Z :=
  fun x => if (to <=? x) && (x <? to + 4096) then m (x - to + from) else m x.

Definition ld (a : Z) : M mm Z := gets (fun s => mem s a).
Definition st (a v : Z) : M mm unit := modify (fun s => s <| mem ::= fun m => store m a v |>).

(** [mem_map[i]] as an lvalue. *)
Definition ld_map (i : Z) : M mm Z := deref (fun s => arr_get (mem_map s) i).
Definition st_map (i v : Z) : M mm unit :=
  modify (fun s => s <| mem_map ::= fun l => arr_set l i (u8 v) |>).

(** Bytes of a word-addressed memory (the bytes of a page). *)
Definition ld8 (m : Z -> Z) (a : Z) : Z :=
  Z.land (Z.shiftr (m (a - a mod 4)) (8 * (a mod 4))) 255.
Definition store8 (m : Z -> Z) (a v : Z) : Z -> Z :=
  let w := a - a mod 4 in
  let sh := 8 * (a mod 4) in
  store m w (Z.lor (Z.ldiff (m w) (Z.shiftl 255 sh)) (Z.shiftl (u8 v) sh)).

(** ** The page allocator *)

(** [std; repne scasb]: compare the [k] bytes below the end of [mem_map] downwards. *)
Fixpoint scan_free (k : nat) (l : list Z) : option nat :=
  match k with
  | O => None
  | S k' => if decide (l !! k' = Some 0) then Some k' else scan_free k' l
  end.

Definition get_free_page : M mm Z :=
  let! s := get in
  match scan_free (Z.to_nat PAGING_PAGES) (mem_map s) with
  | None => ret 0
  | Some i =>
      st_map (Z.of_nat i) 1 ;;;
      let page := u32 (Z.shiftl (Z.of_nat i) 12 + LOW_MEM) in
      modify (fun s => s <| mem ::= fun m => clear_page m page |>) ;;;
      ret page
  end.

Definition free_page (addr : Z) : M mm unit :=
  if addr <? LOW_MEM then ret tt else
  let! s := get in
  if HIGH_MEMORY s <=? addr then panic "trying to free nonexistent page" else
  let nr := Z.shiftr (addr - LOW_MEM) 12 in
  let! v := ld_map nr in
  st_map nr (v - 1) ;;;
  if nz v then ret tt else
  st_map nr 0 ;;;
  panic "trying to free free page".

(** ** Page directory and page tables *)

(** Present bit; page frame of an entry; entry of the directory and of a table
    for a linear address. *)
Definition present (e : Z) : bool := nz (Z.land 1 e).
Definition frame (e : Z) : Z := Z.land 0xfffff000 e.
Definition dir_entry_of (address : Z) : Z := Z.land (Z.shiftr address 20) 0xffc.
Definition pte_offset (address : Z) : Z := Z.land (Z.shiftr address 10) 0xffc.

(** The inner loop of [free_page_tables]: the 1024 entries of one table. *)
Definition free_table (pg_table : Z) : M mm unit :=
  for_each (zrange 0 1024) (fun nr =>
    let! e := ld (pg_table + 4 * nr) in
    when (present e) (free_page (frame e)) ;;;
    st (pg_table + 4 * nr) 0).

(** One directory entry of the outer loop. *)
Definition free_dir (dir : Z) : M mm unit :=
  let! e := ld dir in
  if negb (present e) then ret tt else
  free_table (frame e) ;;;
  let! e := ld dir in
  free_page (frame e) ;;;
  st dir 0.

Definition free_page_tables (from size : Z) : M mm Z :=
  if nz (Z.land from 0x3fffff) then panic "free_page_tables called with wrong alignment" else
  if negb (nz from) then panic "Trying to free up swapper memory space" else
  let n := Z.shiftr (u32 (size + 0x3fffff)) 22 in
  let dir := dir_entry_of from in
  for_each (zrange 0 (Z.to_nat n)) (fun i => free_dir (dir + 4 * i)) ;;;
  ret 0.

(** One entry of the inner loop of [copy_page_tables]. *)
Definition copy_pte (from_entry to_entry : Z) : M mm unit :=
  let! this_page := ld from_entry in
  if negb (present this_page) then ret tt else
  let this_page := Z.ldiff this_page 2 in
  st to_entry this_page ;;;
  if LOW_MEM <? this_page then
    st from_entry this_page ;;;
    let i := Z.shiftr (this_page - LOW_MEM) 12 in
    let! v := ld_map i in
    st_map i (v + 1)
  else ret tt.

Definition copy_table (from_page_table to_page_table : Z) (nr : nat) : M mm unit :=
  for_each (zrange 0 nr) (fun i =>
    copy_pte (from_page_table + 4 * i) (to_page_table + 4 * i)).

(** One directory entry: [None] to go on, [Some (-1)] to return out of memory. *)
Definition copy_dir (from from_dir to_dir : Z) : M mm (option Z) :=
  let! te := ld to_dir in
  if present te then panic "copy_page_tables: already exist" else
  let! fe := ld from_dir in
  if negb (present fe) then ret None else
  let from_page_table := frame fe in
  let! to_page_table := get_free_page in
  if negb (nz to_page_table) then ret (Some (-1)) else
  st to_dir (Z.lor to_page_table 7) ;;;
  let nr := if from =? 0 then 0xA0%nat else 1024%nat in
  copy_table from_page_table to_page_table nr ;;;
  ret None.

Definition copy_page_tables (from to size : Z) : M mm Z :=
  if nz (Z.land from 0x3fffff) || nz (Z.land to 0x3fffff)
  then panic "copy_page_tables called with wrong alignment" else
  let from_dir := dir_entry_of from in
  let to_dir := dir_entry_of to in
  let n := Z.shiftr (u32 (size + 0x3fffff)) 22 in
  let! r := for_break (zrange 0 (Z.to_nat n)) (fun i =>
              copy_dir from (from_dir + 4 * i) (to_dir + 4 * i)) in
  ret (default 0 r).

Definition put_page (page address : Z) : M mm Z :=
  let! s := get in
  when ((page <? LOW_MEM) || (HIGH_MEMORY s <=? page))
    (printk "Trying to put page %p at %p") ;;;
  let! c := ld_map (MAP_NR page) in
  when (negb (c =? 1)) (printk "mem_map disagrees with %p at %p") ;;;
  let dir := dir_entry_of address in
  let! e := ld dir in
  let idx := Z.land (Z.shiftr address 12) 0x3ff in
  if present e then
    st (frame e + 4 * idx) (Z.lor page 7) ;;; ret page
  else
    let! tmp := get_free_page in
    if negb (nz tmp) then ret 0 else
    st dir (Z.lor tmp 7) ;;;
    st (tmp + 4 * idx) (Z.lor page 7) ;;;
    ret page.

(** [oom()] prints and calls [do_exit(SIGSEGV)], which does not return. *)
Definition oom {A} : M mm A := printk "out of memory" ;;; die SIGSEGV.

(** ** Copy on write *)

Definition un_wp_page (table_entry : Z) : M mm unit :=
  let! e := ld table_entry in
  let old_page := frame e in
  let! alone :=
    (if LOW_MEM <=? old_page
     then let! v := ld_map (MAP_NR old_page) in ret (v =? 1)
     else ret false) in
  if (alone : bool) then st table_entry (Z.lor e 2) else
  let! new_page := get_free_page in
  if negb (nz new_page) then oom else
  when (LOW_MEM <=? old_page)
    (let! v := ld_map (MAP_NR old_page) in st_map (MAP_NR old_page) (v - 1)) ;;;
  st table_entry (Z.lor new_page 7) ;;;
  modify (fun s => s <| mem ::= fun m => copy_page m old_page new_page |>).

Definition do_wp_page (address : Z) : M mm unit :=
  let! e := ld (dir_entry_of address) in
  un_wp_page (pte_offset address + frame e).

Definition write_verify (address : Z) : M mm unit :=
  let! page := ld (dir_entry_of address) in
  if negb (present page) then ret tt else
  let page := frame page + pte_offset address in
  let! e := ld page in
  if Z.land 3 e =? 1 then un_wp_page page else ret tt.

Definition get_empty_page (address : Z) : M mm unit :=
  let! tmp := get_free_page in
  let! ok := (if nz tmp then let! r := put_page tmp address in ret (nz r) else ret false) in
  if (ok : bool) then ret tt else free_page tmp ;;; oom.

(** [try_to_share(address, p)] with the two [start_code]s it reads. *)
Definition try_to_share (address p_start_code cur_start_code : Z) : M mm Z :=
  let page := dir_entry_of address in
  let from_page := page + dir_entry_of p_start_code in
  let to_page := page + dir_entry_of cur_start_code in
  let! from := ld from_page in
  if negb (present from) then ret 0 else
  let from_page := frame from + pte_offset address in
  let! phys_addr := ld from_page in
  if negb (Z.land phys_addr 0x41 =? 0x01) then ret 0 else
  let phys_addr := frame phys_addr in
  let! s := get in
  if (HIGH_MEMORY s <=? phys_addr) || (phys_addr <? LOW_MEM) then ret 0 else
  let! to := ld to_page in
  let! to :=
    (if negb (present to) then
       let! t := get_free_page in
       if nz t then st to_page (Z.lor t 7) ;;; ret t else oom
     else ret to) in
  let to_page := frame to + pte_offset address in
  let! te := ld to_page in
  if present te then panic "try_to_share: to_page already exists" else
  let! fe := ld from_page in
  st from_page (Z.ldiff fe 2) ;;;
  let! fe := ld from_page in
  st to_page fe ;;;
  let i := Z.shiftr (phys_addr - LOW_MEM) 12 in
  let! v := ld_map i in
  st_map i (v + 1) ;;;
  ret 1.

(** ** Boot time and statistics *)

Definition mem_init (start_mem end_mem : Z) : M mm unit :=
  modify (fun s => s <| HIGH_MEMORY := end_mem |>) ;;;
  modify (fun s => s <| mem_map := replicate (Z.to_nat PAGING_PAGES) USED |>) ;;;
  let i := MAP_NR start_mem in
  let n := Z.shiftr (end_mem - start_mem) 12 in
  for_each (zrange 0 (Z.to_nat n)) (fun k => ld_map (i + k) ;;; st_map (i + k) 0).

(** What [calc_mem] prints: the number of free pages, and for each present
    directory entry from 2 on the number of pages it maps. *)
Definition calc_mem (s : mm) : Z * list (Z * Z) :=
  (Z.of_nat (length (filter (fun c => c = 0) (mem_map s))),
   omap (fun i =>
     let e := mem s (4 * i) in
     if present e then
       Some (i, Z.of_nat (length (filter (fun j => present (mem s (frame e + 4 * j)) = true)
                                   (zrange 0 1024))))
     else None) (zrange 2 1022)).
