(* ===== verification/PageTables.v ===== *)
(** * The page accounting of mm/memory.c

    What the entries of the page tables say about [mem_map]: the reference counts,
    the well-formedness of user page tables, and the effect of each routine of
    Memory.v on both, as lemmas that the properties of PagingProps.v and ExecProps.v
    apply. *)
From Stdlib Require Import ZArith Lia String.
From stdpp Require Import base list.
From S2P Require Import Prelude Resumption Memory.

(** ** Entries as numbers *)

Lemma frame_alt e : 0 <= e < 2 ^ 32 -> frame e = 4096 * (e / 4096).
Proof.
  intros He. unfold frame.
  change 0xfffff000 with (Z.shiftl (Z.ones 20) 12).
  replace (Z.land _ e) with (Z.shiftl (Z.land (Z.ones 20) (Z.shiftr e 12)) 12).
  - rewrite Z.shiftl_mul_pow2, Z.land_comm, Z.land_ones, Z.shiftr_div_pow2 by lia.
    change (2 ^ 12) with 4096. rewrite Z.mod_small; [lia|].
    change (2 ^ 20) with 1048576. split; [apply Z.div_pos; lia|].
    apply Z.div_lt_upper_bound; lia.
  - apply Z.bits_inj'. intros i Hi.
    rewrite Z.land_spec, !Z.shiftl_spec, Z.land_spec by lia.
    destruct (Z.lt_ge_cases i 12).
    + rewrite !(Z.testbit_neg_r _ (i - 12)) by lia. done.
    + rewrite Z.shiftr_spec by lia. f_equal. f_equal. lia.
Qed.

Lemma frame_aligned e : 0 <= e < 2 ^ 32 -> frame e mod 4096 = 0.
Proof. intros. rewrite frame_alt by done. rewrite Z.mul_comm. apply Z.mod_mul. lia. Qed.

Lemma frame_range e : 0 <= e < 2 ^ 32 -> 0 <= frame e < 2 ^ 32.
Proof.
  intros. rewrite frame_alt by done.
  pose proof (Z.mul_div_le e 4096). pose proof (Z.div_pos e 4096). lia.
Qed.

Lemma present_alt e : present e = Z.odd e.
Proof.
  unfold present. rewrite Z.land_comm. change 1 with (Z.ones 1) at 1.
  rewrite Z.land_ones by lia. change (2 ^ 1) with 2.
  rewrite Zmod_odd. by destruct (Z.odd e).
Qed.

Lemma lor_div_4096 a b : 0 <= b < 4096 -> Z.lor a b / 4096 = a / 4096.
Proof.
  intros. change 4096 with (2 ^ 12). rewrite <- !Z.shiftr_div_pow2 by lia.
  rewrite Z.shiftr_lor. rewrite (Z.shiftr_div_pow2 b), Z.div_small by (simpl; lia).
  apply Z.lor_0_r.
Qed.

Lemma ldiff_div_4096 a b : 0 <= b < 4096 -> Z.ldiff a b / 4096 = a / 4096.
Proof.
  intros. change 4096 with (2 ^ 12). rewrite <- !Z.shiftr_div_pow2 by lia.
  rewrite Z.shiftr_ldiff by lia. rewrite (Z.shiftr_div_pow2 b), Z.div_small by (simpl; lia).
  apply Z.ldiff_0_r.
Qed.

Lemma lor_range n a b : 0 <= n -> 0 <= a < 2 ^ n -> 0 <= b < 2 ^ n -> 0 <= Z.lor a b < 2 ^ n.
Proof.
  intros Hn Ha Hb. assert (0 <= Z.lor a b) by (apply Z.lor_nonneg; lia). split; [done|].
  destruct (Z.eq_dec (Z.lor a b) 0) as [->|]; [lia|].
  apply Z.log2_lt_pow2; [lia|]. rewrite Z.log2_lor by lia.
  assert (Hl : forall x, 0 <= x < 2 ^ n -> Z.lor a b <> 0 -> x = 0 \/ Z.log2 x < n).
  { intros x Hx _. destruct (Z.eq_dec x 0); [auto|right]. apply Z.log2_lt_pow2; lia. }
  assert (0 < n) by (destruct (Z.eq_dec n 0) as [->|]; [|lia];
    assert (a = 0) as -> by lia; assert (b = 0) as -> by lia; done).
  apply Z.max_lub_lt; [destruct (Hl a Ha ltac:(done)) as [->|]|destruct (Hl b Hb ltac:(done)) as [->|]];
    simpl; lia.
Qed.

Lemma lor_7_range a : 0 <= a < 2 ^ 32 -> 0 <= Z.lor a 7 < 2 ^ 32.
Proof. intros H. apply (lor_range 32); lia. Qed.

Lemma ldiff_range a b : 0 <= b -> 0 <= a < 2 ^ 32 -> 0 <= Z.ldiff a b < 2 ^ 32.
Proof.
  intros Hb H. assert (0 <= Z.ldiff a b) by (apply Z.ldiff_nonneg; lia).
  split; [done|]. enough (Z.ldiff a b <= a) by lia.
  apply Z.ldiff_le; [lia|]. rewrite Z.ldiff_ldiff_l. apply Z.bits_inj'. intros i Hi.
  rewrite Z.ldiff_spec, Z.lor_spec, Z.bits_0. by destruct (Z.testbit a i), (Z.testbit b i).
Qed.

(** ** The reference accounting

    A page is referenced by the user part of the page tables: by a directory
    entry that makes it a page table, and by every present entry of such a table.
    [extra] is what [mem_map] counts beyond that: the references the kernel itself
    holds (task structures, pipes, a page being set up). *)

Definition FIRST_USER_DIR : Z := 16.
Definition user_dirs : list Z := zrange FIRST_USER_DIR 1008.
Definition user_dir (d : Z) : Prop := FIRST_USER_DIR <= d < 1024.

Lemma user_dirs_elem d : In d user_dirs <-> user_dir d.
Proof. unfold user_dirs, user_dir. rewrite zrange_elem. unfold FIRST_USER_DIR. lia. Qed.

Definition pde (s : mm) (d : Z) : Z := mem s (4 * d).
Definition pte (s : mm) (d j : Z) : Z := mem s (frame (pde s d) + 4 * j).
Definition page_addr (i : Z) : Z := LOW_MEM + 4096 * i.
Definition ref_to (e i : Z) : Z := b2z (present e && (frame e =? page_addr i)).
Definition dir_refs (s : mm) (i d : Z) : Z :=
  if present (pde s d)
  then ref_to (pde s d) i + zsum (fun j => ref_to (pte s d j) i) (zrange 0 1024)
  else 0.
Definition refs (s : mm) (i : Z) : Z := zsum (dir_refs s i) user_dirs.
Definition count (s : mm) (i : Z) : Z := default 0 (arr_get (mem_map s) i).
Definition extra (s : mm) (i : Z) : Z := count s i - refs s i.

Lemma PAGING_PAGES_eq : PAGING_PAGES = 3840.
Proof. reflexivity. Qed.

(** Well-formed memory: words are 32-bit; user page tables are distinct allocated
    pages above [LOW_MEM]; no reference goes uncounted. *)
Record tables_ok (s : mm) : Prop := mkTablesOk {
  ok_words : forall a, 0 <= mem s a < 2 ^ 32;
  ok_table : forall d, user_dir d -> present (pde s d) = true ->
    exists i, 0 <= i < PAGING_PAGES /\ frame (pde s d) = page_addr i;
  ok_distinct : forall d d', user_dir d -> user_dir d' ->
    present (pde s d) = true -> present (pde s d') = true ->
    frame (pde s d) = frame (pde s d') -> d = d'
}.

Record wf (s : mm) : Prop := mkWf {
  wf_tables : tables_ok s;
  wf_map : length (mem_map s) = Z.to_nat PAGING_PAGES;
  wf_bytes : forall i, 0 <= count s i < 256;
  wf_counted : forall i, 0 <= i < PAGING_PAGES -> refs s i <= count s i
}.

Lemma ref_to_range e i : 0 <= ref_to e i <= 1.
Proof. unfold ref_to. destruct (_ && _); simpl; lia. Qed.

Lemma dir_refs_nonneg s i d : 0 <= dir_refs s i d.
Proof.
  unfold dir_refs. destruct (present _); [|lia].
  pose proof (ref_to_range (pde s d) i).
  enough (0 <= zsum (fun j => ref_to (pte s d j) i) (zrange 0 1024)) by lia.
  apply zsum_nonneg. intros j _. apply ref_to_range.
Qed.

Lemma refs_nonneg s i : 0 <= refs s i.
Proof. apply zsum_nonneg. intros. apply dir_refs_nonneg. Qed.

Lemma ref_to_frame e i : present e = true -> frame e = page_addr i -> ref_to e i = 1.
Proof. intros H1 H2. unfold ref_to. by rewrite H1, H2, Z.eqb_refl. Qed.

(** A free page is nobody's page table. *)
Lemma free_not_table s d i :
  wf s -> user_dir d -> present (pde s d) = true ->
  0 <= i < PAGING_PAGES -> count s i = 0 -> frame (pde s d) <> page_addr i.
Proof.
  intros Hwf Hd Hp Hi Hc Hf.
  pose proof (wf_counted s Hwf i Hi) as Hle.
  assert (dir_refs s i d <= refs s i).
  { apply zsum_ge; [|by apply user_dirs_elem]. intros; apply dir_refs_nonneg. }
  assert (1 <= dir_refs s i d).
  { unfold dir_refs. rewrite Hp, ref_to_frame by done.
    enough (0 <= zsum (fun j => ref_to (pte s d j) i) (zrange 0 1024)) by lia.
    apply zsum_nonneg. intros. apply ref_to_range. }
  lia.
Qed.

(** Two states whose user tables read the same have the same references. *)
Lemma refs_ext s s' i :
  (forall d, user_dir d -> pde s' d = pde s d) ->
  (forall d j, user_dir d -> present (pde s d) = true -> 0 <= j < 1024 ->
     pte s' d j = pte s d j) ->
  refs s' i = refs s i.
Proof.
  intros Hd Hj. apply zsum_ext. intros d Hin%user_dirs_elem. unfold dir_refs. rewrite Hd by done.
  destruct (present (pde s d)) eqn:Hp; [|done]. f_equal.
  apply zsum_ext. intros j Hin'. apply zrange_elem in Hin'. rewrite Hj; auto; lia.
Qed.

(** Writing one entry of a user page table changes that entry and nothing else
    the directory or another table reads. *)
Lemma store_pte_reads s d j v :
  tables_ok s -> user_dir d -> present (pde s d) = true -> 0 <= j < 1024 ->
  let s' := s <| mem := store (mem s) (frame (pde s d) + 4 * j) v |> in
  (forall x, x < LOW_MEM -> mem s' x = mem s x) /\
  (forall d', user_dir d' -> pde s' d' = pde s d') /\
  (forall d' j', user_dir d' -> present (pde s d') = true -> 0 <= j' < 1024 ->
     pte s' d' j' = if decide (d' = d /\ j' = j) then u32 v else pte s d' j').
Proof.
  intros Hwf Hd Hp Hj s'. set (a := frame (pde s d) + 4 * j).
  destruct (ok_table s Hwf d Hd Hp) as (t & Ht & Hft).
  assert (Ha : LOW_MEM <= a) by (unfold a, page_addr in *; lia).
  assert (Hlow : forall x, x < LOW_MEM -> mem s' x = mem s x).
  { intros x Hx. simpl. unfold store. fold a. by destruct (Z.eqb_spec x a); [lia|]. }
  assert (Hpde : forall d', user_dir d' -> pde s' d' = pde s d').
  { intros d' Hd'. apply Hlow. unfold user_dir in Hd'. unfold LOW_MEM, FIRST_USER_DIR in *. lia. }
  split; [done|]. split; [done|].
  intros d' j' Hd' Hp' Hj'. unfold pte. rewrite Hpde by done. simpl. unfold store.
  destruct (ok_table s Hwf d' Hd' Hp') as (t' & Ht' & Hft').
  case_decide as Hc.
  - destruct Hc as [-> ->]. by rewrite Z.eqb_refl.
  - destruct (Z.eqb_spec (frame (pde s d') + 4 * j') (frame (pde s d) + 4 * j)) as [He|]; [|done].
    exfalso. apply Hc. unfold page_addr in *. assert (t' = t) by lia. subst t'.
    split; [apply (ok_distinct s Hwf); auto; congruence | lia].
Qed.

Lemma refs_set_pte s d j v i :
  tables_ok s -> user_dir d -> present (pde s d) = true -> 0 <= j < 1024 ->
  refs (s <| mem := store (mem s) (frame (pde s d) + 4 * j) v |>) i
  = refs s i + ref_to (u32 v) i - ref_to (pte s d j) i.
Proof.
  intros Hwf Hd Hp Hj. destruct (store_pte_reads s d j v Hwf Hd Hp Hj) as (_ & Hpde & Hpte).
  set (s' := s <| mem := _ |>) in *.
  unfold refs. rewrite (zsum_update (dir_refs s i) (dir_refs s' i) user_dirs d);
    [|apply zrange_NoDup|by apply user_dirs_elem|].
  - unfold dir_refs. rewrite Hpde, Hp by done.
    rewrite (zsum_update (fun j => ref_to (pte s d j) i) (fun j => ref_to (pte s' d j) i) _ j);
      [|apply zrange_NoDup|by apply zrange_elem; lia|].
    + rewrite Hpte by done. rewrite decide_True by done. lia.
    + intros y Hy Hne. apply zrange_elem in Hy. rewrite Hpte by (auto; lia).
      by rewrite decide_False by (intros [? ?]; lia).
  - intros d' Hd'%user_dirs_elem Hne. unfold dir_refs. rewrite Hpde by done.
    destruct (present (pde s d')) eqn:Hp'; [|done]. f_equal. apply zsum_ext.
    intros y Hy. apply zrange_elem in Hy. rewrite Hpte by (auto; lia).
    by rewrite decide_False by (intros [? ?]; lia).
Qed.

(** Filling a page that is nobody's page table. *)
Lemma fill_page_reads s t f :
  tables_ok s -> 0 <= t ->
  (forall d, user_dir d -> present (pde s d) = true -> frame (pde s d) <> page_addr t) ->
  let m' := fun x => if (page_addr t <=? x) && (x <? page_addr t + 4096) then f x else mem s x in
  let s' := s <| mem := m' |> in
  (forall x, x < LOW_MEM -> mem s' x = mem s x) /\
  (forall d, user_dir d -> pde s' d = pde s d) /\
  (forall d j, user_dir d -> present (pde s d) = true -> 0 <= j < 1024 ->
     pte s' d j = pte s d j).
Proof.
  intros Hwf Ht Hnt m' s'.
  assert (Hlow : forall x, x < LOW_MEM -> mem s' x = mem s x).
  { intros x Hx. simpl. unfold m', page_addr in *.
    destruct (Z.leb_spec (LOW_MEM + 4096 * t) x); [lia|done]. }
  assert (Hpde : forall d', user_dir d' -> pde s' d' = pde s d').
  { intros d' Hd'. apply Hlow. unfold user_dir in Hd'. unfold LOW_MEM, FIRST_USER_DIR in *. lia. }
  split; [done|]. split; [done|].
  intros d j Hd Hp Hj. unfold pte. rewrite Hpde by done. simpl. unfold m'.
  destruct (ok_table s Hwf d Hd Hp) as (t' & Ht' & Hft'). specialize (Hnt d Hd Hp).
  unfold page_addr in *.
  destruct (Z.leb_spec (LOW_MEM + 4096 * t) (frame (pde s d) + 4 * j)),
    (Z.ltb_spec (frame (pde s d) + 4 * j) (LOW_MEM + 4096 * t + 4096)); simpl; try done.
  exfalso. apply Hnt. assert (t' = t) by lia. congruence.
Qed.

Lemma page_entry t :
  0 <= t < PAGING_PAGES ->
  u32 (Z.lor (page_addr t) 7) = Z.lor (page_addr t) 7 /\
  frame (Z.lor (page_addr t) 7) = page_addr t /\
  present (Z.lor (page_addr t) 7) = true.
Proof.
  intros Ht. assert (Hr : 0 <= page_addr t < 2 ^ 32).
  { rewrite PAGING_PAGES_eq in Ht. unfold page_addr, LOW_MEM. lia. }
  pose proof (lor_7_range _ Hr). split; [by apply u32_small|]. split.
  - rewrite frame_alt, lor_div_4096 by lia. unfold page_addr, LOW_MEM.
    replace (0x100000 + 4096 * t) with ((256 + t) * 4096) by lia.
    rewrite Z.div_mul by lia. lia.
  - rewrite present_alt. rewrite <- Z.bit0_odd, Z.lor_spec. by rewrite orb_true_r.
Qed.

(** Installing a zeroed page as a new page table. *)
Lemma refs_install s d t i :
  tables_ok s -> user_dir d -> present (pde s d) = false ->
  0 <= t < PAGING_PAGES ->
  (forall x, page_addr t <= x < page_addr t + 4096 -> mem s x = 0) ->
  refs (s <| mem := store (mem s) (4 * d) (Z.lor (page_addr t) 7) |>) i
  = refs s i + b2z (page_addr t =? page_addr i).
Proof.
  intros Hwf Hd Hp Ht Hz. destruct (page_entry t Ht) as (Hu & Hf & Hpr).
  set (s' := s <| mem := _ |>).
  assert (Hpde : forall d', user_dir d' ->
    pde s' d' = if decide (d' = d) then Z.lor (page_addr t) 7 else pde s d').
  { intros d' _. unfold pde, s'; simpl. unfold store.
    destruct (Z.eqb_spec (4 * d') (4 * d)); case_decide; first [lia | done]. }
  assert (Hhigh : forall x, LOW_MEM <= x -> mem s' x = mem s x).
  { intros x Hx. simpl. unfold store. unfold user_dir in Hd. unfold FIRST_USER_DIR, LOW_MEM in *.
    destruct (Z.eqb_spec x (4 * d)); [lia|done]. }
  unfold refs. rewrite (zsum_update (dir_refs s i) (dir_refs s' i) user_dirs d);
    [|apply zrange_NoDup|by apply user_dirs_elem|].
  - unfold dir_refs. rewrite Hpde by done. rewrite decide_True by done. rewrite Hpr, Hp.
    rewrite (zsum_zero _ (zrange 0 1024)).
    + unfold ref_to. rewrite Hpr, Hf, andb_true_l. lia.
    + intros j Hj. apply zrange_elem in Hj. unfold pte. rewrite Hpde by done.
      rewrite decide_True by done. rewrite Hf.
      rewrite Hhigh by (unfold page_addr; lia). rewrite Hz by lia. done.
  - intros d' Hd'%user_dirs_elem Hne. unfold dir_refs. rewrite Hpde by done. rewrite decide_False by done.
    destruct (present (pde s d')) eqn:Hp'; [|done]. f_equal. apply zsum_ext.
    intros y Hy. apply zrange_elem in Hy. unfold pte. rewrite Hpde by done.
    rewrite decide_False by done.
    destruct (ok_table s Hwf d' Hd' Hp') as (t' & Ht' & Hft').
    rewrite Hhigh; [done|]. unfold page_addr in *. lia.
Qed.

Lemma tables_ok_ext s s' :
  tables_ok s -> (forall a, 0 <= mem s' a < 2 ^ 32) ->
  (forall d, user_dir d -> pde s' d = pde s d) -> tables_ok s'.
Proof.
  intros H Hw Hd. split; [done| |].
  - intros d Hin. rewrite Hd by done. by apply (ok_table s H).
  - intros d d' Hin Hin'. rewrite !Hd by done. by apply (ok_distinct s H).
Qed.

Lemma store_words s a v : tables_ok s -> forall x, 0 <= store (mem s) a v x < 2 ^ 32.
Proof.
  intros H x. unfold store. destruct (x =? a); [apply u32_range | apply (ok_words s H)].
Qed.

(** Updating one reference count. *)
Lemma count_set s i v j :
  length (mem_map s) = Z.to_nat PAGING_PAGES -> 0 <= i < PAGING_PAGES ->
  count (s <| mem_map ::= fun l => arr_set l i (u8 v) |>) j
  = if decide (j = i) then u8 v else count s j.
Proof.
  intros Hl Hi. unfold count; simpl. case_decide as Hd.
  - subst j. rewrite arr_get_set_eq; [done|]. rewrite Hl. rewrite Z2Nat.id by lia. lia.
  - by rewrite arr_get_set_ne by lia.
Qed.

Lemma arr_get_count s i :
  length (mem_map s) = Z.to_nat PAGING_PAGES -> 0 <= i < PAGING_PAGES ->
  arr_get (mem_map s) i = Some (count s i).
Proof.
  intros Hl Hi. unfold count.
  destruct (arr_get_is_Some (mem_map s) i) as [v ->]; [|done].
  rewrite Hl. rewrite Z2Nat.id by lia. lia.
Qed.

(** ** The allocator *)

Lemma scan_free_Some k l i :
  scan_free k l = Some i <->
  (i < k)%nat /\ l !! i = Some 0 /\ forall j, (i < j < k)%nat -> l !! j <> Some 0.
Proof.
  induction k as [|k IH]; simpl.
  - split; [done|lia].
  - case_decide as Hk.
    + split.
      * intros [= <-]. split; [lia|]. split; [done|]. intros j Hj. lia.
      * intros (Hi & Hz & Hj). destruct (decide (i = k)) as [->|Hne]; [done|].
        exfalso. apply (Hj k); [lia|done].
    + rewrite IH. split; intros (Hi & Hz & Hj); repeat split; try done; try lia.
      * intros j Hjk. destruct (decide (j = k)) as [->|]; [done|]. apply Hj. lia.
      * destruct (decide (i = k)) as [->|]; [done|lia].
      * intros j Hjk. apply Hj. lia.
Qed.

Lemma scan_free_None k l :
  scan_free k l = None <-> forall j, (j < k)%nat -> l !! j <> Some 0.
Proof.
  induction k as [|k IH]; simpl; [split; [lia|done]|].
  case_decide as Hk.
  - split; [done|]. intros H. exfalso. apply (H k); [lia|done].
  - rewrite IH. split; intros H j Hj; [|apply H; lia].
    destruct (decide (j = k)) as [->|]; [done|apply H; lia].
Qed.

(** The state [get_free_page] leaves when it hands out page [i]. *)
Definition take_page (s : mm) (i : Z) : mm :=
  s <| mem_map ::= fun l => arr_set l i (u8 1) |>
    <| mem ::= fun m => clear_page m (page_addr i) |>.

Lemma page_addr_u32 i :
  0 <= i < PAGING_PAGES -> u32 (Z.shiftl i 12 + LOW_MEM) = page_addr i.
Proof.
  rewrite PAGING_PAGES_eq. intros Hi. rewrite Z.shiftl_mul_pow2 by lia.
  unfold page_addr, LOW_MEM. change (2 ^ 12) with 4096. rewrite u32_small; lia.
Qed.

Lemma get_free_page_run n s :
  length (mem_map s) = Z.to_nat PAGING_PAGES ->
  (get_free_page n s = Done 0 s /\ forall i, 0 <= i < PAGING_PAGES -> count s i <> 0) \/
  (exists i, 0 <= i < PAGING_PAGES /\ count s i = 0 /\
     (forall j, i < j < PAGING_PAGES -> count s j <> 0) /\
     get_free_page n s = Done (page_addr i) (take_page s i)).
Proof.
  intros Hl. unfold get_free_page, bind, get. cbn [obind].
  destruct (scan_free _ _) as [i|] eqn:Hs.
  - right. apply scan_free_Some in Hs as (Hi & Hz & Hj). exists (Z.of_nat i).
    assert (0 <= Z.of_nat i < PAGING_PAGES) by (rewrite PAGING_PAGES_eq in *; lia).
    assert (Hc : forall k, (k < Z.to_nat PAGING_PAGES)%nat ->
      mem_map s !! k = Some (count s (Z.of_nat k))).
    { intros k Hk. rewrite <- arr_get_count by (auto; rewrite PAGING_PAGES_eq in *; lia).
      unfold arr_get. destruct (Z.ltb_spec (Z.of_nat k) 0); [lia|]. by rewrite Nat2Z.id. }
    split; [done|]. split.
    { rewrite Hc in Hz by done. congruence. }
    split.
    { intros j Hjr Hz'. apply (Hj (Z.to_nat j)); [lia|].
      rewrite Hc by lia. rewrite Z2Nat.id by lia. by rewrite Hz'. }
    rewrite page_addr_u32 by done. reflexivity.
  - left. split; [done|]. rewrite scan_free_None in Hs. intros i Hi Hz.
    apply (Hs (Z.to_nat i)); [rewrite PAGING_PAGES_eq in *; lia|].
    pose proof (arr_get_count s i Hl Hi) as Hg. unfold arr_get in Hg.
    destruct (Z.ltb_spec i 0); [lia|]. by rewrite Hg, Hz.
Qed.

Lemma take_page_count s i j :
  length (mem_map s) = Z.to_nat PAGING_PAGES -> 0 <= i < PAGING_PAGES ->
  count (take_page s i) j = if decide (j = i) then 1 else count s j.
Proof. exact (count_set s i 1 j). Qed.

Lemma take_page_reads s i :
  wf s -> 0 <= i < PAGING_PAGES -> count s i = 0 ->
  (forall x, x < LOW_MEM -> mem (take_page s i) x = mem s x) /\
  (forall d, user_dir d -> pde (take_page s i) d = pde s d) /\
  (forall d j, user_dir d -> present (pde s d) = true -> 0 <= j < 1024 ->
     pte (take_page s i) d j = pte s d j) /\
  (forall k, refs (take_page s i) k = refs s k) /\ wf (take_page s i).
Proof.
  intros Hwf Hi Hc.
  destruct (fill_page_reads s i (fun _ => 0) (wf_tables s Hwf)) as (H1 & H2 & H3); [lia| |].
  { intros d Hd Hp. by apply free_not_table. }
  assert (Hrefs : forall k, refs (take_page s i) k = refs s k).
  { intros k. apply refs_ext; auto. }
  split; [exact H1|]. split; [exact H2|]. split; [exact H3|]. split; [done|].
  split.
  - eapply tables_ok_ext; [exact (wf_tables s Hwf)| |exact H2].
    intros a. simpl. unfold clear_page. destruct (_ && _); [lia|].
    apply (ok_words s (wf_tables s Hwf)).
  - simpl. rewrite arr_set_length. apply Hwf.
  - intros j. rewrite take_page_count by (auto; apply Hwf). case_decide; [lia|apply Hwf].
  - intros j Hj. rewrite Hrefs, take_page_count by (auto; apply Hwf).
    pose proof (wf_counted s Hwf j Hj). case_decide; [subst; lia|done].
Qed.

(** ** Copying page tables *)

(** What the child's entry and the parent's entry become. *)
Definition shared (e : Z) : Z := if present e then Z.ldiff e 2 else 0.
Definition protected (e : Z) : Z :=
  if present e && (LOW_MEM <? Z.ldiff e 2) then Z.ldiff e 2 else e.

Lemma ldiff_2_frame e : 0 <= e < 2 ^ 32 -> frame (Z.ldiff e 2) = frame e.
Proof.
  intros He. pose proof (ldiff_range e 2 ltac:(lia) He) as Hr.
  rewrite (frame_alt _ Hr), (frame_alt _ He), ldiff_div_4096 by lia. done.
Qed.

Lemma ldiff_2_present e : present (Z.ldiff e 2) = present e.
Proof. rewrite !present_alt, <- !Z.bit0_odd, Z.ldiff_spec. by rewrite andb_true_r. Qed.

Lemma shared_ref e i : 0 <= e < 2 ^ 32 -> ref_to (shared e) i = ref_to e i.
Proof.
  intros He. unfold shared, ref_to. destruct (present e) eqn:Hp; [|done].
  by rewrite ldiff_2_present, Hp, ldiff_2_frame.
Qed.

Lemma protected_ref e i : 0 <= e < 2 ^ 32 -> ref_to (protected e) i = ref_to e i.
Proof.
  intros He. unfold protected, ref_to.
  destruct (present e && (LOW_MEM <? Z.ldiff e 2)); [|done].
  by rewrite ldiff_2_present, ldiff_2_frame.
Qed.

(** The test [this_page > LOW_MEM] and the index [(this_page-LOW_MEM)>>12]. *)
Lemma low_test e :
  0 <= e < 2 ^ 32 -> present e = true -> (LOW_MEM <? Z.ldiff e 2) = (LOW_MEM <=? frame e).
Proof.
  intros He Hp. rewrite <- ldiff_2_present in Hp. rewrite <- ldiff_2_frame by done.
  pose proof (ldiff_range e 2 ltac:(lia) He) as Hr.
  set (x := Z.ldiff e 2) in *. rewrite present_alt in Hp.
  rewrite frame_alt by done. unfold LOW_MEM.
  pose proof (Z.div_mod x 4096). pose proof (Z.mod_pos_bound x 4096).
  destruct (Z.ltb_spec 0x100000 x), (Z.leb_spec 0x100000 (4096 * (x / 4096))); try done; [lia|].
  assert (x = 0x100000) as -> by lia. done.
Qed.

Lemma page_index e i :
  0 <= e < 2 ^ 32 -> frame e = page_addr i -> Z.shiftr (Z.ldiff e 2 - LOW_MEM) 12 = i.
Proof.
  intros He Hf. rewrite <- ldiff_2_frame in Hf by done.
  pose proof (ldiff_range e 2 ltac:(lia) He) as Hr. set (x := Z.ldiff e 2) in *.
  rewrite frame_alt in Hf by done. unfold page_addr, LOW_MEM in *.
  rewrite Z.shiftr_div_pow2 by lia. change (2 ^ 12) with 4096.
  replace (x - 0x100000) with (x + (- 256) * 4096) by lia. rewrite Z.div_add by lia. lia.
Qed.

Definition low_same (s s' : mm) : Prop :=
  HIGH_MEMORY s' = HIGH_MEMORY s /\ forall x, x < LOW_MEM -> mem s' x = mem s x.

Lemma low_same_pde s s' d : low_same s s' -> user_dir d -> pde s' d = pde s d.
Proof.
  intros [_ H] Hd. apply H. unfold user_dir in Hd. unfold LOW_MEM, FIRST_USER_DIR in *. lia.
Qed.

Definition pte_addr (s : mm) (d j : Z) : Z := frame (pde s d) + 4 * j.

(** A table whose present entries map low memory or pages of the paging area. *)
Definition mapped_ok (e : Z) : Prop := present e = true -> frame e < page_addr PAGING_PAGES.

Lemma mapped_page e :
  0 <= e < 2 ^ 32 -> mapped_ok e -> present e = true -> LOW_MEM <= frame e ->
  exists i, 0 <= i < PAGING_PAGES /\ frame e = page_addr i.
Proof.
  intros He Hm Hp Hl. specialize (Hm Hp). rewrite frame_alt in * by done.
  exists (e / 4096 - 256). unfold page_addr, LOW_MEM in *. lia.
Qed.

Lemma ref_to_page e i j :
  present e = true -> frame e = page_addr j -> ref_to e i = if decide (i = j) then 1 else 0.
Proof.
  intros Hp Hf. unfold ref_to. rewrite Hp, Hf. unfold page_addr. simpl.
  destruct (Z.eqb_spec (LOW_MEM + 4096 * j) (LOW_MEM + 4096 * i)); case_decide; simpl; lia.
Qed.

(** What copying entry [j] of table [d1] into table [d2] does to the state. *)
Record pte_copied (s s' : mm) (d1 d2 j : Z) : Prop := mkPteCopied {
  pc_wf : wf s';
  pc_low : low_same s s';
  pc_count : forall i, 0 <= i < PAGING_PAGES -> count s' i = count s i + ref_to (pte s d1 j) i;
  pc_refs : forall i, 0 <= i < PAGING_PAGES -> refs s' i = refs s i + ref_to (pte s d1 j) i;
  pc_pte : forall d k, user_dir d -> present (pde s d) = true -> 0 <= k < 1024 ->
    pte s' d k = if decide (d = d2 /\ k = j) then shared (pte s d1 j)
                 else if decide (d = d1 /\ k = j) then protected (pte s d1 j)
                 else pte s d k
}.

(** The counts do not change what the tables refer to. *)
Lemma refs_map s f i : refs (s <| mem_map ::= f |>) i = refs s i.
Proof. apply refs_ext; reflexivity. Qed.

(** Case analysis on which entry is meant. *)
Ltac entry_cases :=
  repeat case_decide;
  repeat match goal with H : _ = _ /\ _ |- _ => destruct H end;
  subst; first [reflexivity | assumption | congruence].

Section CopyPte.
Context (s : mm) (d1 d2 j : Z).
Context (Hwf : wf s) (Hd1 : user_dir d1) (Hd2 : user_dir d2) (Hne : d1 <> d2).
Context (Hp1 : present (pde s d1) = true) (Hp2 : present (pde s d2) = true).
Context (Hj : 0 <= j < 1024) (Hempty : pte s d2 j = 0).
Context (Hok : mapped_ok (pte s d1 j)).
Context (Hroom : forall i, 0 <= i < PAGING_PAGES -> count s i + ref_to (pte s d1 j) i < 256).

Let e := pte s d1 j.
Let He : 0 <= e < 2 ^ 32 := ok_words s (wf_tables s Hwf) _.
Let s1 := s <| mem := store (mem s) (pte_addr s d2 j) (Z.ldiff e 2) |>.

(** An entry that is not present is skipped. *)
Lemma copy_absent : present e = false -> pte_copied s s d1 d2 j.
Proof.
  intros Hp. assert (Hz : forall i, ref_to e i = 0) by (intros; unfold ref_to; by rewrite Hp).
  split; [done|done| | |]; fold e.
  - intros. rewrite Hz. lia.
  - intros. rewrite Hz. lia.
  - intros d k _ _ _. unfold shared, protected. rewrite Hp. simpl.
    entry_cases.
Qed.

Lemma s1_reads :
  present e = true ->
  low_same s s1 /\ tables_ok s1 /\
  (forall i, refs s1 i = refs s i + ref_to e i) /\
  (forall d k, user_dir d -> present (pde s d) = true -> 0 <= k < 1024 ->
     pte s1 d k = if decide (d = d2 /\ k = j) then shared e else pte s d k).
Proof.
  intros Hp. destruct (store_pte_reads s d2 j (Z.ldiff e 2) (wf_tables s Hwf) Hd2 Hp2 Hj)
    as (Hlow & Hpde & Hpte).
  pose proof (ldiff_range e 2 ltac:(lia) He) as Hr.
  assert (Hu : u32 (Z.ldiff e 2) = shared e).
  { unfold shared. rewrite Hp. by apply u32_small. }
  split; [done|]. split; [eapply tables_ok_ext; [apply Hwf|by apply store_words, Hwf|done]|].
  split.
  - intros i. unfold s1, pte_addr. rewrite refs_set_pte, Hu, Hempty, shared_ref by (auto; apply Hwf).
    unfold ref_to at 2. simpl. lia.
  - intros d k Hd Hpd Hk. rewrite <- Hu. by apply Hpte.
Qed.

(** A page below 1 MB is shared without being counted or protected. *)
Lemma copy_low : present e = true -> frame e < LOW_MEM -> pte_copied s s1 d1 d2 j.
Proof.
  intros Hp Hl. destruct (s1_reads Hp) as (Hlow & Htab & Hrefs & Hpte).
  assert (Hz : forall i, 0 <= i -> ref_to e i = 0).
  { intros i Hi. unfold ref_to, page_addr. rewrite Hp.
    destruct (Z.eqb_spec (frame e) (LOW_MEM + 4096 * i)); [lia|done]. }
  split; fold e.
  - split; [done|apply Hwf|apply Hwf|]. intros i Hi. rewrite Hrefs, Hz by lia.
    pose proof (wf_counted s Hwf i Hi). unfold count in *. simpl. lia.
  - done.
  - intros i Hi. rewrite Hz by lia. unfold count. simpl. lia.
  - intros. apply Hrefs.
  - intros d k Hd Hpd Hk. rewrite Hpte by done. unfold protected. rewrite low_test, Hp by done.
    destruct (Z.leb_spec LOW_MEM (frame e)); [lia|]. entry_cases.
Qed.

Section High.
Context (i0 : Z) (Hp : present e = true) (Hi0 : 0 <= i0 < PAGING_PAGES).
Context (Hf : frame e = page_addr i0).

Let s2 := s1 <| mem := store (mem s1) (pte_addr s d1 j) (Z.ldiff e 2) |>.
Let s3 := s2 <| mem_map ::= fun l => arr_set l i0 (u8 (count s i0 + 1)) |>.

Lemma ldiff_entry : u32 (Z.ldiff e 2) = Z.ldiff e 2.
Proof. apply u32_small. apply (ldiff_range e 2); [lia|done]. Qed.

Lemma shared_high : shared e = Z.ldiff e 2.
Proof. unfold shared. by rewrite Hp. Qed.

Lemma protected_high : protected e = Z.ldiff e 2.
Proof.
  unfold protected. rewrite low_test, Hp, Hf by done.
  destruct (Z.leb_spec LOW_MEM (page_addr i0)); [done|unfold page_addr in *; lia].
Qed.

Lemma s2_reads :
  low_same s s2 /\ tables_ok s2 /\
  (forall i, refs s2 i = refs s i + ref_to e i) /\
  (forall d k, user_dir d -> present (pde s d) = true -> 0 <= k < 1024 ->
     pte s2 d k = if decide (d = d2 /\ k = j) then shared e
                  else if decide (d = d1 /\ k = j) then protected e else pte s d k).
Proof.
  destruct (s1_reads Hp) as (Hlow & Htab & Hrefs & Hpte).
  pose proof (low_same_pde _ _ d1 Hlow Hd1) as Hpde1.
  assert (Hp1' : present (pde s1 d1) = true) by congruence.
  destruct (store_pte_reads s1 d1 j (Z.ldiff e 2) Htab Hd1 Hp1' Hj) as (Hlow2 & Hpde2 & Hpte2).
  pose proof (refs_set_pte s1 d1 j (Z.ldiff e 2)) as Hrefs2.
  rewrite Hpde1 in Hlow2, Hpde2, Hpte2, Hrefs2.
  split; [|split; [|split]].
  - split; [reflexivity|]. intros x Hx. etrans; [by apply Hlow2|]. by apply Hlow.
  - eapply (tables_ok_ext s1); [done|by apply (store_words s1)|exact Hpde2].
  - intros i. etrans; [apply Hrefs2; [exact Htab|exact Hd1|congruence|exact Hj]|].
    rewrite Hpte, decide_False by (auto; intros [? _]; auto).
    fold e. rewrite ldiff_entry, <- shared_high, shared_ref, Hrefs by done. lia.
  - intros d k Hd Hpd Hk.
    etrans; [apply Hpte2; [exact Hd| |exact Hk]; by rewrite (low_same_pde _ _ d Hlow Hd)|].
    rewrite Hpte, ldiff_entry, protected_high, shared_high by done. entry_cases.
Qed.

Lemma s3_count i : count s3 i = count s i + ref_to e i.
Proof.
  assert (Hb := wf_bytes s Hwf i0). assert (Hr := Hroom i0 Hi0). fold e in Hr.
  rewrite (ref_to_page e i0 i0), decide_True in Hr by done.
  unfold s3. rewrite count_set by (try apply Hwf; done).
  rewrite u8_small, (ref_to_page e i i0) by (done || lia).
  case_decide; subst; [done|]. change (count s2 i) with (count s i). lia.
Qed.

(** A page of the paging area is write-protected on both sides and counted. *)
Lemma copy_high : pte_copied s s3 d1 d2 j.
Proof.
  destruct s2_reads as (Hlow & Htab & Hrefs & Hpte).
  split; fold e.
  - split.
    + eapply (tables_ok_ext s2); [done|exact (ok_words _ Htab)|reflexivity].
    + etrans; [apply arr_set_length|]. apply Hwf.
    + intros i. rewrite s3_count. pose proof (wf_bytes s Hwf i).
      unfold ref_to. destruct (present e && (frame e =? page_addr i)) eqn:Hr; simpl; [|lia].
      apply andb_true_iff in Hr as [_ Hr%Z.eqb_eq].
      assert (i = i0) as -> by (unfold page_addr in *; lia).
      pose proof (Hroom i0 Hi0) as Hr0. fold e in Hr0.
      rewrite (ref_to_page e i0 i0), decide_True in Hr0 by done. lia.
    + intros i Hi. unfold s3. rewrite refs_map, Hrefs. fold s3. rewrite s3_count.
      pose proof (wf_counted s Hwf i Hi). lia.
  - exact Hlow.
  - intros i _. apply s3_count.
  - intros i _. unfold s3. rewrite refs_map. apply Hrefs.
  - exact Hpte.
Qed.
End High.

Lemma copy_pte_spec n :
  exists s', copy_pte (pte_addr s d1 j) (pte_addr s d2 j) n s = Done tt s' /\
             pte_copied s s' d1 d2 j.
Proof.
  assert (Hrun : copy_pte (pte_addr s d1 j) (pte_addr s d2 j) n s =
    if negb (present e) then Done tt s else
    if LOW_MEM <? Z.ldiff e 2 then
      obind (ld_map (Z.shiftr (Z.ldiff e 2 - LOW_MEM) 12) n
               (s1 <| mem := store (mem s1) (pte_addr s d1 j) (Z.ldiff e 2) |>))
        (fun v s' => Done tt (s' <| mem_map ::= fun l =>
           arr_set l (Z.shiftr (Z.ldiff e 2 - LOW_MEM) 12) (u8 (v + 1)) |>))
    else Done tt s1).
  { unfold copy_pte, bind, ld, gets. cbn [obind]. change (mem s (pte_addr s d1 j)) with e.
    destruct (negb (present e)); [done|]. destruct (LOW_MEM <? Z.ldiff e 2); done. }
  rewrite Hrun. destruct (present e) eqn:Hp; simpl; [|eauto using copy_absent].
  rewrite low_test by done. destruct (Z.leb_spec LOW_MEM (frame e)) as [Hl|Hl];
    [|eauto using copy_low].
  destruct (mapped_page e He Hok Hp Hl) as (i0 & Hi0 & Hf).
  rewrite (page_index e i0) by done. unfold ld_map, deref.
  change (mem_map (s1 <| mem := _ |>)) with (mem_map s).
  rewrite arr_get_count by (try apply Hwf; done). cbn [obind].
  eexists. split; [reflexivity|]. by apply copy_high.
Qed.
End CopyPte.

(** References to page [i] from the first [k] entries of table [d]. *)
Definition table_refs (s : mm) (d i : Z) (k : nat) : Z :=
  zsum (fun j => ref_to (pte s d j) i) (zrange 0 k).

Lemma table_refs_S s d i k :
  table_refs s d i (S k) = table_refs s d i k + ref_to (pte s d (Z.of_nat k)) i.
Proof.
  unfold table_refs. replace (S k) with (k + 1)%nat by lia. rewrite zrange_app, zsum_app.
  cbn [zrange zsum]. rewrite Z.add_0_l. lia.
Qed.

Lemma table_refs_nonneg s d i k : 0 <= table_refs s d i k.
Proof. apply zsum_nonneg. intros. apply ref_to_range. Qed.

Lemma table_refs_mono s d i k : (k <= 1024)%nat -> table_refs s d i k <= table_refs s d i 1024.
Proof.
  intros Hk. unfold table_refs. replace 1024%nat with (k + (1024 - k))%nat by lia.
  rewrite zrange_app, zsum_app.
  pose proof (zsum_nonneg (fun j => ref_to (pte s d j) i)
    (zrange (0 + Z.of_nat k) (1024 - k)) ltac:(intros; apply ref_to_range)). lia.
Qed.

Record table_copied (s0 s : mm) (d1 d2 : Z) (k : Z) : Prop := mkTableCopied {
  tc_wf : wf s;
  tc_low : low_same s0 s;
  tc_count : forall i, 0 <= i < PAGING_PAGES ->
    count s i = count s0 i + table_refs s0 d1 i (Z.to_nat k);
  tc_refs : forall i, 0 <= i < PAGING_PAGES ->
    refs s i = refs s0 i + table_refs s0 d1 i (Z.to_nat k);
  tc_pte : forall d j, user_dir d -> present (pde s0 d) = true -> 0 <= j < 1024 ->
    pte s d j = if decide (d = d2 /\ j < k) then shared (pte s0 d1 j)
                else if decide (d = d1 /\ j < k) then protected (pte s0 d1 j)
                else pte s0 d j
}.

(** The inner loop of [copy_page_tables] over a whole table. *)
Lemma copy_table_spec s0 d1 d2 :
  wf s0 -> user_dir d1 -> user_dir d2 -> d1 <> d2 ->
  present (pde s0 d1) = true -> present (pde s0 d2) = true ->
  (forall j, 0 <= j < 1024 -> pte s0 d2 j = 0) ->
  (forall j, 0 <= j < 1024 -> mapped_ok (pte s0 d1 j)) ->
  (forall i, 0 <= i < PAGING_PAGES -> count s0 i + table_refs s0 d1 i 1024 < 256) ->
  total (fun s => s = s0) (copy_table (frame (pde s0 d1)) (frame (pde s0 d2)) 1024)
        (fun _ s => table_copied s0 s d1 d2 1024).
Proof.
  intros Hwf Hd1 Hd2 Hne Hp1 Hp2 Hempty Hok Hroom.
  eapply triple_conseq;
    [apply (triple_for_range _ _ _ _ (fun k s => table_copied s0 s d1 d2 k) 1024 0)| |].
  - intros k Hk n s _ [Hs Hlow Hc Hr Hp].
    rewrite <- (low_same_pde _ _ d1 Hlow Hd1), <- (low_same_pde _ _ d2 Hlow Hd2).
    cbv beta. fold (pte_addr s d1 k) (pte_addr s d2 k).
    assert (Hk' : 0 <= k < 1024) by lia.
    assert (E1 : pte s d1 k = pte s0 d1 k).
    { rewrite Hp by done. rewrite !decide_False by (intros [? ?]; lia). done. }
    assert (Hto : (Z.to_nat (k + 1) = S (Z.to_nat k))%nat) by lia.
    assert (Hsum : forall i, table_refs s0 d1 i (Z.to_nat (k + 1))
        = table_refs s0 d1 i (Z.to_nat k) + ref_to (pte s0 d1 k) i).
    { intros i. rewrite Hto, table_refs_S. rewrite Z2Nat.id by lia. done. }
    destruct (copy_pte_spec s d1 d2 k) with (n := n) as (s' & -> & [Hs' Hlow' Hc' Hr' Hp']);
      try done.
    + by rewrite (low_same_pde _ _ d1 Hlow Hd1).
    + by rewrite (low_same_pde _ _ d2 Hlow Hd2).
    + rewrite Hp by done. rewrite !decide_False by (intros [? ?]; lia). by apply Hempty.
    + rewrite E1. by apply Hok.
    + intros i Hi. rewrite E1, Hc by done. specialize (Hroom i Hi).
      pose proof (table_refs_mono s0 d1 i (Z.to_nat (k + 1)) ltac:(lia)).
      rewrite Hsum in H. lia.
    + simpl. split; [done|]. split.
      * done.
      * destruct Hlow as [Hh Hl], Hlow' as [Hh' Hl']. split; [congruence|].
        intros x Hx. rewrite Hl' by done. by apply Hl.
      * intros i Hi. rewrite Hc', Hc, Hsum, E1 by done. lia.
      * intros i Hi. rewrite Hr', Hr, Hsum, E1 by done. lia.
      * intros d j Hd Hpd Hj.
        rewrite Hp' by (try done; by rewrite (low_same_pde _ _ d Hlow Hd)).
        rewrite E1, Hp by done.
        destruct (decide (j = k)) as [->|Hjk].
        -- destruct (decide (d = d2)) as [->|]; [by rewrite !decide_True by lia|].
           destruct (decide (d = d1)) as [->|];
             [|by rewrite !decide_False by (intros [? ?]; done || lia)].
           rewrite (decide_False (P := d1 = d2 /\ _)) by (intros [? ?]; done).
           rewrite (decide_True (P := d1 = d1 /\ _)) by done.
           rewrite (decide_False (P := d1 = d2 /\ _)) by (intros [? ?]; done).
           by rewrite (decide_True (P := d1 = d1 /\ _)) by (split; [done|lia]).
        -- rewrite !(decide_False (P := _ = _ /\ j = k)) by (intros [? ?]; done).
           repeat case_decide; try done; exfalso; lia.
  - intros s _ ->. split; [done|done| | |].
    + intros. unfold table_refs. simpl. lia.
    + intros. unfold table_refs. simpl. lia.
    + intros d j Hd Hpd Hj. rewrite !decide_False by (intros [? ?]; lia). done.
  - intros ? s _ H. exact H.
Qed.

(** One directory entry of a range of [copy_page_tables].  The room left in the
    counts is measured against all the tables still to be copied. *)
Definition dir_table_refs (s : mm) (d i : Z) : Z :=
  if present (pde s d) then table_refs s d i 1024 else 0.

Lemma dir_table_refs_le s d i : user_dir d -> dir_table_refs s d i <= refs s i.
Proof.
  intros Hd. transitivity (dir_refs s i d).
  - unfold dir_table_refs, dir_refs, table_refs. pose proof (ref_to_range (pde s d) i).
    destruct (present _); lia.
  - unfold refs. apply zsum_ge; [intros; apply dir_refs_nonneg|by apply user_dirs_elem].
Qed.

Record dir_copied (s s' : mm) (d1 d2 : Z) : Prop := mkDirCopied {
  dc_wf : wf s';
  dc_high : HIGH_MEMORY s' = HIGH_MEMORY s;
  dc_extra : forall i, 0 <= i < PAGING_PAGES -> extra s' i = extra s i;
  dc_pde : forall d, user_dir d -> d <> d2 -> pde s' d = pde s d;
  dc_count : forall i, 0 <= i < PAGING_PAGES ->
    count s' i <= count s i + dir_table_refs s d1 i \/
    count s i = 0 /\ count s' i = 1;
  dc_old : forall d j, user_dir d -> present (pde s d) = true -> 0 <= j < 1024 ->
    pte s' d j = if decide (d = d1) then protected (pte s d j) else pte s d j;
  dc_new : if present (pde s d1)
           then present (pde s' d2) = true /\
                forall j, 0 <= j < 1024 -> pte s' d2 j = shared (pte s d1 j)
           else pde s' d2 = pde s d2
}.

Section CopyDir.
Context (s : mm) (d2 t : Z) (Hwf : wf s) (Hd2 : user_dir d2).
Context (Hp2 : present (pde s d2) = false).
Context (Ht : 0 <= t < PAGING_PAGES) (Hfree : count s t = 0).

Let s1 := take_page s t.
Let s2 := s1 <| mem := store (mem s1) (4 * d2) (Z.lor (page_addr t) 7) |>.

Lemma install_reads :
  HIGH_MEMORY s2 = HIGH_MEMORY s /\
  (forall d, user_dir d -> pde s2 d = if decide (d = d2) then Z.lor (page_addr t) 7 else pde s d) /\
  (forall d j, user_dir d -> present (pde s d) = true -> 0 <= j < 1024 -> pte s2 d j = pte s d j) /\
  (forall j, 0 <= j < 1024 -> pte s2 d2 j = 0) /\
  (forall i, count s2 i = if decide (i = t) then 1 else count s i) /\
  (forall i, refs s2 i = refs s i + (if decide (i = t) then 1 else 0)) /\
  wf s2.
Proof.
  destruct (take_page_reads s t Hwf Ht Hfree) as (Hlow1 & Hpde1 & Hpte1 & Hrefs1 & Hwf1).
  destruct (page_entry t Ht) as (Hu & Hf & Hpr). fold s1 in Hlow1, Hpde1, Hpte1, Hrefs1, Hwf1.
  assert (Hpde : forall d, user_dir d ->
    pde s2 d = if decide (d = d2) then Z.lor (page_addr t) 7 else pde s d).
  { intros d Hd. unfold pde, s2. cbn [mem upd]. simpl. unfold store.
    destruct (Z.eqb_spec (4 * d) (4 * d2)); case_decide; try lia; try done.
    apply (Hpde1 d Hd). }
  assert (Hhigh : forall x, LOW_MEM <= x -> mem s2 x = mem s1 x).
  { intros x Hx. unfold s2. simpl. unfold store, user_dir, LOW_MEM in *.
    destruct (Z.eqb_spec x (4 * d2)); [lia|done]. }
  assert (Hzero : forall x, page_addr t <= x < page_addr t + 4096 -> mem s1 x = 0).
  { intros x Hx. unfold s1, take_page. simpl. unfold clear_page.
    destruct (Z.leb_spec (page_addr t) x), (Z.ltb_spec x (page_addr t + 4096)); simpl; done || lia. }
  assert (Hp2' : present (pde s1 d2) = false) by (rewrite Hpde1; done).
  assert (Hrefs : forall i, refs s2 i = refs s i + (if decide (i = t) then 1 else 0)).
  { intros i. unfold s2. rewrite refs_install by (try done; apply Hwf1). rewrite Hrefs1. f_equal.
    unfold page_addr. destruct (Z.eqb_spec (LOW_MEM + 4096 * t) (LOW_MEM + 4096 * i));
      case_decide; simpl; lia. }
  assert (Hcount : forall i, count s2 i = if decide (i = t) then 1 else count s i).
  { intros i. etrans; [|apply (take_page_count s t i); [apply Hwf|done]]. done. }
  split; [done|]. split; [done|]. split.
  { intros d j Hd Hp Hj. unfold pte. rewrite Hpde by done.
    rewrite decide_False by (intros ->; congruence).
    destruct (ok_table s (wf_tables s Hwf) d Hd Hp) as (t' & Ht' & Hft').
    rewrite Hhigh by (unfold page_addr in *; lia).
    pose proof (Hpte1 d j Hd Hp Hj) as E. unfold pte in E. rewrite (Hpde1 d Hd) in E. exact E. }
  split.
  { intros j Hj. unfold pte. rewrite Hpde, decide_True, Hf by done.
    rewrite Hhigh by (unfold page_addr in *; lia). apply Hzero. lia. }
  split; [done|]. split; [done|]. split.
  - split.
    + intros a. apply (store_words s1 (4 * d2)). apply Hwf1.
    + intros d Hd. rewrite Hpde by done. case_decide; [eauto|]. exact (ok_table s (wf_tables s Hwf) d Hd).
    + intros d d' Hd Hd'. rewrite !Hpde by done. repeat case_decide; subst; try done.
      * intros _ Hp Heq. exfalso. rewrite Hf in Heq. by apply (free_not_table s d' t).
      * intros Hp _ Heq. exfalso. rewrite Hf in Heq. by apply (free_not_table s d t).
      * by apply (ok_distinct s (wf_tables s Hwf)).
  - apply Hwf1.
  - intros i. rewrite Hcount. case_decide; [lia|apply Hwf].
  - intros i Hi. rewrite Hrefs, Hcount. pose proof (wf_counted s Hwf i Hi).
    case_decide; [subst; lia|lia].
Qed.
End CopyDir.

(** What one iteration of the outer loop of [copy_page_tables] does when the room
    in the reference counts is enough. *)
Lemma copy_dir_spec s from d1 d2 :
  wf s -> user_dir d1 -> user_dir d2 -> d1 <> d2 -> from <> 0 ->
  present (pde s d2) = false ->
  (present (pde s d1) = true -> forall j, 0 <= j < 1024 -> mapped_ok (pte s d1 j)) ->
  (forall i, 0 <= i < PAGING_PAGES -> count s i + dir_table_refs s d1 i < 256) ->
  total (fun s' => s' = s) (copy_dir from (4 * d1) (4 * d2))
    (fun r s' => match r with
                 | None => dir_copied s s' d1 d2
                 | Some v => v = -1 /\ s' = s
                 end).
Proof.
  intros Hwf Hd1 Hd2 Hne Hfrom Hp2 Hok Hroom n s' _ ->.
  unfold copy_dir, bind, ld, gets. cbn [obind].
  change (mem s (4 * d2)) with (pde s d2). rewrite Hp2. cbn [obind].
  change (mem s (4 * d1)) with (pde s d1).
  destruct (present (pde s d1)) eqn:Hp1; cbn [negb]; cycle 1.
  { unfold ret. cbn [sat].  split; [done|]. cbv beta iota. split; try done.
    - intros i _. left. unfold dir_table_refs. rewrite Hp1. lia.
    - intros d j Hd Hp _. rewrite decide_False; [done|]. intros ->. congruence.
    - by rewrite Hp1. }
  destruct (get_free_page_run n s (wf_map s Hwf)) as [[-> _]|(t & Ht & Hfree & _ & ->)].
  { done. }
  cbn [obind]. replace (negb (nz (page_addr t))) with false; cycle 1.
  { unfold nz, page_addr, LOW_MEM. destruct (Z.eqb_spec (0x100000 + 4096 * t) 0); [lia|done]. }
  replace (if from =? 0 then 160%nat else 1024%nat) with 1024%nat by (destruct (Z.eqb_spec from 0); done).
  destruct (install_reads s d2 t Hwf Hd2 Hp2 Ht Hfree)
    as (Hh & Hpde & Hpte & Hzero & Hcount & Hrefs & Hwf2).
  unfold st, modify. cbn [obind].
  set (s2 := (take_page s t) <| mem := store (mem (take_page s t)) (4 * d2) (Z.lor (page_addr t) 7) |>) in *.
  match goal with
  | |- context [ upd mem ?f (take_page s t) ] => change (upd mem f (take_page s t)) with s2
  end.
  destruct (page_entry t Ht) as (_ & Hf & Hpr).
  assert (Hp1' : pde s2 d1 = pde s d1) by (rewrite Hpde, decide_False by done; done).
  assert (Hp2' : pde s2 d2 = Z.lor (page_addr t) 7) by (rewrite Hpde, decide_True by done; done).
  assert (Htr : forall i k, (k <= 1024)%nat -> table_refs s2 d1 i k = table_refs s d1 i k).
  { intros i k Hk. apply zsum_ext. intros j Hj%zrange_elem. rewrite Hpte; [done|done|done|lia]. }
  assert (Hdtr : forall i, dir_table_refs s d1 i = table_refs s d1 i 1024).
  { intros i. unfold dir_table_refs. by rewrite Hp1. }
  assert (Ht0 : table_refs s d1 t 1024 = 0).
  { pose proof (dir_table_refs_le s d1 t Hd1). pose proof (wf_counted s Hwf t Ht).
    pose proof (table_refs_nonneg s d1 t 1024). rewrite Hdtr in *. lia. }
  pose proof (copy_table_spec s2 d1 d2 Hwf2 Hd1 Hd2 Hne) as Hct.
  rewrite Hp1', Hp2', Hf in Hct.
  replace (frame (Z.lor (page_addr t) 7)) with (page_addr t) in Hct by done.
  eapply sat_bind; [apply Hct; try done|].
  - intros j Hj. rewrite Hpte by done. by apply Hok.
  - intros i Hi. rewrite Hcount, Htr by done. case_decide; [subst i; lia|].
    rewrite <- Hdtr. by apply Hroom.
  - intros [] s' _ [Hw Hlow Hc Hr Hp]. unfold ret. cbn [sat]. split; [done|].
    cbv beta iota. split; [done| | | | | |].
    + destruct Hlow as [-> _]. done.
    + intros i Hi. unfold extra. rewrite Hc, Hr, Hcount, Hrefs by done.
      case_decide; [subst; lia|lia].
    + intros d Hd Hnd. rewrite (low_same_pde _ _ d Hlow Hd), Hpde by done.
      by rewrite decide_False.
    + intros i Hi. rewrite Hc, Hcount by done. change (Z.to_nat 1024) with 1024%nat.
      rewrite Htr, Hdtr by done. case_decide; [subst; right; lia|left; lia].
    + intros d j Hd Hpd Hj.
      assert (Hnd : d <> d2) by congruence.
      rewrite Hp by (try done; rewrite Hpde, decide_False by done; done).
      rewrite decide_False by (intros [? ?]; done).
      rewrite !Hpte by done. destruct (decide (d = d1)) as [->|].
      * by rewrite decide_True by (split; [done|lia]).
      * by rewrite decide_False by (intros [? ?]; done).
    + rewrite Hp1. split.
      * by rewrite (low_same_pde _ _ d2 Hlow Hd2), Hp2'.
      * intros j Hj. rewrite Hp by (try done; by rewrite Hp2').
        rewrite decide_True by (split; [done|lia]). by rewrite Hpte.
Qed.

(** The references of the [m] tables from [d] on. *)
Definition range_refs (s : mm) (d : Z) (m : nat) (i : Z) : Z :=
  zsum (fun x => dir_table_refs s x i) (zrange d m).

Lemma dir_table_refs_nonneg s d i : 0 <= dir_table_refs s d i.
Proof. unfold dir_table_refs. destruct (present _); [apply table_refs_nonneg|lia]. Qed.

Lemma range_refs_nonneg s d m i : 0 <= range_refs s d m i.
Proof. apply zsum_nonneg. intros. apply dir_table_refs_nonneg. Qed.

(** No reference to a page the kernel counts as free. *)
Lemma range_refs_free s d m i :
  wf s -> (forall k, d <= k < d + Z.of_nat m -> user_dir k) ->
  0 <= i < PAGING_PAGES -> count s i = 0 -> range_refs s d m i = 0.
Proof.
  intros Hwf Hd Hi Hc. apply zsum_zero. intros k Hk%zrange_elem.
  pose proof (dir_table_refs_le s k i (Hd k Hk)). pose proof (dir_table_refs_nonneg s k i).
  pose proof (wf_counted s Hwf i Hi). lia.
Qed.

(** The outer loop after [k] of its [n] iterations. *)
Record range_copied (s0 s : mm) (d1 d2 n k : Z) : Prop := mkRangeCopied {
  rc_wf : wf s;
  rc_high : HIGH_MEMORY s = HIGH_MEMORY s0;
  rc_extra : forall i, 0 <= i < PAGING_PAGES -> extra s i = extra s0 i;
  rc_pde : forall d, user_dir d -> ~ (d2 <= d < d2 + k) -> pde s d = pde s0 d;
  rc_old : forall d j, user_dir d -> present (pde s0 d) = true -> 0 <= j < 1024 ->
    pte s d j = if decide (d1 <= d < d1 + k) then protected (pte s0 d j) else pte s0 d j;
  rc_new : forall m, 0 <= m < k ->
    if present (pde s0 (d1 + m))
    then present (pde s (d2 + m)) = true /\
         forall j, 0 <= j < 1024 -> pte s (d2 + m) j = shared (pte s0 (d1 + m) j)
    else pde s (d2 + m) = pde s0 (d2 + m);
  rc_room : forall i, 0 <= i < PAGING_PAGES ->
    count s i + range_refs s0 (d1 + k) (Z.to_nat (n - k)) i < 256
}.

(** The parent's tables and the empty destination of [copy_page_tables]. *)
Record copy_range_ok (s : mm) (d1 d2 n : Z) : Prop := mkCopyRangeOk {
  cr_wf : wf s;
  cr_from : forall k, d1 <= k < d1 + n -> user_dir k;
  cr_to : forall k, d2 <= k < d2 + n -> user_dir k;
  cr_disjoint : d1 + n <= d2 \/ d2 + n <= d1;
  cr_empty : forall k, d2 <= k < d2 + n -> present (pde s k) = false;
  cr_mapped : forall k j, d1 <= k < d1 + n -> present (pde s k) = true -> 0 <= j < 1024 ->
    mapped_ok (pte s k j);
  cr_room : forall i, 0 <= i < PAGING_PAGES ->
    count s i + range_refs s d1 (Z.to_nat n) i < 256
}.

Section CopyRange.
Context (s0 : mm) (from d1 d2 n : Z) (Hn : 0 <= n) (Hfrom : from <> 0).
Context (Hok : copy_range_ok s0 d1 d2 n).

Lemma range_start : range_copied s0 s0 d1 d2 n 0.
Proof.
  split; try done.
  - apply Hok.
  - intros d j _ _ _. by rewrite decide_False by lia.
  - intros m Hm. lia.
  - intros i Hi. rewrite Z.add_0_r, Z.sub_0_r. by apply (cr_room _ _ _ _ Hok).
Qed.

(** A destination entry is still empty when its turn comes, and its source
    table is still what it was. *)
Lemma range_step k s s' :
  0 <= k < n -> range_copied s0 s d1 d2 n k ->
  dir_copied s s' (d1 + k) (d2 + k) -> range_copied s0 s' d1 d2 n (k + 1).
Proof.
  intros Hk [Hw Hh He Hp Hold Hnew Hroom] [Hw' Hh' He' Hp' Hc' Hold' Hnew'].
  pose proof (cr_disjoint _ _ _ _ Hok) as Hdis.
  assert (Hu1 : user_dir (d1 + k)) by (apply (cr_from _ _ _ _ Hok); lia).
  assert (Hu2 : forall m, 0 <= m < n -> user_dir (d2 + m)) by (intros; apply (cr_to _ _ _ _ Hok); lia).
  assert (Hpd : forall m, 0 <= m < n -> pde s (d1 + m) = pde s0 (d1 + m)).
  { intros m Hm. apply Hp; [apply (cr_from _ _ _ _ Hok)|]; lia. }
  assert (Hpt : forall j, present (pde s0 (d1 + k)) = true -> 0 <= j < 1024 ->
            pte s (d1 + k) j = pte s0 (d1 + k) j).
  { intros j Hpk Hj. rewrite Hold by done. by rewrite decide_False by lia. }
  split; [done|congruence| | | | |].
  - intros i Hi. rewrite He', He; done.
  - intros d Hd Hnd. rewrite Hp' by (done || lia). apply Hp; [done|lia].
  - intros d j Hd Hpd0 Hj.
    assert (Hnd2 : ~ d2 <= d < d2 + n).
    { intros Hin. rewrite (cr_empty _ _ _ _ Hok d Hin) in Hpd0. done. }
    rewrite Hold' by (try done; rewrite Hp by (done || lia); done).
    rewrite Hold by done. repeat case_decide; try lia; done.
  - intros m Hm. destruct (decide (m = k)) as [->|Hne].
    + rewrite Hpd in Hnew' by lia. destruct (present (pde s0 (d1 + k))) eqn:Hpk.
      * destruct Hnew' as [Hq1 Hq2]. split; [done|]. intros j Hj. by rewrite Hq2, Hpt.
      * rewrite Hnew'. apply Hp; [apply Hu2; lia|lia].
    + specialize (Hnew m ltac:(lia)). rewrite Hp' by (try apply Hu2; lia).
      destruct (present (pde s0 (d1 + m))) eqn:Hpm; [|done].
      destruct Hnew as [Hq1 Hq2]. split; [done|]. intros j Hj.
      rewrite Hold' by (try apply Hu2; done || lia). rewrite decide_False by lia. by apply Hq2.
  - intros i Hi. specialize (Hroom i Hi).
    replace (Z.to_nat (n - k)) with (S (Z.to_nat (n - (k + 1)))) in Hroom by lia.
    unfold range_refs in Hroom. cbn [zrange zsum] in Hroom.
    fold (range_refs s0 (d1 + k + 1) (Z.to_nat (n - (k + 1))) i) in Hroom.
    replace (d1 + (k + 1)) with (d1 + k + 1) by lia.
    assert (Hdt : dir_table_refs s (d1 + k) i = dir_table_refs s0 (d1 + k) i).
    { unfold dir_table_refs. rewrite Hpd by lia.
      destruct (present (pde s0 (d1 + k))) eqn:Hpk; [|done].
      apply zsum_ext. intros j Hj%zrange_elem. rewrite Hpt; [done|done|lia]. }
    destruct (Hc' i Hi) as [Hle|[Hz H1]]; [rewrite Hdt in Hle; lia|].
    rewrite H1.
    assert (range_refs s0 (d1 + k + 1) (Z.to_nat (n - (k + 1))) i = 0); [|lia].
    assert (Hx : extra s i = extra s0 i) by auto. unfold extra in Hx.
    apply zsum_zero. intros d Hd%zrange_elem.
    assert (Hud : user_dir d) by (apply (cr_from _ _ _ _ Hok); lia).
    assert (Hds : dir_table_refs s0 d i = dir_table_refs s d i).
    { unfold dir_table_refs. rewrite Hp by (done || lia).
      destruct (present (pde s0 d)) eqn:Hpk; [|done].
      apply zsum_ext. intros j Hj%zrange_elem. rewrite Hold by (done || lia).
      by rewrite decide_False by lia. }
    rewrite Hds. pose proof (dir_table_refs_le s d i Hud).
    pose proof (dir_table_refs_nonneg s d i). pose proof (wf_counted s Hw i Hi). lia.
Qed.
End CopyRange.

(** ** Linear addresses *)

Lemma dir_entry_aligned d :
  0 <= d < 1024 -> dir_entry_of (0x400000 * d) = 4 * d /\ Z.land (0x400000 * d) 0x3fffff = 0.
Proof.
  intros Hd.
  assert (H : forallb (fun d => (dir_entry_of (0x400000 * d) =? 4 * d)
                && (Z.land (0x400000 * d) 0x3fffff =? 0)) (zrange 0 1024) = true) by (vm_compute; done).
  rewrite forallb_forall in H. specialize (H d (proj2 (zrange_elem 0 1024 d) ltac:(lia))). bprop. done.
Qed.

Lemma copy_range_total s d1 d2 n from :
  0 <= n -> user_dir d1 -> from <> 0 -> copy_range_ok s d1 d2 n ->
  total (fun s' => s' = s)
    (for_break (zrange 0 (Z.to_nat n)) (fun i => copy_dir from (4 * d1 + 4 * i) (4 * d2 + 4 * i)))
    (fun r s' => match r with
       | None => range_copied s s' d1 d2 n n
       | Some v => v = -1 /\ exists k, 0 <= k < n /\ range_copied s s' d1 d2 n k
       end).
Proof.
  intros Hn Hd1 Hfrom Hok.
  eapply triple_conseq; [apply (triple_for_break_range _ _ _ _
      (fun k s' => range_copied s s' d1 d2 n k)
      (fun v s' => v = -1 /\ exists k, 0 <= k < n /\ range_copied s s' d1 d2 n k))| |].
  - intros k Hk m s1 _ Hrc. assert (Hk' : 0 <= k < n) by lia.
    replace (4 * d1 + 4 * k) with (4 * (d1 + k)) by lia.
    replace (4 * d2 + 4 * k) with (4 * (d2 + k)) by lia.
    pose proof (cr_disjoint _ _ _ _ Hok) as Hdis.
    assert (Hu1 : user_dir (d1 + k)) by (apply (cr_from _ _ _ _ Hok); lia).
    assert (Hu2 : user_dir (d2 + k)) by (apply (cr_to _ _ _ _ Hok); lia).
    assert (Hp1 : pde s1 (d1 + k) = pde s (d1 + k)) by (apply (rc_pde _ _ _ _ _ _ Hrc); [done|lia]).
    assert (Hp2 : pde s1 (d2 + k) = pde s (d2 + k)) by (apply (rc_pde _ _ _ _ _ _ Hrc); [done|lia]).
    assert (Hpt : forall j, present (pde s (d1 + k)) = true -> 0 <= j < 1024 ->
       pte s1 (d1 + k) j = pte s (d1 + k) j).
    { intros j Hp Hj. rewrite (rc_old _ _ _ _ _ _ Hrc) by done. rewrite decide_False by lia. done. }
    eapply sat_mono; [apply copy_dir_spec with (s := s1) (d1 := d1 + k) (d2 := d2 + k); try done|].
    + apply Hrc.
    + lia.
    + rewrite Hp2. apply (cr_empty _ _ _ _ Hok). lia.
    + intros Hpk j Hj. rewrite Hp1 in Hpk. rewrite Hpt by done.
      apply (cr_mapped _ _ _ _ Hok); (done || lia).
    + intros i Hi. pose proof (rc_room _ _ _ _ _ _ Hrc i Hi) as Hr.
      replace (Z.to_nat (n - k)) with (S (Z.to_nat (n - k - 1))) in Hr by lia.
      unfold range_refs in Hr. cbn [zrange zsum] in Hr.
      pose proof (range_refs_nonneg s (d1 + k + 1) (Z.to_nat (n - k - 1)) i) as Hnn.
      unfold range_refs in Hnn.
      assert (dir_table_refs s1 (d1 + k) i = dir_table_refs s (d1 + k) i); [|lia].
      unfold dir_table_refs. rewrite Hp1. destruct (present (pde s (d1 + k))) eqn:Hpk; [|done].
      apply zsum_ext. intros j Hj%zrange_elem. rewrite Hpt; [done|done|lia].
    + intros [v|] s2 _ H; cbv beta iota in *.
      * destruct H as [-> ->]. split; [done|]. by exists k.
      * eapply range_step; eauto.
  - intros s' _ ->. apply range_start; done.
  - intros [v|] s' _ H; cbv beta iota in *; [done|].
    replace (0 + Z.of_nat (Z.to_nat n)) with n in H by lia. done.
Qed.

(** Directory and table index of a linear address. *)
Definition dir_of (a : Z) : Z := (a / 0x400000) mod 1024.
Definition idx_of (a : Z) : Z := (a / 0x1000) mod 1024.

Lemma land_ffc x : Z.land x 0xffc = 4 * ((x / 4) mod 1024).
Proof.
  change 0xffc with (Z.shiftl (Z.ones 10) 2). change 1024 with (2 ^ 10).
  rewrite <- Z.land_ones by lia. change 4 with (2 ^ 2) at 2. rewrite <- Z.shiftr_div_pow2 by lia.
  rewrite Z.mul_comm. change 4 with (2 ^ 2). rewrite <- Z.shiftl_mul_pow2 by lia.
  apply Z.bits_inj'. intros i Hi. rewrite Z.land_spec, !Z.shiftl_spec, Z.land_spec by lia.
  destruct (Z.lt_ge_cases i 2).
  - rewrite !(Z.testbit_neg_r _ (i - 2)) by lia. by rewrite andb_false_r.
  - rewrite Z.shiftr_spec by lia. f_equal. f_equal. lia.
Qed.

Lemma dir_entry_of_alt a : dir_entry_of a = 4 * dir_of a.
Proof.
  unfold dir_entry_of, dir_of. rewrite land_ffc, Z.shiftr_div_pow2 by lia.
  rewrite Z.div_div by lia. done.
Qed.

Lemma pte_offset_alt a : pte_offset a = 4 * idx_of a.
Proof.
  unfold pte_offset, idx_of. rewrite land_ffc, Z.shiftr_div_pow2 by lia.
  rewrite Z.div_div by lia. done.
Qed.

Lemma idx_alt a : Z.land (Z.shiftr a 12) 0x3ff = idx_of a.
Proof.
  change 0x3ff with (Z.ones 10). rewrite Z.land_ones, Z.shiftr_div_pow2 by lia. done.
Qed.

Lemma idx_of_range a : 0 <= idx_of a < 1024.
Proof. apply Z.mod_pos_bound. lia. Qed.

Lemma MAP_NR_page i : 0 <= i < PAGING_PAGES -> MAP_NR (page_addr i) = i.
Proof.
  rewrite PAGING_PAGES_eq. intros Hi. unfold MAP_NR, page_addr.
  rewrite Z.shiftr_div_pow2 by lia. change (2 ^ 12) with 4096.
  replace (LOW_MEM + 4096 * i - LOW_MEM) with (i * 4096) by lia.
  rewrite u32_small by lia. by rewrite Z.div_mul.
Qed.

Lemma page_addr_nz i : 0 <= i -> nz (page_addr i) = true.
Proof. intros Hi. apply nz_true. unfold page_addr, LOW_MEM. lia. Qed.

(** ** Mapping a page *)

(** The state in which entry [j] of the existing table [d] maps page [p]. *)
Definition map_page (s : mm) (d j p : Z) : mm :=
  s <| mem := store (mem s) (pte_addr s d j) (Z.lor (page_addr p) 7) |>.

Record page_mapped (s s' : mm) (d j p : Z) : Prop := mkPageMapped {
  pm_wf : wf s';
  pm_extra : forall i, 0 <= i < PAGING_PAGES ->
    extra s' i = extra s i - (if decide (i = p) then 1 else 0);
  pm_present : present (pde s' d) = true;
  pm_dirs : forall d', user_dir d' -> present (pde s d') = true -> pde s' d' = pde s d';
  pm_pte : pte s' d j = Z.lor (page_addr p) 7;
  pm_other : forall d' j', user_dir d' -> present (pde s d') = true -> 0 <= j' < 1024 ->
    ~ (d' = d /\ j' = j) -> pte s' d' j' = pte s d' j'
}.

Lemma map_page_spec s d j p :
  wf s -> user_dir d -> present (pde s d) = true -> 0 <= j < 1024 ->
  0 <= p < PAGING_PAGES -> 1 <= extra s p -> present (pte s d j) = false ->
  page_mapped s (map_page s d j p) d j p.
Proof.
  intros Hwf Hd Hp Hj Hpg Hex Habs. destruct (page_entry p Hpg) as (Hu & Hf & Hpr).
  destruct (store_pte_reads s d j (Z.lor (page_addr p) 7) (wf_tables s Hwf) Hd Hp Hj)
    as (Hlow & Hpde & Hpte). fold (pte_addr s d j) in Hlow, Hpde, Hpte.
  fold (map_page s d j p) in Hlow, Hpde, Hpte.
  assert (Hrefs : forall i, refs (map_page s d j p) i = refs s i + if decide (i = p) then 1 else 0).
  { intros i. unfold map_page, pte_addr. rewrite refs_set_pte by (done || apply Hwf).
    rewrite Hu, (ref_to_page _ i p) by done. unfold ref_to. rewrite Habs. simpl. lia. }
  split.
  - split.
    + eapply (tables_ok_ext s); [apply Hwf|by apply store_words, Hwf|exact Hpde].
    + apply Hwf.
    + apply Hwf.
    + intros i Hi. rewrite Hrefs. change (count (map_page s d j p) i) with (count s i).
      pose proof (wf_counted s Hwf i Hi). unfold extra in Hex. case_decide; subst; lia.
  - intros i Hi. unfold extra. rewrite Hrefs. change (count (map_page s d j p) i) with (count s i). lia.
  - by rewrite Hpde.
  - intros d' Hd' _. by apply Hpde.
  - rewrite Hpte by done. by rewrite decide_True.
  - intros d' j' Hd' Hp' Hj' Hne. rewrite Hpte by done. by rewrite decide_False.
Qed.

(** [put_page] on a page the caller owns, at an address with no page yet. *)
Lemma put_page_spec s p a :
  wf s -> 0 <= p < PAGING_PAGES -> 1 <= extra s p ->
  user_dir (dir_of a) ->
  (present (pde s (dir_of a)) = true -> present (pte s (dir_of a) (idx_of a)) = false) ->
  total (fun s' => s' = s) (put_page (page_addr p) a)
    (fun r s' => (r = 0 /\ s' = s /\ present (pde s (dir_of a)) = false) \/
                 (r = page_addr p /\ page_mapped s s' (dir_of a) (idx_of a) p)).
Proof.
  intros Hwf Hp Hex Hd Habs n s' _ ->. pose proof (idx_of_range a) as Hj.
  unfold put_page, bind, get, ld_map, deref, ld, gets, when, printk, ret. cbn [obind].
  assert (Hskip : forall b : bool, (if b then fun (_ : nat) (s : mm) => Done tt s
      else fun (_ : nat) (s : mm) => Done tt s) n s = Done tt s) by (by intros []).
  rewrite Hskip. cbn [obind]. rewrite MAP_NR_page by done.
  rewrite arr_get_count by (done || apply Hwf). cbn [obind]. rewrite Hskip. cbn [obind].
  rewrite dir_entry_of_alt, idx_alt. change (mem s (4 * dir_of a)) with (pde s (dir_of a)).
  destruct (present (pde s (dir_of a))) eqn:Hpd.
  - unfold st, modify. cbn [obind sat]. split; [done|]. right. split; [done|].
    by apply (map_page_spec s (dir_of a) (idx_of a) p); auto.
  - destruct (get_free_page_run n s (wf_map s Hwf)) as [[-> _]|(t & Ht & Hfree & _ & ->)].
    { cbn [obind sat negb]. split; [done|]. left. done. }
    cbn [obind]. rewrite page_addr_nz by lia. unfold st, modify. cbn [negb obind sat].
    destruct (install_reads s (dir_of a) t Hwf Hd Hpd Ht Hfree)
      as (_ & Hpde & Hpte & Hzero & Hcount & Hrefs & Hwf2).
    destruct (page_entry t Ht) as (_ & Hf & Hpr).
    set (s2 := (take_page s t) <| mem := store (mem (take_page s t)) (4 * dir_of a) (Z.lor (page_addr t) 7) |>) in *.
    assert (Hd2 : pde s2 (dir_of a) = Z.lor (page_addr t) 7) by (rewrite Hpde, decide_True; done).
    assert (Hext : forall i, extra s2 i = extra s i).
    { intros i. unfold extra. rewrite Hcount, Hrefs. case_decide; [|lia]. subst i.
      pose proof (refs_nonneg s t). pose proof (wf_counted s Hwf t Ht). lia. }
    assert (Hm : page_mapped s2 (map_page s2 (dir_of a) (idx_of a) p) (dir_of a) (idx_of a) p).
    { apply map_page_spec; try done; [by rewrite Hd2|by rewrite Hext|by rewrite Hzero]. }
    split; [done|]. right. split; [done|].
    replace (page_addr t + 4 * idx_of a) with (pte_addr s2 (dir_of a) (idx_of a))
      by (unfold pte_addr; by rewrite Hd2, Hf).
    destruct Hm as [H1 H2 H3 H6 H4 H5]. split; try done.
    + intros i Hi. rewrite <- Hext. by apply H2.
    + intros d' Hd' Hp'. assert (d' <> dir_of a) by congruence.
      rewrite H6 by (try done; rewrite Hpde, decide_False by done; done).
      by rewrite Hpde, decide_False.
    + intros d' j' Hd' Hp' Hj' Hne.
      assert (Hpd' : pde s2 d' = pde s d').
      { rewrite Hpde by done. rewrite decide_False; [done|]. intros ->. congruence. }
      etrans; [apply H5; try done; by rewrite Hpd'|]. by apply Hpte.
Qed.

(** ** Copy on write *)

Definition writable (e : Z) : bool := Z.testbit e 1.

(** After a write fault on entry [j] of table [d], which mapped page [p]. *)
Record cow_done (s s' : mm) (d j p : Z) : Prop := mkCowDone {
  cw_wf : wf s';
  cw_extra : forall i, 0 <= i < PAGING_PAGES -> extra s' i = extra s i;
  cw_entry : present (pte s' d j) = true /\ writable (pte s' d j) = true;
  cw_alone : exists q, 0 <= q < PAGING_PAGES /\ frame (pte s' d j) = page_addr q /\ count s' q = 1;
  cw_data : forall off, 0 <= off < 4096 ->
    mem s' (frame (pte s' d j) + off) = mem s (page_addr p + off);
  cw_kept : forall off, 0 <= off < 4096 -> mem s' (page_addr p + off) = mem s (page_addr p + off);
  cw_dirs : forall d', user_dir d' -> pde s' d' = pde s d';
  cw_other : forall d' j', user_dir d' -> present (pde s d') = true -> 0 <= j' < 1024 ->
    ~ (d' = d /\ j' = j) -> pte s' d' j' = pte s d' j'
}.

Lemma page_addr_inj i j : page_addr i = page_addr j -> i = j.
Proof. unfold page_addr. lia. Qed.

Section CopyOnWrite.
Context (s : mm) (d j p : Z).
Context (Hwf : wf s) (Hd : user_dir d) (Hpd : present (pde s d) = true) (Hj : 0 <= j < 1024).
Context (Hp : 0 <= p < PAGING_PAGES).
Context (Hpe : present (pte s d j) = true) (Hfe : frame (pte s d j) = page_addr p).
Context (Hnt : forall d', user_dir d' -> present (pde s d') = true -> frame (pde s d') <> page_addr p).

Let e := pte s d j.
Let He : 0 <= e < 2 ^ 32 := ok_words s (wf_tables s Hwf) _.

Lemma pte_addr_out d' j' off :
  user_dir d' -> present (pde s d') = true -> 0 <= j' < 1024 -> 0 <= off < 4096 ->
  page_addr p + off <> pte_addr s d' j'.
Proof.
  intros Hd' Hp' Hj' Ho Heq. destruct (ok_table s (wf_tables s Hwf) d' Hd' Hp') as (t & Ht & Hft).
  apply (Hnt d' Hd' Hp'). unfold pte_addr, page_addr in *. assert (t = p) by lia. congruence.
Qed.

(** The only user of the page just gets it back writable. *)
Lemma cow_reuse :
  count s p = 1 -> cow_done s (s <| mem := store (mem s) (pte_addr s d j) (Z.lor e 2) |>) d j p.
Proof.
  intros Hc. set (s' := s <| mem := _ |>).
  destruct (store_pte_reads s d j (Z.lor e 2) (wf_tables s Hwf) Hd Hpd Hj) as (Hlow & Hpde & Hpte).
  fold (pte_addr s d j) in Hlow, Hpde, Hpte. fold s' in Hlow, Hpde, Hpte.
  assert (Hr : 0 <= Z.lor e 2 < 2 ^ 32) by (apply (lor_range 32); [lia|exact He|lia]).
  assert (Hu : u32 (Z.lor e 2) = Z.lor e 2) by (apply u32_small; exact Hr).
  assert (Hpe' : present (Z.lor e 2) = true).
  { rewrite present_alt, <- Z.bit0_odd, Z.lor_spec, Z.bit0_odd, <- present_alt. fold e in Hpe. by rewrite Hpe. }
  assert (Hfe' : frame (Z.lor e 2) = page_addr p).
  { rewrite frame_alt, lor_div_4096 by lia. rewrite <- frame_alt by done. done. }
  assert (Hn : pte s' d j = Z.lor e 2) by (rewrite Hpte, decide_True by done; done).
  assert (Hrefs : forall i, refs s' i = refs s i).
  { intros i. unfold s', pte_addr. rewrite refs_set_pte by (done || apply Hwf).
    rewrite Hu, (ref_to_page (Z.lor e 2) i p), (ref_to_page _ i p) by done. lia. }
  assert (Hkept : forall off, 0 <= off < 4096 -> mem s' (page_addr p + off) = mem s (page_addr p + off)).
  { intros off Ho. unfold s'. simpl. unfold store.
    destruct (Z.eqb_spec (page_addr p + off) (pte_addr s d j)) as [Hc'|]; [|done].
    by apply pte_addr_out in Hc'. }
  split.
  - split; [|apply Hwf|apply Hwf|].
    + eapply (tables_ok_ext s); [apply Hwf|by apply store_words, Hwf|exact Hpde].
    + intros i Hi. rewrite Hrefs. by apply (wf_counted s Hwf).
  - intros i Hi. unfold extra. by rewrite Hrefs.
  - rewrite Hn. split; [done|]. unfold writable. rewrite Z.lor_spec. by rewrite orb_true_r.
  - exists p. by rewrite Hn.
  - intros off Ho. rewrite Hn, Hfe'. by apply Hkept.
  - exact Hkept.
  - exact Hpde.
  - intros d' j' Hd' Hp' Hj' Hne. rewrite Hpte by done. by rewrite decide_False.
Qed.

Lemma cow_used : 1 <= count s p.
Proof.
  assert (1 <= refs s p).
  { transitivity (dir_refs s p d).
    - unfold dir_refs. rewrite Hpd. pose proof (ref_to_range (pde s d) p).
      pose proof (zsum_ge (fun k => ref_to (pte s d k) p) (zrange 0 1024) j
        ltac:(intros; apply ref_to_range) (proj2 (zrange_elem 0 1024 j) ltac:(lia))) as Hz.
      cbv beta in Hz. rewrite ref_to_frame in Hz by done. lia.
    - apply zsum_ge; [intros; apply dir_refs_nonneg|by apply user_dirs_elem]. }
  pose proof (wf_counted s Hwf p Hp). lia.
Qed.

Section Copy.
Context (t : Z) (Ht : 0 <= t < PAGING_PAGES) (Hfree : count s t = 0).

Let s1 := take_page s t.
Let s2 := s1 <| mem_map ::= fun l => arr_set l p (u8 (count s p - 1)) |>.
Let s3 := s2 <| mem := store (mem s2) (pte_addr s d j) (Z.lor (page_addr t) 7) |>.
Let s4 := s3 <| mem ::= fun m => copy_page m (page_addr p) (page_addr t) |>.

Lemma cow_counted : 1 <= count s p /\ p <> t.
Proof. pose proof cow_used. split; [done|]. intros ->. lia. Qed.

Lemma cow_tables :
  (forall d', user_dir d' -> pde s4 d' = pde s d') /\
  (forall d' j', user_dir d' -> present (pde s d') = true -> 0 <= j' < 1024 ->
     pte s4 d' j' = if decide (d' = d /\ j' = j) then Z.lor (page_addr t) 7 else pte s d' j') /\
  (forall i, refs s4 i = refs s i + (if decide (i = t) then 1 else 0) - (if decide (i = p) then 1 else 0)) /\
  tables_ok s4.
Proof.
  destruct (take_page_reads s t Hwf Ht Hfree) as (Hlow1 & Hpde1 & Hpte1 & Hrefs1 & Hwf1).
  fold s1 in Hlow1, Hpde1, Hpte1, Hrefs1, Hwf1. destruct (page_entry t Ht) as (Hu & Hf & Hpr).
  assert (Hp1 : present (pde s1 d) = true) by (by rewrite Hpde1).
  destruct (store_pte_reads s1 d j (Z.lor (page_addr t) 7) (wf_tables s1 Hwf1) Hd Hp1 Hj)
    as (Hlow3 & Hpde3 & Hpte3).
  pose proof (refs_set_pte s1 d j (Z.lor (page_addr t) 7)) as Hrefs3.
  rewrite Hpde1 in Hlow3, Hpde3, Hpte3, Hrefs3 by done.
  set (s3' := s1 <| mem := _ |>) in *.
  assert (Htab3 : tables_ok s3').
  { eapply (tables_ok_ext s1); [apply Hwf1|apply (store_words s1), Hwf1|exact Hpde3]. }
  assert (Hnt3 : forall d', user_dir d' -> present (pde s3' d') = true -> frame (pde s3' d') <> page_addr t).
  { intros d' Hd'. rewrite Hpde3, Hpde1 by done. intros. by apply free_not_table. }
  destruct (fill_page_reads s3' t (fun x => mem s3' (x - page_addr t + page_addr p)) Htab3
    ltac:(lia) Hnt3) as (Hlow4 & Hpde4 & Hpte4).
  assert (Hd4 : forall d', user_dir d' -> pde s4 d' = pde s d').
  { intros d' Hd'. etrans; [by apply Hpde4|]. by rewrite Hpde3, Hpde1. }
  assert (Ht4 : forall d' j', user_dir d' -> present (pde s d') = true -> 0 <= j' < 1024 ->
     pte s4 d' j' = if decide (d' = d /\ j' = j) then Z.lor (page_addr t) 7 else pte s d' j').
  { intros d' j' Hd' Hp' Hj'.
    etrans; [apply Hpte4; [done|by rewrite Hpde3, Hpde1|done]|].
    rewrite Hpte3 by (try done; by rewrite Hpde1). rewrite Hu, Hpte1 by done. done. }
  split; [done|]. split; [done|]. split.
  - intros i. etrans; [apply (refs_ext s3' s4 i)|].
    + intros d' Hd'. by rewrite Hd4, Hpde3, Hpde1.
    + intros d' j' Hd' Hp' Hj'. by apply Hpte4.
    + rewrite Hrefs3 by (try done; apply Hwf1). rewrite Hu, Hpte1, Hrefs1 by done.
      rewrite (ref_to_page _ i t), (ref_to_page _ i p) by done. lia.
  - eapply (tables_ok_ext s3'); [done| |].
    + intros a. unfold s4. simpl. unfold copy_page.
      destruct (_ && _); apply (ok_words s3' Htab3).
    + intros d' Hd'. by rewrite Hd4, Hpde3, Hpde1.
Qed.

Lemma cow_counts i :
  count s4 i = if decide (i = p) then count s p - 1 else if decide (i = t) then 1 else count s i.
Proof.
  destruct cow_counted as [Hc Hpt]. pose proof (wf_bytes s Hwf p).
  change (count s4 i) with (count s2 i). unfold s2.
  rewrite count_set; [|unfold s1, take_page; etrans; [apply arr_set_length|apply Hwf]|done].
  rewrite u8_small by lia. case_decide; [done|]. apply take_page_count; [apply Hwf|done].
Qed.

Lemma cow_copy : cow_done s s4 d j p.
Proof.
  destruct cow_tables as (Hpde & Hpte & Hrefs & Htab). destruct cow_counted as [Hc Hpt].
  destruct (page_entry t Ht) as (_ & Hf & Hpr).
  assert (Hn : pte s4 d j = Z.lor (page_addr t) 7) by (rewrite Hpte, decide_True by done; done).
  assert (Hx : forall i, extra s4 i = extra s i).
  { intros i. unfold extra. rewrite cow_counts, Hrefs. pose proof (refs_nonneg s t).
    pose proof (wf_counted s Hwf t Ht). repeat case_decide; subst; try done; lia. }
  assert (Hm3 : forall off, 0 <= off < 4096 -> mem s3 (page_addr p + off) = mem s (page_addr p + off)).
  { intros off Ho. unfold s3. simpl. unfold store.
    destruct (Z.eqb_spec (page_addr p + off) (pte_addr s d j)) as [Hc'|].
    - by apply pte_addr_out in Hc'.
    - unfold clear_page, page_addr.
      destruct (Z.leb_spec (LOW_MEM + 4096 * t) (LOW_MEM + 4096 * p + off)),
        (Z.ltb_spec (LOW_MEM + 4096 * p + off) (LOW_MEM + 4096 * t + 4096)); simpl; done || lia. }
  split.
  - split; [done| | |].
    + etrans; [apply arr_set_length|]. etrans; [apply arr_set_length|apply Hwf].
    + intros i. rewrite cow_counts. pose proof (wf_bytes s Hwf i). pose proof (wf_bytes s Hwf p).
      repeat case_decide; lia.
    + intros i Hi. specialize (Hx i). unfold extra in Hx. pose proof (wf_counted s Hwf i Hi). lia.
  - intros i _. apply Hx.
  - rewrite Hn. split; [done|]. unfold writable. rewrite Z.lor_spec. by rewrite orb_true_r.
  - exists t. rewrite Hn, cow_counts, decide_False, decide_True by done. done.
  - intros off Ho. rewrite Hn, Hf. unfold s4.
    transitivity (copy_page (mem s3) (page_addr p) (page_addr t) (page_addr t + off)); [done|].
    unfold copy_page.
    destruct (Z.leb_spec (page_addr t) (page_addr t + off)); [|lia].
    destruct (Z.ltb_spec (page_addr t + off) (page_addr t + 4096)); [|lia]. simpl.
    replace (page_addr t + off - page_addr t + page_addr p) with (page_addr p + off) by lia.
    by apply Hm3.
  - intros off Ho. rewrite <- Hm3 by done.
    transitivity (copy_page (mem s3) (page_addr p) (page_addr t) (page_addr p + off)); [done|].
    unfold copy_page, page_addr.
    destruct (Z.leb_spec (LOW_MEM + 4096 * t) (LOW_MEM + 4096 * p + off)),
      (Z.ltb_spec (LOW_MEM + 4096 * p + off) (LOW_MEM + 4096 * t + 4096)); simpl; done || lia.
  - exact Hpde.
  - intros d' j' Hd' Hp' Hj' Hne. rewrite Hpte by done. by rewrite decide_False.
Qed.
End Copy.
End CopyOnWrite.

(** ** Releasing page tables *)

(** [s] with reference count [i] set to [v]. *)
Definition with_count (s : mm) (i v : Z) : mm := s <| mem_map ::= fun l => arr_set l i (u8 v) |>.

Lemma free_page_run n s p :
  length (mem_map s) = Z.to_nat PAGING_PAGES ->
  0 <= p < PAGING_PAGES -> page_addr p < HIGH_MEMORY s -> 1 <= count s p ->
  free_page (page_addr p) n s = Done tt (with_count s p (count s p - 1)).
Proof.
  intros Hl Hp Hh Hc. unfold free_page.
  destruct (Z.ltb_spec (page_addr p) LOW_MEM); [unfold page_addr in *; lia|].
  unfold bind, get. cbn [obind]. destruct (Z.leb_spec (HIGH_MEMORY s) (page_addr p)); [lia|].
  replace (Z.shiftr (page_addr p - LOW_MEM) 12) with p; cycle 1.
  { rewrite Z.shiftr_div_pow2 by lia. change (2 ^ 12) with 4096. unfold page_addr.
    replace (LOW_MEM + 4096 * p - LOW_MEM) with (p * 4096) by lia. by rewrite Z.div_mul. }
  unfold ld_map, deref. rewrite arr_get_count by done. cbn [obind].
  unfold st_map, modify. cbn [obind]. replace (nz (count s p)) with true; [done|].
  symmetry. apply nz_true. lia.
Qed.

Lemma free_page_low n s a : a < LOW_MEM -> free_page a n s = Done tt s.
Proof. intros H. unfold free_page. by destruct (Z.ltb_spec a LOW_MEM); [|lia]. Qed.

(** A page the tables can map and [free_page] accepts. *)
Definition freeable (s : mm) (e : Z) : Prop := present e = true -> frame e < HIGH_MEMORY s.

Record table_freed (s0 s : mm) (d k : Z) : Prop := mkTableFreed {
  tf_wf : wf s;
  tf_low : low_same s0 s;
  tf_count : forall i, 0 <= i < PAGING_PAGES ->
    count s i = count s0 i - table_refs s0 d i (Z.to_nat k);
  tf_refs : forall i, 0 <= i < PAGING_PAGES ->
    refs s i = refs s0 i - table_refs s0 d i (Z.to_nat k);
  tf_pte : forall d' j, user_dir d' -> present (pde s0 d') = true -> 0 <= j < 1024 ->
    pte s d' j = if decide (d' = d /\ j < k) then 0 else pte s0 d' j
}.

(** Clearing one entry after its page has been given back. *)
Lemma clear_pte_spec s0 s d k c :
  HIGH_MEMORY s0 <= page_addr PAGING_PAGES ->
  user_dir d -> present (pde s0 d) = true -> 0 <= k < 1024 ->
  table_freed s0 s d k ->
  (forall i, 0 <= i < PAGING_PAGES -> default 0 (arr_get c i) = count s i - ref_to (pte s0 d k) i) ->
  (forall i, default 0 (arr_get c i) = count s i \/ 0 <= default 0 (arr_get c i) < 256) ->
  length c = Z.to_nat PAGING_PAGES ->
  table_freed s0 (s <| mem_map := c |> <| mem := store (mem s) (pte_addr s d k) 0 |>) d (k + 1).
Proof.
  intros Hh Hd Hp Hk [Hs Hlow Hc Hr Hpt] Hc' Hb Hl.
  set (s' := s <| mem_map := c |> <| mem := _ |>).
  pose proof (low_same_pde _ _ d Hlow Hd) as Hpd. assert (Hp' : present (pde s d) = true) by congruence.
  destruct (store_pte_reads s d k 0 (wf_tables s Hs) Hd Hp' Hk) as (Hlow' & Hpde' & Hpte').
  fold (pte_addr s d k) in Hlow', Hpde', Hpte'.
  assert (Ek : pte s d k = pte s0 d k).
  { rewrite Hpt by done. by rewrite decide_False by (intros [? ?]; lia). }
  assert (Hsum : forall i, table_refs s0 d i (Z.to_nat (k + 1))
      = table_refs s0 d i (Z.to_nat k) + ref_to (pte s0 d k) i).
  { intros i. replace (Z.to_nat (k + 1)) with (S (Z.to_nat k)) by lia. rewrite table_refs_S.
    by rewrite Z2Nat.id by lia. }
  assert (Hrefs : forall i, refs s' i = refs s i - ref_to (pte s0 d k) i).
  { intros i. transitivity (refs (s <| mem := store (mem s) (pte_addr s d k) 0 |>) i).
    { apply refs_ext; reflexivity. }
    unfold pte_addr. rewrite refs_set_pte by (done || apply Hs). rewrite Ek.
    replace (ref_to (u32 0) i) with 0 by done. lia. }
  split.
  - split; [| exact Hl | |].
    + eapply (tables_ok_ext s); [apply Hs|by apply store_words, Hs|exact Hpde'].
    + intros i. change (count s' i) with (default 0 (arr_get c i)).
      destruct (Hb i) as [->|?]; [apply Hs|done].
    + intros i Hi. rewrite Hrefs. change (count s' i) with (default 0 (arr_get c i)).
      rewrite Hc' by done. pose proof (wf_counted s Hs i Hi). lia.
  - destruct Hlow as [Hh0 Hl0]. split; [done|]. intros x Hx. etrans; [by apply Hlow'|by apply Hl0].
  - intros i Hi. change (count s' i) with (default 0 (arr_get c i)). rewrite Hc', Hc, Hsum by done. lia.
  - intros i Hi. rewrite Hrefs, Hr, Hsum by done. lia.
  - intros d' j Hd' Hpd' Hj.
    etrans; [apply Hpte'; [done| |done]; by rewrite (low_same_pde _ _ d' Hlow Hd')|].
    rewrite Hpt by done. change (u32 0) with 0.
    destruct (decide (d' = d)) as [->|].
    + destruct (decide (j = k)) as [->|].
      * rewrite decide_True by done. by rewrite decide_True by (split; [done|lia]).
      * rewrite decide_False by (intros [? ?]; done).
        repeat case_decide; try done; exfalso; lia.
    + by rewrite !decide_False by (intros [? ?]; done).
Qed.

Lemma free_table_spec s0 d :
  wf s0 -> HIGH_MEMORY s0 <= page_addr PAGING_PAGES ->
  user_dir d -> present (pde s0 d) = true ->
  (forall j, 0 <= j < 1024 -> freeable s0 (pte s0 d j)) ->
  total (fun s => s = s0) (free_table (frame (pde s0 d))) (fun _ s => table_freed s0 s d 1024).
Proof.
  intros Hwf Hh Hd Hp Hfr.
  eapply triple_conseq;
    [apply (triple_for_range _ _ _ _ (fun k s => table_freed s0 s d k) 1024 0)| |].
  - intros k Hk n s _ Htf. assert (Hk' : 0 <= k < 1024) by lia.
    pose proof Htf as [Hs Hlow Hc Hr Hpt].
    rewrite <- (low_same_pde _ _ d Hlow Hd). cbv beta. fold (pte_addr s d k).
    assert (Ek : pte s d k = pte s0 d k).
    { rewrite Hpt by done. by rewrite decide_False by (intros [? ?]; lia). }
    unfold bind, ld, gets, when. cbn [obind].
    change (mem s (pte_addr s d k)) with (pte s d k). rewrite Ek.
    assert (Hskip : (forall i, 0 <= i < PAGING_PAGES -> ref_to (pte s0 d k) i = 0) ->
      table_freed s0 (s <| mem := store (mem s) (pte_addr s d k) 0 |>) d (k + 1)).
    { intros Hz. apply (clear_pte_spec s0 s d k (mem_map s)); try done; [| |apply Hs].
      - intros i Hi. rewrite Hz by done. unfold count. lia.
      - intros i. by left. }
    destruct (present (pte s0 d k)) eqn:Hpk.
    + destruct (Z.lt_ge_cases (frame (pte s0 d k)) LOW_MEM) as [Hl|Hl].
      * rewrite free_page_low by done. cbn [obind sat]. split; [done|]. apply Hskip.
        intros i Hi. unfold ref_to, page_addr. rewrite Hpk.
        destruct (Z.eqb_spec (frame (pte s0 d k)) (LOW_MEM + 4096 * i)); [lia|done].
      * destruct (mapped_page (pte s0 d k)) as (p & Hp' & Hf);
          [apply (ok_words s0 (wf_tables s0 Hwf))| |done|done|].
        { intros _. specialize (Hfr k Hk' Hpk). lia. }
        specialize (Hfr k Hk' Hpk). rewrite Hf in *.
        assert (Hcp : 1 <= count s p).
        { rewrite Hc by done. pose proof (wf_counted s0 Hwf p Hp').
          pose proof (dir_table_refs_le s0 d p Hd) as H1. unfold dir_table_refs in H1. rewrite Hp in H1.
          pose proof (table_refs_mono s0 d p (S (Z.to_nat k)) ltac:(lia)) as H2.
          rewrite table_refs_S, Z2Nat.id in H2 by lia. rewrite (ref_to_frame _ p Hpk Hf) in H2. lia. }
        rewrite free_page_run; [|apply Hs|done| |done]; cycle 1.
        { destruct Hlow as [-> _]. done. }
        cbn [obind sat]. split; [done|].
        pose proof (wf_bytes s Hs p).
        assert (Hcw : forall i, count (with_count s p (count s p - 1)) i
                       = if decide (i = p) then count s p - 1 else count s i).
        { intros i. unfold with_count. rewrite count_set by (done || apply Hs).
          by rewrite u8_small by lia. }
        apply (clear_pte_spec s0 s d k (arr_set (mem_map s) p (u8 (count s p - 1)))); try done.
        { intros i Hi. etrans; [apply Hcw|]. rewrite (ref_to_page _ i p) by done.
          case_decide; [subst; lia|lia]. }
        { intros i. right. pose proof (wf_bytes s Hs i).
          assert (0 <= count (with_count s p (count s p - 1)) i < 256); [|done].
          rewrite Hcw. case_decide; lia. }
        { rewrite arr_set_length. apply Hs. }
    + cbn [obind sat]. split; [done|]. apply Hskip. intros i Hi. unfold ref_to. by rewrite Hpk.
  - intros s _ ->. split; [done|done| | |].
    + intros. unfold table_refs. simpl. lia.
    + intros. unfold table_refs. simpl. lia.
    + intros d' j _ _ Hj. by rewrite decide_False by (intros [? ?]; lia).
  - intros ? s _ H. exact H.
Qed.

(** Clearing a directory entry whose table is empty. *)
Lemma clear_pde_reads s d :
  wf s -> user_dir d ->
  let s' := s <| mem := store (mem s) (4 * d) 0 |> in
  (forall d', user_dir d' -> pde s' d' = if decide (d' = d) then 0 else pde s d') /\
  (forall d' j, user_dir d' -> d' <> d -> present (pde s d') = true -> 0 <= j < 1024 ->
     pte s' d' j = pte s d' j) /\
  tables_ok s' /\
  (present (pde s d) = true -> (forall j, 0 <= j < 1024 -> pte s d j = 0) ->
   forall i, refs s' i = refs s i - ref_to (pde s d) i).
Proof.
  intros Hwf Hd s'.
  assert (Hpde : forall d', user_dir d' -> pde s' d' = if decide (d' = d) then 0 else pde s d').
  { intros d' _. unfold pde, s'; simpl. unfold store.
    destruct (Z.eqb_spec (4 * d') (4 * d)); case_decide; lia || done. }
  assert (Hpte : forall d' j, user_dir d' -> d' <> d -> present (pde s d') = true -> 0 <= j < 1024 ->
     pte s' d' j = pte s d' j).
  { intros d' j Hd' Hne Hp Hj. unfold pte. rewrite Hpde, decide_False by done. unfold s'; simpl.
    unfold store. destruct (ok_table s (wf_tables s Hwf) d' Hd' Hp) as (t & Ht & ->).
    unfold user_dir, page_addr, LOW_MEM in *.
    destruct (Z.eqb_spec (0x100000 + 4096 * t + 4 * j) (4 * d)); [lia|done]. }
  split; [done|]. split; [done|]. split.
  - split.
    + by apply (store_words s), Hwf.
    + intros d' Hd'. rewrite Hpde by done. case_decide; [done|].
      exact (ok_table s (wf_tables s Hwf) d' Hd').
    + intros d1 d2 H1 H2. rewrite !Hpde by done. repeat case_decide; try done.
      exact (ok_distinct s (wf_tables s Hwf) d1 d2 H1 H2).
  - intros Hp Hz i. unfold refs.
    rewrite (zsum_update (dir_refs s i) (dir_refs s' i) user_dirs d);
      [|apply zrange_NoDup|by apply user_dirs_elem|].
    + unfold dir_refs. rewrite Hpde, decide_True, Hp by done.
      change (present 0) with false. cbv iota.
      rewrite (zsum_zero _ (zrange 0 1024)); [lia|].
      intros j Hj%zrange_elem. rewrite Hz by lia. done.
    + intros d' Hd'%user_dirs_elem Hne. unfold dir_refs. rewrite Hpde, decide_False by done.
      destruct (present (pde s d')) eqn:Hp'; [|done]. f_equal.
      apply zsum_ext. intros j Hj%zrange_elem. rewrite Hpte; done || lia.
Qed.

Record range_freed (s0 s : mm) (d n : Z) : Prop := mkRangeFreed {
  rf_wf : wf s;
  rf_high : HIGH_MEMORY s = HIGH_MEMORY s0;
  rf_extra : forall i, 0 <= i < PAGING_PAGES -> extra s i = extra s0 i;
  rf_in : forall d', user_dir d' -> d <= d' < d + n -> present (pde s d') = false;
  rf_out : forall d', user_dir d' -> ~ (d <= d' < d + n) ->
    pde s d' = pde s0 d' /\
    forall j, present (pde s0 d') = true -> 0 <= j < 1024 -> pte s d' j = pte s0 d' j
}.

Lemma free_dir_spec s0 d :
  wf s0 -> HIGH_MEMORY s0 <= page_addr PAGING_PAGES -> user_dir d ->
  (present (pde s0 d) = true -> frame (pde s0 d) < HIGH_MEMORY s0 /\
     forall j, 0 <= j < 1024 -> freeable s0 (pte s0 d j)) ->
  total (fun s => s = s0) (free_dir (4 * d)) (fun _ s => range_freed s0 s d 1).
Proof.
  intros Hwf Hh Hd Hfr n s _ ->. unfold free_dir, bind at 1, ld at 1, gets. cbn [obind].
  change (mem s0 (4 * d)) with (pde s0 d).
  destruct (present (pde s0 d)) eqn:Hp; cbn [negb]; cycle 1.
  { unfold ret. cbn [sat]. split; [done|]. split; try done.
    intros d' Hd' Hin. by replace d' with d by lia. }
  destruct (Hfr eq_refl) as [Hft Hfe].
  unfold bind at 1. eapply sat_bind; [apply (free_table_spec s0 d); done|].
  intros [] s1 _ [Hs Hlow Hc Hr Hpt]. unfold bind, ld, gets. cbn [obind].
  change (mem s1 (4 * d)) with (pde s1 d).
  pose proof (low_same_pde _ _ d Hlow Hd) as Hpd. rewrite Hpd.
  destruct (ok_table s0 (wf_tables s0 Hwf) d Hd Hp) as (t & Ht & Htf). rewrite Htf in *.
  assert (Hz : forall j, 0 <= j < 1024 -> pte s1 d j = 0).
  { intros j Hj. rewrite Hpt by done. by rewrite decide_True by (split; [done|lia]). }
  assert (Hct : 1 <= count s1 t).
  { pose proof (wf_counted s1 Hs t Ht). enough (1 <= refs s1 t) by lia.
    transitivity (dir_refs s1 t d).
    - unfold dir_refs. rewrite Hpd, Hp, ref_to_frame by done.
      enough (0 <= zsum (fun j => ref_to (pte s1 d j) t) (zrange 0 1024)) by lia.
      apply zsum_nonneg. intros; apply ref_to_range.
    - apply zsum_ge; [intros; apply dir_refs_nonneg|by apply user_dirs_elem]. }
  destruct Hlow as [Hh1 Hl1].
  rewrite free_page_run; [|apply Hs|done|by rewrite Hh1|done].
  unfold st, modify. cbn [obind sat]. split; [done|].
  destruct (clear_pde_reads s1 d Hs Hd) as (Hpde' & Hpte' & Htab' & Hrefs').
  specialize (Hrefs' ltac:(by rewrite Hpd) Hz). rewrite Hpd in Hrefs'.
  set (s2 := s1 <| mem := store (mem s1) (4 * d) 0 |>) in *.
  match goal with |- range_freed _ ?s' _ _ => set (s3 := s') end.
  pose proof (wf_bytes s1 Hs t).
  assert (Hcount : forall i, count s3 i = count s1 i - if decide (i = t) then 1 else 0).
  { intros i. etrans; [apply (count_set s1 t (count s1 t - 1) i); [apply Hs|done]|].
    rewrite u8_small by lia. case_decide; [subst; lia|lia]. }
  assert (Hr3 : forall i, refs s3 i = refs s1 i - if decide (i = t) then 1 else 0).
  { intros i. transitivity (refs s2 i); [apply refs_ext; reflexivity|].
    rewrite Hrefs'. by rewrite (ref_to_page _ i t). }
  split.
  - split; [| | |].
    + eapply (tables_ok_ext s2); [done|exact (ok_words s2 Htab')|reflexivity].
    + etrans; [apply arr_set_length|]. apply Hs.
    + intros i. rewrite Hcount. pose proof (wf_bytes s1 Hs i). case_decide; subst; lia.
    + intros i Hi. rewrite Hcount, Hr3. pose proof (wf_counted s1 Hs i Hi). lia.
  - done.
  - intros i Hi. unfold extra. rewrite Hcount, Hr3, Hc, Hr by done. lia.
  - intros d' Hd' Hin. replace d' with d by lia.
    change (pde s3 d) with (pde s2 d). by rewrite Hpde', decide_True.
  - intros d' Hd' Hout. assert (Hne : d' <> d) by lia.
    assert (Hpd' : pde s1 d' = pde s0 d') by (apply low_same_pde; done).
    split.
    + change (pde s3 d') with (pde s2 d'). by rewrite Hpde', decide_False.
    + intros j Hp' Hj. change (pte s3 d' j) with (pte s2 d' j).
      rewrite Hpte' by (try done; by rewrite Hpd'). rewrite Hpt by done.
      by rewrite decide_False by (intros [? ?]; done).
Qed.

Lemma free_range_total s0 d n :
  0 <= n -> wf s0 -> HIGH_MEMORY s0 <= page_addr PAGING_PAGES ->
  (forall k, d <= k < d + n -> user_dir k /\ (present (pde s0 k) = true ->
     frame (pde s0 k) < HIGH_MEMORY s0 /\ forall j, 0 <= j < 1024 -> freeable s0 (pte s0 k j))) ->
  total (fun s => s = s0) (for_each (zrange 0 (Z.to_nat n)) (fun i => free_dir (4 * d + 4 * i)))
        (fun _ s => range_freed s0 s d n).
Proof.
  intros Hn Hwf Hh Hok.
  eapply triple_conseq; [apply (triple_for_range _ _ _ _ (fun k s => range_freed s0 s d k) (Z.to_nat n) 0)| |].
  - intros k Hk f s1 _ [Hs Hh1 Hx Hin Hout]. assert (Hk' : 0 <= k < n) by lia.
    replace (4 * d + 4 * k) with (4 * (d + k)) by lia.
    destruct (Hok (d + k) ltac:(lia)) as [Hu Hfr].
    destruct (Hout (d + k) Hu ltac:(lia)) as [Hpd Hpt].
    eapply sat_mono; [apply (free_dir_spec s1 (d + k)); try done; [lia|]|].
    + rewrite Hpd. intros Hp. destruct (Hfr Hp) as [Hf1 Hf2]. split; [lia|].
      intros j Hj. rewrite Hpt by done. unfold freeable. rewrite Hh1. by apply Hf2.
    + intros [] s2 _ [Hs2 Hh2 Hx2 Hin2 Hout2]. split; [done|congruence| | |].
      * intros i Hi. rewrite Hx2, Hx; done.
      * intros d' Hd' Hr. destruct (decide (d' = d + k)) as [->|]; [apply Hin2; [done|lia]|].
        destruct (Hout2 d' Hd' ltac:(lia)) as [-> _]. apply Hin; [done|lia].
      * intros d' Hd' Hr. destruct (Hout2 d' Hd' ltac:(lia)) as [E1 E2].
        destruct (Hout d' Hd' ltac:(lia)) as [E3 E4]. split; [congruence|].
        intros j Hp Hj. rewrite E2 by (try done; congruence). by apply E4.
  - intros s _ ->. split; try done. intros d' _ Hr. lia.
  - intros ? s _ H. replace (0 + Z.of_nat (Z.to_nat n)) with n in H by lia. exact H.
Qed.

(** ** The address translation the processor makes of these tables *)

Definition translate (s : mm) (a : Z) : option Z :=
  let e := pte s (dir_of a) (idx_of a) in
  if present (pde s (dir_of a)) && present e then Some (frame e + a mod 4096) else None.

Definition peek (s : mm) (a : Z) : option Z := mem s <$> translate s a.

Lemma same_page a a' : a' / 4096 = a / 4096 <-> a' / 0x400000 = a / 0x400000 /\ idx_of a' = idx_of a.
Proof.
  unfold idx_of. change 0x1000 with 4096. change 0x400000 with (4096 * 1024).
  rewrite <- !Z.div_div by lia. split; [by intros ->|].
  intros [H1 H2]. rewrite (Z.div_mod (a' / 4096) 1024), (Z.div_mod (a / 4096) 1024) by lia. lia.
Qed.

(** A user-space linear address. *)
Definition user_addr (a : Z) : Prop := 0x4000000 <= a < 2 ^ 32.

Lemma user_addr_dir a : user_addr a -> user_dir (dir_of a) /\ dir_of a = a / 0x400000.
Proof.
  intros [H1 H2]. assert (dir_of a = a / 0x400000) as E.
  { unfold dir_of. apply Z.mod_small. split; [apply Z.div_pos; lia|].
    apply Z.div_lt_upper_bound; lia. }
  split; [|done]. rewrite E. unfold user_dir, FIRST_USER_DIR.
  split; [apply Z.div_le_lower_bound; lia|apply Z.div_lt_upper_bound; lia].
Qed.

Lemma same_entry a a' :
  user_addr a -> user_addr a' -> dir_of a' = dir_of a /\ idx_of a' = idx_of a <-> a' / 4096 = a / 4096.
Proof.
  intros Ha Ha'. rewrite same_page.
  destruct (user_addr_dir a Ha) as [_ ->], (user_addr_dir a' Ha') as [_ ->]. done.
Qed.

Lemma translate_unmapped s a :
  user_addr a -> translate s a = None ->
  present (pde s (dir_of a)) = true -> present (pte s (dir_of a) (idx_of a)) = false.
Proof. unfold translate. intros _ H Hp. rewrite Hp in H. by destruct (present (pte _ _ _)). Qed.

(** [un_wp_page] on a present user entry. *)
Lemma un_wp_page_spec s d j p n :
  wf s -> user_dir d -> present (pde s d) = true -> 0 <= j < 1024 ->
  0 <= p < PAGING_PAGES -> present (pte s d j) = true -> frame (pte s d j) = page_addr p ->
  (forall d', user_dir d' -> present (pde s d') = true -> frame (pde s d') <> page_addr p) ->
  (exists s', un_wp_page (pte_addr s d j) n s = Done tt s' /\ cow_done s s' d j p) \/
  (un_wp_page (pte_addr s d j) n s = Die SIGSEGV s /\ 1 < count s p /\
   forall i, 0 <= i < PAGING_PAGES -> count s i <> 0).
Proof.
  intros Hwf Hd Hpd Hj Hp Hpe Hfe Hnt.
  unfold un_wp_page, bind, ld, gets, ld_map, deref. cbn [obind].
  change (mem s (pte_addr s d j)) with (pte s d j). rewrite Hfe.
  destruct (Z.leb_spec LOW_MEM (page_addr p)); [|unfold page_addr in *; lia].
  unfold ret. rewrite MAP_NR_page by done. rewrite arr_get_count by (done || apply Hwf). cbn [obind].
  destruct (Z.eqb_spec (count s p) 1) as [Hc|Hc].
  { left. eexists. split; [reflexivity|]. by apply cow_reuse. }
  pose proof (cow_used s d j p Hwf Hd Hpd Hj Hp Hpe Hfe) as Hc1.
  destruct (get_free_page_run n s (wf_map s Hwf)) as [[-> Hnone]|(t & Ht & Hfree & _ & ->)].
  { right. cbn [obind nz negb Z.eqb]. split; [done|]. split; [lia|done]. }
  left. cbn [obind]. rewrite page_addr_nz by lia. cbn [negb].
  unfold when. replace (LOW_MEM <=? page_addr p) with true; cycle 1.
  { symmetry. apply Z.leb_le. unfold page_addr. lia. }
  rewrite ?MAP_NR_page by done.
  assert (Hpt : p <> t) by (intros ->; lia).
  replace (arr_get (mem_map (take_page s t)) p) with (Some (count s p)); cycle 1.
  { unfold take_page. cbn [mem_map upd]. symmetry. etrans; [apply arr_get_set_ne; lia|].
    apply arr_get_count; [apply Hwf|done]. }
  unfold st_map, st, modify. cbn [obind].
  eexists. split; [reflexivity|]. by apply (cow_copy s d j p).
Qed.

(** [get_empty_page] on an address with no page: a page of its own, or [oom()]. *)
Lemma get_empty_page_spec s a n :
  wf s -> HIGH_MEMORY s = page_addr PAGING_PAGES -> user_dir (dir_of a) ->
  (present (pde s (dir_of a)) = true -> present (pte s (dir_of a) (idx_of a)) = false) ->
  (exists s' p, 0 <= p < PAGING_PAGES /\ get_empty_page a n s = Done tt s' /\
     wf s' /\ (forall i, 0 <= i < PAGING_PAGES -> extra s' i = extra s i) /\
     present (pde s' (dir_of a)) = true /\
     pte s' (dir_of a) (idx_of a) = Z.lor (page_addr p) 7 /\ count s p = 0 /\
     forall d' j', user_dir d' -> present (pde s d') = true -> 0 <= j' < 1024 ->
       ~ (d' = dir_of a /\ j' = idx_of a) -> pte s' d' j' = pte s d' j') \/
  (exists s', get_empty_page a n s = Die SIGSEGV s').
Proof.
  intros Hwf Hh Hd Habs. unfold get_empty_page, bind.
  destruct (get_free_page_run n s (wf_map s Hwf)) as [[-> Hnone]|(p & Hp & Hfree & _ & ->)].
  { right. cbn [obind]. eexists. reflexivity. }
  cbn [obind]. rewrite page_addr_nz by lia.
  destruct (take_page_reads s p Hwf Hp Hfree) as (_ & Hpde & Hpte & Hrefs & Hwf1).
  assert (Hx : forall i, extra (take_page s p) i = extra s i + if decide (i = p) then 1 else 0).
  { intros i. unfold extra. rewrite Hrefs, take_page_count by (done || apply Hwf).
    case_decide; [subst; lia|lia]. }
  pose proof (put_page_spec (take_page s p) p a Hwf1 Hp) as Hput.
  destruct (total_run _ _ _ n (take_page s p) (Hput
    ltac:(rewrite Hx, decide_True by done; pose proof (wf_counted s Hwf p Hp); unfold extra; lia)
    Hd ltac:(intros Hpr; rewrite Hpde in Hpr by done; rewrite Hpte by (done || apply idx_of_range); auto))
    eq_refl) as (r & s' & -> & [(-> & -> & _)|(-> & [H1 H2 H3 H6 H4 H5])]).
  - right. cbn [obind ret nz negb Z.eqb]. unfold ret. cbn [obind].
    rewrite free_page_run; [|apply Hwf1|done| |].
    + cbn [obind]. eexists. reflexivity.
    + change (HIGH_MEMORY (take_page s p)) with (HIGH_MEMORY s). rewrite Hh. unfold page_addr. lia.
    + rewrite take_page_count, decide_True by (done || apply Hwf). lia.
  - left. unfold ret. cbn [obind]. rewrite page_addr_nz by lia.
    exists s', p. split; [done|]. split; [done|]. split; [done|]. split.
    { intros i Hi. rewrite H2, Hx by done. lia. }
    split; [done|]. split; [done|]. split; [done|].
    intros d' j' Hd' Hp' Hj' Hne. rewrite H5 by (try done; by rewrite Hpde). by apply Hpte.
Qed.

(** ** Pages that only the kernel has a reference to *)

Definition not_table (s : mm) (r : Z) : Prop :=
  forall d, user_dir d -> present (pde s d) = true -> frame (pde s d) <> page_addr r.
Definition in_page (r x : Z) : Prop := page_addr r <= x < page_addr r + 4096.
Definition owned (s : mm) (r : Z) : Prop := 0 <= r < PAGING_PAGES /\ count s r = 1 /\ refs s r = 0.

Lemma owned_not_table s r : owned s r -> not_table s r.
Proof.
  intros (_ & _ & Hr) d Hd Hp Hf.
  assert (dir_refs s r d <= refs s r) by (apply zsum_ge; [intros; apply dir_refs_nonneg|by apply user_dirs_elem]).
  assert (1 <= dir_refs s r d); [|lia]. unfold dir_refs. rewrite Hp, ref_to_frame by done.
  enough (0 <= zsum (fun j => ref_to (pte s d j) r) (zrange 0 1024)) by lia.
  apply zsum_nonneg. intros. apply ref_to_range.
Qed.

Lemma owned_ext s s' r : (forall i, refs s' i = refs s i) -> count s' r = count s r -> owned s r -> owned s' r.
Proof. intros Hr Hc (? & ? & ?). split; [done|]. rewrite Hr, Hc. done. Qed.

(** Bytes written to such a page change no table. *)
Lemma private_write s s' r :
  wf s -> 0 <= r -> not_table s r -> mem_map s' = mem_map s -> (forall x, 0 <= mem s' x < 2 ^ 32) ->
  (forall x, ~ in_page r x -> mem s' x = mem s x) ->
  wf s' /\ forall i, refs s' i = refs s i.
Proof.
  intros Hwf Hr Hnt Hmap Hw Hx.
  assert (Hpde : forall d, user_dir d -> pde s' d = pde s d).
  { intros d Hd. apply Hx. unfold in_page, page_addr, user_dir, FIRST_USER_DIR, LOW_MEM in *. lia. }
  assert (Hrefs : forall i, refs s' i = refs s i).
  { intros i. apply refs_ext; [done|]. intros d j Hd Hp Hj. unfold pte. rewrite Hpde by done. apply Hx. intros Hin.
    destruct (ok_table s (wf_tables s Hwf) d Hd Hp) as (t & Ht & Hf). apply (Hnt d Hd Hp). rewrite Hf in *.
    unfold in_page, page_addr in *. f_equal. lia. }
  assert (Hc : forall i, count s' i = count s i) by (intros i; unfold count; by rewrite Hmap).
  split; [|done]. split.
  - by apply (tables_ok_ext s); [apply Hwf| |].
  - rewrite Hmap. apply Hwf.
  - intros i. rewrite Hc. apply Hwf.
  - intros i Hi. rewrite Hc, Hrefs. by apply Hwf.
Qed.

(** What [put_page] leaves alone: the bytes of the pages that are in use and no tables. *)
Definition kept_pages (s s' : mm) : Prop :=
  forall r, 0 <= r < PAGING_PAGES -> count s r <> 0 -> not_table s r ->
    not_table s' r /\ count s' r = count s r /\ forall x, in_page r x -> mem s' x = mem s x.

Lemma in_page_inj r t x : in_page r x -> in_page t x -> r = t.
Proof. unfold in_page, page_addr. lia. Qed.

Lemma kept_pages_intro s s' :
  (forall r, 0 <= r < PAGING_PAGES -> count s r <> 0 -> count s' r = count s r) ->
  (forall r x, 0 <= r < PAGING_PAGES -> count s r <> 0 -> not_table s r -> in_page r x -> mem s' x = mem s x) ->
  (forall d, user_dir d -> present (pde s' d) = true ->
     present (pde s d) = true /\ pde s' d = pde s d \/ exists t, count s t = 0 /\ frame (pde s' d) = page_addr t) ->
  kept_pages s s'.
Proof.
  intros Hc Hm Hp r Hr Hcr Hnt. split; [|split; [by apply Hc|intros x; by apply Hm]].
  intros d Hd Hpd. destruct (Hp d Hd Hpd) as [[Hpd' ->]|(t & Ht & ->)]; [by apply Hnt|].
  intros E%page_addr_inj. congruence.
Qed.

(** The memory in which page [t] is a new page table, whose entry [j] has page [p]. *)
Definition new_table (s : mm) (d t j p : Z) : Z -> Z :=
  store (store (clear_page (mem s) (page_addr t)) (4 * d) (Z.lor (page_addr t) 7)) (page_addr t + 4 * j) (Z.lor (page_addr p) 7).

Section NewTable.
Context (s : mm) (d t j p : Z) (Hd : user_dir d) (Ht : 0 <= t < PAGING_PAGES) (Hj : 0 <= j < 1024).

Lemma new_table_out x : ~ in_page t x -> x <> 4 * d -> new_table s d t j p x = mem s x.
Proof.
  intros Hx Hne. unfold new_table, store, clear_page, in_page, page_addr in *.
  destruct (Z.eqb_spec x (LOW_MEM + 4096 * t + 4 * j)); [lia|]. destruct (Z.eqb_spec x (4 * d)); [lia|].
  destruct (Z.leb_spec (LOW_MEM + 4096 * t) x), (Z.ltb_spec x (LOW_MEM + 4096 * t + 4096)); try done. lia.
Qed.

Lemma new_table_dir : new_table s d t j p (4 * d) = Z.lor (page_addr t) 7.
Proof.
  destruct (page_entry t Ht) as (Hu & _). unfold new_table, store, page_addr, user_dir, LOW_MEM in *.
  destruct (Z.eqb_spec (4 * d) (0x100000 + 4096 * t + 4 * j)); [lia|]. by rewrite Z.eqb_refl.
Qed.

Lemma new_table_zero k : 0 <= k < 1024 -> k <> j -> new_table s d t j p (page_addr t + 4 * k) = 0.
Proof.
  intros Hk Hne. unfold new_table, store, clear_page, page_addr, user_dir, LOW_MEM in *.
  destruct (Z.eqb_spec (0x100000 + 4096 * t + 4 * k) (0x100000 + 4096 * t + 4 * j)); [lia|].
  destruct (Z.eqb_spec (0x100000 + 4096 * t + 4 * k) (4 * d)); [lia|].
  destruct (Z.leb_spec (0x100000 + 4096 * t) (0x100000 + 4096 * t + 4 * k)),
    (Z.ltb_spec (0x100000 + 4096 * t + 4 * k) (0x100000 + 4096 * t + 4096)); done || lia.
Qed.
End NewTable.

(** Where [put_page] writes. *)
Lemma put_page_run s p a n :
  wf s -> 0 <= p < PAGING_PAGES -> let d := dir_of a in
  present (pde s d) = true /\ put_page (page_addr p) a n s = Done (page_addr p) (map_page s d (idx_of a) p) \/
  present (pde s d) = false /\ put_page (page_addr p) a n s = Done 0 s /\ (forall i, 0 <= i < PAGING_PAGES -> count s i <> 0) \/
  exists t s', present (pde s d) = false /\ 0 <= t < PAGING_PAGES /\ count s t = 0 /\
    put_page (page_addr p) a n s = Done (page_addr p) s' /\ mem s' = new_table s d t (idx_of a) p /\
    forall i, count s' i = count (take_page s t) i.
Proof.
  intros Hwf Hp. unfold put_page, bind, get, ld_map, deref, ld, gets, when, printk, ret. cbn [obind].
  assert (Hskip : forall b : bool, (if b then fun (_ : nat) (s : mm) => Done tt s
      else fun (_ : nat) (s : mm) => Done tt s) n s = Done tt s) by (by intros []).
  rewrite Hskip. cbn [obind]. rewrite MAP_NR_page by done.
  rewrite arr_get_count by (done || apply Hwf). cbn [obind]. rewrite Hskip. cbn [obind].
  rewrite dir_entry_of_alt, idx_alt. change (mem s (4 * dir_of a)) with (pde s (dir_of a)).
  destruct (present (pde s (dir_of a))) eqn:Hpd; [by left|right].
  destruct (get_free_page_run n s (wf_map s Hwf)) as [[-> Hno]|(t & Ht & Hfree & _ & ->)]; [left; by cbn [obind]|right].
  cbn [obind]. rewrite page_addr_nz by lia. exists t. eexists.
  split; [done|]. split; [done|]. split; [done|]. split; [reflexivity|]. by split.
Qed.

Lemma put_page_keeps s p a n :
  wf s -> 0 <= p < PAGING_PAGES -> 1 <= extra s p -> user_dir (dir_of a) ->
  (present (pde s (dir_of a)) = true -> present (pte s (dir_of a) (idx_of a)) = false) ->
  (put_page (page_addr p) a n s = Done 0 s /\ present (pde s (dir_of a)) = false /\
     forall i, 0 <= i < PAGING_PAGES -> count s i <> 0) \/
  exists s', put_page (page_addr p) a n s = Done (page_addr p) s' /\ page_mapped s s' (dir_of a) (idx_of a) p /\
    kept_pages s s' /\
    (present (pde s (dir_of a)) = false -> forall j, 0 <= j < 1024 -> j <> idx_of a -> pte s' (dir_of a) j = 0).
Proof.
  intros Hwf Hp Hex Hd Habs. destruct (total_run _ _ _ n s (put_page_spec s p a Hwf Hp Hex Hd Habs) eq_refl) as (v & s' & E & H).
  pose proof (idx_of_range a) as Hj.
  destruct (put_page_run s p a n Hwf Hp) as [[Hpd E']|[(Hpd & E' & Hno)|(t & s2 & Hpd & Ht & Hfree & E' & Em & Hc)]];
    rewrite E in E'; injection E' as -> ->; [right|by left|right];
    (destruct H as [(? & ? & ?)|[_ H]]; [first [congruence|unfold page_addr, LOW_MEM in *; lia]|]).
  - eexists. split; [exact E|]. split; [done|]. split; [|congruence].
    destruct (store_pte_reads s (dir_of a) (idx_of a) (Z.lor (page_addr p) 7) (wf_tables s Hwf) Hd Hpd Hj) as (_ & Hpde & _).
    destruct (ok_table s (wf_tables s Hwf) _ Hd Hpd) as (t & Ht & Hf). apply kept_pages_intro; [done| |].
    + intros r x Hr Hc Hnt Hx. change (store (mem s) (pte_addr s (dir_of a) (idx_of a)) (Z.lor (page_addr p) 7) x = mem s x).
      unfold store. destruct (Z.eqb_spec x (pte_addr s (dir_of a) (idx_of a))) as [->|]; [|done].
      exfalso. apply (Hnt _ Hd Hpd). unfold pte_addr in Hx. rewrite Hf in *. f_equal. symmetry. apply (in_page_inj _ _ _ Hx).
      unfold in_page. lia.
    + intros d Hd' Hp'. left. split; [rewrite <- Hp'; f_equal; symmetry|]; by apply Hpde.
  - assert (Hdir : pde s2 (dir_of a) = Z.lor (page_addr t) 7) by (unfold pde; rewrite Em; by apply new_table_dir).
    destruct (page_entry t Ht) as (_ & Hf & _). exists s2. split; [exact E|]. split; [done|]. split; [apply kept_pages_intro|].
    + intros r Hr Hcr. rewrite Hc, take_page_count by (done || apply Hwf). rewrite decide_False; [done|]. congruence.
    + intros r x Hr Hcr _ Hx. rewrite Em. apply new_table_out; [done..| |unfold in_page, page_addr, user_dir, LOW_MEM in *; lia].
      intros Hx'. apply Hcr. by rewrite (in_page_inj r t x).
    + intros d Hd' Hp'. destruct (decide (d = dir_of a)) as [->|Hne]; [right; exists t; by rewrite Hdir|left].
      enough (E1 : pde s2 d = pde s d) by (by rewrite <- E1).
      unfold pde. rewrite Em. apply new_table_out; [done..| |lia]. unfold in_page, page_addr, user_dir, FIRST_USER_DIR, LOW_MEM in *. lia.
    + intros _ k Hk Hne. unfold pte. rewrite Hdir, Hf, Em. by apply new_table_zero.
Qed.
