(* ===== verification/PagingProps.v ===== *)
(** * Properties of mm/memory.c

    The page allocator, mapping a page, copy-on-write fork and the release of an
    address space, each stated on the translation the page tables define and on
    the kernel's reference accounting. *)
From Stdlib Require Import ZArith Lia String.
From stdpp Require Import base list.
From S2P Require Import Prelude Resumption Memory PageTables.

(** ** A machine that has just been booted, and one with a page mapped *)

Definition boot : mm := mkMm (fun _ => 0) (replicate 3840 0) 0x1000000.

Lemma boot_count i : count boot i = 0.
Proof.
  unfold count, boot, arr_get. cbn [mem_map]. destruct (i <? 0); [done|].
  destruct (replicate 3840 0 !! Z.to_nat i) eqn:E; [|done].
  by apply lookup_replicate in E as [-> _].
Qed.

Lemma boot_wf : wf boot.
Proof.
  split; [split| | |].
  - intros a. simpl. lia.
  - done.
  - done.
  - cbn [mem_map boot]. by rewrite length_replicate, PAGING_PAGES_eq.
  - intros i. rewrite boot_count. lia.
  - intros i _. rewrite boot_count. apply Z.eq_le_incl. apply zsum_zero. done.
Qed.

Lemma boot_alloc n : get_free_page n boot = Done (page_addr 3839) (take_page boot 3839).
Proof.
  destruct (get_free_page_run n boot (wf_map boot boot_wf)) as [[_ H]|(i & Hi & _ & Hj & ->)].
  - exfalso. apply (H 0); [rewrite PAGING_PAGES_eq; lia|apply boot_count].
  - destruct (Z.eq_dec i 3839) as [->|Hne]; [done|]. rewrite PAGING_PAGES_eq in *.
    exfalso. apply (Hj 3839); [lia|apply boot_count].
Qed.

(** The state after [get_empty_page(0x4000000)]: directory entry 16 is the table
    in page 3838 and its entry 0 maps page 3839. *)
Definition demo : mm :=
  match get_empty_page 0x4000000 1%nat boot with Done _ s => s | _ => boot end.

Lemma demo_wf : wf demo.
Proof.
  unfold demo.
  pose proof (get_empty_page_spec boot 0x4000000 1%nat boot_wf eq_refl) as H.
  destruct H as [(s' & p & _ & E & Hw & _)|(s' & E)].
  - split; vm_compute; congruence.
  - intros Hp. exfalso. vm_compute in Hp. congruence.
  - rewrite E. exact Hw.
  - exfalso. apply (f_equal (fun o => match o with Done _ _ => true | _ => false end)) in E.
    vm_compute in E. congruence.
Qed.

Lemma demo_entries :
  HIGH_MEMORY demo = page_addr PAGING_PAGES /\
  present (pde demo 16) = true /\ present (pte demo 16 0) = true /\
  frame (pde demo 16) = page_addr 3838 /\ frame (pte demo 16 0) = page_addr 3839.
Proof. vm_compute. repeat split. Qed.

(** ** The page allocator *)

(** C37. [get_free_page] returns 0 and changes nothing exactly when no page is
    free; otherwise it returns the highest free page, marks it used once, clears
    its 4096 bytes and touches no other page and no other count. *)
Theorem get_free_page_takes_last (n : nat) (s : mm) :
  length (mem_map s) = Z.to_nat PAGING_PAGES ->
  (get_free_page n s = Done 0 s /\ forall i, 0 <= i < PAGING_PAGES -> count s i <> 0) \/
  (exists i s', get_free_page n s = Done (page_addr i) s' /\
     0 <= i < PAGING_PAGES /\ count s i = 0 /\
     (forall j, i < j < PAGING_PAGES -> count s j <> 0) /\
     (forall j, count s' j = if decide (j = i) then 1 else count s j) /\
     (forall x, mem s' x =
        if decide (page_addr i <= x < page_addr i + 4096) then 0 else mem s x)).
Proof.
  intros Hl. destruct (get_free_page_run n s Hl) as [H|(i & Hi & Hz & Hj & E)]; [by left|right].
  exists i, (take_page s i). repeat (split; [done|]). split.
  - intros j. by apply take_page_count.
  - intros x. unfold take_page. cbn [mem upd]. simpl. unfold clear_page.
    destruct (Z.leb_spec (page_addr i) x), (Z.ltb_spec x (page_addr i + 4096));
      simpl; case_decide; done || lia.
Qed.

Lemma get_free_page_takes_last_witness :
  (get_free_page 1%nat boot = Done 0 boot /\ forall i, 0 <= i < PAGING_PAGES -> count boot i <> 0) \/
  (exists i s', get_free_page 1%nat boot = Done (page_addr i) s' /\
     0 <= i < PAGING_PAGES /\ count boot i = 0 /\
     (forall j, i < j < PAGING_PAGES -> count boot j <> 0) /\
     (forall j, count s' j = if decide (j = i) then 1 else count boot j) /\
     (forall x, mem s' x =
        if decide (page_addr i <= x < page_addr i + 4096) then 0 else mem boot x)).
Proof. apply (get_free_page_takes_last 1%nat boot). exact (wf_map boot boot_wf). Defined.

(** C38. Giving back a page just allocated restores every reference count; a
    second release of a free page, or the release of a page the machine does not
    have, stops the kernel. *)
Theorem free_page_undoes_get (n : nat) (s s' : mm) (i : Z) :
  wf s -> HIGH_MEMORY s <= page_addr PAGING_PAGES ->
  0 <= i < PAGING_PAGES -> page_addr i < HIGH_MEMORY s ->
  get_free_page n s = Done (page_addr i) s' ->
  (exists s'', free_page (page_addr i) n s' = Done tt s'' /\ mem_map s'' = mem_map s) /\
  (exists s'', free_page (page_addr i) n s = Panic "trying to free free page" s'') /\
  (forall addr, HIGH_MEMORY s <= addr -> LOW_MEM <= addr ->
     free_page addr n s = Panic "trying to free nonexistent page" s).
Proof.
  intros Hwf Hh Hi Hhi E. pose proof (wf_map s Hwf) as Hl.
  destruct (get_free_page_run n s Hl) as [[E' _]|(k & Hk & Hz & _ & E')]; rewrite E' in E.
  { injection E as E _. exfalso. unfold page_addr, LOW_MEM in *. lia. }
  injection E as Ek Es. apply page_addr_inj in Ek as ->. subst s'.
  split; [|split].
  - rewrite free_page_run; [|by etrans; [apply arr_set_length|]|done|done|].
    + eexists. split; [reflexivity|]. rewrite take_page_count, decide_True by done.
      unfold with_count, take_page. cbn [mem_map upd]. simpl. unfold arr_set.
      destruct (Z.ltb_spec i 0); [lia|]. rewrite list_insert_insert_eq.
      apply list_insert_id. pose proof (arr_get_count s i Hl Hi) as Hg. unfold arr_get in Hg.
      destruct (Z.ltb_spec i 0); [lia|]. by rewrite Hg, Hz.
    + rewrite take_page_count, decide_True by done. lia.
  - unfold free_page. destruct (Z.ltb_spec (page_addr i) LOW_MEM); [unfold page_addr in *; lia|].
    unfold bind, get. cbn [obind]. destruct (Z.leb_spec (HIGH_MEMORY s) (page_addr i)); [lia|].
    replace (Z.shiftr (page_addr i - LOW_MEM) 12) with i; cycle 1.
    { rewrite Z.shiftr_div_pow2 by lia. change (2 ^ 12) with 4096. unfold page_addr.
      replace (LOW_MEM + 4096 * i - LOW_MEM) with (i * 4096) by lia. by rewrite Z.div_mul. }
    unfold ld_map, deref. rewrite arr_get_count, Hz by done. cbn [obind].
    eexists. reflexivity.
  - intros addr Ha Hlow. unfold free_page, bind, get. destruct (Z.ltb_spec addr LOW_MEM); [lia|].
    cbn [obind]. by destruct (Z.leb_spec (HIGH_MEMORY s) addr); [|lia].
Qed.

Lemma free_page_undoes_get_witness :
  (exists s'', free_page (page_addr 3839) 1%nat (take_page boot 3839) = Done tt s'' /\
     mem_map s'' = mem_map boot) /\
  (exists s'', free_page (page_addr 3839) 1%nat boot = Panic "trying to free free page" s'') /\
  (forall addr, HIGH_MEMORY boot <= addr -> LOW_MEM <= addr ->
     free_page addr 1%nat boot = Panic "trying to free nonexistent page" boot).
Proof.
  apply (free_page_undoes_get 1%nat boot (take_page boot 3839) 3839).
  - exact boot_wf.
  - vm_compute. discriminate.
  - rewrite PAGING_PAGES_eq. lia.
  - vm_compute. reflexivity.
  - apply boot_alloc.
Defined.

(** ** Mapping a page *)

(** C29. [put_page] of an owned page at an unmapped user address either fails for
    lack of a page table, changing nothing, or makes every address of that 4 kB
    page translate into it, leaves every other user translation alone and turns
    the caller's reference into the page table's. *)
Theorem put_page_maps (n : nat) (s : mm) (p a : Z) :
  wf s -> 0 <= p < PAGING_PAGES -> 1 <= extra s p -> user_addr a -> translate s a = None ->
  put_page (page_addr p) a n s = Done 0 s \/
  exists s', put_page (page_addr p) a n s = Done (page_addr p) s' /\ wf s' /\
    (forall i, 0 <= i < PAGING_PAGES -> extra s' i = extra s i - (if decide (i = p) then 1 else 0)) /\
    (forall a', user_addr a' -> a' / 4096 = a / 4096 ->
       translate s' a' = Some (page_addr p + a' mod 4096)) /\
    (forall a' x, user_addr a' -> a' / 4096 <> a / 4096 -> translate s a' = Some x ->
       translate s' a' = Some x).
Proof.
  intros Hwf Hp Hex Ha Htr. destruct (user_addr_dir a Ha) as [Hd _].
  pose proof (put_page_spec s p a Hwf Hp Hex Hd (translate_unmapped s a Ha Htr)) as Hs.
  destruct (total_run _ _ _ n s Hs eq_refl) as (r & s' & -> & [(-> & -> & _)|(-> & [H1 H2 H3 H6 H4 H5])]);
    [by left|right].
  exists s'. split; [done|]. split; [done|]. split; [done|]. split.
  - intros a' Ha' Hsame. apply (same_entry a a' Ha Ha') in Hsame as [Hd' Hi'].
    destruct (page_entry p Hp) as (_ & Hf & Hpr).
    unfold translate. by rewrite Hd', Hi', H3, H4, Hf, Hpr.
  - intros a' x Ha' Hne Htr'. destruct (user_addr_dir a' Ha') as [Hd' _].
    assert (Hp' : present (pde s (dir_of a')) = true).
    { unfold translate in Htr'. by destruct (present (pde s (dir_of a'))). }
    rewrite <- Htr'. unfold translate. rewrite H6, H5; try done; [apply idx_of_range|].
    intros Hsame. by apply Hne, (same_entry a a' Ha Ha').
Qed.

Lemma put_page_maps_witness :
  put_page (page_addr 3837) 0x4001000 1%nat (take_page demo 3837) = Done 0 (take_page demo 3837) \/
  exists s', put_page (page_addr 3837) 0x4001000 1%nat (take_page demo 3837)
               = Done (page_addr 3837) s' /\ wf s' /\
    (forall i, 0 <= i < PAGING_PAGES ->
       extra s' i = extra (take_page demo 3837) i - (if decide (i = 3837) then 1 else 0)) /\
    (forall a', user_addr a' -> a' / 4096 = 0x4001000 / 4096 ->
       translate s' a' = Some (page_addr 3837 + a' mod 4096)) /\
    (forall a' x, user_addr a' -> a' / 4096 <> 0x4001000 / 4096 ->
       translate (take_page demo 3837) a' = Some x -> translate s' a' = Some x).
Proof.
  destruct (take_page_reads demo 3837 demo_wf) as (_ & _ & _ & _ & Hw);
    [rewrite PAGING_PAGES_eq; lia|vm_compute; reflexivity|].
  apply (put_page_maps 1%nat (take_page demo 3837) 3837 0x4001000).
  - exact Hw.
  - rewrite PAGING_PAGES_eq; lia.
  - vm_compute. discriminate.
  - split; vm_compute; congruence.
  - vm_compute. reflexivity.
Defined.

(** ** fork *)

Lemma shared_facts e :
  0 <= e < 2 ^ 32 -> present e = true ->
  present (shared e) = true /\ frame (shared e) = frame e /\ writable (shared e) = false.
Proof.
  intros He Hp. unfold shared. rewrite Hp, ldiff_2_present, ldiff_2_frame by done.
  split; [done|]. split; [done|]. unfold writable. rewrite Z.ldiff_spec. by rewrite andb_false_r.
Qed.

Lemma protected_facts e :
  0 <= e < 2 ^ 32 -> present e = true ->
  present (protected e) = true /\ frame (protected e) = frame e /\
  (LOW_MEM <= frame e -> writable (protected e) = false).
Proof.
  intros He Hp. unfold protected. rewrite low_test, Hp by done. simpl.
  destruct (Z.leb_spec LOW_MEM (frame e)); [|split; [done|]; split; [done|lia]].
  rewrite ldiff_2_present, ldiff_2_frame by done. split; [done|]. split; [done|].
  intros _. unfold writable. rewrite Z.ldiff_spec. by rewrite andb_false_r.
Qed.

Lemma shifted_addr a d1 d2 n :
  user_dir d1 -> user_dir d2 -> d1 + n <= 1024 -> d2 + n <= 1024 ->
  0x400000 * d1 <= a < 0x400000 * (d1 + n) ->
  let b := a + 0x400000 * (d2 - d1) in
  exists m, 0 <= m < n /\ dir_of a = d1 + m /\ dir_of b = d2 + m /\ idx_of b = idx_of a /\
            b mod 4096 = a mod 4096.
Proof.
  intros [H1 H1'] [H2 H2'] H3 H4 Ha b. unfold FIRST_USER_DIR in *.
  assert (Hq : d1 <= a / 0x400000 < d1 + n).
  { split; [apply Z.div_le_lower_bound; lia|apply Z.div_lt_upper_bound; lia]. }
  exists (a / 0x400000 - d1). split; [lia|].
  unfold dir_of, idx_of, b. rewrite (Z.mul_comm 0x400000), Z.div_add by lia.
  split; [rewrite Z.mod_small; lia|]. split; [rewrite Z.mod_small; lia|]. split.
  - replace ((d2 - d1) * 0x400000) with ((d2 - d1) * 1024 * 0x1000) by lia.
    rewrite Z.div_add by lia. by rewrite Z.mod_add by lia.
  - replace ((d2 - d1) * 0x400000) with ((d2 - d1) * 1024 * 4096) by lia. by rewrite Z.mod_add by lia.
Qed.

Lemma copy_page_tables_run fuel s d1 d2 size :
  user_dir d1 -> user_dir d2 ->
  copy_page_tables (0x400000 * d1) (0x400000 * d2) size fuel s
  = obind (for_break (zrange 0 (Z.to_nat (Z.shiftr (u32 (size + 0x3fffff)) 22)))
             (fun i => copy_dir (0x400000 * d1) (4 * d1 + 4 * i) (4 * d2 + 4 * i)) fuel s)
          (fun r s' => Done (default 0 r) s').
Proof.
  intros [H1 H1'] [H2 H2']. unfold FIRST_USER_DIR in *.
  destruct (dir_entry_aligned d1 ltac:(lia)) as [E1 E2].
  destruct (dir_entry_aligned d2 ltac:(lia)) as [E3 E4].
  unfold copy_page_tables. rewrite E1, E2, E3, E4. done.
Qed.

Lemma copy_page_tables_total fuel s d1 d2 size n :
  n = Z.shiftr (u32 (size + 0x3fffff)) 22 -> user_dir d1 -> user_dir d2 -> copy_range_ok s d1 d2 n ->
  exists r s', copy_page_tables (0x400000 * d1) (0x400000 * d2) size fuel s = Done r s' /\
    (r = -1 /\ (exists k, 0 <= k < n /\ range_copied s s' d1 d2 n k) \/ r = 0 /\ range_copied s s' d1 d2 n n).
Proof.
  intros Hn Hd1 Hd2 Hok.
  assert (Hn0 : 0 <= n).
  { subst n. apply Z.shiftr_nonneg. pose proof (u32_range (size + 0x3fffff)). lia. }
  rewrite copy_page_tables_run by done. rewrite <- Hn.
  pose proof (copy_range_total s d1 d2 n (0x400000 * d1) Hn0 Hd1) as Ht.
  destruct (total_run _ _ _ fuel s (Ht ltac:(unfold user_dir, FIRST_USER_DIR in *; lia) Hok) eq_refl)
    as (r & s' & -> & H). cbn [obind]. exists (default 0 r), s'. split; [done|].
  destruct r as [v|]; cbn [default] in *; [destruct H as [-> H]; by left|by right].
Qed.

(** A copied range: both sides translate as the first did. *)
Lemma range_copied_shares s s' d1 d2 n a :
  user_dir d1 -> user_dir d2 -> d1 + n <= 1024 -> d2 + n <= 1024 -> copy_range_ok s d1 d2 n ->
  range_copied s s' d1 d2 n n -> 0x400000 * d1 <= a < 0x400000 * (d1 + n) ->
  let b := a + 0x400000 * (d2 - d1) in
  translate s' a = translate s a /\ translate s' b = translate s a /\
  forall x, translate s a = Some x -> LOW_MEM <= x - a mod 4096 ->
    writable (pte s' (dir_of a) (idx_of a)) = false /\
    writable (pte s' (dir_of b) (idx_of b)) = false.
Proof.
  intros Hd1 Hd2 Hb1 Hb2 Hok [Hw _ Hx Hpd Hold Hnew _] Ha b.
  destruct (shifted_addr a d1 d2 n Hd1 Hd2 Hb1 Hb2 Ha) as (m & Hm & Da & Db & Ib & Mb).
  fold b in Db, Ib, Mb. pose proof (cr_disjoint _ _ _ _ Hok) as Hdis.
  assert (Hu1 : user_dir (d1 + m)) by (apply (cr_from _ _ _ _ Hok); lia).
  pose proof (idx_of_range a) as Hi. specialize (Hnew m Hm).
  assert (Hpa : pde s' (d1 + m) = pde s (d1 + m)) by (apply Hpd; [done|lia]).
  unfold translate. rewrite Da, Db, Ib, Mb, Hpa.
  destruct (present (pde s (d1 + m))) eqn:Hp; cycle 1.
  { rewrite Hnew, (cr_empty _ _ _ _ Hok) by lia. done. }
  destruct Hnew as [Hp2 Hnew]. rewrite Hp2, Hnew, Hold, decide_True by (done || lia).
  assert (He : 0 <= pte s (d1 + m) (idx_of a) < 2 ^ 32) by apply (ok_words s (wf_tables s (cr_wf _ _ _ _ Hok))).
  cbn [andb]. destruct (present (pte s (d1 + m) (idx_of a))) eqn:Hpe.
  - destruct (shared_facts _ He Hpe) as (-> & -> & Hw1), (protected_facts _ He Hpe) as (-> & -> & Hw2).
    split; [done|]. split; [done|]. intros x [= <-] Hl. split; [apply Hw2; lia|done].
  - unfold shared, protected. rewrite Hpe. cbn [andb]. rewrite Hpe. done.
Qed.

(** C5. [copy_page_tables] of a user range into an empty one either runs out of
    memory or shares every page: child and parent translate corresponding
    addresses alike, to what the parent had; no shared page above 1 MB is left
    writable on either side; and every reference stays accounted for. *)
Theorem copy_page_tables_shares (fuel : nat) (s : mm) (d1 d2 size n : Z) :
  n = Z.shiftr (u32 (size + 0x3fffff)) 22 -> user_dir d1 -> user_dir d2 ->
  d1 + n <= 1024 -> d2 + n <= 1024 -> copy_range_ok s d1 d2 n ->
  exists r s', copy_page_tables (0x400000 * d1) (0x400000 * d2) size fuel s = Done r s' /\
    wf s' /\ (forall i, 0 <= i < PAGING_PAGES -> extra s' i = extra s i) /\
    (r = -1 \/ r = 0 /\ forall a, 0x400000 * d1 <= a < 0x400000 * (d1 + n) ->
       let b := a + 0x400000 * (d2 - d1) in
       translate s' a = translate s a /\ translate s' b = translate s a /\
       forall x, translate s a = Some x -> LOW_MEM <= x - a mod 4096 ->
         writable (pte s' (dir_of a) (idx_of a)) = false /\
         writable (pte s' (dir_of b) (idx_of b)) = false).
Proof.
  intros Hn Hd1 Hd2 Hb1 Hb2 Hok.
  destruct (copy_page_tables_total fuel s d1 d2 size n Hn Hd1 Hd2 Hok) as (r & s' & E & H).
  exists r, s'. split; [exact E|]. destruct H as [(-> & k & _ & H)|(-> & H)].
  - split; [apply H|]. split; [apply H|]. by left.
  - split; [apply H|]. split; [apply H|]. right. split; [done|]. intros a Ha. by apply (range_copied_shares s s' d1 d2 n).
Qed.

Lemma demo_counts i : 0 <= i < PAGING_PAGES -> count demo i <= 1.
Proof.
  intros Hi. assert (H : forallb (fun k => count demo k <=? 1) (zrange 0 3840) = true)
    by (vm_compute; reflexivity).
  rewrite forallb_forall in H. apply Z.leb_le, H, zrange_elem. rewrite PAGING_PAGES_eq in Hi. lia.
Qed.

Lemma demo_mapped j : 0 <= j < 1024 -> mapped_ok (pte demo 16 j).
Proof.
  intros Hj. assert (H : forallb (fun k => negb (present (pte demo 16 k)) ||
    (frame (pte demo 16 k) <? page_addr PAGING_PAGES)) (zrange 0 1024) = true)
    by (vm_compute; reflexivity).
  rewrite forallb_forall in H. specialize (H j (proj2 (zrange_elem 0 1024 j) ltac:(lia))).
  intros Hp. rewrite Hp in H. by apply Z.ltb_lt in H.
Qed.

Lemma demo_fork : copy_range_ok demo 16 32 1.
Proof.
  assert (H16 : user_dir 16) by (unfold user_dir, FIRST_USER_DIR; lia).
  split; unfold user_dir, FIRST_USER_DIR; try lia.
  - exact demo_wf.
  - intros k Hk. replace k with 32 by lia. vm_compute. reflexivity.
  - intros k j Hk _ Hj. replace k with 16 by lia. by apply demo_mapped.
  - intros i Hi. pose proof (demo_counts i Hi). pose proof (wf_counted demo demo_wf i Hi).
    pose proof (zsum_ge (dir_refs demo i) user_dirs 16 ltac:(intros; apply dir_refs_nonneg)
      (proj2 (user_dirs_elem 16) H16)) as Hge. fold (refs demo i) in Hge.
    change (Z.to_nat 1) with 1%nat. cbn [range_refs zrange zsum].
    pose proof (ref_to_range (pde demo 16) i). unfold dir_table_refs, dir_refs, table_refs in *.
    destruct (present (pde demo 16)); lia.
Qed.

Lemma copy_page_tables_shares_witness :
  exists r s', copy_page_tables (0x400000 * 16) (0x400000 * 32) 0x400000 1%nat demo = Done r s' /\
    wf s' /\ (forall i, 0 <= i < PAGING_PAGES -> extra s' i = extra demo i) /\
    (r = -1 \/ r = 0 /\ forall a, 0x400000 * 16 <= a < 0x400000 * (16 + 1) ->
       let b := a + 0x400000 * (32 - 16) in
       translate s' a = translate demo a /\ translate s' b = translate demo a /\
       forall x, translate demo a = Some x -> LOW_MEM <= x - a mod 4096 ->
         writable (pte s' (dir_of a) (idx_of a)) = false /\
         writable (pte s' (dir_of b) (idx_of b)) = false).
Proof.
  apply (copy_page_tables_shares 1%nat demo 16 32 0x400000 1).
  - reflexivity.
  - split; vm_compute; congruence.
  - split; vm_compute; congruence.
  - lia.
  - lia.
  - exact demo_fork.
Defined.

(** The child's view of [demo] after a fork: page 3839 has two owners. *)
Definition forked : mm :=
  match copy_page_tables (0x400000 * 16) (0x400000 * 32) 0x400000 1%nat demo with
  | Done _ s => s | _ => demo end.

Lemma forked_wf : wf forked.
Proof.
  destruct (copy_page_tables_total 1%nat demo 16 32 0x400000 1 eq_refl ltac:(split; vm_compute; congruence)
    ltac:(split; vm_compute; congruence) demo_fork) as (r & s' & E & H).
  unfold forked. rewrite E. destruct H as [(_ & k & _ & H)|(_ & H)]; apply H.
Qed.

(** ** Write faults *)

Lemma do_wp_page_run a n s :
  do_wp_page a n s = un_wp_page (pte_addr s (dir_of a) (idx_of a)) n s.
Proof.
  unfold do_wp_page, bind at 1, ld at 1, gets. cbn [obind].
  by rewrite dir_entry_of_alt, pte_offset_alt, Z.add_comm.
Qed.

(** C11. A write fault on a present user page gives the faulting address a
    writable page of its own holding the same data, and leaves the shared page,
    every other user translation and the reference accounting as they were; only
    when the page is shared and no page is free is the task killed instead. *)
Theorem do_wp_page_copies (n : nat) (s : mm) (a p : Z) :
  wf s -> user_addr a -> 0 <= p < PAGING_PAGES ->
  translate s a = Some (page_addr p + a mod 4096) ->
  (forall d, user_dir d -> present (pde s d) = true -> frame (pde s d) <> page_addr p) ->
  (do_wp_page a n s = Die SIGSEGV s /\ 1 < count s p /\
     forall i, 0 <= i < PAGING_PAGES -> count s i <> 0) \/
  exists s' q, do_wp_page a n s = Done tt s' /\ wf s' /\
    (forall i, 0 <= i < PAGING_PAGES -> extra s' i = extra s i) /\
    0 <= q < PAGING_PAGES /\ count s' q = 1 /\
    writable (pte s' (dir_of a) (idx_of a)) = true /\
    (forall a', user_addr a' -> a' / 4096 = a / 4096 ->
       translate s' a' = Some (page_addr q + a' mod 4096) /\ peek s' a' = peek s a') /\
    (forall off, 0 <= off < 4096 -> mem s' (page_addr p + off) = mem s (page_addr p + off)) /\
    (forall a', user_addr a' -> a' / 4096 <> a / 4096 -> translate s' a' = translate s a').
Proof.
  intros Hwf Ha Hp Htr Hnt. destruct (user_addr_dir a Ha) as [Hd _].
  rewrite do_wp_page_run.
  unfold translate in Htr. destruct (present (pde s (dir_of a))) eqn:Hpd; [|done]. cbn [andb] in Htr.
  destruct (present (pte s (dir_of a) (idx_of a))) eqn:Hpe; [|done].
  assert (Hfe : frame (pte s (dir_of a) (idx_of a)) = page_addr p) by (injection Htr; lia).
  destruct (un_wp_page_spec s (dir_of a) (idx_of a) p n Hwf Hd Hpd (idx_of_range a) Hp Hpe Hfe Hnt)
    as [(s' & -> & Hc)|H]; [right|by left].
  destruct Hc as [H1 H2 [H3 H3'] (q & Hq & Hfq & Hcq) H5 H6 H7 H8].
  exists s', q. repeat (split; [done|]). split; [|split; [done|]].
  - intros a' Ha' Hsame. apply (same_entry a a' Ha Ha') in Hsame as [Hd' Hi'].
    pose proof (Z.mod_pos_bound a' 4096 ltac:(lia)).
    unfold peek, translate. rewrite Hd', Hi', H7, Hpd, H3, Hpe, Hfe, Hfq by done.
    split; [done|]. cbn. f_equal. rewrite <- Hfq. by apply H5.
  - intros a' Ha' Hne. destruct (user_addr_dir a' Ha') as [Hd' _].
    unfold translate. rewrite H7 by done. destruct (present (pde s (dir_of a'))) eqn:Hp'; [|done].
    rewrite H8; try done; [apply idx_of_range|].
    intros Hsame. by apply Hne, (same_entry a a' Ha Ha').
Qed.

Lemma do_wp_page_copies_witness :
  (do_wp_page 0x8000123 1%nat forked = Die SIGSEGV forked /\ 1 < count forked 3839 /\
     forall i, 0 <= i < PAGING_PAGES -> count forked i <> 0) \/
  exists s' q, do_wp_page 0x8000123 1%nat forked = Done tt s' /\ wf s' /\
    (forall i, 0 <= i < PAGING_PAGES -> extra s' i = extra forked i) /\
    0 <= q < PAGING_PAGES /\ count s' q = 1 /\
    writable (pte s' (dir_of 0x8000123) (idx_of 0x8000123)) = true /\
    (forall a', user_addr a' -> a' / 4096 = 0x8000123 / 4096 ->
       translate s' a' = Some (page_addr q + a' mod 4096) /\ peek s' a' = peek forked a') /\
    (forall off, 0 <= off < 4096 ->
       mem s' (page_addr 3839 + off) = mem forked (page_addr 3839 + off)) /\
    (forall a', user_addr a' -> a' / 4096 <> 0x8000123 / 4096 -> translate s' a' = translate forked a').
Proof.
  apply (do_wp_page_copies 1%nat forked 0x8000123 3839).
  - exact forked_wf.
  - split; vm_compute; congruence.
  - rewrite PAGING_PAGES_eq; lia.
  - vm_compute. reflexivity.
  - assert (H : forallb (fun d => negb (present (pde forked d)) ||
      negb (frame (pde forked d) =? page_addr 3839)) user_dirs = true) by (vm_compute; reflexivity).
    rewrite forallb_forall in H. intros d Hd Hp. specialize (H d (proj2 (user_dirs_elem d) Hd)).
    rewrite Hp in H. cbn [negb orb] in H. by apply negb_true_iff, Z.eqb_neq in H.
Defined.

(** ** exit and exec *)

Lemma free_page_tables_run fuel s d size n :
  n = Z.shiftr (u32 (size + 0x3fffff)) 22 -> user_dir d -> d + n <= 1024 ->
  wf s -> HIGH_MEMORY s <= page_addr PAGING_PAGES ->
  (forall k, d <= k < d + n -> present (pde s k) = true ->
     frame (pde s k) < HIGH_MEMORY s /\ forall j, 0 <= j < 1024 -> freeable s (pte s k j)) ->
  exists s', free_page_tables (0x400000 * d) size fuel s = Done 0 s' /\ range_freed s s' d n.
Proof.
  intros Hn Hd Hb Hwf Hh Hok. unfold user_dir, FIRST_USER_DIR in Hd.
  assert (Hn0 : 0 <= n).
  { subst n. apply Z.shiftr_nonneg. pose proof (u32_range (size + 0x3fffff)). lia. }
  destruct (dir_entry_aligned d ltac:(lia)) as [E1 E2].
  unfold free_page_tables. cbv zeta. rewrite E1, E2, <- Hn. change (nz 0) with false. cbn iota. unfold nz at 1.
  replace (0x400000 * d =? 0) with false by (symmetry; apply Z.eqb_neq; lia). cbn [negb].
  pose proof (free_range_total s d n Hn0 Hwf Hh) as Ht.
  unfold bind at 1. destruct (total_run _ _ _ fuel s (Ht ltac:(intros k Hk; split;
    [unfold user_dir, FIRST_USER_DIR; lia|intros Hp; by apply Hok])) eq_refl) as ([] & s' & -> & H).
  by exists s'.
Qed.

Lemma range_freed_translate s s' d n a :
  range_freed s s' d n -> user_addr a ->
  translate s' a = if decide (d <= dir_of a < d + n) then None else translate s a.
Proof.
  intros [_ _ _ Hin Hout] Ha. destruct (user_addr_dir a Ha) as [Hda _]. unfold translate. case_decide as Hr.
  - by rewrite Hin.
  - destruct (Hout (dir_of a) Hda Hr) as [-> Hpt]. destruct (present (pde s (dir_of a))) eqn:Hp; [|done].
    rewrite Hpt by (done || apply idx_of_range). done.
Qed.

(** C28. [free_page_tables] of a 4 MB aligned user range unmaps every address of
    it and gives back exactly the references its tables held: what the kernel
    holds beyond the page tables is unchanged, and so is every translation
    outside the range. *)
Theorem free_page_tables_releases (fuel : nat) (s : mm) (d size n : Z) :
  n = Z.shiftr (u32 (size + 0x3fffff)) 22 -> user_dir d -> d + n <= 1024 ->
  wf s -> HIGH_MEMORY s <= page_addr PAGING_PAGES ->
  (forall k, d <= k < d + n -> present (pde s k) = true ->
     frame (pde s k) < HIGH_MEMORY s /\ forall j, 0 <= j < 1024 -> freeable s (pte s k j)) ->
  exists s', free_page_tables (0x400000 * d) size fuel s = Done 0 s' /\ wf s' /\
    (forall i, 0 <= i < PAGING_PAGES -> extra s' i = extra s i) /\
    (forall a, user_addr a -> d <= dir_of a < d + n -> translate s' a = None) /\
    (forall a, user_addr a -> ~ (d <= dir_of a < d + n) -> translate s' a = translate s a).
Proof.
  intros Hn Hd Hb Hwf Hh Hok.
  destruct (free_page_tables_run fuel s d size n Hn Hd Hb Hwf Hh Hok) as (s' & E & H).
  exists s'. split; [exact E|]. split; [apply H|]. split; [apply H|].
  split; intros a Ha Hr; rewrite (range_freed_translate _ _ _ _ _ H Ha); by case_decide.
Qed.

Lemma free_page_tables_releases_witness :
  exists s', free_page_tables (0x400000 * 32) 0x400000 1%nat forked = Done 0 s' /\ wf s' /\
    (forall i, 0 <= i < PAGING_PAGES -> extra s' i = extra forked i) /\
    (forall a, user_addr a -> 32 <= dir_of a < 32 + 1 -> translate s' a = None) /\
    (forall a, user_addr a -> ~ (32 <= dir_of a < 32 + 1) -> translate s' a = translate forked a).
Proof.
  apply (free_page_tables_releases 1%nat forked 32 0x400000 1).
  - reflexivity.
  - split; vm_compute; congruence.
  - lia.
  - exact forked_wf.
  - vm_compute. congruence.
  - intros k Hk _. replace k with 32 by lia. split; [vm_compute; reflexivity|].
    assert (H : forallb (fun j => negb (present (pte forked 32 j)) ||
      (frame (pte forked 32 j) <? HIGH_MEMORY forked)) (zrange 0 1024) = true) by (vm_compute; reflexivity).
    rewrite forallb_forall in H. intros j Hj Hp.
    specialize (H j (proj2 (zrange_elem 0 1024 j) ltac:(lia))). rewrite Hp in H. cbn [negb orb] in H. by apply Z.ltb_lt in H.
Defined.
