(* ===== verification/KState.v ===== *)
(** * The kernel's global state: include/linux/sched.h, fs.h, kernel/blk_drv/blk.h

    The structures of the headers as records (a field of a w-bit C type holds its
    wrapped value), the global tables of the kernel grouped by the component that
    owns them, and the accessors through which the routines read and write them.
    A pointer into a table is the index of the entry, [None] is NULL. *)
From Stdlib Require Import ZArith Lia String.
From stdpp Require Import base list.
From S2P Require Import Prelude Resumption Memory.

(** ** Tasks: include/linux/sched.h, include/signal.h, include/linux/head.h *)

Record sigaction_t := mkSigaction {
  sa_handler : Z; sa_mask : Z; sa_flags : Z; sa_restorer : Z
}.
#[export] Instance sigaction_reconstruct : Reconstruct sigaction_t :=
  fun r => mkSigaction (sa_handler r) (sa_mask r) (sa_flags r) (sa_restorer r).

(** A segment descriptor: two 32-bit words. *)
Record desc_struct := mkDesc { desc_a : Z; desc_b : Z }.

Record tss_struct := mkTss {
  back_link : Z; esp0 : Z; ss0 : Z; esp1 : Z; ss1 : Z; esp2 : Z; ss2 : Z;
  cr3 : Z; eip : Z; eflags : Z;
  eax : Z; ecx : Z; edx : Z; ebx : Z; esp : Z; ebp : Z; esi : Z; edi : Z;
  tss_es : Z; tss_cs : Z; tss_ss : Z; tss_ds : Z; tss_fs : Z; tss_gs : Z;
  tss_ldt : Z; trace_bitmap : Z;
  i387 : list Z             (* the saved coprocessor state, 108 bytes *)
}.
#[export] Instance tss_reconstruct : Reconstruct tss_struct :=
  fun r => mkTss (back_link r) (esp0 r) (ss0 r) (esp1 r) (ss1 r) (esp2 r) (ss2 r)
    (cr3 r) (eip r) (eflags r)
    (eax r) (ecx r) (edx r) (ebx r) (esp r) (ebp r) (esi r) (edi r)
    (tss_es r) (tss_cs r) (tss_ss r) (tss_ds r) (tss_fs r) (tss_gs r)
    (tss_ldt r) (trace_bitmap r) (i387 r).

Record task_struct := mkTask {
  state : Z; counter : Z; priority : Z; signal : Z;
  sigaction : list sigaction_t; blocked : Z; exit_code : Z;
  start_code : Z; end_code : Z; end_data : Z; brk : Z; start_stack : Z;
  pid : Z; father : Z; pgrp : Z; session : Z; leader : Z;
  uid : Z; euid : Z; suid : Z; gid : Z; egid : Z; sgid : Z;
  alarm : Z; utime : Z; stime : Z; cutime : Z; cstime : Z; start_time : Z;
  used_math : Z; tty : Z; umask : Z;
  pwd : option Z; root : option Z; executable : option Z;
  close_on_exec : Z; filp : list (option Z);
  ldt : list desc_struct; tss : tss_struct;
  task_page : Z             (* the address of the structure itself *)
}.
#[export] Instance task_reconstruct : Reconstruct task_struct :=
  fun r => mkTask (state r) (counter r) (priority r) (signal r)
    (sigaction r) (blocked r) (exit_code r)
    (start_code r) (end_code r) (end_data r) (brk r) (start_stack r)
    (pid r) (father r) (pgrp r) (session r) (leader r)
    (uid r) (euid r) (suid r) (gid r) (egid r) (sgid r)
    (alarm r) (utime r) (stime r) (cutime r) (cstime r) (start_time r)
    (used_math r) (tty r) (umask r) (pwd r) (root r) (executable r)
    (close_on_exec r) (filp r) (ldt r) (tss r) (task_page r).

Definition NR_TASKS : Z := 64.
Definition HZ : Z := 100.
Definition TASK_RUNNING : Z := 0.
Definition TASK_INTERRUPTIBLE : Z := 1.
Definition TASK_UNINTERRUPTIBLE : Z := 2.
Definition TASK_ZOMBIE : Z := 3.
Definition TASK_STOPPED : Z := 4.

(** A function pointer of [timer_list]: the callbacks are named by a number. *)
Record timer := mkTimer { t_jiffies : Z; t_fn : option Z; t_next : option Z }.
#[export] Instance timer_reconstruct : Reconstruct timer :=
  fun r => mkTimer (t_jiffies r) (t_fn r) (t_next r).

(** A gate of the interrupt table: the access bits of its descriptor and the name of
    the routine whose address it holds. *)
Record gate := mkGate { g_access : Z; g_addr : string }.

Record sched := mkSched {
  task : list (option task_struct);
  current : Z;                     (* the slot of the running task *)
  last_task_used_math : option Z;
  jiffies : Z; startup_time : Z; last_pid : Z;
  timer_list : list timer; next_timer : option Z;
  wait_motor : list (option Z); mon_timer : list Z; moff_timer : list Z;
  current_DOR : Z; selected : Z;
  beepcount : Z;
  fpu : list Z;                    (* the coprocessor registers *)
  gdt : list desc_struct;
  idt : list gate;                 (* 256 entries *)
  out : list (Z * Z);              (* what was written to I/O ports, the last first *)
  inputs : Z -> nat -> Z           (* what the devices will deliver at each port *)
}.
#[export] Instance sched_reconstruct : Reconstruct sched :=
  fun r => mkSched (task r) (current r) (last_task_used_math r) (jiffies r)
    (startup_time r) (last_pid r) (timer_list r) (next_timer r) (wait_motor r)
    (mon_timer r) (moff_timer r) (current_DOR r) (selected r) (beepcount r) (fpu r)
    (gdt r) (idt r) (out r) (inputs r).

(** ** The buffer cache: include/linux/fs.h *)

Record buffer_head := mkBh {
  b_addr : Z;                      (* where the data is *)
  b_data : list Z;                 (* the 1024 bytes of the block *)
  b_blocknr : Z; b_dev : Z; b_uptodate : Z; b_dirt : Z; b_count : Z; b_lock : Z;
  b_wait : option Z;
  b_prev : option Z; b_next : option Z; b_prev_free : option Z; b_next_free : option Z
}.
#[export] Instance bh_reconstruct : Reconstruct buffer_head :=
  fun r => mkBh (b_addr r) (b_data r) (b_blocknr r) (b_dev r) (b_uptodate r) (b_dirt r) (b_count r)
    (b_lock r) (b_wait r) (b_prev r) (b_next r) (b_prev_free r) (b_next_free r).

Definition NR_HASH : Z := 307.
Definition BLOCK_SIZE : Z := 1024.

Record cache := mkCache {
  start_buffer : Z;                (* the address of the first buffer head *)
  bhs : list buffer_head;          (* NR_BUFFERS of them *)
  hash_table : list (option Z);
  free_list : option Z;
  buffer_wait : option Z
}.
#[export] Instance cache_reconstruct : Reconstruct cache :=
  fun r => mkCache (start_buffer r) (bhs r) (hash_table r) (free_list r) (buffer_wait r).

(** ** Block devices: kernel/blk_drv/blk.h *)

Definition NR_BLK_DEV : Z := 7.
Definition NR_REQUEST : Z := 32.
Definition READ : Z := 0.
Definition WRITE : Z := 1.
Definition READA : Z := 2.
Definition WRITEA : Z := 3.

Record request_t := mkRequest {
  r_dev : Z; r_cmd : Z; r_errors : Z; r_sector : Z; r_nr_sectors : Z;
  r_buffer : option (Z * Z);       (* a place in the data of a buffer head *)
  r_waiting : option Z; r_bh : option Z; r_next : option Z
}.
#[export] Instance request_reconstruct : Reconstruct request_t :=
  fun r => mkRequest (r_dev r) (r_cmd r) (r_errors r) (r_sector r) (r_nr_sectors r)
    (r_buffer r) (r_waiting r) (r_bh r) (r_next r).

(** [request_fn] of a driver: none, the ram disk's, or that of a controller whose
    interrupt completes the request later. *)
Inductive request_fn_t := NoDriver | RamDisk | Controller.

Record blk_dev_struct := mkBlkDev { request_fn : request_fn_t; current_request : option Z }.
#[export] Instance blk_dev_reconstruct : Reconstruct blk_dev_struct :=
  fun r => mkBlkDev (request_fn r) (current_request r).

(** *** The hard disk: include/linux/hdreg.h, kernel/blk_drv/hd.c *)

Definition MAX_HD : Z := 2.

Record hd_i_struct := mkHdInfo {
  hd_head : Z; hd_sect : Z; hd_cyl : Z; hd_wpcom : Z; hd_lzone : Z; hd_ctl : Z
}.
Record hd_struct := mkHdStruct { start_sect : Z; nr_sects : Z }.

(** The values of the function pointer [do_hd]. *)
Inductive hd_handler := ReadIntr | WriteIntr | RecalIntr.

(** The static variables of hd.c. *)
Record hard_disk := mkHd {
  do_hd : option hd_handler; hd_recalibrate : Z; hd_reset : Z;
  hd_info : list hd_i_struct; NR_HD : Z;
  hd : list hd_struct;             (* for each drive the whole disk and four partitions *)
  callable : Z                     (* the static of sys_setup *)
}.
#[export] Instance hard_disk_reconstruct : Reconstruct hard_disk :=
  fun r => mkHd (do_hd r) (hd_recalibrate r) (hd_reset r) (hd_info r) (NR_HD r) (hd r) (callable r).

(** *** Floppies: include/linux/fdreg.h, kernel/blk_drv/floppy.c *)

Record floppy_struct := mkFloppyType {
  fl_size : Z; fl_sect : Z; fl_head : Z; fl_track : Z; fl_stretch : Z; fl_gap : Z; fl_rate : Z; fl_spec1 : Z
}.

(** The values of the function pointer [do_floppy]. *)
Inductive fd_handler := RwInterrupt | SeekInterrupt | RecalInterrupt | ResetInterrupt.

(** The variables of floppy.c but [current_DOR] and [selected], which sched.c uses too. *)
Record floppy_disk := mkFd {
  do_floppy : option fd_handler; fd_recalibrate : Z; fd_reset : Z; fd_seek : Z;
  reply_buffer : list Z;           (* seven bytes *)
  cur_spec1 : Z; cur_rate : Z;
  floppy : Z;                      (* the entry of [floppy_type] it points to *)
  current_drive : Z; fd_sector : Z; fd_head : Z; fd_track : Z; seek_track : Z; current_track : Z;
  fd_command : Z;
  wait_on_floppy_select : option Z;
  tmp_floppy_area : list Z         (* 1024 bytes below 1 MB *)
}.
#[export] Instance floppy_disk_reconstruct : Reconstruct floppy_disk :=
  fun r => mkFd (do_floppy r) (fd_recalibrate r) (fd_reset r) (fd_seek r) (reply_buffer r) (cur_spec1 r) (cur_rate r)
    (floppy r) (current_drive r) (fd_sector r) (fd_head r) (fd_track r) (seek_track r) (current_track r)
    (fd_command r) (wait_on_floppy_select r) (tmp_floppy_area r).

Record blk := mkBlk {
  request : list request_t;
  wait_for_request : option Z;
  blk_dev : list blk_dev_struct;
  rd_start : Z; rd_length : Z;
  rd_data : list Z;                (* the bytes from [rd_start] on *)
  hdd : hard_disk; fdd : floppy_disk
}.
#[export] Instance blk_reconstruct : Reconstruct blk :=
  fun r => mkBlk (request r) (wait_for_request r) (blk_dev r) (rd_start r) (rd_length r) (rd_data r)
    (hdd r) (fdd r).

(** ** Inodes, files and super blocks: include/linux/fs.h *)

Record m_inode := mkInode {
  i_mode : Z; i_uid : Z; i_size : Z; i_mtime : Z; i_gid : Z; i_nlinks : Z;
  i_zone : list Z;                 (* nine zone numbers *)
  i_wait : option Z; i_atime : Z; i_ctime : Z;
  i_dev : Z; i_num : Z; i_count : Z;
  i_lock : Z; i_dirt : Z; i_pipe : Z; i_mount : Z; i_seek : Z; i_update : Z
}.
#[export] Instance inode_reconstruct : Reconstruct m_inode :=
  fun r => mkInode (i_mode r) (i_uid r) (i_size r) (i_mtime r) (i_gid r) (i_nlinks r) (i_zone r)
    (i_wait r) (i_atime r) (i_ctime r) (i_dev r) (i_num r) (i_count r)
    (i_lock r) (i_dirt r) (i_pipe r) (i_mount r) (i_seek r) (i_update r).

Record file_t := mkFile {
  f_mode : Z; f_flags : Z; f_count : Z; f_inode : option Z; f_pos : Z
}.
#[export] Instance file_reconstruct : Reconstruct file_t :=
  fun r => mkFile (f_mode r) (f_flags r) (f_count r) (f_inode r) (f_pos r).

Record super_block_t := mkSuper {
  s_ninodes : Z; s_nzones : Z; s_imap_blocks : Z; s_zmap_blocks : Z; s_firstdatazone : Z;
  s_log_zone_size : Z; s_max_size : Z; s_magic : Z;
  s_imap : list (option Z); s_zmap : list (option Z);
  s_dev : Z; s_isup : option Z; s_imount : option Z; s_time : Z; s_wait : option Z;
  s_lock : Z; s_rd_only : Z; s_dirt : Z
}.
#[export] Instance super_reconstruct : Reconstruct super_block_t :=
  fun r => mkSuper (s_ninodes r) (s_nzones r) (s_imap_blocks r) (s_zmap_blocks r)
    (s_firstdatazone r) (s_log_zone_size r) (s_max_size r) (s_magic r)
    (s_imap r) (s_zmap r) (s_dev r) (s_isup r) (s_imount r) (s_time r) (s_wait r)
    (s_lock r) (s_rd_only r) (s_dirt r).

Definition NR_OPEN : Z := 20.
Definition NR_INODE : Z := 32.
Definition NR_FILE : Z := 64.
Definition NR_SUPER : Z := 8.
Definition I_MAP_SLOTS : Z := 8.
Definition Z_MAP_SLOTS : Z := 8.
Definition SUPER_MAGIC : Z := 0x137F.
Definition NAME_LEN : Z := 14.
Definition ROOT_INO : Z := 1.

Record filesys := mkFilesys {
  inode_table : list m_inode;
  last_inode : Z;                  (* the static of get_empty_inode *)
  file_table : list file_t;
  super_block : list super_block_t;
  ROOT_DEV : Z
}.
#[export] Instance filesys_reconstruct : Reconstruct filesys :=
  fun r => mkFilesys (inode_table r) (last_inode r) (file_table r) (super_block r) (ROOT_DEV r).

(** ** Terminals: include/linux/tty.h, kernel/chr_drv/console.c *)

Definition TTY_BUF_SIZE : Z := 1024.

Record tty_queue := mkQueue {
  q_data : Z; q_head : Z; q_tail : Z;
  q_proc : option Z;               (* the sleepers *)
  q_buf : list Z                   (* TTY_BUF_SIZE bytes *)
}.
#[export] Instance queue_reconstruct : Reconstruct tty_queue :=
  fun r => mkQueue (q_data r) (q_head r) (q_tail r) (q_proc r) (q_buf r).

(** The function [tty->write]. *)
Inductive tty_output := ConWrite | RsWrite.

Record tty_struct := mkTty {
  termios : list Z;                (* the 36 bytes of a struct termios *)
  tty_pgrp : Z; stopped : Z; tty_out : tty_output;
  read_q : tty_queue; write_q : tty_queue; secondary : tty_queue
}.
#[export] Instance tty_reconstruct : Reconstruct tty_struct :=
  fun r => mkTty (termios r) (tty_pgrp r) (stopped r) (tty_out r) (read_q r) (write_q r) (secondary r).

(** The static variables of console.c.  Video memory is a map from the (even)
    addresses of its 16-bit words. *)
Record console := mkConsole {
  video_type : Z; video_num_columns : Z; video_size_row : Z; video_num_lines : Z; video_page : Z;
  video_mem_start : Z; video_mem_end : Z; video_port_reg : Z; video_port_val : Z; video_erase_char : Z;
  origin : Z; scr_end : Z; pos : Z; con_x : Z; con_y : Z; top : Z; bottom : Z;
  con_state : Z; npar : Z; par : list Z; ques : Z; attr : Z; saved_x : Z; saved_y : Z;
  vram : Z -> Z;
  con_out : list (Z * Z)           (* the bytes written to the ports of the screen *)
}.
#[export] Instance console_reconstruct : Reconstruct console :=
  fun r => mkConsole (video_type r) (video_num_columns r) (video_size_row r) (video_num_lines r) (video_page r)
    (video_mem_start r) (video_mem_end r) (video_port_reg r) (video_port_val r) (video_erase_char r)
    (origin r) (scr_end r) (pos r) (con_x r) (con_y r) (top r) (bottom r)
    (con_state r) (npar r) (par r) (ques r) (attr r) (saved_x r) (saved_y r) (vram r) (con_out r).

Record chr := mkChr {
  tty_table : list tty_struct;
  con : console;
  cr_flag : Z;                     (* the static of tty_write *)
  kb_mode : Z; kb_leds : Z; kb_e0 : Z (* the bytes of keyboard.S *)
}.
#[export] Instance chr_reconstruct : Reconstruct chr := 
  fun r => mkChr (tty_table r) (con r) (cr_flag r) (kb_mode r) (kb_leds r) (kb_e0 r).

(** ** The whole kernel *)

Record kstate := mkK {
  k_mm : mm;
  k_sched : sched;
  k_cache : cache;
  k_blk : blk;
  k_fs : filesys;
  k_chr : chr;
  k_user : Z -> Z -> Z             (* task slot, address in its fs segment: a byte *)
}.
#[export] Instance kstate_reconstruct : Reconstruct kstate :=
  fun r => mkK (k_mm r) (k_sched r) (k_cache r) (k_blk r) (k_fs r) (k_chr r) (k_user r).

Abbreviation K := (M kstate).

(** Lifting a component's operations. *)
Definition on_mm {A} (m : M mm A) : K A := zoom k_mm (fun t s => s <| k_mm := t |>) m.
Definition on_sched {A} (m : M sched A) : K A := zoom k_sched (fun t s => s <| k_sched := t |>) m.

(** ** Accessors *)

(** Entry [i] of a table, and an assignment through a pointer to it. *)
Section Table.
Context {X : Type} (tab : kstate -> list X) (put : list X -> kstate -> kstate).

Definition tab_get (i : Z) : K X := deref (fun s => arr_get (tab s) i).

Definition tab_upd (i : Z) (f : X -> X) : K unit :=
  let! x := tab_get i in
  modify (fun s => put (arr_set (tab s) i (f x)) s).
End Table.

Definition set_bhs (l : list buffer_head) (s : kstate) : kstate := s <| k_cache ::= fun c => c <| bhs := l |> |>.
Definition bh_get : Z -> K buffer_head := tab_get (fun s => bhs (k_cache s)).
Definition bh_upd : Z -> (buffer_head -> buffer_head) -> K unit :=
  tab_upd (fun s => bhs (k_cache s)) set_bhs.

Definition set_inodes (l : list m_inode) (s : kstate) : kstate := s <| k_fs ::= fun c => c <| inode_table := l |> |>.
Definition ino_get : Z -> K m_inode := tab_get (fun s => inode_table (k_fs s)).
Definition ino_upd : Z -> (m_inode -> m_inode) -> K unit :=
  tab_upd (fun s => inode_table (k_fs s)) set_inodes.

Definition set_files (l : list file_t) (s : kstate) : kstate := s <| k_fs ::= fun c => c <| file_table := l |> |>.
Definition file_get : Z -> K file_t := tab_get (fun s => file_table (k_fs s)).
Definition file_upd : Z -> (file_t -> file_t) -> K unit :=
  tab_upd (fun s => file_table (k_fs s)) set_files.

Definition set_supers (l : list super_block_t) (s : kstate) : kstate := s <| k_fs ::= fun c => c <| super_block := l |> |>.
Definition sb_get : Z -> K super_block_t := tab_get (fun s => super_block (k_fs s)).
Definition sb_upd : Z -> (super_block_t -> super_block_t) -> K unit :=
  tab_upd (fun s => super_block (k_fs s)) set_supers.

Definition set_requests (l : list request_t) (s : kstate) : kstate := s <| k_blk ::= fun c => c <| request := l |> |>.
Definition req_get : Z -> K request_t := tab_get (fun s => request (k_blk s)).
Definition req_upd : Z -> (request_t -> request_t) -> K unit :=
  tab_upd (fun s => request (k_blk s)) set_requests.

Definition set_blk_dev (l : list blk_dev_struct) (s : kstate) : kstate := s <| k_blk ::= fun c => c <| blk_dev := l |> |>.
Definition dev_get : Z -> K blk_dev_struct := tab_get (fun s => blk_dev (k_blk s)).
Definition dev_upd : Z -> (blk_dev_struct -> blk_dev_struct) -> K unit :=
  tab_upd (fun s => blk_dev (k_blk s)) set_blk_dev.

Definition hd_upd (f : hard_disk -> hard_disk) : K unit := modify (fun s => s <| k_blk ::= fun c => c <| hdd ::= f |> |>).
Definition fd_upd (f : floppy_disk -> floppy_disk) : K unit := modify (fun s => s <| k_blk ::= fun c => c <| fdd ::= f |> |>).

Definition set_ttys (l : list tty_struct) (s : kstate) : kstate := s <| k_chr ::= fun c => c <| tty_table := l |> |>.
Definition tty_get : Z -> K tty_struct := tab_get (fun s => tty_table (k_chr s)).
Definition tty_upd : Z -> (tty_struct -> tty_struct) -> K unit :=
  tab_upd (fun s => tty_table (k_chr s)) set_ttys.

(** The task in slot [i], NULL when the slot is empty; an access through a
    pointer to it. *)
Definition slot_of (sc : sched) (i : Z) : option task_struct :=
  match arr_get (task sc) i with Some (Some t) => Some t | _ => None end.
Definition task_slot (s : kstate) (i : Z) : option task_struct := slot_of (k_sched s) i.
Definition set_slot (i : Z) (t : option task_struct) (s : kstate) : kstate :=
  s <| k_sched ::= fun c => c <| task ::= fun l => arr_set l i t |> |>.
Definition task_get (i : Z) : K task_struct := deref (fun s => task_slot s i).
Definition task_upd (i : Z) (f : task_struct -> task_struct) : K unit :=
  let! t := task_get i in modify (set_slot i (Some (f t))).

Definition cur : K task_struct := let! s := get in task_get (current (k_sched s)).
Definition cur_upd (f : task_struct -> task_struct) : K unit :=
  let! s := get in task_upd (current (k_sched s)) f.

Definition CURRENT_TIME (s : kstate) : Z :=
  s32 (startup_time (k_sched s) + Z.quot (jiffies (k_sched s)) HZ).

(** ** User memory: include/asm/segment.h *)

Definition get_fs_byte (addr : Z) : K Z :=
  gets (fun s => k_user s (current (k_sched s)) (u32 addr)).
Definition put_fs_byte (val addr : Z) : K unit :=
  modify (fun s => s <| k_user ::= fun u t a =>
    if (t =? current (k_sched s)) && (a =? u32 addr) then u8 val else u t a |>).

Definition get_fs_long (addr : Z) : K Z :=
  let! b0 := get_fs_byte addr in
  let! b1 := get_fs_byte (addr + 1) in
  let! b2 := get_fs_byte (addr + 2) in
  let! b3 := get_fs_byte (addr + 3) in
  ret (b0 + 256 * b1 + 65536 * b2 + 16777216 * b3).
Definition put_fs_long (val addr : Z) : K unit :=
  put_fs_byte val addr ;;;
  put_fs_byte (Z.shiftr val 8) (addr + 1) ;;;
  put_fs_byte (Z.shiftr val 16) (addr + 2) ;;;
  put_fs_byte (Z.shiftr val 24) (addr + 3).

(** ** The state at boot *)

(** [INIT_TASK], with [&init_task] as a parameter and the page directory at 0. *)
Definition init_tss (page : Z) : tss_struct :=
  mkTss 0 (4096 + page) 0x10 0 0 0 0 0 0 0 0 0 0 0 0 0 0 0
    0x17 0x17 0x17 0x17 0x17 0x17 0x28 0x80000000 (replicate 108 0).
Definition init_task (page : Z) : task_struct :=
  mkTask 0 15 15 0 (replicate 32 (mkSigaction 0 0 0 0)) 0 0 0 0 0 0 0
    0 (-1) 0 0 0 0 0 0 0 0 0 0 0 0 0 0 0 0 (-1) 18 None None None 0 (replicate 20 None)
    [mkDesc 0 0; mkDesc 0x9f 0xc0fa00; mkDesc 0x9f 0xc0f200] (init_tss page) page.

(** The table of segments head.s has: code and data of the kernel, 16 MB each. *)
Definition head_gdt : list desc_struct :=
  [mkDesc 0 0; mkDesc 0x00000fff 0x00c09a00; mkDesc 0x00000fff 0x00c09200; mkDesc 0 0] ++ replicate 252 (mkDesc 0 0).

Definition boot_sched : sched :=
  mkSched (Some (init_task 0x20000) :: replicate 63 None) 0 None 0 0 0
    (replicate 64 (mkTimer 0 None None)) None (replicate 4 None) (replicate 4 0) (replicate 4 0)
    0x0C 0 0 (replicate 108 0) head_gdt
    (replicate 256 (mkGate 0x8e00 "ignore_int")) [] (fun _ _ => 0).
Definition blank_inode : m_inode :=
  mkInode 0 0 0 0 0 0 (replicate 9 0) None 0 0 0 0 0 0 0 0 0 0 0.
Definition blank_super : super_block_t :=
  mkSuper 0 0 0 0 0 0 0 0 (replicate 8 None) (replicate 8 None) 0 None None 0 None 0 0 0.
Definition boot_fs : filesys :=
  mkFilesys (replicate 32 blank_inode) 0 (replicate 64 (mkFile 0 0 0 None 0))
    (replicate 8 blank_super) 0x101.
Definition boot_hd : hard_disk :=
  mkHd None 1 1 (replicate 2 (mkHdInfo 0 0 0 0 0 0)) 0 (replicate 10 (mkHdStruct 0 0)) 1.
Definition boot_fd : floppy_disk :=
  mkFd None 0 0 0 (replicate 7 0) (-1) (-1) 0 0 0 0 0 0 255 0 None (replicate 1024 0).
Definition boot_blk : blk :=
  mkBlk (replicate 32 (mkRequest (-1) 0 0 0 0 None None None None)) None
    (replicate 7 (mkBlkDev NoDriver None)) 0 0 [] boot_hd boot_fd.
(** [tty_table]: [INIT_C_CC] is the control characters of every line. *)
Definition INIT_C_CC : list Z := [3; 28; 127; 21; 4; 0; 1; 0; 17; 19; 26; 0; 18; 15; 23; 22; 0].
Definition init_termios (iflag oflag cflag lflag : Z) : list Z :=
  set_long (set_long (set_long (set_long (replicate 17 0 ++ INIT_C_CC ++ replicate 2 0) 0 iflag) 4 oflag) 8 cflag) 12 lflag.
Definition empty_queue (data : Z) : tty_queue := mkQueue data 0 0 None (replicate 1024 0).
Definition boot_ttys : list tty_struct := [
  mkTty (init_termios 256 5 0 2571) 0 0 ConWrite (empty_queue 0) (empty_queue 0) (empty_queue 0);
  mkTty (init_termios 0 0 59 0) 0 0 RsWrite (empty_queue 0x3f8) (empty_queue 0x3f8) (empty_queue 0);
  mkTty (init_termios 0 0 59 0) 0 0 RsWrite (empty_queue 0x2f8) (empty_queue 0x2f8) (empty_queue 0) ].
Definition boot_con : console :=
  mkConsole 0 0 0 0 0 0 0 0 0 0 0 0 0 0 0 0 0 0 0 (replicate 16 0) 0 0x07 0 0 (fun _ => 0) [].
Definition boot_chr : chr := mkChr boot_ttys boot_con 0 0 2 0.

Definition boot_k : kstate :=
  mkK (mkMm (fun _ => 0) (replicate 3840 0) 0x1000000) boot_sched
    (mkCache 0x28000 [] (replicate 307 None) None None) boot_blk boot_fs boot_chr (fun _ _ => 0).
