(* ===== verification/Console.v ===== *)
(** * The console: kernel/chr_drv/console.c

    The cursor, the scrolling screen and the escape sequences, on the static
    variables of the file.  An access to a word outside the video memory, or to an odd
    address, is a wild access. *)
From Stdlib Require Import ZArith Lia String Ascii.
From stdpp Require Import base list.
From S2P Require Import Prelude Resumption Memory KState.

Abbreviation C := (M console).

Definition VIDEO_TYPE_MDA : Z := 0x10.
Definition VIDEO_TYPE_CGA : Z := 0x11.
Definition VIDEO_TYPE_EGAM : Z := 0x20.
Definition VIDEO_TYPE_EGAC : Z := 0x21.
Definition NPAR : Z := 16.

(** ** Video memory *)

Definition in_vram (c : console) (a : Z) : bool :=
  (video_mem_start c <=? a) && (a + 2 <=? video_mem_end c) && Z.even a.
Definition vget (a : Z) : C Z := deref (fun c => if in_vram c a then Some (vram c a) else None).
Definition vput (a v : Z) : C unit :=
  let! c := get in
  if in_vram c a then modify (fun c => c <| vram := fun b => if b =? a then u16 v else vram c b |>)
  else fault.

(** [rep stosw] upwards and downwards from [a], [n] words of [v]; [rep movsl] of [n]
    longs. *)
Definition fill_up (a n v : Z) : C unit := for_each (zrange 0 (Z.to_nat n)) (fun i => vput (a + 2 * i) v).
Definition fill_down (a n v : Z) : C unit := for_each (zrange 0 (Z.to_nat n)) (fun i => vput (a - 2 * i) v).
Definition move_long (dst src : Z) : C unit :=
  let! lo := vget src in
  let! hi := vget (src + 2) in
  vput dst lo ;;;
  vput (dst + 2) hi.
Definition move_up (dst src n : Z) : C unit := for_each (zrange 0 (Z.to_nat n)) (fun i => move_long (dst + 4 * i) (src + 4 * i)).
Definition move_down (dst src n : Z) : C unit := for_each (zrange 0 (Z.to_nat n)) (fun i => move_long (dst - 4 * i) (src - 4 * i)).

Definition con_outb (v port : Z) : C unit := modify (fun c => c <| con_out ::= fun l => l ++ [(u8 v, port)] |>).

(** ** The cursor *)

Definition gotoxy (new_x new_y : Z) : C unit :=
  let! c := get in
  if (video_num_columns c <? new_x) || (video_num_lines c <=? new_y) then ret tt else
  modify (fun c => c <| con_x := new_x |> <| con_y := new_y |>
                     <| pos := u32 (origin c + new_y * video_size_row c + 2 * new_x) |>).

Definition set_origin : C unit :=
  let! c := get in
  con_outb 12 (video_port_reg c) ;;;
  con_outb (Z.land 0xff (Z.shiftr (u32 (origin c - video_mem_start c)) 9)) (video_port_val c) ;;;
  con_outb 13 (video_port_reg c) ;;;
  con_outb (Z.land 0xff (Z.shiftr (u32 (origin c - video_mem_start c)) 1)) (video_port_val c).

Definition set_cursor : C unit :=
  let! c := get in
  con_outb 14 (video_port_reg c) ;;;
  con_outb (Z.land 0xff (Z.shiftr (u32 (pos c - video_mem_start c)) 9)) (video_port_val c) ;;;
  con_outb 15 (video_port_reg c) ;;;
  con_outb (Z.land 0xff (Z.shiftr (u32 (pos c - video_mem_start c)) 1)) (video_port_val c).

(** ** Scrolling *)

Definition is_ega (c : console) : bool := (video_type c =? VIDEO_TYPE_EGAC) || (video_type c =? VIDEO_TYPE_EGAM).

(** The lines from [top] to [bottom] up by one. *)
Definition scroll_region_up : C unit :=
  let! c := get in
  let n := Z.shiftr (u32 ((bottom c - top c - 1) * video_num_columns c)) 1 in
  let dst := u32 (origin c + video_size_row c * top c) in
  move_up dst (u32 (origin c + video_size_row c * (top c + 1))) n ;;;
  fill_up (dst + 4 * n) (video_num_columns c) (video_erase_char c).

Definition scrup : C unit :=
  let! c := get in
  if is_ega c then
    if (top c =? 0) && (bottom c =? video_num_lines c) then
      modify (fun c => c <| origin ::= fun a => u32 (a + video_size_row c) |>) ;;;
      modify (fun c => c <| pos ::= fun a => u32 (a + video_size_row c) |>) ;;;
      modify (fun c => c <| scr_end ::= fun a => u32 (a + video_size_row c) |>) ;;;
      let! c := get in
      (if video_mem_end c <? scr_end c then
         let n := Z.shiftr (u32 ((video_num_lines c - 1) * video_num_columns c)) 1 in
         move_up (video_mem_start c) (origin c) n ;;;
         fill_up (video_mem_start c + 4 * n) (video_num_columns c) (video_erase_char c) ;;;
         modify (fun c => c <| scr_end ::= fun a => u32 (a - (origin c - video_mem_start c)) |>) ;;;
         modify (fun c => c <| pos ::= fun a => u32 (a - (origin c - video_mem_start c)) |>) ;;;
         modify (fun c => c <| origin := video_mem_start c |>)
       else fill_up (scr_end c - video_size_row c) (video_num_columns c) (video_erase_char c)) ;;;
      set_origin
    else scroll_region_up
  else scroll_region_up.

(** Both branches on the type of the card are the same code. *)
Definition scrdown : C unit :=
  let! c := get in
  let n := Z.shiftr (u32 ((bottom c - top c - 1) * video_num_columns c)) 1 in
  let dst := u32 (origin c + video_size_row c * bottom c - 4) in
  move_down dst (u32 (origin c + video_size_row c * (bottom c - 1) - 4)) n ;;;
  fill_down (dst - 4 * n + 2) (video_num_columns c) (video_erase_char c).

Definition lf : C unit :=
  let! c := get in
  if con_y c + 1 <? bottom c then
    modify (fun c => c <| con_y ::= fun y => y + 1 |>) ;;;
    modify (fun c => c <| pos ::= fun a => u32 (a + video_size_row c) |>)
  else scrup.

Definition ri : C unit :=
  let! c := get in
  if top c <? con_y c then
    modify (fun c => c <| con_y ::= fun y => y - 1 |>) ;;;
    modify (fun c => c <| pos ::= fun a => u32 (a - video_size_row c) |>)
  else scrdown.

Definition cr : C unit :=
  modify (fun c => c <| pos ::= fun a => u32 (a - 2 * con_x c) |>) ;;;
  modify (fun c => c <| con_x := 0 |>).

Definition del : C unit :=
  let! c := get in
  when (nz (con_x c))
    (modify (fun c => c <| pos ::= fun a => u32 (a - 2) |>) ;;;
     modify (fun c => c <| con_x ::= fun x => x - 1 |>) ;;;
     let! c := get in
     vput (pos c) (video_erase_char c)).

(** ** Erasing and inserting *)

Definition csi_J (p : Z) : C unit :=
  let! c := get in
  if p =? 0 then fill_up (pos c) (Z.shiftr (u32 (scr_end c - pos c)) 1) (video_erase_char c)
  else if p =? 1 then fill_up (origin c) (Z.shiftr (u32 (pos c - origin c)) 1) (video_erase_char c)
  else if p =? 2 then fill_up (origin c) (video_num_columns c * video_num_lines c) (video_erase_char c)
  else ret tt.

Definition csi_K (p : Z) : C unit :=
  let! c := get in
  if p =? 0 then
    if video_num_columns c <=? con_x c then ret tt
    else fill_up (pos c) (video_num_columns c - con_x c) (video_erase_char c)
  else if p =? 1 then
    fill_up (u32 (pos c - 2 * con_x c)) (if con_x c <? video_num_columns c then con_x c else video_num_columns c) (video_erase_char c)
  else if p =? 2 then fill_up (u32 (pos c - 2 * con_x c)) (video_num_columns c) (video_erase_char c)
  else ret tt.

Definition csi_m : C unit :=
  let! c := get in
  for_each (zrange 0 (Z.to_nat (npar c + 1))) (fun i =>
    let! p := deref (fun c => arr_get (par c) i) in
    let set_attr a := modify (fun c => c <| attr := a |>) in
    if p =? 0 then set_attr 0x07
    else if p =? 1 then set_attr 0x0f
    else if p =? 4 then set_attr 0x0f
    else if p =? 7 then set_attr 0x70
    else if p =? 27 then set_attr 0x07
    else ret tt).

Definition insert_char : C unit :=
  let! c := get in
  let! _ := for_fold (zrange 0 (Z.to_nat (video_num_columns c - con_x c))) (video_erase_char c) (fun old i =>
    let! tmp := vget (pos c + 2 * i) in
    vput (pos c + 2 * i) old ;;;
    ret tmp) in
  ret tt.

(** [scroll] with the region from the cursor's line to the last one. *)
Definition from_cursor (scroll : C unit) : C unit :=
  let! c := get in
  modify (fun c => c <| top := con_y c |>) ;;;
  modify (fun c => c <| bottom := video_num_lines c |>) ;;;
  scroll ;;;
  modify (fun d => d <| top := top c |>) ;;;
  modify (fun d => d <| bottom := bottom c |>).
Definition insert_line : C unit := from_cursor scrdown.
Definition delete_line : C unit := from_cursor scrup.

Definition delete_char : C unit :=
  let! c := get in
  if video_num_columns c <=? con_x c then ret tt else
  for_each (zrange 0 (Z.to_nat (video_num_columns c - con_x c - 1))) (fun i =>
    let! v := vget (pos c + 2 * (i + 1)) in
    vput (pos c + 2 * i) v) ;;;
  vput (pos c + 2 * (video_num_columns c - con_x c - 1)) (video_erase_char c).

(** [nr] times, at least once and at most [limit] times. *)
Definition repeated (limit nr : Z) (op : C unit) : C unit :=
  let nr := if limit <? nr then limit else if nr =? 0 then 1 else nr in
  for_each (zrange 0 (Z.to_nat nr)) (fun _ => op).
Definition csi_at (nr : Z) : C unit := let! c := get in repeated (video_num_columns c) nr insert_char.
Definition csi_L (nr : Z) : C unit := let! c := get in repeated (video_num_lines c) nr insert_line.
Definition csi_P (nr : Z) : C unit := let! c := get in repeated (video_num_columns c) nr delete_char.
Definition csi_M (nr : Z) : C unit := let! c := get in repeated (video_num_lines c) nr delete_line.

Definition save_cur : C unit :=
  modify (fun c => c <| saved_x := s32 (con_x c) |> <| saved_y := s32 (con_y c) |>).
Definition restore_cur : C unit := let! c := get in gotoxy (u32 (saved_x c)) (u32 (saved_y c)).

(** ** Escape sequences *)

Definition par_at (c : console) (i : Z) : Z := default 0 (arr_get (par c) i).
Definition par_upd (i : Z) (f : Z -> Z) : C unit :=
  let! p := deref (fun c => arr_get (par c) i) in
  modify (fun c => c <| par ::= fun l => arr_set l i (u32 (f p)) |>).

(** [if (par[i]) par[i]--] and [if (!par[0]) par[0]++] *)
Definition from_one (i : Z) : C unit := let! c := get in when (nz (par_at c i)) (par_upd i (fun p => p - 1)).
Definition at_least_one : C unit := let! c := get in when (negb (nz (par_at c 0))) (par_upd 0 (fun p => p + 1)).

Definition set_state (n : Z) : C unit := modify (fun c => c <| con_state := n |>).

Definition ch (s : string) : Z := match s with String a _ => Z.of_nat (Ascii.nat_of_ascii a) | EmptyString => 0 end.

(** State 4: the letter that ends a sequence. *)
Definition csi_command (k : Z) : C unit :=
  let move (f : console -> Z * Z) : C unit := at_least_one ;;; let! c := get in gotoxy (u32 (f c).1) (u32 (f c).2) in
  let! c := get in
  if (k =? ch "G") || (k =? ch "`") then from_one 0 ;;; let! c := get in gotoxy (par_at c 0) (con_y c)
  else if k =? ch "A" then move (fun c => (con_x c, con_y c - par_at c 0))
  else if (k =? ch "B") || (k =? ch "e") then move (fun c => (con_x c, con_y c + par_at c 0))
  else if (k =? ch "C") || (k =? ch "a") then move (fun c => (con_x c + par_at c 0, con_y c))
  else if k =? ch "D" then move (fun c => (con_x c - par_at c 0, con_y c))
  else if k =? ch "E" then move (fun c => (0, con_y c + par_at c 0))
  else if k =? ch "F" then move (fun c => (0, con_y c - par_at c 0))
  else if k =? ch "d" then from_one 0 ;;; let! c := get in gotoxy (con_x c) (par_at c 0)
  else if (k =? ch "H") || (k =? ch "f") then
    from_one 0 ;;; from_one 1 ;;; let! c := get in gotoxy (par_at c 1) (par_at c 0)
  else if k =? ch "J" then csi_J (s32 (par_at c 0))
  else if k =? ch "K" then csi_K (s32 (par_at c 0))
  else if k =? ch "L" then csi_L (par_at c 0)
  else if k =? ch "M" then csi_M (par_at c 0)
  else if k =? ch "P" then csi_P (par_at c 0)
  else if k =? ch "@" then csi_at (par_at c 0)
  else if k =? ch "m" then csi_m
  else if k =? ch "r" then
    from_one 0 ;;;
    let! c := get in
    when (negb (nz (par_at c 1))) (par_upd 1 (fun _ => video_num_lines c)) ;;;
    let! c := get in
    when ((par_at c 0 <? par_at c 1) && (par_at c 1 <=? video_num_lines c))
      (modify (fun d => d <| top := par_at c 0 |> <| bottom := par_at c 1 |>))
  else if k =? ch "s" then save_cur
  else if k =? ch "u" then restore_cur
  else ret tt.

(** State 3: parameters, or on to state 4. *)
Definition csi_parameters (k : Z) : C unit :=
  let! c := get in
  if (k =? ch ";") && (npar c <? NPAR - 1) then modify (fun c => c <| npar ::= fun n => n + 1 |>)
  else if (ch "0" <=? k) && (k <=? ch "9") then par_upd (npar c) (fun p => 10 * p + k - ch "0")
  else
    set_state 4 ;;;
    set_state 0 ;;;
    csi_command k.

(** What is left to do after a character: answer a query, or ring the bell. *)
Inductive con_action := Nothing | Respond | Beep.

(** State 0.  [erase] is the terminal's ERASE_CHAR. *)
Definition con_plain (erase k : Z) : C con_action :=
  let! c := get in
  let wrap : C unit :=
    modify (fun c => c <| con_x ::= fun x => u32 (x - video_num_columns c) |>) ;;;
    modify (fun c => c <| pos ::= fun a => u32 (a - video_size_row c) |>) ;;;
    lf in
  if (31 <? k) && (k <? 127) then
    when (video_num_columns c <=? con_x c) wrap ;;;
    let! c := get in
    vput (pos c) (256 * attr c + u8 k) ;;;
    modify (fun c => c <| pos ::= fun a => u32 (a + 2) |>) ;;;
    modify (fun c => c <| con_x ::= fun x => u32 (x + 1) |>) ;;;
    ret Nothing
  else if k =? 27 then set_state 1 ;;; ret Nothing
  else if (k =? 10) || (k =? 11) || (k =? 12) then lf ;;; ret Nothing
  else if k =? 13 then cr ;;; ret Nothing
  else if k =? erase then del ;;; ret Nothing
  else if k =? 8 then
    when (nz (con_x c))
      (modify (fun c => c <| con_x ::= fun x => x - 1 |>) ;;;
       modify (fun c => c <| pos ::= fun a => u32 (a - 2) |>)) ;;;
    ret Nothing
  else if k =? 9 then
    let n := 8 - Z.land (con_x c) 7 in
    modify (fun c => c <| con_x ::= fun x => u32 (x + n) |>) ;;;
    modify (fun c => c <| pos ::= fun a => u32 (a + 2 * n) |>) ;;;
    let! c := get in
    when (video_num_columns c <? con_x c) wrap ;;;
    ret Nothing
  else ret (if k =? 7 then Beep else Nothing).

(** State 1: after the escape.  The last two tests are of the column, not of the
    character. *)
Definition con_escape (k : Z) : C con_action :=
  set_state 0 ;;;
  let! c := get in
  if k =? ch "[" then set_state 2 ;;; ret Nothing
  else if k =? ch "E" then gotoxy 0 (u32 (con_y c + 1)) ;;; ret Nothing
  else if k =? ch "M" then ri ;;; ret Nothing
  else if k =? ch "D" then lf ;;; ret Nothing
  else if k =? ch "Z" then ret Respond
  else if con_x c =? ch "7" then save_cur ;;; ret Nothing
  else if con_x c =? ch "8" then restore_cur ;;; ret Nothing
  else ret Nothing.

(** State 2: the first character of the sequence. *)
Definition con_bracket (k : Z) : C con_action :=
  modify (fun c => c <| par := replicate (Z.to_nat NPAR) 0 |>) ;;;
  modify (fun c => c <| npar := 0 |>) ;;;
  set_state 3 ;;;
  modify (fun c => c <| ques := b2z (k =? ch "?") |>) ;;;
  when (negb (k =? ch "?")) (csi_parameters k) ;;;
  ret Nothing.

Definition con_char (erase k : Z) : C con_action :=
  let! c := get in
  if con_state c =? 0 then con_plain erase k
  else if con_state c =? 1 then con_escape k
  else if con_state c =? 2 then con_bracket k
  else if con_state c =? 3 then csi_parameters k ;;; ret Nothing
  else if con_state c =? 4 then set_state 0 ;;; csi_command k ;;; ret Nothing
  else ret Nothing.

(** ** con_init *)

(** What setup.s has left at 0x90000. *)
Record setup := mkSetup { ORIG_X : Z; ORIG_Y : Z; ORIG_VIDEO_PAGE : Z; ORIG_VIDEO_MODE : Z; ORIG_VIDEO_COLS : Z; ORIG_VIDEO_EGA_BX : Z }.
Definition ORIG_VIDEO_LINES : Z := 25.

(** The low byte of a word. *)
Definition vput_char (a k : Z) : C unit :=
  let! w := vget a in
  vput a (w - w mod 256 + u8 k).

(** The static variables for the card, and the text that names it. *)
Definition card (o : setup) : (Z * Z * Z * Z * Z) * list Z :=
  let ega := negb (Z.land (ORIG_VIDEO_EGA_BX o) 0xff =? 0x10) in
  if ORIG_VIDEO_MODE o =? 7 then
    if ega then ((VIDEO_TYPE_EGAM, 0xb0000, 0xb8000, 0x3b4, 0x3b5), [69; 71; 65; 109])
    else ((VIDEO_TYPE_MDA, 0xb0000, 0xb2000, 0x3b4, 0x3b5), [42; 77; 68; 65])
  else
    if ega then ((VIDEO_TYPE_EGAC, 0xb8000, 0xbc000, 0x3d4, 0x3d5), [69; 71; 65; 99])
    else ((VIDEO_TYPE_CGA, 0xb8000, 0xba000, 0x3d4, 0x3d5), [42; 67; 71; 65]).

(** Up to the interrupt of the keyboard, which is [con_irq] of the file Tty. *)
Definition con_init (o : setup) : C unit :=
  let '((type, start, stop, reg, val), desc) := card o in
  modify (fun c => c <| video_num_columns := ORIG_VIDEO_COLS o |> <| video_size_row := 2 * ORIG_VIDEO_COLS o |>
    <| video_num_lines := ORIG_VIDEO_LINES |> <| video_page := u8 (ORIG_VIDEO_PAGE o) |> <| video_erase_char := 0x0720 |>
    <| video_type := type |> <| video_mem_start := start |> <| video_mem_end := stop |>
    <| video_port_reg := reg |> <| video_port_val := val |>) ;;;
  let! c := get in
  for_each (zrange 0 4) (fun i => vput_char (start + video_size_row c - 8 + 2 * i) (byte_at desc i)) ;;;
  modify (fun c => c <| origin := video_mem_start c |>
                     <| scr_end := video_mem_start c + video_num_lines c * video_size_row c |>
                     <| top := 0 |> <| bottom := video_num_lines c |>) ;;;
  gotoxy (ORIG_X o) (ORIG_Y o).
