(* ===== verification/Runs.v ===== *)
(** * Equations of straight-line kernel code

    What the accessors and the loops over a known range compute, for the proofs
    that follow a routine step by step; [step E] runs the first statement of a
    sequence, whose result the equation [E] says. *)
From Stdlib Require Import ZArith Lia String.
From stdpp Require Import base list.
From S2P Require Import Prelude Resumption Memory KState.

Lemma bind_run {S A B} (m : M S A) (f : A -> M S B) n s a s' : m n s = Done a s' -> bind m f n s = f a n s'.
Proof. intros E. unfold bind. by rewrite E. Qed.

Lemma loop_once {S X A} (body : X -> M S (X + A)) x n s r s' :
  (0 < n)%nat -> body x n s = Done (inr r) s' -> loop body x n s = Done r s'.
Proof. intros Hn E. unfold loop. destruct n as [|n]; [lia|]. cbn [iterate]. by rewrite E. Qed.

Lemma iterate_next {S X A} k (body : X -> M S (X + A)) x n s x' s' :
  body x n s = Done (inl x') s' -> iterate (Datatypes.S k) body x n s = iterate k body x' n s'.
Proof. intros E. cbn [iterate]. by rewrite E. Qed.

Lemma iterate_last {S X A} k (body : X -> M S (X + A)) x n s a s' :
  body x n s = Done (inr a) s' -> iterate (Datatypes.S k) body x n s = Done a s'.
Proof. intros E. cbn [iterate]. by rewrite E. Qed.

Tactic Notation "step" uconstr(E) := rewrite (bind_run _ _ _ _ _ _ E); cbv beta.

(** ** Accessors *)

Lemma get_run {S} n (s : S) : get n s = Done s s.
Proof. done. Qed.
Lemma ret_run {S A} (a : A) n (s : S) : ret a n s = Done a s.
Proof. done. Qed.
Lemma printk_run {S} msg n (s : S) : printk msg n s = Done tt s.
Proof. done. Qed.
Lemma modify_run {S} f n (s : S) : modify f n s = Done tt (f s).
Proof. done. Qed.

Section Table.
Context {X : Type} (tab : kstate -> list X) (put : list X -> kstate -> kstate).
Lemma tab_get_run i x n s : arr_get (tab s) i = Some x -> tab_get tab i n s = Done x s.
Proof. intros E. unfold tab_get, deref. by rewrite E. Qed.
Lemma tab_upd_run i f x n s :
  arr_get (tab s) i = Some x -> tab_upd tab put i f n s = Done tt (put (arr_set (tab s) i (f x)) s).
Proof. intros E. unfold tab_upd. step (tab_get_run i x n s E). done. Qed.
End Table.

Lemma ino_get_run i x n s : arr_get (inode_table (k_fs s)) i = Some x -> ino_get i n s = Done x s.
Proof. apply (tab_get_run (fun s => inode_table (k_fs s))). Qed.
Lemma ino_upd_run i f x n s : arr_get (inode_table (k_fs s)) i = Some x ->
  ino_upd i f n s = Done tt (set_inodes (arr_set (inode_table (k_fs s)) i (f x)) s).
Proof. apply (tab_upd_run (fun s => inode_table (k_fs s))). Qed.
Lemma file_get_run i x n s : arr_get (file_table (k_fs s)) i = Some x -> file_get i n s = Done x s.
Proof. apply (tab_get_run (fun s => file_table (k_fs s))). Qed.
Lemma file_upd_run i f x n s : arr_get (file_table (k_fs s)) i = Some x ->
  file_upd i f n s = Done tt (set_files (arr_set (file_table (k_fs s)) i (f x)) s).
Proof. apply (tab_upd_run (fun s => file_table (k_fs s))). Qed.

Lemma task_get_run i t n s : task_slot s i = Some t -> task_get i n s = Done t s.
Proof. intros E. unfold task_get, deref. by rewrite E. Qed.
Lemma task_upd_run i f t n s : task_slot s i = Some t -> task_upd i f n s = Done tt (set_slot i (Some (f t)) s).
Proof. intros E. unfold task_upd. step (task_get_run i t n s E). done. Qed.
Lemma cur_run t n s : task_slot s (current (k_sched s)) = Some t -> cur n s = Done t s.
Proof. apply task_get_run. Qed.
Lemma cur_upd_run f t n s : task_slot s (current (k_sched s)) = Some t ->
  cur_upd f n s = Done tt (set_slot (current (k_sched s)) (Some (f t)) s).
Proof. apply task_upd_run. Qed.

Lemma on_mm_run {A} (m : M mm A) n s a m' : m n (k_mm s) = Done a m' -> on_mm m n s = Done a (s <| k_mm := m' |>).
Proof. intros E. unfold on_mm, zoom. by rewrite E. Qed.

Definition with_mm (m : mm) (s : kstate) : kstate := s <| k_mm := m |>.
Lemma on_mm_with {A} (m : M mm A) n m0 s a m' :
  m n m0 = Done a m' -> on_mm m n (with_mm m0 s) = Done a (with_mm m' s).
Proof. apply (on_mm_run m n (with_mm m0 s)). Qed.
Lemma with_mm_same s : with_mm (k_mm s) s = s.
Proof. by destruct s. Qed.

(** ** The task table *)

Lemma task_slot_range s i t : task_slot s i = Some t -> 0 <= i < Z.of_nat (length (task (k_sched s))).
Proof.
  unfold task_slot, slot_of. destruct (arr_get (task (k_sched s)) i) eqn:E; [|done]. intros _.
  by apply arr_get_Some_range in E.
Qed.

Lemma task_slot_set i t s j :
  0 <= i < Z.of_nat (length (task (k_sched s))) ->
  task_slot (set_slot i t s) j = if decide (i = j) then t else task_slot s j.
Proof.
  intros Hi. change (task_slot (set_slot i t s) j) with
    (match arr_get (arr_set (task (k_sched s)) i t) j with Some (Some t) => Some t | _ => None end).
  unfold task_slot, slot_of. case_decide as Hij.
  - subst j. rewrite arr_get_set_eq by done. by destruct t.
  - by rewrite arr_get_set_ne by done.
Qed.

Lemma set_slot_same i t s : task_slot s i = Some t -> set_slot i (Some t) s = s.
Proof.
  unfold task_slot, slot_of. destruct (arr_get (task (k_sched s)) i) as [[t'|]|] eqn:E; [|done|done]. intros [= ->].
  unfold set_slot. destruct s as [? [] ? ? ? ? ?]. cbn in *. unfold upd. cbn. do 2 f_equal.
  unfold arr_get, arr_set in *. destruct (i <? 0); [done|]. by apply list_insert_id.
Qed.

Lemma set_slot_length i t s : length (task (k_sched (set_slot i t s))) = length (task (k_sched s)).
Proof. apply arr_set_length. Qed.

(** ** Loops over a known range that cannot fail *)

Lemma for_each_run {S X} (l : list X) (f : X -> M S unit) (g : X -> S -> S) (P : S -> Prop) n s :
  P s -> (forall x s, x ∈ l -> P s -> f x n s = Done tt (g x s) /\ P (g x s)) ->
  for_each l f n s = Done tt (fold_left (fun s x => g x s) l s) /\ P (fold_left (fun s x => g x s) l s).
Proof.
  revert s. induction l as [|x l IH]; intros s Hs Hf; cbn [for_each fold_left]; [done|].
  destruct (Hf x s ltac:(left) Hs) as [E Hs']. step E. apply IH; [done|]. intros y s' Hy. apply Hf. by right.
Qed.

(** ** Code that runs to its end without giving up the processor *)

(** [ends m s Q]: from [s], with any fuel, [m] is done in a state and with a result
    that satisfy [Q]. *)
Definition ends {S A} (m : M S A) (s : S) (Q : A -> S -> Prop) : Prop :=
  forall n, match m n s with Done a s' => Q a s' | _ => False end.

Section Ends.
Context {S : Type}.

Lemma ends_bind {A B} (m : M S A) (f : A -> M S B) s Q :
  ends m s (fun a s' => ends (f a) s' Q) -> ends (bind m f) s Q.
Proof.
  intros H n. specialize (H n). unfold bind. destruct (m n s) as [a s'|?|?|?|?|]; try done. apply H.
Qed.
Lemma ends_mono {A} (m : M S A) s (Q Q' : A -> S -> Prop) :
  ends m s Q -> (forall a s', Q a s' -> Q' a s') -> ends m s Q'.
Proof. intros H HQ n. specialize (H n). destruct (m n s); try done. auto. Qed.
Lemma ends_ret {A} (a : A) s (Q : A -> S -> Prop) : Q a s -> ends (ret a) s Q.
Proof. by intros H n. Qed.
Lemma ends_get s (Q : S -> S -> Prop) : Q s s -> ends get s Q.
Proof. by intros H n. Qed.
Lemma ends_gets {A} (f : S -> A) s (Q : A -> S -> Prop) : Q (f s) s -> ends (gets f) s Q.
Proof. by intros H n. Qed.
Lemma ends_modify f s (Q : unit -> S -> Prop) : Q tt (f s) -> ends (modify f) s Q.
Proof. by intros H n. Qed.
Lemma ends_deref {A} (f : S -> option A) a s (Q : A -> S -> Prop) : f s = Some a -> Q a s -> ends (deref f) s Q.
Proof. intros E H n. unfold deref. by rewrite E. Qed.
Lemma ends_when b (m : M S unit) s (Q : unit -> S -> Prop) :
  (b = true -> ends m s Q) -> (b = false -> Q tt s) -> ends (when b m) s Q.
Proof. intros H1 H2. destruct b; [by apply H1|]. apply ends_ret. by apply H2. Qed.
Lemma ends_step {A B} (m : M S A) (f : A -> M S B) s a s' Q : (forall n, m n s = Done a s') -> ends (f a) s' Q -> ends (bind m f) s Q.
Proof. intros E H. apply ends_bind. intros n. rewrite E. apply H. Qed.
Lemma ends_if {A} (b : bool) (m m' : M S A) s Q :
  (b = true -> ends m s Q) -> (b = false -> ends m' s Q) -> ends (if b then m else m') s Q.
Proof. destruct b; auto. Qed.
Lemma ends_run {A} (m : M S A) n s Q : ends m s Q -> exists a s', m n s = Done a s' /\ Q a s'.
Proof. intros H. specialize (H n). destruct (m n s) as [a s'|?|?|?|?|]; try done. by exists a, s'. Qed.

Lemma ends_zoom {T A} (getp : S -> T) (put : T -> S -> S) (m : M T A) s Q :
  ends m (getp s) (fun a t => Q a (put t s)) -> ends (zoom getp put m) s Q.
Proof. intros H n. specialize (H n). unfold zoom. by destruct (m n (getp s)). Qed.

(** A [for] loop with an invariant on the index. *)
Lemma ends_for (J : Z -> S -> Prop) (f : Z -> M S unit) k lo s :
  J lo s -> (forall i s, lo <= i < lo + Z.of_nat k -> J i s -> ends (f i) s (fun _ => J (i + 1))) ->
  ends (for_each (zrange lo k) f) s (fun _ => J (lo + Z.of_nat k)).
Proof.
  revert lo s. induction k as [|k IH]; intros lo s Hs Hf; cbn [zrange for_each].
  - apply ends_ret. by replace (lo + Z.of_nat 0) with lo by lia.
  - apply ends_bind. eapply ends_mono; [apply Hf; [lia|done]|]. intros [] s' H'. cbv beta in H'.
    replace (lo + Z.of_nat (Datatypes.S k)) with (lo + 1 + Z.of_nat k) by lia. apply IH; [done|].
    intros i s'' Hi. apply Hf. lia.
Qed.
Lemma ends_for_fold {A} (J : A -> Z -> S -> Prop) (f : A -> Z -> M S A) k lo a s :
  J a lo s -> (forall a i s, lo <= i < lo + Z.of_nat k -> J a i s -> ends (f a i) s (fun a' => J a' (i + 1))) ->
  ends (for_fold (zrange lo k) a f) s (fun a' => J a' (lo + Z.of_nat k)).
Proof.
  revert lo a s. induction k as [|k IH]; intros lo a s Hs Hf; cbn [zrange for_fold].
  - apply ends_ret. by replace (lo + Z.of_nat 0) with lo by lia.
  - apply ends_bind. eapply ends_mono; [apply Hf; [lia|done]|]. intros a' s' H'. cbv beta in H'.
    replace (lo + Z.of_nat (Datatypes.S k)) with (lo + 1 + Z.of_nat k) by lia. apply IH; [done|].
    intros b i s'' Hi. apply Hf. lia.
Qed.
End Ends.

(** The same with a given fuel, for code with unbounded loops. *)
Definition runs {S A} (n : nat) (m : M S A) (s : S) (Q : A -> S -> Prop) : Prop :=
  match m n s with Done a s' => Q a s' | _ => False end.

Section Runs.
Context {S : Type} (n : nat).

Lemma runs_ends {A} (m : M S A) s Q : ends m s Q -> runs n m s Q.
Proof. intros H. apply H. Qed.
Lemma runs_bind {A B} (m : M S A) (f : A -> M S B) s Q :
  runs n m s (fun a s' => runs n (f a) s' Q) -> runs n (bind m f) s Q.
Proof. unfold runs, bind. by destruct (m n s); intros H; try destruct H. Qed.
Lemma runs_mono {A} (m : M S A) s (Q Q' : A -> S -> Prop) :
  runs n m s Q -> (forall a s', Q a s' -> Q' a s') -> runs n m s Q'.
Proof. intros H HQ. unfold runs in *. destruct (m n s); try done. auto. Qed.
Lemma runs_eq {A} (m : M S A) s a s' (Q : A -> S -> Prop) : m n s = Done a s' -> Q a s' -> runs n m s Q.
Proof. intros E HQ. unfold runs. by rewrite E. Qed.
Lemma runs_step {A B} (m : M S A) (f : A -> M S B) s a s' Q :
  m n s = Done a s' -> runs n (f a) s' Q -> runs n (bind m f) s Q.
Proof. intros E H. apply runs_bind. by eapply runs_eq. Qed.
Lemma runs_ret {A} (a : A) s (Q : A -> S -> Prop) : Q a s -> runs n (ret a) s Q.
Proof. done. Qed.
Lemma runs_when b (m : M S unit) s (Q : unit -> S -> Prop) :
  (b = true -> runs n m s Q) -> (b = false -> Q tt s) -> runs n (when b m) s Q.
Proof. intros H1 H2. unfold when. destruct b; [by apply H1|]. apply runs_ret. by apply H2. Qed.
Lemma runs_done {A} (m : M S A) s Q : runs n m s Q -> exists a s', m n s = Done a s' /\ Q a s'.
Proof. unfold runs. destruct (m n s) as [a s'|?|?|?|?|]; try done. by exists a, s'. Qed.

(** A loop with an invariant and a measure that the fuel exceeds. *)
Lemma runs_loop {X A} (J : X -> S -> Prop) (size : X -> S -> nat) (body : X -> M S (X + A)) x s Q :
  J x s -> (size x s < n)%nat ->
  (forall x s, J x s -> runs n (body x) s (fun r s' =>
     match r with inl x' => J x' s' /\ (size x' s' < size x s)%nat | inr a => Q a s' end)) ->
  runs n (loop body x) s Q.
Proof.
  intros HJ Hs Hb. unfold runs, loop. revert Hs. generalize n at 1 2 as k. intros k. revert x s HJ.
  induction k as [|k IH]; intros x s HJ Hs; [lia|]. cbn [iterate].
  specialize (Hb x s HJ). unfold runs in Hb. destruct (body x n s) as [r s'|?|?|?|?|]; try done. cbn [obind].
  destruct r as [x'|a]; [|exact Hb]. apply IH; [tauto|lia].
Qed.
End Runs.

(** ** Bytes of physical memory *)

Lemma testbit_255 i : Z.testbit 255 i = (0 <=? i) && (i <? 8).
Proof.
  change 255 with (Z.ones 8). destruct (Z.leb_spec 0 i); [|by rewrite Z.testbit_neg_r].
  rewrite Z.testbit_ones by lia. destruct (Z.leb_spec 0 i), (Z.ltb_spec i 8); done || lia.
Qed.

Lemma byte_of_word x v ra rb :
  0 <= ra < 4 -> 0 <= rb < 4 ->
  Z.land (Z.shiftr (u32 (Z.lor (Z.ldiff x (Z.shiftl 255 (8 * ra))) (Z.shiftl (u8 v) (8 * ra)))) (8 * rb)) 255
  = if rb =? ra then u8 v else Z.land (Z.shiftr x (8 * rb)) 255.
Proof.
  intros Ha Hb. apply Z.bits_inj'. intros j Hj.
  assert (Hu : Z.testbit (u8 v) j = (j <? 8) && Z.testbit v j) by exact (Z.testbit_mod_pow2 v 8 j ltac:(lia)).
  rewrite Z.land_spec, Z.shiftr_spec, testbit_255 by lia.
  change (u32 ?y) with (y mod 2 ^ 32). rewrite Z.testbit_mod_pow2 by lia. rewrite Z.lor_spec, Z.ldiff_spec, !Z.shiftl_spec by lia.
  rewrite testbit_255. change (u8 v) with (v mod 2 ^ 8) at 1. rewrite Z.testbit_mod_pow2 by lia.
  destruct (Z.eqb_spec rb ra) as [->|Hne].
  - replace (j + 8 * ra - 8 * ra) with j by lia. rewrite Hu.
    destruct (Z.leb_spec 0 j), (Z.ltb_spec j 8), (Z.ltb_spec (j + 8 * ra) 32); try lia; simpl;
      rewrite ?andb_false_r, ?andb_true_r; done.
  - rewrite Z.land_spec, Z.shiftr_spec, testbit_255 by lia.
    destruct (Z.leb_spec 0 (j + 8 * rb - 8 * ra)), (Z.ltb_spec (j + 8 * rb - 8 * ra) 8), (Z.leb_spec 0 j), (Z.ltb_spec j 8),
      (Z.ltb_spec (j + 8 * rb) 32); try lia; simpl; rewrite ?(Z.testbit_neg_r v) by lia; rewrite ?andb_false_r, ?andb_true_r, ?orb_false_r; try done.
Qed.

Lemma ld8_store8 f a v b : ld8 (store8 f a v) b = if b =? a then u8 v else ld8 f b.
Proof.
  unfold ld8, store8, store. cbv zeta.
  pose proof (Z.mod_pos_bound a 4 ltac:(lia)). pose proof (Z.mod_pos_bound b 4 ltac:(lia)).
  destruct (Z.eqb_spec (b - b mod 4) (a - a mod 4)) as [E|E].
  - rewrite byte_of_word by lia. destruct (Z.eqb_spec (b mod 4) (a mod 4)), (Z.eqb_spec b a); subst; try lia; try congruence.
  - by destruct (Z.eqb_spec b a) as [->|].
Qed.

Lemma ld8_range m a : 0 <= ld8 m a < 256.
Proof. unfold ld8. change 255 with (Z.ones 8). rewrite Z.land_ones by lia. apply Z.mod_pos_bound. lia. Qed.

Lemma ld8_above m m' a : (forall x, 0x90000 <= x -> m x = m' x) -> 0x90000 <= a -> ld8 m a = ld8 m' a.
Proof.
  intros H Ha. unfold ld8. rewrite (H (a - a mod 4)); [done|]. Z.div_mod_to_equations. lia.
Qed.
