(* ===== verification/BootSector.v ===== *)
(** * Loading the system: boot/bootsect.s

    The boot sector asks the BIOS for the sectors of setup and of the system, as many at
    a time as the track and the 64 kB segment allow.  The BIOS is the carry flag it
    answers each read with ([carry]) and the number of sectors of a track; the state
    keeps the calls with their registers.  The message it
    shows is left out. *)
From Stdlib Require Import ZArith Lia.
From stdpp Require Import base list.
From S2P Require Import Prelude Resumption Runs.

Definition SYSSIZE : Z := 0x3000.
Definition SETUPLEN : Z := 4.
Definition INITSEG : Z := 0x9000.
Definition SYSSEG : Z := 0x1000.
Definition ENDSEG : Z := SYSSEG + SYSSIZE.

(** [_start]: the boot sector moves itself out of the way. *)
Definition relocate (m : Z -> Z) : Z -> Z := fun x => if (0x90000 <=? x) && (x <? 0x90200) then m (x - 0x90000 + 0x7c00) else m x.

(** [int 0x13] with its registers, and the carry flag it returned. *)
Record int13 := mkInt13 { r_ax : Z; r_bx : Z; r_cx : Z; r_dx : Z; r_es : Z; r_cf : bool }.

(** The variables [sread], [head] and [track], the calls made (latest first), the answers
    to come and the writes to ports. *)
Record loader := mkLoader {
  sread : Z; head : Z; track : Z;
  bios : list int13; carry : nat -> bool; ports : list (Z * Z)
}.
#[export] Instance loader_reconstruct : Reconstruct loader :=
  fun r => mkLoader (sread r) (head r) (track r) (bios r) (carry r) (ports r).

(** A read: its carry flag is the next answer. *)
Definition bios_read (ax bx cx dx es : Z) : M loader bool :=
  let! s := get in
  modify (fun s' => s' <| bios ::= cons (mkInt13 ax bx cx dx es (carry s O)) |> <| carry := fun i => carry s (S i) |>) ;;;
  ret (carry s O).
(** The reset of the drive after an error: [ax] and [dx] are 0, the rest is not used. *)
Definition bios_reset (bx cx es : Z) : M loader unit :=
  modify (fun s => s <| bios ::= cons (mkInt13 0 bx cx 0 es false) |>).

(** [j .] *)
Definition hang {A} : M loader A := loop (fun _ : unit => ret (inl tt)) tt.

Definition load_setup : M loader unit :=
  loop (fun _ : unit =>
    let! cf := bios_read (0x0200 + SETUPLEN) 0x0200 0x0002 0x0000 INITSEG in
    if cf then bios_reset 0x0200 0x0002 INITSEG ;;; ret (inl tt) else ret (inr tt)) tt.

(** Read [al] sectors from [sread] on into es:bx; an error is tried again. *)
Definition read_track (es bx ax : Z) : M loader unit :=
  loop (fun _ : unit =>
    let! s := get in
    let cx := Z.lor (Z.shiftl (u8 (track s)) 8) (u8 (sread s + 1)) in
    let dx := Z.land (Z.shiftl (u8 (head s)) 8) 0x0100 in
    let! cf := bios_read (Z.lor 0x0200 (u8 ax)) bx cx dx es in
    if cf then bios_reset bx cx es ;;; ret (inl tt) else ret (inr tt)) tt.

(** The number of sectors of a round: the rest of the track, or what the segment still
    has room for. *)
Definition read_count (sectors sread bx : Z) : Z :=
  let ax := u16 (sectors - sread) in
  let cx := u16 (Z.shiftl ax 9) + bx in
  if (65536 <=? cx) && nz (u16 cx) then Z.shiftr (u16 (0 - bx)) 9 else ax.

Section Load.
Context (sectors : Z).

Definition rp_read (p : Z * Z) : M loader (Z * Z + unit) :=
  let '(es, bx) := p in
  if ENDSEG <=? es then ret (inr tt) else
  let! s := get in
  let ax := read_count sectors (sread s) bx in
  read_track es bx ax ;;;
  let! s := get in
  let cx := ax in
  let ax := u16 (ax + sread s) in
  (if ax =? sectors then
     let ax := u16 (1 - head s) in
     when (ax =? 0) (modify (fun s => s <| track ::= fun t => u16 (t + 1) |>)) ;;;
     modify (fun s => s <| head := ax |> <| sread := 0 |>)
   else modify (fun s => s <| sread := ax |>)) ;;;
  let bx := bx + u16 (Z.shiftl cx 9) in
  if bx <? 65536 then ret (inl (es, bx)) else ret (inl (u16 (es + 0x1000), 0)).

Definition read_it (es : Z) : M loader unit :=
  if nz (Z.land es 0x0fff) then hang else loop rp_read (es, 0).

Definition kill_motor : M loader unit := modify (fun s => s <| ports ::= cons (0, 0x3f2) |>).

(** The root device: the one written into the sector, or the drive that was booted. *)
Definition root_defined (root_dev : Z) : M loader Z :=
  if nz root_dev then ret root_dev
  else if sectors =? 15 then ret 0x0208
  else if sectors =? 18 then ret 0x021c
  else hang.

(** From [load_setup] on; [sectors] is what the BIOS says after it. *)
Definition bootsect (root_dev : Z) : M loader Z :=
  load_setup ;;;
  read_it SYSSEG ;;;
  kill_motor ;;;
  root_defined root_dev.

(** ** What a call reads *)

(** The sectors of the disk, counted through heads and cylinders, with the addresses
    they are put at; a call that failed or is none has none. *)
Definition first_sector (c : int13) : Z :=
  let cl := u8 (r_cx c) in
  let cylinder := Z.shiftr (r_cx c) 8 + Z.shiftl (Z.shiftr cl 6) 8 in
  (cylinder * 2 + Z.shiftr (r_dx c) 8) * sectors + (Z.land cl 63 - 1).
Definition is_read (c : int13) : bool := (Z.shiftr (r_ax c) 8 =? 2) && negb (r_cf c).
Definition reads (c : int13) : list (Z * Z) :=
  if is_read c
  then map (fun i => (first_sector c + i, 16 * r_es c + r_bx c + 512 * i)) (zrange 0 (Z.to_nat (u8 (r_ax c))))
  else [].

(** A call the drive and the DMA chip can do: within one track and one segment of 64 kB. *)
Definition in_track (c : int13) : Prop :=
  1 <= Z.land (u8 (r_cx c)) 63 /\ Z.land (u8 (r_cx c)) 63 - 1 + u8 (r_ax c) <= sectors.
Definition in_segment (c : int13) : Prop :=
  (16 * r_es c + r_bx c) / 65536 = (16 * r_es c + r_bx c + 512 * u8 (r_ax c) - 1) / 65536.
Definition fits (c : int13) : Prop := is_read c = true -> in_track c /\ in_segment c /\ u8 (r_dx c) = 0.

Definition loaded (s : loader) : list (Z * Z) := concat (map reads (rev (bios s))).

(** [k] sectors from the [from]th on, at the addresses from [addr] on. *)
Definition stretch (from addr : Z) (k : nat) : list (Z * Z) := map (fun i => (from + i, addr + 512 * i)) (zrange 0 k).
End Load.

(** Of any [k] answers that follow each other one is good. *)
Definition answers (k : nat) (f : nat -> bool) : Prop := forall i, exists j, (j < k)%nat /\ f (i + j)%nat = false.

Definition load_start (f : nat -> bool) : loader := mkLoader (1 + SETUPLEN) 0 0 [] f [].

(** A 1.2 MB drive that fails every other time. *)
Example a_load : forall s, bootsect 15 0 400%nat (load_start Nat.even) = Done 0x208 s ->
  length (bios s) = 87%nat.
Proof. intros s. vm_compute. intros [= <-]. reflexivity. Qed.

(** ** A read that is tried until it succeeds *)

(** Between [s] and [s'] there were failures and resets and then the call [c]. *)
Record heard (c : int13) (s s' : loader) : Prop := mkHeard {
  heard_vars : sread s' = sread s /\ head s' = head s /\ track s' = track s /\ ports s' = ports s;
  heard_calls : exists l, bios s' = c :: l ++ bios s /\ Forall (fun c => is_read c = false) l;
  heard_answers : exists j, forall i, carry s' i = carry s (j + i)%nat
}.

Lemma answers_heard c s s' k : heard c s s' -> answers k (carry s) -> answers k (carry s').
Proof.
  intros [_ _ [j Hj]] H i. destruct (H (j + i)%nat) as (x & Hx & E). exists x. split; [done|].
  by rewrite Hj, Nat.add_assoc.
Qed.

Lemma fails_not_read ax bx cx dx es : is_read (mkInt13 ax bx cx dx es true) = false.
Proof. apply andb_false_r. Qed.

(** The body of the loops of [load_setup] and [read_track]. *)
Definition tries (body : unit -> M loader (unit + unit)) (ax bx cx dx es : Z) (s0 : loader) : Prop :=
  forall n s, sread s = sread s0 -> head s = head s0 -> track s = track s0 ->
  body tt n s =
    let c := mkInt13 ax bx cx dx es (carry s O) in
    let s' := s <| bios ::= cons c |> <| carry := fun i => carry s (S i) |> in
    if carry s O then Done (inl tt) (s' <| bios ::= cons (mkInt13 0 bx cx 0 es false) |>) else Done (inr tt) s'.

Lemma retry_run body ax bx cx dx es k n s :
  tries body ax bx cx dx es s -> answers k (carry s) -> (k <= n)%nat ->
  exists s', loop body tt n s = Done tt s' /\ heard (mkInt13 ax bx cx dx es false) s s'.
Proof.
  intros Ht Ha Hk. destruct (Ha O) as (j & Hj & Ej). unfold loop. simpl in Ej.
  assert (Hm : (j < n)%nat) by lia. clear Ha Hk Hj. revert Hm. generalize n at 1 2. intros m Hm.
  revert m s Hm Ht Ej.
  induction j as [|j IH]; intros m s Hm Ht Ej; (destruct m as [|m]; [lia|]); cbn [iterate];
    rewrite (Ht n s eq_refl eq_refl eq_refl); cbv zeta.
  - rewrite Ej. cbn [obind]. eexists. split; [reflexivity|]. split; [done| |by exists 1%nat]. by exists [].
  - destruct (carry s O) eqn:E0; cbn [obind].
    + set (s1 := upd _ _ _). destruct (IH m s1) as (s' & E & [Hv (l & Eb & Hl) [i Hi]]).
      { lia. } { intros n' s2 H1 H2 H3. by apply Ht. } { exact Ej. }
      exists s'. split; [exact E|]. split; [exact Hv| |].
      * exists (l ++ [mkInt13 0 bx cx 0 es false; mkInt13 ax bx cx dx es true]). split.
        -- rewrite Eb. unfold s1. cbn. by rewrite <- app_assoc.
        -- apply Forall_app. split; [done|]. repeat constructor. apply fails_not_read.
      * exists (S i). intros x. rewrite Hi. reflexivity.
    + eexists. split; [reflexivity|]. split; [done| |by exists 1%nat]. by exists [].
Qed.

(** ** One round of the loop *)

Lemma lor_byte a b : 0 <= b < 256 -> Z.lor (Z.shiftl a 8) b = 256 * a + b.
Proof.
  intros Hb. rewrite <- Z.add_nocarry_lor.
  - rewrite Z.shiftl_mul_pow2 by lia. lia.
  - apply Z.bits_inj'. intros i Hi. rewrite Z.land_spec, Z.bits_0.
    destruct (Z.lt_ge_cases i 8); [by rewrite Z.shiftl_spec_low|].
    replace b with (b mod 2 ^ 8) by (apply Z.mod_small; lia).
    rewrite Z.mod_pow2_bits_high by lia. apply andb_false_r.
Qed.

Section Load_props.
Context (sectors : Z).
Hypothesis track_size : 6 <= sectors <= 63.

(** The rest of the track and the rest of the segment, whichever is less. *)
Lemma read_count_min sread b :
  0 <= sread < sectors -> 0 <= b < 128 -> read_count sectors sread (512 * b) = Z.min (sectors - sread) (128 - b).
Proof.
  intros Hs Hb. unfold read_count, u16. rewrite (Z.mod_small (sectors - sread)) by lia.
  rewrite Z.shiftl_mul_pow2 by lia. change (2 ^ 9) with 512. rewrite (Z.mod_small (_ * 512)) by lia.
  set (sum := (sectors - sread) * 512 + 512 * b). unfold nz.
  destruct (Z.leb_spec 65536 sum); cbn [andb]; [|unfold sum in *; lia].
  assert (sum mod 65536 = sum - 65536) as -> by (unfold sum in *; Z.div_mod_to_equations; lia).
  destruct (Z.eqb_spec (sum - 65536) 0); cbn [negb]; [unfold sum in *; lia|].
  rewrite Z.shiftr_div_pow2 by lia. change (2 ^ 9) with 512.
  assert (b <> 0) by (intros ->; unfold sum in *; lia).
  assert ((0 - 512 * b) mod 65536 = (128 - b) * 512) as -> by (Z.div_mod_to_equations; lia).
  rewrite Z.div_mul by lia. unfold sum in *. lia.
Qed.

(** The next sector to read is the [p]th, with [q] segments filled and [b] sectors in
    the current one. *)
Record at_sector (p q b : Z) (s : loader) : Prop := mkAtSector {
  at_track : 0 <= track s;
  at_head : 0 <= head s <= 1;
  at_sread : 0 <= sread s < sectors;
  at_lba : (track s * 2 + head s) * sectors + sread s = p;
  at_addr : p - 5 = 128 * q + b /\ 0 <= q <= 3 /\ 0 <= b < 128 /\ p <= 389
}.

Lemma at_track_small p q b s : at_sector p q b s -> track s < 256.
Proof. intros [H1 H2 H3 H4 H5]. nia. Qed.

(** The call of a round at this place. *)
Definition round_call (q b n : Z) (s : loader) : int13 :=
  mkInt13 (Z.lor 0x0200 (u8 n)) (512 * b) (Z.lor (Z.shiftl (u8 (track s)) 8) (u8 (sread s + 1)))
    (Z.land (Z.shiftl (u8 (head s)) 8) 0x0100) (0x1000 * (q + 1)) false.

Lemma round_reads p q b n s :
  at_sector p q b s -> 0 < n -> n <= sectors - sread s -> n <= 128 - b ->
  reads sectors (round_call q b n s) = stretch p (0x10000 + 512 * (p - 5)) (Z.to_nat n) /\
  fits sectors (round_call q b n s).
Proof.
  intros Ha Hn Hs Hb. pose proof (at_track_small _ _ _ _ Ha) as Ht. destruct Ha as [H1 H2 H3 H4 H5].
  assert (En : u8 n = n) by (apply Z.mod_small; lia).
  assert (Eax : Z.lor 0x0200 (u8 n) = 256 * 2 + n).
  { rewrite En. change 0x200 with (Z.shiftl 2 8). apply lor_byte. lia. }
  assert (Ecx : Z.lor (Z.shiftl (u8 (track s)) 8) (u8 (sread s + 1)) = 256 * track s + (sread s + 1)).
  { unfold u8. rewrite (Z.mod_small (track s)), (Z.mod_small (sread s + 1)) by lia. apply lor_byte. lia. }
  assert (Edx : Z.land (Z.shiftl (u8 (head s)) 8) 0x0100 = 256 * head s).
  { assert (head s = 0 \/ head s = 1) as [-> | ->] by lia; reflexivity. }
  unfold reads, fits, is_read, in_track, in_segment, first_sector, round_call.
  cbn [r_ax r_bx r_cx r_dx r_es r_cf]. rewrite Eax, Ecx, Edx.
  assert (U : forall a c, 0 <= c < 256 -> u8 (256 * a + c) = c /\ Z.shiftr (256 * a + c) 8 = a).
  { intros a c Hc. rewrite Z.shiftr_div_pow2 by lia. change (2 ^ 8) with 256. unfold u8. Z.div_mod_to_equations. lia. }
  destruct (U 2 n ltac:(lia)) as [-> ->]. destruct (U (track s) (sread s + 1) ltac:(lia)) as [-> ->].
  replace (256 * head s) with (256 * head s + 0) by lia. destruct (U (head s) 0 ltac:(lia)) as [-> ->].
  change 63 with (Z.ones 6). rewrite Z.land_ones, (Z.shiftr_div_pow2 (sread s + 1)) by lia. change (2 ^ 6) with 64.
  rewrite (Z.mod_small (sread s + 1)), (Z.div_small (sread s + 1)) by lia. change (Z.shiftl 0 8) with 0.
  split.
  - apply map_ext. intros i. f_equal; lia.
  - intros _. split; [lia|]. split; [|done]. Z.div_mod_to_equations. lia.
Qed.

Lemma fits_failed c : is_read c = false -> fits sectors c.
Proof. intros E E'. by rewrite E in E'. Qed.

Lemma loaded_heard c s s' : heard c s s' -> loaded sectors s' = loaded sectors s ++ reads sectors c.
Proof.
  intros [_ (l & E & Hl) _]. unfold loaded. rewrite E. cbn [rev]. rewrite rev_app_distr, !map_app, !concat_app.
  cbn. rewrite app_nil_r, <- app_assoc. f_equal. rewrite <- (app_nil_l (reads _ _)) at 2. f_equal.
  apply concat_nil_Forall, Forall_map. apply Forall_rev. eapply Forall_impl; [exact Hl|]. intros x Ex. unfold reads. by rewrite Ex.
Qed.

Lemma fits_heard c s s' : heard c s s' -> fits sectors c -> Forall (fits sectors) (bios s) -> Forall (fits sectors) (bios s').
Proof.
  intros [_ (l & -> & Hl) _] Hc Hs. constructor; [done|]. apply Forall_app. split; [|done].
  eapply Forall_impl; [exact Hl|]. exact fits_failed.
Qed.

(** What the system's loading keeps: the good calls so far have brought exactly the
    sectors [l], and every one was fit. *)
Record so_far (k : nat) (l : list (Z * Z)) (s : loader) : Prop := mkSoFar {
  sofar_loaded : loaded sectors s = l;
  sofar_fits : Forall (fits sectors) (bios s);
  sofar_answers : answers k (carry s)
}.

Lemma so_far_heard k l c s s' :
  so_far k l s -> heard c s s' -> fits sectors c -> so_far k (l ++ reads sectors c) s'.
Proof.
  intros [H1 H2 H3] H Hc. split; [by rewrite (loaded_heard c s s' H), H1|by eapply fits_heard|by eapply answers_heard].
Qed.

Lemma read_track_run es bx ax k n s :
  answers k (carry s) -> (k <= n)%nat ->
  exists s', read_track es bx ax n s = Done tt s' /\
    heard (mkInt13 (Z.lor 0x0200 (u8 ax)) bx (Z.lor (Z.shiftl (u8 (track s)) 8) (u8 (sread s + 1)))
      (Z.land (Z.shiftl (u8 (head s)) 8) 0x0100) es false) s s'.
Proof.
  intros Ha Hk. unfold read_track. apply (retry_run _ _ _ _ _ _ k); [|done|done].
  intros m t E1 E2 E3. step (get_run _ _). rewrite E1, E2, E3. unfold bios_read, bind, get, modify, ret. cbn.
  by destruct (carry t O).
Qed.

Lemma load_setup_run k n s :
  answers k (carry s) -> (k <= n)%nat ->
  exists s', load_setup n s = Done tt s' /\ heard (mkInt13 (0x0200 + SETUPLEN) 0x0200 0x0002 0x0000 INITSEG false) s s'.
Proof.
  intros Ha Hk. unfold load_setup. apply (retry_run _ _ _ _ _ _ k); [|done|done].
  intros m t E1 E2 E3. unfold bios_read, bind, get, modify, ret. cbn. by destruct (carry t O).
Qed.

(** The variables after [c] more sectors. *)
Lemma next_sector p q b c s s' :
  at_sector p q b s -> q < 3 -> c = Z.min (sectors - sread s) (128 - b) ->
  sread s' = (if c + sread s =? sectors then 0 else c + sread s) ->
  head s' = (if c + sread s =? sectors then 1 - head s else head s) ->
  track s' = (if (c + sread s =? sectors) && (head s =? 1) then track s + 1 else track s) ->
  exists q' b', (if b + c <? 128 then q' = q /\ b' = b + c else q' = q + 1 /\ b' = 0) /\ at_sector (p + c) q' b' s'.
Proof.
  intros [H1 H2 H3 H4 H5] Hq Hc E1 E2 E3.
  exists (if b + c <? 128 then q else q + 1), (if b + c <? 128 then b + c else 0).
  split; [by destruct (b + c <? 128)|]. destruct (Z.eqb_spec (c + sread s) sectors) as [E|E]; cbn [andb] in *.
  - assert (head s = 0 \/ head s = 1) as [Eh|Eh] by lia; rewrite Eh in *; simpl in E3;
      (split; [lia|lia|lia|rewrite E1, E2, E3; nia|destruct (Z.ltb_spec (b + c) 128); lia]).
  - split; [lia|lia|lia|rewrite E1, E2, E3; lia|destruct (Z.ltb_spec (b + c) 128); lia].
Qed.

Lemma rp_read_run k l n p q b s :
  at_sector p q b s -> q < 3 -> so_far k l s -> (k <= n)%nat ->
  let c := Z.min (sectors - sread s) (128 - b) in
  exists q' b' s', rp_read sectors (0x1000 * (q + 1), 512 * b) n s = Done (inl (0x1000 * (q' + 1), 512 * b')) s' /\
    at_sector (p + c) q' b' s' /\ ports s' = ports s /\
    so_far k (l ++ stretch p (0x10000 + 512 * (p - 5)) (Z.to_nat c)) s'.
Proof.
  intros Ha Hq Hl Hk c. pose proof (at_track_small _ _ _ _ Ha) as Ht. assert (Ha' := Ha). destruct Ha' as [H1 H2 H3 H4 H5].
  destruct (round_reads p q b c s Ha ltac:(lia) ltac:(lia) ltac:(lia)) as [Er Hf].
  unfold rp_read. destruct (Z.leb_spec ENDSEG (0x1000 * (q + 1))) as [Hb|_]; [unfold ENDSEG, SYSSEG, SYSSIZE in Hb; lia|].
  step (get_run _ s). rewrite read_count_min by lia. fold c.
  destruct (read_track_run (0x1000 * (q + 1)) (512 * b) c k n s (sofar_answers _ _ _ Hl) Hk) as (s1 & E1 & Hh).
  step E1. step (get_run n s1). destruct (heard_vars _ _ _ Hh) as (V1 & V2 & V3 & V4).
  pose proof (so_far_heard _ _ _ _ _ Hl Hh Hf) as Hl1. rewrite <- Er. fold (round_call q b c s) in Hh.
  assert (Es : u16 (c + sread s1) = c + sread s) by (rewrite V1; apply Z.mod_small; lia). rewrite Es.
  assert (Eh : u16 (1 - head s1) = 1 - head s) by (rewrite V2; apply Z.mod_small; lia). rewrite Eh.
  set (s2 := s1 <| sread := if c + sread s =? sectors then 0 else c + sread s |>
    <| head := if c + sread s =? sectors then 1 - head s else head s |>
    <| track := if (c + sread s =? sectors) && (head s =? 1) then track s + 1 else track s |>).
  destruct (next_sector p q b c s s2 Ha Hq eq_refl eq_refl eq_refl eq_refl) as (q' & b' & Hqb & Ha2).
  assert (E2 : (if c + sread s =? sectors then
     when (1 - head s =? 0) (modify (fun s => s <| track ::= fun t => u16 (t + 1) |>)) ;;;
     modify (fun s' => s' <| head := 1 - head s |> <| sread := 0 |>)
   else modify (fun s' => s' <| sread := c + sread s |>)) n s1 = Done tt s2).
  { unfold s2. destruct s1 as [sr1 h1 t1 bi1 ca1 po1]. cbn in V1, V2, V3. subst.
    destruct (_ =? sectors); cbn [andb]; [|reflexivity].
    assert (head s = 0 \/ head s = 1) as [-> | ->] by lia; [reflexivity|].
    transitivity (Done tt (mkLoader 0 0 (u16 (track s + 1)) bi1 ca1 po1)); [reflexivity|].
    unfold u16. by rewrite Z.mod_small by lia. }
  step E2. exists q', b', s2.
  assert (u16 (Z.shiftl c 9) = 512 * c) as ->.
  { rewrite Z.shiftl_mul_pow2 by lia. change (2 ^ 9) with 512. unfold u16. rewrite Z.mod_small by lia. lia. }
  split; [|split; [exact Ha2|split; [exact V4|]]].
  - destruct (Z.ltb_spec (b + c) 128); destruct Hqb as [-> ->]; destruct (Z.ltb_spec (512 * b + 512 * c) 65536); try lia.
    + unfold ret. do 3 f_equal. lia.
    + unfold ret, u16. rewrite Z.mod_small by lia. do 3 f_equal; lia.
  - destruct Hl1 as [L1 L2 L3]. by split.
Qed.

Lemma stretch_app from addr k m :
  stretch from addr (k + m) = stretch from addr k ++ stretch (from + Z.of_nat k) (addr + 512 * Z.of_nat k) m.
Proof.
  unfold stretch. rewrite zrange_app, map_app. f_equal. change (0 + Z.of_nat k) with (Z.of_nat k).
  generalize (Z.of_nat k). clear. intros x. replace x with (0 + x) at 1 by lia. generalize 0.
  induction m as [|m IH]; intros lo; cbn [zrange map]; [done|]. f_equal; [f_equal; lia|].
  replace (lo + x + 1) with (lo + 1 + x) by lia. apply IH.
Qed.

(** The loop from any place: it goes round at most once for each sector. *)
Lemma rp_read_loop k n m p q b l s :
  at_sector p q b s -> so_far k l s -> (k <= n)%nat -> 389 - p < Z.of_nat m ->
  exists s', iterate m (rp_read sectors) (0x1000 * (q + 1), 512 * b) n s = Done tt s' /\ ports s' = ports s /\
    so_far k (l ++ stretch p (0x10000 + 512 * (p - 5)) (Z.to_nat (389 - p))) s'.
Proof.
  revert p q b l s. induction m as [|m IH]; intros p q b l s Ha Hl Hk Hm; [destruct (at_addr _ _ _ _ Ha); lia|].
  assert (H5 := at_addr _ _ _ _ Ha). assert (q = 3 \/ q < 3) as [Hq|Hq] by lia.
  - exists s. subst q. assert (p = 389) as -> by lia. split; [by apply iterate_last|]. split; [done|].
    change (Z.to_nat (389 - 389)) with O. cbn. by rewrite app_nil_r.
  - destruct (rp_read_run k l n p q b s Ha Hq Hl Hk) as (q' & b' & s1 & E1 & Ha1 & Hp1 & Hl1).
    assert (H3 := at_sread _ _ _ _ Ha). set (c := Z.min _ _) in *.
    destruct (IH _ _ _ _ _ Ha1 Hl1 Hk ltac:(lia)) as (s2 & E2 & Hp2 & Hl2).
    exists s2. split; [by rewrite (iterate_next m _ _ n s _ s1 E1)|]. split; [congruence|].
    rewrite <- app_assoc in Hl2. assert (H6 := at_addr _ _ _ _ Ha1).
    replace (Z.to_nat (389 - p)) with (Z.to_nat c + Z.to_nat (389 - (p + c)))%nat by lia.
    rewrite stretch_app, Z2Nat.id by lia.
    replace (0x10000 + 512 * (p - 5) + 512 * c) with (0x10000 + 512 * (p + c - 5)) by lia. exact Hl2.
Qed.

Lemma setup_reads :
  let c := mkInt13 (0x0200 + SETUPLEN) 0x0200 0x0002 0x0000 INITSEG false in
  reads sectors c = stretch 1 0x90200 4 /\ fits sectors c.
Proof. split; [reflexivity|]. intros _. split; [change (1 <= 2 /\ 1 + 4 <= sectors); lia|by split]. Qed.

(** Everything before the choice of the root device. *)
Lemma load_run k n f :
  answers k f -> (k <= n)%nat -> (385 <= n)%nat ->
  exists s', (load_setup ;;; read_it sectors SYSSEG ;;; kill_motor) n (load_start f) = Done tt s' /\
    ports s' = [(0, 0x3f2)] /\ so_far k (stretch 1 0x90200 4 ++ stretch 5 0x10000 384) s'.
Proof.
  intros Hf Hk Hn. destruct (load_setup_run k n (load_start f) Hf Hk) as (s1 & E1 & Hh). step E1.
  destruct setup_reads as [Er Hc]. destruct (heard_vars _ _ _ Hh) as (V1 & V2 & V3 & V4).
  assert (Hl : so_far k (stretch 1 0x90200 4) s1).
  { rewrite <- Er. refine (so_far_heard k [] _ _ _ _ Hh Hc). split; [done|by constructor|done]. }
  assert (Ha : at_sector 5 0 0 s1) by (split; rewrite ?V1, ?V2, ?V3; cbn; unfold SETUPLEN; lia).
  destruct (rp_read_loop k n n 5 0 0 _ s1 Ha Hl Hk ltac:(lia)) as (s2 & E2 & Hp & Hl2).
  step (E2 : read_it sectors SYSSEG n s1 = Done tt s2). eexists. split; [reflexivity|]. split; [change ((0, 0x3f2) :: ports s2 = [(0, 0x3f2)]); by rewrite Hp, V4|].
  destruct Hl2 as [L1 L2 L3]. by split.
Qed.
End Load_props.

Lemma hang_forever {A} n s : @hang A n s = NoFuel.
Proof. unfold hang, loop. generalize n at 1. intros m. induction m as [|m IH]; [done|exact IH]. Qed.

(** Booted from a drive the root device of which is not known, the boot sector stops. *)
Lemma undef_root_hangs sectors n s : sectors <> 15 -> sectors <> 18 -> root_defined sectors 0 n s = NoFuel.
Proof.
  intros H1 H2. unfold root_defined. cbn. destruct (Z.eqb_spec sectors 15); [done|].
  destruct (Z.eqb_spec sectors 18); [done|]. apply hang_forever.
Qed.

(** C23. Whatever reads fail, as long as of any [k] answers in a row one is good, the boot
    sector loads sector by sector and in order the four sectors of setup to 0x90200 and the
    384 sectors behind them, the largest system the tool builds, to 0x10000; no read
    crosses the end of a track or of a segment of 64 kB; the motor is off and the root
    device is the one of the sector or that of the boot drive. *)
Theorem bootsect_loads (sectors root_dev : Z) (k n : nat) (f : nat -> bool) :
  6 <= sectors <= 63 -> answers k f -> (k <= n)%nat -> (385 <= n)%nat ->
  root_dev <> 0 \/ sectors = 15 \/ sectors = 18 ->
  exists s', bootsect sectors root_dev n (load_start f) =
      Done (if nz root_dev then root_dev else if sectors =? 15 then 0x208 else 0x21c) s' /\
    loaded sectors s' = stretch 1 0x90200 4 ++ stretch 5 0x10000 384 /\
    Forall (fits sectors) (bios s') /\ ports s' = [(0, 0x3f2)].
Proof.
  intros Hs Hf Hk Hn Hr. destruct (load_run sectors Hs k n f Hf Hk Hn) as (s' & E & Hp & [L1 L2 _]).
  exists s'. split; [|done]. unfold bootsect.
  assert (E' : forall (A : Type) (m : M loader A), (load_setup ;;; read_it sectors SYSSEG ;;; kill_motor ;;; m) n (load_start f) = m n s').
  { intros A m. revert E. unfold bind. destruct (load_setup n _) as [[] s1|?|?|?|?|]; cbn; try done.
    destruct (read_it _ _ n s1) as [[] s2|?|?|?|?|]; cbn; try done. by intros [= ->]. }
  rewrite E'. unfold root_defined, nz. destruct (Z.eqb_spec root_dev 0); cbn [negb]; [|done].
  destruct (Z.eqb_spec sectors 15); [done|]. destruct (Z.eqb_spec sectors 18); [done|]. lia.
Qed.

Lemma even_answers : answers 2 Nat.even.
Proof.
  intros i. destruct (Nat.even i) eqn:E.
  - exists 1%nat. split; [lia|]. rewrite Nat.add_1_r, Nat.even_succ, <- Nat.negb_even. by rewrite E.
  - exists O. split; [lia|]. by rewrite Nat.add_0_r.
Qed.

Lemma bootsect_loads_witness :
  exists s', bootsect 15 0 400%nat (load_start Nat.even) = Done 0x208 s' /\
    loaded 15 s' = stretch 1 0x90200 4 ++ stretch 5 0x10000 384 /\
    Forall (fits 15) (bios s') /\ ports s' = [(0, 0x3f2)].
Proof.
  apply (bootsect_loads 15 0 2 400 Nat.even).
  - lia.
  - exact even_answers.
  - lia.
  - lia.
  - right. by left.
Defined.
