(* ===== verification/ConsoleProps.v ===== *)
(** * The console stays on its screen: proofs about kernel/chr_drv/console.c *)
From Stdlib Require Import ZArith Lia String Ascii.
From stdpp Require Import base list.
From S2P Require Import Prelude Resumption Memory KState Runs Console.

(** ** The geometry of the screen *)

(** The screen lies in video memory, the cursor on the screen or just behind a line,
    the scrolling region is one, the parameters are in their array. *)
Record con_ok (c : console) : Prop := mkConOk {
  ok_columns : 8 <= video_num_columns c /\ (2 | video_num_columns c);
  ok_row : video_size_row c = 2 * video_num_columns c;
  ok_lines : 0 < video_num_lines c;
  ok_vram : 0 <= video_mem_start c /\ video_mem_end c <= 0x100000 /\ (2 | video_mem_start c);
  ok_origin : video_mem_start c <= origin c /\ (2 | origin c);
  ok_fits : video_mem_start c + video_num_lines c * video_size_row c <= video_mem_end c;
  ok_scr_end : scr_end c = origin c + video_num_lines c * video_size_row c /\ scr_end c <= video_mem_end c;
  ok_x : 0 <= con_x c <= video_num_columns c;
  ok_y : 0 <= con_y c < video_num_lines c;
  ok_pos : pos c = origin c + con_y c * video_size_row c + 2 * con_x c;
  ok_region : 0 <= top c /\ top c < bottom c <= video_num_lines c;
  ok_par : length (par c) = 16%nat /\ Forall (fun p => 0 <= p < 4294967296) (par c);
  ok_npar : 0 <= npar c < 16;
  ok_erase : 0 <= video_erase_char c < 65536;
  ok_words : forall q, 0 <= vram c (2 * q) < 65536
}.

(** The word in column [x] of line [y] of the screen. *)
Definition cell (c : console) (y x : Z) : Z := vram c (origin c + y * video_size_row c + 2 * x).

(** ** Video memory *)

(** [c] with the contents [g], given on the words. *)
Definition redrawn (c : console) (g : Z -> Z) (c' : console) : Prop :=
  exists m, c' = c <| vram := m |> /\ forall q, m (2 * q) = g q.

Lemma in_vram_word c q : video_mem_start c <= 2 * q -> 2 * q + 2 <= video_mem_end c -> in_vram c (2 * q) = true.
Proof.
  intros H1 H2. unfold in_vram. apply andb_true_iff. split; [|by rewrite Z.even_mul].
  apply andb_true_iff. split; by apply Z.leb_le.
Qed.

Lemma vget_ends c q Q :
  video_mem_start c <= 2 * q -> 2 * q + 2 <= video_mem_end c -> Q (vram c (2 * q)) c -> ends (vget (2 * q)) c Q.
Proof. intros H1 H2 HQ. eapply ends_deref; [|exact HQ]. by rewrite in_vram_word. Qed.

Lemma vput_ends c q v (Q : unit -> console -> Prop) :
  video_mem_start c <= 2 * q -> 2 * q + 2 <= video_mem_end c ->
  (forall c', redrawn c (fun p => if p =? q then u16 v else vram c (2 * p)) c' -> Q tt c') -> ends (vput (2 * q) v) c Q.
Proof.
  intros H1 H2 HQ. apply ends_bind, ends_get. rewrite in_vram_word by done. apply ends_modify, HQ.
  eexists. split; [reflexivity|]. intros p. cbv beta. repeat zcase; done.
Qed.

Lemma redrawn_trans c c1 c2 g1 g2 : redrawn c g1 c1 -> redrawn c1 g2 c2 -> redrawn c g2 c2.
Proof. intros (m1 & -> & _) (m2 & -> & H2). exists m2. by split. Qed.
Lemma redrawn_refl c : redrawn c (fun q => vram c (2 * q)) c.
Proof. exists (vram c). split; [by destruct c|done]. Qed.
Lemma redrawn_ext c c' g g' : (forall q, g q = g' q) -> redrawn c g c' -> redrawn c g' c'.
Proof. intros E (m & -> & H). exists m. split; [done|]. intros q. by rewrite H. Qed.
Lemma redrawn_vram c c' g q : redrawn c g c' -> vram c' (2 * q) = g q.
Proof. by intros (m & -> & H). Qed.
Lemma redrawn_range c c' g : redrawn c g c' ->
  video_mem_start c' = video_mem_start c /\ video_mem_end c' = video_mem_end c.
Proof. by intros (m & -> & H). Qed.

(** A run of words from [d] on in video memory. *)
Definition inside (c : console) (d n : Z) : Prop := video_mem_start c <= 2 * d /\ 2 * (d + n) <= video_mem_end c.

Lemma fill_up_ends c d n v (Q : unit -> console -> Prop) :
  0 <= n -> inside c d n ->
  (forall c', redrawn c (fun q => if (d <=? q) && (q <? d + n) then u16 v else vram c (2 * q)) c' -> Q tt c') ->
  ends (fill_up (2 * d) n v) c Q.
Proof.
  intros Hn [H1 H2] HQ. eapply ends_mono.
  - apply (ends_for (fun i c' => redrawn c (fun q => if (d <=? q) && (q <? d + i) then u16 v else vram c (2 * q)) c')).
    + apply (redrawn_ext c c (fun q => vram c (2 * q))); [|apply redrawn_refl]. intros q. repeat zcase; done.
    + intros i c' Hi Hc. destruct (redrawn_range _ _ _ Hc) as [Ea Ez].
      replace (2 * d + 2 * i) with (2 * (d + i)) by lia. apply vput_ends; [lia..|]. intros c'' Hc'.
      eapply redrawn_ext; [|exact (redrawn_trans _ _ _ _ _ Hc Hc')]. intros q. cbv beta.
      rewrite (redrawn_vram _ _ _ q Hc). repeat zcase; done.
  - intros [] c' Hc. apply HQ. replace (d + n) with (d + (0 + Z.of_nat (Z.to_nat n))) by lia. exact Hc.
Qed.

Lemma fill_down_ends c d n v (Q : unit -> console -> Prop) :
  0 <= n -> inside c (d - n + 1) n ->
  (forall c', redrawn c (fun q => if (d - n <? q) && (q <=? d) then u16 v else vram c (2 * q)) c' -> Q tt c') ->
  ends (fill_down (2 * d) n v) c Q.
Proof.
  intros Hn [H1 H2] HQ. eapply ends_mono.
  - apply (ends_for (fun i c' => redrawn c (fun q => if (d - i <? q) && (q <=? d) then u16 v else vram c (2 * q)) c')).
    + apply (redrawn_ext c c (fun q => vram c (2 * q))); [|apply redrawn_refl]. intros q. repeat zcase; done.
    + intros i c' Hi Hc. destruct (redrawn_range _ _ _ Hc) as [Ea Ez].
      replace (2 * d - 2 * i) with (2 * (d - i)) by lia. apply vput_ends; [lia..|]. intros c'' Hc'.
      eapply redrawn_ext; [|exact (redrawn_trans _ _ _ _ _ Hc Hc')]. intros q. cbv beta.
      rewrite (redrawn_vram _ _ _ q Hc). repeat zcase; done.
  - intros [] c' Hc. apply HQ. replace (d - n) with (d - (0 + Z.of_nat (Z.to_nat n))) by lia. exact Hc.
Qed.

Abbreviation words c := (forall q, 0 <= vram c (2 * q) < 65536).

Lemma move_long_ends c d s (Q : unit -> console -> Prop) :
  words c -> inside c d 2 -> inside c s 2 ->
  (forall c', redrawn c (fun q => if (d <=? q) && (q <? d + 2) then vram c (2 * (q - d + s)) else vram c (2 * q)) c' -> Q tt c') ->
  ends (move_long (2 * d) (2 * s)) c Q.
Proof.
  intros Hw [H1 H2] [H3 H4] HQ. unfold move_long.
  apply ends_bind, vget_ends; [lia..|]. replace (2 * s + 2) with (2 * (s + 1)) by lia.
  apply ends_bind, vget_ends; [lia..|]. apply ends_bind, vput_ends; [lia..|]. intros c1 Hc1.
  destruct (redrawn_range _ _ _ Hc1) as [Ea Ez].
  replace (2 * d + 2) with (2 * (d + 1)) by lia. apply vput_ends; [lia..|]. intros c2 Hc2. apply HQ.
  eapply redrawn_ext; [|exact (redrawn_trans _ _ _ _ _ Hc1 Hc2)]. intros q. cbv beta.
  rewrite (redrawn_vram _ _ _ q Hc1), !u16_small by apply Hw.
  repeat zcase; try done; do 2 f_equal; lia.
Qed.

Lemma redrawn_words c c' g : redrawn c g c' -> (forall q, 0 <= g q < 65536) -> words c'.
Proof. intros H Hg q. by rewrite (redrawn_vram _ _ _ q H). Qed.

Lemma move_up_ends c d s n (Q : unit -> console -> Prop) :
  words c -> 0 <= n -> d <= s -> inside c d (2 * n) -> inside c s (2 * n) ->
  (forall c', redrawn c (fun q => if (d <=? q) && (q <? d + 2 * n) then vram c (2 * (q - d + s)) else vram c (2 * q)) c' -> Q tt c') ->
  ends (move_up (2 * d) (2 * s) n) c Q.
Proof.
  intros Hw Hn Hds [H1 H2] [H3 H4] HQ. eapply ends_mono.
  - apply (ends_for (fun i c' => redrawn c (fun q => if (d <=? q) && (q <? d + 2 * i) then vram c (2 * (q - d + s)) else vram c (2 * q)) c')).
    + apply (redrawn_ext c c (fun q => vram c (2 * q))); [|apply redrawn_refl]. intros q. repeat zcase; done.
    + intros i c' Hi Hc. destruct (redrawn_range _ _ _ Hc) as [Ea Ez].
      replace (2 * d + 4 * i) with (2 * (d + 2 * i)) by lia. replace (2 * s + 4 * i) with (2 * (s + 2 * i)) by lia.
      apply move_long_ends; [|split; lia..|].
      * eapply redrawn_words; [exact Hc|]. intros q. cbv beta. destruct (_ && _); apply Hw.
      * intros c'' Hc'. eapply redrawn_ext; [|exact (redrawn_trans _ _ _ _ _ Hc Hc')]. intros q. cbv beta.
        rewrite !(redrawn_vram _ _ _ _ Hc). repeat zcase; try done; do 2 f_equal; lia.
  - intros [] c' Hc. apply HQ. replace (d + 2 * n) with (d + 2 * (0 + Z.of_nat (Z.to_nat n))) by lia. exact Hc.
Qed.

Lemma move_down_ends c d s n (Q : unit -> console -> Prop) :
  words c -> 0 <= n -> s <= d -> inside c (d + 2 - 2 * n) (2 * n) -> inside c (s + 2 - 2 * n) (2 * n) ->
  (forall c', redrawn c (fun q => if (d + 2 - 2 * n <=? q) && (q <? d + 2) then vram c (2 * (q - d + s)) else vram c (2 * q)) c' -> Q tt c') ->
  ends (move_down (2 * d) (2 * s) n) c Q.
Proof.
  intros Hw Hn Hds [H1 H2] [H3 H4] HQ. eapply ends_mono.
  - apply (ends_for (fun i c' => redrawn c (fun q => if (d + 2 - 2 * i <=? q) && (q <? d + 2) then vram c (2 * (q - d + s)) else vram c (2 * q)) c')).
    + apply (redrawn_ext c c (fun q => vram c (2 * q))); [|apply redrawn_refl]. intros q. repeat zcase; done.
    + intros i c' Hi Hc. destruct (redrawn_range _ _ _ Hc) as [Ea Ez].
      replace (2 * d - 4 * i) with (2 * (d - 2 * i)) by lia. replace (2 * s - 4 * i) with (2 * (s - 2 * i)) by lia.
      apply move_long_ends; [|split; lia..|].
      * eapply redrawn_words; [exact Hc|]. intros q. cbv beta. destruct (_ && _); apply Hw.
      * intros c'' Hc'. eapply redrawn_ext; [|exact (redrawn_trans _ _ _ _ _ Hc Hc')]. intros q. cbv beta.
        rewrite !(redrawn_vram _ _ _ _ Hc). repeat zcase; try done; do 2 f_equal; lia.
  - intros [] c' Hc. apply HQ. replace (d + 2 - 2 * n) with (d + 2 - 2 * (0 + Z.of_nat (Z.to_nat n))) by lia. exact Hc.
Qed.

(** ** Scrolling *)

(** The numbers of a well-formed console: the lines are of [w = 2 h] words, the
    screen starts at word [o], video memory at word [a]. *)
Lemma geometry c : con_ok c -> exists h o a,
  4 <= h /\ video_num_columns c = 2 * h /\ video_size_row c = 4 * h /\ origin c = 2 * o /\ video_mem_start c = 2 * a /\
  0 <= a <= o /\ video_mem_end c <= 0x100000 /\
  (forall y, 0 <= y <= video_num_lines c -> 0 <= y * h <= video_num_lines c * h) /\
  scr_end c = 2 * o + 4 * (video_num_lines c * h) /\ scr_end c <= video_mem_end c /\
  2 * a + 4 * (video_num_lines c * h) <= video_mem_end c /\
  pos c = 2 * (o + 2 * (con_y c * h) + con_x c) /\ 0 <= con_x c <= 2 * h.
Proof.
  intros [[Hc [h Hh]] Hr Hl (Ha & Hz & [a Ea]) (Ho & [o Eo]) Hf (He & Hs) Hx Hy Hp _ _ _ _].
  exists h, o, a. rewrite Hr, Hh, Eo, Ea in *. rewrite ?Hp, ?He.
  repeat split; try lia; try nia. 
Qed.

Lemma region_rows c h : con_ok c ->
  (forall y, 0 <= y <= video_num_lines c -> 0 <= y * h <= video_num_lines c * h) -> 0 < h ->
  0 <= top c * h /\ top c * h + h <= bottom c * h /\ bottom c * h <= video_num_lines c * h /\
  0 <= con_y c * h /\ con_y c * h + h <= video_num_lines c * h.
Proof.
  intros Hok Hy Hh. pose proof (ok_region c Hok). pose proof (ok_y c Hok).
  pose proof (Hy (top c)). pose proof (Hy (bottom c)). pose proof (Hy (con_y c)). nia.
Qed.

(** Where a word of the screen is, among the lines. *)
Lemma in_lines h y x t b : 0 < h -> 0 <= x < 2 * h ->
  (2 * (t * h) <= 2 * (y * h) + x < 2 * (b * h) <-> t <= y < b).
Proof. intros Hh Hx. nia. Qed.

Lemma half_double x : 0 <= x -> Z.shiftr (2 * x) 1 = x.
Proof. intros H. rewrite Z.shiftr_div_pow2 by lia. change (2 ^ 1) with 2. rewrite Z.mul_comm. by apply Z.div_mul. Qed.

(** The words of the lines from [top] to [bottom] moved up one line of [w] words. *)
Definition lines_up (c : console) (o w t b : Z) (q : Z) : Z :=
  if (o + t * w <=? q) && (q <? o + (b - 1) * w) then vram c (2 * (q + w))
  else if (o + (b - 1) * w <=? q) && (q <? o + b * w) then video_erase_char c
  else vram c (2 * q).
Definition lines_down (c : console) (o w t b : Z) (q : Z) : Z :=
  if (o + (t + 1) * w <=? q) && (q <? o + b * w) then vram c (2 * (q - w))
  else if (o + t * w <=? q) && (q <? o + (t + 1) * w) then video_erase_char c
  else vram c (2 * q).

Lemma scroll_region_up_ends c o h Q :
  con_ok c -> origin c = 2 * o -> video_num_columns c = 2 * h ->
  (forall c', redrawn c (lines_up c o (2 * h) (top c) (bottom c)) c' -> Q tt c') -> ends scroll_region_up c Q.
Proof.
  intros Hok Eo Eh HQ. destruct (geometry c Hok) as (h' & o' & a & Hh & Eh' & Er & Eo' & Ea & Hao & Hz & Hy & Ese & Hse & _).
  assert (h' = h) by lia. assert (o' = o) by lia. subst h' o'.
  pose proof (region_rows c h Hok Hy ltac:(lia)) as Hreg. pose proof (ok_region c Hok).
  unfold scroll_region_up. apply ends_bind, ends_get. cbv zeta. rewrite Eo, Eh, Er.
  replace ((bottom c - top c - 1) * (2 * h)) with (2 * ((bottom c - top c - 1) * h)) by lia.
  rewrite (u32_small (2 * ((bottom c - top c - 1) * h))) by lia. rewrite half_double by lia.
  rewrite u32_small by lia. rewrite u32_small by lia.
  replace (2 * o + 4 * h * top c) with (2 * (o + 2 * (top c * h))) by lia.
  replace (2 * o + 4 * h * (top c + 1)) with (2 * (o + 2 * (top c * h) + 2 * h)) by lia.
  apply ends_bind, move_up_ends; [apply ok_words, Hok|lia|lia|split; lia..|]. intros c1 Hc1.
  destruct (redrawn_range _ _ _ Hc1) as [E1 E2].
  replace (2 * (o + 2 * (top c * h)) + 4 * ((bottom c - top c - 1) * h))
    with (2 * (o + 2 * (bottom c * h) - 2 * h)) by lia.
  apply fill_up_ends; [lia|split; lia|]. intros c2 Hc2. apply HQ.
  eapply redrawn_ext; [|exact (redrawn_trans _ _ _ _ _ Hc1 Hc2)]. intros q. cbv beta.
  rewrite (redrawn_vram _ _ _ q Hc1), u16_small by apply Hok. unfold lines_up.
  clear - Hreg Hh. repeat zcase; try done; do 2 f_equal; lia.
Qed.

Lemma scrdown_ends c o h Q :
  con_ok c -> origin c = 2 * o -> video_num_columns c = 2 * h ->
  (forall c', redrawn c (lines_down c o (2 * h) (top c) (bottom c)) c' -> Q tt c') -> ends scrdown c Q.
Proof.
  intros Hok Eo Eh HQ. destruct (geometry c Hok) as (h' & o' & a & Hh & Eh' & Er & Eo' & Ea & Hao & Hz & Hy & Ese & Hse & _).
  assert (h' = h) by lia. assert (o' = o) by lia. subst h' o'.
  pose proof (region_rows c h Hok Hy ltac:(lia)) as Hreg. pose proof (ok_region c Hok).
  unfold scrdown. apply ends_bind, ends_get. cbv zeta. rewrite Eo, Eh, Er.
  replace ((bottom c - top c - 1) * (2 * h)) with (2 * ((bottom c - top c - 1) * h)) by lia.
  rewrite (u32_small (2 * ((bottom c - top c - 1) * h))) by lia. rewrite half_double by lia.
  rewrite u32_small by lia.
  replace (2 * o + 4 * h * bottom c - 4) with (2 * (o + 2 * (bottom c * h) - 2)) by lia.
  destruct (Z.eq_dec (bottom c) (top c + 1)) as [Eb|Nb].
  - replace ((bottom c - top c - 1) * h) with 0 in * by (rewrite Eb; lia). cbn [Z.to_nat zrange for_each move_down].
    apply ends_bind, ends_ret.
    replace (2 * (o + 2 * (bottom c * h) - 2) - 4 * 0 + 2) with (2 * (o + 2 * (bottom c * h) - 1)) by lia.
    apply fill_down_ends; [lia|split; lia|]. intros c2 Hc2. apply HQ.
    eapply redrawn_ext; [|exact Hc2]. intros q. cbv beta.
    rewrite u16_small by apply Hok. unfold lines_down.
    clear - Hreg Hh Eb. assert (bottom c * h = top c * h + h) by nia. repeat zcase; try done; do 2 f_equal; lia.
  - assert (top c * h + 2 * h <= bottom c * h) by nia.
    rewrite u32_small by lia.
    replace (2 * o + 4 * h * (bottom c - 1) - 4) with (2 * (o + 2 * (bottom c * h) - 2 * h - 2)) by lia.
    apply ends_bind, move_down_ends; [apply ok_words, Hok|lia|lia|split; lia..|]. intros c1 Hc1.
    destruct (redrawn_range _ _ _ Hc1) as [E1 E2].
    replace (2 * (o + 2 * (bottom c * h) - 2) - 4 * ((bottom c - top c - 1) * h) + 2)
      with (2 * (o + 2 * (top c * h) + 2 * h - 1)) by lia.
    apply fill_down_ends; [lia|split; lia|]. intros c2 Hc2. apply HQ.
    eapply redrawn_ext; [|exact (redrawn_trans _ _ _ _ _ Hc1 Hc2)]. intros q. cbv beta.
    rewrite (redrawn_vram _ _ _ q Hc1), u16_small by apply Hok. unfold lines_down.
    clear - Hreg Hh. repeat zcase; try done; do 2 f_equal; lia.
Qed.

Lemma redrawn_ok c c' g : con_ok c -> redrawn c g c' -> (forall q, 0 <= g q < 65536) -> con_ok c'.
Proof.
  intros Hok Hr Hg. pose proof (redrawn_words _ _ _ Hr Hg) as Hw. destruct Hr as (m & -> & _). destruct Hok. by constructor.
Qed.
Lemma lines_up_words c o w t b q : con_ok c -> 0 <= lines_up c o w t b q < 65536.
Proof. intros Hok. unfold lines_up. repeat case_match; try apply (ok_words c Hok); apply (ok_erase c Hok). Qed.
Lemma lines_down_words c o w t b q : con_ok c -> 0 <= lines_down c o w t b q < 65536.
Proof. intros Hok. unfold lines_down. repeat case_match; try apply (ok_words c Hok); apply (ok_erase c Hok). Qed.

Lemma con_outb_ends v p c (Q : unit -> console -> Prop) :
  Q tt (c <| con_out ::= fun l => l ++ [(u8 v, p)] |>) -> ends (con_outb v p) c Q.
Proof. apply ends_modify. Qed.

(** [c'] is [c] with another screen, as far as the cursor goes: the lines hold [f]. *)
Record shows (c c' : console) (f : Z -> Z -> Z) : Prop := mkShows {
  sh_ok : con_ok c';
  sh_size : video_num_lines c' = video_num_lines c /\ video_num_columns c' = video_num_columns c;
  sh_cursor : con_x c' = con_x c /\ con_y c' = con_y c;
  sh_region : top c' = top c /\ bottom c' = bottom c;
  sh_state : con_state c' = con_state c /\ attr c' = attr c /\ video_erase_char c' = video_erase_char c;
  sh_cell : forall y x, 0 <= y < video_num_lines c -> 0 <= x < video_num_columns c -> cell c' y x = f y x
}.

(** The screen with the lines of the region moved up, or down, by one. *)
Definition scrolled_up (c : console) (y x : Z) : Z :=
  if (top c <=? y) && (y <? bottom c - 1) then cell c (y + 1) x
  else if y =? bottom c - 1 then video_erase_char c else cell c y x.
Definition scrolled_down (c : console) (y x : Z) : Z :=
  if (top c <? y) && (y <? bottom c) then cell c (y - 1) x
  else if y =? top c then video_erase_char c else cell c y x.

Lemma cell_word c o h y x : origin c = 2 * o -> video_size_row c = 4 * h ->
  cell c y x = vram c (2 * (o + 2 * (y * h) + x)).
Proof. intros Eo Er. unfold cell. rewrite Eo, Er. f_equal. lia. Qed.

Lemma lines_up_cell c o h y x : origin c = 2 * o -> video_size_row c = 4 * h -> 0 < h -> 0 <= x < 2 * h ->
  lines_up c o (2 * h) (top c) (bottom c) (o + 2 * (y * h) + x) = scrolled_up c y x.
Proof.
  intros Eo Er Hh Hx. unfold lines_up, scrolled_up.
  rewrite !(cell_word c o h) by done.
  pose proof (in_lines h y x (top c) (bottom c - 1) Hh Hx) as H1.
  pose proof (in_lines h y x (bottom c - 1) (bottom c) Hh Hx) as H2.
  destruct (andb (top c <=? y) (y <? bottom c - 1)) eqn:E.
  - bprop. destruct H1 as [_ H1]. specialize (H1 (conj H H0)). clear H2.
    repeat zcase. do 2 f_equal. lia.
  - assert (~ (top c <= y < bottom c - 1)) as N.
    { intros [N1 N2]. apply Z.leb_le in N1. apply Z.ltb_lt in N2. by rewrite N1, N2 in E. }
    rewrite <-H1 in N. clear H1 E.
    destruct (Z.eqb_spec y (bottom c - 1)) as [E|E].
    + destruct H2 as [_ H2]. specialize (H2 ltac:(lia)). repeat zcase; done.
    + assert (~ (bottom c - 1 <= y < bottom c)) as N2 by lia. rewrite <-H2 in N2. clear H2. repeat zcase; done.
Qed.
Lemma lines_down_cell c o h y x : origin c = 2 * o -> video_size_row c = 4 * h -> 0 < h -> 0 <= x < 2 * h ->
  lines_down c o (2 * h) (top c) (bottom c) (o + 2 * (y * h) + x) = scrolled_down c y x.
Proof.
  intros Eo Er Hh Hx. unfold lines_down, scrolled_down.
  rewrite !(cell_word c o h) by done.
  pose proof (in_lines h y x (top c + 1) (bottom c) Hh Hx) as H1.
  pose proof (in_lines h y x (top c) (top c + 1) Hh Hx) as H2.
  destruct (andb (top c <? y) (y <? bottom c)) eqn:E.
  - bprop. destruct H1 as [_ H1]. specialize (H1 ltac:(lia)). clear H2.
    repeat zcase. do 2 f_equal. lia.
  - assert (~ (top c + 1 <= y < bottom c)) as N.
    { intros [N1 N2]. assert (top c < y) as N3 by lia. apply Z.ltb_lt in N3, N2. by rewrite N3, N2 in E. }
    rewrite <-H1 in N. clear H1 E.
    destruct (Z.eqb_spec y (top c)) as [E|E].
    + destruct H2 as [_ H2]. specialize (H2 ltac:(lia)). repeat zcase; done.
    + assert (~ (top c <= y < top c + 1)) as N2 by lia. rewrite <-H2 in N2. clear H2. repeat zcase; done.
Qed.

(** A redrawing that moves nothing but the words. *)
Lemma redrawn_shows c c' o h g f :
  con_ok c -> origin c = 2 * o -> video_num_columns c = 2 * h -> redrawn c g c' ->
  (forall q, 0 <= g q < 65536) ->
  (forall y x, 0 <= y < video_num_lines c -> 0 <= x < 2 * h -> g (o + 2 * (y * h) + x) = f y x) -> shows c c' f.
Proof.
  intros Hok Eo Eh Hr Hg Hf. pose proof (redrawn_ok _ _ _ Hok Hr Hg) as Hok'.
  pose proof (ok_row c Hok) as Er. rewrite Eh in Er.
  destruct Hr as (m & -> & Hm). constructor; try done.
  intros y x Hy Hx. rewrite <-Hf by (simpl in *; lia). rewrite <-Hm. unfold cell. simpl. f_equal. rewrite Eo, Er. lia.
Qed.

Lemma scrdown_shows c : con_ok c -> ends scrdown c (fun _ c' => shows c c' (scrolled_down c)).
Proof.
  intros Hok. destruct (geometry c Hok) as (h & o & a & Hh & Eh & Er & Eo & _).
  apply (scrdown_ends c o h); [done..|]. intros c' Hc'.
  eapply redrawn_shows; [done..|intros q; by apply lines_down_words|].
  intros y x Hy Hx. apply lines_down_cell; [done..|lia|done].
Qed.
Lemma scroll_region_up_shows c : con_ok c -> ends scroll_region_up c (fun _ c' => shows c c' (scrolled_up c)).
Proof.
  intros Hok. destruct (geometry c Hok) as (h & o & a & Hh & Eh & Er & Eo & _).
  apply (scroll_region_up_ends c o h); [done..|]. intros c' Hc'.
  eapply redrawn_shows; [done..|intros q; by apply lines_up_words|].
  intros y x Hy Hx. apply lines_up_cell; [done..|lia|done].
Qed.

(** ** The hardware scroll of the EGA *)

Lemma set_origin_ends c Q : (forall l, Q tt (c <| con_out := l |>)) -> ends set_origin c Q.
Proof.
  intros HQ. apply ends_bind, ends_get. apply ends_bind, con_outb_ends. apply ends_bind, con_outb_ends.
  apply ends_bind, con_outb_ends. apply con_outb_ends. exact (HQ (((con_out c ++ _) ++ _) ++ _ ++ _)%list) || apply HQ.
Qed.

(** [c] with its screen at [o'], the cursor in the same place, and other words. *)
Definition moved (c : console) (o' : Z) (m : Z -> Z) (l : list (Z * Z)) : console :=
  c <| origin := 2 * o' |> <| pos := 2 * o' + con_y c * video_size_row c + 2 * con_x c |>
    <| scr_end := 2 * o' + video_num_lines c * video_size_row c |> <| vram := m |> <| con_out := l |>.

Lemma moved_shows c o' m l f :
  con_ok c -> video_mem_start c <= 2 * o' -> 2 * o' + video_num_lines c * video_size_row c <= video_mem_end c ->
  (forall q, 0 <= m (2 * q) < 65536) ->
  (forall h y x, video_num_columns c = 2 * h -> 0 <= y < video_num_lines c -> 0 <= x < 2 * h ->
     m (2 * (o' + 2 * (y * h) + x)) = f y x) ->
  shows c (moved c o' m l) f.
Proof.
  intros Hok H1 H2 Hm Hf. constructor; try done.
  - destruct Hok. constructor; simpl; try done. split; [done|]. by exists o'; lia.
  - intros y x Hy Hx. destruct (ok_columns c Hok) as [_ [h Hh]].
    rewrite <-(Hf h) by lia. change (m (2 * o' + y * video_size_row c + 2 * x) = m (2 * (o' + 2 * (y * h) + x))).
    f_equal. rewrite (ok_row c Hok), Hh. lia.
Qed.

Lemma scrup_shows c : con_ok c -> ends scrup c (fun _ c' => shows c c' (scrolled_up c)).
Proof.
  intros Hok. unfold scrup. apply ends_bind, ends_get. apply ends_if; intros _; [|by apply scroll_region_up_shows].
  apply ends_if; intros Ht; [|by apply scroll_region_up_shows]. bprop.
  destruct (geometry c Hok) as (h & o & a & Hh & Eh & Er & Eo & Ea & Hao & Hz & Hy & Ese & Hse & Hfit & Epos & Hx).
  pose proof (ok_lines c Hok). pose proof (ok_y c Hok). assert (0 < h) as Hh0 by lia.
  pose proof (Hy (video_num_lines c - 1) ltac:(lia)) as HL. pose proof (Hy (con_y c) ltac:(lia)) as HY.
  assert (con_y c * h + h <= video_num_lines c * h) as HYL by nia.
  assert (origin c + video_size_row c = 2 * (o + 2 * h)) as Eo1 by lia.
  assert (scr_end c + video_size_row c = 2 * (o + 2 * h) + video_num_lines c * video_size_row c) as Ee1 by (rewrite Er; lia).
  assert (pos c + video_size_row c = 2 * (o + 2 * h) + con_y c * video_size_row c + 2 * con_x c) as Ep1 by (rewrite Er; lia).
  apply ends_bind, ends_modify, ends_bind, ends_modify, ends_bind, ends_modify, ends_bind, ends_get. simpl.
  rewrite !u32_small by lia. rewrite Eo1, Ee1, Ep1.
  apply ends_bind, ends_if; intros Hc; bprop.
  - replace (move_up (video_mem_start c)) with (move_up (2 * a)) by (by rewrite Ea).
    replace ((video_num_lines c - 1) * video_num_columns c) with (2 * ((video_num_lines c - 1) * h)) by (rewrite Eh; lia).
    rewrite half_double by lia.
    assert ((video_num_lines c - 1) * h = video_num_lines c * h - h) as En by lia. rewrite En in *.
    apply ends_bind, move_up_ends; [apply (ok_words c Hok)|lia|lia|split; simpl; lia|split; simpl; lia|].
    intros c1 (m1 & -> & Hm1). simpl.
    replace (video_mem_start c + 4 * (video_num_lines c * h - h)) with (2 * (a + 2 * (video_num_lines c * h - h))) by lia.
    apply ends_bind, fill_up_ends; [lia|split; simpl; lia|].
    intros c2 (m2 & -> & Hm2). simpl in *.
    apply ends_bind, ends_modify, ends_bind, ends_modify, ends_modify. simpl.
    apply set_origin_ends. intros l.
    rewrite !u32_small by lia.
    replace (2 * (o + 2 * h) + video_num_lines c * video_size_row c - (2 * (o + 2 * h) - video_mem_start c))
      with (2 * a + video_num_lines c * video_size_row c) by lia.
    replace (2 * (o + 2 * h) + con_y c * video_size_row c + 2 * con_x c - (2 * (o + 2 * h) - video_mem_start c))
      with (2 * a + con_y c * video_size_row c + 2 * con_x c) by lia.
    assert (shows c (moved c a m2 l) (scrolled_up c)) as Hs;
      [|unfold moved in Hs; simpl in Hs; rewrite Ea in *; exact Hs].
    apply moved_shows; [done|lia|rewrite Er; lia|..].
    + intros q. rewrite Hm2. rewrite Hm1. repeat case_match; try apply (ok_words c Hok). apply u16_range.
    + intros h' y x Eh' Hy' Hx'. assert (h' = h) by lia. subst h'. rewrite Hm2, Hm1, u16_small by apply (ok_erase c Hok).
      unfold scrolled_up. rewrite !(cell_word c o h) by done.
      pose proof (in_lines h y x 0 (video_num_lines c - 1) Hh0 Hx') as K1.
      pose proof (in_lines h y x (video_num_lines c - 1) (video_num_lines c) Hh0 Hx') as K2.
      clear - K1 K2 Hy' Hx' En Eh H H0 H1. repeat zcase; try done. all: do 2 f_equal; lia.
  - replace (2 * (o + 2 * h) + video_num_lines c * video_size_row c - video_size_row c)
      with (2 * (o + 2 * (video_num_lines c * h))) by (rewrite Er; lia).
    apply fill_up_ends; [lia|split; simpl; lia|].
    intros c2 (m2 & -> & Hm2). simpl in *.
    apply set_origin_ends. intros l.
    apply (moved_shows c (o + 2 * h) m2 l); [done|lia|lia|..].
    + intros q. rewrite Hm2. case_match; [apply u16_range|]. apply (ok_words c Hok).
    + intros h' y x Eh' Hy' Hx'. assert (h' = h) by lia. subst h'. rewrite Hm2, u16_small by apply (ok_erase c Hok).
      unfold scrolled_up. rewrite !(cell_word c o h) by done.
      pose proof (in_lines h y x (video_num_lines c - 1) (video_num_lines c) Hh0 Hx') as K2.
      clear - K2 Hy' Hx' Eh H H0 H1. repeat zcase; try done. all: do 2 f_equal; lia.
Qed.

(** ** Every character keeps the console well-formed *)

Lemma con_bounds c : con_ok c ->
  0 <= origin c <= pos c /\ pos c <= scr_end c <= video_mem_end c /\ video_mem_end c <= 0x100000 /\
  0 <= con_y c * video_size_row c /\ con_y c * video_size_row c + video_size_row c <= video_num_lines c * video_size_row c /\
  (2 | pos c).
Proof.
  intros Hok. destruct (geometry c Hok) as (h & o & a & Hh & Eh & Er & Eo & Ea & Hao & Hz & Hy & Ese & Hse & Hfit & Epos & Hx).
  pose proof (ok_y c Hok). pose proof (Hy (con_y c) ltac:(lia)) as HY.
  assert (con_y c * h + h <= video_num_lines c * h) by nia. rewrite Er. repeat split; try lia. rewrite Epos. exists (o + 2 * (con_y c * h) + con_x c). lia.
Qed.

Lemma redraw_ok c m : con_ok c -> (forall q, 0 <= m (2 * q) < 65536) -> con_ok (c <| vram := m |>).
Proof. intros [] Hm. by constructor. Qed.

Lemma vput_ok a v c (Q : unit -> console -> Prop) :
  con_ok c -> (2 | a) -> video_mem_start c <= a -> a + 2 <= video_mem_end c ->
  (forall m, con_ok (c <| vram := m |>) -> Q tt (c <| vram := m |>)) -> ends (vput a v) c Q.
Proof.
  intros Hok [d ->] H1 H2 HQ. replace (d * 2) with (2 * d) in * by lia. apply vput_ends; [lia..|].
  intros c' (m & -> & Hm). apply HQ. apply redraw_ok; [done|]. intros q. rewrite Hm.
  case_match; [apply u16_range|apply (ok_words c Hok)].
Qed.
Lemma vget_ok a c (Q : Z -> console -> Prop) :
  con_ok c -> (2 | a) -> video_mem_start c <= a -> a + 2 <= video_mem_end c -> (forall v, Q v c) -> ends (vget a) c Q.
Proof.
  intros Hok [d ->] H1 H2 HQ. replace (d * 2) with (2 * d) in * by lia. apply vget_ends; [lia..|]. apply HQ.
Qed.
Lemma fill_up_ok a n v c (Q : unit -> console -> Prop) :
  con_ok c -> (2 | a) -> video_mem_start c <= a -> a + 2 * n <= video_mem_end c -> 0 <= n ->
  (forall m, con_ok (c <| vram := m |>) -> Q tt (c <| vram := m |>)) -> ends (fill_up a n v) c Q.
Proof.
  intros Hok [d ->] H1 H2 Hn HQ. replace (d * 2) with (2 * d) in * by lia. apply fill_up_ends; [lia|split; lia|].
  intros c' (m & -> & Hm). apply HQ. apply redraw_ok; [done|]. intros q. rewrite Hm.
  case_match; [apply u16_range|apply (ok_words c Hok)].
Qed.

(** An assignment that keeps the console well-formed: unfold it on the fields. *)
Ltac con_fields Hok :=
  let H := fresh in pose proof (con_bounds _ Hok) as H; pose proof (ok_columns _ Hok) as [? _];
  pose proof (ok_origin _ Hok) as [? _]; pose proof (ok_row _ Hok) as ?;
  destruct H as (? & ? & ? & ? & ? & ?); destruct Hok; constructor; simpl; rewrite ?u32_small; try done; lia.

(** Operations that keep the console well-formed. *)
Abbreviation con_keeps m := (forall c, con_ok c -> ends m c (fun _ => con_ok)).

Lemma gotoxy_ok x y : 0 <= x -> 0 <= y -> con_keeps (gotoxy x y).
Proof.
  intros Hx Hy c Hok. apply ends_bind, ends_get. apply ends_if; intros H; [by apply ends_ret|]. bprop. apply ends_modify.
  assert (y * video_size_row c + video_size_row c <= video_num_lines c * video_size_row c) by (pose proof (ok_row c Hok);
    pose proof (ok_columns c Hok) as [? _]; nia).
  assert (0 <= y * video_size_row c) by (pose proof (ok_row c Hok); pose proof (ok_columns c Hok) as [? _]; nia).
  pose proof (ok_scr_end c Hok). con_fields Hok.
Qed.

Lemma scrup_ok : con_keeps scrup.
Proof. intros c Hok. eapply ends_mono; [by apply scrup_shows|]. by intros _ c' []. Qed.
Lemma scrdown_ok : con_keeps scrdown.
Proof. intros c Hok. eapply ends_mono; [by apply scrdown_shows|]. by intros _ c' []. Qed.
Lemma lf_moves c : con_ok c ->
  ends lf c (fun _ c' => con_ok c' /\ con_x c' = con_x c /\ video_num_columns c' = video_num_columns c).
Proof.
  intros Hok. apply ends_bind, ends_get. apply ends_if; intros H.
  - bprop. pose proof (ok_region c Hok). pose proof (ok_scr_end c Hok).
    assert ((con_y c + 1) * video_size_row c + video_size_row c <= video_num_lines c * video_size_row c)
      by (pose proof (ok_row c Hok); pose proof (ok_columns c Hok) as [? _]; nia).
    apply ends_bind, ends_modify, ends_modify. split; [con_fields Hok|done].
  - eapply ends_mono; [by apply scrup_shows|]. intros _ c' [? [_ E] [E' _] _ _ _]. by rewrite E, E'.
Qed.
Lemma lf_ok : con_keeps lf.
Proof. intros c Hok. eapply ends_mono; [by apply lf_moves|]. by intros _ c' [? _]. Qed.
Lemma ri_ok : con_keeps ri.
Proof.
  intros c Hok. apply ends_bind, ends_get. apply ends_if; intros H; [|by apply scrdown_ok]. bprop.
  pose proof (ok_region c Hok). pose proof (ok_scr_end c Hok). pose proof (ok_pos c Hok). pose proof (ok_x c Hok).
  assert (video_size_row c <= con_y c * video_size_row c) by (pose proof (ok_row c Hok);
    pose proof (ok_columns c Hok) as [? _]; nia).
  apply ends_bind, ends_modify, ends_modify. con_fields Hok.
Qed.
Lemma cr_ok : con_keeps cr.
Proof.
  intros c Hok. pose proof (ok_pos c Hok). apply ends_bind, ends_modify, ends_modify. pose proof (ok_x c Hok). con_fields Hok.
Qed.

Lemma del_ok : con_keeps del.
Proof.
  intros c Hok. apply ends_bind, ends_get, ends_when; intros H; bprop; [|done].
  pose proof (ok_pos c Hok). pose proof (ok_x c Hok). destruct (con_bounds c Hok) as (? & ? & ? & ? & ? & [p Hp]).
  apply ends_bind, ends_modify, ends_bind, ends_modify, ends_bind, ends_get. simpl.
  match goal with |- ends _ ?c' _ => assert (con_ok c') as Hok' by con_fields Hok end.
  pose proof (ok_origin c Hok) as [? _]. rewrite u32_small in * by lia.
  apply vput_ok; [done|exists (p - 1); lia|simpl; lia..|]. done.
Qed.

Lemma csi_J_ok p : con_keeps (csi_J p).
Proof.
  intros c Hok. apply ends_bind, ends_get. destruct (con_bounds c Hok) as (? & ? & ? & ? & ? & Hp).
  destruct (geometry c Hok) as (h & o & a & Hh & Eh & Er & Eo & Ea & Hao & Hz & Hy & Ese & Hse & Hfit & Epos & Hx).
  pose proof (ok_lines c Hok). pose proof (Hy (video_num_lines c) ltac:(lia)).
  repeat (apply ends_if; intros _; [|]); [..|by apply ends_ret].
  - rewrite u32_small by lia. rewrite Ese, Epos.
    replace (2 * o + 4 * (video_num_lines c * h) - 2 * (o + 2 * (con_y c * h) + con_x c))
      with (2 * (2 * (video_num_lines c * h) - 2 * (con_y c * h) - con_x c)) by lia.
    rewrite half_double by lia. apply fill_up_ok; [done|rewrite <-Epos; done|lia..|done].
  - rewrite u32_small by lia. rewrite Eo, Epos.
    replace (2 * (o + 2 * (con_y c * h) + con_x c) - 2 * o) with (2 * (2 * (con_y c * h) + con_x c)) by lia.
    rewrite half_double by lia. apply fill_up_ok; [done|by exists o; lia|lia..|done].
  - rewrite Eh. replace (2 * h * video_num_lines c) with (2 * (video_num_lines c * h)) by lia.
    apply fill_up_ok; [done|rewrite Eo; by exists o; lia|lia..|done].
Qed.

Lemma csi_K_ok p : con_keeps (csi_K p).
Proof.
  intros c Hok. apply ends_bind, ends_get. destruct (con_bounds c Hok) as (? & ? & ? & ? & ? & [q Hq]).
  pose proof (ok_pos c Hok). pose proof (ok_x c Hok). pose proof (ok_row c Hok). pose proof (ok_origin c Hok) as [? _].
  pose proof (ok_scr_end c Hok) as [? _].
  repeat (apply ends_if; intros ?; bprop; [|]); [..|by apply ends_ret].
  - by apply ends_ret.
  - apply fill_up_ok; [done|by exists q|lia..|done].
  - rewrite u32_small by lia. apply fill_up_ok; [done|exists (q - con_x c); lia|lia|zcase; lia|zcase; lia|done].
  - rewrite u32_small by lia. apply fill_up_ok; [done|exists (q - con_x c); lia|lia..|done].
Qed.

Lemma ends_each {X} (l : list X) (f : X -> C unit) :
  (forall x, con_keeps (f x)) -> con_keeps (for_each l f).
Proof.
  intros Hf. induction l as [|x l IH]; intros c Hok; cbn [for_each]; [by apply ends_ret|].
  apply ends_bind. eapply ends_mono; [by apply Hf|]. intros ? c'. apply IH.
Qed.

Lemma csi_m_ok : con_keeps csi_m.
Proof.
  intros c Hok. apply ends_bind, ends_get. pose proof (ok_npar c Hok) as Hn.
  eapply ends_mono; [apply (ends_for (fun _ c' => con_ok c')); [done|]|done].
  intros i c' Hi Hok'. destruct (ok_par c' Hok') as [Hl Hf].
  destruct (arr_get_is_Some (par c') i ltac:(rewrite Hl; lia)) as [p Hp].
  apply ends_bind. eapply ends_deref; [exact Hp|]. cbv zeta.
  repeat (apply ends_if; intros _); [apply ends_modify..|by apply ends_ret]; destruct Hok'; by constructor.
Qed.

(** The cells from the cursor to the end of its line. *)
Lemma rest_of_line c i : con_ok c -> 0 <= i < video_num_columns c - con_x c ->
  (2 | pos c + 2 * i) /\ video_mem_start c <= pos c + 2 * i /\ pos c + 2 * i + 2 <= video_mem_end c.
Proof.
  intros Hok Hi. destruct (con_bounds c Hok) as (? & ? & ? & ? & ? & [q Hq]).
  pose proof (ok_pos c Hok). pose proof (ok_x c Hok). pose proof (ok_row c Hok). pose proof (ok_origin c Hok) as [? _].
  pose proof (ok_scr_end c Hok) as [? _]. split; [exists (q + i); lia|lia].
Qed.

Definition same_place (c c' : console) : Prop := con_ok c' /\ exists m, c' = c <| vram := m |>.
Lemma vput_same c c' a v :
  same_place c c' -> (2 | a) -> video_mem_start c <= a -> a + 2 <= video_mem_end c ->
  ends (vput a v) c' (fun _ => same_place c).
Proof. intros [Hok [m ->]] Ha H1 H2. apply vput_ok; [done..|]. intros m' Hok'. split; [done|]. by exists m'. Qed.
Lemma vget_same c c' a : same_place c c' -> (2 | a) -> video_mem_start c <= a -> a + 2 <= video_mem_end c ->
  ends (vget a) c' (fun _ => same_place c).
Proof. intros [Hok [m ->]] Ha H1 H2. apply vget_ok; [done..|]. intros _. split; [done|]. by exists m. Qed.
Lemma same_place_refl c : con_ok c -> same_place c c.
Proof. intros H. split; [done|]. exists (vram c). by destruct c. Qed.

Lemma insert_char_ok : con_keeps insert_char.
Proof.
  intros c Hok. apply ends_bind, ends_get, ends_bind. eapply ends_mono.
  - apply (ends_for_fold (fun _ _ => same_place c)); [by apply same_place_refl|]. intros old i c' Hi Hc'.
    destruct (rest_of_line c i Hok ltac:(lia)) as (? & ? & ?).
    apply ends_bind. eapply ends_mono; [by apply (vget_same c)|]. intros tmp c1 Hc1.
    apply ends_bind. eapply ends_mono; [by apply (vput_same c)|]. intros ? c2 Hc2. by apply ends_ret.
  - intros a c' [Hok' _]. by apply ends_ret.
Qed.

Lemma delete_char_ok : con_keeps delete_char.
Proof.
  intros c Hok. apply ends_bind, ends_get, ends_if; intros H; [by apply ends_ret|]. bprop. apply ends_bind. eapply ends_mono.
  - apply (ends_for (fun _ => same_place c)); [by apply same_place_refl|]. intros i c' Hi Hc'.
    destruct (rest_of_line c i Hok ltac:(lia)) as (? & ? & ?).
    destruct (rest_of_line c (i + 1) Hok ltac:(lia)) as (? & ? & ?).
    apply ends_bind. eapply ends_mono; [by apply (vget_same c)|]. intros tmp c1 Hc1. by apply (vput_same c).
  - intros [] c' Hc'. destruct (rest_of_line c (video_num_columns c - con_x c - 1) Hok ltac:(lia)) as (? & ? & ?).
    eapply ends_mono; [by apply (vput_same c)|]. by intros ? c2 [? _].
Qed.

Lemma from_cursor_ok scroll :
  (forall c, con_ok c -> exists f, ends scroll c (fun _ c' => shows c c' (f c))) -> con_keeps (from_cursor scroll).
Proof.
  intros Hs c Hok. apply ends_bind, ends_get, ends_bind, ends_modify, ends_bind, ends_modify.
  pose proof (ok_y c Hok).
  match goal with |- ends _ ?c1 _ => assert (con_ok c1) as Hok1 by con_fields Hok end.
  destruct (Hs _ Hok1) as [f Hf]. apply ends_bind. eapply ends_mono; [exact Hf|]. intros ? c2 [Hok2 [E1 E2] _ _ _ _].
  simpl in E1, E2. pose proof (ok_region c Hok). apply ends_bind, ends_modify, ends_modify.
  destruct Hok2. constructor; simpl; try done. rewrite E1. done.
Qed.
Lemma insert_line_ok : con_keeps insert_line.
Proof. apply from_cursor_ok. intros c Hok. exists scrolled_down. by apply scrdown_shows. Qed.
Lemma delete_line_ok : con_keeps delete_line.
Proof. apply from_cursor_ok. intros c Hok. exists scrolled_up. by apply scrup_shows. Qed.

Lemma repeated_ok limit nr op : con_keeps op -> con_keeps (repeated limit nr op).
Proof. intros Hop. by apply ends_each. Qed.

Lemma par_at_range c i : con_ok c -> 0 <= par_at c i < 4294967296.
Proof.
  intros Hok. unfold par_at. destruct (arr_get (par c) i) as [p|] eqn:E; simpl; [|lia].
  unfold arr_get in E. destruct (i <? 0); [done|]. destruct (ok_par c Hok) as [_ Hf].
  exact (proj1 (Forall_lookup _ _) Hf _ _ E).
Qed.

Lemma par_upd_ok i f : 0 <= i < 16 -> con_keeps (par_upd i f).
Proof.
  intros Hi c Hok. destruct (ok_par c Hok) as [Hl Hf].
  destruct (arr_get_is_Some (par c) i ltac:(rewrite Hl; lia)) as [p Hp].
  apply ends_bind. eapply ends_deref; [exact Hp|]. apply ends_modify.
  destruct Hok. constructor; simpl; try done. split; [by rewrite arr_set_length|].
  unfold arr_set. zcase. apply Forall_insert; [done|]. apply u32_range.
Qed.
Lemma from_one_ok i : 0 <= i < 16 -> con_keeps (from_one i).
Proof. intros Hi c Hok. apply ends_bind, ends_get, ends_when; [|done]. intros _. by apply par_upd_ok. Qed.
Lemma at_least_one_ok : con_keeps at_least_one.
Proof. intros c Hok. apply ends_bind, ends_get, ends_when; [|done]. intros _. by apply par_upd_ok. Qed.
Lemma set_state_ok n : con_keeps (set_state n).
Proof. intros c Hok. apply ends_modify. destruct Hok. by constructor. Qed.
Lemma save_cur_ok : con_keeps save_cur.
Proof. intros c Hok. apply ends_modify. destruct Hok. by constructor. Qed.
Lemma restore_cur_ok : con_keeps restore_cur.
Proof. intros c Hok. apply ends_bind, ends_get. apply gotoxy_ok; [apply u32_range..|done]. Qed.

(** One operation after another, or after a look at the state. *)
Lemma con_then {A B} (m : C A) (k : A -> C B) c :
  ends m c (fun _ => con_ok) -> (forall a, con_keeps (k a)) -> ends (bind m k) c (fun _ => con_ok).
Proof. intros Hm Hk. apply ends_bind. eapply ends_mono; [exact Hm|]. intros a c'. apply Hk. Qed.
Lemma con_look {B} (k : console -> C B) c :
  ends (k c) c (fun _ => con_ok) -> ends (bind get k) c (fun _ => con_ok).
Proof. intros H. by apply ends_bind, ends_get. Qed.

Create HintDb screen discriminated.
#[local] Hint Constants Opaque : screen.
#[local] Hint Resolve scrup_ok scrdown_ok lf_ok ri_ok cr_ok del_ok csi_J_ok csi_K_ok csi_m_ok
  insert_char_ok delete_char_ok insert_line_ok delete_line_ok at_least_one_ok set_state_ok save_cur_ok restore_cur_ok : screen.

Ltac con_step :=
  cbv beta zeta;
  lazymatch goal with
  | |- ends (bind get _) _ _ => apply con_look
  | |- ends (bind (modify _) _) _ _ => fail
  | |- ends (bind _ _) _ _ => apply con_then; [|intros ? ? ?]
  | |- ends (if _ then _ else _) _ _ => apply ends_if; intros ?
  | |- ends (ret _) _ _ => by apply ends_ret
  | |- ends (gotoxy _ _) _ _ => apply gotoxy_ok; [| |assumption];
      first [apply u32_range | lia | by apply par_at_range | by apply ok_x | by apply ok_y]
  | |- ends (from_one _) _ _ => apply from_one_ok; [lia|assumption]
  | |- ends (repeated _ _ _) _ _ => apply repeated_ok; [|assumption]; solve [eauto with screen nocore]
  | |- ends _ _ _ => solve [eauto with screen nocore]
  end.
Ltac con_safe := repeat con_step.

Lemma csi_r_ok c : con_ok c ->
  ends (when ((par_at c 0 <? par_at c 1) && (par_at c 1 <=? video_num_lines c))
    (modify (fun d => d <| top := par_at c 0 |> <| bottom := par_at c 1 |>))) c (fun _ => con_ok).
Proof.
  intros Hok. apply ends_when; [|done]. intros H. bprop. apply ends_modify. pose proof (par_at_range c 0 Hok).
  destruct Hok. constructor; simpl; try done. lia.
Qed.

Lemma csi_command_ok k : con_keeps (csi_command k).
Proof.
  intros c Hok. unfold csi_command, csi_L, csi_M, csi_P, csi_at. con_safe.
  - apply ends_when; [|done]. intros _. apply par_upd_ok; [lia|done].
  - by apply csi_r_ok.
Qed.
#[local] Hint Resolve csi_command_ok : screen.

Lemma csi_parameters_ok k : con_keeps (csi_parameters k).
Proof.
  intros c Hok. unfold csi_parameters. pose proof (ok_npar c Hok). con_safe.
  - apply ends_modify. bprop. destruct Hok. constructor; simpl; try done. unfold NPAR in *. lia.
  - by apply par_upd_ok.
Qed.
#[local] Hint Resolve csi_parameters_ok : screen.

Lemma con_escape_ok k : con_keeps (con_escape k).
Proof. intros c Hok. unfold con_escape. con_safe. Qed.

Lemma con_bracket_ok k : con_keeps (con_bracket k).
Proof.
  intros c Hok. unfold con_bracket. apply ends_bind, ends_modify, ends_bind, ends_modify.
  match goal with |- ends _ ?c1 _ => assert (con_ok c1) as Hok1 end.
  { destruct Hok. constructor; simpl; try done. split; [done|]. repeat (apply Forall_cons; split; [done|]). by apply Forall_nil. }
  con_safe. apply ends_bind, ends_modify.
  match goal with Hc : con_ok ?c |- ends _ ?c1 _ => assert (con_ok c1) as Hok2 by (destruct Hc; by constructor) end.
  con_safe. apply ends_when; [|done]. intros _. by apply csi_parameters_ok.
Qed.

(** The cursor past the end of its line goes on on the next one. *)
Lemma wrap_ok c x : con_ok c -> video_num_columns c <= x <= 2 * video_num_columns c ->
  ends (modify (fun c => c <| con_x ::= fun x => u32 (x - video_num_columns c) |>) ;;;
    modify (fun c => c <| pos ::= fun a => u32 (a - video_size_row c) |>) ;;; lf)
    (c <| con_x := x |> <| pos := pos c + 2 * (x - con_x c) |>)
    (fun _ c' => con_ok c' /\ con_x c' = x - video_num_columns c /\ video_num_columns c' = video_num_columns c).
Proof.
  intros Hok Hx. apply ends_bind, ends_modify, ends_bind, ends_modify. simpl.
  pose proof (ok_pos c Hok). pose proof (ok_x c Hok). pose proof (ok_scr_end c Hok). pose proof (ok_row c Hok).
  destruct (con_bounds c Hok) as (? & ? & ? & ? & ? & [q Hq]). pose proof (ok_columns c Hok) as [? _].
  match goal with |- ends lf ?c1 _ => assert (con_ok c1) as Hok1 by con_fields Hok end.
  eapply ends_mono; [exact (lf_moves _ Hok1)|]. intros _ c' (? & E & E'). simpl in E, E'. rewrite u32_small in E by lia. auto.
Qed.

Lemma con_print_ok k c : con_ok c -> con_x c < video_num_columns c ->
  ends (vput (pos c) (256 * attr c + u8 k) ;;;
    modify (fun c => c <| pos ::= fun a => u32 (a + 2) |>) ;;;
    modify (fun c => c <| con_x ::= fun x => u32 (x + 1) |>) ;;; ret Nothing) c (fun _ => con_ok).
Proof.
  intros Hok Hx. destruct (rest_of_line c 0 Hok) as (? & ? & ?); [pose proof (ok_x c Hok); lia|].
  replace (pos c + 2 * 0) with (pos c) in * by lia. apply ends_bind, vput_ok; [done..|]. intros m Hm.
  apply ends_bind, ends_modify, ends_bind, ends_modify, ends_ret.
  change (con_ok (c <| pos := u32 (pos c + 2) |> <| con_x := u32 (con_x c + 1) |> <| vram := m |>)).
  apply redraw_ok; [|apply (ok_words _ Hm)]. pose proof (ok_pos c Hok). con_fields Hok.
Qed.

Lemma con_plain_ok erase k : con_keeps (con_plain erase k).
Proof.
  intros c Hok. unfold con_plain. apply con_look. cbv zeta.
  destruct (con_bounds c Hok) as (? & ? & ? & ? & ? & [q Hq]).
  pose proof (ok_pos c Hok). pose proof (ok_x c Hok). pose proof (ok_row c Hok). pose proof (ok_origin c Hok) as [? _].
  pose proof (ok_columns c Hok) as [? _].
  apply ends_if; intros Hk.
  - apply ends_bind, ends_when; intros Hx; bprop.
    + replace c with (c <| con_x := con_x c |> <| pos := pos c + 2 * (con_x c - con_x c) |>) at 1
        by (destruct c; unfold upd; simpl; f_equal; lia).
      eapply ends_mono; [apply wrap_ok; [done|lia]|]. intros [] c1 (Hok1 & E1 & E2).
      apply con_look, con_print_ok; [done|lia].
    + apply con_look, con_print_ok; [done|lia].
  - con_safe.
    + apply ends_when; [|done]. intros Hx. bprop. apply ends_bind, ends_modify, ends_modify. con_fields Hok.
    + pose proof (Z.land_ones (con_x c) 3 ltac:(lia)) as El. change (Z.ones 3) with 7 in El. change (2 ^ 3) with 8 in El.
      pose proof (Z.mod_pos_bound (con_x c) 8 ltac:(lia)). rewrite El.
      apply ends_bind, ends_modify, ends_bind, ends_modify, ends_bind, ends_get. simpl.
      apply ends_bind, ends_when; intros Hx; bprop.
      * rewrite !u32_small in * by lia.
        match goal with |- ends _ ?c1 _ => replace c1 with
          (c <| con_x := con_x c + (8 - con_x c mod 8) |> <| pos := pos c + 2 * (con_x c + (8 - con_x c mod 8) - con_x c) |>)
          by (unfold upd; simpl; f_equal; lia) end.
        eapply ends_mono; [apply wrap_ok; [done|lia]|]. intros [] c1 (Hok1 & _ & _). by apply ends_ret.
      * apply ends_ret. rewrite u32_small in Hx by lia. con_fields Hok.
Qed.

Lemma con_char_ok erase k : con_keeps (con_char erase k).
Proof.
  intros c Hok. unfold con_char. con_safe; [by apply con_plain_ok|by apply con_escape_ok|by apply con_bracket_ok].
Qed.

Lemma con_ok_out c l : con_ok c -> con_ok (c <| con_out := l |>).
Proof. by intros []. Qed.

(** Characters written one after another; what they ask the terminal for is left to
    it. *)
Definition con_chars (erase : Z) (l : list Z) : C unit := for_each l (fun k => let! _ := con_char erase k in ret tt).

Lemma con_chars_ok erase l : con_keeps (con_chars erase l).
Proof.
  apply ends_each. intros k c Hok. apply con_then; [by apply con_char_ok|]. intros a c' Hok'. by apply ends_ret.
Qed.

(** ** con_init *)

Lemma vput_char_ends c q k (Q : unit -> console -> Prop) :
  video_mem_start c <= 2 * q -> 2 * q + 2 <= video_mem_end c -> words c ->
  (forall m, (forall q, 0 <= m (2 * q) < 65536) -> Q tt (c <| vram := m |>)) -> ends (vput_char (2 * q) k) c Q.
Proof.
  intros H1 H2 Hw HQ. apply ends_bind, vget_ends; [done..|]. apply vput_ends; [done..|].
  intros c' (m & -> & Hm). apply HQ. intros p. rewrite Hm. case_match; [apply u16_range|apply Hw].
Qed.

(** A BIOS text mode of [cols] columns and 25 lines, the cursor on its screen. *)
Definition text_mode (o : setup) : Prop :=
  (8 <= ORIG_VIDEO_COLS o <= 160 /\ (2 | ORIG_VIDEO_COLS o)) /\
  0 <= ORIG_X o <= ORIG_VIDEO_COLS o /\ 0 <= ORIG_Y o < ORIG_VIDEO_LINES.

(** The variables of the file before [con_init] as far as it leaves them alone. *)
Definition con_fresh (c : console) : Prop :=
  length (par c) = 16%nat /\ Forall (fun p => 0 <= p < 4294967296) (par c) /\ 0 <= npar c < 16 /\ words c.

Lemma con_init_ok o c : text_mode o -> con_fresh c -> ends (con_init o) c (fun _ => con_ok).
Proof.
  intros ([Hc [h Hh]] & Hx & Hy) (Hp & Hpf & Hn & Hw). unfold con_init. unfold ORIG_VIDEO_LINES in *.
  assert (exists t a z r v d, card o = ((t, a, z, r, v), d) /\ 0 < a /\ z <= 0x100000 /\ a + 8192 <= z /\ a = 2 * (a / 2))
    as (t & a & z & r & v & d & -> & Hs & Hz & Hsz & Es).
  { unfold card. repeat case_match; do 6 eexists; repeat split; done. }
  remember (a / 2) as s eqn:Eq. clear Eq. subst a.
  apply ends_bind, ends_modify, ends_bind, ends_get, ends_bind. cbv beta.
  match goal with |- ends _ ?c0 _ => set (c1 := c0) end. change (video_size_row c1) with (2 * ORIG_VIDEO_COLS o).
  eapply ends_mono.
  - apply (ends_for (fun _ c' => words c' /\ exists m, c' = c1 <| vram := m |>)).
    + split; [done|]. exists (vram c). done.
    + intros i c' Hi [Hw' [m ->]].
      replace (2 * s + 2 * ORIG_VIDEO_COLS o - 8 + 2 * i) with (2 * (s + ORIG_VIDEO_COLS o - 4 + i)) by lia.
      apply vput_char_ends; [simpl; lia..|done|]. intros m' Hm'. split; [done|]. by exists m'.
  - intros [] c' [Hw' [m ->]]. simpl in Hw'. apply ends_bind, ends_modify. simpl. unfold ORIG_VIDEO_LINES.
    apply ends_bind, ends_get. apply ends_if; simpl; intros H; [apply orb_true_iff in H as [H|H]; bprop; lia|].
    apply ends_modify. constructor; simpl; try done; try lia.
    + split; [lia|]. by exists h.
    + split; [lia|]. split; [lia|]. by exists s; lia.
    + split; [lia|]. by exists s; lia.
    + rewrite u32_small; nia.
Qed.

(** C20. However long the text and whatever the escape sequences in it, once
    [con_init] has found a text mode whose cursor is on the screen, the console never
    touches memory outside the video RAM of the card, every character is handled to
    its end, and the cursor, the screen and the scrolling region stay where they
    belong. *)
Theorem console_stays_on_screen (o : setup) (erase : Z) (l : list Z) (n : nat) (c : console) :
  text_mode o -> con_fresh c ->
  exists c1 c', con_init o n c = Done tt c1 /\ con_chars erase l n c1 = Done tt c' /\ con_ok c1 /\ con_ok c'.
Proof.
  intros Ho Hc. destruct (ends_run _ n _ _ (con_init_ok o c Ho Hc)) as ([] & c1 & E1 & H1).
  destruct (ends_run _ n _ _ (con_chars_ok erase l c1 H1)) as ([] & c' & E' & H').
  by exists c1, c'.
Qed.

(** ** The screen as a terminal *)

(** What is on a screen of [cols] columns, and the cursor. *)
Record screen := mkScreen { sc_cell : Z -> Z -> Z; sc_x : Z; sc_y : Z }.

Section Terminal.
Context (cols t b erase_word attribute erase : Z).

(** Down one line; at the foot of the region the region scrolls. *)
Definition line_feed (s : screen) : screen :=
  if sc_y s + 1 <? b then mkScreen (sc_cell s) (sc_x s) (sc_y s + 1)
  else mkScreen (fun y x => if (t <=? y) && (y <? b - 1) then sc_cell s (y + 1) x
                            else if y =? b - 1 then erase_word else sc_cell s y x) (sc_x s) (sc_y s).

(** Before a character: on to the next line when this one is full. *)
Definition next_line (s : screen) : screen := line_feed (mkScreen (sc_cell s) (sc_x s - cols) (sc_y s)).

(** Printable characters, line feeds, carriage returns, the erase character,
    backspaces and tabs. *)
Definition type_char (s : screen) (k : Z) : screen :=
  if (31 <? k) && (k <? 127) then
    let s := if cols <=? sc_x s then next_line s else s in
    mkScreen (fun y x => if (y =? sc_y s) && (x =? sc_x s) then u16 (256 * attribute + k) else sc_cell s y x) (sc_x s + 1) (sc_y s)
  else if (k =? 10) || (k =? 11) || (k =? 12) then line_feed s
  else if k =? 13 then mkScreen (sc_cell s) 0 (sc_y s)
  else if k =? erase then
    if sc_x s =? 0 then s
    else mkScreen (fun y x => if (y =? sc_y s) && (x =? sc_x s - 1) then erase_word else sc_cell s y x) (sc_x s - 1) (sc_y s)
  else if k =? 8 then mkScreen (sc_cell s) (if sc_x s =? 0 then 0 else sc_x s - 1) (sc_y s)
  else
    let s := mkScreen (sc_cell s) (sc_x s + 8 - sc_x s mod 8) (sc_y s) in
    if cols <? sc_x s then next_line s else s.
End Terminal.

Definition typed (erase k : Z) : bool :=
  negb (k =? 27) && ((31 <? k) && (k <? 127) || (7 <? k) && (k <? 14) || (k =? erase)).

(** The console [c] shows [s], on the same card and in the same modes as [c0]. *)
Record displays (c0 c : console) (s : screen) : Prop := mkDisplays {
  di_ok : con_ok c;
  di_size : video_num_lines c = video_num_lines c0 /\ video_num_columns c = video_num_columns c0;
  di_modes : top c = top c0 /\ bottom c = bottom c0 /\ attr c = attr c0 /\ video_erase_char c = video_erase_char c0 /\ con_state c = 0;
  di_cursor : con_x c = sc_x s /\ con_y c = sc_y s;
  di_cell : forall y x, 0 <= y < video_num_lines c0 -> 0 <= x < video_num_columns c0 -> cell c y x = sc_cell s y x
}.

Lemma word_inj h o y x y' x' : 0 < h -> 0 <= x < 2 * h -> 0 <= x' < 2 * h ->
  o + 2 * (y * h) + x = o + 2 * (y' * h) + x' <-> y = y' /\ x = x'.
Proof.
  intros Hh Hx Hx'. pose proof (in_lines h y x y' (y' + 1) Hh Hx). split; [|by intros [-> ->]]. intros Hq.
  assert (y = y') as -> by lia. lia.
Qed.

Section Refinement.
Context (c0 : console) (erase : Z).

Abbreviation cols := (video_num_columns c0).
Abbreviation feed := (line_feed (top c0) (bottom c0) (video_erase_char c0)).
Abbreviation type := (type_char (video_num_columns c0) (top c0) (bottom c0) (video_erase_char c0) (attr c0) erase).
Abbreviation displays := (displays c0).

(** Another cursor and other words, given by the screen [s']. *)
Lemma displays_moved c s c' : con_ok c' -> displays c s ->
  video_num_lines c' = video_num_lines c -> video_num_columns c' = video_num_columns c ->
  top c' = top c -> bottom c' = bottom c -> attr c' = attr c -> video_erase_char c' = video_erase_char c ->
  con_state c' = con_state c -> (forall y x, cell c' y x = cell c y x) ->
  displays c' (mkScreen (sc_cell s) (con_x c') (con_y c')).
Proof.
  intros Hok [Hc [E1 E2] (E3 & E4 & E5 & E6 & E7) _ Hf] F1 F2 F3 F4 F5 F6 F7 HF.
  constructor; simpl; rewrite ?F1, ?F2, ?F3, ?F4, ?F5, ?F6, ?F7; try done.
  intros y x Hy Hx. rewrite HF. by apply Hf.
Qed.

Lemma shows_feed c c' s : displays c s -> shows c c' (scrolled_up c) -> bottom c <= sc_y s + 1 -> displays c' (feed s).
Proof.
  intros [Hc [E1 E2] (E3 & E4 & E5 & E6 & E7) [E8 E9] Hf] [Hok [F1 F2] [F3 F4] [F5 F6] (F7 & F8 & F9) HF] Hb.
  unfold line_feed. destruct (Z.ltb_spec (sc_y s + 1) (bottom c0)); [lia|].
  constructor; simpl; rewrite ?F1, ?F2, ?F3, ?F4, ?F5, ?F6, ?F7, ?F8, ?F9; try done.
  intros y x Hy Hx. rewrite HF by lia. unfold scrolled_up. rewrite E3, E4, E6.
  pose proof (ok_region c Hc). repeat zcase; try done; rewrite Hf by lia; done.
Qed.

Lemma lf_displays c s : displays c s -> ends lf c (fun _ c' => displays c' (feed s)).
Proof.
  intros Hd. pose proof (di_ok _ _ _ Hd) as Hok. destruct (di_cursor _ _ _ Hd) as [E8 E9].
  destruct (ends_run lf 0%nat c _ (lf_moves c Hok)) as (u & c' & E & Hok' & _).
  unfold lf in *. apply ends_bind, ends_get. cbv beta. unfold bind at 1 in E. cbn [get obind] in E.
  destruct (con_y c + 1 <? bottom c) eqn:Hb; bprop.
  - apply ends_bind, ends_modify, ends_modify. injection E as <- <-.
    pose proof (displays_moved _ _ _ Hok' Hd) as Hm. simpl in Hm.
    replace (feed s) with (mkScreen (sc_cell s) (con_x c) (con_y c + 1)); [by apply Hm|].
    unfold line_feed. destruct (di_modes _ _ _ Hd) as (_ & E4 & _). rewrite <-E4, <-E9, E8.
    destruct (Z.ltb_spec (con_y c + 1) (bottom c)); [done|lia].
  - eapply ends_mono; [by apply scrup_shows|]. intros [] c1 Hs. eapply shows_feed; [done..|lia].
Qed.

Lemma wrap_displays c s x : displays c s -> cols <= x <= 2 * cols ->
  ends (modify (fun c => c <| con_x ::= fun x => u32 (x - video_num_columns c) |>) ;;;
    modify (fun c => c <| pos ::= fun a => u32 (a - video_size_row c) |>) ;;; lf)
    (c <| con_x := x |> <| pos := pos c + 2 * (x - con_x c) |>)
    (fun _ c' => displays c' (next_line cols (top c0) (bottom c0) (video_erase_char c0) (mkScreen (sc_cell s) x (sc_y s)))).
Proof.
  intros Hd Hx. pose proof (di_ok _ _ _ Hd) as Hok. destruct (di_cursor _ _ _ Hd) as [E8 E9].
  destruct (di_size _ _ _ Hd) as [E1 E2]. rewrite <-E2 in Hx.
  pose proof (ok_pos c Hok). pose proof (ok_x c Hok). pose proof (ok_scr_end c Hok). pose proof (ok_row c Hok).
  destruct (con_bounds c Hok) as (? & ? & ? & ? & ? & _). pose proof (ok_columns c Hok) as [? _].
  apply ends_bind, ends_modify, ends_bind, ends_modify. simpl.
  match goal with |- ends lf ?c1 _ => assert (con_ok c1) as Hok1 by con_fields Hok;
    pose proof (displays_moved _ _ _ Hok1 Hd) as Hm end.
  unfold next_line. simpl in *. rewrite (u32_small (x - _)) in * by lia. rewrite <-E2, <-E9.
  apply lf_displays. by apply Hm.
Qed.

Lemma print_displays c s k : displays c s -> sc_x s < cols -> 31 < k < 127 ->
  ends (vput (pos c) (256 * attr c + u8 k) ;;;
    modify (fun c => c <| pos ::= fun a => u32 (a + 2) |>) ;;;
    modify (fun c => c <| con_x ::= fun x => u32 (x + 1) |>) ;;; ret Nothing) c
    (fun _ c' => displays c' (mkScreen (fun y x => if (y =? sc_y s) && (x =? sc_x s) then u16 (256 * attr c0 + k) else sc_cell s y x)
       (sc_x s + 1) (sc_y s))).
Proof.
  intros Hd Hx Hk. pose proof (di_ok _ _ _ Hd) as Hok. destruct (di_cursor _ _ _ Hd) as [E8 E9].
  destruct (di_size _ _ _ Hd) as [E1 E2]. destruct (di_modes _ _ _ Hd) as (E3 & E4 & E5 & E6 & E7).
  destruct (geometry c Hok) as (h & o & a & Hh & Eh & Er & Eo & Ea & Hao & Hz & Hy & Ese & Hse & Hfit & Epos & Hx').
  pose proof (ok_y c Hok). pose proof (Hy (con_y c) ltac:(lia)). assert (con_y c * h + h <= video_num_lines c * h) by nia.
  rewrite Epos. apply ends_bind, vput_ends; [lia..|]. intros c' (m & -> & Hm).
  apply ends_bind, ends_modify, ends_bind, ends_modify, ends_ret.
  change (displays (c <| pos := u32 (pos c + 2) |> <| con_x := u32 (con_x c + 1) |> <| vram := m |>)
    (mkScreen (fun y x => if (y =? sc_y s) && (x =? sc_x s) then u16 (256 * attr c0 + k) else sc_cell s y x) (sc_x s + 1) (sc_y s))).
  constructor.
  - apply redraw_ok; [|intros q; rewrite Hm; case_match; [apply u16_range|apply (ok_words c Hok)]].
    pose proof (ok_pos c Hok). con_fields Hok.
  - done.
  - done.
  - simpl. rewrite u32_small by lia. lia.
  - simpl. intros y x Hy1 Hx1. rewrite <-(di_cell _ _ _ Hd y x Hy1 Hx1). unfold cell. simpl. rewrite Eo, Er, <-E8, <-E9.
    replace (2 * o + y * (4 * h) + 2 * x) with (2 * (o + 2 * (y * h) + x)) by lia. rewrite Hm, E5, u8_small by lia.
    pose proof (word_inj h o y x (con_y c) (con_x c) ltac:(lia) ltac:(lia) ltac:(lia)) as Hi.
    clear - Hi. repeat zcase; tauto || done.
Qed.

Lemma del_displays c s : displays c s ->
  ends del c (fun _ c' => displays c' (if sc_x s =? 0 then s
    else mkScreen (fun y x => if (y =? sc_y s) && (x =? sc_x s - 1) then video_erase_char c0 else sc_cell s y x) (sc_x s - 1) (sc_y s))).
Proof.
  intros Hd. pose proof (di_ok _ _ _ Hd) as Hok. destruct (di_cursor _ _ _ Hd) as [E8 E9].
  destruct (di_size _ _ _ Hd) as [E1 E2]. destruct (di_modes _ _ _ Hd) as (E3 & E4 & E5 & E6 & E7).
  rewrite <-E8, <-E9. apply ends_bind, ends_get, ends_when; unfold nz; destruct (Z.eqb_spec (con_x c) 0) as [E0|N0]; try done; intros _.
  destruct (geometry c Hok) as (h & o & a & Hh & Eh & Er & Eo & Ea & Hao & Hz & Hy & Ese & Hse & Hfit & Epos & Hx').
  pose proof (ok_y c Hok). pose proof (Hy (con_y c) ltac:(lia)). assert (con_y c * h + h <= video_num_lines c * h) by nia.
  apply ends_bind, ends_modify, ends_bind, ends_modify, ends_bind, ends_get. simpl. rewrite u32_small by lia.
  replace (pos c - 2) with (2 * (o + 2 * (con_y c * h) + (con_x c - 1))) by lia.
  apply vput_ends; [simpl; lia..|]. intros c' (m & -> & Hm). simpl in Hm.
  change (displays (c <| pos := 2 * (o + 2 * (con_y c * h) + (con_x c - 1)) |> <| con_x := con_x c - 1 |> <| vram := m |>)
    (mkScreen (fun y x => if (y =? con_y c) && (x =? con_x c - 1) then video_erase_char c0 else sc_cell s y x) (con_x c - 1) (con_y c))).
  constructor.
  - apply redraw_ok; [|intros q; rewrite Hm; case_match; [apply u16_range|apply (ok_words c Hok)]].
    pose proof (ok_pos c Hok). con_fields Hok.
  - done.
  - done.
  - done.
  - simpl. intros y x Hy1 Hx1. rewrite <-(di_cell _ _ _ Hd y x Hy1 Hx1). unfold cell. simpl. rewrite Eo, Er.
    replace (2 * o + y * (4 * h) + 2 * x) with (2 * (o + 2 * (y * h) + x)) by lia.
    rewrite Hm, <-E6, u16_small by apply (ok_erase c Hok).
    pose proof (word_inj h o y x (con_y c) (con_x c - 1) ltac:(lia) ltac:(lia) ltac:(lia)) as Hi.
    clear - Hi. repeat zcase; tauto || done.
Qed.

Lemma typed_displays k c s : typed erase k = true -> displays c s ->
  ends (con_char erase k) c (fun _ c' => displays c' (type s k)).
Proof.
  intros Hk Hd. pose proof (di_ok _ _ _ Hd) as Hok. destruct (di_cursor _ _ _ Hd) as [E8 E9].
  destruct (di_size _ _ _ Hd) as [E1 E2]. destruct (di_modes _ _ _ Hd) as (E3 & E4 & E5 & E6 & E7).
  pose proof (ok_pos c Hok). pose proof (ok_x c Hok). pose proof (ok_columns c Hok) as [? _].
  apply ends_bind, ends_get. rewrite E7. cbn [Z.eqb]. unfold con_plain. apply ends_bind, ends_get. cbv zeta.
  unfold type_char. destruct ((31 <? k) && (k <? 127)) eqn:Hp; bprop.
  - rewrite <-E8, <-E2. apply ends_bind, ends_when; intros Hx; bprop.
    + replace c with (c <| con_x := con_x c |> <| pos := pos c + 2 * (con_x c - con_x c) |>) at 1
        by (destruct c; unfold upd; simpl; f_equal; lia).
      eapply ends_mono; [apply (wrap_displays c s); [done|lia]|]. intros [] c1 Hd1.
      destruct (Z.leb_spec (video_num_columns c) (con_x c)); [|lia]. destruct s as [f sx sy]. simpl in *. subst sx. rewrite E2.
      apply ends_bind, ends_get. apply print_displays; [done| |lia].
      unfold next_line, line_feed. simpl. case_match; simpl; lia.
    + destruct (Z.leb_spec (video_num_columns c) (con_x c)); [lia|].
      apply ends_bind, ends_get. apply print_displays; [done|lia|lia].
  - assert ((k =? 27) = false) as N27 by (unfold typed in Hk; by destruct (k =? 27)). rewrite N27.
    destruct ((k =? 10) || (k =? 11) || (k =? 12)) eqn:Hf.
    { apply ends_bind. eapply ends_mono; [by apply lf_displays|]. intros [] c' Hd'. by apply ends_ret. }
    destruct (Z.eqb_spec k 13) as [->|N13].
    { apply ends_bind, ends_bind, ends_modify, ends_modify, ends_ret.
      match goal with |- displays ?c1 _ => assert (con_ok c1) as Hok1;
        [exact (cr_ok c Hok 0%nat)|pose proof (displays_moved _ _ _ Hok1 Hd) as Hm] end.
      rewrite <-E9. by apply Hm. }
    destruct (Z.eqb_spec k erase) as [->|Ner].
    { apply ends_bind. eapply ends_mono; [by apply del_displays|]. intros [] c' Hd'. by apply ends_ret. }
    destruct (Z.eqb_spec k 8) as [->|N8].
    { rewrite <-E8, <-E9. apply ends_bind, ends_when; unfold nz; destruct (Z.eqb_spec (con_x c) 0) as [E0|N0]; try done; intros _.
      - apply ends_bind, ends_modify, ends_modify, ends_ret.
        match goal with |- displays ?c1 _ => assert (con_ok c1) as Hok1;
          [|pose proof (displays_moved _ _ _ Hok1 Hd) as Hm; by apply Hm] end.
        destruct (con_bounds c Hok) as (? & ? & ? & ? & ? & _). pose proof (ok_origin c Hok) as [? _]. con_fields Hok.
      - apply ends_ret. rewrite <-E0. destruct s as [f sx sy]; simpl in *. by subst. }
    assert (k = 9) as ->.
    { unfold typed in Hk. clear - Hk N13 Ner N8 Hf Hp N27. bprop. repeat zcase; done. }
    rewrite <-E8, <-E9, <-E2. cbn [Z.eqb Pos.eqb].
    pose proof (Z.land_ones (con_x c) 3 ltac:(lia)) as El. change (Z.ones 3) with 7 in El. change (2 ^ 3) with 8 in El.
    pose proof (Z.mod_pos_bound (con_x c) 8 ltac:(lia)). rewrite El.
    pose proof (ok_row c Hok). destruct (con_bounds c Hok) as (? & ? & ? & ? & ? & _). pose proof (ok_origin c Hok) as [? _].
    apply ends_bind, ends_modify, ends_bind, ends_modify, ends_bind, ends_get. simpl.
    apply ends_bind, ends_when; intros Hx; bprop; rewrite !u32_small in * by lia.
    + match goal with |- ends _ ?c1 _ => replace c1 with
        (c <| con_x := con_x c + (8 - con_x c mod 8) |> <| pos := pos c + 2 * (con_x c + (8 - con_x c mod 8) - con_x c) |>)
        by (unfold upd; simpl; f_equal; lia) end.
      destruct (Z.ltb_spec (video_num_columns c) (con_x c + 8 - con_x c mod 8)); [|lia].
      eapply ends_mono; [apply (wrap_displays c s); [done|lia]|]. intros [] c1 Hd1. apply ends_ret.
      rewrite <-Z.add_sub_assoc, E9, E2. exact Hd1.
    + destruct (Z.ltb_spec (video_num_columns c) (con_x c + 8 - con_x c mod 8)); [lia|]. apply ends_ret.
      rewrite <-Z.add_sub_assoc.
      match goal with |- displays ?c1 _ => assert (con_ok c1) as Hok1 by con_fields Hok;
        pose proof (displays_moved _ _ _ Hok1 Hd) as Hm; by apply Hm end.
Qed.
End Refinement.

(** The screen of a console. *)
Definition view (c : console) : screen := mkScreen (cell c) (con_x c) (con_y c).

Lemma displays_view c : con_ok c -> con_state c = 0 -> displays c c (view c).
Proof. intros Hok Hs. by constructor. Qed.

Lemma con_chars_displays c0 erase l : forall c s, forallb (typed erase) l = true -> displays c0 c s ->
  ends (con_chars erase l) c (fun _ c' => displays c0 c' (fold_left
    (type_char (video_num_columns c0) (top c0) (bottom c0) (video_erase_char c0) (attr c0) erase) l s)).
Proof.
  induction l as [|k l IH]; intros c s Hl Hd; cbn [forallb fold_left] in *; [by apply ends_ret|]. bprop.
  apply ends_bind, ends_bind. eapply ends_mono; [by apply typed_displays|]. intros a c' Hd'. by apply ends_ret, IH.
Qed.

(** C17. Text without escape sequences appears as on a terminal: printable characters at
    the cursor, which goes on to the next line when one is full, tabs, backspaces,
    erasures and carriage returns move it, and a line feed at the foot of the
    scrolling region moves the lines of the region up by one - whether the card
    scrolls by moving the start of the screen, has just been wound back to the start
    of its memory, or the words are copied. *)
Theorem console_refines_terminal (erase : Z) (l : list Z) (n : nat) (c : console) :
  con_ok c -> con_state c = 0 -> forallb (typed erase) l = true ->
  exists c', con_chars erase l n c = Done tt c' /\ displays c c' (fold_left
    (type_char (video_num_columns c) (top c) (bottom c) (video_erase_char c) (attr c) erase) l (view c)).
Proof.
  intros Hok Hs Hl.
  destruct (ends_run _ n _ _ (con_chars_displays c erase l c (view c) Hl (displays_view c Hok Hs))) as ([] & c' & E & H).
  by exists c'.
Qed.

(** Reverse line feed and the scroll of a region: at the head of the region the
    lines of the region move down by one and an empty line appears there; elsewhere
    only the cursor moves up. *)
Theorem reverse_line_feed (n : nat) (c : console) :
  con_ok c ->
  exists c', ri n c = Done tt c' /\ con_ok c' /\ con_x c' = con_x c /\
    con_y c' = (if top c <? con_y c then con_y c - 1 else con_y c) /\
    forall y x, 0 <= y < video_num_lines c -> 0 <= x < video_num_columns c ->
      cell c' y x = (if top c <? con_y c then cell c y x else scrolled_down c y x).
Proof.
  intros Hok. destruct (ends_run _ n _ _ (ri_ok c Hok)) as ([] & c' & E & Hok'). exists c'. split; [done|]. split; [done|].
  unfold ri in E. unfold bind at 1 in E. cbn [get obind] in E. destruct (top c <? con_y c).
  - injection E as <-. done.
  - destruct (ends_run _ n _ _ (scrdown_shows c Hok)) as ([] & c1 & E1 & [_ _ [F1 F2] _ _ Hf]).
    rewrite E1 in E. injection E as ->. done.
Qed.

(** ** Witnesses: a small EGA screen *)

(** Two lines of eight columns, in a video memory of three lines. *)
Definition small_console : console :=
  boot_con <| video_type := VIDEO_TYPE_EGAC |> <| video_num_columns := 8 |> <| video_size_row := 16 |> <| video_num_lines := 2 |>
    <| video_mem_start := 0xb8000 |> <| video_mem_end := 0xb8030 |> <| video_erase_char := 0x0720 |>
    <| origin := 0xb8000 |> <| scr_end := 0xb8020 |> <| pos := 0xb8000 |> <| bottom := 2 |>.

Lemma small_console_ok : con_ok small_console.
Proof.
  constructor; simpl; try done; try lia.
  - split; [lia|]. by exists 4.
  - split; [lia|]. split; [lia|]. by exists 0x5c000.
  - split; [lia|]. by exists 0x5c000.
  - split; [done|]. repeat (apply Forall_cons; split; [lia|]). by apply Forall_nil.
Qed.

(** Five line feeds and a text: the screen has gone round the video memory. *)
Example small_screen_wraps :
  match con_chars 127 [97; 10; 10; 10; 13; 98; 10; 10; 99] 0%nat small_console with
  | Done _ c => (origin c, con_x c, con_y c, cell c 0 0, cell c 1 0, cell c 1 1) = (0xb8000, 2, 1, 0x0720, 0x0720, 0x0763)
  | _ => False
  end.
Proof. vm_compute. reflexivity. Qed.

Lemma console_stays_on_screen_witness :
  exists c1 c', con_init (mkSetup 0 24 0 3 80 0x03) 0%nat boot_con = Done tt c1 /\
    con_chars 127 [27; 91; 50; 74; 104; 105; 10] 0%nat c1 = Done tt c' /\ con_ok c1 /\ con_ok c'.
Proof.
  apply (console_stays_on_screen (mkSetup 0 24 0 3 80 0x03) 127 [27; 91; 50; 74; 104; 105; 10] 0%nat boot_con).
  - unfold text_mode, ORIG_VIDEO_LINES. split; [split; [cbn; lia|]|cbn; lia]. by exists 40.
  - split; [reflexivity|]. split; [|split; [cbn; lia|intros q; cbn; lia]].
    cbn. repeat (apply List.Forall_cons; [lia|]). apply List.Forall_nil.
Defined.

Lemma console_refines_terminal_witness :
  exists c', con_chars 127 [104; 105; 9; 10] 5%nat small_console = Done tt c' /\ displays small_console c' (fold_left
    (type_char 8 0 2 0x0720 7 127) [104; 105; 9; 10] (view small_console)).
Proof. apply (console_refines_terminal 127 [104; 105; 9; 10] 5%nat small_console small_console_ok); reflexivity. Defined.

Lemma reverse_line_feed_witness :
  exists c', ri 5%nat small_console = Done tt c' /\ con_ok c' /\ con_x c' = 0 /\ con_y c' = 0 /\
    forall y x, 0 <= y < 2 -> 0 <= x < 8 -> cell c' y x = scrolled_down small_console y x.
Proof. apply (reverse_line_feed 5%nat small_console small_console_ok). Defined.

(** ** What the code does not mean to do *)

(** A BIOS mode of 50 lines with the cursor below line 24: [gotoxy] refuses the
    position, [pos] stays 0, and the first character goes to address 0, where the page
    directory is. *)
Example cursor_below_the_screen :
  match con_init (mkSetup 0 40 0 3 80 0x03) 0%nat boot_con with
  | Done _ c => pos c = 0 /\ match con_char 127 97 0%nat c with Fault _ => True | _ => False end
  | _ => False
  end.
Proof. vm_compute. split; [reflexivity|exact I]. Qed.

(** ESC 7 does not save the cursor unless it is in column 55. *)
Example escape_7_ignored :
  match con_chars 127 [97; 27; 55] 0%nat small_console with Done _ c => saved_x c = 0 /\ con_x c = 1 | _ => False end.
Proof. vm_compute. by split. Qed.
