(* ===== verification/Links.v ===== *)
(** * Doubly linked lists

    The shapes the kernel's linked structures have, over the functions [nxt] and
    [prv] that read the link fields: rings (the free list of the buffer cache) and
    NULL-terminated chains (its hash queues), with the effect of unlinking and
    linking a node on them. *)
From Stdlib Require Import ZArith Lia.
From stdpp Require Import base list sets.
From S2P Require Import Prelude.

Implicit Types (nxt prv : Z -> option Z) (a b x y : Z) (l : list Z).

(** ** Rings *)

(** From [a] over the nodes [l] to [b]. *)
Fixpoint seg nxt prv a l b : Prop :=
  match l with
  | [] => nxt a = Some b /\ prv b = Some a
  | x :: l' => nxt a = Some x /\ prv x = Some a /\ seg nxt prv x l' b
  end.

Definition ring nxt prv l : Prop :=
  match l with
  | [] => False
  | a :: l' => NoDup l /\ seg nxt prv a l' a
  end.

Lemma seg_app nxt prv a l1 x l2 b :
  seg nxt prv a (l1 ++ x :: l2) b <-> seg nxt prv a l1 x /\ seg nxt prv x l2 b.
Proof. revert a. induction l1 as [|y l1 IH]; intros a; simpl; [tauto|]. rewrite IH. tauto. Qed.

Lemma ring_rotate nxt prv l1 l2 : ring nxt prv (l1 ++ l2) -> ring nxt prv (l2 ++ l1).
Proof.
  destruct l1 as [|a l1], l2 as [|x l2]; simpl; rewrite ?app_nil_r; try done.
  intros [Hnd Hs]. apply seg_app in Hs as [H1 H2]. split.
  - assert (E : x :: l2 ++ a :: l1 ≡ₚ a :: l1 ++ x :: l2); [|by rewrite E].
    change (x :: l2 ++ a :: l1) with ((x :: l2) ++ (a :: l1)).
    change (a :: l1 ++ x :: l2) with ((a :: l1) ++ (x :: l2)). apply Permutation_app_comm.
  - apply seg_app. done.
Qed.

(** Where a segment is entered from and where it ends. *)
Definition last_node a l : Z := List.last (a :: l) a.

Lemma last_node_cons a x l : last_node a (x :: l) = last_node x l.
Proof.
  unfold last_node. destruct l as [|y l]; [done|].
  change (List.last (y :: l) a = List.last (y :: l) x).
  revert y. induction l as [|z l IH]; intros y; [done|]. apply IH.
Qed.

Lemma last_node_elem a l : last_node a l ∈ a :: l.
Proof.
  revert a. induction l as [|x l IH]; intros a; [unfold last_node; simpl; set_solver|].
  rewrite last_node_cons. specialize (IH x). set_solver.
Qed.

Lemma seg_last nxt prv a l b : seg nxt prv a l b -> nxt (last_node a l) = Some b /\ prv b = Some (last_node a l).
Proof.
  revert a. induction l as [|x l IH]; intros a; simpl; [done|].
  intros (_ & _ & H). rewrite last_node_cons. by apply IH.
Qed.

(** Redirect the end of a segment. *)
Lemma seg_redirect nxt prv nxt' prv' a l b b' :
  seg nxt prv a l b -> NoDup (a :: l) ->
  (forall y, y ∈ a :: l -> y <> last_node a l -> nxt' y = nxt y) ->
  (forall y, y ∈ l -> prv' y = prv y) ->
  nxt' (last_node a l) = Some b' -> prv' b' = Some (last_node a l) ->
  seg nxt' prv' a l b'.
Proof.
  revert a. induction l as [|x l IH]; intros a; simpl; [done|].
  intros (H1 & H2 & H3) Hnd Hn Hp Hl1 Hl2. rewrite last_node_cons in *.
  apply NoDup_cons in Hnd as [Ha Hnd]. split; [|split].
  - rewrite Hn; [done|set_solver|]. pose proof (last_node_elem x l). set_solver.
  - rewrite Hp; [done|set_solver].
  - apply IH; try done; [intros y Hy; apply Hn; set_solver|intros y Hy; apply Hp; set_solver].
Qed.

Lemma ring_neighbours nxt prv x l :
  ring nxt prv (x :: l) -> nxt x = Some (List.hd x l) /\ prv x = Some (last_node x l).
Proof.
  intros [_ Hs]. split; [|by apply (seg_last _ _ _ _ _ Hs)].
  destruct l as [|y l]; simpl in Hs; tauto.
Qed.

(** Taking [x] out of a ring of at least two nodes. *)
Lemma ring_remove nxt prv nxt' prv' x r l :
  ring nxt prv (x :: r :: l) ->
  (forall y, nxt' y = if decide (y = last_node r l) then Some r else nxt y) ->
  (forall y, prv' y = if decide (y = r) then Some (last_node r l) else prv y) ->
  ring nxt' prv' (r :: l).
Proof.
  intros [Hnd Hs] Hn Hp. apply NoDup_cons in Hnd as [Hx Hnd]. simpl in Hs.
  destruct Hs as (_ & _ & Hs). split; [done|]. eapply seg_redirect; [exact Hs|done| | | |].
  - intros y _ Hy. by rewrite Hn, decide_False.
  - intros y Hy. rewrite Hp, decide_False; [done|]. intros ->. by apply NoDup_cons in Hnd as [? _].
  - by rewrite Hn, decide_True.
  - by rewrite Hp, decide_True.
Qed.

(** Putting [x] in before the head of a ring, that is at its end. *)
Lemma ring_insert nxt prv nxt' prv' f l x :
  ring nxt prv (f :: l) -> x ∉ f :: l ->
  (forall y, nxt' y = if decide (y = last_node f l) then Some x else if decide (y = x) then Some f else nxt y) ->
  (forall y, prv' y = if decide (y = f) then Some x else if decide (y = x) then Some (last_node f l) else prv y) ->
  ring nxt' prv' (f :: l ++ [x]).
Proof.
  intros [Hnd Hs] Hx Hn Hp. pose proof (last_node_elem f l) as Hl. apply not_elem_of_cons in Hx as Hx'.
  destruct Hx' as [Hxf Hxl]. split.
  - change (NoDup ((f :: l) ++ [x])). apply NoDup_app. split; [done|]. split; [set_solver|apply NoDup_singleton].
  - apply seg_app. split.
    + eapply seg_redirect; [exact Hs|done| | | |].
      * intros y Hy Hne. rewrite Hn. rewrite decide_False by done. rewrite decide_False by (intros ->; done). done.
      * intros y Hy. apply NoDup_cons in Hnd as [Hf _]. rewrite Hp. rewrite !decide_False by (intros ->; done). done.
      * by rewrite Hn, decide_True.
      * by rewrite Hp, decide_False, decide_True.
    + simpl. rewrite Hn, decide_False, decide_True; [|done|by intros E; rewrite <- E in Hl].
      by rewrite Hp, decide_True.
Qed.

(** Walking [k] steps along a ring. *)
Lemma ring_step nxt prv l k a :
  ring nxt prv l -> l !! k = Some a -> nxt a = l !! (if decide (S k = length l) then 0%nat else S k).
Proof.
  destruct l as [|x l]; [done|]. intros [_ Hs] Hk.
  assert (H : forall y l b k, seg nxt prv y l b -> (y :: l) !! k = Some a ->
    nxt a = if decide (S k = length (y :: l)) then Some b else (y :: l) !! S k).
  { clear. intros y l b. revert y. induction l as [|z l IH]; intros y k Hs Hk.
    - destruct k; simpl in *; [|done]. destruct Hs as [Hs _]. by simplify_eq.
    - destruct Hs as (H1 & _ & H3). destruct k as [|k]; [simpl in *; by simplify_eq|].
      rewrite (IH z k H3) by done. cbn [length]. repeat case_decide; try lia; done. }
  rewrite (H x l x k Hs Hk). by case_decide.
Qed.

(** ** Chains *)

(** The nodes from [p] to the NULL at the end; [q] is the predecessor. *)
Fixpoint chain nxt prv (q p : option Z) l : Prop :=
  match l with
  | [] => p = None
  | x :: l' => p = Some x /\ prv x = q /\ chain nxt prv (Some x) (nxt x) l'
  end.

Lemma chain_ext nxt prv nxt' prv' q p l :
  chain nxt prv q p l -> (forall x, x ∈ l -> nxt' x = nxt x /\ prv' x = prv x) -> chain nxt' prv' q p l.
Proof.
  revert q p. induction l as [|x l IH]; intros q p; simpl; [done|].
  intros (-> & H1 & H2) H. destruct (H x ltac:(set_solver)) as [En Ep]. split; [done|].
  split; [congruence|]. rewrite En. apply IH; [done|]. intros y Hy. apply H. set_solver.
Qed.

Lemma chain_push nxt prv nxt' prv' p l x :
  chain nxt prv None p l -> NoDup l -> x ∉ l ->
  nxt' x = p -> prv' x = None ->
  (forall y, y ∈ l -> nxt' y = nxt y) ->
  (forall y, y ∈ l -> prv' y = if decide (p = Some y) then Some x else prv y) ->
  chain nxt' prv' None (Some x) (x :: l).
Proof.
  intros Hc Hnd Hx Hn Hp Hn' Hp'. simpl. split; [done|]. split; [done|]. rewrite Hn.
  destruct l as [|y l]; simpl in *; [done|]. destruct Hc as (-> & _ & Hc).
  split; [done|]. split; [by rewrite Hp', decide_True by set_solver|].
  rewrite Hn' by set_solver. eapply chain_ext; [exact Hc|]. intros z Hz.
  apply NoDup_cons in Hnd as [Hy _]. split; [apply Hn'; set_solver|].
  rewrite Hp' by set_solver. rewrite decide_False; [done|]. intros [= ->]. done.
Qed.

(** A node inside a chain: its neighbours. *)
Lemma chain_mid nxt prv q p l1 x l2 :
  chain nxt prv q p (l1 ++ x :: l2) ->
  nxt x = head l2 /\ prv x = (match l1 with [] => q | a :: l => Some (last_node a l) end) /\
  p = (match l1 with [] => Some x | a :: _ => Some a end) /\
  (match l1 with [] => True | a :: l => nxt (last_node a l) = Some x end) /\
  (match l2 with [] => True | y :: _ => prv y = Some x end).
Proof.
  revert q p. induction l1 as [|a l1 IH]; intros q p; simpl.
  - intros (-> & H1 & H2). destruct l2 as [|y l2]; simpl in H2; [by rewrite H2|].
    destruct H2 as (E & H2 & _). by rewrite E.
  - intros (-> & H1 & H2). destruct (IH _ _ H2) as (E1 & E2 & E3 & E4 & E5). split; [done|].
    destruct l1 as [|b l1].
    + split; [exact E2|]. split; [done|]. split; [exact E3|exact E5].
    + rewrite last_node_cons. done.
Qed.

(** No link of a chain leads out of it. *)
Lemma chain_closed nxt prv q p l x :
  chain nxt prv q p l -> x ∉ l -> p <> Some x /\ forall z, z ∈ l -> nxt z <> Some x.
Proof.
  revert q p. induction l as [|u l IH]; intros q p; simpl.
  - intros -> _. split; [done|]. intros z Hz. set_solver.
  - intros (-> & _ & H) Hx. apply not_elem_of_cons in Hx as [Hxu Hx]. destruct (IH _ _ H Hx) as [H1 H2].
    split; [by intros [= ->]|]. intros z [->|Hz]%elem_of_cons; [done|auto].
Qed.

(** Unlinking [x]: its neighbours are joined. *)
Lemma chain_remove nxt prv nxt' prv' q p l1 x l2 :
  chain nxt prv q p (l1 ++ x :: l2) -> NoDup (l1 ++ x :: l2) ->
  (forall y, y ∈ l1 ++ l2 -> nxt' y = if decide (nxt y = Some x) then nxt x else nxt y) ->
  (forall y, y ∈ l1 ++ l2 -> prv' y = if decide (prv y = Some x) then prv x else prv y) ->
  q <> Some x ->
  chain nxt' prv' q (if decide (p = Some x) then nxt x else p) (l1 ++ l2).
Proof.
  revert q p. induction l1 as [|a l1 IH]; intros q p; simpl.
  - intros (-> & H1 & H2) Hnd Hn Hp Hq. rewrite decide_True by done.
    destruct l2 as [|y l2]; simpl in *; [done|]. destruct H2 as (E & Ey & H2).
    split; [done|]. split; [by rewrite Hp, decide_True by set_solver|].
    apply NoDup_cons in Hnd as [Hx Hnd]. rewrite Hn by set_solver.
    assert (Hxl : x ∉ l2) by set_solver. destruct (chain_closed _ _ _ _ _ _ H2 Hxl) as [Hne Hno].
    rewrite decide_False by done. eapply chain_ext; [exact H2|]. intros z Hz.
    rewrite Hn, Hp by set_solver. rewrite decide_False by auto. split; [done|].
    rewrite decide_False; [done|]. apply NoDup_cons in Hnd as [Hy Hnd].
    intros Hpz. clear -H2 Hz Hpz Hxl Hx. revert y H2 Hx. induction l2 as [|u l2 IH]; [set_solver|].
    intros y (_ & E1 & E2) Hx. apply elem_of_cons in Hz as [->|Hz]; [rewrite Hpz in E1; set_solver|].
    apply (IH ltac:(set_solver) Hz u E2). set_solver.
  - intros (-> & H1 & H2) Hnd Hn Hp Hq. apply NoDup_cons in Hnd as [Ha Hnd].
    assert (Hax : a <> x) by (intros ->; set_solver).
    rewrite decide_False by (intros [= ?]; done). split; [done|].
    split; [rewrite Hp, decide_False by (set_solver || congruence); done|].
    specialize (IH (Some a) (nxt a) H2 Hnd). rewrite Hn by set_solver.
    apply IH; [intros y Hy; apply Hn; set_solver|intros y Hy; apply Hp; set_solver|congruence].
Qed.
