(* ===== verification/Sched.v ===== *)
(** * The scheduler: kernel/sched.c

    The choice of the next task, sleeping and waking, the kernel timers and the
    floppy motor timers, and the system calls of sched.c.  [switch_to] gives up the
    processor; the task is resumed by a later [switch_to] of another task, so that
    [current] is again the task itself. *)
From Stdlib Require Import ZArith Lia String.
From stdpp Require Import base list.
From S2P Require Import Prelude Resumption Memory KState.

(** Signal numbers (include/signal.h) and their bits. *)
Definition SIGHUP : Z := 1.
Definition SIGKILL : Z := 9.
Definition SIGPIPE : Z := 13.
Definition SIGALRM : Z := 14.
Definition SIGCHLD : Z := 17.
Definition SIGSTOP : Z := 19.
Definition sigbit (nr : Z) : Z := s32 (Z.shiftl 1 (nr - 1)).
Definition BLOCKABLE : Z := Z.lnot (Z.lor (sigbit SIGKILL) (sigbit SIGSTOP)).

(** The slots in the order of [for (p = &LAST_TASK; p > &FIRST_TASK; --p)]. *)
Definition slots_down : list Z := rev (zrange 1 63).

Definition set_sched (f : sched -> sched) : K unit := modify (fun s => s <| k_sched ::= f |>).
Definition outb (val port : Z) : K unit := set_sched (fun c => c <| out ::= cons (u8 val, port) |>).

(** The gates of include/asm/system.h. *)
Definition _set_gate (n type dpl : Z) (addr : string) : K unit :=
  set_sched (fun c => c <| idt ::= fun l => arr_set l n (mkGate (u16 (0x8000 + Z.shiftl dpl 13 + Z.shiftl type 8)) addr) |>).
Definition set_intr_gate (n : Z) (addr : string) : K unit := _set_gate n 14 0 addr.
Definition set_trap_gate (n : Z) (addr : string) : K unit := _set_gate n 15 0 addr.
Definition set_system_gate (n : Z) (addr : string) : K unit := _set_gate n 15 3 addr.

(** Reading a port takes the next value the device behind it has. *)
Definition in_port (port : Z) : K Z :=
  let! s := get in
  set_sched (fun c => c <| inputs ::= fun f p => if p =? port then fun i => f p (S i) else f p |>) ;;;
  ret (inputs (k_sched s) port O).
Definition inb (port : Z) : K Z := let! v := in_port port in ret (u8 v).
Definition inw (port : Z) : K Z := let! v := in_port port in ret (u16 v).

(** ** schedule *)

(** A task whose alarm has expired gets SIGALRM, and an interruptible task that
    has a signal it does not block becomes runnable. *)
Definition expire_alarm (now : Z) (t : task_struct) : task_struct :=
  if nz (alarm t) && (alarm t <? now)
  then t <| signal ::= fun x => Z.lor x (sigbit SIGALRM) |> <| alarm := 0 |> else t.
Definition has_signal (t : task_struct) : bool :=
  nz (Z.land (signal t) (Z.lnot (Z.land BLOCKABLE (blocked t)))).
Definition wake_signalled (t : task_struct) : task_struct :=
  if has_signal t && (state t =? TASK_INTERRUPTIBLE) then t <| state := TASK_RUNNING |> else t.

Definition check_task (now : Z) (t : task_struct) : task_struct := wake_signalled (expire_alarm now t).
Definition recharge (t : task_struct) : task_struct :=
  t <| counter := s32 (Z.shiftr (counter t) 1 + priority t) |>.

(** [for (p = &LAST_TASK; p > &FIRST_TASK; --p) if ( *p) ...]: every occupied slot
    but the first. *)
Definition for_tasks (f : task_struct -> task_struct) : K unit :=
  for_each slots_down (fun i =>
    let! s := get in
    match task_slot s i with
    | Some t => modify (set_slot i (Some (f t)))
    | None => ret tt
    end).

(** The runnable task with the largest counter: [(c, next)]. *)
Definition better (s : kstate) (acc : Z * Z) (i : Z) : Z * Z :=
  match task_slot s i with
  | Some t => if (state t =? TASK_RUNNING) && (acc.1 <? counter t) then (counter t, i) else acc
  | None => acc
  end.
Definition pick (s : kstate) : Z * Z := fold_left (better s) slots_down (-1, 0).

Definition choose : K Z :=
  loop (fun _ : unit =>
    let! s := get in
    let (c, next) := pick s in
    if nz c then ret (inr next) else for_tasks recharge ;;; ret (inl tt)) tt.

Definition set_current (i : Z) : K unit := set_sched (fun c => c <| current := i |>).

Definition switch_to (next : Z) : K unit :=
  let! s := get in
  let me := current (k_sched s) in
  if next =? me then ret tt else
  set_current next ;;; yield ;;; set_current me.

Definition schedule : K unit :=
  let! s := get in
  for_tasks (check_task (jiffies (k_sched s))) ;;;
  let! next := choose in
  switch_to next.

Definition sys_pause : K Z :=
  cur_upd (fun t => t <| state := TASK_INTERRUPTIBLE |>) ;;;
  schedule ;;;
  ret 0.

(** ** Wait queues *)

(** A [struct task_struct **]: where the head of a wait queue is kept. *)
Record wait_queue := mkWq {
  wq_get : kstate -> option Z;
  wq_put : option Z -> kstate -> kstate
}.

Definition bh_wait (i : Z) : wait_queue := mkWq
  (fun s => match arr_get (bhs (k_cache s)) i with Some b => b_wait b | None => None end)
  (fun w s => match arr_get (bhs (k_cache s)) i with
              | Some b => set_bhs (arr_set (bhs (k_cache s)) i (b <| b_wait := w |>)) s
              | None => s end).
Definition inode_wait (i : Z) : wait_queue := mkWq
  (fun s => match arr_get (inode_table (k_fs s)) i with Some b => i_wait b | None => None end)
  (fun w s => match arr_get (inode_table (k_fs s)) i with
              | Some b => set_inodes (arr_set (inode_table (k_fs s)) i (b <| i_wait := w |>)) s
              | None => s end).
Definition super_wait (i : Z) : wait_queue := mkWq
  (fun s => match arr_get (super_block (k_fs s)) i with Some b => s_wait b | None => None end)
  (fun w s => match arr_get (super_block (k_fs s)) i with
              | Some b => set_supers (arr_set (super_block (k_fs s)) i (b <| s_wait := w |>)) s
              | None => s end).
Definition request_wait (i : Z) : wait_queue := mkWq
  (fun s => match arr_get (request (k_blk s)) i with Some b => r_waiting b | None => None end)
  (fun w s => match arr_get (request (k_blk s)) i with
              | Some b => set_requests (arr_set (request (k_blk s)) i (b <| r_waiting := w |>)) s
              | None => s end).
Definition free_request_wait : wait_queue := mkWq
  (fun s => wait_for_request (k_blk s))
  (fun w s => s <| k_blk ::= fun c => c <| wait_for_request := w |> |>).
Definition free_buffer_wait : wait_queue := mkWq
  (fun s => buffer_wait (k_cache s))
  (fun w s => s <| k_cache ::= fun c => c <| buffer_wait := w |> |>).
Definition motor_wait (nr : Z) : wait_queue := mkWq
  (fun s => default None (arr_get (wait_motor (k_sched s)) nr))
  (fun w s => s <| k_sched ::= fun c => c <| wait_motor ::= fun l => arr_set l nr w |> |>).
Definition floppy_select_wait : wait_queue := mkWq
  (fun s => wait_on_floppy_select (fdd (k_blk s)))
  (fun w s => s <| k_blk ::= fun c => c <| fdd ::= fun d => d <| wait_on_floppy_select := w |> |> |>).

Definition wake_task (t : option Z) : K unit :=
  match t with
  | Some i => task_upd i (fun t => t <| state := TASK_RUNNING |>)
  | None => ret tt
  end.

Definition sleep_on (q : wait_queue) : K unit :=
  let! s := get in
  let me := current (k_sched s) in
  if me =? 0 then panic "task[0] trying to sleep" else
  let tmp := wq_get q s in
  modify (wq_put q (Some me)) ;;;
  cur_upd (fun t => t <| state := TASK_UNINTERRUPTIBLE |>) ;;;
  schedule ;;;
  wake_task tmp.

Definition interruptible_sleep_on (q : wait_queue) : K unit :=
  let! s := get in
  let me := current (k_sched s) in
  if me =? 0 then panic "task[0] trying to sleep" else
  let tmp := wq_get q s in
  modify (wq_put q (Some me)) ;;;
  loop (fun _ : unit =>
    cur_upd (fun t => t <| state := TASK_INTERRUPTIBLE |>) ;;;
    schedule ;;;
    let! s := get in
    match wq_get q s with
    | Some h => if negb (h =? me) then wake_task (Some h) ;;; ret (inl tt) else ret (inr tt)
    | None => ret (inr tt)
    end) tt ;;;
  modify (wq_put q None) ;;;
  wake_task tmp.

Definition wake_up (q : wait_queue) : K unit :=
  let! s := get in
  match wq_get q s with
  | Some h => wake_task (Some h) ;;; modify (wq_put q None)
  | None => ret tt
  end.

(** ** Kernel timers *)

Definition TIME_REQUESTS : Z := 64.

Definition timer_get (i : Z) : K timer := deref (fun s => arr_get (timer_list (k_sched s)) i).
Definition timer_upd (i : Z) (f : timer -> timer) : K unit :=
  let! t := timer_get i in
  set_sched (fun c => c <| timer_list ::= fun l => arr_set l i (f t) |>).
Definition set_next_timer (p : option Z) : K unit := set_sched (fun c => c <| next_timer := p |>).

Definition free_timer : K (option Z) :=
  for_break (zrange 0 64) (fun p =>
    let! t := timer_get p in
    ret (match t_fn t with None => Some p | Some _ => None end)).

(** One round of the loop that moves the new timer [p] behind the earlier ones. *)
Definition sift (p : Z) : K (Z + unit) :=
  let! t := timer_get p in
  match t_next t with
  | None => ret (inr tt)
  | Some nx =>
      let! u := timer_get nx in
      if t_jiffies u <? t_jiffies t then
        let d := s32 (t_jiffies t - t_jiffies u) in
        timer_upd p (fun r => r <| t_fn := t_fn u |> <| t_jiffies := t_jiffies u |>) ;;;
        timer_upd nx (fun r => r <| t_fn := t_fn t |> <| t_jiffies := d |>) ;;;
        ret (inl nx)
      else ret (inr tt)
  end.

Section Timers.
(** Running a timer function, and stopping the speaker (console.c). *)
Context (call : Z -> K unit) (sysbeepstop : K unit).

Definition add_timer (when_ : Z) (fn : option Z) : K unit :=
  match fn with
  | None => ret tt
  | Some f =>
      if when_ <=? 0 then call f else
      let! p := free_timer in
      match p with
      | None => panic "No more time requests free"
      | Some p =>
          timer_upd p (fun r => r <| t_fn := Some f |>) ;;;
          timer_upd p (fun r => r <| t_jiffies := when_ |>) ;;;
          let! s := get in
          timer_upd p (fun r => r <| t_next := next_timer (k_sched s) |>) ;;;
          set_next_timer (Some p) ;;;
          loop sift p
      end
  end.

(** The expired timers at the head of the list. *)
Definition run_timers : K unit :=
  loop (fun _ : unit =>
    let! s := get in
    match next_timer (k_sched s) with
    | None => ret (inr tt)
    | Some p =>
        let! t := timer_get p in
        if t_jiffies t <=? 0 then
          timer_upd p (fun r => r <| t_fn := None |>) ;;;
          set_next_timer (t_next t) ;;;
          (match t_fn t with Some f => call f | None => fault end) ;;;
          ret (inl tt)
        else ret (inr tt)
    end) tt.

(** ** The floppy motors *)

Definition arr_upd (i : Z) (get_ : sched -> list Z) (put_ : list Z -> sched -> sched) (v : Z) : K unit :=
  set_sched (fun c => put_ (arr_set (get_ c) i v) c).
Definition set_mon (i v : Z) : K unit := arr_upd i mon_timer (fun l c => c <| mon_timer := l |>) (s32 v).
Definition set_moff (i v : Z) : K unit := arr_upd i moff_timer (fun l c => c <| moff_timer := l |>) (s32 v).
Definition mon (s : kstate) (i : Z) : Z := default 0 (arr_get (mon_timer (k_sched s)) i).
Definition moff (s : kstate) (i : Z) : Z := default 0 (arr_get (moff_timer (k_sched s)) i).

Definition FD_DOR : Z := 0x3f2.

Definition ticks_to_floppy_on (nr : Z) : K Z :=
  if 3 <? u32 nr then panic "floppy_on: nr>3" else
  set_moff nr 10000 ;;;
  let! s := get in
  let dor := current_DOR (k_sched s) in
  let mask := u8 (Z.lor (u8 (Z.shiftl 0x10 nr)) dor) in
  let mask := if negb (nz (selected (k_sched s))) then Z.lor (Z.land mask 0xFC) nr else mask in
  when (negb (mask =? dor))
    (outb mask FD_DOR ;;;
     (if nz (Z.land (Z.lxor mask dor) 0xf0) then set_mon nr (Z.quot HZ 2)
      else if mon s nr <? 2 then set_mon nr 2 else ret tt) ;;;
     set_sched (fun c => c <| current_DOR := mask |>)) ;;;
  gets (fun s => mon s nr).

Definition floppy_on (nr : Z) : K unit :=
  loop (fun _ : unit =>
    let! ticks := ticks_to_floppy_on nr in
    if nz ticks then sleep_on (motor_wait nr) ;;; ret (inl tt) else ret (inr tt)) tt.

Definition floppy_off (nr : Z) : K unit := set_moff nr (3 * HZ).

Definition do_floppy_timer : K unit :=
  for_each (zrange 0 4) (fun i =>
    let! s := get in
    let mask := u8 (Z.shiftl 0x10 i) in
    let dor := current_DOR (k_sched s) in
    if negb (nz (Z.land mask dor)) then ret tt else
    if nz (mon s i) then
      set_mon i (mon s i - 1) ;;;
      when (negb (nz (s32 (mon s i - 1)))) (wake_up (motor_wait i))
    else if negb (nz (moff s i)) then
      set_sched (fun c => c <| current_DOR := Z.ldiff dor mask |>) ;;;
      outb (Z.ldiff dor mask) FD_DOR
    else set_moff i (moff s i - 1)).

(** ** The clock interrupt *)

Definition do_timer (cpl : Z) : K unit :=
  let! s := get in
  when (nz (beepcount (k_sched s)))
    (set_sched (fun c => c <| beepcount ::= fun b => s32 (b - 1) |>) ;;;
     when (negb (nz (s32 (beepcount (k_sched s) - 1)))) sysbeepstop) ;;;
  (if nz cpl then cur_upd (fun t => t <| utime ::= fun u => s32 (u + 1) |>)
   else cur_upd (fun t => t <| stime ::= fun u => s32 (u + 1) |>)) ;;;
  let! s := get in
  (match next_timer (k_sched s) with
   | Some p => timer_upd p (fun r => r <| t_jiffies ::= fun j => s32 (j - 1) |>) ;;; run_timers
   | None => ret tt
   end) ;;;
  let! s := get in
  when (nz (Z.land (current_DOR (k_sched s)) 0xf0)) do_floppy_timer ;;;
  cur_upd (fun t => t <| counter ::= fun c => s32 (c - 1) |>) ;;;
  let! t := cur in
  if 0 <? counter t then ret tt else
  cur_upd (fun t => t <| counter := 0 |>) ;;;
  if negb (nz cpl) then ret tt else schedule.
End Timers.

(** ** System calls *)

Definition sys_alarm (seconds : Z) : K Z :=
  let! s := get in
  let! t := cur in
  let old := if nz (alarm t) then Z.quot (s32 (alarm t - jiffies (k_sched s))) HZ else alarm t in
  cur_upd (fun t => t <| alarm := if 0 <? seconds then s32 (jiffies (k_sched s) + HZ * seconds) else 0 |>) ;;;
  ret old.

Definition sys_getpid : K Z := let! t := cur in ret (pid t).
Definition sys_getppid : K Z := let! t := cur in ret (father t).
Definition sys_getuid : K Z := let! t := cur in ret (uid t).
Definition sys_geteuid : K Z := let! t := cur in ret (euid t).
Definition sys_getgid : K Z := let! t := cur in ret (gid t).
Definition sys_getegid : K Z := let! t := cur in ret (egid t).

Definition sys_nice (increment : Z) : K Z :=
  let! t := cur in
  when (0 <? s32 (priority t - increment))
    (cur_upd (fun t => t <| priority := s32 (priority t - increment) |>)) ;;;
  ret 0.

(** Save the coprocessor state of its last user and load that of the current
    task; a task's first use initialises the coprocessor. *)
Section Coprocessor.
Context (fninit : list Z).

Definition math_state_restore : K unit :=
  let! s := get in
  let me := current (k_sched s) in
  if bool_decide (last_task_used_math (k_sched s) = Some me) then ret tt else
  (match last_task_used_math (k_sched s) with
   | Some l => task_upd l (fun t => t <| tss ::= fun r => r <| i387 := fpu (k_sched s) |> |>)
   | None => ret tt
   end) ;;;
  set_sched (fun c => c <| last_task_used_math := Some me |>) ;;;
  let! t := cur in
  if nz (used_math t) then set_sched (fun c => c <| fpu := i387 (tss t) |>)
  else
    set_sched (fun c => c <| fpu := fninit |>) ;;;
    cur_upd (fun t => t <| used_math := 1 |>).
End Coprocessor.
