(* ===== verification/Types.v ===== *)
(** * The declared types of the kernel's tables

    A C array never changes its length, and the indices of a terminal queue and the
    number of the running task never leave the arrays they are used with.  [typed] says
    so of the whole state: every table has the entries include/linux/sched.h, fs.h, tty.h,
    hdreg.h and kernel/blk_drv/blk.h declare, and so has every array inside an entry; and the
    head of a wait queue is a task.  The lemmas are the elementary assignments: the length
    of a list survives [arr_set]. *)
From Stdlib Require Import ZArith Lia String.
From stdpp Require Import base list.
From S2P Require Import Prelude Resumption Memory KState Sched.

(** ** The types *)

(** The head of a wait queue: NULL or the slot of a task. *)
Definition wait_typed (w : option Z) : Prop := match w with Some t => 0 <= t < 64 | None => True end.

Definition task_typed (t : task_struct) : Prop :=
  length (sigaction t) = 32%nat /\ length (filp t) = 20%nat /\ length (ldt t) = 3%nat.

Definition slot_typed (p : option task_struct) : Prop := match p with Some t => task_typed t | None => True end.

Definition sched_typed (c : sched) : Prop :=
  (length (task c) = 64%nat /\ Forall slot_typed (task c)) /\
  0 <= current c < 64 /\
  length (timer_list c) = 64%nat /\
  (length (wait_motor c) = 4%nat /\ Forall wait_typed (wait_motor c)) /\ length (mon_timer c) = 4%nat /\ length (moff_timer c) = 4%nat /\
  length (gdt c) = 256%nat /\ length (idt c) = 256%nat.

Definition block_typed (b : buffer_head) : Prop := length (b_data b) = 1024%nat /\ wait_typed (b_wait b).
Definition cache_typed (c : cache) : Prop :=
  length (hash_table c) = 307%nat /\ Forall block_typed (bhs c) /\ wait_typed (buffer_wait c).

Definition hd_typed (d : hard_disk) : Prop := length (hd_info d) = 2%nat /\ length (hd d) = 10%nat.
Definition fd_typed (d : floppy_disk) : Prop :=
  length (reply_buffer d) = 7%nat /\ length (tmp_floppy_area d) = 1024%nat /\ wait_typed (wait_on_floppy_select d).
Definition request_typed (r : request_t) : Prop := wait_typed (r_waiting r).
Definition blk_typed (c : blk) : Prop :=
  (length (request c) = 32%nat /\ Forall request_typed (request c)) /\ wait_typed (wait_for_request c) /\ length (blk_dev c) = 7%nat /\ hd_typed (hdd c) /\ fd_typed (fdd c).

Definition inode_typed (i : m_inode) : Prop := length (i_zone i) = 9%nat /\ wait_typed (i_wait i).
Definition super_typed (s : super_block_t) : Prop :=
  length (s_imap s) = 8%nat /\ length (s_zmap s) = 8%nat /\ wait_typed (s_wait s).
Definition fs_typed (c : filesys) : Prop :=
  (length (inode_table c) = 32%nat /\ Forall inode_typed (inode_table c)) /\
  length (file_table c) = 64%nat /\
  (length (super_block c) = 8%nat /\ Forall super_typed (super_block c)).

Definition queue_typed (q : tty_queue) : Prop :=
  length (q_buf q) = 1024%nat /\ 0 <= q_head q < 1024 /\ 0 <= q_tail q < 1024 /\ wait_typed (q_proc q).
Definition tty_typed (t : tty_struct) : Prop :=
  length (termios t) = 36%nat /\ queue_typed (read_q t) /\ queue_typed (write_q t) /\ queue_typed (secondary t).
Definition chr_typed (c : chr) : Prop := length (tty_table c) = 3%nat /\ Forall tty_typed (tty_table c).

Definition typed (s : kstate) : Prop :=
  sched_typed (k_sched s) /\ cache_typed (k_cache s) /\ blk_typed (k_blk s) /\ fs_typed (k_fs s) /\ chr_typed (k_chr s).

(** The tables of the kernel before [main]. *)
Lemma typed_boot : typed boot_k.
Proof.
  unfold typed. split; [|split; [|split; [|split]]].
  - split; [split; [done|repeat constructor]|]. split; [done|]. repeat split. repeat constructor.
  - repeat split. constructor.
  - repeat split. repeat constructor.
  - repeat split; repeat constructor.
  - split; [done|]. repeat apply Forall_cons_2; [..|apply Forall_nil_2].
    all: split; [done|repeat split; done].
Qed.

(** ** Entries of a table *)

(** A table of [n] entries with the property [P]. *)
Section Tables.
Context {A : Type} (P : A -> Prop) (n : nat).
Definition table (l : list A) : Prop := length l = n /\ Forall P l.

Lemma table_get l i x : table l -> arr_get l i = Some x -> P x.
Proof. intros [_ H]. by apply arr_get_Forall. Qed.

Lemma table_set l i x : table l -> P x -> table (arr_set l i x).
Proof.
  intros [Hl H] Hx. split; [by rewrite arr_set_length|]. unfold arr_set. destruct (i <? 0); [done|].
  apply Forall_insert; done.
Qed.

Lemma table_map l f : table l -> (forall x, P x -> P (f x)) -> table (map f l).
Proof. intros [Hl H] Hf. split; [by rewrite length_map|]. apply Forall_map. by eapply Forall_impl. Qed.
End Tables.

Lemma forall_arr_set {A} (P : A -> Prop) l i x : Forall P l -> P x -> Forall P (arr_set l i x).
Proof. intros H Hx. by apply (table_set P (length l) l i x). Qed.

(** ** The parts of the state *)

Section Parts.
Implicit Type s : kstate.

Lemma typed_sched f s : (forall c, sched_typed c -> sched_typed (f c)) -> typed s -> typed (s <| k_sched ::= f |>).
Proof. intros Hf (H1 & H2). split; [by apply Hf|exact H2]. Qed.
Lemma typed_cache f s : (forall c, cache_typed c -> cache_typed (f c)) -> typed s -> typed (s <| k_cache ::= f |>).
Proof. intros Hf (H1 & H2 & H3). split; [exact H1|]. split; [by apply Hf|exact H3]. Qed.
Lemma typed_blk f s : (forall c, blk_typed c -> blk_typed (f c)) -> typed s -> typed (s <| k_blk ::= f |>).
Proof. intros Hf (H1 & H2 & H3 & H4). split; [exact H1|]. split; [exact H2|]. split; [by apply Hf|exact H4]. Qed.
Lemma typed_fs f s : (forall c, fs_typed c -> fs_typed (f c)) -> typed s -> typed (s <| k_fs ::= f |>).
Proof.
  intros Hf (H1 & H2 & H3 & H4 & H5). split; [exact H1|]. split; [exact H2|]. split; [exact H3|]. split; [by apply Hf|exact H5].
Qed.
Lemma typed_chr f s : (forall c, chr_typed c -> chr_typed (f c)) -> typed s -> typed (s <| k_chr ::= f |>).
Proof.
  intros Hf (H1 & H2 & H3 & H4 & H5). split; [exact H1|]. split; [exact H2|]. split; [exact H3|]. split; [exact H4|by apply Hf].
Qed.

(** What a typed state holds in its tables. *)
Lemma typed_task s i t : typed s -> task_slot s i = Some t -> task_typed t.
Proof.
  intros (((_ & H) & _) & _). unfold task_slot, slot_of. destruct (arr_get (task (k_sched s)) i) as [[t'|]|] eqn:E; [|done..].
  intros [= <-]. exact (arr_get_Forall slot_typed _ _ _ H E).
Qed.
Lemma typed_current s : typed s -> 0 <= current (k_sched s) < 64.
Proof. intros ((_ & H & _) & _). exact H. Qed.
Lemma typed_bh s i b : typed s -> arr_get (bhs (k_cache s)) i = Some b -> block_typed b.
Proof. intros (_ & (_ & H & _) & _). by apply arr_get_Forall. Qed.
Lemma typed_inode s i x : typed s -> arr_get (inode_table (k_fs s)) i = Some x -> inode_typed x.
Proof. intros (_ & _ & _ & ((_ & H) & _) & _). by apply arr_get_Forall. Qed.
Lemma typed_super s i x : typed s -> arr_get (super_block (k_fs s)) i = Some x -> super_typed x.
Proof. intros (_ & _ & _ & (_ & _ & _ & H) & _). by apply arr_get_Forall. Qed.
Lemma typed_tty s i t : typed s -> arr_get (tty_table (k_chr s)) i = Some t -> tty_typed t.
Proof. intros (_ & _ & _ & _ & _ & H). by apply arr_get_Forall. Qed.

(** Assignments to an entry. *)
Lemma typed_slot i p s : slot_typed p -> typed s -> typed (set_slot i p s).
Proof.
  intros Hp. apply typed_sched. intros c (H & Hr). split; [|exact Hr]. by apply (table_set slot_typed 64).
Qed.
Lemma typed_set_bh i b s : block_typed b -> typed s -> typed (set_bhs (arr_set (bhs (k_cache s)) i b) s).
Proof.
  intros Hb H. apply (typed_cache (fun c => c <| bhs := arr_set (bhs (k_cache s)) i b |>)); [|exact H].
  intros c (H1 & _ & H3). split; [exact H1|]. split; [|exact H3]. apply forall_arr_set; [apply H|exact Hb].
Qed.
Lemma typed_set_inode i x s : inode_typed x -> typed s -> typed (set_inodes (arr_set (inode_table (k_fs s)) i x) s).
Proof.
  intros Hx H. apply (typed_fs (fun c => c <| inode_table := arr_set (inode_table (k_fs s)) i x |>)); [|exact H].
  intros c [_ H2]. split; [|exact H2]. apply (table_set inode_typed 32); [apply H|exact Hx].
Qed.
Lemma typed_set_file i x s : typed s -> typed (set_files (arr_set (file_table (k_fs s)) i x) s).
Proof.
  intros H. apply (typed_fs (fun c => c <| file_table := arr_set (file_table (k_fs s)) i x |>)); [|exact H].
  intros c (H1 & _ & H3). split; [exact H1|]. split; [|exact H3]. etransitivity; [apply arr_set_length|apply H].
Qed.
Lemma typed_set_super i x s : super_typed x -> typed s -> typed (set_supers (arr_set (super_block (k_fs s)) i x) s).
Proof.
  intros Hx H. apply (typed_fs (fun c => c <| super_block := arr_set (super_block (k_fs s)) i x |>)); [|exact H].
  intros c (H1 & H2 & _). split; [exact H1|]. split; [exact H2|]. apply (table_set super_typed 8); [apply H|exact Hx].
Qed.
Lemma typed_request s i x : typed s -> arr_get (request (k_blk s)) i = Some x -> request_typed x.
Proof. intros (_ & _ & ((_ & H) & _) & _). by apply arr_get_Forall. Qed.
Lemma typed_set_request i x s : request_typed x -> typed s -> typed (set_requests (arr_set (request (k_blk s)) i x) s).
Proof.
  intros Hx H. apply (typed_blk (fun c => c <| request := arr_set (request (k_blk s)) i x |>)); [|exact H].
  intros c (_ & H2). split; [|exact H2]. apply (table_set request_typed 32); [apply H|exact Hx].
Qed.
Lemma typed_set_dev i x s : typed s -> typed (set_blk_dev (arr_set (blk_dev (k_blk s)) i x) s).
Proof.
  intros H. apply (typed_blk (fun c => c <| blk_dev := arr_set (blk_dev (k_blk s)) i x |>)); [|exact H].
  intros c (H1 & Hw & _ & H3). split; [exact H1|]. split; [exact Hw|]. split; [|exact H3]. etransitivity; [apply arr_set_length|apply H].
Qed.
Lemma typed_set_tty i x s : tty_typed x -> typed s -> typed (set_ttys (arr_set (tty_table (k_chr s)) i x) s).
Proof.
  intros Hx H. apply (typed_chr (fun c => c <| tty_table := arr_set (tty_table (k_chr s)) i x |>)); [|exact H].
  intros c _. apply (table_set tty_typed 3); [apply H|exact Hx].
Qed.
End Parts.

(** ** The wait queues *)

(** A queue through which any task can be the head. *)
Definition queue_of_tasks (q : wait_queue) : Prop := forall w s, wait_typed w -> typed s -> typed (wq_put q w s).

Lemma typed_bh_wait i : queue_of_tasks (bh_wait i).
Proof.
  intros w s Hw H. unfold bh_wait. cbn [wq_put]. destruct (arr_get (bhs (k_cache s)) i) as [b|] eqn:E; [|exact H].
  apply typed_set_bh; [|exact H]. split; [apply (typed_bh s i b H E)|exact Hw].
Qed.
Lemma typed_inode_wait i : queue_of_tasks (inode_wait i).
Proof.
  intros w s Hw H. unfold inode_wait. cbn [wq_put]. destruct (arr_get (inode_table (k_fs s)) i) as [x|] eqn:E; [|exact H].
  apply typed_set_inode; [|exact H]. split; [apply (typed_inode s i x H E)|exact Hw].
Qed.
Lemma typed_super_wait i : queue_of_tasks (super_wait i).
Proof.
  intros w s Hw H. unfold super_wait. cbn [wq_put]. destruct (arr_get (super_block (k_fs s)) i) as [x|] eqn:E; [|exact H].
  apply typed_set_super; [|exact H]. destruct (typed_super s i x H E) as (H1 & H2 & _). by repeat split.
Qed.
Lemma typed_request_wait i : queue_of_tasks (request_wait i).
Proof.
  intros w s Hw H. unfold request_wait. cbn [wq_put]. destruct (arr_get (request (k_blk s)) i); [|exact H]. by apply typed_set_request.
Qed.
Lemma typed_free_request_wait : queue_of_tasks free_request_wait.
Proof.
  intros w s Hw. apply (typed_blk (fun c => c <| wait_for_request := w |>)). intros c (H1 & _ & H3). by split.
Qed.
Lemma typed_free_buffer_wait : queue_of_tasks free_buffer_wait.
Proof. intros w s Hw. apply (typed_cache (fun c => c <| buffer_wait := w |>)). intros c (H1 & H2 & _). by split. Qed.
Lemma typed_motor_wait i : queue_of_tasks (motor_wait i).
Proof.
  intros w s Hw. apply (typed_sched (fun c => c <| wait_motor ::= fun l => arr_set l i w |>)). intros c (H1 & H2 & H3 & H4 & H5).
  split; [exact H1|]. split; [exact H2|]. split; [exact H3|]. split; [by apply (table_set wait_typed 4)|exact H5].
Qed.
Lemma typed_floppy_select_wait : queue_of_tasks floppy_select_wait.
Proof.
  intros w s Hw. apply (typed_blk (fun c => c <| fdd ::= fun d => d <| wait_on_floppy_select := w |> |>)).
  intros c (H1 & H2 & H3 & H4 & H5 & H6 & _).
  split; [exact H1|]. split; [exact H2|]. split; [exact H3|]. split; [exact H4|]. by repeat split.
Qed.
