(* ===== verification/SchedProps.v ===== *)
(** * Properties of kernel/sched.c

    The choice of the next task, signals ending a sleep, wait queues whose
    head is always a sleeper and which lose none, and the insertion of kernel timers. *)
From Stdlib Require Import ZArith Lia String Sorted.
From stdpp Require Import base list sets relations.
From S2P Require Import Prelude Resumption Memory KState Runs Sched.

(** ** The loops over the task table *)

Definition set_tasks (l : list (option task_struct)) (s : kstate) : kstate :=
  s <| k_sched ::= fun c => c <| task := l |> |>.

Definition slot (l : list (option task_struct)) (i : Z) : option task_struct :=
  match arr_get l i with Some (Some t) => Some t | _ => None end.

Definition map_slot (f : task_struct -> task_struct) (l : list (option task_struct)) (i : Z) :=
  match slot l i with Some t => arr_set l i (Some (f t)) | None => l end.

Lemma map_slot_lookup f l i j :
  slot (map_slot f l i) j = if decide (i = j) then f <$> slot l j else slot l j.
Proof.
  unfold map_slot. destruct (slot l i) as [t|] eqn:E.
  - assert (0 <= i < Z.of_nat (length l)) as Hr.
    { unfold slot in E. destruct (arr_get l i) eqn:E'; [|done]. by apply arr_get_Some_range in E'. }
    unfold slot at 1. case_decide as Hij.
    + subst j. rewrite arr_get_set_eq by done. by rewrite E.
    + rewrite arr_get_set_ne by done. done.
  - case_decide; [subst; by rewrite E|done].
Qed.

Lemma for_slots_run f ls n s :
  for_each ls (fun i =>
    let! s := get in
    match task_slot s i with
    | Some t => modify (set_slot i (Some (f t)))
    | None => ret tt
    end) n s = Done tt (set_tasks (fold_left (map_slot f) ls (task (k_sched s))) s).
Proof.
  revert s. induction ls as [|i ls IH]; intros s; cbn [for_each fold_left].
  - by destruct s as [? [] ? ? ? ? ?].
  - unfold bind at 1. unfold bind at 1, get at 1. cbn [obind].
    unfold map_slot at 2. change (task_slot s i) with (slot (task (k_sched s)) i).
    destruct (slot (task (k_sched s)) i) as [t|] eqn:E.
    + unfold modify. cbn [obind]. rewrite IH. done.
    + unfold ret. cbn [obind]. rewrite IH. done.
Qed.

Lemma fold_map_slot f ls l j :
  NoDup ls -> slot (fold_left (map_slot f) ls l) j = if decide (j ∈ ls) then f <$> slot l j else slot l j.
Proof.
  revert l. induction ls as [|i ls IH]; intros l Hnd; cbn [fold_left].
  - by rewrite decide_False by set_solver.
  - apply NoDup_cons in Hnd as [Hi Hnd]. rewrite IH by done. rewrite map_slot_lookup.
    destruct (decide (i = j)) as [->|Hij].
    + by rewrite decide_False, decide_True by set_solver.
    + destruct (decide (j ∈ ls)) as [Hj|Hj]; [rewrite decide_True by set_solver|rewrite decide_False by set_solver]; done.
Qed.

Lemma slots_down_elem i : i ∈ slots_down <-> 1 <= i <= 63.
Proof.
  unfold slots_down.
  rewrite list_elem_of_In, <- in_rev, zrange_elem. lia.
Qed.

Lemma slots_down_NoDup : NoDup slots_down.
Proof. apply (bool_decide_unpack _). vm_compute. exact I. Qed.

(** What [for_tasks f] does. *)
Definition map_tasks (f : task_struct -> task_struct) (s : kstate) : kstate :=
  set_tasks (fold_left (map_slot f) slots_down (task (k_sched s))) s.

Lemma for_tasks_run f n s : for_tasks f n s = Done tt (map_tasks f s).
Proof. apply for_slots_run. Qed.

Lemma map_tasks_slot f s i :
  task_slot (map_tasks f s) i = if decide (1 <= i <= 63) then f <$> task_slot s i else task_slot s i.
Proof.
  change (task_slot (map_tasks f s) i) with (slot (fold_left (map_slot f) slots_down (task (k_sched s))) i).
  rewrite fold_map_slot by apply slots_down_NoDup.
  pose proof (slots_down_elem i). repeat case_decide; done || tauto.
Qed.

(** ** The choice of the next task *)

Definition runnable (s : kstate) (i : Z) (t : task_struct) : Prop :=
  1 <= i <= 63 /\ task_slot s i = Some t /\ state t = TASK_RUNNING.

(** Slot [next] is what [schedule] should run: a runnable task with the largest
    time slice left (the highest slot of those that have it), or the idle task
    when nothing is runnable. *)
Definition best (s : kstate) (next : Z) : Prop :=
  (next = 0 /\ forall i t, ~ runnable s i t) \/
  (exists t, runnable s next t /\ 0 < counter t /\
     forall i t', runnable s i t' -> counter t' <= counter t /\ (next < i -> counter t' < counter t)).

Definition scanned (s : kstate) (ls : list Z) (acc : Z * Z) : Prop :=
  -1 <= acc.1 /\
  (forall i t, i ∈ ls -> task_slot s i = Some t -> state t = TASK_RUNNING -> counter t <= acc.1) /\
  (acc = (-1, 0) \/
   exists l1 l2 t, ls = l1 ++ acc.2 :: l2 /\ task_slot s acc.2 = Some t /\ state t = TASK_RUNNING /\
     counter t = acc.1 /\ -1 < acc.1 /\
     forall i t', i ∈ l1 -> task_slot s i = Some t' -> state t' = TASK_RUNNING -> counter t' < acc.1).

Lemma scan_slots s ls : scanned s ls (fold_left (better s) ls (-1, 0)).
Proof.
  induction ls as [|i ls IH] using rev_ind.
  - split; [done|]. split; [set_solver|by left].
  - rewrite fold_left_app. cbn [fold_left]. destruct (fold_left (better s) ls (-1, 0)) as [c nx].
    destruct IH as (H1 & H2 & H3). cbn [fst snd] in *. unfold better. cbn [fst].
    destruct (task_slot s i) as [t|] eqn:E; [destruct (Z.eqb_spec (state t) TASK_RUNNING) as [Hs|Hs]|];
      cbn [andb]; [destruct (Z.ltb_spec c (counter t))| |]; (split; [cbn [fst]; lia|]); cbn [fst snd]; split.
    + intros j u [Hj| ->%list_elem_of_singleton]%elem_of_app Hu Hr; [specialize (H2 j u Hj Hu Hr); lia|].
      by simplify_eq.
    + right. exists ls, [], t. repeat split; try done; try lia.
      intros j u Hj Hu Hr. specialize (H2 j u Hj Hu Hr). lia.
    + intros j u [Hj| ->%list_elem_of_singleton]%elem_of_app Hu Hr; [eauto|by simplify_eq].
    + destruct H3 as [?|(l1 & l2 & u & -> & Hrest)]; [by left|right]. exists l1, (l2 ++ [i]), u.
      split; [by rewrite <- app_assoc|done].
    + intros j u [Hj| ->%list_elem_of_singleton]%elem_of_app Hu Hr; [eauto|by simplify_eq].
    + destruct H3 as [?|(l1 & l2 & u & -> & Hrest)]; [by left|right]. exists l1, (l2 ++ [i]), u.
      split; [by rewrite <- app_assoc|done].
    + intros j u [Hj| ->%list_elem_of_singleton]%elem_of_app Hu Hr; [eauto|by simplify_eq].
    + destruct H3 as [?|(l1 & l2 & u & -> & Hrest)]; [by left|right]. exists l1, (l2 ++ [i]), u.
      split; [by rewrite <- app_assoc|done].
Qed.

Lemma slots_down_sorted l1 next l2 i : slots_down = l1 ++ next :: l2 -> next < i <= 63 -> i ∈ l1.
Proof.
  intros E Hi. assert (H : StronglySorted Z.gt slots_down).
  { apply Sorted_StronglySorted; [intros x y z; lia|]. vm_compute. repeat constructor. }
  assert (Hn : 1 <= next <= 63) by (apply slots_down_elem; rewrite E; set_solver).
  assert (Hin : i ∈ slots_down) by (apply slots_down_elem; lia).
  rewrite E in H, Hin. apply elem_of_app in Hin as [?|Hin]; [done|].
  apply elem_of_cons in Hin as [->|Hin]; [lia|]. clear E. exfalso.
  induction l1 as [|x l1 IH]; simpl in H; inversion H as [|? ? ? HF]; subst; [|auto].
  rewrite Forall_forall in HF. specialize (HF i Hin). lia.
Qed.

Lemma pick_spec s :
  let (c, next) := pick s in
  -1 <= c /\ (forall i t, runnable s i t -> counter t <= c) /\
  ((c, next) = (-1, 0) \/
   exists t, runnable s next t /\ counter t = c /\
     forall i t', runnable s i t' -> next < i -> counter t' < c).
Proof.
  pose proof (scan_slots s slots_down) as H. unfold pick.
  destruct (fold_left (better s) slots_down (-1, 0)) as [c next]. destruct H as (H1 & H2 & H3).
  cbn [fst snd] in *. split; [done|]. split.
  - intros i t (Hi & Ht & Hr). apply (H2 i t); [by apply slots_down_elem|done|done].
  - destruct H3 as [?|(l1 & l2 & t & E & Ht & Hr & Hc & Hlt & Hl)]; [by left|right].
    exists t. assert (1 <= next <= 63) by (apply slots_down_elem; rewrite E; set_solver).
    split; [done|]. split; [done|]. intros i t' (Hi & Ht' & Hr') Hn.
    apply (Hl i t'); [|done|done]. eapply slots_down_sorted; [exact E|lia].
Qed.

(** The ranges of the time slices, preserved by [recharge]. *)
Definition slices_ok (s : kstate) : Prop :=
  forall i t, 1 <= i <= 63 -> task_slot s i = Some t ->
    0 <= counter t <= 2 ^ 30 /\ 0 < priority t <= 2 ^ 29.

Lemma recharge_spec t :
  0 <= counter t <= 2 ^ 30 -> 0 < priority t <= 2 ^ 29 ->
  counter (recharge t) = counter t / 2 + priority t /\ 0 < counter (recharge t) <= 2 ^ 30.
Proof.
  intros Hc Hp. unfold recharge. cbn [counter upd]. simpl. rewrite Z.shiftr_div_pow2 by lia.
  change (2 ^ 1) with 2. pose proof (Z.div_pos (counter t) 2 ltac:(lia) ltac:(lia)).
  pose proof (Z.div_le_upper_bound (counter t) 2 (2 ^ 29) ltac:(lia) ltac:(lia)).
  rewrite s32_small by lia. lia.
Qed.

(** The state in which the choice is made. *)
Definition recharged (s : kstate) : kstate :=
  if fst (pick s) =? 0 then map_tasks recharge s else s.

Lemma choose_run n s :
  slices_ok s -> (2 <= n)%nat ->
  exists next, choose n s = Done next (recharged s) /\ best (recharged s) next.
Proof.
  intros Hok Hn. destruct n as [|[|n]]; [lia|lia|]. unfold choose, loop, recharged.
  cbn [iterate]. unfold bind at 1, get at 1. cbn [obind].
  pose proof (pick_spec s) as Hpk. destruct (pick s) as [c next]. destruct Hpk as (H1 & H2 & H3).
  cbn [fst]. destruct (Z.eqb_spec c 0) as [->|Hc]; cbn [nz negb Z.eqb].
  - unfold bind at 1. rewrite for_tasks_run. unfold ret. cbn [obind].
    unfold bind at 1, get at 1. cbn [obind]. set (s1 := map_tasks recharge s).
    assert (Hr : forall i t, runnable s1 i t ->
      exists t0, runnable s i t0 /\ t = recharge t0 /\ 0 < counter t).
    { intros i t (Hi & Ht & Hs). unfold s1 in Ht. rewrite map_tasks_slot, decide_True in Ht by done.
      destruct (task_slot s i) as [t0|] eqn:E; [|done]. injection Ht as <-.
      destruct (Hok i t0 Hi E) as [Hc Hp]. exists t0. split; [done|]. split; [done|].
      by apply recharge_spec. }
    pose proof (pick_spec s1) as Hpk1. destruct (pick s1) as [c1 next1]. destruct Hpk1 as (G1 & G2 & G3).
    destruct H3 as [?|(t0 & (Hi & Ht & Hs) & Hct & _)]; [congruence|].
    assert (Hrt : runnable s1 next (recharge t0)).
    { split; [done|]. split; [|done]. unfold s1. by rewrite map_tasks_slot, decide_True, Ht by done. }
    assert (Hpos : 0 < c1).
    { destruct (Hr _ _ Hrt) as (_ & _ & _ & ?). pose proof (G2 _ _ Hrt). lia. }
    replace (nz c1) with true by (symmetry; apply nz_true; lia). cbn [obind].
    exists next1. split; [done|]. right.
    destruct G3 as [?|(t1 & Ht1 & <- & Hlt)]; [simplify_eq; lia|].
    exists t1. split; [done|]. split; [done|]. intros i t' Hi'. split; eauto.
  - replace (nz c) with true by (symmetry; apply nz_true; lia). unfold ret. cbn [obind].
    exists next. split; [done|]. destruct H3 as [[= -> ->]|(t & Ht & <- & Hlt)].
    + left. split; [done|]. intros i t Hr. pose proof (H2 i t Hr). destruct Hr as (Hi & Ht & _).
      destruct (Hok i t Hi Ht). lia.
    + right. destruct (Hok next t ltac:(apply Ht) ltac:(apply Ht)).
      exists t. split; [done|]. split; [lia|]. intros i t' Hi. split; eauto.
Qed.

Lemma check_task_slices now t :
  counter (check_task now t) = counter t /\ priority (check_task now t) = priority t.
Proof.
  unfold check_task, wake_signalled, expire_alarm.
  destruct (nz (alarm t) && (alarm t <? now)); destruct (_ && _); done.
Qed.

(** The state in which [schedule] chooses. *)
Definition checked (s : kstate) : kstate := map_tasks (check_task (jiffies (k_sched s))) s.

Lemma map_tasks_frame f s : exists l, map_tasks f s = set_tasks l s.
Proof. eexists. reflexivity. Qed.

Opaque map_tasks pick.

Lemma checked_slices s : slices_ok s -> slices_ok (checked s).
Proof.
  intros Hok i t Hi Ht. unfold checked in Ht. rewrite map_tasks_slot, decide_True in Ht by done.
  destruct (task_slot s i) as [t0|] eqn:E; [|done]. injection Ht as <-.
  destruct (check_task_slices (jiffies (k_sched s)) t0) as [-> ->]. by apply (Hok i).
Qed.

Lemma recharged_slices s : slices_ok s -> slices_ok (recharged s).
Proof.
  intros Hok. unfold recharged. destruct (_ =? 0); [|done].
  intros i t Hi Ht. rewrite map_tasks_slot, decide_True in Ht by done.
  destruct (task_slot s i) as [t0|] eqn:E; [|done]. injection Ht as <-.
  destruct (Hok i t0 Hi E) as [Hc Hp]. destruct (recharge_spec t0 Hc Hp) as [E1 E2].
  split; [lia|exact Hp].
Qed.

Definition ready (s : kstate) : kstate := recharged (checked s).

Lemma schedule_run n s :
  slices_ok s -> (2 <= n)%nat ->
  exists next, schedule n s = switch_to next n (ready s) /\ best (ready s) next.
Proof.
  intros Hok Hn.
  destruct (choose_run n (checked s) (checked_slices s Hok) Hn) as (next & E & Hb).
  change (recharged (checked s)) with (ready s) in E, Hb. exists next. split; [|exact Hb].
  unfold schedule, bind at 1, get. cbn [obind]. unfold bind at 1.
  rewrite for_tasks_run. fold (checked s). cbn [obind].
  unfold bind at 1. rewrite E.  cbn [obind]. reflexivity.
Qed.

(** C7. [schedule] always finds a task: having delivered expired alarms and woken
    the tasks with an unblocked signal, and having recharged the time slices (half
    of what is left plus the priority) when and only when every runnable task has
    used its own up, it switches to a runnable task whose slice is the largest, the
    highest slot of those, or to the idle task 0 when nothing is runnable; and the
    slices stay within their bounds. *)
Theorem schedule_picks_best (n : nat) (s : kstate) :
  slices_ok s -> (2 <= n)%nat ->
  let s1 := map_tasks (check_task (jiffies (k_sched s))) s in
  exists s2 next,
    schedule n s = switch_to next n s2 /\ best s2 next /\ slices_ok s2 /\
    (s2 = s1 \/
     s2 = map_tasks recharge s1 /\ (exists i t, runnable s1 i t) /\
     forall i t, runnable s1 i t -> counter t = 0).
Proof.
  intros Hok Hn s1. destruct (schedule_run n s Hok Hn) as (next & E & Hb).
  exists (ready s), next. split; [done|]. split; [done|].
  split; [by apply recharged_slices, checked_slices|].
  unfold ready, recharged. fold (checked s) in s1. fold s1.
  pose proof (pick_spec s1) as Hp. destruct (pick s1) as [c nx]. destruct Hp as (H1 & H2 & H3).
  cbn [fst]. destruct (Z.eqb_spec c 0) as [->|Hc]; [right|by left].
  split; [done|]. destruct H3 as [?|(t & Ht & _)]; [congruence|]. split; [by exists nx, t|].
  intros i t' Hr. pose proof (H2 i t' Hr). destruct Hr as (Hi & Ht' & _).
  destruct (checked_slices s Hok i t' Hi Ht'). lia.
Qed.

Lemma some_bit a : a <> 0 -> exists k, 0 <= k /\ Z.testbit a k = true.
Proof.
  intros Ha. destruct (Z.lt_trichotomy a 0) as [Hn|[?|Hp]]; [|done|].
  - destruct (proj1 (Z.bits_iff_neg_ex a) Hn) as (k & Hk). exists (Z.max k 0 + 1).
    split; [lia|apply Hk; lia].
  - exists (Z.log2 a). split; [apply Z.log2_nonneg|by apply Z.bit_log2].
Qed.

(** A pending signal counts for the scheduler exactly when it is not blocked,
    and SIGKILL and SIGSTOP count whatever is blocked; only an interruptible sleep
    is ended by it. *)
Theorem signals_wake (t : task_struct) :
  (has_signal t = true <->
   exists nr, 1 <= nr /\ Z.testbit (signal t) (nr - 1) = true /\
     (nr = SIGKILL \/ nr = SIGSTOP \/ Z.testbit (blocked t) (nr - 1) = false)) /\
  state (wake_signalled t) =
    (if decide (has_signal t = true /\ state t = TASK_INTERRUPTIBLE) then TASK_RUNNING else state t) /\
  signal (wake_signalled t) = signal t /\ blocked (wake_signalled t) = blocked t.
Proof.
  split.
  - unfold has_signal. rewrite nz_true.
    assert (Hbit : forall k, 0 <= k -> Z.testbit (Z.land (signal t) (Z.lnot (Z.land BLOCKABLE (blocked t)))) k
      = Z.testbit (signal t) k && ((k =? 8) || (k =? 18) || negb (Z.testbit (blocked t) k))).
    { intros k Hk. rewrite Z.land_spec, Z.lnot_spec, Z.land_spec by done. f_equal.
      assert (E : Z.testbit BLOCKABLE k = negb ((k =? 8) || (k =? 18))); [|rewrite E].
      - change BLOCKABLE with (Z.lnot (Z.lor (2 ^ 8) (2 ^ 18))).
        rewrite Z.lnot_spec, Z.lor_spec, !Z.pow2_bits_eqb by lia. f_equal.
        by rewrite (Z.eqb_sym 8), (Z.eqb_sym 18).
      - by destruct (_ || _), (Z.testbit (blocked t) k). }
    split.
    + intros [k [Hk H]]%some_bit. rewrite Hbit in H by done. exists (k + 1).
      replace (k + 1 - 1) with k by lia. apply andb_true_iff in H as [H1 H2].
      split; [lia|]. split; [done|]. unfold SIGKILL, SIGSTOP.
      apply orb_true_iff in H2 as [[H2|H2]%orb_true_iff|H2]; bprop; [left; lia|right; left; lia|by right; right].
    + intros (nr & Hnr & H1 & H2) H0. specialize (Hbit (nr - 1) ltac:(lia)).
      rewrite H0, Z.bits_0, H1 in Hbit. symmetry in Hbit. cbn [andb] in Hbit.
      apply orb_false_iff in Hbit as [[Hb1 Hb2]%orb_false_iff Hb3]. bprop.
      unfold SIGKILL, SIGSTOP in H2. destruct H2 as [?|[?|H2]]; [lia|lia|].
      by rewrite H2 in Hb3.
  - unfold wake_signalled. destruct (has_signal t) eqn:E; cbn [andb].
    + destruct (Z.eqb_spec (state t) TASK_INTERRUPTIBLE) as [E2|E2].
      * rewrite decide_True by done. done.
      * rewrite decide_False by (intros [_ ?]; done). done.
    + rewrite decide_False by (intros [? _]; done). done.
Qed.

(** A machine with two user tasks, the second out of its time slice. *)
Definition two_tasks : kstate :=
  set_slot 2 (Some ((init_task 0) <| pid := 2 |> <| counter := 0 |>))
    (set_slot 1 (Some ((init_task 0) <| pid := 1 |> <| counter := 7 |>)) boot_k).

Lemma slices_by_computation s :
  forallb (fun i => match task_slot s i with
                    | Some t => (0 <=? counter t) && (counter t <=? 2 ^ 30) &&
                                (0 <? priority t) && (priority t <=? 2 ^ 29)
                    | None => true end) slots_down = true -> slices_ok s.
Proof.
  rewrite forallb_forall. intros H i t Hi Ht.
  specialize (H i). rewrite Ht in H. specialize (H (proj1 (list_elem_of_In _ _) (proj2 (slots_down_elem i) Hi))).
  bprop. lia.
Qed.

Lemma schedule_picks_best_witness :
  let s1 := map_tasks (check_task (jiffies (k_sched two_tasks))) two_tasks in
  exists s2 next,
    schedule 2%nat two_tasks = switch_to next 2%nat s2 /\ best s2 next /\ slices_ok s2 /\
    (s2 = s1 \/
     s2 = map_tasks recharge s1 /\ (exists i t, runnable s1 i t) /\
     forall i t, runnable s1 i t -> counter t = 0).
Proof.
  apply (schedule_picks_best 2%nat two_tasks).
  - apply slices_by_computation. vm_compute. reflexivity.
  - constructor.
Defined.

(** ** Wait queues *)

(** What the routines rely on of the place a wait queue is kept in: it is a
    variable, and rescheduling does not touch it. *)
Definition rescheduled (l : list (option task_struct)) (c : Z) (s : kstate) : kstate :=
  s <| k_sched ::= fun r => r <| task := l |> <| current := c |> |>.

Class WaitQueue (q : wait_queue) (valid : kstate -> Prop) : Prop := {
  wq_get_put s w : valid s -> wq_get q (wq_put q w s) = w;
  wq_valid_put s w : valid s -> valid (wq_put q w s);
  wq_put_sched s w : task (k_sched (wq_put q w s)) = task (k_sched s) /\
    current (k_sched (wq_put q w s)) = current (k_sched s);
  wq_get_frame s l c : wq_get q (rescheduled l c s) = wq_get q s;
  wq_valid_frame s l c : valid s -> valid (rescheduled l c s)
}.

Section TableQueues.
Context {X : Type} (tab : kstate -> list X) (put : list X -> kstate -> kstate).
Context (fld : X -> option Z) (set_fld : option Z -> X -> X).
Context (tab_put : forall l s, tab (put l s) = l) (fld_set : forall w x, fld (set_fld w x) = w).
Context (put_sched : forall l s, k_sched (put l s) = k_sched s).
Context (tab_frame : forall l c s, tab (rescheduled l c s) = tab s).

Definition table_wait (i : Z) : wait_queue := mkWq
  (fun s => match arr_get (tab s) i with Some b => fld b | None => None end)
  (fun w s => match arr_get (tab s) i with
              | Some b => put (arr_set (tab s) i (set_fld w b)) s
              | None => s end).

Lemma table_wait_ok i : WaitQueue (table_wait i) (fun s => 0 <= i < Z.of_nat (length (tab s))).
Proof.
  split; unfold table_wait; cbn [wq_get wq_put].
  - intros s w Hi. destruct (arr_get_is_Some (tab s) i Hi) as [b ->].
    by rewrite tab_put, arr_get_set_eq.
  - intros s w Hi. destruct (arr_get_is_Some (tab s) i Hi) as [b ->].
    by rewrite tab_put, arr_set_length.
  - intros s w. destruct (arr_get (tab s) i); by rewrite ?put_sched.
  - intros s l c. by rewrite tab_frame.
  - intros s l c. by rewrite tab_frame.
Qed.
End TableQueues.

#[export] Instance bh_wait_ok i :
  WaitQueue (bh_wait i) (fun s => 0 <= i < Z.of_nat (length (bhs (k_cache s)))).
Proof. by apply (table_wait_ok (fun s => bhs (k_cache s)) set_bhs b_wait (fun w b => b <| b_wait := w |>)). Qed.
#[export] Instance inode_wait_ok i :
  WaitQueue (inode_wait i) (fun s => 0 <= i < Z.of_nat (length (inode_table (k_fs s)))).
Proof. by apply (table_wait_ok (fun s => inode_table (k_fs s)) set_inodes i_wait (fun w b => b <| i_wait := w |>)). Qed.
#[export] Instance super_wait_ok i :
  WaitQueue (super_wait i) (fun s => 0 <= i < Z.of_nat (length (super_block (k_fs s)))).
Proof. by apply (table_wait_ok (fun s => super_block (k_fs s)) set_supers s_wait (fun w b => b <| s_wait := w |>)). Qed.
#[export] Instance request_wait_ok i :
  WaitQueue (request_wait i) (fun s => 0 <= i < Z.of_nat (length (request (k_blk s)))).
Proof. by apply (table_wait_ok (fun s => request (k_blk s)) set_requests r_waiting (fun w b => b <| r_waiting := w |>)). Qed.
#[export] Instance motor_wait_ok i :
  WaitQueue (motor_wait i) (fun s => 0 <= i < Z.of_nat (length (wait_motor (k_sched s)))).
Proof.
  split; try done.
  - intros s w Hi. unfold motor_wait. cbn [wq_get wq_put]. simpl. by rewrite arr_get_set_eq.
  - intros s w Hi. unfold motor_wait. cbn [wq_put]. simpl. by rewrite arr_set_length.
Qed.
#[export] Instance free_request_wait_ok : WaitQueue free_request_wait (fun _ => True).
Proof. by split. Qed.
#[export] Instance free_buffer_wait_ok : WaitQueue free_buffer_wait (fun _ => True).
Proof. by split. Qed.

Definition set_cur (i : Z) (s : kstate) : kstate := s <| k_sched ::= fun c => c <| current := i |> |>.

Lemma set_cur_slot c s i : task_slot (set_cur c s) i = task_slot s i.
Proof. done. Qed.
Lemma set_cur_current c s : current (k_sched (set_cur c s)) = c.
Proof. done. Qed.

(** Only the task table differs in the state [schedule] chooses in. *)
Lemma ready_frame s : exists l, ready s = set_tasks l s.
Proof.
  unfold ready, recharged, checked. destruct (map_tasks_frame (check_task (jiffies (k_sched s))) s) as [l ->].
  destruct (_ =? 0); [|by exists l].
  destruct (map_tasks_frame recharge (set_tasks l s)) as [l' ->]. by exists l'.
Qed.

Definition woken_state (t t' : task_struct) : Prop :=
  state t' = state t \/ state t = TASK_INTERRUPTIBLE /\ state t' = TASK_RUNNING.

Lemma wake_signalled_state t : woken_state t (wake_signalled t).
Proof.
  unfold wake_signalled, woken_state. destruct (has_signal t); cbn [andb]; [|by left].
  destruct (Z.eqb_spec (state t) TASK_INTERRUPTIBLE); [by right|by left].
Qed.

Lemma check_task_state now t : woken_state t (check_task now t).
Proof.
  unfold woken_state, check_task. assert (E : state (expire_alarm now t) = state t)
    by (unfold expire_alarm; by destruct (_ && _)).
  rewrite <- E. apply wake_signalled_state.
Qed.

Lemma ready_slot s i :
  match task_slot s i, task_slot (ready s) i with
  | Some t, Some t' => woken_state t t'
  | None, None => True
  | _, _ => False
  end.
Proof.
  assert (H : forall g s0, (forall t, woken_state t (g t)) ->
    match task_slot s0 i, task_slot (map_tasks g s0) i with
    | Some t, Some t' => woken_state t t' | None, None => True | _, _ => False end).
  { intros g s0 Hg. rewrite map_tasks_slot. destruct (task_slot s0 i) as [t|]; case_decide; simpl; try done.
    by left. }
  pose proof (H (check_task (jiffies (k_sched s))) s (check_task_state _)) as H1.
  unfold ready, recharged. fold (checked s) in H1. destruct (_ =? 0); [|done].
  pose proof (H recharge (checked s) (fun t => or_introl eq_refl)) as H2.
  destruct (task_slot s i) as [t|], (task_slot (checked s) i) as [t1|],
    (task_slot (map_tasks recharge (checked s)) i) as [t2|] eqn:E; try done.
  destruct H2 as [E2|[E2 E3]], H1 as [E1|[E1 E1']]; unfold woken_state; rewrite ?E2, ?E1, ?E3, ?E1' in *; auto.
Qed.

Opaque ready.

Lemma switch_to_run next n s :
  next <> current (k_sched s) ->
  switch_to next n s = Sleep (set_cur next s) (fun s' => Done tt (set_cur (current (k_sched s)) s')).
Proof.
  intros H. unfold switch_to, bind at 1, get. cbn [obind].
  destruct (Z.eqb_spec next (current (k_sched s))); done.
Qed.

(** A task that is not runnable and calls [schedule] gives the processor away. *)
Lemma schedule_sleeps n s t :
  slices_ok s -> (2 <= n)%nat -> 1 <= current (k_sched s) <= 63 ->
  task_slot s (current (k_sched s)) = Some t -> state t = TASK_UNINTERRUPTIBLE ->
  exists next, next <> current (k_sched s) /\
    schedule n s = Sleep (set_cur next (ready s)) (fun s' => Done tt (set_cur (current (k_sched s)) s')).
Proof.
  intros Hok Hn Hc Ht Hs. destruct (schedule_run n s Hok Hn) as (next & -> & Hb).
  destruct (ready_frame s) as (l & El). assert (Ec : current (k_sched (ready s)) = current (k_sched s)) by by rewrite El.
  assert (Hne : next <> current (k_sched s)).
  { intros ->. destruct Hb as [[? _]|(t' & (_ & Ht' & Hr) & _)]; [lia|].
    pose proof (ready_slot s (current (k_sched s))) as Hw. rewrite Ht, Ht' in Hw.
    destruct Hw as [E|[E _]]; rewrite Hs in E; [by rewrite Hr in E|done]. }
  exists next. split; [done|]. rewrite switch_to_run by congruence. by rewrite Ec.
Qed.

Section Sleeping.
Context (q : wait_queue) (valid : kstate -> Prop) {Hq : WaitQueue q valid}.

(** Task [me] going to sleep on [q], and what it does when it is resumed. *)
Definition wakes (tmp : option Z) (me : Z) (n : nat) (s : kstate) : outcome kstate unit :=
  wake_task tmp n (set_cur me s).

Lemma set_slot_lookup i j o t s :
  task_slot s i = Some t -> task_slot (set_slot i o s) j = if decide (i = j) then o else task_slot s j.
Proof.
  intros H. apply task_slot_set. by eapply task_slot_range.
Qed.

Lemma set_slot_slices i o s :
  slices_ok s -> (forall t t', task_slot s i = Some t -> o = Some t' -> counter t' = counter t /\ priority t' = priority t) ->
  (exists t, task_slot s i = Some t) -> slices_ok (set_slot i o s).
Proof.
  intros Hok H [t Ht] j u Hj Hu. rewrite (set_slot_lookup i j o t s Ht) in Hu.
  case_decide; [subst j; destruct (H t u Ht Hu) as [-> ->]; by apply (Hok i)|by apply (Hok j)].
Qed.

Lemma sleep_on_run n s me t :
  slices_ok s -> (2 <= n)%nat -> valid s -> current (k_sched s) = me -> 1 <= me <= 63 ->
  task_slot s me = Some t ->
  exists s', sleep_on q n s = Sleep s' (wakes (wq_get q s) me n) /\
    valid s' /\ wq_get q s' = Some me /\ current (k_sched s') <> me /\
    (exists t', task_slot s' me = Some t' /\ state t' = TASK_UNINTERRUPTIBLE) /\
    (forall i, i <> me -> match task_slot s i, task_slot s' i with
       | Some u, Some u' => woken_state u u' | None, None => True | _, _ => False end).
Proof.
  intros Hok Hn Hv Hc Hme Ht. unfold sleep_on, bind at 1, get. cbn [obind]. rewrite Hc.
  destruct (Z.eqb_spec me 0); [lia|]. unfold bind at 1, modify. cbn [obind].
  set (s1 := wq_put q (Some me) s). destruct (wq_put_sched s (Some me)) as [Et Ec].
  fold s1 in Et, Ec. assert (Es : forall i, task_slot s1 i = task_slot s i)
    by (intros i; unfold task_slot, slot_of; by rewrite Et).
  assert (Ht1 : task_slot s1 me = Some t) by by rewrite Es.
  unfold bind at 1. unfold cur_upd, bind at 1, get. cbn [obind]. rewrite Ec, Hc.
  rewrite (task_upd_run me _ t n s1 Ht1). cbn [obind].
  set (t' := t <| state := TASK_UNINTERRUPTIBLE |>). set (s2 := set_slot me (Some t') s1).
  assert (Ec2 : current (k_sched s2) = me) by (unfold s2; simpl; congruence).
  assert (Hl : forall i, task_slot s2 i = if decide (me = i) then Some t' else task_slot s i).
  { intros i. unfold s2. rewrite (set_slot_lookup me i _ t) by done. by rewrite Es. }
  destruct (schedule_sleeps n s2 t') as (next & Hne & E).
  - apply set_slot_slices; [|intros ? ? ? [= <-]; simplify_eq; done|by exists t].
    intros i u Hi Hu. rewrite Es in Hu. by apply (Hok i).
  - done.
  - by rewrite Ec2.
  - by rewrite Ec2, Hl, decide_True.
  - done.
  - destruct (ready_frame s2) as [l El]. unfold bind. rewrite E. cbn [obind].
    assert (Er : set_cur next (ready s2) = rescheduled l next (wq_put q (Some me) s)) by by rewrite El.
    eexists. split; [by rewrite Ec2|]. split; [rewrite Er; by apply wq_valid_frame, wq_valid_put|].
    split; [rewrite Er, wq_get_frame; by apply (wq_get_put (valid := valid))|].
    split; [rewrite set_cur_current; congruence|]. split.
    + pose proof (ready_slot s2 me) as Hr. rewrite Hl, decide_True in Hr by done.
      rewrite set_cur_slot.
      destruct (task_slot (ready s2) me) as [t2|]; [|done]. exists t2. split; [done|].
      by destruct Hr as [->|[? _]].
    + intros i Hi. rewrite set_cur_slot.
      pose proof (ready_slot s2 i) as Hr. by rewrite Hl, decide_False in Hr by done.
Qed.

Definition awake (s : kstate) (i : Z) : Prop :=
  exists t, task_slot s i = Some t /\ state t = TASK_RUNNING.

Lemma awake_state s i : awake s i <-> state <$> task_slot s i = Some TASK_RUNNING.
Proof. symmetry. rewrite fmap_Some. unfold awake. split; intros (t & ? & ?); by exists t. Qed.

(** A task in [sleep_on]: the head of the queue it found when it went to sleep, and the
    rest of its [sleep_on]. *)
Record sleeper := mkSleeper { sl_task : Z; sl_before : option Z; sl_rest : kstate -> outcome kstate unit }.

(** The machine, and the tasks in [sleep_on q], the latest first. *)
Definition sleeping : Type := (kstate * list sleeper)%type.

(** A sleeper that has become runnable is resumed and finishes its [sleep_on]. *)
Inductive resumes : sleeping -> sleeping -> Prop :=
| resumed s l1 x l2 s' :
    awake s (sl_task x) -> sl_rest x s = Done tt s' -> resumes (s, l1 ++ x :: l2) (s', l1 ++ l2).

(** Everything that can happen to the queue: a task that is not already asleep on it
    calls [sleep_on], [wake_up] is called, a sleeper is resumed, and other code runs,
    which leaves the queue and the states of the sleepers alone (an uninterruptible
    sleep is ended by nothing but its own queue). *)
Inductive wq_step (n : nat) : sleeping -> sleeping -> Prop :=
| wq_sleep s l s' k me :
    slices_ok s -> current (k_sched s) = me -> 1 <= me <= 63 -> is_Some (task_slot s me) ->
    me ∉ map sl_task l ->
    sleep_on q n s = Sleep s' k ->
    wq_step n (s, l) (s', mkSleeper me (wq_get q s) k :: l)
| wq_wake s l s' :
    wake_up q n s = Done tt s' -> wq_step n (s, l) (s', l)
| wq_resume c c' : resumes c c' -> wq_step n c c'
| wq_other s l s' :
    wq_get q s' = wq_get q s -> valid s' ->
    (forall t, t ∈ map sl_task l -> state <$> task_slot s' t = state <$> task_slot s t) ->
    wq_step n (s, l) (s', l).

(** Every sleeper is in [A] or the one a later sleeper will wake. *)
Fixpoint covered (A : Z -> Prop) (l : list sleeper) : Prop :=
  match l with
  | [] => True
  | x :: l' => A (sl_task x) /\ covered (fun u => A u \/ sl_before x = Some u) l'
  end.

Lemma covered_mono (A B : Z -> Prop) l :
  (forall u, u ∈ map sl_task l -> A u -> B u) -> covered A l -> covered B l.
Proof.
  revert A B. induction l as [|x l IH]; intros A B H; simpl; [done|].
  intros [H1 H2]. split; [apply H; [set_solver|done]|].
  eapply IH; [|exact H2]. intros u Hu [?|?]; [left; apply H; [set_solver|done]|by right].
Qed.

Lemma covered_delete (A : Z -> Prop) l1 x l2 :
  covered A (l1 ++ x :: l2) -> covered (fun u => A u \/ sl_before x = Some u) (l1 ++ l2).
Proof.
  revert A. induction l1 as [|y l1 IH]; intros A; simpl.
  - by intros [_ H].
  - intros [H1 H2]. split; [by left|]. eapply covered_mono; [|by apply IH]. simpl. tauto.
Qed.

(** The tasks that wait to be woken: the head of the queue, and those the sleepers
    will wake. *)
Definition chain (c : sleeping) : list Z := option_list (wq_get q c.1) ++ omap sl_before c.2.

Record orderly (n : nat) (c : sleeping) : Prop := {
  o_valid : valid c.1;
  o_rest : forall x, x ∈ c.2 -> sl_rest x = wakes (sl_before x) (sl_task x) n;
  o_nodup : NoDup (map sl_task c.2);
  o_state : forall t, t ∈ map sl_task c.2 ->
    exists u, task_slot c.1 t = Some u /\ (state u = TASK_RUNNING \/ state u = TASK_UNINTERRUPTIBLE);
  o_chain : NoDup (chain c);
  o_asleep : forall t, t ∈ chain c -> t ∈ map sl_task c.2 /\ ~ awake c.1 t;
  o_covered : covered (fun u => awake c.1 u \/ wq_get q c.1 = Some u) c.2
}.

Lemma wake_task_run n s tmp s' :
  wake_task tmp n s = Done tt s' ->
  match tmp with
  | None => s' = s
  | Some h => exists t, task_slot s h = Some t /\ s' = set_slot h (Some (t <| state := TASK_RUNNING |>)) s
  end.
Proof.
  destruct tmp as [h|]; simpl; [|by intros [= ->]].
  unfold task_upd, bind, task_get, deref. destruct (task_slot s h) as [t|] eqn:E; cbn [obind]; [|done].
  intros [= <-]. by exists t.
Qed.

Lemma wake_task_some n s h t :
  task_slot s h = Some t -> wake_task (Some h) n s = Done tt (set_slot h (Some (t <| state := TASK_RUNNING |>)) s).
Proof. apply (task_upd_run h (fun t => t <| state := TASK_RUNNING |>)). Qed.

(** Only the task woken changes, when a task is woken by one that has the processor. *)
Definition woken (tmp : option Z) (s s' : kstate) : Prop :=
  (forall u, tmp = Some u -> awake s' u) /\ forall u, tmp <> Some u -> task_slot s' u = task_slot s u.

Lemma woken_frame s c tmp n s' :
  wake_task tmp n (set_cur c s) = Done tt s' ->
  wq_get q s' = wq_get q s /\ (valid s -> valid s') /\ woken tmp s s'.
Proof.
  intros H%wake_task_run. destruct tmp as [h|].
  - destruct H as (t & Ht & ->).
    change (set_slot h (Some (t <| state := TASK_RUNNING |>)) (set_cur c s))
      with (rescheduled (arr_set (task (k_sched s)) h (Some (t <| state := TASK_RUNNING |>))) c s).
    split; [apply (wq_get_frame (valid := valid))|]. split; [apply wq_valid_frame|].
    change (rescheduled _ c s) with (set_slot h (Some (t <| state := TASK_RUNNING |>)) (set_cur c s)).
    split; intros u Hu; unfold awake; rewrite (set_slot_lookup _ _ _ _ _ Ht).
    + injection Hu as <-. rewrite decide_True by done. by eexists.
    + rewrite decide_False by congruence. done.
  - subst s'. change (set_cur c s) with (rescheduled (task (k_sched s)) c s).
    split; [apply (wq_get_frame (valid := valid))|]. split; [apply wq_valid_frame|]. by split.
Qed.

Lemma woken_awake tmp s s' u : woken tmp s s' -> awake s u \/ tmp = Some u -> awake s' u.
Proof.
  intros [H1 H2] [Ha|?]; [|by apply H1]. destruct (decide (tmp = Some u)); [by apply H1|].
  unfold awake. by rewrite H2.
Qed.

Lemma woken_state_ok tmp s s' t :
  woken tmp s s' ->
  (exists u, task_slot s t = Some u /\ (state u = TASK_RUNNING \/ state u = TASK_UNINTERRUPTIBLE)) ->
  exists u, task_slot s' t = Some u /\ (state u = TASK_RUNNING \/ state u = TASK_UNINTERRUPTIBLE).
Proof.
  intros [H1 H2] H. destruct (decide (tmp = Some t)) as [E|]; [|by rewrite H2].
  destruct (H1 t E) as (u & ? & ?). eauto.
Qed.

Lemma woken_chain tmp s s' W :
  woken tmp s s' -> NoDup (option_list tmp ++ W) -> (forall t, t ∈ option_list tmp ++ W -> ~ awake s t) ->
  NoDup W /\ forall t, t ∈ W -> ~ awake s' t.
Proof.
  intros [_ H] (_ & Hd & Hw)%NoDup_app Hn. split; [done|]. intros t Ht.
  unfold awake. rewrite H; [apply Hn, elem_of_app; by right|]. intros ->. apply (Hd t); [simpl; set_solver|done].
Qed.

Lemma chain_resumed s l1 x l2 : chain (s, l1 ++ x :: l2) ≡ₚ option_list (sl_before x) ++ chain (s, l1 ++ l2).
Proof.
  unfold chain. cbn [fst snd]. rewrite !omap_app. cbn. destruct (sl_before x); simpl; [|done].
  rewrite !app_assoc. by rewrite Permutation_middle.
Qed.

Lemma wake_up_eq n s :
  wake_up q n s = match wq_get q s with
                  | Some h => (wake_task (Some h) ;;; modify (wq_put q None)) n s
                  | None => Done tt s
                  end.
Proof. unfold wake_up, bind at 1, get. cbn [obind]. by destruct (wq_get q s). Qed.

(** The head of the queue is a sleeper and [wake_up] makes it runnable. *)
Lemma wake_up_orderly n c :
  orderly n c ->
  match wq_get q c.1 with
  | Some h => h ∈ map sl_task c.2 /\ exists s', wake_up q n c.1 = Done tt s' /\ valid s' /\
      wq_get q s' = None /\ woken (Some h) c.1 s'
  | None => wake_up q n c.1 = Done tt c.1
  end.
Proof.
  intros H. destruct c as [s l]. cbn [fst snd]. rewrite wake_up_eq.
  destruct (wq_get q s) as [h|] eqn:Eh; [|done].
  destruct (o_asleep _ _ H h) as [Hin _]; [apply elem_of_app; left; cbn [fst]; rewrite Eh; apply elem_of_cons; by left|].
  split; [done|]. destruct (o_state _ _ H h Hin) as (t & Ht & _). cbn [fst] in Ht.
  unfold bind. pose proof (wake_task_some n s h t Ht) as E.
  replace s with (set_cur (current (k_sched s)) s) in E at 1 by by destruct s as [? [] ? ? ? ? ?].
  destruct (woken_frame _ _ _ _ _ E) as (Eq & Hv & H1 & H2).
  rewrite (wake_task_some n s h t Ht). cbn [obind]. set (s1 := set_slot _ _ s) in *. eexists. split; [reflexivity|].
  assert (Hs : forall u, task_slot (wq_put q None s1) u = task_slot s1 u)
    by (intros u; unfold task_slot, slot_of; by rewrite (proj1 (wq_put_sched s1 None))).
  specialize (Hv (o_valid _ _ H)).
  split; [by apply wq_valid_put|]. split; [by apply (wq_get_put (valid := valid))|].
  split; intros u Hu; unfold awake; rewrite Hs; [by apply H1|by apply H2].
Qed.

(** A sleeper that is resumed finishes, having woken the task that slept before it. *)
Lemma resume_orderly n c x s' :
  orderly n c -> x ∈ c.2 -> sl_rest x c.1 = Done tt s' ->
  wq_get q s' = wq_get q c.1 /\ valid s' /\ woken (sl_before x) c.1 s'.
Proof.
  intros H Hx E. rewrite (o_rest _ _ H x Hx) in E. destruct (woken_frame _ _ _ _ _ E) as (? & Hv & ?).
  split; [done|]. split; [apply Hv, (o_valid _ _ H)|done].
Qed.

Lemma resume_total n c x :
  orderly n c -> x ∈ c.2 -> exists s', sl_rest x c.1 = Done tt s'.
Proof.
  intros H Hx. rewrite (o_rest _ _ H x Hx). unfold wakes. destruct (sl_before x) as [h|] eqn:Eb; [|by eexists].
  destruct (o_asleep _ _ H h) as [Hin _].
  { apply elem_of_app. right. apply list_elem_of_omap. by exists x. }
  destruct (o_state _ _ H h Hin) as (t & Ht & _). eexists. apply (wake_task_some n (set_cur (sl_task x) c.1) h t Ht).
Qed.

Lemma orderly_wake n s l s' :
  orderly n (s, l) -> wake_up q n s = Done tt s' -> orderly n (s', l).
Proof.
  intros H E. pose proof (wake_up_orderly n _ H) as Hw. cbn [fst snd] in Hw. rewrite E in Hw.
  destruct (wq_get q s) as [h|] eqn:Eh; [|by injection Hw as ->].
  destruct Hw as (Hin & s1 & [= <-] & Hv & Eq & Hwk).
  assert (Ec : chain (s, l) = option_list (Some h) ++ chain (s', l)) by (unfold chain; cbn [fst snd]; by rewrite Eh, Eq).
  pose proof (o_chain _ _ H) as Hnd. pose proof (o_asleep _ _ H) as Has. rewrite Ec in Hnd, Has.
  destruct (woken_chain _ _ _ _ Hwk Hnd (fun t Ht => proj2 (Has t Ht))) as [Hnd' Has'].
  split; cbn [fst snd]; [done|apply H|apply H| |done| |].
  - intros t Ht. apply (woken_state_ok _ _ _ _ Hwk), (o_state _ _ H t Ht).
  - intros t Ht. split; [apply (Has t), elem_of_app; by right|by apply Has'].
  - eapply covered_mono; [|apply (o_covered _ _ H)]. cbn [fst]. rewrite Eh. intros u _ Hu. left.
    by apply (woken_awake _ _ _ _ Hwk).
Qed.

Lemma orderly_resume n c c' : orderly n c -> resumes c c' -> orderly n c'.
Proof.
  intros H Hr. destruct Hr as [s l1 x l2 s' Ha E].
  assert (Hx : x ∈ l1 ++ x :: l2) by (apply elem_of_app; right; apply elem_of_cons; by left).
  destruct (resume_orderly n _ x s' H Hx E) as (Eq & Hv & Hwk). cbn [fst] in *.
  pose proof (o_chain _ _ H) as Hnd. rewrite chain_resumed in Hnd.
  assert (Has : forall t, t ∈ option_list (sl_before x) ++ chain (s, l1 ++ l2) -> t ∈ map sl_task (l1 ++ x :: l2) /\ ~ awake s t)
    by (intros t; rewrite <- chain_resumed; apply (o_asleep _ _ H)).
  destruct (woken_chain _ _ _ _ Hwk Hnd (fun t Ht => proj2 (Has t Ht))) as [Hnd' Has'].
  assert (Ec : chain (s', l1 ++ l2) = chain (s, l1 ++ l2)) by (unfold chain; cbn [fst snd]; by rewrite Eq).
  pose proof (o_nodup _ _ H) as Hl. cbn [snd] in Hl. rewrite map_app in Hl, Has. cbn [map] in Hl, Has.
  assert (Hsub : forall t, t ∈ map sl_task (l1 ++ l2) -> t ∈ map sl_task (l1 ++ x :: l2)) by (rewrite !map_app; set_solver).
  split; cbn [fst snd]; [done| | | | | |].
  - intros y Hy. apply (o_rest _ _ H). cbn [snd]. set_solver.
  - rewrite map_app. rewrite <- Permutation_middle in Hl. by apply NoDup_cons in Hl as [_ ?].
  - intros t Ht. apply (woken_state_ok _ _ _ _ Hwk), (o_state _ _ H t), Hsub, Ht.
  - by rewrite Ec.
  - rewrite Ec. intros t Ht. split; [|by apply Has'].
    destruct (Has t) as [Hin Hna]; [apply elem_of_app; by right|]. rewrite map_app.
    assert (t <> sl_task x) by (by intros ->). set_solver.
  - pose proof (covered_delete _ _ _ _ (o_covered _ _ H)) as Hc. eapply covered_mono; [|exact Hc]. cbn [fst].
    rewrite Eq. intros u _ [[?|?]|?]; [left|by right|left]; apply (woken_awake _ _ _ _ Hwk); auto.
Qed.

Lemma orderly_sleep n s l s' k me :
  (2 <= n)%nat -> orderly n (s, l) -> slices_ok s -> current (k_sched s) = me -> 1 <= me <= 63 -> is_Some (task_slot s me) ->
  me ∉ map sl_task l -> sleep_on q n s = Sleep s' k -> orderly n (s', mkSleeper me (wq_get q s) k :: l).
Proof.
  intros Hn H Hok Hc Hme [t Ht] Hni E.
  destruct (sleep_on_run n s me t Hok Hn (o_valid _ _ H) Hc Hme Ht) as (s1 & E1 & Hv & Hg & _ & Hself & Hw).
  rewrite E1 in E. injection E as -> <-.
  assert (Hsl : forall i, i <> me -> i ∈ map sl_task l ->
    exists u u', task_slot s i = Some u /\ task_slot s' i = Some u' /\ state u' = state u /\
      (state u = TASK_RUNNING \/ state u = TASK_UNINTERRUPTIBLE)).
  { intros i Hi Hin. destruct (o_state _ _ H i Hin) as (u & Hu & Hs). specialize (Hw i Hi). cbn [fst] in Hu.
    rewrite Hu in Hw. destruct (task_slot s' i) as [u'|]; [|done]. exists u, u'. repeat split; try done.
    destruct Hw as [E|[E _]]; [done|]. destruct Hs as [Hs|Hs]; by rewrite Hs in E. }
  assert (Hne : forall i, i ∈ map sl_task l -> i <> me) by (by intros i Hi ->).
  assert (Ec : chain (s', mkSleeper me (wq_get q s) (wakes (wq_get q s) me n) :: l) = me :: chain (s, l))
    by (unfold chain; cbn [fst snd omap list_omap sl_before]; rewrite Hg; destruct (wq_get q s); done).
  pose proof (o_asleep _ _ H) as Has. cbn [fst snd] in Has.
  split; cbn [fst snd map sl_task sl_before]; [done| | | | | |].
  - intros x [->|Hx]%elem_of_cons; [done|]. by apply (o_rest _ _ H).
  - apply NoDup_cons. split; [done|apply (o_nodup _ _ H)].
  - intros i [->|Hi]%elem_of_cons; [destruct Hself as (u & ? & ?); eauto|].
    destruct (Hsl i (Hne i Hi) Hi) as (u & u' & _ & Hu' & <- & ?). eauto.
  - rewrite Ec. apply NoDup_cons. split; [intros Hin; by apply Hni, Has|apply (o_chain _ _ H)].
  - rewrite Ec. intros i [->|Hi]%elem_of_cons.
    + split; [apply elem_of_cons; by left|]. destruct Hself as (u & Hu & Hs). intros (u' & Hu' & Hr). rewrite Hu in Hu'.
      injection Hu' as <-. by rewrite Hs in Hr.
    + destruct (Has i Hi) as [Hin Hna]. split; [apply elem_of_cons; by right|].
      destruct (Hsl i (Hne i Hin) Hin) as (u & u' & Hu & Hu' & Es & _). intros (v & Hv' & Hr). apply Hna. exists u.
      split; [done|]. rewrite Hu' in Hv'. injection Hv' as <-. congruence.
  - split; [by right|]. eapply covered_mono; [|apply (o_covered _ _ H)]. cbn [fst].
    intros u Hu [(x & Hx & Hr)|?]; [left; left|by right].
    destruct (Hsl u (Hne u Hu) Hu) as (v & v' & Hv1 & Hv2 & Es & _). exists v'. split; [done|]. congruence.
Qed.

Lemma wq_step_orderly n c c' :
  (2 <= n)%nat -> wq_step n c c' -> orderly n c -> orderly n c'.
Proof.
  intros Hn Hst H. destruct Hst as [s l s' k me Hok Hc Hme Ht Hni E|s l s' E|c c' Hr|s l s' Hq' Hv Hs].
  - by eapply orderly_sleep.
  - by eapply orderly_wake.
  - by eapply orderly_resume.
  - assert (Ec : chain (s', l) = chain (s, l)) by (unfold chain; cbn [fst snd]; by rewrite Hq').
    assert (Haw : forall t, t ∈ map sl_task l -> awake s' t <-> awake s t).
    { intros t Ht. by rewrite !awake_state, Hs. }
    split; cbn [fst snd]; [done|apply H|apply H| | | |].
    + intros t Ht. destruct (o_state _ _ H t Ht) as (u & Hu & Hr). cbn [fst] in Hu. specialize (Hs t Ht). rewrite Hu in Hs.
      destruct (task_slot s' t) as [u'|]; [|done]. injection Hs as Es. exists u'. by rewrite Es.
    + rewrite Ec. apply H.
    + rewrite Ec. intros t Ht. destruct (o_asleep _ _ H t Ht) as [Hin Hna]. split; [done|]. by rewrite Haw.
    + eapply covered_mono; [|apply (o_covered _ _ H)]. cbn [fst]. rewrite Hq'. intros u Hu. by rewrite Haw.
Qed.

Lemma sleepers_orderly n s0 c :
  (2 <= n)%nat -> valid s0 -> wq_get q s0 = None -> rtc (wq_step n) (s0, []) c -> orderly n c.
Proof.
  intros Hn Hv H0 Hst. assert (Ho : orderly n (s0, [])).
  { split; cbn [fst snd]; unfold chain; cbn; rewrite ?H0; try done; try constructor; set_solver. }
  clear Hv H0. induction Hst as [c|c c1 c2 Hs Hst IH]; [done|]. apply IH, (wq_step_orderly n c); done.
Qed.

(** After [wake_up] nobody is left behind: while there are sleepers, one can be resumed. *)
Lemma resumes_progress n c :
  orderly n c -> wq_get q c.1 = None -> c.2 <> [] -> exists c', resumes c c' /\ wq_get q c'.1 = None.
Proof.
  intros H Hq0 Hne. pose proof (o_covered _ _ H) as Hc. destruct c as [s [|x l]]; [done|]. cbn [fst snd] in *.
  destruct Hc as [[Ha|E] _]; [|congruence]. assert (Hx : x ∈ x :: l) by (apply elem_of_cons; by left).
  destruct (resume_total n _ x H Hx) as [s' E]. exists (s', l). split; [exact (resumed s [] x l s' Ha E)|].
  destruct (resume_orderly n _ x s' H Hx E) as (Eq & _). cbn [fst] in *. congruence.
Qed.

Lemma resumes_drain n c :
  orderly n c -> wq_get q c.1 = None -> exists s', rtc resumes c (s', []).
Proof.
  induction c as [c IH] using (induction_ltof1 _ (fun c : sleeping => length c.2)). intros H Hg.
  destruct (decide (c.2 = [])) as [E|E]; [exists c.1; destruct c as [s l]; cbn in *; subst; constructor|].
  destruct (resumes_progress n c H Hg E) as (c' & Hr & Hg'). destruct (IH c') as [s' Hs].
  - destruct Hr. unfold ltof. cbn [snd]. rewrite !length_app. simpl. lia.
  - by eapply orderly_resume.
  - done.
  - exists s'. by eapply rtc_l.
Qed.

Lemma resumes_orderly n c c' :
  orderly n c -> wq_get q c.1 = None -> rtc resumes c c' -> orderly n c' /\ wq_get q c'.1 = None.
Proof.
  intros H Hg Hr. induction Hr as [c|c c1 c2 Hr Hrs IH]; [done|]. apply IH; [by eapply orderly_resume|].
  destruct Hr as [s l1 x l2 s' Ha E]. destruct (resume_orderly n _ x s' H) as (Eq & _); [|done|].
  - apply elem_of_app. right. apply elem_of_cons. by left.
  - cbn [fst] in *. congruence.
Qed.
End Sleeping.

(** C12. No sleeper is lost. However tasks go to sleep on a queue, [wake_up] is called
    and woken tasks run on: the head of the queue is a task asleep in [sleep_on], and
    [wake_up] makes it runnable and empties the queue; when the queue is empty all its
    sleepers come out of [sleep_on] as the runnable ones are resumed, in whatever order;
    and a sleeper that is resumed makes runnable the task that was the head when it went
    to sleep itself, which is asleep in [sleep_on] too, and no other. *)
Theorem sleep_on_no_lost_wakeup (q : wait_queue) (valid : kstate -> Prop) `{!WaitQueue q valid}
    (n : nat) (s0 s : kstate) (l : list sleeper) :
  (2 <= n)%nat -> valid s0 -> wq_get q s0 = None -> rtc (wq_step q valid n) (s0, []) (s, l) ->
  match wq_get q s with
  | Some h =>
      h ∈ map sl_task l /\ ~ awake s h /\
      exists s', wake_up q n s = Done tt s' /\ awake s' h /\ wq_get q s' = None /\
        (forall u, u <> h -> task_slot s' u = task_slot s u)
  | None =>
      wake_up q n s = Done tt s /\
      forall c, rtc resumes (s, l) c -> exists s', rtc resumes c (s', [])
  end /\
  forall x, x ∈ l ->
    (forall h, sl_before x = Some h -> h ∈ map sl_task l /\ ~ awake s h) /\
    exists s', sl_rest x s = Done tt s' /\ wq_get q s' = wq_get q s /\
      (forall h, sl_before x = Some h -> awake s' h) /\
      forall u, sl_before x <> Some u -> task_slot s' u = task_slot s u.
Proof.
  intros Hn Hv H0 Hst. pose proof (sleepers_orderly q valid n _ _ Hn Hv H0 Hst) as H. split.
  - pose proof (wake_up_orderly q valid n _ H) as Hw. cbn [fst snd] in Hw. destruct (wq_get q s) as [h|] eqn:Eh.
    + destruct Hw as (Hin & s' & E & _ & Hg & H1 & H2). split; [done|]. split.
      { apply (o_asleep _ _ _ _ H h), elem_of_app. left. cbn [fst]. rewrite Eh. apply elem_of_cons. by left. }
      exists s'. split; [done|]. split; [by apply H1|]. split; [done|]. intros u Hu. apply H2. congruence.
    + split; [done|]. intros c Hc. destruct (resumes_orderly q valid n _ c H Eh Hc) as [H' Eh'].
      by apply (resumes_drain q valid n).
  - intros x Hx. split.
    + intros h E. apply (o_asleep _ _ _ _ H h), elem_of_app. right. apply list_elem_of_omap. by exists x.
    + destruct (resume_total q valid n _ x H Hx) as [s' E]. exists s'.
      destruct (resume_orderly q valid n _ x s' H Hx E) as (Eq & _ & H1 & H2). done.
Qed.

(** Task 1 of [two_tasks] waits for a free buffer, and then task 2. *)
Definition waiting_task : kstate := set_cur 1 two_tasks.

Definition asleep (s : kstate) : kstate :=
  match sleep_on free_buffer_wait 2%nat s with Sleep s' _ => s' | _ => s end.
Definition one_waits : kstate := asleep waiting_task.
Definition both_wait : kstate := asleep (set_cur 2 one_waits).

Definition buffer_step : sleeping -> sleeping -> Prop := wq_step free_buffer_wait (fun _ => True) 2%nat.

Lemma asleep_step s l me w :
  slices_ok s -> current (k_sched s) = me -> 1 <= me <= 63 -> is_Some (task_slot s me) ->
  buffer_wait (k_cache s) = w -> me ∉ map sl_task l ->
  buffer_step (s, l) (asleep s, mkSleeper me w (wakes w me 2%nat) :: l).
Proof.
  intros Hok Hc Hme [t Ht] <- Hni. apply wq_sleep; [done|done|done|by exists t|done|].
  destruct (sleep_on_run free_buffer_wait (fun _ => True) 2%nat s me t) as (s' & E & _); try done.
  unfold asleep. by rewrite E.
Qed.

Lemma other_task s l c : buffer_step (s, l) (set_cur c s, l).
Proof. by apply wq_other. Qed.

Lemma sleep_on_no_lost_wakeup_witness :
  let l := [mkSleeper 2 (Some 1) (wakes (Some 1) 2 2%nat); mkSleeper 1 None (wakes None 1 2%nat)] in
  rtc (wq_step free_buffer_wait (fun _ => True) 2%nat) (waiting_task, []) (both_wait, l) /\
  (2 ∈ [2; 1] /\ ~ awake both_wait 2 /\
   exists s', wake_up free_buffer_wait 2%nat both_wait = Done tt s' /\ awake s' 2 /\
     wq_get free_buffer_wait s' = None /\ forall u, u <> 2 -> task_slot s' u = task_slot both_wait u).
Proof.
  intros l.
  assert (Hst : rtc buffer_step (waiting_task, []) (both_wait, l)).
  { apply (rtc_l _ _ (one_waits, [mkSleeper 1 None (wakes None 1 2%nat)])); [|eapply rtc_l, rtc_once; [apply other_task|]];
      apply asleep_step; try (apply slices_by_computation); try (vm_compute; by eexists);
      try (apply not_elem_of_nil); try (apply (bool_decide_unpack _)); vm_compute; done. }
  split; [exact Hst|].
  assert (E : wq_get free_buffer_wait both_wait = Some 2) by (vm_compute; reflexivity).
  destruct (sleep_on_no_lost_wakeup free_buffer_wait (fun _ => True) 2%nat waiting_task both_wait l
    (le_n 2) I eq_refl Hst) as [H _].
  rewrite E in H. exact H.
Defined.

(** ** Kernel timers *)

(** The list of pending timers from [p] on: slot, ticks after the previous timer,
    function. *)
Inductive tchain (tl : list timer) : option Z -> list (Z * (Z * Z)) -> Prop :=
| tchain_nil : tchain tl None []
| tchain_cons p t f l :
    arr_get tl p = Some t -> t_fn t = Some f -> tchain tl (t_next t) l ->
    tchain tl (Some p) ((p, (t_jiffies t, f)) :: l).

Lemma tchain_ext tl tl' p l :
  tchain tl p l -> (forall i, i ∈ map fst l -> arr_get tl' i = arr_get tl i) -> tchain tl' p l.
Proof.
  induction 1 as [|p t f l Ht Hf Hl IH]; intros H; [constructor|].
  constructor; [|done|apply IH; intros i Hi; apply H]; [rewrite H; [done|]|]; simpl; set_solver.
Qed.

(** Insert a timer due in [d] ticks by differences. *)
Fixpoint ins (d f : Z) (l : list (Z * Z)) : list (Z * Z) :=
  match l with
  | [] => [(d, f)]
  | (d1, f1) :: l' => if d1 <? d then (d1, f1) :: ins (d - d1) f l' else (d, f) :: l
  end.

Definition set_timers (tl : list timer) (s : kstate) : kstate :=
  s <| k_sched ::= fun c => c <| timer_list := tl |> |>.

Lemma timer_upd_run i f n s t :
  arr_get (timer_list (k_sched s)) i = Some t ->
  timer_upd i f n s = Done tt (set_timers (arr_set (timer_list (k_sched s)) i (f t)) s).
Proof. intros H. unfold timer_upd, bind, timer_get, deref. by rewrite H. Qed.

Lemma timer_get_run i n s t :
  arr_get (timer_list (k_sched s)) i = Some t -> timer_get i n s = Done t s.
Proof. intros H. unfold timer_get, deref. by rewrite H. Qed.

Lemma set_timers_get tl s : timer_list (k_sched (set_timers tl s)) = tl.
Proof. done. Qed.
Lemma set_timers_twice tl tl' s : set_timers tl (set_timers tl' s) = set_timers tl s.
Proof. done. Qed.

Lemma sift_run k n s p d f l :
  (length l < k)%nat -> tchain (timer_list (k_sched s)) (Some p) ((p, (d, f)) :: l) ->
  NoDup (p :: map fst l) -> Forall (fun e => 0 <= e.2.1) l -> d < 2 ^ 31 -> 0 <= d ->
  exists tl' l', iterate k sift p n s = Done tt (set_timers tl' s) /\
    tchain tl' (Some p) l' /\ map snd l' = ins d f (map snd l) /\ map fst l' = p :: map fst l /\
    forall i, i ∉ p :: map fst l -> arr_get tl' i = arr_get (timer_list (k_sched s)) i.
Proof.
  revert s p d f k. induction l as [|[nx [d1 f1]] l IH]; intros s p d f k Hk Hc Hnd Hd Hmax Hpos;
    inversion Hc as [|? t ? ? Ht Hf Hl]; subst; (destruct k as [|k]; [simpl in Hk; lia|]);
    cbn [iterate]; unfold sift at 1, bind at 1; rewrite (timer_get_run p n s t Ht); cbn [obind].
  - inversion Hl as [E|]. exists (timer_list (k_sched s)), [(p, (t_jiffies t, f))].
    split; [unfold ret; cbn [obind]; by destruct s as [? [] ? ? ? ? ?]|]. done.
  - inversion Hl as [|? u ? ? Hu Hfu Hl' Enx]; subst. unfold bind at 1.
    rewrite (timer_get_run nx n s u Hu). cbn [obind map snd ins].
    destruct (Z.ltb_spec (t_jiffies u) (t_jiffies t)) as [Hlt|Hge]; cycle 1.
    { eexists (timer_list (k_sched s)), _. split; [unfold ret; cbn [obind]; by destruct s as [? [] ? ? ? ? ?]|].
      split; [exact Hc|]. done. }
    apply NoDup_cons in Hnd as [Hp Hnd]. simpl in Hp. apply not_elem_of_cons in Hp as [Hpn Hp].
    apply NoDup_cons in Hnd as Hnd'. destruct Hnd' as [Hnn Hnd'].
    inversion Hd as [|? ? Hd1 Hd2]; subst. cbn [fst snd] in Hd1.
    pose proof (arr_get_Some_range _ _ _ Ht) as Rp. pose proof (arr_get_Some_range _ _ _ Hu) as Rn.
    cbv zeta. rewrite (s32_small (t_jiffies t - t_jiffies u)) by lia.
    unfold bind at 1. rewrite (timer_upd_run p _ n s t Ht). cbn [obind].
    set (t' := t <| t_fn := t_fn u |> <| t_jiffies := t_jiffies u |>).
    set (tl1 := arr_set (timer_list (k_sched s)) p t').
    assert (Hu1 : arr_get tl1 nx = Some u) by (unfold tl1; by rewrite arr_get_set_ne).
    unfold bind at 1. rewrite (timer_upd_run nx _ n (set_timers tl1 s) u Hu1). cbn [obind].
    rewrite set_timers_twice, set_timers_get. unfold ret. cbn [obind].
    set (u' := u <| t_fn := t_fn t |> <| t_jiffies := t_jiffies t - t_jiffies u |>).
    set (tl2 := arr_set tl1 nx u').
    assert (Hlen : length tl2 = length (timer_list (k_sched s))) by (unfold tl2, tl1; by rewrite !arr_set_length).
    assert (Hn2 : arr_get tl2 nx = Some u') by (apply arr_get_set_eq; unfold tl1; by rewrite arr_set_length).
    assert (Hp2 : arr_get tl2 p = Some t') by (unfold tl2; rewrite arr_get_set_ne by done; by apply arr_get_set_eq).
    assert (Ho2 : forall i, i <> p -> i <> nx -> arr_get tl2 i = arr_get (timer_list (k_sched s)) i).
    { intros i H1 H2. unfold tl2, tl1. by rewrite !arr_get_set_ne. }
    assert (Hc2 : tchain (timer_list (k_sched (set_timers tl2 s))) (Some nx)
                    ((nx, (t_jiffies t - t_jiffies u, f)) :: l)).
    { rewrite set_timers_get. apply (tchain_cons tl2 nx u' f); [done|exact Hf|].
      eapply tchain_ext; [exact Hl'|]. intros i Hi. apply Ho2; intros ->; done. }
    destruct (IH (set_timers tl2 s) nx (t_jiffies t - t_jiffies u) f k ltac:(simpl in Hk; lia) Hc2 Hnd Hd2
      ltac:(lia) ltac:(lia)) as (tl' & l' & E1 & E2 & E3 & E4 & E5).
    rewrite set_timers_twice in E1. rewrite set_timers_get in E5.
    exists tl', ((p, (t_jiffies u, f1)) :: l'). split; [exact E1|]. split; [|split; [|split]].
    + assert (Hpt : arr_get tl' p = Some t').
      { rewrite E5; [done|]. simpl. intros [?|?]%elem_of_cons; done. }
      apply (tchain_cons tl' p t' f1); [done|exact Hfu|].
      replace (t_next t') with (Some nx) by (exact (eq_sym Enx) || exact Enx). exact E2.
    + cbn [map snd]. by rewrite E3.
    + cbn [map fst]. by rewrite E4.
    + intros i Hi. cbn [map fst] in Hi. apply not_elem_of_cons in Hi as [Hi1 Hi2].
      rewrite E5 by done. apply Ho2; [done|]. intros ->. apply Hi2, elem_of_cons. by left.
Qed.

(** The ticks after which each timer of a list is due, counted from [acc]. *)
Fixpoint due (acc : Z) (l : list (Z * Z)) : list (Z * Z) :=
  match l with
  | [] => []
  | (d, f) :: l' => (acc + d, f) :: due (acc + d) l'
  end.

Definition total_ticks (l : list (Z * Z)) : Z := foldr (fun e t => e.1 + t) 0 l.

Lemma total_ticks_cons d f l : total_ticks ((d, f) :: l) = d + total_ticks l.
Proof. done. Qed.

Lemma due_app acc l1 l2 : due acc (l1 ++ l2) = due acc l1 ++ due (acc + total_ticks l1) l2.
Proof.
  revert acc. induction l1 as [|[d f] l1 IH]; intros acc; cbn [due app]; [by rewrite Z.add_0_r|].
  rewrite IH, total_ticks_cons. by rewrite Z.add_assoc.
Qed.

Lemma ins_split d f l :
  0 < d -> exists l1 l2, l = l1 ++ l2 /\ ins d f l = l1 ++ (d - total_ticks l1, f) :: l2 /\
    total_ticks l1 < d /\ (forall d2 f2 l3, l2 = (d2, f2) :: l3 -> d <= total_ticks l1 + d2).
Proof.
  revert d. induction l as [|[d1 f1] l IH]; intros d Hd; cbn [ins].
  - exists [], []. simpl. rewrite Z.sub_0_r. repeat split; done.
  - destruct (Z.ltb_spec d1 d) as [Hlt|Hge].
    + destruct (IH (d - d1) ltac:(lia)) as (l1 & l2 & -> & -> & H1 & H2).
      exists ((d1, f1) :: l1), l2. rewrite total_ticks_cons. split; [done|].
      split; [cbn [app]; do 3 f_equal; f_equal; lia|].
      split; [lia|]. intros d2 f2 l3 Hl. specialize (H2 d2 f2 l3 Hl). lia.
    + exists [], ((d1, f1) :: l). simpl. rewrite Z.sub_0_r. repeat split; try done.
      intros d2 f2 l3 [= <- <- <-]. lia.
Qed.

Lemma free_timer_run n s :
  length (timer_list (k_sched s)) = 64%nat ->
  (exists p t, arr_get (timer_list (k_sched s)) p = Some t /\ t_fn t = None /\ free_timer n s = Done (Some p) s) \/
  ((forall p t, arr_get (timer_list (k_sched s)) p = Some t -> t_fn t <> None) /\ free_timer n s = Done None s).
Proof.
  intros Hlen. unfold free_timer.
  assert (H : forall ls, (forall p, In p ls -> 0 <= p < 64) ->
    let m := for_break ls (fun p => let! t := timer_get p in ret (match t_fn t with None => Some p | Some _ => None end)) in
    (exists p t, arr_get (timer_list (k_sched s)) p = Some t /\ t_fn t = None /\ m n s = Done (Some p) s) \/
    ((forall p t, In p ls -> arr_get (timer_list (k_sched s)) p = Some t -> t_fn t <> None) /\ m n s = Done None s)).
  { induction ls as [|p ls IH]; intros Hr m; [by right|].
    destruct (arr_get_is_Some (timer_list (k_sched s)) p) as [t Ht]; [rewrite Hlen; apply Hr; by left|].
    assert (E : (let! t := timer_get p in ret (match t_fn t with None => Some p | Some _ => None end)) n s
                = Done (match t_fn t with None => Some p | Some _ => None end) s).
    { unfold bind. by rewrite (timer_get_run p n s t Ht). }
    assert (Em : m n s = match t_fn t with None => Done (Some p) s | Some _ =>
        for_break ls (fun p => let! t := timer_get p in ret (match t_fn t with None => Some p | Some _ => None end)) n s end).
    { unfold m. cbn [for_break]. unfold bind at 1. rewrite E. by destruct (t_fn t). }
    rewrite Em. clear Em E m. destruct (t_fn t) eqn:Ef.
    - destruct IH as [(p' & t' & H1 & H2 & H3)|[H1 H2]]; [intros; apply Hr; by right|left; by exists p', t'|right].
      split; [|exact H2]. intros p' t' [<-|Hin] Ht'; [congruence|eauto].
    - left. by exists p, t. }
  destruct (H (zrange 0 64)) as [?|[H1 H2]]; [intros p; rewrite zrange_elem; lia|by left|right].
  split; [|done]. intros p t Ht. apply (H1 p t); [|done]. apply zrange_elem.
  pose proof (arr_get_Some_range _ _ _ Ht). lia.
Qed.

(** C33. [add_timer] puts the new timer where it is due after exactly the ticks
    asked for and leaves the timers before it alone; what it does not do is take
    the new difference off the following timer, so that every later timer becomes
    due late by the part of the new delay that lies after its predecessor. *)
Theorem add_timer_inserts (call : Z -> K unit) (n : nat) (s : kstate) (d f : Z) (l : list (Z * (Z * Z))) :
  length (timer_list (k_sched s)) = 64%nat ->
  tchain (timer_list (k_sched s)) (next_timer (k_sched s)) l -> NoDup (map fst l) ->
  Forall (fun e => 0 <= e.2.1) l -> 0 < d < 2 ^ 31 -> (length l < n)%nat ->
  (add_timer call d (Some f) n s = Panic "No more time requests free" s /\
   forall p t, arr_get (timer_list (k_sched s)) p = Some t -> t_fn t <> None) \/
  exists s' l' l1 l2, add_timer call d (Some f) n s = Done tt s' /\
    tchain (timer_list (k_sched s')) (next_timer (k_sched s')) l' /\ NoDup (map fst l') /\
    map snd l = l1 ++ l2 /\ total_ticks l1 < d /\
    (forall d2 f2 l3, l2 = (d2, f2) :: l3 -> d <= total_ticks l1 + d2) /\
    due 0 (map snd l) = due 0 l1 ++ due (total_ticks l1) l2 /\
    due 0 (map snd l') = due 0 l1 ++ (d, f) :: due d l2.
Proof.
  intros Hlen Hc Hnd Hpos Hd Hn. unfold add_timer.
  destruct (Z.leb_spec d 0); [lia|].
  destruct (free_timer_run n s Hlen) as [(p & t & Ht & Hf & Ef)|[Hfull Ef]]; [right|left; unfold bind; by rewrite Ef].
  unfold bind at 1. rewrite Ef. cbn [obind].
  assert (Hp : p ∉ map fst l).
  { intros Hin. clear Hn Hnd Hpos. induction Hc as [|p' t' f' l Ht' Hf' Hl IH]; [set_solver|].
    cbn [map fst] in Hin. apply elem_of_cons in Hin as [->|?]; [congruence|auto]. }
  assert (Hr := arr_get_Some_range _ _ _ Ht).
  unfold bind at 1. rewrite (timer_upd_run p _ n s t Ht). cbn [obind].
  unfold bind at 1. rewrite (timer_upd_run p _ n _ (t <| t_fn := Some f |>)) by (apply arr_get_set_eq; lia).
  cbn [obind]. rewrite set_timers_twice, set_timers_get. unfold bind at 1, get at 1. cbn [obind].
  set (t1 := t <| t_fn := Some f |> <| t_jiffies := d |>).
  unfold bind at 1. rewrite (timer_upd_run p _ n _ t1) by (apply arr_get_set_eq; rewrite arr_set_length; lia).
  cbn [obind]. rewrite set_timers_twice, set_timers_get.
  set (t2 := t1 <| t_next := next_timer (k_sched (set_timers _ s)) |>).
  set (tl1 := arr_set (arr_set _ p t1) p t2). unfold bind at 1, set_next_timer, set_sched, modify. cbn [obind].
  set (s1 := (set_timers tl1 s) <| k_sched ::= _ |>). unfold loop.
  assert (H2 : arr_get tl1 p = Some t2) by (apply arr_get_set_eq; rewrite !arr_set_length; lia).
  assert (Hc1 : tchain (timer_list (k_sched s1)) (Some p) ((p, (d, f)) :: l)).
  { change (timer_list (k_sched s1)) with tl1. apply (tchain_cons tl1 p t2 f); [done|done|].
    change (t_next t2) with (next_timer (k_sched s)). eapply tchain_ext; [exact Hc|].
    intros i Hi. unfold tl1. rewrite !arr_get_set_ne by (intros ->; done). done. }
  destruct (sift_run n n s1 p d f l ltac:(done) Hc1) as (tl' & l' & -> & E2 & E3 & E4 & _);
    [constructor; done|done|lia|lia|].
  destruct (ins_split d f (map snd l)) as (l1 & l2 & E5 & E6 & E7 & E8); [lia|].
  exists (set_timers tl' s1), l', l1, l2. split; [done|]. split; [exact E2|].
  split; [rewrite E4; by constructor|]. split; [done|]. split; [done|]. split; [done|].
  rewrite E3, E6, E5, !due_app. cbn [due]. rewrite Z.add_0_l. split; [done|].
  by replace (total_ticks l1 + (d - total_ticks l1)) with d by lia.
Qed.

(** Timer 1 is due in 10 ticks, timer 2 in 30. *)
Definition two_timers : kstate :=
  set_timers (mkTimer 10 (Some 1) (Some 1) :: mkTimer 20 (Some 2) None :: replicate 62 (mkTimer 0 None None))
    (boot_k <| k_sched ::= fun c => c <| next_timer := Some 0 |> |>).

Lemma add_timer_inserts_witness :
  let s := two_timers in
  (add_timer (fun _ => ret tt) 15 (Some 3) 5%nat s = Panic "No more time requests free" s /\
   forall p t, arr_get (timer_list (k_sched s)) p = Some t -> t_fn t <> None) \/
  exists s' l' l1 l2, add_timer (fun _ => ret tt) 15 (Some 3) 5%nat s = Done tt s' /\
    tchain (timer_list (k_sched s')) (next_timer (k_sched s')) l' /\ NoDup (map fst l') /\
    map snd [(0, (10, 1)); (1, (20, 2))] = l1 ++ l2 /\ total_ticks l1 < 15 /\
    (forall d2 f2 l3, l2 = (d2, f2) :: l3 -> 15 <= total_ticks l1 + d2) /\
    due 0 (map snd [(0, (10, 1)); (1, (20, 2))]) = due 0 l1 ++ due (total_ticks l1) l2 /\
    due 0 (map snd l') = due 0 l1 ++ (15, 3) :: due 15 l2.
Proof.
  apply (add_timer_inserts (fun _ => ret tt) 5%nat two_timers 15 3 [(0, (10, 1)); (1, (20, 2))]).
  - reflexivity.
  - apply (tchain_cons _ 0 (mkTimer 10 (Some 1) (Some 1)) 1); [done|done|].
    apply (tchain_cons _ 1 (mkTimer 20 (Some 2) None) 2); [done|done|constructor].
  - apply (bool_decide_unpack _). vm_compute. exact I.
  - repeat constructor; simpl; lia.
  - lia.
  - simpl. lia.
Defined.

(** Timer 2, due in 30 ticks, is late by 5 once timer 3 is due in 15. *)
Example add_timer_late :
  (match add_timer (fun _ => ret tt) 15 (Some 3) 5%nat two_timers with
   | Done _ s' => omap (fun t => pair (t_jiffies t) <$> t_fn t) (timer_list (k_sched s'))
   | _ => [] end) = [(5, 3); (20, 2); (10, 1)] /\
  due 0 [(10, 1); (5, 3); (20, 2)] = [(10, 1); (15, 3); (35, 2)].
Proof. split; vm_compute; reflexivity. Qed.
