(* ===== verification/Preserve.v ===== *)
(** * Invariants through the routines of the kernel

    [keeps inv m]: [m], started where [inv] holds, ends where it holds and gives up
    the processor only where it holds, if the other tasks and the interrupt
    handlers leave it holding; panics, wild accesses and lack of fuel are allowed.
    The tactic [keeps] goes through the structure of a routine. *)
From Stdlib Require Import ZArith Lia String.
From stdpp Require Import base list.
From S2P Require Import Prelude Resumption Memory KState Sched.

Definition any : abnormal -> Prop := fun _ => True.
Definition anywhere (s s' : kstate) : Prop := True.

Definition keeps (inv : kstate -> Prop) {A} (m : K A) : Prop :=
  triple any inv anywhere (fun _ => True) m (fun _ _ => True).

Section Rules.
Context {inv : kstate -> Prop}.

Lemma keeps_bind {A B} (m : K A) (f : A -> K B) :
  keeps inv m -> (forall a, keeps inv (f a)) -> keeps inv (bind m f).
Proof. apply preserves_bind. Qed.
Lemma keeps_ret {A} (a : A) : keeps inv (ret a).
Proof. by apply triple_ret. Qed.
Lemma keeps_get : keeps inv get.
Proof. by intros n s Hi _. Qed.
Lemma keeps_gets {A} (f : kstate -> A) : keeps inv (gets f).
Proof. by intros n s Hi _. Qed.
Lemma keeps_deref {A} (f : kstate -> option A) : keeps inv (deref f).
Proof. by apply triple_deref. Qed.
Lemma keeps_modify (f : kstate -> kstate) : (forall s, inv s -> inv (f s)) -> keeps inv (modify f).
Proof. intros H. apply triple_modify. auto. Qed.
Lemma keeps_panic {A} msg : keeps inv (panic (A := A) msg).
Proof. by apply triple_panic. Qed.
Lemma keeps_fault {A} : keeps inv (fault (A := A)).
Proof. by intros n s Hi _. Qed.
Lemma keeps_die {A} code : keeps inv (die (A := A) code).
Proof. by intros n s Hi _. Qed.
Lemma keeps_yield : keeps inv yield.
Proof. by apply triple_yield. Qed.
Lemma keeps_when b (m : K unit) : keeps inv m -> keeps inv (when b m).
Proof. intros H. by destruct b; [|apply keeps_ret]. Qed.
Lemma keeps_printk msg : keeps inv (printk msg).
Proof. apply keeps_ret. Qed.
Lemma keeps_loop {X A} (body : X -> K (X + A)) x : (forall x, keeps inv (body x)) -> keeps inv (loop body x).
Proof.
  intros H. apply (triple_loop _ _ _ (fun _ _ => True)); [done|]. intros y.
  eapply triple_conseq; [apply H|done|]. by intros [?|?].
Qed.
Lemma keeps_for_each {X} (l : list X) f : (forall x, keeps inv (f x)) -> keeps inv (for_each l f).
Proof. intros H. apply (triple_for_each _ _ _ _ _ (fun _ => True)). intros; apply H. Qed.
Lemma keeps_for_each_in {X} (l : list X) f : (forall x, In x l -> keeps inv (f x)) -> keeps inv (for_each l f).
Proof. intros H. apply (triple_for_each _ _ _ _ _ (fun _ => True)). intros; by apply H. Qed.
Lemma keeps_for_break {X A} (l : list X) (f : X -> K (option A)) :
  (forall x, keeps inv (f x)) -> keeps inv (for_break l f).
Proof.
  intros H. eapply triple_conseq; [apply (triple_for_break _ _ _ l f (fun _ => True) (fun _ _ => True))|done|done].
  intros x _. eapply triple_conseq; [apply H|done|]. by intros [?|].
Qed.
Lemma keeps_for_fold {X A} (l : list X) (a : A) f :
  (forall a x, keeps inv (f a x)) -> keeps inv (for_fold l a f).
Proof. intros H. apply (triple_for_fold _ _ _ _ _ (fun _ _ => True)). intros; apply H. Qed.
Lemma keeps_for_until {X A B} (l : list X) (a : A) (f : A -> X -> K (A + B)) :
  (forall a x, keeps inv (f a x)) -> keeps inv (for_until l a f).
Proof.
  intros H. eapply triple_conseq; [apply (triple_for_until _ _ _ l f (fun _ _ => True) (fun _ _ => True))|done|done].
  intros x b _. eapply triple_conseq; [apply H|done|]. by intros [?|?].
Qed.
Lemma keeps_knot {A} (F : K A -> K A) : (forall m, keeps inv m -> keeps inv (F m)) -> keeps inv (knot F).
Proof. intros H. by apply triple_knot. Qed.
Lemma keeps_conseq {A} P (m : K A) Q :
  triple any inv anywhere P m Q -> (forall s, inv s -> P s) -> keeps inv m.
Proof. intros H HP. eapply triple_conseq; [exact H|auto|done]. Qed.
Lemma keeps_zoom {T A} (getp : kstate -> T) (put : T -> kstate -> kstate) (m : M T A) :
  (forall t s, inv s -> inv (put t s)) -> keeps inv (zoom getp put m).
Proof.
  intros H n s Hi _. unfold zoom. generalize (m n (getp s)) as o. intros o. revert s Hi.
  induction o as [a t|msg t|c t|t|t k IH|]; intros s' Hi; simpl;
    [split; [by apply H|done]|done|split; [done|by apply H]|done| |done].
  split; [done|]. split; [by apply H|]. intros s'' _ Hs''. by apply IH.
Qed.

Lemma keeps_task_get i : keeps inv (task_get i).
Proof. apply keeps_deref. Qed.
Lemma keeps_cur : keeps inv cur.
Proof. apply keeps_bind; [apply keeps_get|]. intros s. apply keeps_task_get. Qed.
End Rules.

Create HintDb keeps discriminated.
#[export] Hint Constants Opaque : keeps.
#[export] Hint Resolve keeps_ret keeps_get keeps_gets keeps_deref keeps_panic keeps_fault keeps_die
  keeps_printk keeps_task_get keeps_cur : keeps.

(** Split a routine into its parts; what is left is for the database. *)
Ltac keeps_step :=
  lazymatch goal with
  | |- forall _, _ => intros ?
  | |- keeps _ (bind _ _) => apply keeps_bind
  | |- keeps _ (when _ _) => apply keeps_when
  | |- keeps _ (loop _ _) => apply keeps_loop
  | |- keeps _ (for_each _ _) => apply keeps_for_each
  | |- keeps _ (for_break _ _) => apply keeps_for_break
  | |- keeps _ (for_fold _ _ _) => apply keeps_for_fold
  | |- keeps _ (for_until _ _ _) => apply keeps_for_until
  | |- keeps _ (let '(_, _) := ?p in _) => destruct p
  | |- keeps _ (if ?b then _ else _) => destruct b
  | |- keeps _ (match ?x with _ => _ end) => destruct x
  | |- keeps _ _ => solve [eauto with keeps nocore]
  end.
Ltac keeps := repeat (cbv beta zeta; keeps_step).
