(* ===== verification/BlkDev.v ===== *)
(** * Block device requests: kernel/blk_drv/ll_rw_blk.c, blk.h, ramdisk.c

    The request table, the elevator that orders a device's queue, and the ram disk
    driver, which serves its queue at once.  The hard disk and floppy drivers call
    back into this file, so it reaches them through the class [Driver]: what
    [request_fn] does when the queue was empty.  Its instance is at the end of
    Floppy.v. *)
From Stdlib Require Import ZArith Lia String.
From stdpp Require Import base list.
From S2P Require Import Prelude Resumption Memory KState Sched.

Definition MAJOR (a : Z) : Z := Z.shiftr (u32 a) 8.
Definition MINOR (a : Z) : Z := Z.land a 0xff.

(** Starting the controller of a major number on its first request, and asking a
    floppy drive whether its disk was changed. *)
Class Driver := {
  start_controller : Z -> K unit;
  floppy_change : Z -> K Z
}.

(** [while (bh->b_lock) sleep_on(&bh->b_wait)], with interrupts off. *)
Definition wait_unlocked (bh : Z) : K unit :=
  loop (fun _ : unit =>
    let! b := bh_get bh in
    if nz (b_lock b) then sleep_on (bh_wait bh) ;;; ret (inl tt) else ret (inr tt)) tt.

Definition lock_buffer (bh : Z) : K unit :=
  wait_unlocked bh ;;;
  bh_upd bh (fun b => b <| b_lock := 1 |>).

Definition unlock_buffer (bh : Z) : K unit :=
  let! b := bh_get bh in
  when (negb (nz (b_lock b))) (printk "ll_rw_block.c: buffer not locked") ;;;
  bh_upd bh (fun b => b <| b_lock := 0 |>) ;;;
  wake_up (bh_wait bh).

Definition IN_ORDER (s1 s2 : request_t) : bool :=
  (r_cmd s1 <? r_cmd s2) || ((r_cmd s1 =? r_cmd s2) &&
  ((r_dev s1 <? r_dev s2) || ((r_dev s1 =? r_dev s2) &&
  (r_sector s1 <? r_sector s2)))).

(** ** Completing a request *)

Definition set_current_request (major : Z) (r : option Z) : K unit :=
  dev_upd major (fun d => d <| current_request := r |>).

(** [end_request] of the driver of [major]; [device_off] is its [DEVICE_OFF]. *)
Definition end_request (device_off : Z -> K unit) (major uptodate : Z) : K unit :=
  let! d := dev_get major in
  match current_request d with
  | None => fault
  | Some r =>
      let! req := req_get r in
      device_off (r_dev req) ;;;
      (match r_bh req with
       | Some bh =>
           bh_upd bh (fun b => b <| b_uptodate := u8 uptodate |>) ;;;
           unlock_buffer bh
       | None => ret tt
       end) ;;;
      (if nz uptodate then ret tt else
       printk "I/O error" ;;;
       match r_bh req with
       | Some bh => let! b := bh_get bh in printk "dev %04x, block %d"
       | None => fault
       end) ;;;
      wake_up (request_wait r) ;;;
      wake_up free_request_wait ;;;
      req_upd r (fun q => q <| r_dev := -1 |>) ;;;
      let! req := req_get r in
      set_current_request major (r_next req)
  end.

(** [INIT_REQUEST]: the request to serve, none when the queue is empty. *)
Definition INIT_REQUEST (major : Z) : K (option (Z * request_t)) :=
  let! d := dev_get major in
  match current_request d with
  | None => ret None
  | Some r =>
      let! req := req_get r in
      if negb (MAJOR (r_dev req) =? major) then panic "request list destroyed" else
      (match r_bh req with
       | Some bh => let! b := bh_get bh in if nz (b_lock b) then ret tt else panic "block not locked"
       | None => ret tt
       end) ;;;
      ret (Some (r, req))
  end.

(** ** The ram disk *)

(** The bytes [off, off + |l|) of [d] replaced by [l]. *)
Definition splice (d : list Z) (off : nat) (l : list Z) : list Z :=
  take off d ++ l ++ drop (off + length l) d.

Definition set_rd_data (l : list Z) : K unit := modify (fun s => s <| k_blk ::= fun c => c <| rd_data := l |> |>).

(** The two [memcpy]s; a copy that leaves the ram disk or the buffer is a wild
    access. *)
Definition rd_write (addr len : Z) (buffer : Z * Z) : K unit :=
  let! s := get in
  let! b := bh_get buffer.1 in
  let off := addr - rd_start (k_blk s) in
  if (off <? 0) || (buffer.2 <? 0) || (len <? 0) || (BLOCK_SIZE <? buffer.2 + len) then fault else
  set_rd_data (splice (rd_data (k_blk s)) (Z.to_nat off)
    (take (Z.to_nat len) (drop (Z.to_nat buffer.2) (b_data b)))).

Definition rd_read (addr len : Z) (buffer : Z * Z) : K unit :=
  let! s := get in
  let off := addr - rd_start (k_blk s) in
  if (off <? 0) || (buffer.2 <? 0) || (len <? 0) || (BLOCK_SIZE <? buffer.2 + len) then fault else
  bh_upd buffer.1 (fun b => b <| b_data :=
    splice (b_data b) (Z.to_nat buffer.2) (take (Z.to_nat len) (drop (Z.to_nat off) (rd_data (k_blk s)))) |>).

Definition RD_MAJOR : Z := 1.
Definition rd_end_request : Z -> K unit := end_request (fun _ => ret tt) RD_MAJOR.

Definition do_rd_request : K unit :=
  loop (fun _ : unit =>
    let! r := INIT_REQUEST RD_MAJOR in
    match r with
    | None => ret (inr tt)
    | Some (_, req) =>
        let! s := get in
        let addr := u32 (rd_start (k_blk s) + Z.shiftl (r_sector req) 9) in
        let len := s32 (Z.shiftl (r_nr_sectors req) 9) in
        if negb (MINOR (r_dev req) =? 1) ||
           (u32 (rd_start (k_blk s) + rd_length (k_blk s)) <? u32 (addr + len))
        then rd_end_request 0 ;;; ret (inl tt) else
        match r_buffer req with
        | None => fault
        | Some buffer =>
            (if r_cmd req =? WRITE then rd_write addr len buffer
             else if r_cmd req =? READ then rd_read addr len buffer
             else panic "unknown ramdisk-command") ;;;
            rd_end_request 1 ;;; ret (inl tt)
        end
    end) tt.

Definition rd_init (mem_start length : Z) : K Z :=
  dev_upd RD_MAJOR (fun d => d <| request_fn := RamDisk |>) ;;;
  modify (fun s => s <| k_blk ::= fun c =>
    c <| rd_start := mem_start |> <| rd_length := length |>
      <| rd_data := replicate (Z.to_nat length) 0 |> |>) ;;;
  ret length.

(** ** Queueing a request *)

Section Requests.
Context {driver : Driver}.

Definition call_request_fn (major : Z) : K unit :=
  let! d := dev_get major in
  match request_fn d with
  | NoDriver => fault
  | RamDisk => do_rd_request
  | Controller => start_controller major
  end.

(** One round of the elevator's loop; [tmp] is the request the new one may go
    behind. *)
Definition elevator_step (req tmp : Z) : K (Z + Z) :=
  let! t := req_get tmp in
  match r_next t with
  | None => ret (inr tmp)
  | Some nx =>
      let! r := req_get req in
      let! x := req_get nx in
      if (IN_ORDER t r || negb (IN_ORDER t x)) && IN_ORDER r x then ret (inr tmp) else ret (inl nx)
  end.

Definition add_request (major req : Z) : K unit :=
  req_upd req (fun q => q <| r_next := None |>) ;;;
  let! q := req_get req in
  (match r_bh q with
   | Some bh => bh_upd bh (fun b => b <| b_dirt := 0 |>)
   | None => ret tt
   end) ;;;
  let! d := dev_get major in
  match current_request d with
  | None => set_current_request major (Some req) ;;; call_request_fn major
  | Some tmp =>
      let! tmp := loop (elevator_step req) tmp in
      let! t := req_get tmp in
      req_upd req (fun q => q <| r_next := r_next t |>) ;;;
      req_upd tmp (fun q => q <| r_next := Some req |>)
  end.

(** The scan for an empty request, downwards from slot [k - 1]. *)
Definition find_request (k : nat) : K (option Z) :=
  for_break (rev (zrange 0 k)) (fun i =>
    let! r := req_get i in ret (if r_dev r <? 0 then Some i else None)).

Definition make_request (major rw bh : Z) : K unit :=
  let rw_ahead := (rw =? READA) || (rw =? WRITEA) in
  let! b := bh_get bh in
  if rw_ahead && nz (b_lock b) then ret tt else
  let rw := if rw_ahead then (if rw =? READA then READ else WRITE) else rw in
  if negb (rw =? READ) && negb (rw =? WRITE) then panic "Bad block dev command, must be R/W/RA/WA" else
  lock_buffer bh ;;;
  let! b := bh_get bh in
  if ((rw =? WRITE) && negb (nz (b_dirt b))) || ((rw =? READ) && nz (b_uptodate b))
  then unlock_buffer bh else
  let! req := loop (fun _ : unit =>
    let! r := find_request (if rw =? READ then 32 else 21) in
    match r with
    | Some i => ret (inr (Some i))
    | None => if rw_ahead then ret (inr None) else sleep_on free_request_wait ;;; ret (inl tt)
    end) tt in
  match req with
  | None => unlock_buffer bh
  | Some req =>
      let! b := bh_get bh in
      req_upd req (fun _ => mkRequest (b_dev b) rw 0 (u32 (Z.shiftl (b_blocknr b) 1)) 2
        (Some (bh, 0)) None (Some bh) None) ;;;
      add_request major req
  end.

Definition ll_rw_block (rw bh : Z) : K unit :=
  let! b := bh_get bh in
  let major := MAJOR (b_dev b) in
  if NR_BLK_DEV <=? major then printk "Trying to read nonexistent block-device" else
  let! d := dev_get major in
  match request_fn d with
  | NoDriver => printk "Trying to read nonexistent block-device"
  | _ => make_request major rw bh
  end.
End Requests.

Definition blk_dev_init : K unit :=
  for_each (zrange 0 32) (fun i => req_upd i (fun r => r <| r_dev := -1 |> <| r_next := None |>)).
