(* ===== verification/Hd.v ===== *)
(** * The hard disk: kernel/blk_drv/hd.c, include/linux/hdreg.h

    The driver of the AT controller.  [do_hd_request] hands the first request of the
    queue to the controller; its interrupt runs the routine [do_hd] points to, which
    moves a sector and goes on with the request or starts the next one.  Words of data
    pass through port 0x1f0 with the other output.  [sys_setup] is in the file Setup. *)
From Stdlib Require Import ZArith Lia String.
From stdpp Require Import base list.
From S2P Require Import Prelude Resumption Memory KState Sched BlkDev.

(** ** Registers, states and commands of the controller *)

Definition HD_DATA : Z := 0x1f0.
Definition HD_ERROR : Z := 0x1f1.
Definition HD_NSECTOR : Z := 0x1f2.
Definition HD_SECTOR : Z := 0x1f3.
Definition HD_LCYL : Z := 0x1f4.
Definition HD_HCYL : Z := 0x1f5.
Definition HD_CURRENT : Z := 0x1f6.
Definition HD_STATUS : Z := 0x1f7.
Definition HD_PRECOMP : Z := HD_ERROR.
Definition HD_COMMAND : Z := HD_STATUS.
Definition HD_CMD : Z := 0x3f6.

Definition ERR_STAT : Z := 0x01.
Definition DRQ_STAT : Z := 0x08.
Definition SEEK_STAT : Z := 0x10.
Definition WRERR_STAT : Z := 0x20.
Definition READY_STAT : Z := 0x40.
Definition BUSY_STAT : Z := 0x80.

Definition WIN_RESTORE : Z := 0x10.
Definition WIN_READ : Z := 0x20.
Definition WIN_WRITE : Z := 0x30.
Definition WIN_SPECIFY : Z := 0x91.

Definition MAX_ERRORS : Z := 7.
Definition HD_MAJOR : Z := 3.

Definition DEVICE_NR (device : Z) : Z := MINOR device / 5.

(** ** The current request *)

(** [CURRENT->field]: a wild access when the queue is empty. *)
Definition current_of (major : Z) : K (Z * request_t) :=
  let! d := dev_get major in
  match current_request d with
  | None => fault
  | Some r => let! q := req_get r in ret (r, q)
  end.
Definition current_upd (major : Z) (f : request_t -> request_t) : K unit :=
  let! '(r, _) := current_of major in req_upd r f.

Definition hd_end_request : Z -> K unit := end_request (fun _ => ret tt) HD_MAJOR.

Definition hd_get : K hard_disk := gets (fun s => hdd (k_blk s)).
Definition set_do_hd (h : hd_handler) : K unit := hd_upd (fun d => d <| do_hd := Some h |>).
Definition set_reset (v : Z) : K unit := hd_upd (fun d => d <| hd_reset := v |>).
Definition set_recalibrate (v : Z) : K unit := hd_upd (fun d => d <| hd_recalibrate := v |>).
Definition info (drive : Z) : K hd_i_struct := deref (fun s => arr_get (hd_info (hdd (k_blk s))) drive).

(** A byte of the real-time clock's memory. *)
Definition CMOS_READ (addr : Z) : K Z :=
  outb (Z.lor 0x80 addr) 0x70 ;;;
  inb 0x71.

(** ** Sectors through the data port *)

Definition word_bytes (w : Z) : list Z := [u8 w; u8 (Z.shiftr w 8)].

Definition insw (port : Z) (nr : nat) : K (list Z) :=
  for_fold (zrange 0 nr) [] (fun l _ => let! w := inw port in ret (l ++ word_bytes w)).

(** 256 words into the data of a buffer, which they must not leave. *)
Definition port_read (port : Z) (buf : option (Z * Z)) : K unit :=
  match buf with
  | None => fault
  | Some (bh, off) =>
      if (off <? 0) || (BLOCK_SIZE <? off + 512) then fault else
      let! l := insw port 256 in
      bh_upd bh (fun b => b <| b_data := splice (b_data b) (Z.to_nat off) (take 512 l) |>)
  end.

Definition outw (val port : Z) : K unit := set_sched (fun c => c <| out ::= cons (u16 val, port) |>).

Definition port_write (port : Z) (buf : option (Z * Z)) : K unit :=
  match buf with
  | None => fault
  | Some (bh, off) =>
      if (off <? 0) || (BLOCK_SIZE <? off + 512) then fault else
      let! b := bh_get bh in
      for_each (zrange 0 256) (fun i => outw (byte_at (b_data b) (off + 2 * i) + 256 * byte_at (b_data b) (off + 2 * i + 1)) port)
  end.

(** ** Talking to the controller *)

(** The tries left when the controller is ready, 0 if it never was. *)
Definition controller_ready : K Z :=
  let! r := for_break (rev (zrange 1 9999)) (fun retries =>
    let! st := inb HD_STATUS in
    ret (if Z.land st 0xc0 =? 0x40 then Some retries else None)) in
  ret (default 0 r).

Definition win_result : K Z :=
  let! i := inb HD_STATUS in
  if Z.land i (Z.lor (Z.lor (Z.lor (Z.lor BUSY_STAT READY_STAT) WRERR_STAT) SEEK_STAT) ERR_STAT)
     =? Z.lor READY_STAT SEEK_STAT
  then ret 0 else
  when (nz (Z.land i 1)) (inb HD_ERROR ;;; ret tt) ;;;
  ret 1.

Definition hd_out (drive nsect sect head cyl cmd : Z) (intr_addr : hd_handler) : K unit :=
  if (1 <? u32 drive) || (15 <? u32 head) then panic "Trying to write bad sector" else
  let! ready := controller_ready in
  if negb (nz ready) then panic "HD controller not ready" else
  set_do_hd intr_addr ;;;
  let! i := info drive in
  outb (hd_ctl i) HD_CMD ;;;
  outb (Z.shiftr (hd_wpcom i) 2) (HD_DATA + 1) ;;;
  outb nsect (HD_DATA + 2) ;;;
  outb sect (HD_DATA + 3) ;;;
  outb cyl (HD_DATA + 4) ;;;
  outb (Z.shiftr (u32 cyl) 8) (HD_DATA + 5) ;;;
  outb (Z.lor (Z.lor 0xA0 (Z.shiftl drive 4)) head) (HD_DATA + 6) ;;;
  outb cmd (HD_DATA + 7).

Definition drive_busy : K Z :=
  for_break (zrange 0 10000) (fun _ =>
    let! st := inb HD_STATUS in
    ret (if READY_STAT =? Z.land st (Z.lor BUSY_STAT READY_STAT) then Some tt else None)) ;;;
  let! i := inb HD_STATUS in
  if Z.land i (Z.lor (Z.lor BUSY_STAT READY_STAT) SEEK_STAT) =? Z.lor READY_STAT SEEK_STAT then ret 0 else
  printk "HD controller times out" ;;;
  ret 1.

Definition reset_controller : K unit :=
  outb 4 HD_CMD ;;;
  let! i := info 0 in
  outb (Z.land (hd_ctl i) 0x0f) HD_CMD ;;;
  let! busy := drive_busy in
  when (nz busy) (printk "HD-controller still busy") ;;;
  let! e := inb HD_ERROR in
  when (negb (e =? 1)) (printk "HD-controller reset failed: %02x").

Definition reset_hd (nr : Z) : K unit :=
  reset_controller ;;;
  let! i := info nr in
  hd_out nr (hd_sect i) (hd_sect i) (hd_head i - 1) (hd_cyl i) WIN_SPECIFY RecalIntr.

(** ** Starting a request *)

Definition bad_rw_intr : K unit :=
  current_upd HD_MAJOR (fun q => q <| r_errors ::= fun e => s32 (e + 1) |>) ;;;
  let! '(_, q) := current_of HD_MAJOR in
  when (MAX_ERRORS <=? r_errors q) (hd_end_request 0) ;;;
  let! '(_, q) := current_of HD_MAJOR in
  when (MAX_ERRORS / 2 <? r_errors q) (set_reset 1).

(** [divl]: quotient and remainder, and the divide error. *)
Definition divl (a b : Z) : K (Z * Z) :=
  if u32 b =? 0 then fault else ret (u32 a / u32 b, u32 a mod u32 b).

(** The wait for the controller to take data: the last [r] of the loop. *)
Definition wait_drq : K Z :=
  let! r := for_break (zrange 0 3000) (fun _ =>
    let! st := inb HD_STATUS in
    ret (if nz (Z.land st DRQ_STAT) then Some (Z.land st DRQ_STAT) else None)) in
  ret (default 0 r).

(** The commands for a request at a place of the disk; [inl] goes back to [repeat]. *)
Definition hd_command (q : request_t) (dev nsect sec head cyl : Z) : K (unit + unit) :=
  if r_cmd q =? WRITE then
    hd_out dev nsect sec head cyl WIN_WRITE WriteIntr ;;;
    let! r := wait_drq in
    if negb (nz r) then bad_rw_intr ;;; ret (inl tt) else
    let! '(_, q) := current_of HD_MAJOR in
    port_write HD_DATA (r_buffer q) ;;;
    ret (inr tt)
  else if r_cmd q =? READ then
    hd_out dev nsect sec head cyl WIN_READ ReadIntr ;;; ret (inr tt)
  else panic "unknown hd-command".

Definition hd_step (_ : unit) : K (unit + unit) :=
  let! r := INIT_REQUEST HD_MAJOR in
  match r with
  | None => ret (inr tt)
  | Some (_, q) =>
      let! d := hd_get in
      let dev := MINOR (r_dev q) in
      let block := r_sector q in
      let! part := deref (fun _ => if 5 * NR_HD d <=? dev then Some None
                                   else match arr_get (hd d) dev with Some p => Some (Some p) | None => None end) in
      match part with
      | None => hd_end_request 0 ;;; ret (inl tt)
      | Some p =>
          if u32 (nr_sects p) <? u32 (block + 2) then hd_end_request 0 ;;; ret (inl tt) else
          let block := u32 (block + start_sect p) in
          let dev := dev / 5 in
          let! i := info dev in
          let! '(block, sec) := divl block (hd_sect i) in
          let! '(cyl, head) := divl block (hd_head i) in
          let sec := sec + 1 in
          let nsect := r_nr_sectors q in
          if nz (hd_reset d) then
            set_reset 0 ;;; set_recalibrate 1 ;;; reset_hd (DEVICE_NR (r_dev q)) ;;; ret (inr tt)
          else if nz (hd_recalibrate d) then
            set_recalibrate 0 ;;;
            let! i := info (DEVICE_NR (r_dev q)) in
            hd_out dev (hd_sect i) 0 0 0 WIN_RESTORE RecalIntr ;;; ret (inr tt)
          else hd_command q dev nsect sec head cyl
      end
  end.

Definition do_hd_request : K unit := loop hd_step tt.

(** ** The interrupt *)

Definition next_sector (q : request_t) : request_t :=
  q <| r_buffer ::= option_map (fun p => (p.1, p.2 + 512)) |> <| r_sector ::= fun x => u32 (x + 1) |>.

Definition read_intr : K unit :=
  let! bad := win_result in
  if nz bad then bad_rw_intr ;;; do_hd_request else
  let! '(_, q) := current_of HD_MAJOR in
  port_read HD_DATA (r_buffer q) ;;;
  current_upd HD_MAJOR (fun q => next_sector (q <| r_errors := 0 |>)) ;;;
  current_upd HD_MAJOR (fun q => q <| r_nr_sectors ::= fun n => u32 (n - 1) |>) ;;;
  let! '(_, q) := current_of HD_MAJOR in
  if nz (r_nr_sectors q) then set_do_hd ReadIntr else
  hd_end_request 1 ;;;
  do_hd_request.

Definition write_intr : K unit :=
  let! bad := win_result in
  if nz bad then bad_rw_intr ;;; do_hd_request else
  current_upd HD_MAJOR (fun q => q <| r_nr_sectors ::= fun n => u32 (n - 1) |>) ;;;
  let! '(_, q) := current_of HD_MAJOR in
  if nz (r_nr_sectors q) then
    current_upd HD_MAJOR next_sector ;;;
    set_do_hd WriteIntr ;;;
    let! '(_, q) := current_of HD_MAJOR in
    port_write HD_DATA (r_buffer q)
  else
    hd_end_request 1 ;;;
    do_hd_request.

Definition recal_intr : K unit :=
  let! bad := win_result in
  when (nz bad) bad_rw_intr ;;;
  do_hd_request.

Definition unexpected_hd_interrupt : K unit := printk "Unexpected HD interrupt".

(** The entry of kernel/system_call.s: acknowledge, and call what [do_hd] pointed to. *)
Definition hd_interrupt : K unit :=
  outb 0x20 0xA0 ;;;
  let! d := hd_get in
  hd_upd (fun d => d <| do_hd := None |>) ;;;
  outb 0x20 0x20 ;;;
  match do_hd d with
  | Some ReadIntr => read_intr
  | Some WriteIntr => write_intr
  | Some RecalIntr => recal_intr
  | None => unexpected_hd_interrupt
  end.

Definition hd_init : K unit :=
  dev_upd HD_MAJOR (fun d => d <| request_fn := Controller |>) ;;;
  set_intr_gate 0x2E "hd_interrupt" ;;;
  let! m := inb 0x21 in
  outb (Z.land m 0xfb) 0x21 ;;;
  let! m := inb 0xA1 in
  outb (Z.land m 0xbf) 0xA1.
