(* ===== verification/Floppy.v ===== *)
(** * Floppy disks: kernel/blk_drv/floppy.c, include/linux/fdreg.h

    The driver of the floppy controller.  A request waits for the motor ([add_timer]),
    the seek and the transfer by DMA; each interrupt runs the routine [do_floppy] points
    to.  Errors set [reset] or [recalibrate], which [do_fd_request] looks at first, so
    that the routines call each other in a circle: they are written over
    [do_fd_request], which ties the knot. *)
From Stdlib Require Import ZArith Lia String.
From stdpp Require Import base list.
From S2P Require Import Prelude Resumption Memory KState Sched BlkDev Hd.

Definition FD_STATUS : Z := 0x3f4.
Definition FD_DATA : Z := 0x3f5.
Definition FD_DIR : Z := 0x3f7.
Definition FD_DCR : Z := 0x3f7.

Definition STATUS_BUSY : Z := 0x10.
Definition STATUS_DIR : Z := 0x40.
Definition STATUS_READY : Z := 0x80.

Definition FD_RECALIBRATE : Z := 0x07.
Definition FD_SEEK : Z := 0x0F.
Definition FD_READ : Z := 0xE6.
Definition FD_WRITE : Z := 0xC5.
Definition FD_SENSEI : Z := 0x08.
Definition FD_SPECIFY : Z := 0x03.

Definition DMA_READ : Z := 0x46.
Definition DMA_WRITE : Z := 0x4A.

Definition FD_MAJOR : Z := 2.
Definition FD_MAX_ERRORS : Z := 8.
Definition TMP_FLOPPY_AREA : Z := 0x5000.  (* its place in boot/head.s *)
Definition MAX_REPLIES : Z := 7.

Definition floppy_type : list floppy_struct := [
  mkFloppyType 0 0 0 0 0 0x00 0x00 0x00;
  mkFloppyType 720 9 2 40 0 0x2A 0x02 0xDF;
  mkFloppyType 2400 15 2 80 0 0x1B 0x00 0xDF;
  mkFloppyType 720 9 2 40 1 0x2A 0x02 0xDF;
  mkFloppyType 1440 9 2 80 0 0x2A 0x02 0xDF;
  mkFloppyType 720 9 2 40 1 0x23 0x01 0xDF;
  mkFloppyType 1440 9 2 80 0 0x23 0x01 0xDF;
  mkFloppyType 2880 18 2 80 0 0x1B 0x00 0xCF ].

Definition fd_nr (device : Z) : Z := Z.land device 3.

Definition fd_get : K floppy_disk := gets (fun s => fdd (k_blk s)).
(** [floppy->...]. *)
Definition fd_type : K floppy_struct := deref (fun s => arr_get floppy_type (floppy (fdd (k_blk s)))).
Definition fd_set_reset (v : Z) : K unit := fd_upd (fun d => d <| fd_reset := v |>).
Definition fd_set_recalibrate (v : Z) : K unit := fd_upd (fun d => d <| fd_recalibrate := v |>).
Definition set_do_floppy (h : fd_handler) : K unit := fd_upd (fun d => d <| do_floppy := Some h |>).
Definition set_DOR (v : Z) : K unit := set_sched (fun c => c <| current_DOR := u8 v |>).
Definition set_selected (v : Z) : K unit := set_sched (fun c => c <| selected := v |>).

Definition fd_end_request : Z -> K unit := end_request (fun dev => floppy_off (fd_nr dev)) FD_MAJOR.

(** ** Selecting a drive *)

Definition floppy_deselect (nr : Z) : K unit :=
  let! s := get in
  when (negb (u32 nr =? Z.land (current_DOR (k_sched s)) 3)) (printk "floppy_deselect: drive not selected") ;;;
  set_selected 0 ;;;
  wake_up floppy_select_wait.

Definition floppy_change (nr : Z) : K Z :=
  loop (fun _ : unit =>
    floppy_on nr ;;;
    while_ (fun s => negb (Z.land (current_DOR (k_sched s)) 3 =? u32 nr) && nz (selected (k_sched s)))
      (interruptible_sleep_on floppy_select_wait) ;;;
    let! s := get in
    if negb (Z.land (current_DOR (k_sched s)) 3 =? u32 nr) then ret (inl tt) else
    let! dir := inb FD_DIR in
    if nz (Z.land dir 0x80) then floppy_off nr ;;; ret (inr 1) else
    floppy_off nr ;;; ret (inr 0)) tt.

(** ** The DMA chip and the bytes of a command *)

(** The address [CURRENT->buffer] holds. *)
Definition buffer_address (buf : option (Z * Z)) : K Z :=
  match buf with
  | None => ret 0
  | Some (bh, off) => let! b := bh_get bh in ret (b_addr b + off)
  end.

(** [copy_buffer] between a block of the cache and [tmp_floppy_area]. *)
Definition copy_to_tmp (buf : option (Z * Z)) : K unit :=
  match buf with
  | Some (bh, 0) => let! b := bh_get bh in fd_upd (fun d => d <| tmp_floppy_area := take 1024 (b_data b) |>)
  | _ => fault
  end.
Definition copy_from_tmp (buf : option (Z * Z)) : K unit :=
  match buf with
  | Some (bh, 0) =>
      let! d := fd_get in
      bh_upd bh (fun b => b <| b_data := splice (b_data b) 0 (take 1024 (tmp_floppy_area d)) |>)
  | _ => fault
  end.

Definition setup_DMA : K unit :=
  let! '(_, q) := current_of FD_MAJOR in
  let! addr := buffer_address (r_buffer q) in
  let! d := fd_get in
  let far := 0x100000 <=? addr in
  when (far && (fd_command d =? FD_WRITE)) (copy_to_tmp (r_buffer q)) ;;;
  outb (Z.lor 4 2) 10 ;;;
  let mode := if fd_command d =? FD_READ then DMA_READ else DMA_WRITE in
  outb mode 12 ;;;
  outb mode 11 ;;;
  let addr := if far then TMP_FLOPPY_AREA else addr in
  outb addr 4 ;;;
  outb (Z.shiftr addr 8) 4 ;;;
  outb (Z.shiftr addr 16) 0x81 ;;;
  outb 0xff 5 ;;;
  outb 3 5 ;;;
  outb (Z.lor 0 2) 10.

Definition output_byte (byte : Z) : K unit :=
  let! d := fd_get in
  if nz (fd_reset d) then ret tt else
  let! r := for_break (zrange 0 10000) (fun _ =>
    let! st := inb FD_STATUS in
    let status := Z.land st (Z.lor STATUS_READY STATUS_DIR) in
    if status =? STATUS_READY then outb byte FD_DATA ;;; ret (Some tt) else ret None) in
  match r with
  | Some tt => ret tt
  | None => fd_set_reset 1 ;;; printk "Unable to send byte to FDC"
  end.

(** One look at the status register: [inr] leaves the loop, with the number of
    replies or by [break]. *)
Definition result_step (i _counter : Z) : K (Z + option Z) :=
  let! st := inb FD_STATUS in
  let status := Z.land st (Z.lor (Z.lor STATUS_DIR STATUS_READY) STATUS_BUSY) in
  if status =? STATUS_READY then ret (inr (Some i)) else
  if status =? Z.lor (Z.lor STATUS_DIR STATUS_READY) STATUS_BUSY then
    if MAX_REPLIES <=? i then ret (inr None) else
    let! v := inb FD_DATA in
    fd_upd (fun d => d <| reply_buffer ::= fun l => arr_set l i v |>) ;;;
    ret (inl (i + 1))
  else ret (inl i).

Definition result : K Z :=
  let! d := fd_get in
  if nz (fd_reset d) then ret (-1) else
  let! r := for_until (zrange 0 10000) 0 result_step in
  match r with
  | inr (Some i) => ret i
  | _ => fd_set_reset 1 ;;; printk "Getstatus times out" ;;; ret (-1)
  end.

Definition ST0 (d : floppy_disk) : Z := byte_at (reply_buffer d) 0.
Definition ST1 (d : floppy_disk) : Z := byte_at (reply_buffer d) 1.
Definition ST2 (d : floppy_disk) : Z := byte_at (reply_buffer d) 2.

Definition bad_flp_intr : K unit :=
  current_upd FD_MAJOR (fun q => q <| r_errors ::= fun e => s32 (e + 1) |>) ;;;
  let! '(_, q) := current_of FD_MAJOR in
  let! d := fd_get in
  when (FD_MAX_ERRORS <? r_errors q) (floppy_deselect (current_drive d) ;;; fd_end_request 0) ;;;
  let! '(_, q) := current_of FD_MAJOR in
  if FD_MAX_ERRORS / 2 <? r_errors q then fd_set_reset 1 else fd_set_recalibrate 1.

(** [head<<2 | current_drive]. *)
Definition head_drive (d : floppy_disk) : Z := Z.lor (Z.shiftl (fd_head d) 2) (current_drive d).

(** ** Reset: by pulling bit 2 of DOR low for a while *)

Definition reset_floppy : K unit :=
  fd_upd (fun d => d <| fd_reset := 0 |> <| cur_spec1 := -1 |> <| cur_rate := -1 |> <| fd_recalibrate := 1 |>) ;;;
  printk "Reset-floppy called" ;;;
  set_do_floppy ResetInterrupt ;;;
  let! s := get in
  outb (Z.ldiff (current_DOR (k_sched s)) 0x04) FD_DOR ;;;
  outb (current_DOR (k_sched s)) FD_DOR.

(** The timer functions of the driver by the number they have in [timer_list]. *)
Definition FLOPPY_ON_INTERRUPT : Z := 1.
Definition TRANSFER : Z := 2.

Section Knot.
Context (do_fd_request : K unit).

(** [if (reset) do_fd_request();] *)
Definition if_reset : K unit :=
  let! d := fd_get in
  when (nz (fd_reset d)) do_fd_request.

Definition setup_rw_floppy : K unit :=
  setup_DMA ;;;
  set_do_floppy RwInterrupt ;;;
  let! d := fd_get in
  output_byte (fd_command d) ;;;
  output_byte (head_drive d) ;;;
  output_byte (fd_track d) ;;;
  output_byte (fd_head d) ;;;
  output_byte (fd_sector d) ;;;
  output_byte 2 ;;;
  let! t := fd_type in
  output_byte (fl_sect t) ;;;
  output_byte (fl_gap t) ;;;
  output_byte 0xFF ;;;
  if_reset.

Definition transfer : K unit :=
  let! t := fd_type in
  let! d := fd_get in
  when (negb (cur_spec1 d =? fl_spec1 t))
    (fd_upd (fun d => d <| cur_spec1 := fl_spec1 t |>) ;;;
     output_byte FD_SPECIFY ;;;
     output_byte (fl_spec1 t) ;;;
     output_byte 6) ;;;
  when (negb (cur_rate d =? fl_rate t))
    (fd_upd (fun d => d <| cur_rate := fl_rate t |>) ;;;
     outb (fl_rate t) FD_DCR) ;;;
  let! d := fd_get in
  if nz (fd_reset d) then do_fd_request else
  if negb (nz (fd_seek d)) then setup_rw_floppy else
  set_do_floppy SeekInterrupt ;;;
  (if nz (seek_track d) then
     output_byte FD_SEEK ;;;
     output_byte (head_drive d) ;;;
     output_byte (seek_track d)
   else
     output_byte FD_RECALIBRATE ;;;
     output_byte (head_drive d)) ;;;
  if_reset.

Definition recalibrate_floppy : K unit :=
  fd_upd (fun d => d <| fd_recalibrate := 0 |> <| current_track := 0 |>) ;;;
  set_do_floppy RecalInterrupt ;;;
  output_byte FD_RECALIBRATE ;;;
  let! d := fd_get in
  output_byte (head_drive d) ;;;
  if_reset.

Definition floppy_on_interrupt : K unit :=
  set_selected 1 ;;;
  let! s := get in
  let! d := fd_get in
  if negb (current_drive d =? Z.land (current_DOR (k_sched s)) 3) then
    set_DOR (Z.land (current_DOR (k_sched s)) 0xFC) ;;;
    let! s := get in
    set_DOR (Z.lor (current_DOR (k_sched s)) (current_drive d)) ;;;
    let! s := get in
    outb (current_DOR (k_sched s)) FD_DOR ;;;
    add_timer (fun _ => transfer) 2 (Some TRANSFER)
  else transfer.

(** Where on the disk the request is, in the units of the floppy's type. *)
Definition locate_sector (q : request_t) (t : floppy_struct) : K unit :=
  let! '(block, sector) := divl (r_sector q) (fl_sect t) in
  let! '(track, head) := divl block (fl_head t) in
  fd_upd (fun d => d <| fd_sector := u8 sector |> <| fd_head := u8 head |> <| fd_track := u8 track |>
    <| seek_track := u8 (Z.shiftl (u8 track) (fl_stretch t)) |>) ;;;
  fd_upd (fun d => d <| fd_seek ::= fun k => if seek_track d =? current_track d then k else 1 |>) ;;;
  fd_upd (fun d => d <| fd_sector ::= fun x => u8 (x + 1) |>).

Definition fd_step (_ : unit) : K (unit + unit) :=
  let! r := INIT_REQUEST FD_MAJOR in
  match r with
  | None => ret (inr tt)
  | Some (_, q) =>
      fd_upd (fun d => d <| floppy := Z.shiftr (MINOR (r_dev q)) 2 |>) ;;;
      fd_upd (fun d => d <| fd_seek ::= fun k => if current_drive d =? fd_nr (r_dev q) then k else 1 |>) ;;;
      fd_upd (fun d => d <| current_drive := fd_nr (r_dev q) |>) ;;;
      let! t := fd_type in
      if fl_size t <? u32 (r_sector q + 2) then fd_end_request 0 ;;; ret (inl tt) else
      locate_sector q t ;;;
      (if r_cmd q =? READ then fd_upd (fun d => d <| fd_command := FD_READ |>)
       else if r_cmd q =? WRITE then fd_upd (fun d => d <| fd_command := FD_WRITE |>)
       else panic "do_fd_request: unknown command") ;;;
      let! ticks := ticks_to_floppy_on (fd_nr (r_dev q)) in
      add_timer (fun _ => floppy_on_interrupt) ticks (Some FLOPPY_ON_INTERRUPT) ;;;
      ret (inr tt)
  end.

Definition fd_request : K unit :=
  fd_upd (fun d => d <| fd_seek := 0 |>) ;;;
  let! d := fd_get in
  if nz (fd_reset d) then reset_floppy else
  if nz (fd_recalibrate d) then recalibrate_floppy else
  loop fd_step tt.
End Knot.

Definition do_fd_request : K unit := knot fd_request.

(** ** The interrupt *)

Definition rw_failed : K bool :=
  let! n := result in
  let! d := fd_get in
  ret (negb (n =? 7) || nz (Z.land (ST0 d) 0xf8) || nz (Z.land (ST1 d) 0xbf) || nz (Z.land (ST2 d) 0x73)).

Definition rw_interrupt : K unit :=
  let! bad := rw_failed in
  let! d := fd_get in
  if bad then
    (if nz (Z.land (ST1 d) 0x02) then
       printk "Drive %d is write protected" ;;;
       floppy_deselect (current_drive d) ;;;
       fd_end_request 0
     else bad_flp_intr) ;;;
    do_fd_request
  else
    (if fd_command d =? FD_READ then
       let! '(_, q) := current_of FD_MAJOR in
       let! addr := buffer_address (r_buffer q) in
       when (0x100000 <=? u32 addr) (copy_from_tmp (r_buffer q))
     else ret tt) ;;;
    floppy_deselect (current_drive d) ;;;
    fd_end_request 1 ;;;
    do_fd_request.

Definition seek_interrupt : K unit :=
  output_byte FD_SENSEI ;;;
  let! n := result in
  let! d := fd_get in
  if negb (n =? 2) || negb (Z.land (ST0 d) 0xF8 =? 0x20) || negb (ST1 d =? seek_track d) then
    bad_flp_intr ;;;
    do_fd_request
  else
    fd_upd (fun d => d <| current_track := ST1 d |>) ;;;
    setup_rw_floppy do_fd_request.

Definition recal_interrupt : K unit :=
  output_byte FD_SENSEI ;;;
  let! n := result in
  let! d := fd_get in
  (if negb (n =? 2) || (Z.land (ST0 d) 0xE0 =? 0x60) then fd_set_reset 1 else fd_set_recalibrate 0) ;;;
  do_fd_request.

Definition unexpected_floppy_interrupt : K unit :=
  output_byte FD_SENSEI ;;;
  let! n := result in
  let! d := fd_get in
  if negb (n =? 2) || (Z.land (ST0 d) 0xE0 =? 0x60) then fd_set_reset 1 else fd_set_recalibrate 1.

Definition reset_interrupt : K unit :=
  output_byte FD_SENSEI ;;;
  let! _ := result in
  output_byte FD_SPECIFY ;;;
  let! d := fd_get in
  output_byte (cur_spec1 d) ;;;
  output_byte 6 ;;;
  do_fd_request.

(** The entry of kernel/system_call.s. *)
Definition floppy_interrupt : K unit :=
  outb 0x20 0x20 ;;;
  let! d := fd_get in
  fd_upd (fun d => d <| do_floppy := None |>) ;;;
  match do_floppy d with
  | Some RwInterrupt => rw_interrupt
  | Some SeekInterrupt => seek_interrupt
  | Some RecalInterrupt => recal_interrupt
  | Some ResetInterrupt => reset_interrupt
  | None => unexpected_floppy_interrupt
  end.

(** What [fn] of an entry of [timer_list] runs; no other code of the kernel uses timers. *)
Definition timer_fn (f : Z) : K unit :=
  if f =? FLOPPY_ON_INTERRUPT then floppy_on_interrupt do_fd_request
  else if f =? TRANSFER then transfer do_fd_request
  else fault.

Definition floppy_init : K unit :=
  dev_upd FD_MAJOR (fun d => d <| request_fn := Controller |>) ;;;
  set_trap_gate 0x26 "floppy_interrupt" ;;;
  let! m := inb 0x21 in
  outb (Z.ldiff m 0x40) 0x21.

(** ** The two drivers behind [request_fn] *)

#[export] Instance block_drivers : Driver := {|
  start_controller major := if major =? FD_MAJOR then do_fd_request else if major =? HD_MAJOR then do_hd_request else fault;
  BlkDev.floppy_change := floppy_change
|}.
