(* ===== verification/ElevatorProps.v ===== *)
(** * The elevator of kernel/blk_drv/ll_rw_blk.c

    [add_request] makes a request the queue of an idle device and calls its driver, or
    links it into a device's queue once, behind the request
    being served, leaves the others in their order and keeps the queue two ascending
    runs: the sweep under way and the next one. *)
From Stdlib Require Import ZArith Lia String.
From stdpp Require Import base list.
From S2P Require Import Prelude Resumption Memory KState Runs Sched BlkDev.

(** ** The order of requests *)

Lemma in_order_irrefl a : IN_ORDER a a = false.
Proof. unfold IN_ORDER. rewrite !Z.ltb_irrefl, !Z.eqb_refl. done. Qed.

Lemma in_order_spec a b : IN_ORDER a b = true <->
  r_cmd a < r_cmd b \/ r_cmd a = r_cmd b /\ (r_dev a < r_dev b \/ r_dev a = r_dev b /\ r_sector a < r_sector b).
Proof. unfold IN_ORDER. rewrite !orb_true_iff, !andb_true_iff, !Z.eqb_eq, !Z.ltb_lt, !orb_true_iff, !andb_true_iff, !Z.eqb_eq, !Z.ltb_lt. lia. Qed.

Lemma in_order_trans a b c : IN_ORDER a b = true -> IN_ORDER b c = true -> IN_ORDER a c = true.
Proof. rewrite !in_order_spec. lia. Qed.

Lemma in_order_asym a b : IN_ORDER a b = true -> IN_ORDER b a = false.
Proof. intros H. destruct (IN_ORDER b a) eqn:E; [|done]. rewrite <- (in_order_irrefl a). symmetry. by eapply in_order_trans. Qed.

(** Requests for different sectors are comparable. *)
Definition differ (a b : request_t) : Prop := r_cmd a <> r_cmd b \/ r_dev a <> r_dev b \/ r_sector a <> r_sector b.

Lemma in_order_total a b : differ a b -> IN_ORDER a b = false -> IN_ORDER b a = true.
Proof. intros H H1. apply in_order_spec. apply not_true_iff_false in H1. rewrite in_order_spec in H1. unfold differ in H. lia. Qed.

(** ** The position the loop finds *)

(** Where request [r] goes into a list that starts with the request served. *)
Fixpoint place (r t : request_t) (l : list request_t) : nat :=
  match l with
  | [] => 0
  | x :: l' => if (IN_ORDER t r || negb (IN_ORDER t x)) && IN_ORDER r x then 0 else S (place r x l')
  end.

Lemma place_le r t l : (place r t l <= length l)%nat.
Proof. revert t. induction l as [|x l IH]; intros t; simpl; [lia|]. destruct (_ && _); [lia|]. specialize (IH x). lia. Qed.

(** [k] descents in a list. *)
Fixpoint descents (t : request_t) (l : list request_t) : nat :=
  match l with
  | [] => 0
  | x :: l' => (if IN_ORDER t x then 0 else 1) + descents x l'
  end.

(** An ascending list: everything in it comes after its first element. *)
Lemma ascending_after t l x : descents t l = 0%nat -> x ∈ l -> IN_ORDER t x = true.
Proof.
  revert t. induction l as [|y l IH]; intros t Hd Hx; [by apply elem_of_nil in Hx|]. simpl in Hd.
  destruct (IN_ORDER t y) eqn:E; [|done]. apply elem_of_cons in Hx as [->|Hx]; [done|].
  eapply in_order_trans; [exact E|]. by apply IH.
Qed.

Definition insert_at (k : nat) (r : request_t) (l : list request_t) : list request_t := take k l ++ r :: drop k l.

(** In an ascending list: [r] goes to its place, or to the end when it comes
    before everything. *)
Lemma place_ascending r t l :
  Forall (differ r) (t :: l) -> descents t l = 0%nat ->
  descents t (insert_at (place r t l) r l) = (if IN_ORDER t r then 0 else 1)%nat.
Proof.
  revert t. induction l as [|x l IH]; intros t Hdf Hd; [done|].
  apply Forall_cons in Hdf as [Ht Hdf]. pose proof (proj1 (Forall_cons _ _ _) Hdf) as [Hx _].
  simpl in Hd. destruct (IN_ORDER t x) eqn:Etx; [|done]. cbn [place]. rewrite Etx. cbn [negb]. rewrite orb_false_r.
  destruct (IN_ORDER t r) eqn:Etr; cbn [andb].
  - destruct (IN_ORDER r x) eqn:Erx.
    + simpl. by rewrite Etr, Erx.
    + unfold insert_at in *. simpl. rewrite Etx. cbn. rewrite IH by done. by rewrite (in_order_total r x Hx Erx).
  - unfold insert_at in *. simpl. rewrite Etx. cbn. rewrite IH by done.
    enough (IN_ORDER x r = false) as -> by done. apply in_order_asym.
    eapply in_order_trans; [|exact Etx]. apply in_order_total; [|done]. unfold differ in *. lia.
Qed.

(** Two runs stay two runs. *)
Lemma place_two_runs r t l :
  Forall (differ r) (t :: l) -> (descents t l <= 1)%nat -> (descents t (insert_at (place r t l) r l) <= 1)%nat.
Proof.
  revert t. induction l as [|x l IH]; intros t Hdf Hd; [simpl; destruct (IN_ORDER t r); lia|].
  destruct (descents t (x :: l)) as [|d] eqn:Ed.
  { rewrite place_ascending by done. destruct (IN_ORDER t r); lia. }
  pose proof Hdf as Hdf'. apply Forall_cons in Hdf' as [Ht Hdf']. pose proof (proj1 (Forall_cons _ _ _) Hdf') as [Hx _].
  cbn [place]. simpl in Ed. destruct (IN_ORDER t x) eqn:Etx.
  - cbn [negb]. rewrite orb_false_r. destruct (IN_ORDER t r && IN_ORDER r x) eqn:E.
    + apply andb_true_iff in E as [E1 E2]. unfold insert_at. simpl. rewrite E1, E2. cbn in *. lia.
    + unfold insert_at in *. simpl. rewrite Etx. cbn. apply IH; [done|cbn in *; lia].
  - cbn [negb]. rewrite orb_true_r. cbn [andb]. assert (Ed0 : descents x l = 0%nat) by lia. destruct (IN_ORDER r x) eqn:Erx.
    + unfold insert_at. simpl. rewrite Erx, Ed0. destruct (IN_ORDER t r); lia.
    + change (insert_at (S ?k) r (x :: l)) with (x :: insert_at k r l). cbn [descents].
      rewrite Etx, place_ascending by done. by rewrite (in_order_total r x Hx Erx).
Qed.

(** ** The queue in memory *)

(** [p] points to the first of the nodes [l], linked by [nxt] and ended by NULL. *)
Fixpoint linked (nxt : Z -> option Z) (p : option Z) (l : list Z) : Prop :=
  match l with
  | [] => p = None
  | x :: l' => p = Some x /\ linked nxt (nxt x) l'
  end.

Lemma linked_ext nxt nxt' p l : (forall x, x ∈ l -> nxt' x = nxt x) -> linked nxt p l -> linked nxt' p l.
Proof.
  revert p. induction l as [|x l IH]; intros p He; [done|]. intros [-> Hl]. split; [done|].
  rewrite He by left. apply IH; [|done]. intros y Hy. apply He. by right.
Qed.

Definition insert_after (k : nat) (req : Z) (t : Z) (l : list Z) : list Z := t :: take k l ++ req :: drop k l.

(** Node [u] at position [k] and [req], which is in no list, relinked. *)
Lemma linked_insert nxt nxt' k req t l u :
  linked nxt (Some t) (t :: l) -> NoDup (req :: t :: l) -> (t :: l) !! k = Some u ->
  (forall x, x <> req -> x <> u -> nxt' x = nxt x) -> nxt' req = nxt u -> nxt' u = Some req ->
  linked nxt' (Some t) (insert_after k req t l).
Proof.
  intros [_ Hl] Hnd Hu Hx Hr Hu'. split; [done|].
  assert (Hne : req <> u). { apply NoDup_cons in Hnd as [Hnd _]. intros <-. apply Hnd. by eapply list_elem_of_lookup_2. }
  revert t l Hl Hnd Hu. induction k as [|k IH]; intros t l Hl Hnd Hu; cbn [take drop app].
  - injection Hu as <-. rewrite Hu'. split; [done|]. rewrite Hr. eapply linked_ext; [|exact Hl].
    intros x Hxl. apply Hx; intros ->; apply NoDup_cons in Hnd as [Hnd1 Hnd]; [apply Hnd1; by right|].
    by apply NoDup_cons in Hnd as [Hnd _].
  - destruct l as [|y l]; [done|]. cbn [take drop app]. destruct Hl as [Hty Hl].
    assert (Htu : t <> u).
    { apply NoDup_cons in Hnd as [_ Hnd]. apply NoDup_cons in Hnd as [Hnd _]. intros ->. apply Hnd. by eapply (list_elem_of_lookup_2 (y :: l) k). }
    assert (Htr : t <> req) by (apply NoDup_cons in Hnd as [Hnd _]; intros ->; apply Hnd; left).
    rewrite Hx by done. split; [done|]. apply (IH y l Hl); [|done].
    apply NoDup_cons in Hnd as [H1 H2]. apply NoDup_cons in H2 as [H2 H3]. apply NoDup_cons. split; [|done].
    intros Hin. apply H1. by right.
Qed.

Definition req_at (s : kstate) (x : Z) : option request_t := arr_get (request (k_blk s)) x.
Definition no_request : request_t := mkRequest (-1) 0 0 0 0 None None None None.
Definition the_req (s : kstate) (x : Z) : request_t := default no_request (req_at s x).
Definition next_req (s : kstate) (x : Z) : option Z := r_next (the_req s x).

Lemma req_get_run s x n : is_Some (req_at s x) -> req_get x n s = Done (the_req s x) s.
Proof. intros [q Hq]. unfold req_get. rewrite (tab_get_run _ x q n s Hq). unfold the_req. by rewrite Hq. Qed.

Lemma req_upd_run s x f n : is_Some (req_at s x) ->
  req_upd x f n s = Done tt (set_requests (arr_set (request (k_blk s)) x (f (the_req s x))) s).
Proof. intros [q Hq]. unfold req_upd. rewrite (tab_upd_run _ _ x f q n s Hq). unfold the_req. by rewrite Hq. Qed.

Lemma req_at_set s x q y : is_Some (req_at s x) ->
  req_at (set_requests (arr_set (request (k_blk s)) x q) s) y = if decide (x = y) then Some q else req_at s y.
Proof.
  intros [q' Hq]. apply arr_get_Some_range in Hq.
  change (req_at (set_requests (arr_set (request (k_blk s)) x q) s) y) with (arr_get (arr_set (request (k_blk s)) x q) y).
  case_decide as E; [subst; by rewrite arr_get_set_eq|]. by rewrite arr_get_set_ne.
Qed.

(** The loop of the elevator. *)
Lemma elevator_run s req n k : forall t l,
  is_Some (req_at s req) -> Forall (fun x => is_Some (req_at s x)) (t :: l) -> linked (next_req s) (Some t) (t :: l) ->
  (length l < k)%nat ->
  exists u, iterate k (elevator_step req) t n s = Done u s /\
    (t :: l) !! place (the_req s req) (the_req s t) (map (the_req s) l) = Some u.
Proof.
  induction k as [|k IH]; intros t l Hr Hall Hl Hk; [lia|].
  apply Forall_cons in Hall as [Ht Hall]. destruct Hl as [_ Hl].
  destruct l as [|x l].
  - exists t. split; [|done]. apply iterate_last. unfold elevator_step. step (req_get_run s t n Ht).
    change (r_next (the_req s t)) with (next_req s t). by rewrite Hl.
  - destruct Hl as [Hx Hl]. pose proof (proj1 (Forall_cons _ _ _) Hall) as [Hx' _].
    cbn [map place]. destruct ((_ || _) && _) eqn:E.
    + exists t. split; [|done]. apply iterate_last. unfold elevator_step. step (req_get_run s t n Ht).
      change (r_next (the_req s t)) with (next_req s t). rewrite Hx. step (req_get_run s req n Hr). step (req_get_run s x n Hx').
      by rewrite E.
    + destruct (IH x l Hr Hall) as (u & Eu & Hu); [by split|simpl in Hk; lia|].
      exists u. split; [|done]. rewrite (iterate_next k _ t n s x s); [done|]. unfold elevator_step. step (req_get_run s t n Ht).
      change (r_next (the_req s t)) with (next_req s t). rewrite Hx. step (req_get_run s req n Hr). step (req_get_run s x n Hx').
      by rewrite E.
Qed.

Lemma place_next r t l p : place (r <| r_next := p |>) t l = place r t l.
Proof. revert t. induction l as [|x l IH]; intros t; [done|]. cbn [place]. rewrite IH. done. Qed.

(** Nothing of a request but its link. *)
Definition unlinked (q : request_t) : request_t := q <| r_next := None |>.

(** The queue of a device: the request being served and those behind it. *)
Record queue (s : kstate) (major head : Z) (l : list Z) : Prop := mkQueue {
  qu_dev : exists d, arr_get (blk_dev (k_blk s)) major = Some d /\ current_request d = Some head;
  qu_all : Forall (fun x => is_Some (req_at s x)) (head :: l);
  qu_linked : linked (next_req s) (Some head) (head :: l)
}.

Lemma the_req_set s x q y : is_Some (req_at s x) ->
  the_req (set_requests (arr_set (request (k_blk s)) x q) s) y = if decide (x = y) then q else the_req s y.
Proof. intros H. unfold the_req. rewrite req_at_set by done. by case_decide. Qed.

Lemma is_req_set s x q y : is_Some (req_at s x) -> is_Some (req_at s y) ->
  is_Some (req_at (set_requests (arr_set (request (k_blk s)) x q) s) y).
Proof. intros Hx Hy. rewrite req_at_set by done. by case_decide. Qed.

Lemma insert_after_elem k r t l x : x ∈ insert_after k r t l <-> x ∈ r :: t :: l.
Proof.
  unfold insert_after. rewrite !elem_of_cons, elem_of_app, elem_of_cons. rewrite <- (take_drop k l) at 3. rewrite elem_of_app. tauto.
Qed.

Section AddRequest.
Context {driver : Driver}.

(** The request is ready to be linked: its buffer head, if any, is one. *)
Definition ready_request (s : kstate) (req : Z) : Prop :=
  is_Some (req_at s req) /\ forall bh, r_bh (the_req s req) = Some bh -> is_Some (arr_get (bhs (k_cache s)) bh).

Lemma clean_buffer_run s q n : (forall bh, r_bh q = Some bh -> is_Some (arr_get (bhs (k_cache s)) bh)) ->
  exists s', (match r_bh q with Some bh => bh_upd bh (fun b => b <| b_dirt := 0 |>) | None => ret tt end) n s = Done tt s' /\
    k_blk s' = k_blk s.
Proof.
  intros H. destruct (r_bh q) as [bh|]; [|by exists s]. destruct (H bh eq_refl) as [b Hb].
  eexists. split; [apply (tab_upd_run (fun s => bhs (k_cache s)) set_bhs bh _ b n s Hb)|done].
Qed.

Lemma add_request_run s major head l req n :
  queue s major head l -> ready_request s req -> NoDup (req :: head :: l) -> (length l < n)%nat ->
  let k := place (the_req s req) (the_req s head) (map (the_req s) l) in
  exists s', add_request major req n s = Done tt s' /\ blk_dev (k_blk s') = blk_dev (k_blk s) /\
    linked (next_req s') (Some head) (insert_after k req head l) /\
    forall x, is_Some (req_at s x) -> is_Some (req_at s' x) /\ unlinked (the_req s' x) = unlinked (the_req s x).
Proof.
  intros [(d & Hd & Hcur) Hall Hl] [Hreq Hbh] Hnd Hn k.
  unfold add_request. step (req_upd_run s req (fun q => q <| r_next := None |>) n Hreq).
  set (R := the_req s req). set (s1 := set_requests _ s).
  assert (Hn1 : req ∉ head :: l) by (by apply NoDup_cons in Hnd as [? _]).
  assert (T1 : forall y, the_req s1 y = if decide (req = y) then unlinked R else the_req s y).
  { intros y. unfold s1. rewrite the_req_set by done. by case_decide. }
  assert (I1 : forall y, is_Some (req_at s y) -> is_Some (req_at s1 y)) by (intros y Hy; by apply is_req_set).
  step (req_get_run s1 req n (I1 req Hreq)). rewrite T1, decide_True by done.
  destruct (clean_buffer_run s1 (unlinked R) n Hbh) as (s2 & E2 & Hb2). step E2.
  assert (R2 : forall y, req_at s2 y = req_at s1 y) by (intros y; unfold req_at; by rewrite Hb2).
  assert (T2 : forall y, the_req s2 y = the_req s1 y) by (intros y; unfold the_req; by rewrite R2).
  assert (I2 : forall y, is_Some (req_at s y) -> is_Some (req_at s2 y)) by (intros y Hy; rewrite R2; by apply I1).
  assert (Hdev : dev_get major n s2 = Done d s2) by (apply tab_get_run; rewrite Hb2; exact Hd). step Hdev. rewrite Hcur.
  assert (Tl : forall x, x ∈ head :: l -> the_req s2 x = the_req s x).
  { intros x Hx. rewrite T2, T1, decide_False; [done|]. by intros ->. }
  destruct (elevator_run s2 req n n head l (I2 req Hreq)) as (u & Eu & Hu); [| |lia|].
  { eapply Forall_impl; [exact Hall|]. intros x. apply I2. }
  { eapply linked_ext; [|exact Hl]. intros x Hx. unfold next_req. by rewrite Tl. }
  change (loop (elevator_step req) head n s2) with (iterate n (elevator_step req) head n s2) in *.
  assert (El : loop (elevator_step req) head n s2 = Done u s2) by exact Eu. step El. clear El Eu.
  assert (Ek : place (the_req s2 req) (the_req s2 head) (map (the_req s2) l) = k).
  { rewrite T2, T1, decide_True by done. unfold unlinked. rewrite place_next, Tl by left. f_equal.
    apply map_ext_in. intros x Hx. apply Tl. right. by apply list_elem_of_In. }
  rewrite Ek in Hu. assert (Hu' : u ∈ head :: l) by (by eapply list_elem_of_lookup_2).
  assert (Hus : is_Some (req_at s2 u)).
  { apply I2. rewrite Forall_forall in Hall. by apply Hall. }
  step (req_get_run s2 u n Hus).
  step (req_upd_run s2 req (fun q => q <| r_next := r_next (the_req s2 u) |>) n (I2 req Hreq)). set (s3 := set_requests _ s2).
  assert (T3 : forall y, the_req s3 y = if decide (req = y) then (the_req s2 req) <| r_next := r_next (the_req s2 u) |> else the_req s2 y).
  { intros y. unfold s3. by rewrite the_req_set by (by apply I2). }
  assert (I3 : forall y, is_Some (req_at s y) -> is_Some (req_at s3 y)) by (intros y Hy; apply is_req_set; by apply I2).
  assert (Hu3 : is_Some (req_at s3 u)) by (apply is_req_set; [by apply I2|done]).
  rewrite (req_upd_run s3 u _ n Hu3). set (s4 := set_requests _ s3).
  assert (Hne : req <> u) by (intros ->; done).
  assert (T4 : forall y, the_req s4 y = if decide (u = y) then (the_req s3 u) <| r_next := Some req |> else the_req s3 y).
  { intros y. unfold s4. by rewrite the_req_set. }
  exists s4. split; [done|]. split; [|split].
  - change (blk_dev (k_blk s4)) with (blk_dev (k_blk s2)). by rewrite Hb2.
  - apply (linked_insert (next_req s) (next_req s4) k req head l u Hl Hnd Hu).
    + intros x Hxr Hxu. unfold next_req. rewrite T4, decide_False, T3, decide_False, T2, T1, decide_False by congruence. done.
    + unfold next_req. rewrite T4, decide_False, T3, decide_True by congruence. by rewrite Tl.
    + unfold next_req. by rewrite T4, decide_True.
  - intros x Hx. split; [apply is_req_set; [done|by apply I3]|].
    rewrite T4. case_decide as Hux; [subst x; rewrite T3, decide_False, Tl by done; done|].
    rewrite T3. case_decide as Hrx; [|by rewrite T2, T1, decide_False].
    subst x. change (unlinked (the_req s2 req) = unlinked R). by rewrite T2, T1, decide_True.
Qed.

(** The driver of a device, called to serve its queue. *)
Definition serve (f : request_fn_t) (major : Z) : K unit :=
  match f with NoDriver => fault | RamDisk => do_rd_request | Controller => start_controller major end.

Definition idle (s : kstate) (major : Z) (d : blk_dev_struct) : Prop :=
  arr_get (blk_dev (k_blk s)) major = Some d /\ current_request d = None.

(** An idle device: the request is the queue, and its driver is called. *)
Lemma add_request_idle s major d req n :
  idle s major d -> ready_request s req ->
  exists s1, add_request major req n s = serve (request_fn d) major n s1 /\ queue s1 major req [] /\
    blk_dev (k_blk s1) = arr_set (blk_dev (k_blk s)) major (d <| current_request := Some req |>) /\
    forall x, is_Some (req_at s x) -> unlinked (the_req s1 x) = unlinked (the_req s x).
Proof.
  intros [Hd Hcur] [Hreq Hbh]. unfold add_request. step (req_upd_run s req (fun q => q <| r_next := None |>) n Hreq).
  set (R := the_req s req). set (s1 := set_requests _ s).
  assert (T1 : forall y, the_req s1 y = if decide (req = y) then unlinked R else the_req s y).
  { intros y. unfold s1. rewrite the_req_set by done. by case_decide. }
  assert (I1 : is_Some (req_at s1 req)) by (by apply is_req_set).
  step (req_get_run s1 req n I1). rewrite T1, decide_True by done.
  destruct (clean_buffer_run s1 (unlinked R) n Hbh) as (s2 & E2 & Hb2). step E2.
  assert (Hd2 : arr_get (blk_dev (k_blk s2)) major = Some d) by (by rewrite Hb2).
  step (tab_get_run (fun s => blk_dev (k_blk s)) major d n s2 Hd2). rewrite Hcur. unfold set_current_request.
  step (tab_upd_run (fun s => blk_dev (k_blk s)) set_blk_dev major (fun d => d <| current_request := Some req |>) d n s2 Hd2).
  set (s3 := set_blk_dev _ s2).
  assert (Hd3 : arr_get (blk_dev (k_blk s3)) major = Some (d <| current_request := Some req |>)).
  { apply arr_get_set_eq. by eapply arr_get_Some_range. }
  assert (R3 : forall y, req_at s3 y = req_at s1 y) by (intros y; unfold req_at; by rewrite <- Hb2).
  assert (T3 : forall y, the_req s3 y = the_req s1 y) by (intros y; unfold the_req; by rewrite R3).
  exists s3. split; [|split; [split|split]].
  - unfold call_request_fn. by step (tab_get_run (fun s => blk_dev (k_blk s)) major _ n s3 Hd3).
  - by eexists.
  - constructor; [by rewrite R3|done].
  - split; [done|]. unfold next_req. by rewrite T3, T1, decide_True.
  - change (blk_dev (k_blk s3)) with (arr_set (blk_dev (k_blk s2)) major (d <| current_request := Some req |>)). by rewrite Hb2.
  - intros x _. rewrite T3, T1. by case_decide as E; [rewrite <- E|].
Qed.

(** A busy device: the request goes to its place behind the one being served. *)
Lemma add_request_busy (s : kstate) (major head req : Z) (l : list Z) (n : nat) :
  queue s major head l -> ready_request s req -> NoDup (req :: head :: l) -> (length l < n)%nat ->
  exists s' k, add_request major req n s = Done tt s' /\ (k <= length l)%nat /\
    queue s' major head (take k l ++ req :: drop k l) /\
    (forall x, is_Some (req_at s x) -> unlinked (the_req s' x) = unlinked (the_req s x)) /\
    (Forall (fun x => differ (the_req s req) (the_req s x)) (head :: l) ->
     (descents (the_req s head) (map (the_req s) l) <= 1)%nat ->
     (descents (the_req s' head) (map (the_req s') (take k l ++ req :: drop k l)) <= 1)%nat).
Proof.
  intros Hq Hr Hnd Hn. destruct (add_request_run s major head l req n Hq Hr Hnd Hn) as (s' & E & Hd & Hl & Hs).
  set (k := place _ _ _) in *. exists s', k. split; [exact E|]. split.
  { unfold k. etrans; [apply place_le|]. by rewrite length_map. }
  destruct Hq as [Hdev Hall _]. split; [split|split].
  - by rewrite Hd.
  - apply Forall_forall. intros x Hx. apply insert_after_elem in Hx. apply (Hs x).
    apply elem_of_cons in Hx as [->|Hx]; [apply Hr|]. rewrite Forall_forall in Hall. by apply Hall.
  - exact Hl.
  - intros x Hx. by apply Hs.
  - intros Hdf Hde. pose proof (place_two_runs (the_req s req) (the_req s head) (map (the_req s) l)) as H.
    assert (Hio : forall a b a' b', unlinked a' = unlinked a -> unlinked b' = unlinked b -> IN_ORDER a' b' = IN_ORDER a b).
    { intros a b a' b' Ha Hb. change (IN_ORDER (unlinked a') (unlinked b') = IN_ORDER (unlinked a) (unlinked b)). by rewrite Ha, Hb. }
    assert (Hext : forall xs x, Forall (fun x => is_Some (req_at s x)) (x :: xs) ->
      descents (the_req s' x) (map (the_req s') xs) = descents (the_req s x) (map (the_req s) xs)).
    { induction xs as [|y xs IH]; intros x Hx; [done|]. apply Forall_cons in Hx as [Hx Hxs]. cbn [map descents]. rewrite IH by done.
      apply Forall_cons in Hxs as [Hy _]. by rewrite (Hio _ _ _ _ (proj2 (Hs x Hx)) (proj2 (Hs y Hy))). }
    rewrite Hext.
    + rewrite map_app. cbn [map]. rewrite <- firstn_map, <- skipn_map. apply H; [|done].
      apply Forall_cons in Hdf as [H1 H2]. constructor; [done|]. by apply Forall_map.
    + apply Forall_forall. intros x Hx. apply (insert_after_elem k) in Hx.
      apply elem_of_cons in Hx as [->|Hx]; [apply Hr|]. rewrite Forall_forall in Hall. by apply Hall.
Qed.

(** The requests of a device, the one being served first. *)
Definition device_queue (s : kstate) (major : Z) (d : blk_dev_struct) (l : list Z) : Prop :=
  match l with
  | [] => idle s major d
  | head :: l => arr_get (blk_dev (k_blk s)) major = Some d /\ queue s major head l
  end.

(** C14. [add_request] on an idle device makes the request its queue and calls its driver;
    on a busy one it ends and links the new request into the queue exactly once, never
    before the request being served, and keeps all the others in their order; when no
    other request is for the same sector, a queue of two ascending runs (the sweep under
    way and the next one) stays one.  No request is changed but for its link. *)
Theorem add_request_elevator (s : kstate) (major : Z) (d : blk_dev_struct) (req : Z) (l : list Z) (n : nat) :
  device_queue s major d l -> ready_request s req -> NoDup (req :: l) -> (length l <= n)%nat ->
  match l with
  | [] =>
      exists s1, add_request major req n s = serve (request_fn d) major n s1 /\ queue s1 major req [] /\
        blk_dev (k_blk s1) = arr_set (blk_dev (k_blk s)) major (d <| current_request := Some req |>) /\
        forall x, is_Some (req_at s x) -> unlinked (the_req s1 x) = unlinked (the_req s x)
  | head :: l =>
      exists s' k, add_request major req n s = Done tt s' /\ (k <= length l)%nat /\
        queue s' major head (take k l ++ req :: drop k l) /\
        (forall x, is_Some (req_at s x) -> unlinked (the_req s' x) = unlinked (the_req s x)) /\
        (Forall (fun x => differ (the_req s req) (the_req s x)) (head :: l) ->
         (descents (the_req s head) (map (the_req s) l) <= 1)%nat ->
         (descents (the_req s' head) (map (the_req s') (take k l ++ req :: drop k l)) <= 1)%nat)
  end.
Proof.
  intros Hp Hr Hnd Hn. destruct l as [|head l]; [by apply add_request_idle|]. destruct Hp as [_ Hq].
  apply add_request_busy; [done|done|done|simpl in Hn; lia].
Qed.
End AddRequest.

(** Three requests of the hard disk: one being served for sector 40, two behind it,
    and a new one for sector 50. *)
Definition hd_request (sector : Z) (next : option Z) : request_t := mkRequest 0x301 READ 0 sector 2 None None None next.
Definition busy_disk : kstate :=
  set_requests (arr_set (arr_set (arr_set (arr_set (request (k_blk boot_k)) 31 (hd_request 40 (Some 30))) 30 (hd_request 60 (Some 29)))
    29 (hd_request 20 None)) 28 (hd_request 50 None))
  (set_blk_dev (arr_set (blk_dev (k_blk boot_k)) 3 (mkBlkDev Controller (Some 31))) boot_k).
#[local] Instance idle_driver : Driver := {| start_controller := fun _ => ret tt; floppy_change := fun _ => ret 0 |}.

(** The same disk with nothing to do. *)
Definition idle_disk : kstate :=
  set_requests (arr_set (request (k_blk boot_k)) 28 (hd_request 50 None))
  (set_blk_dev (arr_set (blk_dev (k_blk boot_k)) 3 (mkBlkDev Controller None)) boot_k).

Lemma add_request_elevator_witness :
  (exists s1, add_request 3 28 3%nat idle_disk = serve Controller 3 3%nat s1 /\ queue s1 3 28 [] /\
     blk_dev (k_blk s1) = arr_set (blk_dev (k_blk idle_disk)) 3 ((mkBlkDev Controller None) <| current_request := Some 28 |>) /\
     forall x, is_Some (req_at idle_disk x) -> unlinked (the_req s1 x) = unlinked (the_req idle_disk x)) /\
  exists s' k, add_request 3 28 3%nat busy_disk = Done tt s' /\ (k <= 2)%nat /\
    queue s' 3 31 (take k [30; 29] ++ 28 :: drop k [30; 29]) /\
    (forall x, is_Some (req_at busy_disk x) -> unlinked (the_req s' x) = unlinked (the_req busy_disk x)) /\
    (Forall (fun x => differ (the_req busy_disk 28) (the_req busy_disk x)) [31; 30; 29] ->
     (descents (the_req busy_disk 31%Z) (map (the_req busy_disk) [30; 29]%Z) <= 1)%nat ->
     (descents (the_req s' 31%Z) (map (the_req s') (take k [30; 29]%Z ++ 28%Z :: drop k [30; 29]%Z)) <= 1)%nat).
Proof.
  split.
  - apply (add_request_elevator idle_disk 3 (mkBlkDev Controller None) 28 [] 3%nat).
    + split; reflexivity.
    + split; [vm_compute; eauto|]. intros bh H. vm_compute in H. discriminate H.
    + apply (bool_decide_unpack _). vm_compute. exact I.
    + simpl. lia.
  - apply (add_request_elevator busy_disk 3 (mkBlkDev Controller (Some 31)) 28 [31; 30; 29] 3%nat).
    + split; [reflexivity|]. split.
      * eexists. split; reflexivity.
      * repeat constructor; vm_compute; eauto.
      * vm_compute. repeat split.
    + split; [vm_compute; eauto|]. intros bh H. vm_compute in H. discriminate H.
    + apply (bool_decide_unpack _). vm_compute. exact I.
    + simpl. lia.
Defined.
