(* ===== verification/HdProps.v ===== *)
(** * The hard disk serves its queue: kernel/blk_drv/hd.c

    The driver's part of the state is shown as a [view] without who waits for what;
    each operation on the state is one on the view.  On a working controller, the
    start of a queue and two interrupts for each of its requests serve all of it. *)
From Stdlib Require Import ZArith Lia String.
From stdpp Require Import base list.
From S2P Require Import Prelude Resumption Memory KState Runs Sched BlkDev Hd ElevatorProps.

(** ** The view of the driver *)

Definition no_waiter_req (q : request_t) : request_t := q <| r_waiting := None |>.
Definition no_waiter_bh (b : buffer_head) : buffer_head := b <| b_wait := None |>.

Record view := mkView {
  v_req : Z -> option request_t; v_bh : Z -> option buffer_head;
  v_hd : hard_disk; v_cur : option Z;
  v_in : nat -> Z;                 (* the words the data port will deliver *)
  v_out : list (Z * Z)
}.
#[export] Instance view_reconstruct : Reconstruct view :=
  fun v => mkView (v_req v) (v_bh v) (v_hd v) (v_cur v) (v_in v) (v_out v).

Definition put {X} (i : Z) (x : X) (f : Z -> option X) (j : Z) : option X := if decide (i = j) then Some x else f j.

Definition bh_at (s : kstate) (b : Z) : option buffer_head := arr_get (bhs (k_cache s)) b.

(** Whoever waits for a buffer, a request or a free slot is a task. *)
Record waiters_ok (s : kstate) : Prop := mkWaiters {
  wa_bh b x t : bh_at s b = Some x -> b_wait x = Some t -> is_Some (task_slot s t);
  wa_req r q t : req_at s r = Some q -> r_waiting q = Some t -> is_Some (task_slot s t);
  wa_free t : wait_for_request (k_blk s) = Some t -> is_Some (task_slot s t)
}.

(** A controller that is always ready, at the end of its seek, with data at hand. *)
Definition works (st : Z) : Prop := Z.land (u8 st) 0xf9 = 0x58.

Record shows (v : view) (s : kstate) : Prop := mkShows {
  sh_req x : no_waiter_req <$> req_at s x = v_req v x;
  sh_bh b : no_waiter_bh <$> bh_at s b = v_bh v b;
  sh_hd : hdd (k_blk s) = v_hd v;
  sh_cur : exists d, arr_get (blk_dev (k_blk s)) HD_MAJOR = Some d /\ current_request d = v_cur v;
  sh_in k : inputs (k_sched s) HD_DATA k = v_in v k;
  sh_status k : works (inputs (k_sched s) HD_STATUS k);
  sh_out : out (k_sched s) = v_out v;
  sh_wait : waiters_ok s
}.

(** ** Operations on the view *)

Lemma shows_req_get v s x q : shows v s -> v_req v x = Some q ->
  exists q', req_at s x = Some q' /\ no_waiter_req q' = q.
Proof. intros H E. rewrite <- (sh_req v s H) in E. by apply fmap_Some in E as (q' & E & ->); exists q'. Qed.
Lemma shows_bh_get v s x b : shows v s -> v_bh v x = Some b ->
  exists b', bh_at s x = Some b' /\ no_waiter_bh b' = b.
Proof. intros H E. rewrite <- (sh_bh v s H) in E. by apply fmap_Some in E as (q' & E & ->); exists q'. Qed.

Lemma arr_get_set {X} (l : list X) i j x y : arr_get l i = Some y ->
  arr_get (arr_set l i x) j = if decide (i = j) then Some x else arr_get l j.
Proof.
  intros H. apply arr_get_Some_range in H. case_decide as E; [subst; by rewrite arr_get_set_eq|]. by rewrite arr_get_set_ne.
Qed.

Lemma shows_set_req v s x q q' : shows v s -> req_at s x = Some q ->
  (forall t, r_waiting q' = Some t -> is_Some (task_slot s t)) ->
  shows (v <| v_req ::= put x (no_waiter_req q') |>) (set_requests (arr_set (request (k_blk s)) x q') s).
Proof.
  intros [H1 H2 H3 H4 H5 H6 H7 [W1 W2 W3]] Hq Hw. split; try done.
  - intros y. change (no_waiter_req <$> arr_get (arr_set (request (k_blk s)) x q') y = put x (no_waiter_req q') (v_req v) y).
    rewrite (arr_get_set _ _ _ _ _ Hq). unfold put. case_decide; [done|]. apply H1.
  - split; [exact W1| |exact W3]. intros r p t.
    change (arr_get (arr_set (request (k_blk s)) x q') r = Some p -> r_waiting p = Some t -> is_Some (task_slot s t)).
    rewrite (arr_get_set _ _ _ _ _ Hq). case_decide; [intros [= <-]; apply Hw|]. apply W2.
Qed.

Lemma shows_set_bh v s x b b' : shows v s -> bh_at s x = Some b ->
  (forall t, b_wait b' = Some t -> is_Some (task_slot s t)) ->
  shows (v <| v_bh ::= put x (no_waiter_bh b') |>) (set_bhs (arr_set (bhs (k_cache s)) x b') s).
Proof.
  intros [H1 H2 H3 H4 H5 H6 H7 [W1 W2 W3]] Hq Hw. split; try done.
  - intros y. change (no_waiter_bh <$> arr_get (arr_set (bhs (k_cache s)) x b') y = put x (no_waiter_bh b') (v_bh v) y).
    rewrite (arr_get_set _ _ _ _ _ Hq). unfold put. case_decide; [done|]. apply H2.
  - split; [|exact W2|exact W3]. intros r p t.
    change (arr_get (arr_set (bhs (k_cache s)) x b') r = Some p -> b_wait p = Some t -> is_Some (task_slot s t)).
    rewrite (arr_get_set _ _ _ _ _ Hq). case_decide; [intros [= <-]; apply Hw|]. apply W1.
Qed.

(** The same view. *)
Definition veq (v w : view) : Prop :=
  (forall x, v_req v x = v_req w x) /\ (forall x, v_bh v x = v_bh w x) /\ v_hd v = v_hd w /\ v_cur v = v_cur w /\
  (forall k, v_in v k = v_in w k) /\ v_out v = v_out w.
Lemma shows_veq v w s : veq v w -> shows v s -> shows w s.
Proof.
  intros (E1 & E2 & E3 & E4 & E5 & E6) [H1 H2 H3 H4 H5 H6 H7 HW].
  split; [intros x; by rewrite <- E1|intros x; by rewrite <- E2|by rewrite <- E3|by rewrite <- E4|intros x; by rewrite <- E5|done|by rewrite <- E6|done].
Qed.
Lemma put_same {X} (i : Z) (x : X) f j : f i = Some x -> put i x f j = f j.
Proof. unfold put. case_decide; [by subst|done]. Qed.

Lemma shows_slot v s i t t' : shows v s -> task_slot s i = Some t -> shows v (set_slot i (Some t') s).
Proof.
  intros [H1 H2 H3 H4 H5 H6 H7 [W1 W2 W3]] Ht. split; try done.
  assert (Hs : forall j, is_Some (task_slot s j) -> is_Some (task_slot (set_slot i (Some t') s) j)).
  { intros j Hj. rewrite task_slot_set by (by apply task_slot_range in Ht). case_decide; [by eexists|done]. }
  split; intros; apply Hs; eauto.
Qed.

(** ** What the driver calls *)

(** Every part of the view but one is untouched. *)
Ltac untouched :=
  match goal with H : shows _ _ |- _ => destruct H as [H1 H2 H3 H4 H5 H6 H7 [W1 W2 W3]] end;
  split; try done; try by split.

Definition keeps_view {A} (m : K A) (v : view) (s : kstate) : Prop := ends m s (fun _ s' => shows v s').

Lemma shows_outs v s l : shows v s ->
  shows (v <| v_out ::= app l |>) (s <| k_sched ::= fun c => c <| out ::= app l |> |>).
Proof.
  intros H. untouched. change (l ++ out (k_sched s) = l ++ v_out v). by rewrite H7.
Qed.
Lemma ends_outb a p v s : shows v s ->
  ends (outb a p) s (fun _ s' => shows (v <| v_out ::= cons (u8 a, p) |>) s').
Proof. intros H. apply ends_modify. by apply (shows_outs v s [(u8 a, p)]). Qed.
Lemma ends_outw a p v s : shows v s ->
  ends (outw a p) s (fun _ s' => shows (v <| v_out ::= cons (u16 a, p) |>) s').
Proof. intros H. apply ends_modify. by apply (shows_outs v s [(u16 a, p)]). Qed.

Lemma ends_status v s : shows v s ->
  ends (inb HD_STATUS) s (fun st s' => Z.land st 0xf9 = 0x58 /\ shows v s').
Proof.
  intros H n. split; [exact (sh_status v s H 0%nat)|]. untouched. intros k. exact (H6 (S k)).
Qed.
Lemma ends_data v s : shows v s ->
  ends (inw HD_DATA) s (fun w s' => w = u16 (v_in v 0) /\ shows (v <| v_in ::= fun f k => f (S k) |>) s').
Proof.
  intros H n. split; [f_equal; apply (sh_in v s H)|]. untouched. intros k. exact (H5 (S k)).
Qed.

Lemma ends_hd_upd f v s : shows v s -> ends (hd_upd f) s (fun _ s' => shows (v <| v_hd ::= f |>) s').
Proof.
  intros H. apply ends_modify. untouched. change (f (hdd (k_blk s)) = f (v_hd v)). by rewrite H3.
Qed.

Lemma ends_bh_get x b v s : shows v s -> v_bh v x = Some b ->
  ends (bh_get x) s (fun b' s' => no_waiter_bh b' = b /\ shows v s').
Proof.
  intros H E. destruct (shows_bh_get v s x b H E) as (b' & E' & Hb). eapply ends_deref; [exact E'|]. by split.
Qed.
Lemma ends_bh_upd x b f v s : shows v s -> v_bh v x = Some b ->
  (forall b', no_waiter_bh (f b') = f (no_waiter_bh b')) -> (forall b', b_wait (f b') = b_wait b') ->
  ends (bh_upd x f) s (fun _ s' => shows (v <| v_bh ::= put x (f b) |>) s').
Proof.
  intros H E Hf Hw. destruct (shows_bh_get v s x b H E) as (b' & E' & Hb).
  intros n. unfold bh_upd. rewrite (tab_upd_run (fun s => bhs (k_cache s)) set_bhs x f b' n s E'). rewrite <- Hb, <- Hf.
  eapply shows_set_bh; [done|exact E'|]. intros t Ht. rewrite Hw in Ht. by apply (wa_bh s (sh_wait v s H) x b' t).
Qed.

Lemma ends_req_get x q v s : shows v s -> v_req v x = Some q ->
  ends (req_get x) s (fun q' s' => no_waiter_req q' = q /\ shows v s').
Proof.
  intros H E. destruct (shows_req_get v s x q H E) as (q' & E' & Hq). eapply ends_deref; [exact E'|]. by split.
Qed.
Lemma ends_req_upd x q f v s : shows v s -> v_req v x = Some q ->
  (forall q', no_waiter_req (f q') = f (no_waiter_req q')) -> (forall q', r_waiting (f q') = r_waiting q') ->
  ends (req_upd x f) s (fun _ s' => shows (v <| v_req ::= put x (f q) |>) s').
Proof.
  intros H E Hf Hw. destruct (shows_req_get v s x q H E) as (q' & E' & Hq).
  intros n. unfold req_upd. rewrite (tab_upd_run (fun s => request (k_blk s)) set_requests x f q' n s E'). rewrite <- Hq, <- Hf.
  eapply shows_set_req; [done|exact E'|]. intros t Ht. rewrite Hw in Ht. by apply (wa_req s (sh_wait v s H) x q' t).
Qed.

Lemma ends_dev_get v s : shows v s ->
  ends (dev_get HD_MAJOR) s (fun d s' => current_request d = v_cur v /\ shows v s').
Proof. intros H. destruct (sh_cur v s H) as (d & Hd & Hc). eapply ends_deref; [exact Hd|]. by split. Qed.
Lemma ends_set_current c v s : shows v s ->
  ends (set_current_request HD_MAJOR c) s (fun _ s' => shows (v <| v_cur := c |>) s').
Proof.
  intros H n. destruct (sh_cur v s H) as (d & Hd & Hc). unfold set_current_request, dev_upd.
  rewrite (tab_upd_run (fun s => blk_dev (k_blk s)) set_blk_dev _ _ d n s Hd). untouched.
  exists (d <| current_request := c |>). split; [|reflexivity]. change (arr_get (arr_set (blk_dev (k_blk s)) HD_MAJOR (d <| current_request := c |>)) HD_MAJOR = Some (d <| current_request := c |>)).
  by rewrite (arr_get_set _ _ _ _ _ Hd), decide_True.
Qed.

(** A queue whose head is a task, and which is no part of the view. *)
Record hidden (q : wait_queue) : Prop := mkHidden {
  hi_task v s h : shows v s -> wq_get q s = Some h -> is_Some (task_slot s h);
  hi_put v s : shows v s -> shows v (wq_put q None s)
}.

Lemma hidden_bh x : hidden (bh_wait x).
Proof.
  split; intros v s.
  - intros h H. cbn. destruct (arr_get (bhs (k_cache s)) x) as [b|] eqn:E; [|done].
    apply (wa_bh s (sh_wait v s H) x b h E).
  - intros H. cbn. destruct (arr_get (bhs (k_cache s)) x) as [b|] eqn:E; [|done].
    eapply shows_veq; [|apply (shows_set_bh v s x b _ H E); done].
    split; [done|]. split; [|done]. intros y. apply put_same. rewrite <- (sh_bh v s H).
    unfold bh_at. by rewrite E.
Qed.
Lemma hidden_req x : hidden (request_wait x).
Proof.
  split; intros v s.
  - intros h H. cbn. destruct (arr_get (request (k_blk s)) x) as [b|] eqn:E; [|done].
    apply (wa_req s (sh_wait v s H) x b h E).
  - intros H. cbn. destruct (arr_get (request (k_blk s)) x) as [b|] eqn:E; [|done].
    eapply shows_veq; [|apply (shows_set_req v s x b _ H E); done].
    split; [|done]. intros y. apply put_same. rewrite <- (sh_req v s H). unfold req_at. by rewrite E.
Qed.
Lemma hidden_free : hidden free_request_wait.
Proof.
  split; intros v s.
  - intros h H. apply (wa_free s (sh_wait v s H)).
  - intros H. untouched.
Qed.

Lemma ends_wake_up q v s : hidden q -> shows v s -> keeps_view (wake_up q) v s.
Proof.
  intros Hq H n. unfold wake_up. step (get_run n s). destruct (wq_get q s) as [h|] eqn:Eh; [|exact H].
  destruct (hi_task q Hq v s h H Eh) as [t Ht]. unfold wake_task. step (task_upd_run h (fun t => t <| state := TASK_RUNNING |>) t n s Ht).
  apply (hi_put q Hq). by eapply shows_slot.
Qed.

(** ** The current request and the two ways of the data *)

Ltac run H := eapply ends_bind; eapply ends_mono; [eapply H; eauto|cbv beta].

Lemma waiter_only q' q : no_waiter_req q' = q -> exists w, q' = q <| r_waiting := w |>.
Proof. intros <-. exists (r_waiting q'). by destruct q'. Qed.

Lemma ends_current_of r q v s : shows v s -> v_cur v = Some r -> v_req v r = Some q ->
  ends (current_of HD_MAJOR) s (fun p s' => (exists w, p = (r, q <| r_waiting := w |>)) /\ shows v s').
Proof.
  intros H Hc Hq. unfold current_of. run ends_dev_get. intros d s1 [Hd H1]. rewrite Hd, Hc.
  run ends_req_get. intros q' s2 [E H2]. apply ends_ret. split; [|done]. destruct (waiter_only _ _ E) as [w ->]. by exists w.
Qed.

Lemma ends_current_upd f r q v s : shows v s -> v_cur v = Some r -> v_req v r = Some q ->
  (forall q', no_waiter_req (f q') = f (no_waiter_req q')) -> (forall q', r_waiting (f q') = r_waiting q') ->
  ends (current_upd HD_MAJOR f) s (fun _ s' => shows (v <| v_req ::= put r (f q) |>) s').
Proof.
  intros H Hc Hq Hf Hw. unfold current_upd. run ends_current_of. intros p s1 [(w & ->) H1].
  by apply ends_req_upd.
Qed.

(** The bytes of the next [n] words. *)
Fixpoint stream_bytes (f : nat -> Z) (n : nat) : list Z :=
  match n with
  | O => []
  | S n => stream_bytes f n ++ word_bytes (u16 (f n))
  end.
Definition later (k : nat) (f : nat -> Z) (i : nat) : Z := f (k + i)%nat.

Lemma stream_bytes_length f n : length (stream_bytes f n) = (2 * n)%nat.
Proof. induction n as [|n IH]; [done|]. cbn [stream_bytes]. rewrite length_app, IH. cbn [word_bytes length]. lia. Qed.
Lemma stream_bytes_app f n m : stream_bytes f (n + m) = stream_bytes f n ++ stream_bytes (later n f) m.
Proof.
  induction m as [|m IH]; [by rewrite Nat.add_0_r, app_nil_r|]. rewrite Nat.add_succ_r. cbn [stream_bytes]. by rewrite IH, <- app_assoc.
Qed.

Definition v_later (k : nat) (v : view) : view := v <| v_in ::= later k |>.

Lemma ends_insw v s k : shows v s ->
  ends (insw HD_DATA k) s (fun l s' => l = stream_bytes (v_in v) k /\ shows (v_later k v) s').
Proof.
  intros H. unfold insw.
  eapply ends_mono; [apply (ends_for_fold (fun l i s' => l = stream_bytes (v_in v) (Z.to_nat i) /\ shows (v_later (Z.to_nat i) v) s'))|].
  - split; [done|]. eapply shows_veq; [|exact H]. done.
  - intros l i s1 Hi [-> H1]. run ends_data. intros w s2 [-> H2]. apply ends_ret.
    replace (Z.to_nat (i + 1)) with (S (Z.to_nat i)) by lia. split.
    + cbn [stream_bytes]. do 3 f_equal. change (v_in v (Z.to_nat i + 0)%nat = v_in v (Z.to_nat i)). by rewrite Nat.add_0_r.
    + eapply shows_veq; [|exact H2]. repeat (split; [done|]). split; [|done]. intros j.
      change (v_in v (Z.to_nat i + S j)%nat = v_in v (S (Z.to_nat i) + j)%nat). f_equal. lia.
  - intros l s1. cbv beta. rewrite Z.add_0_l, Nat2Z.id. tauto.
Qed.

Definition with_data (off : Z) (l : list Z) (b : buffer_head) : buffer_head :=
  b <| b_data := splice (b_data b) (Z.to_nat off) l |>.

Lemma ends_port_read x off b v s : shows v s -> v_bh v x = Some b -> 0 <= off <= 512 ->
  ends (port_read HD_DATA (Some (x, off))) s (fun _ s' =>
    shows (v_later 256 v <| v_bh ::= put x (with_data off (stream_bytes (v_in v) 256) b) |>) s').
Proof.
  intros H Hb Ho. unfold port_read, BLOCK_SIZE.
  replace ((off <? 0) || (1024 <? off + 512)) with false by (symmetry; apply orb_false_iff; lia).
  run ends_insw. intros l s1 [-> H1]. rewrite firstn_all2 by (rewrite stream_bytes_length; lia).
  by apply (ends_bh_upd x b (with_data off (stream_bytes (v_in v) 256)) (v_later 256 v) s1).
Qed.

(** The words of 512 bytes of a buffer, as they go to the data port. *)
Definition sector_words (d : list Z) (off : Z) : list Z := map (fun i => u16 (word_at d (off + 2 * i))) (zrange 0 256).
Definition to_data (l : list Z) : list (Z * Z) := map (fun w => (w, HD_DATA)) l.

Lemma ends_outs (g : Z -> Z) l v s : shows v s ->
  ends (for_each l (fun i => outw (g i) HD_DATA)) s (fun _ s' =>
    shows (v <| v_out ::= app (rev (to_data (map (fun i => u16 (g i)) l))) |>) s').
Proof.
  revert v s. induction l as [|i l IH]; intros v s H; cbn [for_each].
  - apply ends_ret. by eapply shows_veq; [|exact H].
  - run ends_outw. intros [] s1 H1. eapply ends_mono; [apply IH, H1|]. intros [] s2 H2. cbv beta in H2.
    eapply shows_veq; [|exact H2]. repeat (split; [done|]).
    change (rev (to_data (map (fun i => u16 (g i)) l)) ++ (u16 (g i), HD_DATA) :: v_out v =
      (rev (to_data (map (fun i => u16 (g i)) l)) ++ [(u16 (g i), HD_DATA)]) ++ v_out v). by rewrite <- app_assoc.
Qed.

Lemma ends_port_write x off b v s : shows v s -> v_bh v x = Some b -> 0 <= off <= 512 ->
  ends (port_write HD_DATA (Some (x, off))) s (fun _ s' =>
    shows (v <| v_out ::= app (rev (to_data (sector_words (b_data b) off))) |>) s').
Proof.
  intros H Hb Ho. unfold port_write, BLOCK_SIZE.
  replace ((off <? 0) || (1024 <? off + 512)) with false by (symmetry; apply orb_false_iff; lia).
  run ends_bh_get. intros b' s1 [<- H1].
  by apply (ends_outs (fun i => word_at (b_data b') (off + 2 * i)) (zrange 0 256) v s1).
Qed.

(** ** The controller *)

Lemma works_ready st : Z.land st 0xf9 = 0x58 -> Z.land st 0xc0 = 0x40.
Proof. intros E. change 0xc0 with (Z.land 0xf9 0xc0). by rewrite Z.land_assoc, E. Qed.
Lemma works_result st : Z.land st 0xf9 = 0x58 -> Z.land st 0xf1 = 0x50.
Proof. intros E. change 0xf1 with (Z.land 0xf9 0xf1). by rewrite Z.land_assoc, E. Qed.
Lemma works_drq st : Z.land st 0xf9 = 0x58 -> Z.land st DRQ_STAT = 8.
Proof. intros E. change DRQ_STAT with (Z.land 0xf9 8). by rewrite Z.land_assoc, E. Qed.

Lemma zrange_head lo n : n <> 0%nat -> exists l, zrange lo n = lo :: l.
Proof. destruct n as [|n]; [done|]. intros _. by eexists. Qed.

(** A search that stops at once. *)
Lemma ends_for_break_first {X A} (x : X) l (f : X -> K (option A)) s Q :
  ends (f x) s (fun r s' => exists a, r = Some a /\ Q (Some a) s') -> ends (for_break (x :: l) f) s Q.
Proof. intros H. cbn [for_break]. apply ends_bind. eapply ends_mono; [exact H|]. intros r s' (a & -> & HQ). by apply ends_ret. Qed.

Lemma ends_controller_ready v s : shows v s ->
  ends controller_ready s (fun r s' => nz r = true /\ shows v s').
Proof.
  intros H. unfold controller_ready. change 9999%nat with (9998 + 1)%nat. rewrite zrange_app, rev_app_distr.
  change (rev (zrange (1 + Z.of_nat 9998) 1) ++ ?l) with (9999 :: l).
  eapply ends_bind, ends_for_break_first. run ends_status. intros st s1 [Hst H1].
  apply ends_ret. exists 9999. rewrite (works_ready _ Hst). split; [done|]. apply ends_ret. by split.
Qed.

Lemma ends_win_result v s : shows v s -> ends win_result s (fun r s' => r = 0 /\ shows v s').
Proof.
  intros H. unfold win_result. run ends_status. intros st s1 [Hst H1].
  change (Z.lor (Z.lor (Z.lor (Z.lor BUSY_STAT READY_STAT) WRERR_STAT) SEEK_STAT) ERR_STAT) with 0xf1.
  rewrite (works_result _ Hst). by apply ends_ret.
Qed.

Lemma ends_wait_drq v s : shows v s -> ends wait_drq s (fun r s' => nz r = true /\ shows v s').
Proof.
  intros H. unfold wait_drq. destruct (zrange_head 0 3000) as [l ->]; [discriminate|].
  eapply ends_bind, ends_for_break_first. run ends_status. intros st s1 [Hst H1].
  apply ends_ret. exists 8. rewrite (works_drq _ Hst). split; [done|]. apply ends_ret. by split.
Qed.

(** What [hd_out] writes to the registers, the last first. *)
Definition registers_out (i : hd_i_struct) (drive nsect sect head cyl cmd : Z) : list (Z * Z) :=
  [(u8 cmd, 0x1f7); (u8 (Z.lor (Z.lor 0xA0 (Z.shiftl drive 4)) head), 0x1f6); (u8 (Z.shiftr (u32 cyl) 8), 0x1f5);
   (u8 cyl, 0x1f4); (u8 sect, 0x1f3); (u8 nsect, 0x1f2); (u8 (Z.shiftr (hd_wpcom i) 2), 0x1f1); (u8 (hd_ctl i), 0x3f6)].

Lemma ends_hd_out drive nsect sect head cyl cmd h i v s : shows v s ->
  0 <= drive <= 1 -> 0 <= head <= 15 -> arr_get (hd_info (v_hd v)) drive = Some i ->
  ends (hd_out drive nsect sect head cyl cmd h) s (fun _ s' =>
    shows (v <| v_hd ::= (fun d => d <| do_hd := Some h |>) |> <| v_out ::= app (registers_out i drive nsect sect head cyl cmd) |>) s').
Proof.
  intros H Hd Hh Hi. unfold hd_out. rewrite !u32_small by lia.
  replace ((1 <? drive) || (15 <? head)) with false by (symmetry; apply orb_false_iff; lia).
  run ends_controller_ready. intros r s1 [-> H1]. cbn [negb]. unfold set_do_hd. run ends_hd_upd. intros [] s2 H2.
  eapply ends_bind, ends_deref; [rewrite (sh_hd _ _ H2); exact Hi|].
  do 7 (run ends_outb; intros [] ? ?). eapply ends_mono; [apply ends_outb; eassumption|]. intros [] s9 H9. exact H9.
Qed.

(** ** Serving one request *)

Definition minor (q : request_t) : Z := MINOR (r_dev q).
Definition drive_of (q : request_t) : Z := minor q / 5.
Definition partition (d : hard_disk) (q : request_t) : hd_struct := default (mkHdStruct 0 0) (arr_get (hd d) (minor q)).
Definition geometry (d : hard_disk) (q : request_t) : hd_i_struct := default (mkHdInfo 0 0 0 0 0 0) (arr_get (hd_info d) (drive_of q)).
(** The sector of the disk. *)
Definition lba (d : hard_disk) (q : request_t) : Z := start_sect (partition d q) + r_sector q.
Definition writes (q : request_t) : bool := r_cmd q =? WRITE.

(** A request as make_request fills it, for a block inside its partition, of a disk
    the controller can address, and its locked buffer. *)
Record servable (d : hard_disk) (q : request_t) (x : Z) (b : buffer_head) : Prop := mkServable {
  se_major : MAJOR (r_dev q) = HD_MAJOR;
  se_drives : 0 <= NR_HD d <= MAX_HD;
  se_minor : minor q < 5 * NR_HD d;
  se_part : is_Some (arr_get (hd d) (minor q));
  se_info : is_Some (arr_get (hd_info d) (drive_of q));
  se_heads : 1 <= hd_head (geometry d q) <= 16;
  se_sects : 1 <= hd_sect (geometry d q) <= 255;
  se_cmd : r_cmd q = READ \/ r_cmd q = WRITE;
  se_count : r_nr_sectors q = 2;
  se_buffer : r_buffer q = Some (x, 0);
  se_bh : r_bh q = Some x;
  se_sector : 0 <= r_sector q /\ r_sector q + 2 <= nr_sects (partition d q) < 4294967296;
  se_start : 0 <= start_sect (partition d q);
  se_lba : lba d q < 65536 * (hd_head (geometry d q) * hd_sect (geometry d q)) /\ lba d q < 4294967296;
  se_lock : b_lock b <> 0;
  se_data : length (b_data b) = 1024%nat
}.

Definition command_of (d : hard_disk) (q : request_t) : list (Z * Z) :=
  let i := geometry d q in
  let track := lba d q / hd_sect i in
  registers_out i (drive_of q) (r_nr_sectors q) (lba d q mod hd_sect i + 1) (track mod hd_head i) (track / hd_head i)
    (if writes q then WIN_WRITE else WIN_READ).

Definition v_do (h : option hd_handler) (v : view) : view := v <| v_hd ::= fun d => d <| do_hd := h |> |>.
Definition v_puts (l : list (Z * Z)) (v : view) : view := v <| v_out ::= app l |>.

Definition handler (q : request_t) : hd_handler := if writes q then WriteIntr else ReadIntr.
Definition data_out (q : request_t) (b : buffer_head) (off : Z) : list (Z * Z) :=
  if writes q then rev (to_data (sector_words (b_data b) off)) else [].

Definition started (q : request_t) (b : buffer_head) (v : view) : view :=
  v_puts (data_out q b 0) (v_puts (command_of (v_hd v) q) (v_do (Some (handler q)) v)).

Lemma drive_range d q x b : servable d q x b -> 0 <= minor q /\ 0 <= drive_of q <= 1.
Proof.
  intros [_ Hd Hm _ _ _ _ _ _ _ _ _ _ _ _ _]. unfold MAX_HD in Hd.
  assert (0 <= minor q) by (unfold minor, MINOR; apply Z.land_nonneg; lia).
  split; [done|]. unfold drive_of. split; [apply Z.div_pos; lia|]. assert (minor q / 5 < 2) by (apply Z.div_lt_upper_bound; lia). lia.
Qed.

Lemma runs_once {S X A} n (body : X -> M S (X + A)) x s Q :
  (0 < n)%nat -> ends (body x) s (fun r s' => exists a, r = inr a /\ Q a s') -> runs n (loop body x) s Q.
Proof.
  intros Hn H. destruct (ends_run _ n _ _ H) as (r & s' & E & a & -> & HQ).
  unfold runs. by rewrite (loop_once _ _ _ _ _ _ Hn E).
Qed.

Section Serve.
Context (v : view) (r x : Z) (q : request_t) (b : buffer_head).
Context (Hcur : v_cur v = Some r) (Hreq : v_req v r = Some q) (Hbh : v_bh v x = Some b).
Context (Hse : servable (v_hd v) q x b).

Lemma ends_init s : shows v s ->
  ends (INIT_REQUEST HD_MAJOR) s (fun p s' => (exists q', p = Some (r, q') /\ no_waiter_req q' = q) /\ shows v s').
Proof.
  intros H. unfold INIT_REQUEST. run ends_dev_get. intros d s1 [-> H1]. rewrite Hcur.
  run ends_req_get. intros q' s2 [E H2].
  assert (M : MAJOR (r_dev q') = HD_MAJOR) by (rewrite <- (se_major _ _ _ _ Hse), <- E; done).
  assert (B : r_bh q' = Some x) by (rewrite <- (se_bh _ _ _ _ Hse), <- E; done).
  rewrite M, Z.eqb_refl, B. cbn [negb]. apply ends_bind. run ends_bh_get. intros b' s3 [Eb H3].
  replace (nz (b_lock b')) with true.
  - apply ends_ret, ends_ret. split; [by exists q'|done].
  - symmetry. apply nz_true. change (b_lock b') with (b_lock (no_waiter_bh b')). rewrite Eb. apply (se_lock _ _ _ _ Hse).
Qed.

Lemma ends_command q' s dev nsect sec head cyl i : shows v s -> no_waiter_req q' = q ->
  0 <= dev <= 1 -> 0 <= head <= 15 -> arr_get (hd_info (v_hd v)) dev = Some i ->
  ends (hd_command q' dev nsect sec head cyl) s (fun p s' => p = inr tt /\
    shows (v_puts (data_out q b 0) (v_puts (registers_out i dev nsect sec head cyl (if writes q then WIN_WRITE else WIN_READ)) (v_do (Some (handler q)) v))) s').
Proof.
  intros H E Hd Hh Hi. unfold hd_command, handler, data_out.
  change (r_cmd q' =? WRITE) with (writes (no_waiter_req q')). rewrite E. destruct (writes q) eqn:W.
  - run ends_hd_out. intros [] s1 H1. run ends_wait_drq. intros k s2 [-> H2]. cbn [negb].
    run ends_current_of. intros p s3 [(w & ->) H3]. change (r_buffer (q <| r_waiting := w |>)) with (r_buffer q).
    rewrite (se_buffer _ _ _ _ Hse). run ends_port_write; [easy|]. intros [] s4 H4. apply ends_ret. by split.
  - assert (R : r_cmd q' = READ).
    { change (r_cmd q') with (r_cmd (no_waiter_req q')). rewrite E. destruct (se_cmd _ _ _ _ Hse) as [|C]; [done|].
      unfold writes in W. by rewrite C in W. }
    rewrite R. change (READ =? READ) with true. cbv iota. run ends_hd_out. intros [] s1 H1. apply ends_ret. split; [done|].
    eapply shows_veq; [|exact H1]. done.
Qed.

Lemma runs_start n s : (0 < n)%nat -> hd_reset (v_hd v) = 0 -> hd_recalibrate (v_hd v) = 0 -> shows v s ->
  runs n do_hd_request s (fun _ s' => shows (started q b v) s').
Proof.
  intros Hn Hr Hc H. apply runs_once; [done|]. unfold hd_step. run ends_init. intros p s1 [(q' & -> & E) H1]. cbv iota.
  eapply ends_bind, ends_gets. rewrite (sh_hd _ _ H1).
  assert (D : r_dev q' = r_dev q) by (rewrite <- E; done).
  assert (Sc : r_sector q' = r_sector q) by (rewrite <- E; done).
  assert (Nr : r_nr_sectors q' = r_nr_sectors q) by (rewrite <- E; done).
  rewrite D, Sc, Nr. change (MINOR (r_dev q)) with (minor q).
  destruct (drive_range _ _ _ _ Hse) as [Hm Hd].
  pose proof Hse as [_ Hnr Hmin [p Hp] [i Hi] Hh Hs _ _ _ _ Hsec Hst Hl _ _].
  unfold lba in Hl. assert (Gi : geometry (v_hd v) q = i) by (unfold geometry; by rewrite Hi).
  assert (Gp : partition (v_hd v) q = p) by (unfold partition; by rewrite Hp).
  rewrite Gi in *. rewrite Gp in *.
  eapply ends_bind, ends_deref.
  { replace (5 * NR_HD (v_hd v) <=? minor q) with false by (symmetry; apply Z.leb_gt; lia). by rewrite Hp. }
  cbv beta iota. rewrite !u32_small by lia. replace (nr_sects p <? r_sector q + 2) with false by (symmetry; apply Z.ltb_ge; lia).
  eapply ends_bind, ends_deref. { rewrite (sh_hd _ _ H1). exact Hi. }
  unfold divl. set (L := r_sector q + start_sect p). assert (EL : L = lba (v_hd v) q) by (unfold L, lba; rewrite Gp; lia).
  rewrite (u32_small (hd_sect i)) by lia. replace (hd_sect i =? 0) with false by (symmetry; apply Z.eqb_neq; lia).
  apply ends_bind, ends_ret. rewrite (u32_small L) by (unfold L; lia).
  assert (0 <= L / hd_sect i <= L) by (split; [apply Z.div_pos|apply Z.div_le_upper_bound]; unfold L; nia).
  rewrite (u32_small (hd_head i)) by lia. replace (hd_head i =? 0) with false by (symmetry; apply Z.eqb_neq; lia).
  apply ends_bind, ends_ret. rewrite (u32_small (L / hd_sect i)) by (unfold L in *; lia).
  rewrite Hr, Hc. change (nz 0) with false. cbv iota.
  eapply ends_mono; [apply (ends_command q' s1 (drive_of q) (r_nr_sectors q) _ _ _ i H1 E Hd)|].
  - pose proof (Z.mod_pos_bound (L / hd_sect i) (hd_head i)). lia.
  - exact Hi.
  - intros c s2 [-> H2]. exists tt. split; [done|]. unfold started, command_of. by rewrite Gi, <- EL.
Qed.
End Serve.

(** ** The interrupts *)

Definition acked (v : view) : view := v_puts [(0x20, 0x20); (0x20, 0xA0)] (v_do None v).
Definition v_set_req (r : Z) (q : request_t) (v : view) : view := v <| v_req ::= put r q |>.
Definition v_set_bh (x : Z) (b : buffer_head) (v : view) : view := v <| v_bh ::= put x b |>.

Definition one_less (q : request_t) : request_t := q <| r_nr_sectors ::= fun n => u32 (n - 1) |>.
Definition sector_done (q : request_t) : request_t := one_less (next_sector (q <| r_errors := 0 |>)).
Definition completed (b : buffer_head) : buffer_head := b <| b_uptodate := 1 |> <| b_lock := 0 |>.
Definition freed (q : request_t) : request_t := q <| r_dev := -1 |>.

Definition finished (r x : Z) (q : request_t) (b : buffer_head) (v : view) : view :=
  v_set_req r (freed q) (v_set_bh x (completed b) v) <| v_cur := r_next q |>.
Definition sector_in (r x off : Z) (q : request_t) (b : buffer_head) (v : view) : view :=
  v_set_req r (sector_done q) (v_set_bh x (with_data off (stream_bytes (v_in v) 256) b) (v_later 256 v)).

Lemma put_get {X} (i : Z) (x : X) f : put i x f i = Some x.
Proof. unfold put. by rewrite decide_True. Qed.
Lemma put_put {X} (i : Z) (x y : X) f j : put i x (put i y f) j = put i x f j.
Proof. unfold put. by case_decide. Qed.

Lemma ends_unlock_buffer v x b s : v_bh v x = Some b -> shows v s ->
  ends (unlock_buffer x) s (fun _ s' => shows (v_set_bh x (b <| b_lock := 0 |>) v) s').
Proof.
  intros Hbh H. unfold unlock_buffer. run ends_bh_get. intros b' s1 [_ H1].
  eapply ends_bind. eapply ends_mono; [apply (ends_when _ _ _ (fun _ s' => shows v s')); [by intros _ n|done]|]. cbv beta. intros [] s2 H2.
  eapply ends_bind. eapply ends_mono; [apply (ends_bh_upd x b (fun b => b <| b_lock := 0 |>) v s2); done|]. cbv beta. intros [] s3 H3.
  apply ends_wake_up; [apply hidden_bh|exact H3].
Qed.

Section End_request.
Context (v : view) (r x : Z) (q : request_t) (b : buffer_head).
Context (Hcur : v_cur v = Some r) (Hreq : v_req v r = Some q) (Hbh : v_bh v x = Some b) (Hb : r_bh q = Some x).

Lemma ends_end_request s : shows v s ->
  ends (hd_end_request 1) s (fun _ s' => shows (finished r x q b v) s').
Proof.
  intros H. unfold hd_end_request, end_request. run ends_dev_get. intros d s1 [-> H1]. rewrite Hcur.
  run ends_req_get. intros q' s2 [E H2]. apply ends_bind, ends_ret. change (r_bh q') with (r_bh (no_waiter_req q')). rewrite E, Hb.
  apply ends_bind. change (u8 1) with 1.
  eapply ends_bind, ends_mono; [apply (ends_bh_upd x b (fun b => b <| b_uptodate := 1 |>) v s2); done|]. cbv beta. intros [] s3 H3.
  eapply ends_mono; [apply (ends_unlock_buffer (v_set_bh x (b <| b_uptodate := 1 |>) v) x (b <| b_uptodate := 1 |>)); [apply put_get|exact H3]|].
  cbv beta. intros [] s4 H4. change (nz 1) with true. cbv iota. apply ends_bind, ends_ret.
  eapply ends_bind, ends_mono; [apply (ends_wake_up _ _ _ (hidden_req r) H4)|]. cbv beta. intros [] s5 H5.
  eapply ends_bind, ends_mono; [apply (ends_wake_up _ _ _ hidden_free H5)|]. cbv beta. intros [] s6 H6.
  eapply ends_bind, ends_mono; [apply (ends_req_upd r q freed _ s6 H6); done|]. cbv beta. intros [] s7 H7.
  eapply ends_bind, ends_mono; [eapply (ends_req_get r (freed q)); [exact H7|apply put_get]|]. cbv beta. intros q2 s8 [E2 H8].
  change (r_next q2) with (r_next (no_waiter_req q2)). rewrite E2. change (r_next (freed q)) with (r_next q).
  eapply ends_mono; [apply (ends_set_current _ _ _ H8)|]. cbv beta. intros [] s9 H9.
  eapply shows_veq; [|exact H9]. split; [done|]. split; [|done]. intros y. apply put_put.
Qed.

End End_request.

Ltac next L := apply runs_bind; eapply runs_mono; [apply runs_ends; apply L; done|cbv beta].

Section Handlers.
Context (v : view) (r x : Z) (q : request_t) (b : buffer_head).
Context (Hcur : v_cur v = Some r) (Hreq : v_req v r = Some q) (Hbh : v_bh v x = Some b).
Context (Hb : r_bh q = Some x).
Context (off : Z) (Hbuf : r_buffer q = Some (x, off)).

(** [read_intr]: the sector goes to the buffer, and the request is finished with its last one. *)
Lemma runs_read_intr n s Q : 0 <= off <= 512 -> shows v s ->
  (r_nr_sectors (sector_done q) <> 0 -> forall s', shows (v_do (Some ReadIntr) (sector_in r x off q b v)) s' -> Q tt s') ->
  (r_nr_sectors (sector_done q) = 0 -> forall s',
     shows (finished r x (sector_done q) (with_data off (stream_bytes (v_in v) 256) b) (sector_in r x off q b v)) s' ->
     runs n do_hd_request s' Q) ->
  runs n read_intr s Q.
Proof.
  intros Ho H Hmore Hlast. unfold read_intr.
  next (ends_win_result v s). intros w s1 [-> H1]. change (nz 0) with false. cbv iota.
  next (ends_current_of r q v s1). intros p s2 [(w & ->) H2]. cbv iota.
  change (r_buffer (q <| r_waiting := w |>)) with (r_buffer q). rewrite Hbuf.
  next (ends_port_read x off b v s2). intros [] s3 H3.
  next (ends_current_upd (fun q => next_sector (q <| r_errors := 0 |>)) r q _ s3 H3). intros [] s4 H4.
  next (ends_current_upd one_less r _ _ s4 H4 Hcur (put_get _ _ _)). intros [] s5 H5.
  assert (H5' : shows (sector_in r x off q b v) s5).
  { eapply shows_veq; [|exact H5]. split; [|done]. intros y. apply put_put. }
  clear H5. next (ends_current_of r (sector_done q) _ s5 H5' Hcur (put_get _ _ _)).
  intros p s6 [(w' & ->) H6]. cbv iota.
  change (r_nr_sectors ((sector_done q) <| r_waiting := w' |>)) with (r_nr_sectors (sector_done q)).
  destruct (nz (r_nr_sectors (sector_done q))) eqn:N.
  - apply nz_true in N. eapply runs_mono; [apply runs_ends, (ends_hd_upd _ _ _ H6)|]. cbv beta. intros [] s7 H7. by apply Hmore.
  - apply nz_false in N.
    next (ends_end_request (sector_in r x off q b v) r x (sector_done q) (with_data off (stream_bytes (v_in v) 256) b) Hcur (put_get _ _ _) (put_get _ _ _) Hb s6 H6).
    intros [] s7 H7. by apply Hlast.
Qed.

(** [write_intr]: the next sector goes out, and the request is finished after its last one. *)
Lemma runs_write_intr n s Q : 0 <= off -> shows v s ->
  (r_nr_sectors (one_less q) <> 0 -> off = 0 /\ forall s',
     shows (v_puts (rev (to_data (sector_words (b_data b) 512))) (v_do (Some WriteIntr) (v_set_req r (next_sector (one_less q)) v))) s' -> Q tt s') ->
  (r_nr_sectors (one_less q) = 0 -> forall s', shows (finished r x (one_less q) b (v_set_req r (one_less q) v)) s' ->
     runs n do_hd_request s' Q) ->
  runs n write_intr s Q.
Proof.
  intros Ho H Hmore Hlast. unfold write_intr.
  next (ends_win_result v s). intros w s1 [-> H1]. change (nz 0) with false. cbv iota.
  next (ends_current_upd one_less r q v s1). intros [] s2 H2.
  next (ends_current_of r (one_less q) _ s2 H2 Hcur (put_get _ _ _)). intros p s3 [(w & ->) H3]. cbv iota.
  change (r_nr_sectors ((one_less q) <| r_waiting := w |>)) with (r_nr_sectors (one_less q)).
  destruct (nz (r_nr_sectors (one_less q))) eqn:N.
  - apply nz_true in N. destruct (Hmore N) as [-> HQ]. clear Hmore.
    next (ends_current_upd next_sector r _ _ s3 H3 Hcur (put_get _ _ _)). intros [] s4 H4.
    assert (H4' : shows (v_set_req r (next_sector (one_less q)) v) s4).
    { eapply shows_veq; [|exact H4]. split; [|done]. intros y. apply put_put. }
    clear H4. next (ends_hd_upd (fun d => d <| do_hd := Some WriteIntr |>) _ s4 H4'). intros [] s5 H5.
    next (ends_current_of r (next_sector (one_less q)) _ s5 H5 Hcur (put_get _ _ _)). intros p s6 [(w' & ->) H6]. cbv iota.
    change (r_buffer ((next_sector (one_less q)) <| r_waiting := w' |>)) with (option_map (fun p => (p.1, p.2 + 512)) (r_buffer q)).
    rewrite Hbuf. cbn [option_map fst snd].
    eapply runs_mono; [apply runs_ends, (ends_port_write x 512 b _ s6 H6 Hbh); lia|]. cbv beta. intros [] s7 H7. by apply HQ.
  - apply nz_false in N.
    next (ends_end_request (v_set_req r (one_less q) v) r x (one_less q) b Hcur (put_get _ _ _) Hbh Hb s3 H3).
    intros [] s4 H4. by apply Hlast.
Qed.
End Handlers.

(** The entry: acknowledged to both interrupt controllers, then what [do_hd] says. *)
Lemma runs_hd_interrupt v h n s Q : shows v s -> do_hd (v_hd v) = Some h ->
  (forall s', shows (acked v) s' -> runs n (match h with ReadIntr => read_intr | WriteIntr => write_intr | RecalIntr => recal_intr end) s' Q) ->
  runs n hd_interrupt s Q.
Proof.
  intros H Hh HQ. unfold hd_interrupt. next (ends_outb 0x20 0xA0 v s). intros [] s1 H1.
  apply runs_bind. eapply runs_mono; [apply runs_ends, (ends_gets (fun s => hdd (k_blk s)) s1 (fun d s' => d = v_hd v /\ s' = s1)); split; [exact (sh_hd _ _ H1)|done]|].
  cbv beta. intros d s2 [-> ->].
  next (ends_hd_upd (fun d => d <| do_hd := None |>) _ s1 H1). intros [] s3 H3.
  next (ends_outb 0x20 0x20 _ s3 H3). intros [] s4 H4. rewrite Hh. specialize (HQ s4). by destruct h; apply HQ.
Qed.

(** ** One request from its start to its end *)

Definition buffer_of (q : request_t) : Z := default 0 (r_bh q).
Definition acks : list (Z * Z) := [(0x20, 0x20); (0x20, 0xA0)].

Definition served_req (q : request_t) : request_t :=
  freed (if writes q then one_less (next_sector (one_less q)) else sector_done (sector_done q)).
(** The buffer of a request when the data port goes on with [f]. *)
Definition served_bh (q : request_t) (f : nat -> Z) (b : buffer_head) : buffer_head :=
  completed (if writes q then b else b <| b_data := stream_bytes f 512 |>).
Definition served_in (q : request_t) (f : nat -> Z) : nat -> Z := if writes q then f else later 512 f.
Definition served_out (d : hard_disk) (q : request_t) (b : buffer_head) : list (Z * Z) :=
  acks ++ data_out q b 512 ++ acks ++ data_out q b 0 ++ command_of d q.

Definition served (r : Z) (q : request_t) (b : buffer_head) (v : view) : view :=
  mkView (put r (served_req q) (v_req v)) (put (buffer_of q) (served_bh q (v_in v) b) (v_bh v)) ((v_hd v) <| do_hd := None |>)
    (r_next q) (served_in q (v_in v)) (served_out (v_hd v) q b ++ v_out v).

Lemma splice_halves (d l1 l2 : list Z) : length d = 1024%nat -> length l1 = 512%nat -> length l2 = 512%nat ->
  splice (splice d 0 l1) 512 l2 = l1 ++ l2.
Proof.
  intros H H1 H2. assert (E : splice d 0 l1 = l1 ++ drop 512 d) by (unfold splice; by rewrite H1).
  rewrite E. unfold splice. rewrite take_app_length' by done. rewrite (drop_ge (l1 ++ _)); [by rewrite app_nil_r|].
  rewrite length_app, length_drop. lia.
Qed.

Lemma with_data_halves b l1 l2 : length (b_data b) = 1024%nat -> length l1 = 512%nat -> length l2 = 512%nat ->
  with_data 512 l2 (with_data 0 l1 b) = b <| b_data := l1 ++ l2 |>.
Proof.
  intros H H1 H2. rewrite <- (splice_halves _ l1 l2 H H1 H2). by destruct b.
Qed.

Lemma runs_serve_one v r x q b n s Q : v_cur v = Some r -> v_req v r = Some q -> v_bh v x = Some b -> servable (v_hd v) q x b ->
  shows (started q b v) s ->
  (forall s', shows (served r q b v) s' -> runs n do_hd_request s' Q) ->
  runs n (hd_interrupt ;;; hd_interrupt) s Q.
Proof.
  intros Hcur Hreq Hbh Hse H HQ. pose proof (se_count _ _ _ _ Hse) as Hn. pose proof (se_bh _ _ _ _ Hse) as Hb.
  pose proof (se_buffer _ _ _ _ Hse) as Hbuf.
  assert (N1 : r_nr_sectors (one_less q) = 1) by (change (u32 (r_nr_sectors q - 1) = 1); by rewrite Hn).
  assert (Ex : buffer_of q = x) by (unfold buffer_of; by rewrite Hb).
  apply runs_bind. eapply (runs_hd_interrupt _ _ n s _ H eq_refl). intros s1 H1.
  unfold served, served_req, served_bh, served_in, served_out, data_out in HQ. unfold handler. assert (Hout : v_out (started q b v) = data_out q b 0 ++ command_of (v_hd v) q ++ v_out v) by done.
  unfold data_out in Hout. destruct (writes q) eqn:W.
  - refine (runs_write_intr (acked (started q b v)) r x q b Hcur Hreq Hbh Hb 0 Hbuf n s1 _ _ _ _ _); [lia|exact H1| |].
    2:{ rewrite N1. discriminate. }
    intros _. split; [done|]. intros s2 H2. eapply (runs_hd_interrupt _ _ n s2 _ H2 eq_refl). intros s3 H3.
    match type of H3 with shows ?w _ => refine (runs_write_intr w r x (next_sector (one_less q)) b Hcur (put_get _ _ _) Hbh Hb 512 _ n s3 _ _ H3 _ _) end; [|lia| |].
    + change (option_map (fun p => (p.1, p.2 + 512)) (r_buffer q) = Some (x, 512)). by rewrite Hbuf.
    + intros N2. exfalso. apply N2. change (u32 (r_nr_sectors (one_less q) - 1) = 0). by rewrite N1.
    + intros _ s4 H4. apply HQ. eapply shows_veq; [|exact H4]. split; [|split; [|split; [done|split; [done|split; [done|]]]]].
      * intros y. exact (eq_trans (put_put r _ _ _ y) (put_put r _ _ _ y)).
      * intros y. by rewrite Ex.
      * change (acks ++ rev (to_data (sector_words (b_data b) 512)) ++ acks ++ v_out (started q b v) =
          (acks ++ rev (to_data (sector_words (b_data b) 512)) ++ acks ++ rev (to_data (sector_words (b_data b) 0)) ++ command_of (v_hd v) q) ++ v_out v).
        rewrite Hout. by rewrite !app_assoc.
  - refine (runs_read_intr (acked (started q b v)) r x q b Hcur Hreq Hbh Hb 0 Hbuf n s1 _ _ H1 _ _); [lia| |].
    2:{ change (r_nr_sectors (sector_done q)) with (r_nr_sectors (one_less q)). rewrite N1. discriminate. }
    intros _ s2 H2. eapply (runs_hd_interrupt _ _ n s2 _ H2 eq_refl). intros s3 H3.
    match type of H3 with shows ?w _ =>
      refine (runs_read_intr w r x (sector_done q) (with_data 0 (stream_bytes (v_in v) 256) b) Hcur (put_get _ _ _) (put_get _ _ _) Hb 512 _ n s3 _ _ H3 _ _)
    end; [|lia| |].
    + change (option_map (fun p => (p.1, p.2 + 512)) (r_buffer q) = Some (x, 512)). by rewrite Hbuf.
    + intros N2. exfalso. apply N2. change (u32 (r_nr_sectors (one_less q) - 1) = 0). by rewrite N1.
    + intros _ s4 H4. apply HQ. eapply shows_veq; [|exact H4]. split; [|split; [|split; [done|split; [done|split; [|]]]]].
      * intros y. exact (eq_trans (put_put r _ _ _ y) (put_put r _ _ _ y)).
      * intros y. rewrite Ex. refine (eq_trans (put_put x _ _ _ y) (eq_trans (put_put x _ _ _ y) _)).
        change (v_bh (served r q b v)) with (v_bh v).
        change (put x (completed (with_data 512 (stream_bytes (later 256 (v_in v)) 256) (with_data 0 (stream_bytes (v_in v) 256) b))) (v_bh v) y =
          put x (completed (b <| b_data := stream_bytes (v_in v) (256 + 256) |>)) (v_bh v) y).
        rewrite with_data_halves by (apply stream_bytes_length || apply (se_data _ _ _ _ Hse)). by rewrite stream_bytes_app.
      * intros k. reflexivity.
      * change (acks ++ acks ++ v_out (started q b v) = (acks ++ [] ++ acks ++ [] ++ command_of (v_hd v) q) ++ v_out v).
        rewrite Hout. cbn [app]. by rewrite !app_assoc.
Qed.

(** ** The whole queue *)

(** [k] requests: two interrupts for each. *)
Definition interrupts (k : nat) : K unit := for_each (seq 0 k) (fun _ => hd_interrupt ;;; hd_interrupt).

Definition the_bh (v : view) (q : request_t) : buffer_head :=
  default (mkBh 0 [] 0 0 0 0 0 0 None None None None None) (v_bh v (buffer_of q)).
Definition v_the_req (v : view) (r : Z) : request_t := default no_request (v_req v r).
Definition serve (r : Z) (v : view) : view := served r (v_the_req v r) (the_bh v (v_the_req v r)) v.
Definition serve_all (rs : list Z) (v : view) : view := fold_left (fun v r => serve r v) rs v.

(** The queue of the view: requests to be served, each with its own buffer. *)
Record queued (v : view) (rs : list Z) : Prop := mkQueued {
  qd_linked : linked (fun r => r_next (v_the_req v r)) (v_cur v) rs;
  qd_nodup : NoDup rs;
  qd_buffers : NoDup (map (fun r => buffer_of (v_the_req v r)) rs);
  qd_servable r : r ∈ rs -> exists q b, v_req v r = Some q /\ v_bh v (buffer_of q) = Some b /\ servable (v_hd v) q (buffer_of q) b
}.

Lemma servable_do d h q x b : servable d q x b -> servable (d <| do_hd := h |>) q x b.
Proof. intros []. by split. Qed.

Lemma put_ne {X} (i j : Z) (x : X) f : i <> j -> put i x f j = f j.
Proof. intros H. unfold put. by rewrite decide_False. Qed.

Lemma serve_other v r r' : r <> r' -> v_the_req (serve r v) r' = v_the_req v r'.
Proof. intros H. unfold v_the_req at 1. change (v_req (serve r v)) with (put r (served_req (v_the_req v r)) (v_req v)). by rewrite put_ne. Qed.

Lemma queued_next v r rs : queued v (r :: rs) -> queued (serve r v) rs.
Proof.
  intros [[Hc Hl] Hnd Hb Hs]. apply NoDup_cons in Hnd as [Hr Hnd]. cbn [map] in Hb. apply NoDup_cons in Hb as [Hbr Hb].
  assert (O : forall r', r' ∈ rs -> v_the_req (serve r v) r' = v_the_req v r') by (intros r' Hr'; apply serve_other; by intros ->).
  split; [|done| |].
  - eapply linked_ext; [|exact Hl]. intros r' Hr'. cbv beta. by rewrite O.
  - erewrite map_ext_in; [exact Hb|]. intros r' Hr'. cbv beta. rewrite O; [done|by apply list_elem_of_In].
  - intros r' Hr'. destruct (Hs r' ltac:(by right)) as (q & b & Hq & Hbq & Hse). exists q, b. split; [|split].
    + change (v_req (serve r v) r') with (put r (served_req (v_the_req v r)) (v_req v) r'). rewrite put_ne; [done|by intros ->].
    + change (v_bh (serve r v)) with (put (buffer_of (v_the_req v r)) (served_bh (v_the_req v r) (v_in v) (the_bh v (v_the_req v r))) (v_bh v)).
      rewrite put_ne; [done|]. intros E. apply Hbr. rewrite E.
      replace q with (v_the_req v r') by (unfold v_the_req; by rewrite Hq).
      apply list_elem_of_In. apply (in_map (fun r => buffer_of (v_the_req v r))). by apply list_elem_of_In.
    + by apply servable_do.
Qed.

Lemma runs_idle v s n : (0 < n)%nat -> v_cur v = None -> shows v s -> runs n do_hd_request s (fun _ s' => shows v s').
Proof.
  intros Hn Hc H. apply runs_once; [done|]. unfold hd_step, INIT_REQUEST. apply ends_bind.
  run ends_dev_get. intros d s1 [-> H1]. rewrite Hc. apply ends_ret, ends_ret. by exists tt.
Qed.

Lemma runs_queue n rs : (0 < n)%nat -> forall v s, hd_reset (v_hd v) = 0 -> hd_recalibrate (v_hd v) = 0 ->
  queued v rs -> shows v s ->
  runs n (do_hd_request ;;; interrupts (length rs)) s (fun _ s' => shows (serve_all rs v) s').
Proof.
  intros Hn. unfold interrupts. generalize 0%nat as k. induction rs as [|r rs IH]; intros k v s Hr Hc Hq H.
  - apply runs_bind. eapply runs_mono; [apply (runs_idle v s n Hn); [exact (qd_linked _ _ Hq)|done]|]. by intros [] s1 H1.
  - pose proof (queued_next v r rs Hq) as Hq'. destruct (qd_linked _ _ Hq) as [Hcur _].
    destruct (qd_servable _ _ Hq r ltac:(left)) as (q & b & Hreq & Hbh & Hse).
    assert (Eq : v_the_req v r = q) by (unfold v_the_req; by rewrite Hreq).
    assert (Eb : the_bh v q = b) by (unfold the_bh; by rewrite Hbh).
    apply runs_bind. eapply runs_mono; [apply (runs_start v r (buffer_of q) q b); done|]. cbv beta. intros [] s1 H1.
    cbn [length seq for_each serve_all fold_left]. apply runs_bind.
    eapply (runs_serve_one v r (buffer_of q) q b n s1 _ Hcur Hreq Hbh Hse H1). intros s2 H2.
    assert (E : served r q b v = serve r v) by (unfold serve; by rewrite Eq, Eb). rewrite E in H2.
    specialize (IH (S k) (serve r v) s2 Hr Hc Hq' H2). unfold runs, bind in IH |- *.
    destruct (do_hd_request n s2) as [[] s3|?|?|?|?|]; try done.
Qed.

(** ** What the controller is told *)

(** An order to the controller: direction, drive, first sector, count, and the words
    that followed on the data port. *)
Record order := mkOrder { o_write : bool; o_drive : Z; o_lba : Z; o_count : Z; o_words : list Z }.

(** The controller takes a write to a port: registers, and orders with the last first. *)
Definition controller (info : list hd_i_struct) (st : (Z -> Z) * list order) (w : Z * Z) : (Z -> Z) * list order :=
  let '(reg, l) := st in
  let '(x, p) := w in
  if p =? HD_COMMAND then
    let drive := Z.land (Z.shiftr (reg HD_CURRENT) 4) 1 in
    let i := default (mkHdInfo 0 0 0 0 0 0) (arr_get info drive) in
    let cyl := reg HD_LCYL + 256 * reg HD_HCYL in
    let head := Z.land (reg HD_CURRENT) 15 in
    (reg, mkOrder (x =? WIN_WRITE) drive ((cyl * hd_head i + head) * hd_sect i + reg HD_SECTOR - 1) (reg HD_NSECTOR) [] :: l)
  else if p =? HD_DATA then
    (reg, match l with o :: l' => mkOrder (o_write o) (o_drive o) (o_lba o) (o_count o) (o_words o ++ [x]) :: l' | [] => [] end)
  else (fun p' => if p' =? p then x else reg p', l).

(** The orders of what was written, the first first. *)
Definition orders (info : list hd_i_struct) (written : list (Z * Z)) : list order :=
  rev (fold_left (controller info) written (fun _ => 0, [])).2.

Definition order_of (d : hard_disk) (q : request_t) (b : buffer_head) : order :=
  mkOrder (writes q) (drive_of q) (lba d q) 2
    (if writes q then sector_words (b_data b) 0 ++ sector_words (b_data b) 512 else []).

(** The drive and the head in one register. *)
Lemma drive_head dr hd : 0 <= dr <= 1 -> 0 <= hd <= 15 ->
  let c := u8 (Z.lor (Z.lor 0xA0 (Z.shiftl dr 4)) hd) in Z.land (Z.shiftr c 4) 1 = dr /\ Z.land c 15 = hd.
Proof.
  intros H1 H2. assert (dr = 0 \/ dr = 1) as [-> | ->] by lia;
    (assert (exists k : nat, hd = Z.of_nat k /\ (k < 16)%nat) as (k & -> & Hk) by (exists (Z.to_nat hd); lia));
    do 16 (destruct k as [|k]; [split; reflexivity|]); lia.
Qed.
Lemma low_high c : 0 <= c < 65536 -> u8 c + 256 * u8 (Z.shiftr (u32 c) 8) = c.
Proof.
  intros H. rewrite u32_small by lia. rewrite Z.shiftr_div_pow2 by lia. unfold u8. change (2 ^ 8) with 256.
  rewrite (Z.mod_small (c / 256)); [pose proof (Z.div_mod c 256); lia|]. split; [apply Z.div_pos; lia|apply Z.div_lt_upper_bound; lia].
Qed.

Lemma controller_data info reg o l ws :
  fold_left (controller info) (to_data ws) (reg, o :: l) =
  (reg, mkOrder (o_write o) (o_drive o) (o_lba o) (o_count o) (o_words o ++ ws) :: l).
Proof.
  revert o. induction ws as [|w ws IH]; intros o; cbn [to_data map fold_left].
  - rewrite app_nil_r. by destruct o.
  - change (controller info (reg, o :: l) (w, HD_DATA)) with (reg, mkOrder (o_write o) (o_drive o) (o_lba o) (o_count o) (o_words o ++ [w]) :: l).
    fold (to_data ws). rewrite IH. cbn [o_words o_write o_drive o_lba o_count]. by rewrite <- app_assoc.
Qed.

Lemma controller_acks info reg : exists reg', forall l, fold_left (controller info) (rev acks) (reg, l) = (reg', l).
Proof. by eexists. Qed.

Lemma controller_registers info reg l ctl pre n sect lc hc dh cmd :
  let i := default (mkHdInfo 0 0 0 0 0 0) (arr_get info (Z.land (Z.shiftr dh 4) 1)) in
  exists reg', fold_left (controller info)
    [(ctl, 0x3f6); (pre, 0x1f1); (n, 0x1f2); (sect, 0x1f3); (lc, 0x1f4); (hc, 0x1f5); (dh, 0x1f6); (cmd, 0x1f7)] (reg, l) =
    (reg', mkOrder (cmd =? WIN_WRITE) (Z.land (Z.shiftr dh 4) 1)
             (((lc + 256 * hc) * hd_head i + Z.land dh 15) * hd_sect i + sect - 1) n [] :: l).
Proof. by eexists. Qed.

(** Cylinder, head and sector are those of the sector asked for. *)
Lemma controller_command d q x b reg l : servable d q x b ->
  exists reg', fold_left (controller (hd_info d)) (rev (command_of d q)) (reg, l) = (reg', mkOrder (writes q) (drive_of q) (lba d q) 2 [] :: l).
Proof.
  intros Hse. destruct (drive_range _ _ _ _ Hse) as [_ Hd].
  pose proof Hse as [_ _ _ _ [i Hi] Hh Hs _ Hn _ _ Hsec Hst [Hl _] _ _].
  assert (Gi : geometry d q = i) by (unfold geometry; by rewrite Hi). rewrite Gi in *.
  assert (HL : 0 <= lba d q) by (unfold lba; lia).
  set (L := lba d q) in *. set (T := L / hd_sect i).
  assert (HT : 0 <= T) by (apply Z.div_pos; lia).
  assert (Hm : 0 <= T mod hd_head i < hd_head i) by (apply Z.mod_pos_bound; lia).
  assert (Hsm : 0 <= L mod hd_sect i < hd_sect i) by (apply Z.mod_pos_bound; lia).
  assert (Hc : 0 <= T / hd_head i < 65536).
  { split; [apply Z.div_pos; lia|]. apply Z.div_lt_upper_bound; [lia|]. apply Z.div_lt_upper_bound; [lia|]. lia. }
  destruct (drive_head (drive_of q) (T mod hd_head i) Hd ltac:(lia)) as [D1 D2].
  unfold command_of. rewrite Gi, Hn. fold L. fold T. unfold registers_out. cbn [rev app].
  match goal with |- context [fold_left _ [(?ctl, _); (?pre, _); (?n, _); (?sect, _); (?lc, _); (?hc, _); (?dh, _); (?cmd, _)] _] =>
    destruct (controller_registers (hd_info d) reg l ctl pre n sect lc hc dh cmd) as [reg' E] end.
  exists reg'. rewrite E, D1, D2, Hi. cbn [default from_option id]. rewrite low_high by done. rewrite (u8_small (L mod hd_sect i + 1)) by lia.
  do 2 f_equal. f_equal; [by destruct (writes q)|].
  assert (ET : T / hd_head i * hd_head i + T mod hd_head i = T) by (pose proof (Z.div_mod T (hd_head i)); lia).
  rewrite ET. unfold T. pose proof (Z.div_mod L (hd_sect i)). lia.
Qed.

Lemma controller_served d q x b reg l : servable d q x b ->
  exists reg', fold_left (controller (hd_info d)) (rev (served_out d q b)) (reg, l) = (reg', order_of d q b :: l).
Proof.
  intros Hse. unfold served_out. rewrite !rev_app_distr, !fold_left_app.
  destruct (controller_command d q x b reg l Hse) as [r1 ->].
  destruct (controller_acks (hd_info d) r1) as [r2 A1]. destruct (controller_acks (hd_info d) r2) as [r3 A2].
  exists r3. unfold data_out, order_of. destruct (writes q); cbn [rev fold_left].
  - rewrite !rev_involutive, controller_data, A1, controller_data. apply A2.
  - rewrite A1. apply A2.
Qed.

Lemma orders_served d (l : list (request_t * buffer_head)) x reg acc :
  Forall (fun p => servable d p.1 (x p.1) p.2) l ->
  exists reg', fold_left (controller (hd_info d)) (rev (concat (rev (map (fun p => served_out d p.1 p.2) l)))) (reg, acc) =
    (reg', rev (map (fun p => order_of d p.1 p.2) l) ++ acc).
Proof.
  revert reg acc. induction l as [|p l IH]; intros reg acc H; [by exists reg|]. apply Forall_cons in H as [Hp H].
  cbn [map rev]. rewrite concat_app, rev_app_distr, fold_left_app. cbn [concat]. rewrite app_nil_r.
  destruct (controller_served d p.1 (x p.1) p.2 reg acc Hp) as [r1 ->].
  destruct (IH r1 (order_of d p.1 p.2 :: acc) H) as [r2 E]. exists r2. rewrite E. by rewrite <- app_assoc.
Qed.

(** ** The view after the queue *)

(** The buffers of the requests, when the data port goes on with [f]. *)
Fixpoint delivered (v w : view) (rs : list Z) (f : nat -> Z) : Prop :=
  match rs with
  | [] => True
  | r :: rs' =>
      let q := v_the_req v r in
      v_bh w (buffer_of q) = Some (served_bh q f (the_bh v q)) /\ delivered v w rs' (served_in q f)
  end.

Definition order_at (v : view) (r : Z) : order := order_of (v_hd v) (v_the_req v r) (the_bh v (v_the_req v r)).
Definition out_at (v : view) (r : Z) : list (Z * Z) := served_out (v_hd v) (v_the_req v r) (the_bh v (v_the_req v r)).
Definition buffer_at (v : view) (r : Z) : Z := buffer_of (v_the_req v r).

Section ServeAll.
Context (v : view) (r : Z) (rs : list Z) (Hq : queued v (r :: rs)).

Lemma serve_req r' : r' ∈ rs -> v_the_req (serve r v) r' = v_the_req v r'.
Proof.
  intros H. apply serve_other. intros <-. pose proof (qd_nodup _ _ Hq) as Hn. by apply NoDup_cons in Hn as [Hn _].
Qed.
Lemma serve_buffer r' : r' ∈ rs -> buffer_at v r <> buffer_at v r'.
Proof.
  intros H E. pose proof (qd_buffers _ _ Hq) as Hn. cbn [map] in Hn. apply NoDup_cons in Hn as [Hn _]. apply Hn.
  apply list_elem_of_In, in_map_iff. exists r'. split; [by symmetry|by apply list_elem_of_In].
Qed.
Lemma serve_bh x : buffer_at v r <> x -> v_bh (serve r v) x = v_bh v x.
Proof. apply put_ne. Qed.
Lemma serve_the_bh r' : r' ∈ rs -> the_bh (serve r v) (v_the_req v r') = the_bh v (v_the_req v r').
Proof. intros H. unfold the_bh. by rewrite serve_bh by (by apply serve_buffer). Qed.

(** Serving the first changes nothing for the others. *)
Lemma serve_map {X} (f : hard_disk -> request_t -> buffer_head -> X) :
  (forall q b, f (v_hd (serve r v)) q b = f (v_hd v) q b) ->
  map (fun r' => f (v_hd (serve r v)) (v_the_req (serve r v) r') (the_bh (serve r v) (v_the_req (serve r v) r'))) rs =
  map (fun r' => f (v_hd v) (v_the_req v r') (the_bh v (v_the_req v r'))) rs.
Proof.
  intros Hf. apply map_ext_in. intros r' H. apply list_elem_of_In in H. by rewrite Hf, serve_req, serve_the_bh.
Qed.

Lemma delivered_serve w f : delivered (serve r v) w rs f -> delivered v w rs f.
Proof.
  assert (H : forall r', r' ∈ rs -> v_the_req (serve r v) r' = v_the_req v r' /\ the_bh (serve r v) (v_the_req v r') = the_bh v (v_the_req v r')).
  { intros r' Hr'. split; [by apply serve_req|by apply serve_the_bh]. }
  clear Hq. revert H f. induction rs as [|r' l IH]; intros H f; [done|]. cbn [delivered].
  destruct (H r' ltac:(left)) as [-> ->]. intros [H1 H2]. split; [done|]. apply IH; [|done]. intros r2 Hr2. apply H. by right.
Qed.
End ServeAll.

Lemma serve_all_bh rs : forall v x, queued v rs -> x ∉ map (buffer_at v) rs -> v_bh (serve_all rs v) x = v_bh v x.
Proof.
  induction rs as [|r rs IH]; intros v x Hq Hx; [done|]. cbn [serve_all fold_left]. fold (serve_all rs (serve r v)).
  cbn [map] in Hx. apply not_elem_of_cons in Hx as [Hx1 Hx2]. rewrite IH; [by apply serve_bh|by apply queued_next|].
  erewrite map_ext_in; [exact Hx2|]. intros r' H. apply list_elem_of_In in H. unfold buffer_at. by rewrite (serve_req v r rs Hq).
Qed.
Lemma serve_all_req rs : forall v r, queued v rs -> r ∉ rs -> v_req (serve_all rs v) r = v_req v r.
Proof.
  induction rs as [|r' rs IH]; intros v r Hq Hx; [done|]. cbn [serve_all fold_left]. fold (serve_all rs (serve r' v)).
  apply not_elem_of_cons in Hx as [Hx1 Hx2]. rewrite IH; [apply put_ne; by symmetry|by apply queued_next|done].
Qed.

Lemma serve_all_out rs : forall v, queued v rs -> v_cur (serve_all rs v) = None /\
  v_out (serve_all rs v) = concat (rev (map (out_at v) rs)) ++ v_out v.
Proof.
  induction rs as [|r rs IH]; intros v Hq; [split; [exact (qd_linked _ _ Hq)|done]|].
  cbn [serve_all fold_left]. fold (serve_all rs (serve r v)). destruct (IH _ (queued_next _ _ _ Hq)) as [-> ->]. split; [done|].
  unfold out_at at 1. rewrite (serve_map v r rs Hq served_out) by done. cbn [map rev]. rewrite concat_app. cbn [concat]. rewrite app_nil_r, <- app_assoc. done.
Qed.

Lemma serve_all_delivered rs : forall v, queued v rs -> delivered v (serve_all rs v) rs (v_in v) /\
  forall r, r ∈ rs -> exists q, v_req (serve_all rs v) r = Some q /\ r_dev q = -1.
Proof.
  induction rs as [|r rs IH]; intros v Hq; [split; [done|]; by intros r Hr%elem_of_nil|].
  cbn [serve_all fold_left]. fold (serve_all rs (serve r v)). pose proof (queued_next _ _ _ Hq) as Hq'. destruct (IH _ Hq') as [Hd Hf].
  assert (Hr : r ∉ rs) by (pose proof (qd_nodup _ _ Hq) as Hn; by apply NoDup_cons in Hn as [Hn _]). split.
  - cbn [delivered]. split; [|by eapply delivered_serve].
    rewrite serve_all_bh; [apply put_get|done|]. intros H. apply list_elem_of_In, in_map_iff in H as (r' & E & H). apply list_elem_of_In in H.
    unfold buffer_at in E. rewrite (serve_req v r rs Hq) in E by done. by apply (serve_buffer v r rs Hq r' H).
  - intros r' [->|H]%elem_of_cons; [|by apply Hf]. rewrite serve_all_req by done. eexists. split; [apply put_get|].
    unfold served_req. done.
Qed.

(** ** The theorem *)

(** The driver's view of a state. *)
Definition hd_view (s : kstate) : view :=
  mkView (fun x => no_waiter_req <$> req_at s x) (fun x => no_waiter_bh <$> bh_at s x) (hdd (k_blk s))
    (match arr_get (blk_dev (k_blk s)) HD_MAJOR with Some d => current_request d | None => None end)
    (inputs (k_sched s) HD_DATA) (out (k_sched s)).

Lemma hd_view_shows s d : arr_get (blk_dev (k_blk s)) HD_MAJOR = Some d -> waiters_ok s ->
  (forall k, works (inputs (k_sched s) HD_STATUS k)) -> shows (hd_view s) s.
Proof. intros Hd Hw Hs. split; try done. exists d. split; [done|]. cbn -[HD_MAJOR]. by rewrite Hd. Qed.

Lemma shows_hd_view v s : shows v s -> veq (hd_view s) v.
Proof.
  intros [H1 H2 H3 (d & Hd & Hc) H5 H6 H7 HW]. repeat split; try done. cbn -[HD_MAJOR]. by rewrite Hd.
Qed.

Lemma delivered_veq v w w' rs f : veq w' w -> delivered v w rs f -> delivered v w' rs f.
Proof.
  intros (_ & E & _). revert f. induction rs as [|r rs IH]; intros f; [done|]. cbn [delivered]. rewrite E. intros [H1 H2]. split; [done|]. by apply IH.
Qed.

(** C4. The hard disk driver serves its whole queue. When the controller works, the
    start of the queue and two interrupts for each of its requests take every request
    off it, in order: from the registers and data written, a controller with the
    drives' geometry understands exactly one order for each request, with its drive,
    its sector counted from the start of the disk, its two sectors and, for a write,
    the 512 words of its buffer; the buffer of each read holds the next 512 words of
    the data port, every buffer is up to date and unlocked, every request is free
    again, and no other buffer has changed. *)
Theorem hd_serves_queue (s : kstate) (rs : list Z) (n : nat) :
  let v := hd_view s in
  (0 < n)%nat -> is_Some (arr_get (blk_dev (k_blk s)) HD_MAJOR) -> waiters_ok s ->
  (forall k, works (inputs (k_sched s) HD_STATUS k)) ->
  hd_reset (hdd (k_blk s)) = 0 -> hd_recalibrate (hdd (k_blk s)) = 0 -> queued v rs ->
  exists s' written, (do_hd_request ;;; interrupts (length rs)) n s = Done tt s' /\
    let w := hd_view s' in
    v_cur w = None /\ out (k_sched s') = written ++ out (k_sched s) /\
    orders (hd_info (hdd (k_blk s))) (rev written) = map (order_at v) rs /\
    delivered v w rs (inputs (k_sched s) HD_DATA) /\
    (forall r, r ∈ rs -> exists q, v_req w r = Some q /\ r_dev q = -1) /\
    (forall x, x ∉ map (buffer_at v) rs -> v_bh w x = v_bh v x).
Proof.
  intros v Hn [d Hd] Hw Hs Hr Hc Hq. pose proof (hd_view_shows s d Hd Hw Hs) as H. fold v in H.
  pose proof (runs_queue n rs Hn v s Hr Hc Hq H) as R. apply runs_done in R as ([] & s' & E & H').
  exists s', (concat (rev (map (out_at v) rs))). split; [exact E|]. pose proof (shows_hd_view _ _ H') as V.
  pose proof V as (V1 & V2 & V3 & V4 & V5 & V6). destruct (serve_all_out rs v Hq) as [Ec Eo].
  destruct (serve_all_delivered rs v Hq) as [Hdel Hfree].
  split; [by rewrite V4|]. split; [etrans; [exact V6|exact Eo]|]. split; [|split; [|split]].
  - destruct (orders_served (v_hd v) (map (fun r => (v_the_req v r, the_bh v (v_the_req v r))) rs) buffer_of (fun _ => 0) []) as [reg R].
    { apply Forall_map, Forall_forall. intros r Hr'. destruct (qd_servable _ _ Hq r Hr') as (q & b & Eq & Eb & Hse).
      change (servable (v_hd v) (v_the_req v r) (buffer_of (v_the_req v r)) (the_bh v (v_the_req v r))).
      replace (v_the_req v r) with q by (unfold v_the_req; by rewrite Eq). unfold the_bh. by rewrite Eb. }
    rewrite !map_map in R. unfold orders. change (hdd (k_blk s)) with (v_hd v).
    unfold out_at. cbn [fst snd] in R. rewrite R. cbn [snd]. rewrite app_nil_r, rev_involutive. done.
  - by eapply delivered_veq.
  - intros r Hr'. rewrite V1. by apply Hfree.
  - intros x Hx. rewrite V2. by apply serve_all_bh.
Qed.

(** ** A read and a write for one drive, and a task waiting for the read *)

Definition busy_buffer (fill dirt : Z) (w : option Z) : buffer_head := mkBh 0 (replicate 1024 fill) 0 0x301 0 dirt 1 1 w None None None None.
Definition disk_request (cmd sector bh : Z) (next : option Z) : request_t := mkRequest 0x301 cmd 0 sector 2 (Some (bh, 0)) None (Some bh) next.
Definition one_drive : hard_disk :=
  mkHd None 0 0 [mkHdInfo 4 17 615 300 615 0; mkHdInfo 0 0 0 0 0 0] 1
    (mkHdStruct 0 41820 :: mkHdStruct 17 20000 :: replicate 8 (mkHdStruct 0 0)) 0.
Definition busy_hd : kstate :=
  set_bhs [busy_buffer 0 0 (Some 0); busy_buffer 7 0 None]
  (set_requests (arr_set (arr_set (request (k_blk boot_k)) 31 (disk_request READ 1000 0 (Some 30))) 30 (disk_request WRITE 40 1 None))
  (set_blk_dev (arr_set (blk_dev (k_blk boot_k)) 3 (mkBlkDev Controller (Some 31)))
  (boot_k <| k_blk ::= fun c => c <| hdd := one_drive |> |>
    <| k_sched ::= fun c => c <| inputs := fun p k => if p =? HD_STATUS then 0x58 else Z.of_nat k |> |>))).

Lemma busy_hd_waiters : waiters_ok busy_hd.
Proof.
  split.
  - intros b x t Hx Ht. apply (arr_get_Forall (fun b => match b_wait b with Some t => is_Some (task_slot busy_hd t) | None => True end)) in Hx.
    + by rewrite Ht in Hx.
    + repeat constructor. by eexists.
  - intros r q t Hx Ht. apply (arr_get_Forall (fun q => r_waiting q = None)) in Hx; [by rewrite Hx in Ht|].
    apply (Forall_impl (fun q => bool_decide (r_waiting q = None))); [|intros q' Hq; by apply bool_decide_unpack in Hq].
    apply (bool_decide_unpack _). vm_compute. exact I.
  - intros t. vm_compute. discriminate.
Qed.

Lemma busy_hd_queued : queued (hd_view busy_hd) [31; 30].
Proof.
  split.
  - vm_compute. repeat split.
  - apply (bool_decide_unpack _). vm_compute. exact I.
  - apply (bool_decide_unpack _). vm_compute. exact I.
  - intros r Hr. apply elem_of_cons in Hr as [->|Hr]; [|apply list_elem_of_singleton in Hr as ->];
      (eexists; eexists; split; [reflexivity|split; [reflexivity|]]);
      split; solve [reflexivity | by eexists | vm_compute; intuition discriminate].
Qed.

Lemma hd_serves_queue_witness :
  let v := hd_view busy_hd in
  exists s' written, (do_hd_request ;;; interrupts 2) 1%nat busy_hd = Done tt s' /\
    let w := hd_view s' in
    v_cur w = None /\ out (k_sched s') = written ++ out (k_sched busy_hd) /\
    orders (hd_info (hdd (k_blk busy_hd))) (rev written) = map (order_at v) [31; 30] /\
    delivered v w [31; 30] (inputs (k_sched busy_hd) HD_DATA) /\
    (forall r, r ∈ [31; 30] -> exists q, v_req w r = Some q /\ r_dev q = -1) /\
    (forall x, x ∉ map (buffer_at v) [31; 30] -> v_bh w x = v_bh v x).
Proof.
  apply (hd_serves_queue busy_hd [31; 30] 1%nat).
  - lia.
  - by eexists.
  - exact busy_hd_waiters.
  - intros k. reflexivity.
  - reflexivity.
  - reflexivity.
  - exact busy_hd_queued.
Defined.

(** The seventh error of the only request: [bad_rw_intr] completes it and then reads
    the errors of CURRENT through NULL. *)
Lemma bad_rw_intr_last_request :
  let s := set_requests (arr_set (request (k_blk busy_hd)) 31 ((disk_request READ 1000 0 None) <| r_errors := 6 |>)) busy_hd in
  exists s', bad_rw_intr 1%nat s = Fault s' /\ v_cur (hd_view s') = None.
Proof. cbv zeta. eexists. split; vm_compute; reflexivity. Qed.
