(* ===== verification/Buffer.v ===== *)
(** * The buffer cache: fs/buffer.c

    [sync_inodes] (fs/inode.c) reads blocks itself; the mutual recursion is tied in
    Inode.v, and is a parameter here. *)
From Stdlib Require Import ZArith Lia String.
From stdpp Require Import base list.
From S2P Require Import Prelude Resumption Memory KState Sched BlkDev.

Definition wait_on_buffer (bh : Z) : K unit := wait_unlocked bh.

(** ** Hash queues and the free list *)

Definition _hashfn (dev block : Z) : Z := Z.modulo (u32 (Z.lxor dev block)) NR_HASH.
Definition get_hash (dev block : Z) : K (option Z) :=
  gets (fun s => default None (arr_get (hash_table (k_cache s)) (_hashfn dev block))).
Definition set_cache (f : cache -> cache) : K unit := modify (fun s => s <| k_cache ::= f |>).
Definition set_hash (dev block : Z) (p : option Z) : K unit :=
  set_cache (fun c => c <| hash_table ::= fun l => arr_set l (_hashfn dev block) p |>).
Definition set_free_list (p : option Z) : K unit := set_cache (fun c => c <| free_list := p |>).

(** [p->b_next] and so on through a pointer that may be NULL. *)
Definition bh_ptr (p : option Z) : K Z := deref (fun _ => p).

Definition remove_from_queues (bh : Z) : K unit :=
  let! b := bh_get bh in
  (match b_next b with Some nx => bh_upd nx (fun x => x <| b_prev := b_prev b |>) | None => ret tt end) ;;;
  (match b_prev b with Some pv => bh_upd pv (fun x => x <| b_next := b_next b |>) | None => ret tt end) ;;;
  let! h := get_hash (b_dev b) (b_blocknr b) in
  when (bool_decide (h = Some bh)) (set_hash (b_dev b) (b_blocknr b) (b_next b)) ;;;
  match b_prev_free b, b_next_free b with
  | Some pf, Some nf =>
      bh_upd pf (fun x => x <| b_next_free := Some nf |>) ;;;
      bh_upd nf (fun x => x <| b_prev_free := Some pf |>) ;;;
      let! s := get in
      when (bool_decide (free_list (k_cache s) = Some bh)) (set_free_list (Some nf))
  | _, _ => panic "Free block list corrupted"
  end.

(** The address of a buffer head of 36 bytes, and of its field [b_prev]. *)
Definition bh_addr (s : kstate) (bh : Z) : Z := start_buffer (k_cache s) + 36 * bh.
Definition b_prev_offset : Z := 20.

Definition insert_into_queues (bh : Z) : K unit :=
  let! s := get in
  let! fl := bh_ptr (free_list (k_cache s)) in
  bh_upd bh (fun x => x <| b_next_free := Some fl |>) ;;;
  let! f := bh_get fl in
  bh_upd bh (fun x => x <| b_prev_free := b_prev_free f |>) ;;;
  let! pf := bh_ptr (b_prev_free f) in
  bh_upd pf (fun x => x <| b_next_free := Some bh |>) ;;;
  bh_upd fl (fun x => x <| b_prev_free := Some bh |>) ;;;
  bh_upd bh (fun x => x <| b_prev := None |>) ;;;
  bh_upd bh (fun x => x <| b_next := None |>) ;;;
  let! b := bh_get bh in
  if negb (nz (b_dev b)) then ret tt else
  let! h := get_hash (b_dev b) (b_blocknr b) in
  bh_upd bh (fun x => x <| b_next := h |>) ;;;
  set_hash (b_dev b) (b_blocknr b) (Some bh) ;;;
  match h with
  | Some nx => bh_upd nx (fun x => x <| b_prev := Some bh |>)
  | None => on_mm (st b_prev_offset (bh_addr s bh))   (* NULL->b_prev = bh *)
  end.

Definition find_buffer (dev block : Z) : K (option Z) :=
  let! h := get_hash dev block in
  loop (fun tmp : option Z =>
    match tmp with
    | None => ret (inr None)
    | Some t =>
        let! b := bh_get t in
        if (b_dev b =? s32 dev) && (b_blocknr b =? u32 block) then ret (inr (Some t)) else ret (inl (b_next b))
    end) h.

Definition get_hash_table (dev block : Z) : K (option Z) :=
  loop (fun _ : unit =>
    let! r := find_buffer dev block in
    match r with
    | None => ret (inr None)
    | Some bh =>
        bh_upd bh (fun b => b <| b_count ::= fun c => u8 (c + 1) |>) ;;;
        wait_on_buffer bh ;;;
        let! b := bh_get bh in
        if (b_dev b =? s32 dev) && (b_blocknr b =? u32 block) then ret (inr (Some bh))
        else bh_upd bh (fun b => b <| b_count ::= fun c => u8 (c - 1) |>) ;;; ret (inl tt)
    end) tt.

Definition BADNESS (b : buffer_head) : Z := Z.shiftl (b_dirt b) 1 + b_lock b.

(** One round of the search of the free list: the candidate so far, or where to go
    on; the [continue] of the source goes to the loop's condition. *)
Definition free_step (st : Z * option Z) : K ((Z * option Z) + option Z) :=
  let (tmp, bh) := st in
  let! t := bh_get tmp in
  let! best :=
    (if nz (b_count t) then ret None else
     match bh with
     | None => ret (Some (BADNESS t))
     | Some b => let! x := bh_get b in
                 ret (if BADNESS t <? BADNESS x then Some (BADNESS t) else None)
     end) in
  match best with
  | Some 0 => ret (inr (Some tmp))
  | _ =>
      let bh := match best with Some _ => Some tmp | None => bh end in
      let! s := get in
      let! nx := bh_ptr (b_next_free t) in
      if bool_decide (Some nx = free_list (k_cache s)) then ret (inr bh) else ret (inl (nx, bh))
  end.

Definition find_free : K (option Z) :=
  let! s := get in
  let! fl := bh_ptr (free_list (k_cache s)) in
  loop free_step (fl, None).

Section Cache.
Context {driver : Driver} (sync_inodes : K unit).

(** One pass over the buffers of [dev]. *)
Definition sync_pass (dev : Z) : K unit :=
  let! s := get in
  for_each (zrange 0 (length (bhs (k_cache s)))) (fun bh =>
    let! b := bh_get bh in
    if negb (b_dev b =? dev) then ret tt else
    wait_on_buffer bh ;;;
    let! b := bh_get bh in
    when ((b_dev b =? dev) && nz (b_dirt b)) (ll_rw_block WRITE bh)).

Definition sync_dev (dev : Z) : K Z :=
  sync_pass dev ;;;
  sync_inodes ;;;
  sync_pass dev ;;;
  ret 0.

Definition sys_sync : K Z :=
  sync_inodes ;;;
  let! s := get in
  for_each (zrange 0 (length (bhs (k_cache s)))) (fun bh =>
    wait_on_buffer bh ;;;
    let! b := bh_get bh in
    when (nz (b_dirt b)) (ll_rw_block WRITE bh)) ;;;
  ret 0.

(** [while (bh->b_dirt)]: true when the buffer is clean and still unused. *)
Definition clean_buffer (bh : Z) : K bool :=
  loop (fun _ : unit =>
    let! b := bh_get bh in
    if nz (b_dirt b) then
      sync_dev (b_dev b) ;;;
      wait_on_buffer bh ;;;
      let! b := bh_get bh in
      if nz (b_count b) then ret (inr false) else ret (inl tt)
    else ret (inr true)) tt.

(** Taking over an unused clean buffer for a new block. *)
Definition rekey (bh dev block : Z) : K unit :=
  bh_upd bh (fun b => b <| b_count := 1 |>) ;;;
  bh_upd bh (fun b => b <| b_dirt := 0 |>) ;;;
  bh_upd bh (fun b => b <| b_uptodate := 0 |>) ;;;
  remove_from_queues bh ;;;
  bh_upd bh (fun b => b <| b_dev := u16 dev |>) ;;;
  bh_upd bh (fun b => b <| b_blocknr := u32 block |>) ;;;
  insert_into_queues bh.

Definition getblk (dev block : Z) : K Z :=
  loop (fun _ : unit =>
    let! r := get_hash_table dev block in
    match r with
    | Some bh => ret (inr bh)
    | None =>
        let! f := find_free in
        match f with
        | None => sleep_on free_buffer_wait ;;; ret (inl tt)
        | Some bh =>
            wait_on_buffer bh ;;;
            let! b := bh_get bh in
            if nz (b_count b) then ret (inl tt) else
            let! ok := clean_buffer bh in
            if negb ok then ret (inl tt) else
            let! again := find_buffer dev block in
            match again with
            | Some _ => ret (inl tt)
            | None => rekey bh dev block ;;; ret (inr bh)
            end
        end
    end) tt.

Definition brelse (buf : option Z) : K unit :=
  match buf with
  | None => ret tt
  | Some bh =>
      wait_on_buffer bh ;;;
      let! b := bh_get bh in
      bh_upd bh (fun b => b <| b_count ::= fun c => u8 (c - 1) |>) ;;;
      if negb (nz (b_count b)) then panic "Trying to free free buffer" else
      wake_up free_buffer_wait
  end.

(** What [bread] and [breada] end with: the buffer if its contents are good. *)
Definition if_uptodate (bh : Z) : K (option Z) :=
  let! b := bh_get bh in
  if nz (b_uptodate b) then ret (Some bh) else brelse (Some bh) ;;; ret None.

Definition bread (dev block : Z) : K (option Z) :=
  let! bh := getblk dev block in
  let! b := bh_get bh in
  if nz (b_uptodate b) then ret (Some bh) else
  ll_rw_block READ bh ;;;
  wait_on_buffer bh ;;;
  if_uptodate bh.

(** Copy a block's data to physical memory. *)
Definition COPYBLK (data : list Z) (address : Z) : K unit :=
  on_mm (modify (fun s => s <| mem ::= fun m x =>
    if (address <=? x) && (x <? address + BLOCK_SIZE) && (x mod 4 =? 0)
    then long_at data (x - address) else m x |>)).

Definition bread_page (address dev : Z) (b : list Z) : K unit :=
  let! bh := for_fold b [] (fun acc blk =>
    if nz blk then
      let! bh := getblk dev blk in
      let! x := bh_get bh in
      when (negb (nz (b_uptodate x))) (ll_rw_block READ bh) ;;;
      ret (acc ++ [Some bh])
    else ret (acc ++ [None])) in
  for_each (zip bh (zrange 0 (length bh))) (fun p =>
    match p with
    | (Some bh, i) =>
        wait_on_buffer bh ;;;
        let! x := bh_get bh in
        when (nz (b_uptodate x)) (COPYBLK (b_data x) (address + BLOCK_SIZE * i)) ;;;
        brelse (Some bh)
    | (None, _) => ret tt
    end).

(** [ahead] are the variable arguments up to the negative one. *)
Definition breada (dev first : Z) (ahead : list Z) : K (option Z) :=
  let! bh := getblk dev first in
  let! b := bh_get bh in
  when (negb (nz (b_uptodate b))) (ll_rw_block READ bh) ;;;
  for_each ahead (fun block =>
    let! tmp := getblk dev block in
    let! t := bh_get tmp in
    when (negb (nz (b_uptodate t))) (ll_rw_block READA bh) ;;;
    bh_upd tmp (fun b => b <| b_count ::= fun c => u8 (c - 1) |>)) ;;;
  wait_on_buffer bh ;;;
  if_uptodate bh.
End Cache.

Definition invalidate_buffers (dev : Z) : K unit :=
  let! s := get in
  for_each (zrange 0 (length (bhs (k_cache s)))) (fun bh =>
    let! b := bh_get bh in
    if negb (b_dev b =? dev) then ret tt else
    wait_on_buffer bh ;;;
    let! b := bh_get bh in
    when (b_dev b =? dev) (bh_upd bh (fun b => b <| b_uptodate := 0 |> <| b_dirt := 0 |>))).

(** [NR_BUFFERS] fresh buffer heads in a ring. *)
Definition fresh_bh (n addr i : Z) : buffer_head :=
  mkBh addr (replicate 1024 0) 0 0 0 0 0 0 None None None
    (Some (if i =? 0 then n - 1 else i - 1)) (Some (if i =? n - 1 then 0 else i + 1)).

(** Where the blocks of 1 kB are that fit above the buffer heads of 36 bytes: the loop
    of [buffer_init], which skips the video memory and BIOS between 640 kB and 1 MB. *)
Fixpoint buffer_addrs (fuel : nat) (b h : Z) : list Z :=
  match fuel with
  | O => []
  | S fuel' =>
      let b := b - BLOCK_SIZE in
      if h + 36 <=? b then b :: buffer_addrs fuel' (if b =? 0x100000 then 0xA0000 else b) (h + 36) else []
  end.

Definition data_blocks (start buffer_end : Z) : list Z :=
  buffer_addrs (Z.to_nat (buffer_end / BLOCK_SIZE)) (if buffer_end =? 0x100000 then 640 * 1024 else buffer_end) start.

Definition NR_BUFFERS (start buffer_end : Z) : Z := Z.of_nat (length (data_blocks start buffer_end)).

Definition buffer_init (buffer_end : Z) : K unit :=
  set_cache (fun c =>
    let n := NR_BUFFERS (start_buffer c) buffer_end in
    let addr := fun i => default 0 (arr_get (data_blocks (start_buffer c) buffer_end) i) in
    c <| bhs := map (fun i => fresh_bh n (addr i) i) (zrange 0 (Z.to_nat n)) |>
      <| free_list := Some 0 |>
      <| hash_table := replicate (Z.to_nat NR_HASH) None |>).
