(* ===== verification/Kept.v ===== *)
(** * Invariants that the elementary routines keep

    [Kept inv] is what an invariant promises for every routine of the kernel to keep it:
    it survives an assignment that leaves the buffer cache and the types of the tables
    alone, and an assignment to a buffer that leaves its place alone.  Under it
    the accessors of KState.v, the scheduler, the block requests and the routines of
    buffer.c keep the invariant; the files after this one go through the rest of
    the kernel.  The two instances are the structure of the buffer cache (CacheInv.v)
    and the types of the tables (TypesInv.v). *)
From Stdlib Require Import ZArith Lia String.
From stdpp Require Import base list.
From S2P Require Import Prelude Resumption Memory KState Sched Preserve BlkDev Buffer Types.

(** An assignment to a buffer head that keeps its block, its queues, its sleepers and
    the size of its data. *)
Definition gentle (f : buffer_head -> buffer_head) : Prop := forall b, length (b_data b) = 1024%nat ->
  b_dev (f b) = b_dev b /\ b_blocknr (f b) = b_blocknr b /\ b_next (f b) = b_next b /\ b_prev (f b) = b_prev b /\
  b_next_free (f b) = b_next_free b /\ b_prev_free (f b) = b_prev_free b /\ length (b_data (f b)) = length (b_data b) /\
  b_wait (f b) = b_wait b.

(** [known] says whether the invariant includes the types. *)
Class Kept (inv : kstate -> Prop) : Type := {
  known : Prop;
  kept_known s : known -> inv s -> typed s;
  kept_frame f s : k_cache (f s) = k_cache s -> (known -> typed s -> typed (f s)) -> inv s -> inv (f s);
  kept_data s i b : inv s -> arr_get (bhs (k_cache s)) i = Some b -> length (b_data b) = 1024%nat;
  kept_bh_upd i f : gentle f -> keeps inv (bh_upd i f);
  kept_bh_wait i w s : (known -> wait_typed w) -> inv s -> inv (wq_put (bh_wait i) w s);
  kept_free_buffer_wait w s : (known -> wait_typed w) -> inv s -> inv (wq_put free_buffer_wait w s)
}.

(** The types of a part of the state are those of its fields. *)
Ltac typed_parts :=
  first [assumption | etransitivity; [apply arr_set_length|typed_parts] | split; typed_parts].
Ltac typed_part := repeat match goal with H : _ /\ _ |- _ => destruct H end; typed_parts.

Section Kept.
Context {inv : kstate -> Prop} {Hinv : Kept inv}.

(** ** Reading *)

Lemma kept_bind_get {A} (f : kstate -> K A) :
  (forall s, (known -> typed s) -> keeps inv (f s)) -> keeps inv (bind get f).
Proof. intros H n s Hi _. apply (H s); [|done|done]. intros Hk. by apply kept_known. Qed.

Lemma kept_bind_read {T A} (r : kstate -> option T) (P : T -> Prop) (f : T -> K A) :
  (forall s x, typed s -> r s = Some x -> P x) -> (forall x, (known -> P x) -> keeps inv (f x)) ->
  keeps inv (bind (deref r) f).
Proof.
  intros HP H n s Hi _. unfold bind, deref. destruct (r s) as [x|] eqn:E; [|done]. cbn [obind].
  apply (H x); [|done|done]. intros Hk. apply (HP s); [by apply kept_known|done].
Qed.

Lemma kept_bind_deref {T A} (o : option T) (f : T -> K A) :
  (forall x, o = Some x -> keeps inv (f x)) -> keeps inv (bind (deref (fun _ => o)) f).
Proof. intros H n s Hi _. unfold bind, deref. destruct o as [x|]; [|done]. by apply (H x). Qed.

Lemma kept_bind_task {A} i (f : task_struct -> K A) :
  (forall t, (known -> task_typed t) -> keeps inv (f t)) -> keeps inv (bind (task_get i) f).
Proof. apply kept_bind_read. intros s x. apply typed_task. Qed.
Lemma kept_bind_cur {A} (f : task_struct -> K A) :
  (forall t, (known -> task_typed t) -> keeps inv (f t)) -> keeps inv (bind cur f).
Proof.
  intros H n s Hi _. unfold cur, bind at 1 2, get, task_get, deref. cbn [obind].
  destruct (task_slot s (current (k_sched s))) as [t|] eqn:E; [|done]. cbn [obind]. apply (H t); [|done|done].
  intros Hk. apply (typed_task s (current (k_sched s))); [by apply kept_known|done].
Qed.
Lemma kept_bind_bh {A} i (f : buffer_head -> K A) :
  (forall b, length (b_data b) = 1024%nat -> keeps inv (f b)) -> keeps inv (bind (bh_get i) f).
Proof.
  intros H n s Hi _. unfold bh_get, tab_get, bind, deref. destruct (arr_get (bhs (k_cache s)) i) as [b|] eqn:E; [|done].
  cbn [obind]. apply (H b); [|done|done]. by apply (kept_data s i).
Qed.
Lemma kept_bind_tty {A} i (f : tty_struct -> K A) :
  (forall t, (known -> tty_typed t) -> keeps inv (f t)) -> keeps inv (bind (tty_get i) f).
Proof. apply kept_bind_read. intros s x. apply typed_tty. Qed.

Lemma kept_tab_get {X} (tab : kstate -> list X) i : keeps inv (tab_get tab i).
Proof. apply keeps_deref. Qed.
Lemma kept_bh_get i : keeps inv (bh_get i).
Proof. apply kept_tab_get. Qed.
Lemma kept_ino_get i : keeps inv (ino_get i).
Proof. apply kept_tab_get. Qed.
Lemma kept_file_get i : keeps inv (file_get i).
Proof. apply kept_tab_get. Qed.
Lemma kept_sb_get i : keeps inv (sb_get i).
Proof. apply kept_tab_get. Qed.
Lemma kept_req_get i : keeps inv (req_get i).
Proof. apply kept_tab_get. Qed.
Lemma kept_dev_get i : keeps inv (dev_get i).
Proof. apply kept_tab_get. Qed.
Lemma kept_tty_get i : keeps inv (tty_get i).
Proof. apply kept_tab_get. Qed.

(** ** Assignments *)

Lemma kept_modify f : (forall s, k_cache (f s) = k_cache s) -> (known -> forall s, typed s -> typed (f s)) -> keeps inv (modify f).
Proof. intros H1 H2. apply keeps_modify. intros s. apply kept_frame; [done|auto]. Qed.

(** An entry of a table gets the value [f] of the old one. *)
Lemma kept_tab_upd {X} (P : X -> Prop) (tab : kstate -> list X) put i f :
  (forall s x, typed s -> arr_get (tab s) i = Some x -> P x) ->
  (forall s x, P x -> typed s -> typed (put (arr_set (tab s) i x) s)) ->
  (forall l s, k_cache (put l s) = k_cache s) ->
  (known -> forall x, P x -> P (f x)) -> keeps inv (tab_upd tab put i f).
Proof.
  intros Hget Hput Hc Hf n s Hi _. unfold tab_upd, bind, tab_get, deref.
  destruct (arr_get (tab s) i) as [x|] eqn:E; [|done]. cbn [obind]. split; [|done].
  apply (kept_frame (fun s => put (arr_set (tab s) i (f x)) s)); [done| |done].
  intros Hk Ht. apply Hput; [|done]. apply Hf; [done|]. by apply (Hget s).
Qed.

Lemma kept_ino_upd i f : (known -> forall x, inode_typed x -> inode_typed (f x)) -> keeps inv (ino_upd i f).
Proof.
  apply kept_tab_upd; [intros s x; apply typed_inode|intros s x; apply typed_set_inode|done].
Qed.
Lemma kept_sb_upd i f : (known -> forall x, super_typed x -> super_typed (f x)) -> keeps inv (sb_upd i f).
Proof. apply kept_tab_upd; [intros s x; apply typed_super|intros s x; apply typed_set_super|done]. Qed.
Lemma kept_req_upd i f : (known -> forall x, request_typed x -> request_typed (f x)) -> keeps inv (req_upd i f).
Proof. apply kept_tab_upd; [intros s x; apply typed_request|intros s x; apply typed_set_request|done]. Qed.
Lemma kept_tty_upd i f : (known -> forall x, tty_typed x -> tty_typed (f x)) -> keeps inv (tty_upd i f).
Proof. apply kept_tab_upd; [intros s x; apply typed_tty|intros s x; apply typed_set_tty|done]. Qed.
Lemma kept_file_upd i f : keeps inv (file_upd i f).
Proof. apply (kept_tab_upd (fun _ => True)); [done|intros s x _; apply typed_set_file|done|done]. Qed.
Lemma kept_dev_upd i f : keeps inv (dev_upd i f).
Proof. apply (kept_tab_upd (fun _ => True)); [done|intros s x _; apply typed_set_dev|done|done]. Qed.
Lemma kept_hd_upd f : (known -> forall d, hd_typed d -> hd_typed (f d)) -> keeps inv (hd_upd f).
Proof.
  intros Hf. apply kept_modify; [done|]. intros Hk s. apply (typed_blk (fun c => c <| hdd ::= f |>)).
  intros c (H1 & H2 & H3 & H4 & H5). split; [exact H1|]. split; [exact H2|]. split; [exact H3|]. split; [by apply Hf|exact H5].
Qed.
Lemma kept_fd_upd f : (known -> forall d, fd_typed d -> fd_typed (f d)) -> keeps inv (fd_upd f).
Proof.
  intros Hf. apply kept_modify; [done|]. intros Hk s. apply (typed_blk (fun c => c <| fdd ::= f |>)).
  intros c (H1 & H2 & H3 & H4 & H5). split; [exact H1|]. split; [exact H2|]. split; [exact H3|]. split; [exact H4|by apply Hf].
Qed.
Lemma kept_set_sched f : (known -> forall c, sched_typed c -> sched_typed (f c)) -> keeps inv (set_sched f).
Proof. intros Hf. apply kept_modify; [done|]. intros Hk s. apply typed_sched. auto. Qed.
Lemma kept_set_slot i p : (known -> slot_typed p) -> keeps inv (modify (set_slot i p)).
Proof. intros Hp. apply kept_modify; [done|]. intros Hk s. apply typed_slot. auto. Qed.
Lemma kept_task_upd i f : (known -> forall t, task_typed t -> task_typed (f t)) -> keeps inv (task_upd i f).
Proof. intros Hf. apply kept_bind_task. intros t Ht. apply kept_set_slot. intros Hk. apply Hf; auto. Qed.
Lemma kept_cur_upd f : (known -> forall t, task_typed t -> task_typed (f t)) -> keeps inv (cur_upd f).
Proof. intros Hf. apply keeps_bind; [apply keeps_get|]. intros s. by apply kept_task_upd. Qed.
Lemma kept_on_mm {A} (m : M mm A) : keeps inv (on_mm m).
Proof. apply keeps_zoom. intros t s. by apply (kept_frame (fun s => s <| k_mm := t |>)). Qed.

(** ** The scheduler *)

Lemma kept_for_tasks f : (known -> forall t, task_typed t -> task_typed (f t)) -> keeps inv (for_tasks f).
Proof.
  intros Hf. apply keeps_for_each. intros i. apply kept_bind_get. intros s Hs.
  destruct (task_slot s i) as [t|] eqn:E; [|apply keeps_ret]. apply kept_set_slot. intros Hk. apply Hf; [done|].
  apply (typed_task s i); auto.
Qed.

Lemma pick_range s : 0 <= (pick s).2 < 64.
Proof.
  unfold pick. assert (H : forall l acc, 0 <= acc.2 < 64 -> (forall i, In i l -> 0 <= i < 64) -> 0 <= (fold_left (better s) l acc).2 < 64).
  { induction l as [|i l IH]; intros acc Ha Hl; [done|]. cbn [fold_left]. apply IH; [|intros j Hj; apply Hl; by right].
    unfold better. destruct (task_slot s i); [|done]. case_match; [|done]. apply Hl. by left. }
  apply H; [done|]. intros i Hi. apply in_rev, zrange_elem in Hi. lia.
Qed.

Lemma kept_choose : triple any inv anywhere (fun _ => True) choose (fun next _ => 0 <= next < 64).
Proof.
  apply (triple_loop _ _ _ (fun _ _ => True)); [done|]. intros []. eapply triple_bind; [apply triple_get|]. intros s.
  pose proof (pick_range s) as Hp. destruct (pick s) as [c next]. destruct (nz c); [by apply triple_ret|].
  eapply triple_bind; [eapply triple_conseq; [apply kept_for_tasks|done|intros a t _ H; exact H]|intros a; by apply triple_ret].
  intros _ t H. exact H.
Qed.

Lemma kept_set_current i : (known -> 0 <= i < 64) -> keeps inv (set_current i).
Proof. intros Hi. apply kept_set_sched. intros Hk c (H1 & _ & H3). split; [exact H1|]. split; [by apply Hi|exact H3]. Qed.

Lemma kept_switch_to next : 0 <= next < 64 -> keeps inv (switch_to next).
Proof.
  intros Hn. apply kept_bind_get. intros s Hs. cbv zeta. destruct (next =? _); [apply keeps_ret|].
  apply keeps_bind; [by apply kept_set_current|]. intros _. apply keeps_bind; [apply keeps_yield|]. intros _.
  apply kept_set_current. intros Hk. by apply typed_current, Hs.
Qed.

Lemma check_task_typed now t : task_typed t -> task_typed (check_task now t).
Proof. intros H. unfold check_task, wake_signalled, expire_alarm. by repeat case_match. Qed.

Lemma kept_schedule : keeps inv schedule.
Proof.
  apply keeps_bind; [apply keeps_get|]. intros s. apply keeps_bind; [apply kept_for_tasks; intros _ t; apply check_task_typed|]. intros _.
  eapply triple_bind; [apply kept_choose|]. intros next n t Hi Hn. by apply (kept_switch_to next).
Qed.

(** A wait queue through which any task may be the head. *)
Definition kept_queue (q : wait_queue) : Prop := forall w s, (known -> wait_typed w) -> inv s -> inv (wq_put q w s).

Lemma frame_queue q : (forall w s, k_cache (wq_put q w s) = k_cache s) -> queue_of_tasks q -> kept_queue q.
Proof. intros H1 H2 w s Hw. apply (kept_frame (wq_put q w)); [done|]. intros Hk Hs. apply H2; auto. Qed.

Lemma kept_wake_task t : keeps inv (wake_task t).
Proof. destruct t; [apply kept_task_upd; by intros|apply keeps_ret]. Qed.

Lemma kept_enqueue q me : kept_queue q -> (known -> 0 <= me < 64) -> keeps inv (modify (wq_put q (Some me))).
Proof. intros Hq H. apply keeps_modify. intros s. by apply Hq. Qed.
Lemma kept_dequeue q : kept_queue q -> keeps inv (modify (wq_put q None)).
Proof. intros Hq. apply keeps_modify. intros s. by apply Hq. Qed.

Lemma kept_sleep_on q : kept_queue q -> keeps inv (sleep_on q).
Proof.
  intros Hq. apply kept_bind_get. intros s Hs. cbv zeta. destruct (_ =? 0); [apply keeps_panic|].
  apply keeps_bind; [apply kept_enqueue; [done|intros Hk; by apply typed_current, Hs]|]. intros _.
  apply keeps_bind; [apply kept_cur_upd; by intros|]. intros _.
  apply keeps_bind; [apply kept_schedule|intros; apply kept_wake_task].
Qed.
Lemma kept_interruptible q : kept_queue q -> keeps inv (interruptible_sleep_on q).
Proof.
  intros Hq. apply kept_bind_get. intros s Hs. cbv zeta. destruct (_ =? 0); [apply keeps_panic|].
  apply keeps_bind; [apply kept_enqueue; [done|intros Hk; by apply typed_current, Hs]|]. intros _. apply keeps_bind.
  - apply keeps_loop. intros []. apply keeps_bind; [apply kept_cur_upd; by intros|]. intros _.
    apply keeps_bind; [apply kept_schedule|]. intros _. apply keeps_bind; [apply keeps_get|]. intros s'.
    destruct (wq_get q s'); [|apply keeps_ret]. destruct (negb _); [|apply keeps_ret].
    apply keeps_bind; [apply kept_wake_task|intros; apply keeps_ret].
  - intros _. apply keeps_bind; [by apply kept_dequeue|intros; apply kept_wake_task].
Qed.
Lemma kept_wake_up q : kept_queue q -> keeps inv (wake_up q).
Proof.
  intros Hq. apply keeps_bind; [apply keeps_get|]. intros s. destruct (wq_get q s); [|apply keeps_ret].
  apply keeps_bind; [apply kept_wake_task|]. intros _. by apply kept_dequeue.
Qed.

Lemma kept_bh_queue i : kept_queue (bh_wait i).
Proof. intros w s. apply kept_bh_wait. Qed.
Lemma kept_inode_queue i : kept_queue (inode_wait i).
Proof. apply frame_queue; [|apply typed_inode_wait]. intros w s. unfold inode_wait. cbn [wq_put]. by destruct (arr_get _ i). Qed.
Lemma kept_super_queue i : kept_queue (super_wait i).
Proof. apply frame_queue; [|apply typed_super_wait]. intros w s. unfold super_wait. cbn [wq_put]. by destruct (arr_get _ i). Qed.
Lemma kept_request_queue i : kept_queue (request_wait i).
Proof. apply frame_queue; [|apply typed_request_wait]. intros w s. unfold request_wait. cbn [wq_put]. by destruct (arr_get _ i). Qed.
Lemma kept_free_request_queue : kept_queue free_request_wait.
Proof. apply frame_queue; [done|apply typed_free_request_wait]. Qed.
Lemma kept_free_buffer_queue : kept_queue free_buffer_wait.
Proof. intros w s. apply kept_free_buffer_wait. Qed.
Lemma kept_motor_queue i : kept_queue (motor_wait i).
Proof. apply frame_queue; [done|apply typed_motor_wait]. Qed.
Lemma kept_floppy_select_queue : kept_queue floppy_select_wait.
Proof. apply frame_queue; [done|apply typed_floppy_select_wait]. Qed.
End Kept.

(** ** Automation *)

(** The types of a part after an assignment to some of its fields. *)
Ltac same_types :=
  let H := fresh in intros _ ? H; first [exact H | exact I |
    unfold task_typed, sched_typed, hd_typed, fd_typed, inode_typed, super_typed, tty_typed in H |- *; typed_part].

#[export] Hint Resolve kept_bh_get kept_ino_get kept_file_get kept_sb_get kept_req_get kept_dev_get kept_tty_get kept_tab_get
  kept_file_upd kept_dev_upd kept_on_mm kept_schedule kept_wake_task
  kept_bh_queue kept_inode_queue kept_super_queue kept_request_queue kept_free_request_queue kept_free_buffer_queue
  kept_motor_queue kept_floppy_select_queue : keeps.
#[export] Hint Extern 1 (keeps _ (sleep_on _)) => apply kept_sleep_on : keeps.
#[export] Hint Extern 1 (keeps _ (interruptible_sleep_on _)) => apply kept_interruptible : keeps.
#[export] Hint Extern 1 (keeps _ (wake_up _)) => apply kept_wake_up : keeps.
#[export] Hint Extern 1 (keeps _ (bh_upd _ _)) => apply kept_bh_upd; intros ? ?; repeat split : keeps.
#[export] Hint Extern 1 (keeps _ (ino_upd _ _)) => apply kept_ino_upd; same_types : keeps.
#[export] Hint Extern 1 (keeps _ (sb_upd _ _)) => apply kept_sb_upd; same_types : keeps.
#[export] Hint Extern 1 (keeps _ (req_upd _ _)) => apply kept_req_upd; same_types : keeps.
#[export] Hint Extern 1 (keeps _ (tty_upd _ _)) => apply kept_tty_upd; same_types : keeps.
#[export] Hint Extern 1 (keeps _ (hd_upd _)) => apply kept_hd_upd; same_types : keeps.
#[export] Hint Extern 1 (keeps _ (fd_upd _)) => apply kept_fd_upd; same_types : keeps.
#[export] Hint Extern 1 (keeps _ (task_upd _ _)) => apply kept_task_upd; same_types : keeps.
#[export] Hint Extern 1 (keeps _ (cur_upd _)) => apply kept_cur_upd; same_types : keeps.
#[export] Hint Extern 1 (keeps _ (set_sched _)) => apply kept_set_sched; same_types : keeps.
#[export] Hint Extern 1 (keeps _ (modify (set_slot _ None))) => apply kept_set_slot; intros _; exact I : keeps.
#[export] Hint Extern 2 (keeps _ (modify _)) =>
  apply kept_modify; [intros ?; reflexivity|let H := fresh in intros _ ? H; exact H] : keeps.
#[export] Hint Extern 0 (Kept _) => typeclasses eauto : keeps.

(** ** Ports and user memory *)

Section Routines.
Context {inv : kstate -> Prop} {Hinv : Kept inv}.

Lemma kept_in_port a : keeps inv (in_port a).
Proof. unfold in_port. keeps. Qed.
Lemma kept_outb v a : keeps inv (outb v a).
Proof. unfold outb. keeps. Qed.
#[local] Hint Resolve kept_in_port : keeps.
Lemma kept_inb a : keeps inv (inb a).
Proof. unfold inb. keeps. Qed.
Lemma kept_inw a : keeps inv (inw a).
Proof. unfold inw. keeps. Qed.
Lemma kept_get_fs_byte a : keeps inv (get_fs_byte a).
Proof. apply keeps_gets. Qed.
Lemma kept_put_fs_byte v a : keeps inv (put_fs_byte v a).
Proof. unfold put_fs_byte. keeps. Qed.
#[local] Hint Resolve kept_get_fs_byte kept_put_fs_byte : keeps.
Lemma kept_get_fs_long a : keeps inv (get_fs_long a).
Proof. unfold get_fs_long. keeps. Qed.
Lemma kept_put_fs_long v a : keeps inv (put_fs_long v a).
Proof. unfold put_fs_long. keeps. Qed.

(** ** Block requests *)

Lemma kept_wait_unlocked bh : keeps inv (wait_unlocked bh).
Proof. unfold wait_unlocked. keeps. Qed.
#[local] Hint Resolve kept_wait_unlocked : keeps.
Lemma kept_lock_buffer bh : keeps inv (lock_buffer bh).
Proof. unfold lock_buffer. keeps. Qed.
Lemma kept_unlock_buffer bh : keeps inv (unlock_buffer bh).
Proof. unfold unlock_buffer. keeps. Qed.
#[local] Hint Resolve kept_lock_buffer kept_unlock_buffer : keeps.
Lemma kept_end_request off major u : (forall d, keeps inv (off d)) -> keeps inv (end_request off major u).
Proof. intros H. unfold end_request, set_current_request. keeps. Qed.
#[local] Hint Resolve kept_end_request : keeps.
Lemma kept_INIT_REQUEST major : keeps inv (INIT_REQUEST major).
Proof. unfold INIT_REQUEST. keeps. Qed.
#[local] Hint Resolve kept_INIT_REQUEST : keeps.

Lemma splice_length (d l : list Z) off : (off + length l <= length d)%nat -> length (splice d off l) = length d.
Proof. intros H. unfold splice. rewrite !length_app, length_take, length_drop. lia. Qed.

Lemma kept_splice bh off (l : list Z) :
  (off + length l <= 1024)%nat -> keeps inv (bh_upd bh (fun b => b <| b_data := splice (b_data b) off l |>)).
Proof. intros H. apply kept_bh_upd. intros b Hb. repeat split. cbn. apply splice_length. by rewrite Hb. Qed.

Lemma kept_rd_read addr len buffer : keeps inv (rd_read addr len buffer).
Proof.
  unfold rd_read. apply keeps_bind; [apply keeps_get|]. intros s. cbv zeta.
  destruct ((addr - rd_start (k_blk s) <? 0) || (buffer.2 <? 0) || (len <? 0) || (BLOCK_SIZE <? buffer.2 + len)) eqn:E; [apply keeps_fault|].
  bprop. unfold BLOCK_SIZE in *. apply kept_splice. rewrite length_take. lia.
Qed.
Lemma kept_rd_write addr len buffer : keeps inv (rd_write addr len buffer).
Proof. unfold rd_write, set_rd_data. keeps. Qed.
#[local] Hint Resolve kept_rd_read kept_rd_write : keeps.
Lemma kept_do_rd_request : keeps inv do_rd_request.
Proof. unfold do_rd_request, rd_end_request. keeps. Qed.
End Routines.
#[export] Hint Resolve kept_inb kept_inw kept_outb kept_get_fs_byte kept_put_fs_byte kept_get_fs_long kept_put_fs_long
  kept_wait_unlocked kept_lock_buffer kept_unlock_buffer kept_end_request kept_INIT_REQUEST kept_do_rd_request : keeps.

(** What the drivers of real controllers promise: their requests, and the
    interrupts that complete them, keep the invariant. *)
Class DriverKeeps (inv : kstate -> Prop) {driver : Driver} : Prop := {
  driver_keeps major : keeps inv (start_controller major);
  change_keeps nr : keeps inv (floppy_change nr)
}.

#[export] Hint Extern 0 (DriverKeeps _) => typeclasses eauto : keeps.

(** ** The routines of buffer.c that leave the queues alone *)

Section Cached.
Context {inv : kstate -> Prop} {Hinv : Kept inv} {driver : Driver} {Hdriver : DriverKeeps inv}.

Lemma kept_driver major : keeps inv (start_controller major).
Proof. apply Hdriver. Qed.
#[local] Hint Resolve kept_driver : keeps.
Lemma kept_add_request major req : keeps inv (add_request major req).
Proof. unfold add_request, set_current_request, call_request_fn, elevator_step. keeps. Qed.
#[local] Hint Resolve kept_add_request : keeps.
Lemma kept_ll_rw_block rw bh : keeps inv (ll_rw_block rw bh).
Proof. unfold ll_rw_block, make_request, find_request. keeps. Qed.
#[local] Hint Resolve kept_ll_rw_block : keeps.
Lemma kept_wait_on_buffer bh : keeps inv (wait_on_buffer bh).
Proof. apply kept_wait_unlocked. Qed.
#[local] Hint Resolve kept_wait_on_buffer : keeps.
Lemma kept_brelse b : keeps inv (brelse b).
Proof. unfold brelse. keeps. Qed.
#[local] Hint Resolve kept_brelse : keeps.
Lemma kept_bh_ptr p : keeps inv (bh_ptr p).
Proof. apply keeps_deref. Qed.
Lemma kept_find_free : keeps inv find_free.
Proof. unfold find_free, free_step, bh_ptr. keeps. Qed.
Lemma kept_get_hash_table dev block : keeps inv (get_hash_table dev block).
Proof. unfold get_hash_table, find_buffer, get_hash. keeps. Qed.
Lemma kept_invalidate_buffers dev : keeps inv (invalidate_buffers dev).
Proof. unfold invalidate_buffers. keeps. Qed.

Section Sync.
Context (sync_inodes : K unit) (Hsync : keeps inv sync_inodes).
#[local] Hint Resolve Hsync : keeps.

Lemma kept_sync_pass dev : keeps inv (sync_pass dev).
Proof. unfold sync_pass. keeps. Qed.
#[local] Hint Resolve kept_sync_pass : keeps.
Lemma kept_sync_dev dev : keeps inv (sync_dev sync_inodes dev).
Proof. unfold sync_dev. keeps. Qed.
Lemma kept_sys_sync : keeps inv (sys_sync sync_inodes).
Proof. unfold sys_sync. keeps. Qed.
End Sync.
End Cached.

#[export] Hint Resolve kept_bh_ptr kept_wait_on_buffer kept_brelse kept_get_hash_table kept_invalidate_buffers : keeps.

(** [getblk], which moves buffers between the queues, keeps the invariant too. *)
Class KeptBlocks (inv : kstate -> Prop) {driver : Driver} : Prop :=
  kept_getblk sync_inodes dev block :
    0 <= dev < 65536 -> keeps inv sync_inodes -> keeps inv (getblk sync_inodes dev block).

#[export] Hint Extern 0 (KeptBlocks _) => typeclasses eauto : keeps.

Section Blocks.
Context {inv : kstate -> Prop} {Hinv : Kept inv} {driver : Driver} {Hdriver : DriverKeeps inv} {Hblocks : KeptBlocks inv}.
Context (sync_inodes : K unit) (Hsync : keeps inv sync_inodes) (dev : Z) (Hdev : 0 <= dev < 65536).
#[local] Hint Resolve Hsync Hdev kept_getblk kept_ll_rw_block kept_wait_on_buffer kept_brelse : keeps.

Lemma kept_if_uptodate bh : keeps inv (if_uptodate bh).
Proof. unfold if_uptodate. keeps. Qed.
#[local] Hint Resolve kept_if_uptodate : keeps.
Lemma kept_bread block : keeps inv (bread sync_inodes dev block).
Proof. unfold bread. keeps. Qed.
Lemma kept_bread_page address b : keeps inv (bread_page sync_inodes address dev b).
Proof. unfold bread_page, COPYBLK. keeps. Qed.
Lemma kept_breada first ahead : keeps inv (breada sync_inodes dev first ahead).
Proof. unfold breada. keeps. Qed.
End Blocks.
