(* ===== verification/CacheQueues.v ===== *)
(** * The structure of the buffer cache

    The free list as a ring of all buffers, the hash queues as chains of the
    buffers that hold a block, and the effect of taking a buffer out of them and
    putting it back on this structure. *)
From Stdlib Require Import ZArith Lia String.
From stdpp Require Import base list sets.
From S2P Require Import Prelude Resumption Memory KState Links Sched BlkDev Buffer.

(** ** Reading and writing buffer heads *)

Definition no_bh : buffer_head := mkBh 0 [] 0 0 0 0 0 0 None None None None None.
Definition bhd (c : cache) (i : Z) : buffer_head := default no_bh (arr_get (bhs c) i).
Definition nr_buffers (c : cache) : Z := Z.of_nat (length (bhs c)).
Definition is_bh (c : cache) (i : Z) : Prop := 0 <= i < nr_buffers c.
Definition hash_head (c : cache) (h : Z) : option Z := default None (arr_get (hash_table c) h).
Definition hash_of (b : buffer_head) : Z := _hashfn (b_dev b) (b_blocknr b).

Abbreviation nx c := (fun i => b_next (bhd c i)).
Abbreviation pv c := (fun i => b_prev (bhd c i)).
Abbreviation nf c := (fun i => b_next_free (bhd c i)).
Abbreviation pf c := (fun i => b_prev_free (bhd c i)).

Definition set_bh (i : Z) (f : buffer_head -> buffer_head) (c : cache) : cache :=
  c <| bhs := arr_set (bhs c) i (f (bhd c i)) |>.
Definition with_cache (c : cache) (s : kstate) : kstate := s <| k_cache := c |>.

Lemma bhd_get c i : is_bh c i -> arr_get (bhs c) i = Some (bhd c i).
Proof. intros H. unfold bhd. destruct (arr_get_is_Some (bhs c) i H) as [b E]. by rewrite E. Qed.

Lemma bhd_set i f c j : is_bh c i -> bhd (set_bh i f c) j = if decide (j = i) then f (bhd c i) else bhd c j.
Proof.
  intros H. unfold bhd at 1, set_bh. cbn [bhs upd]. simpl. case_decide as E.
  - subst j. by rewrite arr_get_set_eq.
  - by rewrite arr_get_set_ne.
Qed.

Lemma set_bh_size i f c : nr_buffers (set_bh i f c) = nr_buffers c.
Proof. unfold nr_buffers, set_bh. simpl. by rewrite arr_set_length. Qed.

Lemma set_bh_is i f c j : is_bh (set_bh i f c) j <-> is_bh c j.
Proof. unfold is_bh. by rewrite set_bh_size. Qed.

Lemma bh_get_run i n s : is_bh (k_cache s) i -> bh_get i n s = Done (bhd (k_cache s) i) s.
Proof. intros H. unfold bh_get, tab_get, deref. by rewrite bhd_get. Qed.

Lemma bh_upd_run i f n s :
  is_bh (k_cache s) i -> bh_upd i f n s = Done tt (with_cache (set_bh i f (k_cache s)) s).
Proof.
  intros H. unfold bh_upd, tab_upd, bind. fold bh_get. change (tab_get (fun s => bhs (k_cache s)) i) with (bh_get i).
  rewrite bh_get_run by done. done.
Qed.

Lemma with_cache_id s : with_cache (k_cache s) s = s.
Proof. by destruct s. Qed.
Lemma with_cache_twice c c' s : with_cache c (with_cache c' s) = with_cache c s.
Proof. done. Qed.

(** What the queues do not concern. *)
Definition plain_part (b : buffer_head) : list Z * list Z :=
  (b_data b, [b_uptodate b; b_dirt b; b_count b; b_lock b]).
Arguments plain_part b /.

(** ** The structure *)

(** Every buffer but those of [out] is on the free list, and in the hash queue of
    its block when it has one; a buffer without a block is in no hash queue. *)
Record queued (c : cache) (out : Z -> Prop) : Prop := mkQueued {
  q_size : 2 <= nr_buffers c;
  q_table : length (hash_table c) = 307%nat;
  q_ring : exists l, free_list c = head l /\ ring (nf c) (pf c) l /\ forall i, i ∈ l <-> is_bh c i /\ ~ out i;
  q_chain : forall h, 0 <= h < 307 -> exists l, chain (nx c) (pv c) None (hash_head c h) l /\ NoDup l /\
    forall i, i ∈ l <-> is_bh c i /\ ~ out i /\ b_dev (bhd c i) <> 0 /\ hash_of (bhd c i) = h;
  q_off : forall i, is_bh c i -> ~ out i -> b_dev (bhd c i) = 0 -> nx c i = None /\ pv c i = None
}.

(** No two buffers hold the same block. *)
Definition unique_keys (c : cache) (out : Z -> Prop) : Prop :=
  forall i j, is_bh c i -> is_bh c j -> ~ out i -> ~ out j -> b_dev (bhd c i) <> 0 ->
    b_dev (bhd c i) = b_dev (bhd c j) -> b_blocknr (bhd c i) = b_blocknr (bhd c j) -> i = j.

(** The ranges of the fields that identify a block. *)
Definition key_ranges (c : cache) : Prop :=
  forall i, is_bh c i -> 0 <= b_dev (bhd c i) < 65536 /\ 0 <= b_blocknr (bhd c i) < 4294967296 /\
    length (b_data (bhd c i)) = 1024%nat.

Definition nobody (i : Z) : Prop := False.
Record cache_ok (c : cache) : Prop := mkCacheOk {
  ok_queued : queued c nobody;
  ok_unique : unique_keys c nobody;
  ok_keys : key_ranges c
}.

Lemma hashfn_range dev block : 0 <= _hashfn dev block < 307.
Proof. apply Z.mod_pos_bound. done. Qed.

(** Only the structure counts. *)
Record same_structure (c c' : cache) : Prop := mkSame {
  same_size : length (bhs c') = length (bhs c);
  same_table : hash_table c' = hash_table c;
  same_free : free_list c' = free_list c;
  same_bh : forall i, let b := bhd c i in let b' := bhd c' i in
    b_dev b' = b_dev b /\ b_blocknr b' = b_blocknr b /\ b_next b' = b_next b /\ b_prev b' = b_prev b /\
    b_next_free b' = b_next_free b /\ b_prev_free b' = b_prev_free b /\
    length (b_data b') = length (b_data b)
}.

Lemma seg_ext nxt prv nxt' prv' a l b :
  (forall y, nxt' y = nxt y) -> (forall y, prv' y = prv y) -> seg nxt prv a l b -> seg nxt' prv' a l b.
Proof.
  intros Hn Hp. revert a. induction l as [|x l IH]; intros a; simpl; rewrite Hn, Hp; [done|].
  intros (? & ? & ?). auto.
Qed.

Lemma ring_ext nxt prv nxt' prv' l :
  (forall y, nxt' y = nxt y) -> (forall y, prv' y = prv y) -> ring nxt prv l -> ring nxt' prv' l.
Proof. destruct l; [done|]. intros Hn Hp [H1 H2]. split; [done|]. by eapply seg_ext. Qed.

Lemma cache_ok_same c c' : same_structure c c' -> cache_ok c -> cache_ok c'.
Proof.
  intros [Hs Ht Hf Hb] [[Q1 Q2 (l & R1 & R2 & R3) Q4 Q5] U R].
  assert (Hi : forall i, is_bh c' i <-> is_bh c i) by (intros i; unfold is_bh, nr_buffers; by rewrite Hs).
  assert (Hh : forall i, hash_of (bhd c' i) = hash_of (bhd c i)).
  { intros i. unfold hash_of. by destruct (Hb i) as (-> & -> & _). }
  split.
  - split; [unfold nr_buffers; by rewrite Hs|by rewrite Ht| | |].
    + exists l. rewrite Hf. split; [done|]. split; [|intros i; by rewrite R3, Hi].
      eapply ring_ext; [| |exact R2]; intros y; by destruct (Hb y) as (_ & _ & _ & _ & ? & ? & _).
    + intros h Hr. destruct (Q4 h Hr) as (l' & C1 & C2 & C3). exists l'.
      split; [|split; [done|]].
      * unfold hash_head. rewrite Ht. eapply chain_ext; [exact C1|].
        intros x _. by destruct (Hb x) as (_ & _ & ? & ? & _).
      * intros i. rewrite C3, Hi, Hh. destruct (Hb i) as (-> & _). done.
    + intros i. rewrite Hi. destruct (Hb i) as (-> & _ & -> & -> & _). apply Q5.
  - intros i j. rewrite !Hi. destruct (Hb i) as (-> & -> & _), (Hb j) as (-> & -> & _). apply U.
  - intros i. rewrite Hi. destruct (Hb i) as (-> & -> & _ & _ & _ & _ & ->). apply R.
Qed.

Lemma same_refl c : same_structure c c.
Proof. split; try done. Qed.

Lemma same_trans c1 c2 c3 : same_structure c1 c2 -> same_structure c2 c3 -> same_structure c1 c3.
Proof.
  intros [A1 A2 A3 A4] [B1 B2 B3 B4]. split; [congruence|congruence|congruence|].
  intros i b b'. destruct (A4 i) as (E1 & E2 & E3 & E4 & E5 & E6 & E7), (B4 i) as (F1 & F2 & F3 & F4 & F5 & F6 & F7).
  unfold b, b'. repeat split; congruence.
Qed.

(** An assignment to a field that is not part of the structure. *)
Definition plain (f : buffer_head -> buffer_head) : Prop := forall b,
  b_dev (f b) = b_dev b /\ b_blocknr (f b) = b_blocknr b /\ b_next (f b) = b_next b /\ b_prev (f b) = b_prev b /\
  b_next_free (f b) = b_next_free b /\ b_prev_free (f b) = b_prev_free b /\ length (b_data (f b)) = length (b_data b).

Lemma set_bh_plain i f c : plain f -> same_structure c (set_bh i f c).
Proof.
  intros Hf. split; [unfold set_bh; simpl; apply arr_set_length|done|done|].
  intros j b b'. unfold b, b'. destruct (decide (is_bh c i)) as [Hi|Hi].
  - rewrite bhd_set by done. case_decide as E; [subst j; apply Hf|repeat split].
  - unfold bhd, set_bh. cbn [bhs upd]. simpl.
    replace (arr_set (bhs c) i _) with (bhs c); [repeat split|].
    unfold arr_set. destruct (Z.ltb_spec i 0); [done|]. symmetry. apply list_insert_ge.
    unfold is_bh, nr_buffers in Hi. lia.
Qed.

(** ** Taking a buffer out of its queues *)

Definition set_head (h : Z) (p : option Z) (c : cache) : cache :=
  c <| hash_table := arr_set (hash_table c) h p |>.

(** What [remove_from_queues] does. *)
Definition unhash (x : Z) (c : cache) : cache :=
  let b := bhd c x in
  let c1 := match b_next b with Some y => set_bh y (fun r => r <| b_prev := b_prev b |>) c | None => c end in
  let c2 := match b_prev b with Some y => set_bh y (fun r => r <| b_next := b_next b |>) c1 | None => c1 end in
  if bool_decide (hash_head c (hash_of b) = Some x) then set_head (hash_of b) (b_next b) c2 else c2.
Definition unfree (p x n : Z) (c : cache) : cache :=
  let c1 := set_bh n (fun r => r <| b_prev_free := Some p |>) (set_bh p (fun r => r <| b_next_free := Some n |>) c) in
  if bool_decide (free_list c = Some x) then c1 <| free_list := Some n |> else c1.

(** Neighbours of a queued buffer are buffers. *)
Definition links_in (c : cache) (x : Z) : Prop :=
  forall y, nx c x = Some y \/ pv c x = Some y -> is_bh c y /\ y <> x.

Lemma unhash_run x n s c m :
  c = k_cache s -> is_bh c x -> links_in c x ->
  (let! b := bh_get x in
   (match b_next b with Some nx => bh_upd nx (fun r => r <| b_prev := b_prev b |>) | None => ret tt end) ;;;
   (match b_prev b with Some pv => bh_upd pv (fun r => r <| b_next := b_next b |>) | None => ret tt end) ;;;
   let! h := get_hash (b_dev b) (b_blocknr b) in
   when (bool_decide (h = Some x)) (set_hash (b_dev b) (b_blocknr b) (b_next b)) ;;;
   m b) n s = m (bhd c x) n (with_cache (unhash x c) s) :> outcome kstate unit.
Proof.
  intros -> Hx Hin. set (c := k_cache s) in *. unfold bind at 1. rewrite bh_get_run by done. cbn [obind]. fold c.
  set (b := bhd c x) in *. unfold unhash. fold b.
  assert (H1 : (match b_next b with Some y => bh_upd y (fun r => r <| b_prev := b_prev b |>) | None => ret tt end) n s
    = Done tt (with_cache (match b_next b with Some y => set_bh y (fun r => r <| b_prev := b_prev b |>) c | None => c end) s)).
  { destruct (b_next b) as [y|] eqn:E; [|unfold c; by rewrite with_cache_id]. apply bh_upd_run. apply (Hin y). by left. }
  unfold bind at 1. rewrite H1. cbn [obind]. set (c1 := match b_next b with Some y => _ | None => c end).
  assert (H2 : (match b_prev b with Some y => bh_upd y (fun r => r <| b_next := b_next b |>) | None => ret tt end) n (with_cache c1 s)
    = Done tt (with_cache (match b_prev b with Some y => set_bh y (fun r => r <| b_next := b_next b |>) c1 | None => c1 end) s)).
  { destruct (b_prev b) as [y|] eqn:E; [|done]. rewrite bh_upd_run; [done|].
    change (is_bh c1 y). unfold c1. destruct (b_next b); rewrite ?set_bh_is; apply (Hin y); by right. }
  unfold bind at 1. rewrite H2. cbn [obind]. set (c2 := match b_prev b with Some y => _ | None => c1 end).
  assert (E : hash_table c2 = hash_table c) by (unfold c2, c1; by destruct (b_prev b), (b_next b)).
  unfold bind at 1, get_hash, gets. cbn [obind k_cache with_cache upd]. simpl.
  rewrite E. change (default None (arr_get (hash_table c) (_hashfn (b_dev b) (b_blocknr b)))) with (hash_head c (hash_of b)).
  case_bool_decide as Hd; unfold when, set_hash, set_cache, modify, bind, ret; cbn [obind]; [|done].
  reflexivity.
Qed.

Lemma unhash_same x c :
  let c' := unhash x c in
  nr_buffers c' = nr_buffers c /\ length (hash_table c') = length (hash_table c) /\ free_list c' = free_list c.
Proof.
  unfold unhash, nr_buffers. destruct (bool_decide _), (b_next _), (b_prev _);
    simpl; rewrite ?arr_set_length; done.
Qed.

Lemma unhash_bhd x c y :
  is_bh c x -> links_in c x ->
  let b := bhd c x in let r := bhd c y in let r' := bhd (unhash x c) y in
  b_prev r' = (if decide (b_next b = Some y) then b_prev b else b_prev r) /\
  b_next r' = (if decide (b_prev b = Some y) then b_next b else b_next r) /\
  b_dev r' = b_dev r /\ b_blocknr r' = b_blocknr r /\ b_next_free r' = b_next_free r /\
  b_prev_free r' = b_prev_free r /\ plain_part r' = plain_part r.
Proof.
  intros Hx Hin b r. unfold unhash. fold b.
  set (c1 := match b_next b with Some y => _ | None => c end).
  assert (H1 : bhd c1 y = if decide (b_next b = Some y) then r <| b_prev := b_prev b |> else r).
  { unfold c1. destruct (b_next b) as [z|] eqn:E; [|done].
    rewrite bhd_set by (apply (Hin z); by left). unfold r. repeat case_decide; subst; congruence. }
  set (c2 := match b_prev b with Some y => _ | None => c1 end).
  assert (H2 : bhd c2 y = if decide (b_prev b = Some y) then (bhd c1 y) <| b_next := b_next b |> else bhd c1 y).
  { unfold c2. destruct (b_prev b) as [z|] eqn:E; [|done].
    rewrite bhd_set; [repeat case_decide; subst; congruence|].
    unfold c1. destruct (b_next b); rewrite ?set_bh_is; apply (Hin z); by right. }
  assert (E : bhd (if bool_decide (hash_head c (hash_of b) = Some x) then set_head (hash_of b) (b_next b) c2 else c2) y
    = bhd c2 y) by by destruct (bool_decide _).
  rewrite E, H2, H1. repeat case_decide; done.
Qed.

Lemma unhash_head x c h :
  0 <= h < 307 -> length (hash_table c) = 307%nat ->
  hash_head (unhash x c) h =
    if decide (h = hash_of (bhd c x) /\ hash_head c h = Some x) then nx c x else hash_head c h.
Proof.
  intros Hh Hl. unfold unhash. set (b := bhd c x).
  set (c2 := match b_prev b with Some y => _ | None => _ end).
  assert (E : hash_table c2 = hash_table c) by (unfold c2; by destruct (b_prev b), (b_next b)).
  assert (E' : hash_head c2 h = hash_head c h) by (unfold hash_head; by rewrite E).
  case_bool_decide as Hd.
  - unfold hash_head at 1, set_head. cbn [hash_table upd]. simpl. rewrite E.
    destruct (decide (h = hash_of b)) as [->|Hne].
    + rewrite arr_get_set_eq by (rewrite Hl; lia). rewrite decide_True by done. done.
    + rewrite arr_get_set_ne by done. rewrite decide_False by (intros [? _]; done). done.
  - rewrite E'. rewrite decide_False; [done|]. intros [-> ?]. done.
Qed.

(** In a chain the two links of neighbours agree. *)
Lemma chain_inverse nxt prv p l y z :
  chain nxt prv None p l -> NoDup l -> y ∈ l -> z ∈ l -> nxt y = Some z <-> prv z = Some y.
Proof.
  intros Hc Hnd Hy Hz. split; intros H.
  - apply list_elem_of_split in Hy as (l1 & l2 & ->). apply chain_mid in Hc as (E1 & _ & _ & _ & E5).
    rewrite H in E1. destruct l2 as [|u l2]; [done|]. by injection E1 as <-.
  - apply list_elem_of_split in Hz as (l1 & l2 & ->). apply chain_mid in Hc as (_ & E2 & _ & E4 & _).
    rewrite H in E2. destruct l1 as [|a l1]; [done|]. by injection E2 as ->.
Qed.

Lemma queued_links c x : queued c nobody -> is_bh c x -> links_in c x.
Proof.
  intros Q Hx y Hy. destruct (decide (b_dev (bhd c x) = 0)) as [Hd|Hd].
  { destruct (q_off _ _ Q x Hx ltac:(intros []) Hd) as [E1 E2]. cbn in *. destruct Hy; congruence. }
  destruct (q_chain _ _ Q (hash_of (bhd c x))) as (l & C & Hnd & Hl); [apply hashfn_range|].
  assert (Hin : x ∈ l) by (apply Hl; repeat split; [apply Hx|apply Hx|intros []|done]).
  apply list_elem_of_split in Hin as (l1 & l2 & ->).
  pose proof (chain_mid _ _ _ _ _ _ _ C) as (E1 & E2 & _).
  assert (H : y ∈ l1 ++ l2).
  { destruct Hy as [Hy|Hy]; [rewrite E1 in Hy; destruct l2; simplify_eq; set_solver|].
    rewrite E2 in Hy. destruct l1 as [|a l1]; [done|]. injection Hy as <-. pose proof (last_node_elem a l1). set_solver. }
  split; [apply (Hl y); set_solver|]. intros ->. apply NoDup_app in Hnd as (_ & N1 & N2).
  apply NoDup_cons in N2 as [N2 _]. apply elem_of_app in H as [H|H]; [apply (N1 x H); set_solver|done].
Qed.

Lemma unhash_chains c x h :
  queued c nobody -> is_bh c x -> 0 <= h < 307 ->
  exists l, chain (nx (unhash x c)) (pv (unhash x c)) None (hash_head (unhash x c) h) l /\ NoDup l /\
    forall i, i ∈ l <-> is_bh c i /\ i <> x /\ b_dev (bhd c i) <> 0 /\ hash_of (bhd c i) = h.
Proof.
  intros Q Hx Hh. pose proof (queued_links c x Q Hx) as Hin.
  assert (Hf : forall y, _) by (exact (fun y => unhash_bhd x c y Hx Hin)). cbn zeta in Hf.
  rewrite unhash_head by (done || apply Q).
  destruct (q_chain _ _ Q h Hh) as (l & C & Hnd & Hl).
  destruct (decide (x ∈ l)) as [Hxl|Hxl].
  - assert (Hhx : hash_of (bhd c x) = h) by (apply Hl; done).
    pose proof Hxl as Hxl'. apply list_elem_of_split in Hxl' as (l1 & l2 & ->). exists (l1 ++ l2).
    assert (Hmem : forall i, i ∈ l1 ++ l2 -> i ∈ l1 ++ x :: l2 /\ i <> x).
    { intros i Hi. split; [set_solver|]. intros ->. apply NoDup_app in Hnd as (_ & N1 & N2).
      apply NoDup_cons in N2 as [N2 _]. apply elem_of_app in Hi as [Hi|Hi]; [apply (N1 x Hi); set_solver|done]. }
    split; [|split].
    + replace (if decide (h = hash_of (bhd c x) /\ hash_head c h = Some x) then b_next (bhd c x) else hash_head c h)
        with (if decide (hash_head c h = Some x) then nx c x else hash_head c h)
        by (repeat case_decide; try done; exfalso; naive_solver).
      apply (chain_remove (nx c) (pv c) _ _ None (hash_head c h) l1 x l2 C Hnd); [| |done].
      * intros y Hy. destruct (Hmem y Hy) as [Hy1 _]. destruct (Hf y) as (_ & -> & _).
        pose proof (chain_inverse _ _ _ _ y x C Hnd Hy1 Hxl) as Hi. repeat case_decide; tauto.
      * intros y Hy. destruct (Hmem y Hy) as [Hy1 _]. destruct (Hf y) as (-> & _).
        pose proof (chain_inverse _ _ _ _ x y C Hnd Hxl Hy1) as Hi. repeat case_decide; tauto.
    + apply NoDup_app in Hnd as (N1 & N2 & N3). apply NoDup_cons in N3 as [_ N3].
      apply NoDup_app. split; [done|]. split; [|done]. intros i Hi Hi2. apply (N2 i Hi). set_solver.
    + intros i. split.
      * intros Hi. destruct (Hmem i Hi) as [H1 H2]. apply Hl in H1. tauto.
      * intros (H1 & H2 & H3 & H4). assert (i ∈ l1 ++ x :: l2) as Hil by (apply Hl; repeat split; try done; apply H1 || intros []).
        set_solver.
  - exists l. rewrite decide_False; cycle 1.
    { intros [E1 E2]. apply Hxl. destruct l as [|a l]; simpl in C; [congruence|]. destruct C as (E & _).
      rewrite E in E2. injection E2 as ->. set_solver. }
    split; [|split; [done|]].
    + eapply chain_ext; [exact C|]. intros y Hy. destruct (Hf y) as (-> & -> & _).
      assert (Hno : b_next (bhd c x) <> Some y /\ b_prev (bhd c x) <> Some y).
      { destruct (decide (b_dev (bhd c x) = 0)) as [Hd|Hd].
        { destruct (q_off _ _ Q x Hx ltac:(intros []) Hd) as [E1 E2]. cbn in *. rewrite E1, E2. done. }
        destruct (q_chain _ _ Q (hash_of (bhd c x))) as (l' & C' & Hnd' & Hl'); [apply hashfn_range|].
        assert (Hx' : x ∈ l') by (apply Hl'; repeat split; try done; apply Hx || intros []).
        assert (Hne : hash_of (bhd c x) <> h).
        { intros <-. apply Hxl, Hl. repeat split; try done; apply Hx || intros []. }
        assert (Hy' : y ∉ l') by (intros Hy'; apply Hl' in Hy'; apply Hl in Hy; naive_solver).
        apply list_elem_of_split in Hx' as (l1 & l2 & ->).
        pose proof (chain_mid _ _ _ _ _ _ _ C') as (E1 & E2 & _). cbn in E1, E2. rewrite E1, E2. split.
        - destruct l2; [done|]. simpl. intros [= ->]. set_solver.
        - destruct l1 as [|a l1]; [done|]. intros [= <-]. pose proof (last_node_elem a l1). set_solver. }
      destruct Hno. by rewrite !decide_False.
    + intros i. split.
      * intros Hi. assert (i <> x) by (intros ->; done). apply Hl in Hi. tauto.
      * intros (H1 & H2 & H3 & H4). apply Hl. repeat split; try done; apply H1 || intros [].
Qed.

(** ** The free list *)

Lemma ring_single_or_more nxt prv x l : ring nxt prv (x :: l) -> (1 < length (x :: l))%nat -> exists r l', l = r :: l'.
Proof. destruct l as [|r l']; simpl; [lia|eauto]. Qed.

(** Taking [x] out of the ring [l1 ++ x :: l2]. *)
Lemma unfree_ring c x l1 l2 :
  ring (nf c) (pf c) (l1 ++ x :: l2) -> free_list c = head (l1 ++ x :: l2) -> l1 ++ l2 <> [] ->
  (forall y, y ∈ l1 ++ x :: l2 -> is_bh c y) ->
  exists p n, pf c x = Some p /\ nf c x = Some n /\ is_bh c p /\ is_bh c n /\
    ring (nf (unfree p x n c)) (pf (unfree p x n c)) (l1 ++ l2) /\ free_list (unfree p x n c) = head (l1 ++ l2) /\
    (p <> x /\ n <> x).
Proof.
  intros Hr Hfl Hne Hin. pose proof (ring_rotate _ _ _ _ Hr) as Hr'. simpl in Hr'.
  destruct (ring_neighbours _ _ _ _ Hr') as [Hn Hp].
  assert (E : exists r l', l2 ++ l1 = r :: l').
  { destruct (l2 ++ l1) as [|r l'] eqn:E; [|eauto]. destruct l1, l2; simplify_eq. }
  destruct E as (r & l' & E). rewrite E in Hr', Hn, Hp. rewrite last_node_cons in Hp. cbn [List.hd] in Hn.
  exists (last_node r l'), r. cbn in Hn, Hp. split; [done|]. split; [done|].
  assert (Hmem : forall y, y ∈ r :: l' -> y ∈ l1 ++ x :: l2) by (rewrite <- E; set_solver).
  assert (Hx : x ∉ r :: l') by (destruct Hr' as [H _]; by apply NoDup_cons in H as [? _]).
  pose proof (last_node_elem r l') as Hl.
  assert (B1 : is_bh c (last_node r l')) by auto. assert (B2 : is_bh c r) by (apply Hin, Hmem; set_solver).
  split; [done|]. split; [done|]. set (c' := unfree _ x r c).
  assert (Hb : forall y, bhd c' y = bhd (set_bh r (fun r0 => r0 <| b_prev_free := Some (last_node r l') |>)
      (set_bh (last_node r l') (fun r0 => r0 <| b_next_free := Some r |>) c)) y).
  { intros y. unfold c', unfree. by destruct (bool_decide _). }
  assert (Hf : forall y, nf c' y = (if decide (y = last_node r l') then Some r else nf c y) /\
                         pf c' y = (if decide (y = r) then Some (last_node r l') else pf c y)).
  { intros y. cbv beta. rewrite Hb. rewrite bhd_set by by rewrite set_bh_is.
    rewrite !bhd_set by done. repeat case_decide; subst; try done; split; try done; by repeat case_decide. }
  split; [|split].
  - assert (R : ring (nf c') (pf c') (r :: l')).
    { eapply ring_remove; [exact Hr'| |]; intros y; by destruct (Hf y). }
    rewrite <- E in R. by apply ring_rotate.
  - unfold c', unfree. case_bool_decide as Hd; cbn [free_list upd]; simpl.
    + rewrite Hfl in Hd. destruct l1 as [|a l1]; simpl in *; [rewrite app_nil_r in E; by rewrite E|].
      injection Hd as ->. exfalso. apply Hx. rewrite <- E. set_solver.
    + destruct l1; simpl in *; congruence.
  - split; [intros <-|intros ->; apply Hx; set_solver]. done.
Qed.

(** Putting [x] at the end of the free list. *)
Definition enfree (x fl : Z) (c : cache) : cache :=
  let c1 := set_bh x (fun r => r <| b_next_free := Some fl |>) c in
  let c2 := set_bh x (fun r => r <| b_prev_free := pf c1 fl |>) c1 in
  match pf c1 fl with
  | Some p => set_bh fl (fun r => r <| b_prev_free := Some x |>) (set_bh p (fun r => r <| b_next_free := Some x |>) c2)
  | None => c2
  end.

Lemma enfree_bhd c x f l y :
  ring (nf c) (pf c) (f :: l) -> x ∉ f :: l -> is_bh c x -> (forall y, y ∈ f :: l -> is_bh c y) ->
  let r := bhd c y in let r' := bhd (enfree x f c) y in
  b_next_free r' = (if decide (y = last_node f l) then Some x else if decide (y = x) then Some f else b_next_free r) /\
  b_prev_free r' = (if decide (y = f) then Some x else if decide (y = x) then Some (last_node f l) else b_prev_free r) /\
  b_prev r' = b_prev r /\ b_next r' = b_next r /\
  b_dev r' = b_dev r /\ b_blocknr r' = b_blocknr r /\ plain_part r' = plain_part r.
Proof.
  intros Hr Hx Bx Hin r. destruct (ring_neighbours _ _ _ _ Hr) as [_ Hp]. cbn in Hp.
  pose proof (last_node_elem f l) as Hl.
  assert (Hxf : f <> x) by (intros ->; set_solver). assert (Hxl : last_node f l <> x) by (intros E; rewrite E in Hl; done).
  assert (Bf : is_bh c f) by (apply Hin; set_solver). assert (Bl : is_bh c (last_node f l)) by auto.
  unfold enfree. set (c1 := set_bh x _ c).
  assert (E1 : b_prev_free (bhd c1 f) = Some (last_node f l)).
  { unfold c1. rewrite bhd_set by done. by rewrite decide_False. }
  cbv beta. rewrite E1.
  set (c2 := set_bh x (fun r => r <| b_prev_free := _ |>) c1).
  assert (H2 : forall z, bhd c2 z = if decide (z = x)
    then (bhd c x) <| b_next_free := Some f |> <| b_prev_free := Some (last_node f l) |> else bhd c z).
  { intros z. unfold c2. rewrite bhd_set by (unfold c1; by rewrite set_bh_is).
    unfold c1. rewrite !bhd_set by done. rewrite (decide_True (P := x = x)) by done. by case_decide. }
  assert (Bc2 : forall z, is_bh c2 z <-> is_bh c z) by (intros z; unfold c2, c1; by rewrite !set_bh_is).
  rewrite bhd_set by (rewrite set_bh_is; by apply Bc2). rewrite !bhd_set by by apply Bc2.
  rewrite !H2. rewrite (decide_False (P := last_node f l = x)) by done.
  rewrite (decide_False (P := f = x)) by done. clear E1. unfold r.
  repeat case_decide; subst; try done; repeat split; simpl; congruence.
Qed.

Lemma enfree_ring c x f l :
  ring (nf c) (pf c) (f :: l) -> x ∉ f :: l -> is_bh c x -> (forall y, y ∈ f :: l -> is_bh c y) ->
  ring (nf (enfree x f c)) (pf (enfree x f c)) (f :: l ++ [x]).
Proof.
  intros Hr Hx Bx Hin. eapply ring_insert; [exact Hr|done| |]; intros y;
    by destruct (enfree_bhd c x f l y Hr Hx Bx Hin) as (? & ? & _).
Qed.

Lemma unfree_rest p x n c y :
  is_bh c p -> is_bh c n ->
  let r := bhd c y in let r' := bhd (unfree p x n c) y in
  b_prev r' = b_prev r /\ b_next r' = b_next r /\ b_dev r' = b_dev r /\ b_blocknr r' = b_blocknr r /\
  plain_part r' = plain_part r.
Proof.
  intros Bp Bn r. assert (E : bhd (unfree p x n c) y = bhd (set_bh n (fun r => r <| b_prev_free := Some p |>)
    (set_bh p (fun r => r <| b_next_free := Some n |>) c)) y) by (unfold unfree; by destruct (bool_decide _)).
  cbv zeta. rewrite E. rewrite bhd_set by by rewrite set_bh_is. rewrite !bhd_set by done.
  unfold r. repeat case_decide; subst; done.
Qed.

Lemma unfree_sizes p x n c :
  nr_buffers (unfree p x n c) = nr_buffers c /\ hash_table (unfree p x n c) = hash_table c.
Proof. unfold unfree, nr_buffers. destruct (bool_decide _); simpl; rewrite ?arr_set_length; done. Qed.

(** [remove_from_queues] on a whole cache. *)
Lemma unqueue_queued c x l1 l2 :
  queued c nobody -> free_list c = head (l1 ++ x :: l2) -> ring (nf c) (pf c) (l1 ++ x :: l2) ->
  (forall i, i ∈ l1 ++ x :: l2 <-> is_bh c i) ->
  exists p n, pf c x = Some p /\ nf c x = Some n /\ is_bh c p /\ is_bh c n /\
    let c' := unfree p x n (unhash x c) in
    nr_buffers c' = nr_buffers c /\
    queued c' (fun i => i = x) /\ free_list c' = head (l1 ++ l2) /\ ring (nf c') (pf c') (l1 ++ l2).
Proof.
  intros Q Hfl Hr Hmem. assert (Hx : is_bh c x) by (apply Hmem; set_solver).
  pose proof (queued_links c x Q Hx) as Hin. destruct (unhash_same x c) as (S1 & S2 & S3).
  assert (Hnd : NoDup (l1 ++ x :: l2)) by (destruct (l1 ++ x :: l2); [done|apply Hr]).
  assert (Hne : l1 ++ l2 <> []).
  { intros E. destruct l1; [|done]. simpl in E. subst l2. pose proof (q_size _ _ Q).
    assert (H0 : 0 ∈ [x]) by (apply Hmem; unfold is_bh; lia).
    assert (H1 : 1 ∈ [x]) by (apply Hmem; unfold is_bh; lia). set_solver. }
  assert (B : forall y, is_bh (unhash x c) y <-> is_bh c y) by (intros y; unfold is_bh; by rewrite S1).
  destruct (unfree_ring (unhash x c) x l1 l2) as (p & n & Hp & Hn & Bp & Bn & R & F & _ & _).
  { eapply ring_ext; [| |exact Hr]; intros y; by destruct (unhash_bhd x c y Hx Hin) as (_ & _ & _ & _ & ? & ? & _). }
  { by rewrite S3. }
  { done. }
  { intros y Hy. by apply B, Hmem. }
  destruct (unhash_bhd x c x Hx Hin) as (_ & _ & _ & _ & Ex1 & Ex2 & _).
  exists p, n. cbn in Hp, Hn. rewrite Ex2 in Hp. rewrite Ex1 in Hn.
  split; [done|]. split; [done|]. split; [by apply B|]. split; [by apply B|]. cbv zeta.
  set (c' := unfree p x n (unhash x c)) in *.
  destruct (unfree_sizes p x n (unhash x c)) as [T1 T2]. fold c' in T1, T2.
  assert (B' : forall y, is_bh c' y <-> is_bh c y) by (intros y; unfold is_bh; by rewrite T1, S1).
  assert (Hf : forall y, let r := bhd (unhash x c) y in let r' := bhd c' y in
    b_prev r' = b_prev r /\ b_next r' = b_next r /\ b_dev r' = b_dev r /\ b_blocknr r' = b_blocknr r)
    by (intros y; destruct (unfree_rest p x n (unhash x c) y Bp Bn) as (? & ? & ? & ? & ?); done).
  assert (Hg : forall y, b_dev (bhd c' y) = b_dev (bhd c y) /\ b_blocknr (bhd c' y) = b_blocknr (bhd c y)).
  { intros y. destruct (Hf y) as (_ & _ & -> & ->). by destruct (unhash_bhd x c y Hx Hin) as (_ & _ & ? & ? & _). }
  split; [congruence|]. split; [|done].
  split.
  - rewrite T1, S1. apply Q.
  - rewrite T2, S2. apply Q.
  - exists (l1 ++ l2). split; [done|]. split; [done|]. intros i. rewrite B'. split.
    + intros Hi. split; [apply Hmem; set_solver|]. intros ->. apply NoDup_app in Hnd as (_ & N1 & N2).
      apply NoDup_cons in N2 as [N2 _]. apply elem_of_app in Hi as [Hi|Hi]; [apply (N1 x Hi); set_solver|done].
    + intros [Hi Hne']. apply Hmem in Hi. set_solver.
  - intros h Hh. destruct (unhash_chains c x h Q Hx Hh) as (l & C & N & M). exists l.
    split; [|split; [done|]].
    + unfold hash_head. rewrite T2. eapply chain_ext; [exact C|]. intros y _. by destruct (Hf y) as (-> & -> & _).
    + intros i. rewrite M, B'. unfold hash_of. destruct (Hg i) as [-> ->]. tauto.
  - intros i. rewrite B'. intros Hi Hne' Hd. destruct (Hg i) as [E _]. rewrite E in Hd.
    destruct (q_off _ _ Q i Hi ltac:(intros []) Hd) as [O1 O2]. cbn in O1, O2. cbv beta.
    destruct (Hf i) as (-> & -> & _). destruct (unhash_bhd x c i Hx Hin) as (-> & -> & _).
    assert (Hno : b_next (bhd c x) <> Some i /\ b_prev (bhd c x) <> Some i).
    { destruct (decide (b_dev (bhd c x) = 0)) as [Hd'|Hd'].
      { destruct (q_off _ _ Q x Hx ltac:(intros []) Hd') as [E1 E2]. cbn in *. rewrite E1, E2. done. }
      destruct (q_chain _ _ Q (hash_of (bhd c x))) as (l' & C' & N' & M'); [apply hashfn_range|].
      assert (Hx' : x ∈ l') by (apply M'; repeat split; try done; apply Hx || intros []).
      assert (Hi' : i ∉ l') by (intros Hi'; apply M' in Hi'; tauto).
      apply list_elem_of_split in Hx' as (k1 & k2 & ->).
      pose proof (chain_mid _ _ _ _ _ _ _ C') as (E1 & E2 & _). cbn in E1, E2. rewrite E1, E2. split.
      - destruct k2; [done|]. simpl. intros [= ->]. set_solver.
      - destruct k1 as [|a k1]; [done|]. intros [= <-]. pose proof (last_node_elem a k1). set_solver. }
    destruct Hno. by rewrite !decide_False.
Qed.

(** ** Putting a buffer back *)

Definition enhash (x : Z) (c : cache) : cache :=
  let c1 := set_bh x (fun r => r <| b_next := None |>) (set_bh x (fun r => r <| b_prev := None |>) c) in
  let b := bhd c1 x in
  if negb (nz (b_dev b)) then c1 else
  let h := hash_head c1 (hash_of b) in
  let c2 := set_head (hash_of b) (Some x) (set_bh x (fun r => r <| b_next := h |>) c1) in
  match h with
  | Some y => set_bh y (fun r => r <| b_prev := Some x |>) c2
  | None => c2
  end.

Lemma enhash_bhd x c y :
  is_bh c x -> (forall z, hash_head c (hash_of (bhd c x)) = Some z -> is_bh c z /\ z <> x) ->
  let h := if b_dev (bhd c x) =? 0 then None else hash_head c (hash_of (bhd c x)) in
  let r := bhd c y in let r' := bhd (enhash x c) y in
  b_next r' = (if decide (y = x) then h else b_next r) /\
  b_prev r' = (if decide (y = x) then None else if decide (h = Some y) then Some x else b_prev r) /\
  b_dev r' = b_dev r /\ b_blocknr r' = b_blocknr r /\ b_next_free r' = b_next_free r /\
  b_prev_free r' = b_prev_free r /\ plain_part r' = plain_part r.
Proof.
  intros Bx Hh h r. unfold enhash. set (c1 := set_bh x _ (set_bh x _ c)).
  assert (H1 : forall z, bhd c1 z = if decide (z = x) then (bhd c x) <| b_prev := None |> <| b_next := None |> else bhd c z).
  { intros z. unfold c1. rewrite bhd_set by by rewrite set_bh_is. rewrite !bhd_set by done.
    rewrite (decide_True (P := x = x)) by done. by case_decide. }
  assert (B1 : forall z, is_bh c1 z <-> is_bh c z) by (intros z; unfold c1; by rewrite !set_bh_is).
  assert (Eb : b_dev (bhd c1 x) = b_dev (bhd c x) /\ hash_of (bhd c1 x) = hash_of (bhd c x)).
  { rewrite H1, decide_True by done. done. }
  destruct Eb as [-> ->]. change (hash_head c1 (hash_of (bhd c x))) with (hash_head c (hash_of (bhd c x))).
  unfold nz. rewrite negb_involutive. unfold h. destruct (b_dev (bhd c x) =? 0).
  - rewrite H1. unfold r. repeat case_decide; subst; done.
  - destruct (hash_head c (hash_of (bhd c x))) as [z|] eqn:Ez.
    + destruct (Hh z eq_refl) as [Bz Hzx].
      rewrite bhd_set by (unfold set_head, is_bh, nr_buffers; simpl; rewrite arr_set_length; by apply B1).
      change (bhd (set_head ?k ?v ?d)) with (bhd d). rewrite !bhd_set by by apply B1.
      rewrite !H1. rewrite (decide_False (P := z = x)) by done. unfold r.
      repeat case_decide; subst; simplify_eq; try done; repeat split; simpl; congruence.
    + change (bhd (set_head ?k ?v ?d)) with (bhd d). rewrite !bhd_set by by apply B1.
      rewrite !H1. unfold r. repeat case_decide; subst; simplify_eq; try done; repeat split; simpl; congruence.
Qed.

Lemma enhash_sizes x c :
  nr_buffers (enhash x c) = nr_buffers c /\ length (hash_table (enhash x c)) = length (hash_table c) /\
  free_list (enhash x c) = free_list c.
Proof.
  unfold enhash, nr_buffers. destruct (negb _); [simpl; rewrite ?arr_set_length; done|].
  destruct (hash_head _ _); simpl; rewrite ?arr_set_length; done.
Qed.

Lemma enhash_head x c h :
  is_bh c x -> 0 <= h < 307 -> length (hash_table c) = 307%nat ->
  hash_head (enhash x c) h =
    if decide (b_dev (bhd c x) <> 0 /\ h = hash_of (bhd c x)) then Some x else hash_head c h.
Proof.
  intros Bx Hh Hl. unfold enhash. set (c1 := set_bh x _ (set_bh x _ c)).
  assert (Eb : b_dev (bhd c1 x) = b_dev (bhd c x) /\ hash_of (bhd c1 x) = hash_of (bhd c x)).
  { unfold c1. rewrite bhd_set by by rewrite set_bh_is. rewrite bhd_set by done.
    rewrite !decide_True by done. done. }
  destruct Eb as [-> ->]. unfold nz. rewrite negb_involutive.
  destruct (Z.eqb_spec (b_dev (bhd c x)) 0) as [E|E].
  - rewrite decide_False by tauto. done.
  - assert (E' : hash_head (set_head (hash_of (bhd c x)) (Some x) (set_bh x (fun r => r <| b_next := hash_head c1 (hash_of (bhd c x)) |>) c1)) h
      = if decide (h = hash_of (bhd c x)) then Some x else hash_head c h).
    { unfold hash_head at 1, set_head. cbn [hash_table upd]. simpl. case_decide as Eh.
      - subst h. by rewrite arr_get_set_eq by (rewrite Hl; lia).
      - by rewrite arr_get_set_ne. }
    transitivity (if decide (h = hash_of (bhd c x)) then Some x else hash_head c h).
    + rewrite <- E'. by destruct (hash_head c1 (hash_of (bhd c x))).
    + repeat case_decide; tauto.
Qed.

Lemma enfree_sizes x f c :
  nr_buffers (enfree x f c) = nr_buffers c /\ hash_table (enfree x f c) = hash_table c /\
  free_list (enfree x f c) = free_list c.
Proof. unfold enfree, nr_buffers. destruct (b_prev_free _); simpl; rewrite ?arr_set_length; done. Qed.

(** [insert_into_queues] on a whole cache. *)
Lemma enqueue_queued c x f l :
  queued c (fun i => i = x) -> is_bh c x -> free_list c = Some f -> ring (nf c) (pf c) (f :: l) ->
  (forall i, i ∈ f :: l <-> is_bh c i /\ i <> x) ->
  let c' := enhash x (enfree x f c) in
  queued c' nobody /\ nr_buffers c' = nr_buffers c /\ free_list c' = Some f /\
  ring (nf c') (pf c') (f :: l ++ [x]) /\
  forall y, b_dev (bhd c' y) = b_dev (bhd c y) /\ b_blocknr (bhd c' y) = b_blocknr (bhd c y) /\
    plain_part (bhd c' y) = plain_part (bhd c y).
Proof.
  intros Q Bx Hfl Hr Hmem c'. set (c1 := enfree x f c) in *.
  assert (Hx : x ∉ f :: l) by (intros Hx; apply Hmem in Hx; tauto).
  assert (Hin : forall y, y ∈ f :: l -> is_bh c y) by (intros y Hy; by apply Hmem).
  assert (H1 : forall y, _) by (exact (fun y => enfree_bhd c x f l y Hr Hx Bx Hin)). cbn zeta in H1. fold c1 in H1.
  pose proof (enfree_ring c x f l Hr Hx Bx Hin) as R1. fold c1 in R1.
  destruct (enfree_sizes x f c) as (S1 & S2 & S3). fold c1 in S1, S2, S3.
  assert (B1 : forall y, is_bh c1 y <-> is_bh c y) by (intros y; unfold is_bh; by rewrite S1).
  assert (Hk : forall y, b_dev (bhd c1 y) = b_dev (bhd c y) /\ hash_of (bhd c1 y) = hash_of (bhd c y)).
  { intros y. unfold hash_of. destruct (H1 y) as (_ & _ & _ & _ & -> & -> & _). done. }
  assert (Hheads : forall h, hash_head c1 h = hash_head c h) by (intros h; unfold hash_head; by rewrite S2).
  assert (Hhd : forall z, hash_head c1 (hash_of (bhd c1 x)) = Some z -> is_bh c1 z /\ z <> x).
  { intros z Hz. destruct (Hk x) as [_ E]. rewrite E, Hheads in Hz.
    destruct (q_chain _ _ Q (hash_of (bhd c x)) (hashfn_range _ _)) as (k & C & _ & M).
    destruct k as [|a k]; simpl in C; [congruence|]. destruct C as (E' & _). rewrite E' in Hz. injection Hz as ->.
    rewrite B1. destruct (proj1 (M z) ltac:(set_solver)) as (? & ? & _). done. }
  assert (Bx1 : is_bh c1 x) by by apply B1.
  assert (H2 : forall y, _) by (exact (fun y => enhash_bhd x c1 y Bx1 Hhd)). cbn zeta in H2. fold c' in H2.
  destruct (enhash_sizes x c1) as (T1 & T2 & T3). fold c' in T1, T2, T3.
  assert (B' : forall y, is_bh c' y <-> is_bh c y) by (intros y; unfold is_bh; by rewrite T1, S1).
  assert (R2 : ring (nf c') (pf c') (f :: l ++ [x])).
  { eapply ring_ext; [| |exact R1]; intros y; by destruct (H2 y) as (_ & _ & _ & _ & ? & ? & _). }
  assert (Hk' : forall y, b_dev (bhd c' y) = b_dev (bhd c y) /\ hash_of (bhd c' y) = hash_of (bhd c y)).
  { intros y. unfold hash_of. destruct (H2 y) as (_ & _ & -> & -> & _). apply Hk. }
  assert (Hl307 : length (hash_table c1) = 307%nat) by (rewrite S2; apply Q).
  destruct (Hk x) as [Kd Kh]. split; [split|].
  - rewrite T1, S1. apply Q.
  - by rewrite T2.
  - exists (f :: l ++ [x]). rewrite T3, S3. split; [done|]. split; [done|]. intros i. rewrite B'. split.
    + intros Hi. split; [|intros []]. destruct (decide (i = x)) as [->|]; [done|]. apply Hin. set_solver.
    + intros [Hi _]. destruct (decide (i = x)) as [->|]; [set_solver|].
      assert (i ∈ f :: l) by by apply Hmem. set_solver.
  - intros h Hh. destruct (q_chain _ _ Q h Hh) as (k & C & N & M).
    unfold c'. rewrite enhash_head by done. fold c'. rewrite Kd, Kh, Hheads.
    assert (Hxk : x ∉ k) by (intros Hxk; apply M in Hxk; tauto).
    assert (Hold : forall y, y ∈ k -> nx c' y = nx c y).
    { intros y Hy. cbv beta. destruct (H2 y) as (-> & _). rewrite decide_False by (intros ->; done).
      by destruct (H1 y) as (_ & _ & _ & -> & _). }
    case_decide as Hd.
    + destruct Hd as [Hd ->]. exists (x :: k). split; [|split; [by constructor|]].
      * eapply chain_push; [exact C|done|done| | |exact Hold|].
        -- cbv beta. destruct (H2 x) as (-> & _). rewrite decide_True by done. rewrite Kd, Kh, Hheads.
           by destruct (Z.eqb_spec (b_dev (bhd c x)) 0).
        -- cbv beta. destruct (H2 x) as (_ & -> & _). by rewrite decide_True.
        -- intros y Hy. cbv beta. destruct (H2 y) as (_ & -> & _). rewrite decide_False by (intros ->; done).
           rewrite Kd, Kh, Hheads. destruct (Z.eqb_spec (b_dev (bhd c x)) 0); [done|].
           by destruct (H1 y) as (_ & _ & -> & _).
      * intros i. rewrite B'. destruct (Hk' i) as [-> ->]. rewrite elem_of_cons, M. split.
        -- intros [->|?]; [|unfold nobody; tauto]. split; [done|]. split; [intros []|]. done.
        -- intros (? & _ & ? & ?). destruct (decide (i = x)); [by left|right]. done.
    + exists k. split; [|split; [done|]].
      * eapply chain_ext; [exact C|]. intros y Hy. split; [by apply Hold|]. cbv beta.
        destruct (H2 y) as (_ & -> & _). rewrite decide_False by (intros ->; done).
        rewrite Kd, Kh, Hheads. destruct (H1 y) as (_ & _ & -> & _).
        destruct (Z.eqb_spec (b_dev (bhd c x)) 0) as [|Hne]; [done|].
        rewrite decide_False; [done|]. intros E.
        destruct (q_chain _ _ Q (hash_of (bhd c x)) (hashfn_range _ _)) as (k' & C' & _ & M').
        destruct k' as [|a k']; simpl in C'; [congruence|]. destruct C' as (E' & _). rewrite E' in E. injection E as ->.
        apply M in Hy. assert (Hy' : y ∈ y :: k') by set_solver. apply M' in Hy'. apply Hd. split; [done|].
        destruct Hy as (_ & _ & _ & <-), Hy' as (_ & _ & _ & <-). done.
      * intros i. rewrite B'. destruct (Hk' i) as [-> ->]. rewrite M. unfold nobody. split; [tauto|].
        intros (? & _ & ? & ?). repeat split; try done; try apply H. intros ->. apply Hd. done.
  - intros i. rewrite B'. intros Hi _ Hd. destruct (Hk' i) as [E _]. rewrite E in Hd. cbv beta.
    destruct (H2 i) as (-> & -> & _). rewrite Kd, Kh, Hheads.
    destruct (H1 i) as (_ & _ & -> & -> & _). case_decide as Hix.
    + subst i. rewrite Hd. done.
    + destruct (q_off _ _ Q i Hi Hix Hd) as [O1 O2]. cbn in O1, O2. rewrite O1, O2. split; [done|].
      destruct (Z.eqb_spec (b_dev (bhd c x)) 0) as [|Hne]; [done|]. rewrite decide_False; [done|]. intros E'.
      destruct (q_chain _ _ Q (hash_of (bhd c x)) (hashfn_range _ _)) as (k' & C' & _ & M').
      destruct k' as [|a k']; simpl in C'; [congruence|]. destruct C' as (E'' & _). rewrite E'' in E'. injection E' as ->.
      destruct (proj1 (M' i) ltac:(set_solver)) as (_ & _ & ? & _). done.
  - split; [congruence|]. split; [by rewrite T3, S3|]. split; [done|]. intros y.
    destruct (H2 y) as (_ & _ & -> & -> & _ & _ & ->). by destruct (H1 y) as (_ & _ & _ & _ & -> & -> & ->).
Qed.
