(* ===== verification/CacheInv.v ===== *)
(** * The buffer cache keeps its structure

    The routines of fs/buffer.c compute the structural operations of CacheQueues.v;
    they and [getblk] preserve the structure, whatever other tasks do to the cache while
    they sleep, as long as they preserve it too.  So the structure is a [Kept] invariant. *)
From Stdlib Require Import ZArith Lia String.
From stdpp Require Import base list sets relations.
From S2P Require Import Prelude Resumption Memory KState Links Sched Preserve BlkDev Buffer Types Kept CacheQueues.

(** ** What the queue routines compute *)

Lemma k_cache_with c s : k_cache (with_cache c s) = c.
Proof. done. Qed.
Lemma set_bh_free i f c : free_list (set_bh i f c) = free_list c.
Proof. done. Qed.

Lemma remove_from_queues_run x p nn n s :
  let c := k_cache s in
  is_bh c x -> links_in c x -> pf c x = Some p -> nf c x = Some nn -> is_bh c p -> is_bh c nn ->
  remove_from_queues x n s = Done tt (with_cache (unfree p x nn (unhash x c)) s).
Proof.
  intros c Hx Hin Hp Hn Bp Bn. unfold remove_from_queues.
  rewrite (unhash_run x n s c (fun b => match b_prev_free b, b_next_free b with
    | Some pf, Some nf =>
        bh_upd pf (fun x => x <| b_next_free := Some nf |>) ;;;
        bh_upd nf (fun x => x <| b_prev_free := Some pf |>) ;;;
        let! s := get in
        when (bool_decide (free_list (k_cache s) = Some x)) (set_free_list (Some nf))
    | _, _ => panic "Free block list corrupted"
    end) eq_refl Hx Hin).
  cbn in Hp, Hn. rewrite Hp, Hn. destruct (unhash_same x c) as (S1 & _ & S3).
  set (c1 := unhash x c) in *. assert (B : forall y, is_bh c y -> is_bh c1 y) by (intros y; unfold is_bh; by rewrite S1).
  unfold bind at 1. rewrite bh_upd_run by (apply B; done). cbn [obind].
  unfold bind at 1. rewrite bh_upd_run by exact (proj2 (set_bh_is p _ c1 nn) (B nn Bn)). cbn [obind].
  unfold bind at 1, get at 1. cbn [obind]. rewrite !k_cache_with, !with_cache_twice, !set_bh_free.
  unfold unfree. case_bool_decide; reflexivity.
Qed.

(** Besides the cache, [insert_into_queues] writes at most the word at address 20,
    the [b_prev] of a buffer head at NULL. *)
Definition stray (s s' : kstate) : Prop :=
  s' = s \/ exists v, s' = s <| k_mm ::= fun m => m <| mem ::= fun f => store f b_prev_offset v |> |>.

Lemma insert_into_queues_run x f l n s :
  let c := k_cache s in
  is_bh c x -> x ∉ f :: l -> free_list c = Some f -> ring (nf c) (pf c) (f :: l) ->
  (forall y, y ∈ f :: l -> is_bh c y) ->
  (forall z, hash_head c (hash_of (bhd c x)) = Some z -> is_bh c z /\ z <> x) ->
  exists s', insert_into_queues x n s = Done tt s' /\ stray (with_cache (enhash x (enfree x f c)) s) s'.
Proof.
  intros c Hx Hni Hfl Hr Hin Hh. unfold insert_into_queues.
  assert (Bf : is_bh c f) by (apply Hin; set_solver).
  unfold bind at 1, get at 1. cbn [obind]. unfold bind at 1, bh_ptr at 1, deref. fold c. rewrite Hfl. cbn [obind].
  unfold bind at 1. rewrite bh_upd_run by done. fold c. cbn [obind].
  set (c1 := set_bh x (fun r => r <| b_next_free := Some f |>) c).
  assert (B1 : forall y, is_bh c1 y <-> is_bh c y) by (intros y; apply set_bh_is).
  destruct (ring_neighbours _ _ _ _ Hr) as [_ Hp]. cbn in Hp.
  assert (Ep : b_prev_free (bhd c1 f) = Some (last_node f l)).
  { unfold c1. rewrite bhd_set by done. rewrite decide_False by (intros ->; set_solver). exact Hp. }
  unfold bind at 1. rewrite bh_get_run by (by apply B1). rewrite k_cache_with. cbn [obind]. rewrite Ep.
  unfold bind at 1. rewrite bh_upd_run by (by apply B1). rewrite k_cache_with, with_cache_twice. cbn [obind].
  unfold bind at 1, bh_ptr at 1, deref. cbn [obind].
  set (c2 := set_bh x (fun r => r <| b_prev_free := Some (last_node f l) |>) c1).
  assert (B2 : forall y, is_bh c2 y <-> is_bh c y) by (intros y; unfold c2; rewrite set_bh_is; apply B1).
  assert (Bl : is_bh c (last_node f l)) by apply Hin, last_node_elem.
  unfold bind at 1. rewrite bh_upd_run by (by apply B2). rewrite k_cache_with, with_cache_twice. cbn [obind].
  set (c3 := set_bh (last_node f l) _ c2).
  assert (B3 : forall y, is_bh c3 y <-> is_bh c y) by (intros y; unfold c3; rewrite set_bh_is; apply B2).
  unfold bind at 1. rewrite bh_upd_run by (by apply B3). rewrite k_cache_with, with_cache_twice. cbn [obind].
  set (c4 := set_bh f _ c3).
  assert (E4 : c4 = enfree x f c) by (unfold enfree; fold c1; cbv beta; rewrite Ep; reflexivity).
  assert (B4 : forall y, is_bh c4 y <-> is_bh c y) by (intros y; unfold c4; rewrite set_bh_is; apply B3).
  rewrite <- E4. assert (Hh4 : forall z, hash_head c4 (hash_of (bhd c4 x)) = Some z -> is_bh c4 z /\ z <> x).
  { intros z. rewrite B4. rewrite E4. destruct (enfree_bhd c x f l x Hr Hni Hx Hin) as (_ & _ & _ & _ & E5 & E6 & _).
    unfold hash_of. rewrite E5, E6. destruct (enfree_sizes x f c) as (_ & E7 & _). unfold hash_head at 1. rewrite E7. apply Hh. }
  clearbody c4. clear c1 B1 Ep c2 B2 c3 B3 E4.
  assert (Bx4 : is_bh c4 x) by by apply B4.
  unfold bind at 1. rewrite bh_upd_run by done. change (k_cache (with_cache c4 s)) with c4. cbn [obind].
  unfold bind at 1. rewrite bh_upd_run by exact (proj2 (set_bh_is x _ c4 x) Bx4). cbn [obind]. rewrite !with_cache_twice.
  change (k_cache (with_cache ?a s)) with a. unfold enhash.
  set (c5 := set_bh x (fun r => r <| b_next := None |>) (set_bh x (fun r => r <| b_prev := None |>) c4)).
  assert (B5 : forall y, is_bh c5 y <-> is_bh c4 y) by (intros y; unfold c5; by rewrite !set_bh_is).
  unfold bind at 1. rewrite bh_get_run by (by apply B5). cbn [obind]. change (k_cache (with_cache c5 s)) with c5.
  destruct (negb (nz (b_dev (bhd c5 x)))); [eexists; split; [reflexivity|by left]|].
  unfold bind at 1, get_hash, gets. cbn [obind].
  change (default None _) with (hash_head c5 (hash_of (bhd c5 x))).
  assert (Hh5 : forall z, hash_head c5 (hash_of (bhd c5 x)) = Some z -> is_bh c5 z /\ z <> x).
  { intros z. rewrite B5. change (hash_head c5) with (hash_head c4).
    replace (hash_of (bhd c5 x)) with (hash_of (bhd c4 x)); [apply Hh4|].
    unfold c5, hash_of. rewrite bhd_set by by rewrite set_bh_is. rewrite bhd_set by done. by rewrite !decide_True by done. }
  set (h := hash_head c5 (hash_of (bhd c5 x))) in *.
  unfold bind at 1. rewrite bh_upd_run by (by apply B5). change (k_cache (with_cache c5 s)) with c5. cbn [obind].
  rewrite with_cache_twice. unfold bind at 1, set_hash, set_cache, modify. cbn [obind].
  set (c6 := set_bh x (fun r => r <| b_next := h |>) c5).
  change (with_cache c6 s <| k_cache ::= _ |>) with (with_cache (set_head (hash_of (bhd c5 x)) (Some x) c6) s).
  destruct h as [z|] eqn:Ez.
  - destruct (Hh5 z eq_refl) as [Bz _]. rewrite bh_upd_run; cycle 1.
    { exact (proj2 (set_bh_is x _ c5 z) Bz). }
    eexists. split; [reflexivity|by left].
  - unfold on_mm, zoom, st, modify, ozoom. eexists. split; [reflexivity|]. right. eexists. reflexivity.
Qed.

(** ** Looking a block up *)

Lemma u32_lxor a b : u32 (Z.lxor a b) = Z.lxor (u32 a) (u32 b).
Proof.
  unfold u32. change 4294967296 with (2 ^ 32). rewrite <- !Z.land_ones by lia.
  apply Z.bits_inj'. intros i Hi. rewrite !Z.land_spec, !Z.lxor_spec, !Z.land_spec.
  by destruct (Z.testbit a i), (Z.testbit b i), (Z.testbit (Z.ones 32) i).
Qed.

Definition holds (c : cache) (dev block i : Z) : Prop :=
  is_bh c i /\ b_dev (bhd c i) = dev /\ b_blocknr (bhd c i) = u32 block.

Lemma hash_of_key c dev block i :
  0 <= dev < 65536 -> holds c dev block i -> hash_of (bhd c i) = _hashfn dev block.
Proof.
  intros Hd (_ & E1 & E2). unfold hash_of, _hashfn. rewrite E1, E2, !u32_lxor.
  by rewrite (u32_small (u32 block)) by apply u32_range.
Qed.

Ltac step_ret :=
  lazymatch goal with
  | |- context [obind (ret ?a ?n ?s) ?f] => change (obind (ret a n s) f) with (f a s); cbv beta iota
  end.

(** What looking for (dev, block) finds. *)
Definition found (c : cache) (dev block : Z) (r : option Z) : Prop :=
  match r with
  | Some i => holds c dev block i
  | None => dev <> 0 -> forall i, ~ holds c dev block i
  end.

Lemma find_loop dev block s l : forall k n q p,
  0 <= dev < 65536 ->
  let c := k_cache s in
  chain (nx c) (pv c) q p l -> (forall i, i ∈ l -> is_bh c i) ->
  match iterate k (fun tmp : option Z =>
    match tmp with
    | None => ret (inr None)
    | Some t =>
        let! b := bh_get t in
        if (b_dev b =? s32 dev) && (b_blocknr b =? u32 block) then ret (inr (Some t)) else ret (inl (b_next b))
    end) p n s with
  | NoFuel => (k <= length l)%nat
  | Done r s' => s' = s /\
      match r with Some i => i ∈ l /\ holds c dev block i | None => forall i, i ∈ l -> ~ holds c dev block i end
  | _ => False
  end.
Proof.
  induction l as [|x l IH]; intros k n q p Hd c Hc Hin; simpl in Hc;
    (destruct k as [|k]; [simpl; lia|]); cbn [iterate].
  - subst p. split; [done|]. set_solver.
  - destruct Hc as (-> & _ & Hc). assert (Hx : is_bh c x) by (apply Hin; set_solver).
    unfold bind at 1. rewrite bh_get_run by done. cbn [obind]. fold c. rewrite (s32_small dev) by lia.
    assert (Hin' : forall i, i ∈ l -> is_bh c i) by (intros i Hi; apply Hin; set_solver).
    specialize (IH k n (Some x) (nx c x) Hd Hc Hin'). rewrite (s32_small dev) in IH by lia.
    destruct (Z.eqb_spec (b_dev (bhd c x)) dev) as [E1|E1];
      [destruct (Z.eqb_spec (b_blocknr (bhd c x)) (u32 block)) as [E2|E2]|]; cbn [andb].
    + step_ret. split; [done|]. split; [set_solver|done].
    + step_ret. destruct (iterate _ _ _ _ _) as [r s'| | | | |]; try done; [|simpl; lia].
      destruct IH as [-> IH]. split; [done|]. destruct r; [set_solver|].
      intros i [->|Hi]%elem_of_cons; [|by apply IH]. intros (_ & _ & ?). done.
    + step_ret. destruct (iterate _ _ _ _ _) as [r s'| | | | |]; try done; [|simpl; lia].
      destruct IH as [-> IH]. split; [done|]. destruct r; [set_solver|].
      intros i [->|Hi]%elem_of_cons; [|by apply IH]. intros (_ & ? & _). done.
Qed.

Lemma NoDup_bound (l : list Z) k : NoDup l -> (forall i, i ∈ l -> 0 <= i < Z.of_nat k) -> (length l <= k)%nat.
Proof.
  intros Hnd Hl. transitivity (length (zrange 0 k)); [|by rewrite zrange_length].
  apply NoDup_incl_length; [by apply NoDup_ListNoDup|]. intros i Hi. apply zrange_elem. specialize (Hl i). rewrite list_elem_of_In in Hl. specialize (Hl Hi). lia.
Qed.

Lemma find_buffer_run dev block n s :
  0 <= dev < 65536 -> cache_ok (k_cache s) ->
  match find_buffer dev block n s with
  | NoFuel => (n <= length (bhs (k_cache s)))%nat
  | Done r s' => s' = s /\ found (k_cache s) dev block r
  | _ => False
  end.
Proof.
  intros Hd [Q _ _]. set (c := k_cache s) in *. unfold find_buffer, bind at 1, get_hash, gets, loop. cbn [obind].
  fold c. change (default None _) with (hash_head c (_hashfn dev block)).
  destruct (q_chain _ _ Q (_hashfn dev block) (hashfn_range _ _)) as (l & C & N & M).
  assert (Hin : forall i, i ∈ l -> is_bh c i) by (intros i Hi; apply M in Hi; apply Hi).
  pose proof (find_loop dev block s l n n None (hash_head c (_hashfn dev block)) Hd C Hin) as H.
  destruct (iterate _ _ _ _ _) as [r s'| | | | |]; try done.
  - destruct H as [-> Hr]. split; [done|]. destruct r as [i|]; [exact (proj2 Hr)|]. intros Hd0 i Hi. apply (Hr i); [|done].
    apply M. split; [apply Hi|]. split; [intros []|].
    destruct Hi as (Hi1 & Hi2 & Hi3). split; [congruence|]. apply hash_of_key; [done|]. by split.
  - etrans; [exact H|]. by apply NoDup_bound.
Qed.

(** ** Taking a buffer over *)

Definition claim (x : Z) (c : cache) : cache :=
  set_bh x (fun b => b <| b_uptodate := 0 |>) (set_bh x (fun b => b <| b_dirt := 0 |>)
    (set_bh x (fun b => b <| b_count := 1 |>) c)).
Definition new_key (x dev block : Z) (c : cache) : cache :=
  set_bh x (fun b => b <| b_blocknr := u32 block |>) (set_bh x (fun b => b <| b_dev := u16 dev |>) c).

Lemma claim_bhd x c y : is_bh c x -> bhd (claim x c) y =
  if decide (y = x) then (bhd c x) <| b_count := 1 |> <| b_dirt := 0 |> <| b_uptodate := 0 |> else bhd c y.
Proof.
  intros Hx. unfold claim. rewrite !bhd_set by (rewrite ?set_bh_is; done).
  rewrite !(decide_True (P := x = x)) by done. by case_decide.
Qed.

Lemma claim_same x c : same_structure c (claim x c).
Proof.
  unfold claim. eapply same_trans; [apply (set_bh_plain x (fun b => b <| b_count := 1 |>)); done|].
  eapply same_trans; [apply (set_bh_plain x (fun b => b <| b_dirt := 0 |>)); done|].
  by apply (set_bh_plain x (fun b => b <| b_uptodate := 0 |>)).
Qed.

Lemma new_key_bhd x dev block c y : is_bh c x -> bhd (new_key x dev block c) y =
  if decide (y = x) then (bhd c x) <| b_dev := u16 dev |> <| b_blocknr := u32 block |> else bhd c y.
Proof.
  intros Hx. unfold new_key. rewrite !bhd_set by (rewrite ?set_bh_is; done).
  rewrite !(decide_True (P := x = x)) by done. by case_decide.
Qed.

Lemma new_key_sizes x dev block c :
  nr_buffers (new_key x dev block c) = nr_buffers c /\ hash_table (new_key x dev block c) = hash_table c /\
  free_list (new_key x dev block c) = free_list c.
Proof. unfold new_key, nr_buffers. simpl. by rewrite !arr_set_length. Qed.

(** Changing the key of a buffer that is in no queue. *)
Lemma new_key_queued c x dev block :
  queued c (fun i => i = x) -> is_bh c x -> queued (new_key x dev block c) (fun i => i = x).
Proof.
  intros [Q1 Q2 (l & R1 & R2 & R3) Q4 Q5] Hx. destruct (new_key_sizes x dev block c) as (S1 & S2 & S3).
  set (c' := new_key x dev block c) in *.
  assert (B : forall y, is_bh c' y <-> is_bh c y) by (intros y; unfold is_bh; by rewrite S1).
  assert (H : forall y, y <> x -> bhd c' y = bhd c y).
  { intros y Hy. unfold c'. by rewrite new_key_bhd, decide_False. }
  assert (L : forall y, nx c' y = nx c y /\ pv c' y = pv c y /\ nf c' y = nf c y /\ pf c' y = pf c y).
  { intros y. cbv beta. unfold c'. rewrite new_key_bhd by done. by case_decide; [subst|]. }
  split; [by rewrite S1|by rewrite S2| | |].
  - exists l. rewrite S3. split; [done|]. split; [|intros i; by rewrite R3, B].
    eapply ring_ext; [| |exact R2]; intros y; by destruct (L y) as (_ & _ & ? & ?).
  - intros h Hh. destruct (Q4 h Hh) as (k & C & N & M). exists k. split; [|split; [done|]].
    + unfold hash_head. rewrite S2. eapply chain_ext; [exact C|]. intros y _. by destruct (L y) as (? & ? & _).
    + intros i. rewrite M, B. destruct (decide (i = x)) as [->|Hne]; [tauto|]. rewrite (H i Hne). tauto.
  - intros i. rewrite B. intros Hi Hne. cbv beta. rewrite !H by done. by apply Q5.
Qed.

Lemma rekey_run x dev block n s l1 l2 :
  let c := k_cache s in
  cache_ok c -> free_list c = head (l1 ++ x :: l2) -> ring (nf c) (pf c) (l1 ++ x :: l2) ->
  (forall i, i ∈ l1 ++ x :: l2 <-> is_bh c i) ->
  (u16 dev <> 0 -> forall i, ~ holds c (u16 dev) block i) ->
  exists s', rekey x dev block n s = Done tt s' /\ let c' := k_cache s' in
    cache_ok c' /\ holds c' (u16 dev) block x /\ b_count (bhd c' x) = 1 /\
    (forall i, i <> x -> b_dev (bhd c' i) = b_dev (bhd c i) /\ b_blocknr (bhd c' i) = b_blocknr (bhd c i)) /\
    free_list c' = head (l1 ++ l2) /\ ring (nf c') (pf c') (l1 ++ l2 ++ [x]) /\ nr_buffers c' = nr_buffers c.
Proof.
  intros c Hok Hfl Hr Hmem Hno. assert (Hx : is_bh c x) by (apply Hmem; set_solver).
  unfold rekey. unfold bind at 1. rewrite bh_upd_run by done. cbn [obind]. fold c.
  unfold bind at 1. rewrite bh_upd_run by exact (proj2 (set_bh_is _ _ _ _) Hx). rewrite k_cache_with, with_cache_twice. cbn [obind].
  unfold bind at 1. rewrite bh_upd_run by (rewrite k_cache_with, !set_bh_is; done). rewrite k_cache_with, with_cache_twice. cbn [obind].
  fold (claim x c). set (c1 := claim x c).
  pose proof (claim_same x c) as Hsame. assert (Hok1 : cache_ok c1) by by eapply cache_ok_same.
  destruct Hsame as [S1 S2 S3 S4]. fold c1 in S1, S2, S3, S4.
  assert (B1 : forall y, is_bh c1 y <-> is_bh c y) by (intros y; unfold is_bh, nr_buffers; by rewrite S1).
  destruct (unqueue_queued c1 x l1 l2) as (p & nn & Hp & Hn & Bp & Bn & Hsz & Q2 & F2 & R2).
  { apply Hok1. } { by rewrite S3. }
  { eapply ring_ext; [| |exact Hr]; intros y; destruct (S4 y) as (_ & _ & _ & _ & ? & ? & _); done. }
  { intros i. by rewrite B1. }
  unfold bind at 1. rewrite (remove_from_queues_run x p nn) by
    (rewrite k_cache_with; first [done | by apply B1 | apply queued_links; [apply Hok1|by apply B1]]).
  cbn [obind]. rewrite k_cache_with, with_cache_twice. set (c2 := unfree p x nn (unhash x c1)) in *.
  assert (B2 : forall y, is_bh c2 y <-> is_bh c y).
  { intros y. rewrite <- B1. unfold is_bh. by rewrite Hsz. }
  assert (Bx2 : is_bh c2 x) by by apply B2.
  unfold bind at 1. rewrite bh_upd_run by done. rewrite k_cache_with, with_cache_twice. cbn [obind].
  unfold bind at 1. rewrite bh_upd_run by (rewrite k_cache_with, set_bh_is; done).
  rewrite k_cache_with, with_cache_twice. cbn [obind]. fold (new_key x dev block c2).
  pose proof (new_key_queued c2 x dev block Q2 Bx2) as Q3.
  destruct (new_key_sizes x dev block c2) as (T1 & T2 & T3). set (c3 := new_key x dev block c2) in *.
  assert (B3 : forall y, is_bh c3 y <-> is_bh c y) by (intros y; rewrite <- B2; unfold is_bh; by rewrite T1).
  assert (L3 : forall y, nf c3 y = nf c2 y /\ pf c3 y = pf c2 y).
  { intros y. cbv beta. unfold c3. rewrite new_key_bhd by done. by case_decide; [subst|]. }
  destruct (l1 ++ l2) as [|f l] eqn:El; [done|].
  assert (R3 : ring (nf c3) (pf c3) (f :: l)) by (eapply ring_ext; [| |exact R2]; intros y; apply L3).
  assert (M3 : forall i, i ∈ f :: l <-> is_bh c3 i /\ i <> x).
  { intros i. rewrite B3, <- El. assert (Hnd : NoDup (l1 ++ x :: l2)) by (destruct (l1 ++ x :: l2); [done|apply Hr]).
    split.
    - intros Hi. split; [apply Hmem; set_solver|]. intros ->. apply NoDup_app in Hnd as (_ & N1 & N2).
      apply NoDup_cons in N2 as [N2 _]. apply elem_of_app in Hi as [Hi|Hi]; [apply (N1 x Hi); set_solver|done].
    - intros [Hi Hne]. apply Hmem in Hi. set_solver. }
  assert (Bx3 : is_bh c3 x) by by apply B3.
  destruct (insert_into_queues_run x f l n (with_cache c3 s)) as (s' & E & Hs').
  { done. } { intros Hf. apply M3 in Hf. tauto. } { rewrite k_cache_with, T3. exact F2. } { done. }
  { intros y Hy. by apply M3. }
  { rewrite k_cache_with. intros z Hz.
    destruct (q_chain _ _ Q3 (hash_of (bhd c3 x)) (hashfn_range _ _)) as (k & C & _ & M).
    destruct k as [|a k]; simpl in C; [congruence|]. destruct C as (E' & _). rewrite E' in Hz. injection Hz as ->.
    destruct (proj1 (M z) ltac:(set_solver)) as (? & ? & _). done. }
  rewrite k_cache_with, with_cache_twice in *.
  destruct (enqueue_queued c3 x f l Q3 Bx3 ltac:(by rewrite T3) R3 M3) as (Q4 & N4 & F4 & R4 & K4).
  exists s'. split; [exact E|]. assert (Ec : k_cache s' = enhash x (enfree x f c3)) by (by destruct Hs' as [->|[v ->]]).
  cbv zeta. rewrite Ec. set (c4 := enhash x (enfree x f c3)) in *.
  assert (B4 : forall y, is_bh c4 y <-> is_bh c y) by (intros y; rewrite <- B3; unfold is_bh; by rewrite N4).
  assert (Kx : b_dev (bhd c4 x) = u16 dev /\ b_blocknr (bhd c4 x) = u32 block).
  { destruct (K4 x) as (-> & -> & _). unfold c3. by rewrite new_key_bhd, decide_True by done. }
  assert (Ko : forall y, let b := bhd c4 y in let b0 := bhd c y in
    (plain_part b = if decide (y = x) then (b_data b0, [0; 0; 1; b_lock b0]) else plain_part b0) /\
    (y <> x -> b_dev b = b_dev b0 /\ b_blocknr b = b_blocknr b0)).
  { intros y b b0. unfold b. destruct (K4 y) as (-> & -> & ->).
    assert (H2 : b_dev (bhd c2 y) = b_dev (bhd c1 y) /\ b_blocknr (bhd c2 y) = b_blocknr (bhd c1 y) /\
      plain_part (bhd c2 y) = plain_part (bhd c1 y)).
    { unfold c2. destruct (unhash_same x c1) as (U1 & _ & _).
      destruct (unfree_rest p x nn (unhash x c1) y) as (_ & _ & -> & -> & ->);
        [unfold is_bh; rewrite U1; done|unfold is_bh; rewrite U1; done|].
      destruct (unhash_bhd x c1 y) as (_ & _ & -> & -> & _ & _ & ->);
        [by apply B1|apply queued_links; [apply Hok1|by apply B1]|]. done. }
    destruct H2 as (G1 & G2 & G3). unfold c3. rewrite new_key_bhd by done.
    assert (E1 : bhd c1 y = if decide (y = x) then (bhd c x) <| b_count := 1 |> <| b_dirt := 0 |> <| b_uptodate := 0 |> else bhd c y)
      by by apply claim_bhd.
    case_decide as Hy; [subst y|].
    - split; [|by intros []]. unfold plain_part in G3 |- *. rewrite E1 in G3. simpl in G3 |- *. exact G3.
    - rewrite G3, G1, G2, E1. done. }
  split; [split; [exact Q4| |]|].
  - intros i j. rewrite !B4. intros Hi Hj _ _ Hd E1 E2.
    destruct (decide (i = x)) as [->|Hix], (decide (j = x)) as [->|Hjx]; [done| | |].
    + exfalso. destruct Kx as [K1 K2]. destruct (proj2 (Ko j) Hjx) as [J1 J2].
      apply (Hno ltac:(congruence) j). split; [done|]. split; congruence.
    + exfalso. destruct Kx as [K1 K2]. destruct (proj2 (Ko i) Hix) as [J1 J2].
      apply (Hno ltac:(congruence) i). split; [done|]. split; congruence.
    + destruct (proj2 (Ko i) Hix) as [I1 I2], (proj2 (Ko j) Hjx) as [J1 J2].
      apply (ok_unique _ Hok i j Hi Hj (fun f => f) (fun f => f)); congruence.
  - intros i. rewrite B4. intros Hi. destruct (ok_keys _ Hok i Hi) as (G1 & G2 & G3).
    destruct (Ko i) as [Hd Hk]. assert (Hdat : b_data (bhd c4 i) = b_data (bhd c i))
      by (case_decide; [subst i|]; simpl in Hd; by injection Hd). rewrite Hdat. destruct (decide (i = x)) as [->|Hix].
    + destruct Kx as [-> ->]. split; [apply u16_range|]. split; [apply u32_range|done].
    + destruct (Hk Hix) as [-> ->]. done.
  - split; [split; [by apply B4|exact Kx]|]. split; [|split; [|split; [|split]]].
    + destruct (Ko x) as [Hpl _]. rewrite decide_True in Hpl by done. simpl in Hpl. by injection Hpl.
    + intros i Hi. by apply (Ko i).
    + rewrite F4. done.
    + rewrite app_assoc, El. exact R4.
    + rewrite N4, T1, Hsz. unfold nr_buffers. by rewrite S1.
Qed.

(** ** The structure as an invariant of the kernel *)

Definition cache_inv (s : kstate) : Prop := cache_ok (k_cache s).

Lemma cache_bh_wait i w s : cache_inv s -> cache_inv (wq_put (bh_wait i) w s).
Proof.
  unfold bh_wait. cbn [wq_put]. destruct (arr_get (bhs (k_cache s)) i) as [b|] eqn:E; [|done].
  intros H. assert (Hi : is_bh (k_cache s) i) by by apply arr_get_Some_range in E.
  rewrite bhd_get in E by done. injection E as <-.
  apply (cache_ok_same (k_cache s)); [|done].
  exact (set_bh_plain i (fun b => b <| b_wait := w |>) (k_cache s) (fun b => ltac:(repeat split))).
Qed.
Lemma cache_free_buffer_wait w s : cache_inv s -> cache_inv (wq_put free_buffer_wait w s).
Proof. intros H. by apply (cache_ok_same (k_cache s)). Qed.

(** An assignment to a buffer that keeps its place and the size of its data. *)
Lemma cache_set_bh i f s :
  cache_inv s -> is_bh (k_cache s) i ->
  (let b := bhd (k_cache s) i in length (b_data b) = 1024%nat -> let b' := f b in
   b_dev b' = b_dev b /\ b_blocknr b' = b_blocknr b /\ b_next b' = b_next b /\ b_prev b' = b_prev b /\
   b_next_free b' = b_next_free b /\ b_prev_free b' = b_prev_free b /\ length (b_data b') = length (b_data b)) ->
  cache_inv (with_cache (set_bh i f (k_cache s)) s).
Proof.
  intros H Hi Hf. apply (cache_ok_same (k_cache s)); [|done].
  split; [unfold set_bh; simpl; apply arr_set_length|done|done|].
  intros j b b'. unfold b, b'. rewrite k_cache_with, bhd_set by done. case_decide as E; [subst j|done].
  apply Hf. by apply (ok_keys _ H).
Qed.

Lemma cache_bh_upd i f : gentle f -> keeps cache_inv (bh_upd i f).
Proof.
  intros Hf n s Hi _. destruct (decide (is_bh (k_cache s) i)) as [Hb|Hb].
  - rewrite bh_upd_run by done. split; [|done]. apply cache_set_bh; [done|done|]. intros b Hl.
    destruct (Hf b Hl) as (? & ? & ? & ? & ? & ? & ? & _). done.
  - unfold bh_upd, tab_upd, bind, tab_get, deref.
    destruct (arr_get (bhs (k_cache s)) i) eqn:E; [|done]. by apply arr_get_Some_range in E.
Qed.

#[export] Instance cache_kept : Kept cache_inv.
Proof.
  refine {| known := False |}.
  - done.
  - intros f s E _. unfold cache_inv. by rewrite E.
  - intros s i b H E. assert (Hi : is_bh (k_cache s) i) by by apply arr_get_Some_range in E.
    rewrite bhd_get in E by done. injection E as <-. by apply (ok_keys _ H).
  - apply cache_bh_upd.
  - intros i w s _. apply cache_bh_wait.
  - intros w s _. apply cache_free_buffer_wait.
Defined.

(** ** getblk *)

Section Getblk.
Context {driver : Driver} {Hdriver : DriverKeeps cache_inv} (sync_inodes : K unit) (Hsync : keeps cache_inv sync_inodes).
#[local] Hint Resolve Hsync kept_wait_on_buffer kept_sync_dev kept_brelse : keeps.

(** [keeps] as a triple whose postcondition is dropped. *)
Lemma keeps_triple {A} (P : kstate -> Prop) (m : K A) :
  keeps cache_inv m -> triple any cache_inv anywhere P m (fun _ _ => True).
Proof. intros H. eapply triple_conseq; [exact H|done|done]. Qed.

Lemma find_buffer_triple dev block P :
  0 <= dev < 65536 ->
  triple any cache_inv anywhere P (find_buffer dev block) (fun r s => found (k_cache s) dev block r /\ P s).
Proof.
  intros Hd n s Hi HP. pose proof (find_buffer_run dev block n s Hd Hi) as H.
  destruct (find_buffer dev block n s); try done. destruct H as [-> H]. split; [done|]. by split.
Qed.

Lemma bh_get_triple bh P :
  triple any cache_inv anywhere P (bh_get bh)
    (fun b s => (b = bhd (k_cache s) bh /\ is_bh (k_cache s) bh) /\ P s).
Proof.
  intros n s Hi HP. unfold bh_get, tab_get, deref. destruct (arr_get (bhs (k_cache s)) bh) as [b|] eqn:E; [|done].
  assert (Hb : is_bh (k_cache s) bh) by by apply arr_get_Some_range in E.
  rewrite bhd_get in E by done. injection E as <-. done.
Qed.

Lemma get_hash_table_triple dev block :
  0 <= dev < 65536 ->
  triple any cache_inv anywhere (fun _ => True) (get_hash_table dev block)
    (fun r s => match r with Some bh => holds (k_cache s) dev block bh | None => True end).
Proof.
  intros Hd. unfold get_hash_table. apply (triple_loop _ _ _ (fun _ _ => True)); [done|]. intros [].
  eapply triple_bind; [by apply (find_buffer_triple dev block (fun _ => True))|]. intros [bh|]; [|by apply triple_ret].
  eapply triple_bind; [apply keeps_triple; auto with keeps nocore|]. intros ?.
  eapply triple_bind; [apply keeps_triple; auto with keeps nocore|]. intros ?.
  eapply triple_bind; [apply (bh_get_triple bh (fun _ => True))|]. intros b. cbv beta.
  destruct (Z.eqb_spec (b_dev b) (s32 dev)) as [E1|]; [destruct (Z.eqb_spec (b_blocknr b) (u32 block)) as [E2|]|];
    cbn [andb].
  - apply triple_ret. intros s _ [[-> Hb] _]. rewrite s32_small in E1 by lia. done.
  - eapply triple_bind; [apply keeps_triple; auto with keeps nocore|]. intros ?. by apply triple_ret.
  - eapply triple_bind; [apply keeps_triple; auto with keeps nocore|]. intros ?. by apply triple_ret.
Qed.

Lemma clean_buffer_triple bh :
  triple any cache_inv anywhere (fun _ => True) (clean_buffer sync_inodes bh)
    (fun ok s => ok = true -> is_bh (k_cache s) bh).
Proof.
  unfold clean_buffer. apply (triple_loop _ _ _ (fun _ _ => True)); [done|]. intros [].
  eapply triple_bind; [apply (bh_get_triple bh (fun _ => True))|]. intros b. cbv beta.
  destruct (nz (b_dirt b)).
  - eapply triple_bind; [apply keeps_triple; auto with keeps nocore|]. intros ?.
    eapply triple_bind; [apply keeps_triple; auto with keeps nocore|]. intros ?.
    eapply triple_bind; [apply keeps_triple; auto with keeps nocore|]. intros b'.
    destruct (nz (b_count b')); by apply triple_ret.
  - apply triple_ret. by intros s _ [[_ ?] _].
Qed.

Lemma rekey_triple bh dev block :
  0 <= dev < 65536 ->
  triple any cache_inv anywhere
    (fun s => is_bh (k_cache s) bh /\ (dev <> 0 -> forall i, ~ holds (k_cache s) dev block i))
    (rekey bh dev block) (fun _ s => holds (k_cache s) dev block bh).
Proof.
  intros Hd n s Hi [Hb Hno]. destruct (q_ring _ _ (ok_queued _ Hi)) as (l & Hf & Hr & Hm).
  assert (Hin : bh ∈ l) by (apply Hm; split; [done|intros []]).
  apply list_elem_of_split in Hin as (l1 & l2 & ->).
  destruct (rekey_run bh dev block n s l1 l2) as (s' & -> & H1 & H2 & _); try done.
  - intros i. rewrite Hm. unfold nobody. tauto.
  - by rewrite u16_small.
  - rewrite u16_small in H2 by done. done.
Qed.

Lemma getblk_triple dev block :
  0 <= dev < 65536 ->
  triple any cache_inv anywhere (fun _ => True) (getblk sync_inodes dev block)
    (fun bh s => holds (k_cache s) dev block bh).
Proof.
  intros Hd. unfold getblk. apply (triple_loop _ _ _ (fun _ _ => True)); [done|]. intros [].
  eapply triple_bind; [by apply get_hash_table_triple|]. intros [bh|]; [by apply triple_ret|].
  eapply triple_bind; [apply keeps_triple, kept_find_free|]. intros [bh|].
  - eapply triple_bind; [apply keeps_triple; auto with keeps nocore|]. intros ?.
    eapply triple_bind; [apply keeps_triple; auto with keeps nocore|]. intros b.
    destruct (nz (b_count b)); [by apply triple_ret|].
    eapply triple_bind; [eapply triple_conseq; [apply clean_buffer_triple|done|intros ok s _ Hok; exact Hok]|]. intros [|]; cbn [negb]; [|by apply triple_ret].
    eapply triple_bind; [by apply find_buffer_triple|]. intros [x|]; [by apply triple_ret|].
    eapply triple_bind; [eapply triple_conseq; [by apply rekey_triple| |intros ok s _ Hok; exact Hok]|].
    + intros s _ [H1 H2]. auto.
    + intros []. by apply triple_ret.
  - eapply triple_bind; [apply keeps_triple; auto with keeps nocore|]. intros ?. by apply triple_ret.
Qed.
End Getblk.

#[export] Instance cache_blocks {driver : Driver} {Hdriver : DriverKeeps cache_inv} : KeptBlocks cache_inv.
Proof. intros si dev block Hd H. eapply keeps_conseq; [by apply getblk_triple|done]. Qed.
