(* ===== verification/DriverInv.v ===== *)
(** * The disk drivers keep every [Kept] invariant

    Each routine of [Hd] and [Floppy], their interrupts and timers included: the
    promise [DriverKeeps] that the buffer cache relies on. *)
From Stdlib Require Import ZArith Lia String.
From stdpp Require Import base list.
From S2P Require Import Prelude Resumption Memory KState Sched Preserve BlkDev Hd Floppy Buffer Types Kept.

Section Kept.
Context {inv : kstate -> Prop} {Hinv : Kept inv}.

Lemma kept_floppy_off nr : keeps inv (floppy_off nr).
Proof. unfold floppy_off, set_moff, arr_upd. keeps. Qed.
Lemma kept_ticks nr : keeps inv (ticks_to_floppy_on nr).
Proof. unfold ticks_to_floppy_on, set_mon, set_moff, arr_upd. keeps. Qed.
#[local] Hint Resolve kept_floppy_off kept_ticks : keeps.
Lemma kept_floppy_on nr : keeps inv (floppy_on nr).
Proof. unfold floppy_on. keeps. Qed.
#[local] Hint Resolve kept_floppy_on : keeps.

Lemma kept_timer_upd i f : keeps inv (timer_upd i f).
Proof. unfold timer_upd, timer_get. keeps. Qed.
Lemma kept_set_next_timer p : keeps inv (set_next_timer p).
Proof. unfold set_next_timer. keeps. Qed.
#[local] Hint Resolve kept_timer_upd kept_set_next_timer : keeps.
Lemma kept_add_timer call t fn : (forall p, keeps inv (call p)) -> keeps inv (add_timer call t fn).
Proof. intros H. unfold add_timer, free_timer, sift, timer_get. keeps. Qed.
#[local] Hint Resolve kept_add_timer : keeps.

(** ** hd.c *)

Lemma kept_current_of major : keeps inv (current_of major).
Proof. unfold current_of. keeps. Qed.
#[local] Hint Resolve kept_current_of : keeps.
Lemma kept_current_upd major f :
  (known -> forall r, request_typed r -> request_typed (f r)) -> keeps inv (current_upd major f).
Proof. intros H. unfold current_upd. keeps. by apply kept_req_upd. Qed.
#[local] Hint Extern 1 (keeps _ (current_upd _ _)) => apply kept_current_upd; same_types : keeps.
Lemma kept_hd_end_request u : keeps inv (hd_end_request u).
Proof. unfold hd_end_request. keeps. Qed.
#[local] Hint Resolve kept_hd_end_request : keeps.

Lemma kept_insw port nr : keeps inv (insw port nr).
Proof. unfold insw. keeps. Qed.
#[local] Hint Resolve kept_insw : keeps.
Lemma kept_port_read port buf : keeps inv (port_read port buf).
Proof.
  unfold port_read. destruct buf as [[bh off]|]; [|keeps].
  destruct ((off <? 0) || (BLOCK_SIZE <? off + 512)) eqn:E; [keeps|]. bprop. unfold BLOCK_SIZE in *.
  apply keeps_bind; [keeps|]. intros l. apply kept_splice. rewrite length_take. lia.
Qed.
Lemma kept_port_write port buf : keeps inv (port_write port buf).
Proof. unfold port_write, outw. keeps. Qed.
#[local] Hint Resolve kept_port_read kept_port_write : keeps.

Lemma kept_controller_ready : keeps inv controller_ready.
Proof. unfold controller_ready. keeps. Qed.
Lemma kept_win_result : keeps inv win_result.
Proof. unfold win_result. keeps. Qed.
Lemma kept_drive_busy : keeps inv drive_busy.
Proof. unfold drive_busy. keeps. Qed.
Lemma kept_wait_drq : keeps inv wait_drq.
Proof. unfold wait_drq. keeps. Qed.
#[local] Hint Resolve kept_controller_ready kept_win_result kept_drive_busy kept_wait_drq : keeps.
Lemma kept_hd_out a b c d e f h : keeps inv (hd_out a b c d e f h).
Proof. unfold hd_out, set_do_hd, info. keeps. Qed.
#[local] Hint Resolve kept_hd_out : keeps.
Lemma kept_reset_hd nr : keeps inv (reset_hd nr).
Proof. unfold reset_hd, reset_controller, info. keeps. Qed.
Lemma kept_bad_rw_intr : keeps inv bad_rw_intr.
Proof. unfold bad_rw_intr, set_reset. keeps. Qed.
#[local] Hint Resolve kept_reset_hd kept_bad_rw_intr : keeps.
Lemma kept_hd_command a b c d e f : keeps inv (hd_command a b c d e f).
Proof. unfold hd_command. keeps. Qed.
#[local] Hint Resolve kept_hd_command : keeps.
Lemma kept_do_hd_request : keeps inv do_hd_request.
Proof. unfold do_hd_request, hd_step, hd_get, divl, info, set_reset, set_recalibrate. keeps. Qed.
#[local] Hint Resolve kept_do_hd_request : keeps.
Lemma kept_hd_interrupt : keeps inv hd_interrupt.
Proof.
  unfold hd_interrupt, hd_get, read_intr, write_intr, recal_intr, unexpected_hd_interrupt, set_do_hd. keeps.
Qed.

(** ** floppy.c *)

Lemma kept_floppy_deselect nr : keeps inv (floppy_deselect nr).
Proof. unfold floppy_deselect, set_selected. keeps. Qed.
Lemma kept_fd_change nr : keeps inv (Floppy.floppy_change nr).
Proof. unfold Floppy.floppy_change, while_. keeps. Qed.
Lemma kept_buffer_address buf : keeps inv (buffer_address buf).
Proof. unfold buffer_address. keeps. Qed.
Lemma kept_copy_to_tmp buf : keeps inv (copy_to_tmp buf).
Proof.
  unfold copy_to_tmp. destruct buf as [[bh [|p|p]]|]; [|keeps..].
  apply kept_bind_bh. intros b Hb. apply kept_fd_upd. intros Hk d (H1 & _ & H3). split; [exact H1|]. split; [|exact H3].
  change (length (take 1024 (b_data b)) = 1024%nat). by rewrite length_take, Hb.
Qed.
Lemma kept_copy_from_tmp buf : keeps inv (copy_from_tmp buf).
Proof.
  unfold copy_from_tmp, fd_get. destruct buf as [[bh [|p|p]]|]; [|keeps..].
  apply keeps_bind; [keeps|]. intros d. apply kept_splice. rewrite length_take. lia.
Qed.
#[local] Hint Resolve kept_floppy_deselect kept_buffer_address kept_copy_to_tmp kept_copy_from_tmp : keeps.
Lemma kept_setup_DMA : keeps inv setup_DMA.
Proof. unfold setup_DMA, fd_get. keeps. Qed.
Lemma kept_output_byte b : keeps inv (output_byte b).
Proof. unfold output_byte, fd_get, fd_set_reset. keeps. Qed.
Lemma kept_result : keeps inv result.
Proof. unfold result, result_step, fd_get, fd_set_reset. keeps. Qed.
Lemma kept_fd_end_request u : keeps inv (fd_end_request u).
Proof. unfold fd_end_request. keeps. Qed.
#[local] Hint Resolve kept_setup_DMA kept_output_byte kept_result kept_fd_end_request : keeps.
Lemma kept_bad_flp_intr : keeps inv bad_flp_intr.
Proof. unfold bad_flp_intr, fd_get, fd_set_reset, fd_set_recalibrate. keeps. Qed.
Lemma kept_reset_floppy : keeps inv reset_floppy.
Proof. unfold reset_floppy, set_do_floppy. keeps. Qed.
#[local] Hint Resolve kept_bad_flp_intr kept_reset_floppy : keeps.

Section Knot.
Context (self : K unit) (Hself : keeps inv self).
#[local] Hint Resolve Hself : keeps.

Lemma kept_setup_rw_floppy : keeps inv (setup_rw_floppy self).
Proof. unfold setup_rw_floppy, if_reset, fd_get, fd_type, set_do_floppy. keeps. Qed.
#[local] Hint Resolve kept_setup_rw_floppy : keeps.
Lemma kept_transfer : keeps inv (transfer self).
Proof. unfold transfer, if_reset, fd_get, fd_type, set_do_floppy. keeps. Qed.
#[local] Hint Resolve kept_transfer : keeps.
Lemma kept_floppy_on_interrupt : keeps inv (floppy_on_interrupt self).
Proof. unfold floppy_on_interrupt, fd_get, set_selected, set_DOR. keeps. Qed.
#[local] Hint Resolve kept_floppy_on_interrupt : keeps.
Lemma kept_locate_sector q t : keeps inv (locate_sector q t).
Proof. unfold locate_sector, divl. keeps. Qed.
#[local] Hint Resolve kept_locate_sector : keeps.
Lemma kept_fd_request : keeps inv (fd_request self).
Proof. unfold fd_request, recalibrate_floppy, if_reset, fd_step, fd_type, fd_get, set_do_floppy. keeps. Qed.
End Knot.

Lemma kept_do_fd_request : keeps inv do_fd_request.
Proof. apply keeps_knot, kept_fd_request. Qed.
#[local] Hint Resolve kept_do_fd_request : keeps.
Lemma kept_floppy_interrupt : keeps inv floppy_interrupt.
Proof.
  unfold floppy_interrupt, fd_get, rw_interrupt, rw_failed, seek_interrupt, recal_interrupt, reset_interrupt,
    unexpected_floppy_interrupt, fd_get, fd_set_reset, fd_set_recalibrate.
  keeps; apply kept_setup_rw_floppy; keeps.
Qed.
Lemma kept_timer_fn f : keeps inv (timer_fn f).
Proof. unfold timer_fn. keeps; [apply kept_floppy_on_interrupt|apply kept_transfer]; keeps. Qed.

#[export] Instance drivers_keep : DriverKeeps inv.
Proof.
  split; intros x; cbn; [keeps|]. apply kept_fd_change.
Qed.
End Kept.
#[export] Hint Resolve kept_floppy_off kept_ticks kept_floppy_on kept_timer_upd kept_set_next_timer
  kept_add_timer kept_current_of kept_hd_end_request kept_insw kept_port_read kept_port_write
  kept_controller_ready kept_win_result kept_drive_busy kept_wait_drq kept_hd_out kept_reset_hd
  kept_bad_rw_intr kept_hd_command kept_do_hd_request kept_floppy_deselect kept_buffer_address
  kept_copy_to_tmp kept_copy_from_tmp kept_setup_DMA kept_output_byte kept_result kept_fd_end_request
  kept_bad_flp_intr kept_reset_floppy kept_do_fd_request : keeps.
