(* ===== verification/CacheProps.v ===== *)
(** * Properties of the buffer cache

    What [getblk] returns, in the common cases at once and in general under any
    interleaving, which buffer it takes over, and the invariant of the whole cache
    for any number of tasks. *)
From Stdlib Require Import ZArith Lia String.
From stdpp Require Import base list sets relations.
From S2P Require Import Prelude Resumption Memory KState Runs Links Sched Preserve BlkDev Buffer Types Kept CacheQueues CacheInv.

(** ** The search of the free list *)

Definition unfit (c : cache) (i : Z) : Prop := b_count (bhd c i) <> 0 \/ 0 < BADNESS (bhd c i).
Definition candidate (c : cache) (b : option Z) : Prop := forall i, b = Some i -> is_bh c i /\ 0 < BADNESS (bhd c i).

Lemma ring_adjacent nxt prv l1 y z l2 : ring nxt prv (l1 ++ y :: z :: l2) -> nxt y = Some z.
Proof.
  destruct l1 as [|a l1]; simpl; [by intros (_ & ? & _)|]. intros [_ Hs].
  apply seg_app in Hs as [_ Hs]. simpl in Hs. tauto.
Qed.

Lemma free_step_pass s l1 y z l2 b n :
  let c := k_cache s in
  ring (nf c) (pf c) (l1 ++ y :: z :: l2) -> free_list c = head (l1 ++ y :: z :: l2) ->
  is_bh c y -> unfit c y -> candidate c b ->
  exists b', free_step (y, b) n s = Done (inl (z, b')) s /\ candidate c b'.
Proof.
  intros c Hr Hf Hy Hu Hb. unfold free_step. unfold bind at 1. rewrite bh_get_run by done. cbn [obind]. fold c.
  assert (Hnx : b_next_free (bhd c y) = Some z) by exact (ring_adjacent _ _ _ _ _ _ Hr).
  assert (Hz : Some z <> free_list c).
  { rewrite Hf. assert (Hnd : NoDup (l1 ++ y :: z :: l2)) by (destruct (l1 ++ y :: z :: l2); [done|apply Hr]).
    destruct l1 as [|a l1]; simpl in *; intros [= ->].
    - apply NoDup_cons in Hnd as [Hn _]. set_solver.
    - apply NoDup_cons in Hnd as [Hn _]. set_solver. }
  assert (Hrest : forall best, (forall v, best = Some v -> v = BADNESS (bhd c y) /\ 0 < v) -> exists b', (match best with
    | Some 0 => ret (inr (Some y))
    | _ => let b := match best with Some _ => Some y | None => b end in
           let! s := get in
           let! nx := bh_ptr (b_next_free (bhd c y)) in
           if bool_decide (Some nx = free_list (k_cache s)) then ret (inr b) else ret (inl (nx, b))
    end) n s = Done (inl (z, b')) s /\ candidate c b').
  { intros best Hne. exists (match best with Some _ => Some y | None => b end). split.
    - destruct best as [[|p|p]|]; [by destruct (Hne 0 eq_refl)| | |]; unfold bind, get, bh_ptr, deref, ret; rewrite Hnx; cbn [obind];
        fold c; by rewrite bool_decide_eq_false_2.
    - destruct best as [v|]; [|done]. intros i [= <-]. destruct (Hne v eq_refl) as [<- ?]. done. }
  destruct (nz (b_count (bhd c y))) eqn:Ec; [unfold bind at 1; step_ret; by apply (Hrest None)|].
  apply nz_false in Ec. destruct Hu as [?|Hu]; [done|]. destruct b as [b|].
  - unfold bind at 1. unfold bind at 1. rewrite bh_get_run by (by apply Hb). cbn [obind]. step_ret. fold c.
    apply Hrest. intros v. destruct (_ <? _); [intros [= <-]; lia|done].
  - unfold bind at 1. step_ret. apply (Hrest (Some (BADNESS (bhd c y)))). intros v [= <-]. lia.
Qed.

Lemma free_step_hit s y b n :
  let c := k_cache s in
  is_bh c y -> b_count (bhd c y) = 0 -> BADNESS (bhd c y) = 0 -> candidate c b ->
  free_step (y, b) n s = Done (inr (Some y)) s.
Proof.
  intros c Hy Hc E Hb. unfold free_step. unfold bind at 1. rewrite bh_get_run by done. cbn [obind]. fold c.
  rewrite Hc. cbn [nz negb Z.eqb]. destruct b as [b|].
  - destruct (Hb b eq_refl) as [Bb Hlt]. unfold bind at 1. unfold bind at 1. rewrite bh_get_run by done. cbn [obind]. step_ret.
    fold c. rewrite E. by destruct (Z.ltb_spec 0 (BADNESS (bhd c b))); [|lia].
  - unfold bind at 1. step_ret. by rewrite E.
Qed.

(** The first buffer of the free list that nobody uses and that needs no waiting. *)
Lemma find_free_run s l1 x l2 n :
  let c := k_cache s in
  ring (nf c) (pf c) (l1 ++ x :: l2) -> free_list c = head (l1 ++ x :: l2) ->
  (forall y, y ∈ l1 ++ x :: l2 -> is_bh c y) -> (forall y, y ∈ l1 -> unfit c y) ->
  b_count (bhd c x) = 0 -> BADNESS (bhd c x) = 0 -> (length l1 < n)%nat ->
  find_free n s = Done (Some x) s.
Proof.
  intros c Hr Hf Hin Hun Hc Hbad Hn.
  assert (H : forall k1 k0 k y b, l1 ++ x :: l2 = k0 ++ k1 ++ x :: l2 -> l1 = k0 ++ k1 -> (length k1 < k)%nat ->
    head (k1 ++ x :: l2) = Some y -> candidate c b -> iterate k free_step (y, b) n s = Done (Some x) s).
  { induction k1 as [|a k1 IH]; intros k0 k y b E E1 Hk Hy Hb; (destruct k as [|k]; [simpl in Hk; lia|]); cbn [iterate].
    - injection Hy as <-. rewrite free_step_hit; [done|apply Hin; set_solver|done|done|done].
    - injection Hy as <-. destruct (k1 ++ x :: l2) as [|z l'] eqn:Ez; [by destruct k1|].
      assert (E' : l1 ++ x :: l2 = k0 ++ a :: z :: l') by (rewrite E; simpl; by rewrite Ez).
      destruct (free_step_pass s k0 a z l' b n) as (b' & -> & Hb').
      + by rewrite <- E'.
      + by rewrite <- E'.
      + apply Hin. rewrite E'. set_solver.
      + apply Hun. rewrite E1. set_solver.
      + done.
      + cbn [obind]. apply (IH (k0 ++ [a])); [rewrite <- app_assoc; exact E'|by rewrite <- app_assoc|simpl in Hk; lia| |done].
        done. }
  unfold find_free, bind at 1, get at 1. cbn [obind]. fold c.
  destruct (head (l1 ++ x :: l2)) as [y|] eqn:Ey; [|by destruct l1].
  rewrite Hf. unfold bind, bh_ptr, deref, loop. cbn [obind].
  by apply (H l1 []).
Qed.

(** ** getblk without sleeping *)

Lemma wait_unlocked_run bh n s :
  (0 < n)%nat -> is_bh (k_cache s) bh -> b_lock (bhd (k_cache s) bh) = 0 -> wait_on_buffer bh n s = Done tt s.
Proof.
  intros Hn Hb Hl. apply loop_once; [done|]. rewrite (bind_run _ _ _ _ _ _ (bh_get_run bh n s Hb)).
  by rewrite Hl.
Qed.

Lemma find_buffer_found dev block n s r :
  0 <= dev < 65536 -> dev <> 0 -> cache_ok (k_cache s) -> nr_buffers (k_cache s) < Z.of_nat n ->
  found (k_cache s) dev block r -> find_buffer dev block n s = Done r s.
Proof.
  intros Hd Hd0 Hok Hn Hf. pose proof (find_buffer_run dev block n s Hd Hok) as H. unfold nr_buffers in Hn.
  destruct (find_buffer dev block n s) as [r' s'| | | | |]; try done; [|lia].
  destruct H as [-> H]. f_equal. destruct r as [i|], r' as [j|]; [| | |done]; simpl in *.
  - f_equal. destruct Hf as (H1 & H2 & H3), H as (G1 & G2 & G3).
    apply (ok_unique _ Hok j i G1 H1 (fun f => f) (fun f => f)); congruence.
  - by apply H in Hf.
  - by apply Hf in H.
Qed.

Lemma get_hash_table_miss dev block n s :
  0 <= dev < 65536 -> dev <> 0 -> cache_ok (k_cache s) -> nr_buffers (k_cache s) < Z.of_nat n ->
  (forall i, ~ holds (k_cache s) dev block i) -> get_hash_table dev block n s = Done None s.
Proof.
  intros Hd Hd0 Hok Hn Hno. apply loop_once; [unfold nr_buffers in Hn; lia|].
  by rewrite (bind_run _ _ _ _ _ _ (find_buffer_found dev block n s None Hd Hd0 Hok Hn (fun _ => Hno))).
Qed.

(** A block that is in the cache and not locked is found at once: [getblk]
    returns the one buffer that holds it, counts the new user and changes nothing
    else. *)
Theorem getblk_hit (sync_inodes : K unit) {driver : Driver} (dev block i : Z) (n : nat) (s : kstate) :
  0 < dev < 65536 -> cache_ok (k_cache s) -> nr_buffers (k_cache s) < Z.of_nat n ->
  holds (k_cache s) dev block i -> b_lock (bhd (k_cache s) i) = 0 ->
  getblk sync_inodes dev block n s =
    Done i (with_cache (set_bh i (fun b => b <| b_count := u8 (b_count b + 1) |>) (k_cache s)) s) /\
  forall j, holds (k_cache s) dev block j -> j = i.
Proof.
  intros Hd Hok Hn Hi Hl. assert (Hn0 : (0 < n)%nat) by (unfold nr_buffers in Hn; lia).
  pose proof Hi as (Bi & Ei1 & Ei2). split.
  - apply loop_once; [done|]. set (s' := with_cache _ s).
    assert (E : get_hash_table dev block n s = Done (Some i) s').
    { apply loop_once; [done|].
      rewrite (bind_run _ _ _ _ _ _ (find_buffer_found dev block n s (Some i) ltac:(lia) ltac:(lia) Hok Hn Hi)).
      rewrite (bind_run _ _ _ _ _ _ (bh_upd_run i _ n s Bi)). fold s'.
      assert (Bi' : is_bh (k_cache s') i) by exact (proj2 (set_bh_is i _ (k_cache s) i) Bi).
      assert (Ei : bhd (k_cache s') i = (bhd (k_cache s) i) <| b_count := u8 (b_count (bhd (k_cache s) i) + 1) |>).
      { unfold s'. rewrite k_cache_with, bhd_set by done. by rewrite decide_True. }
      rewrite (bind_run _ _ _ _ _ _ (wait_unlocked_run i n s' Hn0 Bi' ltac:(by rewrite Ei))).
      rewrite (bind_run _ _ _ _ _ _ (bh_get_run i n s' Bi')). rewrite Ei.
      cbn [b_dev b_blocknr upd]. simpl. rewrite Ei1, Ei2, s32_small by lia. by rewrite !Z.eqb_refl. }
    by rewrite (bind_run _ _ _ _ _ _ E).
  - intros j (Bj & Ej1 & Ej2). apply (ok_unique _ Hok j i Bj Bi (fun f => f) (fun f => f)); [lia|congruence|congruence].
Qed.

(** C13. A block that is not in the cache takes over the least recently freed
    buffer that is unused, clean and unlocked, at once and without input or
    output: that buffer moves to the end of the free list, holds the block with
    one user and no valid data, and no other buffer changes its block. *)
Theorem getblk_replaces_lru (sync_inodes : K unit) {driver : Driver} (dev block x : Z) (l1 l2 : list Z)
    (n : nat) (s : kstate) :
  let c := k_cache s in
  0 < dev < 65536 -> cache_ok c -> nr_buffers c < Z.of_nat n -> (forall i, ~ holds c dev block i) ->
  free_list c = head (l1 ++ x :: l2) -> ring (nf c) (pf c) (l1 ++ x :: l2) ->
  (forall i, i ∈ l1 ++ x :: l2 <-> is_bh c i) ->
  (forall y, y ∈ l1 -> unfit c y) -> b_count (bhd c x) = 0 -> b_dirt (bhd c x) = 0 -> b_lock (bhd c x) = 0 ->
  exists s', getblk sync_inodes dev block n s = Done x s' /\ let c' := k_cache s' in
    cache_ok c' /\ holds c' dev block x /\ b_count (bhd c' x) = 1 /\ nr_buffers c' = nr_buffers c /\
    (forall i, i <> x -> b_dev (bhd c' i) = b_dev (bhd c i) /\ b_blocknr (bhd c' i) = b_blocknr (bhd c i)) /\
    free_list c' = head (l1 ++ l2) /\ ring (nf c') (pf c') (l1 ++ l2 ++ [x]).
Proof.
  intros c Hd Hok Hn Hno Hfl Hr Hm Hun Hc0 Hd0 Hl0. assert (Hn0 : (0 < n)%nat) by (unfold nr_buffers in Hn; lia).
  assert (Hx : is_bh c x) by (apply Hm; set_solver).
  assert (Hbad : BADNESS (bhd c x) = 0) by (unfold BADNESS; by rewrite Hd0, Hl0).
  destruct (rekey_run x dev block n s l1 l2 Hok Hfl Hr Hm) as (s' & E & H1 & H2 & H3 & H4 & H5 & H6 & H7).
  { rewrite u16_small by lia. done. }
  rewrite u16_small in H2 by lia. exists s'. split; [|done]. apply loop_once; [done|].
  rewrite (bind_run _ _ _ _ _ _ (get_hash_table_miss dev block n s ltac:(lia) ltac:(lia) Hok Hn Hno)).
  assert (Hl1 : (length l1 < n)%nat).
  { assert (Hnd : NoDup (l1 ++ x :: l2)) by (destruct (l1 ++ x :: l2); [done|apply Hr]).
    apply NoDup_app in Hnd as (Hnd & _ & _). assert (length l1 <= length (bhs c))%nat; [|unfold nr_buffers in Hn; fold c in Hn; lia].
    apply NoDup_bound; [done|]. intros i Hi. apply Hm. set_solver. }
  rewrite (bind_run _ _ _ _ _ _ (find_free_run s l1 x l2 n Hr Hfl ltac:(intros y Hy; by apply Hm) Hun Hc0 Hbad Hl1)).
  rewrite (bind_run _ _ _ _ _ _ (wait_unlocked_run x n s Hn0 Hx Hl0)).
  rewrite (bind_run _ _ _ _ _ _ (bh_get_run x n s Hx)). fold c. rewrite Hc0. cbn [nz negb Z.eqb].
  assert (Ec : clean_buffer sync_inodes x n s = Done true s).
  { apply loop_once; [done|]. rewrite (bind_run _ _ _ _ _ _ (bh_get_run x n s Hx)). fold c. by rewrite Hd0. }
  rewrite (bind_run _ _ _ _ _ _ Ec). cbn [negb].
  rewrite (bind_run _ _ _ _ _ _ (find_buffer_found dev block n s None ltac:(lia) ltac:(lia) Hok Hn (fun _ => Hno))).
  by rewrite (bind_run _ _ _ _ _ _ E).
Qed.

(** C9. Whatever other tasks do while it sleeps, as long as they leave the cache
    well-formed, [getblk] leaves it well-formed at every point where it gives up
    the processor and returns a buffer that holds the block asked for, which no
    other buffer holds. *)
Theorem getblk_returns_block (sync_inodes : K unit) {driver : Driver} (dev block : Z) :
  DriverKeeps cache_inv -> keeps cache_inv sync_inodes -> 0 < dev < 65536 ->
  triple any cache_inv anywhere (fun _ => True) (getblk sync_inodes dev block)
    (fun bh s => holds (k_cache s) dev block bh /\ forall i, holds (k_cache s) dev block i -> i = bh).
Proof.
  intros Hdrv Hsync Hd. eapply triple_conseq; [apply (getblk_triple sync_inodes Hsync); lia|done|].
  intros bh s Hok Hh. split; [done|]. intros i (Bi & E1 & E2). destruct Hh as (Bb & E3 & E4).
  apply (ok_unique _ Hok i bh Bi Bb (fun f => f) (fun f => f)); [lia|congruence|congruence].
Qed.

(** ** The cache at boot *)

Section Fresh.
Context (addr : Z -> Z).

Definition fresh_cache (n : Z) (c : cache) : cache :=
  c <| bhs := map (fun i => fresh_bh n (addr i) i) (zrange 0 (Z.to_nat n)) |> <| free_list := Some 0 |>
    <| hash_table := replicate (Z.to_nat NR_HASH) None |>.

Lemma fresh_bhd n c i : 0 <= i < n -> bhd (fresh_cache n c) i = fresh_bh n (addr i) i.
Proof.
  intros Hi. unfold bhd, fresh_cache, arr_get. simpl. destruct (Z.ltb_spec i 0); [lia|].
  rewrite list_lookup_fmap, zrange_lookup by lia. simpl. by replace (0 + Z.of_nat (Z.to_nat i)) with i by lia.
Qed.

Lemma fresh_size n c : 0 <= n -> nr_buffers (fresh_cache n c) = n.
Proof. intros Hn. unfold nr_buffers, fresh_cache. simpl. rewrite length_map, zrange_length. lia. Qed.

Lemma fresh_seg n c k a :
  2 <= n -> 0 <= a -> a + Z.of_nat k = n - 1 ->
  seg (nf (fresh_cache n c)) (pf (fresh_cache n c)) a (zrange (a + 1) k) 0.
Proof.
  intros Hn. revert a. induction k as [|k IH]; intros a Ha Hk; cbn [zrange seg].
  - rewrite !fresh_bhd by lia. unfold fresh_bh. cbn. split; repeat zcase; repeat f_equal; lia.
  - rewrite !fresh_bhd by lia. unfold fresh_bh. cbn [b_next_free b_prev_free].
    split; [repeat zcase; done|]. split; [|apply IH; lia].
    destruct (Z.eqb_spec (a + 1) 0); [lia|]. f_equal. lia.
Qed.

Lemma fresh_cache_ok n c : 2 <= n -> cache_ok (fresh_cache n c).
Proof.
  intros Hn. assert (B : forall i, is_bh (fresh_cache n c) i <-> 0 <= i < n) by (intros i; unfold is_bh; by rewrite fresh_size by lia).
  assert (El : zrange 0 (Z.to_nat n) = 0 :: zrange (0 + 1) (Z.to_nat n - 1)).
  { replace (Z.to_nat n) with (S (Z.to_nat n - 1)) at 1 by lia. done. }
  split; [split| |].
  - by rewrite fresh_size by lia.
  - done.
  - exists (zrange 0 (Z.to_nat n)). split; [by rewrite El|]. split.
    + rewrite El. split; [rewrite <- El; apply zrange_NoDup|]. apply fresh_seg; lia.
    + intros i. rewrite B, list_elem_of_In, zrange_elem. unfold nobody. lia.
  - intros h Hh. exists []. split; [|split; [constructor|]].
    + cbn [chain]. change (hash_head (fresh_cache n c) h) with (default None (arr_get (replicate (Z.to_nat NR_HASH) (@None Z)) h)).
      by rewrite arr_get_replicate by (unfold NR_HASH; lia).
    + intros i. rewrite B. split; [set_solver|]. intros (Hi & _ & Hd & _). by rewrite fresh_bhd in Hd.
  - intros i Hi _ _. apply B in Hi. cbv beta. by rewrite fresh_bhd.
  - intros i j Hi _ _ _ Hd. apply B in Hi. by rewrite fresh_bhd in Hd.
  - intros i Hi. apply B in Hi. by rewrite fresh_bhd.
Qed.
End Fresh.

(** [buffer_init] leaves a well-formed cache of empty, unused buffers whenever
    the memory has room for at least two of them. *)
Theorem buffer_init_ok (buffer_end : Z) (n : nat) (s : kstate) :
  2 <= NR_BUFFERS (start_buffer (k_cache s)) buffer_end ->
  exists s', buffer_init buffer_end n s = Done tt s' /\ cache_ok (k_cache s') /\
    nr_buffers (k_cache s') = NR_BUFFERS (start_buffer (k_cache s)) buffer_end /\
    forall i, is_bh (k_cache s') i -> b_dev (bhd (k_cache s') i) = 0 /\ b_count (bhd (k_cache s') i) = 0 /\
      b_dirt (bhd (k_cache s') i) = 0 /\ b_lock (bhd (k_cache s') i) = 0 /\ b_uptodate (bhd (k_cache s') i) = 0.
Proof.
  intros Hn. set (m := NR_BUFFERS _ _) in *.
  exists (with_cache (fresh_cache (fun i => default 0 (arr_get (data_blocks (start_buffer (k_cache s)) buffer_end) i)) m (k_cache s)) s). split; [done|]. rewrite k_cache_with.
  split; [by apply fresh_cache_ok|]. split; [apply fresh_size; lia|].
  intros i Hi. unfold is_bh in Hi. rewrite fresh_size in Hi by lia. by rewrite fresh_bhd.
Qed.

Lemma buffer_init_ok_witness :
  2 <= NR_BUFFERS (start_buffer (k_cache boot_k)) 0x400000 /\
  exists s', buffer_init 0x400000 1%nat boot_k = Done tt s' /\ cache_ok (k_cache s') /\
    nr_buffers (k_cache s') = NR_BUFFERS (start_buffer (k_cache boot_k)) 0x400000 /\
    forall i, is_bh (k_cache s') i -> b_dev (bhd (k_cache s') i) = 0 /\ b_count (bhd (k_cache s') i) = 0 /\
      b_dirt (bhd (k_cache s') i) = 0 /\ b_lock (bhd (k_cache s') i) = 0 /\ b_uptodate (bhd (k_cache s') i) = 0.
Proof.
  assert (H : 2 <= NR_BUFFERS (start_buffer (k_cache boot_k)) 0x400000) by (vm_compute; discriminate).
  split; [exact H|]. apply (buffer_init_ok 0x400000 1%nat boot_k H).
Defined.

(** A cache of four empty buffers, and the same after block 7 of device 0x301 has
    been asked for. *)
Definition small_k : kstate := with_cache (fresh_cache (fun i => 0x9fc00 - 1024 * i) 4 (k_cache boot_k)) boot_k.
#[local] Instance no_driver : Driver := {| start_controller := fun _ => ret tt; floppy_change := fun _ => ret 0 |}.
#[local] Instance no_driver_keeps : DriverKeeps cache_inv.
Proof. split; intros ?; apply keeps_ret. Qed.

Lemma small_ok : cache_ok (k_cache small_k).
Proof. by apply fresh_cache_ok. Qed.

Lemma small_empty dev block i : dev <> 0 -> ~ holds (k_cache small_k) dev block i.
Proof.
  intros Hd (Bi & E & _). unfold is_bh, small_k in *. rewrite k_cache_with, fresh_size in Bi by lia.
  rewrite k_cache_with, fresh_bhd in E by done. by simpl in E.
Qed.

Definition small_s : kstate :=
  match getblk (ret tt) 0x301 7 5%nat small_k with Done _ s => s | _ => small_k end.

Lemma getblk_replaces_lru_witness :
  let c := k_cache small_k in
  exists s', getblk (ret tt) 0x301 7 5%nat small_k = Done 0 s' /\ let c' := k_cache s' in
    cache_ok c' /\ holds c' 0x301 7 0 /\ b_count (bhd c' 0) = 1 /\ nr_buffers c' = nr_buffers c /\
    (forall i, i <> 0 -> b_dev (bhd c' i) = b_dev (bhd c i) /\ b_blocknr (bhd c' i) = b_blocknr (bhd c i)) /\
    free_list c' = head ([] ++ [1; 2; 3]) /\ ring (nf c') (pf c') ([] ++ [1; 2; 3] ++ [0]).
Proof.
  apply (getblk_replaces_lru (ret tt) 0x301 7 0 [] [1; 2; 3] 5%nat small_k).
  - lia.
  - exact small_ok.
  - vm_compute. reflexivity.
  - intros i. by apply small_empty.
  - reflexivity.
  - split; [apply (bool_decide_unpack _); vm_compute; exact I|vm_compute; repeat split].
  - intros i. unfold is_bh. change (nr_buffers (k_cache small_k)) with 4.
    rewrite list_elem_of_In. change ([] ++ [0; 1; 2; 3]) with (zrange 0 4). rewrite zrange_elem. lia.
  - set_solver.
  - reflexivity.
  - reflexivity.
  - reflexivity.
Defined.

Lemma small_s_ok : cache_ok (k_cache small_s) /\ holds (k_cache small_s) 0x301 7 0.
Proof.
  assert (Hm : forall i, i ∈ [] ++ 0 :: [1; 2; 3] <-> is_bh (k_cache small_k) i).
  { intros i. unfold is_bh. change (nr_buffers (k_cache small_k)) with 4.
    rewrite list_elem_of_In. change ([] ++ 0 :: [1; 2; 3]) with (zrange 0 4). rewrite zrange_elem. lia. }
  destruct (rekey_run 0 0x301 7 5%nat small_k [] [1; 2; 3]) as (s' & E & H1 & H2 & _).
  - exact small_ok.
  - reflexivity.
  - split; [apply (bool_decide_unpack _); vm_compute; exact I|vm_compute; repeat split].
  - exact Hm.
  - intros _ i. by apply small_empty.
  - pose proof (getblk_triple (ret tt) (keeps_ret tt) 0x301 7 ltac:(lia) 5%nat small_k small_ok I) as H.
    assert (E' : getblk (ret tt) 0x301 7 5%nat small_k = Done 0 small_s) by (vm_compute; reflexivity).
    rewrite E' in H. exact H.
Qed.

Lemma getblk_hit_witness :
  getblk (ret tt) 0x301 7 5%nat small_s =
    Done 0 (with_cache (set_bh 0 (fun b => b <| b_count := u8 (b_count b + 1) |>) (k_cache small_s)) small_s) /\
  forall j, holds (k_cache small_s) 0x301 7 j -> j = 0.
Proof.
  apply (getblk_hit (ret tt) 0x301 7 0 5%nat small_s).
  - lia.
  - apply small_s_ok.
  - vm_compute. reflexivity.
  - apply small_s_ok.
  - vm_compute. reflexivity.
Defined.

Lemma getblk_returns_block_witness :
  triple any cache_inv anywhere (fun _ => True) (getblk (ret tt) 0x301 7)
    (fun bh s => holds (k_cache s) 0x301 7 bh /\ forall i, holds (k_cache s) 0x301 7 i -> i = bh).
Proof.
  apply (getblk_returns_block (ret tt) 0x301 7).
  - exact no_driver_keeps.
  - apply keeps_ret.
  - lia.
Defined.
