(* ===== verification/Super.v ===== *)
(** * Locks of inodes and super blocks, and what the disk holds: fs/super.c, fs/inode.c

    The sleeping locks that guard an in-memory inode or super block, the search of
    the super-block table, and the layout of inodes, super blocks and bitmaps in a
    disk block.  [dev_of], [sdev_of] and [zone_at] read an unsigned short, a value below
    65536. *)
From Stdlib Require Import ZArith Lia String.
From stdpp Require Import base list.
From S2P Require Import Prelude Resumption Memory KState Sched BlkDev Buffer.

Definition dev_of (i : m_inode) : Z := u16 (i_dev i).
Definition sdev_of (s : super_block_t) : Z := u16 (s_dev s).

(** ** Inode locks *)

Definition wait_on_inode (inode : Z) : K unit :=
  loop (fun _ : unit =>
    let! i := ino_get inode in
    if nz (i_lock i) then sleep_on (inode_wait inode) ;;; ret (inl tt) else ret (inr tt)) tt.

Definition lock_inode (inode : Z) : K unit :=
  wait_on_inode inode ;;;
  ino_upd inode (fun i => i <| i_lock := 1 |>).

Definition unlock_inode (inode : Z) : K unit :=
  ino_upd inode (fun i => i <| i_lock := 0 |>) ;;;
  wake_up (inode_wait inode).

Definition invalidate_inodes (dev : Z) : K unit :=
  for_each (zrange 0 32) (fun inode =>
    wait_on_inode inode ;;;
    let! i := ino_get inode in
    when (i_dev i =? dev)
      (when (nz (i_count i)) (printk "inode in use on removed disk") ;;;
       ino_upd inode (fun i => i <| i_dirt := 0 |> <| i_dev := 0 |>))).

(** ** Super-block locks *)

Definition wait_on_super (sb : Z) : K unit :=
  loop (fun _ : unit =>
    let! s := sb_get sb in
    if nz (s_lock s) then sleep_on (super_wait sb) ;;; ret (inl tt) else ret (inr tt)) tt.

Definition lock_super (sb : Z) : K unit :=
  wait_on_super sb ;;;
  sb_upd sb (fun s => s <| s_lock := 1 |>).

Definition free_super (sb : Z) : K unit :=
  sb_upd sb (fun s => s <| s_lock := 0 |>) ;;;
  wake_up (super_wait sb).

Definition get_super (dev : Z) : K (option Z) :=
  if negb (nz dev) then ret None else
  loop (fun sb =>
    if NR_SUPER <=? sb then ret (inr None) else
    let! s := sb_get sb in
    if s_dev s =? dev then
      wait_on_super sb ;;;
      let! s := sb_get sb in
      if s_dev s =? dev then ret (inr (Some sb)) else ret (inl 0)
    else ret (inl (sb + 1))) 0.

(** [for (i = 0; i < I_MAP_SLOTS; i++) brelse(sb->s_imap[i])], and the same for the
    zone maps. *)
Definition map_slot (l : list (option Z)) (i : Z) : option Z := default None (arr_get l i).
Definition release_maps (sb : Z) : K unit :=
  for_each (zrange 0 8) (fun i => let! s := sb_get sb in brelse (map_slot (s_imap s) i)) ;;;
  for_each (zrange 0 8) (fun i => let! s := sb_get sb in brelse (map_slot (s_zmap s) i)).

Definition put_super (dev : Z) : K unit :=
  let! s := get in
  if dev =? ROOT_DEV (k_fs s) then printk "root diskette changed: prepare for armageddon" else
  let! r := get_super dev in
  match r with
  | None => ret tt
  | Some sb =>
      let! s := sb_get sb in
      match s_imount s with
      | Some _ => printk "Mounted disk changed - tssk, tssk"
      | None =>
          lock_super sb ;;;
          sb_upd sb (fun s => s <| s_dev := 0 |>) ;;;
          release_maps sb ;;;
          free_super sb
      end
  end.

Definition check_disk_change {driver : Driver} (dev : Z) : K unit :=
  if negb (MAJOR dev =? 2) then ret tt else
  let! changed := floppy_change (Z.land dev 0x03) in
  if negb (nz changed) then ret tt else
  for_each (zrange 0 8) (fun i =>
    let! s := sb_get i in
    when (s_dev s =? dev) (put_super (s_dev s))) ;;;
  invalidate_inodes dev ;;;
  invalidate_buffers dev.

(** ** The on-disk inode: struct d_inode, 32 bytes *)

Definition INODES_PER_BLOCK : Z := 32.
Definition d_inode_offset (nr : Z) : Z := 32 * (u32 (nr - 1) mod INODES_PER_BLOCK).

(** [*(struct d_inode * )inode = ((struct d_inode * ) bh->b_data)[...]] *)
Definition load_d_inode (d : list Z) (off : Z) (i : m_inode) : m_inode :=
  i <| i_mode := word_at d off |>
    <| i_uid := word_at d (off + 2) |>
    <| i_size := long_at d (off + 4) |>
    <| i_mtime := long_at d (off + 8) |>
    <| i_gid := byte_at d (off + 12) |>
    <| i_nlinks := byte_at d (off + 13) |>
    <| i_zone := map (fun k => word_at d (off + 14 + 2 * k)) (zrange 0 9) |>.

Definition zone_at (i : m_inode) (k : Z) : Z := u16 (default 0 (arr_get (i_zone i) k)).
Definition store_zones (d : list Z) (off : Z) (i : m_inode) : list Z :=
  fold_left (fun d k => set_word d (off + 2 * k) (zone_at i k)) (zrange 0 9) d.

(** The assignment in the other direction. *)
Definition store_d_inode (d : list Z) (off : Z) (i : m_inode) : list Z :=
  let d := set_word d off (i_mode i) in
  let d := set_word d (off + 2) (i_uid i) in
  let d := set_long d (off + 4) (i_size i) in
  let d := set_long d (off + 8) (i_mtime i) in
  let d := set_byte d (off + 12) (i_gid i) in
  let d := set_byte d (off + 13) (i_nlinks i) in
  store_zones d (off + 14) i.

(** ** The on-disk super block: struct d_super_block *)

Definition load_d_super (d : list Z) (s : super_block_t) : super_block_t :=
  s <| s_ninodes := word_at d 0 |>
    <| s_nzones := word_at d 2 |>
    <| s_imap_blocks := word_at d 4 |>
    <| s_zmap_blocks := word_at d 6 |>
    <| s_firstdatazone := word_at d 8 |>
    <| s_log_zone_size := word_at d 10 |>
    <| s_max_size := long_at d 12 |>
    <| s_magic := word_at d 16 |>.

(** ** Bitmaps: the macros of fs/bitmap.c *)

Definition bit_at (d : list Z) (nr : Z) : bool := Z.testbit (byte_at d (Z.shiftr nr 3)) (Z.land nr 7).

(** [btsl]/[setb] and [btrl]/[setnb]: the new block and the answer. *)
Definition set_bit (nr : Z) (d : list Z) : list Z * Z :=
  (set_byte d (Z.shiftr nr 3) (Z.lor (byte_at d (Z.shiftr nr 3)) (Z.shiftl 1 (Z.land nr 7))),
   b2z (bit_at d nr)).
Definition clear_bit (nr : Z) (d : list Z) : list Z * Z :=
  (set_byte d (Z.shiftr nr 3) (Z.ldiff (byte_at d (Z.shiftr nr 3)) (Z.shiftl 1 (Z.land nr 7))),
   b2z (negb (bit_at d nr))).

(** [bsfl]: the lowest set bit of a 32-bit word. *)
Fixpoint bsf_from (k : nat) (i x : Z) : option Z :=
  match k with
  | O => None
  | S k' => if Z.testbit x i then Some i else bsf_from k' (i + 1) x
  end.
Definition bsfl (x : Z) : option Z := bsf_from 32 0 x.

(** The loop of [find_first_zero]: [lodsl; notl; bsfl], 32 bits at a time. *)
Fixpoint ffz_words (k : nat) (d : list Z) (ecx : Z) : Z :=
  match k with
  | O => ecx
  | S k' =>
      match bsfl (u32 (Z.lnot (long_at d (Z.shiftr ecx 3)))) with
      | Some edx => ecx + edx
      | None => if ecx + 32 <? 8192 then ffz_words k' d (ecx + 32) else ecx + 32
      end
  end.
Definition find_first_zero (d : list Z) : Z := ffz_words 256 d 0.

(** [clear_block]: 256 zero longs. *)
Definition clear_block : list Z := replicate 1024 0.

(** A bitmap macro applied to a buffer's data; [*addr |= 1] on its first byte. *)
Definition on_data (bh : Z) (f : list Z -> list Z * Z) : K Z :=
  let! b := bh_get bh in
  let (d, r) := f (b_data b) in
  bh_upd bh (fun b => b <| b_data := d |>) ;;;
  ret r.
