(* ===== verification/Inode.v ===== *)
(** * Inodes, their blocks and the disk bitmaps: fs/inode.c, fs/bitmap.c, fs/truncate.c

    Writing back an inode reads a block, reading a block may write back dirty
    buffers and inodes: [sync_inodes] is the knot of that recursion.  A pointer to
    an inode is its index in [inode_table], [None] is NULL. *)
From Stdlib Require Import ZArith Lia String.
From stdpp Require Import base list.
From S2P Require Import Prelude Resumption Memory KState Sched BlkDev Buffer Super.

(** File types: include/sys/stat.h. *)
Definition S_IFMT : Z := 0xF000.
Definition S_IFREG : Z := 0x8000.
Definition S_IFBLK : Z := 0x6000.
Definition S_IFDIR : Z := 0x4000.
Definition S_IFCHR : Z := 0x2000.
Definition S_IFIFO : Z := 0x1000.
Definition S_ISUID : Z := 0x800.
Definition S_ISGID : Z := 0x400.
Definition S_ISVTX : Z := 0x200.
Definition S_ISREG (m : Z) : bool := Z.land m S_IFMT =? S_IFREG.
Definition S_ISDIR (m : Z) : bool := Z.land m S_IFMT =? S_IFDIR.
Definition S_ISCHR (m : Z) : bool := Z.land m S_IFMT =? S_IFCHR.
Definition S_ISBLK (m : Z) : bool := Z.land m S_IFMT =? S_IFBLK.
Definition S_ISFIFO (m : Z) : bool := Z.land m S_IFMT =? S_IFIFO.

(** The disk block that holds inode [i] of the file system of [s]. *)
Definition inode_block (s : super_block_t) (i : m_inode) : Z :=
  s32 (2 + s_imap_blocks s + s_zmap_blocks s + u32 (i_num i - 1) / INODES_PER_BLOCK).

(** [*(struct d_inode * )inode] to or from the block in [bh]. *)
Definition copy_to_block (inode bh : Z) : K unit :=
  let! i := ino_get inode in
  bh_upd bh (fun b => b <| b_data := store_d_inode (b_data b) (d_inode_offset (i_num i)) i |>).
Definition copy_from_block (inode bh : Z) : K unit :=
  let! b := bh_get bh in
  ino_upd inode (fun i => load_d_inode (b_data b) (d_inode_offset (i_num i)) i).

Section Inodes.
Context {driver : Driver}.

(** ** Writing back *)

Section Writing.
Context (bread : Z -> Z -> K (option Z)).

Definition write_inode_with (inode : Z) : K unit :=
  lock_inode inode ;;;
  let! i := ino_get inode in
  if negb (nz (i_dirt i)) || negb (nz (i_dev i)) then unlock_inode inode else
  let! r := get_super (i_dev i) in
  match r with
  | None => panic "trying to write inode without device"
  | Some sb =>
      let! s := sb_get sb in
      let! i := ino_get inode in
      let! r := bread (dev_of i) (inode_block s i) in
      match r with
      | None => panic "unable to read i-node block"
      | Some bh =>
          copy_to_block inode bh ;;;
          bh_upd bh (fun b => b <| b_dirt := 1 |>) ;;;
          ino_upd inode (fun i => i <| i_dirt := 0 |>) ;;;
          brelse (Some bh) ;;;
          unlock_inode inode
      end
  end.

Definition sync_inodes_with : K unit :=
  for_each (zrange 0 32) (fun inode =>
    wait_on_inode inode ;;;
    let! i := ino_get inode in
    when (nz (i_dirt i) && negb (nz (i_pipe i))) (write_inode_with inode)).
End Writing.

Definition sync_inodes : K unit := knot (fun si => sync_inodes_with (Buffer.bread si)).

(** buffer.c, with the recursion tied. *)
Abbreviation getblk := (Buffer.getblk sync_inodes).
Abbreviation bread := (Buffer.bread sync_inodes).
Abbreviation breada := (Buffer.breada sync_inodes).
Abbreviation bread_page := (Buffer.bread_page sync_inodes).
Abbreviation sync_dev := (Buffer.sync_dev sync_inodes).
Abbreviation sys_sync := (Buffer.sys_sync sync_inodes).

Definition write_inode : Z -> K unit := write_inode_with bread.

Definition read_inode (inode : Z) : K unit :=
  lock_inode inode ;;;
  let! i := ino_get inode in
  let! r := get_super (i_dev i) in
  match r with
  | None => panic "trying to read inode without dev"
  | Some sb =>
      let! s := sb_get sb in
      let! i := ino_get inode in
      let! r := bread (dev_of i) (inode_block s i) in
      match r with
      | None => panic "unable to read i-node block"
      | Some bh =>
          copy_from_block inode bh ;;;
          brelse (Some bh) ;;;
          unlock_inode inode
      end
  end.

(** ** The bitmaps: fs/bitmap.c *)

Definition free_block (dev block : Z) : K unit :=
  let! r := get_super dev in
  match r with
  | None => panic "trying to free block on nonexistent device"
  | Some sb =>
      let! s := sb_get sb in
      if (block <? s_firstdatazone s) || (s_nzones s <=? block)
      then panic "trying to free block not in datazone" else
      let! r := get_hash_table dev block in
      let! go := match r with
        | None => ret true
        | Some bh =>
            let! b := bh_get bh in
            if negb (b_count b =? 1) then printk "trying to free block" ;;; ret false else
            bh_upd bh (fun b => b <| b_dirt := 0 |>) ;;;
            bh_upd bh (fun b => b <| b_uptodate := 0 |>) ;;;
            brelse (Some bh) ;;;
            ret true
        end in
      if negb go then ret tt else
      let! s := sb_get sb in
      let block := block - (s_firstdatazone s - 1) in
      let! bh := bh_ptr (map_slot (s_zmap s) (block / 8192)) in
      let! cleared := on_data bh (clear_bit (Z.land block 8191)) in
      if nz cleared then panic "free_block: bit already cleared" else
      bh_upd bh (fun b => b <| b_dirt := 1 |>)
  end.

(** The first map block with a zero bit: its number, its buffer and the bit. *)
Definition scan_map (map : list (option Z)) : K (option (Z * Z * Z)) :=
  for_break (zrange 0 8) (fun i =>
    match map_slot map i with
    | None => ret None
    | Some bh =>
        let! b := bh_get bh in
        let j := find_first_zero (b_data b) in
        ret (if j <? 8192 then Some (i, bh, j) else None)
    end).

Definition new_block (dev : Z) : K Z :=
  let! r := get_super dev in
  match r with
  | None => panic "trying to get new block from nonexistant device"
  | Some sb =>
      let! s := sb_get sb in
      let! r := scan_map (s_zmap s) in
      match r with
      | None => ret 0
      | Some (i, bh, j) =>
          let! old := on_data bh (set_bit j) in
          if nz old then panic "new_block: bit already set" else
          bh_upd bh (fun b => b <| b_dirt := 1 |>) ;;;
          let j := j + (i * 8192 + s_firstdatazone s - 1) in
          if s_nzones s <=? j then ret 0 else
          let! bh := getblk dev j in
          let! b := bh_get bh in
          if negb (b_count b =? 1) then panic "new block: count is != 1" else
          bh_upd bh (fun b => b <| b_data := clear_block |>) ;;;
          bh_upd bh (fun b => b <| b_uptodate := 1 |>) ;;;
          bh_upd bh (fun b => b <| b_dirt := 1 |>) ;;;
          brelse (Some bh) ;;;
          ret j
      end
  end.

(** [memset(inode,0,sizeof( *inode))] *)
Definition zero_inode (inode : Z) : K unit := ino_upd inode (fun _ => blank_inode).

Definition free_inode (p : option Z) : K unit :=
  match p with
  | None => ret tt
  | Some inode =>
      let! i := ino_get inode in
      if negb (nz (i_dev i)) then zero_inode inode else
      if 1 <? i_count i then printk "trying to free inode with count" ;;; panic "free_inode" else
      if nz (i_nlinks i) then panic "trying to free inode with links" else
      let! r := get_super (i_dev i) in
      match r with
      | None => panic "trying to free inode on nonexistent device"
      | Some sb =>
          let! i := ino_get inode in
          let! s := sb_get sb in
          if (i_num i <? 1) || (s_ninodes s <? i_num i) then panic "trying to free inode 0 or nonexistant inode" else
          match map_slot (s_imap s) (Z.shiftr (i_num i) 13) with
          | None => panic "nonexistent imap in superblock"
          | Some bh =>
              let! cleared := on_data bh (clear_bit (Z.land (i_num i) 8191)) in
              when (nz cleared) (printk "free_inode: bit already cleared.") ;;;
              bh_upd bh (fun b => b <| b_dirt := 1 |>) ;;;
              zero_inode inode
          end
      end
  end.

(** ** The blocks of a file *)

Definition set_zone (k v : Z) (i : m_inode) : m_inode := i <| i_zone ::= fun l => arr_set l k (u16 v) |>.

(** [if (create && !inode->i_zone[k]) if ((inode->i_zone[k] = new_block(...)))] *)
Definition alloc_zone (inode k : Z) (create : bool) : K unit :=
  let! i := ino_get inode in
  when (create && negb (nz (zone_at i k)))
    (let! b := new_block (dev_of i) in
     ino_upd inode (set_zone k b) ;;;
     let! s := get in
     when (nz (u16 b))
       (ino_upd inode (fun i => i <| i_ctime := u32 (CURRENT_TIME s) |> <| i_dirt := 1 |>))).

(** Entry [idx] of the indirect block [blk], allocated on demand; 0 when the block
    cannot be read. *)
Definition indirect (inode blk idx : Z) (create : bool) : K Z :=
  let! i := ino_get inode in
  let! r := bread (dev_of i) blk in
  match r with
  | None => ret 0
  | Some bh =>
      let! b := bh_get bh in
      let e := word_at (b_data b) (2 * idx) in
      let! e := (if create && negb (nz e) then
          let! i := ino_get inode in
          let! e := new_block (dev_of i) in
          when (nz e)
            (bh_upd bh (fun b => b <| b_data ::= fun d => set_word d (2 * idx) e |>) ;;;
             bh_upd bh (fun b => b <| b_dirt := 1 |>)) ;;;
          ret e
        else ret e) in
      brelse (Some bh) ;;;
      ret e
  end.

Definition _bmap (inode block : Z) (create : bool) : K Z :=
  if block <? 0 then panic "_bmap: block<0" else
  if 7 + 512 + 512 * 512 <=? block then panic "_bmap: block>big" else
  if block <? 7 then
    alloc_zone inode block create ;;;
    let! i := ino_get inode in
    ret (zone_at i block)
  else
  let block := block - 7 in
  if block <? 512 then
    alloc_zone inode 7 create ;;;
    let! i := ino_get inode in
    if negb (nz (zone_at i 7)) then ret 0 else
    indirect inode (zone_at i 7) block create
  else
  let block := block - 512 in
  alloc_zone inode 8 create ;;;
  let! i := ino_get inode in
  if negb (nz (zone_at i 8)) then ret 0 else
  let! e := indirect inode (zone_at i 8) (Z.shiftr block 9) create in
  if negb (nz e) then ret 0 else
  indirect inode e (Z.land block 511) create.

Definition bmap (inode block : Z) : K Z := _bmap inode block false.
Definition create_block (inode block : Z) : K Z := _bmap inode block true.

(** ** Truncation: fs/truncate.c *)

(** Free what the 512 entries of an indirect block point to. *)
Definition free_entries (bh : Z) (free : Z -> K unit) : K unit :=
  for_each (zrange 0 512) (fun k =>
    let! b := bh_get bh in
    let e := word_at (b_data b) (2 * k) in
    when (nz e) (free e)).

Definition free_indirect (free : Z -> K unit) (dev block : Z) : K unit :=
  if negb (nz block) then ret tt else
  let! r := bread dev block in
  (match r with
   | Some bh => free_entries bh free ;;; brelse (Some bh)
   | None => ret tt
   end) ;;;
  free_block dev block.

Definition free_ind (dev block : Z) : K unit := free_indirect (free_block dev) dev block.
Definition free_dind (dev block : Z) : K unit := free_indirect (free_ind dev) dev block.

Definition truncate (inode : Z) : K unit :=
  let! i := ino_get inode in
  if negb (S_ISREG (i_mode i) || S_ISDIR (i_mode i)) then ret tt else
  for_each (zrange 0 7) (fun k =>
    let! i := ino_get inode in
    when (nz (zone_at i k))
      (free_block (dev_of i) (zone_at i k) ;;;
       ino_upd inode (set_zone k 0))) ;;;
  let! i := ino_get inode in
  free_ind (dev_of i) (zone_at i 7) ;;;
  let! i := ino_get inode in
  free_dind (dev_of i) (zone_at i 8) ;;;
  ino_upd inode (fun i => set_zone 7 0 (set_zone 8 0 i)) ;;;
  let! s := get in
  ino_upd inode (fun i => i <| i_size := 0 |> <| i_dirt := 1 |>
    <| i_ctime := u32 (CURRENT_TIME s) |> <| i_mtime := u32 (CURRENT_TIME s) |>).

(** ** Holding and releasing inodes *)

Definition set_count (f : Z -> Z) (i : m_inode) : m_inode := i <| i_count ::= fun c => u16 (f c) |>.
Definition drop_ref (inode : Z) : K unit := ino_upd inode (set_count (fun c => c - 1)).

Definition iput (p : option Z) : K unit :=
  match p with
  | None => ret tt
  | Some inode =>
      wait_on_inode inode ;;;
      let! i := ino_get inode in
      if negb (nz (i_count i)) then panic "iput: trying to free free inode" else
      if nz (i_pipe i) then
        wake_up (inode_wait inode) ;;;
        drop_ref inode ;;;
        let! i := ino_get inode in
        if nz (i_count i) then ret tt else
        on_mm (free_page (i_size i)) ;;;
        ino_upd inode (fun i => i <| i_count := 0 |> <| i_dirt := 0 |> <| i_pipe := 0 |>)
      else if negb (nz (i_dev i)) then drop_ref inode
      else
        when (S_ISBLK (i_mode i))
          (sync_dev (zone_at i 0) ;;; wait_on_inode inode) ;;;
        loop (fun _ : unit =>
          let! i := ino_get inode in
          if 1 <? i_count i then drop_ref inode ;;; ret (inr tt) else
          if negb (nz (i_nlinks i)) then truncate inode ;;; free_inode (Some inode) ;;; ret (inr tt) else
          if nz (i_dirt i) then write_inode inode ;;; wait_on_inode inode ;;; ret (inl tt) else
          drop_ref inode ;;; ret (inr tt)) tt
  end.

(** The search for an unused inode, from the one after the last found on; a clean
    unlocked one ends it. *)
Definition set_last_inode (k : Z) : K unit := modify (fun s => s <| k_fs ::= fun f => f <| last_inode := k |> |>).
Definition find_empty : K (option Z) :=
  loop (fun '(i, inode) =>
    if negb (nz i) then ret (inr inode) else
    let! s := get in
    let l := last_inode (k_fs s) + 1 in
    let l := if NR_INODE <=? l then 0 else l in
    set_last_inode l ;;;
    let! x := ino_get l in
    if nz (i_count x) then ret (inl (i - 1, inode)) else
    if negb (nz (i_dirt x)) && negb (nz (i_lock x)) then ret (inr (Some l)) else ret (inl (i - 1, Some l)))
    (NR_INODE, None).

Definition get_empty_inode : K Z :=
  let! inode := loop (fun _ : unit =>
    let! r := find_empty in
    match r with
    | None => panic "No free inodes in mem"
    | Some inode =>
        wait_on_inode inode ;;;
        loop (fun _ : unit =>
          let! i := ino_get inode in
          if nz (i_dirt i) then write_inode inode ;;; wait_on_inode inode ;;; ret (inl tt) else ret (inr tt)) tt ;;;
        let! i := ino_get inode in
        ret (if nz (i_count i) then inl tt else inr inode)
    end) tt in
  zero_inode inode ;;;
  ino_upd inode (fun i => i <| i_count := 1 |>) ;;;
  ret inode.

Definition get_pipe_inode : K (option Z) :=
  let! inode := get_empty_inode in
  let! page := on_mm get_free_page in
  ino_upd inode (fun i => i <| i_size := u32 page |>) ;;;
  if negb (nz (u32 page)) then ino_upd inode (fun i => i <| i_count := 0 |>) ;;; ret None else
  ino_upd inode (fun i => i <| i_count := 2 |>) ;;;
  ino_upd inode (fun i => set_zone 0 0 (set_zone 1 0 i)) ;;;
  ino_upd inode (fun i => i <| i_pipe := 1 |>) ;;;
  ret (Some inode).

(** The super block mounted on [inode]. *)
Definition mounted_on (inode : Z) : K (option Z) :=
  for_break (zrange 0 8) (fun i =>
    let! s := sb_get i in
    ret (if bool_decide (s_imount s = Some inode) then Some i else None)).

Definition iget (dev nr : Z) : K Z :=
  if negb (nz dev) then panic "iget with dev==0" else
  let! empty := get_empty_inode in
  let! r := loop (fun '(dev, nr, inode) =>
    if NR_INODE <=? inode then ret (inr (inl (dev, nr))) else
    let! i := ino_get inode in
    if negb (i_dev i =? dev) || negb (i_num i =? nr) then ret (inl (dev, nr, inode + 1)) else
    wait_on_inode inode ;;;
    let! i := ino_get inode in
    if negb (i_dev i =? dev) || negb (i_num i =? nr) then ret (inl (dev, nr, 0)) else
    ino_upd inode (set_count (fun c => c + 1)) ;;;
    let! i := ino_get inode in
    if nz (i_mount i) then
      let! m := mounted_on inode in
      match m with
      | None =>
          printk "Mounted inode hasn't got sb" ;;;
          iput (Some empty) ;;;
          ret (inr (inr inode))
      | Some k =>
          iput (Some inode) ;;;
          let! s := sb_get k in
          ret (inl (sdev_of s, ROOT_INO, 0))
      end
    else iput (Some empty) ;;; ret (inr (inr inode))) (dev, nr, 0) in
  match r with
  | inr inode => ret inode
  | inl (dev, nr) =>
      ino_upd empty (fun i => i <| i_dev := u16 dev |>) ;;;
      ino_upd empty (fun i => i <| i_num := u16 nr |>) ;;;
      read_inode empty ;;;
      ret empty
  end.

Definition new_inode (dev : Z) : K (option Z) :=
  let! inode := get_empty_inode in
  let! r := get_super dev in
  match r with
  | None => panic "new_inode with unknown device"
  | Some sb =>
      let! s := sb_get sb in
      let! r := scan_map (s_imap s) in
      match r with
      | None => iput (Some inode) ;;; ret None
      | Some (i, bh, j) =>
          if s_ninodes s <? j + i * 8192 then iput (Some inode) ;;; ret None else
          let! old := on_data bh (set_bit j) in
          if nz old then panic "new_inode: bit already set" else
          bh_upd bh (fun b => b <| b_dirt := 1 |>) ;;;
          let! c := cur in
          let! s := get in
          ino_upd inode (fun x => x <| i_count := 1 |> <| i_nlinks := 1 |> <| i_dev := u16 dev |>
            <| i_uid := euid c |> <| i_gid := u8 (egid c) |> <| i_dirt := 1 |> <| i_num := u16 (j + i * 8192) |>
            <| i_ctime := u32 (CURRENT_TIME s) |> <| i_atime := u32 (CURRENT_TIME s) |>
            <| i_mtime := u32 (CURRENT_TIME s) |>) ;;;
          ret (Some inode)
      end
  end.
End Inodes.

Abbreviation getblk := (Buffer.getblk sync_inodes).
Abbreviation bread := (Buffer.bread sync_inodes).
Abbreviation breada := (Buffer.breada sync_inodes).
Abbreviation bread_page := (Buffer.bread_page sync_inodes).
Abbreviation sync_dev := (Buffer.sync_dev sync_inodes).
Abbreviation sys_sync := (Buffer.sys_sync sync_inodes).
