(* ===== verification/BlockProps.v ===== *)
(** * What is in a block: disk inodes and bitmaps

    Bytes, words and longs of a block's data; the array of disk inodes, each read back
    as it was written, without disturbing its neighbours; the bitmap macros of
    fs/bitmap.c against the list of the bits. *)
From Stdlib Require Import ZArith Lia String.
From stdpp Require Import base list.
From S2P Require Import Prelude Resumption Memory KState BlkDev Buffer Super Inode.

(** ** Bytes, words and longs *)

Section Data.
Context (d : list Z).

Lemma set_byte_size i v : length (set_byte d i v) = length d.
Proof. apply arr_set_length. Qed.

Lemma byte_set_eq i v : 0 <= i < Z.of_nat (length d) -> byte_at (set_byte d i v) i = u8 v.
Proof. intros Hi. unfold byte_at, set_byte. by rewrite arr_get_set_eq. Qed.
Lemma byte_set_ne i j v : i <> j -> byte_at (set_byte d i v) j = byte_at d j.
Proof. intros Hi. unfold byte_at, set_byte. by rewrite arr_get_set_ne. Qed.
End Data.

Section Words.
Context (d : list Z).

Lemma set_word_size i v : length (set_word d i v) = length d.
Proof. unfold set_word. by rewrite !set_byte_size. Qed.
Lemma byte_word_ne i j v : j < i \/ i + 1 < j -> byte_at (set_word d i v) j = byte_at d j.
Proof. intros H. unfold set_word. by rewrite !byte_set_ne by lia. Qed.
Lemma word_byte_ne i j v : i < j \/ j + 1 < i -> word_at (set_byte d i v) j = word_at d j.
Proof. intros H. unfold word_at. by rewrite !byte_set_ne by lia. Qed.
Lemma word_set_ne i j v : j + 1 < i \/ i + 1 < j -> word_at (set_word d i v) j = word_at d j.
Proof. intros H. unfold word_at. by rewrite !byte_word_ne by lia. Qed.

Lemma u16_bytes v : u8 v + 256 * u8 (Z.shiftr v 8) = u16 v.
Proof.
  unfold u8, u16. rewrite Z.shiftr_div_pow2 by lia. change (2 ^ 8) with 256.
  Z.to_euclidean_division_equations. lia.
Qed.
Lemma u32_words v : u16 v + 65536 * u16 (Z.shiftr v 16) = u32 v.
Proof.
  unfold u16, u32. rewrite Z.shiftr_div_pow2 by lia. change (2 ^ 16) with 65536.
  Z.to_euclidean_division_equations. lia.
Qed.

Lemma word_set_eq i v : 0 <= i -> i + 1 < Z.of_nat (length d) -> word_at (set_word d i v) i = u16 v.
Proof.
  intros H1 H2. unfold word_at, set_word. rewrite byte_set_ne by lia.
  rewrite !byte_set_eq by (rewrite ?set_byte_size; lia). apply u16_bytes.
Qed.
End Words.

Section Longs.
Context (d : list Z).

Lemma set_long_size i v : length (set_long d i v) = length d.
Proof. unfold set_long. by rewrite !set_word_size. Qed.
Lemma byte_long_ne i j v : j < i \/ i + 3 < j -> byte_at (set_long d i v) j = byte_at d j.
Proof. intros H. unfold set_long. by rewrite !byte_word_ne by lia. Qed.
Lemma word_long_ne i j v : j + 1 < i \/ i + 3 < j -> word_at (set_long d i v) j = word_at d j.
Proof. intros H. unfold set_long. by rewrite !word_set_ne by lia. Qed.
Lemma long_byte_ne i j v : i < j \/ j + 3 < i -> long_at (set_byte d i v) j = long_at d j.
Proof. intros H. unfold long_at. by rewrite !word_byte_ne by lia. Qed.
Lemma long_word_ne i j v : j + 3 < i \/ i + 1 < j -> long_at (set_word d i v) j = long_at d j.
Proof. intros H. unfold long_at. by rewrite !word_set_ne by lia. Qed.
Lemma long_set_ne i j v : j + 3 < i \/ i + 3 < j -> long_at (set_long d i v) j = long_at d j.
Proof. intros H. unfold long_at. by rewrite !word_long_ne by lia. Qed.
Lemma long_set_eq i v : 0 <= i -> i + 3 < Z.of_nat (length d) -> long_at (set_long d i v) i = u32 v.
Proof.
  intros H1 H2. unfold long_at, set_long. rewrite word_set_ne by lia.
  rewrite !word_set_eq by (rewrite ?set_word_size; lia). apply u32_words.
Qed.
End Longs.

(** The sizes first, then the reads past the writes beside them. *)
Create HintDb block.
#[export] Hint Rewrite set_byte_size set_word_size set_long_size : block.
Ltac block_lia := autorewrite with block; lia.
Ltac reads := repeat first
  [ rewrite byte_set_eq by block_lia | rewrite word_set_eq by block_lia | rewrite long_set_eq by block_lia
  | rewrite byte_set_ne by lia | rewrite byte_word_ne by lia | rewrite byte_long_ne by lia
  | rewrite word_byte_ne by lia | rewrite word_set_ne by lia | rewrite word_long_ne by lia
  | rewrite long_byte_ne by lia | rewrite long_word_ne by lia | rewrite long_set_ne by lia ].

(** ** The zones of a disk inode *)

Definition store_words (f : Z -> Z) (off : Z) (l : list Z) (d : list Z) : list Z :=
  fold_left (fun d k => set_word d (off + 2 * k) (f k)) l d.

Lemma store_words_cons f off k l d : store_words f off (k :: l) d = store_words f off l (set_word d (off + 2 * k) (f k)).
Proof. done. Qed.

Lemma store_words_size f off l d : length (store_words f off l d) = length d.
Proof. revert d. induction l as [|k l IH]; intros d; [done|]. rewrite store_words_cons, IH. apply set_word_size. Qed.

Lemma store_words_byte f off n d lo j :
  j < off + 2 * lo \/ off + 2 * (lo + Z.of_nat n) <= j -> byte_at (store_words f off (zrange lo n) d) j = byte_at d j.
Proof.
  revert d lo. induction n as [|n IH]; intros d lo Hj; cbn [zrange]; [done|].
  rewrite store_words_cons, IH by lia. apply byte_word_ne. lia.
Qed.

Lemma store_words_word f off n d lo k :
  0 <= off -> 0 <= lo <= k -> k < lo + Z.of_nat n -> off + 2 * (lo + Z.of_nat n) <= Z.of_nat (length d) ->
  word_at (store_words f off (zrange lo n) d) (off + 2 * k) = u16 (f k).
Proof.
  intros Ho. revert d lo. induction n as [|n IH]; intros d lo Hlo Hk Hd; [lia|].
  cbn [zrange]. rewrite store_words_cons. destruct (decide (k = lo)) as [->|Hne].
  - unfold word_at. rewrite !store_words_byte by lia. apply word_set_eq; lia.
  - apply IH; [lia|lia|]. rewrite set_word_size. lia.
Qed.

Lemma store_zones_words d off i : store_zones d off i = store_words (zone_at i) off (zrange 0 9) d.
Proof. done. Qed.

(** ** The disk inode *)

(** The part of an inode that the disk keeps, at the width of its fields. *)
Definition disk_image (i j : m_inode) : m_inode :=
  j <| i_mode := u16 (i_mode i) |> <| i_uid := u16 (i_uid i) |> <| i_size := u32 (i_size i) |>
    <| i_mtime := u32 (i_mtime i) |> <| i_gid := u8 (i_gid i) |> <| i_nlinks := u8 (i_nlinks i) |>
    <| i_zone := map (zone_at i) (zrange 0 9) |>.

Definition d_fields (d : list Z) (off : Z) (i : m_inode) : list Z :=
  set_byte (set_byte (set_long (set_long (set_word (set_word d off (i_mode i)) (off + 2) (i_uid i)) (off + 4) (i_size i))
    (off + 8) (i_mtime i)) (off + 12) (i_gid i)) (off + 13) (i_nlinks i).

Lemma store_d_inode_byte d off i j : j < off \/ off + 32 <= j -> byte_at (store_d_inode d off i) j = byte_at d j.
Proof.
  intros Hj. change (store_d_inode d off i) with (store_zones (d_fields d off i) (off + 14) i).
  rewrite store_zones_words, store_words_byte by lia. unfold d_fields. by reads.
Qed.

Lemma load_store_same d off i j :
  0 <= off -> off + 32 <= Z.of_nat (length d) -> load_d_inode (store_d_inode d off i) off j = disk_image i j.
Proof.
  intros Ho Hd. change (store_d_inode d off i) with (store_zones (d_fields d off i) (off + 14) i).
  assert (Hl : length (d_fields d off i) = length d) by (unfold d_fields; by autorewrite with block).
  set (d' := store_zones _ _ _).
  assert (Hb : forall k, k < off + 14 -> byte_at d' k = byte_at (d_fields d off i) k).
  { intros k Hk. unfold d'. rewrite store_zones_words. apply store_words_byte. lia. }
  assert (Hw : forall k, k + 1 < off + 14 -> word_at d' k = word_at (d_fields d off i) k).
  { intros k Hk. unfold word_at. by rewrite !Hb by lia. }
  assert (Hlg : forall k, k + 3 < off + 14 -> long_at d' k = long_at (d_fields d off i) k).
  { intros k Hk. unfold long_at. by rewrite !Hw by lia. }
  assert (Hz : map (fun k => word_at d' (off + 14 + 2 * k)) (zrange 0 9) = map (zone_at i) (zrange 0 9)).
  { apply map_ext_in. intros k Hk%zrange_elem. unfold d'. rewrite store_zones_words, store_words_word by (rewrite ?Hl; lia).
    apply u16_small, u16_range. }
  unfold load_d_inode, disk_image. rewrite Hz, !Hw, !Hlg, !Hb by lia. unfold d_fields. by reads.
Qed.

Lemma load_d_inode_ext d d' off j :
  (forall k, off <= k < off + 32 -> byte_at d' k = byte_at d k) -> load_d_inode d' off j = load_d_inode d off j.
Proof.
  intros H. assert (Hw : forall k, off <= k -> k + 1 < off + 32 -> word_at d' k = word_at d k).
  { intros k H1 H2. unfold word_at. by rewrite !H by lia. }
  assert (Hl : forall k, off <= k -> k + 3 < off + 32 -> long_at d' k = long_at d k).
  { intros k H1 H2. unfold long_at. by rewrite !Hw by lia. }
  assert (Hz : map (fun k => word_at d' (off + 14 + 2 * k)) (zrange 0 9) = map (fun k => word_at d (off + 14 + 2 * k)) (zrange 0 9)).
  { apply map_ext_in. intros k Hk%zrange_elem. apply Hw; lia. }
  unfold load_d_inode. by rewrite Hz, !Hw, !Hl, !H by lia.
Qed.

(** The inode table is an array: where an inode is, in bytes from the first block behind
    the bitmaps, says its number. *)
Lemma inode_table_layout sb i :
  0 <= s_imap_blocks sb < 65536 -> 0 <= s_zmap_blocks sb < 65536 -> 1 <= i_num i < 65536 ->
  1024 * (inode_block sb i - (2 + s_imap_blocks sb + s_zmap_blocks sb)) + d_inode_offset (i_num i) = 32 * (i_num i - 1) /\
  0 <= d_inode_offset (i_num i) /\ d_inode_offset (i_num i) + 32 <= 1024 /\ d_inode_offset (i_num i) mod 32 = 0.
Proof.
  intros H1 H2 Hn. unfold inode_block, d_inode_offset, INODES_PER_BLOCK. rewrite u32_small by lia.
  assert (0 <= (i_num i - 1) / 32 < 2048) by (Z.div_mod_to_equations; lia).
  rewrite s32_small by lia. rewrite (Z.mul_comm 32 ((i_num i - 1) mod 32)), Z.mod_mul by lia.
  Z.div_mod_to_equations. lia.
Qed.

(** C26. The inodes of a file system are an array of 32-byte entries from the first block
    behind the bitmaps on, in the order of their numbers; an inode written into its block
    is read back with every field at its width, every other inode of the same block is
    read as before, and only 32 bytes change. *)
Theorem d_inode_roundtrip (d : list Z) (sb : super_block_t) (i j : m_inode) :
  length d = 1024%nat -> 0 <= s_imap_blocks sb < 65536 -> 0 <= s_zmap_blocks sb < 65536 -> 1 <= i_num i < 65536 ->
  let off := d_inode_offset (i_num i) in
  let d' := store_d_inode d off i in
  1024 * (inode_block sb i - (2 + s_imap_blocks sb + s_zmap_blocks sb)) + off = 32 * (i_num i - 1) /\ 0 <= off /\ off + 32 <= 1024 /\
  load_d_inode d' off j = disk_image i j /\
  (forall o j', 1 <= i_num o < 65536 -> i_num o <> i_num i -> inode_block sb o = inode_block sb i ->
     load_d_inode d' (d_inode_offset (i_num o)) j' = load_d_inode d (d_inode_offset (i_num o)) j') /\
  forall k, k < off \/ off + 32 <= k -> byte_at d' k = byte_at d k.
Proof.
  intros Hd H1 H2 Hi off d'. destruct (inode_table_layout sb i H1 H2 Hi) as (L & L1 & L2 & L3). fold off in L, L1, L2, L3.
  split; [done|]. split; [done|]. split; [done|]. split; [|split].
  - apply load_store_same; lia.
  - intros o j' Ho Hne Hb. destruct (inode_table_layout sb o H1 H2 Ho) as (K & K1 & K2 & K3).
    apply load_d_inode_ext. intros k Hk. apply store_d_inode_byte. rewrite Hb in K. Z.div_mod_to_equations. lia.
  - intros k. apply store_d_inode_byte.
Qed.

(** Inodes 35 and 36 of a file system with one block of each bitmap. *)
Definition some_super : super_block_t := blank_super <| s_imap_blocks := 1 |> <| s_zmap_blocks := 1 |>.
Definition inode_35 : m_inode := blank_inode <| i_num := 35 |>.

Lemma d_inode_roundtrip_witness :
  let off := d_inode_offset (i_num inode_35) in
  let d := replicate 1024 7 in
  let d' := store_d_inode d off inode_35 in
  inode_block some_super (inode_35 <| i_num := 36 |>) = inode_block some_super inode_35 /\
  1024 * (inode_block some_super inode_35 - (2 + s_imap_blocks some_super + s_zmap_blocks some_super)) + off = 32 * (i_num inode_35 - 1) /\
  0 <= off /\ off + 32 <= 1024 /\
  load_d_inode d' off blank_inode = disk_image inode_35 blank_inode /\
  (forall o j', 1 <= i_num o < 65536 -> i_num o <> i_num inode_35 -> inode_block some_super o = inode_block some_super inode_35 ->
     load_d_inode d' (d_inode_offset (i_num o)) j' = load_d_inode d (d_inode_offset (i_num o)) j') /\
  forall k, k < off \/ off + 32 <= k -> byte_at d' k = byte_at d k.
Proof.
  split; [vm_compute; reflexivity|].
  apply (d_inode_roundtrip (replicate 1024 7) some_super inode_35 blank_inode eq_refl); cbn; lia.
Defined.

(** ** Bitmaps *)

Definition bytes_ok (d : list Z) : Prop := forall i, 0 <= byte_at d i < 256.

Lemma bytes_ok_set d i v : bytes_ok d -> bytes_ok (set_byte d i v).
Proof.
  intros H j. destruct (decide (0 <= i < Z.of_nat (length d))) as [Hi|Hi].
  - destruct (decide (i = j)) as [<-|Hne]; [rewrite byte_set_eq by done; apply u8_range|by rewrite byte_set_ne].
  - destruct (decide (i = j)) as [<-|Hne]; [|by rewrite byte_set_ne].
    unfold byte_at. destruct (arr_get (set_byte d i v) i) eqn:E; [|simpl; lia].
    apply arr_get_Some_range in E. rewrite set_byte_size in E. lia.
Qed.

Lemma land_7 x : Z.land x 7 = x mod 8.
Proof. change 7 with (Z.ones 3). by rewrite Z.land_ones. Qed.
Lemma shiftr_3 x : Z.shiftr x 3 = x / 8.
Proof. by rewrite Z.shiftr_div_pow2. Qed.

Lemma testbit_power j k : 0 <= j -> Z.testbit (Z.shiftl 1 j) k = (j =? k).
Proof.
  intros Hj. rewrite Z.shiftl_mul_pow2, Z.mul_1_l by done. destruct (Z.eqb_spec j k) as [<-|Hne].
  - by apply Z.pow2_bits_true.
  - by apply Z.pow2_bits_false.
Qed.

Lemma u8_bits x k : 0 <= k < 8 -> Z.testbit (u8 x) k = Z.testbit x k.
Proof. intros Hk. unfold u8. change 256 with (2 ^ 8). rewrite Z.testbit_mod_pow2 by lia. by destruct (Z.ltb_spec k 8); [|lia]. Qed.

(** What [bit_at] reads after a byte of the map has been replaced. *)
Lemma bit_at_set_byte d nr v k :
  0 <= nr -> nr / 8 < Z.of_nat (length d) -> 0 <= k ->
  bit_at (set_byte d (Z.shiftr nr 3) v) k = if nr / 8 =? k / 8 then Z.testbit v (k mod 8) else bit_at d k.
Proof.
  intros Hnr Hd Hk. unfold bit_at. rewrite !land_7, !shiftr_3. pose proof (Z.div_pos nr 8). pose proof (Z.mod_pos_bound k 8).
  destruct (Z.eqb_spec (nr / 8) (k / 8)) as [E|E].
  - rewrite <- E, byte_set_eq by lia. apply u8_bits. lia.
  - by rewrite byte_set_ne.
Qed.

Lemma set_bit_spec d nr k :
  0 <= nr -> nr / 8 < Z.of_nat (length d) -> 0 <= k ->
  bit_at (set_bit nr d).1 k = (nr =? k) || bit_at d k.
Proof.
  intros H1 H2 H3. unfold set_bit. cbn [fst]. rewrite bit_at_set_byte by done.
  unfold bit_at. rewrite !land_7, !shiftr_3. pose proof (Z.mod_pos_bound nr 8). pose proof (Z.mod_pos_bound k 8).
  destruct (Z.eqb_spec (nr / 8) (k / 8)) as [E|E].
  - rewrite Z.lor_spec, testbit_power, E, orb_comm by lia. f_equal.
    destruct (Z.eqb_spec (nr mod 8) (k mod 8)), (Z.eqb_spec nr k); try done; exfalso; Z.to_euclidean_division_equations; lia.
  - destruct (Z.eqb_spec nr k) as [->|]; done.
Qed.

Lemma clear_bit_spec d nr k :
  0 <= nr -> nr / 8 < Z.of_nat (length d) -> 0 <= k ->
  bit_at (clear_bit nr d).1 k = negb (nr =? k) && bit_at d k.
Proof.
  intros H1 H2 H3. unfold clear_bit. cbn [fst]. rewrite bit_at_set_byte by done.
  unfold bit_at. rewrite !land_7, !shiftr_3. pose proof (Z.mod_pos_bound nr 8). pose proof (Z.mod_pos_bound k 8).
  destruct (Z.eqb_spec (nr / 8) (k / 8)) as [E|E].
  - rewrite Z.ldiff_spec, testbit_power, E, andb_comm by lia. do 2 f_equal.
    destruct (Z.eqb_spec (nr mod 8) (k mod 8)), (Z.eqb_spec nr k); try done; exfalso; Z.to_euclidean_division_equations; lia.
  - destruct (Z.eqb_spec nr k) as [->|]; done.
Qed.

(** ** find_first_zero *)

Lemma testbit_split n x y k : 0 <= n -> 0 <= x < 2 ^ n -> 0 <= k ->
  Z.testbit (x + 2 ^ n * y) k = if k <? n then Z.testbit x k else Z.testbit y (k - n).
Proof.
  intros Hn Hx Hk. destruct (Z.ltb_spec k n).
  - rewrite <- (Z.mod_pow2_bits_low (x + 2 ^ n * y) n k) by lia. f_equal.
    rewrite Z.mul_comm, Z.mod_add by lia. by apply Z.mod_small.
  - replace k with (k - n + n) at 1 by lia. rewrite <- Z.div_pow2_bits by lia. f_equal.
    rewrite Z.mul_comm, Z.div_add, Z.div_small by lia. lia.
Qed.

(** Bit [k] of a long of the map is bit [8 * i + k] of the map. *)
Lemma long_bit d i k : bytes_ok d -> 0 <= i -> 0 <= k < 32 -> Z.testbit (long_at d i) k = bit_at d (8 * i + k).
Proof.
  intros Hd Hi Hk. unfold long_at, word_at, bit_at. rewrite land_7, shiftr_3. change 65536 with (2 ^ 16). change 256 with (2 ^ 8).
  assert (Hb : forall j, 0 <= byte_at d j < 2 ^ 8) by (intros; apply Hd).
  assert (Hw : forall j j', 0 <= byte_at d j + 2 ^ 8 * byte_at d j' < 2 ^ 16).
  { intros j j'. pose proof (Hb j). pose proof (Hb j'). lia. }
  rewrite testbit_split by (done || lia).
  assert (Hw2 : forall j m, 0 <= m < 16 -> Z.testbit (byte_at d j + 2 ^ 8 * byte_at d (j + 1)) m = Z.testbit (byte_at d (j + m / 8)) (m mod 8)).
  { intros j m Hm. rewrite testbit_split by (done || lia). destruct (Z.ltb_spec m 8).
    - rewrite (Z.div_small m 8), (Z.mod_small m 8) by lia. f_equal. f_equal. lia.
    - replace (m / 8) with 1 by (Z.to_euclidean_division_equations; lia). f_equal. Z.to_euclidean_division_equations; lia. }
  replace ((8 * i + k) / 8) with (i + k / 8) by (Z.to_euclidean_division_equations; lia).
  replace ((8 * i + k) mod 8) with (k mod 8) by (Z.to_euclidean_division_equations; lia).
  destruct (Z.ltb_spec k 16); rewrite Hw2 by lia; [done|].
  replace (i + 2 + (k - 16) / 8) with (i + k / 8) by (Z.to_euclidean_division_equations; lia).
  by replace ((k - 16) mod 8) with (k mod 8) by (Z.to_euclidean_division_equations; lia).
Qed.

Lemma bsf_from_spec k i x : match bsf_from k i x with
  | Some e => i <= e < i + Z.of_nat k /\ Z.testbit x e = true /\ forall j, i <= j < e -> Z.testbit x j = false
  | None => forall j, i <= j < i + Z.of_nat k -> Z.testbit x j = false end.
Proof.
  revert i. induction k as [|k IH]; intros i; cbn [bsf_from]; [lia|]. destruct (Z.testbit x i) eqn:E.
  - split; [lia|]. split; [done|lia].
  - specialize (IH (i + 1)). destruct (bsf_from k (i + 1) x) as [e|].
    + destruct IH as (H1 & H2 & H3). split; [lia|]. split; [done|]. intros j Hj. destruct (decide (j = i)) as [->|]; [done|]. apply H3. lia.
    + intros j Hj. destruct (decide (j = i)) as [->|]; [done|]. apply IH. lia.
Qed.

(** The lowest zero of a long of the map. *)
Lemma long_first_zero d i : bytes_ok d -> 0 <= i -> match bsfl (u32 (Z.lnot (long_at d i))) with
  | Some e => 0 <= e < 32 /\ bit_at d (8 * i + e) = false /\ forall j, 0 <= j < e -> bit_at d (8 * i + j) = true
  | None => forall j, 0 <= j < 32 -> bit_at d (8 * i + j) = true end.
Proof.
  intros Hd Hi. pose proof (bsf_from_spec 32 0 (u32 (Z.lnot (long_at d i)))) as H. fold (bsfl (u32 (Z.lnot (long_at d i)))) in H.
  assert (Hb : forall k, 0 <= k < 32 -> Z.testbit (u32 (Z.lnot (long_at d i))) k = negb (bit_at d (8 * i + k))).
  { intros k Hk. unfold u32. change 4294967296 with (2 ^ 32). rewrite Z.testbit_mod_pow2 by lia.
    destruct (Z.ltb_spec k 32); [|lia]. cbn [andb]. rewrite Z.lnot_spec by lia. by rewrite long_bit by (done || lia). }
  destruct (bsfl _) as [e|].
  - destruct H as (H1 & H2 & H3). split; [lia|]. rewrite Hb in H2 by lia. apply negb_true_iff in H2. split; [done|].
    intros j Hj. specialize (H3 j ltac:(lia)). rewrite Hb in H3 by lia. by apply negb_false_iff.
  - intros j Hj. specialize (H j ltac:(lia)). rewrite Hb in H by lia. by apply negb_false_iff.
Qed.

Definition all_set (d : list Z) (n : Z) : Prop := forall i, 0 <= i < n -> bit_at d i = true.

Lemma ffz_words_spec d k w : bytes_ok d -> 0 <= w -> w + Z.of_nat k = 256 -> (0 < k)%nat -> all_set d (32 * w) ->
  let j := ffz_words k d (32 * w) in 0 <= j <= 8192 /\ all_set d j /\ (j < 8192 -> bit_at d j = false).
Proof.
  intros Hd. revert w. induction k as [|k IH]; intros w Hw Hk Hk0 Hall; [lia|]. cbn [ffz_words].
  replace (Z.shiftr (32 * w) 3) with (4 * w) by (rewrite shiftr_3; Z.to_euclidean_division_equations; lia).
  pose proof (long_first_zero d (4 * w) Hd ltac:(lia)) as H. destruct (bsfl _) as [e|].
  - destruct H as (H1 & H2 & H3). split; [lia|]. replace (32 * w + e) with (8 * (4 * w) + e) by lia. split; [|done].
    intros i Hi. destruct (decide (i < 32 * w)); [apply Hall; lia|]. replace i with (8 * (4 * w) + (i - 32 * w)) by lia. apply H3. lia.
  - assert (Hall' : all_set d (32 * (w + 1))).
    { intros i Hi. destruct (decide (i < 32 * w)); [apply Hall; lia|]. replace i with (8 * (4 * w) + (i - 32 * w)) by lia. apply H. lia. }
    replace (32 * w + 32) with (32 * (w + 1)) by lia. destruct (Z.ltb_spec (32 * (w + 1)) 8192).
    + apply IH; [lia|lia|lia|done].
    + cbv zeta. split; [lia|]. split; [done|lia].
Qed.

Lemma find_first_zero_spec d : bytes_ok d ->
  let j := find_first_zero d in 0 <= j <= 8192 /\ all_set d j /\ (j < 8192 -> bit_at d j = false).
Proof. intros Hd. apply (ffz_words_spec d 256 0); [done|lia|done|lia|]. intros i Hi. lia. Qed.

(** C25. [find_first_zero], which looks at 32 bits at a time, finds the lowest clear
    bit of a map of 8192, or 8192 exactly when all are set; setting that bit
    allocates it and no other, and clearing it again restores every bit, so that it
    is the next one to be found. *)
Theorem bitmap_allocates_first (d : list Z) :
  bytes_ok d -> length d = 1024%nat ->
  let j := find_first_zero d in
  0 <= j <= 8192 /\ (forall i, 0 <= i < j -> bit_at d i = true) /\
  (j < 8192 ->
    (set_bit j d).2 = 0 /\ (forall i, 0 <= i -> bit_at (set_bit j d).1 i = (i =? j) || bit_at d i) /\
    let d' := (clear_bit j (set_bit j d).1).1 in
    (clear_bit j (set_bit j d).1).2 = 0 /\ (forall i, 0 <= i -> bit_at d' i = bit_at d i) /\ find_first_zero d' = j).
Proof.
  intros Hd Hl j. destruct (find_first_zero_spec d Hd) as (Hj & Hall & Hz). fold j in Hj, Hall, Hz.
  split; [done|]. split; [done|]. intros Hlt. specialize (Hz Hlt).
  assert (Hq : j / 8 < Z.of_nat (length d)) by (rewrite Hl; apply Z.div_lt_upper_bound; lia).
  assert (Hs : forall i, 0 <= i -> bit_at (set_bit j d).1 i = (i =? j) || bit_at d i).
  { intros i Hi. rewrite set_bit_spec by (done || lia). by rewrite Z.eqb_sym. }
  split; [unfold set_bit; cbn [snd]; by rewrite Hz|]. split; [done|].
  assert (Hd1 : bytes_ok (set_bit j d).1) by (by apply bytes_ok_set).
  assert (Hl1 : length (set_bit j d).1 = 1024%nat) by (unfold set_bit; cbn [fst]; by rewrite set_byte_size).
  set (d1 := (set_bit j d).1) in *. set (d' := (clear_bit j d1).1).
  assert (Hc : forall i, 0 <= i -> bit_at d' i = bit_at d i).
  { intros i Hi. unfold d'. rewrite clear_bit_spec by (rewrite ?Hl1; lia). rewrite Hs, (Z.eqb_sym j i) by done.
    destruct (Z.eqb_spec i j) as [->|]; simpl; by rewrite ?Hz. }
  split; [unfold clear_bit; cbn [snd]; rewrite Hs, Z.eqb_refl by lia; done|]. split; [done|].
  destruct (find_first_zero_spec d') as (Hj' & Hall' & Hz'); [by apply bytes_ok_set|].
  set (j' := find_first_zero d') in *. destruct (Z.lt_trichotomy j' j) as [Hc1|[Hc1|Hc1]]; [|done|].
  - specialize (Hz' ltac:(lia)). rewrite Hc, (Hall j') in Hz' by lia. done.
  - specialize (Hall' j ltac:(lia)). rewrite Hc, Hz in Hall' by lia. done.
Qed.

Lemma bytes_check d : forallb (fun x => (0 <=? x) && (x <? 256)) d = true -> bytes_ok d.
Proof.
  rewrite forallb_forall. intros H i. unfold byte_at. destruct (arr_get d i) as [x|] eqn:E; simpl; [|lia].
  unfold arr_get in E. destruct (i <? 0); [done|]. apply list_elem_of_lookup_2, list_elem_of_In, H in E. cbv beta in E. simpl. bprop. lia.
Qed.

(** A map whose first 77 bits are set. *)
Definition some_map : list Z := replicate 9 255 ++ [31] ++ replicate 1014 0.

Lemma bitmap_allocates_first_witness :
  let d := some_map in
  find_first_zero d = 77 /\
  0 <= find_first_zero d <= 8192 /\ (forall i, 0 <= i < find_first_zero d -> bit_at d i = true).
Proof.
  split; [vm_compute; reflexivity|].
  destruct (bitmap_allocates_first some_map) as (H1 & H2 & _).
  - apply bytes_check. vm_compute. reflexivity.
  - vm_compute. reflexivity.
  - split; [exact H1|exact H2].
Defined.
