(* ===== verification/Segment.v ===== *)
(** * Segment descriptors and user areas: include/linux/sched.h, include/asm/system.h, kernel/fork.c

    The inline assembly that takes the base and the limit of a segment out of its
    descriptor and puts them back, on the two 32-bit words of the descriptor, and
    [verify_area], which makes a range of user memory writable by the kernel. *)
From Stdlib Require Import ZArith Lia String.
From stdpp Require Import base list.
From S2P Require Import Prelude Resumption Memory KState Sched.

(** [x] with the bits of [m] replaced by those of [v]. *)
Definition blend (x m v : Z) : Z := Z.lor (Z.ldiff x m) (Z.land v m).

(** [_get_base]: byte 7, byte 4 and the word at 2. *)
Definition get_base (d : desc_struct) : Z :=
  Z.lor (Z.lor (Z.land (desc_b d) 0xff000000) (Z.shiftl (Z.land (desc_b d) 0xff) 16))
        (Z.land (Z.shiftr (desc_a d) 16) 0xffff).

(** [_set_base]: the word at 2, then bytes 4 and 7. *)
Definition set_base (d : desc_struct) (base : Z) : desc_struct :=
  mkDesc (blend (desc_a d) 0xffff0000 (Z.shiftl base 16))
         (blend (blend (desc_b d) 0xff (Z.shiftr base 16)) 0xff000000 base).

(** The limit field: [lsll] scales it by 4 kB when the granularity bit is set, and
    [get_limit] adds one. *)
Definition limit_field (d : desc_struct) : Z := Z.lor (Z.land (desc_a d) 0xffff) (Z.land (desc_b d) 0xf0000).
Definition get_limit (d : desc_struct) : Z :=
  u32 ((if Z.testbit (desc_b d) 23 then Z.lor (Z.shiftl (limit_field d) 12) 0xfff else limit_field d) + 1).

(** [_set_limit(addr, (limit-1)>>12)]: the word at 0 and byte 6, of which the upper
    half is kept. *)
Definition set_limit (d : desc_struct) (limit : Z) : desc_struct :=
  let l := Z.shiftr (u32 (limit - 1)) 12 in
  mkDesc (blend (desc_a d) 0xffff l)
         (blend (desc_b d) 0xff0000 (Z.shiftl (Z.lor (Z.shiftr l 16) (Z.land (Z.shiftr (desc_b d) 16) 0xf0)) 16)).

(** [_set_tssldt_desc] with the type byte: limit 104, the address, no granularity. *)
Definition tssldt_desc (addr type : Z) : desc_struct :=
  mkDesc (Z.lor 104 (Z.shiftl (Z.land addr 0xffff) 16))
         (Z.lor (Z.lor (Z.land (Z.shiftr addr 16) 0xff) (Z.shiftl type 8)) (Z.land addr 0xff000000)).
Definition set_tss_desc (addr : Z) : desc_struct := tssldt_desc addr 0x89.
Definition set_ldt_desc (addr : Z) : desc_struct := tssldt_desc addr 0x82.

Definition FIRST_TSS_ENTRY : Z := 4.
Definition FIRST_LDT_ENTRY : Z := FIRST_TSS_ENTRY + 1.
Definition _TSS (n : Z) : Z := Z.shiftl n 4 + Z.shiftl FIRST_TSS_ENTRY 3.
Definition _LDT (n : Z) : Z := Z.shiftl n 4 + Z.shiftl FIRST_LDT_ENTRY 3.

(** Descriptor [k] of a task's local table; the segment of selector [0x0f] is
    descriptor 1, that of [0x17] descriptor 2. *)
Definition ldt_at (t : task_struct) (k : Z) : desc_struct := default (mkDesc 0 0) (arr_get (ldt t) k).
Definition set_ldt (k : Z) (d : desc_struct) (t : task_struct) : task_struct := t <| ldt ::= fun l => arr_set l k d |>.

(** A copy to user memory, byte by byte. *)
Definition put_fs_bytes (l : list Z) (addr : Z) : K unit :=
  for_each (zip l (zrange 0 (length l))) (fun p => put_fs_byte p.1 (addr + p.2)).

(** ** verify_area *)

Definition verify_area (addr size : Z) : K unit :=
  let start := u32 addr in
  let size := s32 (size + Z.land start 0xfff) in
  let start := Z.land start 0xfffff000 in
  let! t := cur in
  let start := u32 (start + get_base (ldt_at t 2)) in
  loop (fun '(start, size) =>
    if size <=? 0 then ret (inr tt) else
    on_mm (write_verify start) ;;;
    ret (inl (u32 (start + 4096), s32 (size - 4096)))) (start, size).
