(* ===== verification/Tty.v ===== *)
(** * Terminals: kernel/chr_drv/tty_io.c, tty_ioctl.c and serial.c

    The queues of a terminal, the line discipline that turns what is typed into lines,
    reading and writing, and the control operations.  A terminal is an index in
    [tty_table], a queue one of the three of a terminal. *)
From Stdlib Require Import ZArith Lia String.
From stdpp Require Import base list.
From S2P Require Import Prelude Resumption Memory KState Sched BlkDev Errno Segment Console.

(** ** Characters: include/ctype.h, lib/ctype.c *)

Definition _U : Z := 0x01.
Definition _L : Z := 0x02.
Definition _D : Z := 0x04.
Definition _C : Z := 0x08.
Definition _P : Z := 0x10.
Definition _S : Z := 0x20.
Definition _X : Z := 0x40.
Definition _SP : Z := 0x80.

Definition _ctype : list Z :=
  [0] ++ replicate 9 _C ++ replicate 5 (Z.lor _C _S) ++ replicate 18 _C ++ [Z.lor _S _SP] ++ replicate 15 _P ++
  replicate 10 _D ++ replicate 7 _P ++ replicate 6 (Z.lor _U _X) ++ replicate 20 _U ++ replicate 6 _P ++
  replicate 6 (Z.lor _L _X) ++ replicate 20 _L ++ replicate 4 _P ++ [_C] ++ replicate 128 0.

(** [(_ctype+1)[c]]: a negative character other than -1 is before the table. *)
Definition ctype_of (c : Z) : K Z := deref (fun _ => arr_get _ctype (c + 1)).
Definition isupper (c : Z) : K bool := let! t := ctype_of c in ret (nz (Z.land t _U)).
Definition islower (c : Z) : K bool := let! t := ctype_of c in ret (nz (Z.land t _L)).
Definition tolower (c : Z) : K Z := let! u := isupper c in ret (if u then c + 32 else c).
Definition toupper (c : Z) : K Z := let! l := islower c in ret (if l then c - 32 else c).

(** ** Modes: include/termios.h *)

Definition VINTR : Z := 0.
Definition VQUIT : Z := 1.
Definition VERASE : Z := 2.
Definition VKILL : Z := 3.
Definition VEOF : Z := 4.
Definition VTIME : Z := 5.
Definition VMIN : Z := 6.
Definition VSTART : Z := 8.
Definition VSTOP : Z := 9.

Definition INLCR : Z := 0x40.
Definition IGNCR : Z := 0x80.
Definition ICRNL : Z := 0x100.
Definition IUCLC : Z := 0x200.
Definition OPOST : Z := 1.
Definition OLCUC : Z := 2.
Definition ONLCR : Z := 4.
Definition OCRNL : Z := 8.
Definition ONLRET : Z := 0x20.
Definition CBAUD : Z := 0xf.
Definition ISIG : Z := 1.
Definition ICANON : Z := 2.
Definition ECHO : Z := 8.
Definition ECHOCTL : Z := 0x200.

(** The fields of a struct termios in its 36 bytes. *)
Definition c_iflag (t : tty_struct) : Z := long_at (termios t) 0.
Definition c_oflag (t : tty_struct) : Z := long_at (termios t) 4.
Definition c_cflag (t : tty_struct) : Z := long_at (termios t) 8.
Definition c_lflag (t : tty_struct) : Z := long_at (termios t) 12.
Definition c_line (t : tty_struct) : Z := byte_at (termios t) 16.
Definition c_cc (t : tty_struct) (i : Z) : Z := byte_at (termios t) (17 + i).

Definition _L_FLAG (t : tty_struct) (f : Z) : bool := nz (Z.land (c_lflag t) f).
Definition _I_FLAG (t : tty_struct) (f : Z) : bool := nz (Z.land (c_iflag t) f).
Definition _O_FLAG (t : tty_struct) (f : Z) : bool := nz (Z.land (c_oflag t) f).

Definition INTR_CHAR (t : tty_struct) : Z := c_cc t VINTR.
Definition QUIT_CHAR (t : tty_struct) : Z := c_cc t VQUIT.
Definition ERASE_CHAR (t : tty_struct) : Z := c_cc t VERASE.
Definition KILL_CHAR (t : tty_struct) : Z := c_cc t VKILL.
Definition EOF_CHAR (t : tty_struct) : Z := c_cc t VEOF.
Definition START_CHAR (t : tty_struct) : Z := c_cc t VSTART.
Definition STOP_CHAR (t : tty_struct) : Z := c_cc t VSTOP.

(** ** Queues: include/linux/tty.h *)

Definition EMPTY (q : tty_queue) : bool := q_head q =? q_tail q.
Definition LEFT (q : tty_queue) : Z := Z.land (q_tail q - q_head q - 1) (TTY_BUF_SIZE - 1).
Definition FULL (q : tty_queue) : bool := negb (nz (LEFT q)).
Definition CHARS (q : tty_queue) : Z := Z.land (q_head q - q_tail q) (TTY_BUF_SIZE - 1).
Definition INC (a : Z) : Z := Z.land (a + 1) (TTY_BUF_SIZE - 1).
Definition DEC (a : Z) : Z := Z.land (a - 1) (TTY_BUF_SIZE - 1).

(** The character at [LAST]; [GETCH] and [PUTCH].  The characters of the buffer are
    signed. *)
Definition last_char (q : tty_queue) : option Z := s8 <$> arr_get (q_buf q) (DEC (q_head q)).
Definition get_char (q : tty_queue) : option (Z * tty_queue) :=
  match arr_get (q_buf q) (q_tail q) with
  | Some c => Some (s8 c, q <| q_tail ::= INC |>)
  | None => None
  end.
Definition put_char (c : Z) (q : tty_queue) : option tty_queue :=
  match arr_get (q_buf q) (q_head q) with
  | Some _ => Some (q <| q_buf ::= (fun l => arr_set l (q_head q) (u8 c)) |> <| q_head ::= INC |>)
  | None => None
  end.

(** Take back the last character, and throw all of them away. *)
Definition unput_char (q : tty_queue) : tty_queue := q <| q_head ::= DEC |>.
Definition flush_chars (q : tty_queue) : tty_queue := q <| q_head := q_tail q |>.

Inductive queue_name := ReadQ | WriteQ | Secondary.
Definition queue_of (w : queue_name) (t : tty_struct) : tty_queue :=
  match w with ReadQ => read_q t | WriteQ => write_q t | Secondary => secondary t end.
Definition set_queue (w : queue_name) (q : tty_queue) (t : tty_struct) : tty_struct :=
  match w with
  | ReadQ => t <| read_q := q |>
  | WriteQ => t <| write_q := q |>
  | Secondary => t <| secondary := q |>
  end.

Definition queue_get (ch : Z) (w : queue_name) : K tty_queue := let! t := tty_get ch in ret (queue_of w t).
Definition queue_put (ch : Z) (w : queue_name) (q : tty_queue) : K unit := tty_upd ch (set_queue w q).
Definition LAST (ch : Z) (w : queue_name) : K Z :=
  let! q := queue_get ch w in deref (fun _ => last_char q).
Definition GETCH (ch : Z) (w : queue_name) : K Z :=
  let! q := queue_get ch w in
  let! '(c, q) := deref (fun _ => get_char q) in
  queue_put ch w q ;;;
  ret c.
Definition PUTCH (c ch : Z) (w : queue_name) : K unit :=
  let! q := queue_get ch w in
  let! q := deref (fun _ => put_char c q) in
  queue_put ch w q.
Definition unput (ch : Z) (w : queue_name) : K unit :=
  let! q := queue_get ch w in queue_put ch w (unput_char q).

(** [&queue->proc_list] *)
Definition tty_wait (ch : Z) (w : queue_name) : wait_queue := mkWq
  (fun s => match arr_get (tty_table (k_chr s)) ch with Some t => q_proc (queue_of w t) | None => None end)
  (fun p s => match arr_get (tty_table (k_chr s)) ch with
              | Some t => set_ttys (arr_set (tty_table (k_chr s)) ch (set_queue w ((queue_of w t) <| q_proc := p |>) t)) s
              | None => s end).

(** ** Sleeping on a queue *)

Definition sleep_if_empty (ch : Z) (w : queue_name) : K unit :=
  loop (fun _ : unit =>
    let! t := cur in
    let! q := queue_get ch w in
    if negb (nz (signal t)) && EMPTY q then interruptible_sleep_on (tty_wait ch w) ;;; ret (inl tt)
    else ret (inr tt)) tt.

Definition sleep_if_full (ch : Z) (w : queue_name) : K unit :=
  let! q := queue_get ch w in
  if negb (FULL q) then ret tt else
  loop (fun _ : unit =>
    let! t := cur in
    let! q := queue_get ch w in
    if negb (nz (signal t)) && (LEFT q <? 128) then interruptible_sleep_on (tty_wait ch w) ;;; ret (inl tt)
    else ret (inr tt)) tt.

Definition wait_for_keypress : K unit := sleep_if_empty 0 Secondary.

(** ** Signals from the keyboard *)

Definition SIGINT : Z := 2.
Definition SIGQUIT : Z := 3.
Definition ALRMMASK : Z := sigbit SIGALRM.
Definition INTMASK : Z := sigbit SIGINT.
Definition QUITMASK : Z := sigbit SIGQUIT.

Definition tty_intr (ch mask : Z) : K unit :=
  let! x := tty_get ch in
  if tty_pgrp x <=? 0 then ret tt else
  for_each (zrange 0 64) (fun i =>
    let! s := get in
    match task_slot s i with
    | Some t => when (pgrp t =? tty_pgrp x) (task_upd i (fun t => t <| signal ::= fun g => Z.lor g mask |>))
    | None => ret tt
    end).

Section Terminals.

(** ** Output: con_write and rs_write *)

(** A routine of console.c; what it has written to the ports of the screen. *)
Definition on_con {A} (m : M console A) : K A :=
  let! a := zoom (fun s => con (k_chr s)) (fun c s => s <| k_chr ::= fun r => r <| con := c |> |>) m in
  let! s := get in
  modify (fun s => s <| k_chr ::= fun r => r <| con ::= fun c => c <| con_out := [] |> |> |>) ;;;
  for_each (con_out (con (k_chr s))) (fun '(v, port) => outb v port) ;;;
  ret a.

Definition sysbeepstop : K unit :=
  let! a := inb 0x61 in
  outb (Z.land a 0xFC) 0x61.

Definition sysbeep : K unit :=
  let! a := inb 0x61 in
  outb (Z.lor a 3) 0x61 ;;;
  outb 0xB6 0x43 ;;;
  outb 0x37 0x42 ;;;
  outb 0x06 0x42 ;;;
  set_sched (fun c => c <| beepcount := Z.quot HZ 8 |>).

Definition RESPONSE : list Z := [27; 91; 63; 49; 59; 50; 99].

Definition rs_write (ch : Z) : K unit :=
  let! q := queue_get ch WriteQ in
  if EMPTY q then ret tt else
  let port := u32 (q_data q + 1) in
  let! v := inb port in
  outb (Z.lor v 0x02) port.

(** [copy_to_cooked] calls [tty->write], and the console's [con_write] calls
    [copy_to_cooked] for the answer to a query: [cook] is the inner call. *)
Section Knot.
Context (cook : Z -> K unit).

Definition respond (ch : Z) : K unit :=
  for_each RESPONSE (fun c => PUTCH c ch ReadQ) ;;;
  cook ch.

Definition con_write_char (ch : Z) : K unit :=
  let! c := GETCH ch WriteQ in
  let! t := tty_get ch in
  let! a := on_con (con_char (ERASE_CHAR t) c) in
  match a with
  | Nothing => ret tt
  | Respond => respond ch
  | Beep => sysbeep
  end.

Definition con_write (ch : Z) : K unit :=
  let! q := queue_get ch WriteQ in
  for_each (zrange 0 (Z.to_nat (CHARS q))) (fun _ => con_write_char ch) ;;;
  on_con set_cursor.

(** [tty->write(tty)] *)
Definition tty_flush (ch : Z) : K unit :=
  let! t := tty_get ch in
  match tty_out t with
  | ConWrite => con_write ch
  | RsWrite => rs_write ch
  end.

(** ** The line discipline *)

(** The input modes; [None] for a carriage return that is ignored. *)
Definition map_input (t : tty_struct) (c : Z) : K (option Z) :=
  let mapped :=
    if c =? 13 then (if _I_FLAG t ICRNL then Some 10 else if _I_FLAG t IGNCR then None else Some c)
    else if (c =? 10) && _I_FLAG t INLCR then Some 13 else Some c in
  match mapped with
  | Some c => if _I_FLAG t IUCLC then let! c := tolower c in ret (Some (s8 c)) else ret (Some c)
  | None => ret None
  end.

(** A rubbed out character is shown as one or, for a control character, two rubouts. *)
Definition rub_out (ch c : Z) : K unit :=
  let! t := tty_get ch in
  when (_L_FLAG t ECHO)
    (when (c <? 32) (PUTCH 127 ch WriteQ) ;;;
     PUTCH 127 ch WriteQ ;;;
     tty_flush ch).

(** The last character of the line that is typed, if it has one. *)
Definition line_last (ch : Z) : K (option Z) :=
  let! t := tty_get ch in
  if EMPTY (secondary t) then ret None else
  let! c := LAST ch Secondary in
  ret (if (c =? 10) || (c =? EOF_CHAR t) then None else Some c).

Definition kill_line (ch : Z) : K unit :=
  loop (fun _ : unit =>
    let! r := line_last ch in
    match r with
    | Some c => rub_out ch c ;;; unput ch Secondary ;;; ret (inl tt)
    | None => ret (inr tt)
    end) tt.

Definition erase_char (ch : Z) : K unit :=
  let! r := line_last ch in
  match r with
  | Some c => rub_out ch c ;;; unput ch Secondary
  | None => ret tt
  end.

Definition echo (ch c : Z) : K unit :=
  let! t := tty_get ch in
  when (_L_FLAG t ECHO)
    ((if c =? 10 then PUTCH 10 ch WriteQ ;;; PUTCH 13 ch WriteQ
      else if c <? 32 then when (_L_FLAG t ECHOCTL) (PUTCH 94 ch WriteQ ;;; PUTCH (c + 64) ch WriteQ)
      else PUTCH c ch WriteQ) ;;;
     tty_flush ch).

(** One character of the read queue. *)
Definition cook_char (ch c : Z) : K unit :=
  let! t := tty_get ch in
  let! r := map_input t c in
  match r with
  | None => ret tt
  | Some c =>
      if _L_FLAG t ICANON && (c =? KILL_CHAR t) then kill_line ch
      else if _L_FLAG t ICANON && (c =? ERASE_CHAR t) then erase_char ch
      else if _L_FLAG t ICANON && (c =? STOP_CHAR t) then tty_upd ch (fun t => t <| stopped := 1 |>)
      else if _L_FLAG t ICANON && (c =? START_CHAR t) then tty_upd ch (fun t => t <| stopped := 0 |>)
      else if _L_FLAG t ISIG && (c =? INTR_CHAR t) then tty_intr ch INTMASK
      else if _L_FLAG t ISIG && (c =? QUIT_CHAR t) then tty_intr ch QUITMASK
      else
        when ((c =? 10) || (c =? EOF_CHAR t))
          (tty_upd ch (fun t => t <| secondary ::= fun q => q <| q_data ::= fun d => u32 (d + 1) |> |>)) ;;;
        echo ch c ;;;
        PUTCH c ch Secondary
  end.

Definition cook_step (ch : Z) : K (unit + unit) :=
  let! t := tty_get ch in
  if negb (EMPTY (read_q t)) && negb (FULL (secondary t)) then
    let! c := GETCH ch ReadQ in
    cook_char ch c ;;;
    ret (inl tt)
  else ret (inr tt).

Definition cooked (ch : Z) : K unit :=
  loop (fun _ : unit => cook_step ch) tt ;;;
  wake_up (tty_wait ch Secondary).
End Knot.

(** The knot: with [k] calls inside each other. *)
Fixpoint cooking (k : nat) (ch : Z) : K unit :=
  match k with
  | O => fun _ _ => NoFuel
  | Datatypes.S k => cooked (cooking k) ch
  end.
Definition copy_to_cooked (ch : Z) : K unit := fun n s => cooking n ch n s.

Definition do_tty_interrupt (ch : Z) : K unit := copy_to_cooked ch.

(** [tty->write(tty)] outside [copy_to_cooked]. *)
Definition tty_output_flush (ch : Z) : K unit := tty_flush copy_to_cooked ch.

(** ** Reading *)

Definition set_alarm (v : Z) : K unit := cur_upd (fun t => t <| alarm := v |>).

(** [if ((flag=(!oldalarm || time+jiffies<oldalarm))) current->alarm = time+jiffies;]
    with what else there is to do. *)
Definition arm (time oldalarm : Z) (otherwise : K unit) : K bool :=
  let! s := get in
  let at_ := s32 (time + jiffies (k_sched s)) in
  if negb (nz oldalarm) || (at_ <? oldalarm) then set_alarm at_ ;;; ret true
  else otherwise ;;; ret false.

(** The [do ... while] loop of one round: the bytes it has taken, and whether the
    end-of-file character came up. *)
Definition take_chars (ch buf nr : Z) (got : Z) : K (Z * bool) :=
  loop (fun got =>
    let! c := GETCH ch Secondary in
    let! t := tty_get ch in
    when ((c =? EOF_CHAR t) || (c =? 10))
      (tty_upd ch (fun t => t <| secondary ::= fun q => q <| q_data ::= fun d => u32 (d - 1) |> |>)) ;;;
    if (c =? EOF_CHAR t) && _L_FLAG t ICANON then ret (inr (got, true)) else
    put_fs_byte c (buf + got) ;;;
    let! q := queue_get ch Secondary in
    if (got + 1 <? nr) && negb (EMPTY q) then ret (inl (got + 1)) else ret (inr (got + 1, false))) got.

(** One round of [while (nr>0)]: [got] is [b-buf]; [inr] leaves the loop, with true for
    the return in its middle. *)
Definition read_step (ch buf nr minimum time oldalarm : Z) (st : Z * bool) : K ((Z * bool) + (Z * bool)) :=
  let '(got, flag) := st in
  if nr <=? got then ret (inr (got, false)) else
  let! t := cur in
  if flag && nz (Z.land (signal t) ALRMMASK) then
    cur_upd (fun t => t <| signal ::= fun g => Z.ldiff g ALRMMASK |>) ;;;
    ret (inr (got, false))
  else if nz (signal t) then ret (inr (got, false)) else
  let! x := tty_get ch in
  let q := secondary x in
  if EMPTY q || (_L_FLAG x ICANON && negb (nz (q_data q)) && (20 <? LEFT q)) then
    sleep_if_empty ch Secondary ;;;
    ret (inl (got, flag))
  else
    let! '(got, eof) := take_chars ch buf nr got in
    if eof then ret (inr (got, true)) else
    let! x := tty_get ch in
    let! flag := (if nz time && negb (_L_FLAG x ICANON) then arm time oldalarm (set_alarm oldalarm) else ret flag) in
    if _L_FLAG x ICANON then ret (if nz got then inr (got, false) else inl (got, flag))
    else ret (if minimum <=? got then inr (got, false) else inl (got, flag)).

Definition tty_read (channel buf nr : Z) : K Z :=
  if (2 <? u32 channel) || (nr <? 0) then ret (-1) else
  let ch := u32 channel in
  let! t := cur in
  let oldalarm := alarm t in
  let! x := tty_get ch in
  let time := 10 * c_cc x VTIME in
  let minimum := c_cc x VMIN in
  let! '(minimum, flag) :=
    (if nz time && negb (nz minimum) then let! flag := arm time oldalarm (ret tt) in ret (1, flag)
     else ret (minimum, false)) in
  let minimum := if nr <? minimum then nr else minimum in
  let! '(got, eof) := loop (read_step ch buf nr minimum time oldalarm) (0, flag) in
  if eof then ret got else
  set_alarm oldalarm ;;;
  let! t := cur in
  if nz (signal t) && negb (nz got) then ret (- EINTR) else ret got.

(** ** Writing *)

Definition set_cr_flag (v : Z) : K unit := modify (fun s => s <| k_chr ::= fun r => r <| cr_flag := v |> |>).

(** [src] reads a byte through fs: of the program, or of the kernel when printk has
    changed fs. *)
Section Writing.
Context (src : Z -> K Z).

(** One character of the buffer into the write queue; false when it is a line feed
    whose carriage return has been put first. *)
Definition write_char (ch addr : Z) : K bool :=
  let! c := src addr in
  let c := s8 c in
  let! t := tty_get ch in
  let! s := get in
  let flag := cr_flag (k_chr s) in
  if negb (_O_FLAG t OPOST) then set_cr_flag 0 ;;; PUTCH c ch WriteQ ;;; ret true else
  let c := if (c =? 13) && _O_FLAG t OCRNL then 10
           else if (c =? 10) && _O_FLAG t ONLRET then 13 else c in
  if (c =? 10) && negb (nz flag) && _O_FLAG t ONLCR then
    set_cr_flag 1 ;;;
    PUTCH 13 ch WriteQ ;;;
    ret false
  else
    let! c := (if _O_FLAG t OLCUC then let! c := toupper c in ret (s8 c) else ret c) in
    set_cr_flag 0 ;;;
    PUTCH c ch WriteQ ;;;
    ret true.

(** The inner loop: [done_] is [b-buf]. *)
Definition fill_queue (ch buf nr done_ : Z) : K Z :=
  loop (fun done_ =>
    let! q := queue_get ch WriteQ in
    if (done_ <? nr) && negb (FULL q) then
      let! w := write_char ch (buf + done_) in
      ret (inl (if w then done_ + 1 else done_))
    else ret (inr done_)) done_.

Definition write_step (ch buf nr done_ : Z) : K (Z + Z) :=
  if nr <=? done_ then ret (inr done_) else
  sleep_if_full ch WriteQ ;;;
  let! t := cur in
  if nz (signal t) then ret (inr done_) else
  let! done_ := fill_queue ch buf nr done_ in
  tty_output_flush ch ;;;
  when (done_ <? nr) schedule ;;;
  ret (inl done_).

Definition tty_write_from (channel buf nr : Z) : K Z :=
  if (2 <? u32 channel) || (nr <? 0) then ret (-1) else
  loop (write_step (u32 channel) buf nr) 0.
End Writing.

Definition tty_write : Z -> Z -> Z -> K Z := tty_write_from get_fs_byte.

(** ** Control: tty_ioctl.c *)

Definition quotient : list Z := [0; 2304; 1536; 1047; 857; 768; 576; 384; 192; 96; 64; 48; 24; 12; 6; 3].

Definition change_speed (ch : Z) : K unit :=
  let! t := tty_get ch in
  let port := u16 (q_data (read_q t)) in
  if negb (nz port) then ret tt else
  let! quot := deref (fun _ => arr_get quotient (Z.land (c_cflag t) CBAUD)) in
  outb 0x80 (port + 3) ;;;
  outb (Z.land quot 0xff) port ;;;
  outb (Z.shiftr quot 8) (port + 1) ;;;
  outb 0x03 (port + 3).

Definition flush (ch : Z) (w : queue_name) : K unit :=
  let! q := queue_get ch w in queue_put ch w (flush_chars q).

Definition SIZEOF_TERMIOS : Z := 36.
Definition SIZEOF_TERMIO : Z := 18.
Definition NCC : Z := 8.

Definition get_bytes (n addr : Z) : K (list Z) :=
  for_fold (zrange 0 (Z.to_nat n)) [] (fun l i => let! b := get_fs_byte (addr + i) in ret (l ++ [b])).

Definition get_termios (ch arg : Z) : K Z :=
  verify_area arg SIZEOF_TERMIOS ;;;
  let! t := tty_get ch in
  put_fs_bytes (termios t) arg ;;;
  ret 0.

Definition set_termios (ch arg : Z) : K Z :=
  for_each (zrange 0 (Z.to_nat SIZEOF_TERMIOS)) (fun i =>
    let! b := get_fs_byte (arg + i) in
    tty_upd ch (fun t => t <| termios ::= fun l => set_byte l i b |>)) ;;;
  change_speed ch ;;;
  ret 0.

(** The bytes of a struct termio; [pad] is its last byte, which nothing sets. *)
Definition termio_bytes (pad : Z) (t : tty_struct) : list Z :=
  let d := replicate 18 pad in
  let d := set_word d 0 (c_iflag t) in
  let d := set_word d 2 (c_oflag t) in
  let d := set_word d 4 (c_cflag t) in
  let d := set_word d 6 (c_lflag t) in
  let d := set_byte d 8 (c_line t) in
  fold_left (fun d i => set_byte d (9 + i) (c_cc t i)) (zrange 0 (Z.to_nat NCC)) d.

Definition get_termio (pad ch arg : Z) : K Z :=
  verify_area arg SIZEOF_TERMIO ;;;
  let! t := tty_get ch in
  put_fs_bytes (termio_bytes pad t) arg ;;;
  ret 0.

(** The low halves of the four modes, and the first [NCC] control characters. *)
Definition merge_termio (l d : list Z) : list Z :=
  let d := set_word d 0 (word_at l 0) in
  let d := set_word d 4 (word_at l 2) in
  let d := set_word d 8 (word_at l 4) in
  let d := set_word d 12 (word_at l 6) in
  let d := set_byte d 16 (byte_at l 8) in
  fold_left (fun d i => set_byte d (17 + i) (byte_at l (9 + i))) (zrange 0 (Z.to_nat NCC)) d.

Definition set_termio (ch arg : Z) : K Z :=
  let! l := get_bytes SIZEOF_TERMIO arg in
  tty_upd ch (fun t => t <| termios ::= merge_termio l |>) ;;;
  change_speed ch ;;;
  ret 0.

(** A number for the user. *)
Definition put_user_long (value : K Z) (arg : Z) : K Z :=
  verify_area arg 4 ;;;
  let! v := value in
  put_fs_long v arg ;;;
  ret 0.

Definition tty_ioctl (pad dev cmd arg : Z) : K Z :=
  let! ch := (if MAJOR dev =? 5 then
                let! t := cur in
                if tty t <? 0 then panic "tty_ioctl: dev<0" else ret (tty t)
              else ret (MINOR dev)) in
  match cmd with
  | 0x5401 => get_termios ch arg
  | 0x5404 => flush ch ReadQ ;;; set_termios ch arg
  | 0x5403 | 0x5402 => set_termios ch arg
  | 0x5405 => get_termio pad ch arg
  | 0x5408 => flush ch ReadQ ;;; set_termio ch arg
  | 0x5407 | 0x5406 => set_termio ch arg
  | 0x5409 => ret 0
  | 0x540B =>
      if arg =? 0 then flush ch ReadQ ;;; ret 0
      else if arg =? 1 then flush ch WriteQ ;;; ret 0
      else if arg =? 2 then flush ch ReadQ ;;; flush ch WriteQ ;;; ret 0
      else ret (- EINVAL)
  | 0x540F => put_user_long (let! t := tty_get ch in ret (tty_pgrp t)) arg
  | 0x5410 => let! v := get_fs_long arg in tty_upd ch (fun t => t <| tty_pgrp := s32 v |>) ;;; ret 0
  | 0x5411 => put_user_long (let! q := queue_get ch WriteQ in ret (CHARS q)) arg
  | 0x541B => put_user_long (let! q := queue_get ch Secondary in ret (CHARS q)) arg
  | _ => ret (- EINVAL)
  end.

(** ** Serial lines: serial.c *)

Definition init (port : Z) : K unit :=
  outb 0x80 (port + 3) ;;;
  outb 0x30 port ;;;
  outb 0x00 (port + 1) ;;;
  outb 0x03 (port + 3) ;;;
  outb 0x0b (port + 4) ;;;
  outb 0x0d (port + 1) ;;;
  let! _ := inb port in
  ret tt.

Definition rs_init : K unit :=
  set_intr_gate 0x24 "rs1_interrupt" ;;;
  set_intr_gate 0x23 "rs2_interrupt" ;;;
  let! q := queue_get 1 ReadQ in
  init (q_data q) ;;;
  let! q := queue_get 2 ReadQ in
  init (q_data q) ;;;
  let! m := inb 0x21 in
  outb (Z.land m 0xE7) 0x21.

(** The end of [con_init]: the interrupt of the keyboard. *)
Definition con_irq : K unit :=
  set_trap_gate 0x21 "keyboard_interrupt" ;;;
  let! m := inb 0x21 in
  outb (Z.land m 0xfd) 0x21 ;;;
  let! a := inb 0x61 in
  outb (Z.lor a 0x80) 0x61 ;;;
  outb a 0x61.

Definition tty_init (o : setup) : K unit :=
  rs_init ;;;
  on_con (con_init o) ;;;
  con_irq.
End Terminals.
