(* ===== verification/Input.v ===== *)
(** * Input interrupts: kernel/chr_drv/rs_io.s and keyboard.S

    The assembly routines that move characters between the devices and the queues of
    the terminals, and hand the input to [do_tty_interrupt].  The key tables are those
    of the US keyboard, which config.h selects. *)
From Stdlib Require Import ZArith Lia String Ascii.
From stdpp Require Import base list.
From S2P Require Import Prelude Resumption Memory KState Sched Segment Tty.

(** [movl $0,(%ebx)] on a waiting task: it runs, and stays in the queue. *)
Definition wake_sleeper (q : tty_queue) : K unit := wake_task (q_proc q).

(** ** The serial lines: rs_io.s *)

Definition startup : Z := 256.

Definition modem_status (port : Z) : K unit := inb (port + 6) ;;; ret tt.
Definition line_status (port : Z) : K unit := inb (port + 5) ;;; ret tt.

Definition read_char (ch port : Z) : K unit :=
  let! al := inb port in
  let! q := queue_get ch ReadQ in
  let! _ := deref (fun _ => arr_get (q_buf q) (q_head q)) in
  let q := q <| q_buf ::= fun l => arr_set l (q_head q) al |> in
  queue_put ch ReadQ (if INC (q_head q) =? q_tail q then q else q <| q_head ::= INC |>) ;;;
  do_tty_interrupt ch.

Definition write_buffer_empty (port : Z) (q : tty_queue) : K unit :=
  wake_sleeper q ;;;
  let! al := inb (port + 1) in
  outb (Z.land al 0xd) (port + 1).

Definition write_char_irq (ch port : Z) : K unit :=
  let! q := queue_get ch WriteQ in
  if CHARS q =? 0 then write_buffer_empty port q else
  when (CHARS q <=? startup) (wake_sleeper q) ;;;
  let! c := deref (fun _ => arr_get (q_buf q) (q_tail q)) in
  outb c port ;;;
  let q := q <| q_tail ::= INC |> in
  queue_put ch WriteQ q ;;;
  when (q_tail q =? q_head q) (write_buffer_empty port q).

(** The interrupt of line [ch]: serve every cause the identification register names. *)
Definition rs_int (ch : Z) : K unit :=
  let! q := queue_get ch ReadQ in
  let port := q_data q in
  loop (fun _ : unit =>
    let! al := inb (port + 2) in
    if nz (Z.land al 1) || (6 <? al) then ret (inr tt) else
    (if al =? 0 then modem_status port
     else if al =? 2 then write_char_irq ch port
     else if al =? 4 then read_char ch port
     else line_status port) ;;;
    ret (inl tt)) tt ;;;
  outb 0x20 0x20.

(** ** The keyboard: keyboard.S *)

Definition kb_upd (f : chr -> chr) : K unit := modify (fun s => s <| k_chr ::= f |>).
Definition kb_get : K chr := gets k_chr.
Definition set_mode (f : Z -> Z) : K unit := kb_upd (fun c => c <| kb_mode ::= f |>).
Definition set_leds_byte (f : Z -> Z) : K unit := kb_upd (fun c => c <| kb_leds ::= f |>).

(** At most eight bytes of %ebx:%eax, the low ones first, until %eax is zero; [None]
    when the queue is full, and then the head has not moved. *)
Fixpoint put_bytes (k : nat) (eax_ ebx_ : Z) (buf : list Z) (head tail : Z) : list Z * option Z :=
  match k with
  | O => (buf, Some head)
  | S k =>
      let buf := arr_set buf head (u8 eax_) in
      let head := INC head in
      if head =? tail then (buf, None) else
      let eax_ := Z.lor (Z.shiftr eax_ 8) (Z.shiftl (Z.land ebx_ 0xff) 24) in
      if eax_ =? 0 then (buf, Some head) else put_bytes k eax_ (Z.shiftr ebx_ 8) buf head tail
  end.

Definition put_queue (eax_ ebx_ : Z) : K unit :=
  let! q := queue_get 0 ReadQ in
  let '(buf, head) := put_bytes 8 eax_ ebx_ (q_buf q) (q_head q) (q_tail q) in
  match head with
  | None => queue_put 0 ReadQ (q <| q_buf := buf |>)
  | Some h => queue_put 0 ReadQ (q <| q_buf := buf |> <| q_head := h |>) ;;; wake_sleeper q
  end.

(** The bit of a left or (after 0xe0) right key. *)
Definition side_bit (bit : Z) (c : chr) : Z := if nz (kb_e0 c) then 2 * bit else bit.
Definition press (bit : Z) : K unit := let! c := kb_get in set_mode (fun m => Z.lor m (side_bit bit c)).
Definition unpress (bit : Z) : K unit := let! c := kb_get in set_mode (fun m => Z.ldiff m (side_bit bit c)).

Definition kb_wait : K unit :=
  loop (fun _ : unit =>
    let! st := inb 0x64 in ret (if nz (Z.land st 0x02) then inl tt else inr tt)) tt.

Definition set_leds : K unit :=
  kb_wait ;;;
  outb 0xed 0x60 ;;;
  kb_wait ;;;
  let! c := kb_get in
  outb (kb_leds c) 0x60.

Definition caps : K unit :=
  let! c := kb_get in
  if nz (Z.land (kb_mode c) 0x80) then ret tt else
  set_leds_byte (fun l => Z.lxor l 4) ;;;
  set_mode (fun m => Z.lxor m 0x40) ;;;
  set_mode (fun m => Z.lor m 0x80) ;;;
  set_leds.

(** The machine restarts. *)
Definition reboot : K unit :=
  kb_wait ;;;
  outb 0xfc 0x64 ;;;
  panic "reboot".

Definition ascii_bytes (s : string) : list Z := map (fun c => Z.of_N (N_of_ascii c)) (list_ascii_of_string s).

Definition num_table : list Z := ascii_bytes "789 456 1230,".
Definition cur_table : list Z := ascii_bytes "HA5 DGC YB623".

Definition cur_key (al : Z) : K unit :=
  let c := byte_at cur_table al in
  let ah := if 57 <? c then 0 else 126 in
  put_queue (u32 (Z.lor (Z.shiftl (c + 256 * ah) 16) 0x5b1b)) 0.

Definition cursor (al : Z) : K unit :=
  let al := al - 0x47 in
  if (al <? 0) || (12 <? al) then ret tt else
  let! c := kb_get in
  if (al =? 12) && nz (Z.land (kb_mode c) 0x0c) && nz (Z.land (kb_mode c) 0x30) then reboot else
  if (kb_e0 c =? 1) || negb (nz (Z.land (kb_leds c) 0x02)) || nz (Z.land (kb_mode c) 0x03) then cur_key al
  else put_queue (byte_at num_table al) 0.

Definition func_table : list Z := [
  0x415b5b1b; 0x425b5b1b; 0x435b5b1b; 0x445b5b1b; 0x455b5b1b; 0x465b5b1b;
  0x475b5b1b; 0x485b5b1b; 0x495b5b1b; 0x4a5b5b1b; 0x4b5b5b1b; 0x4c5b5b1b ].

(** The test for room looks at [ecx_], the register of the interrupted program. *)
Definition func (ecx_ al : Z) : K unit :=
  let al := u8 (al - 0x3B) in
  let k := if al <=? 9 then Some al else
           let al := u8 (al - 18) in if (10 <=? al) && (al <=? 11) then Some al else None in
  match k with
  | Some k => if s32 ecx_ <? 4 then ret tt else put_queue (default 0 (arr_get func_table k)) 0
  | None => ret tt
  end.

Definition key_map : list Z :=
  [0; 27] ++ ascii_bytes "1234567890-=" ++ [127; 9] ++ ascii_bytes "qwertyuiop[]" ++ [13; 0] ++
  ascii_bytes "asdfghjkl;'" ++ [96; 0] ++ ascii_bytes "\zxcvbnm,./" ++ [0; 42; 0; 32] ++ replicate 16 0 ++
  [45; 0; 0; 0; 43] ++ replicate 7 0 ++ [60] ++ replicate 10 0.

Definition shift_map : list Z :=
  [0; 27] ++ ascii_bytes "!@#$%^&*()_+" ++ [127; 9] ++ ascii_bytes "QWERTYUIOP{}" ++ [13; 0] ++
  ascii_bytes "ASDFGHJKL:" ++ [34] ++ [126; 0] ++ ascii_bytes "|ZXCVBNM<>?" ++ [0; 42; 0; 32] ++ replicate 16 0 ++
  [45; 0; 0; 0; 43] ++ replicate 7 0 ++ [62] ++ replicate 10 0.

Definition alt_map : list Z :=
  [0; 0] ++ [0; 64; 0; 36; 0; 0; 123; 91; 93; 125; 92; 0] ++ [0; 0] ++ replicate 11 0 ++ [126; 13; 0] ++
  replicate 11 0 ++ [0; 0] ++ replicate 11 0 ++ [0; 0; 0; 0] ++ replicate 16 0 ++ replicate 5 0 ++
  replicate 7 0 ++ [124] ++ replicate 10 0.

(** The character of a key under the shift, control, caps and alt keys. *)
Definition key_char (mode al : Z) : Z :=
  let map := if nz (Z.land mode 0x20) then alt_map else if nz (Z.land mode 0x03) then shift_map else key_map in
  let c := byte_at map al in
  if c =? 0 then 0 else
  let c := if nz (Z.land mode 0x4c) && (97 <=? c) && (c <=? 125) then c - 32 else c in
  let c := if nz (Z.land mode 0x0c) && (64 <=? c) && (c <? 96) then c - 64 else c in
  if nz (Z.land mode 0x10) then Z.lor c 0x80 else c.

(** [do_self] stops at a zero in the map, not at a character that became zero. *)
Definition key_none (mode al : Z) : bool :=
  let map := if nz (Z.land mode 0x20) then alt_map else if nz (Z.land mode 0x03) then shift_map else key_map in
  byte_at map al =? 0.

Definition do_self (al : Z) : K unit :=
  let! c := kb_get in
  if key_none (kb_mode c) al then ret tt else put_queue (key_char (kb_mode c) al) 0.

Definition minus (al : Z) : K unit :=
  let! c := kb_get in
  if kb_e0 c =? 1 then put_queue 47 0 else do_self al.

(** The routine [key_table] has for a scan code. *)
Inductive key_fn := KNone | KSelf | KCtrl | KUnctrl | KAlt | KUnalt | KLshift | KUnlshift | KRshift | KUnrshift
  | KCaps | KUncaps | KNum | KScroll | KCursor | KFunc | KMinus.

Definition key_table : list key_fn :=
  [KNone] ++ replicate 28 KSelf ++ [KCtrl] ++ replicate 12 KSelf ++ [KLshift] ++ replicate 10 KSelf ++
  [KMinus; KRshift; KSelf; KAlt; KSelf; KCaps] ++ replicate 10 KFunc ++ [KNum; KScroll; KCursor; KCursor; KCursor;
   KSelf; KCursor; KCursor; KCursor; KSelf] ++ replicate 5 KCursor ++ [KNone; KNone; KSelf; KFunc; KFunc] ++
  replicate 68 KNone ++ [KUnctrl] ++ replicate 12 KNone ++ [KUnlshift] ++ replicate 11 KNone ++ [KUnrshift; KNone;
   KUnalt; KNone; KUncaps] ++ replicate 69 KNone.

Definition run_key (ecx_ al : Z) (k : key_fn) : K unit :=
  match k with
  | KNone => ret tt
  | KSelf => do_self al
  | KCtrl => press 0x04
  | KUnctrl => unpress 0x04
  | KAlt => press 0x10
  | KUnalt => unpress 0x10
  | KLshift => set_mode (fun m => Z.lor m 0x01)
  | KUnlshift => set_mode (fun m => Z.land m 0xfe)
  | KRshift => set_mode (fun m => Z.lor m 0x02)
  | KUnrshift => set_mode (fun m => Z.land m 0xfd)
  | KCaps => caps
  | KUncaps => set_mode (fun m => Z.land m 0x7f)
  | KNum => set_leds_byte (fun l => Z.lxor l 2) ;;; set_leds
  | KScroll => set_leds_byte (fun l => Z.lxor l 1) ;;; set_leds
  | KCursor => cursor al
  | KFunc => func ecx_ al
  | KMinus => minus al
  end.

Definition set_e0 (v : Z) : K unit := kb_upd (fun c => c <| kb_e0 := v |>).

Definition keyboard_interrupt (ecx_ : Z) : K unit :=
  let! al := inb 0x60 in
  (if al =? 0xe0 then set_e0 1
   else if al =? 0xe1 then set_e0 2
   else
     let! k := deref (fun _ => arr_get key_table al) in
     run_key ecx_ al k ;;;
     set_e0 0) ;;;
  let! a := inb 0x61 in
  outb (Z.lor a 0x80) 0x61 ;;;
  outb (Z.land (Z.lor a 0x80) 0x7F) 0x61 ;;;
  outb 0x20 0x20 ;;;
  do_tty_interrupt 0.

(** The tables have the length the assembler gives them, and hold what the comments
    beside them say. *)
Example key_tables :
  (length key_table, length key_map, length shift_map, length alt_map) = (256, 97, 97, 97)%nat /\
  arr_get key_table 0x1D = Some KCtrl /\ arr_get key_table 0x3A = Some KCaps /\ arr_get key_table 0x35 = Some KMinus /\
  arr_get key_table 0x45 = Some KNum /\ arr_get key_table 0x53 = Some KCursor /\ arr_get key_table 0x58 = Some KFunc /\
  arr_get key_table 0x9D = Some KUnctrl /\ arr_get key_table 0xAA = Some KUnlshift /\
  arr_get key_table 0xB6 = Some KUnrshift /\ arr_get key_table 0xB8 = Some KUnalt /\ arr_get key_table 0xBA = Some KUncaps /\
  key_char 0 0x1E = 97 /\ key_char 0x04 0x1E = 1 /\ key_char 0x40 0x1E = 65 /\ key_char 0x01 0x28 = 34.
Proof. vm_compute. repeat split. Qed.
