(* ===== verification/TtyInv.v ===== *)
(** * The terminals keep every [Kept] invariant *)
From Stdlib Require Import ZArith Lia String.
From stdpp Require Import base list.
From S2P Require Import Prelude Resumption Memory KState Sched Preserve BlkDev Buffer Types Kept Segment Console Tty.

(** ** Queues of characters *)

Lemma INC_range a : 0 <= INC a < 1024.
Proof. unfold INC. change (TTY_BUF_SIZE - 1) with (Z.ones 10). rewrite Z.land_ones by lia. by apply Z.mod_pos_bound. Qed.
Lemma DEC_range a : 0 <= DEC a < 1024.
Proof. unfold DEC. change (TTY_BUF_SIZE - 1) with (Z.ones 10). rewrite Z.land_ones by lia. by apply Z.mod_pos_bound. Qed.

Lemma queue_of_typed w t : tty_typed t -> queue_typed (queue_of w t).
Proof. intros (_ & H1 & H2 & H3). by destruct w. Qed.
Lemma set_queue_typed w q t : queue_typed q -> tty_typed t -> tty_typed (set_queue w q t).
Proof. intros Hq (H0 & H1 & H2 & H3). by destruct w. Qed.

(** The assignments to a queue. *)
Lemma q_head_typed q f : queue_typed q -> (forall a, 0 <= f a < 1024) -> queue_typed (q <| q_head ::= f |>).
Proof. intros (H1 & _ & H3) Hf. split; [exact H1|]. split; [apply Hf|exact H3]. Qed.
Lemma q_tail_typed q f : queue_typed q -> (forall a, 0 <= f a < 1024) -> queue_typed (q <| q_tail ::= f |>).
Proof. intros (H1 & H2 & _ & H4) Hf. split; [exact H1|]. split; [exact H2|]. split; [apply Hf|exact H4]. Qed.
Lemma q_buf_typed q l : queue_typed q -> length l = 1024%nat -> queue_typed (q <| q_buf := l |>).
Proof. intros (_ & H) Hl. split; [exact Hl|exact H]. Qed.

Lemma get_char_typed q c q' : queue_typed q -> get_char q = Some (c, q') -> queue_typed q'.
Proof.
  intros H. unfold get_char. destruct (arr_get (q_buf q) (q_tail q)); [|done]. intros [= _ <-]. apply (q_tail_typed q INC); [done|apply INC_range].
Qed.
Lemma put_char_typed c q q' : queue_typed q -> put_char c q = Some q' -> queue_typed q'.
Proof.
  intros (H1 & _ & H3). unfold put_char. destruct (arr_get (q_buf q) (q_head q)); [|done]. intros [= <-].
  split; [etransitivity; [apply arr_set_length|exact H1]|]. split; [apply INC_range|exact H3].
Qed.

Lemma merge_termio_length l d : length (merge_termio l d) = length d.
Proof.
  unfold merge_termio, set_word. rewrite <- fold_left_rev_right. induction (rev _) as [|i r IH]; [|cbn [fold_right]];
    unfold set_byte in *; cbn [fold_right]; by rewrite !arr_set_length.
Qed.

Section Kept.
Context {inv : kstate -> Prop} {Hinv : Kept inv}.

Lemma kept_tty_queue ch w : kept_queue (tty_wait ch w).
Proof.
  apply frame_queue.
  - intros p s. unfold tty_wait. cbn [wq_put]. by destruct (arr_get _ ch).
  - intros p s Hp H. unfold tty_wait. cbn [wq_put]. destruct (arr_get _ ch) as [t|] eqn:E; [|done].
    pose proof (typed_tty s ch t H E) as Ht. apply typed_set_tty; [|done]. apply set_queue_typed; [|done].
    destruct (queue_of_typed w t Ht) as (H1 & H2 & H3 & _).
    split; [exact H1|]. split; [exact H2|]. split; [exact H3|exact Hp].
Qed.
#[local] Hint Resolve kept_tty_queue : keeps.

Lemma kept_bind_queue {A} ch w (f : tty_queue -> K A) :
  (forall q, (known -> queue_typed q) -> keeps inv (f q)) -> keeps inv (bind (queue_get ch w) f).
Proof.
  intros H. assert (E : keeps inv (let! t := tty_get ch in f (queue_of w t))).
  { apply kept_bind_tty. intros t Ht. apply H. intros Hk. by apply queue_of_typed, Ht. }
  intros n s. specialize (E n s). revert E. unfold queue_get, bind, tty_get, tab_get, deref.
  by destruct (arr_get (tty_table (k_chr s)) ch).
Qed.
Lemma kept_queue_get ch w : keeps inv (queue_get ch w).
Proof. unfold queue_get. keeps. Qed.
Lemma kept_queue_put ch w q : (known -> queue_typed q) -> keeps inv (queue_put ch w q).
Proof. intros Hq. apply kept_tty_upd. intros Hk t. by apply set_queue_typed, Hq. Qed.
#[local] Hint Resolve kept_queue_get : keeps.
Lemma kept_LAST ch w : keeps inv (LAST ch w).
Proof. unfold LAST. keeps. Qed.
Lemma kept_GETCH ch w : keeps inv (GETCH ch w).
Proof.
  apply kept_bind_queue. intros q Hq. apply kept_bind_deref. intros [c q'] E.
  apply keeps_bind; [|intros; apply keeps_ret]. apply kept_queue_put. intros Hk. eapply get_char_typed; eauto.
Qed.
Lemma kept_PUTCH c ch w : keeps inv (PUTCH c ch w).
Proof.
  apply kept_bind_queue. intros q Hq. apply kept_bind_deref. intros q' E.
  apply kept_queue_put. intros Hk. eapply put_char_typed; eauto.
Qed.
Lemma kept_unput ch w : keeps inv (unput ch w).
Proof. apply kept_bind_queue. intros q Hq. apply kept_queue_put. intros Hk. apply q_head_typed; [auto|apply DEC_range]. Qed.
Lemma kept_sleep_if_empty ch w : keeps inv (sleep_if_empty ch w).
Proof. unfold sleep_if_empty. keeps. Qed.
#[local] Hint Resolve kept_LAST kept_GETCH kept_PUTCH kept_unput kept_sleep_if_empty : keeps.
Lemma kept_sleep_if_full ch w : keeps inv (sleep_if_full ch w).
Proof. unfold sleep_if_full. keeps. Qed.
Lemma kept_wait_for_keypress : keeps inv wait_for_keypress.
Proof. apply kept_sleep_if_empty. Qed.
Lemma kept_tty_intr ch mask : keeps inv (tty_intr ch mask).
Proof. unfold tty_intr. keeps. Qed.
Lemma kept_verify_area a b : keeps inv (verify_area a b).
Proof. unfold verify_area. keeps. Qed.
Lemma kept_put_fs_bytes l a : keeps inv (put_fs_bytes l a).
Proof. unfold put_fs_bytes. keeps. Qed.
#[local] Hint Resolve kept_sleep_if_full kept_wait_for_keypress kept_tty_intr kept_verify_area
  kept_put_fs_bytes : keeps.


Lemma kept_on_con {A} (m : M console A) : keeps inv (on_con m).
Proof.
  unfold on_con. apply keeps_bind; [|keeps]. apply keeps_zoom. intros c s.
  by apply (kept_frame (fun s => s <| k_chr ::= fun r => r <| con := c |> |>)).
Qed.
#[local] Hint Resolve kept_on_con : keeps.
Lemma kept_sysbeepstop : keeps inv sysbeepstop.
Proof. unfold sysbeepstop. keeps. Qed.
Lemma kept_sysbeep : keeps inv sysbeep.
Proof. unfold sysbeep. keeps. Qed.
Lemma kept_rs_write ch : keeps inv (rs_write ch).
Proof. unfold rs_write. keeps. Qed.
#[local] Hint Resolve kept_sysbeep kept_rs_write : keeps.

Section Knot.
Context (cook : Z -> K unit) (Hcook : forall ch, keeps inv (cook ch)).
#[local] Hint Resolve Hcook : keeps.
Lemma kept_con_write ch : keeps inv (con_write cook ch).
Proof. unfold con_write, con_write_char, respond. keeps. Qed.
#[local] Hint Resolve kept_con_write : keeps.
Lemma kept_tty_flush ch : keeps inv (tty_flush cook ch).
Proof. unfold tty_flush. keeps. Qed.
#[local] Hint Resolve kept_tty_flush : keeps.
Lemma kept_rub_out ch c : keeps inv (rub_out cook ch c).
Proof. unfold rub_out. keeps. Qed.
Lemma kept_line_last ch : keeps inv (line_last ch).
Proof. unfold line_last. keeps. Qed.
#[local] Hint Resolve kept_rub_out kept_line_last : keeps.
Lemma kept_cook_char ch c : keeps inv (cook_char cook ch c).
Proof. unfold cook_char, map_input, tolower, isupper, ctype_of, kill_line, erase_char, echo. keeps. Qed.
#[local] Hint Resolve kept_cook_char : keeps.
Lemma kept_cooked ch : keeps inv (cooked cook ch).
Proof. unfold cooked, cook_step. keeps. Qed.
End Knot.

Lemma kept_copy_to_cooked ch : keeps inv (copy_to_cooked ch).
Proof.
  assert (forall k ch, keeps inv (cooking k ch)) as H.
  { induction k as [|k IH]; intros ch'; [by intros n s Hi _|]. by apply kept_cooked. }
  intros n s Hi Hs. by apply H.
Qed.
Lemma kept_tty_output_flush ch : keeps inv (tty_output_flush ch).
Proof. apply kept_tty_flush, kept_copy_to_cooked. Qed.
#[local] Hint Resolve kept_tty_output_flush : keeps.

Lemma kept_arm time oldalarm m : keeps inv m -> keeps inv (arm time oldalarm m).
Proof. intros H. unfold arm, set_alarm. keeps. Qed.
Lemma kept_take_chars ch buf nr got : keeps inv (take_chars ch buf nr got).
Proof. unfold take_chars. keeps. Qed.
Lemma kept_set_alarm v : keeps inv (set_alarm v).
Proof. unfold set_alarm. keeps. Qed.
#[local] Hint Resolve kept_arm kept_take_chars kept_set_alarm : keeps.
Lemma kept_tty_read a b c : keeps inv (tty_read a b c).
Proof. unfold tty_read, read_step. keeps. Qed.
Section Writing.
Context (src : Z -> K Z) (Hsrc : forall a, keeps inv (src a)).
#[local] Hint Resolve Hsrc : keeps.
Lemma kept_write_char ch a : keeps inv (write_char src ch a).
Proof. unfold write_char, set_cr_flag, toupper, islower, ctype_of. keeps. Qed.
#[local] Hint Resolve kept_write_char : keeps.
Lemma kept_tty_write_from a b c : keeps inv (tty_write_from src a b c).
Proof. unfold tty_write_from, write_step, fill_queue. keeps. Qed.
End Writing.
Lemma kept_tty_write a b c : keeps inv (tty_write a b c).
Proof. apply kept_tty_write_from. intros x. unfold get_fs_byte. keeps. Qed.
Lemma kept_change_speed ch : keeps inv (change_speed ch).
Proof. unfold change_speed. keeps. Qed.
Lemma kept_flush ch w : keeps inv (flush ch w).
Proof.
  apply kept_bind_queue. intros q Hq. apply kept_queue_put. intros Hk. destruct (Hq Hk) as (H1 & H2 & H3 & H4).
  split; [exact H1|]. split; [exact H3|]. split; [exact H3|exact H4].
Qed.
Lemma kept_put_user_long v a : keeps inv v -> keeps inv (put_user_long v a).
Proof. intros H. unfold put_user_long. keeps. Qed.
#[local] Hint Resolve kept_change_speed kept_flush kept_put_user_long : keeps.
Lemma kept_merge_termio ch l : keeps inv (tty_upd ch (fun t => t <| termios ::= merge_termio l |>)).
Proof.
  apply kept_tty_upd. intros _ t [H H']. split; [|exact H']. etransitivity; [apply merge_termio_length|exact H].
Qed.
#[local] Hint Resolve kept_merge_termio : keeps.
Lemma kept_tty_ioctl pad a b c : keeps inv (tty_ioctl pad a b c).
Proof.
  unfold tty_ioctl, get_termios, set_termios, get_termio, set_termio, get_bytes.
  apply keeps_bind; [keeps|]. intros ch.
  repeat match goal with |- keeps _ (match ?x with _ => _ end) => destruct x end; keeps.
  all: apply kept_put_user_long; keeps.
Qed.
End Kept.
#[export] Hint Resolve kept_tty_queue kept_queue_get kept_LAST kept_GETCH kept_PUTCH kept_unput kept_sleep_if_empty kept_sleep_if_full
  kept_wait_for_keypress kept_tty_intr kept_verify_area kept_put_fs_bytes : keeps.
