(* ===== verification/Namei.v ===== *)
(** * Path names and directories: fs/namei.c

    A path name is an address in the caller's memory, read byte by byte.  A
    [struct dir_entry *] is a buffer and an offset in its data.  The [**dir] of
    [find_entry], which may exchange the directory, is returned with the result. *)
From Stdlib Require Import ZArith Lia String.
From stdpp Require Import base list.
From S2P Require Import Prelude Resumption Memory KState Sched BlkDev Buffer Super Inode Errno.

Definition MAY_EXEC : Z := 1.
Definition MAY_WRITE : Z := 2.
Definition MAY_READ : Z := 4.

(** ["\004\002\006\377"[x & O_ACCMODE]], an array of signed chars. *)
Definition ACC_MODE (x : Z) : Z :=
  match Z.land x O_ACCMODE with 0 => 4 | 1 => 2 | 2 => 6 | _ => -1 end.

Definition suser (t : task_struct) : bool := euid t =? 0.

(** The decision of [permission] for task [t] on inode [i]. *)
Definition permitted (t : task_struct) (i : m_inode) (mask : Z) : bool :=
  if nz (i_dev i) && negb (nz (i_nlinks i)) then false else
  let mode := if euid t =? i_uid i then Z.shiftr (i_mode i) 6
              else if egid t =? i_gid i then Z.shiftr (i_mode i) 3 else i_mode i in
  (Z.land (Z.land mode mask) 7 =? mask) || suser t.

Definition permission (inode mask : Z) : K bool :=
  let! i := ino_get inode in
  let! t := cur in
  ret (permitted t i mask).

(** ** Directory entries *)

Definition DIR_ENTRY_SIZE : Z := 16.
Definition DIR_ENTRIES_PER_BLOCK : Z := 64.

Record dir_entry := mkDirEntry { de_inode : Z; de_name : list Z }.
Definition read_entry (d : list Z) (off : Z) : dir_entry :=
  mkDirEntry (word_at d off) (map (fun k => byte_at d (off + 2 + k)) (zrange 0 14)).

Definition de_get (de : Z * Z) : K dir_entry :=
  let! b := bh_get de.1 in ret (read_entry (b_data b) de.2).
Definition de_set_inode (de : Z * Z) (nr : Z) : K unit :=
  bh_upd de.1 (fun b => b <| b_data ::= fun d => set_word d de.2 nr |>).
Definition de_set_name (de : Z * Z) (k c : Z) : K unit :=
  bh_upd de.1 (fun b => b <| b_data ::= fun d => set_byte d (de.2 + 2 + k) c |>).
Definition set_dirt (bh : Z) : K unit := bh_upd bh (fun b => b <| b_dirt := 1 |>).

Definition name_byte (e : dir_entry) (k : Z) : Z := byte_at (de_name e) k.

(** The user's bytes [name, name + len) against the entry's name: [repe cmpsb]. *)
Definition match_ (s : kstate) (len name : Z) (e : dir_entry) : bool :=
  if negb (nz (de_inode e)) || (NAME_LEN <? len) then false else
  if (len <? NAME_LEN) && nz (name_byte e len) then false else
  forallb (fun k => k_user s (current (k_sched s)) (u32 (name + k)) =? name_byte e k)
    (zrange 0 (Z.to_nat len)).

Section Names.
Context {driver : Driver}.

(** [..] in the root of the task, and over a mount point: the directory to search
    and the length of the name to look for. *)
Definition dotdot (dir name namelen : Z) : K (Z * Z) :=
  let! c0 := get_fs_byte name in
  let! c1 := get_fs_byte (name + 1) in
  if negb ((namelen =? 2) && (c0 =? 46) && (c1 =? 46)) then ret (dir, namelen) else
  let! t := cur in
  if bool_decide (root t = Some dir) then ret (dir, 1) else
  let! i := ino_get dir in
  if negb (i_num i =? ROOT_INO) then ret (dir, namelen) else
  let! r := get_super (i_dev i) in
  let! sb := bh_ptr r in
  let! s := sb_get sb in
  match s_imount s with
  | None => ret (dir, namelen)
  | Some _ =>
      iput (Some dir) ;;;
      let! s := sb_get sb in
      let! dir := bh_ptr (s_imount s) in
      ino_upd dir (set_count (fun c => c + 1)) ;;;
      ret (dir, namelen)
  end.

(** The scan of [find_entry].  The state is [i], the buffer and the offset of [de];
    after a block that cannot be read the buffer is NULL, and the comparison of
    [de] with the data of a buffer head at NULL (the word at address 0, the first
    entry of the page directory, which is below every buffer) sends the scan to
    the next block. *)
Definition find_step (dir name namelen entries : Z) (st : Z * option Z * Z)
    : K ((Z * option Z * Z) + option (Z * Z)) :=
  let '(i, bh, off) := st in
  if entries <=? i then brelse bh ;;; ret (inr None) else
  let! r :=
    (if match bh with Some _ => off <? BLOCK_SIZE | None => false end
     then ret match bh with Some b => Some (b, off) | None => None end
     else
       brelse bh ;;;
       let! block := bmap dir (i / DIR_ENTRIES_PER_BLOCK) in
       if negb (nz block) then ret None else
       let! d := ino_get dir in
       let! r := bread (dev_of d) block in
       ret match r with Some b => Some (b, 0) | None => None end) in
  match r with
  | None => ret (inl (i + DIR_ENTRIES_PER_BLOCK, None, off))
  | Some (b, off) =>
      let! e := de_get (b, off) in
      let! s := get in
      if match_ s namelen name e then ret (inr (Some (b, off)))
      else ret (inl (i + 1, Some b, off + DIR_ENTRY_SIZE))
  end.

Definition find_entry (dir name namelen : Z) : K (option (Z * Z) * Z) :=
  let namelen := if NAME_LEN <? namelen then NAME_LEN else namelen in
  let! d := ino_get dir in
  let entries := s32 (i_size d / DIR_ENTRY_SIZE) in
  if negb (nz namelen) then ret (None, dir) else
  let! '(dir, namelen) := dotdot dir name namelen in
  let! d := ino_get dir in
  let block := zone_at d 0 in
  if negb (nz block) then ret (None, dir) else
  let! r := bread (dev_of d) block in
  match r with
  | None => ret (None, dir)
  | Some bh =>
      let! r := loop (find_step dir name namelen entries) (0, Some bh, 0) in
      ret (r, dir)
  end.

(** [for (i=0; i < NAME_LEN; i++) de->name[i] = (i<namelen) ? get_fs_byte(name+i) : 0] *)
Definition copy_name (de : Z * Z) (name namelen : Z) : K unit :=
  for_each (zrange 0 14) (fun k =>
    let! c := (if k <? namelen then get_fs_byte (name + k) else ret 0) in
    de_set_name de k c).

Definition add_step (dir name namelen : Z) (st : Z * option Z * Z)
    : K ((Z * option Z * Z) + option (Z * Z)) :=
  let '(i, bh, off) := st in
  let! r :=
    (if match bh with Some _ => off <? BLOCK_SIZE | None => false end
     then ret (inr match bh with Some b => Some (b, off) | None => None end)
     else
       brelse bh ;;;
       let! block := create_block dir (i / DIR_ENTRIES_PER_BLOCK) in
       if negb (nz block) then ret (inl tt) else
       let! d := ino_get dir in
       let! r := bread (dev_of d) block in
       ret (inr match r with Some b => Some (b, 0) | None => None end)) in
  match r with
  | inl tt => ret (inr None)
  | inr None => ret (inl (i + DIR_ENTRIES_PER_BLOCK, None, off))
  | inr (Some (b, off)) =>
      let! d := ino_get dir in
      let! s := get in
      when (i_size d <=? u32 (i * DIR_ENTRY_SIZE))
        (de_set_inode (b, off) 0 ;;;
         ino_upd dir (fun x => x <| i_size := u32 ((i + 1) * DIR_ENTRY_SIZE) |> <| i_dirt := 1 |>
           <| i_ctime := u32 (CURRENT_TIME s) |>)) ;;;
      let! e := de_get (b, off) in
      if nz (de_inode e) then ret (inl (i + 1, Some b, off + DIR_ENTRY_SIZE)) else
      ino_upd dir (fun x => x <| i_mtime := u32 (CURRENT_TIME s) |>) ;;;
      copy_name (b, off) name namelen ;;;
      set_dirt b ;;;
      ret (inr (Some (b, off)))
  end.

Definition add_entry (dir name namelen : Z) : K (option (Z * Z)) :=
  let namelen := if NAME_LEN <? namelen then NAME_LEN else namelen in
  if negb (nz namelen) then ret None else
  let! d := ino_get dir in
  let block := zone_at d 0 in
  if negb (nz block) then ret None else
  let! r := bread (dev_of d) block in
  match r with
  | None => ret None
  | Some bh => loop (add_step dir name namelen) (0, Some bh, 0)
  end.

(** ** Walking a path *)

(** The next component: its length, the byte that ends it and what follows it. *)
Definition component (pathname : Z) : K (Z * Z * Z) :=
  loop (fun '(namelen, p) =>
    let! c := get_fs_byte p in
    if nz c && negb (c =? 47) then ret (inl (namelen + 1, p + 1)) else ret (inr (namelen, c, p + 1))) (0, pathname).

Definition is_live (p : option Z) : K bool :=
  match p with
  | None => ret false
  | Some i => let! x := ino_get i in ret (nz (i_count x))
  end.

Definition get_dir (pathname : Z) : K (option Z) :=
  let! t := cur in
  let! r := is_live (root t) in
  if negb r then panic "No root inode" else
  let! w := is_live (pwd t) in
  if negb w then panic "No cwd inode" else
  let! c := get_fs_byte pathname in
  if negb (nz c) then ret None else
  let! inode := bh_ptr (if c =? 47 then root t else pwd t) in
  let pathname := if c =? 47 then pathname + 1 else pathname in
  ino_upd inode (set_count (fun c => c + 1)) ;;;
  loop (fun '(inode, pathname) =>
    let thisname := pathname in
    let! i := ino_get inode in
    let! ok := permission inode MAY_EXEC in
    if negb (S_ISDIR (i_mode i)) || negb ok then iput (Some inode) ;;; ret (inr None) else
    let! '(namelen, c, pathname) := component pathname in
    if negb (nz c) then ret (inr (Some inode)) else
    let! '(r, inode) := find_entry inode thisname namelen in
    match r with
    | None => iput (Some inode) ;;; ret (inr None)
    | Some de =>
        let! e := de_get de in
        let! i := ino_get inode in
        brelse (Some de.1) ;;;
        iput (Some inode) ;;;
        let! inode := iget (dev_of i) (de_inode e) in
        ret (inl (inode, pathname))
    end) (inode, pathname).

(** The last component: where it starts and how long it is. *)
Definition base_name (pathname : Z) : K (Z * Z) :=
  loop (fun '(p, basename) =>
    let! c := get_fs_byte p in
    if negb (nz c) then ret (inr (basename, p + 1 - basename - 1))
    else ret (inl (p + 1, if c =? 47 then p + 1 else basename))) (pathname, pathname).

Definition dir_namei (pathname : Z) : K (option (Z * Z * Z)) :=
  let! r := get_dir pathname in
  match r with
  | None => ret None
  | Some dir =>
      let! '(basename, namelen) := base_name pathname in
      ret (Some (dir, basename, namelen))
  end.

Definition namei (pathname : Z) : K (option Z) :=
  let! r := dir_namei pathname in
  match r with
  | None => ret None
  | Some (dir, basename, namelen) =>
      if negb (nz namelen) then ret (Some dir) else
      let! '(r, dir) := find_entry dir basename namelen in
      match r with
      | None => iput (Some dir) ;;; ret None
      | Some de =>
          let! e := de_get de in
          let! d := ino_get dir in
          brelse (Some de.1) ;;;
          iput (Some dir) ;;;
          let! inode := iget (dev_of d) (de_inode e) in
          let! s := get in
          ino_upd inode (fun x => x <| i_atime := u32 (CURRENT_TIME s) |>) ;;;
          ino_upd inode (fun x => x <| i_dirt := 1 |>) ;;;
          ret (Some inode)
      end
  end.

(** ** Opening *)

(** Either the error code or the inode. *)
Definition fail (e : Z) : K (Z + Z) := ret (inl (- e)).

Definition open_namei (pathname flag mode : Z) : K (Z + Z) :=
  let flag := if nz (Z.land flag O_TRUNC) && negb (nz (Z.land flag O_ACCMODE)) then Z.lor flag O_WRONLY else flag in
  let! t := cur in
  let mode := Z.land mode (Z.land 0x1FF (Z.lnot (umask t))) in
  let mode := Z.lor mode I_REGULAR in
  let! r := dir_namei pathname in
  match r with
  | None => fail ENOENT
  | Some (dir, basename, namelen) =>
      if negb (nz namelen) then
        (if negb (nz (Z.land flag (Z.lor O_ACCMODE (Z.lor O_CREAT O_TRUNC)))) then ret (inr dir)
         else iput (Some dir) ;;; fail EISDIR)
      else
      let! '(r, dir) := find_entry dir basename namelen in
      match r with
      | None =>
          if negb (nz (Z.land flag O_CREAT)) then iput (Some dir) ;;; fail ENOENT else
          let! w := permission dir MAY_WRITE in
          if negb w then iput (Some dir) ;;; fail EACCES else
          let! d := ino_get dir in
          let! r := new_inode (dev_of d) in
          match r with
          | None => iput (Some dir) ;;; fail ENOSPC
          | Some inode =>
              let! t := cur in
              ino_upd inode (fun x => x <| i_uid := euid t |>) ;;;
              ino_upd inode (fun x => x <| i_mode := u16 mode |>) ;;;
              ino_upd inode (fun x => x <| i_dirt := 1 |>) ;;;
              let! r := add_entry dir basename namelen in
              match r with
              | None =>
                  ino_upd inode (fun x => x <| i_nlinks ::= fun l => u8 (l - 1) |>) ;;;
                  iput (Some inode) ;;; iput (Some dir) ;;; fail ENOSPC
              | Some de =>
                  let! x := ino_get inode in
                  de_set_inode de (i_num x) ;;;
                  set_dirt de.1 ;;;
                  brelse (Some de.1) ;;;
                  iput (Some dir) ;;;
                  ret (inr inode)
              end
          end
      | Some de =>
          let! e := de_get de in
          let! d := ino_get dir in
          brelse (Some de.1) ;;;
          iput (Some dir) ;;;
          if nz (Z.land flag O_EXCL) then fail EEXIST else
          let! inode := iget (dev_of d) (de_inode e) in
          let! i := ino_get inode in
          let! ok := permission inode (ACC_MODE flag) in
          if (S_ISDIR (i_mode i) && nz (Z.land flag O_ACCMODE)) || negb ok
          then iput (Some inode) ;;; fail EPERM else
          let! s := get in
          ino_upd inode (fun x => x <| i_atime := u32 (CURRENT_TIME s) |>) ;;;
          when (nz (Z.land flag O_TRUNC)) (truncate inode) ;;;
          ret (inr inode)
      end
  end.

(** ** Making and removing entries *)

(** What [sys_mknod], [sys_mkdir], [sys_rmdir] and [sys_unlink] start with: the
    directory, which must be writable, and the name in it; or the error. *)
Definition parent (filename : Z) : K (Z + Z * Z * Z) :=
  let! r := dir_namei filename in
  match r with
  | None => ret (inl (- ENOENT))
  | Some (dir, basename, namelen) =>
      if negb (nz namelen) then iput (Some dir) ;;; ret (inl (- ENOENT)) else
      let! w := permission dir MAY_WRITE in
      if negb w then iput (Some dir) ;;; ret (inl (- EPERM)) else
      ret (inr (dir, basename, namelen))
  end.

Definition set_nlinks (f : Z -> Z) (i : m_inode) : m_inode := i <| i_nlinks ::= fun l => u8 (f l) |>.
Definition touch (inode : Z) (f : Z -> m_inode -> m_inode) : K unit :=
  let! s := get in ino_upd inode (f (u32 (CURRENT_TIME s))).

Definition sys_mknod (filename mode dev : Z) : K Z :=
  let! t := cur in
  if negb (suser t) then ret (- EPERM) else
  let! r := parent filename in
  match r with
  | inl e => ret e
  | inr (dir, basename, namelen) =>
      let! '(r, dir) := find_entry dir basename namelen in
      match r with
      | Some de => brelse (Some de.1) ;;; iput (Some dir) ;;; ret (- EEXIST)
      | None =>
          let! d := ino_get dir in
          let! r := new_inode (dev_of d) in
          match r with
          | None => iput (Some dir) ;;; ret (- ENOSPC)
          | Some inode =>
              ino_upd inode (fun x => x <| i_mode := u16 mode |>) ;;;
              when (S_ISBLK mode || S_ISCHR mode) (ino_upd inode (set_zone 0 dev)) ;;;
              touch inode (fun now x => x <| i_atime := now |> <| i_mtime := now |>) ;;;
              ino_upd inode (fun x => x <| i_dirt := 1 |>) ;;;
              let! r := add_entry dir basename namelen in
              match r with
              | None =>
                  iput (Some dir) ;;;
                  ino_upd inode (fun x => x <| i_nlinks := 0 |>) ;;;
                  iput (Some inode) ;;;
                  ret (- ENOSPC)
              | Some de =>
                  let! x := ino_get inode in
                  de_set_inode de (i_num x) ;;;
                  set_dirt de.1 ;;;
                  iput (Some dir) ;;;
                  iput (Some inode) ;;;
                  brelse (Some de.1) ;;;
                  ret 0
              end
          end
      end
  end.

(** The entries [.] and [..] of a new directory; [strcpy] copies up to the NUL. *)
Definition dot_entries (bh inode dir : Z) : K unit :=
  let! i := ino_get inode in
  de_set_inode (bh, 0) (i_num i) ;;;
  de_set_name (bh, 0) 0 46 ;;; de_set_name (bh, 0) 1 0 ;;;
  let! d := ino_get dir in
  de_set_inode (bh, 16) (i_num d) ;;;
  de_set_name (bh, 16) 0 46 ;;; de_set_name (bh, 16) 1 46 ;;; de_set_name (bh, 16) 2 0.

Definition sys_mkdir (pathname mode : Z) : K Z :=
  let! t := cur in
  if negb (suser t) then ret (- EPERM) else
  let! r := parent pathname in
  match r with
  | inl e => ret e
  | inr (dir, basename, namelen) =>
      let! '(r, dir) := find_entry dir basename namelen in
      match r with
      | Some de => brelse (Some de.1) ;;; iput (Some dir) ;;; ret (- EEXIST)
      | None =>
          let! d := ino_get dir in
          let! r := new_inode (dev_of d) in
          match r with
          | None => iput (Some dir) ;;; ret (- ENOSPC)
          | Some inode =>
              ino_upd inode (fun x => x <| i_size := 32 |>) ;;;
              ino_upd inode (fun x => x <| i_dirt := 1 |>) ;;;
              touch inode (fun now x => x <| i_atime := now |> <| i_mtime := now |>) ;;;
              let! i := ino_get inode in
              let! b := new_block (dev_of i) in
              ino_upd inode (set_zone 0 b) ;;;
              if negb (nz (u16 b)) then
                iput (Some dir) ;;;
                ino_upd inode (set_nlinks (fun l => l - 1)) ;;;
                iput (Some inode) ;;;
                ret (- ENOSPC)
              else
              ino_upd inode (fun x => x <| i_dirt := 1 |>) ;;;
              let! i := ino_get inode in
              let! r := bread (dev_of i) (zone_at i 0) in
              match r with
              | None =>
                  iput (Some dir) ;;;
                  let! i := ino_get inode in
                  free_block (dev_of i) (zone_at i 0) ;;;
                  ino_upd inode (set_nlinks (fun l => l - 1)) ;;;
                  iput (Some inode) ;;;
                  ret (- ERROR)
              | Some dir_block =>
                  dot_entries dir_block inode dir ;;;
                  ino_upd inode (fun x => x <| i_nlinks := 2 |>) ;;;
                  set_dirt dir_block ;;;
                  brelse (Some dir_block) ;;;
                  let! t := cur in
                  ino_upd inode (fun x => x <| i_mode := u16 (Z.lor I_DIRECTORY
                    (Z.land mode (Z.land 0x1FF (Z.lnot (umask t))))) |>) ;;;
                  ino_upd inode (fun x => x <| i_dirt := 1 |>) ;;;
                  let! r := add_entry dir basename namelen in
                  match r with
                  | None =>
                      iput (Some dir) ;;;
                      let! i := ino_get inode in
                      free_block (dev_of i) (zone_at i 0) ;;;
                      ino_upd inode (fun x => x <| i_nlinks := 0 |>) ;;;
                      iput (Some inode) ;;;
                      ret (- ENOSPC)
                  | Some de =>
                      let! x := ino_get inode in
                      de_set_inode de (i_num x) ;;;
                      set_dirt de.1 ;;;
                      ino_upd dir (set_nlinks (fun l => l + 1)) ;;;
                      ino_upd dir (fun x => x <| i_dirt := 1 |>) ;;;
                      iput (Some dir) ;;;
                      iput (Some inode) ;;;
                      brelse (Some de.1) ;;;
                      ret 0
                  end
              end
          end
      end
  end.

(** [!strcmp(s, de->name)] for the names [.] and [..]. *)
Definition is_dot (e : dir_entry) : bool := (name_byte e 0 =? 46) && (name_byte e 1 =? 0).
Definition is_dotdot (e : dir_entry) : bool :=
  (name_byte e 0 =? 46) && (name_byte e 1 =? 46) && (name_byte e 2 =? 0).

(** The scan of [empty_dir] from entry [nr], at offset [off] of buffer [bh]. *)
Definition empty_step (inode len : Z) (st : Z * Z * Z) : K ((Z * Z * Z) + bool) :=
  let '(nr, bh, off) := st in
  if len <=? nr then brelse (Some bh) ;;; ret (inr true) else
  let! r :=
    (if off <? BLOCK_SIZE then ret (inr (inl (bh, off))) else
       brelse (Some bh) ;;;
       let! block := bmap inode (nr / DIR_ENTRIES_PER_BLOCK) in
       if negb (nz block) then ret (inl tt) else
       let! i := ino_get inode in
       let! r := bread (dev_of i) block in
       ret (inr match r with Some b => inl (b, 0) | None => inr tt end)) in
  match r with
  | inl tt => ret (inl (nr + DIR_ENTRIES_PER_BLOCK, bh, off))
  | inr (inr tt) => ret (inr false)
  | inr (inl (b, off)) =>
      let! e := de_get (b, off) in
      if nz (de_inode e) then brelse (Some b) ;;; ret (inr false)
      else ret (inl (nr + 1, b, off + DIR_ENTRY_SIZE))
  end.

Definition empty_dir (inode : Z) : K bool :=
  let! i := ino_get inode in
  let len := s32 (i_size i / DIR_ENTRY_SIZE) in
  let bad := (printk "warning - bad directory" ;;; ret false) in
  if (len <? 2) || negb (nz (zone_at i 0)) then bad else
  let! r := bread (dev_of i) (zone_at i 0) in
  match r with
  | None => bad
  | Some bh =>
      let! e0 := de_get (bh, 0) in
      let! e1 := de_get (bh, 16) in
      let! i := ino_get inode in
      if negb (de_inode e0 =? i_num i) || negb (nz (de_inode e1)) || negb (is_dot e0) || negb (is_dotdot e1)
      then bad else
      loop (empty_step inode len) (2, bh, 32)
  end.

Definition sys_rmdir (name : Z) : K Z :=
  let! t := cur in
  if negb (suser t) then ret (- EPERM) else
  let! r := parent name in
  match r with
  | inl e => ret e
  | inr (dir, basename, namelen) =>
      let! '(r, dir) := find_entry dir basename namelen in
      match r with
      | None => iput (Some dir) ;;; ret (- ENOENT)
      | Some de =>
          let! d := ino_get dir in
          let! e := de_get de in
          let! inode := iget (dev_of d) (de_inode e) in
          let! d := ino_get dir in
          let! i := ino_get inode in
          let! t := cur in
          if (nz (Z.land (i_mode d) S_ISVTX) && nz (euid t) && negb (i_uid i =? euid t))
             || (negb (i_dev i =? i_dev d) || (1 <? i_count i))
          then iput (Some dir) ;;; iput (Some inode) ;;; brelse (Some de.1) ;;; ret (- EPERM) else
          if inode =? dir
          then iput (Some inode) ;;; iput (Some dir) ;;; brelse (Some de.1) ;;; ret (- EPERM) else
          if negb (S_ISDIR (i_mode i))
          then iput (Some inode) ;;; iput (Some dir) ;;; brelse (Some de.1) ;;; ret (- ENOTDIR) else
          let! empty := empty_dir inode in
          if negb empty
          then iput (Some inode) ;;; iput (Some dir) ;;; brelse (Some de.1) ;;; ret (- ENOTEMPTY) else
          let! i := ino_get inode in
          when (negb (i_nlinks i =? 2)) (printk "empty directory has nlink!=2") ;;;
          de_set_inode de 0 ;;;
          set_dirt de.1 ;;;
          brelse (Some de.1) ;;;
          ino_upd inode (fun x => x <| i_nlinks := 0 |>) ;;;
          ino_upd inode (fun x => x <| i_dirt := 1 |>) ;;;
          ino_upd dir (set_nlinks (fun l => l - 1)) ;;;
          touch dir (fun now x => x <| i_mtime := now |> <| i_ctime := now |>) ;;;
          ino_upd dir (fun x => x <| i_dirt := 1 |>) ;;;
          iput (Some dir) ;;;
          iput (Some inode) ;;;
          ret 0
      end
  end.

Definition sys_unlink (name : Z) : K Z :=
  let! r := parent name in
  match r with
  | inl e => ret e
  | inr (dir, basename, namelen) =>
      let! '(r, dir) := find_entry dir basename namelen in
      match r with
      | None => iput (Some dir) ;;; ret (- ENOENT)
      | Some de =>
          let! d := ino_get dir in
          let! e := de_get de in
          let! inode := iget (dev_of d) (de_inode e) in
          let! d := ino_get dir in
          let! i := ino_get inode in
          let! t := cur in
          if nz (Z.land (i_mode d) S_ISVTX) && negb (suser t) && negb (euid t =? i_uid i) && negb (euid t =? i_uid d)
          then iput (Some dir) ;;; iput (Some inode) ;;; brelse (Some de.1) ;;; ret (- EPERM) else
          if S_ISDIR (i_mode i)
          then iput (Some inode) ;;; iput (Some dir) ;;; brelse (Some de.1) ;;; ret (- EPERM) else
          when (negb (nz (i_nlinks i)))
            (printk "Deleting nonexistent file" ;;; ino_upd inode (fun x => x <| i_nlinks := 1 |>)) ;;;
          de_set_inode de 0 ;;;
          set_dirt de.1 ;;;
          brelse (Some de.1) ;;;
          ino_upd inode (set_nlinks (fun l => l - 1)) ;;;
          ino_upd inode (fun x => x <| i_dirt := 1 |>) ;;;
          touch inode (fun now x => x <| i_ctime := now |>) ;;;
          iput (Some inode) ;;;
          iput (Some dir) ;;;
          ret 0
      end
  end.

Definition sys_link (oldname newname : Z) : K Z :=
  let! r := namei oldname in
  match r with
  | None => ret (- ENOENT)
  | Some oldinode =>
      let! o := ino_get oldinode in
      if S_ISDIR (i_mode o) then iput (Some oldinode) ;;; ret (- EPERM) else
      let! r := dir_namei newname in
      match r with
      | None => iput (Some oldinode) ;;; ret (- EACCES)
      | Some (dir, basename, namelen) =>
          if negb (nz namelen) then iput (Some oldinode) ;;; iput (Some dir) ;;; ret (- EPERM) else
          let! d := ino_get dir in
          let! o := ino_get oldinode in
          if negb (i_dev d =? i_dev o) then iput (Some dir) ;;; iput (Some oldinode) ;;; ret (- EXDEV) else
          let! w := permission dir MAY_WRITE in
          if negb w then iput (Some dir) ;;; iput (Some oldinode) ;;; ret (- EACCES) else
          let! '(r, dir) := find_entry dir basename namelen in
          match r with
          | Some de => brelse (Some de.1) ;;; iput (Some dir) ;;; iput (Some oldinode) ;;; ret (- EEXIST)
          | None =>
              let! r := add_entry dir basename namelen in
              match r with
              | None => iput (Some dir) ;;; iput (Some oldinode) ;;; ret (- ENOSPC)
              | Some de =>
                  let! o := ino_get oldinode in
                  de_set_inode de (i_num o) ;;;
                  set_dirt de.1 ;;;
                  brelse (Some de.1) ;;;
                  iput (Some dir) ;;;
                  ino_upd oldinode (set_nlinks (fun l => l + 1)) ;;;
                  touch oldinode (fun now x => x <| i_ctime := now |>) ;;;
                  ino_upd oldinode (fun x => x <| i_dirt := 1 |>) ;;;
                  iput (Some oldinode) ;;;
                  ret 0
              end
          end
      end
  end.
End Names.
