(* ===== verification/Mount.v ===== *)
(** * Mounting file systems: fs/super.c, and the ram disk image of ramdisk.c *)
From Stdlib Require Import ZArith Lia String.
From stdpp Require Import base list.
From S2P Require Import Prelude Resumption Memory KState Sched BlkDev Buffer Super Inode Errno Namei Tty.

(** Superblock-table helpers. *)
Definition sb_put_dev (sb v : Z) : K unit := sb_upd sb (fun s => s <| s_dev := u16 v |>).

(** [sb->s_imap[i] = bh], an index beyond the eight slots being a wild write. *)
Definition set_imap (sb i : Z) (bh : option Z) : K unit :=
  let! s := sb_get sb in
  let! _ := deref (fun _ => arr_get (s_imap s) i) in
  sb_upd sb (fun s => s <| s_imap ::= fun l => arr_set l i bh |>).
Definition set_zmap (sb i : Z) (bh : option Z) : K unit :=
  let! s := sb_get sb in
  let! _ := deref (fun _ => arr_get (s_zmap s) i) in
  sb_upd sb (fun s => s <| s_zmap ::= fun l => arr_set l i bh |>).

(** [map->b_data[0] |= 1] through slot 0, which may be NULL. *)
Definition reserve_first (map : list (option Z)) : K unit :=
  let! bh := bh_ptr (map_slot map 0) in
  bh_upd bh (fun b => b <| b_data ::= fun d => set_byte d 0 (Z.lor (byte_at d 0) 1) |>).

(** The count of zero bits below [n] in a bitmap: the loops of [mount_root]. *)
Definition count_free (map : list (option Z)) (n : Z) : K Z :=
  for_fold (rev (zrange 0 (Z.to_nat n))) 0 (fun free i =>
    let! bh := bh_ptr (map_slot map (Z.shiftr i 13)) in
    let! b := bh_get bh in
    ret (if bit_at (b_data b) (Z.land i 8191) then free else free + 1)).

Section Mounting.
Context {driver : Driver}.

(** Reading the blocks of one bitmap, from [block] on. *)
Definition read_map (sb dev block : Z) (blocks : super_block_t -> Z) (put : Z -> option Z -> K unit) : K Z :=
  loop (fun '(i, block) =>
    let! s := sb_get sb in
    if blocks s <=? i then ret (inr block) else
    let! r := bread dev block in
    put i r ;;;
    match r with
    | Some _ => ret (inl (i + 1, block + 1))
    | None => ret (inr block)
    end) (0, block).

(** The first slot of the super-block table that no device uses. *)
Definition free_super_slot : K (option Z) :=
  for_break (zrange 0 8) (fun i => let! s := sb_get i in ret (if nz (s_dev s) then None else Some i)).

Definition read_super (dev : Z) : K (option Z) :=
  if negb (nz dev) then ret None else
  check_disk_change dev ;;;
  let! r := get_super dev in
  match r with
  | Some s => ret (Some s)
  | None =>
      let! r := free_super_slot in
      match r with
      | None => ret None
      | Some sb =>
          sb_upd sb (fun s => s <| s_dev := u16 dev |> <| s_isup := None |> <| s_imount := None |>
            <| s_time := 0 |> <| s_rd_only := 0 |> <| s_dirt := 0 |>) ;;;
          lock_super sb ;;;
          let! r := bread (u16 dev) 1 in
          match r with
          | None => sb_put_dev sb 0 ;;; free_super sb ;;; ret None
          | Some bh =>
              let! b := bh_get bh in
              sb_upd sb (load_d_super (b_data b)) ;;;
              brelse (Some bh) ;;;
              let! s := sb_get sb in
              if negb (s_magic s =? SUPER_MAGIC) then sb_put_dev sb 0 ;;; free_super sb ;;; ret None else
              sb_upd sb (fun s => s <| s_imap := replicate 8 None |>) ;;;
              sb_upd sb (fun s => s <| s_zmap := replicate 8 None |>) ;;;
              let! block := read_map sb (u16 dev) 2 s_imap_blocks (set_imap sb) in
              let! block := read_map sb (u16 dev) block s_zmap_blocks (set_zmap sb) in
              let! s := sb_get sb in
              if negb (block =? 2 + s_imap_blocks s + s_zmap_blocks s) then
                release_maps sb ;;;
                sb_put_dev sb 0 ;;;
                free_super sb ;;;
                ret None
              else
              reserve_first (s_imap s) ;;;
              reserve_first (s_zmap s) ;;;
              free_super sb ;;;
              ret (Some sb)
          end
      end
  end.

(** Is an inode of [dev] in use? *)
Definition dev_busy (s : kstate) (dev : Z) : bool :=
  existsb (fun i => (i_dev i =? dev) && nz (i_count i)) (inode_table (k_fs s)).

Definition sys_umount (dev_name : Z) : K Z :=
  let! r := namei dev_name in
  match r with
  | None => ret (- ENOENT)
  | Some inode =>
      let! i := ino_get inode in
      let dev := zone_at i 0 in
      if negb (S_ISBLK (i_mode i)) then iput (Some inode) ;;; ret (- ENOTBLK) else
      iput (Some inode) ;;;
      let! s := get in
      if dev =? ROOT_DEV (k_fs s) then ret (- EBUSY) else
      let! r := get_super dev in
      match r with
      | None => ret (- ENOENT)
      | Some sb =>
          let! x := sb_get sb in
          match s_imount x with
          | None => ret (- ENOENT)
          | Some m =>
              let! mi := ino_get m in
              when (negb (nz (i_mount mi))) (printk "Mounted inode has i_mount=0") ;;;
              let! s := get in
              if dev_busy s dev then ret (- EBUSY) else
              ino_upd m (fun x => x <| i_mount := 0 |>) ;;;
              iput (Some m) ;;;
              sb_upd sb (fun x => x <| s_imount := None |>) ;;;
              let! x := sb_get sb in
              iput (s_isup x) ;;;
              sb_upd sb (fun x => x <| s_isup := None |>) ;;;
              put_super dev ;;;
              sync_dev dev ;;;
              ret 0
          end
      end
  end.

Definition sys_mount (dev_name dir_name rw_flag : Z) : K Z :=
  let! r := namei dev_name in
  match r with
  | None => ret (- ENOENT)
  | Some dev_i =>
      let! i := ino_get dev_i in
      let dev := zone_at i 0 in
      if negb (S_ISBLK (i_mode i)) then iput (Some dev_i) ;;; ret (- EPERM) else
      iput (Some dev_i) ;;;
      let! r := namei dir_name in
      match r with
      | None => ret (- ENOENT)
      | Some dir_i =>
          let! d := ino_get dir_i in
          if negb (i_count d =? 1) || (i_num d =? ROOT_INO) then iput (Some dir_i) ;;; ret (- EBUSY) else
          if negb (S_ISDIR (i_mode d)) then iput (Some dir_i) ;;; ret (- EPERM) else
          let! r := read_super dev in
          match r with
          | None => iput (Some dir_i) ;;; ret (- EBUSY)
          | Some sb =>
              let! x := sb_get sb in
              match s_imount x with
              | Some _ => iput (Some dir_i) ;;; ret (- EBUSY)
              | None =>
                  let! d := ino_get dir_i in
                  if nz (i_mount d) then iput (Some dir_i) ;;; ret (- EPERM) else
                  sb_upd sb (fun x => x <| s_imount := Some dir_i |>) ;;;
                  ino_upd dir_i (fun x => x <| i_mount := 1 |>) ;;;
                  ino_upd dir_i (fun x => x <| i_dirt := 1 |>) ;;;
                  ret 0
              end
          end
      end
  end.

Definition mount_root : K unit :=
  for_each (zrange 0 64) (fun i => file_upd i (fun f => f <| f_count := 0 |>)) ;;;
  let! s := get in
  let dev := ROOT_DEV (k_fs s) in
  when (MAJOR dev =? 2) (printk "Insert root floppy and press ENTER" ;;; wait_for_keypress) ;;;
  for_each (zrange 0 8) (fun p =>
    sb_upd p (fun s => s <| s_dev := 0 |> <| s_lock := 0 |> <| s_wait := None |>)) ;;;
  let! s := get in
  let! r := read_super (ROOT_DEV (k_fs s)) in
  match r with
  | None => panic "Unable to mount root"
  | Some p =>
      let! s := get in
      let! mi := iget (ROOT_DEV (k_fs s)) ROOT_INO in
      ino_upd mi (set_count (fun c => c + 3)) ;;;
      sb_upd p (fun s => s <| s_imount := Some mi |> <| s_isup := Some mi |>) ;;;
      cur_upd (fun t => t <| pwd := Some mi |>) ;;;
      cur_upd (fun t => t <| root := Some mi |>) ;;;
      let! s := sb_get p in
      let! free := count_free (s_zmap s) (s_nzones s) in
      printk "free blocks" ;;;
      let! free := count_free (s_imap s) (s_ninodes s + 1) in
      printk "free inodes"
  end.

(** ** Loading a ram disk image from the root floppy *)

(** [memcpy(cp, bh->b_data, BLOCK_SIZE)] to offset [off] of the ram disk. *)
Definition rd_store (off bh : Z) : K unit :=
  let! b := bh_get bh in
  let! s := get in
  set_rd_data (splice (rd_data (k_blk s)) (Z.to_nat off) (b_data b)).

Definition rd_load : K unit :=
  let! s := get in
  if negb (nz (rd_length (k_blk s))) then ret tt else
  if negb (MAJOR (ROOT_DEV (k_fs s)) =? 2) then ret tt else
  let dev := ROOT_DEV (k_fs s) in
  let! r := breada (u16 dev) 257 [256; 258] in
  match r with
  | None => printk "Disk error while looking for ramdisk!"
  | Some bh =>
      let! b := bh_get bh in
      let sb := load_d_super (b_data b) blank_super in
      brelse (Some bh) ;;;
      if negb (s_magic sb =? SUPER_MAGIC) then ret tt else
      let nblocks := s32 (Z.shiftl (s_nzones sb) (Z.land (s_log_zone_size sb) 31)) in
      let! s := get in
      if Z.shiftr (rd_length (k_blk s)) 10 <? nblocks then printk "Ram disk image too big!" else
      let! ok := loop (fun '(nblocks, block, off) =>
        if negb (nz nblocks) then ret (inr true) else
        let! r := (if 2 <? nblocks then breada (u16 dev) block [block + 1; block + 2]
                   else bread (u16 dev) block) in
        match r with
        | None => ret (inr false)
        | Some bh =>
            rd_store off bh ;;;
            brelse (Some bh) ;;;
            ret (inl (nblocks - 1, block + 1, off + BLOCK_SIZE))
        end) (nblocks, 256, 0) in
      when ok (modify (fun s => s <| k_fs ::= fun f => f <| ROOT_DEV := 0x0101 |> |>))
  end.
End Mounting.
