(* ===== verification/Setup.v ===== *)
(** * The system call setup: sys_setup of kernel/blk_drv/hd.c

    The geometry of the drives from the BIOS table [main] keeps, the CMOS byte that
    says which of them the controller knows, the partition tables, and the root file
    system.  [BIOS] is an address in the kernel's data. *)
From Stdlib Require Import ZArith Lia String.
From stdpp Require Import base list.
From S2P Require Import Prelude Resumption Memory KState Sched BlkDev Hd Buffer Super Inode Mount.

Section Setup.
Context {driver : Driver}.

Definition kernel_byte (s : kstate) (a : Z) : Z := ld8 (mem (k_mm s)) (u32 a).
Definition kernel_word (s : kstate) (a : Z) : Z := kernel_byte s a + 256 * kernel_byte s (a + 1).

(** The sixteen bytes of one drive. *)
Definition bios_drive (s : kstate) (a : Z) : hd_i_struct :=
  mkHdInfo (kernel_byte s (a + 2)) (kernel_byte s (a + 14)) (kernel_word s a) (kernel_word s (a + 5))
    (kernel_word s (a + 12)) (kernel_byte s (a + 8)).

Definition set_hd_info (drive : Z) (i : hd_i_struct) : K unit :=
  hd_upd (fun d => d <| hd_info ::= fun l => arr_set l drive i |>).
Definition set_hd (n : Z) (p : hd_struct) : K unit := hd_upd (fun d => d <| hd ::= fun l => arr_set l n p |>).
Definition set_NR_HD (n : Z) : K unit := hd_upd (fun d => d <| NR_HD := n |>).

(** Entry [p] of the partition table in a boot block. *)
Definition partition (data : list Z) (p : Z) : hd_struct :=
  mkHdStruct (s32 (long_at data (0x1BE + 16 * p + 8))) (s32 (long_at data (0x1BE + 16 * p + 12))).

Definition read_partitions (drive : Z) : K unit :=
  let! r := bread (0x300 + drive * 5) 0 in
  match r with
  | None => printk "Unable to read partition table of drive %d" ;;; panic ""
  | Some bh =>
      let! b := bh_get bh in
      if negb (byte_at (b_data b) 510 =? 0x55) || negb (byte_at (b_data b) 511 =? 0xAA) then
        printk "Bad partition table on drive %d" ;;; panic ""
      else
      for_each (zrange 1 4) (fun i => set_hd (i + 5 * drive) (partition (b_data b) (i - 1))) ;;;
      brelse (Some bh)
  end.

Definition partition_tables (nr : Z) : K unit := for_each (zrange 0 (Z.to_nat nr)) read_partitions.

(** The drives that the CMOS knows. *)
Definition cmos_drives (cmos_disks : Z) : Z :=
  if nz (Z.land cmos_disks 0xf0) then if nz (Z.land cmos_disks 0x0f) then 2 else 1 else 0.

Definition sys_setup (BIOS : Z) : K Z :=
  let! d := hd_get in
  if negb (nz (callable d)) then ret (-1) else
  hd_upd (fun d => d <| callable := 0 |>) ;;;
  for_each (zrange 0 2) (fun drive =>
    let! s := get in set_hd_info drive (bios_drive s (BIOS + 16 * drive))) ;;;
  let! i1 := info 1 in
  set_NR_HD (if nz (hd_cyl i1) then 2 else 1) ;;;
  let! d := hd_get in
  for_each (zrange 0 (Z.to_nat (NR_HD d))) (fun i =>
    let! x := info i in
    set_hd (i * 5) (mkHdStruct 0 (s32 (hd_head x * hd_sect x * hd_cyl x)))) ;;;
  let! cmos_disks := CMOS_READ 0x12 in
  set_NR_HD (cmos_drives cmos_disks) ;;;
  let nr := cmos_drives cmos_disks in
  for_each (zrange nr (Z.to_nat (2 - nr))) (fun i => set_hd (i * 5) (mkHdStruct 0 0)) ;;;
  partition_tables nr ;;;
  when (nz nr) (printk "Partition table%s ok.") ;;;
  rd_load ;;;
  mount_root ;;;
  ret 0.
End Setup.
