(* ===== verification/SegmentProps.v ===== *)
(** * Segment descriptors: what is written is what the processor reads back *)
From Stdlib Require Import ZArith Lia String.
From stdpp Require Import base list.
From S2P Require Import Prelude Resumption Memory KState Sched Segment.

(** ** Bits of 32-bit words *)

Definition word32 (x : Z) : Prop := 0 <= x < 4294967296.

Lemma testbit_word32 x i : word32 x -> 32 <= i -> Z.testbit x i = false.
Proof.
  intros [H0 H1] Hi. destruct (Z.eq_dec x 0) as [->|Hx]; [apply Z.bits_0|].
  apply Z.bits_above_log2; [lia|]. assert (Z.log2 x < 32); [|lia]. apply Z.log2_lt_pow2; lia.
Qed.

(** The bit [i] of a constant mask of [n] ones above bit [k]. *)
Lemma testbit_mask k n i :
  0 <= k -> 0 <= n -> Z.testbit (Z.shiftl (Z.ones n) k) i = (k <=? i) && (i <? k + n).
Proof.
  intros Hk Hn. destruct (Z.leb_spec k i).
  - rewrite Z.shiftl_spec by lia. rewrite Z.testbit_ones by lia.
    destruct (Z.leb_spec 0 (i - k)); [|lia]. destruct (Z.ltb_spec (i - k) n), (Z.ltb_spec i (k + n)); simpl; lia || done.
  - destruct (Z.ltb_spec i 0).
    + by rewrite Z.testbit_neg_r.
    + rewrite Z.shiftl_spec_low by lia. done.
Qed.

(** Every mask of the descriptors as a shifted block of ones. *)
Lemma masks :
  0xff000000 = Z.shiftl (Z.ones 8) 24 /\ 0xff = Z.shiftl (Z.ones 8) 0 /\ 0xffff = Z.shiftl (Z.ones 16) 0 /\
  0xffff0000 = Z.shiftl (Z.ones 16) 16 /\ 0xf0000 = Z.shiftl (Z.ones 4) 16 /\ 0xff0000 = Z.shiftl (Z.ones 8) 16 /\
  0xf0 = Z.shiftl (Z.ones 4) 4 /\ 0xfff = Z.shiftl (Z.ones 12) 0.
Proof. repeat split; reflexivity. Qed.

(** The bits of a shift, at any index. *)
Lemma testbit_shiftl x k i : 0 <= k -> Z.testbit (Z.shiftl x k) i = (k <=? i) && Z.testbit x (i - k).
Proof.
  intros Hk. destruct (Z.leb_spec k i); simpl.
  - by rewrite Z.shiftl_spec by lia.
  - destruct (Z_lt_ge_dec i 0); [by rewrite Z.testbit_neg_r|]. by rewrite Z.shiftl_spec_low by lia.
Qed.

Lemma testbit_shiftr x k i : 0 <= k -> Z.testbit (Z.shiftr x k) i = (0 <=? i) && Z.testbit x (i + k).
Proof.
  intros Hk. destruct (Z.leb_spec 0 i); simpl; [by rewrite Z.shiftr_spec by lia|by rewrite Z.testbit_neg_r by lia].
Qed.

Ltac mask_bits :=
  let H1 := fresh in let H2 := fresh in let H3 := fresh in let H4 := fresh in
  let H5 := fresh in let H6 := fresh in let H7 := fresh in let H8 := fresh in
  destruct masks as (H1 & H2 & H3 & H4 & H5 & H6 & H7 & H8);
  rewrite ?H1, ?H2, ?H3, ?H4, ?H5, ?H6, ?H7, ?H8; clear H1 H2 H3 H4 H5 H6 H7 H8.
Ltac bits :=
  repeat first [rewrite Z.lor_spec | rewrite Z.land_spec | rewrite Z.ldiff_spec
    | rewrite testbit_mask by lia | rewrite testbit_shiftl by lia | rewrite testbit_shiftr by lia].

(** Two words agree when their low 32 bits do, position by position, and the
    others do too. *)
Lemma word_ext x y :
  (forall i, Z.testbit x i = Z.testbit y i) -> x = y.
Proof. intros H. apply Z.bits_inj'. auto. Qed.

Lemma bit_cases i : i < 0 \/ In i (zrange 0 32) \/ 32 <= i.
Proof. rewrite zrange_elem. lia. Qed.

(** Compare two words bit by bit. *)
Ltac zcmps :=
  repeat match goal with
  | |- context [ ?a <=? ?b ] => destruct (Z.leb_spec a b); try lia
  | |- context [ ?a <? ?b ] => destruct (Z.ltb_spec a b); try lia
  end; simpl; rewrite ?andb_false_r, ?andb_true_r, ?orb_false_r; try reflexivity.
Ltac bool_split :=
  let f := fresh "f" in generalize Z.testbit; intros f; cbv -[desc_a desc_b];
  repeat match goal with |- context [ f ?x ?j ] => destruct (f x j) end; reflexivity.
Ltac by_bits :=
  mask_bits; apply word_ext; let i := fresh "i" in intros i; bits;
  let H := fresh in destruct (bit_cases i) as [H|[H|H]];
  [ rewrite ?(Z.testbit_neg_r _ i) by done; zcmps
  | simpl in H; repeat (destruct H as [<-|H]; [bool_split|]); destruct H
  | zcmps; repeat match goal with
      | |- context [ Z.testbit ?x ?j ] => rewrite (testbit_word32 x j) by (assumption || lia)
      end; rewrite ?andb_false_r, ?orb_false_r; try reflexivity ].

Lemma get_base_set_base d base : word32 base -> get_base (set_base d base) = base.
Proof. intros Hw. unfold get_base, set_base, blend. simpl. by_bits. Qed.

Lemma limit_field_set_base d base : word32 (desc_a d) -> limit_field (set_base d base) = limit_field d.
Proof. intros Hw. unfold limit_field, set_base, blend. simpl. by_bits. Qed.

Lemma granularity_set_base d base : Z.testbit (desc_b (set_base d base)) 23 = Z.testbit (desc_b d) 23.
Proof.
  unfold set_base, blend. cbn [desc_b]. mask_bits. bits. bool_split.
Qed.

Lemma get_base_set_limit d limit : word32 (desc_b d) -> get_base (set_limit d limit) = get_base d.
Proof.
  intros Hw. unfold get_base, set_limit, blend. simpl. set (l := Z.shiftr (u32 (limit - 1)) 12). clearbody l. by_bits.
Qed.

Lemma limit_field_set_limit d limit :
  limit_field (set_limit d limit) = Z.land (Z.shiftr (u32 (limit - 1)) 12) (Z.shiftl (Z.ones 20) 0).
Proof.
  unfold limit_field, set_limit, blend. simpl. set (l := Z.shiftr (u32 (limit - 1)) 12). clearbody l. by_bits.
Qed.

Lemma granularity_set_limit d limit : Z.testbit (desc_b (set_limit d limit)) 23 = 
  Z.testbit (Z.shiftr (u32 (limit - 1)) 12) 23 || Z.testbit (desc_b d) 23.
Proof.
  unfold set_limit, blend. cbn [desc_b]. set (l := Z.shiftr (u32 (limit - 1)) 12). clearbody l.
  mask_bits. bits. bool_split.
Qed.

Lemma get_limit_set_limit d limit :
  Z.testbit (desc_b d) 23 = true -> limit mod 4096 = 0 -> 0 < limit < 4294967296 ->
  get_limit (set_limit d limit) = limit.
Proof.
  intros Hg Hm Hl. unfold get_limit. rewrite granularity_set_limit, Hg, orb_true_r.
  rewrite limit_field_set_limit, Z.shiftl_0_r, Z.land_ones by lia.
  rewrite (u32_small (limit - 1)) by lia. rewrite Z.shiftr_div_pow2, Z.shiftl_mul_pow2 by lia.
  change (2 ^ 12) with 4096. change (2 ^ 20) with 1048576.
  apply Z.div_exact in Hm; [|done]. set (q := limit / 4096) in *.
  replace (limit - 1) with (4095 + (q - 1) * 4096) by lia. rewrite Z.div_add by done.
  change (4095 / 4096) with 0. rewrite Z.add_0_l, Z.mod_small by lia.
  rewrite <- Z.add_nocarry_lor; [rewrite u32_small; lia|].
  change 0xfff with (Z.ones 12). rewrite Z.land_ones by lia. apply Z.mod_mul. lia.
Qed.

Lemma get_base_tssldt addr type : word32 addr -> 0 <= type < 256 -> get_base (tssldt_desc addr type) = addr.
Proof.
  intros Hw Ht. unfold get_base, tssldt_desc. simpl.
  assert (T : type = Z.land type (Z.shiftl (Z.ones 8) 0)).
  { rewrite Z.shiftl_0_r, Z.land_ones by lia. rewrite Z.mod_small; [done|]. change (2 ^ 8) with 256. lia. }
  rewrite T. clear T.
  change 104 with (Z.land 104 (Z.shiftl (Z.ones 8) 0)). by_bits.
Qed.

Lemma tss_limit addr : get_limit (set_tss_desc addr) = 105.
Proof.
  assert (H : limit_field (set_tss_desc addr) = 104).
  { unfold limit_field, set_tss_desc, tssldt_desc. simpl. change 104 with (Z.land 104 (Z.shiftl (Z.ones 8) 0)) at 1.
    change 137 with (Z.land 137 (Z.shiftl (Z.ones 8) 0)). change 104 with (Z.land 104 (Z.shiftl (Z.ones 8) 0)) at 2. by_bits. }
  assert (G : Z.testbit (desc_b (set_tss_desc addr)) 23 = false).
  { unfold set_tss_desc, tssldt_desc. cbn [desc_b]. change 137 with (Z.land 137 (Z.shiftl (Z.ones 8) 0)). mask_bits. bits. bool_split. }
  unfold get_limit. rewrite G, H. reflexivity.
Qed.

(** C39. A descriptor field reads back as it was written: [set_base] and [set_limit]
    change the base and the limit and nothing else the processor sees, for every
    32-bit base and every positive multiple of the page size, and the TSS and LDT
    descriptors of the global table point at their structure and cover 105 bytes. *)
Theorem descriptor_roundtrip d base limit :
  word32 (desc_a d) -> word32 (desc_b d) -> word32 base ->
  Z.testbit (desc_b d) 23 = true -> limit mod 4096 = 0 -> 0 < limit < 4294967296 ->
  get_base (set_base d base) = base /\ get_limit (set_base d base) = get_limit d /\
  get_limit (set_limit d limit) = limit /\ get_base (set_limit d limit) = get_base d /\
  get_base (set_tss_desc base) = base /\ get_base (set_ldt_desc base) = base /\
  get_limit (set_tss_desc base) = 105.
Proof.
  intros Ha Hb Hw Hg Hm Hl.
  split; [by apply get_base_set_base|].
  split; [unfold get_limit; by rewrite limit_field_set_base, granularity_set_base|].
  split; [by apply get_limit_set_limit|].
  split; [by apply get_base_set_limit|].
  split; [apply (get_base_tssldt base 0x89); [done|lia]|].
  split; [apply (get_base_tssldt base 0x82); [done|lia]|].
  apply tss_limit.
Qed.

Lemma descriptor_roundtrip_witness :
  get_base (set_base (mkDesc 0x9f 0xc0fa00) 0x4000000) = 0x4000000 /\
  get_limit (set_limit (mkDesc 0x9f 0xc0fa00) 0xA0000) = 0xA0000.
Proof.
  destruct (descriptor_roundtrip (mkDesc 0x9f 0xc0fa00) 0x4000000 0xA0000) as (H1 & _ & H2 & _);
    [unfold word32; simpl; lia|unfold word32; simpl; lia|unfold word32; lia|reflexivity|reflexivity|lia|].
  exact (conj H1 H2).
Defined.
