(* ===== verification/Open.v ===== *)
(** * Opening and closing files and changing their attributes: fs/open.c, fs/fcntl.c, fs/stat.c, fs/ioctl.c

    A file descriptor indexes [filp] of the current task, whose entries are indices
    in [file_table]. *)
From Stdlib Require Import ZArith Lia String.
From stdpp Require Import base list.
From S2P Require Import Prelude Resumption Memory KState Sched BlkDev Buffer Super Inode Errno Namei Segment Tty.

(** [current->filp[fd]], and an assignment to it. *)
Definition fd_get (t : task_struct) (fd : Z) : option Z := default None (arr_get (filp t) fd).
Definition set_fd (fd : Z) (f : option Z) : K unit := cur_upd (fun t => t <| filp ::= fun l => arr_set l fd f |>).

(** [current->close_on_exec &= ~(1<<fd)] *)
Definition clear_cloexec (fd : Z) : K unit :=
  cur_upd (fun t => t <| close_on_exec ::= fun c => Z.ldiff c (Z.shiftl 1 fd) |>).

(** The first free descriptor from [lo] on, and the first free file structure. *)
Definition free_fd (t : task_struct) (lo : Z) : option Z :=
  List.find (fun fd => negb (bool_decide (is_Some (fd_get t fd)))) (zrange lo (Z.to_nat (NR_OPEN - lo))).
Definition free_file : K (option Z) :=
  for_break (zrange 0 64) (fun i => let! f := file_get i in ret (if nz (f_count f) then None else Some i)).

Definition tty_pgrp_upd (nr v : Z) : K unit :=
  tty_upd nr (fun t => t <| tty_pgrp := v |>).

Section Open.
Context {driver : Driver}.

(** ** fs/open.c *)

Definition sys_ustat (dev ubuf : Z) : K Z := ret (- ENOSYS).

Definition sys_utime (filename times : Z) : K Z :=
  let! r := namei filename in
  match r with
  | None => ret (- ENOENT)
  | Some inode =>
      let! '(actime, modtime) :=
        (if nz times then
           let! a := get_fs_long times in
           let! m := get_fs_long (times + 4) in
           ret (a, m)
         else let! s := get in ret (u32 (CURRENT_TIME s), u32 (CURRENT_TIME s))) in
      ino_upd inode (fun x => x <| i_atime := actime |>) ;;;
      ino_upd inode (fun x => x <| i_mtime := modtime |>) ;;;
      ino_upd inode (fun x => x <| i_dirt := 1 |>) ;;;
      iput (Some inode) ;;;
      ret 0
  end.

(** The decision of [sys_access] for task [t] on an inode. *)
Definition access_ok (t : task_struct) (i : m_inode) (mode : Z) : bool :=
  let mode := Z.land mode 7 in
  let m := Z.land (i_mode i) 0x1FF in
  let res := if uid t =? i_uid i then Z.shiftr m 6 else if gid t =? i_gid i then Z.shiftr m 6 else m in
  (Z.land (Z.land res 7) mode =? mode) ||
  (negb (nz (uid t)) && (negb (nz (Z.land mode 1)) || nz (Z.land m 0x49))).

Definition sys_access (filename mode : Z) : K Z :=
  let! r := namei filename in
  match r with
  | None => ret (- EACCES)
  | Some inode =>
      let! i := ino_get inode in
      iput (Some inode) ;;;
      let! j := ino_get inode in
      let! t := cur in
      ret (if access_ok t (i <| i_uid := i_uid j |> <| i_gid := i_gid j |>) mode then 0 else - EACCES)
  end.

(** [sys_chdir] and [sys_chroot]: the directory [get] names becomes the new one. *)
Definition change_dir (get_ : task_struct -> option Z) (put : option Z -> task_struct -> task_struct)
    (filename : Z) : K Z :=
  let! r := namei filename in
  match r with
  | None => ret (- ENOENT)
  | Some inode =>
      let! i := ino_get inode in
      if negb (S_ISDIR (i_mode i)) then iput (Some inode) ;;; ret (- ENOTDIR) else
      let! t := cur in
      iput (get_ t) ;;;
      cur_upd (put (Some inode)) ;;;
      ret 0
  end.
Definition sys_chdir : Z -> K Z := change_dir pwd (fun d t => t <| pwd := d |>).
Definition sys_chroot : Z -> K Z := change_dir root (fun d t => t <| root := d |>).

Definition sys_chmod (filename mode : Z) : K Z :=
  let! r := namei filename in
  match r with
  | None => ret (- ENOENT)
  | Some inode =>
      let! i := ino_get inode in
      let! t := cur in
      if negb (euid t =? i_uid i) && negb (suser t) then iput (Some inode) ;;; ret (- EACCES) else
      ino_upd inode (fun x => x <| i_mode := u16 (Z.lor (Z.land mode 0xFFF) (Z.ldiff (i_mode x) 0xFFF)) |>) ;;;
      ino_upd inode (fun x => x <| i_dirt := 1 |>) ;;;
      iput (Some inode) ;;;
      ret 0
  end.

Definition sys_chown (filename uid gid : Z) : K Z :=
  let! r := namei filename in
  match r with
  | None => ret (- ENOENT)
  | Some inode =>
      let! t := cur in
      if negb (suser t) then iput (Some inode) ;;; ret (- EACCES) else
      ino_upd inode (fun x => x <| i_uid := u16 uid |>) ;;;
      ino_upd inode (fun x => x <| i_gid := u8 gid |>) ;;;
      ino_upd inode (fun x => x <| i_dirt := 1 |>) ;;;
      iput (Some inode) ;;;
      ret 0
  end.

(** The terminal rules of [sys_open] for the inode of a character device: false
    when the open must fail. *)
Definition open_tty (i : m_inode) : K bool :=
  let! t := cur in
  if negb (S_ISCHR (i_mode i)) then ret true else
  if MAJOR (zone_at i 0) =? 4 then
    when (nz (leader t) && (tty t <? 0))
      (cur_upd (fun t => t <| tty := MINOR (zone_at i 0) |>) ;;;
       tty_pgrp_upd (MINOR (zone_at i 0)) (pgrp t)) ;;;
    ret true
  else ret (negb ((MAJOR (zone_at i 0) =? 5) && (tty t <? 0))).

Definition sys_open (filename flag mode : Z) : K Z :=
  let! t := cur in
  let mode := Z.land mode (Z.land 0x1FF (Z.lnot (umask t))) in
  match free_fd t 0 with
  | None => ret (- EINVAL)
  | Some fd =>
      clear_cloexec fd ;;;
      let! r := free_file in
      match r with
      | None => ret (- EINVAL)
      | Some f =>
          set_fd fd (Some f) ;;;
          file_upd f (fun x => x <| f_count ::= fun c => u16 (c + 1) |>) ;;;
          let! r := open_namei filename flag mode in
          match r with
          | inl e =>
              set_fd fd None ;;;
              file_upd f (fun x => x <| f_count := 0 |>) ;;;
              ret e
          | inr inode =>
              let! i := ino_get inode in
              let! ok := open_tty i in
              if negb ok then
                iput (Some inode) ;;;
                set_fd fd None ;;;
                file_upd f (fun x => x <| f_count := 0 |>) ;;;
                ret (- EPERM)
              else
              when (S_ISBLK (i_mode i)) (check_disk_change (zone_at i 0)) ;;;
              let! i := ino_get inode in
              file_upd f (fun _ => mkFile (i_mode i) (u16 flag) 1 (Some inode) 0) ;;;
              ret fd
          end
      end
  end.

Definition sys_creat (pathname mode : Z) : K Z := sys_open pathname (Z.lor O_CREAT O_TRUNC) mode.

Definition sys_close (fd : Z) : K Z :=
  let fd := u32 fd in
  if NR_OPEN <=? fd then ret (- EINVAL) else
  clear_cloexec fd ;;;
  let! t := cur in
  match fd_get t fd with
  | None => ret (- EINVAL)
  | Some f =>
      set_fd fd None ;;;
      let! x := file_get f in
      if f_count x =? 0 then panic "Close: file count is 0" else
      file_upd f (fun x => x <| f_count ::= fun c => u16 (c - 1) |>) ;;;
      let! x := file_get f in
      if nz (f_count x) then ret 0 else
      iput (f_inode x) ;;;
      ret 0
  end.

(** ** fs/fcntl.c *)

Definition dupfd (fd arg : Z) : K Z :=
  let! t := cur in
  if (NR_OPEN <=? u32 fd) || negb (bool_decide (is_Some (fd_get t (u32 fd)))) then ret (- EBADF) else
  if NR_OPEN <=? u32 arg then ret (- EINVAL) else
  match free_fd t (u32 arg) with
  | None => ret (- EMFILE)
  | Some arg =>
      clear_cloexec arg ;;;
      let! f := bh_ptr (fd_get t (u32 fd)) in
      set_fd arg (Some f) ;;;
      file_upd f (fun x => x <| f_count ::= fun c => u16 (c + 1) |>) ;;;
      ret arg
  end.

Definition sys_dup2 (oldfd newfd : Z) : K Z := sys_close newfd ;;; dupfd oldfd newfd.
Definition sys_dup (fildes : Z) : K Z := dupfd fildes 0.

Definition F_DUPFD : Z := 0.
Definition F_GETFD : Z := 1.
Definition F_SETFD : Z := 2.
Definition F_GETFL : Z := 3.
Definition F_SETFL : Z := 4.

Definition sys_fcntl (fd cmd arg : Z) : K Z :=
  let fd := u32 fd in
  let! t := cur in
  match (if NR_OPEN <=? fd then None else fd_get t fd) with
  | None => ret (- EBADF)
  | Some f =>
      if cmd =? F_DUPFD then dupfd fd arg
      else if cmd =? F_GETFD then ret (Z.land (Z.shiftr (close_on_exec t) fd) 1)
      else if cmd =? F_SETFD then
        (if nz (Z.land arg 1) then cur_upd (fun t => t <| close_on_exec ::= fun c => Z.lor c (Z.shiftl 1 fd) |>)
         else clear_cloexec fd) ;;;
        ret 0
      else if cmd =? F_GETFL then let! x := file_get f in ret (f_flags x)
      else if cmd =? F_SETFL then
        file_upd f (fun x => x <| f_flags ::= fun v => Z.ldiff v (Z.lor O_APPEND O_NONBLOCK) |>) ;;;
        file_upd f (fun x => x <| f_flags ::= fun v => Z.lor v (Z.land arg (Z.lor O_APPEND O_NONBLOCK)) |>) ;;;
        ret 0
      else ret (-1)
  end.

(** ** fs/stat.c *)

(** The bytes of a [struct stat]; [pad] stands for what C leaves in the holes. *)
Definition stat_bytes (pad : Z) (i : m_inode) : list Z :=
  let w x := [u8 x; u8 (Z.shiftr x 8)] in
  let l x := w x ++ w (Z.shiftr x 16) in
  w (i_dev i) ++ w (i_num i) ++ w (i_mode i) ++ [u8 (i_nlinks i); pad] ++
  w (i_uid i) ++ [u8 (i_gid i); pad] ++ w (zone_at i 0) ++ [pad; pad] ++
  l (i_size i) ++ l (i_atime i) ++ l (i_mtime i) ++ l (i_ctime i).

Section Stat.
Context (pad : Z).

Definition cp_stat (inode statbuf : Z) : K unit :=
  verify_area statbuf 32 ;;;
  let! i := ino_get inode in
  put_fs_bytes (stat_bytes pad i) statbuf.

Definition sys_stat (filename statbuf : Z) : K Z :=
  let! r := namei filename in
  match r with
  | None => ret (- ENOENT)
  | Some inode => cp_stat inode statbuf ;;; iput (Some inode) ;;; ret 0
  end.

Definition sys_fstat (fd statbuf : Z) : K Z :=
  let fd := u32 fd in
  let! t := cur in
  match (if NR_OPEN <=? fd then None else fd_get t fd) with
  | None => ret (- EBADF)
  | Some f =>
      let! x := file_get f in
      match f_inode x with
      | None => ret (- EBADF)
      | Some inode => cp_stat inode statbuf ;;; ret 0
      end
  end.
End Stat.

(** ** fs/ioctl.c *)

(** The [ioctl_table]: only the two terminal majors have an entry. *)
(** [pad] is what C leaves in the hole of a struct termio. *)
Definition sys_ioctl (pad fd cmd arg : Z) : K Z :=
  let fd := u32 fd in
  let! t := cur in
  match (if NR_OPEN <=? fd then None else fd_get t fd) with
  | None => ret (- EBADF)
  | Some f =>
      let! x := file_get f in
      let! inode := bh_ptr (f_inode x) in
      let! i := ino_get inode in
      if negb (S_ISCHR (i_mode i)) && negb (S_ISBLK (i_mode i)) then ret (- EINVAL) else
      let dev := zone_at i 0 in
      if 8 <=? MAJOR dev then ret (- ENODEV) else
      if (MAJOR dev =? 4) || (MAJOR dev =? 5) then tty_ioctl pad dev cmd arg else ret (- ENOTTY)
  end.
End Open.
