(* ===== verification/ReadWrite.v ===== *)
(** * Reading and writing: fs/read_write.c, file_dev.c, block_dev.c, char_dev.c, pipe.c *)
From Stdlib Require Import ZArith Lia String.
From stdpp Require Import base list.
From S2P Require Import Prelude Resumption Memory KState Sched BlkDev Buffer Super Inode Errno Namei Segment Tty Open.

(** [while (chars-- > 0) put_fs_byte( *(p++), buf++)] from offset [off] of a buffer,
    the same loop with zeros, and the loop in the other direction. *)
Definition bh_to_user (bh off buf chars : Z) : K unit :=
  for_each (zrange 0 (Z.to_nat chars)) (fun k =>
    let! b := bh_get bh in put_fs_byte (byte_at (b_data b) (off + k)) (buf + k)).
Definition zeros_to_user (buf chars : Z) : K unit :=
  for_each (zrange 0 (Z.to_nat chars)) (fun k => put_fs_byte 0 (buf + k)).
Definition user_to_bh (bh off buf chars : Z) : K unit :=
  for_each (zrange 0 (Z.to_nat chars)) (fun k =>
    let! c := get_fs_byte (buf + k) in
    bh_upd bh (fun b => b <| b_data ::= fun d => set_byte d (off + k) c |>)).

(** A byte of a page of physical memory, at [page + off]. *)
Definition page_byte (page off : Z) : K Z := gets (fun s => ld8 (mem (k_mm s)) (page + off)).
Definition set_page_byte (page off c : Z) : K unit :=
  on_mm (modify (fun m => m <| mem ::= fun f => store8 f (page + off) c |>)).

Definition file_pos (filp : Z) : K Z := let! f := file_get filp in ret (f_pos f).
Definition set_pos (filp v : Z) : K unit := file_upd filp (fun f => f <| f_pos := s32 v |>).

Section ReadWrite.
Context {driver : Driver}.

(** ** Regular files: fs/file_dev.c *)

(** One round of the loop of [file_read]: [inl] is what is left to read. *)
Definition file_read_step (inode filp buf count left : Z) : K (Z + Z) :=
  if negb (nz left) then ret (inr left) else
  let! pos := file_pos filp in
  let! nr := bmap inode (Z.quot pos BLOCK_SIZE) in
  let! bh :=
    (if nz nr then
       let! i := ino_get inode in
       let! r := bread (dev_of i) nr in
       ret (match r with Some bh => Some (Some bh) | None => None end)
     else ret (Some None)) in
  match bh with
  | None => ret (inr left)
  | Some bh =>
      let! pos := file_pos filp in
      let nr := Z.rem pos BLOCK_SIZE in
      let chars := Z.min (BLOCK_SIZE - nr) left in
      set_pos filp (pos + chars) ;;;
      (match bh with
       | Some b => bh_to_user b nr (buf + (count - left)) chars ;;; brelse (Some b)
       | None => zeros_to_user (buf + (count - left)) chars
       end) ;;;
      ret (inl (left - chars))
  end.

Definition file_read (inode filp buf count : Z) : K Z :=
  if count <=? 0 then ret 0 else
  let! left := loop (file_read_step inode filp buf count) count in
  let! s := get in
  ino_upd inode (fun x => x <| i_atime := u32 (CURRENT_TIME s) |>) ;;;
  ret (if nz (count - left) then count - left else - ERROR).

(** One round of the loop of [file_write], from position [pos], [i] bytes being
    written. *)
Definition file_write_step (inode buf count : Z) (st : Z * Z) : K (Z * Z + Z * Z) :=
  let '(pos, i) := st in
  if count <=? i then ret (inr (pos, i)) else
  let! block := create_block inode (Z.quot pos BLOCK_SIZE) in
  if negb (nz block) then ret (inr (pos, i)) else
  let! x := ino_get inode in
  let! r := bread (dev_of x) block in
  match r with
  | None => ret (inr (pos, i))
  | Some bh =>
      let off := Z.rem pos BLOCK_SIZE in
      set_dirt bh ;;;
      let c := Z.min (BLOCK_SIZE - off) (count - i) in
      let pos := s32 (pos + c) in
      let! x := ino_get inode in
      when (i_size x <? u32 pos)
        (ino_upd inode (fun x => x <| i_size := u32 pos |> <| i_dirt := 1 |>)) ;;;
      user_to_bh bh off (buf + i) c ;;;
      brelse (Some bh) ;;;
      ret (inl (pos, i + c))
  end.

Definition file_write (inode filp buf count : Z) : K Z :=
  let! f := file_get filp in
  let! x := ino_get inode in
  let pos := if nz (Z.land (f_flags f) O_APPEND) then s32 (i_size x) else f_pos f in
  let! '(pos, i) := loop (file_write_step inode buf count) (pos, 0) in
  touch inode (fun now x => x <| i_mtime := now |>) ;;;
  let! f := file_get filp in
  when (negb (nz (Z.land (f_flags f) O_APPEND)))
    (set_pos filp pos ;;; touch inode (fun now x => x <| i_ctime := now |>)) ;;;
  ret (if nz i then i else -1).

(** ** Block devices: fs/block_dev.c *)

(** The loops run over the count left, the block, the offset in it and the number
    of bytes done. *)
Definition block_write_step (dev filp buf : Z) (st : Z * Z * Z * Z) : K (Z * Z * Z * Z + Z) :=
  let '(count, block, offset, written) := st in
  if count <=? 0 then ret (inr written) else
  let chars := Z.min (BLOCK_SIZE - offset) count in
  let! r := (if chars =? BLOCK_SIZE then let! bh := getblk dev block in ret (Some bh)
             else breada dev block [block + 1; block + 2]) in
  match r with
  | None => ret (inr (if nz written then written else - EIO))
  | Some bh =>
      let! pos := file_pos filp in
      set_pos filp (pos + chars) ;;;
      user_to_bh bh offset (buf + written) chars ;;;
      set_dirt bh ;;;
      brelse (Some bh) ;;;
      ret (inl (count - chars, block + 1, 0, written + chars))
  end.

Definition block_write (dev filp buf count : Z) : K Z :=
  let! pos := file_pos filp in
  loop (block_write_step dev filp buf) (count, Z.shiftr pos 10, Z.land pos 1023, 0).

Definition block_read_step (dev filp buf : Z) (st : Z * Z * Z * Z) : K (Z * Z * Z * Z + Z) :=
  let '(count, block, offset, read) := st in
  if count <=? 0 then ret (inr read) else
  let chars := Z.min (BLOCK_SIZE - offset) count in
  let! r := breada dev block [block + 1; block + 2] in
  match r with
  | None => ret (inr (if nz read then read else - EIO))
  | Some bh =>
      let! pos := file_pos filp in
      set_pos filp (pos + chars) ;;;
      bh_to_user bh offset (buf + read) chars ;;;
      brelse (Some bh) ;;;
      ret (inl (count - chars, block + 1, 0, read + chars))
  end.

Definition block_read (dev filp buf count : Z) : K Z :=
  let! pos := file_pos filp in
  loop (block_read_step dev filp buf) (count, Z.shiftr (u32 pos) 10, Z.land pos 1023, 0).

(** ** Character devices: fs/char_dev.c *)

Definition rw_ttyx (rw minor buf count filp : Z) : K Z :=
  if rw =? READ then tty_read minor buf count else tty_write minor buf count.

Definition rw_tty (rw minor buf count filp : Z) : K Z :=
  let! t := cur in
  if tty t <? 0 then ret (- EPERM) else rw_ttyx rw (tty t) buf count filp.

Definition rw_ram (rw buf count filp : Z) : K Z := ret (- EIO).
Definition rw_mem (rw buf count filp : Z) : K Z := ret (- EIO).
Definition rw_kmem (rw buf count filp : Z) : K Z := ret (- EIO).

Definition rw_port (rw buf count filp : Z) : K Z :=
  let! pos := file_pos filp in
  let! i := loop (fun '(k, i) =>
    if (0 <? count - k) && (i <? 65536) then
      (if rw =? READ then let! v := inb i in put_fs_byte v (buf + k)
       else let! v := get_fs_byte (buf + k) in outb v i) ;;;
      ret (inl (k + 1, i + 1))
    else ret (inr i)) (0, pos) in
  let! pos := file_pos filp in
  set_pos filp (pos + (i - pos)) ;;;
  ret (i - pos).

Definition rw_memory (rw minor buf count filp : Z) : K Z :=
  match minor with
  | 0 => rw_ram rw buf count filp
  | 1 => rw_mem rw buf count filp
  | 2 => rw_kmem rw buf count filp
  | 3 => ret (if rw =? READ then 0 else count)
  | 4 => rw_port rw buf count filp
  | _ => ret (- EIO)
  end.

(** [crw_table], and the call through it. *)
Definition crw_table : list (option (Z -> Z -> Z -> Z -> Z -> K Z)) :=
  [None; Some rw_memory; None; None; Some rw_ttyx; Some rw_tty; None; None].

Definition rw_char (rw dev buf count filp : Z) : K Z :=
  if 8 <=? MAJOR dev then ret (- ENODEV) else
  match default None (arr_get crw_table (MAJOR dev)) with
  | None => ret (- ENODEV)
  | Some call_addr => call_addr rw (MINOR dev) buf count filp
  end.

(** ** Pipes: fs/pipe.c *)

Definition PAGE_SIZE : Z := 4096.
Definition PIPE_HEAD (i : m_inode) : Z := zone_at i 0.
Definition PIPE_TAIL (i : m_inode) : Z := zone_at i 1.
Definition PIPE_SIZE (i : m_inode) : Z := Z.land (PIPE_HEAD i - PIPE_TAIL i) (PAGE_SIZE - 1).

(** Wait until [room] of the pipe is not zero; no size when the other end is gone. *)
Definition pipe_wait (inode : Z) (room : m_inode -> Z) : K (option Z) :=
  loop (fun _ : unit =>
    let! i := ino_get inode in
    if nz (room i) then ret (inr (Some (room i))) else
    wake_up (inode_wait inode) ;;;
    let! i := ino_get inode in
    if negb (i_count i =? 2) then ret (inr None) else
    sleep_on (inode_wait inode) ;;;
    ret (inl tt)) tt.

Definition read_pipe_step (inode buf : Z) (st : Z * Z) : K (Z * Z + Z) :=
  let '(count, read) := st in
  if count <=? 0 then wake_up (inode_wait inode) ;;; ret (inr read) else
  let! r := pipe_wait inode PIPE_SIZE in
  match r with
  | None => ret (inr read)
  | Some size =>
      let! i := ino_get inode in
      let chars := Z.min (Z.min (PAGE_SIZE - PIPE_TAIL i) count) size in
      ino_upd inode (set_zone 1 (Z.land (u16 (PIPE_TAIL i + chars)) (PAGE_SIZE - 1))) ;;;
      for_each (zrange 0 (Z.to_nat chars)) (fun k =>
        let! c := page_byte (i_size i) (PIPE_TAIL i + k) in
        put_fs_byte c (buf + read + k)) ;;;
      ret (inl (count - chars, read + chars))
  end.

Definition read_pipe (inode buf count : Z) : K Z := loop (read_pipe_step inode buf) (count, 0).

Definition write_pipe_step (inode buf : Z) (st : Z * Z) : K (Z * Z + Z) :=
  let '(count, written) := st in
  if count <=? 0 then wake_up (inode_wait inode) ;;; ret (inr written) else
  let! r := pipe_wait inode (fun i => (PAGE_SIZE - 1) - PIPE_SIZE i) in
  match r with
  | None =>
      cur_upd (fun t => t <| signal ::= fun x => Z.lor x (sigbit SIGPIPE) |>) ;;;
      ret (inr (if nz written then written else -1))
  | Some size =>
      let! i := ino_get inode in
      let chars := Z.min (Z.min (PAGE_SIZE - PIPE_HEAD i) count) size in
      ino_upd inode (set_zone 0 (Z.land (u16 (PIPE_HEAD i + chars)) (PAGE_SIZE - 1))) ;;;
      for_each (zrange 0 (Z.to_nat chars)) (fun k =>
        let! c := get_fs_byte (buf + written + k) in
        set_page_byte (i_size i) (PIPE_HEAD i + k) c) ;;;
      ret (inl (count - chars, written + chars))
  end.

Definition write_pipe (inode buf count : Z) : K Z := loop (write_pipe_step inode buf) (count, 0).

(** The first two free file structures, taken as they are found. *)
Definition take_files : K (list Z) :=
  for_fold (zrange 0 64) [] (fun l i =>
    if (2 <=? length l)%nat then ret l else
    let! f := file_get i in
    if nz (f_count f) then ret l else
    file_upd i (fun f => f <| f_count ::= fun c => u16 (c + 1) |>) ;;; ret (l ++ [i])).

(** The first two free descriptors, given to the files [fs]. *)
Definition take_fds (fs : list Z) : K (list Z) :=
  for_fold (zrange 0 20) [] (fun l i =>
    if (2 <=? length l)%nat then ret l else
    let! t := cur in
    if bool_decide (is_Some (fd_get t i)) then ret l else
    set_fd i (fs !! length l) ;;; ret (l ++ [i])).

Definition put_files (fs : list Z) : K unit := for_each fs (fun f => file_upd f (fun x => x <| f_count := 0 |>)).
Definition put_fds (fds : list Z) : K unit := for_each fds (fun fd => set_fd fd None).

Definition sys_pipe (fildes : Z) : K Z :=
  let! fs := take_files in
  match fs with
  | [f0; f1] =>
      let! fds := take_fds fs in
      match fds with
      | [d0; d1] =>
          let! r := get_pipe_inode in
          match r with
          | None => put_fds fds ;;; put_files fs ;;; ret (-1)
          | Some inode =>
              for_each fs (fun f => file_upd f (fun x => x <| f_inode := Some inode |> <| f_pos := 0 |>)) ;;;
              file_upd f0 (fun x => x <| f_mode := 1 |>) ;;;
              file_upd f1 (fun x => x <| f_mode := 2 |>) ;;;
              put_fs_long d0 fildes ;;;
              put_fs_long d1 (fildes + 4) ;;;
              ret 0
          end
      | _ => put_fds fds ;;; put_files fs ;;; ret (-1)
      end
  | _ => put_files fs ;;; ret (-1)
  end.

(** ** The system calls: fs/read_write.c *)

Definition IS_SEEKABLE (x : Z) : bool := (1 <=? x) && (x <=? 3).

(** The file behind a descriptor. *)
Definition fd_file (t : task_struct) (fd : Z) : option Z := if NR_OPEN <=? u32 fd then None else fd_get t (u32 fd).

Definition sys_lseek (fd offset origin : Z) : K Z :=
  let! t := cur in
  match fd_file t fd with
  | None => ret (- EBADF)
  | Some file =>
      let! f := file_get file in
      match f_inode f with
      | None => ret (- EBADF)
      | Some inode =>
          let! i := ino_get inode in
          if negb (IS_SEEKABLE (MAJOR (i_dev i))) then ret (- EBADF) else
          if nz (i_pipe i) then ret (- ESPIPE) else
          let pos :=
            match origin with
            | 0 => Some offset
            | 1 => Some (s32 (f_pos f + offset))
            | 2 => Some (s32 (i_size i + offset))
            | _ => None
            end in
          match pos with
          | None => ret (- EINVAL)
          | Some p => if p <? 0 then ret (- EINVAL) else set_pos file p ;;; ret p
          end
      end
  end.

Definition sys_read (fd buf count : Z) : K Z :=
  let! t := cur in
  if count <? 0 then ret (- EINVAL) else
  match fd_file t fd with
  | None => ret (- EINVAL)
  | Some file =>
      if negb (nz count) then ret 0 else
      verify_area buf count ;;;
      let! f := file_get file in
      let! inode := bh_ptr (f_inode f) in
      let! i := ino_get inode in
      if nz (i_pipe i) then (if nz (Z.land (f_mode f) 1) then read_pipe inode buf count else ret (- EIO)) else
      if S_ISCHR (i_mode i) then rw_char READ (zone_at i 0) buf count file else
      if S_ISBLK (i_mode i) then block_read (zone_at i 0) file buf count else
      if S_ISDIR (i_mode i) || S_ISREG (i_mode i) then
        let count := if i_size i <? u32 (count + f_pos f) then s32 (i_size i - f_pos f) else count in
        if count <=? 0 then ret 0 else file_read inode file buf count
      else ret (- EINVAL)
  end.

Definition sys_write (fd buf count : Z) : K Z :=
  let! t := cur in
  if count <? 0 then ret (- EINVAL) else
  match fd_file t fd with
  | None => ret (- EINVAL)
  | Some file =>
      if negb (nz count) then ret 0 else
      let! f := file_get file in
      let! inode := bh_ptr (f_inode f) in
      let! i := ino_get inode in
      if nz (i_pipe i) then (if nz (Z.land (f_mode f) 2) then write_pipe inode buf count else ret (- EIO)) else
      if S_ISCHR (i_mode i) then rw_char WRITE (zone_at i 0) buf count file else
      if S_ISBLK (i_mode i) then block_write (zone_at i 0) file buf count else
      if S_ISREG (i_mode i) then file_write inode file buf count
      else ret (- EINVAL)
  end.
End ReadWrite.
