(* ===== verification/PipeProps.v ===== *)
(** * Pipes are byte queues

    The ring buffer of fs/pipe.c, a page of physical memory with a head and a tail,
    implements a queue of at most 4095 bytes: [write_pipe] appends at the end of the
    queue, [read_pipe] takes from its front, in the order of writing. *)
From Stdlib Require Import ZArith Lia String.
From stdpp Require Import base list.
From S2P Require Import Prelude Resumption Memory KState Runs Sched BlkDev Buffer Super Inode Errno Namei Segment Open ReadWrite.

(** ** The loops that copy bytes *)

Definition with_mem (f : Z -> Z) (s : kstate) : kstate := s <| k_mm ::= fun m => m <| mem := f |> |>.
Definition with_user (u : Z -> Z -> Z) (s : kstate) : kstate := s <| k_user := u |>.

(** The byte at [page + off], and the byte at [a] of the running task. *)
Definition page_at (s : kstate) (a : Z) : Z := ld8 (mem (k_mm s)) a.
Definition user_at (s : kstate) (a : Z) : Z := k_user s (current (k_sched s)) (u32 a).

Lemma u8_byte x : 0 <= x < 256 -> u8 x = x.
Proof. apply u8_small. Qed.

(** From user memory to the page. *)
Lemma copy_in_run page base buf n m s :
  exists f, for_each (zrange 0 m) (fun k =>
      let! c := get_fs_byte (buf + k) in set_page_byte page (base + k) c) n s = Done tt (with_mem f s) /\
    forall a, ld8 f a = if decide (page + base <= a < page + base + Z.of_nat m)
                        then u8 (user_at s (buf + (a - (page + base)))) else page_at s a.
Proof.
  enough (H : forall lo, exists f, for_each (zrange lo m) (fun k =>
      let! c := get_fs_byte (buf + k) in set_page_byte page (base + k) c) n s = Done tt (with_mem f s) /\
    forall a, ld8 f a = if decide (page + base + lo <= a < page + base + lo + Z.of_nat m)
                        then u8 (user_at s (buf + (a - (page + base)))) else page_at s a).
  { destruct (H 0) as (f & E & Hf). exists f. split; [done|]. intros a. rewrite Hf, Z.add_0_r. done. }
  revert s. induction m as [|m IH]; intros s lo; cbn [zrange for_each].
  - exists (mem (k_mm s)). split; [by destruct s as [[] ? ? ? ? ? ?]|]. intros a. by rewrite decide_False by lia.
  - set (c := user_at s (buf + lo)). set (s1 := with_mem (store8 (mem (k_mm s)) (page + (base + lo)) c) s).
    assert (E : (let! c := get_fs_byte (buf + lo) in set_page_byte page (base + lo) c) n s = Done tt s1) by done.
    step E. destruct (IH s1 (lo + 1)) as (f & E' & Hf). exists f. rewrite E'. split; [done|].
    intros a. rewrite Hf. change (user_at s1) with (user_at s).
    change (page_at s1 a) with (ld8 (store8 (mem (k_mm s)) (page + (base + lo)) c) a). rewrite ld8_store8.
    repeat case_decide; try lia; destruct (Z.eqb_spec a (page + (base + lo))); try lia; try done.
    subst a. unfold c. do 2 f_equal. lia.
Qed.

(** From the page to user memory. *)
Lemma copy_out_run page base buf n m s :
  Z.of_nat m <= 2 ^ 32 ->
  exists u, for_each (zrange 0 m) (fun k =>
      let! c := page_byte page (base + k) in put_fs_byte c (buf + k)) n s = Done tt (with_user u s) /\
    (forall k, 0 <= k < Z.of_nat m -> u (current (k_sched s)) (u32 (buf + k)) = u8 (page_at s (page + (base + k)))) /\
    (forall t a, (forall k, 0 <= k < Z.of_nat m -> t <> current (k_sched s) \/ a <> u32 (buf + k)) -> u t a = k_user s t a).
Proof.
  intros Hm.
  enough (H : forall lo, exists u, for_each (zrange lo m) (fun k =>
      let! c := page_byte page (base + k) in put_fs_byte c (buf + k)) n s = Done tt (with_user u s) /\
    (forall k, lo <= k < lo + Z.of_nat m -> u (current (k_sched s)) (u32 (buf + k)) = u8 (page_at s (page + (base + k)))) /\
    (forall t a, (forall k, lo <= k < lo + Z.of_nat m -> t <> current (k_sched s) \/ a <> u32 (buf + k)) -> u t a = k_user s t a)).
  { destruct (H 0) as (u & H0). by exists u. }
  revert s. induction m as [|m IH]; intros s lo; cbn [zrange for_each].
  - exists (k_user s). split; [by destruct s|]. split; [lia|done].
  - set (c := page_at s (page + (base + lo))).
    set (s1 := with_user (fun t a => if (t =? current (k_sched s)) && (a =? u32 (buf + lo)) then u8 c else k_user s t a) s).
    assert (E : (let! c := page_byte page (base + lo) in put_fs_byte c (buf + lo)) n s = Done tt s1) by done.
    step E. destruct (IH ltac:(lia) s1 (lo + 1)) as (u & E' & H1 & H2). exists u. rewrite E'. split; [done|].
    change (current (k_sched s1)) with (current (k_sched s)) in *. split.
    + intros k Hk. destruct (decide (k = lo)) as [->|Hne]; [|rewrite H1 by lia; done].
      rewrite H2.
      * change (k_user s1 (current (k_sched s)) (u32 (buf + lo))) with
          (if (current (k_sched s) =? current (k_sched s)) && (u32 (buf + lo) =? u32 (buf + lo)) then u8 c
           else k_user s (current (k_sched s)) (u32 (buf + lo))).
        by rewrite !Z.eqb_refl.
      * intros k Hk'. right. unfold u32. intros E2. Z.to_euclidean_division_equations; lia.
    + intros t a Hta. rewrite H2 by (intros k Hk'; apply Hta; lia).
      change (k_user s1 t a) with (if (t =? current (k_sched s)) && (a =? u32 (buf + lo)) then u8 c else k_user s t a).
      destruct (Hta lo ltac:(lia)) as [Ht|Ha]; destruct (Z.eqb_spec t (current (k_sched s))), (Z.eqb_spec a (u32 (buf + lo))); done.
Qed.

(** ** The ring buffer *)

(** The [c] bytes of the running task's memory from [a] on. *)
Definition user_bytes (s : kstate) (a c : Z) : list Z := map (fun k => u8 (user_at s (a + k))) (zrange 0 (Z.to_nat c)).

(** Pipe inode [i] is [x], and the bytes from its tail to its head are [q]. *)
Record pipe_holds (s : kstate) (i : Z) (x : m_inode) (q : list Z) : Prop := mkPipeHolds {
  ph_inode : arr_get (inode_table (k_fs s)) i = Some x;
  ph_zones : (2 <= length (i_zone x))%nat;
  ph_head : 0 <= PIPE_HEAD x < 4096;
  ph_tail : 0 <= PIPE_TAIL x < 4096;
  ph_size : Z.of_nat (length q) = PIPE_SIZE x;
  ph_bytes : forall k, 0 <= k < Z.of_nat (length q) ->
    q !! Z.to_nat k = Some (page_at s (i_size x + (PIPE_TAIL x + k) mod 4096));
  ph_wait : forall h, i_wait x = Some h -> is_Some (task_slot s h)
}.

Lemma PIPE_SIZE_eq x : PIPE_SIZE x = (PIPE_HEAD x - PIPE_TAIL x) mod 4096.
Proof. unfold PIPE_SIZE, PAGE_SIZE. change (4096 - 1) with (Z.ones 12). by rewrite Z.land_ones. Qed.

Lemma land_4095 v : 0 <= v < 65536 -> Z.land (u16 v) (PAGE_SIZE - 1) = v mod 4096.
Proof. intros Hv. rewrite u16_small by done. unfold PAGE_SIZE. change (4096 - 1) with (Z.ones 12). by rewrite Z.land_ones. Qed.

Lemma zone_at_set k k' v x : 0 <= k < Z.of_nat (length (i_zone x)) ->
  zone_at (set_zone k v x) k' = if decide (k = k') then u16 v else zone_at x k'.
Proof.
  intros Hk. unfold zone_at. change (i_zone (set_zone k v x)) with (arr_set (i_zone x) k (u16 v)). case_decide as E.
  - subst. rewrite arr_get_set_eq by done. simpl. apply u16_small, u16_range.
  - by rewrite arr_get_set_ne.
Qed.

Lemma user_bytes_length s a c : 0 <= c -> Z.of_nat (length (user_bytes s a c)) = c.
Proof. intros Hc. unfold user_bytes. rewrite length_map, zrange_length. lia. Qed.

Lemma user_bytes_lookup s a c k : 0 <= k < c -> user_bytes s a c !! Z.to_nat k = Some (u8 (user_at s (a + k))).
Proof.
  intros Hk. unfold user_bytes. rewrite list_lookup_fmap, zrange_lookup by lia. simpl. do 3 f_equal. lia.
Qed.

Lemma user_bytes_app s a c d : 0 <= c -> 0 <= d -> user_bytes s a (c + d) = user_bytes s a c ++ user_bytes s (a + c) d.
Proof.
  intros Hc Hd. apply list_eq. intros k. destruct (decide (k < Z.to_nat c)%nat).
  - rewrite lookup_app_l by (pose proof (user_bytes_length s a c Hc); lia).
    replace k with (Z.to_nat (Z.of_nat k)) by lia. by rewrite !user_bytes_lookup by lia.
  - rewrite lookup_app_r by (pose proof (user_bytes_length s a c Hc); lia).
    destruct (decide (k < Z.to_nat (c + d))%nat).
    + replace (k - length (user_bytes s a c))%nat with (Z.to_nat (Z.of_nat k - c)) by (pose proof (user_bytes_length s a c Hc); lia).
      replace k with (Z.to_nat (Z.of_nat k)) at 1 by lia. rewrite !user_bytes_lookup by lia. do 3 f_equal. lia.
    + rewrite !lookup_ge_None_2; [done| |].
      * pose proof (user_bytes_length s a c Hc). pose proof (user_bytes_length s (a + c) d Hd). lia.
      * pose proof (user_bytes_length s a (c + d) ltac:(lia)). lia.
Qed.

Lemma pipe_inode_get s i x q n : pipe_holds s i x q -> ino_get i n s = Done x s.
Proof. intros H. by apply ino_get_run, H. Qed.

Lemma pipe_wait_run s i x q room n :
  pipe_holds s i x q -> room x <> 0 -> (0 < n)%nat -> pipe_wait i room n s = Done (Some (room x)) s.
Proof.
  intros H Hr Hn. apply loop_once; [done|]. step (pipe_inode_get s i x q n H).
  by replace (nz (room x)) with true by (symmetry; by apply nz_true).
Qed.

(** One round of [write_pipe]. *)
Lemma write_round s i x q buf count written n :
  pipe_holds s i x q -> 0 < count -> Z.of_nat (length q) < 4095 -> (0 < n)%nat ->
  let c := Z.min (Z.min (4096 - PIPE_HEAD x) count) (4095 - Z.of_nat (length q)) in
  exists f x', let s' := with_mem f (set_inodes (arr_set (inode_table (k_fs s)) i x') s) in
    write_pipe_step i buf (count, written) n s = Done (inl (count - c, written + c)) s' /\
    pipe_holds s' i x' (q ++ user_bytes s (buf + written) c) /\ i_size x' = i_size x /\
    forall a, ~ i_size x <= a < i_size x + 4096 -> page_at s' a = page_at s a.
Proof.
  intros H Hc Hq Hn c. pose proof H as [Hi Hz Hh Ht Hs Hb Hw].
  unfold write_pipe_step. destruct (Z.leb_spec count 0) as [?|_]; [lia|].
  assert (Hr : (PAGE_SIZE - 1) - PIPE_SIZE x = 4095 - Z.of_nat (length q)) by (rewrite Hs; done).
  step (pipe_wait_run s i x q (fun i => (PAGE_SIZE - 1) - PIPE_SIZE i) n H ltac:(cbv beta; lia) Hn). rewrite Hr. step (pipe_inode_get s i x q n H).
  change (Z.min (Z.min (PAGE_SIZE - PIPE_HEAD x) count) (4095 - Z.of_nat (length q))) with c.
  assert (Hc' : 1 <= c <= 4096) by lia. set (x' := set_zone 0 (Z.land (u16 (PIPE_HEAD x + c)) (PAGE_SIZE - 1)) x).
  step (ino_upd_run i (set_zone 0 (Z.land (u16 (PIPE_HEAD x + c)) (PAGE_SIZE - 1))) x n s Hi). fold x'.
  set (s1 := set_inodes _ s).
  destruct (copy_in_run (i_size x) (PIPE_HEAD x) (buf + written) n (Z.to_nat c) s1) as (f & E & Hf). step E.
  exists f, x'. cbv zeta. split; [done|]. rewrite Z2Nat.id in Hf by lia.
  pose proof (arr_get_Some_range _ _ _ Hi) as Hri.
  assert (Eh : PIPE_HEAD x' = (PIPE_HEAD x + c) mod 4096).
  { unfold PIPE_HEAD at 1, x'. rewrite zone_at_set by lia. rewrite decide_True by done. rewrite land_4095 by lia. apply u16_small.
    pose proof (Z.mod_pos_bound (PIPE_HEAD x + c) 4096). lia. }
  assert (Et : PIPE_TAIL x' = PIPE_TAIL x) by (unfold PIPE_TAIL, x'; by rewrite zone_at_set by lia).
  rewrite PIPE_SIZE_eq in Hs. split; [|split; [done|]].
  - split.
    + exact (arr_get_set_eq _ i x' Hri).
    + etrans; [exact Hz|]. by rewrite <- (arr_set_length (i_zone x) 0 (u16 (Z.land (u16 (PIPE_HEAD x + c)) (PAGE_SIZE - 1)))).
    + rewrite Eh. apply Z.mod_pos_bound. lia.
    + by rewrite Et.
    + rewrite PIPE_SIZE_eq, Eh, Et, length_app, Nat2Z.inj_add, user_bytes_length by lia.
      Z.to_euclidean_division_equations; lia.
    + rewrite Et. change (i_size x') with (i_size x). rewrite length_app, Nat2Z.inj_add, user_bytes_length by lia. intros k Hk.
      change (page_at _ ?a) with (ld8 f a). rewrite Hf. destruct (Z.ltb_spec k (Z.of_nat (length q))) as [Hlt|Hge].
      * rewrite lookup_app_l, Hb by lia. rewrite decide_False; [done|]. Z.to_euclidean_division_equations; lia.
      * rewrite lookup_app_r by lia. replace (Z.to_nat k - length q)%nat with (Z.to_nat (k - Z.of_nat (length q))) by lia.
        rewrite user_bytes_lookup by lia.
        assert (Ea : (PIPE_TAIL x + k) mod 4096 = PIPE_HEAD x + (k - Z.of_nat (length q))) by (Z.to_euclidean_division_equations; lia).
        rewrite Ea, decide_True by lia. do 2 f_equal. change (user_at s1) with (user_at s). f_equal. lia.
    + exact Hw.
  - intros a Ha. change (page_at _ a) with (ld8 f a) at 1. rewrite Hf, decide_False by lia. done.
Qed.

(** What the other routines see of a step on a pipe. *)
Record pipe_frame (s s' : kstate) : Prop := mkPipeFrame {
  pf_current : current (k_sched s') = current (k_sched s);
  pf_tasks : forall j, is_Some (task_slot s j) -> is_Some (task_slot s' j)
}.

Lemma pipe_frame_refl s : pipe_frame s s.
Proof. by split. Qed.
Lemma pipe_frame_trans s1 s2 s3 : pipe_frame s1 s2 -> pipe_frame s2 s3 -> pipe_frame s1 s3.
Proof. intros [H1 H2] [H3 H4]. split; [congruence|auto]. Qed.

Lemma wake_pipe_run s i x q n : pipe_holds s i x q ->
  exists s' x', wake_up (inode_wait i) n s = Done tt s' /\ pipe_holds s' i x' q /\ pipe_frame s s' /\
    k_mm s' = k_mm s /\ k_user s' = k_user s /\ i_size x' = i_size x /\ i_count x' = i_count x /\ PIPE_SIZE x' = PIPE_SIZE x.
Proof.
  intros H. pose proof H as [Hi Hz Hh Ht Hs Hb Hw]. unfold wake_up. step (get_run n s).
  change (wq_get (inode_wait i) s) with (match arr_get (inode_table (k_fs s)) i with Some b => i_wait b | None => None end).
  rewrite Hi. destruct (i_wait x) as [h|] eqn:Ew; cycle 1.
  { exists s, x. split; [done|]. split; [done|]. split; [apply pipe_frame_refl|done]. }
  destruct (Hw h eq_refl) as [th Hth]. unfold wake_task.
  step (task_upd_run h (fun t => t <| state := TASK_RUNNING |>) th n s Hth). set (s1 := set_slot h _ s).
  exists (wq_put (inode_wait i) None s1), (x <| i_wait := None |>). split; [done|].
  assert (E : wq_put (inode_wait i) None s1 = set_inodes (arr_set (inode_table (k_fs s)) i (x <| i_wait := None |>)) s1).
  { unfold inode_wait. cbn [wq_put]. change (inode_table (k_fs s1)) with (inode_table (k_fs s)). by rewrite Hi. }
  rewrite E. split; [|split; [|done]].
  - split; try done. exact (arr_get_set_eq _ i _ (arr_get_Some_range _ _ _ Hi)).
  - split; [done|]. intros j Hj. change (is_Some (task_slot s1 j)). unfold s1. rewrite (task_slot_set h _ s j) by (by eapply task_slot_range). by case_decide.
Qed.

(** The loop of [write_pipe]. *)
Lemma write_loop i buf n k : forall count written s x q,
  pipe_holds s i x q -> 0 <= count -> Z.of_nat (length q) + count <= 4095 -> (0 < n)%nat -> (Z.to_nat count < k)%nat ->
  exists s' x', iterate k (write_pipe_step i buf) (count, written) n s = Done (written + count) s' /\
    pipe_holds s' i x' (q ++ user_bytes s (buf + written) count) /\ pipe_frame s s' /\ k_user s' = k_user s /\
    i_size x' = i_size x /\ forall a, ~ i_size x <= a < i_size x + 4096 -> page_at s' a = page_at s a.
Proof.
  induction k as [|k IH]; intros count written s x q H Hc Hq Hn Hk; [lia|].
  destruct (decide (count = 0)) as [->|Hne].
  - destruct (wake_pipe_run s i x q n H) as (s' & x' & E & H' & Hf & Hm & Hu & Hsz & _).
    exists s', x'. split; [|split; [|split; [done|split; [done|split; [done|]]]]].
    + apply iterate_last. unfold write_pipe_step. change (0 <=? 0) with true. cbv iota. step E. by rewrite Z.add_0_r.
    + by rewrite app_nil_r.
    + intros a _. unfold page_at. by rewrite Hm.
  - destruct (write_round s i x q buf count written n H ltac:(lia) ltac:(lia) Hn) as (f & x1 & E & H1 & Hsz & Hp).
    set (c := Z.min (Z.min (4096 - PIPE_HEAD x) count) (4095 - Z.of_nat (length q))) in *. cbv zeta in *.
    set (s1 := with_mem f _) in *. assert (Hcr : 1 <= c <= count) by (pose proof (ph_head _ _ _ _ H); lia).
    destruct (IH (count - c) (written + c) s1 x1 _ H1) as (s' & x' & E' & H' & Hf & Hu & Hsz' & Hp'); [lia| |done|lia|].
    { rewrite length_app, Nat2Z.inj_add, user_bytes_length by lia. lia. }
    exists s', x'. split; [|split; [|split; [|split; [|split]]]].
    + rewrite (iterate_next k _ _ n s _ s1 E), E'. f_equal. lia.
    + change (user_bytes s1) with (user_bytes s) in H'. rewrite <- app_assoc in H'.
      replace count with (c + (count - c)) by lia. rewrite user_bytes_app by lia. by rewrite <- Z.add_assoc.
    + eapply pipe_frame_trans; [|exact Hf]. by split.
    + exact Hu.
    + congruence.
    + intros a Ha. rewrite Hp' by (rewrite Hsz; done). by apply Hp.
Qed.

(** One round of [read_pipe]. *)
Lemma read_round s i x q buf count read n :
  pipe_holds s i x q -> 0 < count -> q <> [] -> (0 < n)%nat ->
  let c := Z.min (Z.min (4096 - PIPE_TAIL x) count) (Z.of_nat (length q)) in
  exists u x', let s' := with_user u (set_inodes (arr_set (inode_table (k_fs s)) i x') s) in
    read_pipe_step i buf (count, read) n s = Done (inl (count - c, read + c)) s' /\
    pipe_holds s' i x' (drop (Z.to_nat c) q) /\ i_size x' = i_size x /\ i_count x' = i_count x /\
    (forall k, 0 <= k < c -> Some (u8 (user_at s' (buf + read + k))) = q !! Z.to_nat k) /\
    (forall t a, (forall k, 0 <= k < c -> t <> current (k_sched s) \/ a <> u32 (buf + read + k)) -> k_user s' t a = k_user s t a).
Proof.
  intros H Hc Hq Hn c. pose proof H as [Hi Hz Hh Ht Hs Hb Hw].
  assert (Hl : 1 <= Z.of_nat (length q)) by (destruct q; [done|simpl; lia]).
  unfold read_pipe_step. destruct (Z.leb_spec count 0) as [?|_]; [lia|].
  step (pipe_wait_run s i x q PIPE_SIZE n H ltac:(lia) Hn). rewrite <- Hs. step (pipe_inode_get s i x q n H).
  change (Z.min (Z.min (PAGE_SIZE - PIPE_TAIL x) count) (Z.of_nat (length q))) with c.
  assert (Hc' : 1 <= c <= 4096) by lia. set (x' := set_zone 1 (Z.land (u16 (PIPE_TAIL x + c)) (PAGE_SIZE - 1)) x).
  step (ino_upd_run i (set_zone 1 (Z.land (u16 (PIPE_TAIL x + c)) (PAGE_SIZE - 1))) x n s Hi). fold x'.
  set (s1 := set_inodes _ s).
  destruct (copy_out_run (i_size x) (PIPE_TAIL x) (buf + read) n (Z.to_nat c) s1 ltac:(lia)) as (u & E & Hu1 & Hu2). step E.
  rewrite Z2Nat.id in Hu1, Hu2 by lia. exists u, x'. cbv zeta. split; [done|].
  pose proof (arr_get_Some_range _ _ _ Hi) as Hri.
  assert (Et : PIPE_TAIL x' = (PIPE_TAIL x + c) mod 4096).
  { unfold PIPE_TAIL at 1, x'. rewrite zone_at_set by lia. rewrite decide_True by done. rewrite land_4095 by lia. apply u16_small.
    pose proof (Z.mod_pos_bound (PIPE_TAIL x + c) 4096). lia. }
  assert (Eh : PIPE_HEAD x' = PIPE_HEAD x) by (unfold PIPE_HEAD, x'; by rewrite zone_at_set by lia).
  rewrite PIPE_SIZE_eq in Hs.
  assert (Hd : Z.of_nat (length (drop (Z.to_nat c) q)) = Z.of_nat (length q) - c) by (rewrite length_drop; lia).
  split; [|split; [done|split; [done|split]]].
  - split.
    + exact (arr_get_set_eq _ i x' Hri).
    + etrans; [exact Hz|]. by rewrite <- (arr_set_length (i_zone x) 1 (u16 (Z.land (u16 (PIPE_TAIL x + c)) (PAGE_SIZE - 1)))).
    + by rewrite Eh.
    + rewrite Et. apply Z.mod_pos_bound. lia.
    + rewrite PIPE_SIZE_eq, Eh, Et, Hd. Z.to_euclidean_division_equations; lia.
    + rewrite Et, Hd. change (i_size x') with (i_size x). intros k Hk. rewrite lookup_drop.
      replace (Z.to_nat c + Z.to_nat k)%nat with (Z.to_nat (c + k)) by lia. rewrite Hb by lia.
      change (page_at _ ?a) with (page_at s a). do 3 f_equal.
      rewrite Zplus_mod_idemp_l. f_equal. lia.
    + exact Hw.
  - intros k Hk. unfold user_at. change (k_user _) with u. change (current _) with (current (k_sched s1)). rewrite Hu1 by lia.
    rewrite Hb by lia. change (page_at s1) with (page_at s). f_equal.
    rewrite Z.mod_small by lia. rewrite u8_small by apply u8_range. apply u8_small.
    unfold page_at, ld8. change 255 with (Z.ones 8). rewrite Z.land_ones by lia. apply Z.mod_pos_bound. lia.
  - intros t a Hta. by apply Hu2.
Qed.

(** Nothing to read or no room, and the other end is closed. *)
Lemma pipe_closed_run s i x q room n :
  pipe_holds s i x q -> room x = 0 -> i_count x <> 2 -> (0 < n)%nat ->
  exists s' x', pipe_wait i room n s = Done None s' /\ pipe_holds s' i x' q /\ pipe_frame s s' /\
    k_mm s' = k_mm s /\ k_user s' = k_user s /\ i_size x' = i_size x.
Proof.
  intros H Hr Hc Hn. destruct (wake_pipe_run s i x q n H) as (s' & x' & E & H' & Hf & Hm & Hu & Hsz & Hcnt & _).
  exists s', x'. split; [|done]. apply loop_once; [done|]. step (pipe_inode_get s i x q n H). rewrite Hr. cbn [nz negb Z.eqb].
  step E. step (pipe_inode_get s' i x' q n H'). rewrite Hcnt. by destruct (Z.eqb_spec (i_count x) 2).
Qed.

(** The loop of [read_pipe]. *)
Lemma read_loop i buf n k : forall count read s x q,
  pipe_holds s i x q -> 0 <= count <= 2 ^ 31 -> count <= Z.of_nat (length q) \/ i_count x <> 2 -> (0 < n)%nat -> (Z.to_nat count < k)%nat ->
  let m := Z.min count (Z.of_nat (length q)) in
  exists s' x', iterate k (read_pipe_step i buf) (count, read) n s = Done (read + m) s' /\
    pipe_holds s' i x' (drop (Z.to_nat m) q) /\ pipe_frame s s' /\ k_mm s' = k_mm s /\
    (forall k, 0 <= k < m -> Some (u8 (user_at s' (buf + read + k))) = q !! Z.to_nat k) /\
    (forall t a, (forall k, 0 <= k < m -> t <> current (k_sched s) \/ a <> u32 (buf + read + k)) -> k_user s' t a = k_user s t a).
Proof.
  induction k as [|k IH]; intros count read s x q H Hc Hok Hn Hk m; [lia|].
  destruct (decide (count = 0)) as [Ec|Hne].
  { destruct (wake_pipe_run s i x q n H) as (s' & x' & E & H' & Hf & Hm & Hu & _).
    assert (m = 0) as -> by lia. exists s', x'. split; [|split; [done|split; [done|split; [done|split; [lia|by rewrite Hu]]]]].
    apply iterate_last. rewrite Ec. unfold read_pipe_step. change (0 <=? 0) with true. cbv iota. step E. by rewrite Z.add_0_r. }
  destruct (decide (q = [])) as [->|Hq].
  { assert (m = 0) as -> by (subst m; simpl; lia). destruct Hok as [Hok|Hok]; [simpl in Hok; lia|].
    destruct (pipe_closed_run s i x [] PIPE_SIZE n H) as (s' & x' & E & H' & Hf & Hm & Hu & _);
      [by rewrite <- (ph_size _ _ _ _ H)|done|done|].
    exists s', x'. split; [|split; [done|split; [done|split; [done|split; [lia|by rewrite Hu]]]]].
    apply iterate_last. unfold read_pipe_step. destruct (Z.leb_spec count 0); [lia|]. step E. by rewrite Z.add_0_r. }
  destruct (read_round s i x q buf count read n H ltac:(lia) Hq Hn) as (u & x1 & E & H1 & Hsz & Hcnt & Hu1 & Hu2).
  set (c := Z.min (Z.min (4096 - PIPE_TAIL x) count) (Z.of_nat (length q))) in *. cbv zeta in *. set (s1 := with_user u _) in *.
  assert (Hl : 1 <= Z.of_nat (length q)) by (destruct q; [done|simpl; lia]).
  assert (Hcr : 1 <= c <= m) by (pose proof (ph_tail _ _ _ _ H); lia).
  assert (Hd : Z.of_nat (length (drop (Z.to_nat c) q)) = Z.of_nat (length q) - c) by (rewrite length_drop; lia).
  destruct (IH (count - c) (read + c) s1 x1 _ H1) as (s' & x' & E' & H' & Hf & Hm & Hu3 & Hu4); [lia|rewrite Hd, Hcnt; lia|done|lia|].
  rewrite Hd in *. replace (Z.min (count - c) (Z.of_nat (length q) - c)) with (m - c) in * by lia.
  change (current (k_sched s1)) with (current (k_sched s)) in *.
  exists s', x'. split; [|split; [|split; [|split; [|split]]]].
  - rewrite (iterate_next k _ _ n s _ s1 E), E'. f_equal. lia.
  - rewrite drop_drop in H'. by replace (Z.to_nat c + Z.to_nat (m - c))%nat with (Z.to_nat m) in H' by lia.
  - eapply pipe_frame_trans; [|exact Hf]. by split.
  - exact Hm.
  - intros k' Hk'. destruct (decide (k' < c)) as [Hlt|Hge].
    + rewrite <- Hu1 by lia. do 2 f_equal. unfold user_at. rewrite (pf_current _ _ Hf).
      change (current (k_sched s1)) with (current (k_sched s)). apply Hu4. intros j Hj. right. unfold u32. intros E2.
      Z.to_euclidean_division_equations; lia.
    + replace (buf + read + k') with (buf + (read + c) + (k' - c)) by lia. rewrite Hu3 by lia.
      rewrite lookup_drop. f_equal. lia.
  - intros t a Hta. rewrite Hu4; [apply Hu2|]; intros j Hj.
    + apply Hta. lia.
    + replace (buf + (read + c) + j) with (buf + read + (c + j)) by lia. apply Hta. lia.
Qed.

(** C8. A pipe is a queue of at most 4095 bytes.  Writing what fits appends exactly
    the bytes of the user's buffer and never blocks; reading takes the oldest bytes
    in their order, all that was asked for or, when no writer is left, what there
    is; a write into a full pipe that nobody can read fails with SIGPIPE.  Nothing
    outside the pipe's page and the reader's buffer changes. *)
Theorem pipe_refines_queue (i buf count : Z) (n : nat) (s : kstate) (x : m_inode) (q : list Z) :
  pipe_holds s i x q -> 0 <= count <= 2 ^ 31 -> (Z.to_nat count < n)%nat ->
  let room := 4095 - Z.of_nat (length q) in
  let m := Z.min count (Z.of_nat (length q)) in
  (count <= room -> exists s' x', write_pipe i buf count n s = Done count s' /\
     pipe_holds s' i x' (q ++ user_bytes s buf count) /\ k_user s' = k_user s /\
     forall a, ~ i_size x <= a < i_size x + 4096 -> page_at s' a = page_at s a) /\
  (count <= Z.of_nat (length q) \/ i_count x <> 2 -> exists s' x', read_pipe i buf count n s = Done m s' /\
     pipe_holds s' i x' (drop (Z.to_nat m) q) /\ user_bytes s' buf m = take (Z.to_nat m) q /\ k_mm s' = k_mm s /\
     forall t a, (forall k, 0 <= k < m -> t <> current (k_sched s) \/ a <> u32 (buf + k)) -> k_user s' t a = k_user s t a) /\
  (room = 0 -> i_count x <> 2 -> 0 < count -> is_Some (task_slot s (current (k_sched s))) -> exists s' x' t,
     write_pipe i buf count n s = Done (-1) s' /\ pipe_holds s' i x' q /\
     task_slot s' (current (k_sched s)) = Some t /\ Z.testbit (signal t) (SIGPIPE - 1) = true).
Proof.
  intros H Hc Hn room m. split; [|split].
  - intros Hr. destruct (write_loop i buf n n count 0 s x q H) as (s' & x' & E & H' & _ & Hu & _ & Hp); [lia|lia|lia|lia|].
    rewrite Z.add_0_r in H'. by exists s', x'.
  - intros Hr. destruct (read_loop i buf n n count 0 s x q H Hc Hr) as (s' & x' & E & H' & Hf & Hm & Hu1 & Hu2); [lia|lia|].
    fold m in E, H', Hu1, Hu2. rewrite Z.add_0_r in Hu1, Hu2. exists s', x'. split; [exact E|]. split; [done|]. split; [|done].
    apply list_eq. intros k. destruct (decide (k < Z.to_nat m)%nat) as [Hk|Hk].
    + rewrite lookup_take_lt by done. replace k with (Z.to_nat (Z.of_nat k)) by lia. rewrite <- Hu1 by lia.
      by rewrite user_bytes_lookup by lia.
    + rewrite !lookup_ge_None_2; [done| |].
      * rewrite length_take. lia.
      * pose proof (user_bytes_length s' buf m ltac:(lia)). lia.
  - intros Hr Hcl Hc0 Ht.
    destruct (pipe_closed_run s i x q (fun i => (PAGE_SIZE - 1) - PIPE_SIZE i) n H) as (s1 & x1 & E & H1 & Hf & _);
      [rewrite <- (ph_size _ _ _ _ H); unfold PAGE_SIZE; lia|done|lia|].
    destruct (pf_tasks _ _ Hf _ Ht) as [t1 Ht1]. rewrite <- (pf_current _ _ Hf) in Ht1.
    set (f := fun t => t <| signal ::= fun x => Z.lor x (sigbit SIGPIPE) |>).
    exists (set_slot (current (k_sched s1)) (Some (f t1)) s1), x1, (f t1). split; [|split; [|split]].
    + apply loop_once; [lia|]. unfold write_pipe_step. destruct (Z.leb_spec count 0); [lia|]. step E.
      by step (cur_upd_run f t1 n s1 Ht1).
    + destruct H1 as [A1 A2 A3 A4 A5 A6 A7]. split; try done. intros h Hh.
      rewrite (task_slot_set _ _ s1 h) by (by eapply task_slot_range). case_decide; [done|]. by apply A7.
    + rewrite (pf_current _ _ Hf). rewrite (task_slot_set _ _ s1) by (rewrite <- (pf_current _ _ Hf); by eapply task_slot_range).
      by rewrite decide_True.
    + change (signal (f t1)) with (Z.lor (signal t1) (sigbit SIGPIPE)). rewrite Z.lor_spec. by rewrite orb_true_r.
Qed.

(** A pipe of four bytes just before the end of its page, and a writer with a
    pattern in its memory. *)
Definition ring_inode : m_inode := blank_inode <| i_zone := [4094; 4090; 0; 0; 0; 0; 0; 0; 0] |> <| i_pipe := 1 |>
  <| i_size := 0x200000 |> <| i_count := 2 |>.
Definition piped : kstate :=
  with_user (fun _ a => a mod 251) (with_mem (fun a => a * 7 mod 2 ^ 32)
    (set_inodes (arr_set (inode_table (k_fs boot_k)) 3 ring_inode) boot_k)).
Definition piped_bytes : list Z := map (fun k => page_at piped (0x200000 + 4090 + k)) (zrange 0 4).

Lemma piped_holds : pipe_holds piped 3 ring_inode piped_bytes.
Proof.
  split.
  - reflexivity.
  - simpl. lia.
  - vm_compute. split; congruence.
  - vm_compute. split; congruence.
  - vm_compute. reflexivity.
  - intros k Hk. change (Z.of_nat (length piped_bytes)) with 4 in Hk.
    assert (In k [0; 1; 2; 3]) as Hin by (simpl; lia). simpl in Hin.
    repeat (destruct Hin as [<-|Hin]; [vm_compute; reflexivity|]). done.
  - intros h Hh. discriminate Hh.
Qed.

Lemma pipe_refines_queue_witness :
  (exists s' x', write_pipe 3 0x1000 6 7%nat piped = Done 6 s' /\
     pipe_holds s' 3 x' (piped_bytes ++ user_bytes piped 0x1000 6) /\ k_user s' = k_user piped /\
     forall a, ~ 0x200000 <= a < 0x200000 + 4096 -> page_at s' a = page_at piped a) /\
  (exists s' x', read_pipe 3 0x1000 3 7%nat piped = Done 3 s' /\
     pipe_holds s' 3 x' (drop 3 piped_bytes) /\ user_bytes s' 0x1000 3 = take 3 piped_bytes /\ k_mm s' = k_mm piped /\
     forall t a, (forall k, 0 <= k < 3 -> t <> 0 \/ a <> u32 (0x1000 + k)) -> k_user s' t a = k_user piped t a).
Proof.
  split.
  - destruct (pipe_refines_queue 3 0x1000 6 7%nat piped ring_inode piped_bytes piped_holds) as [H _]; [lia|lia|].
    apply H. vm_compute. congruence.
  - destruct (pipe_refines_queue 3 0x1000 3 7%nat piped ring_inode piped_bytes piped_holds) as (_ & H & _); [lia|lia|].
    change (Z.min 3 (Z.of_nat (length piped_bytes))) with 3 in H. apply H. left. vm_compute. congruence.
Defined.
