(* ===== verification/TtyProps.v ===== *)
(** * Terminal queues, the line discipline and reading from a terminal *)
From Stdlib Require Import ZArith Lia String.
From stdpp Require Import base list sets.
From S2P Require Import Prelude Resumption Memory KState Runs Sched BlkDev Errno Segment Console Tty PipeProps.

(** ** A queue of characters in a ring buffer *)

Lemma s8_u8 c : s8 (u8 c) = s8 c.
Proof. unfold s8, u8. by rewrite Zplus_mod_idemp_l. Qed.
Lemma s8_s8 c : s8 (s8 c) = s8 c.
Proof. unfold s8. replace ((c + 128) mod 256 - 128 + 128) with ((c + 128) mod 256) by lia. by rewrite Z.mod_mod. Qed.
Lemma s8_range c : -128 <= s8 c < 128.
Proof. unfold s8. pose proof (Z.mod_pos_bound (c + 128) 256). lia. Qed.

Lemma land_1023 x : Z.land x (TTY_BUF_SIZE - 1) = x mod 1024.
Proof. unfold TTY_BUF_SIZE. change (1024 - 1) with (Z.ones 10). by rewrite Z.land_ones. Qed.

(** The characters of [q], the first one at its tail. *)
Record queue_holds (q : tty_queue) (l : list Z) : Prop := mkQueueHolds {
  qh_head : 0 <= q_head q < 1024;
  qh_tail : 0 <= q_tail q < 1024;
  qh_buf : length (q_buf q) = 1024%nat;
  qh_size : Z.of_nat (length l) = (q_head q - q_tail q) mod 1024;
  qh_chars : forall k, 0 <= k < Z.of_nat (length l) -> l !! Z.to_nat k = s8 <$> arr_get (q_buf q) ((q_tail q + k) mod 1024)
}.

(** The fields the character operations leave alone. *)
Definition same_owner (q q' : tty_queue) : Prop := q_data q' = q_data q /\ q_proc q' = q_proc q.

Section Queue.
Context (q : tty_queue) (l : list Z) (H : queue_holds q l).

Lemma queue_length : (length l < 1024)%nat.
Proof. pose proof (qh_size q l H). pose proof (Z.mod_pos_bound (q_head q - q_tail q) 1024). lia. Qed.
Lemma CHARS_holds : CHARS q = Z.of_nat (length l).
Proof. unfold CHARS. rewrite land_1023. by rewrite (qh_size q l H). Qed.
Lemma LEFT_holds : LEFT q = 1023 - Z.of_nat (length l).
Proof.
  unfold LEFT. rewrite land_1023. pose proof (qh_size q l H). pose proof (qh_head q l H). pose proof (qh_tail q l H).
  Z.to_euclidean_division_equations. lia.
Qed.
Lemma EMPTY_holds : EMPTY q = bool_decide (l = []).
Proof.
  unfold EMPTY. pose proof (qh_size q l H) as E. pose proof (qh_head q l H). pose proof (qh_tail q l H).
  case_bool_decide as Hl; [subst l; apply Z.eqb_eq | apply Z.eqb_neq; destruct l; [done|]]; simpl in E;
    Z.to_euclidean_division_equations; lia.
Qed.
Lemma FULL_holds : FULL q = (1023 <=? Z.of_nat (length l)).
Proof. unfold FULL, nz. rewrite LEFT_holds. pose proof queue_length. repeat zcase; done. Qed.

Lemma put_char_holds c : (length l < 1023)%nat ->
  exists q', put_char c q = Some q' /\ queue_holds q' (l ++ [s8 c]) /\ same_owner q q'.
Proof.
  intros Hl. destruct H as [Hh Ht Hb Hs Hc]. unfold put_char.
  destruct (arr_get_is_Some (q_buf q) (q_head q) ltac:(rewrite Hb; lia)) as [b ->].
  eexists. split; [reflexivity|]. split; [|done].
  assert ((q_tail q + Z.of_nat (length l)) mod 1024 = q_head q) as Eh by (rewrite Hs; Z.to_euclidean_division_equations; lia).
  constructor; simpl.
  - unfold INC. rewrite land_1023. apply Z.mod_pos_bound. lia.
  - done.
  - by rewrite arr_set_length.
  - rewrite length_app. simpl. unfold INC. rewrite land_1023. Z.to_euclidean_division_equations. lia.
  - intros k Hk. rewrite length_app in Hk. simpl in Hk.
    destruct (decide (k = Z.of_nat (length l))) as [->|Hne].
    + rewrite Eh, arr_get_set_eq by lia. simpl. rewrite s8_u8.
      rewrite lookup_app_r by lia. by replace (Z.to_nat (Z.of_nat (length l)) - length l)%nat with 0%nat by lia.
    + rewrite lookup_app_l by lia. rewrite Hc by lia. rewrite arr_get_set_ne; [done|]. rewrite <-Eh.
      Z.to_euclidean_division_equations. lia.
Qed.
End Queue.

Lemma get_char_holds q c l : queue_holds q (c :: l) ->
  exists q', get_char q = Some (c, q') /\ queue_holds q' l /\ same_owner q q'.
Proof.
  intros [Hh Ht Hb Hs Hc]. unfold get_char. simpl in Hs.
  pose proof (Hc 0 ltac:(simpl; lia)) as H0. rewrite Z.add_0_r, Z.mod_small in H0 by lia. simpl in H0.
  destruct (arr_get (q_buf q) (q_tail q)) as [b|] eqn:E; [|done]. simpl in H0. injection H0 as ->.
  eexists. split; [reflexivity|]. split; [|done]. constructor; simpl.
  - done.
  - unfold INC. rewrite land_1023. apply Z.mod_pos_bound. lia.
  - done.
  - unfold INC. rewrite land_1023. Z.to_euclidean_division_equations. lia.
  - intros k Hk. pose proof (Hc (k + 1) ltac:(simpl; lia)) as Hk'.
    replace (Z.to_nat (k + 1)) with (S (Z.to_nat k)) in Hk' by lia. simpl in Hk'. rewrite Hk'. do 2 f_equal.
    unfold INC. rewrite land_1023. Z.to_euclidean_division_equations. lia.
Qed.

Lemma last_char_holds q l c : queue_holds q (l ++ [c]) ->
  last_char q = Some c /\ queue_holds (unput_char q) l.
Proof.
  intros [Hh Ht Hb Hs Hc]. rewrite length_app in Hs, Hc. simpl in Hs, Hc.
  assert (DEC (q_head q) = (q_tail q + Z.of_nat (length l)) mod 1024) as Ed.
  { unfold DEC. rewrite land_1023. Z.to_euclidean_division_equations. lia. }
  split.
  - unfold last_char. rewrite Ed. rewrite <-Hc by lia. rewrite lookup_app_r by lia.
    by replace (Z.to_nat (Z.of_nat (length l)) - length l)%nat with 0%nat by lia.
  - constructor; simpl; try done.
    + unfold DEC. rewrite land_1023. apply Z.mod_pos_bound. lia.
    + rewrite Ed. Z.to_euclidean_division_equations. lia.
    + intros k Hk. rewrite <-Hc by lia. by rewrite lookup_app_l by lia.
Qed.

Lemma empty_queue_holds data : queue_holds (empty_queue data) [].
Proof. constructor; simpl; done || lia. Qed.

(** *** Any sequence of operations *)

(** What the code does to a queue: put a character if there is room, take one if there
    is one, take back the last one put ([unput]), throw everything away ([flush]). *)
Inductive queue_op := Put (c : Z) | Get | Unput | Flush.

Definition ring_op (o : queue_op) (q : tty_queue) : option (list Z * tty_queue) :=
  match o with
  | Put c => if FULL q then Some ([], q) else q ← put_char c q; Some ([], q)
  | Get => if EMPTY q then Some ([], q) else '(c, q) ← get_char q; Some ([c], q)
  | Unput => if EMPTY q then Some ([], q) else c ← last_char q; Some ([c], unput_char q)
  | Flush => Some ([], flush_chars q)
  end.
Definition list_op (o : queue_op) (l : list Z) : list Z * list Z :=
  match o with
  | Put c => ([], if (length l <? 1023)%nat then l ++ [s8 c] else l)
  | Get => match l with [] => ([], []) | c :: l => ([c], l) end
  | Unput => match last l with Some c => ([c], removelast l) | None => ([], l) end
  | Flush => ([], [])
  end.

Fixpoint ring_run (ops : list queue_op) (q : tty_queue) : option (list Z * tty_queue) :=
  match ops with
  | [] => Some ([], q)
  | o :: ops => '(out, q) ← ring_op o q; '(rest, q) ← ring_run ops q; Some (out ++ rest, q)
  end.
Fixpoint list_run (ops : list queue_op) (l : list Z) : list Z * list Z :=
  match ops with
  | [] => ([], l)
  | o :: ops => let (out, l) := list_op o l in let (rest, l) := list_run ops l in (out ++ rest, l)
  end.

Lemma ring_op_refines o q l : queue_holds q l ->
  exists q', ring_op o q = Some ((list_op o l).1, q') /\ queue_holds q' (list_op o l).2.
Proof.
  intros H. destruct o as [c| | |]; cbn [ring_op list_op].
  - rewrite (FULL_holds q l H). destruct (Nat.ltb_spec (length l) 1023) as [Hl|Hl].
    + destruct (Z.leb_spec 1023 (Z.of_nat (length l))); [lia|].
      destruct (put_char_holds q l H c Hl) as (q' & -> & Hq & _). by exists q'.
    + destruct (Z.leb_spec 1023 (Z.of_nat (length l))); [|lia]. by exists q.
  - rewrite (EMPTY_holds q l H). case_bool_decide as Hl.
    + subst l. by exists q.
    + destruct l as [|c l]; [done|]. destruct (get_char_holds q c l H) as (q' & -> & Hq & _). by exists q'.
  - rewrite (EMPTY_holds q l H). case_bool_decide as Hl.
    + subst l. by exists q.
    + destruct (exists_last Hl) as (l' & c & ->). destruct (last_char_holds q l' c H) as [-> Hq].
      rewrite last_snoc, removelast_last. by eexists.
  - eexists. split; [reflexivity|]. destruct H as [Hh Ht Hb _ _]. constructor; simpl; try done.
    + by rewrite Z.sub_diag.
    + lia.
Qed.

(** C22. The ring buffer of a terminal is a queue of at most 1023 characters: whatever
    sequence of characters put when there is room, taken from the front, taken back
    from the rear and flushed, the same characters come out as from a list, in the
    same order, and no index leaves the buffer. *)
Theorem tty_queue_refines_list (ops : list queue_op) (q : tty_queue) (l : list Z) :
  queue_holds q l ->
  exists q', ring_run ops q = Some ((list_run ops l).1, q') /\ queue_holds q' (list_run ops l).2.
Proof.
  revert q l. induction ops as [|o ops IH]; intros q l H; [by exists q|]. cbn [ring_run list_run].
  destruct (ring_op_refines o q l H) as (q1 & -> & H1). destruct (list_op o l) as [out l1]. simpl in H1 |- *.
  destruct (IH q1 l1 H1) as (q2 & -> & H2). destruct (list_run ops l1) as [rest l2]. by exists q2.
Qed.

Lemma tty_queue_refines_list_witness :
  exists q', ring_run [Put 104; Put 105; Unput; Put 200; Get; Get; Get] (empty_queue 0) = Some ([105; 104; -56], q') /\ queue_holds q' [].
Proof.
  apply (tty_queue_refines_list [Put 104; Put 105; Unput; Put 200; Get; Get; Get] (empty_queue 0) []). apply empty_queue_holds.
Defined.

(** ** The queues of a terminal in the kernel *)

Definition tty_is (s : kstate) (ch : Z) (t : tty_struct) : Prop := arr_get (tty_table (k_chr s)) ch = Some t.
Definition with_tty (ch : Z) (t : tty_struct) (s : kstate) : kstate := set_ttys (arr_set (tty_table (k_chr s)) ch t) s.

Lemma tty_is_with s ch t t' : tty_is s ch t -> tty_is (with_tty ch t' s) ch t'.
Proof. intros H. apply arr_get_set_eq. by apply arr_get_Some_range in H. Qed.
Lemma tty_is_other s ch ch' t t' : ch <> ch' -> tty_is s ch' t -> tty_is (with_tty ch t' s) ch' t.
Proof. intros Hne H. unfold tty_is. etrans; [by apply arr_get_set_ne|]. exact H. Qed.

Section Accessors.
Context (n : nat) (s : kstate) (ch : Z) (t : tty_struct) (Ht : tty_is s ch t).

Lemma tty_get_run : tty_get ch n s = Done t s.
Proof. apply (tab_get_run (fun s => tty_table (k_chr s))). exact Ht. Qed.
Lemma tty_upd_run f : tty_upd ch f n s = Done tt (with_tty ch (f t) s).
Proof. apply (tab_upd_run (fun s => tty_table (k_chr s))). exact Ht. Qed.
Lemma queue_get_run w : queue_get ch w n s = Done (queue_of w t) s.
Proof. unfold queue_get. by step tty_get_run. Qed.
Lemma GETCH_run w c q : get_char (queue_of w t) = Some (c, q) -> GETCH ch w n s = Done c (with_tty ch (set_queue w q t) s).
Proof.
  intros E. unfold GETCH. step (queue_get_run w). unfold deref, bind at 1. rewrite E. cbn [obind].
  unfold queue_put. by step (tty_upd_run (set_queue w q)).
Qed.
Lemma PUTCH_run w c q : put_char c (queue_of w t) = Some q -> PUTCH c ch w n s = Done tt (with_tty ch (set_queue w q t) s).
Proof.
  intros E. unfold PUTCH. step (queue_get_run w). unfold deref, bind at 1. rewrite E. cbn [obind].
  exact (tty_upd_run (set_queue w q)).
Qed.
Lemma LAST_run w c : last_char (queue_of w t) = Some c -> LAST ch w n s = Done c s.
Proof. intros E. unfold LAST. step (queue_get_run w). unfold deref. by rewrite E. Qed.
Lemma unput_run w : unput ch w n s = Done tt (with_tty ch (set_queue w (unput_char (queue_of w t)) t) s).
Proof. unfold unput. step (queue_get_run w). exact (tty_upd_run (set_queue w _)). Qed.
End Accessors.

(** ** Reading *)

(** The characters that end a line. *)
Definition line_end (x : tty_struct) (c : Z) : bool := (c =? EOF_CHAR x) || (c =? 10).
Definition line_ends (x : tty_struct) (l : list Z) : Z := Z.of_nat (length (List.filter (line_end x) l)).

Lemma line_ends_snoc x l c : line_ends x (l ++ [c]) = line_ends x l + b2z (line_end x c).
Proof. unfold line_ends. rewrite List.filter_app, length_app. simpl. destruct (line_end x c); simpl; lia. Qed.

(** From [s] to [s'], with the terminal [x]: the characters [p] have gone to the user
    at [buf], [rest] is left of the queue, and [d] line ends have been taken. *)
Record took (ch buf : Z) (s : kstate) (x : tty_struct) (p : list Z) (d : Z) (rest : list Z) (s' : kstate) : Prop := mkTook {
  tk_tty : exists q, tty_is s' ch (x <| secondary := q |>) /\ queue_holds q rest /\
    q_data q = u32 (q_data (secondary x) - d) /\ q_proc q = q_proc (secondary x);
  tk_others : forall c, c <> ch -> arr_get (tty_table (k_chr s')) c = arr_get (tty_table (k_chr s)) c;
  tk_sched : k_sched s' = k_sched s;
  tk_bytes : forall i c, p !! i = Some c -> user_at s' (buf + Z.of_nat i) = u8 c;
  tk_user : forall t a, (forall i, 0 <= i < Z.of_nat (length p) -> t <> current (k_sched s) \/ a <> u32 (buf + i)) ->
    k_user s' t a = k_user s t a
}.

Lemma tty_eta x : x <| secondary := secondary x |> = x.
Proof. by destruct x. Qed.
Lemma u32_u32 x : u32 (u32 x) = u32 x.
Proof. apply u32_small, u32_range. Qed.
Lemma u32_sub_sub x y : u32 (u32 x - y) = u32 (x - y).
Proof. unfold u32. by rewrite Zminus_mod_idemp_l. Qed.

(** The next character is taken; if it ends a line it is counted. *)
Lemma took_char ch buf s x p d c rest s' :
  took ch buf s x p d (c :: rest) s' ->
  exists s1, took ch buf s x p (d + b2z (line_end x c)) rest s1 /\
    forall n {B} (k : Z -> tty_struct -> K B) Q,
      (forall q, runs n (k c (x <| secondary := q |>)) s1 Q) ->
      runs n (let! c := GETCH ch Secondary in
        let! t := tty_get ch in
        when ((c =? EOF_CHAR t) || (c =? 10))
          (tty_upd ch (fun t => t <| secondary ::= fun q => q <| q_data ::= fun d => u32 (d - 1) |> |>)) ;;;
        k c t) s' Q.
Proof.
  intros [(q & Ht & Hq & Hd & Hp) Ho Hs Hb Hu]. destruct (get_char_holds q c rest Hq) as (q1 & E1 & Hq1 & [Hd1 Hp1]).
  set (x1 := x <| secondary := q1 |>). set (s1 := with_tty ch x1 s').
  assert (Ht1 : tty_is s1 ch x1) by exact (tty_is_with _ _ _ _ Ht).
  set (q2 := q1 <| q_data ::= fun d => u32 (d - 1) |>).
  set (s2 := if line_end x c then with_tty ch (x <| secondary := q2 |>) s1 else s1).
  exists s2. split.
  - unfold s2. destruct (line_end x c) eqn:El.
    + constructor; [|intros c' Hc'; etrans; [by apply arr_get_set_ne|]; etrans; [by apply arr_get_set_ne|]; by apply Ho|exact Hs|exact Hb|exact Hu].
      exists q2. split; [exact (tty_is_with s1 ch x1 (x <| secondary := q2 |>) Ht1)|]. split; [by destruct Hq1|]. split; [|by rewrite <-Hp, <-Hp1].
      change (q_data q2) with (u32 (q_data q1 - 1)). rewrite Hd1, Hd, u32_sub_sub. f_equal. simpl. lia.
    + constructor; [|intros c' Hc'; etrans; [by apply arr_get_set_ne|]; by apply Ho|exact Hs|exact Hb|exact Hu].
      exists q1. split; [exact Ht1|]. split; [done|]. split; [|by rewrite Hp1]. rewrite Hd1, Hd. f_equal. simpl. lia.
  - intros n B k Q HQ. eapply runs_step; [exact (GETCH_run n s' ch _ Ht Secondary c q1 E1)|].
    eapply runs_step; [exact (tty_get_run n s1 ch x1 Ht1)|].
    apply runs_bind, runs_when; change (_ || _) with (line_end x c); specialize (HQ q1); unfold s2 in HQ; intros El; rewrite El in HQ;
      [|exact HQ]. eapply runs_eq; [exact (tty_upd_run n s1 ch x1 Ht1 _)|]. exact HQ.
Qed.

(** ... and goes to the user. *)
Lemma took_put ch buf s x p d c rest s' :
  took ch buf s x p d rest s' -> Z.of_nat (length p) < 4294967296 - 1 ->
  exists s1, (forall n, put_fs_byte c (buf + Z.of_nat (length p)) n s' = Done tt s1) /\ took ch buf s x (p ++ [c]) d rest s1.
Proof.
  intros [Ht Ho Hs Hb Hu] Hl.
  set (u := fun t a => if (t =? current (k_sched s')) && (a =? u32 (buf + Z.of_nat (length p))) then u8 c else k_user s' t a).
  exists (with_user u s'). split; [done|].
  assert (Hcur : current (k_sched s') = current (k_sched s)) by (by rewrite Hs).
  constructor; [exact Ht|exact Ho|exact Hs|..].
  - intros i c' Hi. change (user_at (with_user u s') ?a) with (u (current (k_sched s')) (u32 a)). unfold u.
    rewrite Z.eqb_refl. apply lookup_app_Some in Hi as [Hi|[Hge Hi]].
    + pose proof (lookup_lt_Some _ _ _ Hi).
      destruct (Z.eqb_spec (u32 (buf + Z.of_nat i)) (u32 (buf + Z.of_nat (length p)))) as [E|E]; [|by apply Hb].
      exfalso. unfold u32 in E. Z.to_euclidean_division_equations. lia.
    + apply list_lookup_singleton_Some in Hi as [Hi ->]. replace i with (length p) by lia. by rewrite Z.eqb_refl.
  - intros t a Ha. change (k_user (with_user u s') t a) with (u t a). unfold u.
    rewrite length_app in Ha. simpl in Ha.
    rewrite <-Hu by (intros i Hi; apply Ha; lia).
    destruct (Ha (Z.of_nat (length p)) ltac:(lia)) as [E|E]; rewrite Hcur;
      destruct (Z.eqb_spec t (current (k_sched s))), (Z.eqb_spec a (u32 (buf + Z.of_nat (length p)))); done.
Qed.

Section Reading.
Context (ch buf : Z) (s : kstate) (x : tty_struct) (l : list Z).
Context (Hx : tty_is s ch x) (Hl : queue_holds (secondary x) l) (Hd : q_data (secondary x) = u32 (q_data (secondary x))).

(** What a read of [nr] characters in canonical mode takes: up to an end of file. *)
Definition is_eof (c : Z) : bool := (c =? EOF_CHAR x) && _L_FLAG x ICANON.

(** [p] is what the loop has taken so far. *)
Record taking (nr got : Z) (s' : kstate) : Prop := mkTaking {
  ta_split : exists p rest, l = p ++ rest /\ got = Z.of_nat (length p) /\ got < nr /\ rest <> [] /\
    Forall (fun c => is_eof c = false) p /\ took ch buf s x p (line_ends x p) rest s'
}.

(** What it has taken at its end. *)
Definition taken (nr : Z) (r : Z * bool) (s' : kstate) : Prop :=
  exists p rest, r.1 = Z.of_nat (length p) /\ Forall (fun c => is_eof c = false) p /\
    if r.2 then l = p ++ EOF_CHAR x :: rest /\ _L_FLAG x ICANON = true /\ r.1 < nr /\
                took ch buf s x p (line_ends x (p ++ [EOF_CHAR x])) rest s'
    else l = p ++ rest /\ p <> [] /\ (r.1 = nr \/ rest = [] /\ r.1 <= nr) /\ took ch buf s x p (line_ends x p) rest s'.

Lemma take_chars_run n nr : l <> [] -> 0 < nr -> (1024 < n)%nat ->
  runs n (take_chars ch buf nr 0) s (taken nr).
Proof.
  intros Hne Hnr Hn. pose proof (queue_length _ _ Hl) as Hlen. unfold take_chars.
  apply (runs_loop n (taking nr) (fun got _ => (length l - Z.to_nat got)%nat)); [|lia|].
  - constructor. exists [], l. split; [done|]. split; [done|]. split; [lia|]. split; [done|]. split; [done|]. constructor; try done.
    exists (secondary x). split; [by rewrite tty_eta|]. split; [done|]. split; [|done].
    change (line_ends x []) with 0. by rewrite Z.sub_0_r.
  - intros got s' [(p & rest & El & Eg & Hg & Hr & Hp & Ht)]. destruct rest as [|c rest]; [done|].
    destruct (took_char _ _ _ _ _ _ _ _ _ Ht) as (s1 & Ht1 & Hrun). apply Hrun. intros q1. clear Hrun.
    change ((c =? EOF_CHAR (x <| secondary := q1 |>)) && _L_FLAG (x <| secondary := q1 |>) ICANON) with (is_eof c).
    rewrite <-line_ends_snoc in Ht1. 
    destruct (is_eof c) eqn:Ec.
    + apply runs_ret. unfold is_eof in Ec. bprop. subst c. exists p, rest. split; [done|]. split; [done|]. done.
    + assert (length l = (length p + S (length rest))%nat) as El' by (by rewrite El, length_app).
      destruct (took_put _ _ _ _ _ _ c _ _ Ht1 ltac:(lia)) as (s2 & E2 & Ht2). rewrite <-Eg in E2.
      eapply runs_step; [apply E2|]. destruct (tk_tty _ _ _ _ _ _ _ _ Ht2) as (q & Hq & Hrest & _).
      eapply runs_step; [exact (queue_get_run n s2 ch _ Hq Secondary)|].
      change (queue_of Secondary (x <| secondary := q |>)) with q. rewrite (EMPTY_holds q rest Hrest).
      assert (l = (p ++ [c]) ++ rest) as El2 by (by rewrite <-app_assoc).
      assert (got + 1 = Z.of_nat (length (p ++ [c]))) as Eg2 by (rewrite length_app; simpl; lia).
      assert (Forall (fun c => is_eof c = false) (p ++ [c])) as Hp2 by (apply Forall_app; split; [done|by constructor]).
      destruct ((got + 1 <? nr) && negb (bool_decide (rest = []))) eqn:Eb; apply runs_ret.
      * bprop. apply bool_decide_eq_false in H0. split; [|lia]. constructor. by exists (p ++ [c]), rest.
      * exists (p ++ [c]), rest. split; [done|]. split; [done|]. split; [done|]. split; [by destruct p|]. split; [|done].
        simpl. apply andb_false_iff in Eb as [Eb|Eb]; [bprop; left; lia|]. bprop. right. apply bool_decide_eq_true in Eb. split; [done|lia].
Qed.
End Reading.

Lemma set_alarm_same n s t : task_slot s (current (k_sched s)) = Some t -> set_alarm (alarm t) n s = Done tt s.
Proof.
  intros H. unfold set_alarm. rewrite (cur_upd_run _ _ _ _ H). by rewrite set_slot_same by (rewrite H; by destruct t).
Qed.

Section ReadCall.
Context (ch buf nr : Z) (s : kstate) (t : task_struct) (x : tty_struct) (l : list Z) (n : nat).
Context (Ht : task_slot s (current (k_sched s)) = Some t) (Hsig : signal t = 0).
Context (Hx : tty_is s ch x) (Hl : queue_holds (secondary x) l) (Hd : q_data (secondary x) = u32 (q_data (secondary x))).
Context (Htime : c_cc x VTIME = 0) (Hne : l <> []) (Hnr : 0 < nr) (Hn : (1024 < n)%nat).
Context (Hcanon : _L_FLAG x ICANON = true -> q_data (secondary x) <> 0 \/ 1003 <= Z.of_nat (length l)).
Context (Hraw : _L_FLAG x ICANON = false -> Z.min (c_cc x VMIN) nr <= Z.of_nat (length l)).

Lemma read_step_run oldalarm :
  runs n (read_step ch buf nr (if nr <? c_cc x VMIN then nr else c_cc x VMIN) 0 oldalarm (0, false)) s
    (fun r s' => match r with inr r => taken ch buf s x l nr r s' | inl _ => False end).
Proof.
  unfold read_step. destruct (Z.leb_spec nr 0); [lia|].
  eapply runs_step; [by apply cur_run|]. rewrite Hsig. cbn [andb nz Z.eqb negb].
  eapply runs_step; [by apply tty_get_run|]. cbv zeta. rewrite (EMPTY_holds _ _ Hl), (LEFT_holds _ _ Hl).
  rewrite bool_decide_eq_false_2 by done. cbn [orb].
  destruct (_L_FLAG x ICANON && negb (nz (q_data (secondary x))) && (20 <? 1023 - Z.of_nat (length l))) eqn:Ew.
  { bprop. destruct (Hcanon ltac:(done)); lia. }
  apply runs_bind. eapply runs_mono; [by apply (take_chars_run ch buf s x l Hx Hl Hd)|].
  intros [got eof] s' Htk. destruct eof; [exact Htk|]. pose proof Htk as Htk'.
  destruct Htk as (p & rest & Eg & Hp & El & Hpn & Hend & Hto). simpl in Eg, Hend.
  destruct (tk_tty _ _ _ _ _ _ _ _ Hto) as (q & Hq & _).
  eapply runs_step; [by apply tty_get_run|]. change (_L_FLAG (x <| secondary := q |>) ICANON) with (_L_FLAG x ICANON).
  change (nz 0 && negb (_L_FLAG x ICANON)) with false. cbv iota. apply runs_bind, runs_ret.
  assert (0 < got) as Hg by (destruct p; [done|simpl in Eg; lia]).
  destruct (_L_FLAG x ICANON) eqn:Ec; apply runs_ret.
  - unfold nz. destruct (Z.eqb_spec got 0); [lia|]. exact Htk'.
  - match goal with |- context [?m <=? got] => assert (m <= got) as Hm end.
    { specialize (Hraw eq_refl). rewrite El, length_app in Hraw. zcase; destruct Hend as [E|[E ?]]; subst; simpl in *; lia. }
    apply Z.leb_le in Hm. rewrite Hm. exact Htk'.
Qed.

Lemma tty_read_run : 0 <= ch <= 2 ->
  runs n (tty_read ch buf nr) s (fun r s' => exists eof, taken ch buf s x l nr (r, eof) s').
Proof.
  intros Hch. unfold tty_read. rewrite (u32_small ch) by lia.
  destruct (Z.ltb_spec 2 ch); [lia|]. destruct (Z.ltb_spec nr 0); [lia|]. cbn [orb].
  eapply runs_step; [by apply cur_run|]. eapply runs_step; [by apply tty_get_run|]. cbv zeta. rewrite Htime.
  change (10 * 0) with 0. change (nz 0 && negb (nz (c_cc x VMIN))) with false. cbv iota.
  apply runs_bind, runs_ret. apply runs_bind. pose proof (read_step_run (alarm t)) as Hstep.
  unfold runs in Hstep. destruct (read_step _ _ _ _ _ _ _ n s) as [[r|[got eof]] s'|?|?|?|?|] eqn:E; try done.
  eapply runs_eq; [apply loop_once; [lia|exact E]|]. destruct eof; [apply runs_ret; by exists true|].
  destruct Hstep as (p & rest & Hstep).
  assert (task_slot s' (current (k_sched s')) = Some t) as Ht'.
  { destruct Hstep as (_ & _ & _ & _ & _ & Hto). unfold task_slot. by rewrite (tk_sched _ _ _ _ _ _ _ _ Hto). }
  eapply runs_step; [by apply set_alarm_same|]. eapply runs_step; [by apply cur_run|].
  rewrite Hsig. cbn [nz Z.eqb negb andb]. apply runs_ret. exists false, p, rest. exact Hstep.
Qed.
End ReadCall.

(** C21. When a terminal has something to read - in canonical mode a line end that has been
    typed or a queue that is nearly full, otherwise the minimum of characters - [tty_read]
    returns without sleeping: the user gets the first characters of the queue in order,
    as many as asked for or as there are or, in canonical mode, up to an end-of-file
    character, which is taken out and not delivered; the rest stays in the queue, and the
    count of typed line ends goes down by the line ends taken. *)
Theorem tty_read_delivers (ch buf nr : Z) (s : kstate) (t : task_struct) (x : tty_struct) (l : list Z) (n : nat) :
  0 <= ch <= 2 -> 0 < nr -> (1024 < n)%nat -> task_slot s (current (k_sched s)) = Some t -> signal t = 0 ->
  tty_is s ch x -> queue_holds (secondary x) l -> q_data (secondary x) = u32 (q_data (secondary x)) ->
  l <> [] -> c_cc x VTIME = 0 ->
  (_L_FLAG x ICANON = true -> q_data (secondary x) <> 0 \/ 1003 <= Z.of_nat (length l)) ->
  (_L_FLAG x ICANON = false -> Z.min (c_cc x VMIN) nr <= Z.of_nat (length l)) ->
  exists p rest s', tty_read ch buf nr n s = Done (Z.of_nat (length p)) s' /\ Forall (fun c => is_eof x c = false) p /\
    (l = p ++ rest /\ Z.of_nat (length p) = Z.min nr (Z.of_nat (length l)) /\ took ch buf s x p (line_ends x p) rest s' \/
     l = p ++ EOF_CHAR x :: rest /\ is_eof x (EOF_CHAR x) = true /\ Z.of_nat (length p) < nr /\
       took ch buf s x p (line_ends x (p ++ [EOF_CHAR x])) rest s').
Proof.
  intros Hch Hnr Hn Ht Hsig Hx Hl Hd Hne Htime Hcanon Hraw.
  destruct (runs_done _ _ _ _ (tty_read_run ch buf nr s t x l n Ht Hsig Hx Hl Hd Htime Hne Hnr Hn Hcanon Hraw Hch))
    as (r & s' & E & [|] & p & rest & Er & Hp & H); simpl in Er, H; subst r; exists p, rest, s'; (split; [done|]); (split; [done|]).
  - destruct H as (El & Hc & Hlt & Hto). right. split; [done|]. split; [|done]. unfold is_eof. by rewrite Z.eqb_refl, Hc.
  - destruct H as (El & _ & Hend & Hto). left. split; [done|]. split; [|done].
    assert (Z.of_nat (length l) = Z.of_nat (length p) + Z.of_nat (length rest)) as E2 by (rewrite El, length_app; lia).
    destruct Hend as [E3|[-> E3]]; simpl in E2; lia.
Qed.

(** ** The line discipline *)

(** What has been typed: the characters that wait to be read, the count of line ends,
    whether output is stopped, and the signals that were sent. *)
Record typed_line := mkLine { ln_chars : list Z; ln_count : Z; ln_stopped : Z; ln_signals : Z }.

Section Editing.
Context (x : tty_struct).

(** The input modes, without IUCLC. *)
Definition input_mode (c : Z) : option Z :=
  if c =? 13 then (if _I_FLAG x ICRNL then Some 10 else if _I_FLAG x IGNCR then None else Some c)
  else if (c =? 10) && _I_FLAG x INLCR then Some 13 else Some c.

(** Back to the last line end: of a list that starts with the last character. *)
Fixpoint killed_rev (l : list Z) : list Z :=
  match l with
  | [] => []
  | c :: l' => if (c =? 10) || (c =? EOF_CHAR x) then l else killed_rev l'
  end.
Definition killed (l : list Z) : list Z := rev (killed_rev (rev l)).
Definition erased (l : list Z) : list Z :=
  match last l with
  | Some c => if (c =? 10) || (c =? EOF_CHAR x) then l else removelast l
  | None => l
  end.

Definition key (st : typed_line) (c : Z) : typed_line :=
  let with_chars l := mkLine l (ln_count st) (ln_stopped st) (ln_signals st) in
  let with_stop v := mkLine (ln_chars st) (ln_count st) v (ln_signals st) in
  let with_signal m := mkLine (ln_chars st) (ln_count st) (ln_stopped st) (Z.lor (ln_signals st) m) in
  if _L_FLAG x ICANON && (c =? KILL_CHAR x) then with_chars (killed (ln_chars st))
  else if _L_FLAG x ICANON && (c =? ERASE_CHAR x) then with_chars (erased (ln_chars st))
  else if _L_FLAG x ICANON && (c =? STOP_CHAR x) then with_stop 1
  else if _L_FLAG x ICANON && (c =? START_CHAR x) then with_stop 0
  else if _L_FLAG x ISIG && (c =? INTR_CHAR x) then with_signal INTMASK
  else if _L_FLAG x ISIG && (c =? QUIT_CHAR x) then with_signal QUITMASK
  else mkLine (ln_chars st ++ [c]) (if (c =? 10) || (c =? EOF_CHAR x) then u32 (ln_count st + 1) else ln_count st)
         (ln_stopped st) (ln_signals st).

(** The keys [l] one after another, as long as there is room. *)
Fixpoint keys (l : list Z) (st : typed_line) : list Z * typed_line :=
  match l with
  | [] => ([], st)
  | c :: l' => if (1023 <=? length (ln_chars st))%nat then (l, st)
               else keys l' (match input_mode c with Some c => key st c | None => st end)
  end.

(** A task of the terminal's process group gets the signals [m]. *)
Definition interrupted (m : Z) (t : task_struct) : task_struct :=
  if (0 <? tty_pgrp x) && (pgrp t =? tty_pgrp x) then t <| signal ::= fun g => Z.lor g m |> else t.

Lemma interrupted_twice m m' t : interrupted m' (interrupted m t) = interrupted (Z.lor m m') t.
Proof.
  unfold interrupted. destruct (0 <? tty_pgrp x); [|done]. cbn [andb]. destruct (pgrp t =? tty_pgrp x) eqn:E; [|by rewrite E].
  change (pgrp (t <| signal ::= fun g => Z.lor g m |>)) with (pgrp t). rewrite E. unfold upd. simpl. by rewrite Z.lor_assoc.
Qed.
Lemma interrupted_0 t : interrupted 0 t = t.
Proof. unfold interrupted. destruct (_ && _); [|done]. unfold upd. simpl. rewrite Z.lor_0_r. by destruct t. Qed.
End Editing.

(** A loop over the slots [l] that sends [m] to the tasks of the group. *)
Lemma tty_intr_loop n x m l : forall s, NoDup l ->
  exists c', for_each l (fun i =>
      let! s := get in
      match task_slot s i with
      | Some t => when (pgrp t =? tty_pgrp x) (task_upd i (fun t => t <| signal ::= fun g => Z.lor g m |>))
      | None => ret tt
      end) n s = Done tt (s <| k_sched := c' |>) /\
    forall j, slot_of c' j = if decide (j ∈ l) then
      (fun t => if pgrp t =? tty_pgrp x then t <| signal ::= fun g => Z.lor g m |> else t) <$> task_slot s j else task_slot s j.
Proof.
  induction l as [|i l IH]; intros s Hnd.
  { exists (k_sched s). split; [by destruct s as [? [] ? ? ? ? ?]|]. intros j. by rewrite decide_False by set_solver. }
  apply NoDup_cons in Hnd as [Hi Hnd]. cbn [for_each]. set (f := fun t : task_struct => if pgrp t =? tty_pgrp x then _ else t).
  match goal with |- context [for_each l ?g] => set (body := g) end.
  assert (exists c1, body i n s = Done tt (s <| k_sched := c1 |>) /\
    forall j, slot_of c1 j = if decide (j = i) then f <$> task_slot s j else task_slot s j) as (c1 & E & Hc1).
  { unfold body. destruct (task_slot s i) as [t|] eqn:Et; cycle 1.
    { exists (k_sched s). split; [step (get_run n s); rewrite Et; by destruct s as [? [] ? ? ? ? ?]|].
      intros j. case_decide; [by subst; rewrite Et|done]. }
    destruct (pgrp t =? tty_pgrp x) eqn:Eg; cycle 1.
    { exists (k_sched s). split; [step (get_run n s); rewrite Et, Eg; by destruct s as [? [] ? ? ? ? ?]|].
      intros j. case_decide; [|done]. subst. rewrite Et. cbn. unfold f. by rewrite Eg. }
    exists (k_sched (set_slot i (Some (f t)) s)). split.
    - step (get_run n s). rewrite Et, Eg. cbn [when]. rewrite (task_upd_run i _ t n s Et). unfold f. by rewrite Eg.
    - intros j. change (slot_of (k_sched ?z) j) with (task_slot z j). rewrite task_slot_set by (by eapply task_slot_range).
      repeat case_decide; try congruence. subst. by rewrite Et. }
  step E. destruct (IH (s <| k_sched := c1 |>) Hnd) as (c' & E' & Hc'). exists c'. split; [exact E'|].
  intros j. rewrite Hc'. change (task_slot (s <| k_sched := c1 |>) j) with (slot_of c1 j). rewrite Hc1.
  destruct (decide (j = i)) as [->|Hne].
  - rewrite decide_False by done. by rewrite decide_True by left.
  - destruct (decide (j ∈ l)); [rewrite decide_True by (by right)|rewrite decide_False by set_solver]; done.
Qed.

Lemma tty_intr_run n s ch x m : tty_is s ch x ->
  exists c', tty_intr ch m n s = Done tt (s <| k_sched := c' |>) /\
    forall j, 0 <= j < 64 -> slot_of c' j = interrupted x m <$> task_slot s j.
Proof.
  intros Hx. unfold tty_intr. step (tty_get_run n s ch x Hx). unfold interrupted.
  destruct (Z.leb_spec (tty_pgrp x) 0) as [Hp|Hp].
  - exists (k_sched s). split; [by destruct s as [? [] ? ? ? ? ?]|]. intros j _. destruct (Z.ltb_spec 0 (tty_pgrp x)); [lia|].
    change (slot_of (k_sched s) j) with (task_slot s j). by destruct (task_slot s j).
  - destruct (tty_intr_loop n x m (zrange 0 64) s (zrange_NoDup _ _)) as (c' & E & Hc). exists c'. split; [exact E|].
    intros j Hj. rewrite Hc, decide_True by (apply list_elem_of_In, zrange_elem; lia).
    destruct (Z.ltb_spec 0 (tty_pgrp x)); [|lia]. done.
Qed.

Section Cooking.
Context (n : nat) (ch : Z) (s : kstate) (x : tty_struct) (cook : Z -> K unit).
Context (Hecho : _L_FLAG x ECHO = false) (Huclc : _I_FLAG x IUCLC = false) (Hn : (1024 < n)%nat).

Definition now (rq sq : tty_queue) (v : Z) : tty_struct := x <| read_q := rq |> <| secondary := sq |> <| stopped := v |>.

(** From [s] to [s'], [rest] is left of what came in and [st] is what has been typed. *)
Record edited (rest : list Z) (st : typed_line) (s' : kstate) : Prop := mkEdited {
  ed_tty : exists rq sq, tty_is s' ch (now rq sq (ln_stopped st)) /\
    queue_holds rq rest /\ same_owner (read_q x) rq /\
    queue_holds sq (ln_chars st) /\ q_data sq = ln_count st /\ q_proc sq = q_proc (secondary x);
  ed_others : forall c, c <> ch -> arr_get (tty_table (k_chr s')) c = arr_get (tty_table (k_chr s)) c;
  ed_tasks : forall j, 0 <= j < 64 -> task_slot s' j = interrupted x (ln_signals st) <$> task_slot s j
}.

(** Another secondary queue. *)
Lemma edited_queue rest st s' rq sq q chars count :
  edited rest st s' -> tty_is s' ch (now rq sq (ln_stopped st)) -> queue_holds rq rest -> same_owner (read_q x) rq ->
  queue_holds q chars -> q_data q = count -> q_proc q = q_proc (secondary x) ->
  edited rest (mkLine chars count (ln_stopped st) (ln_signals st)) (with_tty ch (now rq q (ln_stopped st)) s').
Proof.
  intros [_ Ho Ht] Hx Hr Hro Hq Hd Hp. constructor; [|intros c Hc; etrans; [by apply arr_get_set_ne|]; by apply Ho|exact Ht].
  exists rq, q. split; [exact (tty_is_with _ _ _ _ Hx)|]. done.
Qed.

Lemma line_last_run rest st s' :
  edited rest st s' ->
  line_last ch n s' = Done (match last (ln_chars st) with
    | Some c => if (c =? 10) || (c =? EOF_CHAR x) then None else Some c
    | None => None end) s'.
Proof.
  intros [(rq & sq & Ht & _ & _ & Hq & _) _ _]. unfold line_last. step (tty_get_run n s' ch _ Ht).
  change (EMPTY (secondary (now rq sq (ln_stopped st)))) with (EMPTY sq). rewrite (EMPTY_holds sq _ Hq).
  case_bool_decide as E; [by rewrite E|]. destruct (exists_last E) as (l & c & El). rewrite El in *.
  destruct (last_char_holds sq l c Hq) as [Hl _]. rewrite last_snoc.
  by step (LAST_run n s' ch _ Ht Secondary c Hl).
Qed.

Lemma rub_out_run rest st s' c : edited rest st s' -> rub_out cook ch c n s' = Done tt s'.
Proof.
  intros [(rq & sq & Ht & _) _ _]. unfold rub_out. step (tty_get_run n s' ch _ Ht).
  change (_L_FLAG (now rq sq (ln_stopped st)) ECHO) with (_L_FLAG x ECHO). by rewrite Hecho.
Qed.

Lemma unput_edited rest st s' l c : edited rest st s' -> ln_chars st = l ++ [c] ->
  exists s1, unput ch Secondary n s' = Done tt s1 /\ edited rest (mkLine l (ln_count st) (ln_stopped st) (ln_signals st)) s1.
Proof.
  intros He El. pose proof He as [(rq & sq & Ht & Hr & Hro & Hq & Hd & Hp) Ho Hs]. rewrite El in Hq.
  destruct (last_char_holds sq l c Hq) as [_ Hq']. eexists. split; [exact (unput_run n s' ch _ Ht Secondary)|].
  change (queue_of Secondary (now rq sq (ln_stopped st))) with sq.
  change (set_queue Secondary ?q (now rq sq (ln_stopped st))) with (now rq q (ln_stopped st)).
  by eapply edited_queue.
Qed.

Lemma erase_char_edited rest st s' : edited rest st s' ->
  runs n (erase_char cook ch) s' (fun _ => edited rest (mkLine (erased x (ln_chars st)) (ln_count st) (ln_stopped st) (ln_signals st))).
Proof.
  intros He. unfold erase_char. eapply runs_step; [exact (line_last_run rest st s' He)|]. unfold erased.
  assert (edited rest (mkLine (ln_chars st) (ln_count st) (ln_stopped st) (ln_signals st)) s') as He' by (by destruct st).
  destruct (last (ln_chars st)) as [c|] eqn:El; [|by apply runs_ret].
  destruct ((c =? 10) || (c =? EOF_CHAR x)); [by apply runs_ret|].
  destruct (exists_last (l := ln_chars st)) as (l & d & E); [by intros E; rewrite E in El|].
  rewrite E, last_snoc in El. injection El as ->. rewrite E, removelast_last.
  eapply runs_step; [by eapply rub_out_run|]. destruct (unput_edited rest st s' l c He E) as (s1 & E1 & He1).
  eapply runs_eq; [exact E1|exact He1].
Qed.

Lemma kill_line_edited rest st s' : edited rest st s' ->
  runs n (kill_line cook ch) s' (fun _ => edited rest (mkLine (killed x (ln_chars st)) (ln_count st) (ln_stopped st) (ln_signals st))).
Proof.
  intros He. unfold kill_line.
  apply (runs_loop n (fun _ s1 => exists l, killed x l = killed x (ln_chars st) /\
      edited rest (mkLine l (ln_count st) (ln_stopped st) (ln_signals st)) s1)
    (fun _ s1 => match arr_get (tty_table (k_chr s1)) ch with Some t => Z.to_nat (CHARS (secondary t)) | None => 0%nat end)).
  - exists (ln_chars st). split; [done|]. by destruct st.
  - destruct (ed_tty _ _ _ He) as (rq & sq & Ht & _ & _ & Hq & _). rewrite Ht.
    change (secondary (now rq sq (ln_stopped st))) with sq. rewrite (CHARS_holds sq _ Hq).
    pose proof (queue_length sq _ Hq). lia.
  - intros [] s1 (l & Ek & He1). eapply runs_step; [exact (line_last_run rest _ s1 He1)|]. simpl ln_chars.
    destruct (last l) as [c|] eqn:El.
    + destruct (exists_last (l := l)) as (l' & d & E); [by intros E; rewrite E in El|].
      rewrite E, last_snoc in El. injection El as ->. subst l.
      assert (killed x (l' ++ [c]) = if (c =? 10) || (c =? EOF_CHAR x) then l' ++ [c] else killed x l') as Ekk.
      { unfold killed. rewrite rev_app_distr. simpl. destruct (_ || _); [|done]. simpl. by rewrite rev_involutive. }
      destruct ((c =? 10) || (c =? EOF_CHAR x)).
      * apply runs_ret. rewrite <-Ek, Ekk. exact He1.
      * eapply runs_step; [by eapply rub_out_run|].
        destruct (unput_edited rest _ s1 l' c He1 eq_refl) as (s2 & E2 & He2). eapply runs_step; [exact E2|]. apply runs_ret.
        split; [exists l'; split; [congruence|exact He2]|].
        destruct (ed_tty _ _ _ He1) as (rq & sq & Ht & _ & _ & Hq & _). destruct (ed_tty _ _ _ He2) as (rq2 & sq2 & Ht2 & _ & _ & Hq2 & _).
        rewrite Ht, Ht2. change (secondary (now ?a ?b ?c)) with b. rewrite (CHARS_holds _ _ Hq), (CHARS_holds _ _ Hq2). simpl.
        rewrite length_app. simpl. lia.
    + apply runs_ret. assert (l = []) as -> by (destruct l as [|d l0]; [done|by rewrite last_cons in El; destruct (last l0)]).
      rewrite <-Ek. exact He1.
Qed.
End Cooking.

Lemma killed_length x l : (length (killed x l) <= length l)%nat.
Proof.
  unfold killed. rewrite length_rev, <-(length_rev l). induction (rev l) as [|c l' IH]; simpl; [done|].
  destruct (_ || _); simpl; lia.
Qed.

Section Cooking2.
Context (n : nat) (ch : Z) (s : kstate) (x : tty_struct) (cook : Z -> K unit).
Context (Hecho : _L_FLAG x ECHO = false) (Huclc : _I_FLAG x IUCLC = false) (Hn : (1024 < n)%nat).
Abbreviation edited := (edited ch s x).

(** One key that has a meaning or is an ordinary character. *)
Lemma key_edited rest st s' c rq sq : edited rest st s' -> (length (ln_chars st) < 1023)%nat -> s8 c = c ->
  tty_is s' ch (now x rq sq (ln_stopped st)) ->
  runs n (if _L_FLAG x ICANON && (c =? KILL_CHAR x) then kill_line cook ch
      else if _L_FLAG x ICANON && (c =? ERASE_CHAR x) then erase_char cook ch
      else if _L_FLAG x ICANON && (c =? STOP_CHAR x) then tty_upd ch (fun t => t <| stopped := 1 |>)
      else if _L_FLAG x ICANON && (c =? START_CHAR x) then tty_upd ch (fun t => t <| stopped := 0 |>)
      else if _L_FLAG x ISIG && (c =? INTR_CHAR x) then tty_intr ch INTMASK
      else if _L_FLAG x ISIG && (c =? QUIT_CHAR x) then tty_intr ch QUITMASK
      else
        when ((c =? 10) || (c =? EOF_CHAR x))
          (tty_upd ch (fun t => t <| secondary ::= fun q => q <| q_data ::= fun d => u32 (d + 1) |> |>)) ;;;
        echo cook ch c ;;;
        PUTCH c ch Secondary) s' (fun _ => edited rest (key x st c)).
Proof.
  intros He Hlen Hc8 Ht0. unfold key.
  assert (forall v, runs n (tty_upd ch (fun t => t <| stopped := v |>)) s'
    (fun _ => edited rest (mkLine (ln_chars st) (ln_count st) v (ln_signals st)))) as Hstop.
  { intros v. destruct He as [(rq1 & sq1 & Ht & Hr & Hro & Hq & Hd & Hp) Ho Hs].
    eapply runs_eq; [exact (tty_upd_run n s' ch _ Ht _)|].
    constructor; [|intros c' Hc'; etrans; [by apply arr_get_set_ne|]; by apply Ho|exact Hs].
    exists rq1, sq1. split; [exact (tty_is_with _ _ _ (now x rq1 sq1 v) Ht)|]. done. }
  assert (forall m, runs n (tty_intr ch m) s'
    (fun _ => edited rest (mkLine (ln_chars st) (ln_count st) (ln_stopped st) (Z.lor (ln_signals st) m)))) as Hsig.
  { intros m. destruct He as [(rq1 & sq1 & Ht & Hr & Hro & Hq & Hd & Hp) Ho Hs].
    destruct (tty_intr_run n s' ch _ m Ht) as (c' & E & Hc). eapply runs_eq; [exact E|].
    constructor; [by exists rq1, sq1|exact Ho|]. intros j Hj. change (task_slot (s' <| k_sched := c' |>) j) with (slot_of c' j).
    rewrite Hc, Hs by done. destruct (task_slot s j); [|done]. simpl. f_equal. apply (interrupted_twice x). }
  destruct (_L_FLAG x ICANON && (c =? KILL_CHAR x)); [by apply kill_line_edited|].
  destruct (_L_FLAG x ICANON && (c =? ERASE_CHAR x)); [by apply erase_char_edited|].
  destruct (_L_FLAG x ICANON && (c =? STOP_CHAR x)); [apply Hstop|].
  destruct (_L_FLAG x ICANON && (c =? START_CHAR x)); [apply Hstop|].
  destruct (_L_FLAG x ISIG && (c =? INTR_CHAR x)); [apply Hsig|].
  destruct (_L_FLAG x ISIG && (c =? QUIT_CHAR x)); [apply Hsig|].
  clear Hstop Hsig. pose proof He as [(rq1 & sq1 & Ht & Hr & Hro & Hq & Hd & Hp) Ho Hs].
  set (q1 := if (c =? 10) || (c =? EOF_CHAR x) then sq1 <| q_data ::= fun d => u32 (d + 1) |> else sq1).
  assert (Hq1 : queue_holds q1 (ln_chars st)) by (unfold q1; destruct (_ || _); [by destruct Hq|done]).
  set (s1 := if (c =? 10) || (c =? EOF_CHAR x) then with_tty ch (now x rq1 q1 (ln_stopped st)) s' else s').
  assert (Ht1 : tty_is s1 ch (now x rq1 q1 (ln_stopped st))).
  { unfold s1, q1. destruct (_ || _); [exact (tty_is_with _ _ _ _ Ht)|exact Ht]. }
  destruct (put_char_holds q1 _ Hq1 c Hlen) as (q2 & E2 & Hq2 & [Hd2 Hp2]).
  assert (Hend : runs n (echo cook ch c ;;; PUTCH c ch Secondary) s1 (fun _ => edited rest (mkLine (ln_chars st ++ [c])
    (if (c =? 10) || (c =? EOF_CHAR x) then u32 (ln_count st + 1) else ln_count st) (ln_stopped st) (ln_signals st)))).
  { apply runs_bind. unfold echo. eapply runs_step; [exact (tty_get_run n s1 ch _ Ht1)|].
    change (_L_FLAG (now x rq1 q1 (ln_stopped st)) ECHO) with (_L_FLAG x ECHO). rewrite Hecho. apply runs_ret.
    eapply runs_eq; [exact (PUTCH_run n s1 ch _ Ht1 Secondary c q2 E2)|].
    rewrite Hc8 in Hq2.
    constructor.
    - exists rq1, q2. split; [exact (tty_is_with _ _ _ (now x rq1 q2 (ln_stopped st)) Ht1)|]. split; [done|]. split; [done|]. split; [done|].
      rewrite Hd2, Hp2. unfold q1. destruct (_ || _); [|done]. simpl. by rewrite Hd.
    - intros c' Hc'. etrans; [by apply arr_get_set_ne|]. unfold s1. destruct (_ || _); [etrans; [by apply arr_get_set_ne|]|]; by apply Ho.
    - unfold s1. by destruct (_ || _). }
  unfold s1, q1 in Hend. destruct ((c =? 10) || (c =? EOF_CHAR x)).
  - eapply runs_step; [exact (tty_upd_run n s' ch _ Ht _)|]. exact Hend.
  - apply runs_bind, runs_ret. exact Hend.
Qed.

Lemma map_input_run t c s' : _I_FLAG t IUCLC = false ->
  map_input t c n s' = Done (input_mode t c) s'.
Proof.
  intros Hu. unfold map_input, input_mode. rewrite Hu. destruct (c =? 13); [destruct (_I_FLAG t ICRNL); [done|]; by destruct (_I_FLAG t IGNCR)|].
  by destruct (_ && _).
Qed.
Lemma input_mode_s8 c c' : s8 c = c -> input_mode x c = Some c' -> s8 c' = c'.
Proof.
  unfold input_mode. intros Hc. destruct (c =? 13); [destruct (_I_FLAG x ICRNL); [by intros [= <-]|]; destruct (_I_FLAG x IGNCR); [done|by intros [= <-]]|].
  destruct (_ && _); by intros [= <-].
Qed.

Lemma queue_chars_s8 q l : queue_holds q l -> Forall (fun c => s8 c = c) l.
Proof.
  intros Hq. apply Forall_lookup. intros i c Hi. pose proof (lookup_lt_Some _ _ _ Hi).
  pose proof (qh_chars q l Hq (Z.of_nat i) ltac:(lia)) as E. rewrite Nat2Z.id, Hi in E.
  destruct (arr_get _ _); [|done]. injection E as ->. apply s8_s8.
Qed.

Lemma cook_step_edited c rest st s' : edited (c :: rest) st s' -> (length (ln_chars st) < 1023)%nat ->
  runs n (cook_step cook ch) s' (fun r s1 => r = inl tt /\
    edited rest (match input_mode x c with Some c => key x st c | None => st end) s1).
Proof.
  intros He Hlen. pose proof He as [(rq & sq & Ht & Hr & Hro & Hq & Hd & Hp) Ho Hs].
  unfold cook_step. eapply runs_step; [exact (tty_get_run n s' ch _ Ht)|].
  change (EMPTY (read_q ?t)) with (EMPTY rq). change (FULL (secondary ?t)) with (FULL sq).
  rewrite (EMPTY_holds _ _ Hr), (FULL_holds _ _ Hq). rewrite bool_decide_eq_false_2 by done.
  destruct (Z.leb_spec 1023 (Z.of_nat (length (ln_chars st)))); [lia|]. cbn [negb andb].
  destruct (get_char_holds rq c rest Hr) as (rq1 & E1 & Hr1 & [Hd1 Hp1]).
  eapply runs_step; [exact (GETCH_run n s' ch _ Ht ReadQ c rq1 E1)|].
  set (s1 := with_tty ch (set_queue ReadQ rq1 (now x rq sq (ln_stopped st))) s').
  assert (Ht1 : tty_is s1 ch (now x rq1 sq (ln_stopped st))) by exact (tty_is_with _ _ _ _ Ht).
  assert (He1 : edited rest st s1).
  { constructor; [|intros c' Hc'; etrans; [by apply arr_get_set_ne|]; by apply Ho|exact Hs].
    exists rq1, sq. split; [exact Ht1|]. split; [done|]. split; [|done]. destruct Hro. split; congruence. }
  pose proof (queue_chars_s8 _ _ Hr) as Hc8. apply Forall_cons in Hc8 as [Hc8 _].
  apply runs_bind. eapply runs_mono.
  - unfold cook_char. eapply runs_step; [exact (tty_get_run n s1 ch _ Ht1)|].
    eapply runs_step; [exact (map_input_run (now x rq1 sq (ln_stopped st)) c s1 Huclc)|].
    change (input_mode (now x rq1 sq (ln_stopped st)) c) with (input_mode x c).
    instantiate (1 := fun _ => edited rest (match input_mode x c with Some c => key x st c | None => st end)).
    destruct (input_mode x c) as [c1|] eqn:Em; [|by apply runs_ret].
    exact (key_edited rest st s1 c1 rq1 sq He1 Hlen (input_mode_s8 c c1 Hc8 Em) Ht1).
  - intros [] s2 He2. by apply runs_ret.
Qed.

Lemma cook_loop_edited : forall rest st s' k, (length rest < k)%nat -> edited rest st s' ->
  runs n (fun n s => iterate k (fun _ : unit => cook_step cook ch) tt n s) s'
    (fun _ s1 => edited (keys x rest st).1 (keys x rest st).2 s1).
Proof.
  induction rest as [|c rest IH]; intros st s' k Hk He; (destruct k as [|k]; [lia|]).
  - unfold runs. assert (cook_step cook ch n s' = Done (inr tt) s') as E.
    { destruct He as [(rq & sq & Ht & Hr & _) _ _]. unfold cook_step. step (tty_get_run n s' ch _ Ht).
      change (EMPTY (read_q ?t)) with (EMPTY rq). by rewrite (EMPTY_holds _ _ Hr). }
    by rewrite (iterate_last _ _ _ _ _ _ _ E).
  - cbn [keys]. destruct (Nat.leb_spec 1023 (length (ln_chars st))) as [Hf|Hf].
    + unfold runs. assert (cook_step cook ch n s' = Done (inr tt) s') as E.
      { destruct He as [(rq & sq & Ht & Hr & _ & Hq & _) _ _]. unfold cook_step. step (tty_get_run n s' ch _ Ht).
        change (EMPTY (read_q ?t)) with (EMPTY rq). change (FULL (secondary ?t)) with (FULL sq).
        rewrite (FULL_holds _ _ Hq). destruct (Z.leb_spec 1023 (Z.of_nat (length (ln_chars st)))); [|lia]. by rewrite andb_false_r. }
      by rewrite (iterate_last _ _ _ _ _ _ _ E).
    + pose proof (cook_step_edited c rest st s' He Hf) as Hstep. unfold runs in Hstep |- *.
      destruct (cook_step cook ch n s') as [r s1|?|?|?|?|] eqn:E; try done. destruct Hstep as [-> He1].
      rewrite (iterate_next _ _ _ _ _ _ _ E). apply IH; [simpl in Hk; lia|exact He1].
Qed.
End Cooking2.

(** The task that sleeps until there is something to read. *)
Definition woken (w : option Z) (j : Z) (t : task_struct) : task_struct :=
  if bool_decide (w = Some j) then t <| state := TASK_RUNNING |> else t.

(** C16. The line discipline, without echo: the characters that have come in are taken in
    order, as long as there is room for more, and edit what has been typed as the modes of
    the terminal say: ordinary characters are appended, line ends counted, the erase and the
    kill character take back one character or all of them, but nothing before the last
    line end, the stop and start characters set the state of the output, and the
    interrupt and quit characters send their signals to the tasks of the terminal's
    process group and to no other; the task that waits for input is woken. *)
Theorem copy_to_cooked_edits (n : nat) (ch : Z) (s : kstate) (x : tty_struct) (inp l : list Z) :
  (1024 < n)%nat -> tty_is s ch x -> queue_holds (read_q x) inp -> queue_holds (secondary x) l ->
  _L_FLAG x ECHO = false -> _I_FLAG x IUCLC = false ->
  (forall h, q_proc (secondary x) = Some h -> 0 <= h < 64 /\ is_Some (task_slot s h)) ->
  let '(rest, st) := keys x inp (mkLine l (q_data (secondary x)) (stopped x) 0) in
  exists s' rq sq, copy_to_cooked ch n s = Done tt s' /\
    tty_is s' ch (now x rq sq (ln_stopped st)) /\ queue_holds rq rest /\
    queue_holds sq (ln_chars st) /\ q_data sq = ln_count st /\ q_proc sq = None /\
    (forall c, c <> ch -> arr_get (tty_table (k_chr s')) c = arr_get (tty_table (k_chr s)) c) /\
    (forall j, 0 <= j < 64 -> task_slot s' j = (fun t => woken (q_proc (secondary x)) j (interrupted x (ln_signals st) t)) <$> task_slot s j).
Proof.
  intros Hn Hx Hr Hq Hecho Hu Hw. destruct (keys x inp _) as [rest st] eqn:Ek.
  assert (edited ch s x inp (mkLine l (q_data (secondary x)) (stopped x) 0) s) as He.
  { constructor; [|done|].
    - exists (read_q x), (secondary x). split; [|done]. unfold now. simpl.
      unfold tty_is. rewrite Hx. by destruct x.
    - intros j Hj. simpl. destruct (task_slot s j); [|done]. simpl. by rewrite interrupted_0. }
  unfold copy_to_cooked. destruct n as [|n']; [lia|]. cbn [cooking]. 
  pose proof (queue_length _ _ Hr) as Hlen.
  pose proof (cook_loop_edited (S n') ch s x (cooking n') Hecho Hu Hn inp _ s (S n') ltac:(lia) He) as Hl.
  rewrite Ek in Hl. simpl in Hl. apply runs_done in Hl as ([] & s1 & E1 & He1).
  unfold cooked. assert (loop (fun _ : unit => cook_step (cooking n') ch) tt (S n') s = Done tt s1) as E1' by exact E1.
  step E1'. destruct He1 as [(rq & sq & Ht & Hrq & _ & Hsq & Hd & Hp) Ho Hs].
  set (w := q_proc (secondary x)) in *. set (sq1 := sq <| q_proc := None |>).
  assert (Hsq1 : queue_holds sq1 (ln_chars st)) by (by destruct Hsq).
  assert (exists s2, wake_up (tty_wait ch Secondary) (S n') s1 = Done tt s2 /\ tty_is s2 ch (now x rq sq1 (ln_stopped st)) /\
    (forall c, c <> ch -> arr_get (tty_table (k_chr s2)) c = arr_get (tty_table (k_chr s1)) c) /\
    (forall j, 0 <= j < 64 -> task_slot s2 j = woken w j <$> task_slot s1 j)) as (s2 & E2 & Ht2 & Ho2 & Hs2).
  { unfold wake_up. step (get_run (S n') s1). unfold tty_wait at 1. cbn [wq_get]. rewrite Ht.
    change (q_proc (queue_of Secondary (now x rq sq (ln_stopped st)))) with (q_proc sq). rewrite Hp.
    destruct w as [h|] eqn:Ew.
    - destruct (Hw h eq_refl) as [Hh [t Hth]]. pose proof (Hs h Hh) as Hth1. rewrite Hth in Hth1. simpl in Hth1.
      assert (E : wake_task (Some h) (S n') s1 = Done tt (set_slot h (Some ((interrupted x (ln_signals st) t) <| state := TASK_RUNNING |>)) s1))
        by exact (task_upd_run h (fun t => t <| state := TASK_RUNNING |>) _ _ s1 Hth1).
      step E. set (s3 := set_slot h _ s1). assert (Ht3 : arr_get (tty_table (k_chr s3)) ch = Some (now x rq sq (ln_stopped st))) by exact Ht.
      exists (with_tty ch (now x rq sq1 (ln_stopped st)) s3). split.
      + unfold modify, tty_wait. cbn [wq_put]. rewrite Ht3. reflexivity.
      + split; [exact (tty_is_with s3 ch _ _ Ht3)|]. split; [intros c Hc; by apply arr_get_set_ne|].
        intros j Hj. change (task_slot (with_tty ch ?t s3) j) with (task_slot s3 j). unfold s3.
        rewrite task_slot_set by (by eapply task_slot_range). unfold woken. case_decide as Ej.
        * subst j. rewrite Hth1. simpl. by rewrite bool_decide_eq_true_2.
        * destruct (task_slot s1 j); [|done]. simpl. by rewrite bool_decide_eq_false_2 by congruence.
    - exists s1. split; [done|]. split; [|split; [done|]].
      + replace sq1 with sq; [exact Ht|]. unfold sq1. clear -Hp. destruct sq. simpl in Hp |- *. by rewrite Hp.
      + intros j Hj. by destruct (task_slot s1 j). }
  exists s2, rq, sq1. split; [exact E2|]. split; [exact Ht2|]. split; [done|]. split; [done|]. split; [exact Hd|]. split; [done|].
  split; [intros c Hc; rewrite Ho2 by done; by apply Ho|].
  intros j Hj. rewrite Hs2, Hs by done. by destruct (task_slot s j).
Qed.

(** ** Witnesses *)

Definition typed_queue (data : Z) (l : list Z) (w : option Z) : tty_queue :=
  mkQueue data (Z.of_nat (length l)) 0 w (l ++ replicate (1024 - length l) 0).

Lemma typed_queue_holds data l w : (length l < 1024)%nat -> Forall (fun c => -128 <= c < 128) l ->
  queue_holds (typed_queue data l w) l.
Proof.
  intros Hl Hc. constructor; simpl; try lia.
  - rewrite length_app, length_replicate. lia.
  - rewrite Z.sub_0_r, Z.mod_small; lia.
  - intros k Hk. rewrite Z.add_0_l, Z.mod_small by lia. unfold arr_get. destruct (Z.ltb_spec k 0); [lia|].
    rewrite lookup_app_l by lia. destruct (lookup_lt_is_Some_2 l (Z.to_nat k) ltac:(lia)) as [c Ec]. rewrite Ec. simpl.
    pose proof (proj1 (Forall_lookup _ _) Hc _ _ Ec). simpl in *. unfold s8. rewrite Z.mod_small by lia. f_equal. lia.
Qed.


(** A console in canonical mode without echo; "hi", an erasure, "o", an interrupt, a
    return and "x" have come in; task 1 waits. *)
Definition keyboard : list Z := [104; 105; 127; 111; 3; 13; 120].
Definition quiet_tty (r sec : list Z) (data : Z) (w : option Z) : tty_struct :=
  mkTty (init_termios 256 5 0 3) 7 0 ConWrite (typed_queue 0 r None) (empty_queue 0) (typed_queue data sec w).
Definition tty_task (g : Z) : task_struct := (init_task 0) <| pid := 11 |> <| pgrp := g |> <| state := TASK_INTERRUPTIBLE |>.
Definition at_terminal (x : tty_struct) : kstate :=
  set_slot 2 (Some (tty_task 8)) (set_slot 1 (Some (tty_task 7)) (with_tty 0 x boot_k)) <| k_sched ::= fun c => c <| current := 1 |> |>.

Lemma copy_to_cooked_edits_witness :
  keys (quiet_tty keyboard [97; 10] 1 (Some 1)) keyboard (mkLine [97; 10] 1 0 0) = ([], mkLine [97; 10; 104; 111; 10; 120] 2 0 INTMASK) /\
  exists s' rq sq, copy_to_cooked 0 1100%nat (at_terminal (quiet_tty keyboard [97; 10] 1 (Some 1))) = Done tt s' /\
    tty_is s' 0 (now (quiet_tty keyboard [97; 10] 1 (Some 1)) rq sq 0) /\ queue_holds rq [] /\
    queue_holds sq [97; 10; 104; 111; 10; 120] /\ q_data sq = 2 /\ q_proc sq = None /\
    (forall c, c <> 0 -> arr_get (tty_table (k_chr s')) c = arr_get (tty_table (k_chr (at_terminal (quiet_tty keyboard [97; 10] 1 (Some 1))))) c) /\
    (forall j, 0 <= j < 64 -> task_slot s' j = (fun t => woken (Some 1) j (interrupted (quiet_tty keyboard [97; 10] 1 (Some 1)) INTMASK t)) <$>
       task_slot (at_terminal (quiet_tty keyboard [97; 10] 1 (Some 1))) j).
Proof.
  split; [vm_compute; reflexivity|].
  apply (copy_to_cooked_edits 1100%nat 0 (at_terminal (quiet_tty keyboard [97; 10] 1 (Some 1)))
    (quiet_tty keyboard [97; 10] 1 (Some 1)) keyboard [97; 10]).
  - apply Nat.ltb_lt. vm_compute. reflexivity.
  - reflexivity.
  - apply typed_queue_holds; [apply Nat.ltb_lt; vm_compute; reflexivity|]. repeat (apply List.Forall_cons; [lia|]). apply List.Forall_nil.
  - apply typed_queue_holds; [apply Nat.ltb_lt; vm_compute; reflexivity|]. repeat (apply List.Forall_cons; [lia|]). apply List.Forall_nil.
  - vm_compute. reflexivity.
  - vm_compute. reflexivity.
  - intros h [= <-]. split; [lia|]. by eexists.
Defined.

(** A read of 10 characters of two lines and the beginning of a third one. *)
Lemma tty_read_delivers_witness :
  let x := quiet_tty [] [104; 105; 10; 111; 10; 120] 2 None in
  exists p rest s', tty_read 0 0x1000 10 1100%nat (at_terminal x) = Done (Z.of_nat (length p)) s' /\ Forall (fun c => is_eof x c = false) p /\
    ([104; 105; 10; 111; 10; 120] = p ++ rest /\ Z.of_nat (length p) = 6 /\ took 0 0x1000 (at_terminal x) x p (line_ends x p) rest s' \/
     [104; 105; 10; 111; 10; 120] = p ++ EOF_CHAR x :: rest /\ is_eof x (EOF_CHAR x) = true /\ Z.of_nat (length p) < 10 /\
       took 0 0x1000 (at_terminal x) x p (line_ends x (p ++ [EOF_CHAR x])) rest s').
Proof.
  intros x. apply (tty_read_delivers 0 0x1000 10 (at_terminal x) (tty_task 7) x [104; 105; 10; 111; 10; 120] 1100%nat).
  - lia.
  - lia.
  - apply Nat.ltb_lt. vm_compute. reflexivity.
  - reflexivity.
  - reflexivity.
  - reflexivity.
  - apply typed_queue_holds; [apply Nat.ltb_lt; vm_compute; reflexivity|]. repeat (apply List.Forall_cons; [lia|]). apply List.Forall_nil.
  - reflexivity.
  - discriminate.
  - reflexivity.
  - intros _. left. discriminate.
  - intros H. vm_compute in H. discriminate.
Defined.

(** ** What the code does not mean to do *)

(** In canonical mode with the beginning of a line typed and no line end in the queue,
    [sleep_if_empty] does not sleep: the read goes round its loop, in the kernel, for
    ever. *)
Theorem tty_read_spins (ch buf nr : Z) (s : kstate) (t : task_struct) (x : tty_struct) (l : list Z) (n : nat) :
  0 <= ch <= 2 -> 0 < nr -> task_slot s (current (k_sched s)) = Some t -> signal t = 0 ->
  tty_is s ch x -> queue_holds (secondary x) l -> q_data (secondary x) = 0 ->
  l <> [] -> Z.of_nat (length l) < 1003 -> c_cc x VTIME = 0 -> _L_FLAG x ICANON = true ->
  tty_read ch buf nr n s = NoFuel.
Proof.
  intros Hch Hnr Ht Hsig Hx Hl Hd Hne Hlen Htime Hc. unfold tty_read. rewrite (u32_small ch) by lia.
  destruct (Z.ltb_spec 2 ch); [lia|]. destruct (Z.ltb_spec nr 0); [lia|]. cbn [orb].
  step (cur_run t n s Ht). step (tty_get_run n s ch x Hx). cbv zeta. rewrite Htime.
  change (10 * 0) with 0. change (nz 0 && negb (nz (c_cc x VMIN))) with false. cbv iota.
  assert (E : forall m, read_step ch buf nr m 0 (alarm t) (0, false) n s = Done (inl (0, false)) s \/
    read_step ch buf nr m 0 (alarm t) (0, false) n s = NoFuel).
  { intros m. unfold read_step. destruct (Z.leb_spec nr 0); [lia|]. step (cur_run t n s Ht). rewrite Hsig. cbn [andb nz Z.eqb negb].
    step (tty_get_run n s ch x Hx). cbv zeta. rewrite (EMPTY_holds _ _ Hl), (LEFT_holds _ _ Hl), Hd, Hc.
    rewrite bool_decide_eq_false_2 by done. destruct (Z.ltb_spec 20 (1023 - Z.of_nat (length l))); [|lia]. cbn [orb andb nz Z.eqb negb].
    unfold sleep_if_empty. destruct n as [|n']; [by right|]. left.
    assert (E : loop (fun _ : unit => let! t := cur in let! q := queue_get ch Secondary in
      if negb (nz (signal t)) && EMPTY q then interruptible_sleep_on (tty_wait ch Secondary) ;;; ret (inl tt) else ret (inr tt)) tt (S n') s = Done tt s).
    { apply loop_once; [lia|]. step (cur_run t (S n') s Ht). step (queue_get_run (S n') s ch x Hx Secondary).
      change (queue_of Secondary x) with (secondary x). rewrite (EMPTY_holds _ _ Hl), bool_decide_eq_false_2 by done. by rewrite andb_false_r. }
    by step E. }
  step (ret_run (c_cc x VMIN, false) n s). unfold bind at 1, loop.
  enough (forall k m, iterate k (read_step ch buf nr m 0 (alarm t)) (0, false) n s = NoFuel) as -> by done.
  intros k m. induction k as [|k IH]; [done|]. cbn [iterate]. destruct (E m) as [-> | ->]; [exact IH|done].
Qed.

(** Text after ESC Z in the same write: the answer to the query is echoed by a
    [con_write] inside the [con_write], which empties the queue, and the outer one goes on
    past its end. *)
Example query_overruns :
  match tty_init (mkSetup 0 10 0 3 80 3) 100%nat boot_k with
  | Done _ s =>
      match (for_each [97; 27; 90; 97; 98] (fun c => PUTCH c 0 WriteQ) ;;; tty_output_flush 0) 20%nat s with
      | Done _ s => match arr_get (tty_table (k_chr s)) 0 with Some t => CHARS (write_q t) | None => 0 end
      | _ => 0
      end
  | _ => 0
  end = 1022.
Proof. vm_compute. reflexivity. Qed.
