(* ===== verification/ScreenProps.v ===== *)
(** * What is written appears: tty_write, con_write and printk

    A short text written to an idle console with the usual output modes goes through
    the write queue, with a carriage return before each line feed, and is on the
    screen when the call returns. *)
From Stdlib Require Import ZArith Lia String.
From stdpp Require Import base list.
From S2P Require Import Prelude Resumption Memory KState Runs Sched Errno Segment Console ConsoleProps Tty PipeProps TtyProps.

(** ** Characters of a text ask the terminal for nothing *)

Definition returns {S A} (m : M S A) (P : A -> Prop) : Prop := forall n s a s', m n s = Done a s' -> P a.

Lemma returns_ret {S A} (a : A) (P : A -> Prop) : P a -> returns (S := S) (ret a) P.
Proof. by intros H n s b s' [= <- _]. Qed.
Lemma returns_bind {S A B} (m : M S A) (f : A -> M S B) P : (forall a, returns (f a) P) -> returns (bind m f) P.
Proof.
  intros H n s b s' E. unfold bind in E. destruct (m n s) as [a s1|?|?|?|?|]; try done. by eapply H.
Qed.
Lemma returns_if {S A} (c : bool) (m m' : M S A) P : returns m P -> returns m' P -> returns (if c then m else m') P.
Proof. by destruct c. Qed.

Lemma con_plain_quiet erase k : typed erase k = true -> returns (con_plain erase k) (fun a => a = Nothing).
Proof.
  intros Hk. unfold con_plain. apply returns_bind. intros c. cbv zeta.
  assert (E : (k =? erase) = true \/ (k =? 7) = false).
  { unfold typed in Hk. destruct (Z.eqb_spec k 7) as [->|]; [|by right]. left. by destruct (7 =? erase). }
  destruct E as [-> | ->]; repeat (apply returns_if || (apply returns_bind; intros ?) || by apply returns_ret).
Qed.

Lemma con_char_ends c0 erase k c sc :
  typed erase k = true -> displays c0 c sc ->
  ends (con_char erase k) c (fun a c' => a = Nothing /\
    displays c0 c' (type_char (video_num_columns c0) (top c0) (bottom c0) (video_erase_char c0) (attr c0) erase sc k)).
Proof.
  intros Hk Hd n. pose proof (typed_displays c0 erase k c sc Hk Hd n) as H.
  destruct (con_char erase k n c) as [a c'|?|?|?|?|] eqn:E; try done. split; [|exact H].
  apply (con_plain_quiet erase k Hk n c a c'). rewrite <- E. unfold con_char, bind, get. cbn [obind].
  destruct (di_modes _ _ _ Hd) as (_ & _ & _ & _ & Hs). by rewrite Hs.
Qed.

Lemma displays_out c0 c sc l : displays c0 c sc -> displays c0 (c <| con_out := l |>) sc.
Proof. intros []. split; try done. by apply con_ok_out. Qed.

(** ** The state while a text goes out *)

(** [s'] is [s] but for the write queue of terminal [ch], the flag of tty_write, the
    console and the ports. *)
Record going (ch : Z) (x : tty_struct) (s : kstate) (q : tty_queue) (flag : Z) (c : console) (s' : kstate) : Prop := mkGoing {
  go_tty : tty_is s' ch (x <| write_q := q |>);
  go_flag : cr_flag (k_chr s') = flag;
  go_con : con (k_chr s') = c;
  go_tasks : task (k_sched s') = task (k_sched s) /\ current (k_sched s') = current (k_sched s);
  go_user : k_user s' = k_user s
}.

Section Going.
Context (ch : Z) (x : tty_struct) (s : kstate).
#[local] Notation going' := (going ch x s).

Lemma going_queue q q' v c s' : going' q v c s' -> going' q' v c (with_tty ch (x <| write_q := q' |>) s').
Proof. intros [H1 H2 H3 H4 H5]. split; try done. by eapply tty_is_with. Qed.
Lemma going_sched q v c s' f : (forall r, task (f r) = task r /\ current (f r) = current r) -> going' q v c s' -> going' q v c (s' <| k_sched ::= f |>).
Proof.
  intros Hf [H1 H2 H3 [H4 H4'] H5]. split; try done. destruct (Hf (k_sched s')) as [E1 E2]. 
  change (task (f (k_sched s')) = task (k_sched s) /\ current (f (k_sched s')) = current (k_sched s)). by rewrite E1, E2.
Qed.
Lemma going_outs (l : list (Z * Z)) q v c s' : going' q v c s' ->
  ends (for_each l (fun '(v, port) => outb v port)) s' (fun _ => going' q v c).
Proof.
  revert s'. induction l as [|[a p] l IH]; intros s' H; cbn [for_each]; [by apply ends_ret|].
  apply ends_bind, ends_modify, IH. by apply going_sched.
Qed.

(** A routine of console.c, seen by the terminal. *)
Lemma going_on_con {A} (m : M console A) q v c s' (P : A -> console -> Prop) :
  going' q v c s' -> ends m c P -> (forall a c' l, P a c' -> P a (c' <| con_out := l |>)) ->
  ends (on_con m) s' (fun a s2 => exists c', P a c' /\ going' q v c' s2).
Proof.
  intros H Hm Hout. unfold on_con. apply ends_bind, ends_zoom. rewrite (go_con _ _ _ _ _ _ _ H).
  eapply ends_mono; [exact Hm|]. cbv beta. intros a c' Hc.
  apply ends_bind, ends_get, ends_bind, ends_modify, ends_bind.
  eapply ends_mono; [apply (going_outs _ q v (c' <| con_out := [] |>))|].
  - destruct H as [H1 H2 H3 H4 H5]. by split.
  - intros [] s2 H2. apply ends_ret. exists (c' <| con_out := [] |>). split; [by apply Hout|done].
Qed.
End Going.

(** ** The console takes the queue *)

Lemma set_cursor_ends c : ends set_cursor c (fun _ c' => exists l, c' = c <| con_out := l |>).
Proof.
  apply ends_bind, ends_get. do 3 apply ends_bind, con_outb_ends. apply con_outb_ends.
  exists ((((con_out c ++ [(u8 14, video_port_reg c)]) ++
    [(u8 (Z.land 0xff (Z.shiftr (u32 (pos c - video_mem_start c)) 9)), video_port_val c)]) ++ [(u8 15, video_port_reg c)]) ++
    [(u8 (Z.land 0xff (Z.shiftr (u32 (pos c - video_mem_start c)) 1)), video_port_val c)]).
  by destruct c.
Qed.

Section Write.
Context (ch : Z) (x : tty_struct) (s : kstate) (c0 : console).
#[local] Notation going' := (going ch x s).
#[local] Notation types := (type_char (video_num_columns c0) (top c0) (bottom c0) (video_erase_char c0) (attr c0) (ERASE_CHAR x)).

Lemma con_write_char_going cook k l q v c s' sc : typed (ERASE_CHAR x) k = true ->
  queue_holds q (k :: l) -> displays c0 c sc -> going' q v c s' ->
  ends (con_write_char cook ch) s' (fun _ s2 => exists q' c', queue_holds q' l /\ displays c0 c' (types sc k) /\ going' q' v c' s2).
Proof.
  intros Hk Hq Hd H. destruct (get_char_holds q k l Hq) as (q' & Eq & Hq' & _).
  unfold con_write_char. eapply ends_step; [intros n; apply (GETCH_run n s' ch _ (go_tty _ _ _ _ _ _ _ H) WriteQ k q' Eq)|].
  pose proof (going_queue ch x s q q' v c s' H) as H1.
  eapply ends_bind, ends_deref; [exact (go_tty _ _ _ _ _ _ _ H1)|].
  apply ends_bind. eapply ends_mono.
  - apply (going_on_con ch x s _ q' v c _ (fun a c' => a = Nothing /\ displays c0 c' (types sc k)) H1).
    + by apply con_char_ends.
    + intros a c' o [-> Hd']. split; [done|by apply displays_out].
  - cbv beta. intros a s2 (c' & [-> Hd'] & H2). apply ends_ret. by exists q', c'.
Qed.

Lemma con_write_loop cook r : forall l q v c s' sc, length r = length l -> forallb (typed (ERASE_CHAR x)) l = true ->
  queue_holds q l -> displays c0 c sc -> going' q v c s' ->
  ends (for_each r (fun _ : Z => con_write_char cook ch)) s' (fun _ s2 =>
    exists q' c', queue_holds q' [] /\ displays c0 c' (fold_left types l sc) /\ going' q' v c' s2).
Proof.
  induction r as [|i r IH]; intros [|k l] q v c s' sc Hlen Hl Hq Hd H; try done; cbn [for_each].
  - apply ends_ret. by exists q, c.
  - cbn [forallb] in Hl. bprop. apply ends_bind. eapply ends_mono; [by eapply con_write_char_going|].
    cbv beta. intros [] s2 (q' & c' & Hq' & Hd' & H'). cbn [fold_left]. eapply IH; try done. cbn in Hlen. lia.
Qed.

Lemma con_write_going cook l q v c s' sc : forallb (typed (ERASE_CHAR x)) l = true ->
  queue_holds q l -> displays c0 c sc -> going' q v c s' ->
  ends (con_write cook ch) s' (fun _ s2 =>
    exists q' c', queue_holds q' [] /\ displays c0 c' (fold_left types l sc) /\ going' q' v c' s2).
Proof.
  intros Hl Hq Hd H. unfold con_write, queue_get. apply ends_bind, ends_bind. eapply ends_deref; [exact (go_tty _ _ _ _ _ _ _ H)|].
  apply ends_ret. change (queue_of WriteQ (x <| write_q := q |>)) with q. rewrite (CHARS_holds q l Hq), Nat2Z.id.
  apply ends_bind. eapply ends_mono; [eapply (con_write_loop cook _ l); [apply zrange_length|done..]|].
  cbv beta. intros [] s2 (q' & c' & Hq' & Hd' & H').
  eapply ends_mono; [apply (going_on_con ch x s set_cursor q' v c' s2 (fun _ c2 => displays c0 c2 (fold_left types l sc)) H')|].
  - eapply ends_mono; [apply set_cursor_ends|]. cbv beta. intros _ c2 [o ->]. by apply displays_out.
  - intros _ c2 o. apply displays_out.
  - cbv beta. intros _ s3 (c2 & Hd2 & H3). by exists q', c2.
Qed.
End Write.

(** ** Filling the queue *)

(** A line feed goes out behind a carriage return. *)
Definition expand (l : list Z) : list Z := flat_map (fun k => if k =? 10 then [13; 10] else [k]) l.

Lemma expand_typed erase l : forallb (typed erase) l = true -> forallb (typed erase) (expand l) = true.
Proof.
  intros H. unfold expand. induction l as [|k l IH]; [done|]. cbn [forallb flat_map] in *. bprop. rewrite forallb_app, IH by done.
  destruct (Z.eqb_spec k 10) as [->|]; cbn [forallb andb]; [|by rewrite andb_true_r, H].
  by destruct erase as [|[]|].
Qed.
Lemma expand_length l : (length l <= length (expand l))%nat.
Proof. unfold expand. induction l as [|k l IH]; [done|]. cbn [flat_map]. rewrite length_app. destruct (k =? 10); cbn [length] in *; lia. Qed.

Section Fill.
Context (ch : Z) (x : tty_struct) (s : kstate) (c : console) (src : Z -> K Z) (buf : Z) (text : list Z).
#[local] Notation going' := (going ch x s).
Context (Hmode : c_oflag x = Z.lor OPOST ONLCR).
Context (Htext : Forall (fun k => s8 k = k) text).
Context (Hsrc : forall q v s' i k n, going' q v c s' -> text !! i = Some k -> src (buf + Z.of_nat i) n s' = Done k s').

Lemma output_modes q : let t := x <| write_q := q |> in
  _O_FLAG t OPOST = true /\ _O_FLAG t ONLCR = true /\ _O_FLAG t OCRNL = false /\ _O_FLAG t ONLRET = false /\ _O_FLAG t OLCUC = false.
Proof.
  cbv zeta. unfold _O_FLAG. change (c_oflag (x <| write_q := q |>)) with (c_oflag x). rewrite Hmode. done.
Qed.

Lemma put_going k q v acc s' : going' q v c s' -> queue_holds q acc -> (length acc < 1023)%nat -> s8 k = k ->
  exists q2, queue_holds q2 (acc ++ [k]) /\ forall n v', exists s2,
    (forall b : bool, (set_cr_flag v' ;;; PUTCH k ch WriteQ ;;; ret b) n s' = Done b s2) /\ going' q2 v' c s2.
Proof.
  intros H Hq Hl Hk. destruct (put_char_holds q acc Hq k Hl) as (q2 & Eq & Hq2 & _). rewrite Hk in Hq2. exists q2. split; [done|].
  intros n v'. set (s1 := s' <| k_chr ::= fun r => r <| cr_flag := v' |> |>). assert (H1 : going' q v' c s1) by (destruct H as [H1 H2 H3 H4 H5]; by split).
  eexists. split; [|exact (going_queue ch x s q q2 v' c s1 H1)]. intros b. unfold set_cr_flag.
  step (modify_run (fun s => s <| k_chr ::= fun r => r <| cr_flag := v' |> |>) n s').
  by step (PUTCH_run n s1 ch _ (go_tty _ _ _ _ _ _ _ H1) WriteQ k q2 Eq).
Qed.

(** A round from a place in the text. *)
Definition round (done_ : Z) : K (Z + Z) :=
  let! q := queue_get ch WriteQ in
  if (done_ <? Z.of_nat (length text)) && negb (FULL q) then
    let! w := write_char src ch (buf + done_) in
    ret (inl (if w then done_ + 1 else done_))
  else ret (inr done_).

(** One round of the inner loop; [fed]: the carriage return has been put. *)
Definition fed (v : Z) (k : Z) : bool := (k =? 10) && negb (nz v).
Lemma fill_round i k q v acc s' n : going' q v c s' -> queue_holds q acc -> (length acc < 1023)%nat -> text !! i = Some k ->
  exists q2 s2, round (Z.of_nat i) n s' = Done (inl (if fed v k then Z.of_nat i else Z.of_nat i + 1)) s2 /\
  going' q2 (b2z (fed v k)) c s2 /\ queue_holds q2 (acc ++ [if fed v k then 13 else k]).
Proof.
  intros H Hq Hl Hk. assert (K8 : s8 k = k) by (by eapply Forall_lookup_1 in Htext).
  unfold round. step (queue_get_run n s' ch _ (go_tty _ _ _ _ _ _ _ H) WriteQ).
  change (queue_of WriteQ (x <| write_q := q |>)) with q. rewrite (FULL_holds q acc Hq).
  apply lookup_lt_Some in Hk as Hi. replace (Z.of_nat i <? Z.of_nat (length text)) with true by (symmetry; apply Z.ltb_lt; lia).
  replace (1023 <=? Z.of_nat (length acc)) with false by (symmetry; apply Z.leb_gt; lia). cbn [andb negb].
  unfold write_char. destruct (output_modes q) as (M1 & M2 & M3 & M4 & M5).
  destruct (put_going (if fed v k then 13 else k) q v acc s' H Hq Hl) as (q2 & Hq2 & P); [by destruct (fed v k)|].
  exists q2. destruct (P n (b2z (fed v k))) as (s2 & E & H2). exists s2. split; [|by split].
  assert (E' : write_char src ch (buf + Z.of_nat i) n s' = Done (negb (fed v k)) s2).
  { unfold write_char. step (Hsrc q v s' i k n H Hk). step (tty_get_run n s' ch _ (go_tty _ _ _ _ _ _ _ H)). step (get_run n s').
    rewrite (go_flag _ _ _ _ _ _ _ H), M1, M2, M3, M4, M5, K8, !andb_false_r, andb_true_r. cbn [negb]. cbv zeta. fold (fed v k).
    destruct (fed v k); cbn [b2z negb] in *; [|step (@ret_run kstate _ k n s')]; apply E. }
  step E'. by destruct (fed v k).
Qed.


Lemma fill_loop rest : forall i q acc s' k n, drop i text = rest -> going' q 0 c s' -> queue_holds q acc ->
  (length acc + length (expand rest) < 1023)%nat -> (2 * length rest < k)%nat ->
  exists q2 s2, iterate k round (Z.of_nat i) n s' = Done (Z.max (Z.of_nat i) (Z.of_nat (length text))) s2 /\ going' q2 0 c s2 /\ queue_holds q2 (acc ++ expand rest).
Proof.
  induction rest as [|k0 rest IH]; intros i q acc s' k n Hi H Hq Hl Hk.
  - assert (length text <= i)%nat by (pose proof (length_drop text i) as E; rewrite Hi in E; cbn in E; lia).
    exists q, s'. split; [|split; [done|by rewrite app_nil_r]]. destruct k as [|k]; [cbn in Hk; lia|]. apply iterate_last.
    unfold round. step (queue_get_run n s' ch _ (go_tty _ _ _ _ _ _ _ H) WriteQ).
    replace (Z.of_nat i <? Z.of_nat (length text)) with false by (symmetry; apply Z.ltb_ge; lia). cbn [andb]. unfold ret. do 2 f_equal. lia.
  - assert (Hk0 : text !! i = Some k0).
    { pose proof (lookup_drop text i 0) as E. rewrite Hi, Nat.add_0_r in E. by symmetry. }
    assert (Hi' : drop (S i) text = rest).
    { replace (S i) with (i + 1)%nat by lia. rewrite <- drop_drop, Hi. done. }
    apply lookup_lt_Some in Hk0 as Hlt. cbn [length] in Hk.
    assert (L : forall acc q s' k, going' q 0 c s' -> queue_holds q acc -> (length acc + length (expand rest) < 1023)%nat -> (2 * length rest < k)%nat ->
      exists q2 s2, iterate k round (Z.of_nat i + 1) n s' = Done (Z.max (Z.of_nat i) (Z.of_nat (length text))) s2 /\ going' q2 0 c s2 /\ queue_holds q2 (acc ++ expand rest)).
    { intros acc' q' s1 k' H1 Hq1 Hl1 Hk1. replace (Z.of_nat i + 1) with (Z.of_nat (S i)) by lia.
      replace (Z.max (Z.of_nat i) (Z.of_nat (length text))) with (Z.max (Z.of_nat (S i)) (Z.of_nat (length text))) by lia. by eapply IH. }
    unfold expand in *. cbn [flat_map] in *. rewrite length_app in Hl.
    destruct (fill_round i k0 q 0 acc s' n H Hq ltac:(lia) Hk0) as (q2 & s2 & E & H2 & Hq2).
    assert (EF : fed 0 k0 = (k0 =? 10)) by (unfold fed; by rewrite andb_true_r). rewrite EF in *.
    destruct k as [|k]; [lia|]. destruct (Z.eqb_spec k0 10) as [->|Hne].
    + cbn [length] in Hl. destruct (fill_round i 10 q2 1 _ s2 n H2 Hq2 ltac:(rewrite length_app; cbn [length]; lia) Hk0)
        as (q3 & s3 & E3 & H3 & Hq3).
      change (fed 1 10) with false in *. cbv iota in *. destruct k as [|k]; [lia|].
      rewrite (iterate_next _ _ _ _ _ _ _ E), (iterate_next _ _ _ _ _ _ _ E3).
      destruct (L _ q3 s3 k H3 Hq3) as (q4 & s4 & E4 & H4 & Hq4); [rewrite !length_app; cbn [length]; lia|lia|].
      exists q4, s4. split; [exact E4|]. split; [done|]. by rewrite <- !app_assoc in Hq4.
    + rewrite (iterate_next _ _ _ _ _ _ _ E). destruct (L _ q2 s2 k H2 Hq2) as (q4 & s4 & E4 & H4 & Hq4); [rewrite !length_app; cbn [length] in *; lia|lia|].
      exists q4, s4. split; [exact E4|]. split; [done|]. by rewrite <- !app_assoc in Hq4.
Qed.
End Fill.

(** ** A text from its place in memory to the screen *)

(** What a text does to the screen of [c]. *)
Definition shown (x : tty_struct) (c : console) (text : list Z) : screen :=
  fold_left (type_char (video_num_columns c) (top c) (bottom c) (video_erase_char c) (attr c) (ERASE_CHAR x)) (expand text) (view c).

(** A console terminal with the usual modes and nothing to write, and a text it can
    take at once. *)
Record ready_console (ch : Z) (x : tty_struct) (s : kstate) (text : list Z) : Prop := mkReady {
  rc_channel : 0 <= ch <= 2;
  rc_signal : exists t, task_slot s (current (k_sched s)) = Some t /\ signal t = 0;
  rc_tty : tty_is s ch x;
  rc_driver : tty_out x = ConWrite;
  rc_empty : queue_holds (write_q x) [];
  rc_modes : c_oflag x = Z.lor OPOST ONLCR;
  rc_flag : cr_flag (k_chr s) = 0;
  rc_console : con_ok (con (k_chr s)) /\ con_state (con (k_chr s)) = 0;
  rc_text : forallb (typed (ERASE_CHAR x)) text = true /\ Forall (fun k => s8 k = k) text;
  rc_fits : (length (expand text) < 1023)%nat
}.

Section WriteCall.
Context (ch : Z) (x : tty_struct) (s : kstate) (src : Z -> K Z) (buf : Z) (text : list Z) (n : nat).
Context (Hr : ready_console ch x s text) (Hn : (2 * length text + 1 < n)%nat).
Context (Hsrc : forall q v s' i k n, going ch x s q v (con (k_chr s)) s' -> text !! i = Some k -> src (buf + Z.of_nat i) n s' = Done k s').

Lemma tty_write_run : exists s' c', tty_write_from src ch buf (Z.of_nat (length text)) n s = Done (Z.of_nat (length text)) s' /\
  displays (con (k_chr s)) c' (shown x (con (k_chr s)) text) /\
  exists q, queue_holds q [] /\ going ch x s q 0 c' s'.
Proof.
  destruct Hr as [Hch (t & Ht & Hsig) Hx Hd He Hm Hf [Hok Hst] [Hty H8] Hfit].
  assert (G0 : going ch x s (write_q x) 0 (con (k_chr s)) s).
  { split; try done. change (tty_is s ch (x <| write_q := write_q x |>)). by replace (x <| write_q := write_q x |>) with x by (by destruct x). }
  pose proof (displays_view (con (k_chr s)) Hok Hst) as D0.
  unfold tty_write_from. rewrite (u32_small ch) by lia.
  replace ((2 <? ch) || (Z.of_nat (length text) <? 0)) with false by (symmetry; apply orb_false_iff; lia).
  destruct n as [|[|m]]; [lia|lia|]. set (n' := S (S m)) in *. destruct (decide (text = [])) as [->|Hne].
  { exists s, (con (k_chr s)). split; [by apply loop_once; [lia|]|]. split; [exact D0|]. exists (write_q x). by split. }
  assert (Hlen : (0 < length text)%nat) by (destruct text; [done|cbn; lia]).
  destruct (fill_loop ch x s (con (k_chr s)) src buf text Hm H8 Hsrc text 0 (write_q x) [] s n' n' eq_refl G0 He ltac:(cbn; lia) ltac:(lia))
    as (q1 & s1 & E1 & G1 & Q1). cbn [app] in Q1. rewrite Z.max_r in E1 by lia.
  destruct (ends_run _ n' _ _ (con_write_going ch x s (con (k_chr s)) copy_to_cooked (expand text) q1 0 (con (k_chr s)) s1 _
    (expand_typed _ _ Hty) Q1 D0 G1)) as ([] & s2 & E2 & q2 & c2 & Q2 & D2 & G2).
  exists s2, c2. split; [|split; [exact D2|by exists q2]]. unfold loop. change (iterate n') with (iterate (A := Z) (S := kstate) (X := Z) (S (S m))).
  assert (W : write_step src ch buf (Z.of_nat (length text)) 0 n' s = Done (inl (Z.of_nat (length text))) s2).
  { unfold write_step. replace (Z.of_nat (length text) <=? 0) with false by (symmetry; apply Z.leb_gt; lia).
    assert (S1 : sleep_if_full ch WriteQ n' s = Done tt s).
    { unfold sleep_if_full. step (queue_get_run n' s ch _ Hx WriteQ). change (queue_of WriteQ x) with (write_q x). by rewrite (FULL_holds _ _ He). }
    step S1. step (cur_run t n' s Ht). rewrite Hsig. change (nz 0) with false. cbv iota.
    assert (F1 : fill_queue src ch buf (Z.of_nat (length text)) 0 n' s = Done (Z.of_nat (length text)) s1) by exact E1.
    step F1. assert (O1 : tty_output_flush ch n' s1 = Done tt s2).
    { unfold tty_output_flush, tty_flush. step (tty_get_run n' s1 ch _ (go_tty _ _ _ _ _ _ _ G1)).
      change (tty_out (x <| write_q := q1 |>)) with (tty_out x). by rewrite Hd. }
    step O1. by rewrite Z.ltb_irrefl. }
  rewrite (iterate_next _ _ _ _ _ _ _ W). apply iterate_last. unfold write_step. by rewrite Z.leb_refl.
Qed.
End WriteCall.

(** C18. A text written to an idle console that uses the usual modes - shorter than the
    write queue with a carriage return added to each line feed, without escape
    sequences - is on the screen when the call returns, exactly as a plain terminal
    shows it from the cursor on; the call returns its length, and the queue is empty
    again. *)
Theorem written_text_appears (ch buf : Z) (x : tty_struct) (s : kstate) (text : list Z) (n : nat) :
  ready_console ch x s text -> (2 * length text + 1 < n)%nat ->
  (forall i k, text !! i = Some k -> k_user s (current (k_sched s)) (u32 (buf + Z.of_nat i)) = k) ->
  exists s' x', tty_write ch buf (Z.of_nat (length text)) n s = Done (Z.of_nat (length text)) s' /\
    displays (con (k_chr s)) (con (k_chr s')) (shown x (con (k_chr s)) text) /\
    tty_is s' ch x' /\ queue_holds (write_q x') [] /\ cr_flag (k_chr s') = 0.
Proof.
  intros Hr Hn Hm. destruct (tty_write_run ch x s get_fs_byte buf text n Hr Hn) as (s' & c' & E & D & q & Q & G).
  { intros q v s' i k m H Hk. unfold get_fs_byte, gets. rewrite (go_user _ _ _ _ _ _ _ H).
    destruct (go_tasks _ _ _ _ _ _ _ H) as [_ ->]. by rewrite (Hm i k Hk). }
  exists s', (x <| write_q := q |>). split; [exact E|]. rewrite (go_con _ _ _ _ _ _ _ G). split; [exact D|].
  split; [exact (go_tty _ _ _ _ _ _ _ G)|]. split; [exact Q|exact (go_flag _ _ _ _ _ _ _ G)].
Qed.

Definition console_tty : tty_struct := mkTty (init_termios 256 5 0 2571) 0 0 ConWrite (empty_queue 0) (empty_queue 0) (empty_queue 0).
Definition at_console (text : list Z) : kstate :=
  boot_k <| k_chr ::= fun r => r <| con := small_console |> |> <| k_user := fun _ a => byte_at text (a - 0x1000) |>.

Lemma written_text_appears_witness :
  exists s' x', tty_write 0 0x1000 3 8%nat (at_console [104; 105; 10]) = Done 3 s' /\
    displays small_console (con (k_chr s')) (shown console_tty small_console [104; 105; 10]) /\
    tty_is s' 0 x' /\ queue_holds (write_q x') [] /\ cr_flag (k_chr s') = 0.
Proof.
  apply (written_text_appears 0 0x1000 console_tty (at_console [104; 105; 10]) [104; 105; 10] 8%nat).
  - split; try reflexivity.
    + lia.
    + by eexists.
    + apply empty_queue_holds.
    + split; [exact small_console_ok|reflexivity].
    + split; [vm_compute; reflexivity|]. repeat (apply List.Forall_cons; [reflexivity|]). apply List.Forall_nil.
    + apply Nat.ltb_lt. reflexivity.
  - cbn. lia.
  - intros i k Hk. do 3 (destruct i as [|i]; [injection Hk as <-; reflexivity|]). discriminate Hk.
Defined.
