(* ===== verification/Fork.v ===== *)
(** * Creating a process: kernel/fork.c, the fork entry of kernel/system_call.s, sched_init *)
From Stdlib Require Import ZArith Lia String.
From stdpp Require Import base list.
From S2P Require Import Prelude Resumption Memory KState Sched BlkDev Buffer Super Inode Errno Segment Open.

(** The registers the interrupt and the system-call entry have pushed. *)
Record pushed := mkPushed {
  p_ebp : Z; p_edi : Z; p_esi : Z; p_gs : Z; p_ebx : Z; p_ecx : Z; p_edx : Z;
  p_fs : Z; p_es : Z; p_ds : Z; p_eip : Z; p_cs : Z; p_eflags : Z; p_esp : Z; p_ss : Z
}.

(** Offsets of [ldt] and [tss] in a [task_struct]. *)
Definition LDT_OFFSET : Z := 720.
Definition TSS_OFFSET : Z := 744.

Definition set_gdt (i : Z) (d : desc_struct) : K unit := set_sched (fun c => c <| gdt ::= fun l => arr_set l i d |>).

(** ** copy_mem *)

Definition copy_mem (nr : Z) : K Z :=
  let! t := cur in
  let code_limit := get_limit (ldt_at t 1) in
  let data_limit := get_limit (ldt_at t 2) in
  let old_code_base := get_base (ldt_at t 1) in
  let old_data_base := get_base (ldt_at t 2) in
  if negb (old_data_base =? old_code_base) then panic "We don't support separate I&D" else
  if data_limit <? code_limit then panic "Bad data_limit" else
  let new_base := u32 (nr * 0x4000000) in
  task_upd nr (fun p => p <| start_code := new_base |>) ;;;
  task_upd nr (fun p => set_ldt 1 (set_base (ldt_at p 1) new_base) p) ;;;
  task_upd nr (fun p => set_ldt 2 (set_base (ldt_at p 2) new_base) p) ;;;
  let! r := on_mm (copy_page_tables old_data_base new_base data_limit) in
  if nz r then
    printk "free_page_tables: from copy_mem" ;;;
    on_mm (free_page_tables new_base data_limit) ;;;
    ret (- ENOMEM)
  else ret 0.

(** ** copy_process *)

(** The child's structure from its parent's. *)
Definition child_tss (nr page : Z) (r : pushed) (t : tss_struct) : tss_struct :=
  t <| back_link := 0 |> <| esp0 := u32 (4096 + page) |> <| ss0 := 0x10 |>
    <| eip := p_eip r |> <| eflags := p_eflags r |> <| eax := 0 |>
    <| ecx := p_ecx r |> <| edx := p_edx r |> <| ebx := p_ebx r |>
    <| esp := p_esp r |> <| ebp := p_ebp r |> <| esi := p_esi r |> <| edi := p_edi r |>
    <| tss_es := Z.land (p_es r) 0xffff |> <| tss_cs := Z.land (p_cs r) 0xffff |>
    <| tss_ss := Z.land (p_ss r) 0xffff |> <| tss_ds := Z.land (p_ds r) 0xffff |>
    <| tss_fs := Z.land (p_fs r) 0xffff |> <| tss_gs := Z.land (p_gs r) 0xffff |>
    <| tss_ldt := _LDT nr |> <| trace_bitmap := 0x80000000 |>.

Definition child_of (nr page new_pid now : Z) (r : pushed) (t : task_struct) : task_struct :=
  t <| task_page := page |> <| state := TASK_UNINTERRUPTIBLE |> <| pid := new_pid |> <| father := pid t |>
    <| counter := priority t |> <| signal := 0 |> <| alarm := 0 |> <| leader := 0 |>
    <| utime := 0 |> <| stime := 0 |> <| cutime := 0 |> <| cstime := 0 |> <| start_time := now |>
    <| tss ::= child_tss nr page r |>.

(** [if (p) p->i_count++] *)
Definition share_inode (p : option Z) : K unit :=
  match p with Some i => ino_upd i (set_count (fun c => c + 1)) | None => ret tt end.

Section Fork.
(** The coprocessor state [fninit] sets, which [fnsave] also leaves behind. *)
Context (fninit : list Z).

Definition copy_process (nr : Z) (r : pushed) : K Z :=
  let! p := on_mm get_free_page in
  if negb (nz p) then ret (- EAGAIN) else
  let! t := cur in
  let! s := get in
  modify (set_slot nr (Some (child_of nr p (last_pid (k_sched s)) (jiffies (k_sched s)) r t))) ;;;
  when (bool_decide (last_task_used_math (k_sched s) = Some (current (k_sched s))))
    (task_upd nr (fun c => c <| tss ::= fun x => x <| i387 := fpu (k_sched s) |> |>) ;;;
     set_sched (fun c => c <| fpu := fninit |>)) ;;;
  let! e := copy_mem nr in
  if nz e then
    modify (set_slot nr None) ;;;
    on_mm (free_page p) ;;;
    ret (- EAGAIN)
  else
  let! c := task_get nr in
  for_each (zrange 0 20) (fun i =>
    match fd_get c i with
    | Some f => file_upd f (fun x => x <| f_count ::= fun n => u16 (n + 1) |>)
    | None => ret tt
    end) ;;;
  let! t := cur in
  share_inode (pwd t) ;;;
  share_inode (root t) ;;;
  share_inode (executable t) ;;;
  set_gdt (Z.shiftl nr 1 + FIRST_TSS_ENTRY) (set_tss_desc (p + TSS_OFFSET)) ;;;
  set_gdt (Z.shiftl nr 1 + FIRST_LDT_ENTRY) (set_ldt_desc (p + LDT_OFFSET)) ;;;
  task_upd nr (fun c => c <| state := TASK_RUNNING |>) ;;;
  gets (fun s => last_pid (k_sched s)).

(** ** find_empty_process *)

Definition pid_used (s : kstate) (p : Z) : bool :=
  existsb (fun i => match task_slot s i with Some t => pid t =? p | None => false end) (zrange 0 64).

Definition set_last_pid (p : Z) : K unit := set_sched (fun c => c <| last_pid := p |>).

Definition next_pid (p : Z) : Z := if s32 (p + 1) <? 0 then 1 else s32 (p + 1).

Definition find_empty_process : K Z :=
  loop (fun _ : unit =>
    let! s := get in
    set_last_pid (next_pid (last_pid (k_sched s))) ;;;
    let! s := get in
    ret (if pid_used s (last_pid (k_sched s)) then inl tt else inr tt)) tt ;;;
  let! s := get in
  ret (default (- EAGAIN) (List.find (fun i => match task_slot s i with Some _ => false | None => true end) (zrange 1 63))).

(** [sys_fork] of system_call.s: no slot, no child. *)
Definition sys_fork (r : pushed) : K Z :=
  let! nr := find_empty_process in
  if nr <? 0 then ret nr else copy_process nr r.
End Fork.

(** ** sched_init *)

Definition LATCH : Z := 1193180 / HZ.

(** Everything but the loading of the task registers and of the flags; task 0 is at the address [task_page] says. *)
Definition sched_init : K unit :=
  let! t := task_get 0 in
  set_gdt FIRST_TSS_ENTRY (set_tss_desc (task_page t + TSS_OFFSET)) ;;;
  set_gdt FIRST_LDT_ENTRY (set_ldt_desc (task_page t + LDT_OFFSET)) ;;;
  for_each (zrange 1 63) (fun i =>
    modify (set_slot i None) ;;;
    set_gdt (2 * i + FIRST_TSS_ENTRY) (mkDesc 0 0) ;;;
    set_gdt (2 * i + FIRST_TSS_ENTRY + 1) (mkDesc 0 0)) ;;;
  outb 0x36 0x43 ;;;
  outb (Z.land LATCH 0xff) 0x40 ;;;
  outb (Z.shiftr LATCH 8) 0x40 ;;;
  set_intr_gate 0x20 "timer_interrupt" ;;;
  let! m := inb 0x21 in
  outb (Z.ldiff m 0x01) 0x21 ;;;
  set_system_gate 0x80 "system_call".
