(* ===== verification/ForkProps.v ===== *)
(** * Properties of process creation

    The choice of a process id and a slot, which always ends, and the whole of
    [fork]: the child is a copy of its parent that shares its memory, its files and
    its directories, or nothing has changed. *)
From Stdlib Require Import ZArith Lia String.
From stdpp Require Import base list sets.
From S2P Require Import Prelude Resumption Memory PageTables PagingProps KState Runs Sched BlkDev Buffer.
From S2P Require Import Super Inode Errno Segment SegmentProps Open Fork.

(** ** Process ids *)

Definition MAX_PID : Z := 2147483647.

Lemma next_pid_eq p : 0 <= p <= MAX_PID -> next_pid p = if p =? MAX_PID then 1 else p + 1.
Proof.
  unfold next_pid, MAX_PID. intros Hp. destruct (Z.eqb_spec p 2147483647) as [->|]; [done|].
  rewrite s32_small by lia. by zcase.
Qed.

(** The id after [j] more tries. *)
Definition nth_pid (j : nat) (p : Z) : Z := Nat.iter j next_pid p.

Lemma nth_pid_eq j p : 0 <= p <= MAX_PID -> nth_pid (S j) p = (p + Z.of_nat j) mod MAX_PID + 1.
Proof.
  intros Hp. unfold MAX_PID in *. induction j as [|j IH].
  - cbn [nth_pid Nat.iter]. unfold nth_pid. cbn. rewrite next_pid_eq by done. unfold MAX_PID.
    destruct (Z.eqb_spec p 2147483647) as [->|]; [done|]. rewrite Z.mod_small; lia.
  - change (nth_pid (S (S j)) p) with (next_pid (nth_pid (S j) p)). rewrite IH.
    set (x := (p + Z.of_nat j) mod 2147483647).
    assert (Hx : 0 <= x < 2147483647) by (apply Z.mod_pos_bound; lia). rewrite next_pid_eq by (unfold MAX_PID; lia).
    replace (p + Z.of_nat (S j)) with (p + Z.of_nat j + 1) by lia.
    rewrite <- Z.add_mod_idemp_l by lia. fold x. unfold MAX_PID.
    destruct (Z.eqb_spec (x + 1) 2147483647) as [E|E]; [by replace (x + 1) with 2147483647 by lia|].
    rewrite Z.mod_small; lia.
Qed.

Lemma nth_pid_inj i j p : 0 <= p <= MAX_PID -> (i < 65)%nat -> (j < 65)%nat -> nth_pid (S i) p = nth_pid (S j) p -> i = j.
Proof.
  intros Hp Hi Hj. rewrite !nth_pid_eq by done. unfold MAX_PID in *. intros E.
  Z.to_euclidean_division_equations; lia.
Qed.

Lemma nth_pid_range j p : 0 <= p <= MAX_PID -> 1 <= nth_pid (S j) p <= MAX_PID.
Proof. intros Hp. rewrite nth_pid_eq by done. pose proof (Z.mod_pos_bound (p + Z.of_nat j) MAX_PID ltac:(done)). lia. Qed.

(** The ids in use. *)
Definition pids (s : kstate) : list Z := omap (fun i => pid <$> task_slot s i) (zrange 0 64).

Lemma pid_used_spec s p : pid_used s p = true <-> p ∈ pids s.
Proof.
  unfold pid_used, pids. rewrite existsb_exists, list_elem_of_omap. split.
  - intros (i & Hi & Hp). exists i. split; [by apply list_elem_of_In|]. destruct (task_slot s i); [|done].
    apply Z.eqb_eq in Hp. simpl. by f_equal.
  - intros (i & Hi & Hp). exists i. split; [by apply list_elem_of_In|].
    destruct (task_slot s i); [|done]. injection Hp as <-. apply Z.eqb_refl.
Qed.

Lemma omap_length {A B} (f : A -> option B) l : (length (omap f l) <= length l)%nat.
Proof. induction l as [|x l IH]; csimpl; [done|]. destruct (f x); csimpl; lia. Qed.

Lemma pids_length s : (length (pids s) <= 64)%nat.
Proof. unfold pids. etrans; [apply omap_length|]. by rewrite zrange_length. Qed.

Lemma some_pid_free s p : 0 <= p <= MAX_PID -> exists j, (j < 65)%nat /\ pid_used s (nth_pid (S j) p) = false.
Proof.
  intros Hp. destruct (existsb (fun j => negb (pid_used s (nth_pid (S j) p))) (seq 0 65)) eqn:E.
  { apply existsb_exists in E as (j & Hj & H). exists j. apply in_seq in Hj. split; [lia|]. by apply negb_true_iff. }
  exfalso. assert (H : forall j, (j < 65)%nat -> nth_pid (S j) p ∈ pids s).
  { intros j Hj. apply pid_used_spec. destruct (pid_used s (nth_pid (S j) p)) eqn:E'; [done|]. rewrite <- E.
    apply existsb_exists. exists j. split; [apply in_seq; lia|]. by rewrite E'. }
  assert (Hl : (length (map (fun j => nth_pid (S j) p) (seq 0 65)) <= length (pids s))%nat).
  { apply NoDup_incl_length.
    - apply NoDup_ListNoDup, NoDup_fmap_2_strong; [|apply NoDup_seq].
      intros i j Hi%elem_of_seq Hj%elem_of_seq. apply nth_pid_inj; [done|lia|lia].
    - intros x (j & <- & Hj)%in_map_iff. apply in_seq in Hj. apply list_elem_of_In, H. lia. }
  rewrite length_map, length_seq in Hl. pose proof (pids_length s). lia.
Qed.

Definition with_last_pid (p : Z) (s : kstate) : kstate := s <| k_sched ::= fun c => c <| last_pid := p |> |>.

(** The search with [k] tries left ends at the first id that is not in use. *)
Lemma pid_search k s n j p :
  pid_used s (nth_pid (S j) p) = false -> (forall i, (i < j)%nat -> pid_used s (nth_pid (S i) p) = true) ->
  (j < k)%nat -> last_pid (k_sched s) = p ->
  iterate k (fun _ : unit =>
    let! s := get in
    set_last_pid (next_pid (last_pid (k_sched s))) ;;;
    let! s := get in
    ret (if pid_used s (last_pid (k_sched s)) then inl tt else inr tt)) tt n s
  = Done tt (with_last_pid (nth_pid (S j) p) s).
Proof.
  revert s j p. induction k as [|k IH]; intros s j p Hf Hu Hk Hp; [lia|].
  set (s1 := with_last_pid (next_pid p) s).
  assert (Hs1 : forall q, pid_used s1 q = pid_used s q) by done.
  destruct j as [|j].
  - apply iterate_last. unfold bind, get, ret, set_last_pid, set_sched, modify. cbn [obind]. rewrite Hp. fold (with_last_pid (next_pid p) s). fold s1.
    rewrite Hs1. change (last_pid (k_sched s1)) with (nth_pid 1 p). by rewrite Hf.
  - assert (Hshift : forall i, nth_pid i (next_pid p) = nth_pid (S i) p).
    { intros i. unfold nth_pid. by rewrite Nat.iter_succ_r. }
    rewrite (iterate_next k _ tt n s tt s1).
    + rewrite (IH s1 j (next_pid p)); [by rewrite Hshift| | |lia|done].
      * by rewrite Hshift.
      * intros i Hi. rewrite Hshift, Hs1. apply Hu. lia.
    + unfold bind, get, ret, set_last_pid, set_sched, modify. cbn [obind]. rewrite Hp. fold (with_last_pid (next_pid p) s). fold s1.
      rewrite Hs1. change (last_pid (k_sched s1)) with (nth_pid 1 p). rewrite (Hu 0%nat); [done|lia].
Qed.

Lemma first_unused s p : 0 <= p <= MAX_PID -> exists j, (j < 65)%nat /\ pid_used s (nth_pid (S j) p) = false /\
  forall i, (i < j)%nat -> pid_used s (nth_pid (S i) p) = true.
Proof.
  intros Hp. destruct (some_pid_free s p Hp) as (j & Hj & Hf). revert Hj Hf. induction j as [j IH] using lt_wf_ind. intros Hj Hf.
  destruct (existsb (fun i => negb (pid_used s (nth_pid (S i) p))) (seq 0 j)) eqn:E.
  - apply existsb_exists in E as (i & Hi & H). apply in_seq in Hi. apply (IH i); [lia|lia|by apply negb_true_iff].
  - exists j. split; [done|]. split; [done|]. intros i Hi. destruct (pid_used s (nth_pid (S i) p)) eqn:E'; [done|].
    rewrite <- E. apply existsb_exists. exists i. split; [apply in_seq; lia|]. by rewrite E'.
Qed.

(** ** Slots *)

Definition free_slot (s : kstate) (i : Z) : bool := match task_slot s i with Some _ => false | None => true end.

Lemma find_spec {A} (f : A -> bool) l : match List.find f l with
  | Some x => exists l1 l2, l = l1 ++ x :: l2 /\ f x = true /\ forall y, y ∈ l1 -> f y = false
  | None => forall y, y ∈ l -> f y = false end.
Proof.
  induction l as [|x l IH]; simpl; [set_solver|]. destruct (f x) eqn:E.
  - exists [], l. split; [done|]. split; [done|]. set_solver.
  - destruct (List.find f l) as [y|].
    + destruct IH as (l1 & l2 & -> & Hy & Hl). exists (x :: l1), l2. split; [done|]. split; [done|].
      intros z [->|Hz]%elem_of_cons; auto.
    + intros y [->|Hy]%elem_of_cons; auto.
Qed.

(** The slot [find_empty_process] chooses: the first free one. *)
Definition first_free (s : kstate) (nr : Z) : Prop :=
  1 <= nr < 64 /\ task_slot s nr = None /\ forall i, 1 <= i < nr -> task_slot s i <> None.

Lemma find_empty_process_run (n : nat) (s : kstate) :
  0 <= last_pid (k_sched s) <= MAX_PID -> (65 <= n)%nat ->
  exists p r, find_empty_process n s = Done r (with_last_pid p s) /\
    1 <= p <= MAX_PID /\ pid_used s p = false /\
    (r = - EAGAIN /\ (forall i, 1 <= i < 64 -> task_slot s i <> None) \/ first_free s r).
Proof.
  intros Hp Hn. destruct (first_unused s _ Hp) as (j & Hj & Hf & Hu).
  set (p := nth_pid (S j) (last_pid (k_sched s))). exists p.
  assert (E : forall {B} (f : unit -> K B), bind (loop (fun _ : unit =>
    let! s := get in
    set_last_pid (next_pid (last_pid (k_sched s))) ;;;
    let! s := get in
    ret (if pid_used s (last_pid (k_sched s)) then inl tt else inr tt)) tt) f n s = f tt n (with_last_pid p s)).
  { intros B f. apply bind_run. apply pid_search; [done|done|lia|done]. }
  unfold find_empty_process. rewrite E. unfold bind, get. cbn [obind]. unfold ret. eexists. split; [reflexivity|].
  split; [by apply nth_pid_range|]. split; [done|]. change (fun i => match task_slot (with_last_pid p s) i with Some _ => false | None => true end) with (free_slot s).
  pose proof (find_spec (free_slot s) (zrange 1 63)) as H. destruct (List.find (free_slot s) (zrange 1 63)) as [r|]; simpl.
  - right. destruct H as (l1 & l2 & El & Hr & Hl).
    assert (Ek : r = 1 + Z.of_nat (length l1)).
    { assert (E1 : zrange 1 63 !! length l1 = Some r) by (rewrite El; by rewrite list_lookup_middle).
      pose proof (lookup_lt_Some _ _ _ E1) as Hlt. rewrite zrange_length in Hlt. rewrite zrange_lookup in E1 by done. congruence. }
    assert (In r (zrange 1 63)) as Hin by (rewrite El; apply list_elem_of_In; set_solver). apply zrange_elem in Hin.
    split; [lia|]. split; [unfold free_slot in Hr; by destruct (task_slot s r)|].
    intros i Hi. specialize (Hl i). unfold free_slot in Hl. intros Hn0. rewrite Hn0 in Hl. enough (i ∈ l1) as H1 by (by specialize (Hl H1)).
    assert (E2 : zrange 1 63 !! Z.to_nat (i - 1) = Some i) by (rewrite zrange_lookup by lia; f_equal; lia).
    rewrite El, lookup_app_l in E2 by lia. by apply list_elem_of_lookup_2 in E2.
  - left. split; [done|]. intros i Hi Hn0. specialize (H i). rewrite list_elem_of_In, zrange_elem in H. specialize (H ltac:(lia)).
    unfold free_slot in H. by rewrite Hn0 in H.
Qed.

(** C27. [find_empty_process] always ends: within 65 tries it reaches a positive
    process id that no task has, and it returns the first free slot after the one
    of task 0, or -EAGAIN exactly when there is none; nothing else changes. *)
Theorem find_empty_process_total (n : nat) (s : kstate) :
  0 <= last_pid (k_sched s) <= MAX_PID -> (65 <= n)%nat ->
  exists p r, find_empty_process n s = Done r (with_last_pid p s) /\
    1 <= p <= MAX_PID /\ (forall i t, 0 <= i < 64 -> task_slot s i = Some t -> pid t <> p) /\
    (r = - EAGAIN /\ (forall i, 1 <= i < 64 -> task_slot s i <> None) \/ first_free s r).
Proof.
  intros Hp Hn. destruct (find_empty_process_run n s Hp Hn) as (p & r & E & Hr & Hu & H). exists p, r.
  split; [exact E|]. split; [done|]. split; [|done]. intros i t Hi Ht Hpid. apply not_true_iff_false in Hu. apply Hu, pid_used_spec.
  unfold pids. apply list_elem_of_omap. exists i. rewrite list_elem_of_In, zrange_elem, Ht. split; [lia|]. by simpl; f_equal.
Qed.

Definition wrapping : kstate := with_last_pid MAX_PID (set_slot 1 (Some ((init_task 0) <| pid := 1 |>)) boot_k).

Lemma find_empty_process_total_witness :
  find_empty_process 65%nat wrapping = Done 2 (with_last_pid 2 wrapping) /\
  exists p r, find_empty_process 65%nat wrapping = Done r (with_last_pid p wrapping) /\
    1 <= p <= MAX_PID /\ (forall i t, 0 <= i < 64 -> task_slot wrapping i = Some t -> pid t <> p) /\
    (r = - EAGAIN /\ (forall i, 1 <= i < 64 -> task_slot wrapping i <> None) \/ first_free wrapping r).
Proof.
  split; [vm_compute; reflexivity|]. apply (find_empty_process_total 65%nat wrapping).
  - split; vm_compute; discriminate.
  - lia.
Defined.

(** ** The memory of parent and child *)

Section Memory.
Context (s : mm) (Hwf : wf s).

Lemma take_translate q a : 0 <= q < PAGING_PAGES -> count s q = 0 -> user_addr a -> translate (take_page s q) a = translate s a.
Proof.
  intros Hq Hc Ha. destruct (take_page_reads s q Hwf Hq Hc) as (_ & Hpde & Hpte & _ & _).
  destruct (user_addr_dir a Ha) as [Hd _]. unfold translate. rewrite Hpde by done.
  destruct (present (pde s (dir_of a))) eqn:Hp; [|done]. by rewrite Hpte by (done || apply idx_of_range).
Qed.

Lemma take_extra q i : 0 <= q < PAGING_PAGES -> count s q = 0 ->
  extra (take_page s q) i = extra s i + (if decide (i = q) then 1 else 0).
Proof.
  intros Hq Hc. destruct (take_page_reads s q Hwf Hq Hc) as (_ & _ & _ & Hr & _).
  unfold extra. rewrite Hr, take_page_count by (done || apply Hwf). case_decide; subst; lia.
Qed.

Lemma copy_range_ok_take q d1 d2 n :
  0 <= n -> 0 <= q < PAGING_PAGES -> count s q = 0 -> copy_range_ok s d1 d2 n -> copy_range_ok (take_page s q) d1 d2 n.
Proof.
  intros Hn Hq Hc [_ H2 H3 H4 H5 H6 H7]. destruct (take_page_reads s q Hwf Hq Hc) as (_ & Hpde & Hpte & Hr & Hw).
  split; [done|done|done|done| | |].
  - intros k Hk. rewrite Hpde by auto. auto.
  - intros k j Hk. rewrite Hpde by auto. intros Hp Hj. rewrite Hpte by auto. auto.
  - intros i Hi. assert (E : range_refs (take_page s q) d1 (Z.to_nat n) i = range_refs s d1 (Z.to_nat n) i).
    { apply zsum_ext. intros k Hk%zrange_elem. assert (Hu : user_dir k) by (apply H2; lia).
      unfold dir_table_refs. rewrite Hpde by done. destruct (present (pde s k)) eqn:Hp; [|done].
      apply zsum_ext. intros j Hj%zrange_elem. by rewrite Hpte by (done || lia). }
    rewrite E, take_page_count by (done || apply Hwf). case_decide as Hiq; [|by apply H7]. subst i.
    rewrite (range_refs_free s d1 (Z.to_nat n) q); [lia|done| |done|done]. intros k Hk. apply H2. lia.
Qed.

(** After any part of the copy every old translation is as before. *)
Lemma range_copied_translate s' d1 d2 n k a :
  copy_range_ok s d1 d2 n -> range_copied s s' d1 d2 n k -> k <= n -> user_addr a -> ~ d2 <= dir_of a < d2 + n ->
  translate s' a = translate s a.
Proof.
  intros Hok [_ _ _ Hpd Hold _ _] Hk Ha Hr. destruct (user_addr_dir a Ha) as [Hd _]. unfold translate.
  rewrite Hpd by (done || lia). destruct (present (pde s (dir_of a))) eqn:Hp; [|done].
  pose proof (idx_of_range a) as Hi. rewrite Hold by done. case_decide; [|done].
  assert (He : 0 <= pte s (dir_of a) (idx_of a) < 2 ^ 32) by apply (ok_words s (wf_tables s Hwf)).
  destruct (present (pte s (dir_of a) (idx_of a))) eqn:Hpe.
  - destruct (protected_facts _ He Hpe) as (-> & -> & _). done.
  - unfold protected. rewrite Hpe. cbn [andb]. by rewrite Hpe.
Qed.

(** A copy that ran out of memory is undone. *)
Lemma copy_undone fuel s' d1 d2 size n k :
  n = Z.shiftr (u32 (size + 0x3fffff)) 22 -> user_dir d2 -> d2 + n <= 1024 ->
  HIGH_MEMORY s = page_addr PAGING_PAGES -> copy_range_ok s d1 d2 n -> range_copied s s' d1 d2 n k -> 0 <= k < n ->
  exists s'', free_page_tables (0x400000 * d2) size fuel s' = Done 0 s'' /\ wf s'' /\ HIGH_MEMORY s'' = HIGH_MEMORY s /\
    (forall i, 0 <= i < PAGING_PAGES -> extra s'' i = extra s i) /\
    forall a, user_addr a -> translate s'' a = translate s a.
Proof.
  intros Hn Hd2 Hb2 Hh Hok Hrc Hk. pose proof Hrc as [Hw Hh' Hx Hpd Hold Hnew _].
  assert (Hempty : forall a, user_addr a -> d2 <= dir_of a < d2 + n -> translate s a = None).
  { intros a Ha Hr. unfold translate. by rewrite (cr_empty _ _ _ _ Hok). }
  destruct (free_page_tables_run fuel s' d2 size n Hn Hd2 Hb2 Hw ltac:(lia)) as (s'' & E & Hf).
  { intros x Hx' Hp. assert (Hu : user_dir x) by (by apply (cr_to _ _ _ _ Hok)). split.
    - destruct (ok_table s' (wf_tables s' Hw) x Hu Hp) as (i & Hi & ->). rewrite Hh', Hh. unfold page_addr. lia.
    - destruct (decide (x < d2 + k)) as [Hlt|Hge]; cycle 1.
      { rewrite Hpd in Hp by (done || lia). by rewrite (cr_empty _ _ _ _ Hok) in Hp. }
      specialize (Hnew (x - d2) ltac:(lia)). replace (d2 + (x - d2)) with x in Hnew by lia.
      destruct (present (pde s (d1 + (x - d2)))) eqn:Hp1; cycle 1.
      { rewrite Hnew in Hp. by rewrite (cr_empty _ _ _ _ Hok) in Hp. }
      intros j Hj Hpj. destruct Hnew as [_ Hnew]. rewrite Hnew in * by done.
      assert (He : 0 <= pte s (d1 + (x - d2)) j < 2 ^ 32) by apply (ok_words s (wf_tables s Hwf)).
      destruct (present (pte s (d1 + (x - d2)) j)) eqn:Hpe; [|unfold shared in Hpj; by rewrite Hpe in Hpj].
      destruct (shared_facts _ He Hpe) as (_ & -> & _). rewrite Hh', Hh. apply (cr_mapped _ _ _ _ Hok); [lia|done|done|done]. }
  exists s''. split; [exact E|]. split; [apply Hf|]. split; [rewrite (rf_high _ _ _ _ Hf); exact Hh'|]. split.
  - intros i Hi. by rewrite (rf_extra _ _ _ _ Hf), Hx.
  - intros a Ha. rewrite (range_freed_translate _ _ _ _ _ Hf Ha). case_decide as Hr; [by rewrite Hempty|].
    apply (range_copied_translate _ d1 d2 n k); [done|done|lia|done|done].
Qed.
End Memory.

(** The page of a task structure, given back. *)
Lemma give_back s q n :
  wf s -> 0 <= q < PAGING_PAGES -> HIGH_MEMORY s = page_addr PAGING_PAGES -> 1 <= extra s q ->
  exists s', free_page (page_addr q) n s = Done tt s' /\ wf s' /\ HIGH_MEMORY s' = HIGH_MEMORY s /\
    (forall i, 0 <= i < PAGING_PAGES -> extra s' i = extra s i - (if decide (i = q) then 1 else 0)) /\
    forall a, translate s' a = translate s a.
Proof.
  intros Hwf Hq Hh Hx. unfold extra in Hx. pose proof (refs_nonneg s q). pose proof (wf_bytes s Hwf q).
  exists (with_count s q (count s q - 1)). split.
  { apply free_page_run; [apply Hwf|done|unfold page_addr in *; lia|lia]. }
  assert (Hc : forall i, count (with_count s q (count s q - 1)) i = count s i - if decide (i = q) then 1 else 0).
  { intros i. etrans; [apply count_set; [apply Hwf|done]|]. rewrite u8_small by lia. case_decide; subst; lia. }
  assert (Hr : forall i, refs (with_count s q (count s q - 1)) i = refs s i) by (intros; apply refs_map).
  split; [split|].
  - eapply tables_ok_ext; [apply Hwf|exact (ok_words s (wf_tables s Hwf))|done].
  - etrans; [apply arr_set_length|]. apply Hwf.
  - intros i. rewrite Hc. pose proof (wf_bytes s Hwf i). case_decide; subst; lia.
  - intros i Hi. rewrite Hc, Hr. pose proof (wf_counted s Hwf i Hi). case_decide; subst; lia.
  - split; [done|]. split; [|done]. intros i Hi. unfold extra. rewrite Hc, Hr. lia.
Qed.

(** ** copy_mem *)

(** The running task [t] with its segment at the 4 MB directory entry [d1]. *)
Record parent (s : kstate) (t : task_struct) (d1 n : Z) : Prop := mkParent {
  pa_tasks : length (task (k_sched s)) = 64%nat;
  pa_cur : task_slot s (current (k_sched s)) = Some t;
  pa_ldt : length (ldt t) = 3%nat;
  pa_code : get_base (ldt_at t 1) = 0x400000 * d1;
  pa_data : get_base (ldt_at t 2) = 0x400000 * d1;
  pa_limit : get_limit (ldt_at t 1) <= get_limit (ldt_at t 2);
  pa_size : n = Z.shiftr (u32 (get_limit (ldt_at t 2) + 0x3fffff)) 22;
  pa_small : n <= 16;
  pa_dir : user_dir d1;
  pa_top : d1 + n <= 1024;
  pa_high : HIGH_MEMORY (k_mm s) = page_addr PAGING_PAGES
}.

(** The child's structure with its segments moved to its 64 MB slot. *)
Definition relocated (nr : Z) (p : task_struct) : task_struct :=
  let p := p <| start_code := nr * 0x4000000 |> in
  let p := set_ldt 1 (set_base (ldt_at p 1) (nr * 0x4000000)) p in
  set_ldt 2 (set_base (ldt_at p 2) (nr * 0x4000000)) p.

Lemma set_slot_twice i x y s : set_slot i y (set_slot i x s) = set_slot i y s.
Proof.
  unfold set_slot. destruct s as [? [] ? ? ? ? ?]. cbn. unfold upd. cbn. do 2 f_equal.
  unfold arr_set. destruct (i <? 0); [done|]. by rewrite list_insert_insert_eq.
Qed.

Lemma ldt_at_set t k k' d : 0 <= k < Z.of_nat (length (ldt t)) ->
  ldt_at (set_ldt k d t) k' = if decide (k = k') then d else ldt_at t k'.
Proof.
  intros Hk. change (ldt_at (set_ldt k d t) k') with (default (mkDesc 0 0) (arr_get (arr_set (ldt t) k d) k')).
  case_decide as E; [subst; by rewrite arr_get_set_eq|]. by rewrite arr_get_set_ne.
Qed.

Lemma relocated_base nr p k : 0 <= nr < 64 -> length (ldt p) = 3%nat -> k = 1 \/ k = 2 ->
  get_base (ldt_at (relocated nr p) k) = nr * 0x4000000.
Proof.
  intros Hnr Hl Hk. assert (Hw : word32 (nr * 0x4000000)) by (unfold word32; lia).
  unfold relocated. cbv zeta. set (p0 := p <| start_code := _ |>). assert (Hl0 : length (ldt p0) = 3%nat) by exact Hl.
  set (p1 := set_ldt 1 _ p0). assert (Hl1 : length (ldt p1) = 3%nat) by (etrans; [apply arr_set_length|exact Hl0]).
  rewrite ldt_at_set by (rewrite Hl1; lia).
  case_decide; [by apply get_base_set_base|]. unfold p1. rewrite ldt_at_set by (rewrite Hl0; lia).
  case_decide; [by apply get_base_set_base|lia].
Qed.

Section Child.
Context (s : kstate) (t : task_struct) (d1 n : Z) (Hpa : parent s t d1 n).
Context (nr : Z) (Hnr : 1 <= nr < 64).

Lemma slot_in_range : 0 <= nr < Z.of_nat (length (task (k_sched s))).
Proof. rewrite (pa_tasks _ _ _ _ Hpa). lia. Qed.

Lemma child_dir : user_dir (16 * nr) /\ 16 * nr + n <= 1024.
Proof. pose proof (pa_small _ _ _ _ Hpa). unfold user_dir, FIRST_USER_DIR. lia. Qed.

Lemma copy_mem_run fuel p :
  nr <> current (k_sched s) -> task_slot s nr = Some p -> copy_range_ok (k_mm s) d1 (16 * nr) n ->
  exists e m', copy_mem nr fuel s = Done e (with_mm m' (set_slot nr (Some (relocated nr p)) s)) /\
    wf m' /\ HIGH_MEMORY m' = HIGH_MEMORY (k_mm s) /\
    (forall i, 0 <= i < PAGING_PAGES -> extra m' i = extra (k_mm s) i) /\
    (e = 0 /\ range_copied (k_mm s) m' d1 (16 * nr) n n \/
     e = - ENOMEM /\ forall a, user_addr a -> translate m' a = translate (k_mm s) a).
Proof.
  intros Hne Hp Hok. pose proof slot_in_range as Hr. destruct child_dir as [Hd2 Hb2].
  destruct Hpa as [_ Hcur _ Hcode Hdata Hlim Hn _ Hd1 Hb1 Hh].
  unfold copy_mem. step (cur_run t fuel s Hcur). rewrite Hcode, Hdata, Z.eqb_refl. cbn [negb].
  destruct (Z.ltb_spec (get_limit (ldt_at t 2)) (get_limit (ldt_at t 1))) as [?|_]; [lia|].
  rewrite u32_small by lia. set (nb := nr * 0x4000000).
  set (p1 := p <| start_code := nb |>). step (task_upd_run nr _ p fuel s Hp). fold p1. set (s1 := set_slot nr (Some p1) s).
  assert (E1 : task_slot s1 nr = Some p1) by (unfold s1; by rewrite task_slot_set, decide_True).
  step (task_upd_run nr _ p1 fuel s1 E1). set (p2 := set_ldt 1 (set_base (ldt_at p1 1) nb) p1).
  unfold s1. rewrite set_slot_twice. fold p2. set (s2 := set_slot nr (Some p2) s).
  assert (E2 : task_slot s2 nr = Some p2) by (unfold s2; by rewrite task_slot_set, decide_True).
  step (task_upd_run nr _ p2 fuel s2 E2). unfold s2. rewrite set_slot_twice.
  change (set_ldt 2 (set_base (ldt_at p2 2) nb) p2) with (relocated nr p). set (s3 := set_slot nr (Some (relocated nr p)) s).
  destruct (copy_page_tables_total fuel (k_mm s) d1 (16 * nr) _ n Hn Hd1 Hd2 Hok) as (r & m1 & E & H).
  replace nb with (0x400000 * (16 * nr)) by lia.
  step (on_mm_run (copy_page_tables (0x400000 * d1) (0x400000 * (16 * nr)) (get_limit (ldt_at t 2))) fuel s3 r m1 E). change (s3 <| k_mm := m1 |>) with (with_mm m1 s3).
  destruct H as [(-> & k & Hk & H)|(-> & H)]; cbn [nz negb Z.eqb].
  - destruct (copy_undone (k_mm s) (cr_wf _ _ _ _ Hok) fuel m1 d1 (16 * nr) _ n k Hn Hd2 Hb2 Hh Hok H Hk)
      as (m2 & E' & Hw & Hh' & Hx & Ht).
    
    step (printk_run "free_page_tables: from copy_mem"%string fuel (with_mm m1 s3)).
    step (on_mm_with (free_page_tables (0x400000 * (16 * nr)) (get_limit (ldt_at t 2))) fuel m1 s3 0 m2 E').
    exists (- ENOMEM), m2. split; [done|]. split; [done|]. split; [done|]. split; [done|]. by right.
  - exists 0, m1. split; [done|]. split; [exact (rc_wf _ _ _ _ _ _ H)|]. split; [exact (rc_high _ _ _ _ _ _ H)|].
    split; [exact (rc_extra _ _ _ _ _ _ H)|]. by left.
Qed.
End Child.

(** ** Shared files and directories *)

Section Bumps.
Context {X : Type} (g : X -> X).

(** The entry a pointer designates, changed by [g]. *)
Definition bump (tab : list X) (p : option Z) : list X :=
  match p with
  | Some i => match arr_get tab i with Some x => arr_set tab i (g x) | None => tab end
  | None => tab
  end.

(** How many of the pointers [l] designate entry [i]. *)
Definition pointers (l : list (option Z)) (i : Z) : nat := length (filter (fun p => p = Some i) l).

Lemma bump_lookup tab p i :
  arr_get (bump tab p) i = (if decide (p = Some i) then g <$> arr_get tab i else arr_get tab i).
Proof.
  unfold bump. destruct p as [k|]; [|by rewrite decide_False].
  destruct (arr_get tab k) as [x|] eqn:E.
  - pose proof (arr_get_Some_range _ _ _ E). case_decide as Hk.
    + injection Hk as <-. by rewrite arr_get_set_eq, E.
    + rewrite arr_get_set_ne; congruence.
  - case_decide as Hk; [|done]. injection Hk as <-. by rewrite E.
Qed.

Lemma bumps_lookup l tab i : arr_get (fold_left bump l tab) i = Nat.iter (pointers l i) g <$> arr_get tab i.
Proof.
  revert tab. induction l as [|p l IH]; intros tab; cbn [fold_left]; [by destruct (arr_get tab i)|].
  rewrite IH, bump_lookup. unfold pointers. rewrite filter_cons. case_decide; [|done].
  cbn [length]. destruct (arr_get tab i) as [x|]; simpl; [|done]. f_equal. by rewrite <- Nat.iter_succ_r.
Qed.

Lemma bumps_length l tab : length (fold_left bump l tab) = length tab.
Proof.
  revert tab. induction l as [|p l IH]; intros tab; cbn [fold_left]; [done|]. rewrite IH. unfold bump.
  destruct p as [i|]; [|done]. destruct (arr_get tab i); [|done]. apply arr_set_length.
Qed.
End Bumps.

(** The pointers are NULL or inside the table. *)
Definition pointers_ok {X} (tab : list X) (l : list (option Z)) : Prop :=
  Forall (fun p => forall i, p = Some i -> 0 <= i < Z.of_nat (length tab)) l.

Definition one_more (f : file_t) : file_t := f <| f_count ::= fun n => u16 (n + 1) |>.

Lemma share_files_run (l : list Z) (fd : Z -> option Z) n s :
  pointers_ok (file_table (k_fs s)) (map fd l) ->
  for_each l (fun i => match fd i with Some f => file_upd f one_more | None => ret tt end) n s
  = Done tt (set_files (fold_left (bump one_more) (map fd l) (file_table (k_fs s))) s).
Proof.
  revert s. induction l as [|i l IH]; intros s Hok; cbn [for_each map fold_left].
  { by destruct s as [? ? ? ? [] ? ?]. }
  apply Forall_cons in Hok as [Hi Hok]. destruct (fd i) as [f|] eqn:E.
  - destruct (arr_get_is_Some (file_table (k_fs s)) f (Hi f eq_refl)) as [x Hx].
    step (file_upd_run f one_more x n s Hx). rewrite IH.
    + cbn [bump]. rewrite Hx. done.
    + unfold pointers_ok in *. eapply Forall_impl; [exact Hok|]. intros p Hp k Hk. cbn.
      change (length (file_table _)) with (length (arr_set (file_table (k_fs s)) f (one_more x))).
      rewrite arr_set_length. by apply Hp.
  - step (ret_run tt n s). by apply IH.
Qed.

Lemma share_inode_run p n s : pointers_ok (inode_table (k_fs s)) [p] ->
  share_inode p n s = Done tt (set_inodes (bump (set_count (fun c => c + 1)) (inode_table (k_fs s)) p) s).
Proof.
  intros Hok. unfold pointers_ok in Hok. rewrite Forall_singleton in Hok. destruct p as [i|]; cbn [share_inode bump].
  - destruct (arr_get_is_Some (inode_table (k_fs s)) i (Hok i eq_refl)) as [x Hx]. rewrite (ino_upd_run i _ x n s Hx). by rewrite Hx.
  - by destruct s as [? ? ? ? [] ? ?].
Qed.

Lemma iter_one_more k f : 0 <= f_count f < 65536 -> Nat.iter k one_more f = f <| f_count := u16 (f_count f + Z.of_nat k) |>.
Proof.
  intros Hf. induction k as [|k IH].
  - destruct f. cbn in *. unfold upd. cbn. f_equal. rewrite Z.add_0_r. symmetry. by apply u16_small.
  - rewrite Nat.iter_succ, IH. unfold one_more, upd. cbn. f_equal. unfold u16. rewrite Zplus_mod_idemp_l. f_equal. lia.
Qed.

Lemma iter_count k i : 0 <= i_count i < 65536 ->
  Nat.iter k (set_count (fun c => c + 1)) i = i <| i_count := u16 (i_count i + Z.of_nat k) |>.
Proof.
  intros Hi. induction k as [|k IH].
  - destruct i. cbn in *. unfold upd. cbn. f_equal. rewrite Z.add_0_r. symmetry. by apply u16_small.
  - rewrite Nat.iter_succ, IH. unfold set_count, upd. cbn. f_equal. unfold u16. rewrite Zplus_mod_idemp_l. f_equal. lia.
Qed.

Lemma pointers_ok_length {X} (tab tab' : list X) l : length tab' = length tab -> pointers_ok tab l -> pointers_ok tab' l.
Proof. unfold pointers_ok. by intros ->. Qed.

(** ** copy_process *)

Definition with_fpu (f : list Z) (s : kstate) : kstate := s <| k_sched ::= fun c => c <| fpu := f |> |>.
Definition with_i387 (x : list Z) (c : task_struct) : task_struct := c <| tss ::= fun y => y <| i387 := x |> |>.

(** The coprocessor state of the parent, saved for the child. *)
Lemma save_math_run (b : bool) f0 fninit nr c n s :
  task_slot s nr = Some c ->
  exists f x, when b (task_upd nr (with_i387 f0) ;;; set_sched (fun c => c <| fpu := fninit |>)) n s
    = Done tt (with_fpu f (set_slot nr (Some (with_i387 x c)) s)).
Proof.
  intros Hc. destruct b; cbn [when].
  - exists fninit, f0. by step (task_upd_run nr _ c n s Hc).
  - exists (fpu (k_sched s)), (i387 (tss c)). replace (with_i387 (i387 (tss c)) c) with c; cycle 1.
    { destruct c. unfold with_i387, upd. cbn. f_equal. by destruct tss. }
    rewrite set_slot_same by done. by destruct s as [? [] ? ? ? ? ?].
Qed.

Definition fds (t : task_struct) : list (option Z) := map (fd_get t) (zrange 0 20).
Definition dirs (t : task_struct) : list (option Z) := [pwd t; root t; executable t].

(** What [t] has open is in the tables, whose counts are those of 16-bit words. *)
Record open_ok (s : kstate) (t : task_struct) : Prop := mkOpenOk {
  oo_files : pointers_ok (file_table (k_fs s)) (fds t);
  oo_dirs : pointers_ok (inode_table (k_fs s)) (dirs t);
  oo_fcounts : forall i f, arr_get (file_table (k_fs s)) i = Some f -> 0 <= f_count f < 65536;
  oo_icounts : forall i x, arr_get (inode_table (k_fs s)) i = Some x -> 0 <= i_count x < 65536
}.

(** Nothing a user program or the kernel's accounts can see has changed. *)
Record same_memory (m m' : mm) : Prop := mkSameMemory {
  sm_wf : wf m';
  sm_high : HIGH_MEMORY m' = HIGH_MEMORY m;
  sm_extra : forall i, 0 <= i < PAGING_PAGES -> extra m' i = extra m i;
  sm_translate : forall a, user_addr a -> translate m' a = translate m a
}.

(** The child [c] of [t] in slot [nr], its structure in page [q]. *)
Record child_ok (t c : task_struct) (r : pushed) (nr q new_pid : Z) : Prop := mkChildOk {
  co_pid : pid c = new_pid;
  co_father : father c = pid t;
  co_running : state c = TASK_RUNNING;
  co_counter : counter c = priority t;
  co_signal : signal c = 0;
  co_eax : eax (tss c) = 0;
  co_eip : eip (tss c) = p_eip r /\ esp (tss c) = p_esp r;
  co_stack : esp0 (tss c) = u32 (4096 + page_addr q) /\ task_page c = page_addr q;
  co_base : get_base (ldt_at c 1) = nr * 0x4000000 /\ get_base (ldt_at c 2) = nr * 0x4000000;
  co_open : fds c = fds t /\ dirs c = dirs t
}.

(** The files and directories of [t] have one more user for each pointer to them. *)
Record files_shared (s s' : kstate) (t : task_struct) : Prop := mkFilesShared {
  fs_files : forall i f, arr_get (file_table (k_fs s)) i = Some f ->
    arr_get (file_table (k_fs s')) i = Some (f <| f_count := u16 (f_count f + Z.of_nat (pointers (fds t) i)) |>);
  fs_inodes : forall i x, arr_get (inode_table (k_fs s)) i = Some x ->
    arr_get (inode_table (k_fs s')) i = Some (x <| i_count := u16 (i_count x + Z.of_nat (pointers (dirs t) i)) |>)
}.

(** Every page of the parent is mapped at the same place of the child's slot, and
    those above 1 MB are read-only on both sides. *)
Record memory_shared (m m' : mm) (d1 n nr q : Z) : Prop := mkMemoryShared {
  ms_wf : wf m';
  ms_extra : forall i, 0 <= i < PAGING_PAGES -> extra m' i = extra m i + (if decide (i = q) then 1 else 0);
  ms_others : forall a, user_addr a -> ~ 16 * nr <= dir_of a < 16 * nr + n -> translate m' a = translate m a;
  ms_shared : forall a, 0x400000 * d1 <= a < 0x400000 * (d1 + n) ->
    let b := a + 0x400000 * (16 * nr - d1) in
    translate m' b = translate m a /\
    forall x, translate m a = Some x -> LOW_MEM <= x - a mod 4096 ->
      writable (pte m' (dir_of a) (idx_of a)) = false /\ writable (pte m' (dir_of b) (idx_of b)) = false
}.

Lemma set_inodes_twice x y s : set_inodes x (set_inodes y s) = set_inodes x s.
Proof. done. Qed.

Definition share_all (t : task_struct) (s : kstate) : kstate :=
  let s := set_files (fold_left (bump one_more) (fds t) (file_table (k_fs s))) s in
  set_inodes (fold_left (bump (set_count (fun c => c + 1))) (dirs t) (inode_table (k_fs s))) s.

(** The part of [copy_process] after the memory has been copied. *)
Lemma share_all_run {A} (t : task_struct) (f : unit -> K A) n s :
  task_slot s (current (k_sched s)) = Some t -> open_ok s t ->
  (for_each (zrange 0 20) (fun i => match fd_get t i with Some f => file_upd f one_more | None => ret tt end) ;;;
   let! t := cur in
   share_inode (pwd t) ;;; share_inode (root t) ;;; share_inode (executable t) ;;; f tt) n s = f tt n (share_all t s).
Proof.
  intros Hcur [H1 H2 _ _]. step (share_files_run (zrange 0 20) (fd_get t) n s H1). set (s1 := set_files _ s).
  step (cur_run t n s1 Hcur). apply Forall_cons in H2 as [Hd1 H2]. apply Forall_cons in H2 as [Hd2 H2].
  assert (Hl : forall p tab, length (bump (set_count (fun c => c + 1)) tab p) = length tab) by (intros p tab; apply (bumps_length _ [p])).
  step (share_inode_run (pwd t) n s1 ltac:(apply Forall_singleton; exact Hd1)). set (s2 := set_inodes _ s1).
  step (share_inode_run (root t) n s2 ltac:(eapply pointers_ok_length; [apply Hl|apply Forall_singleton; exact Hd2])).
  set (s3 := set_inodes _ s2).
  step (share_inode_run (executable t) n s3 ltac:(eapply pointers_ok_length; [etrans; apply Hl|exact H2])).
  unfold s3, s2, share_all, dirs. cbn [fold_left]. by rewrite !set_inodes_twice.
Qed.

Lemma share_all_shared t s : open_ok s t -> files_shared s (share_all t s) t.
Proof.
  intros [_ _ H3 H4]. split.
  - intros i f Hf. change (file_table (k_fs (share_all t s))) with (fold_left (bump one_more) (fds t) (file_table (k_fs s))).
    rewrite bumps_lookup, Hf. apply (f_equal Some), iter_one_more. eauto.
  - intros i x Hx. change (inode_table (k_fs (share_all t s))) with
      (fold_left (bump (set_count (fun c => c + 1))) (dirs t) (inode_table (k_fs s))).
    rewrite bumps_lookup, Hx. apply (f_equal Some), iter_count. eauto.
Qed.

Definition with_gdt (i : Z) (d : desc_struct) (s : kstate) : kstate := s <| k_sched ::= fun c => c <| gdt ::= fun l => arr_set l i d |> |>.
Lemma set_gdt_run i d n s : set_gdt i d n s = Done tt (with_gdt i d s).
Proof. done. Qed.

(** The last steps of [copy_process]. *)
Definition finish_fork (nr p : Z) : K Z :=
  set_gdt (Z.shiftl nr 1 + FIRST_TSS_ENTRY) (set_tss_desc (p + TSS_OFFSET)) ;;;
  set_gdt (Z.shiftl nr 1 + FIRST_LDT_ENTRY) (set_ldt_desc (p + LDT_OFFSET)) ;;;
  task_upd nr (fun c => c <| state := TASK_RUNNING |>) ;;;
  gets (fun s => last_pid (k_sched s)).

Lemma finish_fork_run nr p c n s : task_slot s nr = Some c ->
  exists s', finish_fork nr p n s = Done (last_pid (k_sched s)) s' /\ k_fs s' = k_fs s /\ k_mm s' = k_mm s /\
    forall j, task_slot s' j = if decide (nr = j) then Some (c <| state := TASK_RUNNING |>) else task_slot s j.
Proof.
  intros Hc. unfold finish_fork. step (set_gdt_run (Z.shiftl nr 1 + FIRST_TSS_ENTRY) (set_tss_desc (p + TSS_OFFSET)) n s).
  set (s1 := with_gdt _ _ s).
  step (set_gdt_run (Z.shiftl nr 1 + FIRST_LDT_ENTRY) (set_ldt_desc (p + LDT_OFFSET)) n s1). set (s2 := with_gdt _ _ s1).
  step (task_upd_run nr _ c n s2 Hc). eexists. split; [reflexivity|]. split; [done|]. split; [done|].
  intros j. apply (task_slot_set nr _ s2 j). exact (task_slot_range s nr c Hc).
Qed.

Section CopyProcess.
Context (s : kstate) (t : task_struct) (d1 n : Z) (Hpa : parent s t d1 n) (Hop : open_ok s t) (Hwf : wf (k_mm s)).
Context (nr : Z) (Hff : first_free s nr) (Hroom : copy_range_ok (k_mm s) d1 (16 * nr) n).
Context (fninit : list Z) (r : pushed) (fuel : nat).

Definition outcome_ok (new_pid v : Z) (s' : kstate) : Prop :=
  v = - EAGAIN /\ (forall j, task_slot s' j = task_slot s j) /\ k_fs s' = k_fs s /\ same_memory (k_mm s) (k_mm s') \/
  v = new_pid /\ exists c q, 0 <= q < PAGING_PAGES /\ count (k_mm s) q = 0 /\ child_ok t c r nr q new_pid /\
    (forall j, task_slot s' j = if decide (nr = j) then Some c else task_slot s j) /\
    files_shared s s' t /\ memory_shared (k_mm s) (k_mm s') d1 n nr q.

Lemma current_ne : nr <> current (k_sched s).
Proof. destruct Hff as (_ & Hf & _). intros E. rewrite E in Hf. rewrite (pa_cur _ _ _ _ Hpa) in Hf. done. Qed.

Lemma size_nonneg : 0 <= n.
Proof. rewrite (pa_size _ _ _ _ Hpa). apply Z.shiftr_nonneg. pose proof (u32_range (get_limit (ldt_at t 2) + 0x3fffff)). lia. Qed.


(** The state in which the memory has been copied. *)
Section AfterCopy.
Context (q : Z) (Hq : 0 <= q < PAGING_PAGES) (Hcq : count (k_mm s) q = 0).

Lemma page_extra : extra (k_mm s) q = 0.
Proof. unfold extra. pose proof (wf_counted _ Hwf q Hq). pose proof (refs_nonneg (k_mm s) q). lia. Qed.

Lemma copied_memory m' :
  range_copied (take_page (k_mm s) q) m' d1 (16 * nr) n n -> memory_shared (k_mm s) m' d1 n nr q.
Proof.
  intros H. destruct (take_page_reads _ q Hwf Hq Hcq) as (_ & _ & _ & _ & Hwt).
  destruct Hff as (Hnr & _). destruct (child_dir s t d1 n Hpa nr Hnr) as [Hd2 Hb2].
  pose proof (copy_range_ok_take _ Hwf q d1 _ n size_nonneg Hq Hcq Hroom) as Hok.
  pose proof (pa_dir _ _ _ _ Hpa) as Hd1. pose proof (pa_top _ _ _ _ Hpa) as Hb1. split.
  - exact (rc_wf _ _ _ _ _ _ H).
  - intros i Hi. by rewrite (rc_extra _ _ _ _ _ _ H), take_extra.
  - intros a Ha Hr. rewrite (range_copied_translate _ Hwt m' d1 (16 * nr) n n a Hok H) by (done || lia). by apply take_translate.
  - intros a Ha. assert (Hu : user_addr a) by (unfold user_addr, user_dir, FIRST_USER_DIR in *; lia).
    destruct (range_copied_shares _ _ _ _ _ a Hd1 Hd2 Hb1 Hb2 Hok H Ha) as (_ & H2 & H3).
    rewrite (take_translate _ Hwf q a Hq Hcq Hu) in H2, H3. done.
Qed.

Context (s3 : kstate) (c1 : task_struct).
Context (Hfs : k_fs s3 = k_fs s) (Hcur3 : current (k_sched s3) = current (k_sched s)) (Hl3 : length (task (k_sched s3)) = 64%nat).
Context (Hslot3 : forall j, task_slot s3 j = if decide (nr = j) then Some c1 else task_slot s j).

Lemma fork_undone m' (Hm' : same_memory (take_page (k_mm s) q) m') new_pid :
  exists v s', (modify (set_slot nr None) ;;; on_mm (free_page (page_addr q)) ;;; ret (- EAGAIN)) fuel
    (with_mm m' (set_slot nr (Some (relocated nr c1)) s3)) = Done v s' /\ outcome_ok new_pid v s'.
Proof.
  destruct Hff as (Hnr & Hfree & _). destruct Hm' as [Hw' Hh' Hx' Ht']. pose proof page_extra as Hx.
  step (modify_run (set_slot nr None) fuel (with_mm m' (set_slot nr (Some (relocated nr c1)) s3))).
  change (set_slot nr None (with_mm m' (set_slot nr (Some (relocated nr c1)) s3))) with
    (with_mm m' (set_slot nr None (set_slot nr (Some (relocated nr c1)) s3))). rewrite set_slot_twice.
  destruct (give_back m' q fuel Hw' Hq) as (m'' & E & Hw & Hh & Hx2 & Ht).
  { rewrite Hh'. exact (pa_high _ _ _ _ Hpa). }
  { rewrite Hx', take_extra, decide_True, Hx by done. lia. }
  step (on_mm_with (free_page (page_addr q)) fuel m' (set_slot nr None s3) tt m'' E).
  eexists _, _. split; [reflexivity|]. left. split; [done|]. split; [|split; [exact Hfs|split]].
  - intros j. etrans; [apply (task_slot_set nr None s3 j); rewrite Hl3; lia|]. rewrite Hslot3. by case_decide; [subst|].
  - exact Hw.
  - etrans; [exact Hh|exact Hh'].
  - intros i Hi. change (k_mm (with_mm m'' (set_slot nr None s3))) with m''. rewrite Hx2, Hx', take_extra by done. lia.
  - intros a Ha. change (k_mm (with_mm m'' (set_slot nr None s3))) with m''. rewrite Ht, Ht', take_translate by done. done.
Qed.

Lemma fork_done m' now x (Hm' : range_copied (take_page (k_mm s) q) m' d1 (16 * nr) n n) :
  c1 = with_i387 x (child_of nr (page_addr q) (last_pid (k_sched s)) now r t) ->
  last_pid (k_sched s3) = last_pid (k_sched s) ->
  exists v s',
    (let! c := task_get nr in
     for_each (zrange 0 20) (fun i => match fd_get c i with Some f => file_upd f one_more | None => ret tt end) ;;;
     let! t := cur in
     share_inode (pwd t) ;;; share_inode (root t) ;;; share_inode (executable t) ;;; finish_fork nr (page_addr q)) fuel
      (with_mm m' (set_slot nr (Some (relocated nr c1)) s3)) = Done v s' /\ outcome_ok (last_pid (k_sched s)) v s'.
Proof.
  intros Hc1 Hlast. destruct Hff as (Hnr & Hfree & _). pose proof current_ne as Hne. set (c2 := relocated nr c1).
  set (s4 := with_mm m' (set_slot nr (Some c2) s3)).
  assert (Hslot4 : forall j, task_slot s4 j = if decide (nr = j) then Some c2 else task_slot s j).
  { intros j. etrans; [apply (task_slot_set nr (Some c2) s3 j); rewrite Hl3; lia|]. rewrite Hslot3. by case_decide. }
  assert (E4 : task_slot s4 nr = Some c2) by (by rewrite Hslot4, decide_True).
  step (task_get_run nr c2 fuel s4 E4).
  assert (Hfd : fd_get c2 = fd_get t) by (unfold c2; rewrite Hc1; reflexivity). rewrite Hfd.
  assert (Hop4 : open_ok s4 t) by (destruct Hop as [H1 H2 H3 H4]; split; change (k_fs s4) with (k_fs s3); by rewrite Hfs).
  assert (Hcur4 : task_slot s4 (current (k_sched s4)) = Some t).
  { change (current (k_sched s4)) with (current (k_sched s3)). rewrite Hcur3, Hslot4, decide_False by done. exact (pa_cur _ _ _ _ Hpa). }
  rewrite (share_all_run t (fun _ => finish_fork nr (page_addr q)) fuel s4 Hcur4 Hop4).
  destruct (finish_fork_run nr (page_addr q) c2 fuel (share_all t s4) E4) as (s' & E & Hfs' & Hmm' & Hsl').
  exists (last_pid (k_sched s)), s'. rewrite E. split; [by rewrite <- Hlast|]. right. split; [done|].
  exists (c2 <| state := TASK_RUNNING |>), q. split; [done|]. split; [done|]. split; [|split; [|split]].
  - assert (Hb : forall k, k = 1 \/ k = 2 -> get_base (ldt_at c2 k) = nr * 0x4000000).
    { intros k Hk. apply relocated_base; [lia| |done]. rewrite Hc1. exact (pa_ldt _ _ _ _ Hpa). }
    split; try (unfold c2; rewrite Hc1; done). split; [apply (Hb 1)|apply (Hb 2)]; auto.
  - intros j. rewrite Hsl'. case_decide; [done|]. change (task_slot (share_all t s4) j) with (task_slot s4 j).
    rewrite Hslot4. by case_decide.
  - pose proof (share_all_shared t s4 Hop4) as [H1 H2].
    change (k_fs s4) with (k_fs s3) in H1, H2. rewrite Hfs in H1, H2. split; rewrite Hfs'; done.
  - rewrite Hmm'. change (k_mm (share_all t s4)) with m'. by apply copied_memory.
Qed.

End AfterCopy.

Lemma copy_process_run :
  exists v s', copy_process fninit nr r fuel s = Done v s' /\ outcome_ok (last_pid (k_sched s)) v s'.
Proof.
  destruct Hff as (Hnr & Hfree & _). pose proof current_ne as Hne. pose proof size_nonneg as Hn0.
  pose proof (slot_in_range s t d1 n Hpa nr Hnr) as Hrange.
  unfold copy_process. destruct (get_free_page_run fuel (k_mm s) (wf_map _ Hwf)) as [[E _]|(q & Hq & Hcq & _ & E)].
  { step (on_mm_run get_free_page fuel s 0 _ E). change (s <| k_mm := k_mm s |>) with (with_mm (k_mm s) s).
    rewrite with_mm_same. exists (- EAGAIN), s. split; [done|]. left. split; [done|]. split; [done|]. split; [done|]. by split. }
  step (on_mm_run get_free_page fuel s _ _ E). change (s <| k_mm := take_page (k_mm s) q |>) with (with_mm (take_page (k_mm s) q) s).
  replace (nz (page_addr q)) with true by (symmetry; apply nz_true; unfold page_addr, LOW_MEM; lia). cbn [negb].
  set (s1 := with_mm (take_page (k_mm s) q) s). step (cur_run t fuel s1 (pa_cur _ _ _ _ Hpa)). step (get_run fuel s1).
  set (c0 := child_of nr _ _ _ r t). step (modify_run (set_slot nr (Some c0)) fuel s1).
  set (s2 := set_slot nr (Some c0) s1).
  assert (E2 : task_slot s2 nr = Some c0) by (unfold s2; by rewrite task_slot_set, decide_True).
  destruct (save_math_run (bool_decide (last_task_used_math (k_sched s1) = Some (current (k_sched s1)))) (fpu (k_sched s1))
    fninit nr c0 fuel s2 E2) as (f & x & E3). step E3. set (c1 := with_i387 x c0). unfold s2. rewrite set_slot_twice.
  set (s3 := with_fpu f (set_slot nr (Some c1) s1)).
  assert (Hslot3 : forall j, task_slot s3 j = if decide (nr = j) then Some c1 else task_slot s j).
  { intros j. exact (task_slot_set nr (Some c1) s1 j Hrange). }
  assert (Hpa3 : parent s3 t d1 n).
  { destruct Hpa as [P1 P2 P3 P4 P5 P6 P7 P8 P9 P10 P11]. split; try done.
    - etrans; [apply (set_slot_length nr (Some c1) s1)|done].
    - rewrite Hslot3. by rewrite decide_False. }
  destruct (copy_mem_run s3 t d1 n Hpa3 nr Hnr fuel c1 Hne ltac:(by rewrite Hslot3, decide_True)
    (copy_range_ok_take _ Hwf q d1 _ n Hn0 Hq Hcq Hroom)) as (e & m' & E4 & Hw' & Hh' & Hx' & H).
  step E4. change (k_mm s3) with (take_page (k_mm s) q) in *. destruct H as [[-> H]|[-> H]]; cbn [nz negb Z.eqb].
  - apply (fork_done q Hq Hcq s3 c1 eq_refl eq_refl) with (x := x) (now := jiffies (k_sched s1)); try done.
    etrans; [apply (set_slot_length nr (Some c1) s1)|apply Hpa].
  - apply (fork_undone q Hq Hcq s3 c1 eq_refl); try done.
    etrans; [apply (set_slot_length nr (Some c1) s1)|apply Hpa].
Qed.
End CopyProcess.

(** C6. [fork] is all or nothing.  It either returns -EAGAIN and leaves every task,
    file, directory, translation and page account as it was, or it returns a fresh
    process id and has put into the first free slot a child that shares every page
    of its parent copy-on-write, is one more user of each open file and directory,
    returns 0 at the parent's instruction, and costs one page for its structure. *)
Theorem sys_fork_all_or_nothing (fninit : list Z) (r : pushed) (fuel : nat) (s : kstate) (t : task_struct) (d1 n : Z) :
  (65 <= fuel)%nat -> 0 <= last_pid (k_sched s) <= MAX_PID -> parent s t d1 n -> open_ok s t -> wf (k_mm s) ->
  (forall nr, first_free s nr -> copy_range_ok (k_mm s) d1 (16 * nr) n) ->
  exists v s', sys_fork fninit r fuel s = Done v s' /\
    (v = - EAGAIN /\ (forall j, task_slot s' j = task_slot s j) /\ k_fs s' = k_fs s /\ same_memory (k_mm s) (k_mm s') \/
     exists nr c q, 1 <= v <= MAX_PID /\ (forall i t', 0 <= i < 64 -> task_slot s i = Some t' -> pid t' <> v) /\
       first_free s nr /\ 0 <= q < PAGING_PAGES /\ count (k_mm s) q = 0 /\ child_ok t c r nr q v /\
       (forall j, task_slot s' j = if decide (nr = j) then Some c else task_slot s j) /\
       files_shared s s' t /\ memory_shared (k_mm s) (k_mm s') d1 n nr q).
Proof.
  intros Hfuel Hp Hpa Hop Hwf Hroom.
  destruct (find_empty_process_run fuel s Hp Hfuel) as (p & nr & E & Hpid & Hu & H).
  unfold sys_fork. step E. set (s1 := with_last_pid p s).
  destruct H as [[-> _]|Hff].
  { exists (- EAGAIN), s1. split; [done|]. left. split; [done|]. split; [done|]. split; [done|]. by split. }
  assert (Hpa1 : parent s1 t d1 n) by (destruct Hpa; by split).
  assert (Hop1 : open_ok s1 t) by (destruct Hop; by split).
  destruct (Z.ltb_spec nr 0) as [Hneg|_]; [unfold first_free in Hff; lia|].
  destruct (copy_process_run s1 t d1 n Hpa1 Hop1 Hwf nr Hff (Hroom nr Hff) fninit r fuel) as (v & s' & E' & H).
  rewrite E'. exists v, s'. split; [done|]. destruct H as [H|[-> H]]; [by left|]. right.
  destruct H as (c & q & Hq & Hc & Hch & Hsl & [H1 H2] & Hmm). exists nr, c, q.
  split; [done|]. split; [|done]. intros i t' Hi Ht Hpid'. apply not_true_iff_false in Hu. apply Hu, pid_used_spec.
  unfold pids. apply list_elem_of_omap. exists i. rewrite list_elem_of_In, zrange_elem, Ht. split; [lia|]. by simpl; f_equal.
Qed.

(** Task 1 with one 4 MB segment whose tables are those of [demo]. *)
Definition small_segment (d : desc_struct) : desc_struct := set_base (set_limit d 0x400000) 0x4000000.
Definition parent_task : task_struct := (init_task 0x30000) <| pid := 1 |> <| counter := 9 |>
  <| filp ::= fun l => arr_set (arr_set l 0 (Some 5)) 1 (Some 5) |> <| pwd := Some 3 |> <| root := Some 3 |>
  <| ldt := [mkDesc 0 0; small_segment (mkDesc 0x9f 0xc0fa00); small_segment (mkDesc 0x9f 0xc0f200)] |>.
Definition forking : kstate :=
  with_mm demo (with_last_pid 1 (set_slot 1 (Some parent_task) boot_k) <| k_sched ::= fun c => c <| current := 1 |> |>).

Lemma forking_parent : parent forking parent_task 16 1.
Proof. split; try (vm_compute; congruence); vm_compute; split; congruence. Qed.

Lemma pointers_check {X} (tab : list X) l :
  forallb (fun p => match p with Some i => (0 <=? i) && (i <? Z.of_nat (length tab)) | None => true end) l = true ->
  pointers_ok tab l.
Proof.
  rewrite forallb_forall. intros H. apply Forall_forall. intros p Hp i ->. specialize (H _ (proj1 (list_elem_of_In _ _) Hp)).
  cbn in H. bprop. lia.
Qed.

Lemma forking_open : open_ok forking parent_task.
Proof.
  split.
  - apply pointers_check. vm_compute. reflexivity.
  - apply pointers_check. vm_compute. reflexivity.
  - intros i f Hf. pose proof (arr_get_Some_range _ _ _ Hf) as Hi.
    change (file_table (k_fs forking)) with (replicate 64 (mkFile 0 0 0 None 0)) in *. rewrite length_replicate in Hi.
    rewrite arr_get_replicate in Hf by done. injection Hf as <-. simpl. lia.
  - intros i f Hf. pose proof (arr_get_Some_range _ _ _ Hf) as Hi.
    change (inode_table (k_fs forking)) with (replicate 32 blank_inode) in *. rewrite length_replicate in Hi.
    rewrite arr_get_replicate in Hf by done. injection Hf as <-. simpl. lia.
Qed.

Definition no_regs : pushed := mkPushed 0 0 0 0 0 0 0 0 0 0 0x1234 0x0f 0 0x5678 0x17.

Lemma sys_fork_all_or_nothing_witness :
  match sys_fork [] no_regs 65%nat forking with Done v _ => v = 2 | _ => False end /\
  exists v s', sys_fork [] no_regs 65%nat forking = Done v s' /\
    (v = - EAGAIN /\ (forall j, task_slot s' j = task_slot forking j) /\ k_fs s' = k_fs forking /\
       same_memory (k_mm forking) (k_mm s') \/
     exists nr c q, 1 <= v <= MAX_PID /\ (forall i t', 0 <= i < 64 -> task_slot forking i = Some t' -> pid t' <> v) /\
       first_free forking nr /\ 0 <= q < PAGING_PAGES /\ count (k_mm forking) q = 0 /\ child_ok parent_task c no_regs nr q v /\
       (forall j, task_slot s' j = if decide (nr = j) then Some c else task_slot forking j) /\
       files_shared forking s' parent_task /\ memory_shared (k_mm forking) (k_mm s') 16 1 nr q).
Proof.
  split; [vm_compute; reflexivity|]. apply (sys_fork_all_or_nothing [] no_regs 65%nat forking parent_task 16 1).
  - lia.
  - split; vm_compute; congruence.
  - exact forking_parent.
  - exact forking_open.
  - exact demo_wf.
  - intros nr (H1 & H2 & H3). assert (nr = 2) as ->; [|exact demo_fork].
    destruct (decide (nr = 1)) as [->|]; [vm_compute in H2; congruence|].
    destruct (decide (nr = 2)) as [->|]; [done|]. exfalso. apply (H3 2); [lia|]. vm_compute. reflexivity.
Defined.
