(* ===== verification/Exit.v ===== *)
(** * Signals sent, processes ended and waited for: kernel/exit.c *)
From Stdlib Require Import ZArith Lia String.
From stdpp Require Import base list.
From S2P Require Import Prelude Resumption Memory KState Sched BlkDev Buffer Super Inode Errno Namei Segment Open.

Definition WNOHANG : Z := 1.
Definition WUNTRACED : Z := 2.

(** [release(p)], [p] by the address of the structure. *)
Definition release (p : Z) : K unit :=
  if negb (nz p) then ret tt else
  let! r := for_break (zrange 1 63) (fun i =>
    let! s := get in
    match task_slot s i with
    | Some t =>
        if task_page t =? p then
          modify (set_slot i None) ;;;
          on_mm (free_page p) ;;;
          schedule ;;;
          ret (Some tt)
        else ret None
    | None => ret None
    end) in
  match r with
  | Some tt => ret tt
  | None => panic "trying to release non-existent task"
  end.

(** [send_sig] to the task in slot [i]. *)
Definition send_sig (sig i : Z) (priv : bool) : K Z :=
  let! s := get in
  match task_slot s i with
  | None => ret (- EINVAL)
  | Some p =>
      if (sig <? 1) || (32 <? sig) then ret (- EINVAL) else
      let! t := cur in
      if priv || (euid t =? euid p) || suser t then
        task_upd i (fun p => p <| signal ::= fun x => Z.lor x (sigbit sig) |>) ;;;
        ret 0
      else ret (- EPERM)
  end.

(** A loop over the slots but the first that signals the tasks [sel] chooses: the
    last error is the result. *)
Definition signal_tasks (sel : task_struct -> bool) (sig : Z) (priv : bool) : K Z :=
  for_fold slots_down 0 (fun retval i =>
    let! s := get in
    match task_slot s i with
    | Some p =>
        if sel p then let! err := send_sig sig i priv in ret (if nz err then err else retval)
        else ret retval
    | None => ret retval
    end).

(** The loop of [kill(-1, sig)], which does not look whether the slot is used. *)
Definition signal_all (sig : Z) : K Z :=
  for_fold slots_down 0 (fun retval i =>
    let! err := send_sig sig i false in ret (if nz err then err else retval)).

Definition kill_session : K unit :=
  let! c := cur in
  for_each slots_down (fun i =>
    let! s := get in
    match task_slot s i with
    | Some p => when (session p =? session c)
        (task_upd i (fun p => p <| signal ::= fun x => Z.lor x (sigbit SIGHUP) |>))
    | None => ret tt
    end).

Definition sys_kill (pid_ sig : Z) : K Z :=
  let! c := cur in
  if pid_ =? 0 then signal_tasks (fun p => pgrp p =? pid c) sig true
  else if 0 <? pid_ then signal_tasks (fun p => pid p =? pid_) sig false
  else if pid_ =? -1 then signal_all sig
  else signal_tasks (fun p => pgrp p =? - pid_) sig false.

Definition tell_father (pid_ : Z) : K unit :=
  let! r :=
    (if nz pid_ then
       for_break (zrange 0 64) (fun i =>
         let! s := get in
         match task_slot s i with
         | Some p =>
             if pid p =? pid_ then
               task_upd i (fun p => p <| signal ::= fun x => Z.lor x (sigbit SIGCHLD) |>) ;;;
               ret (Some tt)
             else ret None
         | None => ret None
         end)
     else ret None) in
  match r with
  | Some tt => ret tt
  | None =>
      printk "BAD BAD - no father found" ;;;
      let! c := cur in
      release (task_page c)
  end.

Section Exit.
Context {driver : Driver}.

(** The children of [c] go to task 1, which is told about the dead ones. *)
Definition orphan (c : task_struct) : K unit :=
  for_each (zrange 0 64) (fun i =>
    let! s := get in
    match task_slot s i with
    | Some p =>
        if father p =? pid c then
          task_upd i (fun p => p <| father := 1 |>) ;;;
          when (state p =? TASK_ZOMBIE) (let! _ := send_sig SIGCHLD 1 true in ret tt)
        else ret tt
    | None => ret tt
    end).

Definition close_files : K unit :=
  for_each (zrange 0 20) (fun i =>
    let! t := cur in
    match fd_get t i with
    | Some _ => let! _ := sys_close i in ret tt
    | None => ret tt
    end).

Definition free_segments : K unit :=
  let! t := cur in
  on_mm (free_page_tables (get_base (ldt_at t 1)) (get_limit (ldt_at t 1))) ;;;
  on_mm (free_page_tables (get_base (ldt_at t 2)) (get_limit (ldt_at t 2))) ;;;
  ret tt.

(** The last [schedule()] never returns: a zombie is not made runnable again. *)
Definition do_exit (code : Z) : K Z :=
  free_segments ;;;
  let! c := cur in
  orphan c ;;;
  close_files ;;;
  let! c := cur in
  iput (pwd c) ;;;
  cur_upd (fun t => t <| pwd := None |>) ;;;
  iput (root c) ;;;
  cur_upd (fun t => t <| root := None |>) ;;;
  iput (executable c) ;;;
  cur_upd (fun t => t <| executable := None |>) ;;;
  let! c := cur in
  when (nz (leader c) && (0 <=? tty c)) (tty_pgrp_upd (tty c) 0) ;;;
  let! s := get in
  when (bool_decide (last_task_used_math (k_sched s) = Some (current (k_sched s))))
    (set_sched (fun x => x <| last_task_used_math := None |>)) ;;;
  when (nz (leader c)) kill_session ;;;
  cur_upd (fun t => t <| state := TASK_ZOMBIE |>) ;;;
  cur_upd (fun t => t <| exit_code := code |>) ;;;
  let! c := cur in
  tell_father (father c) ;;;
  schedule ;;;
  die code.

Definition sys_exit (error_code : Z) : K Z := do_exit (Z.shiftl (Z.land error_code 0xff) 8).

(** ** waitpid *)

(** The children [waitpid(pid, ...)] waits for. *)
Definition waits_for (c : task_struct) (pid_ : Z) (p : task_struct) : bool :=
  (father p =? pid c) &&
  (if 0 <? pid_ then pid p =? pid_
   else if pid_ =? 0 then pgrp p =? pgrp c
   else if pid_ =? -1 then true
   else pgrp p =? - pid_).

(** The scan of the tasks: [inl flag], or the result of the system call. *)
Definition wait_scan (pid_ stat_addr options : Z) : K (Z + Z) :=
  for_fold slots_down (inl 0) (fun acc i =>
    match acc with
    | inr r => ret (inr r)
    | inl flag =>
        let! s := get in
        let! c := cur in
        match task_slot s i with
        | None => ret (inl flag)
        | Some p =>
            if (i =? current (k_sched s)) || negb (waits_for c pid_ p) then ret (inl flag) else
            if state p =? TASK_STOPPED then
              (if nz (Z.land options WUNTRACED) then put_fs_long 0x7f stat_addr ;;; ret (inr (pid p))
               else ret (inl flag))
            else if state p =? TASK_ZOMBIE then
              cur_upd (fun c => c <| cutime ::= fun u => s32 (u + utime p) |>) ;;;
              cur_upd (fun c => c <| cstime ::= fun u => s32 (u + stime p) |>) ;;;
              release (task_page p) ;;;
              put_fs_long (exit_code p) stat_addr ;;;
              ret (inr (pid p))
            else ret (inl 1)
        end
    end).

Definition sys_waitpid (pid_ stat_addr options : Z) : K Z :=
  verify_area stat_addr 4 ;;;
  loop (fun _ : unit =>
    let! r := wait_scan pid_ stat_addr options in
    match r with
    | inr v => ret (inr v)
    | inl flag =>
        if negb (nz flag) then ret (inr (- ECHILD)) else
        if nz (Z.land options WNOHANG) then ret (inr 0) else
        cur_upd (fun t => t <| state := TASK_INTERRUPTIBLE |>) ;;;
        schedule ;;;
        cur_upd (fun t => t <| signal ::= fun x => Z.ldiff x (sigbit SIGCHLD) |>) ;;;
        let! t := cur in
        ret (if nz (signal t) then inr (- EINTR) else inl tt)
    end) tt.
End Exit.
