(* ===== verification/Exec.v ===== *)
(** * Executing a program: fs/exec.c

    [k_user] is what each task reaches through its fs register.  [set_fs] to the
    kernel's data segment makes the task reach the script's first line instead,
    until its own segment is put back; a new program reaches what the page tables have
    for its segment, and what page faults will find on the pages they have not is the
    parameter [image]. *)
From Stdlib Require Import ZArith Lia String.
From stdpp Require Import base list.
From S2P Require Import Prelude Resumption Memory PageTables KState Sched BlkDev Buffer Super Inode Errno Namei Segment.
From S2P Require Import Open ReadWrite Fork Exit.

Definition MAX_ARG_PAGES : Z := 32.

(** ** The header of an executable: include/a.out.h *)

Record exec := mkExec {
  a_magic : Z; a_text : Z; a_data : Z; a_bss : Z; a_syms : Z; a_entry : Z; a_trsize : Z; a_drsize : Z
}.
Definition load_exec (d : list Z) : exec :=
  mkExec (long_at d 0) (long_at d 4) (long_at d 8) (long_at d 12) (long_at d 16) (long_at d 20) (long_at d 24) (long_at d 28).
Definition SIZEOF_EXEC : Z := 32.
Definition ZMAGIC : Z := 267.    (* 0413 *)
Definition SEGMENT_SIZE : Z := 1024.
Definition N_MAGIC (x : exec) : Z := a_magic x.
Definition _N_HDROFF : Z := SEGMENT_SIZE - SIZEOF_EXEC.
Definition N_TXTOFF (x : exec) : Z := if N_MAGIC x =? ZMAGIC then _N_HDROFF + SIZEOF_EXEC else SIZEOF_EXEC.

(** The format errors found in the header of a file of [size] bytes. *)
Definition bad_header (ex : exec) (size : Z) : bool :=
  negb (N_MAGIC ex =? ZMAGIC) || nz (a_trsize ex) || nz (a_drsize ex) ||
  (0x3000000 <? u32 (a_text ex + a_data ex + a_bss ex)) ||
  (size <? u32 (a_text ex + a_data ex + a_syms ex + N_TXTOFF ex)).

(** ** The fs segment *)

Definition get_fs : K (Z -> Z) := gets (fun s => k_user s (current (k_sched s))).
Definition set_fs (v : Z -> Z) : K unit :=
  modify (fun s => s <| k_user ::= fun u t => if t =? current (k_sched s) then v else u t |>).

(** ** Argument tables *)

(** Past the NUL of the string at [p]. *)
Definition skip_string (p : Z) : K Z :=
  loop (fun p => let! c := get_fs_byte p in ret (if nz c then inl (u32 (p + 1)) else inr (u32 (p + 1)))) p.

(** One table: [n] pointers to the strings from [p] on, and a NULL. *)
Definition put_table (p n table : Z) : K Z :=
  loop (fun '(p, n, table) =>
    if 0 <? n then
      put_fs_long p table ;;;
      let! p := skip_string p in
      ret (inl (p, n - 1, u32 (table + 4)))
    else put_fs_long 0 table ;;; ret (inr p)) (p, n, table).

Definition create_tables (p argc envc : Z) : K Z :=
  let sp := Z.land 0xfffffffc p in
  let envp := u32 (sp - 4 * (envc + 1)) in
  let argv := u32 (envp - 4 * (argc + 1)) in
  put_fs_long envp (u32 (argv - 4)) ;;;
  put_fs_long argv (u32 (argv - 8)) ;;;
  put_fs_long argc (u32 (argv - 12)) ;;;
  let! p := put_table p argc argv in
  let! _ := put_table p envc envp in
  ret (u32 (argv - 12)).

Definition count (argv : Z) : K Z :=
  if negb (nz argv) then ret 0 else
  loop (fun '(tmp, i) =>
    let! a := get_fs_long tmp in
    ret (if nz a then inl (u32 (tmp + 4), s32 (i + 1)) else inr i)) (argv, 0).

(** ** copy_strings *)

(** Where the pointers and the strings are: [from_kmem] is 0, 1 or 2.  A pointer
    into the kernel's buffer is an offset into its bytes. *)
Inductive strings :=
| UserStrings (argv : Z)
| KernelPointer (filename : Z)
| KernelString (offset : Z) (buf : list Z).

(** [argv[i]], nothing when it is NULL. *)
Definition string_pointer (src : strings) (i : Z) : K (option Z) :=
  match src with
  | UserStrings argv => let! a := get_fs_long (u32 (argv + 4 * i)) in ret (if nz a then Some a else None)
  | KernelPointer filename => ret (if nz filename then Some filename else None)
  | KernelString offset _ => ret (Some offset)
  end.

Definition string_byte (src : strings) (a : Z) : K Z :=
  match src with
  | KernelString _ buf => deref (fun _ => arr_get buf a)
  | _ => get_fs_byte a
  end.

(** The destination: [p], the page written to, the offset in it and all pages. *)
Record copying := mkCopying { c_p : Z; c_pag : Z; c_offset : Z; c_page : list Z }.
#[export] Instance copying_reconstruct : Reconstruct copying :=
  fun r => mkCopying (c_p r) (c_pag r) (c_offset r) (c_page r).

(** Step down one byte, onto the page below when the offset runs out; false when
    there is no page for it. *)
Definition step_down (c : copying) : K (bool * copying) :=
  let c := c <| c_p ::= fun p => u32 (p - 1) |> <| c_offset ::= fun o => o - 1 |> in
  if c_offset c <? 0 then
    let c := c <| c_offset := c_p c mod PAGE_SIZE |> in
    let i := c_p c / PAGE_SIZE in
    let! pag := deref (fun _ => arr_get (c_page c) i) in
    if nz pag then ret (true, c <| c_pag := pag |>) else
    let! pag := on_mm get_free_page in
    ret (nz pag, c <| c_page ::= fun l => arr_set l i pag |> <| c_pag := pag |>)
  else ret (true, c).

Definition put_byte (a v : Z) : M mm unit := modify (fun s => s <| mem ::= fun m => store8 m a v |>).

(** [while (len)]: the string, from its NUL down to its first byte. *)
Definition copy_down (src : strings) (tmp len : Z) (c : copying) : K (bool * copying) :=
  loop (fun '(tmp, len, c) =>
    if len =? 0 then ret (inr (true, c)) else
    let! '(ok, c) := step_down c in
    if negb ok then ret (inr (false, c)) else
    let! b := string_byte src (u32 (tmp - 1)) in
    on_mm (put_byte (c_pag c + c_offset c) b) ;;;
    ret (inl (u32 (tmp - 1), len - 1, c))) (tmp, len, c).

(** The length of the string with its NUL, and the address after it. *)
Definition string_end (src : strings) (tmp : Z) : K (Z * Z) :=
  loop (fun '(tmp, len) =>
    let! b := string_byte src tmp in
    ret (if nz b then inl (u32 (tmp + 1), len + 1) else inr (u32 (tmp + 1), len + 1))) (tmp, 0).

(** The new [p], 0 for an error, and the pages. *)
Definition copy_strings (argc : Z) (src : strings) (page : list Z) (p : Z) : K (Z * list Z) :=
  if negb (nz p) then ret (0, page) else
  loop (fun '(argc, c) =>
    if argc <=? 0 then ret (inr (c_p c, c_page c)) else
    let! tmp := string_pointer src (argc - 1) in
    match tmp with
    | None => panic "argc is wrong"
    | Some tmp =>
        let! '(tmp, len) := string_end src tmp in
        if u32 (c_p c - len) <? 0 then ret (inr (0, c_page c)) else
        let! '(ok, c) := copy_down src tmp len c in
        ret (if ok then inl (argc - 1, c) else inr (0, c_page c))
    end) (argc, mkCopying p 0 0 page).

(** The strings of the environment and, below them, those of the arguments. *)
Definition take_strings (argc argv envc envp : Z) (page : list Z) (p : Z) : K (Z * list Z) :=
  let! '(p, page) := copy_strings envc (UserStrings envp) page p in
  copy_strings argc (UserStrings argv) page p.

(** ** The first line of a script *)

(** [strncpy] of [n] bytes. *)
Fixpoint strncpy_bytes (src : list Z) (n : nat) : list Z :=
  match n, src with
  | O, _ => []
  | S n, c :: src => if c =? 0 then replicate (S n) 0 else c :: strncpy_bytes src n
  | S n, [] => replicate (S n) 0
  end.

Definition is_blank (c : Z) : bool := (c =? 32) || (c =? 9).

(** [for (cp = buf; blank; cp++)] *)
Fixpoint skip_blanks (k : nat) (buf : list Z) (cp : Z) : Z :=
  match k with
  | O => cp
  | S k => if is_blank (byte_at buf cp) then skip_blanks k buf (cp + 1) else cp
  end.

(** [for ( ; *cp && not blank; cp++)]: the end of the word and the byte after its
    last slash. *)
Fixpoint skip_word (k : nat) (buf : list Z) (cp i_name : Z) : Z * Z :=
  match k with
  | O => (cp, i_name)
  | S k =>
      let c := byte_at buf cp in
      if nz c && negb (is_blank c) then skip_word k buf (cp + 1) (if c =? 47 then cp + 1 else i_name)
      else (cp, i_name)
  end.

(** [strchr(buf, c)] *)
Fixpoint strchr_bytes (buf : list Z) (c : Z) : option Z :=
  match buf with
  | [] => None
  | b :: buf => if b =? c then Some 0 else if b =? 0 then None else (fun i => i + 1) <$> strchr_bytes buf c
  end.

(** What the line names: the interpreter, its last component and its argument, as
    offsets into the buffer. *)
Record script := mkScript { sh_buf : list Z; interp : Z; i_name : Z; i_arg : option Z }.

Definition parse_script (data : list Z) : option script :=
  let buf := strncpy_bytes (drop 2 data) 1022 ++ [0] in
  match strchr_bytes buf 10 with
  | None => None
  | Some nl =>
      let buf := arr_set buf nl 0 in
      let cp := skip_blanks 1023 buf 0 in
      if byte_at buf cp =? 0 then None else
      let '(e, i_name) := skip_word 1023 buf cp cp in
      if nz (byte_at buf e) then Some (mkScript (arr_set buf e 0) cp i_name (Some (e + 1)))
      else Some (mkScript buf cp i_name None)
  end.

(** ** change_ldt *)

(** What the program in the segment at [base] reaches: the pages that the page tables
    have for it, and the rest. *)
Definition new_view (m : mm) (base : Z) (image : Z -> Z) (a : Z) : Z :=
  match translate m (base + a) with
  | Some x => ld8 (mem m) x
  | None => image a
  end.

(** fs points at the new segment before the pages are put in it; nothing uses it in
    between, and what it reaches is what the tables say in the end. *)
Definition change_ldt (image : Z -> Z) (text_size : Z) (page : list Z) : K Z :=
  let code_limit := Z.land (u32 (text_size + PAGE_SIZE - 1)) 0xfffff000 in
  let data_limit := 0x4000000 in
  let! t := cur in
  let code_base := get_base (ldt_at t 1) in
  cur_upd (fun t => set_ldt 1 (set_base (ldt_at t 1) code_base) t) ;;;
  cur_upd (fun t => set_ldt 1 (set_limit (ldt_at t 1) code_limit) t) ;;;
  cur_upd (fun t => set_ldt 2 (set_base (ldt_at t 2) code_base) t) ;;;
  cur_upd (fun t => set_ldt 2 (set_limit (ldt_at t 2) data_limit) t) ;;;
  for_each (rev (zrange 0 (Z.to_nat MAX_ARG_PAGES))) (fun i =>
    let! pag := deref (fun _ => arr_get page i) in
    when (nz pag)
      (let! _ := on_mm (put_page pag (u32 (code_base + data_limit - (MAX_ARG_PAGES - i) * PAGE_SIZE))) in ret tt)) ;;;
  let! s := get in
  set_fs (new_view (k_mm s) code_base image) ;;;
  ret data_limit.

(** ** do_execve *)

Section Exec.
Context {driver : Driver}.
(** The bytes of an executable's pages, by its inode and the address. *)
Context (image : Z -> Z -> Z).

Definition free_pages (page : list Z) : K unit := for_each page (fun pag => on_mm (free_page pag)).

Definition exec_error1 {A} (page : list Z) (retval : Z) : K (Z + A) := free_pages page ;;; ret (inl retval).
Definition exec_error2 {A} (inode : Z) (page : list Z) (retval : Z) : K (Z + A) :=
  iput (Some inode) ;;; exec_error1 page retval.

(** Whether the running task may execute the file. *)
Definition may_exec (x : m_inode) (t : task_struct) : bool :=
  let i := if euid t =? i_uid x then Z.shiftr (i_mode x) 6
           else if egid t =? i_gid x then Z.shiftr (i_mode x) 3 else i_mode x in
  nz (Z.land i 1) || (nz (Z.land (i_mode x) 73) && suser t).

(** [int] arguments of the loop [restart_interp]. *)
Record preparing := mkPreparing { x_inode : Z; x_argc : Z; x_p : Z; x_page : list Z; x_bang : bool }.

(** The strings of a script's first line, in front of the arguments; the inode of
    the interpreter. *)
Definition run_script (filename argv envp envc : Z) (st : preparing) (data : list Z) : K (Z + preparing) :=
  match parse_script data with
  | None => exec_error1 (x_page st) (- ENOEXEC)
  | Some sh =>
      let! '(argc, p, page) :=
        (if x_bang st then ret (x_argc st, x_p st, x_page st) else
         let! '(p, page) := take_strings (x_argc st - 1) (u32 (argv + 4)) envc envp (x_page st) (x_p st) in
         ret (x_argc st - 1, p, page)) in
      let! '(p, page) := copy_strings 1 (KernelPointer filename) page p in
      let! '(p, page) := match i_arg sh with
                         | Some a => copy_strings 1 (KernelString a (sh_buf sh)) page p
                         | None => ret (p, page)
                         end in
      let argc := argc + 1 + (if i_arg sh then 1 else 0) + 1 in
      let! '(p, page) := copy_strings 1 (KernelString (i_name sh) (sh_buf sh)) page p in
      if negb (nz p) then exec_error1 page (- ENOMEM) else
      let! old_fs := get_fs in
      set_fs (byte_at (sh_buf sh)) ;;;
      let! inode := namei (interp sh) in
      set_fs old_fs ;;;
      match inode with
      | None => exec_error1 page (- ENOENT)
      | Some inode => ret (inr (mkPreparing inode argc p page true))
      end
  end.

(** The point of no return: the old program goes, the new one takes its place. *)
Definition enter_program (ex : exec) (inode argc envc p e_uid e_gid : Z) (page : list Z) : K Z :=
  let! t := cur in
  match executable t with Some x => iput (Some x) | None => ret tt end ;;;
  cur_upd (fun t => t <| executable := Some inode |>) ;;;
  for_each (zrange 0 32) (fun i =>
    cur_upd (fun t => t <| sigaction ::= fun l =>
      match arr_get l i with Some sa => arr_set l i (sa <| sa_handler := 0 |>) | None => l end |>)) ;;;
  for_each (zrange 0 20) (fun i =>
    let! t := cur in
    when (Z.testbit (close_on_exec t) i) (let! _ := sys_close i in ret tt)) ;;;
  cur_upd (fun t => t <| close_on_exec := 0 |>) ;;;
  let! t := cur in
  on_mm (free_page_tables (get_base (ldt_at t 1)) (get_limit (ldt_at t 1))) ;;;
  on_mm (free_page_tables (get_base (ldt_at t 2)) (get_limit (ldt_at t 2))) ;;;
  let! s := get in
  when (bool_decide (last_task_used_math (k_sched s) = Some (current (k_sched s))))
    (set_sched (fun c => c <| last_task_used_math := None |>)) ;;;
  cur_upd (fun t => t <| used_math := 0 |>) ;;;
  let! limit := change_ldt (image inode) (a_text ex) page in
  let! p := create_tables (u32 (p + limit - MAX_ARG_PAGES * PAGE_SIZE)) argc envc in
  cur_upd (fun t => t <| end_code := a_text ex |>) ;;;
  cur_upd (fun t => t <| end_data := u32 (a_data ex + a_text ex) |>) ;;;
  cur_upd (fun t => t <| brk := u32 (a_bss ex + u32 (a_data ex + a_text ex)) |>) ;;;
  cur_upd (fun t => t <| start_stack := Z.land p 0xfffff000 |>) ;;;
  cur_upd (fun t => t <| euid := u16 e_uid |>) ;;;
  cur_upd (fun t => t <| egid := u16 e_gid |>) ;;;
  loop (fun i =>
    if nz (Z.land i 0xfff) then put_fs_byte 0 i ;;; ret (inl (s32 (i + 1))) else ret (inr tt))
    (s32 (a_text ex + a_data ex)) ;;;
  ret p.

(** The last part: the strings, unless a script's first line has brought them, and the
    program. *)
Definition start_program (ex : exec) (argv envp envc e_uid e_gid : Z) (st : preparing) : K (Z + Z * Z) :=
  let inode := x_inode st in
  let! '(p, page) :=
    (if x_bang st then ret (x_p st, x_page st)
     else take_strings (x_argc st) argv envc envp (x_page st) (x_p st)) in
  if negb (x_bang st) && negb (nz p) then exec_error2 inode page (- ENOMEM) else
  let! p := enter_program ex inode (x_argc st) envc p e_uid e_gid page in
  ret (inr (a_entry ex, p)).

(** One round of [restart_interp]: round again with the interpreter of a script,
    leave with an error, or with the entry point and the stack pointer. *)
Definition exec_step (filename argv envp envc : Z) (st : preparing) : K (preparing + (Z + Z * Z)) :=
  let inode := x_inode st in
  let finish (r : K (Z + Z * Z)) := let! v := r in ret (inr v) in
  let! x := ino_get inode in
  if negb (S_ISREG (i_mode x)) then finish (exec_error2 inode (x_page st) (- EACCES)) else
  let! t := cur in
  let e_uid := if nz (Z.land (i_mode x) S_ISUID) then i_uid x else euid t in
  let e_gid := if nz (Z.land (i_mode x) S_ISGID) then i_gid x else egid t in
  if negb (may_exec x t) then finish (exec_error2 inode (x_page st) (- ENOEXEC)) else
  let! bh := bread (dev_of x) (zone_at x 0) in
  match bh with
  | None => finish (exec_error2 inode (x_page st) (- EACCES))
  | Some b =>
      let! h := bh_get b in
      let data := b_data h in
      let ex := load_exec data in
      if (byte_at data 0 =? 35) && (byte_at data 1 =? 33) && negb (x_bang st) then
        brelse (Some b) ;;;
        iput (Some inode) ;;;
        let! r := run_script filename argv envp envc st data in
        ret (match r with inl e => inr (inl e) | inr st => inl st end)
      else
      brelse (Some b) ;;;
      let! x := ino_get inode in
      if bad_header ex (i_size x) then finish (exec_error2 inode (x_page st) (- ENOEXEC)) else
      if negb (N_TXTOFF ex =? BLOCK_SIZE) then
        printk "%s: N_TXTOFF != BLOCK_SIZE. See a.out.h." ;;;
        finish (exec_error2 inode (x_page st) (- ENOEXEC))
      else
      finish (start_program ex argv envp envc e_uid e_gid st)
  end.

(** The result, and the instruction and stack pointers left on the kernel stack. *)
Definition do_execve (r : pushed) (filename argv envp : Z) : K (Z * (Z * Z)) :=
  if negb (Z.land 0xffff (p_cs r) =? 0x000f) then panic "execve called from supervisor mode" else
  let! inode := namei filename in
  match inode with
  | None => ret (- ENOENT, (p_eip r, p_esp r))
  | Some inode =>
      let! argc := count argv in
      let! envc := count envp in
      let page := replicate (Z.to_nat MAX_ARG_PAGES) 0 in
      let! v := loop (exec_step filename argv envp envc)
                  (mkPreparing inode argc (PAGE_SIZE * MAX_ARG_PAGES - 4) page false) in
      ret (match v with inl e => (e, (p_eip r, p_esp r)) | inr ip_sp => (0, ip_sp) end)
  end.
End Exec.
