(* ===== verification/CStrings.v ===== *)
(** * Strings in a memory of bytes

    A string is the list of its bytes, none of them NUL, and ends with a NUL; a
    memory is a function from addresses to bytes.  Shared by the programs that a
    process starts and the string routines. *)
From Stdlib Require Import ZArith Lia.
From stdpp Require Import base list.
From S2P Require Import Prelude.

(** The string [l], with its NUL, at [a]. *)
Definition str_at (v : Z -> Z) (a : Z) (l : list Z) : Prop :=
  forall i c, (l ++ [0]) !! i = Some c -> v (a + Z.of_nat i) = c.

Definition no_nul (l : list Z) : Prop := Forall (fun c => c <> 0) l.

Lemma str_at_cons v a c l : str_at v a (c :: l) <-> v a = c /\ str_at v (a + 1) l.
Proof.
  unfold str_at. split.
  - intros H. split; [by rewrite <- (H 0%nat c eq_refl), Z.add_0_r|]. intros i x Hi. rewrite <- (H (S i) x Hi). f_equal. lia.
  - intros [H0 H] [|i] x Hi; [injection Hi as <-; by rewrite Z.add_0_r|]. rewrite <- (H i x Hi). f_equal. lia.
Qed.

Lemma str_at_nil v a : str_at v a [] <-> v a = 0.
Proof.
  unfold str_at. split; [intros H; by rewrite <- (H 0%nat 0 eq_refl), Z.add_0_r|].
  intros H [|i] x Hi; [injection Hi as <-; by rewrite Z.add_0_r|done].
Qed.

Lemma str_at_ext v v' a l : (forall b, a <= b <= a + Z.of_nat (length l) -> v' b = v b) -> str_at v a l -> str_at v' a l.
Proof.
  intros Hv H i c Hi. rewrite Hv; [by apply H|]. apply lookup_lt_Some in Hi. rewrite length_app in Hi. simpl in Hi. lia.
Qed.

(** The bytes [l] at [a]. *)
Definition bytes_at (v : Z -> Z) (a : Z) (l : list Z) : Prop := forall i c, l !! i = Some c -> v (a + Z.of_nat i) = c.

Lemma bytes_at_snoc v a l c : bytes_at v a (l ++ [c]) <-> bytes_at v a l /\ v (a + Z.of_nat (length l)) = c.
Proof.
  split.
  - intros H. split; [intros i x Hi; apply H; by apply lookup_app_l_Some|]. apply H. by apply list_lookup_middle.
  - intros [H Hc] i x Hi. apply lookup_app_Some in Hi as [Hi|[Hge Hi]]; [by apply H|].
    apply list_lookup_singleton_Some in Hi as [Hi <-]. rewrite <- Hc. do 2 f_equal. lia.
Qed.
