(* ===== verification/ExecProps.v ===== *)
(** * The strings a new program starts with

    [execve] copies the argument and environment strings to pages of their own, or fails
    for lack of memory; [change_ldt] maps them at the top of the new address space, and
    [create_tables] builds the two tables that point at them below. *)
From Stdlib Require Import ZArith Lia String.
From stdpp Require Import base list.
From S2P Require Import Prelude Resumption Memory PageTables PagingProps KState Runs Sched BlkDev Floppy Buffer Super Inode Errno Namei.
From S2P Require Import Segment Open ReadWrite PipeProps Fork Exit Exec CStrings.

(** ** What a task reaches through its fs register *)

Definition view (s : kstate) (a : Z) : Z := k_user s (current (k_sched s)) a.
Definition view_long (v : Z -> Z) (a : Z) : Z := v a + 256 * v (a + 1) + 65536 * v (a + 2) + 16777216 * v (a + 3).

Lemma get_byte_run a n s : 0 <= a < 2 ^ 32 -> get_fs_byte a n s = Done (view s a) s.
Proof. intros Ha. unfold get_fs_byte, gets, view. by rewrite u32_small by lia. Qed.

Lemma get_long_run a n s : 0 <= a -> a + 3 < 2 ^ 32 -> get_fs_long a n s = Done (view_long (view s) a) s.
Proof.
  intros H1 H2. unfold get_fs_long. step (get_byte_run a n s ltac:(lia)). step (get_byte_run (a + 1) n s ltac:(lia)).
  step (get_byte_run (a + 2) n s ltac:(lia)). step (get_byte_run (a + 3) n s ltac:(lia)). done.
Qed.

(** [u'] is [s]'s user memory but for the running task's bytes from [lo] up to [hi]. *)
Definition only_wrote (s : kstate) (u' : Z -> Z -> Z) (lo hi : Z) : Prop :=
  forall t a, t <> current (k_sched s) \/ a < lo \/ hi <= a -> u' t a = k_user s t a.

Lemma only_wrote_view s u' lo hi a : only_wrote s u' lo hi -> a < lo \/ hi <= a -> view (with_user u' s) a = view s a.
Proof. intros H Ha. apply H. by right. Qed.

Lemma only_wrote_trans s u1 u2 lo1 hi1 lo2 hi2 lo hi :
  only_wrote s u1 lo1 hi1 -> only_wrote (with_user u1 s) u2 lo2 hi2 ->
  lo <= lo1 -> lo <= lo2 -> hi1 <= hi -> hi2 <= hi -> only_wrote s u2 lo hi.
Proof.
  intros H1 H2 ? ? ? ? t a Ha. rewrite H2; [apply H1|]; change (current (k_sched (with_user u1 s))) with (current (k_sched s)); lia.
Qed.

Lemma put_byte_run v a n s : 0 <= a < 2 ^ 32 -> exists u',
  put_fs_byte v a n s = Done tt (with_user u' s) /\ view (with_user u' s) a = u8 v /\ only_wrote s u' a (a + 1).
Proof.
  intros Ha. eexists. split; [reflexivity|]. split.
  - change (view _ a) with (if (current (k_sched s) =? current (k_sched s)) && (a =? u32 a) then u8 v else view s a).
    by rewrite (u32_small a), !Z.eqb_refl by lia.
  - intros t b Hb. cbv beta. rewrite (u32_small a) by lia.
    destruct (Z.eqb_spec t (current (k_sched s))), (Z.eqb_spec b a); try done. lia.
Qed.

Lemma four_bytes v :
  u8 v + 256 * u8 (Z.shiftr v 8) + 65536 * u8 (Z.shiftr v 16) + 16777216 * u8 (Z.shiftr v 24) = u32 v.
Proof.
  rewrite !Z.shiftr_div_pow2 by lia. unfold u8, u32. change (2 ^ 8) with 256. change (2 ^ 16) with 65536. change (2 ^ 24) with 16777216.
  Z.to_euclidean_division_equations. lia.
Qed.

Lemma put_long_run v a n s : 0 <= a -> a + 3 < 2 ^ 32 -> exists u',
  put_fs_long v a n s = Done tt (with_user u' s) /\ view_long (view (with_user u' s)) a = u32 v /\ only_wrote s u' a (a + 4).
Proof.
  intros H1 H2. unfold put_fs_long.
  destruct (put_byte_run v a n s ltac:(lia)) as (u1 & E1 & V1 & W1). step E1.
  destruct (put_byte_run (Z.shiftr v 8) (a + 1) n (with_user u1 s) ltac:(lia)) as (u2 & E2 & V2 & W2). step E2.
  destruct (put_byte_run (Z.shiftr v 16) (a + 2) n (with_user u2 s) ltac:(lia)) as (u3 & E3 & V3 & W3).
  change (with_user u2 (with_user u1 s)) with (with_user u2 s) in *. step E3.
  destruct (put_byte_run (Z.shiftr v 24) (a + 3) n (with_user u3 s) ltac:(lia)) as (u4 & E4 & V4 & W4).
  change (with_user u3 (with_user u2 s)) with (with_user u3 s) in *. exists u4. split; [exact E4|]. split.
  - rewrite <- four_bytes. unfold view_long. change (with_user u4 (with_user u3 s)) with (with_user u4 s) in V4.
    rewrite V4.
    pose proof (only_wrote_view _ _ _ _ a W4) as A1. pose proof (only_wrote_view _ _ _ _ (a + 1) W4) as A2.
    pose proof (only_wrote_view _ _ _ _ (a + 2) W4) as A3. pose proof (only_wrote_view _ _ _ _ a W3) as B1.
    pose proof (only_wrote_view _ _ _ _ (a + 1) W3) as B2. pose proof (only_wrote_view _ _ _ _ a W2) as C1.
    change (with_user u4 (with_user u3 s)) with (with_user u4 s) in *. change (with_user u3 (with_user u2 s)) with (with_user u3 s) in *.
    change (with_user u2 (with_user u1 s)) with (with_user u2 s) in *.
    rewrite A1, A2, A3, B1, B2, C1, V1, V2, V3 by lia. lia.
  - assert (W12 : only_wrote s u2 a (a + 4)) by (eapply (only_wrote_trans s u1 u2); [exact W1|exact W2|lia..]).
    assert (W13 : only_wrote s u3 a (a + 4)) by (eapply (only_wrote_trans s u2 u3); [exact W12|exact W3|lia..]).
    eapply (only_wrote_trans s u3 u4); [exact W13|exact W4|lia..].
Qed.

Lemma only_wrote_long s u' lo hi a : only_wrote s u' lo hi -> a + 4 <= lo \/ hi <= a ->
  view_long (view (with_user u' s)) a = view_long (view s) a.
Proof. intros H Ha. unfold view_long. by rewrite !(only_wrote_view _ _ _ _ _ H) by lia. Qed.

(** ** Strings and tables in memory *)

(** One string after the other, the addresses at which they start, and the bytes they take. *)
Fixpoint strs_at (v : Z -> Z) (a : Z) (ls : list (list Z)) : Prop :=
  match ls with
  | [] => True
  | l :: ls => str_at v a l /\ strs_at v (a + Z.of_nat (length l) + 1) ls
  end.
Fixpoint starts (a : Z) (ls : list (list Z)) : list Z :=
  match ls with
  | [] => []
  | l :: ls => a :: starts (a + Z.of_nat (length l) + 1) ls
  end.
Definition size_of (ls : list (list Z)) : Z := Z.of_nat (length (concat (map (fun l => l ++ [0]) ls))).

(** The table of pointers [ps], ended by NULL, at [a]. *)
Definition table_at (v : Z -> Z) (a : Z) (ps : list Z) : Prop :=
  forall i p, (ps ++ [0]) !! i = Some p -> view_long v (a + 4 * Z.of_nat i) = p.

Lemma size_of_cons l ls : size_of (l :: ls) = Z.of_nat (length l) + 1 + size_of ls.
Proof. unfold size_of. cbn [map concat]. rewrite !length_app. simpl. lia. Qed.
Lemma size_of_app ls ls' : size_of (ls ++ ls') = size_of ls + size_of ls'.
Proof. unfold size_of. rewrite map_app, concat_app, length_app. lia. Qed.
Lemma size_of_nonneg ls : 0 <= size_of ls.
Proof. unfold size_of. lia. Qed.

Lemma strs_at_ext v v' ls : forall a, (forall b, a <= b < a + size_of ls -> v' b = v b) -> strs_at v a ls -> strs_at v' a ls.
Proof.
  induction ls as [|l ls IH]; intros a Hv H; [done|]. destruct H as [H1 H2]. rewrite size_of_cons in Hv.
  pose proof (size_of_nonneg ls). split; [apply (str_at_ext v); [|done]|apply IH; [|done]]; intros b Hb; apply Hv; lia.
Qed.

Lemma strs_at_app v ls ls' : forall a, strs_at v a (ls ++ ls') <-> strs_at v a ls /\ strs_at v (a + size_of ls) ls'.
Proof.
  induction ls as [|l ls IH]; intros a; cbn [app strs_at]; [unfold size_of; simpl; rewrite Z.add_0_r; tauto|].
  rewrite IH, size_of_cons. replace (a + Z.of_nat (length l) + 1 + size_of ls) with (a + (Z.of_nat (length l) + 1 + size_of ls)) by lia.
  tauto.
Qed.

(** ** create_tables *)

Lemma skip_string_run l : forall p n k s, str_at (view s) p l -> no_nul l -> 0 <= p -> p + Z.of_nat (length l) + 1 < 2 ^ 32 ->
  (length l < k)%nat ->
  iterate k (fun p => let! c := get_fs_byte p in ret (if nz c then inl (u32 (p + 1)) else inr (u32 (p + 1)))) p n s =
  Done (p + Z.of_nat (length l) + 1) s.
Proof.
  induction l as [|c l IH]; intros p n k s Hs Hl Hp Hp' Hk; (destruct k as [|k]; [simpl in Hk; lia|]); cbn [length] in *.
  - apply str_at_nil in Hs. erewrite iterate_last; [reflexivity|]. step (get_byte_run p n s ltac:(lia)).
    rewrite Hs. unfold ret. do 3 f_equal. rewrite u32_small; lia.
  - apply str_at_cons in Hs as [Hc Hs]. apply Forall_cons in Hl as [Hc0 Hl]. erewrite iterate_next.
    2: { step (get_byte_run p n s ltac:(lia)). rewrite Hc. by rewrite (proj2 (nz_true c) Hc0), u32_small by lia. }
    rewrite IH; [|done|done|lia|lia|lia]. f_equal. lia.
Qed.

Lemma skip_string_done l p n s : str_at (view s) p l -> no_nul l -> 0 <= p -> p + Z.of_nat (length l) + 1 < 2 ^ 32 ->
  (length l < n)%nat -> skip_string p n s = Done (p + Z.of_nat (length l) + 1) s.
Proof. intros. by apply skip_string_run. Qed.

Lemma table_at_ext v v' a ps :
  (forall b, a <= b < a + 4 * (Z.of_nat (length ps) + 1) -> v' b = v b) -> table_at v a ps -> table_at v' a ps.
Proof.
  intros Hv H i p Hi. rewrite <- (H i p Hi). apply lookup_lt_Some in Hi. rewrite length_app in Hi. simpl in Hi.
  unfold view_long. by rewrite !Hv by lia.
Qed.

Lemma table_at_cons v a p ps : table_at v a (p :: ps) <-> view_long v a = p /\ table_at v (a + 4) ps.
Proof.
  unfold table_at. split.
  - intros H. split; [rewrite <- (H 0%nat p eq_refl); f_equal; lia|]. intros i x Hi. rewrite <- (H (S i) x Hi). f_equal. lia.
  - intros [H0 H] [|i] x Hi; [injection Hi as <-; rewrite <- H0; f_equal; lia|]. rewrite <- (H i x Hi). f_equal. lia.
Qed.

Lemma starts_length ls : forall a, length (starts a ls) = length ls.
Proof. induction ls as [|l ls IH]; intros a; simpl; [done|]. by rewrite IH. Qed.

Lemma put_table_run ls : forall p table n k s, strs_at (view s) p ls -> Forall no_nul ls ->
  0 <= table -> table + 4 * (Z.of_nat (length ls) + 1) <= p -> p + size_of ls < 2 ^ 32 -> size_of ls <= Z.of_nat n -> (length ls < k)%nat ->
  exists u', iterate k (fun '(p, n, table) =>
      if 0 <? n then
        put_fs_long p table ;;;
        let! p := skip_string p in
        ret (inl (p, n - 1, u32 (table + 4)))
      else put_fs_long 0 table ;;; ret (inr p)) (p, Z.of_nat (length ls), table) n s =
    Done (p + size_of ls) (with_user u' s) /\
    table_at (view (with_user u' s)) table (starts p ls) /\
    only_wrote s u' table (table + 4 * (Z.of_nat (length ls) + 1)).
Proof.
  induction ls as [|l ls IH]; intros p table n k s Hs Hl Ht Hp Hp' Hn Hk; (destruct k as [|k]; [simpl in Hk; lia|]); cbn [length starts] in *.
  - pose proof (size_of_nonneg []). destruct (put_long_run 0 table n s ltac:(lia) ltac:(lia)) as (u & E & V & W). exists u. split; [|split].
    + erewrite iterate_last; [|change (0 <? Z.of_nat 0) with false; cbv iota; step E; reflexivity]. unfold size_of. simpl. by rewrite Z.add_0_r.
    + intros [|i] x Hi; [injection Hi as <-|done]. rewrite Z.add_0_r. exact V.
    + exact W.
  - destruct Hs as [Hs Hss]. apply Forall_cons in Hl as [Hl Hls]. rewrite size_of_cons in *. pose proof (size_of_nonneg ls).
    destruct (put_long_run p table n s ltac:(lia) ltac:(lia)) as (u & E & V & W).
    assert (Hv : forall b, p <= b -> view (with_user u s) b = view s b) by (intros b Hb; apply (only_wrote_view _ _ _ _ _ W); lia).
    destruct (IH (p + Z.of_nat (length l) + 1) (table + 4) n k (with_user u s)) as (u2 & E2 & V2 & W2); [|done|lia|lia|lia|lia|lia|].
    { apply (strs_at_ext (view s)); [|done]. intros b Hb. apply Hv. lia. }
    exists u2. change (with_user u2 (with_user u s)) with (with_user u2 s) in *. split; [|split].
    + erewrite iterate_next.
      2: { destruct (Z.ltb_spec 0 (Z.of_nat (S (length ls)))); [|lia]. step E.
           step (skip_string_done l p n (with_user u s) ltac:(apply (str_at_ext (view s)); [intros b Hb; apply Hv; lia|done]) Hl ltac:(lia) ltac:(lia) ltac:(lia)).
           rewrite u32_small by lia. reflexivity. }
      replace (Z.of_nat (S (length ls)) - 1) with (Z.of_nat (length ls)) by lia. rewrite E2. f_equal. lia.
    + apply table_at_cons. split; [|exact V2]. rewrite <- (u32_small p), <- V by lia.
      exact (only_wrote_long _ _ _ _ table W2 ltac:(lia)).
    + eapply (only_wrote_trans s u u2); [exact W|exact W2|lia..].
Qed.

Lemma put_table_done ls p table n s : strs_at (view s) p ls -> Forall no_nul ls ->
  0 <= table -> table + 4 * (Z.of_nat (length ls) + 1) <= p -> p + size_of ls < 2 ^ 32 -> p + size_of ls <= Z.of_nat n ->
  exists u', put_table p (Z.of_nat (length ls)) table n s = Done (p + size_of ls) (with_user u' s) /\
    table_at (view (with_user u' s)) table (starts p ls) /\
    only_wrote s u' table (table + 4 * (Z.of_nat (length ls) + 1)).
Proof. intros. pose proof (size_of_nonneg ls). apply put_table_run; try done; lia. Qed.

Lemma word_down p : 0 <= p < 2 ^ 32 -> Z.land 0xfffffffc p = p - p mod 4.
Proof.
  intros Hp. transitivity (4 * (p / 4)); [|Z.to_euclidean_division_equations; lia].
  change 4 with (2 ^ 2) at 1. rewrite Z.mul_comm, <- Z.shiftl_mul_pow2 by lia. change 4 with (2 ^ 2). rewrite <- Z.shiftr_div_pow2 by lia.
  apply Z.bits_inj'. intros i Hi. rewrite Z.land_spec, Z.shiftl_spec by lia. change 0xfffffffc with (Z.shiftl (Z.ones 30) 2).
  rewrite Z.shiftl_spec by lia. destruct (Z.ltb_spec i 2).
  - by rewrite !(Z.testbit_neg_r _ (i - 2)) by lia.
  - rewrite Z.shiftr_spec by lia. replace (i - 2 + 2) with i by lia. rewrite Z.testbit_ones by lia.
    destruct (Z.leb_spec 0 (i - 2)), (Z.ltb_spec (i - 2) 30); try lia; [done|].
    symmetry. apply (Z.bits_above_log2 p); [lia|]. destruct (Z.eq_dec p 0) as [->|]; [simpl; lia|]. 
    assert (Z.log2 p < 32) by (apply Z.log2_lt_pow2; lia). lia.
Qed.

(** C30. [create_tables] gives the new program what the C start-up code expects: below
    the strings, on a word boundary, the number of arguments, the address of the
    table of arguments and that of the table of environment strings; each table has
    the addresses of its strings in their order and ends with NULL.  The strings and
    all other memory are left alone. *)
Theorem create_tables_lays_out (args envs : list (list Z)) (p : Z) (n : nat) (s : kstate) :
  let argc := Z.of_nat (length args) in
  let envc := Z.of_nat (length envs) in
  strs_at (view s) p (args ++ envs) -> Forall no_nul (args ++ envs) ->
  4 * (argc + envc + 5) + 3 <= p -> p + size_of (args ++ envs) < 2 ^ 32 -> p + size_of (args ++ envs) <= Z.of_nat n ->
  exists u' sp, let v := view (with_user u' s) in
    create_tables p argc envc n s = Done sp (with_user u' s) /\
    sp = p - p mod 4 - 4 * (argc + envc + 5) /\
    view_long v sp = argc /\ view_long v (sp + 4) = sp + 12 /\ view_long v (sp + 8) = sp + 12 + 4 * (argc + 1) /\
    table_at v (sp + 12) (starts p args) /\
    table_at v (sp + 12 + 4 * (argc + 1)) (starts (p + size_of args) envs) /\
    strs_at v p (args ++ envs) /\ only_wrote s u' sp p.
Proof.
  intros argc envc Hs Hl Hp Hp' Hn. pose proof (size_of_nonneg (args ++ envs)) as Hsz. rewrite size_of_app in *.
  pose proof (size_of_nonneg args). pose proof (size_of_nonneg envs). pose proof (Z.mod_pos_bound p 4 ltac:(lia)) as Hm.
  set (sp := p - p mod 4 - 4 * (argc + envc + 5)). unfold create_tables. rewrite word_down by lia.
  rewrite (u32_small (_ - 4 * (envc + 1))) by lia. rewrite (u32_small (_ - 4 * (argc + 1))) by lia.
  replace (p - p mod 4 - 4 * (envc + 1) - 4 * (argc + 1)) with (sp + 12) by (subst sp; lia).
  replace (p - p mod 4 - 4 * (envc + 1)) with (sp + 12 + 4 * (argc + 1)) by (subst sp; lia).
  assert (Hb : 0 <= sp /\ sp + 12 + 4 * (argc + 1) + 4 * (envc + 1) = p - p mod 4) by (subst sp; lia). clearbody sp.
  replace (sp + 12 - 4) with (sp + 8) by lia. replace (sp + 12 - 8) with (sp + 4) by lia. replace (sp + 12 - 12) with sp by lia.
  rewrite (u32_small (sp + 8)), (u32_small (sp + 4)), (u32_small sp) by lia.
  apply strs_at_app in Hs as [Hsa Hse]. apply Forall_app in Hl as [Hla Hle].
  destruct (put_long_run (sp + 12 + 4 * (argc + 1)) (sp + 8) n s ltac:(lia) ltac:(lia)) as (u1 & E1 & V1 & W1). step E1.
  destruct (put_long_run (sp + 12) (sp + 4) n (with_user u1 s) ltac:(lia) ltac:(lia)) as (u2 & E2 & V2 & W2). step E2.
  change (with_user u2 (with_user u1 s)) with (with_user u2 s) in *.
  destruct (put_long_run argc sp n (with_user u2 s) ltac:(lia) ltac:(lia)) as (u3 & E3 & V3 & W3). step E3.
  change (with_user u3 (with_user u2 s)) with (with_user u3 s) in *.
  destruct (put_table_done args p (sp + 12) n (with_user u3 s)) as (u4 & E4 & V4 & W4); [|done|lia|lia|lia|lia|].
  { apply (strs_at_ext (view s)); [|done]. intros b Hb'. etrans; [apply (only_wrote_view _ _ _ _ b W3); lia|].
    etrans; [apply (only_wrote_view _ _ _ _ b W2); lia|]. apply (only_wrote_view _ _ _ _ b W1). lia. }
  fold argc in E4. step E4. change (with_user u4 (with_user u3 s)) with (with_user u4 s) in *.
  assert (W02 : only_wrote s u2 (sp + 4) (sp + 12)) by (eapply (only_wrote_trans s u1 u2); [exact W1|exact W2|lia..]).
  assert (W03 : only_wrote s u3 sp (sp + 12)) by (eapply (only_wrote_trans s u2 u3); [exact W02|exact W3|lia..]).
  assert (W04 : only_wrote s u4 sp (sp + 12 + 4 * (argc + 1))) by (eapply (only_wrote_trans s u3 u4); [exact W03|exact W4|lia..]).
  destruct (put_table_done envs (p + size_of args) (sp + 12 + 4 * (argc + 1)) n (with_user u4 s)) as (u5 & E5 & V5 & W5); [|done|lia|lia|lia|lia|].
  { apply (strs_at_ext (view s)); [|done]. intros b Hb'. apply (only_wrote_view _ _ _ _ b W04). lia. }
  fold envc in E5. step E5. change (with_user u5 (with_user u4 s)) with (with_user u5 s) in *.
  assert (W05 : only_wrote s u5 sp (p - p mod 4)) by (eapply (only_wrote_trans s u4 u5); [exact W04|exact W5|lia..]).
  exists u5, sp. cbv zeta. split; [done|]. split; [lia|].
  assert (V45 : forall a, a + 4 <= sp + 12 -> view_long (view (with_user u5 s)) a = view_long (view (with_user u3 s)) a).
  { intros a Ha. etrans; [apply (only_wrote_long _ _ _ _ a W5); lia|]. apply (only_wrote_long _ _ _ _ a W4). lia. }
  pose proof (only_wrote_long _ _ _ _ (sp + 4) W3 ltac:(lia)) as F1. pose proof (only_wrote_long _ _ _ _ (sp + 8) W3 ltac:(lia)) as F2.
  pose proof (only_wrote_long _ _ _ _ (sp + 8) W2 ltac:(lia)) as F3.
  change (with_user u3 (with_user u2 s)) with (with_user u3 s) in *. change (with_user u2 (with_user u1 s)) with (with_user u2 s) in *.
  rewrite !V45, V3, F1, F2, V2, F3, V1, !u32_small by lia.
  split; [done|]. split; [done|]. split; [done|]. split; [|split; [exact V5|split]].
  - apply (table_at_ext (view (with_user u4 s))); [|exact V4]. intros b Hb'. rewrite starts_length in Hb'.
    apply (only_wrote_view _ _ _ _ b W5). lia.
  - apply strs_at_app. split; (apply (strs_at_ext (view s)); [|done]); intros b Hb'; apply (only_wrote_view _ _ _ _ b W05); lia.
  - intros t a Ha. apply W05. lia.
Qed.

(** ** copy_strings *)

(** The argument area: 32 pages, where the byte [a] of it is, and the pages that are
    there: different ones, and nobody else's. *)
Definition AREA : Z := MAX_ARG_PAGES * PAGE_SIZE.
Definition page_of (page : list Z) (a : Z) : Z := default 0 (arr_get page (a / PAGE_SIZE)).
Definition arg_at (m : mm) (page : list Z) (a : Z) : Z := ld8 (mem m) (page_of page a + a mod PAGE_SIZE).

Record pages_ok (m : mm) (page : list Z) : Prop := {
  po_wf : wf m;
  po_length : length page = 32%nat;
  po_taken : forall i pag, arr_get page i = Some pag -> pag <> 0 ->
    exists q, pag = page_addr q /\ owned m q;
  po_distinct : forall i j pag, arr_get page i = Some pag -> arr_get page j = Some pag -> pag <> 0 -> i = j
}.

(** From [p] up to [top] the area has its pages; the page written to is the one of [p]. *)
Record copying_ok (m : mm) (top : Z) (c : copying) : Prop := {
  co_pages : pages_ok m (c_page c);
  co_p : 0 <= c_p c <= top /\ top <= AREA;
  co_offset : c_offset c = 0 \/ c_offset c = c_p c mod PAGE_SIZE /\ c_pag c = page_of (c_page c) (c_p c) /\ c_pag c <> 0;
  co_filled : forall a, c_p c <= a < top -> page_of (c_page c) a <> 0
}.

Lemma page_get page a : length page = 32%nat -> 0 <= a < AREA -> arr_get page (a / PAGE_SIZE) = Some (page_of page a).
Proof.
  intros Hl Ha. unfold page_of. destruct (arr_get_is_Some page (a / PAGE_SIZE)) as [x E]; [|by rewrite E].
  unfold AREA, MAX_ARG_PAGES, PAGE_SIZE in *. Z.to_euclidean_division_equations; lia.
Qed.

(** Different bytes of the area are at different places. *)
Lemma place_inj m page a b : pages_ok m page -> 0 <= a < AREA -> 0 <= b < AREA -> page_of page a <> 0 ->
  (page_of page b + b mod PAGE_SIZE =? page_of page a + a mod PAGE_SIZE) = (b =? a) \/ page_of page b = 0.
Proof.
  intros Hok Ha Hb Hp. destruct (Z.eq_dec (page_of page b) 0) as [|Hq]; [by right|left].
  pose proof (page_get page a (po_length _ _ Hok) Ha) as Ea. pose proof (page_get page b (po_length _ _ Hok) Hb) as Eb.
  destruct (po_taken _ _ Hok _ _ Ea Hp) as (q & Eq & _). destruct (po_taken _ _ Hok _ _ Eb Hq) as (r & Er & _).
  unfold PAGE_SIZE in *. destruct (Z.eqb_spec b a) as [->|Hne]; [by rewrite Z.eqb_refl|]. apply Z.eqb_neq. intros E.
  rewrite Eq, Er in E. unfold page_addr in E.
  assert (r = q /\ a mod 4096 = b mod 4096) as [-> Hm] by (Z.to_euclidean_division_equations; lia).
  rewrite Er in Eb. rewrite Eq in Ea. pose proof (po_distinct _ _ Hok _ _ _ Ea Eb ltac:(congruence)) as Hd.
  apply Hne. rewrite (Z.div_mod a 4096), (Z.div_mod b 4096) by lia. lia.
Qed.

Definition with_byte (m : mm) (x v : Z) : mm := m <| mem ::= fun l => store8 l x v |>.

(** The word of a byte of a page is in the page. *)
Lemma page_word q x : 0 <= x < 4096 -> in_page q (page_addr q + x - (page_addr q + x) mod 4).
Proof. intros Hx. unfold in_page, page_addr, LOW_MEM. Z.to_euclidean_division_equations; lia. Qed.

Lemma pages_ok_put m page a v : pages_ok m page -> 0 <= a < AREA -> page_of page a <> 0 ->
  pages_ok (with_byte m (page_of page a + a mod PAGE_SIZE) v) page.
Proof.
  intros Hok Ha Hp. pose proof (page_get page a (po_length _ _ Hok) Ha) as Ea.
  destruct (po_taken _ _ Hok _ _ Ea Hp) as (q & Eq & Hq). set (x := page_of page a + a mod PAGE_SIZE).
  assert (Hx : in_page q (x - x mod 4)).
  { unfold x. rewrite Eq. apply page_word. unfold PAGE_SIZE. apply Z.mod_pos_bound. lia. }
  destruct (private_write m (with_byte m x v) q) as [Hwf Hr].
  - apply Hok.
  - apply Hq.
  - by apply owned_not_table.
  - done.
  - intros y. change (mem (with_byte m x v)) with (store8 (mem m) x v). unfold store8. apply store_words, Hok.
  - intros y Hy. change (mem (with_byte m x v)) with (store8 (mem m) x v). unfold store8, store.
    destruct (Z.eqb_spec y (x - x mod 4)) as [->|]; [done|done].
  - split; [done|apply Hok| |apply Hok]. intros i pag Hi Hnz. destruct (po_taken _ _ Hok _ _ Hi Hnz) as (r & -> & Ho).
    exists r. split; [done|]. by apply (owned_ext m).
Qed.

(** A byte written to the area. *)
Lemma put_byte_area m page a v : pages_ok m page -> 0 <= a < AREA -> page_of page a <> 0 ->
  forall n s, k_mm s = m ->
  exists m', on_mm (put_byte (page_of page a + a mod PAGE_SIZE) v) n s = Done tt (with_mm m' s) /\ pages_ok m' page /\
    forall b, 0 <= b < AREA -> page_of page b <> 0 -> arg_at m' page b = if b =? a then u8 v else arg_at m page b.
Proof.
  intros Hok Ha Hp n s Hm. eexists. split; [reflexivity|]. rewrite Hm. split; [by apply pages_ok_put|].
  intros b Hb Hq. unfold arg_at. cbn [mem]. etrans; [apply ld8_store8|].
  destruct (place_inj m page a b Hok Ha Hb Hp) as [->|]; [|done]. by destruct (b =? a).
Qed.

Lemma ld8_clear m q a : 0 <= q < PAGING_PAGES -> (a < page_addr q \/ page_addr q + 4096 <= a) -> ld8 (clear_page m (page_addr q)) a = ld8 m a.
Proof.
  intros Hq Ha. unfold ld8, clear_page. pose proof (Z.mod_pos_bound a 4 ltac:(lia)). unfold page_addr, LOW_MEM in *.
  destruct (Z.leb_spec (1048576 + 4096 * q) (a - a mod 4)), (Z.ltb_spec (a - a mod 4) (1048576 + 4096 * q + 4096)); try done.
  exfalso. Z.to_euclidean_division_equations; lia.
Qed.

Lemma take_page_owned m q : wf m -> 0 <= q < PAGING_PAGES -> PageTables.count m q = 0 ->
  owned (take_page m q) q /\ forall r, owned m r -> owned (take_page m q) r.
Proof.
  intros Hwf Hq Hc. destruct (take_page_reads m q Hwf Hq Hc) as (_ & _ & _ & Hr & _). split.
  - split; [done|]. rewrite take_page_count, decide_True, Hr by (done || apply Hwf). split; [done|].
    pose proof (refs_nonneg m q). pose proof (wf_counted m Hwf q Hq). lia.
  - intros r Ho. apply (owned_ext m); [done| |done]. rewrite take_page_count by (done || apply Hwf).
    rewrite decide_False; [done|]. intros ->. destruct Ho as (_ & Ho & _). lia.
Qed.

(** A page taken for an entry that has none. *)
Lemma take_for m page i q : pages_ok m page -> 0 <= i < 32 -> arr_get page i = Some 0 -> 0 <= q < PAGING_PAGES -> PageTables.count m q = 0 ->
  let page' := arr_set page i (page_addr q) in
  pages_ok (take_page m q) page' /\
  forall a, 0 <= a < AREA -> page_of page' a = (if a / PAGE_SIZE =? i then page_addr q else page_of page a) /\
    (page_of page a <> 0 -> arg_at (take_page m q) page' a = arg_at m page a).
Proof.
  intros Hok Hi H0 Hq Hc page'. destruct Hok as [Hwf Hlen Htk Hd].
  destruct (take_page_owned m q Hwf Hq Hc) as [Hown Hkeep].
  assert (Hget : forall j, arr_get page' j = if decide (i = j) then Some (page_addr q) else arr_get page j).
  { intros j. unfold page'. case_decide; [subst j; apply arr_get_set_eq; lia|by apply arr_get_set_ne]. }
  assert (Hne : page_addr q <> 0) by (unfold page_addr, LOW_MEM; lia).
  assert (Hof : forall a, 0 <= a < AREA -> page_of page' a = (if a / PAGE_SIZE =? i then page_addr q else page_of page a)).
  { intros a Ha. unfold page_of. rewrite Hget. destruct (Z.eqb_spec (a / PAGE_SIZE) i); case_decide; simpl; congruence || done. }
  assert (Hnew : forall r, owned m r -> r <> q) by (intros r (_ & Hr & _) ->; lia).
  split; [split|].
  - by apply take_page_reads.
  - unfold page'. by rewrite arr_set_length.
  - intros j pag. rewrite Hget. case_decide.
    + intros [= <-] _. by exists q.
    + intros Hj Hnz. destruct (Htk _ _ Hj Hnz) as (r & -> & Ho). exists r. auto.
  - intros j k pag. rewrite !Hget.
    assert (Hold : forall l, arr_get page l = Some (page_addr q) -> False).
    { intros l Hl. destruct (Htk _ _ Hl Hne) as (r & E%page_addr_inj & Ho). by apply (Hnew r). }
    repeat case_decide; intros E1 E2 Hnz; try congruence; try (exfalso; eapply Hold; congruence). by eapply Hd.
  - intros a Ha. split; [by apply Hof|]. intros Hp.
    pose proof (page_get page a Hlen Ha) as Ea. destruct (Htk _ _ Ea Hp) as (r & Er & Ho).
    unfold arg_at. rewrite Hof by done. destruct (Z.eqb_spec (a / PAGE_SIZE) i) as [E|_].
    { rewrite E in Ea. congruence. }
    change (mem (take_page m q)) with (clear_page (mem m) (page_addr q)). apply ld8_clear; [done|]. rewrite Er.
    pose proof (Hnew r Ho). unfold page_addr, PAGE_SIZE. pose proof (Z.mod_pos_bound a 4096 ltac:(lia)). lia.
Qed.

Definition kept (m : mm) (page : list Z) (m' : mm) (page' : list Z) (lo hi : Z) : Prop :=
  forall a, lo <= a < hi -> arg_at m' page' a = arg_at m page a.

Lemma step_down_eq c : step_down c =
  let p := u32 (c_p c - 1) in
  if c_offset c - 1 <? 0 then
    let! pag := deref (fun _ => arr_get (c_page c) (p / PAGE_SIZE)) in
    if nz pag then ret (true, mkCopying p pag (p mod PAGE_SIZE) (c_page c)) else
    let! pag := on_mm get_free_page in
    ret (nz pag, mkCopying p pag (p mod PAGE_SIZE) (arr_set (c_page c) (p / PAGE_SIZE) pag))
  else ret (true, mkCopying p (c_pag c) (c_offset c - 1) (c_page c)).
Proof. reflexivity. Qed.

(** No page of memory is free. *)
Definition no_page (m : mm) : Prop := forall i, 0 <= i < PAGING_PAGES -> PageTables.count m i <> 0.

Lemma step_down_run c top n s : copying_ok (k_mm s) top c -> 0 < c_p c ->
  (exists c', step_down c n s = Done (false, c') s /\ pages_ok (k_mm s) (c_page c') /\ no_page (k_mm s)) \/
  (exists c' m', step_down c n s = Done (true, c') (with_mm m' s) /\ pages_ok m' (c_page c') /\ c_p c' = c_p c - 1 /\
     c_offset c' = c_p c' mod PAGE_SIZE /\ c_pag c' = page_of (c_page c') (c_p c') /\ c_pag c' <> 0 /\
     (forall a, c_p c <= a < top -> page_of (c_page c') a <> 0) /\ kept (k_mm s) (c_page c) m' (c_page c') (c_p c) top).
Proof.
  intros [Hok [Hp Htop] Hoff Hfill] Hp0. rewrite step_down_eq. cbv zeta.
  rewrite (u32_small (c_p c - 1)) by (unfold AREA, MAX_ARG_PAGES, PAGE_SIZE in *; lia). set (p := c_p c - 1).
  assert (Hpa : 0 <= p < AREA) by lia. unfold PAGE_SIZE in Hoff.
  destruct (Z.ltb_spec (c_offset c - 1) 0) as [Hneg|Hpos].
  - assert (Eg := page_get (c_page c) p (po_length _ _ Hok) Hpa).
    rewrite (bind_run _ _ n s (page_of (c_page c) p) s) by (unfold deref; by rewrite Eg). cbv beta.
    destruct (nz (page_of (c_page c) p)) eqn:En.
    + right. apply nz_true in En. eexists; exists (k_mm s). rewrite with_mm_same. split; [reflexivity|]. cbn [c_p c_offset c_page c_pag].
      do 5 (split; [done|]). by split.
    + apply nz_false in En. rewrite En in Eg.
      destruct (get_free_page_run n (k_mm s) (wf_map _ (po_wf _ _ Hok))) as [[E Hno]|(q & Hq & Hc & _ & E)]; step (on_mm_run _ _ _ _ _ E).
      * left. eexists. change (s <| k_mm := k_mm s |>) with (with_mm (k_mm s) s). rewrite with_mm_same. split; [reflexivity|].
        split; [|done]. cbn [c_page]. replace (arr_set (c_page c) (p / PAGE_SIZE) 0) with (c_page c); [done|].
        unfold arr_set, arr_get in *. destruct (p / PAGE_SIZE <? 0); [done|]. by rewrite list_insert_id.
      * right. assert (Hi : 0 <= p / PAGE_SIZE < 32) by (unfold AREA, MAX_ARG_PAGES, PAGE_SIZE in *; Z.to_euclidean_division_equations; lia).
        destruct (take_for (k_mm s) (c_page c) (p / PAGE_SIZE) q Hok Hi Eg Hq Hc) as [Hok' Hof].
        assert (Hnz : page_addr q <> 0) by (unfold page_addr, LOW_MEM; lia).
        do 2 eexists. rewrite page_addr_nz by lia. split; [reflexivity|]. cbn [c_p c_offset c_page c_pag].
        split; [exact Hok'|]. split; [done|]. split; [done|]. split; [by rewrite (proj1 (Hof p Hpa)), Z.eqb_refl|]. split; [done|].
        split; intros a Ha.
        -- rewrite (proj1 (Hof a ltac:(lia))). destruct (_ =? _); [done|]. by apply Hfill.
        -- apply (Hof a ltac:(lia)). by apply Hfill.
  - right. eexists; exists (k_mm s). rewrite with_mm_same. split; [reflexivity|]. cbn [c_p c_offset c_page c_pag].
    destruct Hoff as [Hoff|(Ho & Eg & Hnz)]; [lia|].
    assert (p mod PAGE_SIZE = c_offset c - 1 /\ p / PAGE_SIZE = c_p c / PAGE_SIZE) as [Hm Hd].
    { unfold PAGE_SIZE. subst p. Z.to_euclidean_division_equations; lia. }
    cbn [c_p c_offset c_page c_pag]. do 2 (split; [done|]). split; [by rewrite Hm|]. split; [rewrite Eg; unfold page_of; by rewrite Hd|].
    split; [done|]. by split.
Qed.

(** The bytes [l], which end at [tmp] in user memory, are copied down from [c_p c]. *)
Lemma copy_down_run argv l : forall tmp c top k n s, copying_ok (k_mm s) top c -> bytes_at (view s) (tmp - Z.of_nat (length l)) l ->
  Forall (fun b => 0 <= b < 256) l -> Z.of_nat (length l) <= tmp < 2 ^ 32 -> Z.of_nat (length l) <= c_p c -> (length l < k)%nat ->
  let body := fun '(tmp, len, c) =>
    if len =? 0 then ret (inr (true, c)) else
    let! '(ok, c) := step_down c in
    if negb ok then ret (inr (false, c)) else
    let! b := string_byte (UserStrings argv) (u32 (tmp - 1)) in
    on_mm (put_byte (c_pag c + c_offset c) b) ;;;
    ret (inl (u32 (tmp - 1), len - 1, c)) in
  exists m' c' ok, iterate k body (tmp, Z.of_nat (length l), c) n s = Done (ok, c') (with_mm m' s) /\ pages_ok m' (c_page c') /\
    (if ok : bool then copying_ok m' top c' /\ c_p c' = c_p c - Z.of_nat (length l) /\
       bytes_at (arg_at m' (c_page c')) (c_p c') l /\ kept (k_mm s) (c_page c) m' (c_page c') (c_p c) top
     else no_page m').
Proof.
  induction l as [|b l IH] using rev_ind; intros tmp c top k n s Hc Hb Hr Htmp Hp Hk body; (destruct k as [|k]; [simpl in Hk; lia|]).
  - exists (k_mm s), c, true. rewrite with_mm_same. split; [by erewrite iterate_last|]. split; [apply Hc|].
    split; [exact Hc|]. split; [simpl; lia|]. by split.
  - rewrite length_app, Nat2Z.inj_add in *. cbn [length] in *. change (Z.of_nat 1) with 1 in *.
    apply bytes_at_snoc in Hb as [Hb Hlast]. apply Forall_app in Hr as [Hr Hrb]. apply Forall_cons in Hrb as [Hrb _].
    replace (tmp - (Z.of_nat (length l) + 1) + Z.of_nat (length l)) with (tmp - 1) in Hlast by lia.
    assert (Hlen : (Z.of_nat (length l) + 1 =? 0) = false) by (apply Z.eqb_neq; lia).
    destruct (step_down_run c top n s Hc ltac:(lia)) as [(c1 & E & Hok & Hno)|(c1 & m1 & E & Hok & Hp1 & Ho & Hg & Hnz & Hf & Hkept)].
    + exists (k_mm s), c1, false. rewrite with_mm_same. split; [|by split]. erewrite iterate_last; [reflexivity|].
      unfold body. rewrite Hlen. step E. done.
    + assert (Hpa : 0 <= c_p c1 < AREA) by (destruct Hc; lia).
      destruct (put_byte_area m1 (c_page c1) (c_p c1) b Hok Hpa ltac:(congruence) n (with_mm m1 s) eq_refl) as (m2 & E2 & Hok2 & Hw).
      change (with_mm m2 (with_mm m1 s)) with (with_mm m2 s) in E2. rewrite <- Hg, <- Ho in E2.
      assert (Hc1 : copying_ok m2 top c1).
      { destruct Hc as [_ [Hp' Htop] _ _]. split; [done|lia|by right|]. intros a Ha. destruct (Z.eq_dec a (c_p c1)) as [->|]; [congruence|].
        apply Hf. lia. }
      destruct (IH (tmp - 1) c1 top k n (with_mm m2 s)) as (m' & c' & ok & E' & Hok' & H'); [done| |done|lia|lia|lia|].
      { by replace (tmp - 1 - Z.of_nat (length l)) with (tmp - (Z.of_nat (length l) + 1)) by lia. }
      exists m', c', ok. split; [|split; [done|]].
      * erewrite iterate_next; [exact E'|]. unfold body. rewrite Hlen. step E. cbn [negb].
        rewrite (u32_small (tmp - 1)) by lia. unfold string_byte. step (get_byte_run (tmp - 1) n (with_mm m1 s) ltac:(lia)).
        change (view (with_mm m1 s)) with (view s). rewrite Hlast. step E2. unfold ret. do 3 f_equal. f_equal. lia.
      * destruct ok; [|done]. destruct H' as (Hc' & Hp' & Hbytes & Hkept'). split; [done|]. split; [lia|]. split.
        -- apply bytes_at_snoc. split; [done|]. replace (c_p c' + Z.of_nat (length l)) with (c_p c1) by lia.
           rewrite Hkept' by (pose proof (co_p _ _ _ Hc) as [Hc0 _]; clear - Hc0 Hp1; lia). change (k_mm (with_mm m2 s)) with m2. rewrite Hw by (try done; congruence).
           by rewrite Z.eqb_refl, u8_small by lia.
        -- intros a Ha. rewrite Hkept' by lia. change (k_mm (with_mm m2 s)) with m2. destruct Hc.
           rewrite Hw by (try lia; by apply Hf). destruct (Z.eqb_spec a (c_p c1)); [lia|]. by apply Hkept.
Qed.

Lemma string_end_run argv l : forall a len n k s, str_at (view s) a l -> no_nul l -> 0 <= a -> a + Z.of_nat (length l) + 1 < 2 ^ 32 ->
  (length l < k)%nat ->
  iterate k (fun '(tmp, len) =>
    let! b := string_byte (UserStrings argv) tmp in
    ret (if nz b then inl (u32 (tmp + 1), len + 1) else inr (u32 (tmp + 1), len + 1))) (a, len) n s =
  Done (a + Z.of_nat (length l) + 1, len + Z.of_nat (length l) + 1) s.
Proof.
  induction l as [|c l IH]; intros a len n k s Hs Hl Ha Ha' Hk; (destruct k as [|k]; [simpl in Hk; lia|]); cbn [length] in *.
  - apply str_at_nil in Hs. erewrite iterate_last; [reflexivity|]. unfold string_byte. step (get_byte_run a n s ltac:(lia)).
    rewrite Hs, u32_small by lia. unfold ret. simpl. do 3 f_equal; lia.
  - apply str_at_cons in Hs as [Hc Hs]. apply Forall_cons in Hl as [Hc0 Hl]. erewrite iterate_next.
    2: { unfold string_byte. step (get_byte_run a n s ltac:(lia)). rewrite Hc. by rewrite (proj2 (nz_true c) Hc0), u32_small by lia. }
    rewrite IH; [|done|done|lia|lia|lia]. do 2 f_equal; lia.
Qed.

Lemma string_end_done argv l a n s : str_at (view s) a l -> no_nul l -> 0 <= a -> a + Z.of_nat (length l) + 1 < 2 ^ 32 ->
  (length l < n)%nat -> string_end (UserStrings argv) a n s = Done (a + Z.of_nat (length l) + 1, Z.of_nat (length l) + 1) s.
Proof. intros. unfold string_end, loop. by rewrite (string_end_run argv l). Qed.

Lemma copy_down_done argv l tmp c top n s : copying_ok (k_mm s) top c -> bytes_at (view s) (tmp - Z.of_nat (length l)) l ->
  Forall (fun b => 0 <= b < 256) l -> Z.of_nat (length l) <= tmp < 2 ^ 32 -> Z.of_nat (length l) <= c_p c -> (length l < n)%nat ->
  exists m' c' ok, copy_down (UserStrings argv) tmp (Z.of_nat (length l)) c n s = Done (ok, c') (with_mm m' s) /\ pages_ok m' (c_page c') /\
    (if ok : bool then copying_ok m' top c' /\ c_p c' = c_p c - Z.of_nat (length l) /\
       bytes_at (arg_at m' (c_page c')) (c_p c') l /\ kept (k_mm s) (c_page c) m' (c_page c') (c_p c) top
     else no_page m').
Proof. apply copy_down_run. Qed.

(** The strings [ls] of user memory, with the table of their addresses at [argv]. *)
Record user_strings (v : Z -> Z) (argv : Z) (ps : list Z) (ls : list (list Z)) : Prop := {
  us_table : forall i p, ps !! i = Some p -> view_long v (argv + 4 * Z.of_nat i) = p;
  us_argv : 0 <= argv /\ argv + 4 * Z.of_nat (length ls) < 2 ^ 32;
  us_strings : Forall2 (fun p l => str_at v p l /\ no_nul l /\ Forall (fun b => 0 <= b < 256) l /\
    0 < p /\ p + Z.of_nat (length l) + 1 < 2 ^ 32) ps ls
}.

Lemma user_strings_snoc v argv p ps l ls : user_strings v argv (ps ++ [p]) (ls ++ [l]) ->
  user_strings v argv ps ls /\ view_long v (argv + 4 * Z.of_nat (length ls)) = p /\
  str_at v p l /\ no_nul l /\ Forall (fun b => 0 <= b < 256) l /\ 0 < p /\ p + Z.of_nat (length l) + 1 < 2 ^ 32.
Proof.
  intros [Ht Ha Hs]. rewrite length_app in Ha. simpl in Ha. apply Forall2_app_inv in Hs as [Hs Hl].
  2: { apply Forall2_length in Hs. rewrite !length_app in Hs. simpl in Hs. lia. }
  apply Forall2_cons in Hl as [Hl _]. split; [split; [intros i q Hi; apply Ht; by apply lookup_app_l_Some|lia|done]|].
  split; [|done]. apply Ht. rewrite <- (Forall2_length _ _ _ Hs). by apply list_lookup_middle.
Qed.

Lemma copy_strings_run argv ls : forall ps c top k n s, user_strings (view s) argv ps ls -> copying_ok (k_mm s) top c ->
  size_of ls <= c_p c -> size_of ls < Z.of_nat n -> (length ls < k)%nat ->
  exists m' r, iterate k (fun '(argc, c) =>
    if argc <=? 0 then ret (inr (c_p c, c_page c)) else
    let! tmp := string_pointer (UserStrings argv) (argc - 1) in
    match tmp with
    | None => panic "argc is wrong"
    | Some tmp =>
        let! '(tmp, len) := string_end (UserStrings argv) tmp in
        if u32 (c_p c - len) <? 0 then ret (inr (0, c_page c)) else
        let! '(ok, c) := copy_down (UserStrings argv) tmp len c in
        ret (if ok then inl (argc - 1, c) else inr (0, c_page c))
    end) (Z.of_nat (length ls), c) n s = Done r (with_mm m' s) /\ pages_ok m' r.2 /\
  (r.1 = 0 /\ no_page m' \/ exists off, copying_ok m' top (mkCopying r.1 (page_of r.2 r.1) off r.2) /\ r.1 = c_p c - size_of ls /\
     strs_at (arg_at m' r.2) r.1 ls /\ kept (k_mm s) (c_page c) m' r.2 (c_p c) top).
Proof.
  induction ls as [|l ls IH] using rev_ind; intros ps c top k n s Hu Hc Hp Hn Hk; (destruct k as [|k]; [simpl in Hk; lia|]).
  - exists (k_mm s), (c_p c, c_page c). rewrite with_mm_same. split; [by erewrite iterate_last|]. cbn [fst snd].
    split; [apply Hc|]. right. exists 0. unfold size_of. simpl. split; [|split; [lia|by split]].
    destruct Hc. split; try done. by left.
  - destruct ps as [|p ps _] using rev_ind.
    { pose proof (Forall2_length _ _ _ (us_strings _ _ _ _ Hu)) as H. rewrite length_app in H. simpl in H. lia. }
    pose proof (us_argv _ _ _ _ Hu) as Hav.
    apply user_strings_snoc in Hu as (Hu & Hptr & Hs & Hnn & Hr & Hp0 & Hp1).
    rewrite length_app, Nat2Z.inj_add in *. rewrite size_of_app, size_of_cons in *. change (size_of []) with 0 in *.
    cbn [length] in *. change (Z.of_nat 1) with 1 in *. pose proof (size_of_nonneg ls).
    assert (Hb : bytes_at (view s) (p + Z.of_nat (length l) + 1 - Z.of_nat (length (l ++ [0]))) (l ++ [0])).
    { intros i x Hi. rewrite <- (Hs i x Hi). f_equal. rewrite length_app. simpl. lia. }
    assert (Hll : Z.of_nat (length (l ++ [0])) = Z.of_nat (length l) + 1) by (rewrite length_app; simpl; lia).
    destruct (copy_down_done argv (l ++ [0]) (p + Z.of_nat (length l) + 1) c top n s Hc Hb) as (m1 & c1 & ok & E & Hok & H1);
      [apply Forall_app; split; [done|by repeat constructor]|lia|lia|lia|]. rewrite Hll in E, H1.
    assert (Estart : forall A (f : option Z -> K A), (let! tmp := string_pointer (UserStrings argv) (Z.of_nat (length ls) + 1 - 1) in f tmp) n s = f (Some p) n s).
    { intros A f. unfold string_pointer. replace (Z.of_nat (length ls) + 1 - 1) with (Z.of_nat (length ls)) by lia.
      rewrite u32_small by lia. erewrite (bind_run _ _ n s (Some p) s); [done|].
      step (get_long_run (argv + 4 * Z.of_nat (length ls)) n s ltac:(lia) ltac:(lia)). rewrite Hptr.
      by rewrite (proj2 (nz_true p)) by lia. }
    assert (Ego : (Z.of_nat (length ls) + 1 <=? 0) = false) by (apply Z.leb_gt; lia).
    assert (Elen : forall x, (u32 x <? 0) = false) by (intros x; apply Z.ltb_ge, u32_range).
    destruct ok.
    + destruct H1 as (Hc1 & Hp' & Hbytes & Hkept).
      destruct (IH ps c1 top k n (with_mm m1 s) Hu Hc1 ltac:(lia) ltac:(lia) ltac:(lia)) as (m' & r & E' & Hok' & H').
      exists m', r. split; [|split; [done|]].
      * erewrite iterate_next; [exact E'|]. rewrite Ego, Estart. cbn iota.
        step (string_end_done argv l p n s Hs Hnn ltac:(lia) ltac:(lia) ltac:(lia)). rewrite Elen. step E. unfold ret. do 3 f_equal. lia.
      * destruct H' as [|(off & Hc' & Er & Hss & Hk')]; [by left|right]. exists off. split; [done|]. split; [lia|].
        change (k_mm (with_mm m1 s)) with m1 in Hk'. split.
        -- apply strs_at_app. split; [done|]. replace (r.1 + size_of ls) with (c_p c1) by lia. split; [|done].
           intros i x Hi. rewrite <- (Hbytes i x Hi). apply Hk'. apply lookup_lt_Some in Hi. destruct (co_p _ _ _ Hc) as [Hc0 _]. lia.
        -- intros a Ha. rewrite Hk' by lia. apply Hkept. lia.
    + exists m1, (0, c_page c1). split; [|split; [done|by left]]. erewrite iterate_last; [reflexivity|]. rewrite Ego, Estart. cbn iota.
      step (string_end_done argv l p n s Hs Hnn ltac:(lia) ltac:(lia) ltac:(lia)). rewrite Elen. step E. done.
Qed.

Lemma strs_at_shift v v' d ls : forall a, (forall b, a <= b < a + size_of ls -> v' (b + d) = v b) -> strs_at v a ls -> strs_at v' (a + d) ls.
Proof.
  induction ls as [|l ls IH]; intros a Hv H; [done|]. destruct H as [H1 H2]. rewrite size_of_cons in Hv.
  pose proof (size_of_nonneg ls). split.
  - intros i c Hi. rewrite <- (H1 i c Hi). apply lookup_lt_Some in Hi. rewrite length_app in Hi. simpl in Hi.
    replace (a + d + Z.of_nat i) with (a + Z.of_nat i + d) by lia. apply Hv. lia.
  - replace (a + d + Z.of_nat (length l) + 1) with (a + Z.of_nat (length l) + 1 + d) by lia. apply IH; [|done]. intros b Hb. apply Hv. lia.
Qed.

Lemma copy_strings_done argv ls ps page p top n s : user_strings (view s) argv ps ls ->
  copying_ok (k_mm s) top (mkCopying p 0 0 page) -> size_of ls <= p -> size_of ls < Z.of_nat n -> (length ls < n)%nat ->
  exists m' r, copy_strings (Z.of_nat (length ls)) (UserStrings argv) page p n s = Done r (with_mm m' s) /\ pages_ok m' r.2 /\
  (r.1 = 0 /\ no_page m' \/ copying_ok m' top (mkCopying r.1 0 0 r.2) /\ r.1 = p - size_of ls /\
     strs_at (arg_at m' r.2) r.1 ls /\ kept (k_mm s) page m' r.2 p top).
Proof.
  intros Hu Hc Hp Hn Hl. unfold copy_strings. destruct (nz p) eqn:Ep; cbn [negb].
  - destruct (copy_strings_run argv ls ps _ top n n s Hu Hc Hp Hn Hl) as (m' & r & E & Hok & H). exists m', r. split; [exact E|].
    split; [done|]. destruct H as [|(off & [Hpg Hpp _ Hf] & H)]; [by left|right]. split; [|exact H]. split; try done. by left.
  - apply nz_false in Ep as ->. pose proof (size_of_nonneg ls). destruct ls as [|l ls].
    + exists (k_mm s), (0, page). rewrite with_mm_same. split; [done|]. split; [apply Hc|right].
      split; [exact Hc|]. split; [done|]. by split.
    + rewrite size_of_cons in *. pose proof (size_of_nonneg ls). lia.
Qed.

(** ** change_ldt *)

Section NewSpace.
Context (page : list Z) (m0 : mm) (Hok : pages_ok m0 page) (base : Z) (Hbase : exists nr, 1 <= nr <= 63 /\ base = nr * 0x4000000).

(** The linear address of the byte [b] of the argument area. *)
Definition area_addr (b : Z) : Z := base + (0x4000000 - AREA) + b.

Lemma area_user b : 0 <= b < AREA -> user_addr (area_addr b).
Proof. intros Hb. destruct Hbase as (nr & Hnr & ->). unfold user_addr, area_addr, AREA, MAX_ARG_PAGES, PAGE_SIZE in *. lia. Qed.

Lemma area_entry b c : 0 <= b < AREA -> 0 <= c < AREA ->
  dir_of (area_addr b) = dir_of (area_addr c) /\ (idx_of (area_addr b) = idx_of (area_addr c) <-> b / 4096 = c / 4096) /\
  area_addr b mod 4096 = b mod 4096.
Proof.
  intros Hb Hc. destruct (user_addr_dir _ (area_user b Hb)) as [_ Eb], (user_addr_dir _ (area_user c Hc)) as [_ Ec].
  destruct Hbase as (nr & Hnr & E).
  assert (Hd : dir_of (area_addr b) = dir_of (area_addr c)).
  { rewrite Eb, Ec. unfold area_addr, AREA, MAX_ARG_PAGES, PAGE_SIZE in *. Z.to_euclidean_division_equations; lia. }
  split; [exact Hd|].
  assert (H4 : area_addr b / 4096 = area_addr c / 4096 <-> b / 4096 = c / 4096).
  { unfold area_addr, AREA, MAX_ARG_PAGES, PAGE_SIZE in *. Z.to_euclidean_division_equations; lia. }
  split.
  - rewrite <- H4, <- (same_entry _ _ (area_user c Hc) (area_user b Hb)). tauto.
  - unfold area_addr, AREA, MAX_ARG_PAGES, PAGE_SIZE in *. Z.to_euclidean_division_equations; lia.
Qed.

(** The pages from the [i]-th on are in the page tables; the others are still to be
    put there; what is written in them is as in [m0]. *)
Record placed (i : Z) (m : mm) : Prop := {
  pl_wf : wf m;
  pl_kept : forall j q, arr_get page j = Some (page_addr q) -> 0 <= q < PAGING_PAGES ->
    PageTables.count m q <> 0 /\ not_table m q /\ forall x, in_page q x -> mem m x = mem m0 x;
  pl_extra : forall j q, j < i -> arr_get page j = Some (page_addr q) -> 0 <= q < PAGING_PAGES -> 1 <= extra m q;
  pl_empty : forall b, 0 <= b < AREA -> b / 4096 < i -> translate m (area_addr b) = None;
  pl_mapped : forall b q, 0 <= b < AREA -> i <= b / 4096 -> arr_get page (b / 4096) = Some (page_addr q) -> 0 <= q < PAGING_PAGES ->
    translate m (area_addr b) = Some (page_addr q + b mod 4096);
  pl_room : present (pde m (dir_of (area_addr 0))) = true \/ ~ no_page m
}.

Lemma placed_none i m : placed (i + 1) m -> arr_get page i = Some 0 -> placed i m.
Proof.
  intros [Hwf Hk He Hem Hm Hr] H0. split; try done.
  - intros j q Hj. apply He. lia.
  - intros b Hb Hi. apply Hem; [done|lia].
  - intros b q Hb Hi Hq Hr'. apply Hm; try done. destruct (Z.eq_dec (b / 4096) i) as [E|]; [|lia].
    rewrite E in Hq. rewrite H0 in Hq. injection Hq. unfold page_addr, LOW_MEM. lia.
Qed.

Lemma placed_put i q m m' : 0 <= i < 32 -> arr_get page i = Some (page_addr q) -> 0 <= q < PAGING_PAGES ->
  placed (i + 1) m -> let a := area_addr (i * 4096) in
  page_mapped m m' (dir_of a) (idx_of a) q -> kept_pages m m' ->
  (present (pde m (dir_of a)) = false -> forall j, 0 <= j < 1024 -> j <> idx_of a -> pte m' (dir_of a) j = 0) ->
  placed i m'.
Proof.
  intros Hi Hpg Hq Hpl a [P1 P2 P3 P4 P5 P6] Hk Hz. assert (Hb0 : 0 <= i * 4096 < AREA) by (unfold AREA, MAX_ARG_PAGES, PAGE_SIZE; lia).
  assert (Hdir : forall b, 0 <= b < AREA -> dir_of (area_addr b) = dir_of a) by (intros b Hb; by apply (area_entry b (i * 4096))).
  destruct (user_addr_dir _ (area_user _ Hb0)) as [Hud _]. fold a in Hud.
  assert (Hpres : present (pde m (dir_of a)) = true -> pde m' (dir_of a) = pde m (dir_of a)) by (by apply P4).
  split.
  - done.
  - intros j r Hj Hr. destruct (pl_kept _ _ Hpl j r Hj Hr) as (Hc & Hnt & Hm). destruct (Hk r Hr Hc Hnt) as (Hnt' & -> & Hm').
    split; [done|]. split; [done|]. intros x Hx. rewrite Hm' by done. by apply Hm.
  - intros j r Hji Hj Hr. rewrite P2 by done. rewrite decide_False; [rewrite Z.sub_0_r; apply (pl_extra _ _ Hpl j r); [lia|done..]|].
    intros ->. assert (j = i); [|lia]. apply (po_distinct _ _ Hok j i _ Hj Hpg). unfold page_addr, LOW_MEM. lia.
  - intros b Hb Hbi. pose proof (pl_empty _ _ Hpl b Hb ltac:(lia)) as Hn. unfold translate in *. rewrite Hdir in * by done. rewrite P3.
    assert (Hne : idx_of (area_addr b) <> idx_of a).
    { unfold a. rewrite (proj1 (proj2 (area_entry b (i * 4096) Hb Hb0))). rewrite Z.div_mul by lia. lia. }
    destruct (present (pde m (dir_of a))) eqn:Ep.
    + rewrite P6; [exact Hn|done|done|apply idx_of_range|]. intros [_ ?]. by apply Hne.
    + by rewrite Hz by (try done; apply idx_of_range).
  - intros b r Hb Hbi Hbp Hr. unfold translate. rewrite Hdir, P3 by done.
    destruct (area_entry b (i * 4096) Hb Hb0) as (_ & Hidx & ->). fold a in Hidx. rewrite Z.div_mul in Hidx by lia.
    destruct (Z.eq_dec (b / 4096) i) as [E|Hne].
    + rewrite (proj2 Hidx E), P5. rewrite E, Hpg in Hbp. injection Hbp as Hbp. destruct (page_entry q Hq) as (_ & -> & ->). by rewrite Hbp.
    + pose proof (pl_mapped _ _ Hpl b r Hb ltac:(lia) Hbp Hr) as Hm. unfold translate in Hm. rewrite Hdir in Hm by done.
      rewrite (proj2 (proj2 (area_entry b (i * 4096) Hb Hb0))) in Hm.
      destruct (present (pde m (dir_of a))) eqn:Ep; [|done]. rewrite P6; [exact Hm|done|done|apply idx_of_range|].
      intros [_ ?]. by apply Hne, Hidx.
  - left. by rewrite Hdir.
Qed.

Definition put_arg (i : Z) : K unit :=
  let! pag := deref (fun _ => arr_get page i) in
  when (nz pag)
    (let! _ := on_mm (put_page pag (u32 (base + 0x4000000 - (MAX_ARG_PAGES - i) * PAGE_SIZE))) in ret tt).

Lemma put_arg_run i n s : 0 <= i < 32 -> placed (i + 1) (k_mm s) ->
  exists m, put_arg i n s = Done tt (with_mm m s) /\ placed i m.
Proof.
  intros Hi Hpl. destruct (arr_get_is_Some page i) as [pag Ep]; [rewrite (po_length _ _ Hok); lia|].
  unfold put_arg. rewrite (bind_run _ _ n s pag s) by (unfold deref; by rewrite Ep). cbv beta. unfold when. destruct (nz pag) eqn:En.
  - apply nz_true in En. destruct (po_taken _ _ Hok _ _ Ep En) as (q & -> & Hq & _).
    assert (Ha : u32 (base + 0x4000000 - (MAX_ARG_PAGES - i) * PAGE_SIZE) = area_addr (i * 4096)).
    { destruct Hbase as (nr & Hnr & ->). rewrite u32_small; unfold area_addr, AREA, MAX_ARG_PAGES, PAGE_SIZE; lia. }
    assert (Hb0 : 0 <= i * 4096 < AREA) by (unfold AREA, MAX_ARG_PAGES, PAGE_SIZE; lia).
    destruct (user_addr_dir _ (area_user _ Hb0)) as [Hud _].
    assert (Hem : translate (k_mm s) (area_addr (i * 4096)) = None).
    { apply (pl_empty _ _ Hpl); [done|]. rewrite Z.div_mul by lia. lia. }
    rewrite Ha. destruct (put_page_keeps (k_mm s) q (area_addr (i * 4096)) n (pl_wf _ _ Hpl) Hq
      (pl_extra _ _ Hpl i q ltac:(lia) Ep Hq) Hud (translate_unmapped _ _ (area_user _ Hb0) Hem)) as [(_ & Hnp & Hno)|(m & E & Hpm & Hk & Hz)].
    + exfalso. destruct (pl_room _ _ Hpl) as [Hr|Hr]; [|by apply Hr].
      rewrite (proj1 (area_entry 0 (i * 4096) ltac:(unfold AREA, MAX_ARG_PAGES, PAGE_SIZE; lia) Hb0)) in Hr. congruence.
    + exists m. step (on_mm_run _ _ _ _ _ E). split; [done|]. by apply (placed_put i q (k_mm s)).
  - apply nz_false in En. subst pag. exists (k_mm s). rewrite with_mm_same. split; [done|]. by apply placed_none.
Qed.

Lemma put_args_run k n s : (k <= 32)%nat -> placed (Z.of_nat k) (k_mm s) ->
  exists m, for_each (rev (zrange 0 k)) put_arg n s = Done tt (with_mm m s) /\ placed 0 m.
Proof.
  revert s. induction k as [|k IH]; intros s Hk Hpl; [exists (k_mm s); by rewrite with_mm_same|].
  replace (S k) with (k + 1)%nat by lia. rewrite zrange_app, rev_app_distr. cbn [zrange rev app for_each].
  destruct (put_arg_run (0 + Z.of_nat k) n s ltac:(lia)) as (m & E & H); [by replace (0 + Z.of_nat k + 1) with (Z.of_nat (S k)) by lia|].
  step E. destruct (IH (with_mm m s) ltac:(lia) H) as (m' & E' & H'). exists m'. by split.
Qed.
(** A later state in which the pages still are as [m0] has them, the segment of the
    running task is empty and a page is free for its page table. *)
Record ready_for (s : kstate) : Prop := {
  rd_task : exists t, task_slot s (current (k_sched s)) = Some t /\ get_base (ldt_at t 1) = base;
  rd_wf : wf (k_mm s);
  rd_empty : forall a, base <= a < base + 0x4000000 -> translate (k_mm s) a = None;
  rd_pages : forall i q, arr_get page i = Some (page_addr q) -> 0 <= q < PAGING_PAGES ->
    owned (k_mm s) q /\ forall x, in_page q x -> mem (k_mm s) x = mem m0 x;
  rd_room : exists i, 0 <= i < PAGING_PAGES /\ PageTables.count (k_mm s) i = 0
}.

Lemma ready_placed s : ready_for s -> placed 32 (k_mm s).
Proof.
  intros [_ Hwf Hem Hpg (f & Hf & Hfree)]. split.
  - done.
  - intros j q Hj Hq. destruct (Hpg j q Hj Hq) as [Ho Hm]. split; [destruct Ho as (_ & -> & _); done|].
    split; [by apply owned_not_table|done].
  - intros j q _ Hj Hq. destruct (Hpg j q Hj Hq) as [(_ & Hc & Hr) _]. unfold extra. lia.
  - intros b Hb _. apply Hem. unfold area_addr, AREA, MAX_ARG_PAGES, PAGE_SIZE in *. lia.
  - intros b q Hb Hi. exfalso. unfold AREA, MAX_ARG_PAGES, PAGE_SIZE in *. Z.to_euclidean_division_equations; lia.
  - right. intros Hno. by apply (Hno f Hf).
Qed.

Lemma cur_upd_frame f t n s : task_slot s (current (k_sched s)) = Some t ->
  exists s', cur_upd f n s = Done tt s' /\ task_slot s' (current (k_sched s')) = Some (f t) /\ k_mm s' = k_mm s.
Proof.
  intros Ht. eexists. split; [by apply (cur_upd_run f t)|]. split; [|done].
  change (current (k_sched (set_slot _ _ s))) with (current (k_sched s)).
  rewrite task_slot_set by (by eapply task_slot_range). by case_decide.
Qed.

Lemma change_ldt_run image text n s : ready_for s ->
  exists m s', change_ldt image text page n s = Done 0x4000000 s' /\ placed 0 m /\ view s' = new_view m base image.
Proof.
  intros H. pose proof (ready_placed s H) as Hpl. destruct (rd_task s H) as (t & Ht & Eb). unfold change_ldt.
  step (cur_run t n s Ht). rewrite Eb.
  destruct (cur_upd_frame (fun t => set_ldt 1 (set_base (ldt_at t 1) base) t) t n s Ht) as (s1 & E1 & Ht1 & M1). step E1.
  destruct (cur_upd_frame (fun t => set_ldt 1 (set_limit (ldt_at t 1) (Z.land (u32 (text + PAGE_SIZE - 1)) 0xfffff000)) t) _ n s1 Ht1)
    as (s2 & E2 & Ht2 & M2). step E2.
  destruct (cur_upd_frame (fun t => set_ldt 2 (set_base (ldt_at t 2) base) t) _ n s2 Ht2) as (s3 & E3 & Ht3 & M3). step E3.
  destruct (cur_upd_frame (fun t => set_ldt 2 (set_limit (ldt_at t 2) 0x4000000) t) _ n s3 Ht3) as (s4 & E4 & Ht4 & M4). step E4.
  destruct (put_args_run 32 n s4 (le_n 32)) as (m & E & Hm); [by rewrite M4, M3, M2, M1|]. change (Z.to_nat MAX_ARG_PAGES) with 32%nat.
  change (for_each _ _) with (for_each (rev (zrange 0 32)) put_arg). step E. step (get_run n (with_mm m s4)).
  exists m. eexists. split; [reflexivity|]. split; [done|]. unfold view. simpl. by rewrite Z.eqb_refl.
Qed.

(** Where the area has a page, the new program reads what was written there. *)
Lemma new_view_area m image b : placed 0 m -> 0 <= b < AREA -> page_of page b <> 0 ->
  new_view m base image (b + (0x4000000 - AREA)) = arg_at m0 page b.
Proof.
  intros Hpl Hb Hp. pose proof (page_get page b (po_length _ _ Hok) Hb) as Ep.
  destruct (po_taken _ _ Hok _ _ Ep Hp) as (q & Eq & Hq & _). rewrite Eq in Ep. unfold PAGE_SIZE in *.
  assert (0 <= b / 4096) by (apply Z.div_pos; lia).
  pose proof (pl_mapped _ _ Hpl b q Hb ltac:(lia) Ep Hq) as Htr. unfold new_view.
  replace (base + (b + (0x4000000 - AREA))) with (area_addr b) by (unfold area_addr; lia). rewrite Htr.
  unfold arg_at, ld8, PAGE_SIZE. rewrite Eq.
  by rewrite (proj2 (proj2 (pl_kept _ _ Hpl _ q Ep Hq))) by (apply page_word, Z.mod_pos_bound; lia).
Qed.
End NewSpace.

(** The strings of the environment and, below them, those of the arguments. *)
Lemma take_strings_done args envs ps qs argv envp n s : let top := PAGE_SIZE * MAX_ARG_PAGES - 4 in
  user_strings (view s) argv ps args -> user_strings (view s) envp qs envs -> wf (k_mm s) ->
  size_of (args ++ envs) <= top -> size_of (args ++ envs) + Z.of_nat (length (args ++ envs)) < Z.of_nat n ->
  exists m' p page,
    take_strings (Z.of_nat (length args)) argv (Z.of_nat (length envs)) envp (replicate 32 0) top n s = Done (p, page) (with_mm m' s) /\
    pages_ok m' page /\
    (p = 0 /\ no_page m' \/
     p = top - size_of (args ++ envs) /\ (forall a, p <= a < top -> page_of page a <> 0) /\ strs_at (arg_at m' page) p (args ++ envs)).
Proof.
  intros top Ha He Hwf Hsz Hn. rewrite size_of_app, length_app, Nat2Z.inj_add in *. pose proof (size_of_nonneg args). pose proof (size_of_nonneg envs).
  assert (Hget : forall i pag, arr_get (replicate 32 0) i = Some pag -> pag = 0).
  { intros i pag E. pose proof (arr_get_Some_range _ _ _ E) as Hi. rewrite length_replicate in Hi. rewrite arr_get_replicate in E by lia. congruence. }
  assert (Hstart : copying_ok (k_mm s) top (mkCopying top 0 0 (replicate 32 0))).
  { split; [split|split; [unfold top, PAGE_SIZE, MAX_ARG_PAGES; cbn; lia|done]|by left|cbn; lia].
    - done.
    - done.
    - intros i pag E%Hget Hnz. congruence.
    - intros i j pag E%Hget _ Hnz. congruence. }
  destruct (copy_strings_done envp envs qs _ top top n s He Hstart ltac:(lia) ltac:(lia) ltac:(lia)) as (m1 & [p1 page1] & E1 & Hok1 & H1).
  cbn [fst snd] in *. unfold take_strings. step E1.
  destruct H1 as [[-> Hno]|(Hc1 & -> & Hs1 & _)].
  - exists m1, 0, page1. split; [done|]. split; [done|by left].
  - destruct (copy_strings_done argv args ps page1 (top - size_of envs) top n (with_mm m1 s) Ha Hc1 ltac:(lia) ltac:(lia) ltac:(lia))
      as (m2 & [p2 page2] & E2 & Hok2 & H2). cbn [fst snd] in *. change (with_mm m2 (with_mm m1 s)) with (with_mm m2 s) in E2.
    exists m2, p2, page2. split; [exact E2|]. split; [done|]. destruct H2 as [[-> Hno]|(Hc2 & -> & Hs2 & Hk2)]; [by left|right]. split; [lia|].
    change (k_mm (with_mm m1 s)) with m1 in Hk2. split; [intros a Ha'; by apply (co_filled _ _ _ Hc2)|].
    apply strs_at_app. split; [done|]. replace (top - size_of envs - size_of args + size_of args) with (top - size_of envs) by lia.
    apply (strs_at_ext (arg_at m1 page1)); [|done]. intros b Hb. apply Hk2. lia.
Qed.

(** C10. What [execve] saves of the old program is what the new one finds.  The strings
    of the environment and of the arguments are copied to pages of their own.  When
    memory runs out on the way (or the strings fill the 128 kB to the last byte),
    [execve] gives the pages back and fails with ENOMEM, and only then; else it goes on
    to enter the program, and whenever [change_ldt] comes to map these pages in an empty
    segment, every string is, byte for byte and in its order, in the memory the new
    program reaches through its page tables, at the address [create_tables] is given. *)
Theorem execve_passes_strings `{driver : Driver} (args envs : list (list Z)) (ps qs : list Z) (argv envp : Z)
    (image : Z -> Z -> Z) (ex : exec) (inode e_uid e_gid : Z) (n : nat) (s : kstate) :
  let argc := Z.of_nat (length args) in
  let envc := Z.of_nat (length envs) in
  let top := PAGE_SIZE * MAX_ARG_PAGES - 4 in
  user_strings (view s) argv ps args -> user_strings (view s) envp qs envs -> wf (k_mm s) ->
  size_of (args ++ envs) <= top -> size_of (args ++ envs) + Z.of_nat (length (args ++ envs)) < Z.of_nat n ->
  exists m' p page,
    pages_ok m' page /\
    start_program image ex argv envp envc e_uid e_gid (mkPreparing inode argc top (replicate 32 0) false) n s =
      (if p =? 0 then exec_error2 inode page (- ENOMEM)
       else let! sp := enter_program image ex inode argc envc p e_uid e_gid page in ret (inr (a_entry ex, sp))) n (with_mm m' s) /\
    (p = 0 -> no_page m' \/ size_of (args ++ envs) = top) /\
    (p <> 0 -> p = top - size_of (args ++ envs) /\
       forall nr text s1, 1 <= nr <= 63 -> ready_for page m' (nr * 0x4000000) s1 ->
         exists limit s2, change_ldt (image inode) text page n s1 = Done limit s2 /\
           strs_at (view s2) (p + limit - MAX_ARG_PAGES * PAGE_SIZE) (args ++ envs)).
Proof.
  intros argc envc top Ha He Hwf Hsz Hn.
  destruct (take_strings_done args envs ps qs argv envp n s Ha He Hwf Hsz Hn) as (m' & p & page & E & Hok & H). fold top argc envc in E, H.
  exists m', p, page. split; [done|]. split; [|split].
  - unfold start_program. cbn [x_inode x_bang x_argc x_p x_page]. step E. cbn [negb andb]. unfold nz. by destruct (p =? 0).
  - intros ->. destruct H as [[_ ?]|(E0 & _)]; [by left|right; lia].
  - intros Hp. destruct H as [[? _]|(Ep & Hf & Hs)]; [done|]. split; [done|]. intros nr text s1 Hnr Hr.
    destruct (change_ldt_run page m' Hok (nr * 0x4000000) (ex_intro _ nr (conj Hnr eq_refl)) (image inode) text n s1 Hr)
      as (m & s2 & E2 & Hpl & Hv).
    exists 0x4000000, s2. split; [done|]. rewrite Hv. fold AREA. replace (p + 0x4000000 - AREA) with (p + (0x4000000 - AREA)) by lia.
    pose proof (size_of_nonneg (args ++ envs)). apply (strs_at_shift (arg_at m' page)); [|done]. intros b Hb.
    apply (new_view_area page m' Hok (nr * 0x4000000)); [done| |apply Hf; lia].
    unfold top, AREA in *. lia.
Qed.

(** [ls -l] with one environment string. *)
Definition saved_bytes : list Z := [
  16; 0; 0; 0;  19; 0; 0; 0;  22; 0; 0; 0;  0; 0; 0; 0;  108; 115; 0;  45; 108; 0;  65; 61; 49; 0 ].
Definition calling : kstate :=
  set_slot 1 (Some (set_ldt 1 (set_base (mkDesc 0x9f 0xc0fa00) 0x4000000) (init_task 0))) boot_k
    <| k_sched ::= fun c => c <| current := 1 |> |> <| k_user := fun _ a => byte_at saved_bytes a |>.
Definition ls_l : list (list Z) := [[108; 115]; [45; 108]].
Definition env_a : list (list Z) := [[65; 61; 49]].

Lemma saved_at a (l : list Z) : (forall i, (i < length (l ++ [0%Z]))%nat -> byte_at saved_bytes (a + Z.of_nat i) = default 0 ((l ++ [0]) !! i)) ->
  str_at (view calling) a l.
Proof. intros H i c Hi. change (view calling) with (byte_at saved_bytes). rewrite H by (by eapply lookup_lt_Some). by rewrite Hi. Qed.

Ltac saved_string := split; [apply saved_at; intros i Hi; cbn in Hi; do 5 (destruct i as [|i]; [vm_compute; reflexivity|try lia])
  |split; [repeat (apply List.Forall_cons; [lia|]); apply List.Forall_nil|split; [repeat (apply List.Forall_cons; [lia|]); apply List.Forall_nil|simpl; lia]]].

Lemma ls_l_saved : user_strings (view calling) 0 [16; 19] ls_l.
Proof.
  split.
  - intros [|[|i]] p [= <-]; vm_compute; reflexivity.
  - simpl; lia.
  - apply Forall2_cons. split; [saved_string|]. apply Forall2_cons. split; [saved_string|]. apply Forall2_nil. done.
Qed.
Lemma env_a_saved : user_strings (view calling) 8 [22] env_a.
Proof.
  split.
  - intros [|i] p [= <-]; vm_compute; reflexivity.
  - simpl; lia.
  - apply Forall2_cons. split; [saved_string|]. apply Forall2_nil. done.
Qed.

(** The strings saved and found again in the empty segment of task 1. *)
Definition passed : K Z :=
  let! '(p, page) := take_strings 2 0 1 8 (replicate 32 0) (PAGE_SIZE * MAX_ARG_PAGES - 4) in
  let! limit := change_ldt (fun _ => 0) 0 page in
  ret (p + limit - MAX_ARG_PAGES * PAGE_SIZE).

Lemma execve_passes_strings_witness :
  match passed 40%nat calling with
  | Done p s' => p = 0x4000000 - 14 /\ map (view s') (zrange p 10) = [108; 115; 0; 45; 108; 0; 65; 61; 49; 0]
  | _ => False
  end /\
  let ex := mkExec ZMAGIC 1000 0 0 0 0 0 0 in
  let top := PAGE_SIZE * MAX_ARG_PAGES - 4 in
  exists m' p page,
    pages_ok m' page /\
    start_program (fun _ _ => 0) ex 0 8 1 0 0 (mkPreparing 3 2 top (replicate 32 0) false) 20%nat calling =
      (if p =? 0 then exec_error2 3 page (- ENOMEM)
       else let! sp := enter_program (fun _ _ => 0) ex 3 2 1 p 0 0 page in ret (inr (a_entry ex, sp))) 20%nat (with_mm m' calling) /\
    (p = 0 -> no_page m' \/ size_of (ls_l ++ env_a) = top) /\
    (p <> 0 -> p = top - size_of (ls_l ++ env_a) /\
       forall nr text s1, 1 <= nr <= 63 -> ready_for page m' (nr * 0x4000000) s1 ->
         exists limit s2, change_ldt (fun _ => 0) text page 20%nat s1 = Done limit s2 /\
           strs_at (view s2) (p + limit - MAX_ARG_PAGES * PAGE_SIZE) (ls_l ++ env_a)).
Proof.
  split; [vm_compute; split; reflexivity|]. intros ex top.
  apply (execve_passes_strings ls_l env_a [16; 19] [22] 0 8 (fun _ _ => 0) ex 3 0 0 20%nat calling ls_l_saved env_a_saved);
    [exact boot_wf| |]; vm_compute; [discriminate|reflexivity].
Defined.

(** The page of these strings at the moment it is there: the state is ready for it. *)
Lemma one_page_ready : ready_for (arr_set (replicate 32 0) 31 (page_addr 3839)) (take_page boot 3839) 0x4000000
  (with_mm (take_page boot 3839) calling).
Proof.
  destruct (take_page_reads boot 3839 boot_wf ltac:(done) eq_refl) as (Hlow & Hpde & _ & _ & Hwf).
  destruct (take_page_owned boot 3839 boot_wf ltac:(done) eq_refl) as [Hown _]. split.
  - eexists. by split.
  - exact Hwf.
  - intros a Ha. unfold translate. change (k_mm _) with (take_page boot 3839). rewrite Hpde; [done|].
    apply user_addr_dir. unfold user_addr. lia.
  - intros i q Hi Hq. split; [|done]. change (k_mm _) with (take_page boot 3839). replace q with 3839; [done|].
    destruct (decide (31 = i)) as [<-|Hne].
    + rewrite arr_get_set_eq in Hi by (vm_compute; split; discriminate || reflexivity). by injection Hi as ?%page_addr_inj.
    + rewrite arr_get_set_ne in Hi by done. pose proof (arr_get_Some_range _ _ _ Hi) as Hr. rewrite length_replicate in Hr.
      rewrite arr_get_replicate in Hi by lia. injection Hi. unfold page_addr, LOW_MEM. lia.
  - exists 0. split; [done|]. vm_compute. reflexivity.
Qed.

(** The tables for these strings at the top of a new address space. *)
Lemma create_tables_lays_out_witness :
  let st := boot_k <| k_user := fun _ a => byte_at (replicate 100 7 ++ [108; 115; 0; 45; 108; 0; 65; 61; 49; 0]) a |> in
  exists u' sp, let v := view (with_user u' st) in
    create_tables 100 2 1 200%nat st = Done sp (with_user u' st) /\
    sp = 100 - 100 mod 4 - 4 * (2 + 1 + 5) /\
    view_long v sp = 2 /\ view_long v (sp + 4) = sp + 12 /\ view_long v (sp + 8) = sp + 12 + 4 * (2 + 1) /\
    table_at v (sp + 12) (starts 100 ls_l) /\
    table_at v (sp + 12 + 4 * (2 + 1)) (starts (100 + size_of ls_l) env_a) /\
    strs_at v 100 (ls_l ++ env_a) /\ only_wrote st u' sp 100.
Proof.
  intros st. apply (create_tables_lays_out ls_l env_a 100 200%nat st).
  - cbn [ls_l env_a app strs_at]. repeat split; intros i c Hi; do 5 (destruct i as [|i]; [by injection Hi as <-|try done]).
  - repeat (apply List.Forall_cons; [repeat (apply List.Forall_cons; [lia|]); apply List.Forall_nil|]). apply List.Forall_nil.
  - vm_compute; discriminate.
  - vm_compute; reflexivity.
  - vm_compute; discriminate.
Defined.

(** The check for too many strings compares an unsigned difference with zero and
    never fails: a string longer than the room left is copied below the argument
    area, with the page taken from outside the array. *)
Example copy_strings_overruns :
  match copy_strings 1 (UserStrings 0) (replicate 32 0) 2 20%nat calling with Fault _ => True | _ => False end.
Proof. vm_compute. exact I. Qed.

(** The sum of the sizes in a header is taken modulo 2^32, so that a text segment of
    2 GB passes for a program of at most 48 MB. *)
Example bad_header_wraps : bad_header (mkExec ZMAGIC 0x80000000 0x80000000 0 0 0 0 0) 4096 = false.
Proof. reflexivity. Qed.
