(* ===== verification/StringH.v ===== *)
(** * The string routines: include/string.h

    Every routine is inline assembly around the string instructions of the
    processor.  The instructions are operations on the registers, the flags the
    routines test and a memory of bytes; a routine is the sequence of its
    instructions, a backward jump a loop.  The parameters a routine loads into
    registers are assigned first, as gcc does for the constraints. *)
From Stdlib Require Import ZArith Lia String.
From stdpp Require Import base list.
From S2P Require Import Prelude Resumption.

Record machine := mkMachine {
  eax : Z; ebx : Z; ecx : Z; edx : Z; esi : Z; edi : Z;
  zf : bool;              (* equal, or zero *)
  sf : bool;              (* negative *)
  lf : bool;              (* less, as [jl] sees it *)
  df : bool;              (* the direction is downwards *)
  bytes : Z -> Z;
  ___strtok : Z
}.
#[export] Instance machine_reconstruct : Reconstruct machine :=
  fun r => mkMachine (eax r) (ebx r) (ecx r) (edx r) (esi r) (edi r) (zf r) (sf r) (lf r) (df r) (bytes r) (___strtok r).

Notation X := (M machine).

(** ** Instructions *)

Definition al (r : machine) : Z := u8 (eax r).
Definition ah (r : machine) : Z := u8 (Z.shiftr (eax r) 8).
Definition with_al (v : Z) (r : machine) : machine := r <| eax ::= fun a => a - a mod 256 + u8 v |>.
Definition advance (r : machine) (a : Z) : Z := u32 (if df r then a - 1 else a + 1).

Definition cld : X unit := modify (fun r => r <| df := false |>).
Definition std : X unit := modify (fun r => r <| df := true |>).

Definition lodsb : X unit :=
  modify (fun r => with_al (bytes r (esi r)) r <| esi := advance r (esi r) |>).
Definition stosb : X unit :=
  modify (fun r => r <| bytes := fun a => if a =? edi r then al r else bytes r a |> <| edi := advance r (edi r) |>).
Definition movsb : X unit :=
  modify (fun r => r <| bytes := fun a => if a =? edi r then bytes r (esi r) else bytes r a |>
                     <| esi := advance r (esi r) |> <| edi := advance r (edi r) |>).

(** The flags of [x - y]. *)
Definition compare (x y : Z) (r : machine) : machine := r <| zf := x =? y |> <| lf := s8 x <? s8 y |>.
Definition scasb : X unit :=
  modify (fun r => compare (al r) (bytes r (edi r)) r <| edi := advance r (edi r) |>).
Definition cmpsb : X unit :=
  modify (fun r => compare (bytes r (esi r)) (bytes r (edi r)) r <| esi := advance r (esi r) |> <| edi := advance r (edi r) |>).
Definition testb_al : X unit := modify (fun r => r <| zf := al r =? 0 |>).
Definition flags_of (v : Z) (r : machine) : machine := r <| zf := u32 v =? 0 |> <| sf := Z.testbit (u32 v) 31 |>.

Definition decl_ecx : X unit := modify (fun r => flags_of (ecx r - 1) r <| ecx ::= fun c => u32 (c - 1) |>).
Definition notl_ecx : X unit := modify (fun r => r <| ecx ::= fun c => u32 (Z.lnot c) |>).

(** [rep], [repne] and [repe]: [ecx] counts, and nothing is done when it is 0. *)
Definition repeat_round (c : machine -> bool) (instruction : X unit) (_ : unit) : X (unit + unit) :=
  let! r := get in
  if ecx r =? 0 then ret (inr tt) else
  modify (fun r => r <| ecx ::= fun c => u32 (c - 1) |>) ;;;
  instruction ;;;
  let! r := get in
  ret (if c r then inl tt else inr tt).
Definition repeat_while (c : machine -> bool) (instruction : X unit) : X unit := loop (repeat_round c instruction) tt.
Definition rep : X unit -> X unit := repeat_while (fun _ => true).
Definition repne : X unit -> X unit := repeat_while (fun r => negb (zf r)).
Definition repe : X unit -> X unit := repeat_while zf.

(** [1: ... jcc 1b]: again while [c]. *)
Definition again (c : machine -> bool) (body : X unit) : X unit :=
  loop (fun _ : unit => body ;;; let! r := get in ret (if c r then inl tt else inr tt)) tt.
Definition nonzero (r : machine) : bool := negb (zf r).

Definition set_esi (v : Z) : X unit := modify (fun r => r <| esi := v |>).
Definition set_edi (v : Z) : X unit := modify (fun r => r <| edi := v |>).
Definition set_eax (v : Z) : X unit := modify (fun r => r <| eax := v |>).
Definition set_ecx (v : Z) : X unit := modify (fun r => r <| ecx := v |>).
Definition set_edx (v : Z) : X unit := modify (fun r => r <| edx := v |>).
Definition set_ebx (v : Z) : X unit := modify (fun r => r <| ebx := v |>).

(** ** Copying strings *)

Definition copy_string : X unit := again nonzero (lodsb ;;; stosb ;;; testb_al).

Definition strcpy (dest src : Z) : X Z :=
  set_esi src ;;; set_edi dest ;;;
  cld ;;; copy_string ;;; ret dest.

Definition strncpy (dest src count : Z) : X Z :=
  set_esi src ;;; set_edi dest ;;; set_ecx (u32 count) ;;;
  cld ;;;
  loop (fun _ : unit =>
    decl_ecx ;;;
    let! r := get in
    if sf r then ret (inr tt) else
    lodsb ;;; stosb ;;; testb_al ;;;
    let! r := get in
    if negb (zf r) then ret (inl tt) else
    rep stosb ;;; ret (inr tt)) tt ;;;
  ret dest.

(** [repne; scasb] for the NUL and one byte back. *)
Definition strcat (dest src : Z) : X Z :=
  set_esi src ;;; set_edi dest ;;; set_eax 0 ;;; set_ecx 0xffffffff ;;;
  cld ;;; repne scasb ;;;
  modify (fun r => r <| edi ::= fun d => u32 (d - 1) |>) ;;;
  copy_string ;;; ret dest.

Definition strncat (dest src count : Z) : X Z :=
  set_esi src ;;; set_edi dest ;;; set_eax 0 ;;; set_ecx 0xffffffff ;;;
  cld ;;; repne scasb ;;;
  modify (fun r => r <| edi ::= fun d => u32 (d - 1) |>) ;;;
  set_ecx (u32 count) ;;;
  loop (fun _ : unit =>
    decl_ecx ;;;
    let! r := get in
    if sf r then ret (inr tt) else
    lodsb ;;; stosb ;;; testb_al ;;;
    let! r := get in
    ret (if negb (zf r) then inl tt else inr tt)) tt ;;;
  set_eax 0 ;;; stosb ;;; ret dest.

(** ** Comparing strings *)

(** [2: movl $1,%eax; jl 3f; negl %eax; 3:] *)
Definition compared : X Z := let! r := get in ret (if lf r then 1 else -1).

Definition strcmp_round (_ : unit) : X (unit + bool) :=
  lodsb ;;; scasb ;;;
  let! r := get in
  if negb (zf r) then ret (inr false) else
  testb_al ;;;
  let! r := get in
  ret (if negb (zf r) then inl tt else inr true).

Definition strcmp (cs ct : Z) : X Z :=
  set_edi cs ;;; set_esi ct ;;;
  cld ;;;
  let! equal := loop strcmp_round tt in
  if equal : bool then ret 0 else compared.

Definition strncmp (cs ct count : Z) : X Z :=
  set_edi cs ;;; set_esi ct ;;; set_ecx (u32 count) ;;;
  cld ;;;
  let! equal := loop (fun _ : unit =>
    decl_ecx ;;;
    let! r := get in
    if sf r then ret (inr true) else
    lodsb ;;; scasb ;;;
    let! r := get in
    if negb (zf r) then ret (inr false) else
    testb_al ;;;
    let! r := get in
    ret (if negb (zf r) then inl tt else inr true)) tt in
  if equal : bool then ret 0 else compared.

(** ** Searching *)

Definition strchr (s c : Z) : X Z :=
  set_esi s ;;; set_eax (u32 c) ;;;
  cld ;;;
  modify (fun r => r <| eax ::= fun a => a - 256 * ah r + 256 * al r |>) ;;;
  let! found := loop (fun _ : unit =>
    lodsb ;;;
    modify (fun r => compare (al r) (ah r) r) ;;;
    let! r := get in
    if zf r then ret (inr true) else
    testb_al ;;;
    let! r := get in
    ret (if negb (zf r) then inl tt else inr false)) tt in
  when (negb found) (set_esi 1) ;;;
  let! r := get in
  ret (u32 (esi r - 1)).

Definition strrchr (s c : Z) : X Z :=
  set_edx 0 ;;; set_esi s ;;; set_eax (u32 c) ;;;
  cld ;;;
  modify (fun r => r <| eax ::= fun a => a - 256 * ah r + 256 * al r |>) ;;;
  again nonzero
    (lodsb ;;;
     modify (fun r => compare (al r) (ah r) r) ;;;
     let! r := get in
     when (zf r) (set_edx (u32 (esi r - 1))) ;;;
     testb_al) ;;;
  let! r := get in
  ret (edx r).

(** The length of the string at [ct] into [ecx] and [edx]. *)
Definition measure (ct : Z) : X unit :=
  set_edi ct ;;; repne scasb ;;; notl_ecx ;;; decl_ecx ;;;
  let! r := get in
  set_edx (ecx r).

(** [movl %4,%%edi; movl %%edx,%%ecx; repne; scasb]: look for [al] in [ct]. *)
Definition search_in (ct : Z) : X unit :=
  set_edi ct ;;;
  let! r := get in
  set_ecx (edx r) ;;;
  repne scasb.

(** [1: lodsb; testb; je 2f; search; jcc 1b]: whether the end of the string stopped it. *)
Definition scan_string (ct : Z) (go_on : machine -> bool) : X bool :=
  loop (fun _ : unit =>
    lodsb ;;; testb_al ;;;
    let! r := get in
    if zf r then ret (inr true) else
    search_in ct ;;;
    let! r := get in
    ret (if go_on r then inl tt else inr false)) tt.

Definition strspn (cs ct : Z) : X Z :=
  set_eax 0 ;;; set_ecx 0xffffffff ;;; set_esi cs ;;;
  cld ;;; measure ct ;;;
  let! _ := scan_string ct zf in
  let! r := get in
  ret (s32 (u32 (esi r - 1) - cs)).

Definition strcspn (cs ct : Z) : X Z :=
  set_eax 0 ;;; set_ecx 0xffffffff ;;; set_esi cs ;;;
  cld ;;; measure ct ;;;
  let! _ := scan_string ct nonzero in
  let! r := get in
  ret (s32 (u32 (esi r - 1) - cs)).

Definition strpbrk (cs ct : Z) : X Z :=
  set_eax 0 ;;; set_ecx 0xffffffff ;;; set_esi cs ;;;
  cld ;;; measure ct ;;;
  let! at_end := scan_string ct nonzero in
  let! r := get in
  ret (if at_end : bool then 0 else u32 (esi r - 1)).

(** 1: compare the pattern with the text from [esi] on; when they differ at the
    text's NUL, give up, else go on with the next position. *)
Definition strstr_round (ct : Z) (_ : unit) : X (unit + bool) :=
  set_edi ct ;;;
  modify (fun r => r <| eax := esi r |> <| ecx := edx r |>) ;;;
  repe cmpsb ;;;
  let! r := get in
  if zf r then ret (inr true) else
  modify (fun r => r <| eax := esi r |> <| esi := eax r |>) ;;;
  modify (fun r => r <| esi ::= fun x => u32 (x + 1) |>) ;;;
  modify (fun r => compare (bytes r (u32 (eax r - 1))) 0 r) ;;;
  let! r := get in
  ret (if negb (zf r) then inl tt else inr false).

Definition strstr (cs ct : Z) : X Z :=
  set_eax 0 ;;; set_ecx 0xffffffff ;;; set_esi cs ;;;
  cld ;;; measure ct ;;;
  let! found := loop (strstr_round ct) tt in
  when (negb found) (set_eax 0) ;;;
  let! r := get in
  ret (eax r).

Definition strlen (s : Z) : X Z :=
  set_edi s ;;; set_eax 0 ;;; set_ecx 0xffffffff ;;;
  cld ;;; repne scasb ;;; notl_ecx ;;; decl_ecx ;;;
  let! r := get in
  ret (s32 (ecx r)).

(** ** strtok *)

(** 2: the first byte that is no delimiter; whether there is one. *)
Definition skip_delimiters (ct : Z) : X bool :=
  let! at_end := scan_string ct zf in
  if at_end : bool then ret false else
  modify (fun r => r <| esi ::= fun x => u32 (x - 1) |>) ;;;
  let! r := get in
  ret (negb (bytes r (esi r) =? 0)).

(** 3: the end of the token, cut off with a NUL; [esi] is 0 when the string ends. *)
Definition cut_token (ct : Z) : X unit :=
  let! at_end := scan_string ct nonzero in
  if at_end : bool then set_esi 0 else
  modify (fun r => r <| esi ::= fun x => u32 (x - 1) |>) ;;;
  let! r := get in
  if bytes r (esi r) =? 0 then set_esi 0 else
  modify (fun r => r <| bytes := fun a => if a =? esi r then 0 else bytes r a |> <| esi := u32 (esi r + 1) |>).

(** 7: no token, no next string. *)
Definition no_token : X unit :=
  let! r := get in
  when (ebx r =? 0) (set_esi (ebx r)).

Definition strtok (s ct : Z) : X Z :=
  let! r := get in
  set_ebx (___strtok r) ;;; set_esi s ;;;
  let! r := get in
  (if (esi r =? 0) && (ebx r =? 0) then ret tt else
   when (esi r =? 0) (set_esi (ebx r)) ;;;
   set_ebx 0 ;;; set_ecx 0xffffffff ;;; set_eax 0 ;;;
   cld ;;;
   measure ct ;;;
   let! r := get in
   if zf r then no_token else
   let! some := skip_delimiters ct in
   if negb some then no_token else
   let! r := get in
   set_ebx (esi r) ;;;
   cut_token ct ;;;
   let! r := get in
   when (bytes r (ebx r) =? 0) (set_ebx 0) ;;;
   no_token) ;;;
  let! r := get in
  modify (fun r => r <| ___strtok := esi r |>) ;;;
  ret (ebx r).

(** ** Memory blocks *)

Definition memcpy (dest src n : Z) : X Z :=
  set_ecx (u32 n) ;;; set_esi src ;;; set_edi dest ;;;
  cld ;;; rep movsb ;;; ret dest.

Definition memmove (dest src n : Z) : X Z :=
  (if dest <? src then
     set_ecx (u32 n) ;;; set_esi src ;;; set_edi dest ;;;
     cld ;;; rep movsb
   else
     set_ecx (u32 n) ;;; set_esi (u32 (src + n - 1)) ;;; set_edi (u32 (dest + n - 1)) ;;;
     std ;;; rep movsb) ;;;
  ret dest.

Definition memcmp (cs ct count : Z) : X Z :=
  set_eax 0 ;;; set_edi cs ;;; set_esi ct ;;; set_ecx (u32 count) ;;;
  cld ;;; repe cmpsb ;;;
  let! r := get in
  if zf r then ret (eax r) else compared.

Definition memchr (cs c count : Z) : X Z :=
  if count =? 0 then ret 0 else
  set_eax (u32 c) ;;; set_edi cs ;;; set_ecx (u32 count) ;;;
  cld ;;; repne scasb ;;;
  let! r := get in
  when (negb (zf r)) (set_edi 1) ;;;
  let! r := get in
  ret (u32 (edi r - 1)).

Definition memset (s c count : Z) : X Z :=
  set_eax (u32 c) ;;; set_edi s ;;; set_ecx (u32 count) ;;;
  cld ;;; rep stosb ;;; ret s.
