(* ===== verification/StringProps.v ===== *)
(** * What the string routines compute

    [memmove] copies overlapping blocks in either direction, [strcmp] orders strings
    by their first difference, [strstr] finds the first occurrence. *)
From Stdlib Require Import ZArith Lia.
From stdpp Require Import base list.
From S2P Require Import Prelude Resumption Memory KState Runs CStrings StringH.

(** ** Repeated instructions *)

Section Repeat.
Context (c : machine -> bool) (instruction : X unit).

Definition counted (r : machine) : machine := r <| ecx ::= fun c => u32 (c - 1) |>.

Lemma repeat_none k n r : ecx r = 0 -> iterate (S k) (repeat_round c instruction) tt n r = Done tt r.
Proof. intros E. erewrite iterate_last; [reflexivity|]. unfold repeat_round. step (get_run n r). by rewrite E. Qed.

Lemma repeat_next k n r r' : ecx r <> 0 -> instruction n (counted r) = Done tt r' -> c r' = true ->
  iterate (S k) (repeat_round c instruction) tt n r = iterate k (repeat_round c instruction) tt n r'.
Proof.
  intros Hc E Hr. apply iterate_next. unfold repeat_round. step (get_run n r). destruct (Z.eqb_spec (ecx r) 0); [done|].
  step (modify_run (fun r => r <| ecx ::= fun c => u32 (c - 1) |>) n r). step E. step (get_run n r'). by rewrite Hr.
Qed.

Lemma repeat_last k n r r' : ecx r <> 0 -> instruction n (counted r) = Done tt r' -> c r' = false ->
  iterate (S k) (repeat_round c instruction) tt n r = Done tt r'.
Proof.
  intros Hc E Hr. apply iterate_last. unfold repeat_round. step (get_run n r). destruct (Z.eqb_spec (ecx r) 0); [done|].
  step (modify_run (fun r => r <| ecx ::= fun c => u32 (c - 1) |>) n r). step E. step (get_run n r'). by rewrite Hr.
Qed.
End Repeat.

(** ** Blocks *)

(** One round of [rep movsb]. *)
Definition moved (r : machine) : machine :=
  mkMachine (eax r) (ebx r) (u32 (ecx r - 1)) (edx r) (advance r (esi r)) (advance r (edi r)) (zf r) (sf r) (lf r) (df r)
    (fun a => if a =? edi r then bytes r (esi r) else bytes r a) (___strtok r).

Lemma movsb_counted n r : movsb n (counted r) = Done tt (moved r).
Proof. by destruct r. Qed.

(** The [c] bytes from [src] on are copied to [dest], and nothing else changes. *)
Definition block_moved (m m' : Z -> Z) (dest src c : Z) : Prop :=
  forall a, m' a = if (dest <=? a) && (a <? dest + c) then m (a - dest + src) else m a.

Lemma rep_movsb_up c : forall k n r, ecx r = Z.of_nat c -> df r = false ->
  0 <= esi r -> 0 <= edi r -> esi r + Z.of_nat c < 2 ^ 32 -> edi r + Z.of_nat c < 2 ^ 32 -> (c < k)%nat ->
  edi r <= esi r \/ esi r + Z.of_nat c <= edi r ->
  exists r', iterate k (repeat_round (fun _ => true) movsb) tt n r = Done tt r' /\
    block_moved (bytes r) (bytes r') (edi r) (esi r) (Z.of_nat c) /\ df r' = false.
Proof.
  induction c as [|c IH]; intros k n r Hc Hdf Hs Hd Hs' Hd' Hk Hdir; (destruct k as [|k]; [lia|]).
  - exists r. split; [by apply repeat_none|]. split; [|done]. intros a.
    destruct (Z.leb_spec (edi r) a), (Z.ltb_spec a (edi r + Z.of_nat 0)); try done. lia.
  - rewrite (repeat_next _ _ k n r (moved r)); [|lia|apply movsb_counted|done].
    assert (Hadv : forall x, 0 <= x -> x + 1 < 2 ^ 32 -> advance r x = x + 1).
    { intros x Hx Hx'. unfold advance. rewrite Hdf. by rewrite u32_small by lia. }
    assert (Ec : ecx (moved r) = Z.of_nat c) by (unfold moved; cbn [ecx]; rewrite Hc, u32_small; lia).
    assert (Es : esi (moved r) = esi r + 1) by (apply Hadv; lia). assert (Ed : edi (moved r) = edi r + 1) by (apply Hadv; lia).
    destruct (IH k n (moved r) Ec Hdf) as (r' & E & Hm & Hdf'); rewrite ?Es, ?Ed in *; try lia.
    exists r'. split; [exact E|]. split; [|done]. intros a. rewrite Hm. unfold moved. cbn [bytes].
    destruct (Z.leb_spec (edi r + 1) a), (Z.ltb_spec a (edi r + 1 + Z.of_nat c)), (Z.leb_spec (edi r) a), (Z.ltb_spec a (edi r + Z.of_nat (S c)));
      try lia; cbn [andb]; cbv beta.
    + destruct (Z.eqb_spec (a - (edi r + 1) + (esi r + 1)) (edi r)); [lia|]. f_equal. lia.
    + destruct (Z.eqb_spec a (edi r)); [lia|done].
    + destruct (Z.eqb_spec a (edi r)) as [->|]; [|lia]. f_equal. lia.
    + destruct (Z.eqb_spec a (edi r)); [lia|done].
Qed.

Lemma rep_movsb_down c : forall k n r, ecx r = Z.of_nat c -> df r = true ->
  Z.of_nat c <= esi r < 2 ^ 32 -> Z.of_nat c <= edi r < 2 ^ 32 -> (c < k)%nat -> esi r <= edi r ->
  exists r', iterate k (repeat_round (fun _ => true) movsb) tt n r = Done tt r' /\
    block_moved (bytes r) (bytes r') (edi r + 1 - Z.of_nat c) (esi r + 1 - Z.of_nat c) (Z.of_nat c) /\ df r' = true.
Proof.
  induction c as [|c IH]; intros k n r Hc Hdf Hs Hd Hk Hdir; (destruct k as [|k]; [lia|]).
  - exists r. split; [by apply repeat_none|]. split; [|done]. intros a.
    destruct (Z.leb_spec (edi r + 1 - Z.of_nat 0) a), (Z.ltb_spec a (edi r + 1 - Z.of_nat 0 + Z.of_nat 0)); try done. lia.
  - rewrite (repeat_next _ _ k n r (moved r)); [|lia|apply movsb_counted|done].
    assert (Hadv : forall x, 0 < x < 2 ^ 32 -> advance r x = x - 1).
    { intros x Hx. unfold advance. rewrite Hdf. by rewrite u32_small by lia. }
    assert (Ec : ecx (moved r) = Z.of_nat c) by (unfold moved; cbn [ecx]; rewrite Hc, u32_small; lia).
    assert (Es : esi (moved r) = esi r - 1) by (apply Hadv; lia). assert (Ed : edi (moved r) = edi r - 1) by (apply Hadv; lia).
    destruct (IH k n (moved r) Ec Hdf) as (r' & E & Hm & Hdf'); rewrite ?Es, ?Ed in *; try lia.
    exists r'. split; [exact E|]. split; [|done]. intros a. rewrite Hm. unfold moved. cbn [bytes].
    replace (edi r - 1 + 1 - Z.of_nat c) with (edi r + 1 - Z.of_nat (S c)) by lia.
    replace (esi r - 1 + 1 - Z.of_nat c) with (esi r + 1 - Z.of_nat (S c)) by lia. set (d := edi r + 1 - Z.of_nat (S c)).
    destruct (Z.leb_spec d a), (Z.ltb_spec a (d + Z.of_nat c)), (Z.ltb_spec a (d + Z.of_nat (S c))); subst d; try lia; cbn [andb]; cbv beta.
    + destruct (Z.eqb_spec (a - (edi r + 1 - Z.of_nat (S c)) + (esi r + 1 - Z.of_nat (S c))) (edi r)); [lia|done].
    + destruct (Z.eqb_spec a (edi r)) as [->|]; [|lia]. f_equal. lia.
    + destruct (Z.eqb_spec a (edi r)); [lia|done].
    + destruct (Z.eqb_spec a (edi r)); [lia|done].
Qed.

(** C35. [memmove] copies a block of bytes whichever way source and destination
    overlap: afterwards the destination holds what the source held before, and no
    other byte has changed. *)
Theorem memmove_overlap (dest src c : Z) (n : nat) (r : machine) :
  0 < src -> 0 < dest -> 0 <= c < 2 ^ 31 -> src + c < 2 ^ 32 -> dest + c < 2 ^ 32 -> c < Z.of_nat n ->
  exists r', memmove dest src c n r = Done dest r' /\ block_moved (bytes r) (bytes r') dest src c.
Proof.
  intros Hs Hd Hc Hs' Hd' Hn. unfold memmove. destruct (Z.ltb_spec dest src) as [Hlt|Hge].
  - set (r1 := mkMachine (eax r) (ebx r) (u32 c) (edx r) src dest (zf r) (sf r) (lf r) false (bytes r) (___strtok r)).
    assert (Ec : ecx r1 = Z.of_nat (Z.to_nat c)) by (cbn [ecx r1]; rewrite u32_small; lia).
    destruct (rep_movsb_up (Z.to_nat c) n n r1 Ec eq_refl) as (r' & E & Hm & _); cbn [esi edi r1]; try lia.
    exists r'. rewrite Z2Nat.id in Hm by lia. split; [|exact Hm]. erewrite bind_run; [reflexivity|]. destruct r. exact E.
  - set (r1 := mkMachine (eax r) (ebx r) (u32 c) (edx r) (u32 (src + c - 1)) (u32 (dest + c - 1)) (zf r) (sf r) (lf r) true (bytes r) (___strtok r)).
    destruct (Z.eq_dec c 0) as [->|Hc0].
    { exists r1. split; [|intros a; destruct (Z.leb_spec dest a), (Z.ltb_spec a (dest + 0)); [lia|done..]].
      erewrite bind_run; [reflexivity|]. destruct n as [|n]; [lia|]. destruct r. exact (repeat_none _ _ n (S n) r1 eq_refl). }
    assert (Ec : ecx r1 = Z.of_nat (Z.to_nat c)) by (cbn [ecx r1]; rewrite u32_small; lia).
    assert (Es : esi r1 = src + c - 1) by (apply u32_small; lia). assert (Ed : edi r1 = dest + c - 1) by (apply u32_small; lia).
    destruct (rep_movsb_down (Z.to_nat c) n n r1 Ec eq_refl) as (r' & E & Hm & _); rewrite ?Es, ?Ed in *; try lia.
    exists r'. split; [erewrite bind_run; [reflexivity|]; destruct r; exact E|].
    rewrite Z2Nat.id in Hm by lia. by replace (dest + c - 1 + 1 - c) with dest in Hm by lia; replace (src + c - 1 + 1 - c) with src in Hm by lia.
Qed.

(** ** Comparing and searching *)

Definition byte_memory (m : Z -> Z) : Prop := forall a, 0 <= m a < 256.

Lemma byte_memory_list l : Forall (fun c => 0 <= c < 256) l -> byte_memory (byte_at l).
Proof.
  intros H a. unfold byte_at, arr_get. destruct (a <? 0); [simpl; lia|]. destruct (l !! Z.to_nat a) eqn:E; simpl; [|lia].
  rewrite Forall_forall in H. apply H. by eapply list_elem_of_lookup_2.
Qed.

Lemma advance_up r x : df r = false -> 0 <= x -> x + 1 < 2 ^ 32 -> advance r x = x + 1.
Proof. intros Hdf Hx Hx'. unfold advance. rewrite Hdf. by rewrite u32_small by lia. Qed.

Lemma al_with_al v r : 0 <= v < 256 -> al (with_al v r) = v.
Proof.
  intros Hv. destruct r as [a ? ? ? ? ? ? ? ? ? ? ?]. unfold al, with_al. cbn. unfold u8. rewrite (Z.mod_small v) by lia.
  Z.to_euclidean_division_equations; lia.
Qed.

Lemma lodsb_run n r : lodsb n r = Done tt (with_al (bytes r (esi r)) r <| esi := advance r (esi r) |>).
Proof. done. Qed.
Lemma scasb_run n r : scasb n r = Done tt (compare (al r) (bytes r (edi r)) r <| edi := advance r (edi r) |>).
Proof. done. Qed.
Lemma testb_al_run n r : testb_al n r = Done tt (r <| zf := al r =? 0 |>).
Proof. done. Qed.

(** The order of two strings: by their first difference, as signed bytes. *)
Definition byte_order (x y : Z) : Z := if s8 y <? s8 x then 1 else -1.
Fixpoint str_order (a b : list Z) : Z :=
  match a, b with
  | [], [] => 0
  | x :: a, y :: b => if x =? y then str_order a b else byte_order x y
  | x :: _, [] => byte_order x 0
  | [], y :: _ => byte_order 0 y
  end.

Lemma str_order_equal a : forall b, no_nul a -> no_nul b -> str_order a b = 0 <-> a = b.
Proof.
  induction a as [|x a IH]; intros [|y b] Ha Hb; cbn [str_order].
  - done.
  - apply Forall_cons in Hb as [Hy _]. unfold byte_order. split; [destruct (_ <? _); done|done].
  - unfold byte_order. split; [destruct (_ <? _); done|done].
  - apply Forall_cons in Ha as [_ Ha]. apply Forall_cons in Hb as [_ Hb]. destruct (Z.eqb_spec x y) as [->|Hne].
    + rewrite IH by done. split; congruence.
    + split; [unfold byte_order; destruct (_ <? _); done|congruence].
Qed.

Definition loaded_pair (r : machine) : machine :=
  let x := bytes r (esi r) in let y := bytes r (edi r) in
  mkMachine (eax r - eax r mod 256 + u8 x) (ebx r) (ecx r) (edx r) (advance r (esi r)) (advance r (edi r))
    (x =? y) (sf r) (s8 x <? s8 y) (df r) (bytes r) (___strtok r).

Lemma strcmp_round_run n r : byte_memory (bytes r) ->
  strcmp_round tt n r =
    let r' := loaded_pair r in
    if bytes r (esi r) =? bytes r (edi r) then
      let r2 := r' <| zf := bytes r (esi r) =? 0 |> in
      Done (if bytes r (esi r) =? 0 then inr true else inl tt) r2
    else Done (inr false) r'.
Proof.
  intros Hb. pose proof (al_with_al (bytes r (esi r)) r (Hb _)) as Hal. unfold strcmp_round.
  step (lodsb_run n r).
  set (r1 := with_al _ r <| esi := _ |>). assert (Hal1 : al r1 = bytes r (esi r)) by exact Hal.
  step (scasb_run n r1).
  rewrite Hal1. change (bytes r1 (edi r1)) with (bytes r (edi r)). change (advance r1 (edi r1)) with (advance r (edi r)).
  set (r2 := compare _ _ r1 <| edi := _ |>). assert (Hal2 : al r2 = bytes r (esi r)) by exact Hal.
  step (get_run n r2). change (zf r2) with (bytes r (esi r) =? bytes r (edi r)).
  assert (E2 : r2 = loaded_pair r) by (subst r2 r1; unfold loaded_pair; by destruct r).
  destruct (Z.eqb_spec (bytes r (esi r)) (bytes r (edi r))) as [E|E]; cbn [negb]; [|cbv zeta; by rewrite E2].
  step (testb_al_run n r2). rewrite Hal2. set (r3 := r2 <| zf := _ |>). step (get_run n r3).
  change (zf r3) with (bytes r (esi r) =? 0). subst r3. rewrite E2. cbv zeta. by destruct (bytes r (esi r) =? 0).
Qed.

Lemma strcmp_loop a : forall b k n r, byte_memory (bytes r) -> df r = false ->
  str_at (bytes r) (edi r) a -> str_at (bytes r) (esi r) b -> no_nul a -> no_nul b ->
  0 <= edi r -> 0 <= esi r -> edi r + Z.of_nat (length a) + 1 < 2 ^ 32 -> esi r + Z.of_nat (length b) + 1 < 2 ^ 32 ->
  (length a < k)%nat ->
  exists r' equal, iterate k strcmp_round tt n r = Done equal r' /\ bytes r' = bytes r /\
    str_order a b = if equal : bool then 0 else if lf r' then 1 else -1.
Proof.
  induction a as [|x a IH]; intros [|y b] k n r Hok Hdf Hs Ht Ha Hb Hd Hi Hd' Hi' Hk; (destruct k as [|k]; [simpl in Hk; lia|]);
    rewrite ?str_at_cons, ?str_at_nil in *; pose proof (strcmp_round_run n r Hok) as E; cbn [length] in *.
  - rewrite Hs, Ht in E. eexists _, true. split; [apply iterate_last; exact E|]. done.
  - destruct Ht as [Hy Ht]. rewrite Hs, Hy in E. apply Forall_cons in Hb as [Hy0 _]. destruct (Z.eqb_spec y 0) as [|_]; [done|].
    eexists _, false. split; [apply iterate_last; exact E|]. unfold loaded_pair. cbn [lf bytes str_order]. by rewrite Hs, Hy.
  - destruct Hs as [Hx Hs]. rewrite Hx, Ht in E. apply Forall_cons in Ha as [Hx0 _]. destruct (Z.eqb_spec 0 x) as [|_]; [congruence|].
    eexists _, false. split; [apply iterate_last; exact E|]. unfold loaded_pair. cbn [lf bytes str_order]. by rewrite Hx, Ht.
  - destruct Hs as [Hx Hs], Ht as [Hy Ht]. rewrite Hx, Hy in E. apply Forall_cons in Ha as [Hx0 Ha]. apply Forall_cons in Hb as [Hy0 Hb].
    cbn [str_order]. rewrite (Z.eqb_sym x y). destruct (Z.eqb_spec y x) as [->|Hne].
    + destruct (Z.eqb_spec x 0) as [|_]; [done|]. cbv zeta in E. set (r2 := (loaded_pair r) <| zf := false |>) in E.
      assert (Ed : edi r2 = edi r + 1) by (apply advance_up; [done|lia|lia]).
      assert (Es : esi r2 = esi r + 1) by (apply advance_up; [done|lia|lia]).
      destruct (IH b k n r2) as (r' & equal & E' & Hm & Ho); rewrite ?Ed, ?Es; try done; try lia.
      exists r', equal. split; [rewrite (iterate_next _ _ _ _ _ _ _ E); exact E'|]. done.
    + eexists _, false. split; [apply iterate_last; exact E|]. unfold loaded_pair. cbn [lf bytes]. by rewrite Hx, Hy.
Qed.

(** [strcmp] is the lexicographic order of the strings, byte by byte as the
    signed numbers the instructions compare: 0 for equal strings and only for those,
    1 when the first string is the greater one at the first difference, else -1; it
    writes nothing. *)
Theorem strcmp_orders (cs ct : Z) (a b : list Z) (n : nat) (r : machine) :
  byte_memory (bytes r) -> str_at (bytes r) cs a -> str_at (bytes r) ct b -> no_nul a -> no_nul b ->
  0 <= cs -> 0 <= ct -> cs + Z.of_nat (length a) + 1 < 2 ^ 32 -> ct + Z.of_nat (length b) + 1 < 2 ^ 32 -> (length a < n)%nat ->
  exists v r', strcmp cs ct n r = Done v r' /\ bytes r' = bytes r /\ v = str_order a b /\ (v = 0 <-> a = b).
Proof.
  intros Hok Ha Hb Na Nb Hcs Hct Hcs' Hct' Hn.
  set (r1 := mkMachine (eax r) (ebx r) (ecx r) (edx r) ct cs (zf r) (sf r) (lf r) false (bytes r) (___strtok r)).
  destruct (strcmp_loop a b n n r1 Hok eq_refl Ha Hb Na Nb Hcs Hct Hcs' Hct' Hn) as (r' & equal & E & Hm & Ho).
  exists (str_order a b), r'. split; [|split; [exact Hm|split; [done|by apply str_order_equal]]].
  assert (E1 : strcmp cs ct n r = (let! equal := loop strcmp_round tt in if equal : bool then ret 0 else compared) n r1) by by destruct r.
  rewrite E1. rewrite (bind_run (loop strcmp_round tt) _ n r1 equal r' E). rewrite Ho. destruct equal; [done|]. unfold compared. by step (get_run n r').
Qed.

(** "dir/a" comes before a string with a byte above 127 only in unsigned order. *)
Definition two_strings : machine :=
  mkMachine 0 0 0 0 0 0 false false false true (byte_at [97; 233; 0; 97; 98; 0]) 0.

Lemma strcmp_orders_witness :
  exists v r', strcmp 0 3 9%nat two_strings = Done v r' /\ bytes r' = bytes two_strings /\ v = str_order [97; 233] [97; 98] /\
    (v = 0 <-> [97; 233] = [97; 98]).
Proof.
  apply (strcmp_orders 0 3 [97; 233] [97; 98] 9%nat two_strings).
  all: try (cbn; lia).
  - apply byte_memory_list. repeat (apply List.Forall_cons; [lia|]). apply List.Forall_nil.
  - intros i c Hi. do 3 (destruct i as [|i]; [by injection Hi as <-|]). done.
  - intros i c Hi. do 3 (destruct i as [|i]; [by injection Hi as <-|]). done.
  - repeat (apply List.Forall_cons; [lia|]). apply List.Forall_nil.
  - repeat (apply List.Forall_cons; [lia|]). apply List.Forall_nil.
Defined.

Definition overlapping : machine :=
  mkMachine 0 0 0 0 0 0 false false false false (byte_at [0; 1; 2; 3; 4; 5; 6; 7]) 0.
Lemma memmove_overlap_witness :
  (exists r', memmove 3 1 4 9%nat overlapping = Done 3 r' /\ block_moved (bytes overlapping) (bytes r') 3 1 4) /\
  match memmove 3 1 4 9%nat overlapping with Done _ r' => map (bytes r') (zrange 0 8) = [0; 1; 2; 1; 2; 3; 4; 7] | _ => False end.
Proof. split; [apply (memmove_overlap 3 1 4 9%nat overlapping); lia|vm_compute; reflexivity]. Defined.

(** ** strstr *)

Lemma cmpsb_counted n r : cmpsb n (counted r) =
  Done tt (mkMachine (eax r) (ebx r) (u32 (ecx r - 1)) (edx r) (advance r (esi r)) (advance r (edi r))
    (bytes r (esi r) =? bytes r (edi r)) (sf r) (s8 (bytes r (esi r)) <? s8 (bytes r (edi r))) (df r) (bytes r) (___strtok r)).
Proof. by destruct r. Qed.

(** What the instructions of the routine leave alone. *)
Definition same_rest (r r' : machine) : Prop :=
  eax r' = eax r /\ edx r' = edx r /\ df r' = df r /\ bytes r' = bytes r.

(** [repe cmpsb] of the pattern [b] with the text [t]. *)
Lemma repe_cmpsb_run b : forall t k n r, ecx r = Z.of_nat (length b) -> (b = [] -> zf r = true) -> df r = false ->
  str_at (bytes r) (esi r) t -> bytes_at (bytes r) (edi r) b -> no_nul t -> no_nul b ->
  0 <= esi r -> 0 <= edi r -> esi r + Z.of_nat (length t) + 1 < 2 ^ 32 -> edi r + Z.of_nat (length b) + 1 < 2 ^ 32 -> (length b < k)%nat ->
  exists r', iterate k (repeat_round zf cmpsb) tt n r = Done tt r' /\ same_rest r r' /\
    (b `prefix_of` t /\ zf r' = true \/
     ~ b `prefix_of` t /\ zf r' = false /\ exists i, (i <= length t)%nat /\ esi r' = esi r + Z.of_nat i + 1 /\ (i = length t -> length t < length b)%nat).
Proof.
  induction b as [|y b IH]; intros t k n r Hc Hz Hdf Ht Hb Nt Nb Hs Hd Hs' Hd' Hk; (destruct k as [|k]; [simpl in Hk; lia|]); cbn [length] in *.
  - exists r. split; [by apply repeat_none|]. split; [done|]. left. split; [apply prefix_nil|by apply Hz].
  - assert (Hy : bytes r (edi r) = y) by (rewrite <- (Hb 0%nat y eq_refl); f_equal; lia).
    apply Forall_cons in Nb as [Ny Nb]. pose proof (cmpsb_counted n r) as E. rewrite Hy in E. set (r1 := mkMachine _ _ _ _ _ _ _ _ _ _ _ _) in E.
    assert (Es : esi r1 = esi r + 1) by (apply advance_up; [done|lia|lia]). assert (Ed : edi r1 = edi r + 1) by (apply advance_up; [done|lia|lia]).
    assert (Hne : bytes r (esi r) <> y -> exists r', iterate (S k) (repeat_round zf cmpsb) tt n r = Done tt r' /\ same_rest r r' /\
      zf r' = false /\ esi r' = esi r + Z.of_nat 0 + 1).
    { intros Hxy. exists r1. assert (Hz1 : zf r1 = false) by by apply Z.eqb_neq. split; [apply (repeat_last _ _ k n r r1); [lia|exact E|exact Hz1]|].
      split; [done|]. split; [done|lia]. }
    destruct t as [|x t].
    + apply str_at_nil in Ht. destruct Hne as (r' & E' & Hr & Hz' & Hi); [congruence|]. exists r'. split; [done|]. split; [done|].
      right. split; [apply prefix_nil_not|]. split; [done|]. exists 0%nat. simpl. split; [lia|]. split; [lia|lia].
    + apply str_at_cons in Ht as [Hx Ht]. apply Forall_cons in Nt as [Nx Nt]. destruct (Z.eq_dec x y) as [->|Hxy].
      * assert (Hz1 : zf r1 = true) by (apply Z.eqb_eq; congruence).
        assert (Ec : ecx r1 = Z.of_nat (length b)) by (change (ecx r1) with (u32 (ecx r - 1)); rewrite Hc, u32_small; lia).
        destruct (IH t k n r1) as (r' & E' & Hr & H'); rewrite ?Es, ?Ed; try done; try lia.
        { intros i c Hi. rewrite <- (Hb (S i) c Hi). change (bytes r1) with (bytes r). f_equal. lia. }
        { simpl in Hs'. lia. }
        cbn [length] in *. exists r'. split; [rewrite (repeat_next _ _ k n r r1); [exact E'|lia|exact E|exact Hz1]|]. split; [exact Hr|].
        destruct H' as [[Hp Hz']|(Hp & Hz' & i & Hi & Hsi & Hlen)]; [left; split; [by apply prefix_cons|done]|right].
        split; [intros Hq; apply Hp; by eapply prefix_cons_inv_2|]. split; [done|]. exists (S i). split; [simpl in *; lia|]. split; [lia|]. simpl in *. lia.
      * destruct Hne as (r' & E' & Hr & Hz' & Hi); [congruence|]. exists r'. split; [done|]. split; [done|].
        right. split; [intros Hq; by apply prefix_cons_inv_1 in Hq|]. split; [done|]. exists 0%nat. simpl. split; [lia|]. split; [lia|lia].
Qed.

(** [repne scasb] for the NUL of a string. *)
Lemma scasb_counted n r : scasb n (counted r) =
  Done tt (mkMachine (eax r) (ebx r) (u32 (ecx r - 1)) (edx r) (esi r) (advance r (edi r))
    (al r =? bytes r (edi r)) (sf r) (s8 (al r) <? s8 (bytes r (edi r))) (df r) (bytes r) (___strtok r)).
Proof. by destruct r. Qed.

Lemma repne_scasb_nul l : forall k n r, al r = 0 -> df r = false -> str_at (bytes r) (edi r) l -> no_nul l ->
  Z.of_nat (length l) < ecx r < 2 ^ 32 -> 0 <= edi r -> edi r + Z.of_nat (length l) + 1 < 2 ^ 32 -> (length l < k)%nat ->
  exists r', iterate k (repeat_round nonzero scasb) tt n r = Done tt r' /\ same_rest r r' /\ esi r' = esi r /\
    ecx r' = ecx r - Z.of_nat (length l) - 1.
Proof.
  induction l as [|x l IH]; intros k n r Hal Hdf Hs Nl Hc Hd Hd' Hk; (destruct k as [|k]; [simpl in Hk; lia|]); cbn [length] in *.
  - apply str_at_nil in Hs. pose proof (scasb_counted n r) as E. rewrite Hal, Hs in E. set (r1 := mkMachine _ _ _ _ _ _ _ _ _ _ _ _) in E.
    exists r1. split; [apply (repeat_last _ _ k n r r1); [lia|exact E|done]|]. split; [done|]. split; [done|].
    change (ecx r1) with (u32 (ecx r - 1)). rewrite u32_small; lia.
  - apply str_at_cons in Hs as [Hx Hs]. apply Forall_cons in Nl as [Nx Nl]. pose proof (scasb_counted n r) as E. rewrite Hal, Hx in E.
    set (r1 := mkMachine _ _ _ _ _ _ _ _ _ _ _ _) in E. assert (Ed : edi r1 = edi r + 1) by (apply advance_up; [done|lia|lia]).
    assert (Ec : ecx r1 = ecx r - 1) by (change (ecx r1) with (u32 (ecx r - 1)); rewrite u32_small; lia).
    assert (Hz1 : nonzero r1 = true) by (unfold nonzero; change (zf r1) with (0 =? x); by destruct (Z.eqb_spec 0 x); [congruence|]).
    destruct (IH k n r1) as (r' & E' & Hr & Hsi & Hc'); rewrite ?Ed, ?Ec; try done; try lia.
    exists r'. split; [rewrite (repeat_next _ _ k n r r1); [exact E'|lia|exact E|exact Hz1]|]. split; [exact Hr|]. split; [exact Hsi|lia].
Qed.

(** One round: the pattern is at [esi], or the text ends, or on with the next byte. *)
Lemma strstr_round_run b t ct n r : edx r = Z.of_nat (length b) -> (b = [] -> zf r = true) -> df r = false ->
  str_at (bytes r) (esi r) t -> bytes_at (bytes r) ct b -> no_nul t -> no_nul b ->
  0 <= esi r -> 0 <= ct -> esi r + Z.of_nat (length t) + 1 < 2 ^ 32 -> ct + Z.of_nat (length b) + 1 < 2 ^ 32 -> (length b < n)%nat ->
  exists r', bytes r' = bytes r /\ df r' = false /\ edx r' = edx r /\
    (strstr_round ct tt n r = Done (inr true) r' /\ b `prefix_of` t /\ eax r' = esi r \/
     strstr_round ct tt n r = Done (inr false) r' /\ ~ b `prefix_of` t /\ (length t < length b)%nat \/
     strstr_round ct tt n r = Done (inl tt) r' /\ ~ b `prefix_of` t /\ t <> [] /\ esi r' = esi r + 1).
Proof.
  intros Hdx Hz Hdf Ht Hb Nt Nb Hs Hct Hs' Hct' Hn.
  set (r1 := mkMachine (esi r) (ebx r) (edx r) (edx r) (esi r) ct (zf r) (sf r) (lf r) (df r) (bytes r) (___strtok r)).
  destruct (repe_cmpsb_run b t n n r1 Hdx Hz Hdf Ht Hb Nt Nb Hs Hct Hs' Hct' Hn) as (r2 & E & (Ha & Hd2 & Hf2 & Hm2) & H).
  assert (E1 : strstr_round ct tt n r = (repe cmpsb ;;;
    let! r := get in
    if zf r then ret (inr true) else
    modify (fun r => r <| eax := esi r |> <| esi := eax r |>) ;;;
    modify (fun r => r <| esi ::= fun x => u32 (x + 1) |>) ;;;
    modify (fun r => compare (bytes r (u32 (eax r - 1))) 0 r) ;;;
    let! r := get in
    ret (if negb (zf r) then inl tt else inr false)) n r1) by by destruct r.
  rewrite (bind_run (repe cmpsb) _ n r1 tt r2 E) in E1. cbv beta in E1. rewrite (bind_run _ _ _ _ _ _ (get_run n r2)) in E1. cbv beta in E1.
  destruct H as [[Hp Hz2]|(Hp & Hz2 & i & Hi & Hsi & Hlen)]; rewrite Hz2 in E1.
  - exists r2. split; [exact Hm2|]. split; [exact (eq_trans Hf2 Hdf)|]. split; [exact Hd2|]. left. split; [exact E1|]. split; [exact Hp|exact Ha].
  - set (r3 := mkMachine (esi r2) (ebx r2) (ecx r2) (edx r2) (u32 (esi r + 1)) (edi r2) (bytes r (esi r + Z.of_nat i) =? 0) (sf r2)
      (s8 (bytes r (esi r + Z.of_nat i)) <? s8 0) (df r2) (bytes r2) (___strtok r2)).
    change (esi r1) with (esi r) in Hsi.
    assert (E3 : strstr_round ct tt n r = Done (if negb (zf r3) then inl tt else inr false) r3).
    { rewrite E1. unfold r3. destruct r2 as [xa ? ? ? xi ? ? ? ? ? xm ?]. cbn in *. unfold compare. cbn. subst xa xm.
      rewrite Hsi. replace (u32 (esi r + Z.of_nat i + 1 - 1)) with (esi r + Z.of_nat i) by (rewrite u32_small; lia). done. }
    exists r3. split; [exact Hm2|]. split; [exact (eq_trans Hf2 Hdf)|]. split; [exact Hd2|]. right.
    change (zf r3) with (bytes r (esi r + Z.of_nat i) =? 0) in E3.
    destruct (decide (i = length t)) as [Hit|Hit].
    + left. split; [|by auto]. rewrite E3. by rewrite (Ht i 0) by (rewrite Hit; by apply list_lookup_middle).
    + right. destruct (lookup_lt_is_Some_2 t i ltac:(lia)) as [x Hx].
      assert (Hx0 : x <> 0) by (pose proof (proj1 (Forall_forall _ _) Nt x); apply H; by eapply list_elem_of_lookup_2).
      split; [rewrite E3; rewrite (Ht i x) by (by apply lookup_app_l_Some); by destruct (Z.eqb_spec x 0)|]. split; [done|].
      split; [intros ->; done|]. apply u32_small. lia.
Qed.

Lemma strstr_loop b ct t : forall k n r, edx r = Z.of_nat (length b) -> (b = [] -> zf r = true) -> df r = false ->
  str_at (bytes r) (esi r) t -> bytes_at (bytes r) ct b -> no_nul t -> no_nul b ->
  0 <= esi r -> 0 <= ct -> esi r + Z.of_nat (length t) + 1 < 2 ^ 32 -> ct + Z.of_nat (length b) + 1 < 2 ^ 32 ->
  (length b < n)%nat -> (length t < k)%nat ->
  exists found r', iterate k (strstr_round ct) tt n r = Done found r' /\ bytes r' = bytes r /\
    (found = true /\ (exists j, (j <= length t)%nat /\ eax r' = esi r + Z.of_nat j /\ b `prefix_of` drop j t /\
       forall i, (i < j)%nat -> ~ b `prefix_of` drop i t) \/
     found = false /\ forall j, ~ b `prefix_of` drop j t).
Proof.
  induction t as [|x t IH]; intros k n r Hdx Hz Hdf Ht Hb Nt Nb Hs Hct Hs' Hct' Hn Hk; (destruct k as [|k]; [simpl in Hk; lia|]).
  all: destruct (strstr_round_run b _ ct n r Hdx Hz Hdf Ht Hb Nt Nb Hs Hct Hs' Hct' Hn) as (r1 & Hm & Hf & Hd & [(E & Hp & Ha)|[(E & Hp & Hl)|(E & Hp & Hne & Hsi)]]);
    [exists true, r1; split; [by apply iterate_last|]; split; [done|]; left; split; [done|]; exists 0%nat; rewrite drop_0; (split; [lia|]); (split; [lia|]); (split; [done|]); intros i Hi; lia|
     exists false, r1; split; [by apply iterate_last|]; split; [done|]; right; split; [done|]; intros j Hj; apply prefix_length in Hj; rewrite length_drop in Hj; lia|].
  - done.
  - apply str_at_cons in Ht as [_ Ht]. apply Forall_cons in Nt as [_ Nt]. cbn [length] in *.
    assert (Hbn : b <> []) by (intros ->; apply Hp, prefix_nil).
    destruct (IH k n r1) as (found & r' & E' & Hm' & H); rewrite ?Hm, ?Hsi, ?Hd; try done; try lia.
    exists found, r'. split; [by rewrite (iterate_next _ _ _ _ _ _ _ E)|]. split; [congruence|].
    destruct H as [[-> (j & Hj & Ha & Hpj & Hmin)]|[-> Hno]].
    + left. split; [done|]. exists (S j). split; [lia|]. split; [lia|]. split; [done|]. intros [|i] Hi; [done|]. apply Hmin. lia.
    + right. split; [done|]. intros [|j]; [done|]. apply Hno.
Qed.

Lemma notl_small x : 0 <= x < 2 ^ 32 -> u32 (Z.lnot x) = 2 ^ 32 - 1 - x.
Proof. intros Hx. unfold u32, Z.lnot. change 4294967296 with (2 ^ 32). Z.to_euclidean_division_equations; lia. Qed.

(** [measure] leaves the length in [edx], and the zero flag says whether it is 0. *)
Lemma measure_run ct b n r : al r = 0 -> ecx r = 0xffffffff -> df r = false -> str_at (bytes r) ct b -> no_nul b ->
  0 <= ct -> ct + Z.of_nat (length b) + 1 < 2 ^ 32 -> (length b < n)%nat ->
  exists r', measure ct n r = Done tt r' /\ eax r' = eax r /\ df r' = false /\ bytes r' = bytes r /\ esi r' = esi r /\
    edx r' = Z.of_nat (length b) /\ zf r' = (Z.of_nat (length b) =? 0).
Proof.
  intros Hal Hc Hdf Hb Nb Hct Hct' Hn.
  set (r1 := mkMachine (eax r) (ebx r) (ecx r) (edx r) (esi r) ct (zf r) (sf r) (lf r) (df r) (bytes r) (___strtok r)).
  destruct (repne_scasb_nul b n n r1) as (r2 & E & (Ha & Hd & Hf & Hm) & Hs & Hc2); try done; try (cbn [ecx edi r1]; lia).
  assert (Hcx : ecx r2 = 0xffffffff - Z.of_nat (length b) - 1) by (rewrite Hc2; change (ecx r1) with (ecx r); lia).
  assert (En : u32 (Z.lnot (ecx r2)) = Z.of_nat (length b) + 1) by (rewrite notl_small; lia).
  assert (Ed : u32 (u32 (Z.lnot (ecx r2)) - 1) = Z.of_nat (length b)) by (rewrite En, u32_small; lia).
  set (c := Z.of_nat (length b)) in *.
  assert (E0 : measure ct n r = (repne scasb ;;; notl_ecx ;;; decl_ecx ;;; let! r := get in set_edx (ecx r)) n r1) by by destruct r.
  rewrite E0. rewrite (bind_run (repne scasb) _ n r1 tt r2 E). cbv beta.
  eexists. split; [reflexivity|]. destruct r2 as [? ? xc ? xs ? ? ? ? xf xm ?]. cbn in *. rewrite Ed. subst xm.
  split; [exact Ha|]. split; [by rewrite Hf|]. split; [done|]. split; [exact Hs|]. split; [done|].
  done.
Qed.

(** C34. [strstr] returns the address of the first occurrence of the pattern in the
    text, which is the text itself for the empty pattern, or NULL exactly when it
    occurs nowhere; it writes nothing. *)
Theorem strstr_finds_first (cs ct : Z) (t b : list Z) (n : nat) (r : machine) :
  str_at (bytes r) cs t -> str_at (bytes r) ct b -> no_nul t -> no_nul b -> 0 <= cs -> 0 <= ct ->
  cs + Z.of_nat (length t) + 1 < 2 ^ 32 -> ct + Z.of_nat (length b) + 1 < 2 ^ 32 -> (length b < n)%nat -> (length t < n)%nat ->
  exists v r', strstr cs ct n r = Done v r' /\ bytes r' = bytes r /\
    ((exists j, (j <= length t)%nat /\ v = cs + Z.of_nat j /\ b `prefix_of` drop j t /\ forall i, (i < j)%nat -> ~ b `prefix_of` drop i t) \/
     v = 0 /\ forall j, ~ b `prefix_of` drop j t).
Proof.
  intros Ht Hb Nt Nb Hcs Hct Hcs' Hct' Hn Hn'.
  set (r1 := mkMachine 0 (ebx r) 0xffffffff (edx r) cs (edi r) (zf r) (sf r) (lf r) false (bytes r) (___strtok r)).
  destruct (measure_run ct b n r1 eq_refl eq_refl eq_refl Hb Nb Hct Hct' Hn) as (r2 & E & Ha & Hf & Hm & Hs & Hd & Hz).
  assert (E0 : strstr cs ct n r = (measure ct ;;; let! found := loop (strstr_round ct) tt in
    when (negb found) (set_eax 0) ;;; let! r := get in ret (eax r)) n r1) by by destruct r.
  rewrite E0. rewrite (bind_run (measure ct) _ n r1 tt r2 E). cbv beta. change (esi r1) with cs in Hs. change (bytes r1) with (bytes r) in Hm.
  destruct (strstr_loop b ct t n n r2) as (found & r3 & E3 & Hm3 & H); rewrite ?Hm, ?Hs; try done.
  - intros ->. by rewrite Hz.
  - intros i c Hi. apply Hb. by apply lookup_app_l_Some.
  - rewrite (bind_run (loop (strstr_round ct) tt) _ n r2 found r3 E3). cbv beta. rewrite Hs in H.
    destruct H as [[-> (j & Hj & Hv & H)]|[-> H]].
    + exists (eax r3), r3. split; [done|]. split; [congruence|]. left. by exists j.
    + exists 0, (r3 <| eax := 0 |>). split; [done|]. split; [etrans; [exact Hm3|done]|]. by right.
Qed.

Definition abcabd : machine :=
  mkMachine 0 0 0 0 0 0 false false false true (byte_at [97; 98; 99; 97; 98; 100; 0; 97; 98; 100; 0]) 0.
Lemma strstr_finds_first_witness :
  (exists r', strstr 0 7 9%nat abcabd = Done 3 r') /\
  exists v r', strstr 0 7 9%nat abcabd = Done v r' /\ bytes r' = bytes abcabd /\
    ((exists j, (j <= length [97; 98; 99; 97; 98; 100])%nat /\ v = 0 + Z.of_nat j /\ [97; 98; 100] `prefix_of` drop j [97; 98; 99; 97; 98; 100] /\
       forall i, (i < j)%nat -> ~ [97; 98; 100] `prefix_of` drop i [97; 98; 99; 97; 98; 100]) \/
     v = 0 /\ forall j, ~ [97; 98; 100] `prefix_of` drop j [97; 98; 99; 97; 98; 100]).
Proof.
  split; [eexists; vm_compute; reflexivity|].
  apply (strstr_finds_first 0 7 [97; 98; 99; 97; 98; 100] [97; 98; 100] 9%nat abcabd).
  all: try (cbn; lia).
  - intros i c Hi. do 7 (destruct i as [|i]; [by injection Hi as <-|]). done.
  - intros i c Hi. do 4 (destruct i as [|i]; [by injection Hi as <-|]). done.
  - repeat (apply List.Forall_cons; [lia|]). apply List.Forall_nil.
  - repeat (apply List.Forall_cons; [lia|]). apply List.Forall_nil.
Defined.

(** The result of [memcmp] for no bytes depends on the flags left from before. *)
Example memcmp_of_nothing :
  match memcmp 0 3 0 9%nat abcabd with Done v _ => v = -1 | _ => False end /\
  match memcmp 0 3 0 9%nat (abcabd <| zf := true |>) with Done v _ => v = 0 | _ => False end.
Proof. split; vm_compute; reflexivity. Qed.

(** [memmove] upwards leaves the direction flag set. *)
Example memmove_leaves_direction : match memmove 3 1 4 9%nat overlapping with Done _ r' => df r' = true | _ => False end.
Proof. vm_compute. reflexivity. Qed.
