(* ===== verification/SysCalls.v ===== *)
(** * Signal handlers, identities, time and memory limits: kernel/signal.c, kernel/sys.c *)
From Stdlib Require Import ZArith Lia String Ascii.
From stdpp Require Import base list.
From S2P Require Import Prelude Resumption Memory KState Sched BlkDev Buffer Super Inode Errno Namei Segment Open Exit.

Definition SA_NOMASK : Z := 0x40000000.
Definition SA_ONESHOT : Z := 0x80000000.

(** ** kernel/signal.c *)

Definition sys_sgetmask : K Z := let! t := cur in ret (blocked t).

Definition sys_ssetmask (newmask : Z) : K Z :=
  let! t := cur in
  cur_upd (fun t => t <| blocked := Z.ldiff newmask (sigbit SIGKILL) |>) ;;;
  ret (blocked t).

(** [current->sigaction[signum-1]] *)
Definition action_at (t : task_struct) (signum : Z) : sigaction_t :=
  default (mkSigaction 0 0 0 0) (arr_get (sigaction t) (signum - 1)).
Definition set_action (signum : Z) (f : sigaction_t -> sigaction_t) : K unit :=
  cur_upd (fun t => t <| sigaction ::= fun l => arr_set l (signum - 1) (f (action_at t signum)) |>).

(** The 16 bytes of a [struct sigaction], copied a byte at a time. *)
Definition save_old (sa : sigaction_t) (to : Z) : K unit :=
  verify_area to 16 ;;;
  put_fs_long (sa_handler sa) to ;;;
  put_fs_long (sa_mask sa) (to + 4) ;;;
  put_fs_long (sa_flags sa) (to + 8) ;;;
  put_fs_long (sa_restorer sa) (to + 12).
Definition get_new (from : Z) : K sigaction_t :=
  let! h := get_fs_long from in
  let! m := get_fs_long (from + 4) in
  let! f := get_fs_long (from + 8) in
  let! r := get_fs_long (from + 12) in
  ret (mkSigaction h m (s32 f) r).

Definition valid_signum (signum : Z) : bool := negb ((signum <? 1) || (32 <? signum) || (signum =? SIGKILL)).

Definition sys_signal (signum handler restorer : Z) : K Z :=
  if negb (valid_signum signum) then ret (-1) else
  let! t := cur in
  set_action signum (fun _ => mkSigaction handler 0 (s32 (Z.lor SA_ONESHOT SA_NOMASK)) restorer) ;;;
  ret (sa_handler (action_at t signum)).

Definition sys_sigaction (signum action oldaction : Z) : K Z :=
  if negb (valid_signum signum) then ret (-1) else
  let! t := cur in
  let tmp := action_at t signum in
  let! new := get_new action in
  set_action signum (fun _ => new) ;;;
  when (nz oldaction) (save_old tmp oldaction) ;;;
  set_action signum (fun sa =>
    if nz (Z.land (sa_flags sa) SA_NOMASK) then sa <| sa_mask := 0 |>
    else sa <| sa_mask ::= fun m => Z.lor m (u32 (sigbit signum)) |>) ;;;
  ret 0.

(** What [do_signal] finds on the kernel stack and may change there. *)
Record frame_t := mkFrame { fr_eax : Z; fr_ecx : Z; fr_edx : Z; fr_eip : Z; fr_eflags : Z; fr_esp : Z }.

Definition put_longs (l : list Z) (addr : Z) : K unit :=
  for_each (zip l (zrange 0 (length l))) (fun p => put_fs_long p.1 (addr + 4 * p.2)).

(** The instruction and stack pointers the task returns to user mode with. *)
Definition do_signal {driver : Driver} (signr : Z) (r : frame_t) : K (Z * Z) :=
  let! t := cur in
  let sa := action_at t signr in
  if sa_handler sa =? 1 then ret (fr_eip r, fr_esp r) else
  if sa_handler sa =? 0 then
    (if signr =? SIGCHLD then ret (fr_eip r, fr_esp r)
     else let! _ := do_exit (sigbit signr) in ret (fr_eip r, fr_esp r))
  else
  when (nz (Z.land (sa_flags sa) SA_ONESHOT)) (set_action signr (fun sa => sa <| sa_handler := 0 |>)) ;;;
  let nomask := nz (Z.land (sa_flags sa) SA_NOMASK) in
  let longs := if nomask then 7 else 8 in
  let esp := u32 (fr_esp r - 4 * longs) in
  verify_area esp (longs * 4) ;;;
  put_longs ([sa_restorer sa; signr] ++ (if nomask then [] else [blocked t]) ++
             [fr_eax r; fr_ecx r; fr_edx r; fr_eflags r; fr_eip r]) esp ;;;
  cur_upd (fun t => t <| blocked ::= fun b => s32 (Z.lor b (sa_mask sa)) |>) ;;;
  ret (sa_handler sa, esp).

(** ** kernel/sys.c *)

Definition nosys : K Z := ret (- ENOSYS).
Definition sys_ftime : K Z := nosys.
Definition sys_break : K Z := nosys.
Definition sys_ptrace : K Z := nosys.
Definition sys_stty : K Z := nosys.
Definition sys_gtty : K Z := nosys.
Definition sys_rename : K Z := nosys.
Definition sys_prof : K Z := nosys.
Definition sys_acct : K Z := nosys.
Definition sys_phys : K Z := nosys.
Definition sys_lock : K Z := nosys.
Definition sys_mpx : K Z := nosys.
Definition sys_ulimit : K Z := nosys.

(** Assigning a real or an effective identity is allowed ([ok]), refused, or not
    asked for. *)
Definition sys_setregid (rgid egid_ : Z) : K Z :=
  let! t := cur in
  if (0 <? rgid) && negb ((gid t =? rgid) || suser t) then ret (- EPERM) else
  when (0 <? rgid) (cur_upd (fun t => t <| gid := u16 rgid |>)) ;;;
  let! t := cur in
  if (0 <? egid_) && negb ((gid t =? egid_) || (egid t =? egid_) || (sgid t =? egid_) || suser t)
  then ret (- EPERM) else
  when (0 <? egid_) (cur_upd (fun t => t <| egid := u16 egid_ |>)) ;;;
  ret 0.
Definition sys_setgid (gid : Z) : K Z := sys_setregid gid gid.

Definition sys_setreuid (ruid euid_ : Z) : K Z :=
  let! t := cur in
  let old_ruid := uid t in
  if (0 <? ruid) && negb ((euid t =? ruid) || (old_ruid =? ruid) || suser t) then ret (- EPERM) else
  when (0 <? ruid) (cur_upd (fun t => t <| uid := u16 ruid |>)) ;;;
  let! t := cur in
  if (0 <? euid_) && negb ((old_ruid =? euid_) || (euid t =? euid_) || suser t) then
    cur_upd (fun t => t <| uid := old_ruid |>) ;;;
    ret (- EPERM)
  else
  when (0 <? euid_) (cur_upd (fun t => t <| euid := u16 euid_ |>)) ;;;
  ret 0.
Definition sys_setuid (uid : Z) : K Z := sys_setreuid uid uid.

Definition sys_time (tloc : Z) : K Z :=
  let! s := get in
  let i := CURRENT_TIME s in
  when (nz tloc) (verify_area tloc 4 ;;; put_fs_long i tloc) ;;;
  ret i.

Definition sys_stime (tptr : Z) : K Z :=
  let! t := cur in
  if negb (suser t) then ret (- EPERM) else
  let! v := get_fs_long tptr in
  set_sched (fun c => c <| startup_time := s32 (v - Z.quot (jiffies c) HZ) |>) ;;;
  ret 0.

Definition sys_times (tbuf : Z) : K Z :=
  when (nz tbuf)
    (verify_area tbuf 16 ;;;
     let! t := cur in
     put_fs_long (utime t) tbuf ;;;
     put_fs_long (stime t) (tbuf + 4) ;;;
     put_fs_long (cutime t) (tbuf + 8) ;;;
     put_fs_long (cstime t) (tbuf + 12)) ;;;
  gets (fun s => jiffies (k_sched s)).

Definition sys_brk (end_data_seg : Z) : K Z :=
  let! t := cur in
  let e := u32 end_data_seg in
  when ((end_code t <=? e) && (e <? u32 (start_stack t - 16384)))
    (cur_upd (fun t => t <| brk := e |>)) ;;;
  let! t := cur in
  ret (brk t).

Definition sys_setpgid (pid_ pgid : Z) : K Z :=
  let! c := cur in
  let pid_ := if nz pid_ then pid_ else pid c in
  let pgid := if nz pgid then pgid else pid c in
  let! r := for_break (zrange 0 64) (fun i =>
    let! s := get in
    match task_slot s i with
    | Some p =>
        if pid p =? pid_ then
          if nz (leader p) then ret (Some (- EPERM)) else
          if negb (session p =? session c) then ret (Some (- EPERM)) else
          task_upd i (fun p => p <| pgrp := pgid |>) ;;;
          ret (Some 0)
        else ret None
    | None => ret None
    end) in
  ret (default (- ESRCH) r).

Definition sys_getpgrp : K Z := let! t := cur in ret (pgrp t).

Definition sys_setsid : K Z :=
  let! t := cur in
  if nz (leader t) && negb (suser t) then ret (- EPERM) else
  cur_upd (fun t => t <| leader := 1 |>) ;;;
  cur_upd (fun t => t <| pgrp := pid t |> <| session := pid t |>) ;;;
  cur_upd (fun t => t <| tty := -1 |>) ;;;
  let! t := cur in
  ret (pgrp t).

(** A [char [9]] with a string in it. *)
Definition chars9 (s : string) : list Z :=
  take 9 (map (fun c => Z.of_nat (nat_of_ascii c)) (list_ascii_of_string s) ++ replicate 9 0).
Definition thisname : list Z :=
  chars9 "linux .0" ++ chars9 "nodename" ++ chars9 "release " ++ chars9 "version " ++ chars9 "machine ".

Definition sys_uname (name : Z) : K Z :=
  if negb (nz name) then ret (- ERROR) else
  verify_area name 45 ;;;
  put_fs_bytes thisname name ;;;
  ret 0.

Definition sys_umask (mask : Z) : K Z :=
  let! t := cur in
  cur_upd (fun t => t <| umask := Z.land mask 0x1FF |>) ;;;
  ret (umask t).
