(* ===== verification/SignalProps.v ===== *)
(** * Properties of signals and identities

    Who gets the signal of [kill], what a task can make of its user identities, and
    that the clock interrupt never takes the processor from the kernel. *)
From Stdlib Require Import ZArith Lia String.
From stdpp Require Import base list sets.
From S2P Require Import Prelude Resumption Memory KState Runs Sched SchedProps BlkDev Buffer Super Inode.
From S2P Require Import Errno Namei Segment Open Exit SysCalls.

(** ** kill *)

Section Kill.
Context (sel : task_struct -> bool) (sig : Z) (priv : bool) (eu : Z).

(** The sender, whose effective user id is [eu], may signal [p]. *)
Definition allowed (p : task_struct) : bool := priv || (eu =? euid p) || (eu =? 0).
Definition signalled (p : task_struct) : task_struct := p <| signal ::= fun x => Z.lor x (sigbit sig) |>.
Definition hit (p : task_struct) : task_struct := if sel p && allowed p then signalled p else p.

(** The running task keeps its identity while it signals others, or itself. *)
Definition sender (s : kstate) : Prop := exists t, task_slot s (current (k_sched s)) = Some t /\ euid t = eu.

Lemma sender_set s i p p' : sender s -> task_slot s i = Some p -> euid p' = euid p -> sender (set_slot i (Some p') s).
Proof.
  intros (t & Ht & He) Hp Hp'. change (current (k_sched (set_slot i (Some p') s))) with (current (k_sched s)).
  unfold sender. change (current (k_sched (set_slot i (Some p') s))) with (current (k_sched s)).
  rewrite task_slot_set by (by eapply task_slot_range). case_decide as E; [|by exists t].
  exists p'. split; [done|]. subst i. rewrite Ht in Hp. injection Hp as <-. congruence.
Qed.

Lemma send_sig_run n s i p :
  sender s -> 1 <= sig <= 32 -> task_slot s i = Some p ->
  send_sig sig i priv n s = if allowed p then Done 0 (set_slot i (Some (signalled p)) s) else Done (- EPERM) s.
Proof.
  intros (t & Ht & He) Hs Hp. unfold send_sig. step (get_run n s). rewrite Hp.
  replace ((sig <? 1) || (32 <? sig)) with false by (symmetry; apply orb_false_iff; split; apply Z.ltb_ge; lia).
  step (cur_run t n s Ht). unfold suser, allowed. rewrite He. destruct (priv || _ || _); [|done].
  by step (task_upd_run i signalled p n s Hp).
Qed.

(** The loop over the slots [l], each visited once. *)
Lemma signal_loop_run n l : forall retval s,
  sender s -> 1 <= sig <= 32 -> NoDup l ->
  exists v s', for_fold l retval (fun retval i =>
      let! s := get in
      match task_slot s i with
      | Some p => if sel p then let! err := send_sig sig i priv in ret (if nz err then err else retval) else ret retval
      | None => ret retval
      end) n s = Done v s' /\
    (forall j, task_slot s' j = if decide (j ∈ l) then hit <$> task_slot s j else task_slot s j) /\
    (v = retval /\ (forall j p, j ∈ l -> task_slot s j = Some p -> sel p = true -> allowed p = true) \/
     v = - EPERM /\ exists j p, j ∈ l /\ task_slot s j = Some p /\ sel p = true /\ allowed p = false).
Proof.
  induction l as [|i l IH]; intros retval s Hsd Hs Hnd.
  { exists retval, s. split; [done|]. split; [intros j; by rewrite decide_False by set_solver|]. left. split; [done|set_solver]. }
  apply NoDup_cons in Hnd as [Hi Hnd]. cbn [for_fold].
  set (body := fun retval i => _).
  assert (Hbody : exists r1 s1, body retval i n s = Done r1 s1 /\ sender s1 /\
    (forall j, task_slot s1 j = if decide (j = i) then hit <$> task_slot s j else task_slot s j) /\
    (r1 = retval /\ (forall p, task_slot s i = Some p -> sel p = true -> allowed p = true) \/
     r1 = - EPERM /\ exists p, task_slot s i = Some p /\ sel p = true /\ allowed p = false)).
  { unfold body. destruct (task_slot s i) as [p|] eqn:Ep; cycle 1.
    { exists retval, s. split; [step (get_run n s); by rewrite Ep|]. split; [done|].
      split; [|by left]. intros j. case_decide; [subst; by rewrite Ep|done]. }
    destruct (sel p) eqn:Es; cycle 1.
    { exists retval, s. split; [step (get_run n s); by rewrite Ep, Es|]. split; [done|]. split.
      - intros j. case_decide; [subst; rewrite Ep; cbn; unfold hit; by rewrite Es|done].
      - left. split; [done|]. intros q [= <-]. congruence. }
    pose proof (send_sig_run n s i p Hsd Hs Ep) as E. destruct (allowed p) eqn:Ea.
    - exists retval, (set_slot i (Some (signalled p)) s). split; [step (get_run n s); rewrite Ep, Es; by step E|]. split.
      { by eapply sender_set. }
      split; [|left; split; [done|]; by intros q [= <-]]. intros j. rewrite task_slot_set by (by eapply task_slot_range).
      repeat case_decide; try congruence. subst. rewrite Ep. cbn. unfold hit. by rewrite Es, Ea.
    - exists (- EPERM), s. split; [step (get_run n s); rewrite Ep, Es; by step E|]. split; [done|]. split.
      + intros j. case_decide; [subst; rewrite Ep; cbn; unfold hit; by rewrite Es, Ea|done].
      + right. split; [done|]. by exists p. }
  destruct Hbody as (r1 & s1 & E & Hsd1 & Hsl & Hr). step E.
  destruct (IH r1 s1 Hsd1 Hs Hnd) as (v & s' & E' & Hsl' & Hv). exists v, s'. split; [exact E'|].
  assert (Hout : forall j, j ∈ l -> task_slot s1 j = task_slot s j) by (intros j Hj; rewrite Hsl, decide_False; [done|congruence]).
  split.
  - intros j. rewrite Hsl'. destruct (decide (j = i)) as [->|Hne].
    + rewrite decide_False by done. rewrite Hsl, !decide_True by set_solver. done.
    + rewrite Hsl, (decide_False (P := j = i)) by done. destruct (decide (j ∈ l)); [rewrite decide_True by set_solver|rewrite decide_False by set_solver]; done.
  - destruct Hv as [[-> Hv]|[-> (j & p & Hj & Hp & Hj')]].
    + destruct Hr as [[-> Hr]|[-> (p & Hr)]].
      * left. split; [done|]. intros j p [->|Hj]%elem_of_cons Hp; [by apply Hr|]. apply (Hv j p Hj). by rewrite Hout.
      * right. split; [done|]. exists i, p. split; [left|done].
    + right. split; [done|]. exists j, p. split; [by right|]. by rewrite Hout in Hp.
Qed.
End Kill.

(** Whom [kill(pid, ...)] by [t] is for, and whether it needs a permission. *)
Definition kill_target (t : task_struct) (pid_ : Z) (p : task_struct) : bool :=
  if pid_ =? 0 then pgrp p =? pid t else if 0 <? pid_ then pid p =? pid_ else pgrp p =? - pid_.

(** C15. [kill] with a valid signal, to a process, a group or the own group: exactly
    the tasks it names that the sender may signal, being of the same effective user
    or the sender the superuser (the own group needs no permission), get the signal,
    no other task changes, and the result is -EPERM when a task it names was
    refused, else 0. *)
Theorem sys_kill_signals (pid_ sig : Z) (n : nat) (s : kstate) (t : task_struct) :
  task_slot s (current (k_sched s)) = Some t -> 1 <= sig <= 32 -> pid_ <> -1 ->
  let may p := allowed (pid_ =? 0) (euid t) p in
  exists v s', sys_kill pid_ sig n s = Done v s' /\
    (forall j, task_slot s' j =
       if decide (1 <= j <= 63) then
         (fun p => if kill_target t pid_ p && may p then signalled sig p else p) <$> task_slot s j
       else task_slot s j) /\
    (v = 0 /\ (forall j p, 1 <= j <= 63 -> task_slot s j = Some p -> kill_target t pid_ p = true -> may p = true) \/
     v = - EPERM /\ exists j p, 1 <= j <= 63 /\ task_slot s j = Some p /\ kill_target t pid_ p = true /\ may p = false).
Proof.
  intros Ht Hs Hp may. assert (Hsd : sender (euid t) s) by (by exists t).
  assert (Hrun : sys_kill pid_ sig n s = signal_tasks (kill_target t pid_) sig (pid_ =? 0) n s).
  { unfold sys_kill, kill_target. step (cur_run t n s Ht). destruct (Z.eqb_spec pid_ 0); [done|].
    destruct (Z.ltb_spec 0 pid_); [done|]. destruct (Z.eqb_spec pid_ (-1)); [done|]. done. }
  rewrite Hrun. destruct (signal_loop_run (kill_target t pid_) sig (pid_ =? 0) (euid t) n slots_down 0 s Hsd Hs slots_down_NoDup)
    as (v & s' & E & Hsl & Hv).
  exists v, s'. split; [exact E|]. split.
  - intros j. rewrite Hsl. destruct (decide (j ∈ slots_down)) as [Hj|Hj]; rewrite slots_down_elem in Hj.
    + by rewrite decide_True.
    + by rewrite decide_False.
  - destruct Hv as [[-> Hv]|[-> (j & p & Hj & Hv)]].
    + left. split; [done|]. intros j p Hj. apply Hv. by apply slots_down_elem.
    + right. split; [done|]. exists j, p. split; [by apply slots_down_elem|done].
Qed.

(** Task 1 of user 5 signals group 3, in which task 2 is another user's. *)
Definition user_task (p g u : Z) : task_struct := (init_task 0) <| pid := p |> <| pgrp := g |> <| uid := u |> <| euid := u |>.
Definition users : kstate :=
  set_cur 1 (set_slot 3 (Some (user_task 13 3 5)) (set_slot 2 (Some (user_task 12 3 6)) (set_slot 1 (Some (user_task 11 9 5)) boot_k))).

Lemma sys_kill_signals_witness :
  match sys_kill (-3) 15 1%nat users with
  | Done v s' => v = - EPERM /\ signal <$> task_slot s' 3 = Some (2 ^ 14) /\ signal <$> task_slot s' 2 = Some 0
  | _ => False
  end /\
  exists v s', sys_kill (-3) 15 1%nat users = Done v s' /\
    (forall j, task_slot s' j =
       if decide (1 <= j <= 63) then
         (fun p => if kill_target (user_task 11 9 5) (-3) p && allowed false 5 p then signalled 15 p else p) <$> task_slot users j
       else task_slot users j) /\
    (v = 0 /\ (forall j p, 1 <= j <= 63 -> task_slot users j = Some p -> kill_target (user_task 11 9 5) (-3) p = true ->
                 allowed false 5 p = true) \/
     v = - EPERM /\ exists j p, 1 <= j <= 63 /\ task_slot users j = Some p /\ kill_target (user_task 11 9 5) (-3) p = true /\
                      allowed false 5 p = false).
Proof.
  split; [vm_compute; repeat split|]. apply (sys_kill_signals (-3) 15 1%nat users (user_task 11 9 5)); [reflexivity|lia|lia].
Defined.

(** ** User identities *)

(** What [setreuid] may change of a task. *)
Definition with_ids (u e : Z) (t : task_struct) : task_struct := t <| uid := u |> <| euid := e |>.

Lemma with_ids_same t : with_ids (uid t) (euid t) t = t.
Proof. by destruct t. Qed.

Lemma cur_upd_cur f t n s :
  task_slot s (current (k_sched s)) = Some t ->
  cur_upd f n s = Done tt (set_slot (current (k_sched s)) (Some (f t)) s) /\
  task_slot (set_slot (current (k_sched s)) (Some (f t)) s) (current (k_sched s)) = Some (f t).
Proof.
  intros Ht. split; [by apply cur_upd_run|]. rewrite task_slot_set by (by eapply task_slot_range). by rewrite decide_True.
Qed.

Definition set_ids (u e : Z) (t : task_struct) (s : kstate) : kstate := set_slot (current (k_sched s)) (Some (with_ids u e t)) s.

Lemma set_ids_same t s : task_slot s (current (k_sched s)) = Some t -> set_ids (uid t) (euid t) t s = s.
Proof.
  intros Ht. unfold set_ids. rewrite with_ids_same. revert Ht. generalize (current (k_sched s)) as i. intros i.
  unfold task_slot, slot_of. destruct (arr_get (task (k_sched s)) i) as [[c|]|] eqn:E; [|done|done]. intros [= ->].
  unfold set_slot. destruct s as [? [] ? ? ? ? ?]. cbn in *. unfold upd. cbn. do 2 f_equal.
  unfold arr_get, arr_set in *. destruct (i <? 0); [done|]. by apply list_insert_id.
Qed.

Lemma set_ids_twice u e u' e' t t' s :
  with_ids u' e' t' = with_ids u' e' t -> set_slot (current (k_sched s)) (Some (with_ids u' e' t')) (set_ids u e t s) = set_ids u' e' t s.
Proof.
  intros ->. unfold set_ids, set_slot. generalize (current (k_sched s)). intros i. destruct s as [? [] ? ? ? ? ?]. cbn. unfold upd. cbn.
  do 2 f_equal. unfold arr_set. destruct (i <? 0); [done|]. by rewrite list_insert_insert_eq.
Qed.

(** C31. [setreuid] is all or nothing, and only the superuser gains anything by it: it
    either fails with -EPERM and changes nothing, or returns 0 having changed at
    most the two user ids of the running task; a task that is not the superuser
    ends with two ids it had before.  An argument of 0 or less changes nothing, so
    that 0 cannot be asked for. *)
Theorem sys_setreuid_safe (ruid euid_ : Z) (n : nat) (s : kstate) (t : task_struct) :
  task_slot s (current (k_sched s)) = Some t -> 0 <= uid t < 65536 -> 0 <= euid t < 65536 -> ruid < 65536 -> euid_ < 65536 ->
  sys_setreuid ruid euid_ n s = Done (- EPERM) s \/
  exists u e, sys_setreuid ruid euid_ n s = Done 0 (set_ids u e t s) /\
    u = (if 0 <? ruid then ruid else uid t) /\ e = (if 0 <? euid_ then euid_ else euid t) /\
    (euid t <> 0 -> (u = uid t \/ u = euid t) /\ (e = uid t \/ e = euid t \/ e = u)).
Proof.
  intros Ht Hu He Hr Hr'. unfold sys_setreuid. step (cur_run t n s Ht). unfold suser.
  destruct (Z.ltb_spec 0 ruid) as [Hp|Hp]; cbn [andb].
  - destruct (negb _) eqn:E1; [by left|]. apply negb_false_iff in E1. rewrite !orb_true_iff, !Z.eqb_eq in E1. cbn [when].
    rewrite (u16_small ruid) by lia.
    destruct (cur_upd_cur (fun t => t <| uid := ruid |>) t n s Ht) as [E2 Ht1]. step E2. clear E2.
    change (Some (t <| uid := ruid |>)) with (Some (with_ids ruid (euid t) t)) in *.
    change (set_slot _ (Some (with_ids ruid (euid t) t)) s) with (set_ids ruid (euid t) t s) in *. set (s1 := set_ids ruid (euid t) t s) in *.
    change (current (k_sched s)) with (current (k_sched s1)) in Ht1. step (cur_run _ n s1 Ht1).
    change (euid (with_ids ruid (euid t) t)) with (euid t).
    destruct (Z.ltb_spec 0 euid_) as [Hp'|Hp']; cbn [andb].
    + destruct (negb _) eqn:E3.
      * left. destruct (cur_upd_cur (fun t' => t' <| uid := uid t |>) _ n s1 Ht1) as [E4 _]. step E4. f_equal.
        change (set_slot _ _ s1) with
          (set_slot (current (k_sched s)) (Some (with_ids (uid t) (euid t) (with_ids ruid (euid t) t))) (set_ids ruid (euid t) t s)).
        rewrite set_ids_twice by done. by apply set_ids_same.
      * apply negb_false_iff in E3. rewrite !orb_true_iff, !Z.eqb_eq in E3. right. exists ruid, euid_. cbn [when].
        rewrite (u16_small euid_) by lia.
        destruct (cur_upd_cur (fun t' => t' <| euid := euid_ |>) _ n s1 Ht1) as [E4 _]. step E4.
        split; [|split; [done|split; [done|]]]; [|intros H0; split; [lia|lia]]. unfold ret. f_equal.
        change (set_slot _ _ s1) with
          (set_slot (current (k_sched s)) (Some (with_ids ruid euid_ (with_ids ruid (euid t) t))) (set_ids ruid (euid t) t s)).
        by rewrite set_ids_twice by done.
    + right. exists ruid, (euid t). split; [done|]. split; [done|]. split; [done|]. intros H0. split; [lia|by right; left].
  - cbn [when]. step (ret_run tt n s). step (cur_run t n s Ht). destruct (Z.ltb_spec 0 euid_) as [Hp'|Hp']; cbn [andb].
    + destruct (negb _) eqn:E3.
      * left. destruct (cur_upd_cur (fun t' => t' <| uid := uid t |>) t n s Ht) as [E4 _]. step E4. f_equal.
        exact (set_ids_same t s Ht).
      * apply negb_false_iff in E3. rewrite !orb_true_iff, !Z.eqb_eq in E3. right. exists (uid t), euid_. cbn [when].
        rewrite (u16_small euid_) by lia.
        destruct (cur_upd_cur (fun t' => t' <| euid := euid_ |>) t n s Ht) as [E4 _]. step E4.
        split; [done|split; [done|split; [done|]]]. intros H0. split; [by left|lia].
    + right. exists (uid t), (euid t). cbn [when]. split; [unfold bind, ret; cbn [obind]; f_equal; symmetry; by apply set_ids_same|].
      split; [done|]. split; [done|]. intros _. split; [by left|by right; left].
Qed.

Lemma sys_setreuid_safe_witness :
  sys_setreuid 7 5 1%nat users = Done (- EPERM) users \/
  exists u e, sys_setreuid 7 5 1%nat users = Done 0 (set_ids u e (user_task 11 9 5) users) /\ u = 7 /\ e = 5 /\
    (5 <> 0 -> (u = 5 \/ u = 5) /\ (e = 5 \/ e = 5 \/ e = u)).
Proof. apply (sys_setreuid_safe 7 5 1%nat users (user_task 11 9 5)); [reflexivity|simpl; lia|simpl; lia|lia|lia]. Defined.
