(* ===== verification/SystemCall.v ===== *)
(** * The system-call entry: include/linux/sys.h, kernel/system_call.s

    The table of system calls, the dispatch on [eax], the rescheduling on the way
    out and the delivery of a signal.  A register that carries an argument is
    read as the signed int of the C prototype. *)
From Stdlib Require Import ZArith Lia String.
From stdpp Require Import base list.
From S2P Require Import Prelude Resumption Memory KState Sched BlkDev Buffer Super Inode Errno Namei.
From S2P Require Import Mount Setup Segment Open ReadWrite Fork Exit Exec SysCalls.

#[export] Instance pushed_reconstruct : Reconstruct pushed :=
  fun r => mkPushed (p_ebp r) (p_edi r) (p_esi r) (p_gs r) (p_ebx r) (p_ecx r) (p_edx r)
    (p_fs r) (p_es r) (p_ds r) (p_eip r) (p_cs r) (p_eflags r) (p_esp r) (p_ss r).

Section SystemCall.
(** [image] is what a program's pages will hold. *)
Context {driver : Driver} (image : Z -> Z -> Z) (fninit : list Z) (pad : Z).

(** Calls of no, one, two and three arguments, and of the pushed registers; the
    result and the registers user mode goes on with. *)
Definition call0 (f : K Z) (r : pushed) : K (Z * pushed) := let! v := f in ret (v, r).
Definition call1 (f : Z -> K Z) (r : pushed) : K (Z * pushed) := let! v := f (s32 (p_ebx r)) in ret (v, r).
Definition call2 (f : Z -> Z -> K Z) (r : pushed) : K (Z * pushed) :=
  let! v := f (s32 (p_ebx r)) (s32 (p_ecx r)) in ret (v, r).
Definition call3 (f : Z -> Z -> Z -> K Z) (r : pushed) : K (Z * pushed) :=
  let! v := f (s32 (p_ebx r)) (s32 (p_ecx r)) (s32 (p_edx r)) in ret (v, r).
Definition call_regs (f : pushed -> K Z) (r : pushed) : K (Z * pushed) := let! v := f r in ret (v, r).

Definition sys_execve (r : pushed) : K (Z * pushed) :=
  let! '(v, ip_sp) := do_execve image r (u32 (p_ebx r)) (u32 (p_ecx r)) (u32 (p_edx r)) in
  ret (v, r <| p_eip := ip_sp.1 |> <| p_esp := ip_sp.2 |>).

Definition sys_call_table : list (pushed -> K (Z * pushed)) := [
  call1 sys_setup; call1 sys_exit; call_regs (sys_fork fninit); call3 sys_read;
  call3 sys_write; call3 sys_open; call1 sys_close; call3 sys_waitpid; call2 sys_creat; call2 sys_link;
  call1 sys_unlink; sys_execve; call1 sys_chdir; call1 sys_time; call3 sys_mknod; call2 sys_chmod;
  call3 sys_chown; call0 sys_break; call2 (sys_stat pad); call3 sys_lseek; call0 sys_getpid; call3 sys_mount;
  call1 sys_umount; call1 sys_setuid; call0 sys_getuid; call1 sys_stime; call0 sys_ptrace; call1 sys_alarm;
  call2 (sys_fstat pad); call0 sys_pause; call2 sys_utime; call0 sys_stty; call0 sys_gtty; call2 sys_access;
  call1 sys_nice; call0 sys_ftime; call0 sys_sync; call2 sys_kill; call0 sys_rename; call2 sys_mkdir;
  call1 sys_rmdir; call1 sys_dup; call1 sys_pipe; call1 sys_times; call0 sys_prof; call1 sys_brk; call1 sys_setgid;
  call0 sys_getgid; call3 sys_signal; call0 sys_geteuid; call0 sys_getegid; call0 sys_acct; call0 sys_phys;
  call0 sys_lock; call3 (sys_ioctl pad); call3 sys_fcntl; call0 sys_mpx; call2 sys_setpgid; call0 sys_ulimit;
  call1 sys_uname; call1 sys_umask; call1 sys_chroot; call2 sys_ustat; call2 sys_dup2; call0 sys_getppid;
  call0 sys_getpgrp; call0 sys_setsid; call3 sys_sigaction; call0 sys_sgetmask; call1 sys_ssetmask;
  call2 sys_setreuid; call2 sys_setregid ].

Definition nr_system_calls : Z := 72.

(** [ret_from_sys_call]: the lowest unblocked signal of a task other than the
    first that returns to user mode. *)
Definition pending (t : task_struct) : option Z := bsfl (u32 (Z.land (signal t) (Z.lnot (blocked t)))).

Definition deliver_signal (eax_ : Z) (r : pushed) : K (Z * Z) :=
  let! s := get in
  let! t := cur in
  let old := (p_eip r, p_esp r) in
  if current (k_sched s) =? 0 then ret old else
  if negb (Z.land (p_cs r) 0xffff =? 0x0f) || negb (Z.land (p_ss r) 0xffff =? 0x17) then ret old else
  match pending t with
  | None => ret old
  | Some b =>
      cur_upd (fun t => t <| signal ::= fun x => Z.ldiff x (Z.shiftl 1 b) |>) ;;;
      do_signal (b + 1) (mkFrame eax_ (p_ecx r) (p_edx r) (p_eip r) (p_eflags r) (p_esp r))
  end.

(** What user mode goes on with: [eax], [eip] and [esp]. *)
Definition system_call (nr : Z) (r : pushed) : K (Z * (Z * Z)) :=
  if nr_system_calls <=? u32 nr then ret (-1, (p_eip r, p_esp r)) else
  let! f := deref (fun _ => arr_get sys_call_table (u32 nr)) in
  let! '(eax_, r) := f r in
  let! t := cur in
  when (negb (state t =? 0) || (counter t =? 0)) schedule ;;;
  let! ip_sp := deliver_signal eax_ r in
  ret (eax_, ip_sp).
End SystemCall.

Lemma sys_call_table_size {driver : Driver} image fninit pad :
  Z.of_nat (length (sys_call_table image fninit pad)) = nr_system_calls.
Proof. reflexivity. Qed.
