(* ===== verification/PageFault.v ===== *)
(** * Page faults on absent pages: share_page and do_no_page of mm/memory.c

    A page of a program file is shared with another task that runs the same
    program, or read from the file. *)
From Stdlib Require Import ZArith Lia String.
From stdpp Require Import base list.
From S2P Require Import Prelude Resumption Memory KState Sched BlkDev Buffer Super Inode ReadWrite.

Section PageFault.
Context {driver : Driver}.

Definition share_page (address : Z) : K Z :=
  let! c := cur in
  match executable c with
  | None => ret 0
  | Some ex =>
      let! x := ino_get ex in
      if i_count x <? 2 then ret 0 else
      let! r := for_break slots_down (fun i =>
        let! s := get in
        match task_slot s i with
        | Some p =>
            if (i =? current (k_sched s)) || negb (bool_decide (executable p = Some ex)) then ret None else
            let! r := on_mm (try_to_share address (start_code p) (start_code c)) in
            ret (if nz r then Some tt else None)
        | None => ret None
        end) in
      ret (match r with Some tt => 1 | None => 0 end)
  end.

(** The bytes of the page from its end down to the end of the data. *)
Definition zero_tail (page n : Z) : K unit :=
  for_each (rev (zrange (4096 - n) (Z.to_nat n))) (fun k => set_page_byte page k 0).

Definition do_no_page (error_code address : Z) : K unit :=
  let address := Z.land address 0xfffff000 in
  let! c := cur in
  let tmp := u32 (address - start_code c) in
  match executable c with
  | None => on_mm (get_empty_page address)
  | Some ex =>
      if end_data c <=? tmp then on_mm (get_empty_page address) else
      let! r := share_page tmp in
      if nz r then ret tt else
      let! page := on_mm get_free_page in
      if negb (nz page) then on_mm oom else
      let block := 1 + tmp / BLOCK_SIZE in
      let! nr := for_fold (zrange 0 4) [] (fun nr i =>
        let! b := bmap ex (block + i) in ret (nr ++ [b])) in
      let! x := ino_get ex in
      bread_page page (dev_of x) nr ;;;
      zero_tail page (s32 (tmp + 4096 - end_data c)) ;;;
      let! r := on_mm (put_page page address) in
      if nz r then ret tt else
      on_mm (free_page page) ;;;
      on_mm oom
  end.
End PageFault.
