(* ===== verification/Traps.v ===== *)
(** * Exceptions and the ways into the kernel: kernel/traps.c, asm.s, system_call.s,
    mm/page.s, kernel/math/math_emulate.c

    The gates [trap_init] sets, what each exception does, and the dispatch of an
    interrupt through the table: the processor looks up the vector, and the name in
    the gate stands for the routine at that address. *)
From Stdlib Require Import ZArith Lia String.
From stdpp Require Import base list.
From S2P Require Import Prelude Resumption Memory KState Sched BlkDev Hd Floppy Tty Input Fork Exit SysCalls PageFault SystemCall.

Definition SIGFPE : Z := 8.

Section Traps.
Context {driver : Driver}.

(** ** traps.c: print the registers and end the task, as for a segment violation *)

Definition die_with (str : string) (nr : Z) : K unit :=
  printk str ;;;
  let! c := cur in
  printk "Pid: %d, process nr: %d" ;;;
  do_exit 11 ;;;
  ret tt.

Definition do_double_fault (error_code : Z) : K unit := die_with "double fault" error_code.
Definition do_general_protection (error_code : Z) : K unit := die_with "general protection" error_code.
Definition do_divide_error (error_code : Z) : K unit := die_with "divide error" error_code.
Definition do_int3 (error_code : Z) : K unit := printk "eax ebx ecx edx esi edi ebp esp ds es fs tr EIP CS EFLAGS".
Definition do_nmi (error_code : Z) : K unit := die_with "nmi" error_code.
Definition do_debug (error_code : Z) : K unit := die_with "debug" error_code.
Definition do_overflow (error_code : Z) : K unit := die_with "overflow" error_code.
Definition do_bounds (error_code : Z) : K unit := die_with "bounds" error_code.
Definition do_invalid_op (error_code : Z) : K unit := die_with "invalid operand" error_code.
Definition do_device_not_available (error_code : Z) : K unit := die_with "device not available" error_code.
Definition do_coprocessor_segment_overrun (error_code : Z) : K unit := die_with "coprocessor segment overrun" error_code.
Definition do_invalid_TSS (error_code : Z) : K unit := die_with "invalid TSS" error_code.
Definition do_segment_not_present (error_code : Z) : K unit := die_with "segment not present" error_code.
Definition do_stack_segment (error_code : Z) : K unit := die_with "stack segment" error_code.
Definition do_coprocessor_error (error_code : Z) : K unit :=
  let! s := get in
  if bool_decide (last_task_used_math (k_sched s) = Some (current (k_sched s)))
  then die_with "coprocessor error" error_code else ret tt.
Definition do_reserved (error_code : Z) : K unit := die_with "reserved (15,17-47) error" error_code.

Definition trap_init : K unit :=
  set_trap_gate 0 "divide_error" ;;;
  set_trap_gate 1 "debug" ;;;
  set_trap_gate 2 "nmi" ;;;
  set_system_gate 3 "int3" ;;;
  set_system_gate 4 "overflow" ;;;
  set_system_gate 5 "bounds" ;;;
  set_trap_gate 6 "invalid_op" ;;;
  set_trap_gate 7 "device_not_available" ;;;
  set_trap_gate 8 "double_fault" ;;;
  set_trap_gate 9 "coprocessor_segment_overrun" ;;;
  set_trap_gate 10 "invalid_TSS" ;;;
  set_trap_gate 11 "segment_not_present" ;;;
  set_trap_gate 12 "stack_segment" ;;;
  set_trap_gate 13 "general_protection" ;;;
  set_trap_gate 14 "page_fault" ;;;
  set_trap_gate 15 "reserved" ;;;
  set_trap_gate 16 "coprocessor_error" ;;;
  for_each (zrange 17 31) (fun i => set_trap_gate i "reserved") ;;;
  set_trap_gate 45 "irq13" ;;;
  let! m := inb 0x21 in
  outb (Z.land m 0xfb) 0x21 ;;;
  let! m := inb 0xA1 in
  outb (Z.land m 0xdf) 0xA1 ;;;
  set_trap_gate 39 "parallel_interrupt".

(** ** The coprocessor: math_emulate.c, system_call.s *)

(** [cs] and [eip] of the instruction. *)
Definition math_emulate (cs eip_ : Z) : K unit :=
  if negb (u16 cs =? 0x000F) then printk "math_emulate: %04x:%08x" ;;; panic "Math emulation needed in kernel" else
  let! first := get_fs_byte eip_ in
  let! second := get_fs_byte (eip_ + 1) in
  printk "%04x:%08x %02x %02x" ;;;
  cur_upd (fun t => t <| signal ::= fun x => Z.lor x (Z.shiftl 1 (SIGFPE - 1)) |>).

Definition math_error : K unit :=
  let! s := get in
  match last_task_used_math (k_sched s) with
  | Some l => task_upd l (fun t => t <| signal ::= fun x => Z.lor x (Z.shiftl 1 (SIGFPE - 1)) |>)
  | None => ret tt
  end.

(** ** The entries *)

(** What the processor and the entry leave on the stack: [eax], the other registers,
    the error code, and the address of a page fault. *)
Record trap_frame := mkTrap { tf_eax : Z; tf_regs : pushed; tf_error : Z; tf_cr2 : Z }.

(** [eax], [eip] and [esp] of the interrupted program. *)
Definition resumed : Type := (Z * (Z * Z))%type.

Definition back (h : K unit) (f : trap_frame) : K resumed :=
  h ;;; ret (tf_eax f, (p_eip (tf_regs f), p_esp (tf_regs f))).
(** Back through [ret_from_sys_call]. *)
Definition back_signals (h : K unit) (f : trap_frame) : K resumed :=
  h ;;; let! ip_sp := deliver_signal (tf_eax f) (tf_regs f) in ret (tf_eax f, ip_sp).

Definition no_error_code (h : Z -> K unit) : trap_frame -> K resumed := back (h 0).
Definition error_code (h : Z -> K unit) (f : trap_frame) : K resumed := back (h (tf_error f)) f.

Definition page_fault (f : trap_frame) : K resumed :=
  back (if nz (Z.land (tf_error f) 1) then on_mm (do_wp_page (tf_cr2 f)) else do_no_page (tf_error f) (tf_cr2 f)) f.

Definition irq13 (f : trap_frame) : K resumed :=
  outb 0 0xF0 ;;;
  outb 0x20 0x20 ;;;
  outb 0x20 0xA0 ;;;
  back_signals math_error f.

Definition parallel_interrupt : K unit := outb 0x20 0x20.
Definition ignore_int : K unit := printk "Unknown interrupt".

(** [em] is the emulation bit of cr0, which head.s sets without a coprocessor. *)
Context (image : Z -> Z -> Z) (fninit : list Z) (pad : Z) (em : bool).

Definition device_not_available (f : trap_frame) : K resumed :=
  back_signals (if em then math_emulate (p_cs (tf_regs f)) (p_eip (tf_regs f)) else math_state_restore fninit) f.

(** The current privilege level says whether the clock found user or kernel code. *)
Definition timer_interrupt (f : trap_frame) : K resumed :=
  set_sched (fun c => c <| jiffies ::= fun j => s32 (j + 1) |>) ;;;
  outb 0x20 0x20 ;;;
  back_signals (do_timer timer_fn sysbeepstop (Z.land (p_cs (tf_regs f)) 3)) f.

(** The routine a gate names. *)
Definition routines : list (string * (trap_frame -> K resumed)) := [
  ("ignore_int"%string, back ignore_int);
  ("divide_error"%string, no_error_code do_divide_error);
  ("debug"%string, no_error_code do_int3);
  ("nmi"%string, no_error_code do_nmi);
  ("int3"%string, no_error_code do_int3);
  ("overflow"%string, no_error_code do_overflow);
  ("bounds"%string, no_error_code do_bounds);
  ("invalid_op"%string, no_error_code do_invalid_op);
  ("device_not_available"%string, device_not_available);
  ("double_fault"%string, error_code do_double_fault);
  ("coprocessor_segment_overrun"%string, no_error_code do_coprocessor_segment_overrun);
  ("invalid_TSS"%string, error_code do_invalid_TSS);
  ("segment_not_present"%string, error_code do_segment_not_present);
  ("stack_segment"%string, error_code do_stack_segment);
  ("general_protection"%string, error_code do_general_protection);
  ("page_fault"%string, page_fault);
  ("reserved"%string, no_error_code do_reserved);
  ("coprocessor_error"%string, back_signals math_error);
  ("irq13"%string, irq13);
  ("parallel_interrupt"%string, back parallel_interrupt);
  ("timer_interrupt"%string, timer_interrupt);
  ("keyboard_interrupt"%string, fun f => back (keyboard_interrupt (p_ecx (tf_regs f))) f);
  ("rs1_interrupt"%string, back (rs_int 1));
  ("rs2_interrupt"%string, back (rs_int 2));
  ("floppy_interrupt"%string, back floppy_interrupt);
  ("hd_interrupt"%string, back hd_interrupt);
  ("system_call"%string, fun f => system_call image fninit pad (tf_eax f) (tf_regs f)) ].

Definition routine_at (name : string) : option (trap_frame -> K resumed) :=
  snd <$> find (fun p => String.eqb p.1 name) routines.

(** An interrupt or exception: through the gate of its vector. *)
Definition interrupt (vector : Z) (f : trap_frame) : K resumed :=
  let! g := deref (fun s => arr_get (idt (k_sched s)) vector) in
  match routine_at (g_addr g) with
  | Some h => h f
  | None => fault
  end.
End Traps.

(** The privilege a program needs to raise a vector with the [int] instruction. *)
Definition g_dpl (g : gate) : Z := Z.land (Z.shiftr (g_access g) 13) 3.
