(* ===== verification/ClockProps.v ===== *)
(** * The clock interrupt and the kernel

    The clock interrupt in kernel mode, with the timer functions of the floppy driver and
    the speaker it may run, never gives up the processor: kernel code is not preempted,
    which is what lets its routines be written without locks between two calls of
    [schedule]. *)
From Stdlib Require Import ZArith Lia String.
From stdpp Require Import base list.
From S2P Require Import Prelude Resumption Memory KState Runs Sched SchedProps Preserve.
From S2P Require Import BlkDev Hd Floppy Buffer Segment Tty Fork SystemCall Traps.

(** ** Code that does not give up the processor *)

Section Atomic.
Context (c j : Z).

(** Task [c] is running, [j] ticks after the start. *)
Definition running (s : kstate) : Prop := current (k_sched s) = c /\ jiffies (k_sched s) = j.
Definition no_sleep (a : abnormal) : Prop := a <> Asleep.

(** Started by task [c], [m] ends, in whatever way, without a call of [schedule]
    that takes the processor away, and still on behalf of [c]. *)
Definition atomic {A} (m : K A) : Prop := triple no_sleep running anywhere (fun _ => True) m (fun _ _ => True).

Lemma atomic_bind {A B} (m : K A) (f : A -> K B) : atomic m -> (forall a, atomic (f a)) -> atomic (bind m f).
Proof. apply preserves_bind. Qed.
Lemma atomic_ret {A} (a : A) : atomic (ret a).
Proof. by apply triple_ret. Qed.
Lemma atomic_get : atomic get.
Proof. by intros n s Hi _. Qed.
Lemma atomic_panic {A} msg : atomic (panic (A := A) msg).
Proof. by apply triple_panic. Qed.
Lemma atomic_fault {A} : atomic (fault (A := A)).
Proof. by intros n s Hi _. Qed.
Lemma atomic_deref {A} (f : kstate -> option A) : atomic (deref f).
Proof. by apply triple_deref. Qed.
Lemma atomic_modify f :
  (forall s, current (k_sched (f s)) = current (k_sched s) /\ jiffies (k_sched (f s)) = jiffies (k_sched s)) -> atomic (modify f).
Proof. intros H. apply triple_modify. intros s Hs _. split; [|done]. unfold running. by destruct (H s) as [-> ->]. Qed.
Lemma atomic_set_sched f : (forall x, current (f x) = current x /\ jiffies (f x) = jiffies x) -> atomic (set_sched f).
Proof. intros H. apply atomic_modify. intros s. apply H. Qed.
Lemma atomic_gets {A} (f : kstate -> A) : atomic (gets f).
Proof. by intros n s Hi _. Qed.
Lemma atomic_when b (m : K unit) : atomic m -> atomic (when b m).
Proof. intros H. by destruct b; [|apply atomic_ret]. Qed.
Lemma atomic_loop {X A} (body : X -> K (X + A)) x : (forall x, atomic (body x)) -> atomic (loop body x).
Proof.
  intros H. apply (triple_loop _ _ _ (fun _ _ => True)); [done|]. intros y. eapply triple_conseq; [apply H|done|].
  by intros [?|?].
Qed.
Lemma atomic_for_each {X} (l : list X) f : (forall x, atomic (f x)) -> atomic (for_each l f).
Proof. intros H. apply (triple_for_each _ _ _ _ _ (fun _ => True)). intros; apply H. Qed.
Lemma atomic_for_break {X A} (l : list X) (f : X -> K (option A)) : (forall x, atomic (f x)) -> atomic (for_break l f).
Proof.
  intros H. eapply triple_conseq; [apply (triple_for_break _ _ _ l f (fun _ => True) (fun _ _ => True))|done|done].
  intros x _. eapply triple_conseq; [apply H|done|]. by intros [?|].
Qed.
Lemma atomic_for_until {X A B} (l : list X) (a : A) (f : A -> X -> K (A + B)) :
  (forall a x, atomic (f a x)) -> atomic (for_until l a f).
Proof.
  intros H. eapply triple_conseq; [apply (triple_for_until _ _ _ l f (fun _ _ => True) (fun _ _ => True))|done|done].
  intros x b _. eapply triple_conseq; [apply H|done|]. by intros [?|?].
Qed.
Lemma atomic_knot {A} (F : K A -> K A) : (forall m, atomic m -> atomic (F m)) -> atomic (knot F).
Proof. intros H. by apply triple_knot. Qed.
Lemma atomic_tab_upd {X} (tab : kstate -> list X) put i f :
  (forall l s, k_sched (put l s) = k_sched s) -> atomic (tab_upd tab put i f).
Proof. intros H. apply atomic_bind; [apply atomic_deref|]. intros x. apply atomic_modify. intros s. by rewrite H. Qed.
Lemma atomic_task_upd i f : atomic (task_upd i f).
Proof. apply atomic_bind; [apply atomic_deref|]. intros t. by apply atomic_modify. Qed.
Lemma atomic_cur_upd f : atomic (cur_upd f).
Proof. apply atomic_bind; [apply atomic_get|]. intros s. apply atomic_task_upd. Qed.
Lemma atomic_cur : atomic cur.
Proof. apply atomic_bind; [apply atomic_get|]. intros s. apply atomic_deref. Qed.
Lemma atomic_wake_task t : atomic (wake_task t).
Proof. destruct t; [apply atomic_task_upd|apply atomic_ret]. Qed.
Lemma atomic_wake_up q :
  (forall w s, current (k_sched (wq_put q w s)) = current (k_sched s) /\ jiffies (k_sched (wq_put q w s)) = jiffies (k_sched s)) ->
  atomic (wake_up q).
Proof.
  intros H. apply atomic_bind; [apply atomic_get|]. intros s. destruct (wq_get q s); [|apply atomic_ret].
  apply atomic_bind; [apply atomic_wake_task|]. intros _. by apply atomic_modify.
Qed.
End Atomic.

Create HintDb atomic discriminated.
#[export] Hint Constants Opaque : atomic.
#[export] Hint Resolve atomic_ret atomic_get atomic_panic atomic_fault atomic_deref atomic_task_upd atomic_cur_upd
  atomic_cur atomic_wake_task atomic_gets : atomic.
#[export] Hint Extern 1 (atomic _ _ (modify _)) => apply atomic_modify; intros; split; reflexivity : atomic.
#[export] Hint Extern 1 (atomic _ _ (set_sched _)) => apply atomic_set_sched; intros; split; reflexivity : atomic.
#[export] Hint Extern 1 (atomic _ _ (wake_up _)) => apply atomic_wake_up; intros; cbn; repeat case_match; split; reflexivity : atomic.
#[export] Hint Extern 1 (atomic _ _ (bh_get _)) => apply atomic_deref : atomic.
#[export] Hint Extern 1 (atomic _ _ (req_get _)) => apply atomic_deref : atomic.
#[export] Hint Extern 1 (atomic _ _ (dev_get _)) => apply atomic_deref : atomic.
#[export] Hint Extern 1 (atomic _ _ (bh_upd _ _)) => apply atomic_tab_upd; reflexivity : atomic.
#[export] Hint Extern 1 (atomic _ _ (req_upd _ _)) => apply atomic_tab_upd; reflexivity : atomic.
#[export] Hint Extern 1 (atomic _ _ (dev_upd _ _)) => apply atomic_tab_upd; reflexivity : atomic.
#[export] Hint Extern 1 (atomic _ _ (fd_upd _)) => apply atomic_modify; intros; split; reflexivity : atomic.

Ltac atomic_step :=
  lazymatch goal with
  | |- forall _, _ => intros ?
  | |- atomic _ _ (bind _ _) => apply atomic_bind
  | |- atomic _ _ (when _ _) => apply atomic_when
  | |- atomic _ _ (loop _ _) => apply atomic_loop
  | |- atomic _ _ (for_each _ _) => apply atomic_for_each
  | |- atomic _ _ (for_break _ _) => apply atomic_for_break
  | |- atomic _ _ (for_until _ _ _) => apply atomic_for_until
  | |- atomic _ _ (if ?b then _ else _) => destruct b
  | |- atomic _ _ (match ?x with _ => _ end) => destruct x
  | |- atomic _ _ _ => solve [eauto with atomic nocore]
  end.
Ltac atomic := repeat (cbv beta zeta; atomic_step).

(** ** The parts of the clock interrupt *)

Section Clock.
Context (c j : Z).

Lemma atomic_outb v p : atomic c j (outb v p).
Proof. unfold outb. atomic. Qed.
Lemma atomic_inb p : atomic c j (inb p).
Proof. unfold inb, in_port. atomic. Qed.
Lemma atomic_printk msg : atomic c j (printk msg).
Proof. apply atomic_ret. Qed.
Lemma atomic_timer_upd i f : atomic c j (timer_upd i f).
Proof. unfold timer_upd, timer_get. atomic. Qed.
#[local] Hint Resolve atomic_outb atomic_inb atomic_printk atomic_timer_upd : atomic.

Lemma atomic_sysbeepstop : atomic c j sysbeepstop.
Proof. unfold sysbeepstop. atomic. Qed.
Lemma atomic_set_mon i v : atomic c j (set_mon i v).
Proof. unfold set_mon, arr_upd. atomic. Qed.
Lemma atomic_set_moff i v : atomic c j (set_moff i v).
Proof. unfold set_moff, arr_upd. atomic. Qed.
#[local] Hint Resolve atomic_sysbeepstop atomic_set_mon atomic_set_moff : atomic.
Lemma atomic_do_floppy_timer : atomic c j do_floppy_timer.
Proof. unfold do_floppy_timer. atomic. Qed.
Lemma atomic_ticks nr : atomic c j (ticks_to_floppy_on nr).
Proof. unfold ticks_to_floppy_on. atomic. Qed.
#[local] Hint Resolve atomic_do_floppy_timer atomic_ticks : atomic.

Lemma atomic_add_timer call k fn : (forall f, atomic c j (call f)) -> atomic c j (add_timer call k fn).
Proof. intros H. unfold add_timer, free_timer, set_next_timer, sift, timer_get. atomic. Qed.

(** *** The floppy driver *)

Lemma atomic_end_request off major u : (forall d, atomic c j (off d)) -> atomic c j (end_request off major u).
Proof. intros H. unfold end_request, unlock_buffer, set_current_request. atomic. Qed.
Lemma atomic_fd_end_request u : atomic c j (fd_end_request u).
Proof. apply atomic_end_request. intros d. apply atomic_set_moff. Qed.
Lemma atomic_current_of major : atomic c j (current_of major).
Proof. unfold current_of. atomic. Qed.
Lemma atomic_INIT_REQUEST major : atomic c j (INIT_REQUEST major).
Proof. unfold INIT_REQUEST. atomic. Qed.
Lemma atomic_output_byte b : atomic c j (output_byte b).
Proof. unfold output_byte, fd_get, fd_set_reset. atomic. Qed.
Lemma atomic_buffer_address buf : atomic c j (buffer_address buf).
Proof. unfold buffer_address. atomic. Qed.
Lemma atomic_copy_to_tmp buf : atomic c j (copy_to_tmp buf).
Proof. unfold copy_to_tmp. atomic. Qed.
#[local] Hint Resolve atomic_fd_end_request atomic_current_of atomic_INIT_REQUEST atomic_output_byte atomic_buffer_address
  atomic_copy_to_tmp : atomic.
Lemma atomic_setup_DMA : atomic c j setup_DMA.
Proof. unfold setup_DMA, fd_get. atomic. Qed.
Lemma atomic_reset_floppy : atomic c j reset_floppy.
Proof. unfold reset_floppy, set_do_floppy. atomic. Qed.
Lemma atomic_locate_sector q t : atomic c j (locate_sector q t).
Proof. unfold locate_sector, divl. atomic. Qed.
#[local] Hint Resolve atomic_setup_DMA atomic_reset_floppy atomic_locate_sector : atomic.

Section Knot.
Context (self : K unit) (Hself : atomic c j self).
#[local] Hint Resolve Hself : atomic.

Lemma atomic_setup_rw_floppy : atomic c j (setup_rw_floppy self).
Proof. unfold setup_rw_floppy, if_reset, fd_get, fd_type, set_do_floppy. atomic. Qed.
#[local] Hint Resolve atomic_setup_rw_floppy : atomic.
Lemma atomic_transfer : atomic c j (transfer self).
Proof. unfold transfer, if_reset, fd_get, fd_type, set_do_floppy. atomic. Qed.
#[local] Hint Resolve atomic_transfer : atomic.
Lemma atomic_floppy_on_interrupt : atomic c j (floppy_on_interrupt self).
Proof. unfold floppy_on_interrupt, fd_get, set_selected, set_DOR. atomic. apply atomic_add_timer. atomic. Qed.
#[local] Hint Resolve atomic_floppy_on_interrupt : atomic.
Lemma atomic_fd_request : atomic c j (fd_request self).
Proof.
  unfold fd_request, recalibrate_floppy, if_reset, fd_step, fd_type, fd_get, set_do_floppy. atomic.
  apply atomic_add_timer. atomic.
Qed.
End Knot.

Lemma atomic_do_fd_request : atomic c j do_fd_request.
Proof. apply atomic_knot, atomic_fd_request. Qed.

(** Every function a timer can have. *)
Lemma atomic_timer_fn f : atomic c j (timer_fn f).
Proof.
  unfold timer_fn. destruct (_ =? _); [apply atomic_floppy_on_interrupt, atomic_do_fd_request|].
  destruct (_ =? _); [apply atomic_transfer, atomic_do_fd_request|apply atomic_fault].
Qed.
#[local] Hint Resolve atomic_timer_fn : atomic.

Lemma atomic_run_timers : atomic c j (run_timers timer_fn).
Proof. unfold run_timers, timer_get, set_next_timer. atomic. Qed.
#[local] Hint Resolve atomic_run_timers : atomic.
Lemma atomic_do_timer : atomic c j (do_timer timer_fn sysbeepstop 0).
Proof. unfold do_timer. change (negb (nz 0)) with true. cbn iota. atomic. Qed.
End Clock.

(** Kernel code has no signals delivered to it. *)
Lemma no_signal_in_kernel eax_ r n s :
  Z.land (p_cs r) 3 = 0 ->
  match deliver_signal eax_ r n s with Done x s' => x = (p_eip r, p_esp r) /\ s' = s | Sleep _ _ => False | _ => True end.
Proof.
  intros Hcs. unfold deliver_signal, cur. step (get_run n s). unfold bind at 1. unfold task_get, deref, bind, get. cbn [obind].
  destruct (task_slot s _); cbn [obind]; [|done]. destruct (_ =? 0); [done|].
  assert (Z.land (p_cs r) 0xffff <> 0x0f) as H.
  { intros E. assert (E2 : Z.land (Z.land (p_cs r) 0xffff) 3 = Z.land (p_cs r) 3) by (by rewrite <- Z.land_assoc).
    rewrite E, Hcs in E2. done. }
  by rewrite (proj2 (Z.eqb_neq _ _) H).
Qed.

(** C32. The clock interrupt that finds the processor in kernel code counts the tick and
    goes back to that code with its registers as they were; whatever timers run out, with
    all the floppy driver does in them, whether the speaker stops and however long the
    task has used up its time slice, it never takes the processor from the task. *)
Theorem kernel_not_preempted (f : trap_frame) (n : nat) (s : kstate) :
  Z.land (p_cs (tf_regs f)) 3 = 0 ->
  match timer_interrupt f n s with
  | Sleep _ _ => False
  | Done r s' =>
      current (k_sched s') = current (k_sched s) /\ jiffies (k_sched s') = s32 (jiffies (k_sched s) + 1) /\
      r = (tf_eax f, (p_eip (tf_regs f), p_esp (tf_regs f)))
  | _ => True
  end.
Proof.
  intros Hcs. unfold timer_interrupt, back_signals. rewrite Hcs.
  set (j := s32 (jiffies (k_sched s) + 1)). set (c := current (k_sched s)).
  unfold bind at 1, set_sched at 1, modify. cbn [obind]. set (s1 := upd k_sched _ s).
  unfold bind at 1, outb at 1, set_sched at 1, modify. cbn [obind]. set (s2 := upd k_sched _ s1).
  pose proof (atomic_do_timer c j n s2 (conj eq_refl eq_refl) I) as H. unfold bind at 1.
  destruct (do_timer timer_fn sysbeepstop 0 n s2) as [[] s3| | | |s3 k|]; cbn [obind]; simpl in H; try done; [|by destruct H].
  destruct H as [[Hc Hj] _]. pose proof (no_signal_in_kernel (tf_eax f) (tf_regs f) n s3 Hcs) as Hd. unfold bind.
  destruct (deliver_signal _ _ n s3) as [x s4| | | | |]; cbn [obind]; try done. destruct Hd as [-> ->]. done.
Qed.

(** A tick in kernel code, in which the slice of task 1 ends, the speaker stops and the
    motor of a floppy is found running: the transfer it waited for begins, and resets the
    controller. *)
Definition ticking : kstate :=
  set_cur 1 (set_slot 1 (Some ((init_task 0) <| pid := 1 |> <| counter := 1 |>))
    (boot_k <| k_sched ::= fun c => c <| next_timer := Some 4 |> <| beepcount := 1 |>
       <| timer_list ::= fun l => arr_set l 4 (mkTimer 1 (Some TRANSFER) None) |> |>
     <| k_blk ::= fun b => b <| fdd ::= fun d => d <| fd_reset := 1 |> |> |>)).
Definition kernel_frame : trap_frame :=
  mkTrap 5 (mkPushed 0 0 0 0x10 0 0 0 0x10 0x10 0x10 0x1234 8 0x202 0x5678 0x10) 0 0.

Lemma kernel_not_preempted_witness :
  match timer_interrupt kernel_frame 3%nat ticking with
  | Done _ s' =>
      counter <$> task_slot s' 1 = Some 0 /\ beepcount (k_sched s') = 0 /\
      out (k_sched s') = [(12, FD_DOR); (8, FD_DOR); (0, FD_DCR); (0, 0x61); (0x20, 0x20)]
  | _ => False
  end /\
  match timer_interrupt kernel_frame 3%nat ticking with
  | Sleep _ _ => False
  | Done r s' => current (k_sched s') = 1 /\ jiffies (k_sched s') = 1 /\ r = (5, (0x1234, 0x5678))
  | _ => True
  end.
Proof.
  split; [vm_compute; repeat split|]. exact (kernel_not_preempted kernel_frame 3%nat ticking eq_refl).
Defined.
