(* ===== verification/Vsprintf.v ===== *)
(** * Formatted output: kernel/vsprintf.c

    A string is the list of its bytes without the terminating NUL; the pointer
    [str] into the output is the output so far.  Reading an argument that is not
    there, or of the wrong kind, ends it with [BadArgument]. *)
From Stdlib Require Import ZArith Lia String Ascii.
From stdpp Require Import base list.
From S2P Require Import Prelude.

Definition is_digit (c : Z) : bool := (48 <=? c) && (c <=? 57).

(** The number and the rest of the string. *)
Fixpoint atoi_from (i : Z) (s : list Z) : Z * list Z :=
  match s with
  | c :: s' => if is_digit c then atoi_from (s32 (i * 10 + c - 48)) s' else (i, s)
  | [] => (i, [])
  end.
Definition skip_atoi (s : list Z) : Z * list Z := atoi_from 0 s.

Definition ZEROPAD : Z := 1.
Definition SIGN : Z := 2.
Definition PLUS : Z := 4.
Definition SPACE : Z := 8.
Definition LEFT : Z := 16.
Definition SPECIAL : Z := 32.
Definition SMALL : Z := 64.
Definition has (type flag : Z) : bool := nz (Z.land type flag).

(** [do_div]: an unsigned division of 32 bits; quotient and remainder. *)
Definition do_div (n base : Z) : Z * Z := (s32 (u32 n / base), u32 n mod base).

(** [digits[d]] of the two tables. *)
Definition digit (small : bool) (d : Z) : Z := if d <? 10 then 48 + d else (if small then 87 else 55) + d.

(** [while (num != 0) tmp[i++] = digits[do_div(num, base)]], least significant
    digit first; [fuel] bounds the digits of a 32-bit number. *)
Fixpoint to_digits (fuel : nat) (small : bool) (num base : Z) : list Z :=
  match fuel with
  | O => []
  | S fuel' =>
      if num =? 0 then [] else
      let (q, r) := do_div num base in digit small r :: to_digits fuel' small q base
  end.

(** [while (size-- > 0) *str++ = c]: what is written and what is left of [size]. *)
Definition spread (size c : Z) : list Z * Z := (replicate (Z.to_nat size) c, Z.min size 0 - 1).

Definition number (num base size precision type : Z) : option (list Z) :=
  let small := has type SMALL in
  let type := if has type LEFT then Z.ldiff type ZEROPAD else type in
  if (base <? 2) || (36 <? base) then None else
  let c := if has type ZEROPAD then 48 else 32 in
  let neg := has type SIGN && (num <? 0) in
  let sign := if neg then 45 else if has type PLUS then 43 else if has type SPACE then 32 else 0 in
  let num := if neg then s32 (- num) else num in
  let size := if nz sign then size - 1 else size in
  let size := if has type SPECIAL then (if base =? 16 then size - 2 else if base =? 8 then size - 1 else size)
              else size in
  let tmp := if num =? 0 then [48] else to_digits 32 small num base in
  let i := Z.of_nat (length tmp) in
  let precision := if precision <? i then i else precision in
  let size := size - precision in
  let (pad1, size) := if has type (ZEROPAD + LEFT) then ([], size) else spread size 32 in
  let signs := if nz sign then [sign] else [] in
  let special :=
    if has type SPECIAL then
      (if base =? 8 then [48] else if base =? 16 then [48; digit small 33] else [])
    else [] in
  let (pad2, size) := if has type LEFT then ([], size) else spread size c in
  let zeros := replicate (Z.to_nat (precision - i)) 48 in
  let (pad3, _) := spread size 32 in
  Some (pad1 ++ signs ++ special ++ pad2 ++ zeros ++ rev tmp ++ pad3).

(** ** vsprintf *)

Inductive arg :=
| Int (v : Z)          (* an int, a long or a pointer *)
| Str (s : list Z).    (* a [char *] *)

(** The character [fmt] points to. *)
Definition at_ (fmt : list Z) : Z := match fmt with c :: _ => c | [] => 0 end.

(** The [repeat] loop, from the character after the percent sign on. *)
Fixpoint parse_flags (fmt : list Z) (flags : Z) : Z * list Z :=
  match fmt with
  | [] => (flags, [])
  | c :: fmt' =>
      match c with
      | 45 => parse_flags fmt' (Z.lor flags LEFT)
      | 43 => parse_flags fmt' (Z.lor flags PLUS)
      | 32 => parse_flags fmt' (Z.lor flags SPACE)
      | 35 => parse_flags fmt' (Z.lor flags SPECIAL)
      | 48 => parse_flags fmt' (Z.lor flags ZEROPAD)
      | _ => (flags, fmt)
      end
  end.

Definition next_int (args : list arg) : option (Z * list arg) :=
  match args with Int v :: args' => Some (v, args') | _ => None end.

(** The field width: (width, flags, fmt, args).  A star is not skipped. *)
Definition parse_width (fmt : list Z) (flags : Z) (args : list arg) : option (Z * Z * list Z * list arg) :=
  if is_digit (at_ fmt) then let (w, fmt) := skip_atoi fmt in Some (w, flags, fmt, args)
  else if at_ fmt =? 42 then
    match next_int args with
    | Some (w, args) => Some (if w <? 0 then (s32 (- w), Z.lor flags LEFT, fmt, args) else (w, flags, fmt, args))
    | None => None
    end
  else Some (-1, flags, fmt, args).

Definition parse_precision (fmt : list Z) (args : list arg) : option (Z * list Z * list arg) :=
  match fmt with
  | 46 :: fmt =>
      if is_digit (at_ fmt) then let (p, fmt) := skip_atoi fmt in Some (Z.max p 0, fmt, args)
      else if at_ fmt =? 42 then
        match next_int args with
        | Some (p, args) => Some (Z.max p 0, fmt, args)
        | None => None
        end
      else Some (0, fmt, args)
  | _ => Some (-1, fmt, args)
  end.

Definition skip_qualifier (fmt : list Z) : list Z :=
  match fmt with
  | c :: fmt' => if (c =? 104) || (c =? 108) || (c =? 76) then fmt' else fmt
  | [] => []
  end.

(** The value of an argument fetched as an [unsigned long] and passed as an int. *)
Definition num_arg (args : list arg) : option (Z * list arg) :=
  match next_int args with Some (v, args) => Some (s32 v, args) | None => None end.

(** The conversions: the text, the flags of the outer switch being passed on, the
    values stored through pointers by [%n], and the arguments left. *)
Record conversion := mkConv { c_text : list Z; c_store : list (Z * Z); c_args : list arg }.

Definition conv_number (base width precision flags : Z) (args : list arg) : option conversion :=
  match num_arg args with
  | None => None
  | Some (v, args) =>
      match number v base width precision flags with
      | Some t => Some (mkConv t [] args)
      | None => None
      end
  end.

Definition conv_char (width flags : Z) (args : list arg) : option conversion :=
  match next_int args with
  | None => None
  | Some (v, args) =>
      let pad := replicate (Z.to_nat (width - 1)) 32 in
      Some (mkConv (if has flags LEFT then [u8 v] ++ pad else pad ++ [u8 v]) [] args)
  end.

Definition conv_string (width precision flags : Z) (args : list arg) : option conversion :=
  match args with
  | Str s :: args =>
      let len := Z.of_nat (length s) in
      let len := if precision <? 0 then len else if precision <? len then precision else len in
      let pad := replicate (Z.to_nat (width - len)) 32 in
      let text := take (Z.to_nat len) s in
      Some (mkConv (if has flags LEFT then text ++ pad else pad ++ text) [] args)
  | _ => None
  end.

(** The switch on the conversion character [c], [out] bytes having been written. *)
Definition convert (c out width precision flags : Z) (args : list arg) : option conversion :=
  match c with
  | 99 => conv_char width flags args
  | 115 => conv_string width precision flags args
  | 111 => conv_number 8 width precision flags args
  | 112 => if width =? -1 then conv_number 16 8 precision (Z.lor flags ZEROPAD) args
           else conv_number 16 width precision flags args
  | 120 => conv_number 16 width precision (Z.lor flags SMALL) args
  | 88 => conv_number 16 width precision flags args
  | 100 | 105 => conv_number 10 width precision (Z.lor flags SIGN) args
  | 117 => conv_number 10 width precision flags args
  | 110 => match next_int args with
           | Some (ip, args) => Some (mkConv [] [(ip, out)] args)
           | None => None
           end
  | _ => Some (mkConv ((if c =? 37 then [] else [37]) ++ (if c =? 0 then [] else [c])) [] args)
  end.

(** One round of the outer loop, at a non-empty [fmt]: the conversion and what
    [fmt] is for the next round. *)
Definition format_step (fmt : list Z) (out : Z) (args : list arg) : option (conversion * list Z) :=
  if negb (at_ fmt =? 37) then Some (mkConv [at_ fmt] [] args, tail fmt) else
  let (flags, fmt) := parse_flags (tail fmt) 0 in
  match parse_width fmt flags args with
  | None => None
  | Some (width, flags, fmt, args) =>
      match parse_precision fmt args with
      | None => None
      | Some (precision, fmt, args) =>
          let fmt := skip_qualifier fmt in
          match convert (at_ fmt) out width precision flags args with
          | Some c => Some (c, tail fmt)
          | None => None
          end
      end
  end.

(** How the loop ends: with the text, whose length is the result, and the stores of [%n];
    with the reading of an argument that is not there or of the wrong kind, which C leaves
    undefined; or not within the rounds allowed. *)
Inductive formatted :=
| Formatted (text : list Z) (stores : list (Z * Z))
| BadArgument
| Unfinished.

Fixpoint format_loop (fuel : nat) (fmt out : list Z) (stores : list (Z * Z)) (args : list arg) : formatted :=
  match fmt, fuel with
  | [], _ => Formatted out stores
  | _, O => Unfinished
  | _, S fuel' =>
      match format_step fmt (Z.of_nat (length out)) args with
      | Some (c, fmt') => format_loop fuel' fmt' (out ++ c_text c) (stores ++ c_store c) (c_args c)
      | None => BadArgument
      end
  end.

(** One round for each character of the format. *)
Definition vsprintf (fmt : list Z) (args : list arg) : formatted :=
  format_loop (length fmt) fmt [] [] args.

(** Literals for examples. *)
Definition bytes (s : string) : list Z := map (fun c => Z.of_nat (nat_of_ascii c)) (list_ascii_of_string s).

Example vsprintf_demo :
  vsprintf (bytes "%5d|%-4x|%s|%c%%") [Int 42; Int 255; Str (bytes "ok"); Int 33]
  = Formatted (bytes "   42|ff  |ok|!%") [].
Proof. reflexivity. Qed.
