(* ===== verification/VsprintfProps.v ===== *)
(** * Properties of formatted output

    The text [number] of vsprintf.c writes for an integer, read back digit by digit, is
    the integer, with the digits, zeros and width asked for; the loop of [vsprintf] ends,
    and with a text when it gets the arguments its format asks for. *)
From Stdlib Require Import ZArith Lia String.
From stdpp Require Import base list.
From S2P Require Import Prelude Vsprintf.

(** ** Digits *)

(** The value of a digit character, and of a text in a base. *)
Definition char_value (c : Z) : Z := if c <? 58 then c - 48 else if c <? 97 then c - 55 else c - 87.
Definition text_value (base : Z) (l : list Z) : Z := fold_left (fun v c => v * base + char_value c) l 0.

Lemma char_value_digit small d : 0 <= d < 36 -> char_value (digit small d) = d.
Proof.
  intros Hd. unfold char_value, digit. destruct (Z.ltb_spec d 10); [destruct (Z.ltb_spec (48 + d) 58); lia|].
  destruct small; repeat zcase; lia.
Qed.

Lemma text_value_app base l c : text_value base (l ++ [c]) = text_value base l * base + char_value c.
Proof. unfold text_value. by rewrite fold_left_app. Qed.

(** Enough fuel for the digits of [num]: it is below [base ^ fuel]. *)
Lemma to_digits_value fuel small num base :
  2 <= base <= 36 -> 0 <= u32 num < base ^ Z.of_nat fuel -> -2147483648 <= num < 2147483648 ->
  text_value base (rev (to_digits fuel small num base)) = u32 num.
Proof.
  intros Hb. revert num. induction fuel as [|fuel IH]; intros num Hu Hn; cbn [to_digits].
  - simpl in Hu. cbn. lia.
  - destruct (Z.eqb_spec num 0) as [->|Hne]; [done|]. cbn [do_div]. unfold do_div. cbn [rev].
    pose proof (u32_range num) as Hr.
    assert (Hq : 0 <= u32 num / base < 2147483648) by (split; [apply Z.div_pos; lia|apply Z.div_lt_upper_bound; lia]).
    rewrite (s32_small (u32 num / base)) by lia. rewrite text_value_app, IH.
    + rewrite u32_small by lia. rewrite char_value_digit by (pose proof (Z.mod_pos_bound (u32 num) base); lia).
      pose proof (Z.div_mod (u32 num) base ltac:(lia)). lia.
    + rewrite u32_small by lia. split; [lia|]. rewrite Nat2Z.inj_succ, Z.pow_succ_r in Hu by lia. apply Z.div_lt_upper_bound; lia.
    + lia.
Qed.

Lemma text_value_zeros base k l : text_value base (replicate k 48 ++ l) = text_value base l.
Proof. induction k as [|k IH]; [done|]. cbn. rewrite <- IH. done. Qed.

(** The digits [number] writes, most significant first. *)
Definition digits (small : bool) (num base : Z) : list Z := rev (if num =? 0 then [48] else to_digits 32 small num base).

Lemma digits_value small num base :
  2 <= base <= 36 -> -2147483648 <= num < 2147483648 -> text_value base (digits small num base) = u32 num.
Proof.
  intros Hb Hn. unfold digits. destruct (Z.eqb_spec num 0) as [->|Hne]; [done|]. apply to_digits_value; [done| |done].
  pose proof (u32_range num). split; [lia|]. apply Z.lt_le_trans with (2 ^ 32); [change (2 ^ 32) with 4294967296; lia|].
  change (Z.of_nat 32) with 32. apply Z.pow_le_mono_l. lia.
Qed.

(** ** The parts of the text *)

Definition is_negative (num type : Z) : bool := has type SIGN && (num <? 0).
(** The number whose digits are printed. *)
Definition magnitude (num type : Z) : Z := if is_negative num type then - num else u32 num.
Definition sign_text (num type : Z) : list Z :=
  if is_negative num type then [45] else if has type PLUS then [43] else if has type SPACE then [32] else [].
Definition prefix_text (base type : Z) : list Z :=
  if has type SPECIAL then (if base =? 8 then [48] else if base =? 16 then [48; digit (has type SMALL) 33] else []) else [].

(** Padding, [n] characters of it. *)
Definition left_spaces (n type : Z) : list Z := if has type (ZEROPAD + LEFT) then [] else replicate (Z.to_nat n) 32.
Definition zero_pad (n type : Z) : list Z := if has type LEFT then [] else if has type ZEROPAD then replicate (Z.to_nat n) 48 else [].
Definition right_spaces (n type : Z) : list Z := if has type LEFT then replicate (Z.to_nat n) 32 else [].

Lemma has_lor type a b : has type a = true -> has type (Z.lor a b) = true.
Proof.
  unfold has. rewrite !nz_true. intros H E. apply H. rewrite Z.land_lor_distr_r in E. by apply Z.lor_eq_0_iff in E as [E _].
Qed.

Lemma has_none type a b : has type a = false -> has type b = false -> has type (Z.lor a b) = false.
Proof. unfold has. rewrite !nz_false, Z.land_lor_distr_r. intros -> ->. done. Qed.

Lemma has_left_zeropad type : has type LEFT = true -> has (Z.ldiff type ZEROPAD) ZEROPAD = false.
Proof.
  intros _. unfold has. apply nz_false. apply Z.bits_inj'. intros k Hk. rewrite Z.land_spec, Z.ldiff_spec, Z.bits_0.
  by destruct (Z.testbit type k), (Z.testbit ZEROPAD k).
Qed.

Lemma has_ldiff type f : Z.land f ZEROPAD = 0 -> has (Z.ldiff type ZEROPAD) f = has type f.
Proof.
  intros Hf. unfold has. f_equal. apply Z.bits_inj'. intros k Hk. rewrite !Z.land_spec, Z.ldiff_spec.
  assert (H : Z.testbit (Z.land f ZEROPAD) k = false) by (rewrite Hf; apply Z.bits_0). rewrite Z.land_spec in H.
  by destruct (Z.testbit type k), (Z.testbit ZEROPAD k), (Z.testbit f k).
Qed.

Lemma spread_spent size c : size < 0 -> spread size c = ([], size - 1).
Proof. intros H. unfold spread. rewrite Z.min_l by lia. by replace (Z.to_nat size) with 0%nat by lia. Qed.

Definition printed (num type : Z) : Z := if is_negative num type then s32 (- num) else num.

(** The text of [number] in its parts. *)
Lemma number_text num base size precision type :
  2 <= base <= 36 ->
  let ds := digits (has type SMALL) (printed num type) base in
  let p := Z.max precision (Z.of_nat (length ds)) in
  let n := size - Z.of_nat (length (sign_text num type)) - Z.of_nat (length (prefix_text base type)) - p in
  number num base size precision type =
    Some (left_spaces n type ++ sign_text num type ++ prefix_text base type ++ zero_pad n type ++
          replicate (Z.to_nat (p - Z.of_nat (length ds))) 48 ++ ds ++ right_spaces n type).
Proof.
  intros Hb ds p n. unfold number. cbv zeta.
  set (ty := if has type LEFT then Z.ldiff type ZEROPAD else type).
  assert (Hty : forall f, Z.land f ZEROPAD = 0 -> has ty f = has type f).
  { intros f Hf. unfold ty. destruct (has type LEFT); [by apply has_ldiff|done]. }
  rewrite !(Hty SIGN), !(Hty PLUS), !(Hty SPACE), !(Hty SPECIAL), !(Hty LEFT) by done.
  replace ((base <? 2) || (36 <? base)) with false by (symmetry; apply orb_false_iff; split; apply Z.ltb_ge; lia).
  fold (is_negative num type). fold (printed num type).
  set (tmp := if printed num type =? 0 then [48] else to_digits 32 (has type SMALL) (printed num type) base).
  assert (Hds : ds = rev tmp) by done. assert (Hlen : length tmp = length ds) by (rewrite Hds; by rewrite length_rev).
  rewrite <- Hds, Hlen. clear Hds Hlen. subst p n. clearbody tmp ds. set (p := Z.max precision _). set (n := size - _ - _ - p).
  set (sg := if is_negative num type then 45 else if has type PLUS then 43 else if has type SPACE then 32 else 0).
  assert (Hsg : (if nz sg then [sg] else []) = sign_text num type).
  { unfold sg, sign_text. by destruct (is_negative num type), (has type PLUS), (has type SPACE). }
  rewrite Hsg.
  assert (Hp : (if precision <? Z.of_nat (length ds) then Z.of_nat (length ds) else precision) = p) by (unfold p; destruct (Z.ltb_spec precision (Z.of_nat (length ds))); lia).
  rewrite Hp.
  fold (prefix_text base type).
  assert (Hn : (if has type SPECIAL then (if base =? 16 then (if nz sg then size - 1 else size) - 2 else
      if base =? 8 then (if nz sg then size - 1 else size) - 1 else (if nz sg then size - 1 else size))
      else (if nz sg then size - 1 else size)) - p = n).
  { unfold n. assert (Hs1 : (if nz sg then size - 1 else size) = size - Z.of_nat (length (sign_text num type))).
    { rewrite <- Hsg. destruct (nz sg); simpl; lia. }
    rewrite Hs1. unfold prefix_text. destruct (has type SPECIAL); [|simpl; lia].
    destruct (Z.eqb_spec base 16) as [->|]; [simpl; lia|]. destruct (Z.eqb_spec base 8); simpl; lia. }
  rewrite Hn. clearbody n p sg. unfold left_spaces, zero_pad, right_spaces.
  destruct (has type LEFT) eqn:EL.
  - assert (E1 : has ty (ZEROPAD + LEFT) = true) by (apply (has_lor ty LEFT ZEROPAD); by rewrite Hty).
    assert (E2 : has type (ZEROPAD + LEFT) = true) by (by apply (has_lor type LEFT ZEROPAD)).
    rewrite E1, E2. cbn [app]. done.
  - assert (ty = type) as -> by done. destruct (has type ZEROPAD) eqn:EZ.
    + assert (E2 : has type (ZEROPAD + LEFT) = true) by (by apply (has_lor type ZEROPAD LEFT)).
      rewrite E2. unfold spread at 1. rewrite spread_spent by lia. cbn [app]. by rewrite !app_nil_r.
    + assert (E2 : has type (ZEROPAD + LEFT) = false) by (by apply (has_none type ZEROPAD LEFT)).
      rewrite E2. unfold spread at 1. rewrite spread_spent by lia. rewrite spread_spent by lia. cbn [app]. by rewrite !app_nil_r.
Qed.

(** *** How many digits a number has *)

(** The fewest digits that suffice: 0 has one. *)
Definition numeral_length (base m k : Z) : Prop := 1 <= k /\ m < base ^ k /\ (k = 1 \/ base ^ (k - 1) <= m).

Lemma to_digits_length fuel small num base :
  2 <= base <= 36 -> 0 < u32 num < base ^ Z.of_nat fuel -> -2147483648 <= num < 2147483648 ->
  numeral_length base (u32 num) (Z.of_nat (length (to_digits fuel small num base))).
Proof.
  intros Hb. revert num. induction fuel as [|fuel IH]; intros num Hu Hn; cbn [to_digits]; [simpl in Hu; lia|].
  destruct (Z.eqb_spec num 0) as [->|Hne]; [change (u32 0) with 0 in Hu; lia|]. unfold do_div. cbn [length].
  pose proof (u32_range num) as Hr.
  assert (Hq : 0 <= u32 num / base < 2147483648) by (split; [apply Z.div_pos; lia|apply Z.div_lt_upper_bound; lia]).
  rewrite (s32_small (u32 num / base)) by lia. pose proof (Z.div_mod (u32 num) base ltac:(lia)) as Hdm.
  pose proof (Z.mod_pos_bound (u32 num) base ltac:(lia)) as Hm.
  destruct (Z.eq_dec (u32 num / base) 0) as [E0|E0].
  - rewrite E0. assert (to_digits fuel small 0 base = []) as -> by (by destruct fuel). simpl. unfold numeral_length.
    change (Z.of_nat 1) with 1. rewrite Z.pow_1_r. lia.
  - destruct (IH (u32 num / base)) as (H1 & H2 & H3).
    { rewrite u32_small by lia. split; [lia|]. rewrite Nat2Z.inj_succ, Z.pow_succ_r in Hu by lia. apply Z.div_lt_upper_bound; lia. }
    { lia. }
    rewrite (u32_small (u32 num / base)) in H2, H3 by lia. revert H1 H2 H3. generalize (length (to_digits fuel small (u32 num / base) base)).
    intros d H1 H2 H3. unfold numeral_length. rewrite Nat2Z.inj_succ. set (k := Z.of_nat d) in *. clearbody k.
    split; [lia|]. split; [rewrite Z.pow_succ_r by lia; nia|]. right. replace (Z.succ k - 1) with k by lia.
    destruct H3 as [E|H3]; [rewrite E, Z.pow_1_r; nia|].
    replace k with (Z.succ (k - 1)) by lia. rewrite Z.pow_succ_r by lia. nia.
Qed.

Lemma digits_length small num base :
  2 <= base <= 36 -> -2147483648 <= num < 2147483648 -> numeral_length base (u32 num) (Z.of_nat (length (digits small num base))).
Proof.
  intros Hb Hn. unfold digits. rewrite length_rev. destruct (Z.eqb_spec num 0) as [->|Hne].
  - change (u32 0) with 0. unfold numeral_length. simpl. change (Z.of_nat 1) with 1. rewrite Z.pow_1_r. lia.
  - apply to_digits_length; [done| |done]. pose proof (u32_range num).
    assert (u32 num <> 0) by (unfold u32; Z.div_mod_to_equations; lia).
    split; [lia|]. apply Z.lt_le_trans with (2 ^ 32); [change (2 ^ 32) with 4294967296; lia|].
    change (Z.of_nat 32) with 32. apply Z.pow_le_mono_l. lia.
Qed.

(** The digits of a base, in the case asked for. *)
Definition digit_of (small : bool) (base c : Z) : Prop := exists d, 0 <= d < base /\ c = digit small d.

Lemma digits_are_digits small num base : 2 <= base <= 36 -> Forall (digit_of small base) (digits small num base).
Proof.
  intros Hb. unfold digits. apply Forall_rev. destruct (num =? 0).
  - constructor; [|done]. exists 0. split; [lia|done].
  - generalize 32%nat. intros fuel. revert num. induction fuel as [|fuel IH]; intros num; cbn [to_digits]; [done|].
    destruct (num =? 0); [done|]. unfold do_div. constructor; [|apply IH].
    eexists. split; [|reflexivity]. apply Z.mod_pos_bound. lia.
Qed.

(** The value printed is the magnitude. *)
Lemma printed_magnitude num type : -2147483648 <= num < 2147483648 ->
  u32 (printed num type) = magnitude num type /\ -2147483648 <= printed num type < 2147483648.
Proof.
  intros Hn. unfold magnitude, printed. destruct (is_negative num type) eqn:E; [|done]. unfold is_negative in E. bprop.
  pose proof (s32_range (- num)). split; [|lia]. unfold u32, s32. Z.to_euclidean_division_equations; lia.
Qed.

(** C36. [number] never fails for a base from 2 to 36.  What it writes is padding, the
    sign, the prefix, zeros, the digits of its argument and padding.  The digits are those
    of the base in the case asked for, as few as the magnitude needs, and read back in
    the base they are the magnitude: the absolute value of a signed argument, also of the
    smallest integer, and the unsigned value of any other.  The zeros fill up to the
    precision, and with zero padding up to the width; spaces otherwise fill the width on
    the side asked for; the text is exactly as long as the width, or as the number needs
    when that is more. *)
Theorem number_reads_back (num base size precision type : Z) :
  2 <= base <= 36 -> -2147483648 <= num < 2147483648 ->
  exists spaces zeros ds spaces',
    let sign := sign_text num type in let prefix := prefix_text base type in let nd := Z.of_nat (length ds) in
    let text := replicate spaces 32 ++ sign ++ prefix ++ replicate zeros 48 ++ ds ++ replicate spaces' 32 in
    number num base size precision type = Some text /\
    text_value base ds = magnitude num type /\ Forall (digit_of (has type SMALL) base) ds /\
    numeral_length base (magnitude num type) nd /\
    Z.of_nat (length text) = Z.max size (Z.of_nat (length sign) + Z.of_nat (length prefix) + Z.max precision nd) /\
    (if has type LEFT then spaces = 0%nat else spaces' = 0%nat) /\
    (if has type ZEROPAD && negb (has type LEFT) then spaces = 0%nat else Z.of_nat zeros = Z.max precision nd - nd).
Proof.
  intros Hb Hnum. pose proof (number_text num base size precision type Hb) as H. cbv zeta in H.
  set (ds := digits _ _ _) in H. set (p := Z.max precision _) in H. set (n := size - _ - _ - p) in H.
  destruct (printed_magnitude num type Hnum) as [Em Hp].
  pose proof (digits_length (has type SMALL) _ base Hb Hp) as Hl. fold ds in Hl. rewrite Em in Hl.
  pose proof (digits_value (has type SMALL) _ base Hb Hp) as Hv. fold ds in Hv. rewrite Em in Hv.
  pose proof (digits_are_digits (has type SMALL) (printed num type) base Hb) as Hd. fold ds in Hd.
  set (z := Z.to_nat (p - Z.of_nat (length ds))) in H.
  assert (Ez : Z.of_nat z = p - Z.of_nat (length ds)) by (unfold z, p; lia).
  exists (if has type (ZEROPAD + LEFT) then 0%nat else Z.to_nat n),
    ((if has type LEFT then 0 else if has type ZEROPAD then Z.to_nat n else 0) + z)%nat, ds,
    (if has type LEFT then Z.to_nat n else 0%nat).
  cbv zeta. rewrite replicate_add, !length_app, !length_replicate. rewrite H. unfold left_spaces, zero_pad, right_spaces.
  destruct (has type LEFT) eqn:EL; [|destruct (has type ZEROPAD) eqn:EZ].
  - assert (has type (ZEROPAD + LEFT) = true) as -> by (by apply (has_lor type LEFT ZEROPAD)).
    rewrite andb_false_r. cbn [replicate app negb]. repeat (split; [first [done|unfold n, p; lia]|]). fold p. lia.
  - assert (has type (ZEROPAD + LEFT) = true) as -> by (by apply (has_lor type ZEROPAD LEFT)).
    cbn [replicate app negb andb]. rewrite <- !app_assoc. repeat (split; [first [done|unfold n, p; lia]|]). done.
  - assert (has type (ZEROPAD + LEFT) = false) as -> by (by apply (has_none type ZEROPAD LEFT)).
    cbn [replicate app negb andb]. repeat (split; [first [done|unfold n, p; lia]|]). fold p. lia.
Qed.

Lemma number_reads_back_witness :
  number (-2147483648) 10 14 (-1) 3 = Some (bytes "-0002147483648") /\
  exists spaces zeros ds spaces',
    let sign := sign_text (-2147483648) 3 in let prefix := prefix_text 10 3 in let nd := Z.of_nat (length ds) in
    let text := replicate spaces 32 ++ sign ++ prefix ++ replicate zeros 48 ++ ds ++ replicate spaces' 32 in
    number (-2147483648) 10 14 (-1) 3 = Some text /\
    text_value 10 ds = magnitude (-2147483648) 3 /\ Forall (digit_of (has 3 SMALL) 10) ds /\
    numeral_length 10 (magnitude (-2147483648) 3) nd /\
    Z.of_nat (length text) = Z.max 14 (Z.of_nat (length sign) + Z.of_nat (length prefix) + Z.max (-1) nd) /\
    (if has 3 LEFT then spaces = 0%nat else spaces' = 0%nat) /\
    (if has 3 ZEROPAD && negb (has 3 LEFT) then spaces = 0%nat else Z.of_nat zeros = Z.max (-1) nd - nd).
Proof. split; [vm_compute; reflexivity|]. apply (number_reads_back (-2147483648) 10 14 (-1) 3); lia. Defined.

(** ** The loop over the format *)

Lemma parse_flags_shorter fmt flags : (length (parse_flags fmt flags).2 <= length fmt)%nat.
Proof.
  revert flags. induction fmt as [|c fmt IH]; intros flags; [done|]. cbn [parse_flags].
  assert (H : forall f, (length (parse_flags fmt f).2 <= length (c :: fmt))%nat) by (intros f; specialize (IH f); simpl; lia).
  repeat match goal with |- context [match ?x with _ => _ end] => destruct x end; first [apply H | simpl; lia].
Qed.

Lemma atoi_shorter s i : (length (atoi_from i s).2 <= length s)%nat.
Proof. revert i. induction s as [|c s IH]; intros i; [done|]. cbn [atoi_from]. destruct (is_digit c); [|done]. specialize (IH (s32 (i * 10 + c - 48))). simpl. lia. Qed.

Lemma parse_width_shorter fmt flags args w f fmt' args' :
  parse_width fmt flags args = Some (w, f, fmt', args') -> (length fmt' <= length fmt)%nat.
Proof.
  unfold parse_width, skip_atoi. destruct (is_digit _).
  - pose proof (atoi_shorter fmt 0). destruct (atoi_from 0 fmt). by intros [= <- <- <- <-].
  - destruct (at_ fmt =? 42); [|by intros [= <- <- <- <-]]. destruct (next_int args) as [[v a]|]; [|done].
    destruct (v <? 0); by intros [= <- <- <- <-].
Qed.

Lemma parse_precision_shorter fmt args p fmt' args' :
  parse_precision fmt args = Some (p, fmt', args') -> (length fmt' <= length fmt)%nat.
Proof.
  assert (Hsame : Some (-1, fmt, args) = Some (p, fmt', args') -> (length fmt' <= length fmt)%nat) by (by intros [= <- <- <-]).
  destruct fmt as [|c fmt]; [exact Hsame|]. destruct (decide (c = 46)) as [->|Hc].
  - cbn [parse_precision]. unfold skip_atoi. destruct (is_digit _).
    + pose proof (atoi_shorter fmt 0). destruct (atoi_from 0 fmt). intros [= <- <- <-]. simpl in *. lia.
    + destruct (at_ fmt =? 42); [|intros [= <- <- <-]; simpl; lia]. destruct (next_int args) as [[v a]|]; [|done].
      intros [= <- <- <-]. simpl. lia.
  - unfold parse_precision. repeat match goal with |- context [match ?x with _ => _ end] => destruct x; try done end; exact Hsame.
Qed.

Lemma skip_qualifier_shorter fmt : (length (skip_qualifier fmt) <= length fmt)%nat.
Proof. destruct fmt as [|c fmt]; [done|]. simpl. destruct (_ || _); simpl; lia. Qed.

(** Every round consumes the character it starts at. *)
Lemma format_step_shorter fmt out args c fmt' :
  fmt <> [] -> format_step fmt out args = Some (c, fmt') -> (length fmt' < length fmt)%nat.
Proof.
  destruct fmt as [|x fmt]; [done|]. intros _. unfold format_step. destruct (negb _); [intros [= <- <-]; simpl; lia|].
  pose proof (parse_flags_shorter (tail (x :: fmt)) 0) as H1. destruct (parse_flags _ 0) as [flags f1]. cbn [tail snd] in H1.
  destruct (parse_width f1 flags args) as [[[[w f] f2] a]|] eqn:E2; [|done]. apply parse_width_shorter in E2.
  destruct (parse_precision f2 a) as [[[p f3] a']|] eqn:E3; [|done]. apply parse_precision_shorter in E3.
  pose proof (skip_qualifier_shorter f3) as H4. destruct (convert _ _ _ _ _ _); [|done]. intros [= <- <-].
  cbn [length] in *. destruct (skip_qualifier f3); simpl in *; lia.
Qed.

(** *** The arguments a format asks for *)

Inductive kind := KInt | KStr.
#[export] Instance kind_eq_dec : EqDecision kind.
Proof. solve_decision. Defined.
Definition kind_of (a : arg) : kind := match a with Int _ => KInt | Str _ => KStr end.

Fixpoint skip (p : Z -> bool) (l : list Z) : list Z :=
  match l with c :: l' => if p c then skip p l' else l | [] => [] end.
Definition is_flag (c : Z) : bool := (c =? 45) || (c =? 43) || (c =? 32) || (c =? 35) || (c =? 48).
Definition is_star (fmt : list Z) : list kind := if at_ fmt =? 42 then [KInt] else [].
Definition converts (c : Z) : list kind :=
  if bool_decide (c ∈ [99; 111; 112; 120; 88; 100; 105; 117; 110]) then [KInt] else if c =? 115 then [KStr] else [].

(** What follows the precision, and the arguments of width and precision. *)
Definition after_width (fmt : list Z) : list kind * list Z :=
  let fmt := skip is_flag fmt in
  let rest := skip is_digit fmt in
  if at_ rest =? 46 then (is_star fmt ++ is_star (tail rest), skip is_digit (tail rest)) else (is_star fmt, rest).

(** The arguments for what stands at the beginning of a format, and the rest of it. *)
Definition first_asks (fmt : list Z) : list kind * list Z :=
  if at_ fmt =? 37 then
    let '(ks, fmt) := after_width (tail fmt) in
    let fmt := skip_qualifier fmt in
    (ks ++ converts (at_ fmt), tail fmt)
  else ([], tail fmt).

Inductive asks : list Z -> list kind -> Prop :=
| asks_end : asks [] []
| asks_next fmt ks fmt' ks' : fmt <> [] -> first_asks fmt = (ks, fmt') -> asks fmt' ks' -> asks fmt (ks ++ ks').

Definition supplies (args : list arg) (ks : list kind) : Prop := ks `prefix_of` map kind_of args.

Lemma supplies_app args ks ks' : supplies args (ks ++ ks') ->
  exists args1 args2, args = args1 ++ args2 /\ map kind_of args1 = ks /\ supplies args2 ks'.
Proof.
  intros [r E]. rewrite <- app_assoc in E. apply map_eq_app in E as (a1 & a2 & -> & <- & E). exists a1, a2. split; [done|].
  split; [done|]. by exists r.
Qed.

Lemma parse_flags_skip fmt flags : (parse_flags fmt flags).2 = skip is_flag fmt.
Proof.
  revert flags. induction fmt as [|c fmt IH]; intros flags; [done|]. cbn [parse_flags skip]. unfold is_flag.
  repeat match goal with |- context [match ?x with _ => _ end] => is_var x; destruct x; try apply IH; try done end.
Qed.

Lemma atoi_skip i fmt : (atoi_from i fmt).2 = skip is_digit fmt.
Proof. revert i. induction fmt as [|c fmt IH]; intros i; [done|]. cbn [atoi_from skip]. destruct (is_digit c); [apply IH|done]. Qed.

Lemma is_digit_star fmt : at_ fmt = 42 -> is_digit (at_ fmt) = false /\ skip is_digit fmt = fmt.
Proof. intros E. destruct fmt as [|c fmt]; [done|]. simpl in E. subst c. done. Qed.

Lemma skip_no_digit fmt : is_digit (at_ fmt) = false -> skip is_digit fmt = fmt.
Proof. destruct fmt as [|c fmt]; [done|]. simpl. by intros ->. Qed.

(** A star takes an integer; in any case the digits are skipped. *)
Lemma parse_width_asks fmt flags args ks : supplies args (is_star fmt ++ ks) ->
  exists w f args', parse_width fmt flags args = Some (w, f, skip is_digit fmt, args') /\ supplies args' ks.
Proof.
  unfold parse_width, is_star, skip_atoi. intros H. destruct (is_digit (at_ fmt)) eqn:Ed.
  - pose proof (atoi_skip 0 fmt) as Es. destruct (atoi_from 0 fmt) as [w f]. simpl in Es. subst f.
    destruct (Z.eqb_spec (at_ fmt) 42) as [E|E]; [by rewrite E in Ed|]. by do 3 eexists.
  - rewrite (skip_no_digit fmt Ed). destruct (at_ fmt =? 42); [|by do 3 eexists].
    apply supplies_app in H as ([|a [|]] & a2 & -> & E & H); try done. destruct a as [v|]; [|done]. cbn [next_int app].
    destruct (v <? 0); by do 3 eexists.
Qed.

Lemma parse_precision_other fmt args : at_ fmt <> 46 -> parse_precision fmt args = Some (-1, fmt, args).
Proof.
  intros H. destruct fmt as [|c fmt]; [done|]. simpl in H. unfold parse_precision.
  repeat match goal with |- context [match ?x with _ => _ end] => is_var x; destruct x; try done end.
Qed.

Lemma parse_precision_asks fmt args ks : at_ fmt = 46 -> supplies args (is_star (tail fmt) ++ ks) ->
  exists p args', parse_precision fmt args = Some (p, skip is_digit (tail fmt), args') /\ supplies args' ks.
Proof.
  destruct fmt as [|c fmt]; [done|]. intros E H. simpl in E. subst c. cbn [tail] in *. unfold parse_precision, is_star, skip_atoi in *.
  destruct (is_digit (at_ fmt)) eqn:Ed.
  - pose proof (atoi_skip 0 fmt) as Es. destruct (atoi_from 0 fmt) as [w f]. simpl in Es. subst f.
    destruct (Z.eqb_spec (at_ fmt) 42) as [E|E]; [by rewrite E in Ed|]. by do 2 eexists.
  - rewrite (skip_no_digit fmt Ed). destruct (at_ fmt =? 42); [|by do 2 eexists].
    apply supplies_app in H as ([|a [|]] & a2 & -> & E & H); try done. destruct a as [v|]; [|done]. cbn [next_int app]. by do 2 eexists.
Qed.

Lemma number_some num base size precision type : 2 <= base <= 36 -> is_Some (number num base size precision type).
Proof. intros Hb. pose proof (number_text num base size precision type Hb) as H. cbv zeta in H. rewrite H. by eexists. Qed.

Lemma conv_number_some base width precision flags v args : 2 <= base <= 36 ->
  exists x, conv_number base width precision flags (Int v :: args) = Some x /\ c_args x = args.
Proof.
  intros Hb. unfold conv_number, num_arg. cbn [next_int].
  destruct (number_some (s32 v) base width precision flags Hb) as [t ->]. by eexists.
Qed.

Lemma convert_asks c out width precision flags args ks : supplies args (converts c ++ ks) ->
  exists x, convert c out width precision flags args = Some x /\ supplies (c_args x) ks.
Proof.
  unfold converts. case_bool_decide as Hc.
  - intros ([|a [|]] & a2 & -> & E & H)%supplies_app; try done. destruct a as [v|]; [|done]. cbn [app].
    assert (Hn : forall base w f, 2 <= base <= 36 -> exists x, conv_number base w precision f (Int v :: a2) = Some x /\ supplies (c_args x) ks).
    { intros base w f Hb. destruct (conv_number_some base w precision f v a2 Hb) as (x & Ex & Ea). exists x. by rewrite Ea. }
    repeat (apply elem_of_cons in Hc as [->|Hc]; [unfold convert; try (apply Hn; lia)|]); [..|by apply elem_of_nil in Hc].
    + by eexists.
    + destruct (width =? -1); apply Hn; lia.
    + by eexists.
  - destruct (Z.eqb_spec c 115) as [->|Hs].
    + intros ([|a [|]] & a2 & -> & E & H)%supplies_app; try done. destruct a as [|l]; [done|]. by eexists.
    + intros H. assert (E : convert c out width precision flags args =
        Some (mkConv ((if c =? 37 then [] else [37]) ++ (if c =? 0 then [] else [c])) [] args)); [|by eexists].
      rewrite !not_elem_of_cons in Hc. unfold convert.
      repeat match goal with |- context [match ?x with _ => _ end] => is_var x; destruct x; try done; try lia end.
Qed.

(** A round takes the arguments its conversion asks for. *)
Lemma format_step_asks fmt out args ks fmt' ks' :
  first_asks fmt = (ks, fmt') -> supplies args (ks ++ ks') ->
  exists c, format_step fmt out args = Some (c, fmt') /\ supplies (c_args c) ks'.
Proof.
  unfold first_asks, format_step, after_width. destruct (at_ fmt =? 37); cbn [negb]; [|intros [= <- <-] H; by eexists].
  pose proof (parse_flags_skip (tail fmt) 0) as Ef. destruct (parse_flags (tail fmt) 0) as [flags f1]. cbn [snd] in Ef. rewrite <- Ef.
  destruct (Z.eqb_spec (at_ (skip is_digit f1)) 46) as [E46|E46]; intros [= <- <-] H; rewrite <- !app_assoc in H;
    (destruct (parse_width_asks f1 flags args _ H) as (w & f & a & -> & Ha)).
  - destruct (parse_precision_asks _ a _ E46 Ha) as (p & a' & -> & Ha').
    destruct (convert_asks _ out w p f a' _ Ha') as (x & -> & Hx). by eexists.
  - rewrite parse_precision_other by done. destruct (convert_asks _ out w (-1) f a _ Ha) as (x & -> & Hx). by eexists.
Qed.

Lemma skip_shorter p l : (length (skip p l) <= length l)%nat.
Proof. induction l as [|c l IH]; [done|]. simpl. destruct (p c); simpl; lia. Qed.

Lemma first_asks_shorter fmt ks fmt' : fmt <> [] -> first_asks fmt = (ks, fmt') -> (length fmt' < length fmt)%nat.
Proof.
  destruct fmt as [|c fmt]; [done|]. intros _. unfold first_asks, after_width. cbn [tail length].
  pose proof (skip_shorter is_flag fmt). pose proof (skip_shorter is_digit (skip is_flag fmt)) as H2.
  assert (T : forall l : list Z, (length (tail l) <= length l)%nat) by (intros [|? ?]; simpl; lia).
  pose proof (skip_shorter is_digit (tail (skip is_digit (skip is_flag fmt)))) as H3.
  pose proof (T (skip is_digit (skip is_flag fmt))) as H4.
  destruct (_ =? 37); [|intros [= <- <-]; lia].
  destruct (_ =? 46); intros [= <- <-];
    match goal with |- (length (tail (skip_qualifier ?l)) < _)%nat => pose proof (skip_qualifier_shorter l); pose proof (T (skip_qualifier l)) end; lia.
Qed.

Lemma asks_total fmt : exists ks, asks fmt ks.
Proof.
  remember (length fmt) as k eqn:Ek. revert fmt Ek. induction (lt_wf k) as [k _ IH]; intros fmt ->.
  destruct fmt as [|c fmt]; [exists []; constructor|]. destruct (first_asks (c :: fmt)) as [ks fmt'] eqn:E.
  destruct (IH (length fmt')) with (fmt := fmt') as (ks' & H); [by eapply first_asks_shorter|done|].
  exists (ks ++ ks'). by econstructor.
Qed.

Lemma format_loop_total k fmt out stores args :
  (length fmt <= k)%nat -> format_loop k fmt out stores args <> Unfinished /\
  forall ks, asks fmt ks -> supplies args ks -> exists text w, format_loop k fmt out stores args = Formatted text w.
Proof.
  revert fmt out stores args. induction k as [|k IH]; intros fmt out stores args Hk.
  - destruct fmt; [|simpl in Hk; lia]. split; [done|]. by do 2 eexists.
  - destruct fmt as [|x fmt]; [split; [done|by do 2 eexists]|]. cbn [format_loop]. split.
    + destruct (format_step _ _ _) as [[c f']|] eqn:E; [|done]. apply format_step_shorter in E; [|done].
      apply IH. simpl in *. lia.
    + intros ks Ha Hs. inversion Ha as [|? ks1 fmt' ks2 _ E Ha2]; subst.
      destruct (format_step_asks _ (Z.of_nat (length out)) _ _ _ _ E Hs) as (c & E2 & Hc). rewrite E2.
      apply first_asks_shorter in E; [|done]. apply (IH fmt' _ _ (c_args c)) with (ks := ks2); [simpl in *; lia|done|done].
Qed.

(** C40. [vsprintf] ends on every format and every argument list: as many rounds as the
    format has characters are enough for its loop, and more change nothing.  Every format
    asks for certain arguments, and given these, integers and strings in their order, it
    ends with a text. *)
Theorem vsprintf_terminates (fuel : nat) (fmt : list Z) (args : list arg) :
  (length fmt <= fuel)%nat ->
  format_loop fuel fmt [] [] args = vsprintf fmt args /\ vsprintf fmt args <> Unfinished /\
  exists ks, asks fmt ks /\ (supplies args ks -> exists text stores, vsprintf fmt args = Formatted text stores).
Proof.
  assert (H : forall k k' fmt out stores args, (length fmt <= k)%nat -> (length fmt <= k')%nat ->
    format_loop k fmt out stores args = format_loop k' fmt out stores args).
  { induction k as [|k IH]; intros k' f out stores a Hk Hk'.
    - destruct f; [|simpl in Hk; lia]. by destruct k'.
    - destruct f as [|x f]; [by destruct k'|]. destruct k' as [|k']; [simpl in Hk'; lia|]. cbn [format_loop].
      destruct (format_step _ _ _) as [[c f']|] eqn:E; [|done]. apply format_step_shorter in E; [|done].
      apply IH; simpl in *; lia. }
  intros Hf. destruct (format_loop_total (length fmt) fmt [] [] args (le_n _)) as [H1 H2].
  split; [by apply H|]. split; [exact H1|]. destruct (asks_total fmt) as [ks Hks]. exists ks. split; [done|]. by apply H2.
Qed.

Lemma vsprintf_terminates_witness :
  vsprintf (bytes "a%d%%") [Int 7] = Formatted (bytes "a7%") [] /\
  format_loop 9%nat (bytes "a%d%%") [] [] [Int 7] = vsprintf (bytes "a%d%%") [Int 7] /\ vsprintf (bytes "a%d%%") [Int 7] <> Unfinished /\
  exists ks, asks (bytes "a%d%%") ks /\ (supplies [Int 7] ks -> exists text stores, vsprintf (bytes "a%d%%") [Int 7] = Formatted text stores).
Proof. split; [vm_compute; reflexivity|]. apply (vsprintf_terminates 9%nat (bytes "a%d%%") [Int 7]). simpl; lia. Defined.
