(* ===== verification/Diag.v ===== *)
(** * Messages of the kernel: kernel/printk.c, kernel/panic.c

    Where the other files call [printk] and [panic], the output is left out and a panic
    is an outcome; here are the two functions themselves.  [printk] formats into its
    static buffer and writes that to the console with fs: set to the kernel's data. *)
From Stdlib Require Import ZArith Lia String.
From stdpp Require Import base list.
From S2P Require Import Prelude Resumption Memory KState Runs Sched BlkDev Buffer Super Inode Errno Console ConsoleProps Tty TtyProps ScreenProps Vsprintf.

Section Diag.
(** [buf] is the address of the static buffer. *)
Context {driver : Driver} (buf : Z).

Definition printk_out (fmt : list Z) (args : list arg) : K Z :=
  match vsprintf fmt args with
  | Unfinished => fun _ _ => NoFuel
  | BadArgument => fault
  | Formatted text _ =>
      if 1024 <=? Z.of_nat (length text) then fault else
      let i := Z.of_nat (length text) in
      tty_write_from (fun a => ret (byte_at text (a - buf))) 0 buf i ;;;
      ret i
  end.

Definition panic_out (s : list Z) : K unit :=
  printk_out (bytes "Kernel panic: %s" ++ [10; 13]) [Str s] ;;;
  let! st := get in
  (if current (k_sched st) =? 0 then printk_out (bytes "In swapper task - not syncing" ++ [10; 13]) []
   else sys_sync) ;;;
  loop (fun _ : unit => ret (inl tt)) tt.

(** A message that fits is on the screen when [printk] returns its length. *)
Theorem printk_appears (x : tty_struct) (s : kstate) (fmt : list Z) (args : list arg) (text : list Z) (w : list (Z * Z)) (n : nat) :
  vsprintf fmt args = Formatted text w -> ready_console 0 x s text -> (2 * length text + 1 < n)%nat ->
  exists s', printk_out fmt args n s = Done (Z.of_nat (length text)) s' /\
    displays (con (k_chr s)) (con (k_chr s')) (shown x (con (k_chr s)) text).
Proof.
  intros E Hr Hn. unfold printk_out. rewrite E.
  assert (Hl : (length text < 1023)%nat) by (pose proof (rc_fits _ _ _ _ Hr); pose proof (expand_length text); lia).
  replace (1024 <=? Z.of_nat (length text)) with false by (symmetry; apply Z.leb_gt; lia). cbv zeta.
  destruct (tty_write_run 0 x s (fun a => ret (byte_at text (a - buf))) buf text n Hr Hn) as (s' & c' & R & D & q & Q & G).
  { intros q v s' i k m H Hk. unfold ret. f_equal. replace (buf + Z.of_nat i - buf) with (Z.of_nat i) by lia. unfold byte_at, arr_get.
    replace (Z.of_nat i <? 0) with false by (symmetry; apply Z.ltb_ge; lia). by rewrite Nat2Z.id, Hk. }
  exists s'. step R. split; [done|]. by rewrite (go_con _ _ _ _ _ _ _ G).
Qed.
End Diag.
