(* ===== verification/User.v ===== *)
(** * The user's side: include/unistd.h, include/sys/wait.h, lib/, and init of init/main.c

    A user program is an interaction tree: it raises [int 0x80] with a number and
    arguments in registers and gets back what is in [eax], reads and writes its own
    memory, and ends with [_exit].  The wrappers of the library and [init], the first
    program, are such trees; [fork] returns in the parent and in the child, so both
    answers are branches of the tree. *)
From Stdlib Require Import ZArith Lia String List.
From ITree Require Import ITree ITreeFacts.
From Paco Require Import paco.
From S2P Require Import Prelude Vsprintf.
Import ListNotations.
Import ITreeNotations.
#[local] Open Scope itree_scope.
#[local] Open Scope Z_scope.

(** ** Numbers of the system calls *)

Definition __NR_setup : Z := 0.
Definition __NR_exit : Z := 1.
Definition __NR_fork : Z := 2.
Definition __NR_read : Z := 3.
Definition __NR_write : Z := 4.
Definition __NR_open : Z := 5.
Definition __NR_close : Z := 6.
Definition __NR_waitpid : Z := 7.
Definition __NR_creat : Z := 8.
Definition __NR_link : Z := 9.
Definition __NR_unlink : Z := 10.
Definition __NR_execve : Z := 11.
Definition __NR_chdir : Z := 12.
Definition __NR_time : Z := 13.
Definition __NR_mknod : Z := 14.
Definition __NR_chmod : Z := 15.
Definition __NR_chown : Z := 16.
Definition __NR_break : Z := 17.
Definition __NR_stat : Z := 18.
Definition __NR_lseek : Z := 19.
Definition __NR_getpid : Z := 20.
Definition __NR_mount : Z := 21.
Definition __NR_umount : Z := 22.
Definition __NR_setuid : Z := 23.
Definition __NR_getuid : Z := 24.
Definition __NR_stime : Z := 25.
Definition __NR_ptrace : Z := 26.
Definition __NR_alarm : Z := 27.
Definition __NR_fstat : Z := 28.
Definition __NR_pause : Z := 29.
Definition __NR_utime : Z := 30.
Definition __NR_stty : Z := 31.
Definition __NR_gtty : Z := 32.
Definition __NR_access : Z := 33.
Definition __NR_nice : Z := 34.
Definition __NR_ftime : Z := 35.
Definition __NR_sync : Z := 36.
Definition __NR_kill : Z := 37.
Definition __NR_rename : Z := 38.
Definition __NR_mkdir : Z := 39.
Definition __NR_rmdir : Z := 40.
Definition __NR_dup : Z := 41.
Definition __NR_pipe : Z := 42.
Definition __NR_times : Z := 43.
Definition __NR_prof : Z := 44.
Definition __NR_brk : Z := 45.
Definition __NR_setgid : Z := 46.
Definition __NR_getgid : Z := 47.
Definition __NR_signal : Z := 48.
Definition __NR_geteuid : Z := 49.
Definition __NR_getegid : Z := 50.
Definition __NR_acct : Z := 51.
Definition __NR_phys : Z := 52.
Definition __NR_lock : Z := 53.
Definition __NR_ioctl : Z := 54.
Definition __NR_fcntl : Z := 55.
Definition __NR_mpx : Z := 56.
Definition __NR_setpgid : Z := 57.
Definition __NR_ulimit : Z := 58.
Definition __NR_uname : Z := 59.
Definition __NR_umask : Z := 60.
Definition __NR_chroot : Z := 61.
Definition __NR_ustat : Z := 62.
Definition __NR_dup2 : Z := 63.
Definition __NR_getppid : Z := 64.
Definition __NR_getpgrp : Z := 65.
Definition __NR_setsid : Z := 66.
Definition __NR_sigaction : Z := 67.
Definition __NR_sgetmask : Z := 68.
Definition __NR_ssetmask : Z := 69.
Definition __NR_setreuid : Z := 70.
Definition __NR_setregid : Z := 71.

(** ** The wrappers *)

Variant userE : Type -> Type :=
| Int80 (nr : Z) (args : list Z) : userE Z      (* [eax] afterwards *)
| Exit (code : Z) : userE void                  (* does not come back *)
| SetErrno (e : Z) : userE unit
| LoadInt (a : Z) : userE Z                     (* an int of the program's memory *)
| StoreBytes (a : Z) (l : list Z) : userE unit.

Definition user : Type -> Type := itree userE.

(** The end of each wrapper. *)
Definition result (res : Z) : user Z :=
  if 0 <=? res then Ret res else
  ITree.trigger (SetErrno (- res)) ;;
  Ret (-1).

Definition _syscall0 (nr : Z) : user Z := res <- ITree.trigger (Int80 nr []) ;; result (s32 res).
Definition _syscall1 (nr a : Z) : user Z := res <- ITree.trigger (Int80 nr [a]) ;; result (s32 res).
Definition _syscall2 (nr a b : Z) : user Z := res <- ITree.trigger (Int80 nr [a; b]) ;; result (s32 res).
Definition _syscall3 (nr a b c : Z) : user Z := res <- ITree.trigger (Int80 nr [a; b; c]) ;; result (s32 res).

Definition close (fd : Z) : user Z := _syscall1 __NR_close fd.
Definition dup (fd : Z) : user Z := _syscall1 __NR_dup fd.
Definition execve (file argv envp : Z) : user Z := _syscall3 __NR_execve file argv envp.
Definition setsid : user Z := _syscall0 __NR_setsid.
Definition waitpid (pid wait_stat options : Z) : user Z := _syscall3 __NR_waitpid pid wait_stat options.
Definition wait (wait_stat : Z) : user Z := waitpid (-1) wait_stat 0.
Definition write (fd buf count : Z) : user Z := _syscall3 __NR_write fd buf count.
Definition _exit {A} (exit_code : Z) : user A := v <- ITree.trigger (Exit exit_code) ;; match v : void with end.

(** [mode] is the word behind the flags, an argument or not. *)
Definition open (filename flag mode : Z) : user Z :=
  res <- ITree.trigger (Int80 __NR_open [filename; flag; mode]) ;;
  result (s32 res).

(** Those main.c makes for itself. *)
Definition fork : user Z := _syscall0 __NR_fork.
Definition pause : user Z := _syscall0 __NR_pause.
Definition setup (BIOS : Z) : user Z := _syscall1 __NR_setup BIOS.
Definition sync : user Z := _syscall0 __NR_sync.

(** ** The status a parent gets: include/sys/wait.h *)

Definition _LOW (v : Z) : Z := Z.land v 0xff.
Definition _HIGH (v : Z) : Z := Z.land (Z.shiftr v 8) 0xff.
Definition WIFSTOPPED (s : Z) : bool := Z.land s 0xff =? 0x7f.
Definition WEXITSTATUS (s : Z) : Z := Z.land (Z.shiftr s 8) 0xff.
Definition WTERMSIG (s : Z) : Z := Z.land s 0x7f.
Definition WSTOPSIG (s : Z) : Z := Z.land (Z.shiftr s 8) 0xff.
Definition WIFSIGNALED (s : Z) : bool := Z.land (u32 (s - 1)) 0xffff <? 0xff.

(** ** init *)

Section Init.
(** Where the linker puts init's data: the strings, the argument arrays, [printbuf]
    and the variable [i]; and the numbers it prints. *)
Context (drive_info tty0 etc_rc bin_sh argv_rc envp_rc argv envp printbuf i : Z).
Context (nr_buffers memory_end main_memory_start : Z).

Definition O_RDONLY : Z := 0.
Definition O_RDWR : Z := 2.

Definition printf (fmt : list Z) (args : list arg) : user Z :=
  match vsprintf fmt args with
  | BadArgument | Unfinished => ITree.spin
  | Formatted text _ =>
      ITree.trigger (StoreBytes printbuf text) ;;
      write 1 printbuf (Z.of_nat (length text)) ;;
      Ret (Z.of_nat (length text))
  end.

(** [while (pid != wait(&i))]. *)
Definition wait_for (pid : Z) : user unit :=
  ITree.iter (fun _ => (r <- wait i ;; Ret (if pid =? r then inr tt else inl tt))) tt.

(** The two children. *)
Definition run_rc : user unit :=
  close 0 ;;
  r <- open etc_rc O_RDONLY 0 ;;
  (if nz r then _exit 1 else
   execve bin_sh argv_rc envp_rc ;;
   _exit 2).

Definition run_shell : user unit :=
  close 0 ;; close 1 ;; close 2 ;;
  setsid ;;
  open tty0 O_RDWR 0 ;;
  dup 0 ;;
  dup 0 ;;
  r <- execve bin_sh argv envp ;;
  _exit r.

(** One round of [while (1)]. *)
Definition serve_login (_ : unit) : user (unit + unit) :=
  pid <- fork ;;
  if pid <? 0 then printf (bytes "Fork failed in init" ++ [13; 10]) [] ;; Ret (inl tt) else
  (if negb (nz pid) then run_shell else Ret tt) ;;
  wait_for pid ;;
  status <- ITree.trigger (LoadInt i) ;;
  printf ([10; 13] ++ bytes "child %d died with code %04x" ++ [10; 13]) [Int pid; Int status] ;;
  sync ;;
  Ret (inl tt).

Definition init : user unit :=
  setup drive_info ;;
  open tty0 O_RDWR 0 ;;
  dup 0 ;;
  dup 0 ;;
  printf (bytes "%d buffers = %d bytes buffer space" ++ [10; 13]) [Int nr_buffers; Int (nr_buffers * 1024)] ;;
  printf (bytes "Free mem: %d bytes" ++ [10; 13]) [Int (memory_end - main_memory_start)] ;;
  pid <- fork ;;
  (if negb (nz pid) then run_rc else Ret tt) ;;
  (if 0 <? pid then wait_for pid else Ret tt) ;;
  ITree.iter serve_login tt ;;
  _exit 0.
End Init.

(** ** init keeps one child running and never ends *)

(** Where init is: starting, between two shells, or waiting for the child [pid]. *)
Inductive phase := Starting | Between | Waiting (pid : Z).

(** Calls that neither make tasks, wait for them, nor replace or end the program. *)
Definition plain_call (nr : Z) : Prop := ~ In nr [__NR_exit; __NR_fork; __NR_waitpid; __NR_execve].

(** No child has to be waited for. *)
Definition calm (p : phase) : Prop := p = Starting \/ p = Between.

Definition first_time (p : phase) : bool := match p with Starting => true | _ => false end.

Section Safe.
Context (i : Z).

(** One step of a program in a phase: [post] is about a return, [forked] about the
    program a fork starts, the first time and later, and [r] about the rest. *)
Variant step_ok {A} (post : phase -> A -> Prop) (forked : bool -> user A -> Prop) (r : phase -> user A -> Prop) :
  phase -> itree' userE A -> Prop :=
| ok_ret p a : post p a -> step_ok post forked r p (RetF a)
| ok_tau p t : r p t -> step_ok post forked r p (TauF t)
| ok_call p nr args k : calm p -> plain_call nr -> (forall eax, r p (k eax)) -> step_ok post forked r p (VisF (Int80 nr args) k)
| ok_fork p k : calm p ->
    (forall eax, 0 < s32 eax -> r (Waiting (s32 eax)) (k eax)) ->
    (forall eax, s32 eax < 0 -> r Between (k eax)) ->
    (forall eax, s32 eax = 0 -> forked (first_time p) (k eax)) ->
    step_ok post forked r p (VisF (Int80 __NR_fork []) k)
| ok_wait pid k :
    (forall eax, s32 eax = pid -> r Between (k eax)) -> (forall eax, s32 eax <> pid -> r (Waiting pid) (k eax)) ->
    step_ok post forked r (Waiting pid) (VisF (Int80 __NR_waitpid [-1; i; 0]) k)
| ok_errno p e k : (forall u, r p (k u)) -> step_ok post forked r p (VisF (SetErrno e) k)
| ok_load p a k : (forall v, r p (k v)) -> step_ok post forked r p (VisF (LoadInt a) k)
| ok_store p a l k : (forall u, r p (k u)) -> step_ok post forked r p (VisF (StoreBytes a l) k).

Definition safe_gen {A} post forked (r : phase -> user A -> Prop) (p : phase) (t : user A) : Prop :=
  step_ok post forked r p (observe t).

Lemma safe_gen_mon {A} post forked : monotone2 (@safe_gen A post forked).
Proof. intros p t r r' H LE. unfold safe_gen in *. 
  destruct H; [eapply ok_ret|eapply ok_tau|eapply ok_call|eapply ok_fork|eapply ok_wait|eapply ok_errno|eapply ok_load|eapply ok_store]; eauto.
Qed.

(** Whatever the kernel answers, from phase [p] on every step of [t] is allowed. *)
Definition safe {A} post forked (p : phase) (t : user A) : Prop := paco2 (@safe_gen A post forked) bot2 p t.

#[local] Hint Resolve safe_gen_mon : paco.

Lemma observe_bind {A B} (t : user A) (k : A -> user B) :
  observe (ITree.bind t k) =
  match observe t with
  | RetF a => observe (k a)
  | TauF t => TauF (ITree.bind t k)
  | VisF e h => VisF e (fun x => ITree.bind (h x) k)
  end.
Proof.
  transitivity (observe (match observe t with RetF a => k a | TauF t => Tau (ITree.bind t k) | VisF e h => Vis e (fun x => ITree.bind (h x) k) end));
    [reflexivity|now destruct (observe t)].
Qed.

(** One step of [t] followed by [k]. *)
Lemma step_bind {A B} (t : user A) (k : A -> user B) post forked post' (r' : phase -> user A -> Prop) r p :
  step_ok post' (fun b t => forked b (ITree.bind t k)) r' p (observe t) ->
  (forall p t, r' p t -> r p (ITree.bind t k)) ->
  (forall p a, post' p a -> step_ok post forked r p (observe (k a))) ->
  step_ok post forked r p (observe (ITree.bind t k)).
Proof.
  intros H U V. rewrite observe_bind. destruct H; [now apply V|eapply ok_tau|eapply ok_call|eapply ok_fork|eapply ok_wait|eapply ok_errno|eapply ok_load|eapply ok_store]; eauto.
Qed.

Lemma safe_bind {A B} (t : user A) (k : A -> user B) post forked p :
  safe (fun p a => safe post forked p (k a)) (fun b t => forked b (ITree.bind t k)) p t ->
  safe post forked p (ITree.bind t k).
Proof.
  revert p t. pcofix CIH. intros p t H. punfold H. pfold. eapply step_bind; [exact H| |].
  - intros p' t' [H'|[]]. right. now apply CIH.
  - intros p' a H'. punfold H'. eapply safe_gen_mon; [exact H'|]. intros p2 t2 [H2|[]]. left. eapply paco2_mon; [exact H2|intros ? ? []].
Qed.

(** The rest of a loop after a round. *)
Definition again {A B} (body : A -> user (A + B)) (r : A + B) : user B :=
  match r with inl x => Tau (ITree.iter body x) | inr b => Ret b end.

Lemma observe_iter {A B} (body : A -> user (A + B)) x : observe (ITree.iter body x) = observe (ITree.bind (body x) (again body)).
Proof. reflexivity. Qed.

(** A loop with an invariant. *)
Lemma safe_iter {A B} (I : phase -> A -> Prop) (body : A -> user (A + B)) post forked p x :
  (forall p x, I p x -> safe (fun p r => match r with inl x => I p x | inr b => post p b end)
     (fun b t => forked b (ITree.bind t (again body))) p (body x)) ->
  I p x -> safe post forked p (ITree.iter body x).
Proof.
  intros Hb. revert p x. pcofix CIH. intros p x Hx.
  assert (L : forall p t, safe (fun p r => match r with inl x => I p x | inr b => post p b end)
     (fun b t => forked b (ITree.bind t (again body))) p t -> paco2 (safe_gen post forked) r p (ITree.bind t (again body))).
  { clear p x Hx. pcofix CIH'. intros p t H. punfold H. pfold. eapply step_bind; [exact H| |].
    - intros p' t' [H'|[]]. right. now apply CIH'.
    - intros p' [x|b] H'; [apply ok_tau; right; now apply CIH|now apply ok_ret]. }
  specialize (L p (body x) (Hb p x Hx)). now punfold L.
Qed.

(** Rules for the calls. *)

Lemma safe_ret {A} (post : phase -> A -> Prop) forked p a : post p a -> safe post forked p (Ret a).
Proof. intros H. pfold. now apply ok_ret. Qed.
Lemma safe_spin {A} (post : phase -> A -> Prop) forked p : safe post forked p ITree.spin.
Proof. pcofix CIH. pfold. unfold safe_gen. change (observe (@ITree.spin userE A)) with (@TauF userE A _ (@ITree.spin userE A)). apply ok_tau. now right. Qed.
Lemma safe_load post forked p a : (forall v, post p v) -> safe post forked p (ITree.trigger (LoadInt a)).
Proof. intros H. pfold. apply ok_load. intros v. left. now apply safe_ret. Qed.
Lemma safe_store post forked p a l : post p tt -> safe post forked p (ITree.trigger (StoreBytes a l)).
Proof. intros H. pfold. apply ok_store. intros []. left. now apply safe_ret. Qed.

(** The end of a wrapper: the answer, or -1. *)
Definition answer (eax : Z) : Z := if 0 <=? s32 eax then s32 eax else -1.

Lemma safe_result post forked p eax : post p (answer eax) -> safe post forked p (result (s32 eax)).
Proof.
  unfold answer, result. destruct (0 <=? s32 eax); intros H; [now apply safe_ret|].
  apply safe_bind. pfold. apply ok_errno. intros u. left. apply safe_ret. now apply safe_ret.
Qed.

Lemma safe_call post forked p nr args : calm p -> plain_call nr -> (forall eax, post p (answer eax)) ->
  safe post forked p (res <- ITree.trigger (Int80 nr args) ;; result (s32 res)).
Proof.
  intros Hp Hn H. apply safe_bind. pfold. apply ok_call; [exact Hp|exact Hn|]. intros eax. left. apply safe_ret. now apply safe_result.
Qed.

Lemma safe_fork (post : phase -> Z -> Prop) (forked : bool -> user Z -> Prop) p : p = Starting \/ p = Between ->
  (forall pid, 0 < pid -> post (Waiting pid) pid) -> post Between (-1) ->
  (forall eax, s32 eax = 0 -> forked (first_time p) (ITree.bind (Ret eax) (fun res => result (s32 res)))) ->
  safe post forked p fork.
Proof.
  intros Hp H1 H2 H3. apply safe_bind. pfold. apply ok_fork; [exact Hp| | |exact H3].
  - intros eax He. left. apply safe_ret. apply safe_result. unfold answer. replace (0 <=? s32 eax) with true by (symmetry; apply Z.leb_le; lia). now apply H1.
  - intros eax He. left. apply safe_ret. apply safe_result. unfold answer. replace (0 <=? s32 eax) with false by (symmetry; apply Z.leb_gt; lia). exact H2.
Qed.

Lemma safe_wait (post : phase -> Z -> Prop) forked pid : 0 < pid -> post Between pid -> (forall r, r <> pid -> post (Waiting pid) r) ->
  safe post forked (Waiting pid) (wait i).
Proof.
  intros Hp H1 H2. apply safe_bind. pfold. apply ok_wait; intros eax He; left; apply safe_ret, safe_result; unfold answer.
  - replace (0 <=? s32 eax) with true by (symmetry; apply Z.leb_le; lia). now rewrite He.
  - apply H2. destruct (0 <=? s32 eax); [exact He|lia].
Qed.

Lemma safe_wait_for (post : phase -> unit -> Prop) forked pid : 0 < pid -> post Between tt -> safe post forked (Waiting pid) (wait_for i pid).
Proof.
  intros Hp H. apply (safe_iter (fun p _ => p = Waiting pid)); [|reflexivity]. intros p [] ->. apply safe_bind. apply safe_wait; [exact Hp| |].
  - rewrite Z.eqb_refl. now apply safe_ret.
  - intros r Hr. apply safe_ret. replace (pid =? r) with false by (symmetry; apply Z.eqb_neq; lia). reflexivity.
Qed.

Lemma safe_printf (post : phase -> Z -> Prop) forked printbuf fmt args p : calm p -> (forall r, post p r) -> safe post forked p (printf printbuf fmt args).
Proof.
  intros Hp H. unfold printf. destruct (vsprintf fmt args) as [text w| |]; [|apply safe_spin..].
  apply safe_bind, safe_store, safe_bind, safe_call; [exact Hp|cbv; intuition discriminate|]. intros eax. now apply safe_ret.
Qed.
End Safe.

(** ** The programs of the children *)

(** The calls of a program up to its end, each as a function of the answers so far. *)
Inductive script :=
| Stop (code : Z)
| Call (nr : Z) (args : list Z) (next : Z -> script).

(** A program that follows a script, whatever the kernel answers; [post] is about a
    return before the end. *)
Inductive follows {A} (post : script -> A -> Prop) : script -> itree' userE A -> Prop :=
| fo_ret c a : post c a -> follows post c (RetF a)
| fo_exit code k : follows post (Stop code) (VisF (Exit code) k)
| fo_call nr args next k : (forall eax, follows post (next (answer eax)) (observe (k eax))) ->
    follows post (Call nr args next) (VisF (Int80 nr args) k)
| fo_errno c e k : (forall u, follows post c (observe (k u))) -> follows post c (VisF (SetErrno e) k).

Lemma follows_bind {A B} (t : user A) (k : A -> user B) post c :
  follows (fun c a => follows post c (observe (k a))) c (observe t) -> follows post c (observe (ITree.bind t k)).
Proof.
  intros H. remember (observe t) as o eqn:E. revert t E.
  induction H as [c a H|code h|nr args next h H IH|c e h H IH]; intros t E; rewrite observe_bind, <- E.
  - exact H.
  - apply fo_exit.
  - apply fo_call. intros eax. now eapply IH.
  - apply fo_errno. intros u. now eapply IH.
Qed.

Lemma follows_result post c eax : post c (answer eax) -> follows post c (observe (result (s32 eax))).
Proof.
  unfold answer, result. destruct (0 <=? s32 eax); intros H; [now apply fo_ret|].
  apply follows_bind. apply fo_errno. intros u. apply fo_ret. now apply fo_ret.
Qed.

Lemma follows_call post nr args next : (forall r, post (next r) r) ->
  follows post (Call nr args next) (observe (res <- ITree.trigger (Int80 nr args) ;; result (s32 res))).
Proof. intros H. apply follows_bind. apply fo_call. intros eax. apply fo_ret, follows_result, H. Qed.

Lemma follows_exit {A} (post : script -> A -> Prop) code : follows post (Stop code) (observe (_exit code)).
Proof. apply follows_bind, fo_exit. Qed.

Section Init.
Context (drive_info tty0 etc_rc bin_sh argv_rc envp_rc argv envp printbuf i : Z).
Context (nr_buffers memory_end main_memory_start : Z).

Definition rc_script : script :=
  Call __NR_close [0] (fun _ =>
  Call __NR_open [etc_rc; O_RDONLY; 0] (fun r =>
  if nz r then Stop 1 else Call __NR_execve [bin_sh; argv_rc; envp_rc] (fun _ => Stop 2))).

Definition shell_script : script :=
  Call __NR_close [0] (fun _ => Call __NR_close [1] (fun _ => Call __NR_close [2] (fun _ =>
  Call __NR_setsid [] (fun _ =>
  Call __NR_open [tty0; O_RDWR; 0] (fun _ => Call __NR_dup [0] (fun _ => Call __NR_dup [0] (fun _ =>
  Call __NR_execve [bin_sh; argv; envp] Stop))))))).

(** A child that follows its script to the end. *)
Definition child {A} (first : bool) (t : user A) : Prop :=
  follows (fun _ _ => False) (if first then rc_script else shell_script) (observe t).

Lemma follows_rc post : follows post rc_script (observe (run_rc etc_rc bin_sh argv_rc envp_rc)).
Proof.
  apply follows_bind, follows_call. intros _. apply follows_bind, follows_call. intros r. destruct (nz r); [apply follows_exit|].
  apply follows_bind, follows_call. intros _. apply follows_exit.
Qed.

Lemma follows_shell post : follows post shell_script (observe (run_shell tty0 bin_sh argv envp)).
Proof. do 7 (apply follows_bind, follows_call; intros _). apply follows_bind, follows_call. intros r. apply follows_exit. Qed.

(** What fork's answer is in the child. *)
Lemma follows_child {A} post c eax (k : Z -> user A) : s32 eax = 0 -> follows post c (observe (k 0)) ->
  follows post c (observe (ITree.bind (ITree.bind (Ret eax) (fun res => result (s32 res))) k)).
Proof. intros E H. apply follows_bind, follows_bind, fo_ret, follows_result. unfold answer. now rewrite E. Qed.

Lemma plain_calls nr : In nr [__NR_setup; __NR_open; __NR_dup; __NR_sync] -> plain_call nr.
Proof. intros [<-|[<-|[<-|[<-|[]]]]]; cbv; intuition discriminate. Qed.

Lemma login_loop (A : Type) (post : phase -> A -> Prop) (k : unit -> user A) :
  safe i post child Between (ITree.bind (ITree.iter (serve_login tty0 bin_sh argv envp printbuf i) tt) k).
Proof.
  apply safe_bind, (safe_iter i (fun p _ => p = Between)); [|reflexivity]. intros p [] ->.
  apply safe_bind, safe_fork; [now right| | |].
  - intros pid Hp. replace (pid <? 0) with false by (symmetry; apply Z.ltb_ge; lia).
    replace (negb (nz pid)) with false by (symmetry; unfold nz; rewrite Bool.negb_involutive; apply Z.eqb_neq; lia).
    apply safe_bind, safe_ret, safe_bind, safe_wait_for; [exact Hp|]. apply safe_bind, safe_load. intros v.
    apply safe_bind, safe_printf; [now right|]. intros _. apply safe_bind, safe_call; [now right|apply plain_calls; cbn; tauto|]. intros _. now apply safe_ret.
  - apply safe_bind, safe_printf; [now right|]. intros _. now apply safe_ret.
  - intros eax E. apply follows_bind, follows_bind. apply follows_child; [exact E|]. change (0 <? 0) with false. change (negb (nz 0)) with true. cbv iota.
    apply follows_bind, follows_shell.
Qed.

(** C19. Whatever the kernel answers, init never ends and never returns, runs no other
    program in its own place, and has at most one child it has not waited for: after a
    fork that succeeds it makes no call but wait until wait has answered the child's
    number. The first child runs the commands of /etc/rc, or ends with 1 if they cannot
    be its standard input; each later one is a shell in a session of its own, on the
    terminal, or ends with what execve answered. *)
Theorem init_supervises :
  safe i (fun (_ : phase) (_ : unit) => False) child Starting
    (init drive_info tty0 etc_rc bin_sh argv_rc envp_rc argv envp printbuf i nr_buffers memory_end main_memory_start).
Proof.
  do 4 (apply safe_bind, safe_call; [now left|apply plain_calls; cbn; tauto|intros _]).
  do 2 (apply safe_bind, safe_printf; [now left|intros _]).
  apply safe_bind, safe_fork; [now left| | |].
  - intros pid Hp. replace (negb (nz pid)) with false by (symmetry; unfold nz; rewrite Bool.negb_involutive; apply Z.eqb_neq; lia).
    apply safe_bind, safe_ret. replace (0 <? pid) with true by (symmetry; apply Z.ltb_lt; lia).
    apply safe_bind, safe_wait_for; [exact Hp|]. apply login_loop.
  - change (negb (nz (-1))) with false. change (0 <? -1) with false. cbv iota. apply safe_bind, safe_ret, safe_bind, safe_ret. apply login_loop.
  - intros eax E. apply follows_child; [exact E|]. change (negb (nz 0)) with true. apply follows_bind, follows_rc.
Qed.
End Init.
