(* ===== verification/UserProps.v ===== *)
(** * The library and the kernel agree: numbers of system calls, status of a child *)
From Stdlib Require Import ZArith Lia String.
From stdpp Require Import base list.
From S2P Require Import Prelude Resumption Memory KState Sched BlkDev Buffer Super Inode Errno Namei.
From S2P Require Import Mount Setup Segment Open ReadWrite Fork Exit Exec SysCalls SystemCall User.

(** The number a wrapper puts in [eax] is the index of its routine in the table, and
    the routine takes as many registers as the wrapper loads. *)
Lemma numbers_agree {driver : Driver} (image : Z -> Z -> Z) (fninit : list Z) (pad : Z) :
  let table := sys_call_table image fninit pad in
  arr_get table __NR_setup = Some (call1 sys_setup) /\
  arr_get table __NR_exit = Some (call1 sys_exit) /\
  arr_get table __NR_fork = Some (call_regs (sys_fork fninit)) /\
  arr_get table __NR_read = Some (call3 sys_read) /\
  arr_get table __NR_write = Some (call3 sys_write) /\
  arr_get table __NR_open = Some (call3 sys_open) /\
  arr_get table __NR_close = Some (call1 sys_close) /\
  arr_get table __NR_waitpid = Some (call3 sys_waitpid) /\
  arr_get table __NR_creat = Some (call2 sys_creat) /\
  arr_get table __NR_link = Some (call2 sys_link) /\
  arr_get table __NR_unlink = Some (call1 sys_unlink) /\
  arr_get table __NR_execve = Some (sys_execve image) /\
  arr_get table __NR_chdir = Some (call1 sys_chdir) /\
  arr_get table __NR_time = Some (call1 sys_time) /\
  arr_get table __NR_mknod = Some (call3 sys_mknod) /\
  arr_get table __NR_chmod = Some (call2 sys_chmod) /\
  arr_get table __NR_chown = Some (call3 sys_chown) /\
  arr_get table __NR_break = Some (call0 sys_break) /\
  arr_get table __NR_stat = Some (call2 (sys_stat pad)) /\
  arr_get table __NR_lseek = Some (call3 sys_lseek) /\
  arr_get table __NR_getpid = Some (call0 sys_getpid) /\
  arr_get table __NR_mount = Some (call3 sys_mount) /\
  arr_get table __NR_umount = Some (call1 sys_umount) /\
  arr_get table __NR_setuid = Some (call1 sys_setuid) /\
  arr_get table __NR_getuid = Some (call0 sys_getuid) /\
  arr_get table __NR_stime = Some (call1 sys_stime) /\
  arr_get table __NR_ptrace = Some (call0 sys_ptrace) /\
  arr_get table __NR_alarm = Some (call1 sys_alarm) /\
  arr_get table __NR_fstat = Some (call2 (sys_fstat pad)) /\
  arr_get table __NR_pause = Some (call0 sys_pause) /\
  arr_get table __NR_utime = Some (call2 sys_utime) /\
  arr_get table __NR_stty = Some (call0 sys_stty) /\
  arr_get table __NR_gtty = Some (call0 sys_gtty) /\
  arr_get table __NR_access = Some (call2 sys_access) /\
  arr_get table __NR_nice = Some (call1 sys_nice) /\
  arr_get table __NR_ftime = Some (call0 sys_ftime) /\
  arr_get table __NR_sync = Some (call0 sys_sync) /\
  arr_get table __NR_kill = Some (call2 sys_kill) /\
  arr_get table __NR_rename = Some (call0 sys_rename) /\
  arr_get table __NR_mkdir = Some (call2 sys_mkdir) /\
  arr_get table __NR_rmdir = Some (call1 sys_rmdir) /\
  arr_get table __NR_dup = Some (call1 sys_dup) /\
  arr_get table __NR_pipe = Some (call1 sys_pipe) /\
  arr_get table __NR_times = Some (call1 sys_times) /\
  arr_get table __NR_prof = Some (call0 sys_prof) /\
  arr_get table __NR_brk = Some (call1 sys_brk) /\
  arr_get table __NR_setgid = Some (call1 sys_setgid) /\
  arr_get table __NR_getgid = Some (call0 sys_getgid) /\
  arr_get table __NR_signal = Some (call3 sys_signal) /\
  arr_get table __NR_geteuid = Some (call0 sys_geteuid) /\
  arr_get table __NR_getegid = Some (call0 sys_getegid) /\
  arr_get table __NR_acct = Some (call0 sys_acct) /\
  arr_get table __NR_phys = Some (call0 sys_phys) /\
  arr_get table __NR_lock = Some (call0 sys_lock) /\
  arr_get table __NR_ioctl = Some (call3 (sys_ioctl pad)) /\
  arr_get table __NR_fcntl = Some (call3 sys_fcntl) /\
  arr_get table __NR_mpx = Some (call0 sys_mpx) /\
  arr_get table __NR_setpgid = Some (call2 sys_setpgid) /\
  arr_get table __NR_ulimit = Some (call0 sys_ulimit) /\
  arr_get table __NR_uname = Some (call1 sys_uname) /\
  arr_get table __NR_umask = Some (call1 sys_umask) /\
  arr_get table __NR_chroot = Some (call1 sys_chroot) /\
  arr_get table __NR_ustat = Some (call2 sys_ustat) /\
  arr_get table __NR_dup2 = Some (call2 sys_dup2) /\
  arr_get table __NR_getppid = Some (call0 sys_getppid) /\
  arr_get table __NR_getpgrp = Some (call0 sys_getpgrp) /\
  arr_get table __NR_setsid = Some (call0 sys_setsid) /\
  arr_get table __NR_sigaction = Some (call3 sys_sigaction) /\
  arr_get table __NR_sgetmask = Some (call0 sys_sgetmask) /\
  arr_get table __NR_ssetmask = Some (call1 sys_ssetmask) /\
  arr_get table __NR_setreuid = Some (call2 sys_setreuid) /\
  arr_get table __NR_setregid = Some (call2 sys_setregid).
Proof. cbv zeta. repeat split. Qed.

(** The status of a program that called [_exit]. *)
Lemma exit_status (code : Z) :
  let status := Z.shiftl (Z.land code 0xff) 8 in
  WEXITSTATUS status = Z.land code 0xff /\ WTERMSIG status = 0 /\ WIFSIGNALED status = false /\ WIFSTOPPED status = false.
Proof.
  cbv zeta. assert (H : 0 <= Z.land code 0xff < 256) by (change 0xff with (Z.ones 8); rewrite Z.land_ones by lia; apply Z.mod_pos_bound; lia).
  set (c := Z.land code 0xff) in *. assert (exists k : nat, c = Z.of_nat k /\ (k < 256)%nat) as (k & -> & Hk) by (exists (Z.to_nat c); lia).
  clear H. do 256 (destruct k as [|k]; [repeat split|]). lia.
Qed.

(** A program that SIGKILL ended looks like one that called [_exit(1)]: the status is
    the bit of the signal, not its number. *)
Lemma killed_looks_exited :
  sigbit 9 = Z.shiftl (Z.land 1 0xff) 8 /\ WTERMSIG (sigbit 9) = 0 /\ WEXITSTATUS (sigbit 9) = 1 /\ WIFSIGNALED (sigbit 9) = false.
Proof. repeat split. Qed.
