(* ===== verification/Mktime.v ===== *)
(** * Seconds since 1970: kernel/mktime.c *)
From Stdlib Require Import ZArith Lia.
From stdpp Require Import base list.
From S2P Require Import Prelude.

Record tm := mkTm { tm_sec : Z; tm_min : Z; tm_hour : Z; tm_mday : Z; tm_mon : Z; tm_year : Z }.

Definition MINUTE : Z := 60.
Definition HOUR : Z := 60 * MINUTE.
Definition DAY : Z := 24 * HOUR.
Definition YEAR : Z := 365 * DAY.

(** The table assumes a leap year. *)
Definition month : list Z :=
  [0; DAY * 31; DAY * (31 + 29); DAY * (31 + 29 + 31); DAY * (31 + 29 + 31 + 30);
   DAY * (31 + 29 + 31 + 30 + 31); DAY * (31 + 29 + 31 + 30 + 31 + 30);
   DAY * (31 + 29 + 31 + 30 + 31 + 30 + 31); DAY * (31 + 29 + 31 + 30 + 31 + 30 + 31 + 31);
   DAY * (31 + 29 + 31 + 30 + 31 + 30 + 31 + 31 + 30);
   DAY * (31 + 29 + 31 + 30 + 31 + 30 + 31 + 31 + 30 + 31);
   DAY * (31 + 29 + 31 + 30 + 31 + 30 + 31 + 31 + 30 + 31 + 30)].

(** A month outside the table has no result; [long] arithmetic wraps. *)
Definition kernel_mktime (t : tm) : option Z :=
  let year := tm_year t - 70 in
  match arr_get month (tm_mon t) with
  | None => None
  | Some m =>
      let res := YEAR * year + DAY * Z.quot (year + 1) 4 in
      let res := res + m in
      let res := if (1 <? tm_mon t) && nz (Z.rem (year + 2) 4) then res - DAY else res in
      let res := res + DAY * (tm_mday t - 1) in
      let res := res + HOUR * tm_hour t in
      let res := res + MINUTE * tm_min t in
      Some (s32 (res + tm_sec t))
  end.

(** ** The calendar *)

Definition leap (y : Z) : bool := (y mod 4 =? 0) && (negb (y mod 100 =? 0) || (y mod 400 =? 0)).
Definition days_in_month (y m : Z) : Z :=
  match m with
  | 1 => if leap y then 29 else 28
  | 3 | 5 | 8 | 10 => 30
  | _ => 31
  end.
Definition days_in_year (y : Z) : Z := if leap y then 366 else 365.

(** Days from 1 January 1970 to the first day of a year, and of a month of it. *)
Definition days_to_year (y : Z) : Z := zsum days_in_year (zrange 1970 (Z.to_nat (y - 1970))).
Definition days_to_month (y m : Z) : Z := days_to_year y + zsum (days_in_month y) (zrange 0 (Z.to_nat m)).

Definition seconds_since_epoch (t : tm) : Z :=
  let y := 1900 + tm_year t in
  ((((days_to_month y (tm_mon t) + (tm_mday t - 1)) * 24 + tm_hour t) * 60 + tm_min t) * 60) + tm_sec t.

(** A date and time that exists, from 1970 up to the end of 2037. *)
Definition valid_tm (t : tm) : Prop :=
  70 <= tm_year t <= 137 /\ 0 <= tm_mon t <= 11 /\
  1 <= tm_mday t <= days_in_month (1900 + tm_year t) (tm_mon t) /\
  0 <= tm_hour t <= 23 /\ 0 <= tm_min t <= 59 /\ 0 <= tm_sec t <= 59.

(** Both sides, up to the day of the month, agree in every month of 68 years. *)
Definition month_start (y m : Z) : Z :=
  let year := y - 70 in
  let res := YEAR * year + DAY * Z.quot (year + 1) 4 + default 0 (arr_get month m) in
  if (1 <? m) && nz (Z.rem (year + 2) 4) then res - DAY else res.

Lemma month_starts :
  forallb (fun y => forallb (fun m => (month_start y m =? DAY * days_to_month (1900 + y) m) &&
                                      (0 <=? month_start y m) &&
                                      (month_start y m + DAY * days_in_month (1900 + y) m <=? 2147483648))
                      (zrange 0 12)) (zrange 70 68) = true.
Proof. vm_compute. reflexivity. Qed.

(** [kernel_mktime] agrees with the Gregorian calendar: for every date and time
    from 1970 to 2037 it returns the seconds since the epoch, without overflow of
    the 32-bit result. *)
Lemma kernel_mktime_calendar (t : tm) :
  valid_tm t ->
  kernel_mktime t = Some (seconds_since_epoch t) /\ 0 <= seconds_since_epoch t < 2147483648.
Proof.
  intros (Hy & Hm & Hd & Hh & Hmi & Hs).
  pose proof month_starts as H. rewrite forallb_forall in H.
  specialize (H (tm_year t)). rewrite zrange_elem in H. specialize (H ltac:(lia)).
  rewrite forallb_forall in H. specialize (H (tm_mon t)). rewrite zrange_elem in H. specialize (H ltac:(lia)).
  bprop.
  assert (E : arr_get month (tm_mon t) = Some (default 0 (arr_get month (tm_mon t)))).
  { destruct (arr_get_is_Some month (tm_mon t)) as [v ->]; [|done]. simpl length. lia. }
  unfold kernel_mktime. rewrite E.
  replace (seconds_since_epoch t) with
    (month_start (tm_year t) (tm_mon t) + DAY * (tm_mday t - 1) + HOUR * tm_hour t + MINUTE * tm_min t + tm_sec t)
    by (unfold seconds_since_epoch, DAY, HOUR, MINUTE in *; lia).
  fold (month_start (tm_year t) (tm_mon t)). unfold DAY, HOUR, MINUTE in *.
  split; [|lia]. rewrite s32_small; [done|lia].
Qed.
