(* ===== verification/Main.v ===== *)
(** * Starting the kernel: init/main.c

    [main] up to the first [sti]: the division of the memory and the initialisation of
    every component, from what setup.s has left at 0x90000.  [init], which runs in user
    mode, only makes system calls. *)
From Stdlib Require Import ZArith Lia String.
From stdpp Require Import base list.
From S2P Require Import Prelude Resumption Memory KState Console Sched BlkDev Hd Floppy Buffer Tty Setup Fork Traps Mktime.

(** ** The BIOS data *)

Definition EXT_MEM_K (s : kstate) : Z := kernel_word s 0x90002.
Definition DRIVE_INFO : Z := 0x90080.
Definition ORIG_ROOT_DEV (s : kstate) : Z := kernel_word s 0x901FC.

(** The definitions of console.c for the same area. *)
Definition orig_video (s : kstate) : setup :=
  mkSetup (kernel_byte s 0x90000) (kernel_byte s 0x90001) (kernel_word s 0x90004)
    (Z.land (kernel_word s 0x90006) 0xff) (Z.shiftr (Z.land (kernel_word s 0x90006) 0xff00) 8) (kernel_word s 0x9000a).

(** ** The real-time clock *)

Definition BCD_TO_BIN (val : Z) : Z := Z.land val 15 + Z.shiftr val 4 * 10.

(** One reading: it counts when the seconds have not changed meanwhile. *)
Definition clock_round : K (unit + tm) :=
  let! sec := CMOS_READ 0 in
  let! min := CMOS_READ 2 in
  let! hour := CMOS_READ 4 in
  let! mday := CMOS_READ 7 in
  let! mon := CMOS_READ 8 in
  let! year := CMOS_READ 9 in
  let! again := CMOS_READ 0 in
  ret (if sec =? again then inr (mkTm sec min hour mday mon year) else inl tt).

Definition read_clock : K tm := loop (fun _ : unit => clock_round) tt.

Definition tm_of_bcd (t : tm) : tm :=
  mkTm (BCD_TO_BIN (tm_sec t)) (BCD_TO_BIN (tm_min t)) (BCD_TO_BIN (tm_hour t)) (BCD_TO_BIN (tm_mday t))
    (BCD_TO_BIN (tm_mon t) - 1) (BCD_TO_BIN (tm_year t)).

Definition time_init : K unit :=
  let! t := read_clock in
  let! v := deref (fun _ => kernel_mktime (tm_of_bcd t)) in
  set_sched (fun c => c <| startup_time := v |>).

(** ** main *)

(** [memory_end], [buffer_memory_end] and, without a ram disk, [main_memory_start]. *)
Definition memory_end (ext_mem_k : Z) : Z :=
  let e := Z.land (Z.shiftl 1 20 + Z.shiftl ext_mem_k 10) 0xfffff000 in
  if 16 * 1024 * 1024 <? e then 16 * 1024 * 1024 else e.
Definition buffer_memory_end (ext_mem_k : Z) : Z :=
  if 12 * 1024 * 1024 <? memory_end ext_mem_k then 4 * 1024 * 1024
  else if 6 * 1024 * 1024 <? memory_end ext_mem_k then 2 * 1024 * 1024
  else 1 * 1024 * 1024.

(** [drive_info = DRIVE_INFO], a copy of 32 bytes to the variable at [drive_info]. *)
Definition copy_drive_info (drive_info : Z) : K unit :=
  for_each (zrange 0 32) (fun k =>
    let! s := get in
    modify (fun s' => s' <| k_mm ::= fun r => r <| mem ::= fun m => store8 m (drive_info + k) (kernel_byte s (DRIVE_INFO + k)) |> |>)).

(** The address of [drive_info], and the size in kB the Makefile may give a ram disk. *)
Section Main.
Context (drive_info : Z) (RAMDISK : option Z).

Definition main : K unit :=
  let! s := get in
  modify (fun s' => s' <| k_fs ::= fun f => f <| ROOT_DEV := ORIG_ROOT_DEV s |> |>) ;;;
  copy_drive_info drive_info ;;;
  let! s := get in
  let ext := EXT_MEM_K s in
  let start := buffer_memory_end ext in
  let! start := match RAMDISK with
                | Some kb => let! l := rd_init start (kb * 1024) in ret (start + l)
                | None => ret start
                end in
  on_mm (mem_init start (memory_end ext)) ;;;
  trap_init ;;;
  blk_dev_init ;;;
  let! s := get in
  tty_init (orig_video s) ;;;
  time_init ;;;
  sched_init ;;;
  buffer_init (buffer_memory_end ext) ;;;
  hd_init ;;;
  floppy_init.
End Main.
