(* ===== verification/Startup.v ===== *)
(** * From the BIOS to main: boot/setup.s and boot/head.s

    setup.s saves what the BIOS says at 0x90000, moves the system to address 0 and
    programs the interrupt controllers; head.s fills the interrupt table, checks the A20
    line and sets up the paging.  The BIOS is its answers ([bios_info]) and the memory it
    leaves; [a20] says whether the keyboard controller has opened the line. *)
From Stdlib Require Import ZArith Lia String.
From stdpp Require Import base list.
From S2P Require Import Prelude Resumption Memory PageTables KState Console Runs BootSector Sched Setup Main.

(** ** setup.s *)

(** The registers after each call: the cursor, the extended memory, the video mode, the
    EGA data, and the type of the second drive, [None] when the carry flag is set. *)
Record bios_info := mkBiosInfo {
  b_cursor : Z; b_ext_mem : Z; b_page : Z; b_mode : Z;
  b_ega_ax : Z; b_ega_bx : Z; b_ega_cx : Z;
  b_disk1 : option Z
}.

Definition set_mem (f : (Z -> Z) -> Z -> Z) : K unit := modify (fun s => s <| k_mm ::= fun r => r <| mem ::= f |> |>).

(** [mov [a],ax] *)
Definition st16 (m : Z -> Z) (a v : Z) : Z -> Z := store8 (store8 m a v) (a + 1) (Z.shiftr v 8).
Definition ld16 (m : Z -> Z) (a : Z) : Z := ld8 m a + 256 * ld8 m (a + 1).

(** [rep movsb] from [src 0], [src 1], ... and [rep stosb]. *)
Definition rep_movsb (src : Z -> Z) (to : Z) (n : nat) (m : Z -> Z) : Z -> Z :=
  fold_left (fun m k => store8 m (to + k) (ld8 m (src k))) (zrange 0 n) m.
Definition rep_stosb (v to : Z) (n : nat) (m : Z -> Z) : Z -> Z :=
  fold_left (fun m k => store8 m (to + k) v) (zrange 0 n) m.

(** The bytes behind the far pointer at [vector]; the offset wraps in its segment.  No
    table of the BIOS reaches past 1 MB, where a closed A20 line would wrap. *)
Definition far (m : Z -> Z) (vector k : Z) : Z := 16 * ld16 m (vector + 2) + u16 (ld16 m vector + k).

Definition is_disk1 (b : bios_info) : bool := match b_disk1 b with Some ah => ah =? 3 | None => false end.

Definition save_params (b : bios_info) (m : Z -> Z) : Z -> Z :=
  let m := st16 m 0x90000 (b_cursor b) in
  let m := st16 m 0x90002 (b_ext_mem b) in
  let m := st16 m 0x90004 (b_page b) in
  let m := st16 m 0x90006 (b_mode b) in
  let m := st16 m 0x90008 (b_ega_ax b) in
  let m := st16 m 0x9000a (b_ega_bx b) in
  let m := st16 m 0x9000c (b_ega_cx b) in
  let m := rep_movsb (far m (4 * 0x41)) 0x90080 16 m in
  let m := rep_movsb (far m (4 * 0x46)) 0x90090 16 m in
  if is_disk1 b then m else rep_stosb 0 0x90090 16 m.

(** A segment is moved to the one below it. *)
Definition move_block (from to : Z) (m : Z -> Z) : Z -> Z :=
  fun x => if (to <=? x) && (x <? to + 0x10000) then m (x - to + from) else m x.

Definition move_body (es : Z) : K (Z + unit) :=
  let ax := u16 (es + 0x1000) in
  if ax =? 0x9000 then ret (inr tt) else
  set_mem (move_block (16 * ax) (16 * es)) ;;;
  ret (inl ax).
Definition do_move : K unit := loop move_body 0.

Definition empty_8042 : K unit :=
  loop (fun _ : unit => let! al := inb 0x64 in ret (if nz (Z.land al 2) then inl tt else inr tt)) tt.

Definition enable_A20 : K unit :=
  empty_8042 ;;; outb 0xD1 0x64 ;;; empty_8042 ;;; outb 0xDF 0x60 ;;; empty_8042.

Definition program_8259 : K unit :=
  outb 0x11 0x20 ;;; outb 0x11 0xA0 ;;;
  outb 0x20 0x21 ;;; outb 0x28 0xA1 ;;;
  outb 0x04 0x21 ;;; outb 0x02 0xA1 ;;;
  outb 0x01 0x21 ;;; outb 0x01 0xA1 ;;;
  outb 0xFF 0x21 ;;; outb 0xFF 0xA1.

(** The machine status word is the low half of cr0; only its first four bits are loaded
    and the first is never cleared. *)
Definition lmsw (ax cr0 : Z) : Z := Z.lor (Z.ldiff cr0 0xe) (Z.land ax 0xf).

(** The result is cr0 in protected mode. *)
Definition setup_s (b : bios_info) (cr0 : Z) : K Z :=
  set_mem (save_params b) ;;; do_move ;;; enable_A20 ;;; program_8259 ;;; ret (lmsw 1 cr0).

(** ** head.s *)

(** The 256 gates lead to [ignore_int]. *)
Definition setup_idt : K unit :=
  for_each (zrange 0 256) (fun v => set_sched (fun c => c <| idt ::= fun l => arr_set l v (mkGate 0x8E00 "ignore_int") |>)).
Definition setup_gdt : K unit := set_sched (fun c => c <| gdt := head_gdt |>).

(** The address a closed line leads to. *)
Definition line (a20 : bool) (a : Z) : Z := if a20 then a else Z.ldiff a 0x100000.

Definition A20_round (a20 : bool) (eax : Z) : K (Z + unit) :=
  let eax := u32 (eax + 1) in
  set_mem (fun m => store m 0 eax) ;;;
  let! s := get in
  ret (if eax =? mem (k_mm s) (line a20 0x100000) then inl eax else inr tt).
Definition check_A20 (a20 : bool) : K unit := loop (A20_round a20) 0.

(** [al] is the status word [fninit] leaves: 0 with a coprocessor. *)
Definition check_x87 (al cr0 : Z) : Z := if u8 al =? 0 then cr0 else Z.lxor cr0 6.

Definition pg0 : Z := 0x1000.
Definition pg1 : Z := 0x2000.
Definition pg2 : Z := 0x3000.
Definition pg3 : Z := 0x4000.

(** Pages are filled backwards. *)
Definition paging_body (p : Z * Z) : M mm (Z * Z + unit) :=
  let '(edi, eax) := p in
  st edi eax ;;;
  let eax := s32 (eax - 0x1000) in
  ret (if 0 <=? eax then inl (edi - 4, eax) else inr tt).

Definition setup_paging : M mm unit :=
  modify (fun s => s <| mem ::= fun m x => if (0 <=? x) && (x <? 4 * (1024 * 5)) then 0 else m x |>) ;;;
  st 0 (pg0 + 7) ;;;
  st 4 (pg1 + 7) ;;;
  st 8 (pg2 + 7) ;;;
  st 12 (pg3 + 7) ;;;
  loop paging_body (pg3 + 4092, 0xfff007).

(** Until [main] is started; the result is what cr0 is then. *)
Definition startup_32 (a20 : bool) (al cr0 : Z) : K Z :=
  setup_idt ;;;
  setup_gdt ;;;
  check_A20 a20 ;;;
  let cr0 := check_x87 al (Z.lor (Z.land cr0 0x80000011) 2) in
  on_mm setup_paging ;;;
  ret (Z.lor cr0 0x80000000).

(** ** What the start changes in the scheduler's part of the state besides the tasks *)

(** The state with these ports and this interrupt table. *)
Definition dev (o : list (Z * Z)) (f : Z -> nat -> Z) (i : list gate) (s : kstate) : kstate :=
  s <| k_sched ::= fun c => c <| out := o |> <| inputs := f |> <| idt := i |> |>.

Definition taken (p : Z) (f : Z -> nat -> Z) : Z -> nat -> Z := fun q => if q =? p then fun k => f q (S k) else f q.

Lemma outb_dev v p n o f i s : outb v p n (dev o f i s) = Done tt (dev ((u8 v, p) :: o) f i s).
Proof. reflexivity. Qed.
Lemma inb_dev p n o f i s : inb p n (dev o f i s) = Done (u8 (f p O)) (dev o (taken p f) i s).
Proof. reflexivity. Qed.
Lemma gate_dev k type dpl a n o f i s :
  _set_gate k type dpl a n (dev o f i s) =
  Done tt (dev o f (arr_set i k (mkGate (u16 (0x8000 + Z.shiftl dpl 13 + Z.shiftl type 8)) a)) s).
Proof. reflexivity. Qed.

(** Through port input and output and the setting of gates. *)
Ltac dev_step :=
  lazymatch goal with
  | |- context [bind (outb _ _) _ _ (dev _ _ _ _)] => step (outb_dev _ _ _ _ _ _ _)
  | |- context [bind (inb _) _ _ (dev _ _ _ _)] => step (inb_dev _ _ _ _ _ _)
  | |- context [bind (set_trap_gate ?v ?a) _ ?n (dev ?o ?f ?i ?s)] => step (gate_dev v 15 0 a n o f i s)
  | |- context [bind (set_system_gate ?v ?a) _ ?n (dev ?o ?f ?i ?s)] => step (gate_dev v 15 3 a n o f i s)
  | |- context [bind (set_intr_gate ?v ?a) _ ?n (dev ?o ?f ?i ?s)] => step (gate_dev v 14 0 a n o f i s)
  end.

Lemma dev_self s : s = dev (out (k_sched s)) (inputs (k_sched s)) (idt (k_sched s)) s.
Proof. by destruct s as [? [] ? ? ? ? ?]. Qed.

(** ** The memory under setup.s *)

(** The words of the memory are words. *)
Definition words_ok (m : Z -> Z) : Prop := forall a, 0 <= m a < 2 ^ 32.

Lemma store_ok m a v : words_ok m -> words_ok (store m a v).
Proof. intros H x. unfold store. destruct (x =? a); [apply u32_range|apply H]. Qed.
Lemma store8_ok m a v : words_ok m -> words_ok (store8 m a v).
Proof. apply store_ok. Qed.

(** A store of a byte changes its word. *)
Lemma store8_other m a v x : x + 4 <= a \/ a < x -> store8 m a v x = m x.
Proof. intros H. unfold store8, store. destruct (Z.eqb_spec x (a - a mod 4)); [|done]. pose proof (Z.mod_pos_bound a 4). lia. Qed.

(** Stores of [n] bytes upwards from [to]. *)
Lemma stores_ok (g : (Z -> Z) -> Z -> Z) to l m :
  words_ok m -> words_ok (fold_left (fun m k => store8 m (to + k) (g m k)) l m).
Proof. revert m. induction l; intros m H; [done|]. apply IHl, store8_ok, H. Qed.
Lemma stores_below (g : (Z -> Z) -> Z -> Z) to n m x :
  x + 4 <= to -> fold_left (fun m k => store8 m (to + k) (g m k)) (zrange 0 n) m x = m x.
Proof.
  intros Hx. assert (H : forall k, In k (zrange 0 n) -> 0 <= k) by (intros k; rewrite zrange_elem; lia).
  revert m H. induction (zrange 0 n) as [|k l IH]; intros m H; [done|]. cbn [fold_left].
  rewrite IH by (intros; apply H; by right). apply store8_other. specialize (H k ltac:(by left)). lia.
Qed.

Lemma movsb_ok src to n m : words_ok m -> words_ok (rep_movsb src to n m).
Proof. exact (stores_ok (fun m k => ld8 m (src k)) to (zrange 0 n) m). Qed.
Lemma stosb_ok v to n m : words_ok m -> words_ok (rep_stosb v to n m).
Proof. exact (stores_ok (fun _ _ => v) to (zrange 0 n) m). Qed.
Lemma movsb_below src to n m x : x + 4 <= to -> rep_movsb src to n m x = m x.
Proof. exact (stores_below (fun m k => ld8 m (src k)) to n m x). Qed.
Lemma stosb_below v to n m x : x + 4 <= to -> rep_stosb v to n m x = m x.
Proof. exact (stores_below (fun _ _ => v) to n m x). Qed.

(** The bytes after a copy whose source is elsewhere. *)
Lemma ld8_movsb src to n m x :
  (forall k, 0 <= k < Z.of_nat n -> src k < to \/ to + Z.of_nat n <= src k) ->
  ld8 (rep_movsb src to n m) x = if (to <=? x) && (x <? to + Z.of_nat n) then ld8 m (src (x - to)) else ld8 m x.
Proof.
  intros Hs. unfold rep_movsb. cut (forall j, (j <= n)%nat ->
    ld8 (fold_left (fun m k => store8 m (to + k) (ld8 m (src k))) (zrange 0 j) m) x =
    if (to <=? x) && (x <? to + Z.of_nat j) then ld8 m (src (x - to)) else ld8 m x); [intros H; by apply H|].
  intros j. revert x. induction j as [|j IH]; intros x Hj.
  - change (Z.of_nat 0) with 0. cbn [zrange fold_left]. destruct (Z.leb_spec to x), (Z.ltb_spec x (to + 0)); try done; lia.
  - replace (S j) with (j + 1)%nat by lia. rewrite zrange_app, fold_left_app. cbn [zrange fold_left].
    rewrite ld8_store8, !IH by lia. replace (0 + Z.of_nat j) with (Z.of_nat j) by lia. specialize (Hs (Z.of_nat j) ltac:(lia)).
    destruct (Z.eqb_spec x (to + Z.of_nat j)) as [->|Hne].
    + rewrite u8_small by (destruct (_ && _); apply ld8_range).
      assert ((to <=? to + Z.of_nat j) && (to + Z.of_nat j <? to + Z.of_nat (j + 1)) = true) as -> by (apply andb_true_intro; split; [apply Z.leb_le|apply Z.ltb_lt]; lia).
      replace (to + Z.of_nat j - to) with (Z.of_nat j) by lia.
      destruct (Z.leb_spec to (src (Z.of_nat j))), (Z.ltb_spec (src (Z.of_nat j)) (to + Z.of_nat j)); try done; lia.
    + replace (x <? to + Z.of_nat (j + 1)) with (x <? to + Z.of_nat j); [done|].
      destruct (Z.ltb_spec x (to + Z.of_nat j)), (Z.ltb_spec x (to + Z.of_nat (j + 1))); try done; lia.
Qed.

Lemma ld8_stosb0 to n m x : ld8 (rep_stosb 0 to n m) x = if (to <=? x) && (x <? to + Z.of_nat n) then 0 else ld8 m x.
Proof.
  unfold rep_stosb. induction n as [|n IH].
  - change (Z.of_nat 0) with 0. cbn [zrange fold_left]. destruct (Z.leb_spec to x), (Z.ltb_spec x (to + 0)); try done; lia.
  - replace (S n) with (n + 1)%nat by lia. rewrite zrange_app, fold_left_app. cbn [zrange fold_left].
    rewrite ld8_store8, IH. replace (0 + Z.of_nat n) with (Z.of_nat n) by lia.
    destruct (Z.eqb_spec x (to + Z.of_nat n)), (Z.leb_spec to x), (Z.ltb_spec x (to + Z.of_nat n)),
      (Z.ltb_spec x (to + Z.of_nat (n + 1))); try done; lia.
Qed.

Lemma ld8_st16 m a v x : ld8 (st16 m a v) x = if x =? a + 1 then u8 (Z.shiftr v 8) else if x =? a then u8 v else ld8 m x.
Proof. unfold st16. by rewrite !ld8_store8. Qed.
Lemma ld16_st16 m a v : ld16 (st16 m a v) a = u16 v.
Proof.
  unfold ld16. rewrite !ld8_st16, !Z.eqb_refl. destruct (Z.eqb_spec a (a + 1)); [lia|].
  rewrite Z.shiftr_div_pow2 by lia. change (2 ^ 8) with 256. unfold u8, u16. Z.div_mod_to_equations. lia.
Qed.
Lemma ld16_st16_other m a v x : x + 1 < a \/ a + 1 < x -> ld16 (st16 m a v) x = ld16 m x.
Proof. intros H. unfold ld16. rewrite !ld8_st16. repeat zcase; done. Qed.
Lemma st16_ok m a v : words_ok m -> words_ok (st16 m a v).
Proof. intros H. by apply store8_ok, store8_ok. Qed.
Lemma st16_below m a v x : x + 4 <= a -> st16 m a v x = m x.
Proof. intros H. unfold st16. by rewrite !store8_other by lia. Qed.

(** ** What setup.s saves *)

(** The tables of the drives are not where they are saved. *)
Definition tables_apart (m : Z -> Z) : Prop :=
  forall vector k, vector = 4 * 0x41 \/ vector = 4 * 0x46 -> 0 <= k < 16 ->
    far m vector k < 0x90000 \/ 0x900a0 <= far m vector k.

Record saved (b : bios_info) (m m' : Z -> Z) : Prop := {
  saved_words : ld16 m' 0x90000 = u16 (b_cursor b) /\ ld16 m' 0x90002 = u16 (b_ext_mem b) /\
    ld16 m' 0x90004 = u16 (b_page b) /\ ld16 m' 0x90006 = u16 (b_mode b) /\ ld16 m' 0x9000a = u16 (b_ega_bx b);
  saved_drives : forall k, 0 <= k < 16 ->
    ld8 m' (DRIVE_INFO + k) = ld8 m (far m (4 * 0x41) k) /\
    ld8 m' (DRIVE_INFO + 16 + k) = if is_disk1 b then ld8 m (far m (4 * 0x46) k) else 0;
  saved_rest : forall x, 0x900a0 <= x -> ld8 m' x = ld8 m x;
  saved_below : forall x, x + 4 <= 0x90000 -> m' x = m x;
  saved_ok : words_ok m'
}.

(** The words before the tables. *)
Definition save_words (b : bios_info) (m : Z -> Z) : Z -> Z :=
  st16 (st16 (st16 (st16 (st16 (st16 (st16 m 0x90000 (b_cursor b)) 0x90002 (b_ext_mem b)) 0x90004 (b_page b))
    0x90006 (b_mode b)) 0x90008 (b_ega_ax b)) 0x9000a (b_ega_bx b)) 0x9000c (b_ega_cx b).

Lemma save_words_above b m x : x < 0x90000 \/ 0x9000e <= x -> ld8 (save_words b m) x = ld8 m x.
Proof. intros H. unfold save_words. rewrite !ld8_st16. repeat zcase; done. Qed.

Lemma far_ext m m' vector k : (forall x, vector <= x < vector + 4 -> ld8 m x = ld8 m' x) -> far m vector k = far m' vector k.
Proof. intros H. unfold far, ld16. rewrite !H by lia. done. Qed.

Lemma ld8_movsb16 vector to m x :
  (forall k, 0 <= k < 16 -> far m vector k < to \/ to + 16 <= far m vector k) ->
  ld8 (rep_movsb (far m vector) to 16 m) x = if (to <=? x) && (x <? to + 16) then ld8 m (far m vector (x - to)) else ld8 m x.
Proof. intros H. exact (ld8_movsb (far m vector) to 16 m x H). Qed.

(** A byte of the area of the tables, or outside of it. *)
Lemma save_params_byte b m x :
  tables_apart m ->
  ld8 (save_params b m) x =
    if (0x90090 <=? x) && (x <? 0x900a0) then (if is_disk1 b then ld8 m (far m (4 * 0x46) (x - 0x90090)) else 0)
    else if (0x90080 <=? x) && (x <? 0x90090) then ld8 m (far m (4 * 0x41) (x - 0x90080))
    else ld8 (save_words b m) x.
Proof.
  intros Ha. unfold save_params. fold (save_words b m). cbv zeta. set (m1 := save_words b m).
  assert (F1 : forall v k, v < 0x8ff00 -> far m1 v k = far m v k).
  { intros v k Hv. apply far_ext. intros y Hy. apply save_words_above. lia. }
  set (m2 := rep_movsb (far m1 (4 * 0x41)) 0x90080 16 m1).
  assert (H2 : forall y, ld8 m2 y = if (0x90080 <=? y) && (y <? 0x90090) then ld8 m (far m (4 * 0x41) (y - 0x90080)) else ld8 m1 y).
  { intros y. unfold m2. rewrite ld8_movsb16.
    - change (0x90080 + 16) with 0x90090. destruct (Z.leb_spec 0x90080 y), (Z.ltb_spec y 0x90090); try done. rewrite F1 by lia. apply save_words_above.
      destruct (Ha (4 * 0x41) (y - 0x90080)); auto; lia.
    - intros k Hk. rewrite F1 by lia. destruct (Ha (4 * 0x41) k); auto; lia. }
  assert (F2 : forall k, far m2 (4 * 0x46) k = far m (4 * 0x46) k).
  { intros k. rewrite <- F1 by lia. apply far_ext. intros y Hy. rewrite H2. destruct (Z.leb_spec 0x90080 y); [lia|done]. }
  set (m3 := rep_movsb (far m2 (4 * 0x46)) 0x90090 16 m2).
  assert (H3 : forall y, ld8 m3 y = if (0x90090 <=? y) && (y <? 0x900a0) then ld8 m (far m (4 * 0x46) (y - 0x90090)) else ld8 m2 y).
  { intros y. unfold m3. rewrite ld8_movsb16.
    - change (0x90090 + 16) with 0x900a0. destruct (Z.leb_spec 0x90090 y), (Z.ltb_spec y 0x900a0); try done. rewrite F2, H2.
      destruct (Ha (4 * 0x46) (y - 0x90090)); [auto|lia| |];
        (destruct (Z.leb_spec 0x90080 (far m (4 * 0x46) (y - 0x90090))), (Z.ltb_spec (far m (4 * 0x46) (y - 0x90090)) 0x90090);
          try lia; apply save_words_above; lia).
    - intros k Hk. rewrite F2. destruct (Ha (4 * 0x46) k); auto; lia. }
  destruct (is_disk1 b).
  - rewrite H3, H2. done.
  - rewrite (ld8_stosb0 0x90090 16), H3, H2. change (0x90090 + Z.of_nat 16) with 0x900a0. by destruct (_ && _).
Qed.

Lemma save_params_word b m a : tables_apart m -> a + 1 < 0x90080 -> ld16 (save_params b m) a = ld16 (save_words b m) a.
Proof.
  intros Ha H. unfold ld16. rewrite !save_params_byte by done.
  assert (E : forall x, x < 0x90080 -> (0x90090 <=? x) = false /\ (0x90080 <=? x) = false) by (intros; split; apply Z.leb_gt; lia).
  destruct (E a ltac:(lia)) as [-> ->]. destruct (E (a + 1) H) as [-> ->]. done.
Qed.

Lemma save_params_saved b m : words_ok m -> tables_apart m -> saved b m (save_params b m).
Proof.
  intros Hm Ha. split.
  - rewrite !save_params_word by (done || lia). unfold save_words.
    repeat split; rewrite ?ld16_st16_other by lia; apply ld16_st16.
  - intros k Hk. rewrite !save_params_byte by done. unfold DRIVE_INFO.
    assert ((0x90090 <=? 0x90080 + k) = false) as -> by (apply Z.leb_gt; lia).
    assert ((0x90080 <=? 0x90080 + k) && (0x90080 + k <? 0x90090) = true) as ->
      by (apply andb_true_intro; split; [apply Z.leb_le|apply Z.ltb_lt]; lia).
    assert ((0x90090 <=? 0x90080 + 16 + k) && (0x90080 + 16 + k <? 0x900a0) = true) as ->
      by (apply andb_true_intro; split; [apply Z.leb_le|apply Z.ltb_lt]; lia).
    simpl. by replace (0x90080 + k - 0x90080) with k by lia; replace (0x90080 + 16 + k - 0x90090) with k by lia.
  - intros x Hx. rewrite save_params_byte by done. destruct (Z.ltb_spec x 0x900a0), (Z.ltb_spec x 0x90090); try lia.
    rewrite !andb_false_r. apply save_words_above. lia.
  - intros x Hx. unfold save_params. cbv zeta.
    destruct (is_disk1 b); rewrite ?stosb_below, !movsb_below by lia; by rewrite !st16_below by lia.
  - unfold save_params. cbv zeta. fold (save_words b m).
    assert (H : words_ok (save_words b m)) by (do 7 apply st16_ok; exact Hm).
    destruct (is_disk1 b); [|apply stosb_ok]; apply movsb_ok, movsb_ok, H.
Qed.

(** ** The system moves down *)

Lemma set_mem_run f n s : set_mem f n s = Done tt (s <| k_mm ::= fun r => r <| mem ::= f |> |>).
Proof. reflexivity. Qed.

(** A state with another memory. *)
Definition with_memory (m : Z -> Z) (s : kstate) : kstate := s <| k_mm ::= fun r => r <| mem := m |> |>.

(** The memory when [i] segments have been moved. *)
Definition moved (i : Z) (m m' : Z -> Z) : Prop :=
  forall x, m' x = if (0 <=? x) && (x <? 0x10000 * i) then m (x + 0x10000) else m x.

Lemma moved_next i m m' : 0 <= i -> moved i m m' -> moved (i + 1) m (move_block (0x10000 * (i + 1)) (0x10000 * i) m').
Proof.
  intros Hi H x. unfold move_block. rewrite !H.
  destruct (Z.leb_spec (0x10000 * i) x), (Z.ltb_spec x (0x10000 * i + 0x10000)), (Z.leb_spec 0 x),
    (Z.ltb_spec x (0x10000 * (i + 1))), (Z.ltb_spec x (0x10000 * i)); cbn [andb]; try lia; try done.
  destruct (Z.ltb_spec (x - 0x10000 * i + 0x10000 * (i + 1)) (0x10000 * i)); [lia|]. rewrite andb_false_r. f_equal. lia.
Qed.

Lemma move_loop j k i m n s :
  0 <= i -> i + Z.of_nat j = 8 -> (j < k)%nat -> moved i m (mem (k_mm s)) ->
  exists m', iterate k move_body (0x1000 * i) n s = Done tt (with_memory m' s) /\ moved 8 m m'.
Proof.
  revert k i s. induction j as [|j IH]; intros k i s Hi Hj Hk Hm; (destruct k as [|k]; [lia|]).
  - exists (mem (k_mm s)). replace i with 8 in * by lia. split; [|done]. erewrite iterate_last; [|reflexivity]. by destruct s as [[]].
  - assert (E : u16 (0x1000 * i + 0x1000) = 0x1000 * (i + 1)) by (unfold u16; rewrite Z.mod_small by lia; lia).
    set (s1 := with_memory (move_block (0x10000 * (i + 1)) (0x10000 * i) (mem (k_mm s))) s).
    destruct (IH k (i + 1) s1) as (m' & E' & H'); [lia|lia|lia|by apply moved_next|]. exists m'. split; [|exact H'].
    erewrite iterate_next; [exact E'|]. unfold move_body. cbv zeta. rewrite E. destruct (Z.eqb_spec (0x1000 * (i + 1)) 0x9000); [lia|].
    step (set_mem_run (move_block (16 * (0x1000 * (i + 1))) (16 * (0x1000 * i))) n s). unfold s1, with_memory, ret.
    by replace (16 * (0x1000 * (i + 1))) with (0x10000 * (i + 1)) by lia; replace (16 * (0x1000 * i)) with (0x10000 * i) by lia.
Qed.

Lemma do_move_run n s :
  (9 <= n)%nat -> exists m', do_move n s = Done tt (with_memory m' s) /\ moved 8 (mem (k_mm s)) m'.
Proof.
  intros Hn. apply (move_loop 8 n 0 (mem (k_mm s)) n s); [lia|lia|lia|]. intros x.
  change (0x10000 * 0) with 0. destruct (Z.leb_spec 0 x), (Z.ltb_spec x 0); try done; lia.
Qed.

(** ** The keyboard controller and the interrupt controllers *)

Lemma with_memory_dev m o f i s : with_memory m (dev o f i s) = dev o f i (with_memory m s).
Proof. reflexivity. Qed.

(** The controller accepts a byte after at most [k] looks at its status. *)
Definition keyboard_ready (k : nat) (f : Z -> nat -> Z) : Prop := answers k (fun i => nz (Z.land (u8 (f 0x64 i)) 2)).

Lemma empty_8042_run k n o f i s :
  keyboard_ready k f -> (k <= n)%nat ->
  exists f', empty_8042 n (dev o f i s) = Done tt (dev o f' i s) /\ keyboard_ready k f' /\ f' 0x71 = f 0x71.
Proof.
  intros Hf Hk. unfold empty_8042, loop. destruct (Hf O) as (j & Hj & Ej). simpl in Ej.
  assert (Hm : (j < n)%nat) by lia. clear Hk Hj. revert Hm. generalize n at 1 2. intros m Hm. revert m f Hm Hf Ej.
  assert (T : forall f, keyboard_ready k f -> keyboard_ready k (taken 0x64 f)) by (intros f Hf x; exact (Hf (S x))).
  induction j as [|j IH]; intros m f Hm Hf Ej; (destruct m as [|m]; [lia|]).
  - exists (taken 0x64 f). split; [|by split; [apply T|]]. apply iterate_last. step (inb_dev 0x64 n o f i s). by rewrite Ej.
  - destruct (nz (Z.land (u8 (f 0x64 0%nat)) 2)) eqn:E.
    + destruct (IH m (taken 0x64 f)) as (f' & E' & H' & H71); [lia|by apply T|exact Ej|]. exists f'. split; [|by split].
      erewrite iterate_next; [exact E'|]. step (inb_dev 0x64 n o f i s). by rewrite E.
    + exists (taken 0x64 f). split; [|by split; [apply T|]]. apply iterate_last. step (inb_dev 0x64 n o f i s). by rewrite E.
Qed.

Lemma enable_A20_run k n o f i s :
  keyboard_ready k f -> (k <= n)%nat ->
  exists o' f', enable_A20 n (dev o f i s) = Done tt (dev o' f' i s) /\ f' 0x71 = f 0x71.
Proof.
  intros Hf Hk. unfold enable_A20.
  destruct (empty_8042_run k n o f i s Hf Hk) as (f1 & E1 & H1 & G1). step E1. dev_step.
  edestruct (empty_8042_run k n) as (f2 & E2 & H2 & G2); [exact H1|done|]. step E2. dev_step.
  edestruct (empty_8042_run k n) as (f3 & E3 & H3 & G3); [exact H2|done|]. rewrite E3.
  do 2 eexists. split; [reflexivity|]. congruence.
Qed.

Lemma program_8259_run n o f i s : exists o', program_8259 n (dev o f i s) = Done tt (dev o' f i s).
Proof. unfold program_8259. repeat dev_step. rewrite outb_dev. by eexists. Qed.

(** ** head.s *)

Lemma setup_idt_run n o f s :
  setup_idt n (dev o f (replicate 256 (mkGate 0 "")) s) = Done tt (dev o f (replicate 256 (mkGate 0x8E00 "ignore_int")) s).
Proof.
  unfold setup_idt. assert (H : forall l i,
    for_each l (fun v => set_sched (fun c => c <| idt ::= fun l => arr_set l v (mkGate 0x8E00 "ignore_int") |>)) n (dev o f i s) =
    Done tt (dev o f (fold_left (fun i v => arr_set i v (mkGate 0x8E00 "ignore_int")) l i) s)).
  { induction l as [|v l IH]; intros i; cbn [for_each fold_left]; [done|]. rewrite <- IH. reflexivity. }
  rewrite H. by vm_compute (fold_left _ _ _).
Qed.

(** One round of the test of the A20 line. *)
Lemma A20_round_run (a20 : bool) eax n s :
  A20_round a20 eax n s =
  Done (if u32 (eax + 1) =? (if a20 then mem (k_mm s) 0x100000 else u32 (eax + 1)) then inl (u32 (eax + 1)) else inr tt)
    (with_memory (store (mem (k_mm s)) 0 (u32 (eax + 1))) s).
Proof.
  unfold A20_round. cbv zeta. step (set_mem_run (fun m => store m 0 (u32 (eax + 1))) n s). unfold bind, get, ret. cbn [obind].
  destruct a20; [reflexivity|]. assert (E : u32 (u32 (eax + 1)) = u32 (eax + 1)) by (apply u32_small, u32_range).
  change (mem _ (line false 0x100000)) with (u32 (u32 (eax + 1))). by rewrite E.
Qed.

Lemma check_A20_run n s :
  (2 <= n)%nat ->
  exists m', check_A20 true n s = Done tt (with_memory m' s) /\ (forall x, x <> 0 -> m' x = mem (k_mm s) x) /\
    (words_ok (mem (k_mm s)) -> words_ok m').
Proof.
  intros Hn. unfold check_A20, loop. destruct n as [|[|n]]; [lia|lia|]. generalize (S (S n)) at 2. intros fuel.
  set (v := mem (k_mm s) 0x100000). change (u32 (0 + 1)) with 1.
  assert (Hs : forall w x, x <> 0 -> store (mem (k_mm s)) 0 w x = mem (k_mm s) x).
  { intros w x Hx. unfold store. by destruct (Z.eqb_spec x 0). }
  destruct (Z.eqb_spec 1 v) as [E|E].
  - exists (store (store (mem (k_mm s)) 0 1) 0 2). split; [|split; [|by intros; apply store_ok, store_ok]].
    + erewrite iterate_next; [|rewrite A20_round_run; change (u32 (0 + 1)) with 1; fold v; rewrite (proj2 (Z.eqb_eq 1 v) E); reflexivity].
      apply iterate_last. rewrite A20_round_run. change (u32 (1 + 1)) with 2. change (mem (k_mm (with_memory _ s)) 0x100000) with v.
      destruct (Z.eqb_spec 2 v); [lia|reflexivity].
    + intros x Hx. rewrite <- (Hs 1 x Hx). unfold store at 1. by destruct (Z.eqb_spec x 0).
  - exists (store (mem (k_mm s)) 0 1). split; [|split; [by apply Hs|by apply store_ok]].
    apply iterate_last. rewrite A20_round_run. change (u32 (0 + 1)) with 1. fold v. by rewrite (proj2 (Z.eqb_neq 1 v) E).
Qed.

(** With the line closed the kernel is never started. *)
Lemma closed_line_hangs n s : check_A20 false n s = NoFuel.
Proof.
  unfold check_A20, loop. generalize n at 1. intros m. generalize 0. revert s.
  induction m as [|m IH]; intros s eax; [done|].
  erewrite iterate_next; [apply IH|]. rewrite A20_round_run, Z.eqb_refl. reflexivity.
Qed.

(** ** The page tables *)

(** The directory and the four tables that map the first 16 MB to themselves. *)
Record identity_mapped (m : Z -> Z) : Prop := {
  id_dir : forall d, 0 <= d < 4 -> m (4 * d) = 0x1000 * (d + 1) + 7;
  id_rest : forall d, 4 <= d < 1024 -> m (4 * d) = 0;
  id_tables : forall i, 0 <= i < 4096 -> m (0x1000 + 4 * i) = 4096 * i + 7
}.

Lemma st_run a v n s : st a v n s = Done tt (mkMm (store (mem s) a v) (mem_map s) (HIGH_MEMORY s)).
Proof. reflexivity. Qed.

(** The tables are filled from the [i]th entry downwards. *)
Lemma paging_loop k i n s :
  0 <= i < 4096 -> i < Z.of_nat k ->
  exists m', iterate k paging_body (0x1000 + 4 * i, 4096 * i + 7) n s = Done tt (mkMm m' (mem_map s) (HIGH_MEMORY s)) /\
    (forall j, 0 <= j <= i -> m' (0x1000 + 4 * j) = 4096 * j + 7) /\
    (forall x, x < 0x1000 \/ 0x1000 + 4 * i < x -> m' x = mem s x) /\ (words_ok (mem s) -> words_ok m').
Proof.
  revert i s. induction k as [|k IH]; intros i s Hi Hk; [lia|].
  set (s1 := mkMm (store (mem s) (0x1000 + 4 * i) (4096 * i + 7)) (mem_map s) (HIGH_MEMORY s)).
  assert (Eb : paging_body (0x1000 + 4 * i, 4096 * i + 7) n s =
    Done (if 0 <=? 4096 * (i - 1) + 7 then inl (0x1000 + 4 * (i - 1), 4096 * (i - 1) + 7) else inr tt) s1).
  { unfold paging_body. step (st_run (0x1000 + 4 * i) (4096 * i + 7) n s). unfold ret. assert (s32 (4096 * i + 7 - 0x1000) = 4096 * (i - 1) + 7) as ->.
    { unfold s32. rewrite Z.mod_small by lia. lia. }
    by replace (0x1000 + 4 * i - 4) with (0x1000 + 4 * (i - 1)) by lia. }
  assert (Es : forall x, mem s1 x = if x =? 0x1000 + 4 * i then 4096 * i + 7 else mem s x).
  { intros x. cbn. unfold store. rewrite u32_small by lia. done. }
  destruct (Z.leb_spec 0 (4096 * (i - 1) + 7)) as [Hp|Hp].
  - destruct (IH (i - 1) s1) as (m' & E & H1 & H2 & H3); [lia|lia|]. exists m'. split; [by rewrite (iterate_next k _ _ n s _ s1 Eb)|].
    split; [|split].
    + intros j Hj. destruct (Z.eqb_spec j i) as [->|]; [|apply H1; lia]. rewrite H2, Es by lia. by rewrite Z.eqb_refl.
    + intros x Hx. rewrite H2, Es by lia. destruct (Z.eqb_spec x (0x1000 + 4 * i)); [lia|done].
    + intros Hw. by apply H3, store_ok.
  - exists (mem s1). assert (i = 0) as -> by lia. split; [by rewrite (iterate_last k _ _ n s tt s1 Eb)|].
    split; [|split].
    + intros j Hj. assert (j = 0) as -> by lia. by rewrite Es.
    + intros x Hx. rewrite Es. destruct (Z.eqb_spec x (0x1000 + 4 * 0)); [lia|done].
    + intros Hw. by apply store_ok.
Qed.

Lemma setup_paging_run n s :
  (4096 <= n)%nat ->
  exists m', setup_paging n s = Done tt (mkMm m' (mem_map s) (HIGH_MEMORY s)) /\ identity_mapped m' /\
    (forall x, 0x5000 <= x -> m' x = mem s x) /\ (words_ok (mem s) -> words_ok m').
Proof.
  intros Hn. set (clear := fun (m : Z -> Z) x => if (0 <=? x) && (x <? 4 * (1024 * 5)) then 0 else m x).
  set (dir := store (store (store (store (clear (mem s)) 0 (pg0 + 7)) 4 (pg1 + 7)) 8 (pg2 + 7)) 12 (pg3 + 7)).
  destruct (paging_loop n 4095 n (mkMm dir (mem_map s) (HIGH_MEMORY s)) ltac:(lia) ltac:(lia)) as (m' & E & H1 & H2 & H3).
  assert (Hd : forall x, m' x = dir x \/ 0x1000 <= x <= 0x4ffc).
  { intros x. destruct (Z.lt_ge_cases x 0x1000); [left; apply H2; lia|].
    destruct (Z.le_gt_cases x 0x4ffc); [by right|]. left. apply H2. lia. }
  assert (Edir : forall x, dir x = if x =? 12 then 0x4007 else if x =? 8 then 0x3007 else if x =? 4 then 0x2007
    else if x =? 0 then 0x1007 else clear (mem s) x) by reflexivity.
  exists m'. split; [exact E|]. split; [split|split].
  - intros d Hd4. rewrite H2 by lia. cbn [mem]. rewrite Edir.
    assert (d = 0 \/ d = 1 \/ d = 2 \/ d = 3) as [-> | [-> | [-> | ->]]] by lia; reflexivity.
  - intros d Hd4. rewrite H2 by lia. cbn [mem]. rewrite Edir. unfold clear.
    destruct (Z.eqb_spec (4 * d) 12), (Z.eqb_spec (4 * d) 8), (Z.eqb_spec (4 * d) 4), (Z.eqb_spec (4 * d) 0); try lia.
    by destruct (Z.leb_spec 0 (4 * d)), (Z.ltb_spec (4 * d) (4 * (1024 * 5))); try lia.
  - intros i Hi. apply H1. lia.
  - intros x Hx. rewrite H2 by lia. cbn [mem]. rewrite Edir. unfold clear.
    destruct (Z.eqb_spec x 12), (Z.eqb_spec x 8), (Z.eqb_spec x 4), (Z.eqb_spec x 0); try lia.
    destruct (Z.ltb_spec x (4 * (1024 * 5))); [lia|]. by rewrite andb_false_r.
  - intros Hw. apply H3. do 4 apply store_ok. intros x. unfold clear. destruct (_ && _); [lia|apply Hw].
Qed.

(** The control register: paging and protection are on, and the emulation bit says that there is no
    coprocessor. *)
Definition cr0_of (al cr0 : Z) : Z := Z.lor (check_x87 al (Z.lor (Z.land (lmsw 1 cr0) 0x80000011) 2)) 0x80000000.

Ltac const_bits :=
  repeat match goal with
  | |- context [Z.testbit (Zpos ?p) ?k] => let v := eval vm_compute in (Z.testbit (Zpos p) k) in change (Z.testbit (Zpos p) k) with v
  end.

Lemma cr0_bits al cr0 :
  Z.testbit (cr0_of al cr0) 31 = true /\ Z.testbit (cr0_of al cr0) 2 = negb (u8 al =? 0) /\
  Z.testbit (cr0_of al cr0) 1 = (u8 al =? 0) /\ Z.testbit (cr0_of al cr0) 0 = true.
Proof.
  unfold cr0_of, check_x87. repeat split; destruct (u8 al =? 0);
    unfold lmsw;
    rewrite Z.lor_spec, ?Z.lxor_spec, Z.lor_spec, Z.land_spec, Z.lor_spec, Z.ldiff_spec; const_bits; by destruct (Z.testbit cr0 _).
Qed.

(** ** From the reset to main *)

(** The image is loaded; the tables of gates and segments are blank. *)
Definition reset_k (m : Z -> Z) (f : Z -> nat -> Z) : kstate :=
  boot_k <| k_mm ::= fun r => r <| mem := m |> |>
    <| k_sched ::= fun c => c <| inputs := f |> <| idt := replicate 256 (mkGate 0 "") |> <| gdt := replicate 256 (mkDesc 0 0) |> |>.

(** What [main] finds in the memory when [m] was there after the loading. *)
Record handed_over (b : bios_info) (m m' : Z -> Z) : Prop := {
  ho_system : forall x, 0x5000 <= x -> x + 4 <= 0x80000 -> m' x = m (x + 0x10000);
  ho_words : ld16 m' 0x90000 = u16 (b_cursor b) /\ ld16 m' 0x90002 = u16 (b_ext_mem b) /\
    ld16 m' 0x90004 = u16 (b_page b) /\ ld16 m' 0x90006 = u16 (b_mode b) /\ ld16 m' 0x9000a = u16 (b_ega_bx b);
  ho_drives : forall k, 0 <= k < 16 ->
    ld8 m' (DRIVE_INFO + k) = ld8 m (far m (4 * 0x41) k) /\
    ld8 m' (DRIVE_INFO + 16 + k) = if is_disk1 b then ld8 m (far m (4 * 0x46) k) else 0;
  ho_root : ld16 m' 0x901FC = ld16 m 0x901FC;
  ho_paging : identity_mapped m';
  ho_ok : words_ok m'
}.

Lemma setup_gdt_run n s : setup_gdt n s = Done tt (s <| k_sched ::= fun c => c <| gdt := head_gdt |> |>).
Proof. reflexivity. Qed.

Lemma start_run b m f k n al cr0 :
  words_ok m -> tables_apart m -> keyboard_ready k f -> (k <= n)%nat -> (4096 <= n)%nat ->
  exists m' o f', (let! cr0 := setup_s b cr0 in startup_32 true al cr0) n (reset_k m f) =
      Done (cr0_of al cr0) (dev o f' (idt boot_sched) (with_memory m' boot_k)) /\
    f' 0x71 = f 0x71 /\ handed_over b m m'.
Proof.
  intros Hm Ha Hf Hk Hn. set (s0 := reset_k m f). set (m1 := save_params b m).
  destruct (save_params_saved b m Hm Ha) as [S1 S2 S5 S3 S4]. fold m1 in S1, S2, S3, S4, S5.
  set (blank := boot_k <| k_sched ::= fun c => c <| gdt := replicate 256 (mkDesc 0 0) |> |>).
  destruct (do_move_run n (dev [] f (replicate 256 (mkGate 0 "")) (with_memory m1 blank)) ltac:(lia)) as (m2 & E2 & H2).
  change (moved 8 m1 m2) in H2. rewrite with_memory_dev in E2.
  destruct (enable_A20_run k n [] f (replicate 256 (mkGate 0 "")) (with_memory m2 blank) Hf Hk) as (o3 & f3 & E3 & H3).
  destruct (program_8259_run n o3 f3 (replicate 256 (mkGate 0 "")) (with_memory m2 blank)) as (o4 & E4).
  assert (ES : setup_s b cr0 n s0 = Done (lmsw 1 cr0) (dev o4 f3 (replicate 256 (mkGate 0 "")) (with_memory m2 blank))).
  { unfold setup_s. step (set_mem_run (save_params b) n s0).
    change (upd k_mm _ s0) with (dev [] f (replicate 256 (mkGate 0 "")) (with_memory m1 blank)). step E2.
    change (with_memory m2 (with_memory m1 blank)) with (with_memory m2 blank). step E3. by step E4. }
  step ES. unfold startup_32. step (setup_idt_run n o4 f3 (with_memory m2 blank)). step (setup_gdt_run n (dev o4 f3 (idt boot_sched) (with_memory m2 blank))).
  set (s1 := dev o4 f3 (idt boot_sched) (with_memory m2 boot_k)).
  change (upd k_sched _ _) with s1.
  destruct (check_A20_run n s1 ltac:(lia)) as (m3 & E5 & H5 & W5). step E5.
  destruct (setup_paging_run n (k_mm (with_memory m3 s1)) Hn) as (m4 & E6 & H6 & H7 & W6).
  step (on_mm_run _ n (with_memory m3 s1) tt _ E6). exists m4, o4, f3. split; [reflexivity|]. split; [done|].
  change (mem (k_mm s1)) with m2 in H5, W5. change (mem (k_mm (with_memory m3 s1))) with m3 in H7, W6.
  assert (Hhigh : forall x, 0x90000 <= x -> m4 x = m1 x).
  { intros x Hx. rewrite H7, H5, H2 by lia. destruct (Z.ltb_spec x (0x10000 * 8)); [lia|]. by rewrite andb_false_r. }
  assert (Hb : forall a, 0x90000 <= a -> ld8 m4 a = ld8 m1 a) by (intros a; by apply ld8_above).
  split.
  - intros x Hx Hx'. rewrite H7, H5, H2 by lia. destruct (Z.leb_spec 0 x), (Z.ltb_spec x (0x10000 * 8)); try lia. apply S3. lia.
  - unfold ld16 in *. by rewrite !Hb by lia.
  - intros j Hj. unfold DRIVE_INFO in *. rewrite !Hb by lia. by apply S2.
  - unfold ld16 in *. by rewrite !Hb, !S5 by lia.
  - exact H6.
  - apply W6, W5. intros x. rewrite H2. destruct (_ && _); apply S4.
Qed.
