(* ===== verification/BootProps.v ===== *)
(** * The state main leaves: BootProps

    The clock, the memory map, the interrupt table and the components after [main];
    it starts from the state head.s hands over (Startup.v).  The statements of [main] are gone through
    one by one: each routine changes its own component, and ports and gates. *)
From Stdlib Require Import ZArith Lia String.
From stdpp Require Import base list.
From S2P Require Import Prelude Resumption Memory PageTables KState Console Runs ConsoleProps Sched BlkDev Hd Floppy Buffer CacheQueues CacheInv.
From S2P Require Import CacheProps Segment Tty Setup Fork PageFault SystemCall Traps Mktime Main Startup.

(** ** The interrupt table *)

(** The gates a list of vectors sets. *)
Definition set_gates (l : list (Z * gate)) (i : list gate) : list gate := fold_left (fun i g => arr_set i g.1 g.2) l i.

Definition trap (v : Z) (a : string) : Z * gate := (v, mkGate 0x8f00 a).
Definition sys (v : Z) (a : string) : Z * gate := (v, mkGate 0xef00 a).
Definition intr (v : Z) (a : string) : Z * gate := (v, mkGate 0x8e00 a).

Definition trap_gates : list (Z * gate) := [
  trap 0 "divide_error"; trap 1 "debug"; trap 2 "nmi"; sys 3 "int3"; sys 4 "overflow"; sys 5 "bounds";
  trap 6 "invalid_op"; trap 7 "device_not_available"; trap 8 "double_fault"; trap 9 "coprocessor_segment_overrun";
  trap 10 "invalid_TSS"; trap 11 "segment_not_present"; trap 12 "stack_segment"; trap 13 "general_protection";
  trap 14 "page_fault"; trap 15 "reserved"; trap 16 "coprocessor_error"] ++
  map (fun v => trap v "reserved") (zrange 17 31) ++ [trap 45 "irq13"; trap 39 "parallel_interrupt"].

Lemma trap_gates_run l a n o f i s :
  for_each l (fun v => set_trap_gate v a) n (dev o f i s) = Done tt (dev o f (set_gates (map (fun v => trap v a) l) i) s).
Proof.
  revert i. induction l as [|v l IH]; intros i; cbn [for_each map]; [done|]. dev_step. apply IH.
Qed.

Lemma set_gates_app l1 l2 i : set_gates (l1 ++ l2) i = set_gates l2 (set_gates l1 i).
Proof. apply fold_left_app. Qed.

Lemma trap_init_run n o f i s :
  exists o' f', trap_init n (dev o f i s) = Done tt (dev o' f' (set_gates trap_gates i) s) /\ f' 0x71 = f 0x71.
Proof.
  unfold trap_init. repeat dev_step. step (trap_gates_run _ _ _ _ _ _ _). repeat dev_step.
  unfold trap_gates. rewrite !set_gates_app. by do 2 eexists.
Qed.

(** ** The real-time clock *)

(** What the clock's memory holds for a date: binary-coded decimals. *)
Definition bcd (x : Z) : Z := 16 * (x / 10) + x mod 10.
Definition clock_bytes (t : tm) : list Z :=
  [bcd (tm_sec t); bcd (tm_min t); bcd (tm_hour t); bcd (tm_mday t); bcd (tm_mon t + 1); bcd (tm_year t)].

(** A stream that begins with the bytes [l]. *)
Definition begins (l : list Z) (f : nat -> Z) : Prop := forall k v, l !! k = Some v -> u8 (f k) = v.

Lemma begins_cons v l f : begins (v :: l) f -> u8 (f O) = v /\ begins l (fun k => f (S k)).
Proof. intros H. split; [by apply (H O)|]. intros k w. apply (H (S k)). Qed.

Lemma begins_app l1 l2 f : begins (l1 ++ l2) f -> begins l1 f /\ begins l2 (fun k => f (length l1 + k)%nat).
Proof.
  intros H. split; intros k v E; apply H.
  - by apply lookup_app_l_Some.
  - by rewrite lookup_app_r, Nat.add_comm, Nat.add_sub by lia.
Qed.

Lemma BCD_bcd x : 0 <= x <= 99 -> BCD_TO_BIN (bcd x) = x.
Proof.
  intros H. unfold BCD_TO_BIN, bcd. change 15 with (Z.ones 4). rewrite Z.land_ones, Z.shiftr_div_pow2 by lia.
  change (2 ^ 4) with 16. Z.div_mod_to_equations. lia.
Qed.

(** A round of the loop of [time_init] during which the seconds change. *)
Definition torn (r : list Z) : Prop := length r = 7%nat /\ nth 0 r 0 <> nth 6 r 0.

Lemma cmos_dev a n o f i s :
  CMOS_READ a n (dev o f i s) = Done (u8 (f 0x71 O)) (dev ((u8 (Z.lor 0x80 a), 0x70) :: o) (taken 0x71 f) i s).
Proof. reflexivity. Qed.

Lemma clock_round_run a b c d e g h n o f i s :
  begins [a; b; c; d; e; g; h] (f 0x71) ->
  exists o' f', clock_round n (dev o f i s) =
    Done (if a =? h then inr (mkTm a b c d e g) else inl tt) (dev o' f' i s) /\ f' 0x71 = fun k => f 0x71 (7 + k)%nat.
Proof.
  intros H. unfold clock_round. do 6 (step (cmos_dev _ _ _ _ _ _)). step (cmos_dev _ _ _ _ _ _).
  change (taken 0x71 ?f 0x71) with (fun k => f 0x71 (S k)). cbv beta.
  repeat (apply begins_cons in H as [<- H]). by do 2 eexists.
Qed.

Lemma read_clock_run t rounds n o f i s :
  (length rounds < n)%nat -> Forall torn rounds ->
  begins (concat rounds ++ clock_bytes t ++ [bcd (tm_sec t)]) (f 0x71) ->
  exists o' f', read_clock n (dev o f i s) =
    Done (mkTm (bcd (tm_sec t)) (bcd (tm_min t)) (bcd (tm_hour t)) (bcd (tm_mday t)) (bcd (tm_mon t + 1)) (bcd (tm_year t)))
      (dev o' f' i s).
Proof.
  unfold read_clock, loop. generalize n at 1 2. intros k Hk Hr. revert k o f Hk.
  induction Hr as [|r rounds [Hl Ht] _ IH]; intros k o f Hk Hb; (destruct k as [|k]; [simpl in Hk; lia|]); cbn [iterate].
  - cbn [concat app clock_bytes] in Hb. destruct (clock_round_run _ _ _ _ _ _ _ n o f i s Hb) as (o' & f' & -> & _).
    rewrite Z.eqb_refl. cbn [obind]. by do 2 eexists.
  - destruct r as [|a [|b [|c [|d [|e [|g [|h [|]]]]]]]]; try done. cbn [concat app] in Hb.
    apply (begins_app [a; b; c; d; e; g; h]) in Hb as [H1 H2].
    destruct (clock_round_run _ _ _ _ _ _ _ n o f i s H1) as (o' & f' & -> & E). cbn [nth] in Ht.
    apply Z.eqb_neq in Ht. rewrite Ht. cbn [obind]. apply IH; [simpl in Hk; lia|]. rewrite E. exact H2.
Qed.

Lemma time_init_run (t : tm) (rounds : list (list Z)) (n : nat) (s : kstate) :
  valid_tm t -> tm_year t <= 99 -> (length rounds < n)%nat -> Forall torn rounds ->
  begins (concat rounds ++ clock_bytes t ++ [bcd (tm_sec t)]) (inputs (k_sched s) 0x71) ->
  exists o f, time_init n s =
    Done tt ((dev o f (idt (k_sched s)) s) <| k_sched ::= fun c => c <| startup_time := seconds_since_epoch t |> |>).
Proof.
  intros Hv Hy Hn Ht Hb. pose proof Hv as (Hy0 & Hm & Hd & Hh & Hmi & Hs).
  destruct (read_clock_run t rounds n (out (k_sched s)) _ (idt (k_sched s)) s Hn Ht Hb) as (o & f & E).
  rewrite <- dev_self in E. exists o, f. unfold time_init. step E.
  assert (days_in_month (1900 + tm_year t) (tm_mon t) <= 31) by (unfold days_in_month; repeat case_match; lia).
  assert (tm_of_bcd (mkTm (bcd (tm_sec t)) (bcd (tm_min t)) (bcd (tm_hour t)) (bcd (tm_mday t)) (bcd (tm_mon t + 1)) (bcd (tm_year t))) = t) as ->.
  { unfold tm_of_bcd. cbn [tm_sec tm_min tm_hour tm_mday tm_mon tm_year]. rewrite !BCD_bcd by lia.
    destruct t. cbn. f_equal. lia. }
  destruct (kernel_mktime_calendar t Hv) as [Ek _].
  unfold bind, deref. rewrite Ek. reflexivity.
Qed.

(** ** Memory *)

Lemma ends_on_mm {A} (m : M mm A) s (Q : A -> kstate -> Prop) :
  ends m (k_mm s) (fun a t => Q a (s <| k_mm := t |>)) -> ends (on_mm m) s Q.
Proof. exact (ends_zoom k_mm (fun t s => s <| k_mm := t |>) m s Q). Qed.

(** The map of the pages when those between two addresses are free. *)
Definition free_between (start end_ : Z) (l : list Z) : Prop :=
  length l = 3840%nat /\ forall i, 0 <= i < 3840 -> arr_get l i = Some (if (start <=? i) && (i <? end_) then 0 else USED).

Lemma mem_init_ends start end_ s :
  0x100000 <= start <= end_ -> end_ <= 0x1000000 ->
  ends (mem_init start end_) s (fun _ s' => mem s' = mem s /\ HIGH_MEMORY s' = end_ /\
    free_between ((start - 0x100000) / 4096) ((start - 0x100000) / 4096 + (end_ - start) / 4096) (mem_map s')).
Proof.
  intros Hs He. unfold mem_init. apply ends_bind, ends_modify. apply ends_bind, ends_modify.
  assert (Hn : Z.shiftr (end_ - start) 12 = (end_ - start) / 4096) by (rewrite Z.shiftr_div_pow2 by lia; done). rewrite Hn.
  assert (Hm : MAP_NR start = (start - 0x100000) / 4096).
  { unfold MAP_NR, LOW_MEM. rewrite u32_small, Z.shiftr_div_pow2 by lia. done. }
  rewrite Hm. set (a := (start - 0x100000) / 4096). set (k := (end_ - start) / 4096).
  assert (Ha : 0 <= a) by (apply Z.div_pos; lia). assert (Hk : 0 <= k) by (apply Z.div_pos; lia).
  assert (Hak : a + k <= 3840) by (unfold a, k; Z.div_mod_to_equations; lia).
  eapply ends_mono.
  - apply (ends_for (fun j t => mem t = mem s /\ HIGH_MEMORY t = end_ /\ free_between a (a + j) (mem_map t))).
    + split; [done|]. split; [done|]. split; [done|]. intros i Hi.
      transitivity (arr_get (replicate (Z.to_nat PAGING_PAGES) USED) i); [done|].
      rewrite arr_get_replicate by (change (Z.of_nat (Z.to_nat PAGING_PAGES)) with 3840; lia). by repeat zcase.
    + intros j t Hj (H1 & H2 & Hl & H3). apply ends_bind. eapply ends_deref; [apply H3; lia|].
      apply ends_modify. split; [done|]. split; [done|]. split; [simpl; by rewrite arr_set_length|]. intros i Hi. simpl.
      destruct (decide (a + j = i)) as [<-|Hne].
      * rewrite arr_get_set_eq by lia. change (u8 0) with 0. by repeat zcase.
      * rewrite arr_get_set_ne by done. rewrite H3 by lia. by repeat zcase.
  - intros [] t H. cbv beta in H. by replace (0 + Z.of_nat (Z.to_nat k)) with k in H by lia.
Qed.

(** Copying the drive table does not touch the words above [hi]. *)
(** The 32 bytes of [drive_info] are copied and nothing else changes. *)
Record drives_copied (drive_info : Z) (m m' : Z -> Z) : Prop := {
  dc_bytes : forall a, ld8 m' a =
    if (drive_info <=? a) && (a <? drive_info + 32) then ld8 m (DRIVE_INFO + (a - drive_info)) else ld8 m a;
  dc_below : forall a, a + 4 <= drive_info -> m' a = m a;
  dc_above : forall a, drive_info + 32 <= a -> m' a = m a;
  dc_words : words_ok m -> words_ok m'
}.

Lemma copy_drive_info_ends drive_info s :
  0 <= drive_info -> drive_info + 32 <= 0x90000 ->
  ends (copy_drive_info drive_info) s (fun _ s' => exists m, s' = with_memory m s /\ drives_copied drive_info (mem (k_mm s)) m).
Proof.
  intros H0 Hh. unfold copy_drive_info.
  set (J := fun k s' => exists m, s' = with_memory m s /\
    (forall a, ld8 m a = if (drive_info <=? a) && (a <? drive_info + k) then ld8 (mem (k_mm s)) (DRIVE_INFO + (a - drive_info))
      else ld8 (mem (k_mm s)) a) /\
    (forall a, a + 4 <= drive_info \/ drive_info + 32 <= a -> m a = mem (k_mm s) a) /\ (words_ok (mem (k_mm s)) -> words_ok m)).
  eapply ends_mono; [refine (ends_for J _ 32 0 s _ _)|].
  - exists (mem (k_mm s)). split; [by destruct s as [[]]|]. split; [|done]. intros a.
    destruct (Z.leb_spec drive_info a), (Z.ltb_spec a (drive_info + 0)); try done; lia.
  - intros k s' Hk (m & -> & H1 & H2 & H3). apply ends_bind, ends_get, ends_modify.
    set (v := kernel_byte (with_memory m s) (DRIVE_INFO + k)).
    assert (Hv : v = ld8 (mem (k_mm s)) (DRIVE_INFO + k)).
    { unfold v, kernel_byte. change (mem (k_mm (with_memory m s))) with m. unfold DRIVE_INFO. rewrite u32_small, H1 by lia.
      destruct (Z.ltb_spec (0x90080 + k) (drive_info + k)); [lia|]. by rewrite andb_false_r. }
    exists (store8 m (drive_info + k) v). split; [reflexivity|]. split; [|split].
    + intros a. rewrite ld8_store8, H1. destruct (Z.eqb_spec a (drive_info + k)) as [->|].
      * rewrite Hv, u8_small by apply ld8_range. replace (drive_info + k - drive_info) with k by lia.
        destruct (Z.leb_spec drive_info (drive_info + k)), (Z.ltb_spec (drive_info + k) (drive_info + (k + 1))); try done; lia.
      * replace (a <? drive_info + (k + 1)) with (a <? drive_info + k); [done|].
        destruct (Z.ltb_spec a (drive_info + k)), (Z.ltb_spec a (drive_info + (k + 1))); try done; lia.
    + intros a Ha. rewrite store8_other by lia. by apply H2.
    + intros Hw. by apply store8_ok, H3.
  - intros [] s' (m & -> & H1 & H2 & H3). exists m. split; [done|]. split; [exact H1| | |exact H3]; intros a Ha; apply H2; lia.
Qed.

(** ** The other components *)

Lemma flush_dev l n o f i s :
  exists o', for_each l (fun '(v, port) => outb v port) n (dev o f i s) = Done tt (dev o' f i s).
Proof.
  revert o. induction l as [|[v p] l IH]; intros o; cbn [for_each]; [by exists o|]. dev_step. apply IH.
Qed.

Definition tty_gates : list (Z * gate) :=
  [intr 0x24 "rs1_interrupt"; intr 0x23 "rs2_interrupt"; trap 0x21 "keyboard_interrupt"].

Lemma init_dev p n o f i s :
  p <> 0x71 -> exists o' f', Tty.init p n (dev o f i s) = Done tt (dev o' f' i s) /\ f' 0x71 = f 0x71.
Proof.
  intros Hp. unfold Tty.init. repeat dev_step. do 2 eexists. split; [reflexivity|].
  unfold taken. destruct (Z.eqb_spec 0x71 p); [congruence|done].
Qed.

Lemma rs_init_run n o f i s :
  tty_table (k_chr s) = boot_ttys ->
  exists o' f', rs_init n (dev o f i s) =
    Done tt (dev o' f' (set_gates [intr 0x24 "rs1_interrupt"; intr 0x23 "rs2_interrupt"] i) s) /\ f' 0x71 = f 0x71.
Proof.
  intros Ht. unfold rs_init. do 2 dev_step.
  assert (Hq : forall ch x o f i, arr_get boot_ttys ch = Some x -> queue_get ch ReadQ n (dev o f i s) = Done (read_q x) (dev o f i s)).
  { intros ch x o' f' i' Hx. unfold queue_get, tty_get, tab_get, deref, bind. change (k_chr (dev o' f' i' s)) with (k_chr s).
    by rewrite Ht, Hx. }
  step (Hq 1 _ _ _ _ eq_refl). cbn [read_q q_data].
  edestruct (init_dev 0x3f8 n) as (o1 & f1 & E1 & H1); [done|]. step E1.
  step (Hq 2 _ _ _ _ eq_refl). cbn [read_q q_data].
  edestruct (init_dev 0x2f8 n) as (o2 & f2 & E2 & H2); [done|]. step E2.
  dev_step. rewrite outb_dev. do 2 eexists. split; [reflexivity|]. change (f2 0x71 = f 0x71). congruence.
Qed.

Lemma on_con_run (m : M console unit) n o f i s :
  ends m (con (k_chr s)) (fun _ => con_ok) ->
  exists c o', on_con m n (dev o f i s) = Done tt (dev o' f i (s <| k_chr ::= fun r => r <| con := c |> |>)) /\ con_ok c.
Proof.
  intros H. specialize (H n). unfold on_con.
  destruct (m n (con (k_chr s))) as [[] c|?|?|?|?|] eqn:E; try done.
  assert (Ez : zoom (fun s => con (k_chr s)) (fun c s => s <| k_chr ::= fun r => r <| con := c |> |>) m n (dev o f i s) =
    Done tt (dev o f i (s <| k_chr ::= fun r => r <| con := c |> |>))).
  { unfold zoom. change (con (k_chr (dev o f i s))) with (con (k_chr s)). rewrite E. reflexivity. }
  step Ez. step (get_run _ _). step (modify_run _ _ _).
  set (s1 := s <| k_chr ::= fun r => r <| con := c <| con_out := [] |> |> |>).
  destruct (flush_dev (con_out c) n o f i s1) as [o' E'].
  change (con_out (con (k_chr _))) with (con_out c).
  step E'. exists (c <| con_out := [] |>), o'. split; [done|by apply con_ok_out].
Qed.

Lemma tty_init_run v n o f i s :
  text_mode v -> con_fresh (con (k_chr s)) -> tty_table (k_chr s) = boot_ttys ->
  exists c o' f', tty_init v n (dev o f i s) =
      Done tt (dev o' f' (set_gates tty_gates i) (s <| k_chr ::= fun r => r <| con := c |> |>)) /\
    con_ok c /\ f' 0x71 = f 0x71.
Proof.
  intros Hv Hc Ht. unfold tty_init. destruct (rs_init_run n o f i s Ht) as (o1 & f1 & E1 & H1). step E1.
  edestruct (on_con_run (con_init v) n) as (c & o2 & E2 & H2); [by apply con_init_ok|]. step E2.
  unfold con_irq. repeat dev_step. rewrite outb_dev. exists c. do 2 eexists. split; [reflexivity|]. split; [done|]. exact H1.
Qed.

Definition sched_gates : list (Z * gate) := [intr 0x20 "timer_interrupt"; sys 0x80 "system_call"].
Definition disk_gates : list (Z * gate) := [intr 0x2E "hd_interrupt"; trap 0x26 "floppy_interrupt"].

Lemma sched_init_run n o f i v mm ca bl fs ch us :
  exists g o' f', sched_init n (dev o f i (mkK mm (boot_sched <| startup_time := v |>) ca bl fs ch us)) =
    Done tt (dev o' f' (set_gates sched_gates i) (mkK mm (boot_sched <| startup_time := v |> <| gdt := g |>) ca bl fs ch us)).
Proof.
  let t := eval vm_compute in (sched_init n (dev o f i (mkK mm (boot_sched <| startup_time := v |>) ca bl fs ch us))) in
  lazymatch t with
  | Done tt (mkK _ (mkSched _ _ _ _ _ _ _ _ _ _ _ _ _ _ _ ?g ?i ?o ?f) _ _ _ _ _) => exists g, o, f
  end.
  vm_compute. reflexivity.
Qed.

Lemma disks_init_run n o f i mm sc ca fs ch us :
  exists b o' f', (hd_init ;;; floppy_init) n (dev o f i (mkK mm sc ca boot_blk fs ch us)) =
    Done tt (dev o' f' (set_gates disk_gates i) (mkK mm sc ca b fs ch us)) /\
    request b = request boot_blk /\
    arr_get (blk_dev b) HD_MAJOR = Some (mkBlkDev Controller None) /\
    arr_get (blk_dev b) FD_MAJOR = Some (mkBlkDev Controller None).
Proof.
  unfold hd_init, floppy_init.
  set (b1 := boot_blk <| blk_dev ::= fun l => arr_set l HD_MAJOR (mkBlkDev Controller None) |>).
  set (b2 := b1 <| blk_dev ::= fun l => arr_set l FD_MAJOR (mkBlkDev Controller None) |>).
  assert (E1 : dev_upd HD_MAJOR (fun d => d <| request_fn := Controller |>) n (dev o f i (mkK mm sc ca boot_blk fs ch us)) =
    Done tt (dev o f i (mkK mm sc ca b1 fs ch us))) by reflexivity.
  assert (E2 : forall o f i, dev_upd FD_MAJOR (fun d => d <| request_fn := Controller |>) n (dev o f i (mkK mm sc ca b1 fs ch us)) =
    Done tt (dev o f i (mkK mm sc ca b2 fs ch us))) by reflexivity.
  exists b2. unfold bind at 1. 
  match goal with |- context [obind (?m n ?s) _] => assert (E : exists o' f', m n s = Done tt (dev o' f' (set_gates [intr 0x2E "hd_interrupt"] i) (mkK mm sc ca b1 fs ch us))) end.
  { step E1. repeat dev_step. rewrite outb_dev. by do 2 eexists. }
  destruct E as (o1 & f1 & ->). cbn [obind]. step (E2 _ _ _). repeat dev_step. rewrite outb_dev.
  do 2 eexists. split; [reflexivity|]. by vm_compute.
Qed.

(** ** The machine main leaves *)

(** The vectors that user code may raise with the [int] instruction. *)
Definition user_vectors : list Z := [3; 4; 5; 0x80].

(** The video mode the BIOS has set, as console.c finds it. *)
Definition bios_video (b : bios_info) : setup :=
  mkSetup (u8 (b_cursor b)) (u8 (Z.shiftr (b_cursor b) 8)) (u16 (b_page b)) (Z.land (u16 (b_mode b)) 0xff)
    (Z.shiftr (Z.land (u16 (b_mode b)) 0xff00) 8) (u16 (b_ega_bx b)).

(** [m] is the memory before setup.s runs. *)
Record booted (b : bios_info) (m : Z -> Z) (drive_info : Z) (t : tm) (s : kstate) : Prop := {
  booted_cache : cache_ok (k_cache s) /\ nr_buffers (k_cache s) = NR_BUFFERS 0x28000 (buffer_memory_end (u16 (b_ext_mem b)));
  booted_memory : HIGH_MEMORY (k_mm s) = memory_end (u16 (b_ext_mem b)) /\
    free_between ((buffer_memory_end (u16 (b_ext_mem b)) - 0x100000) / 4096) ((memory_end (u16 (b_ext_mem b)) - 0x100000) / 4096)
      (mem_map (k_mm s));
  booted_paging : wf (k_mm s) /\ (forall a, 0 <= a < 0x1000000 -> translate (k_mm s) a = Some a) /\
    forall d, 4 <= d < 1024 -> pde (k_mm s) d = 0;
  booted_drives : forall k, 0 <= k < 16 ->
    ld8 (mem (k_mm s)) (drive_info + k) = ld8 m (far m (4 * 0x41) k) /\
    ld8 (mem (k_mm s)) (drive_info + 16 + k) = if is_disk1 b then ld8 m (far m (4 * 0x46) k) else 0;
  booted_root : ROOT_DEV (k_fs s) = ld16 m 0x901FC;
  booted_time : startup_time (k_sched s) = seconds_since_epoch t;
  booted_screen : con_ok (con (k_chr s));
  booted_gates : forall v, 0 <= v < 256 -> exists g, arr_get (idt (k_sched s)) v = Some g /\
    (forall image fninit pad em, is_Some (routine_at image fninit pad em (g_addr g))) /\
    g_dpl g = (if bool_decide (v ∈ user_vectors) then 3 else 0);
  booted_disks : request (k_blk s) = request boot_blk /\
    arr_get (blk_dev (k_blk s)) HD_MAJOR = Some (mkBlkDev Controller None) /\
    arr_get (blk_dev (k_blk s)) FD_MAJOR = Some (mkBlkDev Controller None);
  booted_tasks : current (k_sched s) = 0 /\ task (k_sched s) = Some (init_task 0x20000) :: replicate 63 None
}.

Definition boot_idt : list gate :=
  set_gates disk_gates (set_gates sched_gates (set_gates tty_gates (set_gates trap_gates (idt (k_sched boot_k))))).

Lemma boot_idt_ok v : 0 <= v < 256 -> exists g, arr_get boot_idt v = Some g /\
  (forall image fninit pad em, is_Some (routine_at image fninit pad em (g_addr g))) /\
  g_dpl g = (if bool_decide (v ∈ user_vectors) then 3 else 0).
Proof.
  intros Hv.
  assert (H : forall image fninit pad em, forallb (fun v => match arr_get boot_idt v with
    | Some g => (if routine_at image fninit pad em (g_addr g) then true else false) &&
        (g_dpl g =? (if existsb (Z.eqb v) user_vectors then 3 else 0))
    | None => false end) (zrange 0 256) = true) by (intros; vm_compute; reflexivity).
  assert (Hg : is_Some (arr_get boot_idt v)) by (apply arr_get_is_Some; replace (Z.of_nat (length boot_idt)) with 256 by (vm_compute; reflexivity); lia).
  destruct Hg as [g Hg]. exists g. split; [done|].
  assert (H' : forall image fninit pad em, is_Some (routine_at image fninit pad em (g_addr g)) /\
    g_dpl g = (if existsb (Z.eqb v) user_vectors then 3 else 0)).
  { intros image fninit pad em. specialize (H image fninit pad em). rewrite forallb_forall in H.
    specialize (H v). rewrite zrange_elem, Hg in H. specialize (H ltac:(lia)). apply andb_true_iff in H as [H1 H2%Z.eqb_eq].
    split; [|done]. by destruct (routine_at _ _ _ _ _). }
  split; [intros; apply H'|]. destruct (H' (fun _ _ => 0) [] 0 false) as [_ ->].
  replace (existsb (Z.eqb v) user_vectors) with (bool_decide (v ∈ user_vectors)); [done|].
  apply eq_true_iff_eq. rewrite bool_decide_eq_true, existsb_exists. setoid_rewrite list_elem_of_In.
  split; [intros H1; exists v; by rewrite Z.eqb_refl|]. by intros (x & Hx & ->%Z.eqb_eq).
Qed.

(** *** What main reads of the parameters *)

Lemma ld16_bytes m a : ld8 m a = u8 (ld16 m a) /\ ld8 m (a + 1) = ld16 m a / 256 /\ 0 <= ld16 m a < 65536.
Proof.
  unfold ld16, u8. pose proof (ld8_range m a). pose proof (ld8_range m (a + 1)). Z.div_mod_to_equations. lia.
Qed.

Lemma kernel_word_ld16 s a : 0 <= a -> a + 1 < 4294967296 -> kernel_word s a = ld16 (mem (k_mm s)) a.
Proof. intros H1 H2. unfold kernel_word, kernel_byte, ld16. by rewrite !u32_small by lia. Qed.

Definition params_of (b : bios_info) (m : Z -> Z) : Prop :=
  ld16 m 0x90000 = u16 (b_cursor b) /\ ld16 m 0x90002 = u16 (b_ext_mem b) /\
  ld16 m 0x90004 = u16 (b_page b) /\ ld16 m 0x90006 = u16 (b_mode b) /\ ld16 m 0x9000a = u16 (b_ega_bx b).

Lemma params_read b s : params_of b (mem (k_mm s)) -> EXT_MEM_K s = u16 (b_ext_mem b) /\ orig_video s = bios_video b.
Proof.
  intros (H1 & H2 & H3 & H4 & H5). unfold EXT_MEM_K, orig_video, bios_video. rewrite !kernel_word_ld16 by lia.
  split; [done|]. rewrite H3, H4, H5. unfold kernel_byte. rewrite !u32_small by lia.
  destruct (ld16_bytes (mem (k_mm s)) 0x90000) as (E1 & E2 & _). change (0x90000 + 1) with 0x90001 in E2. rewrite E1, E2, H1.
  f_equal; unfold u8, u16; rewrite ?Z.shiftr_div_pow2 by lia; change (2 ^ 8) with 256; Z.div_mod_to_equations; lia.
Qed.

Lemma params_above b m m' : (forall x, 0x90000 <= x -> m' x = m x) -> params_of b m -> params_of b m'.
Proof.
  intros H. assert (Hb : forall a, 0x90000 <= a -> ld8 m' a = ld8 m a) by (intros a; by apply ld8_above).
  unfold params_of, ld16. by rewrite !Hb by lia.
Qed.

(** *** The page tables when main is through *)

Lemma identity_translate s a : identity_mapped (mem s) -> 0 <= a < 0x1000000 -> translate s a = Some a.
Proof.
  intros [H1 H2 H3] Ha. unfold translate, pte, pde.
  assert (Hd : dir_of a = a / 0x400000) by (apply Z.mod_small; Z.div_mod_to_equations; lia).
  assert (Hi : idx_of a = (a / 4096) mod 1024) by done.
  assert (Ed : mem s (4 * dir_of a) = 0x1000 * (dir_of a + 1) + 7) by (apply H1; rewrite Hd; Z.div_mod_to_equations; lia).
  assert (0 <= dir_of a < 4) as Hr by (rewrite Hd; Z.div_mod_to_equations; lia).
  assert (Ef : frame (mem s (4 * dir_of a)) = 0x1000 * (dir_of a + 1)).
  { rewrite frame_alt, Ed by (rewrite ?Ed; lia). Z.div_mod_to_equations. lia. }
  rewrite Ef. replace (0x1000 * (dir_of a + 1) + 4 * idx_of a) with (0x1000 + 4 * (a / 4096))
    by (rewrite Hd, Hi; Z.div_mod_to_equations; lia).
  rewrite H3 by (Z.div_mod_to_equations; lia). rewrite Ed, !present_alt.
  assert (O : forall x, Z.odd (4096 * x + 7) = true) by (intros x; by rewrite Z.odd_add, Z.odd_mul).
  rewrite !O. cbn [andb]. f_equal. rewrite frame_alt by (Z.div_mod_to_equations; lia). Z.div_mod_to_equations. lia.
Qed.

(** No user page is mapped, so every count covers its references. *)
Lemma no_user_wf s start end_ :
  words_ok (mem s) -> (forall d, 4 <= d < 1024 -> pde s d = 0) -> free_between start end_ (mem_map s) -> wf s.
Proof.
  intros Hw Hd [Hl Hm].
  assert (Hp : forall d, user_dir d -> present (pde s d) = false).
  { intros d [H1 H2]. unfold FIRST_USER_DIR in H1. by rewrite Hd by lia. }
  assert (Hc : forall i, 0 <= count s i < 256).
  { intros i. unfold count, arr_get. destruct (Z.ltb_spec i 0) as [|Hi]; [cbn; lia|].
    destruct (Z.lt_ge_cases i 3840) as [Hi'|Hi'].
    - specialize (Hm i ltac:(lia)). unfold arr_get in Hm. destruct (Z.ltb_spec i 0); [lia|]. rewrite Hm. cbn.
      destruct (_ && _); cbn; unfold USED; lia.
    - rewrite lookup_ge_None_2 by (rewrite Hl; lia). cbn. lia. }
  split; [split| | |]; try done.
  - intros d Hu Hpr. by rewrite Hp in Hpr.
  - intros d d' Hu _ Hpr. by rewrite Hp in Hpr.
  - intros i _. unfold refs. enough (zsum (dir_refs s i) user_dirs = 0) as ->; [apply Hc|].
    assert (H : forall d, In d user_dirs -> dir_refs s i d = 0).
    { intros d Hin. unfold dir_refs. by rewrite Hp by (by apply user_dirs_elem). }
    induction user_dirs as [|d l IH]; [done|]. cbn. rewrite H by (by left). apply IH. intros d' Hd'. apply H. by right.
Qed.

Lemma memory_end_range ext : 0 <= ext < 65536 ->
  0x100000 <= buffer_memory_end ext <= memory_end ext /\ memory_end ext <= 0x1000000.
Proof.
  intros H. unfold buffer_memory_end. assert (0x100000 <= memory_end ext <= 0x1000000) as Hm.
  { unfold memory_end. change (Z.shiftl 1 20) with 0x100000. rewrite Z.shiftl_mul_pow2 by lia.
    replace (Z.land (1048576 + ext * 2 ^ 10) 4294963200) with ((1048576 + ext * 2 ^ 10) / 4096 * 4096).
    - repeat zcase; Z.div_mod_to_equations; lia.
    - change 4294963200 with (Z.shiftl (Z.ones 20) 12). rewrite <- (Z.shiftl_mul_pow2 _ 12), <- (Z.shiftr_div_pow2 _ 12) by lia.
      symmetry. apply Z.bits_inj'. intros k Hk. rewrite Z.land_spec.
      destruct (Z.lt_ge_cases k 12).
      + rewrite !Z.shiftl_spec_low by lia. apply andb_false_r.
      + rewrite !Z.shiftl_spec, Z.shiftr_spec by lia. replace (k - 12 + 12) with k by lia.
        destruct (Z.lt_ge_cases k 32).
        * rewrite Z.ones_spec_low by lia. apply andb_true_r.
        * rewrite Z.ones_spec_high by lia. rewrite andb_false_r. symmetry. apply Z.bits_above_log2; [lia|].
          apply Z.log2_lt_pow2; [lia|]. apply (Z.lt_le_trans _ (2 ^ 32)); [lia|]. by apply Z.pow_le_mono_r; lia. }
  repeat zcase; lia.
Qed.

Lemma data_blocks_enough ext : 2 <= NR_BUFFERS 0x28000 (buffer_memory_end ext).
Proof.
  unfold buffer_memory_end.
  assert (H : (2 <=? NR_BUFFERS 0x28000 (4 * 1024 * 1024)) && (2 <=? NR_BUFFERS 0x28000 (2 * 1024 * 1024)) &&
              (2 <=? NR_BUFFERS 0x28000 (1 * 1024 * 1024)) = true) by (vm_compute; reflexivity).
  bprop. repeat zcase; done.
Qed.

(** The machine while [main] runs: what has been changed so far. *)
Definition starting (mm_ : mm) (sc : sched) (ca : cache) (fs : filesys) (c : console) : kstate :=
  mkK mm_ sc ca boot_blk fs (boot_chr <| con := c |>) (fun _ _ => 0).

Lemma blk_dev_init_run n o f i mm_ sc ca fs c :
  blk_dev_init n (dev o f i (starting mm_ sc ca fs c)) = Done tt (dev o f i (starting mm_ sc ca fs c)).
Proof. reflexivity. Qed.

(** The second half of [main]. *)
Definition components (v : setup) (ext : Z) : K unit :=
  tty_init v ;;;
  time_init ;;;
  sched_init ;;;
  buffer_init (buffer_memory_end ext) ;;;
  hd_init ;;;
  floppy_init.

Lemma components_run v ext t rounds n o f i mm_ ca fs :
  text_mode v -> valid_tm t -> tm_year t <= 99 -> (length rounds < n)%nat -> Forall torn rounds ->
  begins (concat rounds ++ clock_bytes t ++ [bcd (tm_sec t)]) (f 0x71) -> start_buffer ca = 0x28000 ->
  exists s' g o' f', components v ext n (dev o f i (starting mm_ boot_sched ca fs boot_con)) = Done tt s' /\
    k_mm s' = mm_ /\ k_fs s' = fs /\ k_sched s' = k_sched (dev o' f' (set_gates disk_gates (set_gates sched_gates (set_gates tty_gates i)))
      (starting mm_ (boot_sched <| startup_time := seconds_since_epoch t |> <| gdt := g |>) ca fs boot_con)) /\
    con_ok (con (k_chr s')) /\
    (cache_ok (k_cache s') /\ nr_buffers (k_cache s') = NR_BUFFERS 0x28000 (buffer_memory_end ext)) /\
    request (k_blk s') = request boot_blk /\
    arr_get (blk_dev (k_blk s')) HD_MAJOR = Some (mkBlkDev Controller None) /\
    arr_get (blk_dev (k_blk s')) FD_MAJOR = Some (mkBlkDev Controller None).
Proof.
  intros Hv Ht Hy Hn Hr Hb Hca. unfold components.
  destruct (tty_init_run v n o f i (starting mm_ boot_sched ca fs boot_con) Hv) as (c & o1 & f1 & E1 & Hc & Hf1); [|done|].
  { split; [done|]. split; [by apply Forall_replicate|]. by split. }
  step E1. set (s1 := dev o1 _ _ _).
  destruct (time_init_run t rounds n s1 Ht Hy Hn Hr) as (o2 & f2 & E2).
  { change (inputs (k_sched s1)) with f1. by rewrite Hf1. }
  step E2.
  destruct (sched_init_run n o2 f2 (set_gates tty_gates i) (seconds_since_epoch t) mm_ ca boot_blk fs (boot_chr <| con := c |>)
    (fun _ _ => 0)) as (g & o3 & f3 & E3).
  step E3.
  set (ca' := fresh_cache (fun i => default 0 (arr_get (data_blocks (start_buffer ca) (buffer_memory_end ext)) i))
    (NR_BUFFERS (start_buffer ca) (buffer_memory_end ext)) ca).
  set (sc := boot_sched <| startup_time := seconds_since_epoch t |> <| gdt := g |>).
  assert (E4 : forall i, buffer_init (buffer_memory_end ext) n (dev o3 f3 i (starting mm_ sc ca fs c)) =
    Done tt (dev o3 f3 i (starting mm_ sc ca' fs c))) by reflexivity.
  step (E4 _).
  destruct (disks_init_run n o3 f3 (set_gates sched_gates (set_gates tty_gates i)) mm_ sc ca' fs (boot_chr <| con := c |>)
    (fun _ _ => 0)) as (b & o5 & f5 & E5 & H5).
  eexists _, g, o5, f5. split; [exact E5|]. split; [done|]. split; [done|]. split; [done|]. split; [done|]. split; [|done].
  change (k_cache (dev o5 f5 _ _)) with ca'. unfold ca'. rewrite Hca.
  pose proof (data_blocks_enough ext). split; [by apply fresh_cache_ok|]. apply fresh_size. lia.
Qed.

(** The first half of [main], up to the interrupt gates of the exceptions. *)
Definition memory_part (drive_info : Z) (k : Z -> setup -> K unit) : K unit :=
  let! s := get in
  modify (fun s' => s' <| k_fs ::= fun f => f <| ROOT_DEV := ORIG_ROOT_DEV s |> |>) ;;;
  copy_drive_info drive_info ;;;
  let! s := get in
  let ext := EXT_MEM_K s in
  let start := buffer_memory_end ext in
  let! start := ret start in
  on_mm (mem_init start (memory_end ext)) ;;;
  trap_init ;;;
  blk_dev_init ;;;
  let! s := get in
  k ext (orig_video s).

(** Where the main memory begins and ends, in pages above 1 MB. *)
Definition main_memory_free (ext : Z) (l : list Z) : Prop :=
  free_between ((buffer_memory_end ext - 0x100000) / 4096) ((memory_end ext - 0x100000) / 4096) l.

Lemma main_memory_init ext l :
  free_between ((buffer_memory_end ext - 0x100000) / 4096)
    ((buffer_memory_end ext - 0x100000) / 4096 + (memory_end ext - buffer_memory_end ext) / 4096) l -> main_memory_free ext l.
Proof.
  intros H. unfold main_memory_free. replace ((memory_end ext - 0x100000) / 4096) with
    ((buffer_memory_end ext - 0x100000) / 4096 + (memory_end ext - buffer_memory_end ext) / 4096); [exact H|].
  assert (exists q, buffer_memory_end ext = 0x100000 + q * 4096) as [q ->].
  { unfold buffer_memory_end. destruct (_ <? _); [by exists 768|destruct (_ <? _); [by exists 256|by exists 0]]. }
  replace (memory_end ext - (0x100000 + q * 4096)) with (memory_end ext - 0x100000 + (- q) * 4096) by lia.
  rewrite Z.div_add by lia. replace (0x100000 + q * 4096 - 0x100000) with (q * 4096) by lia. rewrite Z.div_mul by lia. lia.
Qed.

Lemma memory_part_run drive_info b m o f k n :
  let s := dev o f (idt boot_sched) (with_memory m boot_k) in let ext := u16 (b_ext_mem b) in
  params_of b m -> 0 <= drive_info -> drive_info + 32 <= 0x90000 ->
  exists mm_ o' f', let fs := boot_fs <| ROOT_DEV := ld16 m 0x901FC |> in memory_part drive_info k n s =
      k ext (bios_video b) n (dev o' f' (set_gates trap_gates (idt boot_sched)) (starting mm_ boot_sched (k_cache boot_k) fs boot_con)) /\
    f' 0x71 = f 0x71 /\ HIGH_MEMORY mm_ = memory_end ext /\ main_memory_free ext (mem_map mm_) /\ drives_copied drive_info m (mem mm_).
Proof.
  intros s ext Hp H0 H1. unfold memory_part. step (get_run _ _). step (modify_run _ _ _).
  assert (ORIG_ROOT_DEV s = ld16 m 0x901FC) as -> by (apply kernel_word_ld16; lia).
  set (fs := boot_fs <| ROOT_DEV := ld16 m 0x901FC |>).
  set (mm0 := fun m => mkMm m (replicate 3840 0) 0x1000000).
  change (s <| k_fs ::= _ |>) with (dev o f (idt boot_sched) (starting (mm0 m) boot_sched (k_cache boot_k) fs boot_con)).
  set (s1 := dev o f _ _).
  destruct (ends_run _ n _ _ (copy_drive_info_ends drive_info s1 H0 H1)) as ([] & s2 & E2 & m2 & -> & Hm2).
  change (mem (k_mm s1)) with m in Hm2. step E2. step (get_run _ _).
  change (with_memory m2 s1) with (dev o f (idt boot_sched) (starting (mm0 m2) boot_sched (k_cache boot_k) fs boot_con)).
  set (s2 := dev o f _ (starting (mm0 m2) _ _ _ _)).
  assert (Hp2 : params_of b m2) by (eapply params_above; [|exact Hp]; intros x Hx; apply (dc_above _ _ _ Hm2); lia).
  destruct (params_read b s2 Hp2) as [-> _]. fold ext.
  destruct (memory_end_range ext) as [Hm Hm']; [apply Z.mod_pos_bound; lia|]. step (ret_run _ _ _).
  destruct (ends_run _ n _ _ (mem_init_ends _ _ (mm0 m2) Hm Hm')) as ([] & mm3 & E3 & Emem & Hhigh & Hfree).
  change (mem (mm0 m2)) with m2 in Emem. step (on_mm_run _ n s2 tt mm3 E3).
  change (s2 <| k_mm := mm3 |>) with (dev o f (idt boot_sched) (starting mm3 boot_sched (k_cache boot_k) fs boot_con)).
  destruct (trap_init_run n o f (idt boot_sched) (starting mm3 boot_sched (k_cache boot_k) fs boot_con)) as (o4 & f4 & E4 & H4).
  step E4. step (blk_dev_init_run n o4 f4 _ mm3 boot_sched (k_cache boot_k) fs boot_con). step (get_run _ _).
  exists mm3, o4, f4. cbv zeta.
  destruct (params_read b (dev o4 f4 (set_gates trap_gates (idt boot_sched)) (starting mm3 boot_sched (k_cache boot_k) fs boot_con)))
    as [_ ->]; [by change (params_of b (mem mm3)); rewrite Emem|].
  split; [done|]. split; [done|]. split; [done|]. split; [by apply main_memory_init|]. by rewrite Emem.
Qed.

Lemma main_parts drive_info : main drive_info None = memory_part drive_info (fun ext v => components v ext).
Proof. unfold main, memory_part, components. cbv beta zeta iota. reflexivity. Qed.

(** [main], from what head.s hands over. *)
Lemma main_run drive_info b m0 m o f t rounds n :
  handed_over b m0 m -> 0x5000 <= drive_info -> drive_info + 32 <= 0x90000 -> text_mode (bios_video b) ->
  valid_tm t -> tm_year t <= 99 -> (length rounds < n)%nat -> Forall torn rounds ->
  begins (concat rounds ++ clock_bytes t ++ [bcd (tm_sec t)]) (f 0x71) ->
  exists s', main drive_info None n (dev o f (idt boot_sched) (with_memory m boot_k)) = Done tt s' /\ booted b m0 drive_info t s'.
Proof.
  intros [_ Hw Hdr Hroot Hid Hok] H0 H1 Hv Ht Hy Hn Hr Hb. set (ext := u16 (b_ext_mem b)).
  destruct (memory_part_run drive_info b m o f (fun ext v => components v ext) n Hw ltac:(lia) H1)
    as (mm_ & o1 & f1 & E & Hf1 & Hhigh & Hfree & Hdc). fold ext in E, Hhigh, Hfree.
  rewrite <- Hf1 in Hb.
  destruct (components_run (bios_video b) ext t rounds n o1 f1 (set_gates trap_gates (idt boot_sched)) mm_ (k_cache boot_k)
    (boot_fs <| ROOT_DEV := ld16 m 0x901FC |>) Hv Ht Hy Hn Hr Hb eq_refl) as (s' & g & o2 & f2 & E' & Hmm & Hfs & Hsc & Hcon & Hca & Hreq & Hhd & Hfd).
  exists s'. split; [rewrite main_parts, E; exact E'|].
  assert (Hid' : identity_mapped (mem mm_)).
  { destruct Hid as [I1 I2 I3]. split; intros; rewrite (dc_below _ _ _ Hdc) by lia; auto. }
  split.
  - exact Hca.
  - rewrite Hmm. by split.
  - rewrite Hmm. split; [|split].
    + eapply no_user_wf; [by apply (dc_words _ _ _ Hdc)|apply Hid'|exact Hfree].
    + intros a. by apply identity_translate.
    + apply Hid'.
  - intros k Hk. rewrite Hmm, !(dc_bytes _ _ _ Hdc). destruct (Hdr k Hk) as [<- <-].
    destruct (Z.leb_spec drive_info (drive_info + k)), (Z.ltb_spec (drive_info + k) (drive_info + 32)),
      (Z.leb_spec drive_info (drive_info + 16 + k)), (Z.ltb_spec (drive_info + 16 + k) (drive_info + 32)); try lia.
    cbn [andb]. split; f_equal; lia.
  - by rewrite Hfs, <- Hroot.
  - by rewrite Hsc.
  - exact Hcon.
  - rewrite Hsc. exact boot_idt_ok.
  - exact (conj Hreq (conj Hhd Hfd)).
  - rewrite Hsc. split; reflexivity.
Qed.

(** From the loaded image to the start of the first task. *)
Definition boot_up (b : bios_info) (al cr0 drive_info : Z) : K unit :=
  (let! cr0 := setup_s b cr0 in startup_32 true al cr0) ;;; main drive_info None.

(** C2. With any answers of the BIOS, any size of extended memory, any text mode and any
    date of the clock, however often its seconds change under the reading, setup.s, head.s
    and [main] bring the machine up: the first 16 MB are mapped to themselves and the page
    accounting is exact, the buffer cache is well-formed and has all the blocks that fit,
    exactly the pages of the main memory are free, the tables of the drives are where the
    hard disk driver looks for them, the console is ready, the time is the seconds since
    1970 of the clock's date, every vector of the interrupt table leads to a routine of the
    kernel, user code may raise the system call, the breakpoint and the two overflow
    vectors only, both disks have their driver and nothing to do, and task 0 runs alone. *)
Theorem main_boots (b : bios_info) (m : Z -> Z) (f : Z -> nat -> Z) (al cr0 drive_info : Z) (t : tm) (rounds : list (list Z)) (k n : nat) :
  words_ok m -> tables_apart m -> text_mode (bios_video b) ->
  0x5000 <= drive_info -> drive_info + 32 <= 0x90000 ->
  keyboard_ready k f -> (k <= n)%nat -> (4096 <= n)%nat ->
  valid_tm t -> tm_year t <= 99 -> (length rounds < n)%nat -> Forall torn rounds ->
  begins (concat rounds ++ clock_bytes t ++ [bcd (tm_sec t)]) (f 0x71) ->
  exists s', boot_up b al cr0 drive_info n (reset_k m f) = Done tt s' /\ booted b m drive_info t s'.
Proof.
  intros Hm Ha Hv H0 H1 Hk Hkn Hn Ht Hy Hr Hto Hb.
  destruct (start_run b m f k n al cr0 Hm Ha Hk Hkn Hn) as (m' & o & f' & E & Hf' & Ho).
  rewrite <- Hf' in Hb. destruct (main_run drive_info b m m' o f' t rounds n Ho H0 H1 Hv Ht Hy Hr Hto Hb) as (s' & E' & Hs').
  exists s'. split; [|exact Hs']. unfold boot_up. by step E.
Qed.

(** *** A machine with 3 MB of extended memory, a VGA card and one drive *)

Definition some_bios : bios_info := mkBiosInfo 0x0500 3072 0 0x5003 0 0 0 None.

(** The far pointers to the tables of the drives lead to f000:e401 and f000:e411. *)
Definition bios_memory (a : Z) : Z := if a =? 0x104 then 0xf000e401 else if a =? 0x118 then 0xf000e411 else 0.

(** 17 September 1991, 5:34:12; the first reading is torn. *)
Definition some_day : tm := mkTm 12 34 5 17 8 91.
Definition torn_reading : list Z := [0x11; 0x34; 0x05; 0x17; 0x09; 0x91; 0x12].
Definition some_devices (p : Z) (k : nat) : Z :=
  if p =? 0x71 then nth k (torn_reading ++ clock_bytes some_day ++ [bcd (tm_sec some_day)]) 0 else 0.

Lemma bios_memory_ok : words_ok bios_memory /\ tables_apart bios_memory.
Proof.
  split.
  - intros a. unfold bios_memory. destruct (_ =? _); [lia|]. destruct (_ =? _); lia.
  - intros v k Hv Hk. right. unfold far.
    assert (ld16 bios_memory (v + 2) = 0xf000) as -> by (destruct Hv as [-> | ->]; reflexivity).
    unfold u16. pose proof (Z.mod_pos_bound (ld16 bios_memory v + k) 65536). lia.
Qed.

Lemma main_boots_witness :
  text_mode (bios_video some_bios) /\
  exists s', boot_up some_bios 0 0x11 0x1f000 (Nat.pow 2 12) (reset_k bios_memory some_devices) = Done tt s' /\
    booted some_bios bios_memory 0x1f000 some_day s'.
Proof.
  assert (Hv : text_mode (bios_video some_bios)).
  { replace (bios_video _) with (mkSetup 0 5 0 3 80 0) by (vm_compute; reflexivity).
    unfold text_mode, ORIG_VIDEO_LINES. cbn. split; [|lia]. split; [lia|]. by exists 40. }
  split; [exact Hv|].
  apply (main_boots some_bios bios_memory some_devices 0 0x11 0x1f000 some_day [torn_reading] 1 (Nat.pow 2 12)).
  - apply bios_memory_ok.
  - apply bios_memory_ok.
  - exact Hv.
  - lia.
  - lia.
  - intros i. exists O. split; [lia|reflexivity].
  - apply Nat.leb_le. vm_compute. reflexivity.
  - apply Nat.leb_le. vm_compute. reflexivity.
  - unfold valid_tm, some_day. cbn. lia.
  - cbn. lia.
  - apply Nat.ltb_lt. vm_compute. reflexivity.
  - apply List.Forall_cons; [|apply List.Forall_nil]. split; [reflexivity|]. cbn. lia.
  - intros k v E. do 14 (destruct k as [|k]; [injection E as <-; vm_compute; reflexivity|]). discriminate E.
Defined.
