(* ===== verification/Malloc.v ===== *)
(** * The kernel allocator of small objects: lib/malloc.c

    Bucket descriptors and the chains of free objects live in pages of physical
    memory: a descriptor is four words ([page], [next], [freeptr], and [refcnt]
    with [bucket_size] in the halves of the last).  NULL is address 0. *)
From Stdlib Require Import ZArith Lia String.
From stdpp Require Import base list.
From S2P Require Import Prelude Resumption Memory.

Record heap := mkHeap {
  h_mm : mm;
  chains : list Z;              (* [bucket_dir[].chain] *)
  free_bucket_desc : Z
}.
#[export] Instance heap_reconstruct : Reconstruct heap :=
  fun r => mkHeap (h_mm r) (chains r) (free_bucket_desc r).

(** [bucket_dir[].size], up to the end marker. *)
Definition bucket_sizes : list Z := [16; 32; 64; 128; 256; 512; 1024; 2048; 4096].

Definition in_mm {A} (m : M mm A) : M heap A := zoom h_mm (fun t s => s <| h_mm := t |>) m.

(** The fields of the descriptor at [d]. *)
Definition get_page (d : Z) : M heap Z := in_mm (ld d).
Definition get_next (d : Z) : M heap Z := in_mm (ld (d + 4)).
Definition get_freeptr (d : Z) : M heap Z := in_mm (ld (d + 8)).
Definition get_refcnt (d : Z) : M heap Z := let! w := in_mm (ld (d + 12)) in ret (Z.land w 0xffff).
Definition set_page (d v : Z) : M heap unit := in_mm (st d v).
Definition set_next (d v : Z) : M heap unit := in_mm (st (d + 4) v).
Definition set_freeptr (d v : Z) : M heap unit := in_mm (st (d + 8) v).
Definition set_refcnt (d v : Z) : M heap unit :=
  let! w := in_mm (ld (d + 12)) in in_mm (st (d + 12) (Z.lor (Z.ldiff w 0xffff) (u16 v))).
Definition set_size (d v : Z) : M heap unit :=
  let! w := in_mm (ld (d + 12)) in in_mm (st (d + 12) (Z.lor (Z.land w 0xffff) (Z.shiftl (u16 v) 16))).
Definition set_free_desc (d : Z) : M heap unit := modify (fun s => s <| free_bucket_desc := d |>).
Definition get_chain (b : Z) : M heap Z := deref (fun s => arr_get (chains s) b).
Definition set_chain (b d : Z) : M heap unit := modify (fun s => s <| chains ::= fun l => arr_set l b d |>).

(** A page of 256 free descriptors. *)
Definition init_bucket_desc : M heap unit :=
  let! first := in_mm get_free_page in
  if negb (nz first) then panic "Out of memory in init_bucket_desc()" else
  for_each (zrange 0 255) (fun k => set_next (first + 16 * k) (first + 16 * (k + 1))) ;;;
  let! s := get in
  set_next (first + 16 * 255) (free_bucket_desc s) ;;;
  set_free_desc first.

(** The smallest bucket that holds [len] bytes. *)
Definition find_bucket (len : Z) : option (Z * Z) :=
  List.find (fun p => len <=? p.2) (zip (zrange 0 9) bucket_sizes).

(** A descriptor of the chain from [d] on that satisfies [ok], with the one before
    it. *)
Definition walk (ok : Z -> M heap bool) (d prev : Z) : M heap (Z * Z) :=
  loop (fun '(d, prev) =>
    if negb (nz d) then ret (inr (0, prev)) else
    let! b := ok d in
    if (b : bool) then ret (inr (d, prev)) else
    let! n := get_next d in
    ret (inl (n, d))) (d, prev).

(** The chain of free objects of [size] bytes in a fresh page. *)
Definition carve (page size : Z) : M heap unit :=
  let n := 4096 / size in
  for_each (zrange 0 (Z.to_nat (n - 1))) (fun k =>
    in_mm (st (page + size * k) (page + size * (k + 1)))) ;;;
  in_mm (st (page + size * (n - 1)) 0).

Definition new_bucket (b size : Z) : M heap Z :=
  let! s := get in
  when (negb (nz (free_bucket_desc s))) init_bucket_desc ;;;
  let! s := get in
  let d := free_bucket_desc s in
  let! n := get_next d in
  set_free_desc n ;;;
  set_refcnt d 0 ;;;
  set_size d size ;;;
  let! cp := in_mm get_free_page in
  set_freeptr d cp ;;;
  set_page d cp ;;;
  if negb (nz cp) then panic "Out of memory in kernel malloc()" else
  carve cp size ;;;
  let! c := get_chain b in
  set_next d c ;;;
  set_chain b d ;;;
  ret d.

Definition malloc (len : Z) : M heap Z :=
  match find_bucket (u32 len) with
  | None => printk "malloc called with impossibly large argument" ;;; panic "malloc: bad arg"
  | Some (b, size) =>
      let! c := get_chain b in
      let! '(d, _) := walk (fun d => let! f := get_freeptr d in ret (nz f)) c 0 in
      let! d := (if nz d then ret d else new_bucket b size) in
      let! retval := get_freeptr d in
      let! f := in_mm (ld retval) in
      set_freeptr d f ;;;
      let! r := get_refcnt d in
      set_refcnt d (r + 1) ;;;
      ret retval
  end.

(** The descriptor of the page an object lives in: its bucket, itself and the one
    before it in the chain. *)
Definition find_desc (page size : Z) : M heap (option (Z * Z * Z)) :=
  for_break (zip (zrange 0 9) bucket_sizes) (fun p =>
    if p.2 <? size then ret None else
    let! c := get_chain p.1 in
    let! '(d, prev) := walk (fun d => let! pg := get_page d in ret (pg =? page)) c 0 in
    ret (if nz d then Some (p.1, d, prev) else None)).

(** Is [prev] still the one before [d], or [d] the first? *)
Definition prev_ok (b d prev : Z) : M heap bool :=
  if nz prev then let! n := get_next prev in ret (n =? d)
  else let! c := get_chain b in ret (c =? d).

Definition unlink_desc (b d prev : Z) : M heap unit :=
  let! ok := prev_ok b d prev in
  let! prev := (if (ok : bool) then ret prev else
    let! c := get_chain b in
    let! '(p, _) := walk (fun p => let! n := get_next p in ret (n =? d)) c 0 in
    ret p) in
  let! n := get_next d in
  if nz prev then set_next prev n else
  let! c := get_chain b in
  if negb (c =? d) then panic "malloc bucket chains corrupted" else set_chain b n.

Definition free_s (obj size : Z) : M heap unit :=
  let page := Z.land obj 0xfffff000 in
  let! r := find_desc page size in
  match r with
  | None => panic "Bad address passed to kernel free_s()"
  | Some (b, d, prev) =>
      let! f := get_freeptr d in
      in_mm (st obj f) ;;;
      set_freeptr d obj ;;;
      let! r := get_refcnt d in
      set_refcnt d (r - 1) ;;;
      let! r := get_refcnt d in
      if nz r then ret tt else
      unlink_desc b d prev ;;;
      let! p := get_page d in
      in_mm (free_page p) ;;;
      let! s := get in
      set_next d (free_bucket_desc s) ;;;
      set_free_desc d
  end.
