(* ===== verification/Build.v ===== *)
(** * The image builder: tools/build.c

    Puts the boot sector, the setup sectors and the kernel into one disk image.  The
    files it is given are lists of bytes; its output is a list of bytes that grows, on
    a device with room for [room] of them. *)
From Stdlib Require Import ZArith Lia String.
From stdpp Require Import base list.
From S2P Require Import Prelude Resumption Runs BlkDev.

Definition MINIX_HEADER : Z := 32.
Definition SYS_SIZE : Z := 0x3000.
Definition DEFAULT_MAJOR_ROOT : Z := 2.
Definition DEFAULT_MINOR_ROOT : Z := 0x1d.
Definition SETUP_SECTS : Z := 4.

Section Build.
(** The files that can be opened, and [st_rdev] of those [stat] finds. *)
Context (file : string -> option (list Z)) (rdev : string -> option Z) (room : Z).

(** What has been written to the standard output. *)
Definition tool : Type := list Z.
Definition B : Type -> Type := M tool.

(** [die]: an [exit(1)], with what was written before. *)
Definition die {A} (str : string) : B A := panic str.
Definition usage {A} : B A := die "Usage: build bootsect setup system [rootdev] [> image]".

Definition write (l : list Z) : B Z :=
  let! s := get in
  let c := Z.max 0 (Z.min (Z.of_nat (length l)) (room - Z.of_nat (length s))) in
  modify (fun s => s ++ take (Z.to_nat c) l) ;;;
  ret c.
Definition write_all (l : list Z) : B unit :=
  let! c := write l in
  if negb (c =? Z.of_nat (length l)) then die "Write call failed" else ret tt.

Definition open (name err : string) : B (list Z) :=
  match file name with
  | Some f => ret f
  | None => die err
  end.

(** The next bytes of a file read up to [pos]. *)
Definition read (f : list Z) (pos n : nat) : list Z := take n (drop pos f).

(** [major_root] and [minor_root], which are chars. *)
Definition root_device (args : list string) : B (Z * Z) :=
  match args with
  | [arg] =>
      if String.eqb arg "FLOPPY" then ret (0, 0) else
      match rdev arg with
      | None => die "Couldn't stat root device."
      | Some d => ret (s8 (MAJOR d), s8 (MINOR d))
      end
  | _ => ret (DEFAULT_MAJOR_ROOT, DEFAULT_MINOR_ROOT)
  end.

(** The tests of a Minix header. *)
Definition check_header (f : list Z) (short bad_header bad_data bad_bss bad_symbols : string) : B unit :=
  let buf := read f 0 (Z.to_nat MINIX_HEADER) in
  if negb (Z.of_nat (length buf) =? MINIX_HEADER) then die short else
  if negb (long_at buf 0 =? 0x04100301) then die bad_header else
  if negb (long_at buf 4 =? MINIX_HEADER) then die bad_header else
  if negb (long_at buf 12 =? 0) then die bad_data else
  if negb (long_at buf 16 =? 0) then die bad_bss else
  if negb (long_at buf 20 =? 0) then die bad_header else
  if negb (long_at buf 28 =? 0) then die bad_symbols else
  ret tt.

(** [buf[508] = minor_root; buf[509] = major_root]. *)
Definition put_root (boot : list Z) (major_root minor_root : Z) : list Z :=
  set_byte (set_byte boot 508 minor_root) 509 major_root.

Definition boot_block (name : string) (major_root minor_root : Z) : B unit :=
  let! f := open name "Unable to open 'boot'" in
  check_header f "Unable to read header of 'boot'" "Non-Minix header of 'boot'" "Illegal data segment in 'boot'"
    "Illegal bss in 'boot'" "Illegal symbol table in 'boot'" ;;;
  let buf := read f (Z.to_nat MINIX_HEADER) 1024 in
  if negb (Z.of_nat (length buf) =? 512) then die "Boot block must be exactly 512 bytes" else
  if negb (word_at buf 510 =? 0xAA55) then die "Boot block hasn't got boot flag (0xAA55)" else
  write_all (put_root buf major_root minor_root).

(** The loop that copies the rest of a file; the number of bytes. *)
Definition copy_file (f : list Z) (pos : nat) : B Z :=
  loop (fun i : Z =>
    let c := read f (pos + Z.to_nat i) 1024 in
    if Z.of_nat (length c) <=? 0 then ret (inr i) else
    write_all c ;;;
    ret (inl (i + Z.of_nat (length c)))) 0.

Definition pad_setup (i : Z) : B Z :=
  loop (fun i : Z =>
    if negb (i <? SETUP_SECTS * 512) then ret (inr i) else
    let c := if 1024 <? SETUP_SECTS * 512 - i then 1024 else SETUP_SECTS * 512 - i in
    write_all (replicate (Z.to_nat c) 0) ;;;
    ret (inl (i + c))) i.

Definition setup_block (name : string) : B unit :=
  let! f := open name "Unable to open 'setup'" in
  check_header f "Unable to read header of 'setup'" "Non-Minix header of 'setup'" "Illegal data segment in 'setup'"
    "Illegal bss in 'setup'" "Illegal symbol table in 'setup'" ;;;
  let! i := copy_file f (Z.to_nat MINIX_HEADER) in
  if SETUP_SECTS * 512 <? i then die "Setup exceeds 4 sectors - rewrite build/boot/setup" else
  pad_setup i ;;;
  ret tt.

Definition system_block (name : string) : B unit :=
  let! f := open name "Unable to open 'system'" in
  let! i := copy_file f 0 in
  if SYS_SIZE * 16 <? i then die "System is too big" else ret tt.

Definition main (argv : list string) : B Z :=
  match argv with
  | _ :: boot :: setup :: system :: rest =>
      if (1 <? Z.of_nat (length rest)) then usage else
      let! '(major_root, minor_root) := root_device rest in
      if negb (major_root =? 2) && negb (major_root =? 3) && negb (major_root =? 0)
      then die "Bad root device --- major #" else
      boot_block boot major_root minor_root ;;;
      setup_block setup ;;;
      system_block system ;;;
      ret 0
  | _ => usage
  end.

(** ** The image *)

(** A file with a Minix header of 32 bytes and no data, bss or symbols. *)
Record minix (f : list Z) : Prop := mkMinix {
  mx_length : (32 <= length f)%nat;
  mx_magic : long_at (take 32 f) 0 = 0x04100301;
  mx_size : long_at (take 32 f) 4 = 32;
  mx_data : long_at (take 32 f) 12 = 0;
  mx_bss : long_at (take 32 f) 16 = 0;
  mx_entry : long_at (take 32 f) 20 = 0;
  mx_symbols : long_at (take 32 f) 28 = 0
}.

Lemma check_header_run f a b c d e n s : minix f -> check_header f a b c d e n s = Done tt s.
Proof.
  intros [H0 H1 H2 H3 H4 H5 H6]. unfold check_header, read. change (drop 0 f) with f. change (Z.to_nat MINIX_HEADER) with 32%nat.
  rewrite length_take_le by done. rewrite H1, H2, H3, H4, H5, H6. done.
Qed.

Lemma write_all_run l n s : Z.of_nat (length s + length l) <= room -> write_all l n s = Done tt (s ++ l).
Proof.
  intros H. assert (E : write l n s = Done (Z.of_nat (length l)) (s ++ l)).
  { unfold write, bind, get, modify, ret. cbn [obind].
    replace (Z.max 0 (Z.min (Z.of_nat (length l)) (room - Z.of_nat (length s)))) with (Z.of_nat (length l)) by lia.
    by rewrite Nat2Z.id, take_ge by lia. }
  unfold write_all. step E. by rewrite Z.eqb_refl.
Qed.

(** Reading in pieces and writing each. *)
Lemma copy_loop_run f pos n k : forall i s, (length f <= pos + Z.to_nat i + 1024 * k)%nat -> 0 <= i ->
  Z.of_nat (length s + length (drop (pos + Z.to_nat i) f)) <= room ->
  iterate (S k) (fun i : Z =>
    let c := read f (pos + Z.to_nat i) 1024 in
    if Z.of_nat (length c) <=? 0 then ret (inr i) else
    write_all c ;;;
    ret (inl (i + Z.of_nat (length c)))) i n s =
  Done (i + Z.of_nat (length (drop (pos + Z.to_nat i) f))) (s ++ drop (pos + Z.to_nat i) f).
Proof.
  induction k as [|k IH]; intros i s Hk Hi Hr.
  - apply iterate_last. cbv zeta. unfold read. rewrite (drop_ge f) by lia. rewrite take_nil. cbn. by rewrite app_nil_r, Z.add_0_r.
  - cbv zeta in *. set (d := drop (pos + Z.to_nat i) f) in *. destruct (decide (length d = 0%nat)) as [E|E].
    + apply iterate_last. unfold read. fold d. apply length_zero_iff_nil in E. rewrite E. cbn. by rewrite app_nil_r, Z.add_0_r.
    + set (c := take 1024 d). assert (Hc : (0 < length c)%nat) by (unfold c; rewrite length_take; lia).
      rewrite (iterate_next (S k) _ i n s (i + Z.of_nat (length c)) (s ++ c)).
      * assert (Ed : drop (pos + Z.to_nat (i + Z.of_nat (length c))) f = drop 1024 d).
        { unfold d. rewrite drop_drop. unfold c. rewrite length_take. fold d. destruct (decide (length d <= 1024)%nat) as [L|L].
          - rewrite !drop_ge; [done|unfold d in L; rewrite length_drop in L; lia|unfold d in *; rewrite length_drop in *; lia].
          - f_equal. lia. }
        rewrite IH; rewrite ?Ed.
        -- rewrite <- app_assoc. unfold c at 2. rewrite take_drop. f_equal.
           rewrite <- (take_drop 1024 d) at 2. rewrite length_app. fold c. lia.
        -- unfold c. rewrite length_take. unfold d. rewrite length_drop. lia.
        -- lia.
        -- rewrite length_app. rewrite <- (take_drop 1024 d) in Hr. rewrite length_app in Hr. fold c in Hr. lia.
      * unfold read. fold d c. replace (Z.of_nat (length c) <=? 0) with false by (symmetry; apply Z.leb_gt; lia).
        step (write_all_run c n s ltac:(unfold c; rewrite length_take; lia)). done.
Qed.

Lemma copy_file_run f pos n s : (length f <= pos + 1024 * n)%nat -> (0 < n)%nat ->
  Z.of_nat (length s + length (drop pos f)) <= room ->
  copy_file f pos (S n) s = Done (Z.of_nat (length (drop pos f))) (s ++ drop pos f).
Proof.
  intros Hf Hn Hr. pose proof (copy_loop_run f pos (S n) n 0 s) as H. change (Z.to_nat 0) with 0%nat in H.
  rewrite Nat.add_0_r in H. exact (H ltac:(lia) ltac:(lia) Hr).
Qed.

(** At most two pieces fill the setup sectors. *)
Lemma pad_setup_run i n s : 0 <= i <= 2048 -> Z.of_nat (length s) + (2048 - i) <= room ->
  pad_setup i (S (S (S n))) s = Done 2048 (s ++ replicate (Z.to_nat (2048 - i)) 0).
Proof.
  intros Hi Hr. unfold pad_setup, loop. change (SETUP_SECTS * 512) with 2048.
  assert (L : forall k s, iterate (S k) (fun i : Z =>
    if negb (i <? 2048) then ret (inr i) else
    let c := if 1024 <? 2048 - i then 1024 else 2048 - i in
    write_all (replicate (Z.to_nat c) 0) ;;;
    ret (inl (i + c))) 2048 (S (S (S n))) s = Done 2048 s) by (intros; by apply iterate_last).
  assert (O : forall k i s, 1024 <= i <= 2048 -> Z.of_nat (length s) + (2048 - i) <= room -> iterate (S (S k)) (fun i : Z =>
    if negb (i <? 2048) then ret (inr i) else
    let c := if 1024 <? 2048 - i then 1024 else 2048 - i in
    write_all (replicate (Z.to_nat c) 0) ;;;
    ret (inl (i + c))) i (S (S (S n))) s = Done 2048 (s ++ replicate (Z.to_nat (2048 - i)) 0)).
  { intros k j t Hj Ht. destruct (decide (j = 2048)) as [->|Hne].
    - rewrite (iterate_last _ _ _ _ _ 2048 t) by done. change (Z.to_nat (2048 - 2048)) with 0%nat. by rewrite app_nil_r.
    - rewrite (iterate_next (S k) _ j _ t 2048 (t ++ replicate (Z.to_nat (2048 - j)) 0)); [by rewrite L|].
      replace (j <? 2048) with true by (symmetry; apply Z.ltb_lt; lia). cbn [negb]. cbv zeta.
      replace (1024 <? 2048 - j) with false by (symmetry; apply Z.ltb_ge; lia).
      step (write_all_run (replicate (Z.to_nat (2048 - j)) 0) (S (S (S n))) t ltac:(rewrite length_replicate; lia)).
      unfold ret. do 2 f_equal. lia. }
  destruct (decide (1024 <= i)) as [H|H]; [apply O; lia|].
  rewrite (iterate_next (S (S n)) _ i _ s (i + 1024) (s ++ replicate 1024 0)).
  - rewrite O; [|lia|rewrite length_app, length_replicate; lia]. rewrite <- app_assoc, <- replicate_add. do 3 f_equal. lia.
  - replace (i <? 2048) with true by (symmetry; apply Z.ltb_lt; lia). cbn [negb]. cbv zeta.
    replace (1024 <? 2048 - i) with true by (symmetry; apply Z.ltb_lt; lia).
    by step (write_all_run (replicate (Z.to_nat 1024) 0) (S (S (S n))) s ltac:(rewrite length_replicate; lia)).
Qed.

(** The boot block with the root device in its place. *)
Lemma put_root_bytes b major minor : length b = 512%nat ->
  length (put_root b major minor) = 512%nat /\
  (forall i, i <> 508 -> i <> 509 -> byte_at (put_root b major minor) i = byte_at b i) /\
  word_at (put_root b major minor) 508 = u8 minor + 256 * u8 major.
Proof.
  intros H. unfold put_root. split; [unfold set_byte; by rewrite !arr_set_length|]. split.
  - intros i H1 H2. unfold byte_at, set_byte. by rewrite !arr_get_set_ne by done.
  - unfold word_at, byte_at, set_byte. change (508 + 1) with 509.
    rewrite arr_get_set_ne, !arr_get_set_eq by (rewrite ?arr_set_length; lia). done.
Qed.

(** C24. With a boot sector and setup of the right form, an allowed root device and
    room for the image, the tool succeeds, and its image is the boot sector with the
    number of the root device in bytes 508 and 509, where the kernel's ORIG_ROOT_DEV
    will find it; the setup code, filled up with zeros to its four sectors; and behind
    them the whole system. *)
Theorem build_lays_out (name boot setup system : string) (rest : list string) (bf sf kf : list Z) (major minor : Z) (n : nat) :
  (length rest <= 1)%nat -> (forall s, root_device rest n s = Done (major, minor) s) -> major = 0 \/ major = 2 \/ major = 3 ->
  file boot = Some bf -> file setup = Some sf -> file system = Some kf ->
  minix bf -> length bf = (32 + 512)%nat -> word_at (drop 32 bf) 510 = 0xAA55 ->
  minix sf -> (length sf <= 32 + 2048)%nat -> Z.of_nat (length kf) <= 0x30000 ->
  Z.of_nat (2560 + length kf) <= room -> (193 < n)%nat ->
  exists b, main (name :: boot :: setup :: system :: rest) n [] =
      Done 0 (b ++ (drop 32 sf ++ replicate (2080 - length sf) 0) ++ kf) /\
    length b = 512%nat /\ length (drop 32 sf ++ replicate (2080 - length sf) 0) = 2048%nat /\
    (forall i, i <> 508 -> i <> 509 -> byte_at b i = byte_at (drop 32 bf) i) /\
    word_at b 508 = u8 minor + 256 * u8 major.
Proof.
  intros Hrest Hroot Hmaj Hb Hs Hk Mb Lb Flag Ms Ls Lk Hroom Hn.
  assert (Ld : length (drop 32 bf) = 512%nat) by (rewrite length_drop; lia).
  destruct (put_root_bytes (drop 32 bf) major minor Ld) as (P1 & P2 & P3).
  exists (put_root (drop 32 bf) major minor). split; [|split; [done|split; [|done]]].
  2:{ rewrite length_app, length_replicate, length_drop. pose proof (mx_length _ Ms). lia. }
  destruct n as [|n]; [lia|]. unfold main. replace (1 <? Z.of_nat (length rest)) with false by (symmetry; apply Z.ltb_ge; lia).
  step (Hroot []). replace (negb (major =? 2) && negb (major =? 3) && negb (major =? 0)) with false
    by (destruct Hmaj as [-> | [-> | ->]]; done).
  assert (E1 : boot_block boot major minor (S n) [] = Done tt (put_root (drop 32 bf) major minor)).
  { unfold boot_block, open. rewrite Hb. step (@ret_run tool _ bf (S n) []). 
    step (check_header_run bf "Unable to read header of 'boot'" "Non-Minix header of 'boot'" "Illegal data segment in 'boot'"
    "Illegal bss in 'boot'" "Illegal symbol table in 'boot'" (S n) [] Mb).
    cbv zeta. unfold read. change (Z.to_nat MINIX_HEADER) with 32%nat. rewrite take_ge by lia. rewrite Ld, Flag. cbn [negb].
    change (negb (Z.of_nat 512 =? 512)) with false. change (negb (43605 =? 43605)) with false. cbv iota.
    rewrite write_all_run; [done|]. rewrite P1. cbn [length]. lia. }
  step E1. set (s1 := put_root (drop 32 bf) major minor) in *.
  assert (Lsf : length (drop 32 sf) = (length sf - 32)%nat) by apply length_drop.
  set (s2 := s1 ++ drop 32 sf ++ replicate (2080 - length sf) 0).
  assert (E2 : setup_block setup (S n) s1 = Done tt s2).
  { unfold setup_block, open. rewrite Hs. step (@ret_run tool _ sf (S n) s1).
    step (check_header_run sf "Unable to read header of 'setup'" "Non-Minix header of 'setup'" "Illegal data segment in 'setup'"
    "Illegal bss in 'setup'" "Illegal symbol table in 'setup'" (S n) s1 Ms).
    change (Z.to_nat MINIX_HEADER) with 32%nat. step (copy_file_run sf 32 n s1 ltac:(lia) ltac:(lia) ltac:(rewrite Lsf, P1; lia)).
    change (SETUP_SECTS * 512) with 2048. rewrite Lsf. replace (2048 <? Z.of_nat (length sf - 32)) with false by (symmetry; apply Z.ltb_ge; lia).
    destruct n as [|[|n]]; [lia|lia|].
    step (pad_setup_run (Z.of_nat (length sf - 32)) n (s1 ++ drop 32 sf) ltac:(lia) ltac:(rewrite length_app, Lsf, P1; lia)).
    unfold ret, s2. rewrite <- app_assoc. do 4 f_equal. pose proof (mx_length _ Ms). lia. }
  step E2.
  assert (L2 : length s2 = 2560%nat).
  { unfold s2. rewrite !length_app, length_replicate, Lsf, P1. pose proof (mx_length _ Ms). lia. }
  assert (E3 : system_block system (S n) s2 = Done tt (s2 ++ kf)).
  { unfold system_block, open. rewrite Hk. step (@ret_run tool _ kf (S n) s2).
    step (copy_file_run kf 0 n s2 ltac:(lia) ltac:(lia) ltac:(change (drop 0 kf) with kf; rewrite L2; lia)).
    change (drop 0 kf) with kf. change (SYS_SIZE * 16) with 0x30000.
    by replace (0x30000 <? Z.of_nat (length kf)) with false by (symmetry; apply Z.ltb_ge; lia). }
  step E3. unfold ret, s2. by rewrite !app_assoc.
Qed.
End Build.

(** A small kernel, for the root device 0x301. *)
Definition header : list Z := [0x01; 0x03; 0x10; 0x04; 32] ++ replicate 27 0.
Definition small_files (name : string) : option (list Z) :=
  if String.eqb name "boot" then Some (header ++ replicate 510 0x90 ++ [0x55; 0xAA])
  else if String.eqb name "setup" then Some (header ++ [1; 2; 3])
  else if String.eqb name "system" then Some [7; 8] else None.
Definition small_rdev (name : string) : option Z := if String.eqb name "/dev/hda1" then Some 0x301 else None.

Lemma minix_header l : minix (header ++ l).
Proof. split; try reflexivity. rewrite length_app. change (length header) with 32%nat. lia. Qed.

Lemma build_lays_out_witness :
  exists b, main small_files small_rdev 4096 ["build"; "boot"; "setup"; "system"; "/dev/hda1"]%string 194%nat [] =
      Done 0 (b ++ ([1; 2; 3] ++ replicate 2045 0) ++ [7; 8]) /\
    length b = 512%nat /\ length ([1; 2; 3] ++ replicate 2045 0) = 2048%nat /\
    (forall i, i <> 508 -> i <> 509 -> byte_at b i = byte_at (replicate 510 0x90 ++ [0x55; 0xAA]) i) /\
    word_at b 508 = u8 1 + 256 * u8 3.
Proof.
  apply (build_lays_out small_files small_rdev 4096 "build" "boot" "setup" "system" ["/dev/hda1"%string]
    (header ++ replicate 510 0x90 ++ [0x55; 0xAA]) (header ++ [1; 2; 3]) [7; 8] 3 1 194).
  - simpl. lia.
  - reflexivity.
  - right. right. reflexivity.
  - reflexivity.
  - reflexivity.
  - reflexivity.
  - apply minix_header.
  - reflexivity.
  - reflexivity.
  - apply minix_header.
  - vm_compute. lia.
  - vm_compute. discriminate.
  - vm_compute. discriminate.
  - lia.
Defined.
