(* ===== verification/FsInv.v ===== *)
(** * The file system keeps every [Kept] invariant

    The routines of the file system change the state only through the accessors and the
    routines of buffer.c that Kept.v covers, so they keep the invariant against any
    interference that does.  [sync_inodes], the knot of buffer.c and inode.c, is the
    premise the lemmas of Kept.v asked for. *)
From Stdlib Require Import ZArith Lia String.
From stdpp Require Import base list.
From S2P Require Import Prelude Resumption Memory KState Links Sched Preserve BlkDev Buffer Types Kept.
From S2P Require Import Super BlockProps Inode Errno Segment Tty TtyInv Namei Mount Open ReadWrite.

(** ** Device numbers and block sizes *)

Lemma dev_of_range i : 0 <= dev_of i < 65536.
Proof. apply u16_range. Qed.
Lemma sdev_of_range s : 0 <= sdev_of s < 65536.
Proof. apply u16_range. Qed.
Lemma zone_at_range i k : 0 <= zone_at i k < 65536.
Proof. apply u16_range. Qed.
#[export] Hint Resolve dev_of_range sdev_of_range zone_at_range u16_range : keeps.

Lemma store_d_inode_size d off i : length (store_d_inode d off i) = length d.
Proof.
  change (store_d_inode d off i) with (store_zones (d_fields d off i) (off + 14) i).
  rewrite store_zones_words, store_words_size. unfold d_fields. by autorewrite with block.
Qed.
#[export] Hint Rewrite store_d_inode_size : block.

Section Blocks.
Context {inv : kstate -> Prop} {Hinv : Kept inv}.

(** An assignment to the data of a buffer that keeps its size. *)
Lemma kept_bh_upd_block i (f : list Z -> list Z) :
  (forall d, length d = 1024%nat -> length (f d) = 1024%nat) ->
  keeps inv (bh_upd i (fun b => b <| b_data ::= f |>)).
Proof. intros H. apply kept_bh_upd. intros b Hb. repeat split. simpl. rewrite Hb. by apply H. Qed.

Lemma kept_bh_upd_block_set i (g : buffer_head -> list Z) :
  (forall b, length (b_data b) = 1024%nat -> length (g b) = 1024%nat) ->
  keeps inv (bh_upd i (fun b => b <| b_data := g b |>)).
Proof. intros H. apply kept_bh_upd. intros b Hb. repeat split. simpl. rewrite Hb. by apply H. Qed.

End Blocks.

Ltac block_size := intros ? ?; autorewrite with block; first [assumption | reflexivity].
#[export] Hint Extern 0 (keeps _ (bh_upd _ (fun b => b <| b_data ::= _ |>))) =>
  apply kept_bh_upd_block; block_size : keeps.
#[export] Hint Extern 0 (keeps _ (bh_upd _ (fun b => b <| b_data := _ |>))) =>
  apply kept_bh_upd_block_set; block_size : keeps.

Section Kept.
Context {inv : kstate -> Prop} {Hinv : Kept inv}.

(** ** Super.v *)

Lemma kept_wait_on_inode i : keeps inv (wait_on_inode i).
Proof. unfold wait_on_inode. keeps. Qed.
#[local] Hint Resolve kept_wait_on_inode : keeps.
Lemma kept_lock_inode i : keeps inv (lock_inode i).
Proof. unfold lock_inode. keeps. Qed.
Lemma kept_unlock_inode i : keeps inv (unlock_inode i).
Proof. unfold unlock_inode. keeps. Qed.
Lemma kept_invalidate_inodes dev : keeps inv (invalidate_inodes dev).
Proof. unfold invalidate_inodes. keeps. Qed.
Lemma kept_wait_on_super i : keeps inv (wait_on_super i).
Proof. unfold wait_on_super. keeps. Qed.
#[local] Hint Resolve kept_lock_inode kept_unlock_inode kept_invalidate_inodes kept_wait_on_super : keeps.
Lemma kept_lock_super i : keeps inv (lock_super i).
Proof. unfold lock_super. keeps. Qed.
Lemma kept_free_super i : keeps inv (free_super i).
Proof. unfold free_super. keeps. Qed.
Lemma kept_get_super dev : keeps inv (get_super dev).
Proof. unfold get_super. keeps. Qed.
Lemma kept_release_maps sb : keeps inv (release_maps sb).
Proof. unfold release_maps. keeps. Qed.
#[local] Hint Resolve kept_lock_super kept_free_super kept_get_super kept_release_maps : keeps.
Lemma kept_put_super dev : keeps inv (put_super dev).
Proof. unfold put_super. keeps. Qed.
#[local] Hint Resolve kept_put_super : keeps.

Section Drivers.
Context {driver : Driver} {Hdriver : DriverKeeps inv} {Hblocks : KeptBlocks inv}.

Lemma kept_floppy_change nr : keeps inv (floppy_change nr).
Proof. apply Hdriver. Qed.
#[local] Hint Resolve kept_floppy_change : keeps.
Lemma kept_check_disk_change dev : keeps inv (check_disk_change dev).
Proof. unfold check_disk_change. keeps. Qed.

(** ** Inode.v *)

Lemma kept_write_inode_with si inode :
  keeps inv si -> keeps inv (write_inode_with (Buffer.bread si) inode).
Proof.
  intros H. assert (Hb : forall i block, keeps inv (Buffer.bread si (dev_of i) block))
    by (intros; apply kept_bread; [done|apply dev_of_range]).
  unfold write_inode_with, copy_to_block. keeps.
Qed.

Lemma kept_sync_inodes : keeps inv sync_inodes.
Proof.
  apply keeps_knot. intros m Hm. pose proof (kept_write_inode_with m) as H.
  unfold sync_inodes_with. keeps.
Qed.
#[local] Hint Resolve kept_sync_inodes kept_ll_rw_block kept_getblk kept_bread kept_breada kept_bread_page
  kept_sync_dev kept_sys_sync : keeps.
Lemma kept_write_inode i : keeps inv (write_inode i).
Proof. apply kept_write_inode_with, kept_sync_inodes. Qed.
#[local] Hint Resolve kept_check_disk_change kept_write_inode : keeps.
Lemma kept_read_inode i : keeps inv (read_inode i).
Proof. unfold read_inode, copy_from_block. keeps. Qed.
#[local] Hint Resolve kept_read_inode : keeps.

Lemma kept_on_data bh f :
  (forall d, length d = 1024%nat -> length (f d).1 = 1024%nat) -> keeps inv (on_data bh f).
Proof.
  intros H. apply kept_bind_bh. intros b Hb. destruct (f (b_data b)) as [d r] eqn:E.
  apply keeps_bind; [|intros; apply keeps_ret]. apply kept_bh_upd_block_set. intros _ _.
  specialize (H _ Hb). by rewrite E in H.
Qed.
Lemma kept_set_bit bh j : keeps inv (on_data bh (set_bit j)).
Proof. apply kept_on_data. intros d Hd. simpl. by rewrite set_byte_size. Qed.
Lemma kept_clear_bit bh j : keeps inv (on_data bh (clear_bit j)).
Proof. apply kept_on_data. intros d Hd. simpl. by rewrite set_byte_size. Qed.
#[local] Hint Resolve kept_set_bit kept_clear_bit : keeps.

Lemma kept_free_block dev block : keeps inv (free_block dev block).
Proof. unfold free_block. keeps. Qed.
Lemma kept_scan_map m : keeps inv (scan_map m).
Proof. unfold scan_map. keeps. Qed.
#[local] Hint Resolve kept_free_block kept_scan_map : keeps.
Lemma kept_new_block dev : 0 <= dev < 65536 -> keeps inv (new_block dev).
Proof. intros H. unfold new_block. keeps. Qed.
Lemma kept_free_inode p : keeps inv (free_inode p).
Proof. unfold free_inode, zero_inode. keeps. Qed.
#[local] Hint Resolve kept_new_block kept_free_inode : keeps.
Lemma kept_alloc_zone i k c : keeps inv (alloc_zone i k c).
Proof. unfold alloc_zone. keeps. Qed.
Lemma kept_indirect i blk idx c : keeps inv (indirect i blk idx c).
Proof. unfold indirect. keeps. Qed.
#[local] Hint Resolve kept_alloc_zone kept_indirect : keeps.
Lemma kept_bmap' i block c : keeps inv (_bmap i block c).
Proof. unfold _bmap. keeps. Qed.
Lemma kept_bmap i block : keeps inv (bmap i block).
Proof. apply kept_bmap'. Qed.
Lemma kept_create_block i block : keeps inv (create_block i block).
Proof. apply kept_bmap'. Qed.
#[local] Hint Resolve kept_bmap kept_create_block : keeps.

Lemma kept_free_indirect free dev block :
  0 <= dev < 65536 -> (forall b, keeps inv (free b)) -> keeps inv (free_indirect free dev block).
Proof. intros H1 H2. unfold free_indirect, free_entries. keeps. Qed.
Lemma kept_free_ind dev block : 0 <= dev < 65536 -> keeps inv (free_ind dev block).
Proof. intros H. apply kept_free_indirect; [done|]. auto with keeps nocore. Qed.
Lemma kept_free_dind dev block : 0 <= dev < 65536 -> keeps inv (free_dind dev block).
Proof. intros H. apply kept_free_indirect; [done|]. intros b. by apply kept_free_ind. Qed.
#[local] Hint Resolve kept_free_ind kept_free_dind : keeps.
Lemma kept_truncate i : keeps inv (truncate i).
Proof. unfold truncate. keeps. Qed.
#[local] Hint Resolve kept_truncate : keeps.
Lemma kept_iput p : keeps inv (iput p).
Proof. unfold iput, drop_ref. keeps. Qed.
#[local] Hint Resolve kept_iput : keeps.
Lemma kept_get_empty_inode : keeps inv get_empty_inode.
Proof. unfold get_empty_inode, find_empty, set_last_inode, zero_inode. keeps. Qed.
#[local] Hint Resolve kept_get_empty_inode : keeps.
Lemma kept_get_pipe_inode : keeps inv get_pipe_inode.
Proof. unfold get_pipe_inode. keeps. Qed.
Lemma kept_iget dev nr : keeps inv (iget dev nr).
Proof. unfold iget, mounted_on. keeps. Qed.
Lemma kept_new_inode dev : keeps inv (new_inode dev).
Proof. unfold new_inode. keeps. Qed.
#[local] Hint Resolve kept_get_pipe_inode kept_iget kept_new_inode : keeps.

(** ** Namei.v *)

Lemma kept_permission i m : keeps inv (permission i m).
Proof. unfold permission. keeps. Qed.
Lemma kept_de_get de : keeps inv (de_get de).
Proof. unfold de_get. keeps. Qed.
Lemma kept_de_set_inode de nr : keeps inv (de_set_inode de nr).
Proof. unfold de_set_inode. keeps. Qed.
Lemma kept_de_set_name de k c : keeps inv (de_set_name de k c).
Proof. unfold de_set_name. keeps. Qed.
Lemma kept_set_dirt bh : keeps inv (set_dirt bh).
Proof. unfold set_dirt. keeps. Qed.
#[local] Hint Resolve kept_permission kept_de_get kept_de_set_inode kept_de_set_name kept_set_dirt : keeps.
Lemma kept_touch i f : (forall now x, inode_typed x -> inode_typed (f now x)) -> keeps inv (touch i f).
Proof. intros H. apply keeps_bind; [keeps|]. intros s. apply kept_ino_upd. intros _ x. apply H. Qed.
#[local] Hint Extern 1 (keeps _ (touch _ _)) => apply kept_touch; let H := fresh in intros ? ? H; exact H : keeps.
Lemma kept_dotdot dir name namelen : keeps inv (dotdot dir name namelen).
Proof. unfold dotdot. keeps. Qed.
#[local] Hint Resolve kept_dotdot : keeps.
Lemma kept_find_entry dir name namelen : keeps inv (find_entry dir name namelen).
Proof. unfold find_entry, find_step. keeps. Qed.
Lemma kept_add_entry dir name namelen : keeps inv (add_entry dir name namelen).
Proof. unfold add_entry, add_step, copy_name. keeps. Qed.
#[local] Hint Resolve kept_find_entry kept_add_entry : keeps.
Lemma kept_get_dir p : keeps inv (get_dir p).
Proof. unfold get_dir, is_live, component. keeps. Qed.
#[local] Hint Resolve kept_get_dir : keeps.
Lemma kept_dir_namei p : keeps inv (dir_namei p).
Proof. unfold dir_namei, base_name. keeps. Qed.
#[local] Hint Resolve kept_dir_namei : keeps.
Lemma kept_namei p : keeps inv (namei p).
Proof. unfold namei. keeps. Qed.
Lemma kept_open_namei p flag mode : keeps inv (open_namei p flag mode).
Proof. unfold open_namei, fail. keeps. Qed.
Lemma kept_parent p : keeps inv (parent p).
Proof. unfold parent. keeps. Qed.
#[local] Hint Resolve kept_namei kept_open_namei kept_parent : keeps.
Lemma kept_sys_mknod a b c : keeps inv (sys_mknod a b c).
Proof. unfold sys_mknod. keeps. Qed.
Lemma kept_sys_mkdir a b : keeps inv (sys_mkdir a b).
Proof. unfold sys_mkdir, dot_entries. keeps. Qed.
Lemma kept_empty_dir i : keeps inv (empty_dir i).
Proof. unfold empty_dir, empty_step. keeps. Qed.
#[local] Hint Resolve kept_empty_dir : keeps.
Lemma kept_sys_rmdir a : keeps inv (sys_rmdir a).
Proof. unfold sys_rmdir. keeps. Qed.
Lemma kept_sys_unlink a : keeps inv (sys_unlink a).
Proof. unfold sys_unlink. keeps. Qed.
Lemma kept_sys_link a b : keeps inv (sys_link a b).
Proof. unfold sys_link. keeps. Qed.

(** ** Mount.v *)

Lemma kept_sb_put_dev sb v : keeps inv (sb_put_dev sb v).
Proof. unfold sb_put_dev. keeps. Qed.
Lemma kept_set_imap sb i p : keeps inv (set_imap sb i p).
Proof. unfold set_imap. keeps. Qed.
Lemma kept_set_zmap sb i p : keeps inv (set_zmap sb i p).
Proof. unfold set_zmap. keeps. Qed.
Lemma kept_reserve_first m : keeps inv (reserve_first m).
Proof. unfold reserve_first. keeps. Qed.
Lemma kept_count_free m n : keeps inv (count_free m n).
Proof. unfold count_free. keeps. Qed.
Lemma kept_read_map sb dev block f put :
  0 <= dev < 65536 -> (forall i p, keeps inv (put i p)) -> keeps inv (read_map sb dev block f put).
Proof. intros H1 H2. unfold read_map. keeps. Qed.
#[local] Hint Resolve kept_sb_put_dev kept_set_imap kept_set_zmap kept_reserve_first kept_count_free kept_read_map : keeps.
Lemma kept_read_super dev : keeps inv (read_super dev).
Proof. unfold read_super, free_super_slot. keeps. Qed.
#[local] Hint Resolve kept_read_super : keeps.
Lemma kept_sys_umount a : keeps inv (sys_umount a).
Proof. unfold sys_umount. keeps. Qed.
Lemma kept_sys_mount a b c : keeps inv (sys_mount a b c).
Proof. unfold sys_mount. keeps. Qed.
Lemma kept_mount_root : keeps inv mount_root.
Proof. unfold mount_root. keeps. Qed.
Lemma kept_rd_load : keeps inv rd_load.
Proof. unfold rd_load, rd_store, set_rd_data. keeps. Qed.

End Drivers.
End Kept.
#[export] Hint Resolve kept_wait_on_inode kept_lock_inode kept_unlock_inode kept_invalidate_inodes
  kept_wait_on_super kept_lock_super kept_free_super kept_get_super kept_release_maps kept_put_super : keeps.
#[export] Hint Extern 1 (keeps _ (touch _ _)) => apply kept_touch; let H := fresh in intros ? ? H; exact H : keeps.
