(* ===== verification/KernelInv.v ===== *)
(** * Every way into the kernel keeps every [Kept] invariant, in any interleaving

    The rest of the routines, the system calls, the exceptions and the interrupts; and
    the theorem about the structure of the buffer cache, which is one such invariant. *)
From Stdlib Require Import ZArith Lia String.
From stdpp Require Import base list relations.
From S2P Require Import Prelude Resumption Memory KState Links Sched Preserve BlkDev Buffer Types Kept CacheQueues.
From S2P Require Import CacheInv Super Inode Errno Segment Tty TtyInv Namei Mount Open ReadWrite Fork Exit Exec SysCalls.
From S2P Require Import Hd Floppy Input DriverInv Setup PageFault Traps SystemCall SchedProps CacheProps BlockProps FsInv.

Section Kernel.
Context (image : Z -> Z -> Z) {inv : kstate -> Prop} {Hinv : Kept inv} {Hblocks : KeptBlocks inv}.
#[local] Hint Resolve kept_tty_read kept_tty_write kept_tty_ioctl : keeps.
#[local] Hint Resolve kept_sync_inodes kept_getblk kept_bread kept_breada kept_bread_page kept_sync_dev kept_sys_sync
  kept_check_disk_change kept_bmap kept_create_block kept_truncate kept_iput kept_get_pipe_inode
  kept_namei kept_open_namei
  kept_sys_mknod kept_sys_mkdir kept_sys_rmdir kept_sys_unlink kept_sys_link kept_sys_umount kept_sys_mount
  kept_set_dirt : keeps.

(** ** Open.v *)

Lemma kept_set_fd fd f : keeps inv (set_fd fd f).
Proof. unfold set_fd. keeps. Qed.
Lemma kept_clear_cloexec fd : keeps inv (clear_cloexec fd).
Proof. unfold clear_cloexec. keeps. Qed.
Lemma kept_free_file : keeps inv free_file.
Proof. unfold free_file. keeps. Qed.
Lemma kept_tty_pgrp_upd nr v : keeps inv (tty_pgrp_upd nr v).
Proof. unfold tty_pgrp_upd. keeps. Qed.
#[local] Hint Resolve kept_set_fd kept_clear_cloexec kept_free_file kept_tty_pgrp_upd : keeps.
Lemma kept_sys_utime a b : keeps inv (sys_utime a b).
Proof. unfold sys_utime. keeps. Qed.
Lemma kept_sys_access a b : keeps inv (sys_access a b).
Proof. unfold sys_access. keeps. Qed.
Lemma kept_change_dir g p a :
  (forall d t, task_typed t -> task_typed (p d t)) -> keeps inv (change_dir g p a).
Proof. intros H. unfold change_dir. keeps. apply kept_cur_upd. intros _ t. apply H. Qed.
Lemma kept_sys_chdir a : keeps inv (sys_chdir a).
Proof. unfold sys_chdir. apply kept_change_dir. intros d t H. exact H. Qed.
Lemma kept_sys_chroot a : keeps inv (sys_chroot a).
Proof. unfold sys_chroot. apply kept_change_dir. intros d t H. exact H. Qed.
Lemma kept_sys_chmod a b : keeps inv (sys_chmod a b).
Proof. unfold sys_chmod. keeps. Qed.
Lemma kept_sys_chown a b c : keeps inv (sys_chown a b c).
Proof. unfold sys_chown. keeps. Qed.
Lemma kept_open_tty i : keeps inv (open_tty i).
Proof. unfold open_tty. keeps. Qed.
#[local] Hint Resolve kept_open_tty : keeps.
Lemma kept_sys_open a b c : keeps inv (sys_open a b c).
Proof. unfold sys_open. keeps. Qed.
Lemma kept_sys_creat a b : keeps inv (sys_creat a b).
Proof. unfold sys_creat. apply kept_sys_open. Qed.
Lemma kept_sys_close a : keeps inv (sys_close a).
Proof. unfold sys_close. keeps. Qed.
Lemma kept_dupfd a b : keeps inv (dupfd a b).
Proof. unfold dupfd. keeps. Qed.
#[local] Hint Resolve kept_sys_close kept_dupfd : keeps.
Lemma kept_sys_dup2 a b : keeps inv (sys_dup2 a b).
Proof. unfold sys_dup2. keeps. Qed.
Lemma kept_sys_dup a : keeps inv (sys_dup a).
Proof. unfold sys_dup. apply kept_dupfd. Qed.
Lemma kept_sys_fcntl a b c : keeps inv (sys_fcntl a b c).
Proof. unfold sys_fcntl. keeps. Qed.
Lemma kept_cp_stat pad i a : keeps inv (cp_stat pad i a).
Proof. unfold cp_stat. keeps. Qed.
#[local] Hint Resolve kept_cp_stat : keeps.
Lemma kept_sys_stat pad a b : keeps inv (sys_stat pad a b).
Proof. unfold sys_stat. keeps. Qed.
Lemma kept_sys_fstat pad a b : keeps inv (sys_fstat pad a b).
Proof. unfold sys_fstat. keeps. Qed.
Lemma kept_sys_ioctl pad a b c : keeps inv (sys_ioctl pad a b c).
Proof. unfold sys_ioctl. keeps. Qed.

(** ** ReadWrite.v *)

Lemma kept_bh_to_user bh off buf n : keeps inv (bh_to_user bh off buf n).
Proof. unfold bh_to_user. keeps. Qed.
Lemma kept_zeros_to_user buf n : keeps inv (zeros_to_user buf n).
Proof. unfold zeros_to_user. keeps. Qed.
Lemma kept_user_to_bh bh off buf n : keeps inv (user_to_bh bh off buf n).
Proof. unfold user_to_bh. keeps. Qed.
Lemma kept_page_byte p off : keeps inv (page_byte p off).
Proof. apply keeps_gets. Qed.
Lemma kept_set_page_byte p off c : keeps inv (set_page_byte p off c).
Proof. apply kept_on_mm. Qed.
Lemma kept_file_pos f : keeps inv (file_pos f).
Proof. unfold file_pos. keeps. Qed.
Lemma kept_set_pos f v : keeps inv (set_pos f v).
Proof. unfold set_pos. keeps. Qed.
#[local] Hint Resolve kept_bh_to_user kept_zeros_to_user kept_user_to_bh kept_page_byte kept_set_page_byte
  kept_file_pos kept_set_pos : keeps.
#[local] Hint Resolve kept_sys_utime kept_sys_access kept_sys_chdir kept_sys_chroot kept_sys_chmod kept_sys_chown
  kept_sys_open kept_sys_creat kept_sys_dup2 kept_sys_dup kept_sys_fcntl kept_sys_stat kept_sys_fstat
  kept_sys_ioctl : keeps.
Lemma kept_file_read i f b c : keeps inv (file_read i f b c).
Proof. unfold file_read, file_read_step. keeps. Qed.
Lemma kept_file_write i f b c : keeps inv (file_write i f b c).
Proof. unfold file_write, file_write_step. keeps. Qed.
Lemma kept_block_write d f b c : 0 <= d < 65536 -> keeps inv (block_write d f b c).
Proof. intros H. unfold block_write, block_write_step. keeps. Qed.
Lemma kept_block_read d f b c : 0 <= d < 65536 -> keeps inv (block_read d f b c).
Proof. intros H. unfold block_read, block_read_step. keeps. Qed.
Lemma kept_rw_port rw b c f : keeps inv (rw_port rw b c f).
Proof. unfold rw_port, outb. keeps. Qed.
Lemma kept_rw_ttyx rw m b c f : keeps inv (rw_ttyx rw m b c f).
Proof. unfold rw_ttyx. keeps. Qed.
#[local] Hint Resolve kept_file_read kept_file_write kept_block_read kept_block_write kept_rw_port kept_rw_ttyx : keeps.
Lemma kept_rw_tty rw m b c f : keeps inv (rw_tty rw m b c f).
Proof. unfold rw_tty. keeps. Qed.
Lemma kept_rw_memory rw m b c f : keeps inv (rw_memory rw m b c f).
Proof. unfold rw_memory, rw_ram, rw_mem, rw_kmem. keeps. Qed.
Lemma kept_rw_char rw d b c f : keeps inv (rw_char rw d b c f).
Proof.
  unfold rw_char. destruct (8 <=? MAJOR d); [keeps|].
  destruct (arr_get crw_table (MAJOR d)) as [[g|]|] eqn:E; simpl; [|keeps..].
  refine (arr_get_Forall (fun o => forall g, o = Some g -> keeps inv (g rw (MINOR d) b c f)) _ _ _ _ E _ eq_refl).
  unfold crw_table. repeat constructor; intros ? [=]; subst;
    first [apply kept_rw_memory | apply kept_rw_ttyx | apply kept_rw_tty].
Qed.
#[local] Hint Resolve kept_rw_char : keeps.
Lemma kept_pipe_wait i room : keeps inv (pipe_wait i room).
Proof. unfold pipe_wait. keeps. Qed.
#[local] Hint Resolve kept_pipe_wait : keeps.
Lemma kept_read_pipe i b c : keeps inv (read_pipe i b c).
Proof. unfold read_pipe, read_pipe_step. keeps. Qed.
Lemma kept_write_pipe i b c : keeps inv (write_pipe i b c).
Proof. unfold write_pipe, write_pipe_step. keeps. Qed.
Lemma kept_take_files : keeps inv take_files.
Proof. unfold take_files. keeps. Qed.
Lemma kept_take_fds l : keeps inv (take_fds l).
Proof. unfold take_fds. keeps. Qed.
Lemma kept_put_files l : keeps inv (put_files l).
Proof. unfold put_files. keeps. Qed.
Lemma kept_put_fds l : keeps inv (put_fds l).
Proof. unfold put_fds. keeps. Qed.
#[local] Hint Resolve kept_read_pipe kept_write_pipe kept_take_files kept_take_fds kept_put_files kept_put_fds : keeps.
Lemma kept_sys_pipe a : keeps inv (sys_pipe a).
Proof. unfold sys_pipe. keeps. Qed.
Lemma kept_sys_lseek a b c : keeps inv (sys_lseek a b c).
Proof. unfold sys_lseek. keeps. Qed.
Lemma kept_sys_read a b c : keeps inv (sys_read a b c).
Proof. unfold sys_read. keeps. Qed.
Lemma kept_sys_write a b c : keeps inv (sys_write a b c).
Proof. unfold sys_write. keeps. Qed.
#[local] Hint Resolve kept_sys_pipe kept_sys_lseek kept_sys_read kept_sys_write : keeps.

(** ** Fork.v *)

Lemma kept_set_gdt i d : keeps inv (set_gdt i d).
Proof. unfold set_gdt. keeps. Qed.
#[local] Hint Resolve kept_set_gdt : keeps.
Lemma kept_copy_mem nr : keeps inv (copy_mem nr).
Proof. unfold copy_mem. keeps. Qed.
Lemma kept_share_inode p : keeps inv (share_inode p).
Proof. unfold share_inode. keeps. Qed.
#[local] Hint Resolve kept_copy_mem kept_share_inode : keeps.
Lemma kept_copy_process fninit nr r : keeps inv (copy_process fninit nr r).
Proof.
  unfold copy_process. apply keeps_bind; [keeps|]. intros p. destruct (negb (nz p)); [keeps|].
  apply kept_bind_cur. intros t Ht. apply keeps_bind; [keeps|]. intros s.
  apply keeps_bind; [apply kept_set_slot; exact Ht|]. keeps.
Qed.
Lemma kept_find_empty_process : keeps inv find_empty_process.
Proof. unfold find_empty_process, set_last_pid. keeps. Qed.
#[local] Hint Resolve kept_copy_process kept_find_empty_process : keeps.
Lemma kept_sys_fork fninit r : keeps inv (sys_fork fninit r).
Proof. unfold sys_fork. keeps. Qed.
#[local] Hint Resolve kept_sys_fork : keeps.

(** ** Exit.v *)

Lemma kept_release p : keeps inv (release p).
Proof. unfold release. keeps. Qed.
Lemma kept_send_sig a b c : keeps inv (send_sig a b c).
Proof. unfold send_sig. keeps. Qed.
#[local] Hint Resolve kept_release kept_send_sig : keeps.
Lemma kept_signal_tasks a b c : keeps inv (signal_tasks a b c).
Proof. unfold signal_tasks. keeps. Qed.
Lemma kept_signal_all a : keeps inv (signal_all a).
Proof. unfold signal_all. keeps. Qed.
Lemma kept_kill_session : keeps inv kill_session.
Proof. unfold kill_session. keeps. Qed.
#[local] Hint Resolve kept_signal_tasks kept_signal_all kept_kill_session : keeps.
Lemma kept_sys_kill a b : keeps inv (sys_kill a b).
Proof. unfold sys_kill. keeps. Qed.
Lemma kept_tell_father p : keeps inv (tell_father p).
Proof. unfold tell_father. keeps. Qed.
Lemma kept_orphan c : keeps inv (orphan c).
Proof. unfold orphan. keeps. Qed.
Lemma kept_close_files : keeps inv close_files.
Proof. unfold close_files. keeps. Qed.
Lemma kept_free_segments : keeps inv free_segments.
Proof. unfold free_segments. keeps. Qed.
#[local] Hint Resolve kept_sys_kill kept_tell_father kept_orphan kept_close_files kept_free_segments : keeps.
Lemma kept_do_exit code : keeps inv (do_exit code).
Proof. unfold do_exit. keeps. Qed.
Lemma kept_sys_exit code : keeps inv (sys_exit code).
Proof. unfold sys_exit. apply kept_do_exit. Qed.
Lemma kept_wait_scan a b c : keeps inv (wait_scan a b c).
Proof. unfold wait_scan. keeps. Qed.
#[local] Hint Resolve kept_do_exit kept_sys_exit kept_wait_scan : keeps.
Lemma kept_sys_waitpid a b c : keeps inv (sys_waitpid a b c).
Proof. unfold sys_waitpid. keeps. Qed.
#[local] Hint Resolve kept_sys_waitpid : keeps.

(** ** Exec.v *)

Lemma kept_set_fs v : keeps inv (set_fs v).
Proof. unfold set_fs. keeps. Qed.
Lemma kept_skip_string p : keeps inv (skip_string p).
Proof. unfold skip_string. keeps. Qed.
#[local] Hint Resolve kept_set_fs kept_skip_string : keeps.
Lemma kept_put_table p n table : keeps inv (put_table p n table).
Proof. unfold put_table. keeps. Qed.
#[local] Hint Resolve kept_put_table : keeps.
Lemma kept_create_tables p argc envc : keeps inv (create_tables p argc envc).
Proof. unfold create_tables. keeps. Qed.
Lemma kept_count argv : keeps inv (count argv).
Proof. unfold count. keeps. Qed.
Lemma kept_string_pointer src i : keeps inv (string_pointer src i).
Proof. destruct src; cbn [string_pointer]; keeps. Qed.
Lemma kept_string_byte src a : keeps inv (string_byte src a).
Proof. destruct src; cbn [string_byte]; keeps. Qed.
Lemma kept_step_down c : keeps inv (step_down c).
Proof. unfold step_down. keeps. Qed.
#[local] Hint Resolve kept_create_tables kept_count kept_string_pointer kept_string_byte kept_step_down : keeps.
Lemma kept_copy_down src a b c : keeps inv (copy_down src a b c).
Proof. unfold copy_down. keeps. Qed.
Lemma kept_string_end src a : keeps inv (string_end src a).
Proof. unfold string_end. keeps. Qed.
#[local] Hint Resolve kept_copy_down kept_string_end : keeps.
Lemma kept_copy_strings argc src page p : keeps inv (copy_strings argc src page p).
Proof. unfold copy_strings. keeps. Qed.
#[local] Hint Resolve kept_copy_strings : keeps.
Lemma kept_take_strings a b c d page p : keeps inv (take_strings a b c d page p).
Proof. unfold take_strings. keeps. Qed.
Lemma kept_change_ldt im n page : keeps inv (change_ldt im n page).
Proof. unfold change_ldt. keeps. Qed.
Lemma kept_exec_error1 A page e : keeps inv (@exec_error1 A page e).
Proof. unfold exec_error1, free_pages. keeps. Qed.
#[local] Hint Resolve kept_take_strings kept_change_ldt kept_exec_error1 : keeps.
Lemma kept_exec_error2 A i page e : keeps inv (@exec_error2 _ A i page e).
Proof. unfold exec_error2. keeps. Qed.
#[local] Hint Resolve kept_exec_error2 : keeps.
Lemma kept_run_script a b c d st data : keeps inv (run_script a b c d st data).
Proof. unfold run_script, get_fs. keeps. Qed.
Lemma kept_clear_handler i : keeps inv (cur_upd (fun t => t <| sigaction ::= fun l =>
  match arr_get l i with Some sa => arr_set l i (sa <| sa_handler := 0 |>) | None => l end |>)).
Proof.
  apply kept_cur_upd. intros _ t (H1 & H2). split; [|exact H2].
  change (length (match arr_get (sigaction t) i with Some sa => arr_set (sigaction t) i (sa <| sa_handler := 0 |>) | None => sigaction t end) = 32%nat).
  by destruct (arr_get (sigaction t) i); rewrite ?arr_set_length.
Qed.
#[local] Hint Resolve kept_clear_handler : keeps.
Lemma kept_enter_program im ex a b c d e f page : keeps inv (enter_program im ex a b c d e f page).
Proof. unfold enter_program. keeps. Qed.
#[local] Hint Resolve kept_run_script kept_enter_program : keeps.
Lemma kept_start_program im ex a b c d e st : keeps inv (start_program im ex a b c d e st).
Proof. unfold start_program. keeps. Qed.
#[local] Hint Resolve kept_start_program : keeps.
Lemma kept_exec_step im a b c d st : keeps inv (exec_step im a b c d st).
Proof. unfold exec_step. keeps. Qed.
#[local] Hint Resolve kept_exec_step : keeps.
Lemma kept_do_execve im r a b c : keeps inv (do_execve im r a b c).
Proof. unfold do_execve. keeps. Qed.
#[local] Hint Resolve kept_do_execve : keeps.

(** ** SysCalls.v *)

Lemma kept_set_action signum f : keeps inv (set_action signum f).
Proof. unfold set_action. keeps. Qed.
Lemma kept_save_old sa a : keeps inv (save_old sa a).
Proof. unfold save_old. keeps. Qed.
Lemma kept_get_new a : keeps inv (get_new a).
Proof. unfold get_new. keeps. Qed.
Lemma kept_put_longs l a : keeps inv (put_longs l a).
Proof. unfold put_longs. keeps. Qed.
#[local] Hint Resolve kept_set_action kept_save_old kept_get_new kept_put_longs : keeps.
Lemma kept_do_signal signr r : keeps inv (do_signal signr r).
Proof. unfold do_signal. keeps. Qed.
Lemma kept_sys_setreuid a b : keeps inv (sys_setreuid a b).
Proof. unfold sys_setreuid. keeps. Qed.
Lemma kept_sys_setregid a b : keeps inv (sys_setregid a b).
Proof. unfold sys_setregid. keeps. Qed.
#[local] Hint Resolve kept_do_signal kept_sys_setreuid kept_sys_setregid : keeps.

(** ** PageFault.v *)

Lemma kept_share_page a : keeps inv (share_page a).
Proof. unfold share_page. keeps. Qed.
Lemma kept_zero_tail p n : keeps inv (zero_tail p n).
Proof. unfold zero_tail. keeps. Qed.
#[local] Hint Resolve kept_share_page kept_zero_tail : keeps.
Lemma kept_do_no_page e a : keeps inv (do_no_page e a).
Proof. unfold do_no_page. keeps. Qed.

(** ** Setup.v *)

Lemma kept_read_partitions drive : 0 <= drive < 2 -> keeps inv (read_partitions drive).
Proof. intros H. assert (0 <= 0x300 + drive * 5 < 65536) by lia. unfold read_partitions, set_hd. keeps. Qed.
Lemma kept_partition_tables b : keeps inv (partition_tables (cmos_drives b)).
Proof.
  apply keeps_for_each_in. intros x Hx%zrange_elem. apply kept_read_partitions.
  revert Hx. unfold cmos_drives. destruct (nz _); [destruct (nz _)|]; lia.
Qed.
#[local] Hint Resolve kept_partition_tables kept_rd_load kept_mount_root : keeps.
Lemma kept_sys_setup a : keeps inv (sys_setup a).
Proof. unfold sys_setup, hd_get, info, set_hd_info, set_hd, set_NR_HD, CMOS_READ. keeps. Qed.
#[local] Hint Resolve kept_sys_setup : keeps.

(** ** SystemCall.v *)

Lemma kept_deliver_signal e r : keeps inv (deliver_signal e r).
Proof. unfold deliver_signal. keeps. Qed.
#[local] Hint Resolve kept_deliver_signal : keeps.

#[local] Hint Extern 1 (keeps _ (sleep_on _)) => apply kept_sleep_on : keeps.
Lemma kept_sys_execve r : keeps inv (sys_execve image r).
Proof. unfold sys_execve. keeps. Qed.
#[local] Hint Resolve kept_sys_execve : keeps.
Ltac short_call :=
  unfold sys_time, sys_getpid, sys_setuid, sys_getuid, sys_stime, sys_alarm, sys_pause, sys_nice, sys_times, sys_brk,
    sys_setgid, sys_getgid, sys_signal, sys_geteuid, sys_getegid, sys_setpgid, sys_uname, sys_umask, sys_ustat,
    sys_getppid, sys_getpgrp, sys_setsid, sys_sigaction, sys_sgetmask, sys_ssetmask, sys_break, sys_ptrace, sys_stty,
    sys_gtty, sys_ftime, sys_rename, sys_prof, sys_acct, sys_phys, sys_lock, sys_mpx, sys_ulimit, nosys; keeps.

Lemma kept_call fninit pad nr f r : arr_get (sys_call_table image fninit pad) nr = Some f -> keeps inv (f r).
Proof.
  intros E. refine (arr_get_Forall (fun f => forall r, keeps inv (f r)) _ _ _ _ E r).
  unfold sys_call_table. repeat (apply List.Forall_cons).
  all: try apply List.Forall_nil.
  all: intros r'; unfold call0, call1, call2, call3, call_regs.
  all: first [exact (kept_sys_execve r') | apply keeps_bind; [|intros; apply keeps_ret]].
  all: solve [auto with keeps nocore | short_call].
Qed.

Lemma kept_system_call fninit pad nr r : keeps inv (system_call image fninit pad nr r).
Proof.
  unfold system_call. destruct (nr_system_calls <=? u32 nr); [keeps|].
  destruct (arr_get (sys_call_table image fninit pad) (u32 nr)) as [f|] eqn:E; [|by intros n s Hi _].
  pose proof (kept_call _ _ _ _ r E) as Hf. intros n s Hi _. unfold bind at 1, deref. cbn [obind].
  assert (keeps inv (let! '(eax_, r) := f r in
    let! t := cur in when (negb (state t =? 0) || (counter t =? 0)) schedule ;;;
    let! ip_sp := deliver_signal eax_ r in ret (eax_, ip_sp))) as H by keeps.
  by apply H.
Qed.

(** ** The ways into the kernel *)

#[local] Hint Resolve kept_timer_fn kept_sysbeepstop kept_copy_to_cooked : keeps.

Lemma kept_run_timers : keeps inv (run_timers timer_fn).
Proof. unfold run_timers, timer_get. keeps. Qed.
Lemma kept_do_floppy_timer : keeps inv do_floppy_timer.
Proof. unfold do_floppy_timer, set_mon, set_moff, arr_upd, outb. keeps. Qed.
#[local] Hint Resolve kept_run_timers kept_do_floppy_timer : keeps.
Lemma kept_do_timer cpl : keeps inv (do_timer timer_fn sysbeepstop cpl).
Proof. unfold do_timer. keeps. Qed.
#[local] Hint Resolve kept_do_no_page kept_system_call kept_do_timer kept_hd_interrupt kept_floppy_interrupt : keeps.

Lemma kept_wake_sleeper q : keeps inv (wake_sleeper q).
Proof. apply kept_wake_task. Qed.
Lemma kept_kb_upd f : (forall c, chr_typed c -> chr_typed (f c)) -> keeps inv (kb_upd f).
Proof. intros H. apply kept_modify; [done|]. intros _ s. by apply typed_chr. Qed.
#[local] Hint Extern 1 (keeps _ (kb_upd _)) => apply kept_kb_upd; let H := fresh in intros ? H; exact H : keeps.
#[local] Hint Resolve kept_wake_sleeper : keeps.
Lemma kept_read_char ch port : keeps inv (read_char ch port).
Proof.
  unfold read_char, do_tty_interrupt. apply keeps_bind; [keeps|]. intros al. apply kept_bind_queue. intros q Hq.
  apply keeps_bind; [keeps|]. intros _. cbv zeta. apply keeps_bind; [|keeps].
  apply kept_queue_put. intros Hk. destruct (Hq Hk) as (H1 & H2 & H3).
  assert (H1' : length (arr_set (q_buf q) (q_head q) al) = 1024%nat) by by rewrite arr_set_length.
  destruct (_ =? _); [by split|]. split; [exact H1'|]. split; [apply INC_range|exact H3].
Qed.
Lemma kept_write_char_irq ch port : keeps inv (write_char_irq ch port).
Proof.
  unfold write_char_irq, write_buffer_empty. apply kept_bind_queue. intros q Hq. destruct (_ =? 0); [keeps|].
  apply keeps_bind; [keeps|]. intros _. apply keeps_bind; [keeps|]. intros c. apply keeps_bind; [keeps|]. intros _. cbv zeta.
  apply keeps_bind; [|keeps]. apply kept_queue_put. intros Hk. destruct (Hq Hk) as (H1 & H2 & H3 & H4).
  split; [exact H1|]. split; [exact H2|]. split; [apply INC_range|exact H4].
Qed.
#[local] Hint Resolve kept_read_char kept_write_char_irq : keeps.
Lemma kept_rs_int ch : keeps inv (rs_int ch).
Proof.
  unfold rs_int, modem_status, line_status. keeps.
Qed.
Lemma put_bytes_typed k : forall a b buf head tail, length buf = 1024%nat -> 0 <= head < 1024 ->
  let r := put_bytes k a b buf head tail in
  length r.1 = 1024%nat /\ match r.2 with Some h => 0 <= h < 1024 | None => True end.
Proof.
  induction k as [|k IH]; intros a b buf head tail Hb Hh; [done|]. cbn [put_bytes]. cbv zeta.
  assert (Hb' : length (arr_set buf head (u8 a)) = 1024%nat) by by rewrite arr_set_length.
  destruct (_ =? tail); [done|]. destruct (_ =? 0); [split; [done|apply INC_range]|]. apply IH; [done|apply INC_range].
Qed.
Lemma kept_put_queue a b : keeps inv (put_queue a b).
Proof.
  unfold put_queue. apply kept_bind_queue. intros q Hq.
  assert (H : known -> let r := put_bytes 8 a b (q_buf q) (q_head q) (q_tail q) in
    length r.1 = 1024%nat /\ match r.2 with Some h => 0 <= h < 1024 | None => True end).
  { intros Hk. apply put_bytes_typed; by apply Hq. }
  destruct (put_bytes 8 a b (q_buf q) (q_head q) (q_tail q)) as [buf [h|]]; cbn [fst snd] in H.
  - apply keeps_bind; [|keeps]. apply kept_queue_put. intros Hk. destruct (H Hk), (Hq Hk) as (_ & _ & H3). by split.
  - apply kept_queue_put. intros Hk. destruct (H Hk), (Hq Hk) as (_ & H2). by split.
Qed.
Lemma kept_set_leds : keeps inv set_leds.
Proof. unfold set_leds, kb_wait, kb_get. keeps. Qed.
#[local] Hint Resolve kept_rs_int kept_put_queue kept_set_leds : keeps.
Lemma kept_run_key ecx_ al k : keeps inv (run_key ecx_ al k).
Proof.
  unfold run_key, press, unpress, caps, cursor, cur_key, reboot, func, minus, do_self, kb_wait, kb_get, set_mode, set_leds_byte.
  keeps.
Qed.
#[local] Hint Resolve kept_run_key : keeps.
Lemma kept_keyboard_interrupt ecx_ : keeps inv (keyboard_interrupt ecx_).
Proof. unfold keyboard_interrupt, set_e0, do_tty_interrupt. keeps. Qed.
#[local] Hint Resolve kept_keyboard_interrupt : keeps.

Lemma kept_die_with str nr : keeps inv (die_with str nr).
Proof. unfold die_with. keeps. Qed.
#[local] Hint Resolve kept_die_with : keeps.
Lemma kept_back h f : keeps inv h -> keeps inv (back h f).
Proof. intros H. unfold back. keeps. Qed.
Lemma kept_back_signals h f : keeps inv h -> keeps inv (back_signals h f).
Proof. intros H. unfold back_signals. keeps. Qed.
Lemma kept_math_error : keeps inv math_error.
Proof. unfold math_error. keeps. Qed.
#[local] Hint Resolve kept_back kept_back_signals kept_math_error : keeps.

Lemma kept_routine fninit pad em name h f :
  routine_at image fninit pad em name = Some h -> keeps inv (h f).
Proof.
  unfold routine_at. intros E. apply fmap_Some in E as ([name' h'] & E & ->). apply find_some in E as [Hin _].
  apply list_elem_of_In in Hin. revert Hin. generalize (name', h') as p. apply Forall_forall.
  unfold routines. repeat (apply List.Forall_cons); [..|apply List.Forall_nil]; cbn [snd].
  all: unfold no_error_code, error_code, page_fault, irq13, device_not_available, timer_interrupt.
  all: lazymatch goal with |- keeps _ (back _ _) => apply kept_back | |- keeps _ (back_signals _ _) => apply kept_back_signals | _ => idtac end.
  all: unfold ignore_int, parallel_interrupt, math_emulate, math_state_restore, do_divide_error, do_int3, do_nmi,
    do_overflow, do_bounds, do_invalid_op, do_double_fault, do_coprocessor_segment_overrun, do_invalid_TSS,
    do_segment_not_present, do_stack_segment, do_general_protection, do_reserved; keeps.
  apply kept_system_call.
Qed.

(** A task that has entered the kernel through a vector of the interrupt table. *)
Record entry := mkEntry { e_fuel : nat; e_vector : Z; e_frame : trap_frame }.

Definition enter (fninit : list Z) (pad : Z) (em : bool) (v : Z) (f : trap_frame) : K unit :=
  interrupt image fninit pad em v f ;;; ret tt.

Lemma kept_enter fninit pad em v f : keeps inv (enter fninit pad em v f).
Proof.
  apply keeps_bind; [|intros; apply keeps_ret].
  intros n s Hi _. unfold interrupt, bind at 1, deref. destruct (arr_get (idt (k_sched s)) v) as [g|]; [|done]. cbn [obind].
  destruct (routine_at image fninit pad em (g_addr g)) as [h|] eqn:E; [|done].
  by apply (kept_routine _ _ _ _ h f E).
Qed.

Definition task_of (fninit : list Z) (pad : Z) (em : bool) (e : entry) : kstate -> outcome kstate unit :=
  enter fninit pad em (e_vector e) (e_frame e) (e_fuel e).

(** The ways into the kernel, in any interleaving, keep the invariant. *)
Lemma kept_pool fninit pad em (env : kstate -> kstate -> Prop) (entries : list entry) s s' ts' :
  (forall s s', env s s' -> inv s -> inv s') -> inv s ->
  rtc (pool_step env) (s, map (task_of fninit pad em) entries) (s', ts') -> inv s'.
Proof.
  intros Henv Hs Hst. apply (pool_invariant env any inv (s, _) (s', ts') Henv Hs) in Hst; [exact Hst|].
  apply Forall_map, Forall_true. intros [n v f] s0 H0. by apply kept_enter.
Qed.
End Kernel.

(** C1. Whatever system calls, exceptions, page faults and interrupts of the clock, the
    keyboard, the serial lines and the disks any number of tasks take through the
    interrupt table, however their kernel paths interleave, whatever the devices answer,
    and whatever user code does in between as long as they leave the buffer cache alone: at
    every scheduling point the cache is well-formed - one circular free list of all
    the buffers, the hash queues exactly as the hash function says, and no block in
    two buffers. *)
Theorem kernel_keeps_cache (image : Z -> Z -> Z) (fninit : list Z) (pad : Z) (em : bool) (env : kstate -> kstate -> Prop) (entries : list entry)
    (s s' : kstate) (ts' : list (kstate -> outcome kstate unit)) :
  (forall s s', env s s' -> cache_ok (k_cache s) -> cache_ok (k_cache s')) ->
  cache_ok (k_cache s) ->
  rtc (pool_step env) (s, map (task_of image fninit pad em) entries) (s', ts') ->
  cache_ok (k_cache s').
Proof.
  intros Henv Hs. exact (kept_pool (inv := cache_inv) image fninit pad em env entries s s' ts' Henv Hs).
Qed.

(** ** Two tasks on a small machine *)

Definition small_machine : kstate :=
  with_cache (fresh_cache (fun i => 0x9fc00 - 1024 * i) 4 (k_cache boot_k)) two_tasks
    <| k_sched ::= fun c => c <| idt := arr_set (idt (k_sched boot_k)) 0x80 (mkGate 0xef00 "system_call") |> |>.
Definition no_regs : pushed := mkPushed 0 0 0 0 0 0 0 0 0 0 0 0 0 0 0.

(** Task 0 waits in [pause]; task 1 then asks for a path name. *)
Definition call_entry (nr : Z) : entry := mkEntry 70 0x80 (mkTrap nr no_regs 0 0).
Definition two_entries : list entry := [call_entry 29; call_entry 36].
Definition two_kernel_paths := map (task_of (fun _ _ => 0) [] 0 false) two_entries.

(** Where an outcome leaves the machine, and how it goes on. *)
Definition state_of {A} (o : outcome kstate A) (d : kstate) : kstate :=
  match o with Done _ s | Panic _ s | Die _ s | Fault s | Sleep s _ => s | NoFuel => d end.
Definition rest_of {A} (o : outcome kstate A) : kstate -> outcome kstate A :=
  match o with Sleep _ k => k | _ => fun _ => NoFuel end.
Definition sleeps {A} (o : outcome kstate A) : bool := match o with Sleep _ _ => true | _ => false end.
Definition finishes {A} (o : outcome kstate A) : bool := match o with Done _ _ => true | _ => false end.

Lemma sleeps_eq {A} (o : outcome kstate A) d : sleeps o = true -> o = Sleep (state_of o d) (rest_of o).
Proof. by destruct o. Qed.
Lemma finishes_eq (o : outcome kstate unit) d : finishes o = true -> o = Done tt (state_of o d).
Proof. by destruct o as [[]| | | | |]. Qed.

Definition pause_task := task_of (fun _ _ => 0) [] 0 false (call_entry 29).
Definition sync_task := task_of (fun _ _ => 0) [] 0 false (call_entry 36).
Definition paused : kstate := state_of (pause_task small_machine) small_machine.

Lemma pause_sleeps : (pause_task small_machine) = Sleep paused (rest_of (pause_task small_machine)).
Proof. apply (sleeps_eq (pause_task small_machine) small_machine). vm_compute. reflexivity. Qed.
Lemma sync_finishes : (sync_task paused) = Done tt (state_of (sync_task paused) paused).
Proof. apply (finishes_eq (sync_task paused) paused). vm_compute. reflexivity. Qed.

Definition both_done : kstate := state_of (sync_task paused) paused.
Lemma two_paths_run : rtc (pool_step eq) (small_machine, two_kernel_paths) (both_done, [rest_of (pause_task small_machine)]).
Proof.
  change two_kernel_paths with [pause_task; sync_task]. apply (rtc_l _ _ (paused, [rest_of (pause_task small_machine); sync_task])).
  - apply (pool_resume eq small_machine [pause_task; sync_task] 0 pause_task paused (rest_of (pause_task small_machine)) eq_refl).
    exact pause_sleeps.
  - apply rtc_once. apply (pool_finish eq paused [rest_of (pause_task small_machine); sync_task] 1 sync_task both_done eq_refl).
    exact sync_finishes.
Qed.

Lemma kernel_keeps_cache_witness :
  rtc (pool_step eq) (small_machine, two_kernel_paths) (both_done, [rest_of (pause_task small_machine)]) /\
  current (k_sched both_done) = 1 /\ cache_ok (k_cache both_done).
Proof.
  split; [exact two_paths_run|]. split; [vm_compute; reflexivity|].
  apply (kernel_keeps_cache (fun _ _ => 0) [] 0 false eq two_entries
           small_machine both_done [rest_of (pause_task small_machine)]).
  - intros s1 s2 ->. exact (fun h => h).
  - exact (fresh_cache_ok (fun i => 0x9fc00 - 1024 * i) 4 (k_cache boot_k) ltac:(lia)).
  - exact two_paths_run.
Defined.
