(* ===== verification/TypesInv.v ===== *)
(** * The kernel keeps the types of its tables

    [typed] is a [Kept] invariant, so every way into the kernel keeps it, in any
    interleaving: arrays keep their declared lengths, the indices of the terminal queues
    and the number of the running task stay in range, and only tasks wait in queues. *)
From Stdlib Require Import ZArith Lia String.
From stdpp Require Import base list relations.
From S2P Require Import Prelude Resumption Memory KState Sched Preserve BlkDev Buffer Types Kept CacheQueues CacheProps SchedProps KernelInv.
From S2P Require Import DriverInv Hd Floppy Traps Fork Setup Tty TtyInv Main.

Lemma typed_bh_upd i f : (forall b, block_typed b -> block_typed (f b)) -> keeps typed (bh_upd i f).
Proof.
  intros Hf n s Hs _. unfold bh_upd, tab_upd, bind, tab_get, deref.
  destruct (arr_get (bhs (k_cache s)) i) as [b|] eqn:E; [|done]. cbn [obind]. split; [|done].
  apply typed_set_bh; [|exact Hs]. apply Hf. exact (typed_bh s i b Hs E).
Qed.

#[export] Instance typed_kept : Kept typed.
Proof.
  refine {| known := True |}.
  - done.
  - intros f s _ H Hs. by apply H.
  - intros s i b Hs E. apply (typed_bh s i b Hs E).
  - intros i f Hf. apply typed_bh_upd. intros b [H1 H2]. destruct (Hf b H1) as (_ & _ & _ & _ & _ & _ & H3 & H4).
    split; [by rewrite H3|by rewrite H4].
  - intros i w s Hw. by apply typed_bh_wait, Hw.
  - intros w s Hw. by apply typed_free_buffer_wait, Hw.
Defined.

(** ** getblk *)

Section Getblk.
Context {driver : Driver} {Hdriver : DriverKeeps typed} (sync_inodes : K unit) (Hsync : keeps typed sync_inodes).
#[local] Hint Extern 0 (keeps typed (bh_upd _ _)) => apply typed_bh_upd; intros ? Hb; exact Hb : keeps.

Lemma typed_set_hash dev block p : keeps typed (set_hash dev block p).
Proof.
  apply keeps_modify. intros s. apply typed_cache. intros c (H1 & H2). split; [|exact H2].
  etransitivity; [apply arr_set_length|exact H1].
Qed.
Lemma typed_set_free_list p : keeps typed (set_free_list p).
Proof. apply keeps_modify. intros s. apply typed_cache. intros c H. exact H. Qed.
#[local] Hint Resolve typed_set_hash typed_set_free_list : keeps.

Lemma typed_remove bh : keeps typed (remove_from_queues bh).
Proof. unfold remove_from_queues, get_hash. keeps. Qed.
Lemma typed_insert bh : keeps typed (insert_into_queues bh).
Proof. unfold insert_into_queues, get_hash. keeps. Qed.
#[local] Hint Resolve typed_remove typed_insert kept_wait_on_buffer kept_sync_dev kept_find_free Hsync : keeps.
Lemma typed_getblk dev block : keeps typed (getblk sync_inodes dev block).
Proof. unfold getblk, clean_buffer, rekey, find_buffer, get_hash. keeps. Qed.
End Getblk.

#[export] Instance typed_blocks {driver : Driver} {Hdriver : DriverKeeps typed} : KeptBlocks typed.
Proof. intros si dev block _ H. by apply typed_getblk. Qed.

(** ** main *)

Section Boot.
#[local] Hint Resolve kept_on_con : keeps.

Lemma typed_buffer_init e : keeps typed (buffer_init e).
Proof.
  apply keeps_modify. intros s. apply typed_cache. intros c (_ & _ & H). cbv zeta.
  split; [apply length_replicate|]. split; [|exact H].
  apply Forall_map, Forall_true. intros i. split; [apply length_replicate|exact I].
Qed.
Lemma typed_set_gdt i d : keeps typed (set_gdt i d).
Proof. unfold set_gdt. keeps. Qed.
#[local] Hint Resolve typed_buffer_init typed_set_gdt : keeps.

(** What [main] sets up has the types too. *)
Lemma typed_main drive_info ramdisk n s s' : typed s -> main drive_info ramdisk n s = Done tt s' -> typed s'.
Proof.
  assert (keeps typed (main drive_info ramdisk)) as H.
  { unfold main, trap_init, copy_drive_info, rd_init, set_rd_data, blk_dev_init, tty_init, con_irq, rs_init, init,
      time_init, sched_init, hd_init, floppy_init, set_trap_gate, set_intr_gate, set_system_gate, _set_gate, read_clock,
      clock_round, CMOS_READ.
    keeps. }
  intros Hs E. specialize (H n s Hs I). rewrite E in H. apply H.
Qed.
End Boot.

(** C3. Whatever system calls, exceptions, page faults and interrupts any number of tasks
    take through the interrupt table, however their kernel paths interleave, and whatever
    the devices answer and user code does in between as long as it does not touch the
    kernel's tables: at every scheduling point the state has the declared types - each
    table and each array in an entry has its declared length, heads and tails of the
    terminal queues are indices of their buffers, every buffer has 1024 bytes, the running
    task and whoever heads a wait queue are numbers of task slots. *)
Theorem kernel_keeps_types (image : Z -> Z -> Z) (fninit : list Z) (pad : Z) (em : bool) (env : kstate -> kstate -> Prop)
    (entries : list entry) (s s' : kstate) (ts' : list (kstate -> outcome kstate unit)) :
  (forall s s', env s s' -> typed s -> typed s') -> typed s ->
  rtc (pool_step env) (s, map (task_of image fninit pad em) entries) (s', ts') ->
  typed s'.
Proof. intros Henv Hs. exact (kept_pool image fninit pad em env entries s s' ts' Henv Hs). Qed.

(** ** The two tasks of KernelInv.v *)

Lemma typed_fresh_cache addr n c : cache_typed c -> cache_typed (fresh_cache addr n c).
Proof.
  intros (_ & _ & H). split; [apply length_replicate|]. split; [|exact H]. apply Forall_map, Forall_true. intros i. split; [apply length_replicate|exact I].
Qed.

Lemma typed_small : typed small_machine.
Proof.
  unfold small_machine, with_cache. apply (typed_cache (fun _ => fresh_cache (fun i => 0x9fc00 - 1024 * i) 4 (k_cache boot_k))).
  { intros _ _. apply typed_fresh_cache. apply typed_boot. }
  apply (typed_sched (fun c => c <| idt := arr_set (idt (k_sched boot_k)) 0x80 (mkGate 0xef00 "system_call") |>)).
  { intros c (H1 & H2 & H3 & H4 & H5 & H6 & H7 & _). do 7 (split; [assumption|]). reflexivity. }
  unfold two_tasks. do 2 (apply typed_slot; [repeat split|]). exact typed_boot.
Qed.

Lemma kernel_keeps_types_witness :
  rtc (pool_step eq) (small_machine, two_kernel_paths) (both_done, [rest_of (pause_task small_machine)]) /\
  current (k_sched both_done) = 1 /\ typed both_done.
Proof.
  split; [exact two_paths_run|]. split; [vm_compute; reflexivity|].
  apply (kernel_keeps_types (fun _ _ => 0) [] 0 false eq two_entries
           small_machine both_done [rest_of (pause_task small_machine)]).
  - intros s1 s2 ->. exact (fun h => h).
  - exact typed_small.
  - exact two_paths_run.
Defined.
